(* ===== verification/_CoqProject ===== *)
-Q . S2P
Prelude.v
Buf.v
Wire.v
VarInt.v
Codec.v
Position.v
Nbt.v
Slot.v
Negotiation.v
Frame.v
PacketIo.v
Auth.v
IpAddr.v
Routing.v
Failover.v
Queue.v
Throttle.v
ProxyProtocol.v
Cluster.v
Pipeline.v
Guard.v
Query.v
Pools.v
Reputation.v
Packets.v
Packets18.v
Chars.v
Utf8.v
Snbt.v
Packets16.v
Packets17.v
Packets112.v
Packets116.v
Packets119.v
Packets120.v
Packets121.v
Blocks.v
Modloader.v
RegistryTables.v
Registry.v
Families.v
RegistryData.v
Builders.v
Bridging.v
LoginPackets.v
Stream.v
Transfer.v
Commands.v
Proxy.v
Relay.v
Login.v
Float.v
Dimension.v
LimboPackets.v
Backend.v
Limbo.v
Identity.v
Cipher.v
Session.v
Status.v
Connection.v
Control.v
Plugins.v
Wasm.v
CrashReport.v
Counters.v
Collector.v
Analytics.v
PlayerStats.v
Accept.v
Watcher.v
VersionCheck.v
Telemetry.v
Realms.v
Coverage.v
Config.v
