(* ===== verification/Prelude.v ===== *)
(** * Kojacoord: a verified model of a Minecraft proxy

    Kojacoord accepts Minecraft clients of every protocol version from 1.6 up,
    authenticates them, chooses a backend server and relays packets between the
    two.  This library models the parts of it that decide what is read, written,
    believed and chosen, as executable definitions, and proves what makes them
    correct.

    ** How the program is put together

    At start-up the configuration is loaded and its secrets are checked; the accept
    loop then gives every TCP connection a task, and a connection passes, in this
    order:
    - the connection throttle and the IP reputation filter;
    - the PROXY-protocol reader, when the proxy sits behind a balancer;
    - packet framing on the socket (or the netty-style frame codec and pipeline),
      which frames, compresses, decrypts and hands out packet bodies;
    - the primitive codecs, out of which every typed packet is made;
    - version negotiation, which maps the announced protocol number to a known
      version and its features;
    - the login state machine, which ends in an authenticated profile;
    - routing, which picks a backend by rules, groups and regions from the
      registry whose health the prober maintains and whose failover groups move
      between members; a full backend has a waiting queue;
    - the relay: one task per direction and one for injected packets, which share
      the client socket, the session table and the server registry; it answers the
      proxy's own commands, strips chat signatures and synthesises a configuration
      phase where client and backend differ, and hands the player on when it ends;
    - limbo, a made-up world in which a player waits for a backend or a free place;
    - the session loop, which strings relay legs, kicks and switches together until
      the player is gone.
    Plugins, WebAssembly guests behind a manager, act on the shared state through
    answers, packet hooks and commands.  Beside it run the UDP query responder, the
    management port and the gRPC control plane, metrics and crash reports, the bridge
    to Realms and, between several proxies, leader election.

    ** Files

    - [Prelude]: machine integers, bytes, outcomes ([Ok], [Err], [Panic], and
      [NoFuel] for a recursion bound of the model), the state-and-error monad [M],
      first minima, logs that keep their last entries.
    - [Buf]: the [bytes] crate's cursors, and the calculus of the codec proofs:
      [writes], [reads], [guarded], [total], [consuming].
    - [Wire]: [ProtocolError] (protocol/error.rs), [codec] pairs and the contract
      [Lawful] that every pair is held to; clients are proved against it.
    - [VarInt]: protocol/types/var_int.rs, var_long.rs.
    - [Codec]: protocol/codec.rs, with UTF-8 validation.
    - [Position], [Nbt], [Slot]: protocol/types/position.rs, nbt.rs, slot.rs.
    - [Negotiation]: protocol/negotiation.rs.
    - [Frame]: netty/frame.rs, cipher.rs.
    - [PacketIo]: proxy-core/net/packet_io.rs, error.rs.
    - [Auth]: auth/pipeline.rs, session.rs, offline.rs, error.rs, forwarding.rs.
    - [IpAddr]: the standard library's address parser, used below.
    - [Routing]: proxy-core/routing.rs, server.rs, region_selector.rs.
    - [Failover]: proxy-core/health_probe.rs, failover.rs.
    - [Queue]: proxy-core/net/queue.rs.
    - [Throttle]: proxy-core/net/connection_throttle.rs,
      plugin_channel_rate_limit.rs.
    - [ProxyProtocol]: proxy-core/net/proxy_protocol.rs.
    - [Cluster]: cluster/node.rs, discovery.rs, coordination.rs, load_balancer.rs.
    - [Pipeline]: netty/pipeline.rs, handlers.rs, error.rs.
    - [Guard]: proxy-core/features/exploit_guard.rs.
    - [Query]: proxy-core/net/query.rs.
    - [Pools]: proxy-core/buffer_pool.rs, net/connection_pool.rs.
    - [Reputation]: proxy-core/net/ip_reputation.rs.
    - [Chars], [Utf8]: characters and their encoding; [Snbt]: protocol/types/nbt_snbt.rs.
    - [Packets]: the field codecs the typed packets share, and their automation;
      [Packets16], [Packets17], [Packets18], [Packets112], [Packets116],
      [Packets119], [Packets120], [Packets121]: protocol/versions/v1_*_x, one file
      per family; [Families]: all of them as one list with their ids.
    - [RegistryTables], [Registry]: protocol/registry.rs and the id tables;
      [RegistryData]: proxy-core/net/registry_data.rs.
    - [Blocks]: the block tables; [Modloader]: proxy-core/net/modloader.rs,
      plugin_decoder.rs.
    - [Builders]: proxy-core/net/packet_builder.rs, packet_ids.rs and the JSON to NBT
      conversion; [LoginPackets]: net/login_packets.rs.
    - [Bridging]: proxy-core/config_synthesis.rs, chat_signing.rs,
      cookies_transfers.rs, resource_pack.rs.
    - [Stream]: the streams of proxy-core/net/connection.rs.
    - [Transfer], [Commands]: proxy-core/features/transfer.rs, server_selector.rs,
      commands.rs, session.rs.
    - [Proxy]: proxy-core/proxy.rs; [Relay]: proxy-core/net/relay.rs.
    - [Login]: the encryption exchange and the backend handshake of
      proxy-core/net/connection.rs.
    - [Float]: the binary32 and binary64 arithmetic the packets use; [Dimension]:
      protocol/dimension_codec.rs and proxy-core/protocol/dimension_codec.rs;
      [LimboPackets]: proxy-core/net/limbo_packets.
    - [Limbo]: proxy-core/net/limbo.rs; [Backend]: the login, configuration phase and
      world switch of a backend leg, [Session]: the session loop around them,
      [Connection]: the way from the first byte to an accepted login, [Status]: the
      answers to pings, all of proxy-core/net/connection.rs.
    - [Identity]: auth/mojang_lookup.rs, property_sig.rs; [Cipher]:
      proxy-core/security/encryption.rs.
    - [Plugins]: plugin-system/manager.rs, sandbox.rs, integrity.rs, api.rs; [Wasm]:
      plugin-system/wasm_loader.rs.
    - [Control]: proxy-core/services/server_management.rs, control_plane.
    - [CrashReport], [Counters], [PlayerStats], [VersionCheck], [Telemetry]:
      proxy-core/crash_report.rs, metrics.rs, metrics_player.rs, version_check.rs,
      telemetry.rs; [Collector], [Analytics]: metrics/collector.rs, analytics.rs.
    - [Accept], [Watcher]: the accept loop and the plugin watcher of proxy.rs.
    - [Realms]: proxy-core/realms; [Coverage]: proxy-core/protocol/coverage.rs.
    - [Config]: config/lib.rs with default_config.toml, and the start-up in
      src/main.rs.
    (Paths are under src/crates/<crate>/src.)

    ** How code becomes definitions

    A function keeps its name, with its type or module in front where two would
    collide ([Nbt_decode], [queue_remove]).  A [&mut] cursor or buffer is the state
    of [M], so what an early return leaves behind is modelled.  Integers are [Z]
    kept at their width by [wrapu] and [wraps] wherever the code casts or its
    arithmetic can wrap.  A [&str] or [String] is its UTF-8 bytes.  Floats on the
    wire are their bit patterns; the token buckets of [Throttle] compute in single
    precision, as integers in units of 2^-149 with explicit rounding.  A [HashMap]
    or [DashMap] is a finite map, or the list of its entries where iteration order
    can be observed, and the theorems then hold for every order.  Methods that hold
    one lock for their whole body are atomic steps, so concurrent callers are
    sequences of steps; time and randomness are arguments.  Log output is left out.

    ** Libraries as parameters

    What the code calls but does not contain is an argument: zlib ([deflate],
    [inflate], with inflation undoing deflation as the hypothesis of the round
    trips), the stream cipher (the class [StreamCipher] of [Frame]), RSA, SHA-1,
    MD5, HMAC, the AEADs of [Cipher], HTTP, JSON, TOML and UUID text, GeoIP, the
    network type of [ipnet], the answers of Redis.  A WebAssembly guest is a finite
    tree of host calls and memory writes, so every guest that ends is covered.  Every theorem with such a
    hypothesis has a witness with a concrete function.

    ** Bounds

    The VarInt writers have fuel for the 5 and 10 groups a value can have, the
    readers one more than that, where they fail by themselves; the NBT reader gets
    its fuel from the length of the input, and [nbt_decode_safe] shows it is never
    exhausted; the PROXY line loop runs for the room left in its 512-byte buffer, as
    in the code; the SNBT parser has fuel for twice the length of the text and two,
    and [parse_snbt_returns] shows it always returns; numbers are printed with 20
    digits, enough for 64 bits.  Loops over a stream (limbo, the backend login, the
    login to a realm) have fuel from the bytes still to come, of which every turn
    takes at least one; the session loop has one turn for each leg that happens and
    one more; the search for a module's manifest and the redaction of a text have
    their length.  [backend_login_returns], [realm_login_returns] and
    [redaction_complete] show that they return.  No theorem depends on fuel running
    out.

    ** What is shown

    - Wire formats: what is written is read back ([VarInt_roundtrip],
      [nbt_roundtrip], [snbt_roundtrip], [typed_packets_roundtrip] for every typed
      packet of every family); decoders of untrusted bytes return, never
      panic and only consume a prefix ([VarInt_decode_outcomes], [nbt_decode_safe],
      [typed_decoders_safe], [parse_snbt_returns], [parse_snbt_typed]).
    - Packet ids: [packet_ids_unambiguous], [registry_lookup]; packets built by hand
      have the documented layout ([system_message_readable],
      [login_success_by_version], [configuration_synthesised]).
    - Connections and sessions: whoever is let in is vouched for ([session_vouched],
      [refused_before_registered], [first_byte_dispatch], [properties_all_signed]);
      over a whole session the player counts stay true ([session_census]); a backend
      leg ends, carries the configuration phase and rebuilds the world
      ([backend_login_returns], [backend_login_dialogue], [config_phase_relayed],
      [identity_only_when_configured], [switch_rebuilds_world]); queues drain through
      limbo ([limbo_queue_drains], [limbo_admission], [limbo_in_step],
      [limbo_discard_agrees]).
    - Plugins: what may run and what it may reach ([unverified_never_runs],
      [permissions_enforced], [network_needs_permission], [imports_confined],
      [inbox_bounded]); what the manager keeps ([activity_exact],
      [unload_undoes_load], [first_claim_wins], [broadcast_veto],
      [guest_receives_event], [custom_section_found]).
    - Operation: [management_needs_token], [management_census],
      [control_plane_guarded], [connection_accounting], [blocked_never_served],
      [redaction_complete], [trail_is_recent], [series_bounded], [analytics_exact],
      [eviction_exact], [reloads_exact], [update_notice_exact]; ciphers between nodes
      ([generated_key_roundtrip], [nonces_never_repeat]); the bridge to Realms
      ([realm_packet_roundtrip], [realm_stream_faithful], [realm_login_returns],
      [realm_login_discreet], [realm_join_polls]); the configuration
      ([loaded_config_typed], [saved_config_reloads], [secrets_in_use_strong],
      [server_id_stable]).
    - The waiting world: the chunks and positions limbo sends are read by the layout
      of the client's protocol ([void_chunk_readable], [limbo_position_readable],
      [limbo_ids_unambiguous]); dimension descriptions agree with their registry
      ([inline_dimension_faithful], [dimension_codec_consistent]).
    - Transport: frames survive any cutting of the stream, encrypted or not
      ([frames_survive_chunking], [frame_decode_safe]); socket packets survive
      compression and stay within limits ([packet_io_roundtrip], [reading_bounded],
      [typed_packet_roundtrip], [pre_netty_relay_verbatim]); pipelines of self-inverse
      handlers are transparent ([pipeline_roundtrip]); buffers are clean and bounded
      ([buffer_pool_safe]).
    - Versions: the table, its predicates and the nearest version
      ([version_table_consistent], [predicates_are_boundaries], [nearest_closest]).
    - Identity: no login without its checks ([login_success_justified]), the digest
      and URL sent to the session server ([java_hex_signed],
      [session_query_wellformed]), the forwarded profile ([velocity_header_roundtrip]),
      which no announced address can forge ([forwarding_not_forged]).
    - Selection: globs, CIDR, rules, groups ([glob_match_correct],
      [cidr_matches_spec], [select_for_spec], [group_selection]), failover
      ([failover_safe]), queues refining one FIFO per server ([queue_refines_fifo],
      [queue_no_overtaking]), elections ([leader_election]).
    - Admission: the throttle in all reachable states ([throttle_never_evicts],
      [throttle_ban_cycle]), reputation ([reputation_fails_open]), trust in announced
      addresses ([proxy_trust], [proxy_headers_understood]), the packet-rate ceiling
      ([guard_rate_limits]), queries that cannot be reflected ([query_no_reflection]).
    - Streams: what the peer decrypts is what was written, in order
      ([encrypted_stream_faithful], [write_progress], [reads_in_order]).
    - The relay and the shared state: batching writes changes no byte
      ([batching_transparent]); chat stays where it belongs ([chat_containment],
      [chat_signature_stripped], [proxy_commands_kept], [command_switch_safe]);
      player counts are the number of sessions ([census_invariant],
      [relay_census]); evacuation, broadcast, reload ([deregister_evacuates],
      [broadcast_reaches_all], [reload_spec]); limits ([cookies_bounded],
      [serverlist_cooldown], [tps_counts_window]).
    Some theorems record behaviour a reader might not expect: [nbt_skip_panics],
    [nested_lists_bypass_depth], [malformed_length_stalls],
    [empty_packet_threshold_zero], [VarLong_drops_high_bits], [failover_gets_stuck],
    [routing_ignores_health], [departed_leader_not_replaced],
    [initialize_elects_nobody], [announced_length_ignored], [registry_gaps],
    [chat_id_missing], [bc_string_cut], [tab_after_command],
    [batched_packet_stalls], [refusal_wrapped_twice],
    [reregistered_server_is_full], [reload_ignores_limit],
    [limbo_builder_misplaced], [request_length_saturates], [switch_misreads_1_8],
    [login_success_panics], [departed_player_blocks_queue], [last_place_taken_twice],
    [limbo_poll_loses_bytes], [limbo_kick_misframed], [waiting_player_never_leaves],
    [failed_switch_keeps_count], [words_after_relay_lost], [limbo_counts_elsewhere],
    [legacy_login_unverified], [optional_header_eats_handshake],
    [long_host_taken_for_ping], [short_ping_panics], [legacy_ping_shows_defaults],
    [reload_forgotten], [copies_share_nonces], [custom_registration_unusable],
    [modification_lost], [renamed_plugin_keeps_hooks], [guest_hooks_inert],
    [commands_unchecked], [refused_plugin_ran], [bad_registration_deregisters],
    [transfer_to_nowhere], [sentence_end_leaks], [label_moves],
    [active_player_evicted], [panic_stays_active], [accept_error_is_final],
    [first_scan_is_baseline], [prerelease_announced], [negative_length_panics],
    [unencrypted_realm_accepted], [percentage_overcounts], [first_start_refused],
    [accepted_licence_saves_all], [absent_section_differs], [word_in_secret_refused].

    ** What is not modelled

    The construction of the shared state, timers and signal handlers in proxy.rs and
    main.rs, logging and log rotation: glue around operations that are modelled.
    The Microsoft login (microsoft.rs), the metrics exporter and reports, TLS and the
    metrics stream of the control plane: exchanges carried out by libraries.
    wasmtime, and the guest side of the plugins (plugin-abi, plugin-sdk).  The code
    generators and build scripts, and the data declarations of the api crate.  The
    texts of log messages and of most errors. *)
From Stdlib Require Import ZArith Lia Strings.Byte.
From stdpp Require Import base list numbers countable strings.

Declare Scope koja_scope.
Delimit Scope koja_scope with koja.
Open Scope koja_scope.
Local Open Scope Z_scope.

(** ** Machine integers *)

(** [z as uW]: reduction modulo [2^w]. *)
Definition wrapu (w z : Z) : Z := z mod 2 ^ w.

(** [z as iW]: the two's-complement reading of the low [w] bits. *)
Definition wraps (w z : Z) : Z := (z + 2 ^ (w - 1)) mod 2 ^ w - 2 ^ (w - 1).

Definition fits_u (w z : Z) : Prop := 0 <= z < 2 ^ w.
Definition fits_s (w z : Z) : Prop := - 2 ^ (w - 1) <= z < 2 ^ (w - 1).

#[export] Instance fits_u_dec w z : Decision (fits_u w z).
Proof. unfold fits_u. apply _. Defined.
#[export] Instance fits_s_dec w z : Decision (fits_s w z).
Proof. unfold fits_s. apply _. Defined.

(** Evaluates the powers of two of the standard widths, then [lia]. *)
Ltac width :=
  unfold fits_u, fits_s, wrapu, wraps in *;
  repeat match goal with
  | |- context [2 ^ ?k] =>
      let v := eval vm_compute in (2 ^ k) in
      lazymatch v with Zpos _ => change (2 ^ k) with v end
  | H : context [2 ^ ?k] |- _ =>
      let v := eval vm_compute in (2 ^ k) in
      lazymatch v with Zpos _ => change (2 ^ k) with v in H end
  end;
  try (Z.div_mod_to_equations; lia).

Lemma pow2_pos w : 0 <= w -> 0 < 2 ^ w.
Proof. intros; apply Z.pow_pos_nonneg; lia. Qed.

Lemma pow2_half w : 0 < w -> 2 ^ w = 2 * 2 ^ (w - 1).
Proof.
  intros. replace w with (1 + (w - 1)) at 1 by lia.
  rewrite Z.pow_add_r by lia. lia.
Qed.

Lemma wrapu_fits w z : 0 <= w -> fits_u w (wrapu w z).
Proof. intros. apply Z.mod_pos_bound, pow2_pos; lia. Qed.

Lemma wrapu_id w z : fits_u w z -> wrapu w z = z.
Proof. apply Z.mod_small. Qed.

Lemma wraps_fits w z : 0 < w -> fits_s w (wraps w z).
Proof.
  intros. unfold fits_s, wraps.
  pose proof (Z.mod_pos_bound (z + 2 ^ (w - 1)) (2 ^ w) (pow2_pos w ltac:(lia))).
  pose proof (pow2_half w). lia.
Qed.

Lemma wraps_id w z : 0 < w -> fits_s w z -> wraps w z = z.
Proof.
  intros Hw Hz. unfold fits_s, wraps in *. rewrite Z.mod_small; [lia|].
  pose proof (pow2_half w). lia.
Qed.

Lemma wraps_mod w z : 0 <= w -> wraps w (z mod 2 ^ w) = wraps w z.
Proof.
  intros. unfold wraps. f_equal.
  rewrite Zplus_mod_idemp_l. reflexivity.
Qed.

Lemma wraps_wrapu w z : 0 <= w -> wraps w (wrapu w z) = wraps w z.
Proof. apply wraps_mod. Qed.

Lemma wrapu_wraps w z : 0 <= w -> wrapu w (wraps w z) = wrapu w z.
Proof.
  intros. unfold wrapu, wraps.
  rewrite Zminus_mod_idemp_l. f_equal. lia.
Qed.

(** ** Bytes *)

Definition bz (b : byte) : Z := Z.of_N (Byte.to_N b).

Definition zb (z : Z) : byte :=
  match Byte.of_N (Z.to_N (z mod 256)) with Some b => b | None => x00 end.

Lemma bz_range b : 0 <= bz b < 256.
Proof.
  unfold bz. pose proof (Byte.to_N_bounded b).
  split; [lia|]. apply (N2Z.inj_le _ 255) in H. lia.
Qed.

Lemma zb_bz b : zb (bz b) = b.
Proof.
  unfold zb. pose proof (bz_range b). rewrite Z.mod_small by lia.
  unfold bz. rewrite N2Z.id, Byte.of_to_N. reflexivity.
Qed.

Lemma bz_zb z : bz (zb z) = z mod 256.
Proof.
  unfold zb. pose proof (Z.mod_pos_bound z 256 ltac:(lia)).
  destruct (Byte.of_N (Z.to_N (z mod 256))) as [b|] eqn:E.
  - apply Byte.to_of_N in E. unfold bz. rewrite E, Z2N.id; lia.
  - apply Byte.of_N_None_iff in E. lia.
Qed.

Lemma bz_inj a b : bz a = bz b -> a = b.
Proof. intros H. rewrite <- (zb_bz a), <- (zb_bz b), H. reflexivity. Qed.

#[export] Instance byte_eq_dec : EqDecision byte := Byte.byte_eq_dec.
#[export] Instance byte_countable : Countable byte.
Proof.
  refine (inj_countable' Byte.to_N (fun n => default x00 (Byte.of_N n)) _).
  intros b. rewrite Byte.of_to_N. reflexivity.
Defined.

(** Byte strings of the source ([&str], [String], [&[u8]], [Vec<u8>], [Bytes]). *)
Abbreviation bytes := (list byte).

(** The UTF-8 bytes of a string literal of the source. *)
Definition lit (s : string) : bytes := String.list_byte_of_string s.
(** The same, with double quotes written as single ones. *)
Definition quoted (s : string) : bytes := map (fun b => if bz b =? 0x27 then x22 else b) (lit s).

(** ** Outcomes *)

(** What running a piece of the program gives: a value, an error value of the
    source, a panic, or [NoFuel], which stands for no behaviour of the code but
    for a recursion bound of the model that was too small. *)
Inductive outcome (E A : Type) : Type :=
  | Ok (a : A)
  | Err (e : E)
  | Panic
  | NoFuel.
Arguments Ok {E A} a.
Arguments Err {E A} e.
Arguments Panic {E A}.
Arguments NoFuel {E A}.

(** The code returned, with a value or with an error. *)
Definition returned {E A} (o : outcome E A) : Prop :=
  match o with Ok _ | Err _ => True | Panic | NoFuel => False end.

Definition is_ok {E A} (o : outcome E A) : bool :=
  match o with Ok _ => true | _ => false end.

Definition map_err {E F A} (f : E -> F) (o : outcome E A) : outcome F A :=
  match o with Ok a => Ok a | Err e => Err (f e) | Panic => Panic | NoFuel => NoFuel end.

Lemma returned_map_err {E F A} (f : E -> F) (o : outcome E A) :
  returned (map_err f o) <-> returned o.
Proof. destruct o; reflexivity. Qed.

(** ** State and errors *)

(** Code that mutates an [S] and may return early: the state reached is kept on
    every outcome, as a [&mut] argument is. *)
Definition M (S E A : Type) : Type := S -> outcome E A * S.

Section Monad.
Context {S E : Type}.

Definition ret {A} (a : A) : M S E A := fun s => (Ok a, s).
Definition fail {A} (e : E) : M S E A := fun s => (Err e, s).
Definition panic {A} : M S E A := fun s => (Panic, s).
Definition nofuel {A} : M S E A := fun s => (NoFuel, s).
Definition get_state : M S E S := fun s => (Ok s, s).
Definition put_state (s : S) : M S E unit := fun _ => (Ok tt, s).

Definition bind {A B} (m : M S E A) (k : A -> M S E B) : M S E B := fun s =>
  match m s with
  | (Ok a, s') => k a s'
  | (Err e, s') => (Err e, s')
  | (Panic, s') => (Panic, s')
  | (NoFuel, s') => (NoFuel, s')
  end.

End Monad.

Arguments M : clear implicits.

Notation "'let!' x ':=' m 'in' k" := (bind m (fun x => k))
  (at level 10, x binder, m at level 100, k at level 200) : koja_scope.
Notation "m ;; k" := (bind m (fun _ => k)) : koja_scope.

Section MonadLaws.
Context {S E : Type}.

Lemma bind_ok {A B} (m : M S E A) (k : A -> M S E B) s a s' :
  m s = (Ok a, s') -> bind m k s = k a s'.
Proof. unfold bind. intros ->. reflexivity. Qed.

Lemma bind_err {A B} (m : M S E A) (k : A -> M S E B) s e s' :
  m s = (Err e, s') -> bind m k s = (Err e, s').
Proof. unfold bind. intros ->. reflexivity. Qed.

Lemma bind_ret_l {A B} (a : A) (k : A -> M S E B) s : bind (ret a) k s = k a s.
Proof. reflexivity. Qed.

Lemma bind_assoc {A B C} (m : M S E A) (k : A -> M S E B) (h : B -> M S E C) s :
  bind (bind m k) h s = bind m (fun a => bind (k a) h) s.
Proof. unfold bind. destruct (m s) as [[] ?]; reflexivity. Qed.

(** Inversion of a successful sequence. *)
Lemma bind_inv_ok {A B} (m : M S E A) (k : A -> M S E B) s b s' :
  bind m k s = (Ok b, s') -> exists a s1, m s = (Ok a, s1) /\ k a s1 = (Ok b, s').
Proof. unfold bind. destruct (m s) as [[] s1]; intros; simplify_eq; eauto. Qed.

End MonadLaws.

(** ** Lists *)

Lemma take_app_len {A} (l k : list A) n : n = length l -> take n (l ++ k) = l.
Proof. intros ->. apply take_app_length. Qed.

Lemma drop_app_len {A} (l k : list A) n : n = length l -> drop n (l ++ k) = k.
Proof. intros ->. apply drop_app_length. Qed.

(** ** Minima *)

(** [Iterator::min_by_key]: the first element of least key. *)
Fixpoint min_by_key {A} (key : A -> Z) (l : list A) : option A :=
  match l with
  | [] => None
  | x :: l' =>
      match min_by_key key l' with
      | None => Some x
      | Some y => if key x <=? key y then Some x else Some y
      end
  end.

Lemma min_by_key_spec {A} (key : A -> Z) l x : min_by_key key l = Some x ->
  exists l1 l2, l = l1 ++ x :: l2 /\
    Forall (fun y => key x < key y) l1 /\ Forall (fun y => key x <= key y) l2.
Proof.
  revert x. induction l as [|a l IH]; intros x; [done|]. cbn [min_by_key].
  destruct (min_by_key key l) as [y|] eqn:E.
  - destruct (IH y eq_refl) as (l1 & l2 & -> & H1 & H2).
    destruct (Z.leb_spec (key a) (key y)) as [Hle|Hgt]; intros [= <-].
    + exists [], (l1 ++ y :: l2). split_and!; [done|done|].
      apply Forall_app. split; [|apply Forall_cons; split; [done|]];
        eapply Forall_impl; try done; cbn; intros; lia.
    + exists (a :: l1), l2. split_and!; [done| |done]. by apply Forall_cons.
  - intros [= <-]. destruct l as [|b l].
    + exists [], []. auto.
    + cbn in E. destruct (min_by_key key l); [destruct (_ <=? _)|]; done.
Qed.

Lemma min_by_key_nonempty {A} (key : A -> Z) l : l <> [] -> exists x, min_by_key key l = Some x.
Proof. destruct l as [|a l]; [done|]. intros _. cbn. repeat case_match; eauto. Qed.

(** ** Bounded logs *)

(** The last [n] elements, as a log that drops its oldest entry keeps them. *)
Definition last_n {A} (n : nat) (l : list A) : list A := drop (length l - n) l.

Lemma length_last_n {A} n (l : list A) : length (last_n n l) = Nat.min n (length l).
Proof. unfold last_n. rewrite length_drop. lia. Qed.

Lemma tail_of_drop {A} k (l : list A) : tail (drop k l) = drop (S k) l.
Proof. revert l. induction k as [|k IH]; intros [|x l]; try done. cbn [drop]. by rewrite IH. Qed.

Lemma last_n_snoc {A} n (l : list A) x : (0 < n)%nat ->
  last_n n (l ++ [x]) = (if (n <=? length (last_n n l))%nat then tail (last_n n l) else last_n n l) ++ [x].
Proof.
  intros Hn. rewrite length_last_n. unfold last_n. rewrite length_app. cbn [length].
  destruct (Nat.leb_spec n (Nat.min n (length l))).
  - replace (length l + 1 - n)%nat with (S (length l - n)) by lia.
    rewrite drop_app_le by lia. f_equal. by rewrite tail_of_drop.
  - replace (length l + 1 - n)%nat with 0%nat by lia. replace (length l - n)%nat with 0%nat by lia. by rewrite !drop_0.
Qed.
