(* ===== verification/Buf.v ===== *)
(** * Byte buffers

    The cursor vocabulary every codec of the program is written in: [Bytes] and
    [BytesMut] are byte lists, [get_*] reads big-endian from the front and
    panics when too few bytes remain, [put_*] appends.  The second half is the
    calculus the codec proofs use: what a writer [writes], what a reader
    [reads], how many bytes must be there for it not to panic ([guarded]), and
    that a reader only ever removes a prefix ([consuming]). *)
From Stdlib Require Import ZArith Lia.
From stdpp Require Import base list numbers strings.
From S2P Require Import Prelude.
Local Open Scope Z_scope.

(** ** Big-endian integers *)

Fixpoint be_bytes (n : nat) (z : Z) : bytes :=
  match n with
  | O => []
  | S n' => zb (z / 256 ^ Z.of_nat n') :: be_bytes n' z
  end.

Definition be_val (bs : bytes) : Z := fold_left (fun acc b => acc * 256 + bz b) bs 0.

Lemma length_be_bytes n z : length (be_bytes n z) = n.
Proof. induction n; simpl; congruence. Qed.

Lemma be_val_acc bs : forall a,
  fold_left (fun acc b => acc * 256 + bz b) bs a = a * 256 ^ Z.of_nat (length bs) + be_val bs.
Proof.
  unfold be_val. induction bs as [|b bs IH]; intros a; cbn [fold_left length].
  - rewrite Z.pow_0_r. lia.
  - rewrite IH, (IH (0 * 256 + bz b)), Nat2Z.inj_succ, Z.pow_succ_r by lia. lia.
Qed.

Lemma be_val_cons b bs : be_val (b :: bs) = bz b * 256 ^ Z.of_nat (length bs) + be_val bs.
Proof. unfold be_val at 1. cbn [fold_left]. rewrite be_val_acc. lia. Qed.

Lemma be_val_range bs : 0 <= be_val bs < 256 ^ Z.of_nat (length bs).
Proof.
  induction bs as [|b bs IH]; [cbn; lia|].
  rewrite be_val_cons. cbn [length]. rewrite Nat2Z.inj_succ, Z.pow_succ_r by lia.
  pose proof (bz_range b). nia.
Qed.

Lemma be_val_bytes n z : be_val (be_bytes n z) = z mod 256 ^ Z.of_nat n.
Proof.
  induction n; [cbn; rewrite Z.mod_1_r; reflexivity|].
  cbn [be_bytes]. rewrite be_val_cons, length_be_bytes, IHn, bz_zb.
  rewrite Nat2Z.inj_succ, Z.pow_succ_r by lia.
  set (p := 256 ^ Z.of_nat n). assert (0 < p) by (apply Z.pow_pos_nonneg; lia).
  rewrite (Z.mul_comm 256 p), Z.rem_mul_r by lia. lia.
Qed.

Lemma pow256 n : 256 ^ Z.of_nat n = 2 ^ (8 * Z.of_nat n).
Proof. rewrite Z.pow_mul_r by lia. reflexivity. Qed.

Lemma be_val_inj bs : forall cs,
  length bs = length cs -> be_val bs = be_val cs -> bs = cs.
Proof.
  induction bs as [|b bs IH]; intros [|c cs] Hl Hv; simplify_eq/=; [done|].
  rewrite !be_val_cons, Hl in Hv.
  pose proof (be_val_range bs) as Hb. rewrite Hl in Hb. pose proof (be_val_range cs).
  set (p := 256 ^ Z.of_nat (length cs)) in *.
  assert (bz b = bz c) by nia. f_equal; [by apply bz_inj|]. apply IH; nia.
Qed.

Lemma be_bytes_val bs n : length bs = n -> be_bytes n (be_val bs) = bs.
Proof.
  intros Hn. apply be_val_inj; rewrite ?length_be_bytes; [done|].
  rewrite be_val_bytes, Z.mod_small; [done|]. rewrite <- Hn. apply be_val_range.
Qed.

(** ** Reading: [bytes::Buf] over a [Bytes] cursor *)

Section Reading.
Context {E : Type}.
Abbreviation R := (M bytes E).

Definition remaining (src : bytes) : Z := Z.of_nat (length src).
Definition is_empty (src : bytes) : bool := match src with [] => true | _ => false end.

(** The next [n] bytes; [Buf] panics when fewer remain. *)
Definition take_bytes (n : nat) : R bytes := fun src =>
  if (length src <? n)%nat then (Panic, src) else (Ok (take n src), drop n src).

Definition get_uint (n : nat) : R Z := let! bs := take_bytes n in ret (be_val bs).
Definition get_int (n : nat) : R Z := let! z := get_uint n in ret (wraps (8 * Z.of_nat n) z).

Definition get_u8 : R Z := get_uint 1.
Definition get_i8 : R Z := get_int 1.
Definition get_u16 : R Z := get_uint 2.
Definition get_i16 : R Z := get_int 2.
Definition get_u32 : R Z := get_uint 4.
Definition get_i32 : R Z := get_int 4.
Definition get_u64 : R Z := get_uint 8.
Definition get_i64 : R Z := get_int 8.
(** A float is its IEEE-754 bit pattern. *)
Definition get_f32 : R Z := get_uint 4.
Definition get_f64 : R Z := get_uint 8.

(** [copy_to_bytes], [copy_to_slice] and [split_to] with a [usize] count. *)
Definition copy_to_bytes (len : Z) : R bytes := take_bytes (Z.to_nat len).
Definition advance (len : Z) : R unit := let! _ := take_bytes (Z.to_nat len) in ret tt.

(** Returns [e] when fewer than [n] bytes remain. *)
Definition ensure (n : Z) (e : E) : R unit := fun src =>
  if remaining src <? n then (Err e, src) else (Ok tt, src).

End Reading.

(** ** Writing: [bytes::BufMut] over a [BytesMut] *)

Section Writing.
Context {E : Type}.
Abbreviation W := (M bytes E unit).

Definition put_slice (bs : bytes) : W := fun dst => (Ok tt, dst ++ bs).
Definition put_int (n : nat) (z : Z) : W := put_slice (be_bytes n z).
Definition put_u8 (z : Z) : W := put_int 1 z.
Definition put_i8 (z : Z) : W := put_int 1 z.
Definition put_u16 (z : Z) : W := put_int 2 z.
Definition put_i16 (z : Z) : W := put_int 2 z.
Definition put_u32 (z : Z) : W := put_int 4 z.
Definition put_i32 (z : Z) : W := put_int 4 z.
Definition put_u64 (z : Z) : W := put_int 8 z.
Definition put_i64 (z : Z) : W := put_int 8 z.
Definition put_f32 (z : Z) : W := put_int 4 z.
Definition put_f64 (z : Z) : W := put_int 8 z.

End Writing.

(** ** What writers write and readers read *)

Section Calculus.
Context {E : Type}.
Abbreviation R := (M bytes E).

(** [m] appends exactly [bs] and succeeds. *)
Definition writes (m : R unit) (bs : bytes) : Prop := forall dst, m dst = (Ok tt, dst ++ bs).

(** [m] returns [v] having consumed exactly [bs], whatever follows. *)
Definition reads {A} (m : R A) (bs : bytes) (v : A) : Prop :=
  forall rest, m (bs ++ rest) = (Ok v, rest).

(** [m] reads a whole buffer [bs], nothing following it. *)
Definition reads_all {A} (m : R A) (bs : bytes) (v : A) : Prop := m bs = (Ok v, []).

(** With [n] bytes available [m] returns instead of panicking. *)
Definition guarded {A} (n : nat) (m : R A) : Prop :=
  forall src, (n <= length src)%nat -> returned (m src).1.

(** [m] never panics, whatever it is given. *)
Definition total {A} (m : R A) : Prop := forall src, returned (m src).1.

(** [m] only removes a prefix of its buffer. *)
Definition consuming {A} (m : R A) : Prop := forall src, exists used, src = used ++ (m src).2.

Lemma total_guarded {A} n (m : R A) : total m -> guarded n m.
Proof. intros H src _. apply H. Qed.

Lemma guarded_total {A} (m : R A) : guarded 0 m -> total m.
Proof. intros H src. apply H. lia. Qed.

Lemma guarded_weaken {A} n k (m : R A) : guarded k m -> (k <= n)%nat -> guarded n m.
Proof. intros H ? src ?. apply H. lia. Qed.

Lemma writes_bind (m1 m2 : R unit) bs1 bs2 :
  writes m1 bs1 -> writes m2 bs2 -> writes (m1;; m2) (bs1 ++ bs2).
Proof. intros H1 H2 dst. unfold bind. rewrite H1, H2, app_assoc. reflexivity. Qed.

Lemma writes_ret : writes (ret tt) [].
Proof. intros dst. unfold ret. rewrite app_nil_r. reflexivity. Qed.

Lemma writes_put bs : writes (put_slice bs) bs.
Proof. intros dst. reflexivity. Qed.

Lemma reads_bind {A B} (m : R A) (k : A -> R B) bs1 bs2 a v :
  reads m bs1 a -> reads (k a) bs2 v -> reads (bind m k) (bs1 ++ bs2) v.
Proof. intros H1 H2 rest. unfold bind. rewrite <- app_assoc, H1. apply H2. Qed.

Lemma reads_bind_last {A B} (m : R A) (k : A -> R B) bs a v :
  reads m bs a -> reads (k a) [] v -> reads (bind m k) bs v.
Proof. intros. rewrite <- (app_nil_r bs). by eapply reads_bind. Qed.

Lemma reads_ret {A} (v : A) : reads (ret v) [] v.
Proof. intros rest. reflexivity. Qed.

Lemma reads_reads_all {A} (m : R A) bs v : reads m bs v -> reads_all m bs v.
Proof. intros H. unfold reads_all. rewrite <- (app_nil_r bs) at 1. apply H. Qed.

Lemma reads_all_bind {A B} (m : R A) (k : A -> R B) bs1 bs2 a v :
  reads m bs1 a -> reads_all (k a) bs2 v -> reads_all (bind m k) (bs1 ++ bs2) v.
Proof. intros H1 H2. unfold reads_all, bind. rewrite H1. apply H2. Qed.

Lemma reads_ensure {B} n e (k : R B) bs v :
  n <= Z.of_nat (length bs) -> reads k bs v -> reads (ensure n e;; k) bs v.
Proof.
  intros Hn Hk rest. unfold bind, ensure, remaining.
  rewrite length_app. destruct (Z.ltb_spec (Z.of_nat (length bs + length rest)) n); [lia|].
  apply Hk.
Qed.

Lemma reads_take bs n : n = length bs -> reads (take_bytes n) bs bs.
Proof.
  intros -> rest. unfold take_bytes. rewrite length_app.
  destruct (Nat.ltb_spec (length bs + length rest) (length bs)); [lia|].
  by rewrite take_app_length, drop_app_length.
Qed.

Lemma reads_copy bs n : n = Z.of_nat (length bs) -> reads (copy_to_bytes n) bs bs.
Proof. intros ->. unfold copy_to_bytes. apply reads_take. lia. Qed.

Lemma reads_uint n z : fits_u (8 * Z.of_nat n) z -> reads (get_uint n) (be_bytes n z) z.
Proof.
  intros Hz rest. unfold get_uint, bind.
  rewrite reads_take by (by rewrite length_be_bytes).
  rewrite be_val_bytes, pow256, Z.mod_small by done. reflexivity.
Qed.

Lemma reads_int n z : (0 < n)%nat ->
  fits_s (8 * Z.of_nat n) z -> reads (get_int n) (be_bytes n z) z.
Proof.
  intros Hn Hz rest. unfold get_int, get_uint, bind.
  rewrite reads_take by (by rewrite length_be_bytes).
  rewrite be_val_bytes, pow256. unfold ret.
  rewrite wraps_mod, wraps_id by (done || lia). reflexivity.
Qed.

(** *** Absence of panics *)

Lemma total_bind {A B} (m : R A) (k : A -> R B) :
  total m -> (forall a, total (k a)) -> total (bind m k).
Proof.
  intros Hm Hk src. unfold bind. specialize (Hm src).
  destruct (m src) as [[] s']; simpl in *; try done. apply Hk.
Qed.

Lemma guarded_bind {A B} n (m : R A) (k : A -> R B) :
  guarded n m -> (forall a, total (k a)) -> guarded n (bind m k).
Proof.
  intros Hm Hk src Hs. unfold bind. specialize (Hm src Hs).
  destruct (m src) as [[] s']; simpl in *; try done. apply Hk.
Qed.

Lemma total_ret {A} (a : A) : total (ret a).
Proof. done. Qed.

Lemma total_fail {A} (e : E) : total (A := A) (fail e).
Proof. done. Qed.

Lemma guarded_take n : guarded n (take_bytes n).
Proof. intros src Hs. unfold take_bytes. destruct (Nat.ltb_spec (length src) n); [lia|done]. Qed.

Lemma guarded_uint n : guarded n (get_uint n).
Proof. apply guarded_bind; [apply guarded_take|intros; apply total_ret]. Qed.

Lemma guarded_int n : guarded n (get_int n).
Proof. apply guarded_bind; [apply guarded_uint|intros; apply total_ret]. Qed.

(** Reading [n] of the [k] bytes known to be there leaves [k - n]. *)
Lemma guarded_take_bind {B} k n (f : bytes -> R B) :
  (n <= k)%nat -> (forall bs, guarded (k - n) (f bs)) -> guarded k (bind (take_bytes n) f).
Proof.
  intros Hn Hf src Hs. unfold bind, take_bytes.
  destruct (Nat.ltb_spec (length src) n); [lia|]. apply Hf. rewrite length_drop. lia.
Qed.

Lemma guarded_uint_bind {B} k n (f : Z -> R B) :
  (n <= k)%nat -> (forall z, guarded (k - n) (f z)) -> guarded k (bind (get_uint n) f).
Proof.
  intros Hn Hf src Hs. unfold get_uint. rewrite bind_assoc.
  apply (guarded_take_bind k n (fun bs => f (be_val bs)) Hn (fun bs => Hf _) src Hs).
Qed.

Lemma guarded_int_bind {B} k n (f : Z -> R B) :
  (n <= k)%nat -> (forall z, guarded (k - n) (f z)) -> guarded k (bind (get_int n) f).
Proof.
  intros Hn Hf src Hs. unfold get_int. rewrite bind_assoc.
  apply (guarded_uint_bind k n (fun z => f (wraps _ z)) Hn (fun z => Hf _) src Hs).
Qed.

Lemma total_ensure {A} n e (k : R A) : guarded (Z.to_nat n) k -> total (ensure n e;; k).
Proof.
  intros Hk src. unfold bind, ensure, remaining.
  destruct (Z.ltb_spec (Z.of_nat (length src)) n); [done|]. apply Hk. lia.
Qed.

Lemma total_ensure_copy {A} n e (k : bytes -> R A) :
  (forall bs, total (k bs)) -> total (ensure n e;; let! bs := copy_to_bytes n in k bs).
Proof.
  intros Hk. apply total_ensure. unfold copy_to_bytes.
  apply guarded_take_bind; [lia|]. intros bs. apply total_guarded, Hk.
Qed.

(** *** Readers consume a prefix *)

Lemma consuming_length {A} (m : R A) src : consuming m -> (length (m src).2 <= length src)%nat.
Proof. intros H. destruct (H src) as [used Hu]. rewrite Hu at 2. rewrite length_app. lia. Qed.

Lemma consuming_bind {A B} (m : R A) (k : A -> R B) :
  consuming m -> (forall a, consuming (k a)) -> consuming (bind m k).
Proof.
  intros Hm Hk src. unfold bind. destruct (Hm src) as [u1 H1].
  destruct (m src) as [[a| | |] s']; simpl in *; try by eexists.
  destruct (Hk a s') as [u2 H2]. exists (u1 ++ u2). rewrite <- app_assoc, <- H2. done.
Qed.

Lemma consuming_ret {A} (a : A) : consuming (ret a).
Proof. intros src. by exists []. Qed.
Lemma consuming_fail {A} (e : E) : consuming (A := A) (fail e).
Proof. intros src. by exists []. Qed.
Lemma consuming_nofuel {A} : consuming (A := A) nofuel.
Proof. intros src. by exists []. Qed.
Lemma consuming_ensure n (e : E) : consuming (ensure n e).
Proof. intros src. exists []. unfold ensure. by destruct (_ <? _). Qed.
Lemma consuming_take n : consuming (take_bytes n).
Proof.
  intros src. unfold take_bytes. destruct (_ <? _)%nat; [by exists []|].
  exists (take n src). cbn [snd]. by rewrite take_drop.
Qed.
Lemma consuming_uint n : consuming (get_uint n).
Proof. apply consuming_bind; [apply consuming_take|intros; apply consuming_ret]. Qed.
Lemma consuming_int n : consuming (get_int n).
Proof. apply consuming_bind; [apply consuming_uint|intros; apply consuming_ret]. Qed.
Lemma consuming_copy n : consuming (copy_to_bytes n).
Proof. apply consuming_take. Qed.

(** *** Programs whose recursion is bounded by the input *)

(** [m] returns on every input of at most [n] bytes. *)
Definition total_upto {A} (n : nat) (m : R A) : Prop :=
  forall src, (length src <= n)%nat -> returned (m src).1.

Lemma total_total_upto {A} n (m : R A) : total m -> total_upto n m.
Proof. intros H src _. apply H. Qed.

Lemma upto_bind {A B} n (m : R A) (k : A -> R B) :
  total_upto n m -> consuming m -> (forall a, total_upto n (k a)) -> total_upto n (bind m k).
Proof.
  intros Hm Hc Hk src Hs. unfold bind. specialize (Hm src Hs).
  pose proof (consuming_length m src Hc). destruct (m src) as [[a| | |] s']; try done.
  apply Hk. simpl in *. lia.
Qed.

(** A byte read makes the rest of the input shorter. *)
Lemma upto_u8 {B} n e (k : Z -> R B) :
  ((0 < n)%nat -> forall b, total_upto (pred n) (k b)) -> total_upto n (ensure 1 e;; let! b := get_u8 in k b).
Proof.
  intros Hk src Hs. unfold bind, ensure, remaining, get_u8, get_uint, take_bytes.
  destruct src as [|b src]; [done|]. cbn [length] in *.
  destruct (Z.ltb_spec (Z.of_nat (S (length src))) 1); [lia|].
  unfold bind. cbn. rewrite drop_0. apply Hk; lia.
Qed.

End Calculus.
