(* ===== verification/Wire.v ===== *)
(** * Wire formats

    [ProtocolError] of crates/protocol/src/error.rs, the pairing of an [Encode]
    and a [Decode] implementation ([codec]) and the contract every pair of the
    protocol crate is held to ([Lawful]): what is written is read back, the
    decoder never panics and only removes a prefix of its input.  Packet-level
    theorems are proved from [Lawful] alone. *)
From Stdlib Require Import ZArith Lia.
From stdpp Require Import base list numbers strings.
From S2P Require Import Prelude Buf.
Local Open Scope Z_scope.

(** ** Errors *)

(** The [std::io::ErrorKind]s the program builds. *)
Inductive ErrorKind := KUnexpectedEof | KInvalidData | KInvalidInput | KTimedOut | KOther.

Inductive ProtocolError :=
  | UnexpectedEof
  | VarIntOverflow (bytes_read : Z)
  | StringTooLong (len max : Z)
  | InvalidUtf8 (bs : bytes)
  | UnknownPacketId (id : Z) (state direction : string)
  | UnknownNbtTag (tag : Z)
  | Io (kind : ErrorKind) (msg : string)
  | PacketTooLarge (size max : Z).

(** A [Decode::decode] and the body of an [Encode::encode]. *)
Abbreviation Dec A := (M bytes ProtocolError A).
Abbreviation Enc := (M bytes ProtocolError unit).

(** ** Encoder/decoder pairs *)

Record codec (A : Type) := Codec {
  enc : A -> Enc;
  dec : Dec A;
  (** the values the Rust type can hold and the encoder accepts *)
  wf : A -> Prop;
}.
Arguments Codec {A}.
Arguments enc {A}.
Arguments dec {A}.
Arguments wf {A}.

(** The bytes [enc] appends. *)
Definition wire {A} (c : codec A) (v : A) : bytes := (enc c v []).2.

Class Lawful {A} (c : codec A) : Prop := {
  lawful_writes : forall v, wf c v -> writes (enc c v) (wire c v);
  lawful_reads : forall v, wf c v -> reads (dec c) (wire c v) v;
  lawful_total : total (dec c);
  lawful_consuming : consuming (dec c);
}.

(** The same contract for a packet whose last field runs to the end of the
    packet: it is read back when nothing follows it. *)
Class LawfulTail {A} (c : codec A) : Prop := {
  lawful_tail_writes : forall v, wf c v -> writes (enc c v) (wire c v);
  lawful_tail_reads : forall v, wf c v -> reads_all (dec c) (wire c v) v;
  lawful_tail_total : total (dec c);
  lawful_tail_consuming : consuming (dec c);
}.

Lemma writes_wire_eq {A} (c : codec A) v bs : writes (enc c v) bs -> wire c v = bs.
Proof. intros H. unfold wire. by rewrite H. Qed.

(** To prove [Lawful] it is enough to exhibit the bytes of each value. *)
Lemma lawful_intro {A} (c : codec A) :
  (forall v, wf c v -> exists bs, writes (enc c v) bs /\ reads (dec c) bs v) ->
  total (dec c) -> consuming (dec c) -> Lawful c.
Proof.
  intros H ? ?. split; try done; intros v Hv; destruct (H v Hv) as (bs & Hw & Hr);
    by rewrite (writes_wire_eq c v bs Hw).
Qed.

Lemma lawful_tail_intro {A} (c : codec A) :
  (forall v, wf c v -> exists bs, writes (enc c v) bs /\ reads_all (dec c) bs v) ->
  total (dec c) -> consuming (dec c) -> LawfulTail c.
Proof.
  intros H ? ?. split; try done; intros v Hv; destruct (H v Hv) as (bs & Hw & Hr);
    by rewrite (writes_wire_eq c v bs Hw).
Qed.

Lemma lawful_is_tail {A} (c : codec A) : Lawful c -> LawfulTail c.
Proof. intros []. split; auto using reads_reads_all. Qed.

(** ** Consequences of the contract *)

Section Consequences.
Context {A : Type} (c : codec A) `{!Lawful c}.

(** Encoding then decoding gives the value back and leaves what follows. *)
Lemma lawful_roundtrip v rest : wf c v ->
  let '(o, dst) := enc c v [] in o = Ok tt /\ dec c (dst ++ rest) = (Ok v, rest).
Proof.
  intros Hv. rewrite (lawful_writes v Hv). split; [done|].
  apply (lawful_reads v Hv).
Qed.

(** No encoding is a proper prefix of another: two values whose encodings can
    be continued to the same stream are equal. *)
Lemma lawful_prefix_free v w r1 r2 : wf c v -> wf c w ->
  wire c v ++ r1 = wire c w ++ r2 -> v = w /\ r1 = r2.
Proof.
  intros Hv Hw Heq. pose proof (lawful_reads v Hv r1) as H1.
  rewrite Heq, (lawful_reads w Hw r2) in H1. by simplify_eq.
Qed.

End Consequences.

(** [for _ in 0..n { out.push(m(src)?) }] *)
Fixpoint repeat_dec {A} (n : nat) (m : Dec A) : Dec (list A) :=
  match n with
  | O => ret []
  | S n' => let! x := m in let! xs := repeat_dec n' m in ret (x :: xs)
  end.

Lemma total_repeat {A} n (m : Dec A) : total m -> total (repeat_dec n m).
Proof.
  intros Hm. induction n; [done|]. apply total_bind; [done|intros].
  apply total_bind; [done|intros; apply total_ret].
Qed.

Lemma consuming_repeat {A} n (m : Dec A) : consuming m -> consuming (repeat_dec n m).
Proof.
  intros Hm. induction n; [apply consuming_ret|]. apply consuming_bind; [done|intros].
  apply consuming_bind; [done|intros; apply consuming_ret].
Qed.

Lemma upto_repeat {A} n k (m : Dec A) :
  total_upto n m -> consuming m -> total_upto n (repeat_dec k m).
Proof.
  intros Hm Hc. induction k; [done|]. apply upto_bind; [done|done|intros].
  apply upto_bind; [done|by apply consuming_repeat|done].
Qed.

Lemma reads_repeat {A} (m : Dec A) (img : A -> bytes) l :
  Forall (fun x => reads m (img x) x) l ->
  reads (repeat_dec (length l) m) (concat (map img l)) l.
Proof.
  induction 1 as [|x l Hx _ IH]; [apply reads_ret|].
  change (concat (map img (x :: l))) with (img x ++ concat (map img l)).
  cbn [length repeat_dec]. eapply reads_bind; [done|].
  rewrite <- (app_nil_r (concat (map img l))). eapply reads_bind; [apply IH|apply reads_ret].
Qed.

(** A sequence of values written one after the other is read back in order. *)
Definition read_many {A} (c : codec A) (n : nat) : Dec (list A) := repeat_dec n (dec c).

Fixpoint write_many {A} (c : codec A) (l : list A) : Enc :=
  match l with
  | [] => ret tt
  | x :: xs => enc c x;; write_many c xs
  end.

Definition wire_many {A} (c : codec A) (l : list A) : bytes := concat (map (wire c) l).

Section Many.
Context {A : Type} (c : codec A) `{!Lawful c}.

Lemma writes_many l : Forall (wf c) l -> writes (write_many c l) (wire_many c l).
Proof.
  induction 1 as [|x l Hx _ IH]; [apply writes_ret|].
  apply writes_bind; [by apply lawful_writes|done].
Qed.

Lemma reads_many l : Forall (wf c) l -> reads (read_many c (length l)) (wire_many c l) l.
Proof.
  intros Hl. apply reads_repeat. apply (Forall_impl _ _ _ Hl). intros x. apply lawful_reads.
Qed.

Lemma total_many n : total (read_many c n).
Proof. apply total_repeat, lawful_total. Qed.

Lemma consuming_many n : consuming (read_many c n).
Proof. apply consuming_repeat, lawful_consuming. Qed.

End Many.

(** ** Automation

    One step of each kind of codec obligation, following the head of the
    program.  Codecs met on the way are discharged by their [Lawful] instance,
    other programs by the lemmas of the [codec] hint database. *)
Create HintDb codec.

Lemma reads_all_bind_last {A B} (m : Dec A) (k : A -> Dec B) bs a v :
  reads m bs a -> reads_all (k a) [] v -> reads_all (bind m k) bs v.
Proof. intros. rewrite <- (app_nil_r bs). by eapply reads_all_bind. Qed.

Lemma reads_all_ensure {B} n e (k : Dec B) bs v :
  n <= Z.of_nat (length bs) -> reads_all k bs v -> reads_all (ensure n e;; k) bs v.
Proof.
  intros Hn Hk. unfold reads_all, bind, ensure, remaining.
  destruct (Z.ltb_spec (Z.of_nat (length bs)) n); [lia|]. apply Hk.
Qed.

Lemma reads_all_ret {A} (v : A) : reads_all (E := ProtocolError) (ret v) [] v.
Proof. done. Qed.

Lemma guarded_ret {A} n (a : A) : guarded (E := ProtocolError) n (ret a).
Proof. apply total_guarded, total_ret. Qed.

Ltac codec_unfold :=
  unfold put_u8, put_i8, put_u16, put_i16, put_u32, put_i32, put_u64, put_i64, put_f32, put_f64,
    get_u8, get_i8, get_u16, get_i16, get_u32, get_i32, get_u64, get_i64, get_f32, get_f64,
    put_int, copy_to_bytes, advance in *.

Ltac nat_side := first [lia | vm_compute; lia].

Ltac writes_step :=
  lazymatch goal with
  | |- writes (bind _ _) _ => eapply writes_bind
  | |- writes (enc _ _) _ => eapply lawful_writes
  | |- writes (ret tt) _ => apply writes_ret
  | |- writes (put_slice _) _ => apply writes_put
  | |- writes _ _ => solve [eauto with codec]
  end.

(** Lengths of concatenated encodings of fixed-width fields. *)
Ltac length_side :=
  rewrite ?length_app, ?length_be_bytes; cbn [length]; lia.

Ltac read_one :=
  lazymatch goal with
  | |- reads (dec _) _ _ => eapply lawful_reads
  | |- reads (get_uint _) _ _ => apply reads_uint
  | |- reads (get_int _) _ _ => apply reads_int; [nat_side|]
  | |- reads (take_bytes _) _ _ => apply reads_take
  | |- reads _ _ _ => solve [eauto with codec]
  end.

Ltac reads_step :=
  cbv beta zeta;
  lazymatch goal with
  | |- reads (bind (ensure _ _) _) _ _ => eapply reads_ensure; [length_side|]
  | |- reads (bind _ _) (_ ++ _) _ => eapply reads_bind; [read_one|]
  | |- reads (bind _ _) _ _ => eapply reads_bind_last; [read_one|]
  | |- reads (ret _) _ _ => apply reads_ret
  | |- reads_all (bind (ensure _ _) _) _ _ => eapply reads_all_ensure; [length_side|]
  | |- reads_all (bind _ _) (_ ++ _) _ => eapply reads_all_bind; [read_one|]
  | |- reads_all (bind _ _) _ _ => eapply reads_all_bind_last; [read_one|]
  | |- reads_all (ret _) _ _ => apply reads_all_ret
  | |- reads _ _ _ => read_one
  end.

Ltac total_step :=
  cbv beta zeta;
  lazymatch goal with
  | |- forall _, _ => intros ?
  | |- total (ret _) => apply total_ret
  | |- total (fail _) => apply total_fail
  | |- total (dec _) => apply lawful_total
  | |- total (repeat_dec _ _) => apply total_repeat
  | |- total (bind (ensure _ _) _) => apply total_ensure
  | |- total (bind _ _) => apply total_bind
  | |- total (if ?b then _ else _) => destruct b
  | |- total (match ?x with _ => _ end) => destruct x
  | |- total _ => solve [eauto with codec]
  | |- guarded _ (ret _) => apply guarded_ret
  | |- guarded _ (take_bytes _) => eapply guarded_weaken; [apply guarded_take|nat_side]
  | |- guarded _ (get_uint _) => eapply guarded_weaken; [apply guarded_uint|nat_side]
  | |- guarded _ (get_int _) => eapply guarded_weaken; [apply guarded_int|nat_side]
  | |- guarded _ (bind (take_bytes _) _) => apply guarded_take_bind; [nat_side|]
  | |- guarded _ (bind (get_uint _) _) => apply guarded_uint_bind; [nat_side|]
  | |- guarded _ (bind (get_int _) _) => apply guarded_int_bind; [nat_side|]
  | |- guarded _ (if ?b then _ else _) => destruct b
  | |- guarded _ (match ?x with _ => _ end) => destruct x
  | |- guarded _ _ => apply total_guarded
  end.

Ltac consuming_step :=
  cbv beta zeta;
  lazymatch goal with
  | |- forall _, _ => intros ?
  | |- consuming (ret _) => apply consuming_ret
  | |- consuming (fail _) => apply consuming_fail
  | |- consuming nofuel => apply consuming_nofuel
  | |- consuming (dec _) => apply lawful_consuming
  | |- consuming (repeat_dec _ _) => apply consuming_repeat
  | |- consuming (ensure _ _) => apply consuming_ensure
  | |- consuming (bind _ _) => apply consuming_bind
  | |- consuming (take_bytes _) => apply consuming_take
  | |- consuming (get_uint _) => apply consuming_uint
  | |- consuming (get_int _) => apply consuming_int
  | |- consuming (if ?b then _ else _) => destruct b
  | |- consuming (match ?x with _ => _ end) => destruct x
  | |- consuming _ => solve [eauto with codec]
  end.

Ltac solve_total := codec_unfold; repeat total_step.
Ltac solve_consuming := codec_unfold; repeat consuming_step.
Ltac solve_writes := codec_unfold; repeat writes_step; try done.
Ltac solve_reads := codec_unfold; repeat reads_step; try done.
