(* ===== verification/VarInt.v ===== *)
(** * Variable-length integers

    crates/protocol/src/types/var_int.rs and var_long.rs: seven bits per byte,
    least significant group first, the top bit of a byte set when more follow.
    The two files hold the same loops at 32 and 64 bits; the only difference is
    that [VarInt::decode] also checks the unused bits of its fifth byte. *)
From Stdlib Require Import ZArith Lia Strings.Byte.
From stdpp Require Import base list numbers strings.
From S2P Require Import Prelude Buf Wire.
Local Open Scope Z_scope.

Definition VARINT_MAX_BYTES : Z := 5.
Definition VARLONG_MAX_BYTES : Z := 10.

(** ** The loops *)

(** [loop { let byte = val & 0x7F; val >>= 7; ... }] on the unsigned value. *)
Fixpoint encode_groups (fuel : nat) (val : Z) : Enc :=
  match fuel with
  | O => nofuel
  | S fuel' =>
      let byte := Z.land val 0x7F in
      let val' := Z.shiftr val 7 in
      if negb (val' =? 0) then put_u8 (Z.lor byte 0x80);; encode_groups fuel' val'
      else put_u8 byte
  end.

(** The decoding loop at width [w]: at most [max] bytes are read, and the last
    allowed byte is refused when [bad] says so. *)
Fixpoint decode_groups (w max : Z) (bad : Z -> bool) (fuel : nat)
    (result shift bytes_read : Z) : Dec Z :=
  match fuel with
  | O => nofuel
  | S fuel' =>
      if bytes_read >=? max then fail (VarIntOverflow bytes_read)
      else
        ensure 1 UnexpectedEof;;
        let! byte := get_u8 in
        let bytes_read := bytes_read + 1 in
        if (bytes_read =? max) && bad byte then fail (VarIntOverflow bytes_read)
        else
          let result := Z.lor result (wrapu w (Z.shiftl (Z.land byte 0x7F) shift)) in
          if Z.land byte 0x80 =? 0 then ret result
          else decode_groups w max bad fuel' result (shift + 7) bytes_read
  end.

(** ** VarInt *)

Definition VarInt_encode (v : Z) : Enc := encode_groups 5 (wrapu 32 v).

Definition VarInt_decode : Dec Z :=
  let! result :=
    decode_groups 32 VARINT_MAX_BYTES (fun byte => negb (Z.land byte 0xF0 =? 0)) 6 0 0 0 in
  ret (wraps 32 result).

(** [while val >= 0x80 { val >>= 7; count += 1 }] *)
Fixpoint encoded_len_loop (fuel : nat) (val count : Z) : option Z :=
  match fuel with
  | O => None
  | S fuel' =>
      if val >=? 0x80 then encoded_len_loop fuel' (Z.shiftr val 7) (count + 1)
      else Some count
  end.

Definition VarInt_encoded_len (v : Z) : option Z := encoded_len_loop 5 (wrapu 32 v) 1.

Definition VarInt : codec Z := Codec VarInt_encode VarInt_decode (fits_s 32).

(** ** VarLong *)

Definition VarLong_encode (v : Z) : Enc := encode_groups 10 (wrapu 64 v).

Definition VarLong_decode : Dec Z :=
  let! result := decode_groups 64 VARLONG_MAX_BYTES (fun _ => false) 11 0 0 0 in
  ret (wraps 64 result).

Definition VarLong : codec Z := Codec VarLong_encode VarLong_decode (fits_s 64).

(** ** Arithmetic of the groups *)

Lemma land_7F v : Z.land v 0x7F = v mod 128.
Proof. change 0x7F with (Z.ones 7). by rewrite Z.land_ones. Qed.

Lemma shiftr_7 v : Z.shiftr v 7 = v / 128.
Proof. by rewrite Z.shiftr_div_pow2. Qed.

(** [|] of a value below a power of two with a multiple of it is their sum. *)
Lemma lor_disjoint a b k : 0 <= k -> 0 <= a < 2 ^ k -> Z.lor a (b * 2 ^ k) = a + b * 2 ^ k.
Proof.
  intros Hk Ha. rewrite <- Z.shiftl_mul_pow2 by done.
  rewrite Z.add_nocarry_lxor; [symmetry; apply Z.lxor_lor|];
    (apply Z.bits_inj'; intros i Hi; rewrite Z.land_spec, Z.bits_0, Z.shiftl_spec by done;
     destruct (Z.ltb_spec i k);
     [rewrite (Z.testbit_neg_r _ (i - k)) by lia; apply andb_false_r|]);
    rewrite <- (Z.mod_small a (2 ^ k)), Z.mod_pow2_bits_high by lia; done.
Qed.

Lemma lor_80 a : 0 <= a < 128 -> Z.lor a 0x80 = a + 128.
Proof. intros. change 0x80 with (1 * 2 ^ 7). by rewrite lor_disjoint. Qed.

Lemma land_80_low a : 0 <= a < 128 -> Z.land a 0x80 = 0.
Proof.
  intros Ha. apply Z.bits_inj'. intros i Hi. rewrite Z.land_spec, Z.bits_0.
  destruct (decide (i = 7)) as [->|].
  - by rewrite <- (Z.mod_small a (2 ^ 7)), Z.mod_pow2_bits_high by lia.
  - change 0x80 with (2 ^ 7). rewrite Z.pow2_bits_false by lia. apply andb_false_r.
Qed.

Lemma land_80_high a : 0 <= a < 128 -> Z.land (a + 128) 0x80 = 128.
Proof.
  intros Ha. rewrite <- lor_80 by done. by rewrite Z.land_lor_distr_l, land_80_low.
Qed.

Lemma land_7F_high a : 0 <= a < 128 -> Z.land (a + 128) 0x7F = a.
Proof. intros. rewrite land_7F. symmetry. apply (Z.mod_unique _ _ 1); lia. Qed.

Lemma land_hi_nibble b : 0 <= b < 16 -> Z.land b 0xF0 = 0.
Proof.
  intros Hb. apply Z.bits_inj'. intros i Hi. rewrite Z.land_spec, Z.bits_0.
  destruct (Z.ltb_spec i 4).
  - change 0xF0 with (15 * 2 ^ 4). rewrite Z.mul_pow2_bits_low by lia. apply andb_false_r.
  - by rewrite <- (Z.mod_small b (2 ^ 4)), Z.mod_pow2_bits_high by lia.
Qed.

(** The bytes of a value: groups of seven bits, low group first. *)
Fixpoint groups (n : nat) (v : Z) : bytes :=
  match n with
  | O => []
  | S n' => if v <? 128 then [zb v] else zb (v mod 128 + 128) :: groups n' (v / 128)
  end.

Lemma length_groups_pos n v : (0 < n)%nat -> (1 <= length (groups n v) <= n)%nat.
Proof.
  revert v. induction n as [|n IH]; intros v Hn; [lia|]. cbn [groups].
  destruct (v <? 128); cbn [length]; [lia|]. destruct n; cbn [groups length] in *; [lia|].
  specialize (IH (v / 128) ltac:(lia)). lia.
Qed.

Lemma writes_u8 {E} z : writes (E := E) (put_u8 z) [zb z].
Proof. intros dst. unfold put_u8, put_int. cbn. by rewrite Z.div_1_r. Qed.

Lemma reads_u8 {E} z : 0 <= z < 256 -> reads (E := E) get_u8 [zb z] z.
Proof.
  intros Hz. pose proof (reads_uint (E := E) 1 z Hz) as H.
  cbn [be_bytes] in H. by rewrite Z.pow_0_r, Z.div_1_r in H.
Qed.

Lemma pow128_0 : 128 ^ Z.of_nat 0 = 1.
Proof. done. Qed.

Lemma pow128 n : 128 ^ Z.of_nat (S n) = 128 * 128 ^ Z.of_nat n.
Proof. rewrite Nat2Z.inj_succ, Z.pow_succ_r by lia. done. Qed.

Lemma div128_bound v m : 128 <= v < 128 * m -> 0 < v / 128 < m.
Proof. split; [apply Z.div_str_pos; lia|apply Z.div_lt_upper_bound; lia]. Qed.

Lemma writes_groups n v :
  (0 < n)%nat -> 0 <= v < 128 ^ Z.of_nat n -> writes (encode_groups n v) (groups n v).
Proof.
  revert v. induction n as [|n IH]; intros v Hn Hv; [lia|].
  rewrite pow128 in Hv. cbn [encode_groups groups].
  rewrite land_7F, shiftr_7, lor_80 by (apply Z.mod_pos_bound; lia).
  destruct (Z.ltb_spec v 128) as [Hlt|Hge].
  - rewrite Z.div_small, Z.mod_small by lia. apply writes_u8.
  - destruct (Z.eqb_spec (v / 128) 0) as [H0|H0]; [apply Z.div_small_iff in H0; lia|].
    assert (Hdv : 0 < v / 128 < 128 ^ Z.of_nat n) by (apply div128_bound; lia).
    apply (writes_bind _ _ [_]); [apply writes_u8|]. apply IH; [|lia].
    destruct n; [rewrite pow128_0 in Hdv|]; lia.
Qed.

Section DecodeLoop.
Variables (w max : Z) (bad : Z -> bool).
Hypothesis Hw : 0 < w.

(** One iteration on a byte that is there. *)
Lemma decode_groups_step fuel result shift k b rest :
  k < max -> ((k + 1 =? max) && bad (bz b)) = false ->
  decode_groups w max bad (S fuel) result shift k (b :: rest) =
  let result' := Z.lor result (wrapu w (Z.shiftl (Z.land (bz b) 0x7F) shift)) in
  if Z.land (bz b) 0x80 =? 0 then (Ok result', rest)
  else decode_groups w max bad fuel result' (shift + 7) (k + 1) rest.
Proof.
  intros Hk Hbad. cbn [decode_groups].
  destruct (Z.geb_spec k max); [lia|].
  rewrite (bind_ok _ _ _ tt (b :: rest)).
  2:{ unfold ensure, remaining. cbn [length]. by rewrite (proj2 (Z.ltb_ge _ _)) by lia. }
  rewrite (bind_ok _ _ _ (bz b) rest).
  2:{ rewrite <- (zb_bz b) at 1. apply (reads_u8 (bz b) (bz_range b)). }
  rewrite Hbad. by destruct (_ =? 0).
Qed.

(** One iteration on a refused last byte. *)
Lemma decode_groups_refuse fuel result shift k b rest :
  k < max -> ((k + 1 =? max) && bad (bz b)) = true ->
  decode_groups w max bad (S fuel) result shift k (b :: rest) = (Err (VarIntOverflow (k + 1)), rest).
Proof.
  intros Hk Hbad. cbn [decode_groups]. destruct (Z.geb_spec k max); [lia|].
  rewrite (bind_ok _ _ _ tt (b :: rest)), (bind_ok _ _ _ (bz b) rest); [by rewrite Hbad| |].
  - rewrite <- (zb_bz b) at 1. apply (reads_u8 (bz b) (bz_range b)).
  - unfold ensure, remaining. cbn [length]. by rewrite (proj2 (Z.ltb_ge _ _)) by lia.
Qed.

(** Reading the groups of [v] on top of the [7 * k] bits read so far. *)
Lemma reads_groups n fuel r k v :
  (0 < n <= fuel)%nat -> 0 <= k -> k + Z.of_nat n <= max ->
  0 <= r < 2 ^ (7 * k) -> 0 <= v < 128 ^ Z.of_nat n -> r + v * 2 ^ (7 * k) < 2 ^ w ->
  (forall b, 0 <= b -> b * 2 ^ (7 * (max - 1)) < 2 ^ w -> bad b = false) ->
  reads (decode_groups w max bad fuel r (7 * k) k) (groups n v) (r + v * 2 ^ (7 * k)).
Proof.
  intros Hfuel Hk Hmax Hr Hv Hw' Hbad rest. revert fuel r k v Hfuel Hk Hmax Hr Hv Hw'.
  induction n as [|n IH]; intros fuel r k v Hfuel Hk Hmax Hr Hv Hw'; [lia|].
  destruct fuel as [|fuel]; [lia|]. rewrite pow128 in Hv. cbn [groups].
  set (p := 2 ^ (7 * k)) in *. assert (Hp : 0 < p) by (apply pow2_pos; lia).
  pose proof (Z.mod_pos_bound v 128 ltac:(lia)) as Hm.
  assert (Hlor : forall x, 0 <= x -> r + x * p < 2 ^ w ->
    Z.lor r (wrapu w (Z.shiftl x (7 * k))) = r + x * p).
  { intros x Hx Hlt. rewrite Z.shiftl_mul_pow2 by lia. fold p.
    rewrite wrapu_id by (unfold fits_u; nia). by apply lor_disjoint; lia. }
  destruct (Z.ltb_spec v 128) as [Hlt|Hge].
  - cbn [app]. rewrite decode_groups_step; [|lia|].
    + rewrite bz_zb, (Z.mod_small v 256), land_7F, Z.mod_small, land_80_low by lia.
      cbn [Z.eqb]. by rewrite Hlor by lia.
    + rewrite bz_zb, Z.mod_small by lia. destruct (Z.eqb_spec (k + 1) max); [|done].
      apply Hbad; [lia|]. replace (max - 1) with k by lia. fold p. lia.
  - cbn [app].
    pose proof (div128_bound v _ (conj Hge (proj2 Hv))) as Hdv.
    assert (Hn : (0 < n)%nat) by (destruct n; [rewrite pow128_0 in Hdv; lia|lia]).
    pose proof (Z.div_mod v 128 ltac:(lia)) as Hdm.
    rewrite decode_groups_step; [|lia|].
    2:{ destruct (Z.eqb_spec (k + 1) max); [lia|done]. }
    rewrite bz_zb, (Z.mod_small (_ + 128) 256), land_7F_high, land_80_high by lia.
    cbn [Z.eqb]. rewrite Hlor by nia.
    assert (Hp' : 2 ^ (7 * (k + 1)) = 128 * p).
    { subst p. replace (7 * (k + 1)) with (7 + 7 * k) by lia. by rewrite Z.pow_add_r by lia. }
    replace (7 * k + 7) with (7 * (k + 1)) by lia.
    rewrite IH; rewrite ?Hp'; try lia; [|nia]. do 2 f_equal. nia.
Qed.

Lemma decode_groups_total fuel r s k :
  k <= max < k + Z.of_nat fuel -> total (decode_groups w max bad fuel r s k).
Proof.
  revert r s k. induction fuel as [|fuel IH]; intros r s k Hk; cbn [decode_groups].
  - lia.
  - destruct (Z.geb_spec k max); [done|].
    apply total_ensure. apply guarded_uint_bind; [lia|]. intros byte. apply total_guarded.
    destruct (_ && _); [done|]. destruct (_ =? 0); [done|]. apply IH; lia.
Qed.

Lemma decode_groups_consuming fuel r s k : consuming (decode_groups w max bad fuel r s k).
Proof.
  revert r s k. induction fuel as [|fuel IH]; intros r s k; cbn [decode_groups].
  - apply consuming_nofuel.
  - destruct (_ >=? _); [apply consuming_fail|].
    apply consuming_bind; [apply consuming_ensure|intros _].
    apply consuming_bind; [apply consuming_uint|intros byte].
    destruct (_ && _); [apply consuming_fail|]. destruct (_ =? 0); [apply consuming_ret|apply IH].
Qed.

End DecodeLoop.

(** ** The contracts *)

#[export] Instance VarInt_lawful : Lawful VarInt.
Proof.
  apply lawful_intro.
  - cbn [VarInt wf enc dec]. intros v Hv.
    assert (Hu : fits_u 32 (wrapu 32 v)) by (by apply wrapu_fits).
    exists (groups 5 (wrapu 32 v)). split; [apply writes_groups; width|].
    rewrite <- (app_nil_r (groups _ _)). unfold VarInt_decode. eapply reads_bind.
    + apply (reads_groups 32 VARINT_MAX_BYTES _ ltac:(done) 5 6 0 0); try width; try done.
      intros b Hb Hlt. rewrite (land_hi_nibble b); [done|]. unfold VARINT_MAX_BYTES in Hlt. width.
    + rewrite Z.add_0_l, Z.mul_1_r, wraps_wrapu, wraps_id by done. apply reads_ret.
  - apply total_bind; [by apply decode_groups_total|intros; apply total_ret].
  - apply consuming_bind; [apply decode_groups_consuming|intros; apply consuming_ret].
Qed.

#[export] Instance VarLong_lawful : Lawful VarLong.
Proof.
  apply lawful_intro.
  - cbn [VarLong wf enc dec]. intros v Hv.
    assert (Hu : fits_u 64 (wrapu 64 v)) by (by apply wrapu_fits).
    exists (groups 10 (wrapu 64 v)). split; [apply writes_groups; width|].
    rewrite <- (app_nil_r (groups _ _)). unfold VarLong_decode. eapply reads_bind.
    + apply (reads_groups 64 VARLONG_MAX_BYTES _ ltac:(done) 10 11 0 0); try width; done.
    + rewrite Z.add_0_l, Z.mul_1_r, wraps_wrapu, wraps_id by done. apply reads_ret.
  - apply total_bind; [by apply decode_groups_total|intros; apply total_ret].
  - apply consuming_bind; [apply decode_groups_consuming|intros; apply consuming_ret].
Qed.

Lemma wire_VarInt v : wire VarInt v = groups 5 (wrapu 32 v).
Proof.
  apply (writes_wire_eq VarInt), writes_groups; [lia|].
  pose proof (wrapu_fits 32 v ltac:(lia)). width.
Qed.

Lemma length_wire_VarInt v : (1 <= length (wire VarInt v) <= 5)%nat.
Proof. rewrite wire_VarInt. apply length_groups_pos. lia. Qed.

(** How [decode_groups] can end, [k] bytes into the number. *)
Lemma decode_groups_outcomes w max bad fuel r s k src :
  k <= max < k + Z.of_nat fuel ->
  match decode_groups w max bad fuel r s k src with
  | (Ok _, src') => exists used, src = used ++ src' /\ 0 < Z.of_nat (length used) <= max - k
  | (Err UnexpectedEof, src') =>
      src' = [] /\ remaining src < max - k /\ Forall (fun b => Z.land (bz b) 0x80 <> 0) src
  | (Err e, _) => e = VarIntOverflow max /\ max - k <= remaining src
  | _ => False
  end.
Proof.
  unfold remaining. revert r s k src.
  induction fuel as [|fuel IH]; intros r s k src Hk; [cbn in Hk; lia|].
  destruct src as [|b src].
  - cbn. destruct (Z.geb_spec k max); [split; [f_equal|]; lia|]. split_and!; [done|lia|constructor].
  - destruct (decide (k = max)) as [->|].
    { cbn [decode_groups]. destruct (Z.geb_spec max max); [|lia]. cbn. split; [done|lia]. }
    destruct ((k + 1 =? max) && bad (bz b)) eqn:Hbad.
    + rewrite decode_groups_refuse by (lia || done). cbn [length].
      apply andb_true_iff in Hbad as [?%Z.eqb_eq _]. split; [f_equal|]; lia.
    + rewrite decode_groups_step by (lia || done). cbv zeta.
      destruct (Z.eqb_spec (Z.land (bz b) 0x80) 0).
      { exists [b]. cbn. split; [done|lia]. }
      match goal with |- context [decode_groups w max bad fuel ?r' ?s' ?k' src] =>
        specialize (IH r' s' k' src ltac:(lia)); destruct (decode_groups w max bad fuel r' s' k' src) as [[?|[]| |] src'] end;
        cbn [length] in *; try done; try (destruct IH; split; [done|lia]).
      * destruct IH as (used & -> & ?). exists (b :: used). cbn. split; [done|lia].
      * destruct IH as (-> & ? & ?). split_and!; [done|lia|by constructor].
Qed.

Lemma encoded_len_groups n v c : (0 < n)%nat -> 0 <= v < 128 ^ Z.of_nat n ->
  encoded_len_loop n v c = Some (c - 1 + Z.of_nat (length (groups n v))).
Proof.
  revert v c. induction n as [|n IH]; intros v c Hn Hv; [lia|].
  rewrite pow128 in Hv. cbn [encoded_len_loop groups].
  destruct (Z.geb_spec v 0x80), (Z.ltb_spec v 128); try lia; cbn [length].
  - pose proof (div128_bound v _ ltac:(split; [done|apply Hv])) as Hdv.
    rewrite shiftr_7, IH; [f_equal; lia| |lia]. destruct n; [rewrite pow128_0 in Hdv|]; lia.
  - f_equal. lia.
Qed.

Lemma VarInt_decode_cases (src : bytes) :
  match VarInt_decode src with
  | (Ok v, rest) =>
      fits_s 32 v /\ exists used, src = used ++ rest /\ (1 <= length used <= 5)%nat
  | (Err UnexpectedEof, rest) =>
      rest = [] /\ (length src < 5)%nat /\ Forall (fun b => Z.land (bz b) 0x80 <> 0) src
  | (Err e, _) => e = VarIntOverflow 5 /\ (5 <= length src)%nat
  | _ => False
  end.
Proof.
  unfold VarInt_decode, bind, ret.
  match goal with |- context [decode_groups ?w ?m ?b ?f ?r ?s ?k src] =>
    pose proof (decode_groups_outcomes w m b f r s k src ltac:(unfold VARINT_MAX_BYTES; lia)) as H;
    destruct (decode_groups w m b f r s k src) as [[v|[]| |] rest] end;
    unfold remaining, VARINT_MAX_BYTES in H; try done; try (destruct H; split; [done|lia]).
  - destruct H as (used & -> & ?). split; [by apply wraps_fits|]. exists used. split; [done|lia].
  - destruct H as (-> & ? & ?). split_and!; [done|lia|done].
Qed.

(** What follows the bytes a successful read used does not matter. *)
Lemma decode_groups_extend w max bad fuel r s k src v rest more :
  decode_groups w max bad fuel r s k src = (Ok v, rest) ->
  decode_groups w max bad fuel r s k (src ++ more) = (Ok v, rest ++ more).
Proof.
  revert r s k src. induction fuel as [|fuel IH]; intros r s k src; [done|].
  destruct src as [|b src]; [cbn; by destruct (_ >=? _)|].
  destruct (Z.geb_spec k max) as [Hge|Hlt].
  { cbn [decode_groups]. by destruct (Z.geb_spec k max); [|lia]. }
  destruct ((k + 1 =? max) && bad (bz b)) eqn:Hbad.
  - by rewrite decode_groups_refuse.
  - cbn [app]. rewrite !decode_groups_step by done. cbv zeta.
    destruct (_ =? 0); [intros [= <- <-]; done|apply IH].
Qed.

Lemma VarInt_decode_extend src v rest more :
  VarInt_decode src = (Ok v, rest) -> VarInt_decode (src ++ more) = (Ok v, rest ++ more).
Proof.
  unfold VarInt_decode. intros H. apply bind_inv_ok in H as (r & s1 & Hr & H).
  unfold bind. rewrite (decode_groups_extend _ _ _ _ _ _ _ _ _ _ more Hr). by injection H as <- <-.
Qed.

(** A proper prefix of an encoding is not yet a number. *)
Lemma VarInt_decode_partial v pre post : fits_s 32 v -> wire VarInt v = pre ++ post -> post <> [] ->
  exists e rest, VarInt_decode pre = (Err e, rest).
Proof.
  intros Hv Hw Hpost. pose proof (VarInt_decode_cases pre) as Hc.
  destruct (VarInt_decode pre) as [[v'|e| |] rest] eqn:E; [|by eauto|done|done].
  exfalso. apply (VarInt_decode_extend _ _ _ post) in E. rewrite <- Hw in E.
  pose proof (reads_reads_all _ _ _ (lawful_reads (c := VarInt) v Hv)) as Hr.
  cbn [VarInt dec] in Hr. unfold reads_all in Hr. rewrite E in Hr.
  injection Hr as _ Hnil. by apply app_eq_nil in Hnil as [_ ->].
Qed.

(** ** Properties *)

(** C2: for every 32-bit value, [VarInt::encode] succeeds and appends between
    one and five bytes, exactly as many as [encoded_len] announces, and
    [VarInt::decode] on those bytes, whatever follows them, returns the value
    and leaves what follows. *)
Theorem VarInt_roundtrip (v : Z) (dst rest : bytes) : fits_s 32 v ->
  exists bs,
    VarInt_encode v dst = (Ok tt, dst ++ bs) /\
    VarInt_decode (bs ++ rest) = (Ok v, rest) /\
    VarInt_encoded_len v = Some (Z.of_nat (length bs)) /\
    (1 <= length bs <= 5)%nat.
Proof.
  intros Hv. exists (wire VarInt v). split_and!.
  - apply (lawful_writes (c := VarInt) v Hv).
  - apply (lawful_reads (c := VarInt) v Hv).
  - rewrite wire_VarInt. unfold VarInt_encoded_len.
    pose proof (wrapu_fits 32 v ltac:(lia)) as Hu.
    rewrite encoded_len_groups; [f_equal; lia|lia|width].
  - apply length_wire_VarInt.
  - apply length_wire_VarInt.
Qed.

Lemma VarInt_roundtrip_witness : fits_s 32 (-1) /\
  exists bs, VarInt_encode (-1) [] = (Ok tt, [] ++ bs) /\
    VarInt_decode (bs ++ [x2a]) = (Ok (-1), [x2a]) /\
    VarInt_encoded_len (-1) = Some (Z.of_nat (length bs)) /\ (1 <= length bs <= 5)%nat.
Proof.
  assert (H : fits_s 32 (-1)) by width.
  split; [exact H|apply (VarInt_roundtrip (-1) [] [x2a] H)].
Defined.

(** C6: on arbitrary input [VarInt::decode] never panics and ends in one of three
    ways: a 32-bit value, having consumed one to five bytes; [UnexpectedEof],
    exactly when the input stops (before five bytes) while every byte announces
    another; or [VarIntOverflow(5)], with at least five bytes present. *)
Theorem VarInt_decode_outcomes (src : bytes) :
  match VarInt_decode src with
  | (Ok v, rest) =>
      fits_s 32 v /\ exists used, src = used ++ rest /\ (1 <= length used <= 5)%nat
  | (Err UnexpectedEof, rest) =>
      rest = [] /\ (length src < 5)%nat /\ Forall (fun b => Z.land (bz b) 0x80 <> 0) src
  | (Err e, _) => e = VarIntOverflow 5 /\ (5 <= length src)%nat
  | _ => False
  end.
Proof. apply VarInt_decode_cases. Qed.

(** For every 64-bit value, [VarLong::encode] succeeds and [VarLong::decode]
    of what it appended returns the value and leaves what follows; on arbitrary
    input the decoder returns, consuming only a prefix. *)
Theorem VarLong_roundtrip (v : Z) (dst rest : bytes) : fits_s 64 v ->
  exists bs,
    VarLong_encode v dst = (Ok tt, dst ++ bs) /\
    VarLong_decode (bs ++ rest) = (Ok v, rest) /\
    (forall src, returned (VarLong_decode src).1 /\ exists used, src = used ++ (VarLong_decode src).2).
Proof.
  intros Hv. exists (wire VarLong v). split_and!.
  - apply (lawful_writes (c := VarLong) v Hv).
  - apply (lawful_reads (c := VarLong) v Hv).
  - intros src. split; [apply (lawful_total (c := VarLong))|apply (lawful_consuming (c := VarLong))].
Qed.

Lemma VarLong_roundtrip_witness : fits_s 64 (- 2 ^ 63) /\
  exists bs, VarLong_encode (- 2 ^ 63) [] = (Ok tt, [] ++ bs) /\
    VarLong_decode (bs ++ []) = (Ok (- 2 ^ 63), []) /\
    (forall src, returned (VarLong_decode src).1 /\ exists used, src = used ++ (VarLong_decode src).2).
Proof.
  assert (H : fits_s 64 (- 2 ^ 63)) by width.
  split; [exact H|apply (VarLong_roundtrip (- 2 ^ 63) [] [] H)].
Defined.

(** The table of [known_encodings] in var_int.rs. *)
Example known_encodings :
  map (fun v => (VarInt_encode v []).2) [0; 127; 128; 25565; 2147483647; -1; -2147483648] =
  [[x00]; [x7f]; [x80; x01]; [xdd; xc7; x01]; [xff; xff; xff; xff; x07];
   [xff; xff; xff; xff; x0f]; [x80; x80; x80; x80; x08]].
Proof. vm_compute. reflexivity. Qed.

(** The asymmetry of the two decoders: the unused bits of the last byte are
    refused by [VarInt::decode] and dropped by [VarLong::decode]. *)
Theorem VarLong_drops_high_bits :
  VarLong_decode (replicate 9 x80 ++ [x02]) = (Ok 0, []) /\
  VarInt_decode (replicate 4 x80 ++ [x10]) = (Err (VarIntOverflow 5), []).
Proof. split; vm_compute; reflexivity. Qed.
