(* ===== verification/Codec.v ===== *)
(** * Wire-level encoding primitives

    crates/protocol/src/codec.rs: the [Encode]/[Decode] implementations of the
    primitive types, strings, byte arrays, UUIDs, vectors and options, and the
    id-prefixed packet writer.  [String::from_utf8] is the standard library's
    validity check (Unicode table 3-7).  Floats are their bit patterns. *)
From Stdlib Require Import ZArith Lia Strings.Byte.
From stdpp Require Import base list numbers strings.
From S2P Require Import Prelude Buf Wire VarInt.
Local Open Scope Z_scope.

(** ** UTF-8 *)

Definition in_range (lo hi : Z) (b : byte) : bool := (lo <=? bz b) && (bz b <=? hi).

Fixpoint utf8_valid (s : bytes) : bool :=
  match s with
  | [] => true
  | b0 :: s1 =>
      if in_range 0x00 0x7F b0 then utf8_valid s1
      else
        match s1 with
        | [] => false
        | b1 :: s2 =>
            if in_range 0xC2 0xDF b0 then in_range 0x80 0xBF b1 && utf8_valid s2
            else
              match s2 with
              | [] => false
              | b2 :: s3 =>
                  if in_range 0xE0 0xEF b0 then
                    (if in_range 0xE0 0xE0 b0 then in_range 0xA0 0xBF b1
                     else if in_range 0xED 0xED b0 then in_range 0x80 0x9F b1
                     else in_range 0x80 0xBF b1)
                    && in_range 0x80 0xBF b2 && utf8_valid s3
                  else
                    match s3 with
                    | [] => false
                    | b3 :: s4 =>
                        in_range 0xF0 0xF4 b0
                        && (if in_range 0xF0 0xF0 b0 then in_range 0x90 0xBF b1
                            else if in_range 0xF4 0xF4 b0 then in_range 0x80 0x8F b1
                            else in_range 0x80 0xBF b1)
                        && in_range 0x80 0xBF b2 && in_range 0x80 0xBF b3 && utf8_valid s4
                    end
              end
        end
  end.

Definition from_utf8 (s : bytes) : Dec bytes :=
  if utf8_valid s then ret s else fail (InvalidUtf8 s).

(** ** Constants *)

Definition MAX_PACKET_SIZE : Z := Z.shiftl 1 25.
Definition MAX_STRING_LENGTH : Z := 32767.
Definition MAX_VEC_LEN : Z := 65536.

(** ** Primitive types *)

Definition encode_bool (b : bool) : Enc := put_u8 (if b then 1 else 0).
Definition decode_bool : Dec bool :=
  ensure 1 UnexpectedEof;; let! z := get_u8 in ret (negb (z =? 0)).

Definition encode_u8 (z : Z) : Enc := put_u8 z.
Definition decode_u8 : Dec Z := ensure 1 UnexpectedEof;; get_u8.
Definition encode_i8 (z : Z) : Enc := put_i8 z.
Definition decode_i8 : Dec Z := ensure 1 UnexpectedEof;; get_i8.
Definition encode_i16 (z : Z) : Enc := put_i16 z.
Definition decode_i16 : Dec Z := ensure 2 UnexpectedEof;; get_i16.
Definition encode_u16 (z : Z) : Enc := put_u16 z.
Definition decode_u16 : Dec Z := ensure 2 UnexpectedEof;; get_u16.
Definition encode_i32 (z : Z) : Enc := put_i32 z.
Definition decode_i32 : Dec Z := ensure 4 UnexpectedEof;; get_i32.
Definition encode_u32 (z : Z) : Enc := put_u32 z.
Definition decode_u32 : Dec Z := ensure 4 UnexpectedEof;; get_u32.
Definition encode_i64 (z : Z) : Enc := put_i64 z.
Definition decode_i64 : Dec Z := ensure 8 UnexpectedEof;; get_i64.
Definition encode_u64 (z : Z) : Enc := put_u64 z.
Definition decode_u64 : Dec Z := ensure 8 UnexpectedEof;; get_u64.
Definition encode_f32 (z : Z) : Enc := put_f32 z.
Definition decode_f32 : Dec Z := ensure 4 UnexpectedEof;; get_f32.
Definition encode_f64 (z : Z) : Enc := put_f64 z.
Definition decode_f64 : Dec Z := ensure 8 UnexpectedEof;; get_f64.

(** ** Strings, byte arrays, UUIDs *)

Definition encode_string (s : bytes) : Enc :=
  if Z.of_nat (length s) >? MAX_STRING_LENGTH * 3
  then fail (StringTooLong (Z.of_nat (length s)) (MAX_STRING_LENGTH * 3))
  else VarInt_encode (wraps 32 (Z.of_nat (length s)));; put_slice s.

Definition decode_string : Dec bytes :=
  let! v := VarInt_decode in
  let len := wrapu 64 v in
  if len >? MAX_STRING_LENGTH * 3 then fail (StringTooLong len (MAX_STRING_LENGTH * 3))
  else
    ensure len UnexpectedEof;;
    let! bs := copy_to_bytes len in
    from_utf8 bs.

Definition encode_byte_array (data : bytes) : Enc :=
  VarInt_encode (wraps 32 (Z.of_nat (length data)));; put_slice data.

Definition decode_byte_array : Dec bytes :=
  let! raw := VarInt_decode in
  if raw <? 0 then fail (PacketTooLarge (wrapu 64 raw) MAX_PACKET_SIZE)
  else
    let len := raw in
    if len >? MAX_PACKET_SIZE then fail (PacketTooLarge len MAX_PACKET_SIZE)
    else ensure len UnexpectedEof;; copy_to_bytes len.

(** A [uuid::Uuid] is its sixteen bytes. *)
Definition encode_uuid (u : bytes) : Enc := put_slice u.
Definition decode_uuid : Dec bytes := ensure 16 UnexpectedEof;; copy_to_bytes 16.

(** ** Vectors and options *)

Definition encode_vec {A} (c : codec A) (l : list A) : Enc :=
  VarInt_encode (wraps 32 (Z.of_nat (length l)));; write_many c l.

Definition decode_vec {A} (c : codec A) : Dec (list A) :=
  let! raw := VarInt_decode in
  if raw <? 0 then fail (PacketTooLarge (wrapu 64 raw) MAX_VEC_LEN)
  else
    let len := raw in
    if len >? MAX_VEC_LEN then fail (PacketTooLarge len MAX_VEC_LEN)
    else read_many c (Z.to_nat len).

Definition encode_option {A} (c : codec A) (o : option A) : Enc :=
  match o with
  | Some v => encode_bool true;; enc c v
  | None => encode_bool false
  end.

Definition decode_option {A} (c : codec A) : Dec (option A) :=
  let! present := decode_bool in
  if present : bool then let! v := dec c in ret (Some v) else ret None.

(** ** Codecs *)

Definition Bool : codec bool := Codec encode_bool decode_bool (fun _ => True).
Definition U8 : codec Z := Codec encode_u8 decode_u8 (fits_u 8).
Definition I8 : codec Z := Codec encode_i8 decode_i8 (fits_s 8).
Definition I16 : codec Z := Codec encode_i16 decode_i16 (fits_s 16).
Definition U16 : codec Z := Codec encode_u16 decode_u16 (fits_u 16).
Definition I32 : codec Z := Codec encode_i32 decode_i32 (fits_s 32).
Definition U32 : codec Z := Codec encode_u32 decode_u32 (fits_u 32).
Definition I64 : codec Z := Codec encode_i64 decode_i64 (fits_s 64).
Definition U64 : codec Z := Codec encode_u64 decode_u64 (fits_u 64).
Definition F32 : codec Z := Codec encode_f32 decode_f32 (fits_u 32).
Definition F64 : codec Z := Codec encode_f64 decode_f64 (fits_u 64).

(** A Rust [String] is valid UTF-8; the encoder refuses more than 98301 bytes. *)
Definition string_ok (s : bytes) : Prop :=
  utf8_valid s = true /\ Z.of_nat (length s) <= MAX_STRING_LENGTH * 3.
Definition Str : codec bytes := Codec encode_string decode_string string_ok.

Definition byte_array_ok (s : bytes) : Prop := Z.of_nat (length s) <= MAX_PACKET_SIZE.
Definition ByteArray : codec bytes := Codec encode_byte_array decode_byte_array byte_array_ok.

Definition uuid_ok (u : bytes) : Prop := length u = 16%nat.
Definition Uuid : codec bytes := Codec encode_uuid decode_uuid uuid_ok.

Definition vec_ok {A} (P : A -> Prop) (l : list A) : Prop :=
  Forall P l /\ Z.of_nat (length l) <= MAX_VEC_LEN.
Definition Vec {A} (c : codec A) : codec (list A) :=
  Codec (encode_vec c) (decode_vec c) (vec_ok (wf c)).

Definition option_ok {A} (P : A -> Prop) (o : option A) : Prop :=
  match o with Some v => P v | None => True end.
Definition Opt {A} (c : codec A) : codec (option A) :=
  Codec (encode_option c) (decode_option c) (option_ok (wf c)).

(** ** Packets *)

(** [write_packet]: [packet_id(ver)] as a VarInt, then the body for [ver]. *)
Definition write_packet {P} (packet_id : Z -> Z) (body : Z -> codec P) (ver : Z) (pkt : P) : Enc :=
  VarInt_encode (packet_id ver);; enc (body ver) pkt.

Definition read_packet {P} (body : Z -> codec P) (ver : Z) : Dec P := dec (body ver).

(** ** Lemmas *)

Section Integers.
Variables (n : nat) (k : Z).
Hypothesis Hn : (0 < n)%nat.
Hypothesis Hk : k = Z.of_nat n.

Lemma lawful_uint :
  Lawful (Codec (put_int n) (ensure k UnexpectedEof;; get_uint n) (fits_u (8 * Z.of_nat n))).
Proof.
  apply lawful_intro; cbn [enc dec wf].
  - intros v Hv. exists (be_bytes n v). split; [apply writes_put|].
    apply reads_ensure; [rewrite length_be_bytes; lia|by apply reads_uint].
  - apply total_ensure. rewrite Hk, Nat2Z.id. apply guarded_uint.
  - apply consuming_bind; [apply consuming_ensure|intros; apply consuming_uint].
Qed.

Lemma lawful_sint :
  Lawful (Codec (put_int n) (ensure k UnexpectedEof;; get_int n) (fits_s (8 * Z.of_nat n))).
Proof.
  apply lawful_intro; cbn [enc dec wf].
  - intros v Hv. exists (be_bytes n v). split; [apply writes_put|].
    apply reads_ensure; [rewrite length_be_bytes; lia|by apply reads_int].
  - apply total_ensure. rewrite Hk, Nat2Z.id. apply guarded_int.
  - apply consuming_bind; [apply consuming_ensure|intros; apply consuming_int].
Qed.

End Integers.

#[export] Instance U8_lawful : Lawful U8 := lawful_uint 1 1 ltac:(lia) eq_refl.
#[export] Instance I8_lawful : Lawful I8 := lawful_sint 1 1 ltac:(lia) eq_refl.
#[export] Instance I16_lawful : Lawful I16 := lawful_sint 2 2 ltac:(lia) eq_refl.
#[export] Instance U16_lawful : Lawful U16 := lawful_uint 2 2 ltac:(lia) eq_refl.
#[export] Instance I32_lawful : Lawful I32 := lawful_sint 4 4 ltac:(lia) eq_refl.
#[export] Instance U32_lawful : Lawful U32 := lawful_uint 4 4 ltac:(lia) eq_refl.
#[export] Instance I64_lawful : Lawful I64 := lawful_sint 8 8 ltac:(lia) eq_refl.
#[export] Instance U64_lawful : Lawful U64 := lawful_uint 8 8 ltac:(lia) eq_refl.
#[export] Instance F32_lawful : Lawful F32 := lawful_uint 4 4 ltac:(lia) eq_refl.
#[export] Instance F64_lawful : Lawful F64 := lawful_uint 8 8 ltac:(lia) eq_refl.

#[export] Instance Bool_lawful : Lawful Bool.
Proof.
  apply lawful_intro; cbn [Bool enc dec wf].
  - intros b _. exists [zb (if b then 1 else 0)]. split; [apply writes_u8|].
    apply reads_ensure; [done|]. rewrite <- (app_nil_r [_]).
    eapply reads_bind; [apply reads_u8; by destruct b|]. destruct b; apply reads_ret.
  - unfold decode_bool. solve_total.
  - unfold decode_bool. solve_consuming.
Qed.

(** The length prefixes of strings, arrays and vectors are small enough for
    the [as i32] of the encoders to be exact. *)
Lemma length_prefix_ok len : 0 <= len < 2 ^ 31 -> wf VarInt (wraps 32 len) /\ wraps 32 len = len.
Proof. intros H. split; [by apply wraps_fits|]. apply wraps_id; width. Qed.

Lemma writes_length_prefix len : 0 <= len < 2 ^ 31 ->
  writes (VarInt_encode (wraps 32 len)) (wire VarInt len) /\ reads VarInt_decode (wire VarInt len) len.
Proof.
  intros H. destruct (length_prefix_ok len H) as [Hwf Heq]. rewrite Heq in Hwf |- *.
  split; [apply (lawful_writes (c := VarInt) _ Hwf)|apply (lawful_reads (c := VarInt) _ Hwf)].
Qed.

Lemma total_VarInt : total VarInt_decode.
Proof. apply (lawful_total (c := VarInt)). Qed.
Lemma consuming_VarInt : consuming VarInt_decode.
Proof. apply (lawful_consuming (c := VarInt)). Qed.

#[export] Hint Resolve total_VarInt consuming_VarInt : codec.
#[export] Hint Resolve total_many consuming_many : codec.

Lemma total_from_utf8 bs : total (from_utf8 bs).
Proof. unfold from_utf8. by destruct (utf8_valid bs). Qed.
Lemma consuming_from_utf8 bs : consuming (from_utf8 bs).
Proof. unfold from_utf8. destruct (utf8_valid bs); [apply consuming_ret|apply consuming_fail]. Qed.
Lemma reads_from_utf8 bs : utf8_valid bs = true -> reads (from_utf8 bs) [] bs.
Proof. unfold from_utf8. intros ->. apply reads_ret. Qed.

#[export] Hint Resolve total_from_utf8 consuming_from_utf8 reads_from_utf8 : codec.

#[export] Instance Str_lawful : Lawful Str.
Proof.
  apply lawful_intro; cbn [Str enc dec wf].
  - intros s [Hu Hl]. assert (Hl' : 0 <= Z.of_nat (length s) < 2 ^ 31)
      by (unfold MAX_STRING_LENGTH in Hl; lia).
    destruct (writes_length_prefix _ Hl') as [Hw Hr].
    exists (wire VarInt (Z.of_nat (length s)) ++ s). split.
    + unfold encode_string. destruct (Z.gtb_spec (Z.of_nat (length s)) (MAX_STRING_LENGTH * 3)); [lia|].
      apply writes_bind; [done|apply writes_put].
    + unfold decode_string. eapply reads_bind; [done|]. rewrite wrapu_id by (unfold fits_u; lia).
      destruct (Z.gtb_spec (Z.of_nat (length s)) (MAX_STRING_LENGTH * 3)); [lia|].
      apply reads_ensure; [lia|]. rewrite <- (app_nil_r s) at 2.
      eapply reads_bind; [by apply reads_copy|by apply reads_from_utf8].
  - unfold decode_string. solve_total.
  - unfold decode_string. solve_consuming.
Qed.

#[export] Instance ByteArray_lawful : Lawful ByteArray.
Proof.
  apply lawful_intro; cbn [ByteArray enc dec wf].
  - intros s Hl. unfold byte_array_ok in Hl. change MAX_PACKET_SIZE with 33554432 in Hl.
    destruct (writes_length_prefix (Z.of_nat (length s)) ltac:(lia)) as [Hw Hr].
    exists (wire VarInt (Z.of_nat (length s)) ++ s). split.
    + apply writes_bind; [done|apply writes_put].
    + unfold decode_byte_array. eapply reads_bind; [done|].
      destruct (Z.ltb_spec (Z.of_nat (length s)) 0); [lia|].
      destruct (Z.gtb_spec (Z.of_nat (length s)) MAX_PACKET_SIZE) as [H'|];
        [change MAX_PACKET_SIZE with 33554432 in H'; lia|].
      apply reads_ensure; [lia|]. by apply reads_copy.
  - unfold decode_byte_array. solve_total.
  - unfold decode_byte_array. solve_consuming.
Qed.

#[export] Instance Uuid_lawful : Lawful Uuid.
Proof.
  apply lawful_intro; cbn [Uuid enc dec wf].
  - intros u Hu. unfold uuid_ok in Hu. exists u. split; [apply writes_put|].
    apply reads_ensure; [lia|]. apply reads_copy. lia.
  - unfold decode_uuid. solve_total.
  - unfold decode_uuid. solve_consuming.
Qed.

#[export] Instance Vec_lawful {A} (c : codec A) : Lawful c -> Lawful (Vec c).
Proof.
  intros Hc. apply lawful_intro; cbn [Vec enc dec wf].
  - intros l [Hf Hl]. unfold MAX_VEC_LEN in Hl.
    destruct (writes_length_prefix (Z.of_nat (length l)) ltac:(lia)) as [Hw Hr].
    exists (wire VarInt (Z.of_nat (length l)) ++ wire_many c l). split.
    + apply writes_bind; [done|by apply writes_many].
    + unfold decode_vec, MAX_VEC_LEN. eapply reads_bind; [done|].
      destruct (Z.ltb_spec (Z.of_nat (length l)) 0); [lia|].
      destruct (Z.gtb_spec (Z.of_nat (length l)) 65536); [lia|].
      rewrite Nat2Z.id. by apply reads_many.
  - unfold decode_vec. solve_total.
  - unfold decode_vec. solve_consuming.
Qed.

#[export] Instance Opt_lawful {A} (c : codec A) : Lawful c -> Lawful (Opt c).
Proof.
  intros Hc. apply lawful_intro; cbn [Opt enc dec wf].
  - intros [v|] Hv; cbn [option_ok] in Hv.
    + exists (wire Bool true ++ wire c v ++ []). split.
      * apply writes_bind; [by apply (lawful_writes (c := Bool))|].
        rewrite app_nil_r. by apply lawful_writes.
      * eapply reads_bind; [by apply (lawful_reads (c := Bool) true)|].
        eapply reads_bind; [by apply lawful_reads|apply reads_ret].
    + exists (wire Bool false ++ []). split.
      * rewrite app_nil_r. by apply (lawful_writes (c := Bool) false).
      * eapply reads_bind; [by apply (lawful_reads (c := Bool) false)|apply reads_ret].
  - unfold decode_option. change decode_bool with (dec Bool). solve_total.
  - unfold decode_option. change decode_bool with (dec Bool). solve_consuming.
Qed.

(** ** Properties *)

(** Every primitive implementation of codec.rs ([bool], the ten fixed-width
    numbers, [String], byte arrays, [Uuid]) keeps the codec contract: on every
    value of the type that the encoder accepts, decoding the encoding followed
    by anything returns the value and what follows; on arbitrary bytes the
    decoder returns without panicking and only removes a prefix. *)
Theorem primitives_lawful :
  Lawful Bool /\ Lawful U8 /\ Lawful I8 /\ Lawful U16 /\ Lawful I16 /\ Lawful U32 /\ Lawful I32 /\
  Lawful U64 /\ Lawful I64 /\ Lawful F32 /\ Lawful F64 /\ Lawful Str /\ Lawful ByteArray /\
  Lawful Uuid.
Proof. split_and!; exact _. Qed.

(** [Vec<T>] and [Option<T>] keep the codec contract whenever [T] does, at
    any nesting. *)
Theorem containers_lawful {A} (c : codec A) :
  Lawful c -> Lawful (Vec c) /\ Lawful (Opt c) /\ Lawful (Vec (Opt c)) /\ Lawful (Opt (Vec c)).
Proof. intros Hc. split_and!; exact _. Qed.

Lemma containers_lawful_witness : Lawful Str /\
  Lawful (Vec Str) /\ Lawful (Opt Str) /\ Lawful (Vec (Opt Str)) /\ Lawful (Opt (Vec Str)).
Proof. split; [exact Str_lawful|apply (containers_lawful Str Str_lawful)]. Defined.

Lemma decode_string_ok src s rest :
  decode_string src = (Ok s, rest) ->
  string_ok s /\ exists prefix, src = prefix ++ s ++ rest /\ (1 <= length prefix <= 5)%nat.
Proof.
  unfold decode_string. intros H. apply bind_inv_ok in H as (v & s1 & Hv & H).
  pose proof (VarInt_decode_cases src) as Ho. rewrite Hv in Ho.
  destruct Ho as [_ (used & -> & Hu)]. cbv zeta in H.
  destruct (Z.gtb_spec (wrapu 64 v) (MAX_STRING_LENGTH * 3)); [done|].
  pose proof (wrapu_fits 64 v ltac:(lia)) as [Hpos _].
  apply bind_inv_ok in H as ([] & s2 & He & H). unfold ensure, remaining in He.
  destruct (Z.ltb_spec (Z.of_nat (length s1)) (wrapu 64 v)); simplify_eq.
  apply bind_inv_ok in H as (bs & s3 & Hc & H). unfold copy_to_bytes, take_bytes in Hc.
  destruct (Nat.ltb_spec (length s2) (Z.to_nat (wrapu 64 v))); simplify_eq.
  unfold from_utf8 in H. destruct (utf8_valid _) eqn:Hutf; unfold ret, fail in H; simplify_eq.
  split; [split; [done|rewrite length_take; lia]|].
  exists used. by rewrite take_drop.
Qed.

(** [String::decode] is safe on arbitrary input: it returns, and a string it
    returns is valid UTF-8, at most 98301 bytes long, and stood in the input
    right after a one- to five-byte length.  [String::encode] of a longer string
    reports [StringTooLong] and writes nothing. *)
Theorem decode_string_safe (src dst s : bytes) :
  returned (decode_string src).1 /\
  (forall t rest, decode_string src = (Ok t, rest) ->
     string_ok t /\ exists prefix, src = prefix ++ t ++ rest /\ (1 <= length prefix <= 5)%nat) /\
  (Z.of_nat (length s) > 98301 ->
     encode_string s dst = (Err (StringTooLong (Z.of_nat (length s)) 98301), dst)).
Proof.
  split_and!.
  - apply (lawful_total (c := Str)).
  - intros t rest. apply decode_string_ok.
  - intros Hlen. unfold encode_string.
    destruct (Z.gtb_spec (Z.of_nat (length s)) (MAX_STRING_LENGTH * 3)) as [|H]; [done|].
    change (MAX_STRING_LENGTH * 3) with 98301 in H. lia.
Qed.

(** A packet written by [write_packet] is read back: reading a VarInt gives
    the packet id of the version, and [read_packet] for the same version then
    gives the packet and leaves what follows. *)
Theorem packet_roundtrip {P} (packet_id : Z -> Z) (body : Z -> codec P) (ver : Z) (pkt : P)
    (dst rest : bytes) :
  Lawful (body ver) -> fits_u 8 (packet_id ver) -> wf (body ver) pkt ->
  exists bs,
    write_packet packet_id body ver pkt dst = (Ok tt, dst ++ bs) /\
    (let! id := VarInt_decode in let! p := read_packet body ver in ret (id, p)) (bs ++ rest) =
      (Ok (packet_id ver, pkt), rest).
Proof.
  intros Hl Hid Hwf. assert (Hv : wf VarInt (packet_id ver)) by (cbn; width).
  exists (wire VarInt (packet_id ver) ++ wire (body ver) pkt). split.
  - revert dst. apply writes_bind; [apply (lawful_writes (c := VarInt) _ Hv)|by apply lawful_writes].
  - revert rest. unfold read_packet. eapply reads_bind; [apply (lawful_reads (c := VarInt) _ Hv)|].
    eapply reads_bind_last; [by apply lawful_reads|apply reads_ret].
Qed.

Lemma packet_roundtrip_witness :
  Lawful Str /\ fits_u 8 (0x40) /\ wf Str (lit "hi") /\
  exists bs,
    write_packet (fun _ => 0x40) (fun _ => Str) 763 (lit "hi") [] = (Ok tt, [] ++ bs) /\
    (let! id := VarInt_decode in let! p := read_packet (fun _ => Str) 763 in ret (id, p)) (bs ++ []) =
      (Ok (0x40, lit "hi"), []).
Proof.
  assert (H1 : fits_u 8 0x40) by width.
  assert (H2 : wf Str (lit "hi")) by (split; vm_compute; congruence).
  split; [exact Str_lawful|split; [exact H1|split; [exact H2|]]].
  apply (packet_roundtrip (fun _ => 0x40) (fun _ => Str) 763 (lit "hi") [] [] Str_lawful H1 H2).
Defined.
