(* ===== verification/Position.v ===== *)
(** * Packed block positions

    crates/protocol/src/types/position.rs: three signed coordinates in one
    64-bit word, in the modern (1.14+) layout [x:26 | z:26 | y:12] and the
    legacy layout [x:26 | y:12 | z:26]. *)
From Stdlib Require Import ZArith Lia Strings.Byte.
From stdpp Require Import base list numbers strings.
From S2P Require Import Prelude Buf Wire VarInt Codec.
Local Open Scope Z_scope.

Record Position := mkPosition { pos_x : Z; pos_y : Z; pos_z : Z }.

(** [if v >= 2^(n-1) { v -= 2^n }]: the sign extension written out per field. *)
Definition sign_fix (half full v : Z) : Z := if v >=? half then v - full else v.

Definition Position_encode (p : Position) : Enc :=
  let x := Z.land (pos_x p) 0x3FFFFFF in
  let z := Z.land (pos_z p) 0x3FFFFFF in
  let y := Z.land (pos_y p) 0xFFF in
  let packed :=
    wrapu 64 (Z.lor (Z.lor (wraps 64 (Z.shiftl x 38)) (wraps 64 (Z.shiftl z 12))) y) in
  put_u64 packed.

Definition Position_decode : Dec Position :=
  ensure 8 UnexpectedEof;;
  let! u := get_u64 in
  let val := wraps 64 u in
  let x := Z.land (Z.shiftr val 38) 0x3FFFFFF in
  let y := Z.land val 0xFFF in
  let z := Z.land (Z.shiftr val 12) 0x3FFFFFF in
  let x := sign_fix 0x2000000 0x4000000 x in
  let z := sign_fix 0x2000000 0x4000000 z in
  let y := sign_fix 0x800 0x1000 y in
  ret (mkPosition (wraps 32 x) (wraps 32 y) (wraps 32 z)).

Definition decode_legacy_position (val : Z) : Position :=
  let v := wraps 64 val in
  let x := sign_fix 0x2000000 0x4000000 (Z.land (Z.shiftr v 38) 0x3FFFFFF) in
  let y := sign_fix 0x800 0x1000 (Z.land (Z.shiftr v 26) 0xFFF) in
  let z := sign_fix 0x2000000 0x4000000 (Z.land v 0x3FFFFFF) in
  mkPosition (wraps 32 x) (wraps 32 y) (wraps 32 z).

Definition encode_legacy_position (pos : Position) : Z :=
  Z.lor (Z.lor (wraps 64 (Z.shiftl (Z.land (pos_x pos) 0x3FFFFFF) 38))
               (wraps 64 (Z.shiftl (Z.land (pos_y pos) 0xFFF) 26)))
        (Z.land (pos_z pos) 0x3FFFFFF).

Definition decode_modern_position (val : Z) : Position :=
  let v := wraps 64 val in
  let x := sign_fix 0x2000000 0x4000000 (Z.land (Z.shiftr v 38) 0x3FFFFFF) in
  let z := sign_fix 0x2000000 0x4000000 (Z.land (Z.shiftr v 12) 0x3FFFFFF) in
  let y := sign_fix 0x800 0x1000 (Z.land v 0xFFF) in
  mkPosition (wraps 32 x) (wraps 32 y) (wraps 32 z).

Definition encode_modern_position (pos : Position) : Z :=
  Z.lor (Z.lor (wraps 64 (Z.shiftl (Z.land (pos_x pos) 0x3FFFFFF) 38))
               (wraps 64 (Z.shiftl (Z.land (pos_z pos) 0x3FFFFFF) 12)))
        (Z.land (pos_y pos) 0xFFF).

(** ** Bit fields *)

Lemma land_26 v : Z.land v 0x3FFFFFF = v mod 2 ^ 26.
Proof. change 0x3FFFFFF with (Z.ones 26). by rewrite Z.land_ones. Qed.
Lemma land_12 v : Z.land v 0xFFF = v mod 2 ^ 12.
Proof. change 0xFFF with (Z.ones 12). by rewrite Z.land_ones. Qed.

Lemma wrapu_lor w a b : 0 <= w -> wrapu w (Z.lor a b) = Z.lor (wrapu w a) (wrapu w b).
Proof. intros. unfold wrapu. rewrite <- !Z.land_ones by done. apply Z.land_lor_distr_l. Qed.

(** Reading the word as signed does not change the bits below 64. *)
Lemma wraps_multiple w u : 0 <= w -> exists m, wraps w u = u + m * 2 ^ w.
Proof.
  intros Hw. exists (- ((u + 2 ^ (w - 1)) / 2 ^ w)). unfold wraps.
  pose proof (Z.div_mod (u + 2 ^ (w - 1)) (2 ^ w)) as H.
  pose proof (pow2_pos w Hw). lia.
Qed.

Lemma slice_wraps u k n : 0 <= k -> 0 <= n -> k + n <= 64 ->
  (wraps 64 u / 2 ^ k) mod 2 ^ n = (u / 2 ^ k) mod 2 ^ n.
Proof.
  intros. destruct (wraps_multiple 64 u ltac:(lia)) as [m ->].
  replace (2 ^ 64) with (2 ^ (64 - k - n) * 2 ^ n * 2 ^ k)
    by (rewrite <- !Z.pow_add_r by lia; f_equal; lia).
  rewrite !Z.mul_assoc, Z.div_add, Z.mod_add by (apply Z.pow_nonzero; lia). done.
Qed.

Lemma sign_fix_wraps n v : 0 < n -> sign_fix (2 ^ (n - 1)) (2 ^ n) (v mod 2 ^ n) = wraps n v.
Proof.
  intros Hn. rewrite <- (wraps_mod n v) by lia. unfold sign_fix, wraps.
  pose proof (Z.mod_pos_bound v (2 ^ n) (pow2_pos n ltac:(lia))). pose proof (pow2_half n Hn).
  set (r := v mod 2 ^ n) in *.
  destruct (Z.geb_spec r (2 ^ (n - 1))).
  - assert (Hm : (r + 2 ^ (n - 1)) mod 2 ^ n = r - 2 ^ (n - 1)); [|lia].
    symmetry. apply (Z.mod_unique _ _ 1); lia.
  - rewrite Z.mod_small; lia.
Qed.

Lemma wraps_mod_small n v : 0 < n -> wraps n (v mod 2 ^ n) = wraps n v.
Proof. intros. apply wraps_mod. lia. Qed.

(** What survives of a coordinate: its low bits, sign-extended. *)
Definition truncated (p : Position) : Position :=
  mkPosition (wraps 26 (pos_x p)) (wraps 12 (pos_y p)) (wraps 26 (pos_z p)).

Definition in_world (p : Position) : Prop :=
  fits_s 26 (pos_x p) /\ fits_s 12 (pos_y p) /\ fits_s 26 (pos_z p).

Lemma truncated_in_world p : in_world p -> truncated p = p.
Proof. intros (?&?&?). destruct p. unfold truncated. cbn in *. by rewrite !wraps_id. Qed.

(** A word packed from three fields, and its fields. *)
Section Packing.
Variables (a b c na nb nc : Z).
Hypothesis Hna : 0 < na.
Hypothesis Hnb : 0 < nb.
Hypothesis Hnc : 0 < nc.
Hypothesis Hsum : na + nb + nc = 64.

Definition packed3 : Z :=
  a mod 2 ^ na * 2 ^ (nb + nc) + (b mod 2 ^ nb * 2 ^ nc + c mod 2 ^ nc).

Lemma packed3_lor :
  wrapu 64 (Z.lor (Z.lor (wraps 64 (Z.shiftl (a mod 2 ^ na) (nb + nc)))
                         (wraps 64 (Z.shiftl (b mod 2 ^ nb) nc))) (c mod 2 ^ nc)) = packed3.
Proof.
  pose proof (pow2_pos na ltac:(lia)). pose proof (pow2_pos nb ltac:(lia)).
  pose proof (pow2_pos nc ltac:(lia)).
  pose proof (Z.mod_pos_bound a (2 ^ na)) as Ha. pose proof (Z.mod_pos_bound b (2 ^ nb)) as Hb.
  pose proof (Z.mod_pos_bound c (2 ^ nc)) as Hc.
  assert (H64 : 2 ^ 64 = 2 ^ na * (2 ^ nb * 2 ^ nc))
    by (rewrite <- Hsum, <- !Z.pow_add_r by lia; f_equal; lia).
  rewrite !wrapu_lor, !wrapu_wraps, !Z.shiftl_mul_pow2 by lia.
  rewrite Z.pow_add_r by lia.
  specialize (Ha ltac:(done)). specialize (Hb ltac:(done)). specialize (Hc ltac:(done)).
  assert (0 <= b mod 2 ^ nb * 2 ^ nc < 2 ^ nb * 2 ^ nc) by nia.
  assert (0 <= a mod 2 ^ na * (2 ^ nb * 2 ^ nc) < 2 ^ na * (2 ^ nb * 2 ^ nc)) by nia.
  assert (2 ^ nb * 2 ^ nc <= 2 ^ na * (2 ^ nb * 2 ^ nc)) by nia.
  assert (2 ^ nc <= 2 ^ nb * 2 ^ nc) by nia.
  rewrite !wrapu_id by (unfold fits_u; rewrite H64; lia).
  rewrite (Z.lor_comm _ (c mod _)), (Z.lor_comm _ (b mod _ * _)), Z.lor_assoc.
  rewrite lor_disjoint by lia. rewrite <- Z.pow_add_r by lia.
  rewrite lor_disjoint; [unfold packed3; lia|lia|]. rewrite Z.pow_add_r by lia. nia.
Qed.

Lemma packed3_range : fits_u 64 packed3.
Proof. rewrite <- packed3_lor. apply wrapu_fits. lia. Qed.

Lemma packed3_a : packed3 / 2 ^ (nb + nc) mod 2 ^ na = a mod 2 ^ na.
Proof.
  pose proof (pow2_pos na ltac:(lia)). pose proof (pow2_pos nb ltac:(lia)).
  pose proof (pow2_pos nc ltac:(lia)). pose proof (pow2_pos (nb + nc) ltac:(lia)).
  pose proof (Z.mod_pos_bound b (2 ^ nb)). pose proof (Z.mod_pos_bound c (2 ^ nc)).
  unfold packed3. rewrite Z.add_comm, Z.div_add, Z.div_small by (rewrite ?Z.pow_add_r by lia; nia).
  by rewrite Z.add_0_l, Z.mod_mod by lia.
Qed.

Lemma packed3_b : packed3 / 2 ^ nc mod 2 ^ nb = b mod 2 ^ nb.
Proof.
  pose proof (pow2_pos nb ltac:(lia)). pose proof (pow2_pos nc ltac:(lia)).
  pose proof (Z.mod_pos_bound c (2 ^ nc)). unfold packed3. rewrite Z.pow_add_r by lia.
  replace (a mod 2 ^ na * (2 ^ nb * 2 ^ nc) + (b mod 2 ^ nb * 2 ^ nc + c mod 2 ^ nc))
    with (c mod 2 ^ nc + (b mod 2 ^ nb + a mod 2 ^ na * 2 ^ nb) * 2 ^ nc) by lia.
  rewrite Z.div_add, Z.div_small, Z.add_0_l, Z.mod_add, Z.mod_mod by lia. done.
Qed.

Lemma packed3_c : packed3 mod 2 ^ nc = c mod 2 ^ nc.
Proof.
  pose proof (pow2_pos nc ltac:(lia)). unfold packed3. rewrite Z.pow_add_r by lia.
  replace (a mod 2 ^ na * (2 ^ nb * 2 ^ nc) + (b mod 2 ^ nb * 2 ^ nc + c mod 2 ^ nc))
    with (c mod 2 ^ nc + (b mod 2 ^ nb + a mod 2 ^ na * 2 ^ nb) * 2 ^ nc) by lia.
  by rewrite Z.mod_add, Z.mod_mod by lia.
Qed.

End Packing.

(** A decoded field is the sign extension of the bits it was packed from. *)
Lemma decoded_field u k n v :
  0 <= k -> 0 < n <= 32 -> k + n <= 64 -> (u / 2 ^ k) mod 2 ^ n = v mod 2 ^ n ->
  wraps 32 (sign_fix (2 ^ (n - 1)) (2 ^ n) ((wraps 64 u / 2 ^ k) mod 2 ^ n)) = wraps n v.
Proof.
  intros Hk Hn Hkn Hu. rewrite slice_wraps, Hu, sign_fix_wraps by lia.
  apply wraps_id; [lia|]. pose proof (wraps_fits n v ltac:(lia)) as Hf. unfold fits_s in *.
  pose proof (Z.pow_le_mono_r 2 (n - 1) (32 - 1)). lia.
Qed.

Ltac position_fields :=
  rewrite !land_26, !land_12, ?Z.shiftr_div_pow2 by lia;
  change 0x2000000 with (2 ^ (26 - 1)); change 0x4000000 with (2 ^ 26);
  change 0x800 with (2 ^ (12 - 1)); change 0x1000 with (2 ^ 12).

Lemma wraps_div_1 u n : wraps 64 u mod 2 ^ n = (wraps 64 u / 2 ^ 0) mod 2 ^ n.
Proof. by rewrite Z.pow_0_r, Z.div_1_r. Qed.

Lemma modern_roundtrip p :
  wrapu 64 (encode_modern_position p) = packed3 (pos_x p) (pos_z p) (pos_y p) 26 26 12.
Proof.
  unfold encode_modern_position. rewrite !land_26, land_12.
  apply (packed3_lor (pos_x p) (pos_z p) (pos_y p) 26 26 12); lia.
Qed.

Lemma decode_modern_packed p :
  decode_modern_position (packed3 (pos_x p) (pos_z p) (pos_y p) 26 26 12) = truncated p.
Proof.
  unfold decode_modern_position, truncated. position_fields. cbv zeta.
  rewrite (wraps_div_1 _ 12). f_equal; apply decoded_field; try lia.
  - apply (packed3_a _ _ _ 26 26 12); lia.
  - rewrite Z.pow_0_r, Z.div_1_r. apply (packed3_c _ _ _ 26 26 12); lia.
  - apply (packed3_b _ _ _ 26 26 12); lia.
Qed.

Lemma legacy_roundtrip p :
  wrapu 64 (encode_legacy_position p) = packed3 (pos_x p) (pos_y p) (pos_z p) 26 12 26.
Proof.
  unfold encode_legacy_position. rewrite !land_26, land_12.
  apply (packed3_lor (pos_x p) (pos_y p) (pos_z p) 26 12 26); lia.
Qed.

Lemma decode_legacy_packed p :
  decode_legacy_position (packed3 (pos_x p) (pos_y p) (pos_z p) 26 12 26) = truncated p.
Proof.
  unfold decode_legacy_position, truncated. position_fields. cbv zeta.
  rewrite (wraps_div_1 _ 26). f_equal; apply decoded_field; try lia.
  - apply (packed3_a _ _ _ 26 12 26); lia.
  - apply (packed3_b _ _ _ 26 12 26); lia.
  - rewrite Z.pow_0_r, Z.div_1_r. apply (packed3_c _ _ _ 26 12 26); lia.
Qed.

(** The trait implementations are the free functions of the modern layout. *)
Lemma Position_encode_modern p :
  Position_encode p = put_u64 (wrapu 64 (encode_modern_position p)).
Proof. done. Qed.

Lemma Position_decode_modern :
  Position_decode = (ensure 8 UnexpectedEof;; let! u := get_u64 in ret (decode_modern_position u)).
Proof. done. Qed.

Definition PositionCodec : codec Position := Codec Position_encode Position_decode in_world.

Lemma position_wire p rest :
  Position_decode (be_bytes 8 (wrapu 64 (encode_modern_position p)) ++ rest) =
  (Ok (truncated p), rest).
Proof.
  revert rest. rewrite Position_decode_modern. apply reads_ensure; [by rewrite length_be_bytes|].
  eapply reads_bind_last; [apply reads_uint; apply wrapu_fits; lia|].
  rewrite modern_roundtrip, decode_modern_packed. apply reads_ret.
Qed.

#[export] Instance PositionCodec_lawful : Lawful PositionCodec.
Proof.
  apply lawful_intro; cbn [PositionCodec enc dec wf].
  - intros p Hp. eexists. split; [rewrite Position_encode_modern; apply writes_put|].
    intros rest. by rewrite position_wire, truncated_in_world.
  - unfold Position_decode. solve_total.
  - unfold Position_decode. solve_consuming.
Qed.

(** ** Properties *)

(** Encoding any position and decoding the eight bytes gives each coordinate
    reduced to its field (26 bits for [x] and [z], 12 for [y]) and
    sign-extended; a position inside those ranges is read back unchanged. *)
Theorem position_roundtrip (p : Position) (dst rest : bytes) :
  exists bs, length bs = 8%nat /\
    Position_encode p dst = (Ok tt, dst ++ bs) /\
    Position_decode (bs ++ rest) = (Ok (truncated p), rest) /\
    (in_world p -> truncated p = p).
Proof.
  exists (be_bytes 8 (wrapu 64 (encode_modern_position p))). split_and!.
  - apply length_be_bytes.
  - rewrite Position_encode_modern. apply writes_put.
  - apply position_wire.
  - apply truncated_in_world.
Qed.

(** Both layouts are inverted by their decoder: the word produced by
    [encode_modern_position] (read as unsigned, as on the wire) decodes through
    [decode_modern_position], and that of [encode_legacy_position] through
    [decode_legacy_position], to the same truncated position; so converting a
    position between the layouts loses nothing for a position in range. *)
Theorem layouts_agree (p : Position) :
  decode_modern_position (wrapu 64 (encode_modern_position p)) = truncated p /\
  decode_legacy_position (wrapu 64 (encode_legacy_position p)) = truncated p /\
  (in_world p ->
   decode_modern_position (wrapu 64 (encode_modern_position
     (decode_legacy_position (wrapu 64 (encode_legacy_position p))))) = p).
Proof.
  rewrite legacy_roundtrip, decode_legacy_packed, !modern_roundtrip, !decode_modern_packed.
  split_and!; [done|done|]. intros Hp. by rewrite !truncated_in_world by (by rewrite ?truncated_in_world).
Qed.

Example roundtrip_max_values :
  decode_modern_position (wrapu 64 (encode_modern_position (mkPosition 33554431 2047 (-33554432))))
  = mkPosition 33554431 2047 (-33554432).
Proof. vm_compute. reflexivity. Qed.
