(* ===== verification/Nbt.v ===== *)
(** * Named Binary Tags

    crates/protocol/src/types/nbt.rs: the NBT tree, its encoder and decoder and
    the streaming [skip].  A [HashMap<String, NbtTag>] is the list of its
    entries in iteration order, keys distinct; every iteration order is some
    such list, and the theorems hold for each.  Recursion is bounded by a fuel
    the entry points set from the input's length, which is shown to be enough. *)
From Stdlib Require Import ZArith Lia Strings.Byte.
From stdpp Require Import base list numbers strings.
From S2P Require Import Prelude Buf Wire VarInt Codec.
Local Open Scope Z_scope.

Local Set Warnings "-register-all".

Definition MAX_NBT_DEPTH : Z := 512.
Definition MAX_NBT_ARRAY_LEN : Z := 1048576.

Inductive TagType :=
  | T_End | T_Byte | T_Short | T_Int | T_Long | T_Float | T_Double
  | T_ByteArray | T_String | T_List | T_Compound | T_IntArray | T_LongArray.

#[export] Instance TagType_eq_dec : EqDecision TagType.
Proof. solve_decision. Defined.

Definition TagType_from_u8 (v : Z) : Dec TagType :=
  match v with
  | 0 => ret T_End
  | 1 => ret T_Byte
  | 2 => ret T_Short
  | 3 => ret T_Int
  | 4 => ret T_Long
  | 5 => ret T_Float
  | 6 => ret T_Double
  | 7 => ret T_ByteArray
  | 8 => ret T_String
  | 9 => ret T_List
  | 10 => ret T_Compound
  | 11 => ret T_IntArray
  | 12 => ret T_LongArray
  | other => fail (UnknownNbtTag other)
  end.

Inductive NbtTag :=
  | NbtEnd
  | NbtByte (v : Z)
  | NbtShort (v : Z)
  | NbtInt (v : Z)
  | NbtLong (v : Z)
  | NbtFloat (v : Z)
  | NbtDouble (v : Z)
  | NbtByteArray (arr : list Z)
  | NbtString (s : bytes)
  | NbtList (items : list NbtTag)
  | NbtCompound (map : list (bytes * NbtTag))
  | NbtIntArray (arr : list Z)
  | NbtLongArray (arr : list Z).

Record Nbt := mkNbt { nbt_name : bytes; nbt_root : list (bytes * NbtTag) }.

Definition Nbt_empty (name : bytes) : Nbt := mkNbt name [].

(** ** HashMap entries *)

(** [HashMap::insert]: the value of a present key is replaced. *)
Fixpoint map_insert (k : bytes) (t : NbtTag) (m : list (bytes * NbtTag)) : list (bytes * NbtTag) :=
  match m with
  | [] => [(k, t)]
  | (k', t') :: m' => if decide (k = k') then (k, t) :: m' else (k', t') :: map_insert k t m'
  end.

(** [HashMap::get] *)
Fixpoint map_get (k : bytes) (m : list (bytes * NbtTag)) : option NbtTag :=
  match m with
  | [] => None
  | (k', t) :: m' => if decide (k = k') then Some t else map_get k m'
  end.

Definition Nbt_get (n : Nbt) (key : bytes) : option NbtTag := map_get key (nbt_root n).
Definition Nbt_insert (n : Nbt) (key : bytes) (tag : NbtTag) : Nbt :=
  mkNbt (nbt_name n) (map_insert key tag (nbt_root n)).
Definition Nbt_contains_key (n : Nbt) (key : bytes) : bool :=
  match Nbt_get n key with Some _ => true | None => false end.
Definition Nbt_len (n : Nbt) : Z := Z.of_nat (length (nbt_root n)).

Definition Nbt_get_string (n : Nbt) (key : bytes) : option bytes :=
  match Nbt_get n key with Some (NbtString s) => Some s | _ => None end.
Definition Nbt_get_int (n : Nbt) (key : bytes) : option Z :=
  match Nbt_get n key with Some (NbtInt v) => Some v | _ => None end.
Definition Nbt_get_long (n : Nbt) (key : bytes) : option Z :=
  match Nbt_get n key with Some (NbtLong v) => Some v | _ => None end.

(** ** Strings *)

Definition read_nbt_string : Dec bytes :=
  ensure 2 UnexpectedEof;;
  let! len := get_u16 in
  ensure len UnexpectedEof;;
  let! bs := copy_to_bytes len in
  from_utf8 bs.

Definition write_nbt_string (s : bytes) : Enc :=
  if Z.of_nat (length s) >? 65535 then fail (UnknownNbtTag 0)
  else put_u16 (wrapu 16 (Z.of_nat (length s)));; put_slice s.

(** ** Decoding *)

(** The length prefix of arrays and lists. *)
Definition read_array_len : Dec Z :=
  let! raw_len := get_i32 in
  if negb ((0 <=? raw_len) && (raw_len <=? MAX_NBT_ARRAY_LEN)) then fail (UnknownNbtTag 0)
  else ret raw_len.

Fixpoint read_tag_payload_depth (fuel : nat) (tag_type : TagType) (depth : Z) {struct fuel}
    : Dec NbtTag :=
  match fuel with
  | O => nofuel
  | S fuel' =>
      match tag_type with
      | T_End => ret NbtEnd
      | T_Byte => ensure 1 UnexpectedEof;; let! v := get_i8 in ret (NbtByte v)
      | T_Short => ensure 2 UnexpectedEof;; let! v := get_i16 in ret (NbtShort v)
      | T_Int => ensure 4 UnexpectedEof;; let! v := get_i32 in ret (NbtInt v)
      | T_Long => ensure 8 UnexpectedEof;; let! v := get_i64 in ret (NbtLong v)
      | T_Float => ensure 4 UnexpectedEof;; let! v := get_f32 in ret (NbtFloat v)
      | T_Double => ensure 8 UnexpectedEof;; let! v := get_f64 in ret (NbtDouble v)
      | T_ByteArray =>
          ensure 4 UnexpectedEof;;
          let! len := read_array_len in
          ensure len UnexpectedEof;;
          let! arr := repeat_dec (Z.to_nat len) get_i8 in
          ret (NbtByteArray arr)
      | T_String => let! s := read_nbt_string in ret (NbtString s)
      | T_List =>
          ensure 1 UnexpectedEof;;
          let! b := get_u8 in
          let! element_type := TagType_from_u8 b in
          ensure 4 UnexpectedEof;;
          let! len := read_array_len in
          if bool_decide (element_type = T_Compound) then
            if depth >=? MAX_NBT_DEPTH then fail (UnknownNbtTag 0)
            else
              let! items := repeat_dec (Z.to_nat len)
                              (read_tag_payload_depth fuel' element_type (depth + 1)) in
              ret (NbtList items)
          else
            let! items := repeat_dec (Z.to_nat len)
                            (read_tag_payload_depth fuel' element_type depth) in
            ret (NbtList items)
      | T_Compound =>
          if depth >=? MAX_NBT_DEPTH then fail (UnknownNbtTag 0)
          else let! m := read_compound fuel' depth [] in ret (NbtCompound m)
      | T_IntArray =>
          ensure 4 UnexpectedEof;;
          let! len := read_array_len in
          let! arr := repeat_dec (Z.to_nat len) (ensure 4 UnexpectedEof;; get_i32) in
          ret (NbtIntArray arr)
      | T_LongArray =>
          ensure 4 UnexpectedEof;;
          let! len := read_array_len in
          let! arr := repeat_dec (Z.to_nat len) (ensure 8 UnexpectedEof;; get_i64) in
          ret (NbtLongArray arr)
      end
  end
(** The [loop] of the Compound case, with the map built so far. *)
with read_compound (fuel : nat) (depth : Z) (m : list (bytes * NbtTag)) {struct fuel}
    : Dec (list (bytes * NbtTag)) :=
  match fuel with
  | O => nofuel
  | S fuel' =>
      ensure 1 UnexpectedEof;;
      let! type_byte := get_u8 in
      let! tag_type := TagType_from_u8 type_byte in
      if bool_decide (tag_type = T_End) then ret m
      else
        let! name := read_nbt_string in
        let! tag := read_tag_payload_depth fuel' tag_type (depth + 1) in
        read_compound fuel' depth (map_insert name tag m)
  end.

Definition read_tag_payload (tag_type : TagType) : Dec NbtTag := fun src =>
  read_tag_payload_depth (2 * length src + 2) tag_type 0 src.

Definition Nbt_decode : Dec Nbt :=
  ensure 1 UnexpectedEof;;
  let! type_byte := get_u8 in
  if type_byte =? 0 then ret (Nbt_empty [])
  else
    let! tag_type := TagType_from_u8 type_byte in
    let! name := read_nbt_string in
    let! payload := read_tag_payload tag_type in
    match payload with
    | NbtCompound m => ret (mkNbt name m)
    | _ => fail (UnknownNbtTag type_byte)
    end.

(** ** Encoding *)

Definition tag_type_byte (tag : NbtTag) : Z :=
  match tag with
  | NbtEnd => 0
  | NbtByte _ => 1
  | NbtShort _ => 2
  | NbtInt _ => 3
  | NbtLong _ => 4
  | NbtFloat _ => 5
  | NbtDouble _ => 6
  | NbtByteArray _ => 7
  | NbtString _ => 8
  | NbtList _ => 9
  | NbtCompound _ => 10
  | NbtIntArray _ => 11
  | NbtLongArray _ => 12
  end.

(** [for x in l { f(x)? }] *)
Definition for_each {A} (f : A -> Enc) : list A -> Enc :=
  fix go l := match l with [] => ret tt | x :: l' => f x;; go l' end.

Fixpoint write_tag_payload (tag : NbtTag) : Enc :=
  match tag with
  | NbtEnd => ret tt
  | NbtByte v => put_i8 v
  | NbtShort v => put_i16 v
  | NbtInt v => put_i32 v
  | NbtLong v => put_i64 v
  | NbtFloat v => put_f32 v
  | NbtDouble v => put_f64 v
  | NbtByteArray arr =>
      put_i32 (wraps 32 (Z.of_nat (length arr)));; for_each put_i8 arr
  | NbtString s => write_nbt_string s
  | NbtList items =>
      let elem_type := match items with t :: _ => tag_type_byte t | [] => 0 end in
      put_u8 elem_type;;
      put_i32 (wraps 32 (Z.of_nat (length items)));;
      for_each write_tag_payload items
  | NbtCompound m =>
      for_each (fun '(name, t) =>
        put_u8 (tag_type_byte t);; write_nbt_string name;; write_tag_payload t) m;;
      put_u8 0
  | NbtIntArray arr =>
      put_i32 (wraps 32 (Z.of_nat (length arr)));; for_each put_i32 arr
  | NbtLongArray arr =>
      put_i32 (wraps 32 (Z.of_nat (length arr)));; for_each put_i64 arr
  end.

Definition Nbt_encode (n : Nbt) : Enc :=
  put_u8 10;;
  write_nbt_string (nbt_name n);;
  write_tag_payload (NbtCompound (nbt_root n)).

(** ** Skipping *)

(** [need(cur, n)] of nbt.rs: checks for [n] bytes and advances past them. *)
Definition skip_need (n : Z) : Dec unit := ensure n UnexpectedEof;; advance n.

Definition skip_name : Dec unit :=
  ensure 2 UnexpectedEof;;
  let! len := get_u16 in
  ensure len UnexpectedEof;;
  advance len.

Definition saturating_mul_usize (a b : Z) : Z := Z.min (a * b) (2 ^ 64 - 1).

Fixpoint skip_payload_depth (fuel : nat) (tag : TagType) (depth : Z) {struct fuel} : Dec unit :=
  match fuel with
  | O => nofuel
  | S fuel' =>
      match tag with
      | T_End => ret tt
      | T_Byte => skip_need 1
      | T_Short => skip_need 2
      | T_Int | T_Float => skip_need 4
      | T_Long | T_Double => skip_need 8
      | T_ByteArray =>
          skip_need 4;;
          let! n := get_i32 in
          if n <? 0 then fail (UnknownNbtTag 0) else skip_need n
      | T_String =>
          skip_need 2;;
          let! n := get_u16 in
          skip_need n
      | T_List =>
          skip_need 5;;
          let! b := get_u8 in
          let! inner := TagType_from_u8 b in
          let! n := get_i32 in
          if n <? 0 then fail (UnknownNbtTag 0)
          else if bool_decide (inner = T_Compound) || bool_decide (inner = T_List) then
            if depth >=? MAX_NBT_DEPTH then fail (UnknownNbtTag 0)
            else
              let! _ := repeat_dec (Z.to_nat n) (skip_payload_depth fuel' inner (depth + 1)) in
              ret tt
          else
            let! _ := repeat_dec (Z.to_nat n) (skip_payload_depth fuel' inner depth) in
            ret tt
      | T_Compound =>
          if depth >=? MAX_NBT_DEPTH then fail (UnknownNbtTag 0) else skip_compound fuel' depth
      | T_IntArray =>
          skip_need 4;;
          let! n := get_i32 in
          if n <? 0 then fail (UnknownNbtTag 0) else skip_need (saturating_mul_usize n 4)
      | T_LongArray =>
          skip_need 4;;
          let! n := get_i32 in
          if n <? 0 then fail (UnknownNbtTag 0) else skip_need (saturating_mul_usize n 8)
      end
  end
with skip_compound (fuel : nat) (depth : Z) {struct fuel} : Dec unit :=
  match fuel with
  | O => nofuel
  | S fuel' =>
      ensure 1 UnexpectedEof;;
      let! child_byte := get_u8 in
      if child_byte =? 0 then ret tt
      else
        let! child := TagType_from_u8 child_byte in
        skip_name;;
        skip_payload_depth fuel' child (depth + 1);;
        skip_compound fuel' depth
  end.

(** The number of bytes stepped over. *)
Definition nbt_skip : Dec Z := fun src =>
  (let start := remaining src in
   ensure 1 UnexpectedEof;;
   let! tag_byte := get_u8 in
   if tag_byte =? 0 then (fun cur => (Ok (start - remaining cur), cur))
   else
     let! tag := TagType_from_u8 tag_byte in
     skip_name;;
     skip_payload_depth (2 * length src + 2) tag 0;;
     (fun cur => (Ok (start - remaining cur), cur))) src.

(** ** Values the encoder represents *)

Definition tag_type (tag : NbtTag) : TagType :=
  match tag with
  | NbtEnd => T_End
  | NbtByte _ => T_Byte
  | NbtShort _ => T_Short
  | NbtInt _ => T_Int
  | NbtLong _ => T_Long
  | NbtFloat _ => T_Float
  | NbtDouble _ => T_Double
  | NbtByteArray _ => T_ByteArray
  | NbtString _ => T_String
  | NbtList _ => T_List
  | NbtCompound _ => T_Compound
  | NbtIntArray _ => T_IntArray
  | NbtLongArray _ => T_LongArray
  end.

Definition nbt_string_ok (s : bytes) : bool :=
  utf8_valid s && (Z.of_nat (length s) <=? 65535).

Definition array_ok (w : Z) (arr : list Z) : bool :=
  forallb (fun v => bool_decide (fits_s w v)) arr && (Z.of_nat (length arr) <=? MAX_NBT_ARRAY_LEN).

(** [nbt_ok d t]: [t] is representable at compound depth [d]: values of their
    machine width, homogeneous lists, distinct keys, no [End] inside a compound,
    and no more nesting than the decoder accepts. *)
Fixpoint nbt_ok (d : Z) (t : NbtTag) : bool :=
  match t with
  | NbtEnd => true
  | NbtByte v => bool_decide (fits_s 8 v)
  | NbtShort v => bool_decide (fits_s 16 v)
  | NbtInt v => bool_decide (fits_s 32 v)
  | NbtLong v => bool_decide (fits_s 64 v)
  | NbtFloat v => bool_decide (fits_u 32 v)
  | NbtDouble v => bool_decide (fits_u 64 v)
  | NbtByteArray arr => array_ok 8 arr
  | NbtString s => nbt_string_ok s
  | NbtList items =>
      (Z.of_nat (length items) <=? MAX_NBT_ARRAY_LEN)
      && match items with
         | [] => true
         | t0 :: _ =>
             forallb (fun t => bool_decide (tag_type t = tag_type t0)) items
             && if bool_decide (tag_type t0 = T_Compound)
                then (d <? MAX_NBT_DEPTH) && forallb (nbt_ok (d + 1)) items
                else forallb (nbt_ok d) items
         end
  | NbtCompound m =>
      (d <? MAX_NBT_DEPTH) && bool_decide (NoDup (map fst m))
      && forallb (fun '(k, t) =>
           nbt_string_ok k && bool_decide (tag_type t <> T_End) && nbt_ok (d + 1) t) m
  | NbtIntArray arr => array_ok 32 arr
  | NbtLongArray arr => array_ok 64 arr
  end.

Definition nbt_value_ok (n : Nbt) : Prop :=
  nbt_string_ok (nbt_name n) = true /\ nbt_ok 0 (NbtCompound (nbt_root n)) = true.

Definition NbtCodec : codec Nbt := Codec Nbt_encode Nbt_decode nbt_value_ok.

(** ** Safety of the decoder *)

Lemma total_from_u8 v : total (TagType_from_u8 v).
Proof. unfold TagType_from_u8. repeat case_match; done. Qed.
Lemma consuming_from_u8 v : consuming (TagType_from_u8 v).
Proof. unfold TagType_from_u8. repeat case_match; auto using consuming_ret, consuming_fail. Qed.
#[export] Hint Resolve total_from_u8 consuming_from_u8 : codec.

Lemma total_nbt_string : total read_nbt_string.
Proof. unfold read_nbt_string. solve_total. Qed.
Lemma consuming_nbt_string : consuming read_nbt_string.
Proof. unfold read_nbt_string. solve_consuming. Qed.
Lemma guarded_array_len : guarded 4 read_array_len.
Proof. unfold read_array_len. solve_total. Qed.
Lemma consuming_array_len : consuming read_array_len.
Proof. unfold read_array_len. solve_consuming. Qed.
#[export] Hint Resolve total_nbt_string consuming_nbt_string consuming_array_len : codec.

Lemma nbt_consuming fuel :
  (forall tag d, consuming (read_tag_payload_depth fuel tag d)) /\
  (forall d m, consuming (read_compound fuel d m)).
Proof.
  induction fuel as [|fuel [IHt IHc]]; [split; intros; apply consuming_nofuel|].
  split; intros.
  - cbn [read_tag_payload_depth]. solve_consuming.
  - cbn [read_compound]. solve_consuming.
Qed.

Lemma total_array_len {A} (k : Z -> Dec A) :
  (forall len, total (k len)) -> total (ensure 4 UnexpectedEof;; let! len := read_array_len in k len).
Proof. intros Hk. apply total_ensure, guarded_bind; [apply guarded_array_len|done]. Qed.

Lemma guarded_repeat_i8 k : guarded (E := ProtocolError) k (repeat_dec k get_i8).
Proof.
  induction k as [|k IH]; [apply guarded_ret|]. cbn [repeat_dec].
  apply guarded_int_bind; [lia|]. intros z. replace (S k - 1)%nat with k by lia.
  apply guarded_bind; [done|intros; apply total_ret].
Qed.

Lemma upto_array_len {A} n (k : Z -> Dec A) :
  (forall len, total_upto n (k len)) ->
  total_upto n (ensure 4 UnexpectedEof;; let! len := read_array_len in k len).
Proof.
  intros Hk src Hs. unfold bind at 1, ensure, remaining.
  destruct (Z.ltb_spec (Z.of_nat (length src)) 4); [done|]. unfold bind.
  pose proof (guarded_array_len src ltac:(lia)) as Hg.
  pose proof (consuming_length _ src consuming_array_len).
  destruct (read_array_len src) as [[len| | |] s']; try done. apply Hk. cbn in *. lia.
Qed.

(** The two mutually recursive readers return when the fuel exceeds twice the
    input: every level of nesting, and every entry of a compound, takes at
    least one byte. *)
Lemma nbt_upto fuel :
  (forall tag d n, (2 * n + 2 <= fuel)%nat -> total_upto n (read_tag_payload_depth fuel tag d)) /\
  (forall d m n, (2 * n + 1 <= fuel)%nat -> total_upto n (read_compound fuel d m)).
Proof.
  induction fuel as [|fuel [IHt IHc]]; [split; intros; lia|].
  destruct (nbt_consuming fuel) as [Ht Hc]. split.
  - intros tag d n Hn. cbn [read_tag_payload_depth]. destruct tag.
    10: { (* List *)
      apply upto_u8. intros Hpos b. apply upto_bind; [apply total_total_upto, total_from_u8|apply consuming_from_u8|].
      intros ty. apply upto_array_len. intros len.
      assert (forall d', total_upto (pred n) (repeat_dec (Z.to_nat len) (read_tag_payload_depth fuel ty d'))).
      { intros d'. apply upto_repeat; [apply IHt; lia|apply Ht]. }
      destruct (bool_decide _); [destruct (_ >=? _); [done|]|];
        (apply upto_bind; [done|apply consuming_repeat, Ht|done]). }
    10: { (* Compound *)
      destruct (_ >=? _); [done|]. apply upto_bind; [apply IHc; lia|apply Hc|done]. }
    all: apply total_total_upto.
    8: { (* ByteArray *)
      apply total_array_len. intros len. apply total_ensure, guarded_bind; [apply guarded_repeat_i8|].
      intros; apply total_ret. }
    all: try (apply total_array_len; intros len); solve_total.
  - intros d m n Hn. cbn [read_compound].
    apply upto_u8. intros Hpos b. apply upto_bind; [apply total_total_upto, total_from_u8|apply consuming_from_u8|].
    intros ty. destruct (bool_decide _); [done|].
    apply upto_bind; [apply total_total_upto, total_nbt_string|apply consuming_nbt_string|intros name].
    apply upto_bind; [apply IHt; lia|apply Ht|intros tag]. apply IHc. lia.
Qed.

Lemma total_read_tag_payload tag : total (read_tag_payload tag).
Proof. intros src. apply (proj1 (nbt_upto _) tag 0 (length src)); lia. Qed.
Lemma consuming_read_tag_payload tag : consuming (read_tag_payload tag).
Proof. intros src. apply nbt_consuming. Qed.
#[export] Hint Resolve total_read_tag_payload consuming_read_tag_payload : codec.

Lemma total_Nbt_decode : total Nbt_decode.
Proof. unfold Nbt_decode. solve_total. Qed.
Lemma consuming_Nbt_decode : consuming Nbt_decode.
Proof. unfold Nbt_decode. solve_consuming. Qed.

(** ** The bytes of a tag *)

Definition string_img (s : bytes) : bytes := be_bytes 2 (Z.of_nat (length s)) ++ s.
Definition array_img (n : nat) (arr : list Z) : bytes :=
  be_bytes 4 (Z.of_nat (length arr)) ++ concat (map (be_bytes n) arr).

Fixpoint img (t : NbtTag) : bytes :=
  match t with
  | NbtEnd => []
  | NbtByte v => be_bytes 1 v
  | NbtShort v => be_bytes 2 v
  | NbtInt v | NbtFloat v => be_bytes 4 v
  | NbtLong v | NbtDouble v => be_bytes 8 v
  | NbtByteArray arr => array_img 1 arr
  | NbtString s => string_img s
  | NbtList items =>
      be_bytes 1 (match items with t0 :: _ => tag_type_byte t0 | [] => 0 end) ++
      be_bytes 4 (Z.of_nat (length items)) ++ concat (map img items)
  | NbtCompound m =>
      concat (map (fun '(k, t) => be_bytes 1 (tag_type_byte t) ++ string_img k ++ img t) m) ++
      be_bytes 1 0
  | NbtIntArray arr => array_img 4 arr
  | NbtLongArray arr => array_img 8 arr
  end.

Definition entry_img (e : bytes * NbtTag) : bytes :=
  be_bytes 1 (tag_type_byte e.2) ++ string_img e.1 ++ img e.2.

(** Fuel the decoder needs to rebuild a tag. *)
Fixpoint fuel_need (t : NbtTag) : nat :=
  match t with
  | NbtList items => S (foldr (fun t n => Nat.max (fuel_need t) n) 0%nat items)
  | NbtCompound m => S (foldr (fun '(_, t) n => S (Nat.max (fuel_need t) n)) 1%nat m)
  | _ => 1
  end.

Definition is_leaf (t : NbtTag) : Prop :=
  match t with NbtList _ | NbtCompound _ => False | _ => True end.

Lemma NbtTag_nested_ind (P : NbtTag -> Prop) :
  (forall t, is_leaf t -> P t) ->
  (forall items, Forall P items -> P (NbtList items)) ->
  (forall m, Forall (fun e => P e.2) m -> P (NbtCompound m)) ->
  forall t, P t.
Proof.
  intros Hleaf Hlist Hcomp. fix IH 1. intros t. destruct t; try (by apply Hleaf).
  - apply Hlist. induction items; constructor; auto.
  - apply Hcomp. induction map as [|[k t] m IHm]; constructor; [apply IH|done].
Qed.

Lemma writes_nbt_string s : nbt_string_ok s = true -> writes (write_nbt_string s) (string_img s).
Proof.
  unfold nbt_string_ok, write_nbt_string. intros [_ Hl%Z.leb_le]%andb_true_iff.
  destruct (Z.gtb_spec (Z.of_nat (length s)) 65535); [lia|].
  rewrite wrapu_id by width. apply writes_bind; apply writes_put.
Qed.

Lemma reads_nbt_string s : nbt_string_ok s = true -> reads read_nbt_string (string_img s) s.
Proof.
  unfold nbt_string_ok, read_nbt_string, string_img. intros [Hu Hl%Z.leb_le]%andb_true_iff.
  apply reads_ensure; [rewrite length_app, length_be_bytes; lia|].
  eapply reads_bind; [apply reads_uint; width|]. apply reads_ensure; [lia|].
  eapply reads_bind_last; [by apply reads_copy|by apply reads_from_utf8].
Qed.

Lemma writes_for_each {A} (f : A -> Enc) (im : A -> bytes) l :
  Forall (fun x => writes (f x) (im x)) l -> writes (for_each f l) (concat (map im l)).
Proof. induction 1; [apply writes_ret|by apply writes_bind]. Qed.

Lemma reads_array_len len : 0 <= len <= MAX_NBT_ARRAY_LEN ->
  reads read_array_len (be_bytes 4 len) len.
Proof.
  unfold MAX_NBT_ARRAY_LEN. intros Hl. unfold read_array_len. change MAX_NBT_ARRAY_LEN with 1048576.
  eapply reads_bind_last; [apply reads_int; width|].
  rewrite (proj2 (Z.leb_le 0 len)), (proj2 (Z.leb_le len 1048576)) by lia. apply reads_ret.
Qed.

Section Arrays.
Variables (n : nat) (arr : list Z).
Hypothesis Hn : (0 < n)%nat.
Hypothesis Hok : array_ok (8 * Z.of_nat n) arr = true.

Lemma array_fits : Forall (fits_s (8 * Z.of_nat n)) arr /\ 0 <= Z.of_nat (length arr) <= MAX_NBT_ARRAY_LEN.
Proof using Hn Hok.
  unfold array_ok in Hok. apply andb_true_iff in Hok as [Hf Hl%Z.leb_le]. split; [|lia].
  apply Forall_forall. intros x Hx%list_elem_of_In. rewrite forallb_forall in Hf.
  by apply Hf, bool_decide_eq_true in Hx.
Qed.

Lemma writes_array (put : Z -> Enc) : (forall v, writes (put v) (be_bytes n v)) ->
  writes (put_i32 (wraps 32 (Z.of_nat (length arr)));; for_each put arr) (array_img n arr).
Proof using Hn Hok.
  intros Hput. destruct array_fits as [_ Hl]. unfold MAX_NBT_ARRAY_LEN in Hl.
  rewrite wraps_id by width. apply writes_bind; [apply writes_put|].
  apply writes_for_each, Forall_true. intros; apply Hput.
Qed.

Lemma reads_array {A} (m : Dec Z) (k : list Z -> Dec A) v :
  (forall x, fits_s (8 * Z.of_nat n) x -> reads m (be_bytes n x) x) ->
  reads (k arr) [] v ->
  reads (ensure 4 UnexpectedEof;; let! len := read_array_len in
         let! a := repeat_dec (Z.to_nat len) m in k a) (array_img n arr) v.
Proof using Hn Hok.
  intros Hm Hk. destruct array_fits as [Hf Hl]. unfold array_img.
  apply reads_ensure; [rewrite length_app, length_be_bytes; lia|].
  eapply reads_bind; [by apply reads_array_len|]. rewrite Nat2Z.id.
  eapply reads_bind_last; [apply reads_repeat, (Forall_impl _ _ _ Hf Hm)|done].
Qed.

End Arrays.

Lemma length_concat_be n (arr : list Z) : length (concat (map (be_bytes n) arr)) = (n * length arr)%nat.
Proof.
  induction arr as [|x arr IH]; cbn [map concat length]; [lia|].
  rewrite length_app, length_be_bytes, IH. lia.
Qed.

Lemma reads_byte_array arr : array_ok 8 arr = true ->
  reads (ensure 4 UnexpectedEof;; let! len := read_array_len in ensure len UnexpectedEof;;
         let! a := repeat_dec (Z.to_nat len) get_i8 in ret (NbtByteArray a)) (array_img 1 arr)
        (NbtByteArray arr).
Proof.
  intros Hok. destruct (array_fits 1 arr ltac:(lia) Hok) as [Hf Hl]. unfold array_img.
  apply reads_ensure; [rewrite length_app, length_be_bytes; lia|].
  eapply reads_bind; [by apply reads_array_len|].
  apply reads_ensure; [rewrite length_concat_be; lia|]. rewrite Nat2Z.id.
  eapply reads_bind_last; [apply reads_repeat, (Forall_impl _ _ _ Hf)|apply reads_ret].
  intros x Hx. apply reads_int; [lia|done].
Qed.

Lemma map_insert_fresh k t m : k ∉ map fst m -> map_insert k t m = m ++ [(k, t)].
Proof.
  induction m as [|[k' t'] m IH]; cbn [map fst map_insert]; [done|].
  rewrite not_elem_of_cons. intros [Hne Hm]. rewrite decide_False by done. by rewrite IH.
Qed.

Lemma tag_type_byte_spec t : TagType_from_u8 (tag_type_byte t) = ret (tag_type t).
Proof. by destruct t. Qed.

Lemma tag_type_byte_range t : 0 <= tag_type_byte t < 256.
Proof. destruct t; cbn; lia. Qed.

Lemma reads_tag_type t : reads (TagType_from_u8 (tag_type_byte t)) [] (tag_type t).
Proof. rewrite tag_type_byte_spec. apply reads_ret. Qed.

(** What the round trip says of one tag. *)
Definition tag_rt (t : NbtTag) : Prop := forall d, nbt_ok d t = true ->
  writes (write_tag_payload t) (img t) /\
  forall fuel, (fuel_need t <= fuel)%nat ->
    reads (read_tag_payload_depth fuel (tag_type t) d) (img t) t.

Lemma tag_rt_leaf t : is_leaf t -> tag_rt t.
Proof.
  intros Hleaf d Hok. split.
  - destruct t; try done; cbn [nbt_ok write_tag_payload img] in *;
      first [apply writes_ret | apply writes_put | by apply writes_nbt_string
            | (apply (writes_array 1); [lia|done|intros; apply writes_put])
            | (apply (writes_array 4); [lia|done|intros; apply writes_put])
            | (apply (writes_array 8); [lia|done|intros; apply writes_put])].
  - intros [|fuel] Hf; [destruct t; cbn in Hf; lia|].
    destruct t; try done; cbn [nbt_ok read_tag_payload_depth tag_type img] in *;
      try (apply bool_decide_eq_true in Hok);
      try (apply reads_ensure; [rewrite length_be_bytes; lia|];
           eapply reads_bind_last; [first [apply reads_int; [lia|done] | by apply reads_uint]|apply reads_ret]).
    + by apply reads_byte_array.
    + eapply reads_bind_last; [by apply reads_nbt_string|apply reads_ret].
    + apply (reads_array 4); [lia|done| |apply reads_ret]. intros x Hx.
      apply reads_ensure; [by rewrite length_be_bytes|]. apply reads_int; [lia|done].
    + apply (reads_array 8); [lia|done| |apply reads_ret]. intros x Hx.
      apply reads_ensure; [by rewrite length_be_bytes|]. apply reads_int; [lia|done].
Qed.

(** Elements of a list are read at the list's own depth, or one deeper when
    they are compounds. *)
Definition elem_depth (t0 : NbtTag) (d : Z) : Z :=
  if bool_decide (tag_type t0 = T_Compound) then d + 1 else d.

Lemma nbt_ok_list d t0 l : nbt_ok d (NbtList (t0 :: l)) = true ->
  Z.of_nat (length (t0 :: l)) <= MAX_NBT_ARRAY_LEN /\
  Forall (fun t => tag_type t = tag_type t0) (t0 :: l) /\
  Forall (fun t => nbt_ok (elem_depth t0 d) t = true) (t0 :: l) /\
  (tag_type t0 = T_Compound -> d < MAX_NBT_DEPTH).
Proof.
  unfold elem_depth. cbn [nbt_ok]. intros [Hl%Z.leb_le [Ht Hd]%andb_true_iff]%andb_true_iff.
  split_and!; [done| | |].
  - apply Forall_forall. intros x Hx%list_elem_of_In. rewrite forallb_forall in Ht.
    by apply Ht, bool_decide_eq_true in Hx.
  - apply Forall_forall. intros x Hx%list_elem_of_In.
    destruct (bool_decide (tag_type t0 = T_Compound)); [apply andb_true_iff in Hd as [_ Hd]|];
      rewrite forallb_forall in Hd; by apply Hd.
  - intros Hc. rewrite bool_decide_true in Hd by done. apply andb_true_iff in Hd as [Hd%Z.ltb_lt _]. done.
Qed.

Lemma fuel_need_elem t l : In t l ->
  (fuel_need t <= foldr (fun t n => Nat.max (fuel_need t) n) 0%nat l)%nat.
Proof. induction l as [|x l IH]; [done|]. cbn. intros [->|Hin]; [lia|]. specialize (IH Hin). lia. Qed.

Lemma tag_rt_list items : Forall tag_rt items -> tag_rt (NbtList items).
Proof.
  intros IH d Hok. destruct items as [|t0 l].
  - split; [apply writes_bind; [apply writes_put|]; apply writes_bind; [apply writes_put|apply writes_ret]|].
    intros [|fuel] Hf; [cbn in Hf; lia|]. cbn [read_tag_payload_depth img tag_type].
    apply reads_ensure; [length_side|]. eapply reads_bind; [apply reads_uint; width|].
    apply (reads_bind _ _ [] (be_bytes 4 0 ++ []) _ _ (reads_tag_type NbtEnd)).
    apply reads_ensure; [length_side|].
    eapply reads_bind; [by apply reads_array_len|]. apply reads_ret.
  - destruct (nbt_ok_list d t0 l Hok) as (Hl & Hty & Hel & Hdep).
    unfold MAX_NBT_ARRAY_LEN in Hl.
    assert (Hrt : Forall (fun t => writes (write_tag_payload t) (img t) /\
      forall fuel, (fuel_need t <= fuel)%nat ->
        reads (read_tag_payload_depth fuel (tag_type t0) (elem_depth t0 d)) (img t) t) (t0 :: l)).
    { rewrite Forall_forall in IH, Hty, Hel |- *. intros t Ht. destruct (IH t Ht _ (Hel t Ht)) as [Hw Hr].
      by rewrite <- (Hty t Ht). }
    split.
    + cbn [write_tag_payload img]. rewrite wraps_id by width.
      apply writes_bind; [apply writes_put|]. apply writes_bind; [apply writes_put|].
      apply writes_for_each. apply (Forall_impl _ _ _ Hrt). by intros t [? _].
    + intros [|fuel] Hf; [cbn in Hf; lia|]. cbn [read_tag_payload_depth img tag_type].
      assert (Hitems : reads (repeat_dec (Z.to_nat (Z.of_nat (length (t0 :: l))))
        (read_tag_payload_depth fuel (tag_type t0) (elem_depth t0 d))) (concat (map img (t0 :: l))) (t0 :: l)).
      { rewrite Nat2Z.id. apply reads_repeat. rewrite Forall_forall in Hrt |- *. intros t Ht.
        apply Hrt; [done|]. cbn [fuel_need] in Hf. apply list_elem_of_In, fuel_need_elem in Ht. lia. }
      apply reads_ensure; [length_side|].
      eapply reads_bind; [apply reads_uint, tag_type_byte_range|].
      change (be_bytes 4 _ ++ concat (map img (t0 :: l))) with
        ([] ++ be_bytes 4 (Z.of_nat (length (t0 :: l))) ++ concat (map img (t0 :: l))).
      eapply reads_bind; [apply reads_tag_type|]. apply reads_ensure; [length_side|].
      eapply reads_bind; [apply reads_array_len; unfold MAX_NBT_ARRAY_LEN; lia|].
      unfold elem_depth in Hitems. destruct (bool_decide_reflect (tag_type t0 = T_Compound)) as [Hc|].
      * destruct (Z.geb_spec d MAX_NBT_DEPTH); [specialize (Hdep Hc); lia|].
        eapply reads_bind_last; [exact Hitems|apply reads_ret].
      * eapply reads_bind_last; [exact Hitems|apply reads_ret].
Qed.

Lemma nbt_ok_compound d m : nbt_ok d (NbtCompound m) = true ->
  d < MAX_NBT_DEPTH /\ NoDup (map fst m) /\
  Forall (fun e => nbt_string_ok e.1 = true /\ tag_type e.2 <> T_End /\ nbt_ok (d + 1) e.2 = true) m.
Proof.
  cbn [nbt_ok]. intros [[Hd%Z.ltb_lt Hk%bool_decide_eq_true]%andb_true_iff Hm]%andb_true_iff.
  split_and!; [done|done|]. apply Forall_forall. intros [k t] Hx%list_elem_of_In.
  rewrite forallb_forall in Hm. apply Hm in Hx. cbn.
  apply andb_true_iff in Hx as [[? ?%bool_decide_eq_true]%andb_true_iff ?]. done.
Qed.

Definition need_entries (m : list (bytes * NbtTag)) : nat :=
  foldr (fun '(_, t) n => S (Nat.max (fuel_need t) n)) 1%nat m.

(** The compound loop rebuilds the entries in the order they were written. *)
Lemma reads_compound d m : forall acc fuel,
  Forall (fun e => tag_rt e.2) m ->
  Forall (fun e => nbt_string_ok e.1 = true /\ tag_type e.2 <> T_End /\ nbt_ok (d + 1) e.2 = true) m ->
  NoDup (map fst (acc ++ m)) -> (need_entries m <= fuel)%nat ->
  reads (read_compound fuel d acc) (concat (map entry_img m) ++ be_bytes 1 0) (acc ++ m).
Proof.
  induction m as [|[k t] m IH]; intros acc fuel Hrt Hok Hnd Hf.
  - destruct fuel as [|fuel]; [cbn in Hf; lia|]. rewrite app_nil_r. cbn [map concat read_compound].
    rewrite app_nil_l. apply reads_ensure; [length_side|].
    eapply reads_bind_last; [apply reads_uint; width|].
    apply (reads_bind _ _ [] [] _ _ (reads_tag_type NbtEnd)). apply reads_ret.
  - inversion Hrt as [|? ? Ht Hrt']. inversion Hok as [|? ? (Hk & Hne & Hd) Hok']. subst.
    destruct fuel as [|fuel]; [cbn in Hf; lia|]. cbn [need_entries foldr] in Hf. fold (need_entries m) in Hf.
    cbn [map concat read_compound fst snd] in *. unfold entry_img at 1. cbn [fst snd].
    rewrite <- !app_assoc. apply reads_ensure; [length_side|].
    eapply reads_bind; [apply reads_uint, tag_type_byte_range|].
    apply (reads_bind _ _ [] (string_img k ++ img t ++ concat (map entry_img m) ++ be_bytes 1 0) _ _ (reads_tag_type t)).
    rewrite bool_decide_false by done. eapply reads_bind; [by apply reads_nbt_string|].
    eapply reads_bind; [apply (proj2 (Ht _ Hd)); lia|].
    rewrite map_app in Hnd. apply NoDup_app in Hnd as (Hnd1 & Hdis & Hnd2).
    rewrite map_insert_fresh.
    2:{ intros Hin. apply (Hdis k Hin). cbn. left. }
    replace (acc ++ (k, t) :: m) with ((acc ++ [(k, t)]) ++ m) by (by rewrite <- app_assoc).
    apply IH; [done|done| |lia]. rewrite <- app_assoc, map_app. by apply NoDup_app.
Qed.

Lemma tag_rt_compound m : Forall (fun e => tag_rt e.2) m -> tag_rt (NbtCompound m).
Proof.
  intros IH d Hok. destruct (nbt_ok_compound d m Hok) as (Hd & Hnd & Hm). split.
  - cbn [write_tag_payload img]. apply writes_bind; [|apply writes_put].
    apply writes_for_each. rewrite Forall_forall in IH, Hm |- *. intros [k t] Hin.
    destruct (Hm _ Hin) as (Hk & _ & Ht). apply writes_bind; [apply writes_put|].
    apply writes_bind; [by apply writes_nbt_string|]. apply (IH _ Hin _ Ht).
  - intros [|fuel] Hf; [cbn in Hf; lia|]. cbn [read_tag_payload_depth tag_type].
    destruct (Z.geb_spec d MAX_NBT_DEPTH); [lia|].
    eapply reads_bind_last; [|apply reads_ret]. cbn [fuel_need] in Hf.
    replace (img (NbtCompound m)) with (concat (map entry_img m) ++ be_bytes 1 0).
    + apply (reads_compound d m [] fuel); [done|done|done|]. unfold need_entries. lia.
    + cbn [img]. f_equal. f_equal. apply map_ext. by intros [].
Qed.

Lemma tag_roundtrip t : tag_rt t.
Proof. induction t using NbtTag_nested_ind; auto using tag_rt_leaf, tag_rt_list, tag_rt_compound. Qed.


(** ** The fuel of the entry points is enough *)

Lemma length_concat_elem (im : NbtTag -> bytes) t l :
  In t l -> (length (im t) <= length (concat (map im l)))%nat.
Proof.
  induction l as [|x l IH]; [done|]. cbn [map concat]. rewrite length_app.
  intros [->|Hin]; [lia|]. specialize (IH Hin). lia.
Qed.

Lemma foldr_max_le (f : NbtTag -> nat) b l :
  (forall t, In t l -> (f t <= b)%nat) -> (foldr (fun t n => Nat.max (f t) n) 0%nat l <= b)%nat.
Proof. induction l as [|x l IH]; cbn; [lia|]. intros H. apply Nat.max_lub; [|apply IH]; auto. Qed.

Lemma need_entries_le m :
  Forall (fun e => (fuel_need e.2 <= 2 * length (img e.2) + 2)%nat) m ->
  (need_entries m <= 2 * length (concat (map entry_img m)) + 1)%nat.
Proof.
  unfold need_entries. induction 1 as [|[k t] m Ht _ IH]; cbn [foldr map concat]; [lia|].
  unfold entry_img at 1. cbn [snd fst] in *. unfold string_img.
  rewrite !length_app, !length_be_bytes. lia.
Qed.

Lemma entry_imgs m : img (NbtCompound m) = concat (map entry_img m) ++ be_bytes 1 0.
Proof. cbn [img]. f_equal. f_equal. apply map_ext. by intros []. Qed.

Lemma fuel_need_le t : (fuel_need t <= 2 * length (img t) + 2)%nat.
Proof.
  induction t as [t Hleaf|items IH|m IH] using NbtTag_nested_ind.
  - destruct t; cbn [fuel_need]; try done; lia.
  - cbn [fuel_need img]. rewrite !length_app, !length_be_bytes.
    enough (foldr (fun t n => Nat.max (fuel_need t) n) 0 items <= 2 * length (concat (map img items)) + 2)%nat by lia.
    apply foldr_max_le. intros t Ht. pose proof (length_concat_elem img t items Ht).
    rewrite Forall_forall in IH. specialize (IH t ltac:(by apply list_elem_of_In)). lia.
  - rewrite entry_imgs, length_app. cbn [fuel_need]. fold (need_entries m).
    pose proof (need_entries_le m IH). lia.
Qed.

Lemma reads_tag_payload t : nbt_ok 0 t = true -> reads (read_tag_payload (tag_type t)) (img t) t.
Proof.
  intros Hok rest. unfold read_tag_payload. apply (proj2 (tag_roundtrip t 0 Hok)).
  pose proof (fuel_need_le t). rewrite length_app. lia.
Qed.

Definition nbt_img (n : Nbt) : bytes :=
  be_bytes 1 10 ++ string_img (nbt_name n) ++ img (NbtCompound (nbt_root n)).

Lemma writes_nbt n : nbt_value_ok n -> writes (Nbt_encode n) (nbt_img n).
Proof.
  intros [Hn Hm]. apply writes_bind; [apply writes_put|].
  apply writes_bind; [by apply writes_nbt_string|]. apply (tag_roundtrip _ 0 Hm).
Qed.

#[export] Instance NbtCodec_lawful : Lawful NbtCodec.
Proof.
  apply lawful_intro; cbn [NbtCodec enc dec wf];
    [|apply total_Nbt_decode|apply consuming_Nbt_decode].
  intros n Hok. exists (nbt_img n). split; [by apply writes_nbt|].
  destruct n as [name m], Hok as [Hn Hm]. unfold nbt_img, Nbt_decode. cbn [nbt_name nbt_root] in *.
  apply reads_ensure; [length_side|].
  eapply reads_bind; [apply reads_uint; width|]. cbn [Z.eqb].
  apply (reads_bind _ _ [] (string_img name ++ img (NbtCompound m)) _ _ (reads_tag_type (NbtCompound m))).
  eapply reads_bind; [by apply reads_nbt_string|].
  eapply reads_bind_last; [by apply (reads_tag_payload (NbtCompound m))|apply reads_ret].
Qed.

Lemma wire_nbt n : nbt_value_ok n -> wire NbtCodec n = nbt_img n.
Proof. intros Hn. apply writes_wire_eq, writes_nbt, Hn. Qed.

(** ** Properties *)

(** C3: an NBT document round-trips: for a well-formed document (values of
    their width, keys distinct, homogeneous lists, at most 512 nested
    compounds), [encode] succeeds and [decode] of the bytes followed by anything
    gives the document back, entries in the order written. *)
Theorem nbt_roundtrip (n : Nbt) (dst rest : bytes) : nbt_value_ok n ->
  exists bs, Nbt_encode n dst = (Ok tt, dst ++ bs) /\ Nbt_decode (bs ++ rest) = (Ok n, rest).
Proof.
  intros Hn. exists (wire NbtCodec n). split.
  - apply (lawful_writes (c := NbtCodec) n Hn).
  - apply (lawful_reads (c := NbtCodec) n Hn).
Qed.

Definition sample_nbt : Nbt :=
  mkNbt (lit "hello") [(lit "name", NbtString (lit "Bananrama"));
    (lit "pos", NbtList [NbtInt 1; NbtInt (-2)]);
    (lit "in", NbtCompound [(lit "b", NbtByte (-1))])].

Lemma nbt_roundtrip_witness : nbt_value_ok sample_nbt /\
  exists bs, Nbt_encode sample_nbt [] = (Ok tt, [] ++ bs) /\ Nbt_decode (bs ++ []) = (Ok sample_nbt, []).
Proof.
  assert (H : nbt_value_ok sample_nbt) by (split; vm_compute; reflexivity).
  split; [exact H|apply (nbt_roundtrip sample_nbt [] [] H)].
Defined.

(** C7: [Nbt::decode] is safe on arbitrary bytes: the recursion ends within the
    bound the input length gives, no buffer read panics, and what is left is a
    suffix of the input. *)
Theorem nbt_decode_safe (src : bytes) :
  returned (Nbt_decode src).1 /\ exists used, src = used ++ (Nbt_decode src).2.
Proof. split; [apply total_Nbt_decode|apply consuming_Nbt_decode]. Qed.

(** Lists nested [n] deep. *)
Fixpoint nested_lists (n : nat) : NbtTag :=
  match n with O => NbtList [] | S n' => NbtList [nested_lists n'] end.

Lemma nested_lists_ok d n : nbt_ok d (nested_lists n) = true.
Proof.
  induction n as [|n IH]; [done|]. cbn [nested_lists nbt_ok length forallb].
  rewrite IH. by destruct n.
Qed.

Lemma length_img_nested n : length (img (nested_lists n)) = (5 * (n + 1))%nat.
Proof.
  induction n as [|n IH]; [done|]. cbn [nested_lists img map concat].
  rewrite !length_app, !length_be_bytes, IH. cbn [length]. lia.
Qed.

(** The depth limit counts compounds only: for every [n] some input of
    [5n + 13] bytes decodes to lists nested [n] deep, so the decoder's recursion
    depth is bounded by the packet size and not by [MAX_NBT_DEPTH]. *)
Theorem nested_lists_bypass_depth (n : nat) :
  exists bs, length bs = (5 * n + 13)%nat /\
    Nbt_decode bs = (Ok (mkNbt [] [(lit "a", nested_lists n)]), []).
Proof.
  set (v := mkNbt [] [(lit "a", nested_lists n)]).
  assert (Hok : nbt_value_ok v).
  { split; [done|]. cbn [v nbt_root nbt_ok forallb fst snd map]. rewrite nested_lists_ok.
    rewrite bool_decide_true by (repeat constructor; by intros ?%not_elem_of_nil).
    rewrite bool_decide_true by (by destruct n). reflexivity. }
  exists (wire NbtCodec v). split; [|apply (reads_reads_all _ _ _ (lawful_reads (c := NbtCodec) v Hok))].
  rewrite wire_nbt by done. unfold nbt_img. rewrite entry_imgs. unfold v, entry_img, string_img.
  cbn [nbt_root nbt_name map concat fst snd].
  rewrite !length_app, !length_be_bytes, length_img_nested. cbn. lia.
Qed.

(** A document with one empty string, and its encoding. *)
Definition empty_string_doc : Nbt := mkNbt [] [(lit "a", NbtString [])].

(** [skip] does not step over what [encode] writes: its [need] helper
    advances past the bytes it checks, so the length is then read from what
    follows it.  On the encoding of a document holding one empty string the
    decoder succeeds and [skip] panics; on one holding a string whose bytes
    follow the length, it consumes a wrong number of bytes or fails. *)
Theorem nbt_skip_panics :
  nbt_value_ok empty_string_doc /\
  (let doc := wire NbtCodec empty_string_doc in
   Nbt_decode doc = (Ok empty_string_doc, []) /\ (nbt_skip doc).1 = Panic) /\
  (let doc := wire NbtCodec (mkNbt [] [(lit "a", NbtString (lit "bc"))]) in
   is_ok (Nbt_decode doc).1 = true /\ (nbt_skip doc).1 = Err UnexpectedEof).
Proof. unfold nbt_value_ok. split_and!; vm_compute; reflexivity. Qed.
