(* ===== verification/Slot.v ===== *)
(** * Inventory slots

    crates/protocol/src/types/slot.rs: the 1.13+ [Slot] and the pre-1.13
    [LegacySlot]. *)
From Stdlib Require Import ZArith Lia Strings.Byte.
From stdpp Require Import base list numbers strings.
From S2P Require Import Prelude Buf Wire VarInt Codec Nbt.
Local Open Scope Z_scope.

Record SlotData := mkSlotData { sd_item_id : Z; sd_count : Z; sd_nbt : option Nbt }.

Record LegacySlotData := mkLegacySlotData {
  ls_item_id : Z; ls_count : Z; ls_damage : Z; ls_nbt : option Nbt }.

(** The trailing NBT of both shapes: a zero byte stands for its absence. *)
Definition encode_slot_nbt (o : option Nbt) : Enc :=
  match o with None => put_u8 0 | Some nbt => Nbt_encode nbt end.

(** [src.first() == Some(&0)] *)
Definition first_is_zero (src : bytes) : bool :=
  match src with b :: _ => bz b =? 0 | [] => false end.

Definition decode_slot_nbt : Dec (option Nbt) := fun src =>
  if first_is_zero src then (advance 1;; ret None) src
  else (let! nbt := Nbt_decode in ret (Some nbt)) src.

Definition Slot_encode (s : option SlotData) : Enc :=
  match s with
  | None => put_u8 0
  | Some data =>
      put_u8 1;; VarInt_encode (sd_item_id data);; put_i8 (sd_count data);; encode_slot_nbt (sd_nbt data)
  end.

Definition Slot_decode : Dec (option SlotData) :=
  ensure 1 UnexpectedEof;;
  let! b := get_u8 in
  if b =? 0 then ret None
  else
    let! item_id := VarInt_decode in
    ensure 1 UnexpectedEof;;
    let! count := get_i8 in
    let! nbt := decode_slot_nbt in
    ret (Some (mkSlotData item_id count nbt)).

Definition LegacySlot_encode (s : option LegacySlotData) : Enc :=
  match s with
  | None => put_i16 (-1)
  | Some data =>
      put_i16 (ls_item_id data);; put_i8 (ls_count data);; put_i16 (ls_damage data);;
      encode_slot_nbt (ls_nbt data)
  end.

Definition LegacySlot_decode : Dec (option LegacySlotData) :=
  ensure 2 UnexpectedEof;;
  let! item_id := get_i16 in
  if item_id =? -1 then ret None
  else
    ensure 3 UnexpectedEof;;
    let! count := get_i8 in
    let! damage := get_i16 in
    let! nbt := decode_slot_nbt in
    ret (Some (mkLegacySlotData item_id count damage nbt)).

Definition slot_ok (s : option SlotData) : Prop :=
  match s with
  | None => True
  | Some d => fits_s 32 (sd_item_id d) /\ fits_s 8 (sd_count d) /\ option_ok nbt_value_ok (sd_nbt d)
  end.

(** Item id [-1] is the empty slot's marker. *)
Definition legacy_slot_ok (s : option LegacySlotData) : Prop :=
  match s with
  | None => True
  | Some d => fits_s 16 (ls_item_id d) /\ ls_item_id d <> -1 /\ fits_s 8 (ls_count d) /\
              fits_s 16 (ls_damage d) /\ option_ok nbt_value_ok (ls_nbt d)
  end.

Definition SlotNbt : codec (option Nbt) := Codec encode_slot_nbt decode_slot_nbt (option_ok nbt_value_ok).
Definition Slot : codec (option SlotData) := Codec Slot_encode Slot_decode slot_ok.
Definition LegacySlot : codec (option LegacySlotData) := Codec LegacySlot_encode LegacySlot_decode legacy_slot_ok.

(** ** Lemmas *)

Lemma total_advance_first src : first_is_zero src = true -> returned (E := ProtocolError) (advance 1 src).1.
Proof. by destruct src. Qed.

#[export] Instance SlotNbt_lawful : Lawful SlotNbt.
Proof.
  apply lawful_intro; cbn [SlotNbt enc dec wf].
  - intros [n|] Hn; cbn [option_ok] in Hn.
    + exists (wire NbtCodec n). split; [apply (lawful_writes (c := NbtCodec) n Hn)|].
      intros rest. unfold decode_slot_nbt. replace (first_is_zero _) with false.
      * unfold bind. rewrite (lawful_reads (c := NbtCodec) n Hn). reflexivity.
      * cbn [NbtCodec wf] in *. by rewrite wire_nbt.
    + exists [x00]. split; [by apply (writes_put [x00])|]. intros rest. reflexivity.
  - intros src. unfold decode_slot_nbt. destruct (first_is_zero src) eqn:E.
    + by destruct src.
    + assert (H : total (let! nbt := Nbt_decode in ret (Some nbt))) by
        (apply total_bind; [apply total_Nbt_decode|done]). apply H.
  - intros src. unfold decode_slot_nbt. destruct (first_is_zero src) eqn:E.
    + apply consuming_bind; [solve_consuming|intros; apply consuming_ret].
    + apply consuming_bind; [apply consuming_Nbt_decode|intros; apply consuming_ret].
Qed.

Lemma total_slot_nbt : total decode_slot_nbt.
Proof. apply (lawful_total (c := SlotNbt)). Qed.
Lemma consuming_slot_nbt : consuming decode_slot_nbt.
Proof. apply (lawful_consuming (c := SlotNbt)). Qed.
#[export] Hint Resolve total_slot_nbt consuming_slot_nbt : codec.

#[export] Instance Slot_lawful : Lawful Slot.
Proof.
  apply lawful_intro; cbn [Slot enc dec wf]; unfold Slot_decode; [|solve_total|solve_consuming].
  intros [[id count nbt]|] Hok; cbn [slot_ok sd_item_id sd_count sd_nbt] in Hok.
  - destruct Hok as (Hid & Hc & Hn).
    exists (be_bytes 1 1 ++ wire VarInt id ++ be_bytes 1 count ++ wire SlotNbt nbt). split.
    + repeat eapply writes_bind; [apply writes_put| |apply writes_put|].
      * apply (lawful_writes (c := VarInt) id Hid).
      * apply (lawful_writes (c := SlotNbt) nbt Hn).
    + apply reads_ensure; [length_side|]. eapply reads_bind; [apply reads_uint; width|]. cbn [Z.eqb].
      eapply reads_bind; [apply (lawful_reads (c := VarInt) id Hid)|].
      apply reads_ensure; [length_side|]. eapply reads_bind; [apply reads_int; [lia|done]|].
      eapply reads_bind_last; [apply (lawful_reads (c := SlotNbt) nbt Hn)|apply reads_ret].
  - exists (be_bytes 1 0). split; [apply writes_put|]. apply reads_ensure; [length_side|].
    eapply reads_bind_last; [apply reads_uint; width|apply reads_ret].
Qed.

#[export] Instance LegacySlot_lawful : Lawful LegacySlot.
Proof.
  apply lawful_intro; cbn [LegacySlot enc dec wf]; unfold LegacySlot_decode; [|solve_total|solve_consuming].
  intros [[id count dmg nbt]|] Hok; cbn [legacy_slot_ok ls_item_id ls_count ls_damage ls_nbt] in Hok.
  - destruct Hok as (Hid & Hne & Hc & Hd & Hn).
    exists (be_bytes 2 id ++ be_bytes 1 count ++ be_bytes 2 dmg ++ wire SlotNbt nbt). split.
    + repeat eapply writes_bind; [apply writes_put|apply writes_put|apply writes_put|].
      apply (lawful_writes (c := SlotNbt) nbt Hn).
    + apply reads_ensure; [length_side|]. eapply reads_bind; [apply reads_int; [lia|done]|].
      rewrite (proj2 (Z.eqb_neq id (-1))) by done. apply reads_ensure; [length_side|].
      eapply reads_bind; [apply reads_int; [lia|done]|]. eapply reads_bind; [apply reads_int; [lia|done]|].
      eapply reads_bind_last; [apply (lawful_reads (c := SlotNbt) nbt Hn)|apply reads_ret].
  - exists (be_bytes 2 (-1)). split; [apply writes_put|]. apply reads_ensure; [length_side|].
    eapply reads_bind_last; [apply reads_int; [lia|width]|apply reads_ret].
Qed.

(** ** Properties *)

(** Both slot formats keep the codec contract (round trip with anything
    following, no panic and no over-read on arbitrary bytes), and a legacy item
    whose id is [-1] is the one value the legacy format cannot carry: it is read
    back as the empty slot, its fields left in the stream. *)
Theorem slots_lawful :
  Lawful Slot /\ Lawful LegacySlot /\
  forall count damage nbt rest, fits_s 8 count -> fits_s 16 damage -> option_ok nbt_value_ok nbt ->
    LegacySlot_decode (wire LegacySlot (Some (mkLegacySlotData (-1) count damage nbt)) ++ rest) =
      (Ok None, be_bytes 1 count ++ be_bytes 2 damage ++ wire SlotNbt nbt ++ rest).
Proof.
  split; [exact _|split; [exact _|]]. intros count damage nbt rest Hc Hd Hn.
  rewrite (writes_wire_eq LegacySlot _ (be_bytes 2 (-1) ++ be_bytes 1 count ++ be_bytes 2 damage ++ wire SlotNbt nbt)).
  - rewrite <- !app_assoc. apply (lawful_reads (c := LegacySlot) None I).
  - repeat eapply writes_bind; [apply writes_put|apply writes_put|apply writes_put|].
    apply (lawful_writes (c := SlotNbt) nbt Hn).
Qed.
