(* ===== verification/Negotiation.v ===== *)
(** * Protocol versions

    crates/protocol/src/negotiation.rs: the table of protocol numbers, the
    version families (epochs), the feature predicates and the resolution of an
    unknown number to the nearest known version.  A [u32] is a [Z] in
    [[0, 2^32)]. *)
From Stdlib Require Import ZArith Lia Sorted.
From stdpp Require Import base list numbers strings sorting sets.
From S2P Require Import Prelude.
Local Open Scope Z_scope.

Inductive ProtocolVersion :=
  | V1_6_1 | V1_6_2 | V1_6_4 | V1_7_2 | V1_7_6 | V1_7_10 | V1_8 | V1_9 | V1_9_1 | V1_9_2
  | V1_9_4 | V1_10 | V1_11 | V1_11_1 | V1_12 | V1_12_1 | V1_12_2 | V1_13 | V1_13_1 | V1_13_2
  | V1_14 | V1_14_1 | V1_14_2 | V1_14_3 | V1_14_4 | V1_15 | V1_15_1 | V1_15_2 | V1_16 | V1_16_1
  | V1_16_2 | V1_16_3 | V1_16_4 | V1_16_5 | V1_17 | V1_17_1 | V1_18 | V1_18_2 | V1_19 | V1_19_1
  | V1_19_3 | V1_19_4 | V1_20 | V1_20_2 | V1_20_4 | V1_20_6 | V1_21 | V1_21_2 | V1_21_4
  | V1_21_5 | V1_21_6 | V1_21_8 | V1_21_9 | V1_21_11 | V26_1 | V26_2
  | Unknown (id : Z).

(** The order of the constructors is the derived [Ord]. *)
Inductive Epoch :=
  | E_PreNetty | E_V1_7 | E_V1_8 | E_V1_9_To_1_12 | E_V1_13_To_1_15 | E_V1_16 | E_V1_17_To_1_18
  | E_V1_19 | E_V1_20 | E_V1_21Plus | E_Unknown.

#[export] Instance ProtocolVersion_eq_dec : EqDecision ProtocolVersion.
Proof. solve_decision. Defined.
#[export] Instance Epoch_eq_dec : EqDecision Epoch.
Proof. solve_decision. Defined.

Definition ProtocolVersion_from_id (id : Z) : ProtocolVersion :=
  match id with
  | 73 => V1_6_1 | 74 => V1_6_2 | 78 => V1_6_4 | 4 => V1_7_2 | 5 => V1_7_10 | 47 => V1_8
  | 107 => V1_9 | 108 => V1_9_1 | 109 => V1_9_2 | 110 => V1_9_4 | 210 => V1_10 | 315 => V1_11
  | 316 => V1_11_1 | 335 => V1_12 | 338 => V1_12_1 | 340 => V1_12_2 | 393 => V1_13
  | 401 => V1_13_1 | 404 => V1_13_2 | 477 => V1_14 | 480 => V1_14_1 | 485 => V1_14_2
  | 490 => V1_14_3 | 498 => V1_14_4 | 573 => V1_15 | 575 => V1_15_1 | 578 => V1_15_2
  | 735 => V1_16 | 736 => V1_16_1 | 751 => V1_16_2 | 753 => V1_16_3 | 754 => V1_16_5
  | 755 => V1_17 | 756 => V1_17_1 | 757 => V1_18 | 758 => V1_18_2 | 759 => V1_19
  | 760 => V1_19_1 | 761 => V1_19_3 | 762 => V1_19_4 | 763 => V1_20 | 764 => V1_20_2
  | 765 => V1_20_4 | 766 => V1_20_6 | 767 => V1_21 | 768 => V1_21_2 | 769 => V1_21_4
  | 770 => V1_21_5 | 771 => V1_21_6 | 772 => V1_21_8 | 773 => V1_21_9 | 774 => V1_21_11
  | 775 => V26_1 | 776 => V26_2
  | x => Unknown x
  end.

Definition ProtocolVersion_id (v : ProtocolVersion) : Z :=
  match v with
  | V1_6_1 => 73 | V1_6_2 => 74 | V1_6_4 => 78 | V1_7_2 => 4 | V1_7_6 => 5 | V1_7_10 => 5
  | V1_8 => 47 | V1_9 => 107 | V1_9_1 => 108 | V1_9_2 => 109 | V1_9_4 => 110 | V1_10 => 210
  | V1_11 => 315 | V1_11_1 => 316 | V1_12 => 335 | V1_12_1 => 338 | V1_12_2 => 340
  | V1_13 => 393 | V1_13_1 => 401 | V1_13_2 => 404 | V1_14 => 477 | V1_14_1 => 480
  | V1_14_2 => 485 | V1_14_3 => 490 | V1_14_4 => 498 | V1_15 => 573 | V1_15_1 => 575
  | V1_15_2 => 578 | V1_16 => 735 | V1_16_1 => 736 | V1_16_2 => 751 | V1_16_3 => 753
  | V1_16_4 => 754 | V1_16_5 => 754 | V1_17 => 755 | V1_17_1 => 756 | V1_18 => 757
  | V1_18_2 => 758 | V1_19 => 759 | V1_19_1 => 760 | V1_19_3 => 761 | V1_19_4 => 762
  | V1_20 => 763 | V1_20_2 => 764 | V1_20_4 => 765 | V1_20_6 => 766 | V1_21 => 767
  | V1_21_2 => 768 | V1_21_4 => 769 | V1_21_5 => 770 | V1_21_6 => 771 | V1_21_8 => 772
  | V1_21_9 => 773 | V1_21_11 => 774 | V26_1 => 775 | V26_2 => 776
  | Unknown x => x
  end.

Definition is_supported (v : ProtocolVersion) : bool :=
  match v with Unknown _ => false | _ => true end.

Definition epoch (v : ProtocolVersion) : Epoch :=
  match v with
  | V1_6_1 | V1_6_2 | V1_6_4 => E_PreNetty
  | V1_7_2 | V1_7_6 | V1_7_10 => E_V1_7
  | V1_8 => E_V1_8
  | V1_9 | V1_9_1 | V1_9_2 | V1_9_4 | V1_10 | V1_11 | V1_11_1 | V1_12 | V1_12_1 | V1_12_2 => E_V1_9_To_1_12
  | V1_13 | V1_13_1 | V1_13_2 | V1_14 | V1_14_1 | V1_14_2 | V1_14_3 | V1_14_4 | V1_15 | V1_15_1
  | V1_15_2 => E_V1_13_To_1_15
  | V1_16 | V1_16_1 | V1_16_2 | V1_16_3 | V1_16_4 | V1_16_5 => E_V1_16
  | V1_17 | V1_17_1 | V1_18 | V1_18_2 => E_V1_17_To_1_18
  | V1_19 | V1_19_1 | V1_19_3 | V1_19_4 => E_V1_19
  | V1_20 | V1_20_2 | V1_20_4 | V1_20_6 => E_V1_20
  | V1_21 | V1_21_2 | V1_21_4 | V1_21_5 | V1_21_6 | V1_21_8 | V1_21_9 | V1_21_11 | V26_1
  | V26_2 => E_V1_21Plus
  | Unknown _ => E_Unknown
  end.

Definition epoch_rank (e : Epoch) : Z :=
  match e with
  | E_PreNetty => 0 | E_V1_7 => 1 | E_V1_8 => 2 | E_V1_9_To_1_12 => 3 | E_V1_13_To_1_15 => 4
  | E_V1_16 => 5 | E_V1_17_To_1_18 => 6 | E_V1_19 => 7 | E_V1_20 => 8 | E_V1_21Plus => 9
  | E_Unknown => 10
  end.

Definition epoch_ge (a b : Epoch) : bool := epoch_rank b <=? epoch_rank a.

(** ** Feature predicates *)

Definition is_pre_netty (v : ProtocolVersion) : bool := bool_decide (epoch v = E_PreNetty).
Definition is_flattened (v : ProtocolVersion) : bool := epoch_ge (epoch v) E_V1_13_To_1_15.
Definition has_configuration_phase (v : ProtocolVersion) : bool := 764 <=? ProtocolVersion_id v.
Definition has_chat_signing (v : ProtocolVersion) : bool := epoch_ge (epoch v) E_V1_19.
Definition has_login_start_uuid (v : ProtocolVersion) : bool := 761 <=? ProtocolVersion_id v.
Definition has_mandatory_login_start_uuid (v : ProtocolVersion) : bool := 764 <=? ProtocolVersion_id v.

Inductive CanonicalVersion :=
  | C_V1_6_4 | C_V1_7_10 | C_V1_8 | C_V1_12_2 | C_V1_15_2 | C_V1_16_5 | C_V1_18_2 | C_V1_19_4
  | C_V1_20_4 | C_V1_21 | C_V26.

Definition as_protocol_version (c : CanonicalVersion) : ProtocolVersion :=
  match c with
  | C_V1_6_4 => V1_6_4 | C_V1_7_10 => V1_7_10 | C_V1_8 => V1_8 | C_V1_12_2 => V1_12_2
  | C_V1_15_2 => V1_15_2 | C_V1_16_5 => V1_16_5 | C_V1_18_2 => V1_18_2 | C_V1_19_4 => V1_19_4
  | C_V1_20_4 => V1_20_4 | C_V1_21 => V1_21 | C_V26 => V26_1
  end.

Definition canonical_typed_packet_version (v : ProtocolVersion) : CanonicalVersion :=
  match v with
  | V26_1 | V26_2 => C_V26
  | _ =>
      match epoch v with
      | E_PreNetty => C_V1_6_4 | E_V1_7 => C_V1_7_10 | E_V1_8 => C_V1_8
      | E_V1_9_To_1_12 => C_V1_12_2 | E_V1_13_To_1_15 => C_V1_15_2 | E_V1_16 => C_V1_16_5
      | E_V1_17_To_1_18 => C_V1_18_2 | E_V1_19 => C_V1_19_4 | E_V1_20 => C_V1_20_4
      | E_V1_21Plus => C_V1_21 | E_Unknown => C_V1_12_2
      end
  end.

Definition SUPPORTED : list Z :=
  [4; 5; 47; 73; 74; 78; 107; 108; 109; 110; 210; 315; 316; 335; 338; 340; 393; 401; 404; 477;
   480; 485; 490; 498; 573; 575; 578; 735; 736; 751; 753; 754; 755; 756; 757; 758; 759; 760;
   761; 762; 763; 764; 765; 766; 767; 768; 769; 770; 771; 772; 773; 774; 775; 776].

Definition nearest (protocol_id : Z) : ProtocolVersion :=
  let exact := ProtocolVersion_from_id protocol_id in
  if is_supported exact then exact
  else ProtocolVersion_from_id
         (default 340 (min_by_key (fun s => Z.abs (s - protocol_id)) SUPPORTED)).

(** ** Lemmas *)

(** Case analysis on which entry of the table [id] is. *)
Lemma supported_ids id : is_supported (ProtocolVersion_from_id id) = bool_decide (id ∈ SUPPORTED).
Proof.
  destruct (bool_decide_reflect (id ∈ SUPPORTED)) as [Hin|Hout].
  - unfold SUPPORTED in Hin. repeat (apply elem_of_cons in Hin as [->|Hin]; [done|]).
    by apply not_elem_of_nil in Hin.
  - unfold ProtocolVersion_from_id.
    repeat case_match; try done; subst; exfalso; apply Hout; unfold SUPPORTED;
      repeat (first [left | right]).
Qed.

(** A known number is the id of the version it names. *)
Lemma from_id_id id : ProtocolVersion_id (ProtocolVersion_from_id id) = id.
Proof. unfold ProtocolVersion_from_id. repeat case_match; done. Qed.

Lemma version_table_sorted : StronglySorted Z.lt SUPPORTED.
Proof.
  unfold SUPPORTED. repeat (apply SSorted_cons; [|repeat (apply Forall_cons; split; [lia|]); done]).
  apply SSorted_nil.
Qed.

(** The epoch of a post-netty number, by its boundaries. *)
Definition epoch_rank_of_id (id : Z) : Z :=
  if id <? 47 then 1 else if id <? 107 then 2 else if id <? 393 then 3 else if id <? 735 then 4
  else if id <? 755 then 5 else if id <? 759 then 6 else if id <? 763 then 7
  else if id <? 767 then 8 else 9.

Lemma epoch_rank_of_id_mono a b : a <= b -> epoch_rank_of_id a <= epoch_rank_of_id b.
Proof. intros. unfold epoch_rank_of_id. 
  repeat match goal with |- context [?x <? ?y] => destruct (Z.ltb_spec x y) end; lia. Qed.

Lemma epoch_rank_by_id v : is_supported v = true -> is_pre_netty v = false ->
  epoch_rank (epoch v) = epoch_rank_of_id (ProtocolVersion_id v).
Proof. by destruct v. Qed.

(** ** Properties *)

(** The version table is consistent: looking up any protocol number and
    asking the result for its id gives the number back; a number is recognised
    exactly when it stands in the sorted list [SUPPORTED]; and a version looks
    itself up from its id except for the two aliases 1.7.6 and 1.16.4, which
    resolve to 1.7.10 and 1.16.5. *)
Theorem version_table_consistent :
  (forall id, ProtocolVersion_id (ProtocolVersion_from_id id) = id /\
    is_supported (ProtocolVersion_from_id id) = bool_decide (id ∈ SUPPORTED)) /\
  (forall v, is_supported v = true ->
    ProtocolVersion_from_id (ProtocolVersion_id v) =
      match v with V1_7_6 => V1_7_10 | V1_16_4 => V1_16_5 | _ => v end) /\
  StronglySorted Z.lt SUPPORTED.
Proof.
  split_and!.
  - intros id. split; [apply from_id_id|apply supported_ids].
  - by intros [].
  - apply version_table_sorted.
Qed.

(** [VersionRegistry::nearest] always returns a known version, whose id is
    at least as close to the requested number as every known id, strictly closer
    than every smaller known id, so that ties resolve downwards; a known number
    resolves to itself. *)
Theorem nearest_closest (protocol_id : Z) :
  let best := ProtocolVersion_id (nearest protocol_id) in
  is_supported (nearest protocol_id) = true /\ best ∈ SUPPORTED /\
  (forall s, s ∈ SUPPORTED -> Z.abs (best - protocol_id) <= Z.abs (s - protocol_id)) /\
  (forall s, s ∈ SUPPORTED -> s < best -> Z.abs (best - protocol_id) < Z.abs (s - protocol_id)) /\
  (protocol_id ∈ SUPPORTED -> best = protocol_id).
Proof.
  cbv zeta. unfold nearest. rewrite supported_ids.
  destruct (bool_decide_reflect (protocol_id ∈ SUPPORTED)) as [Hin|Hout].
  - rewrite supported_ids, from_id_id, bool_decide_true by done.
    split_and!; try done; intros; lia.
  - destruct (min_by_key_nonempty (fun s => Z.abs (s - protocol_id)) SUPPORTED) as [best Hb]; [done|].
    rewrite Hb. change (default 340 (Some best)) with best. rewrite supported_ids, from_id_id.
    destruct (min_by_key_spec _ _ _ Hb) as (l1 & l2 & Heq & H1 & H2).
    rewrite Forall_forall in H1, H2. cbv beta in H1, H2.
    assert (Hbest : best ∈ SUPPORTED) by (rewrite Heq; set_solver).
    assert (Hsort : Forall (fun s => best < s) l2).
    { pose proof version_table_sorted as Hs.
      rewrite Heq in Hs. apply StronglySorted_app in Hs as (_ & _ & Hs).
      by apply StronglySorted_inv in Hs as [_ ?]. }
    rewrite Forall_forall in Hsort. rewrite bool_decide_true by done.
    split_and!; try done; intros s Hs; rewrite Heq in Hs;
      apply elem_of_app in Hs as [Hs|[->|Hs]%elem_of_cons]; try lia.
    + specialize (H1 s Hs). lia.
    + by apply H2.
    + intros _. by apply H1.
    + intros Hlt. specialize (Hsort s Hs). lia.
Qed.

(** The feature predicates are the documented protocol boundaries: on every
    known version, pre-netty is exactly the 1.6 family, and flattening, chat
    signing, the login UUID and the configuration phase begin at 393, 759, 761
    and 764; epochs never decrease as post-netty numbers grow; and the canonical
    packet version of a known version belongs to the version's own epoch. *)
Theorem predicates_are_boundaries (v w : ProtocolVersion) :
  is_supported v = true -> is_supported w = true ->
  is_flattened v = (393 <=? ProtocolVersion_id v) /\
  has_chat_signing v = (759 <=? ProtocolVersion_id v) /\
  (is_pre_netty v = true <-> 73 <= ProtocolVersion_id v <= 78) /\
  (has_configuration_phase v = true -> has_login_start_uuid v = true /\ has_chat_signing v = true) /\
  (is_pre_netty v = false -> is_pre_netty w = false -> ProtocolVersion_id v <= ProtocolVersion_id w ->
     epoch_rank (epoch v) <= epoch_rank (epoch w)) /\
  epoch (as_protocol_version (canonical_typed_packet_version v)) = epoch v.
Proof.
  intros Hv Hw. split_and!.
  - by destruct v.
  - by destruct v.
  - destruct v; try done; cbn; split; intros; try done; lia.
  - destruct v; try done; cbn; auto.
  - intros Hpv Hpw Hid.
    rewrite !epoch_rank_by_id by done. by apply epoch_rank_of_id_mono.
  - by destruct v.
Qed.

Lemma predicates_are_boundaries_witness :
  is_flattened V1_13 = true /\ has_chat_signing V1_18_2 = false /\ epoch V1_13 = E_V1_13_To_1_15.
Proof.
  destruct (predicates_are_boundaries V1_13 V1_21 eq_refl eq_refl) as (H1 & _).
  destruct (predicates_are_boundaries V1_18_2 V1_21 eq_refl eq_refl) as (_ & H2 & _).
  split_and!; [exact H1|exact H2|reflexivity].
Defined.

(** An unrecognised number is treated as newer than every known version by
    the epoch predicates and as 1.12.2 by the packet builders: an unknown
    version is flattened and signs chat whatever its number, while its canonical
    packet version is neither; [nearest] never returns such a version. *)
Theorem unknown_epoch_is_newest (id : Z) :
  is_flattened (Unknown id) = true /\ has_chat_signing (Unknown id) = true /\
  (let c := as_protocol_version (canonical_typed_packet_version (Unknown id)) in
   c = V1_12_2 /\ is_flattened c = false /\ has_chat_signing c = false) /\
  forall n, nearest n <> Unknown id.
Proof.
  split_and!; try done. intros n Heq.
  assert (H : is_supported (nearest n) = true); [|by rewrite Heq in H].
  unfold nearest. destruct (is_supported (ProtocolVersion_from_id n)) eqn:E; [done|].
  destruct (min_by_key_nonempty (fun s => Z.abs (s - n)) SUPPORTED) as [best Hb]; [done|].
  rewrite Hb. change (default 340 (Some best)) with best. rewrite supported_ids. apply bool_decide_eq_true.
  destruct (min_by_key_spec _ _ _ Hb) as (l1 & l2 & -> & _). set_solver.
Qed.
