(* ===== verification/Frame.v ===== *)
(** * The netty frame codec

    crates/netty/src/frame.rs and cipher.rs: VarInt-prefixed frames behind an
    optional stream cipher, decoded incrementally from a read buffer.  The AES
    state of the [aes]/[cfb_mode] crates is a parameter [CS] with its two
    operations; what the code relies on is the class [StreamCipher]. *)
From Stdlib Require Import ZArith Lia Strings.Byte.
From stdpp Require Import base list numbers strings.
From S2P Require Import Prelude Buf Wire VarInt.
Local Open Scope Z_scope.

Definition MAX_FRAME : Z := Z.shiftl 1 21.

(** ** Ciphers *)

Record CipherOps (CS : Type) := mkCipherOps {
  encrypt : CS -> bytes -> bytes * CS;
  decrypt : CS -> bytes -> bytes * CS;
}.
Arguments mkCipherOps {CS}.
Arguments encrypt {CS}.
Arguments decrypt {CS}.

(** A buffered feedback cipher: processing a buffer in pieces is processing it
    at once, lengths are kept, and a decryptor that is [in_sync] with an
    encryptor undoes it and stays in sync. *)
Class StreamCipher {CS} (ops : CipherOps CS) (in_sync : CS -> CS -> Prop) : Prop := {
  decrypt_nil : forall d, decrypt ops d [] = ([], d);
  decrypt_app : forall d a b,
    decrypt ops d (a ++ b) =
      let '(pa, d1) := decrypt ops d a in let '(pb, d2) := decrypt ops d1 b in (pa ++ pb, d2);
  decrypt_length : forall d a, length (decrypt ops d a).1 = length a;
  sync_decrypt : forall e d xs, in_sync e d ->
    (decrypt ops d (encrypt ops e xs).1).1 = xs /\
    in_sync (encrypt ops e xs).2 (decrypt ops d (encrypt ops e xs).1).2;
}.

(** [CipherState::new]: the shared secret is key and IV. *)
Definition CipherState_new {CS} (from_key_iv : bytes -> bytes -> CS) (shared_secret : bytes)
    : outcome Z CS :=
  if negb (length shared_secret =? 16)%nat then Err (Z.of_nat (length shared_secret))
  else Ok (from_key_iv shared_secret shared_secret).

(** ** The codec *)

Record MinecraftFrameCodec (CS : Type) := mkFrameCodec {
  fc_cipher : option CS;
  (** leading bytes of the read buffer already decrypted *)
  fc_decrypted : Z;
}.
Arguments mkFrameCodec {CS}.
Arguments fc_cipher {CS}.
Arguments fc_decrypted {CS}.

Section FrameCodec.
Context {CS : Type} (ops : CipherOps CS).

Definition frame_new : MinecraftFrameCodec CS := mkFrameCodec None 0.

Definition enable_cipher (c : MinecraftFrameCodec CS) (state : CS) : MinecraftFrameCodec CS :=
  mkFrameCodec (Some state) (fc_decrypted c).

(** The first paragraph of [decode]: decrypt what arrived since the last call. *)
Definition decrypt_new (c : MinecraftFrameCodec CS) (src : bytes) : MinecraftFrameCodec CS * bytes :=
  match fc_cipher c with
  | Some cs =>
      if fc_decrypted c <? remaining src then
        let done_ := Z.to_nat (fc_decrypted c) in
        let '(plain, cs') := decrypt ops cs (drop done_ src) in
        (mkFrameCodec (Some cs') (remaining src), take done_ src ++ plain)
      else (c, src)
  | None => (c, src)
  end.

(** [Decoder::decode] on the codec and the read buffer. *)
Definition frame_decode : M (MinecraftFrameCodec CS * bytes) ErrorKind (option bytes) := fun '(c, src) =>
  let '(c, src) := decrypt_new c src in
  match VarInt_decode src with
  | (Err _, _) => (Ok None, (c, src))
  | (Panic, _) => (Panic, (c, src))
  | (NoFuel, _) => (NoFuel, (c, src))
  | (Ok len_varint, peek) =>
      let header_len := remaining src - remaining peek in
      if len_varint <? 0 then (Err KInvalidData, (c, src))
      else
        let payload_len := len_varint in
        if payload_len >? MAX_FRAME then (Err KInvalidData, (c, src))
        else if remaining src <? header_len + payload_len then (Ok None, (c, src))
        else
          let consumed := header_len + payload_len in
          match (advance header_len;; copy_to_bytes payload_len) src with
          | (Ok frame, src') =>
              (Ok (Some frame), (mkFrameCodec (fc_cipher c) (Z.max 0 (fc_decrypted c - consumed)), src'))
          | (Err e, src') => (Err e, (c, src'))
          | (Panic, src') => (Panic, (c, src'))
          | (NoFuel, src') => (NoFuel, (c, src'))
          end
  end.

(** [Encoder::encode] on the codec and the write buffer. *)
Definition frame_encode (item : bytes) : M (MinecraftFrameCodec CS * bytes) ErrorKind unit := fun '(c, dst) =>
  match VarInt_encode (wraps 32 (Z.of_nat (length item))) [] with
  | (Ok _, header) =>
      let body := header ++ item in
      match fc_cipher c with
      | Some cs =>
          let '(ct, cs') := encrypt ops cs body in
          (Ok tt, (mkFrameCodec (Some cs') (fc_decrypted c), dst ++ ct))
      | None => (Ok tt, (c, dst ++ body))
      end
  | (Err _, _) => (Err KInvalidInput, (c, dst))
  | (Panic, _) => (Panic, (c, dst))
  | (NoFuel, _) => (NoFuel, (c, dst))
  end.

(** ** The reader that drives the decoder

    [tokio_util]'s [FramedRead] appends what a socket read returned to the
    buffer and calls [decode] until it asks for more. *)
Fixpoint drain (fuel : nat) : M (MinecraftFrameCodec CS * bytes) ErrorKind (list bytes) :=
  match fuel with
  | O => nofuel
  | S fuel' =>
      let! o := frame_decode in
      match o with
      | None => ret []
      | Some f => let! fs := drain fuel' in ret (f :: fs)
      end
  end.

Definition on_read (chunk : bytes) : M (MinecraftFrameCodec CS * bytes) ErrorKind (list bytes) :=
  fun '(c, src) => drain (length (src ++ chunk) + 1) (c, src ++ chunk).

Fixpoint on_reads (chunks : list bytes) : M (MinecraftFrameCodec CS * bytes) ErrorKind (list bytes) :=
  match chunks with
  | [] => ret []
  | ch :: chs => let! fs := on_read ch in let! gs := on_reads chs in ret (fs ++ gs)
  end.

Fixpoint encode_all (items : list bytes) : M (MinecraftFrameCodec CS * bytes) ErrorKind unit :=
  match items with
  | [] => ret tt
  | f :: fs => frame_encode f;; encode_all fs
  end.

(** ** Plaintext *)

Definition frame_img (f : bytes) : bytes := wire VarInt (Z.of_nat (length f)) ++ f.
Definition frame_ok (f : bytes) : Prop := Z.of_nat (length f) <= MAX_FRAME.

Lemma frame_len_fits f : frame_ok f -> fits_s 32 (Z.of_nat (length f)).
Proof. unfold frame_ok. change MAX_FRAME with 2097152. intros. width. Qed.

(** The decoder once everything in the buffer is decrypted. *)
Definition all_plain (c : MinecraftFrameCodec CS) (src : bytes) : Prop :=
  fc_cipher c = None \/ fc_decrypted c = remaining src.

Lemma decrypt_new_plain c src : all_plain c src -> decrypt_new c src = (c, src).
Proof.
  unfold decrypt_new. intros [->|Hd]; [done|]. destruct (fc_cipher c); [|done].
  by rewrite Hd, Z.ltb_irrefl.
Qed.

Lemma cut_frame {E} (h f rest : bytes) :
  (advance (E := E) (Z.of_nat (length h));; copy_to_bytes (Z.of_nat (length f))) (h ++ f ++ rest) = (Ok f, rest).
Proof.
  unfold advance. rewrite bind_assoc, (bind_ok _ _ _ h (f ++ rest)) by (apply reads_take; lia).
  cbn. by apply reads_copy.
Qed.

(** A whole frame at the front of the buffer is returned, and the counter
    follows the buffer. *)
Lemma decode_whole c f rest : frame_ok f -> all_plain c (frame_img f ++ rest) ->
  exists c', frame_decode (c, frame_img f ++ rest) = (Ok (Some f), (c', rest)) /\
    fc_cipher c' = fc_cipher c /\ all_plain c' rest.
Proof.
  intros Hf Hp. pose proof (frame_len_fits f Hf) as Hfit. unfold frame_decode.
  rewrite decrypt_new_plain by done. unfold frame_img in *. rewrite <- app_assoc in *.
  set (h := wire VarInt _) in *.
  pose proof (lawful_reads (c := VarInt) _ Hfit (f ++ rest)) as Hr. cbn [VarInt dec] in Hr.
  fold h in Hr. rewrite Hr. unfold frame_ok in Hf.
  destruct (Z.ltb_spec (Z.of_nat (length f)) 0); [lia|].
  destruct (Z.gtb_spec (Z.of_nat (length f)) MAX_FRAME); [lia|].
  assert (Hh : remaining (h ++ f ++ rest) - remaining (f ++ rest) = Z.of_nat (length h))
    by (unfold remaining; rewrite !length_app; lia). rewrite Hh.
  destruct (Z.ltb_spec (remaining (h ++ f ++ rest)) (Z.of_nat (length h) + Z.of_nat (length f))) as [Hlt|_];
    [unfold remaining in Hlt; rewrite !length_app in Hlt; lia|].
  rewrite cut_frame. eexists. split; [done|]. cbn [fc_cipher fc_decrypted]. split; [done|].
  destruct Hp as [Hp|Hp]; [by left|right]. cbn. rewrite Hp. unfold remaining. rewrite !length_app. lia.
Qed.

(** Part of a frame is waited for. *)
Lemma decode_partial c f pre post : frame_ok f -> all_plain c pre ->
  frame_img f = pre ++ post -> post <> [] -> frame_decode (c, pre) = (Ok None, (c, pre)).
Proof.
  intros Hf Hp Himg Hpost. pose proof (frame_len_fits f Hf) as Hfit.
  unfold frame_decode. rewrite decrypt_new_plain by done. unfold frame_img in Himg.
  set (h := wire VarInt _) in *.
  destruct (decide (length h <= length pre)%nat) as [Hle|Hgt].
  - assert (Hpre : exists q, pre = h ++ q /\ f = q ++ post).
    { exists (drop (length h) pre). rewrite <- (take_drop (length h) pre) in Himg |- *.
      rewrite <- app_assoc in Himg. apply app_inj_1 in Himg as [Hh Hq].
      - rewrite drop_app_length' by (rewrite length_take; lia). by rewrite <- Hh.
      - rewrite length_take; lia. }
    destruct Hpre as (q & -> & Hq).
    pose proof (lawful_reads (c := VarInt) _ Hfit q) as Hr. cbn [VarInt dec] in Hr.
    fold h in Hr. rewrite Hr. unfold frame_ok in Hf.
    destruct (Z.ltb_spec (Z.of_nat (length f)) 0); [lia|].
    destruct (Z.gtb_spec (Z.of_nat (length f)) MAX_FRAME); [lia|].
    destruct (Z.ltb_spec (remaining (h ++ q)) (remaining (h ++ q) - remaining q + Z.of_nat (length f))) as [|Hge]; [done|].
    unfold remaining in Hge. rewrite Hq, !length_app in Hge. destruct post; [done|]. cbn in Hge. lia.
  - assert (Hh : h = pre ++ drop (length pre) h).
    { rewrite <- (take_drop (length pre) h) at 1. f_equal.
      apply (f_equal (take (length pre))) in Himg.
      rewrite take_app_le, take_app_length in Himg by lia. done. }
    destruct (VarInt_decode_partial _ pre _ Hfit Hh) as (e & rest & He); [|by rewrite He].
    intros Hnil. apply (f_equal length) in Hnil. rewrite length_drop in Hnil. cbn in Hnil. lia.
Qed.

Lemma decode_empty c : all_plain c [] -> frame_decode (c, []) = (Ok None, (c, [])).
Proof. intros Hp. unfold frame_decode. by rewrite decrypt_new_plain. Qed.

(** Draining a buffer that holds the beginning [plain] of a stream of frames
    returns the frames that are complete and leaves the beginning of the next. *)
Lemma drain_frames fs : forall fuel c plain future, Forall frame_ok fs -> all_plain c plain ->
  plain ++ future = concat (map frame_img fs) -> (length plain < fuel)%nat ->
  exists fs1 fs2 c' plain',
    drain fuel (c, plain) = (Ok fs1, (c', plain')) /\ fs = fs1 ++ fs2 /\
    plain' ++ future = concat (map frame_img fs2) /\ (future = [] -> fs2 = []) /\
    fc_cipher c' = fc_cipher c /\ all_plain c' plain'.
Proof.
  induction fs as [|f fs IH]; intros fuel c plain future Hok Hp Hs Hfuel;
    (destruct fuel as [|fuel]; [lia|]); cbn [drain].
  - apply app_eq_nil in Hs as [-> ->]. exists [], [], c, [].
    unfold bind. by rewrite decode_empty.
  - inversion Hok as [|? ? Hf Hok']; subst. cbn [map concat] in Hs.
    destruct (decide (length (frame_img f) <= length plain)%nat) as [Hle|Hgt].
    + assert (Hsplit : exists r, plain = frame_img f ++ r).
      { exists (drop (length (frame_img f)) plain). rewrite <- (take_drop (length (frame_img f)) plain) at 1.
        f_equal. apply (f_equal (take (length (frame_img f)))) in Hs.
        by rewrite take_app_le, take_app_length in Hs by lia. }
      destruct Hsplit as [r ->]. rewrite <- app_assoc in Hs. apply app_inv_head in Hs.
      destruct (decode_whole c f r Hf Hp) as (c1 & Hd & Hc1 & Hp1).
      assert (Hlen : (length r < fuel)%nat).
      { rewrite length_app in Hfuel. unfold frame_img in Hfuel. rewrite length_app in Hfuel.
        pose proof (length_wire_VarInt (Z.of_nat (length f))). lia. }
      destruct (IH fuel c1 r future Hok' Hp1 Hs Hlen) as (fs1 & fs2 & c2 & p2 & Hdr & -> & Hrest & Hfin & Hc2 & Hp2).
      exists (f :: fs1), fs2, c2, p2. unfold bind. rewrite Hd, Hdr.
      split_and!; try done. congruence.
    + assert (Hpost : exists post, frame_img f = plain ++ post /\ post <> []).
      { exists (drop (length plain) (frame_img f)). split.
        - rewrite <- (take_drop (length plain) (frame_img f)) at 1. f_equal.
          apply (f_equal (take (length plain))) in Hs. by rewrite take_app_length, take_app_le in Hs by lia.
        - intros Hnil. apply (f_equal length) in Hnil. rewrite length_drop in Hnil. cbn in Hnil. lia. }
      destruct Hpost as (post & Himg & Hne).
      exists [], (f :: fs), c, plain. unfold bind. rewrite (decode_partial c f plain post) by done.
      split_and!; try done. intros ->. exfalso. apply (f_equal length) in Hs.
      rewrite app_nil_r, length_app in Hs. lia.
Qed.

End FrameCodec.

(** ** Ciphertext *)

Section Encrypted.
Context {CS : Type} (ops : CipherOps CS) (in_sync : CS -> CS -> Prop) `{!StreamCipher ops in_sync}.

(** What the decoder's cipher would make of a list of chunks. *)
Definition plain_of (cs : option CS) (ct : bytes) : bytes :=
  match cs with Some d => (decrypt ops d ct).1 | None => ct end.
Definition after (cs : option CS) (ct : bytes) : option CS :=
  match cs with Some d => Some (decrypt ops d ct).2 | None => None end.

Lemma plain_of_app cs a b : plain_of cs (a ++ b) = plain_of cs a ++ plain_of (after cs a) b.
Proof.
  destruct cs as [d|]; [|done]. cbn. rewrite decrypt_app.
  destruct (decrypt ops d a) as [pa d1]. cbn. by destruct (decrypt ops d1 b).
Qed.

Lemma plain_of_nil cs : plain_of cs [] = [].
Proof. destruct cs as [d|]; [|done]. cbn. by rewrite decrypt_nil. Qed.

Lemma length_plain_of cs ct : length (plain_of cs ct) = length ct.
Proof. destruct cs; [apply decrypt_length|done]. Qed.

(** Decoding right after a chunk arrived is decoding the decrypted buffer. *)
Lemma decode_chunk c src chunk : all_plain c src ->
  exists c', all_plain c' (src ++ plain_of (fc_cipher c) chunk) /\
    fc_cipher c' = after (fc_cipher c) chunk /\
    frame_decode ops (c, src ++ chunk) = frame_decode ops (c', src ++ plain_of (fc_cipher c) chunk).
Proof.
  intros Hp. destruct (fc_cipher c) as [d|] eqn:Ec.
  2:{ exists c. split_and!; [by left|done|done]. }
  destruct Hp as [Hp|Hp]; [congruence|].
  destruct (decide (chunk = [])) as [->|Hne].
  { exists c. cbn. rewrite decrypt_nil. cbn. rewrite !app_nil_r. split_and!; [by right|done|done]. }
  assert (Hlt : fc_decrypted c < remaining (src ++ chunk)).
  { rewrite Hp. unfold remaining. rewrite length_app. destruct chunk; [done|cbn; lia]. }
  unfold plain_of, after. destruct (decrypt ops d chunk) as [pl d'] eqn:Ed. cbn [fst snd].
  pose proof (decrypt_length (ops := ops) d chunk) as Hl. rewrite Ed in Hl. cbn [fst] in Hl.
  exists (mkFrameCodec (Some d') (remaining (src ++ chunk))).
  assert (Hp' : all_plain (mkFrameCodec (Some d') (remaining (src ++ chunk))) (src ++ pl)).
  { right. cbn. unfold remaining. rewrite !length_app. lia. }
  split_and!; [done|done|]. unfold frame_decode. rewrite (decrypt_new_plain _ _ _ Hp').
  unfold decrypt_new. rewrite Ec, (proj2 (Z.ltb_lt _ _) Hlt), Hp.
  cbv zeta. rewrite drop_app_len, take_app_len by (unfold remaining; lia). by rewrite Ed.
Qed.

Lemma drain_chunk fuel c src chunk : all_plain c src -> (0 < fuel)%nat ->
  exists c', all_plain c' (src ++ plain_of (fc_cipher c) chunk) /\
    fc_cipher c' = after (fc_cipher c) chunk /\
    drain ops fuel (c, src ++ chunk) = drain ops fuel (c', src ++ plain_of (fc_cipher c) chunk).
Proof.
  intros Hp Hf. destruct fuel as [|fuel]; [lia|].
  destruct (decode_chunk c src chunk Hp) as (c' & Hp' & Hc & Hd). exists c'.
  split_and!; [done|done|]. cbn [drain]. unfold bind. by rewrite Hd.
Qed.

Lemma on_reads_frames chunks : forall c src fs, Forall frame_ok fs -> all_plain c src ->
  src ++ plain_of (fc_cipher c) (concat chunks) = concat (map frame_img fs) ->
  chunks <> [] \/ fs = [] ->
  exists c', on_reads ops chunks (c, src) = (Ok fs, (c', [])) /\
    fc_cipher c' = after (fc_cipher c) (concat chunks) /\ all_plain c' [].
Proof.
  induction chunks as [|ch chs IH]; intros c src fs Hok Hp Hs Hne.
  - destruct Hne as [?| ->]; [done|]. cbn [concat] in *. rewrite plain_of_nil in Hs.
    apply app_eq_nil in Hs as [-> _]. exists c. split_and!; [done| |done].
    destruct (fc_cipher c); [|done]. cbn. by rewrite decrypt_nil.
  - cbn [concat] in *. rewrite plain_of_app, app_assoc in Hs. cbn [on_reads]. unfold on_read.
    destruct (drain_chunk (length (src ++ ch) + 1) c src ch Hp ltac:(lia)) as (c1 & Hp1 & Hc1 & Hd1).
    destruct (drain_frames ops fs (length (src ++ ch) + 1) c1 _ _ Hok Hp1 Hs) as
      (fs1 & fs2 & c2 & p2 & Hd2 & -> & Hrest & Hfin & Hc2 & Hp2).
    { rewrite !length_app, length_plain_of. lia. }
    apply Forall_app in Hok as [_ Hok2].
    destruct (IH c2 p2 fs2 Hok2 Hp2) as (c3 & Hr & Hc3 & Hp3).
    { by rewrite Hc2, Hc1. }
    { destruct chs; [|by left]. right. apply Hfin. cbn. apply plain_of_nil. }
    exists c3. unfold bind. rewrite Hd1, Hd2, Hr. split_and!; [done| |done].
    rewrite Hc3, Hc2, Hc1. destruct (fc_cipher c) as [d|]; [|done]. cbn.
    rewrite decrypt_app. destruct (decrypt ops d ch) as [pa d1]. cbn. by destruct (decrypt ops d1 _).
Qed.

(** Encoder and decoder hold matching ciphers, or none. *)
Definition linked (e d : option CS) : Prop :=
  match e, d with Some e, Some d => in_sync e d | None, None => True | _, _ => False end.

Lemma encode_all_plain fs : forall e d dst k, Forall frame_ok fs -> linked e d ->
  exists e' ct, encode_all ops fs (mkFrameCodec e k, dst) = (Ok tt, (mkFrameCodec e' k, dst ++ ct)) /\
    plain_of d ct = concat (map frame_img fs) /\ linked e' (after d ct).
Proof.
  induction fs as [|f fs IH]; intros e d dst k Hok Hl.
  - exists e, []. rewrite app_nil_r, plain_of_nil. split_and!; [done|done|].
    destruct d; [|done]. cbn. by rewrite decrypt_nil.
  - inversion Hok as [|? ? Hf Hok']; subst. pose proof (frame_len_fits f Hf) as Hfit.
    assert (Hhead : VarInt_encode (wraps 32 (Z.of_nat (length f))) [] = (Ok tt, wire VarInt (Z.of_nat (length f)))).
    { rewrite wraps_id by (done || lia). apply (lawful_writes (c := VarInt) _ Hfit []). }
    assert (Hstep : exists e1 ct1, frame_encode ops f (mkFrameCodec e k, dst) = (Ok tt, (mkFrameCodec e1 k, dst ++ ct1)) /\
      plain_of d ct1 = frame_img f /\ linked e1 (after d ct1)).
    { unfold frame_encode. rewrite Hhead. cbn [fc_cipher fc_decrypted]. destruct e as [e|], d as [d|]; try done.
      - destruct (sync_decrypt (ops := ops) e d (frame_img f) Hl) as [Hd Hsync].
        fold (frame_img f). destruct (encrypt ops e (frame_img f)) as [ct e1]. exists (Some e1), ct. done.
      - exists None, (frame_img f). done. }
    destruct Hstep as (e1 & ct1 & Hs1 & Hp1 & Hl1).
    destruct (IH e1 (after d ct1) (dst ++ ct1) k Hok' Hl1) as (e2 & ct2 & Hs2 & Hp2 & Hl2).
    exists e2, (ct1 ++ ct2). cbn [encode_all map concat]. unfold bind. rewrite Hs1, Hs2, app_assoc.
    split_and!; [done| |].
    + by rewrite plain_of_app, Hp1, Hp2.
    + destruct d as [d|]; [|done]. cbn in *. rewrite decrypt_app.
      destruct (decrypt ops d ct1) as [pa d1]. cbn in *. by destruct (decrypt ops d1 ct2).
Qed.

(** ** Properties *)

(** C1: frames survive any split into reads: for every list of frames of at
    most [MAX_FRAME] bytes, encoded in order (and encrypted, when both ends hold
    matching cipher states), and every way of cutting the bytes into chunks, the
    decoder driven chunk by chunk returns exactly those frames, empties the
    buffer, and is left with a cipher still in sync.  Each ciphertext byte is
    thus decrypted once, however the frames were split. *)
Theorem frames_survive_chunking (fs : list bytes) (enc_c dec_c : MinecraftFrameCodec CS)
    (chunks : list bytes) :
  Forall frame_ok fs -> linked (fc_cipher enc_c) (fc_cipher dec_c) -> fc_decrypted dec_c = 0 ->
  chunks <> [] -> concat chunks = (encode_all ops fs (enc_c, [])).2.2 ->
  (encode_all ops fs (enc_c, [])).1 = Ok tt /\
  exists dec_c', on_reads ops chunks (dec_c, []) = (Ok fs, (dec_c', [])) /\
    linked (fc_cipher (encode_all ops fs (enc_c, [])).2.1) (fc_cipher dec_c').
Proof.
  intros Hok Hl Hd Hne Hc. destruct enc_c as [e k].
  destruct (encode_all_plain fs e (fc_cipher dec_c) [] k Hok Hl) as (e' & ct & He & Hp & Hl').
  rewrite He in *. cbn [fst snd app fc_cipher] in *. split; [done|].
  destruct (on_reads_frames chunks dec_c [] fs Hok) as (c' & Hr & Hc' & _).
  - by right.
  - by rewrite Hc, <- Hp.
  - by left.
  - exists c'. split; [done|]. by rewrite Hc', Hc.
Qed.

End Encrypted.

(** A one-byte feedback cipher, to evaluate the codec with. *)
Fixpoint feedback_encrypt (s : Z) (xs : bytes) : bytes * Z :=
  match xs with
  | [] => ([], s)
  | x :: xs' => let c := zb (bz x + s) in let '(ys, s') := feedback_encrypt (bz c) xs' in (c :: ys, s')
  end.
Fixpoint feedback_decrypt (s : Z) (ys : bytes) : bytes * Z :=
  match ys with
  | [] => ([], s)
  | y :: ys' => let '(xs, s') := feedback_decrypt (bz y) ys' in (zb (bz y - s) :: xs, s')
  end.
Definition feedback : CipherOps Z := mkCipherOps feedback_encrypt feedback_decrypt.

#[export] Instance feedback_stream : StreamCipher feedback eq.
Proof.
  split; cbn [feedback encrypt decrypt].
  - done.
  - intros d a. revert d. induction a as [|x a IH]; intros d b; cbn.
    + by destruct (feedback_decrypt d b).
    + rewrite IH. destruct (feedback_decrypt (bz x) a) as [? d1]. by destruct (feedback_decrypt d1 b).
  - intros d a. revert d. induction a as [|x a IH]; intros d; [done|]. cbn.
    specialize (IH (bz x)). destruct (feedback_decrypt (bz x) a). cbn in *. lia.
  - intros e d xs <-. revert e. induction xs as [|x xs IH]; intros e; [done|]. cbn.
    specialize (IH (bz (zb (bz x + e)))). destruct (feedback_encrypt _ xs) as [ys e'] eqn:Ee. cbn in *.
    destruct (feedback_decrypt (bz (zb (bz x + e))) ys) as [p d'] eqn:Ed. cbn in *.
    destruct IH as [-> ->]. split; [|done]. f_equal. apply bz_inj. rewrite bz_zb, bz_zb.
    rewrite Zminus_mod_idemp_l. replace (bz x + e - e) with (bz x) by lia.
    apply Z.mod_small, bz_range.
Qed.

(** Three frames, the middle one empty, cut inside a header and a body. *)
Definition sample_frames : list bytes := [replicate 130 x41; []; lit "hello"].
Definition sample_chunks : list bytes :=
  let ct := (encode_all feedback sample_frames (mkFrameCodec (Some 7) 0, [])).2.2 in
  [take 1 ct; []; take 50 (drop 1 ct); take 83 (drop 51 ct); drop 134 ct].

Lemma frames_survive_chunking_witness :
  exists dec_c', on_reads feedback sample_chunks (mkFrameCodec (Some 7) 0, []) =
    (Ok sample_frames, (dec_c', [])).
Proof.
  destruct (frames_survive_chunking feedback eq sample_frames (mkFrameCodec (Some 7) 0)
    (mkFrameCodec (Some 7) 0) sample_chunks) as [_ (c' & H & _)].
  - repeat constructor; vm_compute; congruence.
  - reflexivity.
  - reflexivity.
  - discriminate.
  - vm_compute. reflexivity.
  - exists c'. exact H.
Defined.

(** [decode] is safe on any buffer: it returns; a frame it returns is at
    most [MAX_FRAME] bytes and stood in the decrypted buffer behind its one- to
    five-byte length, and the rest of the buffer is what follows it; otherwise
    (more bytes awaited, or a negative or oversized length) the decrypted buffer
    is left as it is. *)
Theorem frame_decode_safe {CS} (ops : CipherOps CS) (c : MinecraftFrameCodec CS) (src : bytes) :
  let plain := (decrypt_new ops c src).2 in
  match frame_decode ops (c, src) with
  | (Ok (Some f), (_, src')) =>
      frame_ok f /\ exists hdr, plain = hdr ++ f ++ src' /\ (1 <= length hdr <= 5)%nat
  | (Ok None, (_, src')) => src' = plain
  | (Err e, (_, src')) => e = KInvalidData /\ src' = plain
  | _ => False
  end.
Proof.
  cbv zeta. unfold frame_decode. destruct (decrypt_new ops c src) as [c1 plain]. cbn [snd].
  pose proof (VarInt_decode_cases plain) as Hc.
  destruct (VarInt_decode plain) as [[len|e| |] peek]; [|done|done|done].
  destruct Hc as [_ (hdr & -> & Hh)].
  destruct (Z.ltb_spec len 0); [done|]. destruct (Z.gtb_spec len MAX_FRAME); [done|].
  unfold remaining. rewrite length_app.
  destruct (Z.ltb_spec (Z.of_nat (length hdr + length peek))
    (Z.of_nat (length hdr + length peek) - Z.of_nat (length peek) + len)); [done|].
  replace (Z.of_nat (length hdr + length peek) - Z.of_nat (length peek)) with (Z.of_nat (length hdr)) by lia.
  assert (Hcut : exists f r, peek = f ++ r /\ len = Z.of_nat (length f)).
  { exists (take (Z.to_nat len) peek), (drop (Z.to_nat len) peek).
    rewrite take_drop, length_take. split; [done|lia]. }
  destruct Hcut as (f & r & -> & ->). rewrite cut_frame. split; [done|by exists hdr].
Qed.

Lemma decode_overlong buf : exists rest, VarInt_decode (replicate 5 xff ++ buf) = (Err (VarIntOverflow 5), rest).
Proof.
  unfold VarInt_decode, bind. cbn [replicate app].
  do 4 (rewrite decode_groups_step by done; cbv zeta;
        change (Z.land (bz xff) 0x80 =? 0) with false; cbv iota).
  rewrite decode_groups_refuse by done. by exists buf.
Qed.

(** A malformed length is not an error to the frame codec: when five
    continuation bytes stand at the front, [decode] asks for more whatever
    arrives, so the connection is neither served nor closed and its buffer
    grows with every read. *)
Theorem malformed_length_stalls {CS} (ops : CipherOps CS) (k : Z) (chunks : list bytes) :
  let junk := replicate 5 xff in
  on_reads ops chunks (mkFrameCodec None k, junk) = (Ok [], (mkFrameCodec None k, junk ++ concat chunks)).
Proof.
  cbv zeta.
  assert (H : forall buf, frame_decode ops (mkFrameCodec None k, replicate 5 xff ++ buf) =
    (Ok None, (mkFrameCodec None k, replicate 5 xff ++ buf))).
  { intros buf. unfold frame_decode. cbn [decrypt_new fc_cipher].
    destruct (decode_overlong buf) as [rest Hd]. by rewrite Hd. }
  enough (Hgen : forall chs buf, on_reads ops chs (mkFrameCodec None k, replicate 5 xff ++ buf) =
    (Ok [], (mkFrameCodec None k, replicate 5 xff ++ buf ++ concat chs))).
  { specialize (Hgen chunks []). by rewrite app_nil_r in Hgen. }
  induction chs as [|ch chs IH]; intros buf; cbn [on_reads concat].
  - by rewrite app_nil_r.
  - assert (Hr : on_read ops ch (mkFrameCodec None k, replicate 5 xff ++ buf) =
      (Ok [], (mkFrameCodec None k, replicate 5 xff ++ buf ++ ch))).
    { unfold on_read. rewrite <- app_assoc, Nat.add_1_r. cbn [drain]. unfold bind. by rewrite H. }
    unfold bind. rewrite Hr, IH. unfold ret. by rewrite <- app_assoc.
Qed.
