(* ===== verification/PacketIo.v ===== *)
(** * Packet framing on sockets

    crates/proxy-core/src/net/packet_io.rs: the modern VarInt framing with
    optional zlib compression and the pre-netty (1.6) framing, read from and
    written to byte streams.  A reader is the list of bytes still to come, at
    whose end every read reports [UnexpectedEof]; a writer is the list of bytes
    written.  The zlib encoder and decoder of [flate2] are parameters. *)
From Stdlib Require Import ZArith Lia Strings.Byte.
From stdpp Require Import base list numbers strings.
From S2P Require Import Prelude Buf Wire VarInt Negotiation.
Local Open Scope Z_scope.

(** crates/proxy-core/src/error.rs *)
Inductive ConnectionError :=
  | CE_Io (kind : ErrorKind)
  | CE_Protocol (e : ProtocolError)
  | CE_Auth (msg : bytes)
  | CE_NoBackend
  | CE_Closed
  | CE_Reconnect
  | CE_Backend (e : ConnectionError).

Abbreviation Conn A := (M bytes ConnectionError A).

Definition NO_COMPRESSION : Z := -1.
Definition MAX_PACKET_SIZE : Z := 2 * 1024 * 1024.

(** ** Streams *)

(** [AsyncReadExt::read_exact] of [n] bytes: at the end of the stream whatever
    was there has been consumed. *)
Definition read_exact (n : nat) : Conn bytes := fun src =>
  if (length src <? n)%nat then (Err (CE_Io KUnexpectedEof), [])
  else (Ok (take n src), drop n src).

Definition read_u8 : Conn Z := let! bs := read_exact 1 in ret (be_val bs).

(** [write_all] then [flush]. *)
Definition write_all (bs : bytes) : Conn unit := fun dst => (Ok tt, dst ++ bs).

Definition is_pre_netty_proto (proto : Z) : bool :=
  bool_decide (epoch (nearest proto) = E_PreNetty).

Definition write_legacy_bytes (raw : bytes) : Conn unit := write_all raw.
Definition read_legacy_byte : Conn Z := read_u8.

(** [read_varint], iteration [i] of [for i in 0..5]. *)
Fixpoint read_varint_loop (n : nat) (i result : Z) : Conn Z :=
  match n with
  | O => fail (CE_Protocol (VarIntOverflow 5))
  | S n' =>
      let! byte := read_u8 in
      let result := Z.lor result (wrapu 32 (Z.shiftl (Z.land byte 0x7F) (7 * i))) in
      if Z.land byte 0x80 =? 0 then ret (wraps 32 result)
      else read_varint_loop n' (i + 1) result
  end.

Definition read_varint : Conn Z := read_varint_loop 5 0 0.

(** [VarInt(..).encode(..).expect(..)] into a fresh buffer. *)
Definition varint_bytes (v : Z) : bytes := (VarInt_encode v []).2.

(** ** Modern framing *)

Definition encode_frame (body : bytes) : bytes :=
  varint_bytes (wraps 32 (Z.of_nat (length body))) ++ body.

Definition read_frame : Conn bytes :=
  let! len := read_varint in
  if (len <? 0) || (wrapu 64 len >? MAX_PACKET_SIZE)
  then fail (CE_Protocol (PacketTooLarge (wrapu 64 len) MAX_PACKET_SIZE))
  else read_exact (Z.to_nat len).

Section Zlib.
(** [deflate raw]: the zlib stream [ZlibEncoder] (fast) makes of [raw].
    [inflate s]: the bytes [ZlibDecoder] yields from [s] and how it then ends:
    cleanly ([None], every further read returns [Ok(0)]) or with an error. *)
Variable deflate : bytes -> bytes.
Variable inflate : bytes -> bytes * option ErrorKind.

Definition compress (raw : bytes) (threshold : Z) : bytes :=
  if Z.of_nat (length raw) >=? Z.max threshold 0 then
    varint_bytes (wraps 32 (Z.of_nat (length raw))) ++ deflate raw
  else varint_bytes 0 ++ raw.

Definition decompress (body : bytes) : outcome ConnectionError bytes :=
  match VarInt_decode body with
  | (Err e, _) => Err (CE_Protocol e)
  | (Panic, _) => Panic
  | (NoFuel, _) => NoFuel
  | (Ok data_len, cursor) =>
      if data_len =? 0 then Ok cursor
      else if (data_len <? 0) || (wrapu 64 data_len >? MAX_PACKET_SIZE) then
        Err (CE_Protocol (PacketTooLarge (wrapu 64 data_len) MAX_PACKET_SIZE))
      else
        let n := Z.to_nat data_len in
        let '(out, end_) := inflate cursor in
        (* read_exact *)
        if (length out <? n)%nat then Err (CE_Io (default KUnexpectedEof end_))
        (* the trailing one-byte read *)
        else if (n <? length out)%nat then Err (CE_Protocol UnexpectedEof)
        else
          match end_ with
          | None | Some KUnexpectedEof => Ok (take n out)
          | Some e => Err (CE_Io e)
          end
  end.

Definition encode_packet (raw : bytes) (threshold : Z) : bytes :=
  if threshold >=? 0 then encode_frame (compress raw threshold) else encode_frame raw.

Definition read_packet (threshold : Z) : Conn bytes :=
  let! body := read_frame in
  if threshold >=? 0 then (fun src => (decompress body, src)) else ret body.

Definition write_packet (raw : bytes) (threshold : Z) : Conn unit :=
  write_all (encode_packet raw threshold).

End Zlib.

(** ** Pre-netty framing *)

(** Body size of the fixed-shape client packets of 1.6.4. *)
Definition fixed_len (id : Z) : option nat :=
  match id with
  | 0x00 => Some 4%nat
  | 0x07 => Some 9%nat
  | 0x0A => Some 1%nat
  | 0x0B => Some 33%nat
  | 0x0C => Some 9%nat
  | 0x0D => Some 41%nat
  | 0x0E => Some 11%nat
  | 0x10 => Some 2%nat
  | 0x12 => Some 5%nat
  | 0x13 => Some 9%nat
  | 0x16 => Some 1%nat
  | 0x65 => Some 1%nat
  | 0x6A => Some 4%nat
  | 0xCA => Some 9%nat
  | 0xCD => Some 1%nat
  | _ => None
  end.

Definition i16_from_be (bs : bytes) : Z := wraps 16 (be_val bs).

(** [src.read_exact(&mut buf)?; out.put_slice(&buf);], then [k] on both. *)
Definition read_into (n : nat) (out : bytes) (k : bytes -> bytes -> Conn bytes) : Conn bytes :=
  let! buf := read_exact n in k buf (out ++ buf).

(** Appends a length-prefixed UCS-2 string to [out], verbatim. *)
Definition read_ucs2_into (out : bytes) : Conn bytes :=
  read_into 2 out (fun len_buf out =>
    let char_count := be_val len_buf in
    read_into (Z.to_nat (char_count * 2)) out (fun _ out => ret out)).

(** The inlined slot of PlayerBlockPlacement and ClickWindow. *)
Definition read_slot_into (out : bytes) : Conn bytes :=
  read_into 2 out (fun slot_id out =>
    if negb (i16_from_be slot_id =? -1) then
      read_into 3 out (fun _ out =>
      read_into 2 out (fun nbt_len_buf out =>
        if Z.max (i16_from_be nbt_len_buf) 0 >? 0
        then read_into (Z.to_nat (Z.max (i16_from_be nbt_len_buf) 0)) out (fun _ out => ret out)
        else ret out))
    else ret out).

(** The body of packet [id], behind the id byte already in [out]. *)
Definition read_pre_netty_body (id : Z) (out : bytes) : Conn bytes :=
  match fixed_len id with
  | Some n => read_into n out (fun _ out => ret out)
  | None =>
      match id with
      | 0x03 | 0xCB => read_ucs2_into out
      | 0x0F =>
          read_into (4 + 1 + 4 + 1) out (fun _ out =>
            let! out := read_slot_into out in
            read_into 3 out (fun _ out => ret out))
      | 0x66 => read_into (1 + 2 + 1 + 2 + 1) out (fun _ out => read_slot_into out)
      | 0x82 =>
          read_into (4 + 2 + 4) out (fun _ out =>
            let! out := read_ucs2_into out in
            let! out := read_ucs2_into out in
            let! out := read_ucs2_into out in
            read_ucs2_into out)
      | 0xCC => let! out := read_ucs2_into out in read_into 4 out (fun _ out => ret out)
      | 0xFA =>
          let! out := read_ucs2_into out in
          read_into 2 out (fun len_buf out =>
            if Z.max (i16_from_be len_buf) 0 >? 0
            then read_into (Z.to_nat (Z.max (i16_from_be len_buf) 0)) out (fun _ out => ret out)
            else ret out)
      | 0xFF => read_ucs2_into out
      | _ => fail (CE_Io KInvalidData)
      end
  end.

Definition read_pre_netty_packet : Conn bytes :=
  read_into 1 [] (fun id_buf out => read_pre_netty_body (be_val id_buf) out).

(** ** Version-aware entry points *)

Section ClientSide.
Variable deflate : bytes -> bytes.
Variable inflate : bytes -> bytes * option ErrorKind.

Definition write_client_packet (raw : bytes) (protocol_version threshold : Z) : Conn unit :=
  if is_pre_netty_proto protocol_version then write_legacy_bytes raw
  else write_packet deflate raw threshold.

Definition read_client_packet (protocol_version threshold : Z) : Conn bytes :=
  if is_pre_netty_proto protocol_version then read_pre_netty_packet
  else read_packet inflate threshold.

Definition write_typed_packet (pid : Z) (body : bytes) (protocol_version compression_threshold : Z)
    : Conn unit :=
  if is_pre_netty_proto protocol_version then write_legacy_bytes (zb pid :: body)
  else write_packet deflate (varint_bytes pid ++ body) compression_threshold.

End ClientSide.

(** ** Lemmas *)

Lemma reads_exact bs n : n = length bs -> reads (read_exact n) bs bs.
Proof.
  intros -> rest. unfold read_exact. rewrite length_app.
  destruct (Nat.ltb_spec (length bs + length rest) (length bs)); [lia|].
  by rewrite take_app_length, drop_app_length.
Qed.

Lemma total_exact n : total (read_exact n).
Proof. intros src. unfold read_exact. by destruct (_ <? _)%nat. Qed.

Lemma read_u8_cons b src : read_u8 (b :: src) = (Ok (bz b), src).
Proof. unfold read_u8, bind, read_exact. cbn. by rewrite take_0, drop_0. Qed.

Lemma total_read_varint_loop n i r : total (read_varint_loop n i r).
Proof.
  revert i r. induction n as [|n IH]; intros i r; [done|]. cbn [read_varint_loop].
  apply total_bind; [apply total_bind; [apply total_exact|done]|]. intros b.
  cbv zeta. destruct (_ =? 0); [done|apply IH].
Qed.

Lemma read_varint_groups bad fuel n r k src v rest : k + Z.of_nat n = 5 ->
  decode_groups 32 5 bad fuel r (7 * k) k src = (Ok v, rest) ->
  read_varint_loop n k r src = (Ok (wraps 32 v), rest).
Proof.
  revert fuel r k src. induction n as [|n IH]; intros fuel r k src Hk Hd;
    (destruct fuel as [|fuel]; [done|]).
  { cbn [decode_groups] in Hd. destruct (Z.geb_spec k 5); [done|lia]. }
  destruct src as [|b src].
  { cbn [decode_groups] in Hd. by destruct (Z.geb_spec k 5). }
  destruct ((k + 1 =? 5) && bad (bz b)) eqn:Hbad; [by rewrite decode_groups_refuse in Hd by (done || lia)|].
  rewrite decode_groups_step in Hd by (done || lia). cbv zeta in Hd. cbn [read_varint_loop].
  unfold bind. rewrite read_u8_cons. destruct (_ =? 0).
  - by injection Hd as <- <-.
  - replace (7 * k + 7) with (7 * (k + 1)) in Hd by lia. apply (IH fuel); [lia|done].
Qed.

(** The socket reader gives every answer [VarInt::decode] gives. *)
Lemma read_varint_agrees src v rest :
  VarInt_decode src = (Ok v, rest) -> read_varint src = (Ok v, rest).
Proof.
  unfold VarInt_decode. intros H. apply bind_inv_ok in H as (r & s1 & Hd & H).
  injection H as <- <-. by apply (read_varint_groups _ 6 5 0 0 src r s1) in Hd.
Qed.

Lemma reads_read_varint v : fits_s 32 v -> reads read_varint (wire VarInt v) v.
Proof. intros Hv rest. apply read_varint_agrees, (lawful_reads (c := VarInt) v Hv). Qed.

Lemma varint_bytes_wire v : varint_bytes v = wire VarInt v.
Proof. done. Qed.

Definition body_ok (body : bytes) : Prop := Z.of_nat (length body) <= MAX_PACKET_SIZE.

Lemma body_ok_fits body : body_ok body ->
  fits_s 32 (Z.of_nat (length body)) /\ wraps 32 (Z.of_nat (length body)) = Z.of_nat (length body) /\
  wrapu 64 (Z.of_nat (length body)) = Z.of_nat (length body).
Proof.
  unfold body_ok. change MAX_PACKET_SIZE with 2097152. intros.
  assert (fits_s 32 (Z.of_nat (length body))) by width.
  split_and!; [done|apply wraps_id; [lia|done]|apply wrapu_id; width].
Qed.

Lemma reads_frame body : body_ok body -> reads read_frame (encode_frame body) body.
Proof.
  intros Hb. destruct (body_ok_fits body Hb) as (Hf & Hw & Hu). unfold encode_frame.
  rewrite varint_bytes_wire, Hw. eapply reads_bind; [by apply reads_read_varint|].
  rewrite Hu. destruct (Z.ltb_spec (Z.of_nat (length body)) 0); [lia|].
  unfold body_ok in Hb. destruct (Z.gtb_spec (Z.of_nat (length body)) MAX_PACKET_SIZE); [lia|].
  apply reads_exact. lia.
Qed.

Section ZlibLaws.
Variable deflate : bytes -> bytes.
Variable inflate : bytes -> bytes * option ErrorKind.
Hypothesis inflate_deflate : forall raw, inflate (deflate raw) = (raw, None).

Lemma decompress_compress raw threshold : body_ok raw -> raw <> [] \/ threshold > 0 ->
  decompress inflate (compress deflate raw threshold) = Ok raw.
Proof using inflate_deflate.
  intros Hb Hne. destruct (body_ok_fits raw Hb) as (Hf & Hw & Hu). unfold compress, decompress.
  destruct (Z.geb_spec (Z.of_nat (length raw)) (Z.max threshold 0)).
  - rewrite Hw, varint_bytes_wire. pose proof (lawful_reads (c := VarInt) _ Hf (deflate raw)) as Hr. cbn [VarInt dec] in Hr.
    rewrite Hr, Hu. destruct (Z.eqb_spec (Z.of_nat (length raw)) 0) as [H0|].
    { destruct raw; [destruct Hne; [done|cbn in *; lia]|cbn in H0; lia]. }
    destruct (Z.ltb_spec (Z.of_nat (length raw)) 0); [lia|].
    unfold body_ok in Hb. destruct (Z.gtb_spec (Z.of_nat (length raw)) MAX_PACKET_SIZE); [lia|].
    cbn [orb]. rewrite inflate_deflate, Nat2Z.id, Nat.ltb_irrefl. by rewrite firstn_all.
  - pose proof (lawful_reads (c := VarInt) 0 ltac:(cbn; width) raw) as Hr. cbn [VarInt dec] in Hr.
    by rewrite varint_bytes_wire, Hr.
Qed.

Lemma reads_packet raw threshold : body_ok raw -> raw <> [] \/ threshold <> 0 ->
  body_ok (compress deflate raw threshold) ->
  reads (read_packet inflate threshold) (encode_packet deflate raw threshold) raw.
Proof using inflate_deflate.
  intros Hb Hne Hc. unfold encode_packet, read_packet.
  destruct (Z.geb_spec threshold 0).
  - eapply reads_bind_last; [by apply reads_frame|]. intros rest.
    rewrite decompress_compress; [done|done|]. destruct Hne; [by left|right; lia].
  - eapply reads_bind_last; [by apply reads_frame|apply reads_ret].
Qed.

End ZlibLaws.

(** *** Copying readers *)

(** [m] appends to [out] exactly the bytes it takes from the stream, and how
    many it takes does not depend on what follows them. *)
Definition copier (m : bytes -> Conn bytes) : Prop := forall out src out' rest,
  m out src = (Ok out', rest) ->
  exists used, out' = out ++ used /\ src = used ++ rest /\
    forall rest', m out (used ++ rest') = (Ok out', rest').

Lemma copier_ret : copier ret.
Proof. intros out src out' rest [= <- <-]. exists []. by rewrite app_nil_r. Qed.

Lemma copier_fail e : copier (fun _ => fail e).
Proof. by intros out src out' rest [=]. Qed.

Lemma copier_into n (k : bytes -> bytes -> Conn bytes) : (forall b, copier (k b)) ->
  copier (fun out => read_into n out k).
Proof.
  unfold read_into. intros Hk out src out' rest H. apply bind_inv_ok in H as (b & s1 & Hr & H).
  unfold read_exact in Hr. destruct (Nat.ltb_spec (length src) n); [done|]. injection Hr as <- <-.
  destruct (Hk _ _ _ _ _ H) as (used & -> & Hs & Hu).
  exists (take n src ++ used). rewrite <- !app_assoc, <- Hs, take_drop. split_and!; [done|done|].
  intros rest'. rewrite <- app_assoc.
  rewrite (bind_ok _ _ _ _ _ (reads_exact (take n src) n ltac:(rewrite length_take; lia) _)).
  rewrite Hu. by rewrite <- app_assoc.
Qed.

Lemma copier_bind m1 (m2 : bytes -> Conn bytes) : copier m1 -> copier m2 ->
  copier (fun out => let! o := m1 out in m2 o).
Proof.
  intros H1 H2 out src out' rest H. apply bind_inv_ok in H as (o & s1 & Ha & H).
  destruct (H1 _ _ _ _ Ha) as (u1 & -> & -> & Hu1). destruct (H2 _ _ _ _ H) as (u2 & -> & -> & Hu2).
  exists (u1 ++ u2). rewrite !app_assoc. split_and!; [done|done|].
  intros rest'. rewrite <- (app_assoc u1). unfold bind. by rewrite Hu1, Hu2.
Qed.

Lemma copier_if (b : bool) m1 m2 : copier m1 -> copier m2 -> copier (fun out => if b then m1 out else m2 out).
Proof. by destruct b. Qed.

Ltac solve_copier := repeat first
  [ apply copier_ret | apply copier_fail | apply copier_into; intros ? | apply copier_bind
  | apply copier_if | done ].

Lemma copier_ucs2 : copier read_ucs2_into.
Proof. unfold read_ucs2_into. solve_copier. Qed.

Lemma copier_slot : copier read_slot_into.
Proof. unfold read_slot_into. solve_copier. Qed.

Lemma copier_body id : copier (read_pre_netty_body id).
Proof.
  pose proof copier_ucs2. pose proof copier_slot.
  unfold read_pre_netty_body. destruct (fixed_len id); [solve_copier|].
  repeat (case_match; solve_copier).
Qed.

Lemma total_into n out k : (forall b o, total (k b o)) -> total (read_into n out k).
Proof. intros Hk. apply total_bind; [apply total_exact|intros; apply Hk]. Qed.

Ltac solve_total_into := repeat first
  [ apply total_ret | apply total_fail | done
  | apply total_into; intros ? ? | apply total_bind; [|intros ?] | case_match ].

Lemma total_ucs2 out : total (read_ucs2_into out).
Proof. unfold read_ucs2_into. solve_total_into. Qed.
Lemma total_slot out : total (read_slot_into out).
Proof. unfold read_slot_into. solve_total_into. Qed.

Lemma total_body id out : total (read_pre_netty_body id out).
Proof.
  pose proof total_ucs2. pose proof total_slot. unfold read_pre_netty_body. solve_total_into; auto.
Qed.

Lemma total_pre_netty : total read_pre_netty_packet.
Proof. apply total_into. intros. apply total_body. Qed.

Lemma total_read_frame : total read_frame.
Proof.
  apply total_bind; [apply total_read_varint_loop|intros len]. destruct (_ || _); [done|apply total_exact].
Qed.

Lemma pre_netty_verbatim src out rest : read_pre_netty_packet src = (Ok out, rest) ->
  src = out ++ rest /\ forall rest', read_pre_netty_packet (out ++ rest') = (Ok out, rest').
Proof.
  intros H. destruct (copier_into 1 (fun b => read_pre_netty_body (be_val b)) (fun b => copier_body _)
    [] src out rest H) as (used & -> & -> & Hu). done.
Qed.

Lemma read_varint_fits n i r src v rest : read_varint_loop n i r src = (Ok v, rest) -> fits_s 32 v.
Proof.
  revert i r src. induction n as [|n IH]; intros i r src; [done|]. cbn [read_varint_loop]. intros H.
  apply bind_inv_ok in H as (b & s1 & _ & H). cbv zeta in H. destruct (_ =? 0); [|by apply IH in H].
  injection H as <- <-. by apply wraps_fits.
Qed.

Lemma frame_bounded src body rest : read_frame src = (Ok body, rest) -> body_ok body.
Proof.
  unfold read_frame. intros H. apply bind_inv_ok in H as (len & s1 & Hv & H). apply read_varint_fits in Hv.
  destruct (Z.ltb_spec len 0) as [|Hpos]; [done|].
  destruct (Z.gtb_spec (wrapu 64 len) MAX_PACKET_SIZE) as [|Hle]; [done|]. cbn [orb] in H.
  unfold read_exact in H. destruct (Nat.ltb_spec (length s1) (Z.to_nat len)); [done|].
  injection H as <- <-. unfold body_ok. rewrite length_take.
  rewrite wrapu_id in Hle by width. lia.
Qed.

(** ** Properties *)

(** C4: a packet written by the proxy is read back, at every compression
    threshold and whatever follows it on the stream, provided zlib inflates what
    it deflated, the packet and its compressed form are within the 2 MiB limit,
    and it is not an empty packet at threshold 0. *)
Theorem packet_io_roundtrip (deflate : bytes -> bytes) (inflate : bytes -> bytes * option ErrorKind)
    (raw dst rest : bytes) (threshold : Z) :
  (forall r, inflate (deflate r) = (r, None)) ->
  body_ok raw -> body_ok (compress deflate raw threshold) -> raw <> [] \/ threshold <> 0 ->
  exists bs, write_packet deflate raw threshold dst = (Ok tt, dst ++ bs) /\
    read_packet inflate threshold (bs ++ rest) = (Ok raw, rest).
Proof.
  intros Hz Hb Hc Hne. exists (encode_packet deflate raw threshold). split; [done|].
  by apply reads_packet.
Qed.

(** A stored stream, to evaluate the framing with. *)
Definition stored (raw : bytes) : bytes := x78 :: raw.
Definition unstored (s : bytes) : bytes * option ErrorKind :=
  match s with x78 :: raw => (raw, None) | _ => ([], Some KInvalidData) end.

Lemma packet_io_roundtrip_witness :
  exists bs, write_packet stored (lit "packet") 3 [] = (Ok tt, [] ++ bs) /\
    read_packet unstored 3 (bs ++ [x01]) = (Ok (lit "packet"), [x01]).
Proof.
  apply (packet_io_roundtrip stored unstored (lit "packet") [] [x01] 3).
  - reflexivity.
  - vm_compute. congruence.
  - vm_compute. congruence.
  - left. discriminate.
Defined.

(** The one packet compression does not carry: an empty packet at
    threshold 0 is announced as uncompressed but sent deflated, so the reader
    returns the zlib stream itself. *)
Theorem empty_packet_threshold_zero (deflate : bytes -> bytes)
    (inflate : bytes -> bytes * option ErrorKind) :
  compress deflate [] 0 = varint_bytes 0 ++ deflate [] /\
  decompress inflate (compress deflate [] 0) = Ok (deflate []).
Proof.
  split; [done|]. pose proof (lawful_reads (c := VarInt) 0 ltac:(cbn; width) (deflate [])) as Hr.
  change (compress deflate [] 0) with (wire VarInt 0 ++ deflate []).
  cbn [VarInt dec] in Hr. unfold decompress. by rewrite Hr.
Qed.

Lemma decompress_returned inflate body : returned (decompress inflate body).
Proof.
  unfold decompress. pose proof (VarInt_decode_cases body) as Hc.
  destruct (VarInt_decode body) as [[n|e| |] cur]; try done. repeat case_match; done.
Qed.
Lemma total_read_packet inflate threshold : total (read_packet inflate threshold).
Proof.
  unfold read_packet. apply (total_bind _ _ total_read_frame). intros body.
  destruct (_ >=? _); [intros s; apply decompress_returned|done].
Qed.

(** Every packet takes at least the first byte of its length. *)
Lemma read_exact_shrinks n src bs rest : read_exact n src = (Ok bs, rest) -> (length rest + n = length src)%nat.
Proof. unfold read_exact. destruct (Nat.ltb_spec (length src) n); [done|]. intros [= <- <-]. rewrite length_drop. lia. Qed.
Lemma read_varint_loop_shrinks n i r src v rest : read_varint_loop n i r src = (Ok v, rest) -> (length rest < length src)%nat.
Proof.
  revert i r src. induction n as [|n IH]; intros i r src; [done|]. cbn [read_varint_loop]. intros H.
  apply bind_inv_ok in H as (b & s1 & Hb & H). unfold read_u8 in Hb. apply bind_inv_ok in Hb as (bs & s2 & Hb & [= <- <-]).
  apply read_exact_shrinks in Hb. cbv zeta in H. destruct (_ =? 0); [|apply IH in H; lia]. injection H as _ <-. lia.
Qed.
Lemma read_packet_shrinks inflate threshold src p rest :
  read_packet inflate threshold src = (Ok p, rest) -> (length rest < length src)%nat.
Proof.
  unfold read_packet, read_frame. intros H. apply bind_inv_ok in H as (body & s1 & Hf & H).
  apply bind_inv_ok in Hf as (len & s2 & Hv & Hf). apply read_varint_loop_shrinks in Hv.
  destruct (_ || _); [done|]. apply read_exact_shrinks in Hf. destruct (_ >=? _); injection H; intros; subst; lia.
Qed.

(** C8: reading is safe whatever the peer sends and whatever the zlib decoder
    answers: [read_frame] and [read_packet] return; a frame is at most 2 MiB, and
    so is a packet, before and after decompression. *)
Theorem reading_bounded (inflate : bytes -> bytes * option ErrorKind) (threshold : Z) (src : bytes) :
  returned (read_packet inflate threshold src).1 /\
  (forall body rest, read_frame src = (Ok body, rest) -> body_ok body) /\
  (forall pkt rest, read_packet inflate threshold src = (Ok pkt, rest) -> body_ok pkt).
Proof.
  assert (Hdb : forall body pkt, body_ok body -> decompress inflate body = Ok pkt -> body_ok pkt).
  { intros body pkt Hb. unfold decompress. pose proof (VarInt_decode_cases body) as Hc.
    destruct (VarInt_decode body) as [[n|e| |] cur]; try done.
    destruct Hc as [Hfit (used & -> & _)]. unfold body_ok in Hb. rewrite length_app in Hb.
    destruct (_ =? 0); [intros [= <-]; unfold body_ok; lia|].
    destruct (Z.ltb_spec n 0); [done|]. destruct (Z.gtb_spec (wrapu 64 n) MAX_PACKET_SIZE) as [|Hle]; [done|].
    rewrite wrapu_id in Hle by width. cbn [orb]. destruct (inflate cur) as [out end_].
    destruct (_ <? _)%nat; [done|]. destruct (_ <? _)%nat; [done|].
    assert (body_ok (take (Z.to_nat n) out)) by (unfold body_ok; rewrite length_take; lia).
    destruct end_ as [[]|]; intros; simplify_eq; done. }
  split_and!.
  - apply total_read_packet.
  - intros body rest. apply frame_bounded.
  - intros pkt rest H. unfold read_packet in H. apply bind_inv_ok in H as (body & s1 & Hf & H).
    apply frame_bounded in Hf. destruct (_ >=? _); [|by injection H as <- <-].
    injection H as H _. by apply (Hdb body).
Qed.

(** [read_varint] answers whatever [VarInt::decode] answers, and differs
    from it only in accepting a fifth byte with bits above the 32nd, which it
    drops. *)
Theorem read_varint_extends_decode (src rest : bytes) (v : Z) :
  VarInt_decode src = (Ok v, rest) -> read_varint src = (Ok v, rest).
Proof. apply read_varint_agrees. Qed.

Lemma read_varint_extends_decode_witness :
  read_varint [xff; xff; xff; xff; x0f; x2a] = (Ok (-1), [x2a]) /\
  read_varint [x80; x80; x80; x80; x10] = (Ok 0, []) /\
  VarInt_decode [x80; x80; x80; x80; x10] = (Err (VarIntOverflow 5), []).
Proof.
  split_and!; [|vm_compute; reflexivity|vm_compute; reflexivity].
  apply (read_varint_extends_decode [xff; xff; xff; xff; x0f; x2a] [x2a] (-1)). vm_compute. reflexivity.
Defined.

(** C9: the pre-netty reader is total and relays verbatim: the packet it
    returns is exactly the bytes it took from the stream, id first, and the same
    bytes are recognised as the same packet whatever follows them.  A packet
    relayed to a 1.6 client with [write_client_packet] is thus read back by
    [read_client_packet]. *)
Theorem pre_netty_relay_verbatim (src : bytes) :
  returned (read_pre_netty_packet src).1 /\
  forall out rest, read_pre_netty_packet src = (Ok out, rest) ->
    src = out ++ rest /\
    forall deflate inflate proto threshold dst rest', is_pre_netty_proto proto = true ->
      write_client_packet deflate out proto threshold dst = (Ok tt, dst ++ out) /\
      read_client_packet inflate proto threshold (out ++ rest') = (Ok out, rest').
Proof.
  split; [apply total_pre_netty|]. intros out rest H.
  destruct (pre_netty_verbatim src out rest H) as [Hs Hr]. split; [done|].
  intros deflate inflate proto threshold dst rest' Hp. unfold write_client_packet, read_client_packet.
  rewrite Hp. split; [done|apply Hr].
Qed.

(** [write_typed_packet] frames by version: on a post-netty version the
    packet is read back as the VarInt id followed by the body; on a pre-netty
    version the stream gets the id byte and the body and nothing else. *)
Theorem typed_packet_roundtrip (deflate : bytes -> bytes) (inflate : bytes -> bytes * option ErrorKind)
    (pid : Z) (body dst rest : bytes) (proto threshold : Z) :
  (forall r, inflate (deflate r) = (r, None)) -> fits_u 8 pid ->
  let raw := varint_bytes pid ++ body in
  body_ok raw -> body_ok (compress deflate raw threshold) ->
  exists bs, write_typed_packet deflate pid body proto threshold dst = (Ok tt, dst ++ bs) /\
    (is_pre_netty_proto proto = true -> bs = zb pid :: body) /\
    (is_pre_netty_proto proto = false ->
       exists pkt, read_client_packet inflate proto threshold (bs ++ rest) = (Ok pkt, rest) /\
         VarInt_decode pkt = (Ok pid, body)).
Proof.
  intros Hz Hpid raw Hb Hc. unfold write_typed_packet, read_client_packet.
  destruct (is_pre_netty_proto proto).
  - exists (zb pid :: body). done.
  - exists (encode_packet deflate raw threshold). split_and!; [done|done|]. intros _. exists raw. split.
    + apply reads_packet; [done|done| |done]. left. unfold raw.
      pose proof (length_wire_VarInt pid). rewrite varint_bytes_wire. intros Hnil.
      apply app_eq_nil in Hnil as [Hnil _]. rewrite Hnil in *. cbn in *. lia.
    + unfold raw. rewrite varint_bytes_wire. apply (lawful_reads (c := VarInt) pid). cbn. width.
Qed.

Lemma typed_packet_roundtrip_witness :
  exists bs, write_typed_packet stored 0x26 (lit "hello limbo") 47 4 [] = (Ok tt, [] ++ bs) /\
    exists pkt, read_client_packet unstored 47 4 (bs ++ []) = (Ok pkt, []) /\
      VarInt_decode pkt = (Ok 0x26, lit "hello limbo").
Proof.
  destruct (typed_packet_roundtrip stored unstored 0x26 (lit "hello limbo") [] [] 47 4) as (bs & Hw & _ & Hr).
  - reflexivity.
  - split; vm_compute; congruence.
  - vm_compute. congruence.
  - vm_compute. congruence.
  - exists bs. split; [exact Hw|]. apply Hr. vm_compute. reflexivity.
Defined.
