(* ===== verification/Auth.v ===== *)
(** * Login authentication

    crates/auth/src: the login state machine (pipeline.rs), the session-server
    check (session.rs), offline identities (offline.rs), error texts (error.rs)
    and backend forwarding (forwarding.rs).  RSA, SHA-1, MD5, HMAC, HTTP and JSON
    are libraries and enter as parameters; the random verify token is an argument
    of the step that draws it.  An [IpAddr] is its printed form, the only thing
    the code does with it. *)
From Stdlib Require Import ZArith Lia Strings.Byte.
From stdpp Require Import base list numbers strings.
From S2P Require Import Prelude Buf Wire VarInt Codec.
Local Open Scope Z_scope.

(** ** Data *)

Record ProfileProperty := mkProperty {
  pp_name : bytes; pp_value : bytes; pp_signature : option bytes }.

Record AuthenticatedProfile := mkProfile {
  ap_id : bytes; ap_name : bytes; ap_properties : list ProfileProperty }.

Inductive AuthError :=
  | RsaDecryptionFailed
  | VerifyTokenMismatch
  | SessionServerUnreachable
  | SessionServerRejected
  | SessionServerError (code : Z)
  | MalformedProfile
  | RateLimited
  | EncryptionSetupFailed (msg : string)
  | InvalidUsername.

Inductive AuthEvent :=
  | LoginStart (username : bytes) (client_uuid : option bytes)
  | EncryptionResponse (shared_secret_enc verify_token_enc : bytes) (proto_version : Z).

Inductive AuthOutbound :=
  | EncryptionRequest (server_id public_key verify_token : bytes)
  | SetCompression (threshold : Z)
  | LoginSuccess (uuid username : bytes) (properties : list ProfileProperty)
  | LoginDisconnect (reason : bytes)
  | EnableEncryption (shared_secret : bytes).

Inductive AuthState :=
  | AwaitingLoginStart
  | AwaitingEncryptionResponse (verify_token username client_ip : bytes)
  | Authenticated (profile : AuthenticatedProfile)
  | Failed (reason : bytes).

Record AuthConfig := mkAuthConfig {
  online_mode : bool;
  compression_threshold : Z;
  session_timeout_secs : Z;
  prevent_proxy_connections : bool }.

(** ** Usernames *)

Definition is_ascii_alphanumeric (b : byte) : bool :=
  in_range 0x30 0x39 b || in_range 0x41 0x5A b || in_range 0x61 0x7A b.

Definition is_valid_username (name : bytes) : bool :=
  let len := Z.of_nat (length name) in
  ((1 <=? len) && (len <=? 16)) && forallb (fun b => is_ascii_alphanumeric b || (bz b =? 0x5F)) name.

(** ** Hexadecimal *)

Definition hex_digit (v : Z) : byte := zb (if v <? 10 then 0x30 + v else 0x57 + v).

(** [hex::encode] *)
Definition hex_encode (bs : bytes) : bytes :=
  flat_map (fun b => [hex_digit (bz b / 16); hex_digit (bz b mod 16)]) bs.

(** [str::trim_start_matches('0')] *)
Fixpoint trim_zeros (s : bytes) : bytes :=
  match s with
  | b :: s' => if bz b =? 0x30 then trim_zeros s' else s
  | [] => []
  end.

(** [for x in b.iter_mut().rev() { let (v, c) = x.overflowing_add(carry); ... }],
    on the reversed bytes. *)
Fixpoint add_carry_rev (rb : bytes) (carry : bool) : bytes :=
  match rb with
  | [] => []
  | x :: rb' =>
      let v := bz x + (if carry then 1 else 0) in
      let carry' := v >? 255 in
      if negb carry' then zb v :: rb' else zb v :: add_carry_rev rb' carry'
  end.

Definition java_hex (bs : bytes) : bytes :=
  if negb (Z.land (bz (default x00 (bs !! 0%nat))) 0x80 =? 0) then
    let b := map (fun x => zb (255 - bz x)) bs in
    let b := rev (add_carry_rev (rev b) true) in
    zb 0x2D :: trim_zeros (hex_encode b)
  else
    let t := trim_zeros (hex_encode bs) in
    match t with [] => [zb 0x30] | _ => t end.

(** ** URLs *)

Definition is_unreserved (b : byte) : bool :=
  is_ascii_alphanumeric b || (bz b =? 0x2D) || (bz b =? 0x5F) || (bz b =? 0x2E) || (bz b =? 0x7E).

Definition hex_digit_upper (v : Z) : byte := zb (if v <? 10 then 0x30 + v else 0x37 + v).

(** Every byte of a character that is not unreserved is escaped; the bytes of a
    multi-byte character are all above 0x7F, so this is byte by byte. *)
Definition percent_encode (s : bytes) : bytes :=
  flat_map (fun b => if is_unreserved b then [b]
                     else [zb 0x25; hex_digit_upper (bz b / 16); hex_digit_upper (bz b mod 16)]) s.

(** ** Offline identities *)

Definition offline_uuid (md5 : bytes -> bytes) (username : bytes) : bytes :=
  let b := md5 (lit "OfflinePlayer:" ++ username) in
  let b := <[6%nat := zb (Z.lor (Z.land (bz (default x00 (b !! 6%nat))) 0x0F) 0x30)]> b in
  <[8%nat := zb (Z.lor (Z.land (bz (default x00 (b !! 8%nat))) 0x3F) 0x80)]> b.

(** ** The session server *)

(** What the HTTP client returns. *)
Inductive HttpResult :=
  | HttpUnreachable
  | HttpStatus (code : Z) (body : bytes)
  (** the headers arrived but reading the body failed *)
  | HttpBodyFailed (code : Z).

(** [str::is_char_boundary] *)
Definition is_char_boundary (s : bytes) (i : nat) : bool :=
  match s !! i with
  | Some b => negb (in_range 0x80 0xBF b)
  | None => (i =? length s)%nat
  end.

Section Session.
Variable sha1 : bytes -> bytes.
Variable http_get : bytes -> Z -> HttpResult.
(** [serde_json::from_slice] into the fields of [Raw] *)
Variable parse_raw : bytes -> option (bytes * bytes * list ProfileProperty).
(** [Uuid::parse_str] *)
Variable uuid_parse_str : bytes -> option bytes.

Definition minecraft_hex_digest (server_id shared_secret public_key_der : bytes) : bytes :=
  java_hex (sha1 (server_id ++ shared_secret ++ public_key_der)).

(** Slicing a [str] off a character boundary panics. *)
Definition parse_uuid (s : bytes) : outcome unit bytes :=
  let finish s := match uuid_parse_str s with Some u => Ok u | None => Err tt end in
  if (length s =? 32)%nat then
    if forallb (is_char_boundary s) [8; 12; 16; 20]%nat then
      finish (take 8 s ++ [zb 0x2D] ++ take 4 (drop 8 s) ++ [zb 0x2D] ++ take 4 (drop 12 s) ++
              [zb 0x2D] ++ take 4 (drop 16 s) ++ [zb 0x2D] ++ drop 20 s)
    else Panic
  else finish s.

Definition session_url (username server_hash : bytes) (client_ip : option bytes) : bytes :=
  lit "https://sessionserver.mojang.com/session/minecraft/hasJoined?username=" ++
  percent_encode username ++ lit "&serverId=" ++ percent_encode server_hash ++
  match client_ip with Some ip => lit "&ip=" ++ ip | None => [] end.

(** [permits]: what the semaphore still grants. *)
Definition verify_session (username server_hash : bytes) (client_ip : option bytes)
    (permits timeout_secs : Z) : outcome AuthError AuthenticatedProfile :=
  if permits <=? 0 then Err RateLimited
  else
    match http_get (session_url username server_hash client_ip) timeout_secs with
    | HttpUnreachable => Err SessionServerUnreachable
    | HttpStatus 200 body =>
        match parse_raw body with
        | None => Err MalformedProfile
        | Some (id, name, properties) =>
            match parse_uuid id with
            | Ok u => Ok (mkProfile u name properties)
            | Err _ => Err (EncryptionSetupFailed "invalid UUID in profile")
            | Panic => Panic
            | NoFuel => NoFuel
            end
        end
    | HttpBodyFailed 200 => Err SessionServerUnreachable
    | HttpStatus 204 _ | HttpBodyFailed 204 => Err SessionServerRejected
    | HttpStatus code _ | HttpBodyFailed code => Err (SessionServerError code)
    end.

(** ** The pipeline *)

Variable md5 : bytes -> bytes.
Variable rsa_decrypt : bytes -> option bytes.
(** [serde_json::json!({"text": text, "color": "red"}).to_string()] *)
Variable json_reason : bytes -> bytes.
Variable pub_key_der : bytes.
Variable config : AuthConfig.

Definition to_json_reason (e : AuthError) : bytes :=
  json_reason
    match e with
    | SessionServerRejected => lit "Not authenticated! This server is in online mode — log in with a valid Minecraft (Mojang/Microsoft) account."
    | RateLimited => lit "Authentication servers are busy. Please try again."
    | SessionServerUnreachable => lit "Could not reach authentication servers."
    | InvalidUsername => lit "Invalid username."
    | _ => lit "Authentication failed."
    end.

Definition compression_out : list AuthOutbound :=
  if compression_threshold config >=? 0 then [SetCompression (compression_threshold config)] else [].

Definition success_out (profile : AuthenticatedProfile) : AuthOutbound :=
  LoginSuccess (ap_id profile) (ap_name profile) (ap_properties profile).

(** The handling of a [LoginStart]; [token] is what the generator draws. *)
Definition step_login_start (token client_ip username : bytes)
    : outcome AuthError (AuthState * list AuthOutbound) :=
  if negb (is_valid_username username) then Err InvalidUsername
  else if negb (online_mode config) then
    let profile := mkProfile (offline_uuid md5 username) username [] in
    Ok (Authenticated profile, compression_out ++ [success_out profile])
  else
    Ok (AwaitingEncryptionResponse token username client_ip,
        [EncryptionRequest [] pub_key_der token]).

(** The verify-token comparison. *)
Definition check_token (stored_token verify_token_enc : bytes) (proto_version : Z) : option AuthError :=
  match verify_token_enc with
  | [] => if (759 <=? proto_version) && (proto_version <=? 760) then None else Some VerifyTokenMismatch
  | _ =>
      match rsa_decrypt verify_token_enc with
      | None => Some RsaDecryptionFailed
      | Some decrypted => if bool_decide (decrypted = stored_token) then None else Some VerifyTokenMismatch
      end
  end.

Definition step_encryption_response (permits : Z) (stored_token username client_ip : bytes)
    (shared_secret_enc verify_token_enc : bytes) (proto_version : Z)
    : outcome AuthError (AuthState * list AuthOutbound) :=
  match rsa_decrypt shared_secret_enc with
  | None => Err RsaDecryptionFailed
  | Some shared_secret =>
      match check_token stored_token verify_token_enc proto_version with
      | Some e => Err e
      | None =>
          if negb (length shared_secret =? 16)%nat
          then Err (EncryptionSetupFailed "shared secret not 16 bytes")
          else
            let server_hash := minecraft_hex_digest [] shared_secret pub_key_der in
            let ip_opt := if prevent_proxy_connections config then Some client_ip else None in
            match verify_session username server_hash ip_opt permits (session_timeout_secs config) with
            | Ok profile =>
                Ok (Authenticated profile,
                    [EnableEncryption shared_secret] ++ compression_out ++ [success_out profile])
            | Err e => Err e
            | Panic => Panic
            | NoFuel => NoFuel
            end
      end
  end.

Definition auth_step (token : bytes) (permits : Z) (state : AuthState) (event : AuthEvent)
    (client_ip : bytes) : outcome AuthError (AuthState * list AuthOutbound) :=
  match state with
  | AwaitingLoginStart =>
      match event with
      | LoginStart username _ => step_login_start token client_ip username
      | _ => Err (EncryptionSetupFailed "unexpected event")
      end
  | AwaitingEncryptionResponse verify_token username ip =>
      match event with
      | EncryptionResponse ss_enc vt_enc proto =>
          step_encryption_response permits verify_token username ip ss_enc vt_enc proto
      | _ => Err (EncryptionSetupFailed "unexpected event")
      end
  | Authenticated _ | Failed _ => Err (EncryptionSetupFailed "auth already completed or failed")
  end.

(** [process]: the new state and what is sent to the client.  A panic inside the
    step unwinds the connection task; the state is then not used again. *)
Definition process (token : bytes) (permits : Z) (state : AuthState) (event : AuthEvent)
    (client_ip : bytes) : option (AuthState * list AuthOutbound) :=
  match auth_step token permits state event client_ip with
  | Ok (state', outbound) => Some (state', outbound)
  | Err e => let reason := to_json_reason e in Some (Failed reason, [LoginDisconnect reason])
  | Panic | NoFuel => None
  end.

Definition is_authenticated (s : AuthState) : bool := match s with Authenticated _ => true | _ => false end.
Definition is_failed (s : AuthState) : bool := match s with Failed _ => true | _ => false end.
Definition auth_profile (s : AuthState) : option AuthenticatedProfile :=
  match s with Authenticated p => Some p | _ => None end.

End Session.

(** ** Forwarding to backends *)

Definition write_varint (v : Z) : bytes := (encode_groups 5 (wrapu 32 v) []).2.

Definition write_utf8_str (s : bytes) : bytes := write_varint (wraps 32 (Z.of_nat (length s))) ++ s.

Definition velocity_property (p : ProfileProperty) : bytes :=
  write_utf8_str (pp_name p) ++ write_utf8_str (pp_value p) ++
  match pp_signature p with Some sig => x01 :: write_utf8_str sig | None => [x00] end.

Definition velocity_payload (client_ip : bytes) (profile : AuthenticatedProfile) : bytes :=
  be_bytes 4 1 ++ write_utf8_str client_ip ++ ap_id profile ++ write_utf8_str (ap_name profile) ++
  write_varint (wraps 32 (Z.of_nat (length (ap_properties profile)))) ++
  concat (map velocity_property (ap_properties profile)).

Definition velocity_header (hmac_sha256 : bytes -> bytes -> bytes) (secret client_ip : bytes)
    (profile : AuthenticatedProfile) : bytes :=
  let payload := velocity_payload client_ip profile in
  let sig := hmac_sha256 secret payload in
  write_varint (wraps 32 (Z.of_nat (length sig))) ++ sig ++ payload.

Definition bungeecord_suffix (hyphenated : bytes -> bytes) (props_json : list ProfileProperty -> option bytes)
    (client_ip : bytes) (profile : AuthenticatedProfile) : option bytes :=
  match props_json (ap_properties profile) with
  | None => None
  | Some props => Some ([x00] ++ client_ip ++ [x00] ++ hyphenated (ap_id profile) ++ [x00] ++ props)
  end.

(** ** Hexadecimal digests *)

Definition hex_digit_val (b : byte) : Z := if bz b <=? 0x39 then bz b - 0x30 else bz b - 0x57.
Definition hex_val (s : bytes) : Z := fold_left (fun acc b => acc * 16 + hex_digit_val b) s 0.

(** The number a signed hexadecimal text denotes. *)
Definition signed_hex_val (s : bytes) : Z :=
  match s with
  | b :: s' => if bz b =? 0x2D then - hex_val s' else hex_val s
  | [] => 0
  end.

(** A lower-case hexadecimal digit. *)
Definition is_hex (b : byte) : bool := in_range 0x30 0x39 b || in_range 0x61 0x66 b.

Lemma bz_hex_digit v : 0 <= v < 16 -> bz (hex_digit v) = if v <? 10 then 0x30 + v else 0x57 + v.
Proof. intros Hv. unfold hex_digit. rewrite bz_zb, Z.mod_small; [done|]. destruct (Z.ltb_spec v 10); lia. Qed.

Lemma hex_digit_val_digit v : 0 <= v < 16 -> hex_digit_val (hex_digit v) = v.
Proof.
  intros Hv. unfold hex_digit_val. rewrite bz_hex_digit by done.
  destruct (Z.ltb_spec v 10); case_match; lia.
Qed.

Lemma is_hex_digit v : 0 <= v < 16 -> is_hex (hex_digit v) = true.
Proof.
  intros Hv. unfold is_hex, in_range. rewrite bz_hex_digit by done.
  destruct (Z.ltb_spec v 10); apply orb_true_iff; [left|right]; apply andb_true_iff; lia.
Qed.

Lemma nibbles b : 0 <= bz b / 16 < 16 /\ 0 <= bz b mod 16 < 16.
Proof. pose proof (bz_range b). split; [Z.div_mod_to_equations; lia|by apply Z.mod_pos_bound]. Qed.

Lemma hex_val_encode bs : hex_val (hex_encode bs) = be_val bs.
Proof.
  unfold hex_val, be_val. generalize 0 as a. induction bs as [|b bs IH]; intros a; [done|].
  destruct (nibbles b). cbn [hex_encode flat_map app fold_left].
  rewrite !hex_digit_val_digit by done. fold (hex_encode bs). rewrite IH. f_equal.
  pose proof (Z.div_mod (bz b) 16 ltac:(lia)). lia.
Qed.

Lemma hex_encode_digits bs : Forall (fun b => is_hex b = true) (hex_encode bs).
Proof.
  induction bs as [|b bs IH]; [constructor|]. destruct (nibbles b).
  cbn. repeat (constructor; [by apply is_hex_digit|]). done.
Qed.

Lemma trim_zeros_suffix s : exists n, s = replicate n (zb 0x30) ++ trim_zeros s.
Proof.
  induction s as [|b s [n IH]]; [by exists 0%nat|]. cbn [trim_zeros].
  destruct (Z.eqb_spec (bz b) 0x30) as [Hb|]; [|by exists 0%nat].
  exists (S n). cbn. rewrite <- IH. f_equal. apply bz_inj. by rewrite Hb.
Qed.

Lemma hex_val_trim s : hex_val (trim_zeros s) = hex_val s.
Proof.
  induction s as [|b s IH]; [done|]. cbn [trim_zeros]. destruct (Z.eqb_spec (bz b) 0x30) as [Hb|]; [|done].
  rewrite IH. unfold hex_val. cbn [fold_left]. unfold hex_digit_val at 3. by rewrite Hb.
Qed.

Lemma trim_zeros_head s b s' : trim_zeros s = b :: s' -> bz b <> 0x30.
Proof.
  induction s as [|c s IH]; [done|]. cbn [trim_zeros].
  destruct (Z.eqb_spec (bz c) 0x30); [apply IH|]. by intros [= -> ->].
Qed.

Lemma trim_digits bs : Forall (fun b => is_hex b = true) (trim_zeros (hex_encode bs)).
Proof.
  pose proof (hex_encode_digits bs) as H. destruct (trim_zeros_suffix (hex_encode bs)) as [n Hn].
  rewrite Hn in H. by apply Forall_app in H as [_ ?].
Qed.

Lemma be_val_snoc bs b : be_val (bs ++ [b]) = be_val bs * 256 + bz b.
Proof. unfold be_val. by rewrite fold_left_app. Qed.

Lemma add_carry_rev_val rb c :
  be_val (rev (add_carry_rev rb c)) =
    (be_val (rev rb) + (if c then 1 else 0)) mod 256 ^ Z.of_nat (length rb) /\
  length (add_carry_rev rb c) = length rb.
Proof.
  revert c. induction rb as [|x rb IH]; intros c; [cbn; by rewrite Z.mod_1_r|].
  cbn [add_carry_rev length]. pose proof (bz_range x) as Hx. set (k := if c then 1 else 0).
  assert (Hk : 0 <= k <= 1) by (unfold k; destruct c; lia).
  rewrite Nat2Z.inj_succ, Z.pow_succ_r by lia. set (p := 256 ^ Z.of_nat (length rb)).
  assert (Hp : 0 < p) by (apply Z.pow_pos_nonneg; lia).
  pose proof (be_val_range (rev rb)) as Hr. rewrite length_rev in Hr. fold p in Hr.
  destruct (Z.gtb_spec (bz x + k) 255); cbn [negb length rev]; rewrite !be_val_snoc, bz_zb.
  - destruct (IH true) as [-> ->]. split; [|done]. fold p. assert (bz x + k = 256) as -> by lia.
    replace (be_val (rev rb) * 256 + bz x + k) with (256 * (be_val (rev rb) + 1)) by lia.
    rewrite Z.mul_mod_distr_l by lia. rewrite Z.mod_same by lia. lia.
  - split; [|done]. rewrite !Z.mod_small by lia. lia.
Qed.

Lemma be_val_complement bs :
  be_val (map (fun x => zb (255 - bz x)) bs) = 256 ^ Z.of_nat (length bs) - 1 - be_val bs.
Proof.
  induction bs as [|b bs IH]; [done|]. cbn [map length]. rewrite !be_val_cons, length_map, IH, bz_zb.
  pose proof (bz_range b). rewrite Z.mod_small, Nat2Z.inj_succ, Z.pow_succ_r by lia. lia.
Qed.

Lemma land_80_sign b : (Z.land (bz b) 0x80 =? 0) = (bz b <? 128).
Proof.
  pose proof (bz_range b). destruct (Z.ltb_spec (bz b) 128).
  - by rewrite land_80_low by lia.
  - replace (bz b) with (bz b - 128 + 128) by lia. by rewrite land_80_high by lia.
Qed.

(** The sign of a big-endian two's-complement number is its top bit. *)
Lemma be_val_top b bs : let p := 256 ^ Z.of_nat (length bs) in
  (bz b < 128 <-> be_val (b :: bs) < 128 * p).
Proof.
  intros p. rewrite be_val_cons. fold p. pose proof (be_val_range bs) as Hr. fold p in Hr. nia.
Qed.

Lemma wraps_halves w z : 0 < w -> 0 <= z < 2 ^ w ->
  wraps w z = if z <? 2 ^ (w - 1) then z else z - 2 ^ w.
Proof.
  intros Hw Hz. pose proof (pow2_half w Hw). pose proof (pow2_pos (w - 1) ltac:(lia)).
  unfold wraps. destruct (Z.ltb_spec z (2 ^ (w - 1))).
  - rewrite Z.mod_small; lia.
  - replace (z + 2 ^ (w - 1)) with (z - 2 ^ (w - 1) + 1 * 2 ^ w) by lia.
    rewrite Z.mod_add, Z.mod_small by lia. lia.
Qed.

(** Lower-case digits without a leading zero. *)
Definition canonical_digits (s : bytes) : Prop :=
  Forall (fun b => is_hex b = true) s /\ exists d ds, s = d :: ds /\ bz d <> 0x30.

Lemma is_hex_not_minus b : is_hex b = true -> bz b <> 0x2D.
Proof. unfold is_hex, in_range. intros H Hb. by rewrite Hb in H. Qed.

Lemma signed_digits s : canonical_digits s -> signed_hex_val s = hex_val s.
Proof.
  intros [Hall (d & ds & -> & _)]. cbn [signed_hex_val]. inversion Hall as [|? ? Hd _]; subst.
  apply is_hex_not_minus in Hd. by rewrite (proj2 (Z.eqb_neq _ _)).
Qed.

Lemma trim_canonical bs : be_val bs <> 0 -> canonical_digits (trim_zeros (hex_encode bs)).
Proof.
  intros Hne. split; [apply trim_digits|].
  destruct (trim_zeros (hex_encode bs)) as [|d ds] eqn:E.
  - exfalso. apply Hne. rewrite <- hex_val_encode, <- hex_val_trim, E. done.
  - exists d, ds. split; [done|]. by apply trim_zeros_head in E.
Qed.

Lemma hex_val_acc s a :
  fold_left (fun acc b => acc * 16 + hex_digit_val b) s a = a * 16 ^ Z.of_nat (length s) + hex_val s.
Proof.
  unfold hex_val. revert a. induction s as [|b s IH]; intros a; cbn [fold_left length].
  - rewrite Z.pow_0_r. lia.
  - rewrite IH, (IH (0 * 16 + _)), Nat2Z.inj_succ, Z.pow_succ_r by lia. lia.
Qed.

Lemma hex_digit_val_range b : is_hex b = true ->
  0 <= hex_digit_val b < 16 /\ (hex_digit_val b = 0 -> bz b = 0x30).
Proof.
  unfold is_hex, in_range, hex_digit_val.
  intros [[?%Z.leb_le ?%Z.leb_le]%andb_true_iff|[?%Z.leb_le ?%Z.leb_le]%andb_true_iff]%orb_true_iff;
    destruct (Z.leb_spec (bz b) 0x39); lia.
Qed.

Lemma hex_val_nonneg s : Forall (fun b => is_hex b = true) s -> 0 <= hex_val s.
Proof.
  induction 1 as [|b s Hb _ IH]; [done|]. unfold hex_val. cbn [fold_left]. rewrite hex_val_acc.
  pose proof (hex_digit_val_range b Hb). pose proof (Z.pow_pos_nonneg 16 (Z.of_nat (length s))). nia.
Qed.

Lemma hex_val_pos d ds : Forall (fun b => is_hex b = true) (d :: ds) -> bz d <> 0x30 -> 0 < hex_val (d :: ds).
Proof.
  intros Hall Hd. inversion Hall as [|? ? Hh Hs]; subst. pose proof (hex_val_nonneg ds Hs).
  destruct (hex_digit_val_range d Hh) as [Hr H0]. unfold hex_val. cbn [fold_left]. rewrite hex_val_acc.
  pose proof (Z.pow_pos_nonneg 16 (Z.of_nat (length ds))).
  assert (hex_digit_val d <> 0) by tauto. nia.
Qed.

Lemma java_hex_spec b bs :
  let v := wraps (8 * Z.of_nat (S (length bs))) (be_val (b :: bs)) in
  signed_hex_val (java_hex (b :: bs)) = v /\
  ((v = 0 /\ java_hex (b :: bs) = lit "0") \/
   (0 < v /\ canonical_digits (java_hex (b :: bs))) \/
   (v < 0 /\ exists ds, java_hex (b :: bs) = zb 0x2D :: ds /\ canonical_digits ds)).
Proof.
  cbv zeta. set (w := 8 * Z.of_nat (S (length bs))).
  pose proof (be_val_range (b :: bs)) as Hr. cbn [length] in Hr. rewrite pow256 in Hr. fold w in Hr.
  assert (Hw : 0 < w) by lia. rewrite wraps_halves by done.
  assert (Hhalf : 128 * 256 ^ Z.of_nat (length bs) = 2 ^ (w - 1)).
  { rewrite pow256. change 128 with (2 ^ 7). rewrite <- Z.pow_add_r by lia. f_equal. lia. }
  pose proof (be_val_top b bs) as Htop. cbv zeta in Htop. rewrite Hhalf in Htop.
  unfold java_hex. cbn [lookup list_lookup default from_option]. unfold id. rewrite land_80_sign.
  destruct (Z.ltb_spec (bz b) 128) as [Hlt|Hge]; cbn [negb].
  - rewrite (proj2 (Z.ltb_lt _ _)) by tauto.
    destruct (decide (be_val (b :: bs) = 0)) as [H0|H0].
    + rewrite H0. destruct (trim_zeros (hex_encode (b :: bs))) as [|d ds] eqn:E; [split; [done|by left]|].
      exfalso. pose proof (trim_zeros_head _ _ _ E) as Hd. pose proof (trim_digits (b :: bs)) as Hall.
      pose proof (hex_val_trim (hex_encode (b :: bs))) as Hv. rewrite hex_val_encode, E, H0 in Hv.
      rewrite E in Hall. pose proof (hex_val_pos d ds Hall Hd). lia.
    + pose proof (trim_canonical _ H0) as Hc.
      assert (Hmatch : forall t : bytes, canonical_digits t -> match t with [] => [zb 0x30] | _ => t end = t)
        by (intros t [_ (? & ? & -> & _)]; done).
      rewrite Hmatch by done. rewrite signed_digits, hex_val_trim, hex_val_encode by done.
      split; [done|]. right; left. split; [lia|done].
  - rewrite (proj2 (Z.ltb_ge _ _)) by lia.
    set (c := rev (add_carry_rev _ true)).
    assert (Hc : be_val c = 2 ^ w - be_val (b :: bs)).
    { unfold c. rewrite (proj1 (add_carry_rev_val _ true)), rev_involutive, length_rev, length_map, be_val_complement.
      cbn [length]. rewrite pow256. fold w. rewrite Z.mod_small; lia. }
    cbn [signed_hex_val]. change (bz (zb 45) =? 45) with true. cbv iota.
    rewrite hex_val_trim, hex_val_encode, Hc. split; [lia|]. right; right.
    split; [lia|]. eexists. split; [done|]. apply trim_canonical. lia.
Qed.

(** ** URLs *)

Definition upper_val (b : byte) : Z := if bz b <=? 0x39 then bz b - 0x30 else bz b - 0x37.

(** RFC 3986 decoding. *)
Fixpoint percent_decode (s : bytes) : bytes :=
  match s with
  | [] => []
  | p :: s1 =>
      if bz p =? 0x25 then
        match s1 with
        | h :: l :: s2 => zb (upper_val h * 16 + upper_val l) :: percent_decode s2
        | _ => []
        end
      else p :: percent_decode s1
  end.

Lemma bz_hex_upper v : 0 <= v < 16 -> bz (hex_digit_upper v) = if v <? 10 then 0x30 + v else 0x37 + v.
Proof. intros Hv. unfold hex_digit_upper. rewrite bz_zb, Z.mod_small; [done|]. destruct (Z.ltb_spec v 10); lia. Qed.

Lemma upper_val_digit v : 0 <= v < 16 -> upper_val (hex_digit_upper v) = v.
Proof.
  intros Hv. unfold upper_val. rewrite bz_hex_upper by done.
  destruct (Z.ltb_spec v 10); case_match; lia.
Qed.

Lemma unreserved_not_escape b : is_unreserved b = true -> (bz b =? 0x25) = false.
Proof. destruct (Z.eqb_spec (bz b) 0x25) as [Hb|]; [|done]. unfold is_unreserved, is_ascii_alphanumeric, in_range. by rewrite Hb. Qed.

Lemma unreserved_upper v : 0 <= v < 16 -> is_unreserved (hex_digit_upper v) = true.
Proof.
  intros Hv. unfold is_unreserved, is_ascii_alphanumeric, in_range. rewrite bz_hex_upper by done.
  destruct (Z.ltb_spec v 10).
  - replace (0x30 <=? 0x30 + v) with true by lia. replace (0x30 + v <=? 0x39) with true by lia. done.
  - replace (0x41 <=? 0x37 + v) with true by lia. replace (0x37 + v <=? 0x5A) with true by lia.
    by rewrite orb_true_r.
Qed.

Lemma percent_decode_encode s : percent_decode (percent_encode s) = s.
Proof.
  induction s as [|b s IH]; [done|]. cbn [percent_encode flat_map]. fold (percent_encode s).
  destruct (is_unreserved b) eqn:Hb.
  - cbn [app percent_decode]. rewrite unreserved_not_escape by done. by rewrite IH.
  - cbn [app percent_decode]. change (bz (zb 0x25) =? 0x25) with true. cbv iota.
    destruct (nibbles b). rewrite !upper_val_digit, IH by done. f_equal.
    rewrite Z.mul_comm, <- Z.div_mod by lia. apply zb_bz.
Qed.

Lemma percent_encode_id s : Forall (fun b => is_unreserved b = true) s -> percent_encode s = s.
Proof. induction 1 as [|b s Hb _ IH]; [done|]. cbn. fold (percent_encode s). by rewrite Hb, IH. Qed.

Lemma percent_encode_chars s :
  Forall (fun b => is_unreserved b = true \/ bz b = 0x25) (percent_encode s).
Proof.
  induction s as [|b s IH]; [constructor|]. cbn. fold (percent_encode s). destruct (nibbles b).
  destruct (is_unreserved b) eqn:Hb; cbn [app].
  - apply Forall_cons; auto.
  - repeat (apply Forall_cons; split); auto using unreserved_upper.
Qed.

Lemma valid_username_unreserved name : is_valid_username name = true ->
  Forall (fun b => is_unreserved b = true) name.
Proof.
  unfold is_valid_username. intros [_ Hall]%andb_true_iff. apply Forall_forall. intros b Hb.
  apply list_elem_of_In in Hb. rewrite forallb_forall in Hall. specialize (Hall b Hb).
  unfold is_unreserved. apply orb_true_iff in Hall as [-> | ->]; [done|]. by rewrite !orb_true_r.
Qed.

Lemma hex_unreserved b : is_hex b = true -> is_unreserved b = true.
Proof.
  unfold is_hex, is_unreserved, is_ascii_alphanumeric. intros [-> |H]%orb_true_iff; [done|].
  unfold in_range in *. apply andb_true_iff in H as [?%Z.leb_le ?%Z.leb_le].
  replace (0x61 <=? bz b) with true by lia. replace (bz b <=? 0x7A) with true by lia.
  by rewrite !orb_true_r.
Qed.

Lemma java_hex_unreserved b bs : Forall (fun b => is_unreserved b = true) (java_hex (b :: bs)).
Proof.
  assert (Hd : forall s, canonical_digits s -> Forall (fun b => is_unreserved b = true) s).
  { intros s [Hall _]. apply (Forall_impl _ _ _ Hall), hex_unreserved. }
  destruct (java_hex_spec b bs) as [_ [[_ ->]|[[_ Hc]|[_ (ds & -> & Hc)]]]].
  - by repeat constructor.
  - by apply Hd.
  - constructor; [done|by apply Hd].
Qed.

(** ** The login machine *)

Section Machine.
Variable sha1 : bytes -> bytes.
Variable http_get : bytes -> Z -> HttpResult.
Variable parse_raw : bytes -> option (bytes * bytes * list ProfileProperty).
Variable uuid_parse_str : bytes -> option bytes.
Variable md5 : bytes -> bytes.
Variable rsa_decrypt : bytes -> option bytes.
Variable json_reason : bytes -> bytes.
Variable pub_key_der : bytes.
Variable config : AuthConfig.

Abbreviation process' := (process sha1 http_get parse_raw uuid_parse_str md5 rsa_decrypt json_reason pub_key_der config).
Abbreviation verify_session' := (verify_session http_get parse_raw uuid_parse_str).

(** States reachable on one connection, with everything sent so far. *)
Inductive reach : AuthState -> list AuthOutbound -> Prop :=
  | reach_init : reach AwaitingLoginStart []
  | reach_step st outs token permits event ip st' out :
      reach st outs -> process' token permits st event ip = Some (st', out) -> reach st' (outs ++ out).

(** What has to have happened for [profile] to be logged in by [outs]. *)
Definition justified (profile : AuthenticatedProfile) (outs : list AuthOutbound) : Prop :=
  exists username, is_valid_username username = true /\
  if online_mode config then
    exists token secret ss_enc vt_enc proto permits ip,
      outs = [EncryptionRequest [] pub_key_der token; EnableEncryption secret] ++
             compression_out config ++ [success_out profile] /\
      rsa_decrypt ss_enc = Some secret /\ length secret = 16%nat /\
      (rsa_decrypt vt_enc = Some token \/ (vt_enc = [] /\ 759 <= proto <= 760)) /\
      verify_session' username (minecraft_hex_digest sha1 [] secret pub_key_der)
        (if prevent_proxy_connections config then Some ip else None) permits
        (session_timeout_secs config) = Ok profile
  else
    profile = mkProfile (offline_uuid md5 username) username [] /\
    outs = compression_out config ++ [success_out profile].

Definition is_disconnect (o : AuthOutbound) : Prop := match o with LoginDisconnect _ => True | _ => False end.

(** What was sent in each state. *)
Definition auth_inv (st : AuthState) (outs : list AuthOutbound) : Prop :=
  match st with
  | AwaitingLoginStart => outs = []
  | AwaitingEncryptionResponse token username _ =>
      online_mode config = true /\ is_valid_username username = true /\
      outs = [EncryptionRequest [] pub_key_der token]
  | Authenticated profile => justified profile outs
  | Failed _ =>
      exists pre discs, outs = pre ++ discs /\ discs <> [] /\ Forall is_disconnect discs /\
        (pre = [] \/ (exists token, pre = [EncryptionRequest [] pub_key_der token]) \/
         exists profile, justified profile pre)
  end.

Lemma inv_fail st outs reason : auth_inv st outs ->
  auth_inv (Failed reason) (outs ++ [LoginDisconnect reason]).
Proof.
  intros Hinv. assert (Hd : Forall is_disconnect [LoginDisconnect reason]) by (by repeat constructor).
  destruct st; cbn in Hinv |- *.
  - subst. exists [], [LoginDisconnect reason]. naive_solver.
  - destruct Hinv as (_ & _ & ->). eexists _, _. split; [done|]. naive_solver.
  - exists outs, [LoginDisconnect reason]. naive_solver.
  - destruct Hinv as (pre & discs & -> & _ & Hall & Hpre).
    exists pre, (discs ++ [LoginDisconnect reason]). rewrite app_assoc.
    split_and!; [done|by destruct discs|by apply Forall_app|done].
Qed.

Lemma check_token_ok token vt_enc proto : check_token rsa_decrypt token vt_enc proto = None ->
  rsa_decrypt vt_enc = Some token \/ (vt_enc = [] /\ 759 <= proto <= 760).
Proof.
  unfold check_token. destruct vt_enc as [|v vt].
  - destruct (Z.leb_spec 759 proto), (Z.leb_spec proto 760); cbn; try discriminate.
    intros _. right. split; [done|lia].
  - destruct (rsa_decrypt _) as [d|]; [|done]. by destruct (bool_decide_reflect (d = token)); subst; auto.
Qed.

Lemma inv_step token permits st event ip st' out outs : auth_inv st outs ->
  auth_step sha1 http_get parse_raw uuid_parse_str md5 rsa_decrypt pub_key_der config
    token permits st event ip = Ok (st', out) ->
  auth_inv st' (outs ++ out).
Proof.
  intros Hinv Hstep. destruct st as [|tok user cip| |]; cbn in Hstep, Hinv; try done.
  - destruct event as [user|]; [|done]. subst outs. unfold step_login_start in Hstep.
    destruct (is_valid_username user) eqn:Hu; [|done]. cbn [negb] in Hstep.
    destruct (online_mode config) eqn:Ho; cbn [negb] in Hstep; simplify_eq; cbn; [done|].
    exists user. by rewrite Ho.
  - destruct event as [|ss_enc vt_enc proto]; [done|]. destruct Hinv as (Ho & Hu & ->).
    unfold step_encryption_response in Hstep.
    destruct (rsa_decrypt ss_enc) as [ss|] eqn:Hss; [|done].
    destruct (check_token _ _ _ _) eqn:Hct; [done|]. apply check_token_ok in Hct.
    destruct (Nat.eqb_spec (length ss) 16) as [Hlen|]; [|done]. cbn [negb] in Hstep.
    destruct (verify_session _ _ _ _ _ _ _ _) as [p| | |] eqn:Hv; try done. simplify_eq. cbn.
    exists user. split; [done|]. rewrite Ho.
    exists tok, ss, ss_enc, vt_enc, proto, permits, cip. done.
Qed.

Lemma reach_inv st outs : reach st outs -> auth_inv st outs.
Proof.
  induction 1 as [|st outs token permits event ip st' out _ IH Hp]; [done|].
  unfold process in Hp. destruct (auth_step _ _ _ _ _ _ _ _ _ _ _ _ _) as [[s o]|e| |] eqn:Hs; simplify_eq.
  - by apply (inv_step _ _ _ _ _ _ _ _ IH Hs).
  - by apply (inv_fail st).
Qed.

Lemma no_success_in_prefix pre discs u n ps : pre = [] \/ (exists t, pre = [EncryptionRequest [] pub_key_der t]) ->
  Forall is_disconnect discs -> ~ In (LoginSuccess u n ps) (pre ++ discs).
Proof.
  intros Hpre Hall Hin. apply in_app_or in Hin as [Hin|Hin].
  - destruct Hpre as [-> |[t ->]]; [done|]. by destruct Hin.
  - rewrite Forall_forall in Hall. apply (Hall (LoginSuccess u n ps)), list_elem_of_In, Hin.
Qed.

Lemma justified_success profile outs u n ps : justified profile outs ->
  In (LoginSuccess u n ps) outs -> mkProfile u n ps = profile.
Proof.
  intros (user & _ & Hj) Hin.
  assert (Hout : forall l : list AuthOutbound, (forall o, In o l -> ~ (exists u n ps, o = LoginSuccess u n ps)) ->
    outs = l ++ compression_out config ++ [success_out profile] -> mkProfile u n ps = profile).
  { intros l Hl ->. apply in_app_or in Hin as [Hin|Hin]; [exfalso; eapply Hl; eauto|].
    apply in_app_or in Hin as [Hin|[Hin|[]]].
    - unfold compression_out in Hin. destruct (_ >=? _); [destruct Hin as [Hin|[]]; discriminate|done].
    - destruct profile. by injection Hin as <- <- <-. }
  destruct (online_mode config).
  - destruct Hj as (token & secret & _ & _ & _ & _ & _ & Houts & _).
    apply (Hout _) in Houts; [done|]. intros o [<-|[<-|[]]] (? & ? & ? & [=]).
  - destruct Hj as (_ & Houts). apply (Hout []) in Houts; [done|]. by intros o [].
Qed.

(** C5: nobody is logged in without the checks: on every connection, whatever
    the client sends in whatever order, a [LoginSuccess] was preceded exactly by
    what its mode requires.  Offline: a valid username and its derived identity.
    Online: an encryption request, a 16-byte secret that decrypts from the
    response, the same verify token back (or the empty token of a 1.19 client),
    and the session server's confirmation, for that username and the digest of
    that secret, of exactly the profile logged in; encryption is enabled before
    the success is sent.  Nothing but disconnects can follow. *)
Theorem login_success_justified (st : AuthState) (outs : list AuthOutbound) u n ps :
  reach st outs -> In (LoginSuccess u n ps) outs ->
  exists pre discs, outs = pre ++ discs /\ Forall is_disconnect discs /\ justified (mkProfile u n ps) pre.
Proof.
  intros Hr Hin. apply reach_inv in Hr. destruct st; cbn in Hr.
  - by subst.
  - destruct Hr as (_ & _ & ->). by destruct Hin.
  - exists outs, []. rewrite app_nil_r. split_and!; [done|done|].
    by rewrite (justified_success _ _ _ _ _ Hr Hin).
  - destruct Hr as (pre & discs & -> & _ & Hall & [Hp|[Hp|[p Hp]]]).
    + exfalso. apply (no_success_in_prefix pre discs u n ps); auto.
    + exfalso. apply (no_success_in_prefix pre discs u n ps); auto.
    + exists pre, discs. split_and!; [done|done|]. apply in_app_or in Hin as [Hin|Hin].
      * by rewrite (justified_success _ _ _ _ _ Hp Hin).
      * rewrite Forall_forall in Hall. apply list_elem_of_In, Hall in Hin. done.
Qed.

(** A finished login is final: once authenticated or failed, any further
    event fails the pipeline and sends one disconnect, and nothing ever leaves
    the failed state; an unexpected event or an invalid username fails it too. *)
Theorem auth_terminal (st : AuthState) (token : bytes) (permits : Z) (event : AuthEvent) (ip : bytes) :
  let failed := to_json_reason json_reason (EncryptionSetupFailed "") in
  (is_authenticated st = true \/ is_failed st = true ->
     process' token permits st event ip = Some (Failed failed, [LoginDisconnect failed])) /\
  (forall ss vt proto, process' token permits AwaitingLoginStart (EncryptionResponse ss vt proto) ip =
     Some (Failed failed, [LoginDisconnect failed])) /\
  (forall name u, is_valid_username name = false ->
     let reason := to_json_reason json_reason InvalidUsername in
     process' token permits AwaitingLoginStart (LoginStart name u) ip =
       Some (Failed reason, [LoginDisconnect reason])).
Proof.
  split_and!.
  - destruct st; cbn; intros [|]; try discriminate; done.
  - done.
  - intros name u Hn. cbn. unfold process, auth_step, step_login_start. by rewrite Hn.
Qed.

End Machine.

(** A connection to evaluate the machine on: RSA that strips one padding byte, a
    session server that knows one player. *)
Definition demo_rsa (c : bytes) : option bytes := match c with x02 :: p => Some p | _ => None end.
Definition demo_profile : AuthenticatedProfile := mkProfile (replicate 16 x11) (lit "Steve") [].
Definition demo_http (url : bytes) (_ : Z) : HttpResult := HttpStatus 200 (lit "{}").
Definition demo_parse (_ : bytes) : option (bytes * bytes * list ProfileProperty) :=
  Some (replicate 32 (zb 0x31), lit "Steve", []).
Definition demo_uuid (_ : bytes) : option bytes := Some (replicate 16 x11).
Definition demo_config : AuthConfig := mkAuthConfig true 256 5 false.
Definition demo_reach :=
  reach (fun _ => replicate 20 x01) demo_http demo_parse demo_uuid (fun _ => []) demo_rsa (fun t => t)
    (lit "key") demo_config.

Definition demo_outs : list AuthOutbound :=
  [EncryptionRequest [] (lit "key") (lit "tokn"); EnableEncryption (replicate 16 x07);
   SetCompression 256; success_out demo_profile].

Lemma login_success_justified_witness :
  exists pre discs, demo_outs = pre ++ discs /\ Forall is_disconnect discs /\
    justified (fun _ => replicate 20 x01) demo_http demo_parse demo_uuid (fun _ => []) demo_rsa
      (lit "key") demo_config demo_profile pre.
Proof.
  assert (H1 : demo_reach (AwaitingEncryptionResponse (lit "tokn") (lit "Steve") (lit "1.2.3.4"))
    ([] ++ [EncryptionRequest [] (lit "key") (lit "tokn")])).
  { apply (reach_step _ _ _ _ _ _ _ _ _ AwaitingLoginStart [] (lit "tokn") 1 (LoginStart (lit "Steve") None) (lit "1.2.3.4")).
    - apply reach_init.
    - vm_compute. reflexivity. }
  assert (H2 : demo_reach (Authenticated demo_profile) demo_outs).
  { apply (reach_step _ _ _ _ _ _ _ _ _ _ _ (lit "xxxx") 1
      (EncryptionResponse (x02 :: replicate 16 x07) (x02 :: lit "tokn") 763) (lit "1.2.3.4") _ _ H1).
    vm_compute. reflexivity. }
  apply (login_success_justified _ _ _ _ _ _ _ _ _ _ _ _ _ _ H2).
  right. right. right. left. reflexivity.
Defined.

(** The session digest is Java's [BigInteger(hash).toString(16)]: the text
    [java_hex] gives for a 20-byte hash denotes exactly the hash read as a signed
    160-bit big-endian number, in lower case with no leading zeros, a minus sign
    exactly for negative numbers, and ["0"] for zero. *)
Theorem java_hex_signed (hash : bytes) : length hash = 20%nat ->
  let v := wraps 160 (be_val hash) in
  signed_hex_val (java_hex hash) = v /\
  ((v = 0 /\ java_hex hash = lit "0") \/
   (0 < v /\ canonical_digits (java_hex hash)) \/
   (v < 0 /\ exists ds, java_hex hash = zb 0x2D :: ds /\ canonical_digits ds)).
Proof.
  intros Hl. destruct hash as [|b bs]; [done|]. injection Hl as Hl.
  pose proof (java_hex_spec b bs) as H. rewrite Hl in H. exact H.
Qed.

Lemma java_hex_signed_witness :
  signed_hex_val (java_hex (replicate 20 xff)) = -1 /\ java_hex (replicate 20 xff) = lit "-1" /\
  java_hex (replicate 20 x00) = lit "0".
Proof.
  destruct (java_hex_signed (replicate 20 xff) eq_refl) as [H _].
  split; [|split; vm_compute; reflexivity]. rewrite H. vm_compute. reflexivity.
Defined.

(** Nothing a client chooses can change the structure of the session query:
    escaping yields only unreserved characters and escapes and is undone by URL
    decoding; a username the machine accepts and a digest appear verbatim. *)
Theorem session_query_wellformed (sha1 : bytes -> bytes) (s username secret key : bytes) :
  Forall (fun b => is_unreserved b = true \/ bz b = 0x25) (percent_encode s) /\
  percent_decode (percent_encode s) = s /\
  (is_valid_username username = true -> (forall m, length (sha1 m) = 20%nat) ->
   session_url username (minecraft_hex_digest sha1 [] secret key) None =
     lit "https://sessionserver.mojang.com/session/minecraft/hasJoined?username=" ++ username ++
     lit "&serverId=" ++ minecraft_hex_digest sha1 [] secret key).
Proof.
  split_and!; [apply percent_encode_chars|apply percent_decode_encode|]. intros Hu Hsha.
  unfold session_url. rewrite (percent_encode_id username) by (by apply valid_username_unreserved).
  rewrite app_nil_r, (percent_encode_id (minecraft_hex_digest _ _ _ _)); [done|].
  unfold minecraft_hex_digest. specialize (Hsha ([] ++ secret ++ key)).
  destruct (sha1 _) as [|b bs]; [done|]. apply java_hex_unreserved.
Qed.

Lemma land_low x k : 0 <= k -> Z.land x (2 ^ k - 1) = x mod 2 ^ k.
Proof. intros. replace (2 ^ k - 1) with (Z.ones k) by (rewrite Z.ones_equiv; lia). by apply Z.land_ones. Qed.

(** An offline identity is a valid version-3 UUID: given a 16-byte digest,
    [offline_uuid] has 16 bytes, version nibble 3 and variant bits [10], and
    agrees with the digest of "OfflinePlayer:<name>" on every other bit. *)
Theorem offline_uuid_v3 (md5 : bytes -> bytes) (name : bytes) :
  (forall m, length (md5 m) = 16%nat) ->
  let d := md5 (lit "OfflinePlayer:" ++ name) in
  let u := offline_uuid md5 name in
  length u = 16%nat /\
  (forall i b, u !! i = Some b -> i <> 6%nat -> i <> 8%nat -> d !! i = Some b) /\
  (forall b6 b8 d6 d8, u !! 6%nat = Some b6 -> u !! 8%nat = Some b8 ->
     d !! 6%nat = Some d6 -> d !! 8%nat = Some d8 ->
     bz b6 / 16 = 3 /\ bz b6 mod 16 = bz d6 mod 16 /\ bz b8 / 64 = 2 /\ bz b8 mod 64 = bz d8 mod 64).
Proof.
  intros Hmd. cbv zeta. unfold offline_uuid. specialize (Hmd (lit "OfflinePlayer:" ++ name)).
  set (d := md5 _) in *. split_and!.
  - by rewrite !length_insert.
  - intros i b Hu H6 H8. by rewrite !list_lookup_insert_ne in Hu by done.
  - intros b6 b8 d6 d8 H6 H8 Hd6 Hd8.
    rewrite list_lookup_insert_ne, list_lookup_insert_eq in H6 by (done || lia).
    rewrite list_lookup_insert_eq in H8 by (rewrite length_insert; lia).
    rewrite list_lookup_insert_ne in H8 by done. rewrite Hd6 in H6. rewrite Hd8 in H8.
    injection H6 as <-. injection H8 as <-. cbn [default from_option]. unfold id.
    change 0x0F with (2 ^ 4 - 1). change 0x3F with (2 ^ 6 - 1). rewrite !land_low by lia.
    change 0x30 with (3 * 2 ^ 4). change 0x80 with (2 * 2 ^ 6).
    pose proof (Z.mod_pos_bound (bz d6) (2 ^ 4) ltac:(lia)).
    pose proof (Z.mod_pos_bound (bz d8) (2 ^ 6) ltac:(lia)).
    rewrite !lor_disjoint by lia. rewrite !bz_zb, !(Z.mod_small _ 256) by lia.
    Z.div_mod_to_equations. lia.
Qed.

Lemma offline_uuid_v3_witness :
  (forall m, length ((fun _ : bytes => replicate 16 xff) m) = 16%nat) /\
  length (offline_uuid (fun _ => replicate 16 xff) (lit "Steve")) = 16%nat.
Proof.
  split; [reflexivity|]. apply (offline_uuid_v3 (fun _ => replicate 16 xff) (lit "Steve")). reflexivity.
Defined.

(** ** What a Velocity backend reads *)

Definition PropertyCodec : codec ProfileProperty := Codec
  (fun p => enc Str (pp_name p);; enc Str (pp_value p);; enc (Opt Str) (pp_signature p))
  (let! n := dec Str in let! v := dec Str in let! s := dec (Opt Str) in ret (mkProperty n v s))
  (fun p => string_ok (pp_name p) /\ string_ok (pp_value p) /\ option_ok string_ok (pp_signature p)).

#[export] Instance PropertyCodec_lawful : Lawful PropertyCodec.
Proof.
  apply lawful_intro; cbn [PropertyCodec enc dec wf]; [|solve_total|solve_consuming].
  intros [n v s] (Hn & Hv & Hs). cbn [pp_name pp_value pp_signature] in *.
  exists (wire Str n ++ wire Str v ++ wire (Opt Str) s). split; solve_writes. solve_reads.
Qed.

Definition profile_ok (p : AuthenticatedProfile) : Prop :=
  uuid_ok (ap_id p) /\ string_ok (ap_name p) /\ vec_ok (wf PropertyCodec) (ap_properties p).

Lemma write_varint_wire v : fits_s 32 v -> write_varint v = wire VarInt v.
Proof. done. Qed.

Lemma write_utf8_wire s : string_ok s -> write_utf8_str s = wire Str s.
Proof.
  intros [Hu Hl]. symmetry. apply writes_wire_eq. cbn [Str enc]. unfold encode_string, write_utf8_str.
  destruct (Z.gtb_spec (Z.of_nat (length s)) (MAX_STRING_LENGTH * 3)); [lia|].
  change (MAX_STRING_LENGTH * 3) with 98301 in *.
  apply writes_bind; [|apply writes_put]. rewrite !wraps_id by width.
  apply (lawful_writes (c := VarInt)). cbn. width.
Qed.

Lemma velocity_property_wire p : wf PropertyCodec p -> velocity_property p = wire PropertyCodec p.
Proof.
  destruct p as [n v s]. intros (Hn & Hv & Hs). cbn [pp_name pp_value pp_signature] in *. symmetry.
  apply writes_wire_eq. unfold velocity_property. cbn [PropertyCodec enc pp_name pp_value pp_signature].
  rewrite !write_utf8_wire by done. repeat eapply writes_bind.
  - by apply lawful_writes.
  - by apply lawful_writes.
  - destruct s as [s|]; [|apply (lawful_writes (c := Bool) false I)].
    cbn in Hs. rewrite write_utf8_wire by done.
    apply (writes_bind _ _ [x01]); [apply (lawful_writes (c := Bool) true I)|by apply lawful_writes].
Qed.

(** Version, address, identity, name and properties, with the crate's codecs. *)
Definition read_velocity : Dec (Z * bytes * AuthenticatedProfile) :=
  let! version := dec I32 in
  let! ip := dec Str in
  let! id := dec Uuid in
  let! name := dec Str in
  let! props := dec (Vec PropertyCodec) in
  ret (version, ip, mkProfile id name props).

Lemma reads_velocity ip p : string_ok ip -> profile_ok p ->
  reads read_velocity (velocity_payload ip p) (1, ip, p).
Proof.
  destruct p as [id name props]. intros Hip (Hid & Hn & Hp).
  cbn [ap_id ap_name ap_properties] in *. unfold velocity_payload, read_velocity.
  cbn [ap_id ap_name ap_properties]. rewrite !write_utf8_wire by done.
  eapply reads_bind; [apply (lawful_reads (c := I32) 1); cbn; width|].
  eapply reads_bind; [by apply lawful_reads|].
  eapply reads_bind; [apply (lawful_reads (c := Uuid) id Hid)|].
  eapply reads_bind; [by apply lawful_reads|].
  eapply reads_bind_last; [|apply reads_ret].
  replace (_ ++ concat _) with (wire (Vec PropertyCodec) props); [by apply lawful_reads|].
  apply writes_wire_eq. destruct Hp as [Hf Hl]. unfold MAX_VEC_LEN in Hl. apply writes_bind.
  - rewrite wraps_id by width. apply (lawful_writes (c := VarInt)). cbn. width.
  - replace (concat _) with (wire_many PropertyCodec props); [apply writes_many; [exact _|done]|].
    unfold wire_many. f_equal. apply map_ext_Forall, (Forall_impl _ _ _ Hf).
    intros q Hq. symmetry. by apply velocity_property_wire.
Qed.

(** The Velocity forwarding header is what the backend's documented reader
    expects: the length and the HMAC of the payload under the secret, then a
    payload from which the protocol's own decoders recover version 1, the client
    address and the whole profile, properties and signatures included, with
    nothing left over. *)
Theorem velocity_header_roundtrip (hmac : bytes -> bytes -> bytes) (secret ip : bytes)
    (p : AuthenticatedProfile) :
  (forall k m, length (hmac k m) = 32%nat) -> string_ok ip -> profile_ok p ->
  exists sig payload,
    dec ByteArray (velocity_header hmac secret ip p) = (Ok sig, payload) /\
    sig = hmac secret payload /\ read_velocity payload = (Ok (1, ip, p), []).
Proof.
  intros Hh Hip Hp. exists (hmac secret (velocity_payload ip p)), (velocity_payload ip p).
  specialize (Hh secret (velocity_payload ip p)). unfold velocity_header. split_and!; [|done|].
  - set (sig := hmac _ _) in *. set (pl := velocity_payload ip p).
    assert (Hsig : byte_array_ok sig) by (unfold byte_array_ok; rewrite Hh; done).
    rewrite app_assoc. replace (_ ++ sig) with (wire ByteArray sig); [by apply (lawful_reads (c := ByteArray))|].
    apply writes_wire_eq. apply writes_bind; [|apply writes_put]. rewrite Hh.
    apply (lawful_writes (c := VarInt)). cbn. width.
  - apply reads_reads_all, reads_velocity; done.
Qed.

Lemma velocity_header_roundtrip_witness :
  let p := mkProfile (replicate 16 x11) (lit "Steve") [mkProperty (lit "textures") (lit "e30=") (Some (lit "sig"))] in
  exists sig payload,
    dec ByteArray (velocity_header (fun _ _ => replicate 32 xaa) (lit "s") (lit "10.0.0.1") p) = (Ok sig, payload) /\
    sig = replicate 32 xaa /\ read_velocity payload = (Ok (1, lit "10.0.0.1", p), []).
Proof.
  apply (velocity_header_roundtrip (fun _ _ => replicate 32 xaa)).
  - reflexivity.
  - split; vm_compute; congruence.
  - split; [reflexivity|]. split; [split; vm_compute; congruence|].
    split; [|vm_compute; congruence]. constructor; [|constructor].
    split_and!; split; vm_compute; congruence.
Defined.
