(* ===== verification/IpAddr.v ===== *)
(** * Network addresses

    [std::net::IpAddr] as its octets, the standard library's address parser
    (core::net::parser) and [str::parse::<u8>], which the routing rules and the
    PROXY protocol use. *)
From Stdlib Require Import ZArith Lia Strings.Byte.
From stdpp Require Import base list numbers strings.
From S2P Require Import Prelude Buf.
Local Open Scope Z_scope.

Inductive IpAddr :=
  | V4 (octets : bytes)
  | V6 (octets : bytes).

#[export] Instance IpAddr_eq_dec : EqDecision IpAddr.
Proof. solve_decision. Defined.

(** ** The parser *)

(** [char::to_digit] for radix 10 and 16. *)
Definition to_digit (radix : Z) (b : byte) : option Z :=
  let v := bz b in
  let d := if (0x30 <=? v) && (v <=? 0x39) then Some (v - 0x30)
           else if (0x61 <=? v) && (v <=? 0x7A) then Some (v - 0x57)
           else if (0x41 <=? v) && (v <=? 0x5A) then Some (v - 0x37)
           else None in
  match d with Some d => if d <? radix then Some d else None | None => None end.

(** The longest run of digits: its value, their number, what follows. *)
Fixpoint read_digits (radix : Z) (s : bytes) (acc : Z) (count : nat) : Z * nat * bytes :=
  match s with
  | b :: s' =>
      match to_digit radix b with
      | Some d => read_digits radix s' (acc * radix + d) (S count)
      | None => (acc, count, s)
      end
  | [] => (acc, count, [])
  end.

(** [read_number]: at most [max_digits] digits, the value at most [limit]. *)
Definition read_number (radix : Z) (max_digits : nat) (allow_zero_prefix : bool) (limit : Z)
    (s : bytes) : option (Z * bytes) :=
  let has_leading_zero := match s with b :: _ => bz b =? 0x30 | [] => false end in
  let '(v, count, rest) := read_digits radix s 0 0 in
  if (max_digits <? count)%nat then None
  else if (count =? 0)%nat then None
  else if negb allow_zero_prefix && has_leading_zero && (1 <? count)%nat then None
  else if v >? limit then None
  else Some (v, rest).

Definition read_given_char (c : Z) (s : bytes) : option bytes :=
  match s with b :: s' => if bz b =? c then Some s' else None | [] => None end.

(** [read_separator]: the separator is wanted in front of every item but the first. *)
Definition read_separator {A} (sep : Z) (index : nat) (inner : bytes -> option (A * bytes))
    (s : bytes) : option (A * bytes) :=
  match index with
  | O => inner s
  | S _ => match read_given_char sep s with Some s' => inner s' | None => None end
  end.

Fixpoint read_octets (n index : nat) (s : bytes) : option (bytes * bytes) :=
  match n with
  | O => Some ([], s)
  | S n' =>
      match read_separator 0x2E index (read_number 10 3 false 255) s with
      | None => None
      | Some (v, s') =>
          match read_octets n' (S index) s' with
          | None => None
          | Some (vs, s'') => Some (zb v :: vs, s'')
          end
      end
  end.

Definition read_ipv4_addr (s : bytes) : option (bytes * bytes) := read_octets 4 0 s.

(** [read_groups] over [limit] slots, [i] of them filled: the groups read, and
    whether the last two came from an embedded IPv4 address. *)
Fixpoint read_groups (slots i limit : nat) (s : bytes) : list Z * bool * bytes :=
  match slots with
  | O => ([], false, s)
  | S slots' =>
      let v4 := if (i <? limit - 1)%nat then read_separator 0x3A i read_ipv4_addr s else None in
      match v4 with
      | Some (o, s') => ([be_val (take 2 o); be_val (drop 2 o)], true, s')
      | None =>
          match read_separator 0x3A i (read_number 16 4 true 65535) s with
          | Some (g, s') =>
              let '(gs, v4, s'') := read_groups slots' (S i) limit s' in (g :: gs, v4, s'')
          | None => ([], false, s)
          end
      end
  end.

Definition group_bytes (gs : list Z) : bytes := flat_map (be_bytes 2) gs.

Definition read_ipv6_addr (s : bytes) : option (bytes * bytes) :=
  let '(head, head_ipv4, s1) := read_groups 8 0 8 s in
  if (length head =? 8)%nat then Some (group_bytes head, s1)
  else if head_ipv4 : bool then None
  else
    match read_given_char 0x3A s1 with
    | None => None
    | Some s2 =>
        match read_given_char 0x3A s2 with
        | None => None
        | Some s3 =>
            let limit := (8 - (length head + 1))%nat in
            let '(tail, _, s4) := read_groups limit 0 limit s3 in
            Some (group_bytes (head ++ replicate (8 - length head - length tail) 0 ++ tail), s4)
        end
    end.

(** [<IpAddr as FromStr>::from_str]: the whole text has to be used. *)
Definition parse_ip (s : bytes) : option IpAddr :=
  match read_ipv4_addr s with
  | Some (o, []) => Some (V4 o)
  | Some (_, _) => None
  | None =>
      match read_ipv6_addr s with
      | Some (o, []) => Some (V6 o)
      | _ => None
      end
  end.

(** [<u8 as FromStr>::from_str] and its wider relatives: an optional plus sign,
    at least one digit, a value that fits. *)
Definition parse_uint (limit : Z) (s : bytes) : option Z :=
  let s := match s with b :: s' => if bz b =? 0x2B then s' else s | [] => [] end in
  let '(v, count, rest) := read_digits 10 s 0 0 in
  match rest with
  | [] => if (count =? 0)%nat || (v >? limit) then None else Some v
  | _ => None
  end.

(** [str::split_once] at the first [c]. *)
Fixpoint split_once (c : Z) (s : bytes) : option (bytes * bytes) :=
  match s with
  | [] => None
  | b :: s' =>
      if bz b =? c then Some ([], s')
      else match split_once c s' with Some (l, r) => Some (b :: l, r) | None => None end
  end.

(** ** Octet counts *)

Lemma read_octets_length n : forall i s o r, read_octets n i s = Some (o, r) -> length o = n.
Proof.
  induction n as [|n IH]; intros i s o r; cbn; [by intros [= <- <-]|].
  destruct (read_separator _ _ _ _) as [[v s']|]; [|done].
  destruct (read_octets n (S i) s') as [[vs s'']|] eqn:E; [|done].
  intros [= <- <-]. cbn. f_equal. by apply IH in E.
Qed.

Lemma read_groups_length slots : forall i limit s, (i + slots = limit)%nat ->
  (length (read_groups slots i limit s).1.1 <= slots)%nat.
Proof.
  induction slots as [|slots IH]; intros i limit s Hi; cbn [read_groups]; [done|].
  destruct (if (i <? limit - 1)%nat then read_separator 58 i read_ipv4_addr s else None) as [[o s']|] eqn:E.
  - cbn. destruct (Nat.ltb_spec i (limit - 1)); [lia|done].
  - clear E. destruct (read_separator _ _ _ _) as [[g s']|]; [|cbn; lia].
    specialize (IH (S i) limit s' ltac:(lia)). destruct (read_groups slots (S i) limit s') as [[gs v4] s''].
    cbn in *. lia.
Qed.

Lemma length_group_bytes gs : length (group_bytes gs) = (2 * length gs)%nat.
Proof.
  induction gs as [|g gs IH]; [done|]. unfold group_bytes in *. cbn [flat_map length].
  rewrite length_app, length_be_bytes, IH. lia.
Qed.

Definition ip_ok (ip : IpAddr) : Prop :=
  match ip with V4 o => length o = 4%nat | V6 o => length o = 16%nat end.

Lemma parse_ip_ok s ip : parse_ip s = Some ip -> ip_ok ip.
Proof.
  unfold parse_ip. destruct (read_ipv4_addr s) as [[o r]|] eqn:E4.
  - destruct r; [|done]. intros [= <-]. by apply read_octets_length in E4.
  - unfold read_ipv6_addr. pose proof (read_groups_length 8 0 8 s eq_refl) as Hh.
    destruct (read_groups 8 0 8 s) as [[head h4] s1]. cbn [fst] in Hh.
    destruct (Nat.eqb_spec (length head) 8) as [H8|H8].
    { destruct s1; [|done]. intros [= <-]. cbn. rewrite length_group_bytes. lia. }
    destruct h4; [done|]. repeat (case_match; try done).
    match goal with H : read_groups ?l 0 ?l ?x = (?t, _, _) |- _ =>
      pose proof (read_groups_length l 0 l x ltac:(lia)) as Ht; rewrite H in Ht end.
    cbn [fst] in *. simplify_eq. intros [= <-]. cbn.
    rewrite length_group_bytes, !length_app, length_replicate. lia.
Qed.

Lemma read_digits_nonneg radix s : forall acc c, 0 <= radix -> 0 <= acc ->
  0 <= (read_digits radix s acc c).1.1.
Proof.
  induction s as [|b s IH]; intros acc c Hr Ha; cbn; [done|].
  destruct (to_digit radix b) as [d|] eqn:E; [|done]. apply IH; [done|].
  unfold to_digit in E. repeat case_match; simplify_eq; lia.
Qed.

Lemma parse_uint_nonneg limit s v : parse_uint limit s = Some v -> 0 <= v <= limit.
Proof.
  unfold parse_uint. set (t := match s with [] => _ | _ => _ end).
  pose proof (read_digits_nonneg 10 t 0 0%nat) as H.
  destruct (read_digits 10 t 0 0) as [[v' c] r]. cbn [fst] in H. destruct r; [|done].
  destruct (Z.gtb_spec v' limit); [by rewrite orb_true_r|]. destruct (_ =? _)%nat; [done|].
  intros [= <-]. lia.
Qed.

(** Texts of routing.rs, and the forms of RFC 5952 and RFC 4291. *)
Example parse_examples :
  parse_ip (lit "10.0.1.5") = Some (V4 [x0a; x00; x01; x05]) /\
  parse_ip (lit "10.0.01.5") = None /\ parse_ip (lit "256.0.0.1") = None /\
  parse_ip (lit "2001:db8::1") = Some (V6 ([x20; x01; x0d; xb8] ++ replicate 11 x00 ++ [x01])) /\
  parse_ip (lit "::ffff:1.2.3.4") = Some (V6 (replicate 10 x00 ++ [xff; xff; x01; x02; x03; x04])) /\
  parse_ip (lit "1::2::3") = None.
Proof. split_and!; vm_compute; reflexivity. Qed.
