(* ===== verification/Routing.v ===== *)
(** * Backend selection

    crates/proxy-core/src: the backend registry (server.rs), routing rules, name
    globs, CIDR matching and server groups (routing.rs) and the region-aware
    lobby choice (region_selector.rs).  A [DashMap] is the list of its values in
    iteration order, names distinct; every theorem holds for every order.  The
    random draw of the weighted strategy is an argument. *)
From Stdlib Require Import ZArith Lia Strings.Byte.
From stdpp Require Import base list numbers strings.
From S2P Require Import Prelude Buf IpAddr.
Local Open Scope Z_scope.

(** ** Backends *)

Inductive ForwardingMode := FM_None | FM_Bungeecord | FM_Velocity.
Inductive BackendType := Spigot | Forge | Hybrid.
#[export] Instance ForwardingMode_eq_dec : EqDecision ForwardingMode.
Proof. solve_decision. Defined.
#[export] Instance BackendType_eq_dec : EqDecision BackendType.
Proof. solve_decision. Defined.

(** The fields of [BackendServer] that a connection attempt reads. *)
Record BackendSettings := mkSettings {
  st_address : IpAddr * Z;
  st_restricted : bool;
  st_forwarding_override : option ForwardingMode;
  st_backend_type : BackendType;
  st_compression_threshold : Z;
  st_cipher_suites : bytes;
  st_health_probe_timeout_secs : Z }.

(** [BackendServer], less its pool of connections. *)
Record BackendServer := mkBackend {
  bs_name : bytes;
  bs_online : bool;
  bs_player_count : Z;
  bs_max_players : Z;
  bs_weight : Z;
  bs_last_latency_ms : Z;
  bs_region : bytes;
  bs_health_probe_interval_secs : Z;
  bs_health_probe_fail_threshold : Z;
  bs_health_fail_count : Z;
  bs_health_unhealthy : bool;
  bs_settings : BackendSettings }.

Definition is_full (s : BackendServer) : bool :=
  negb (bs_max_players s =? 0) && (bs_player_count s >=? bs_max_players s).

Abbreviation ServerRegistry := (list BackendServer).

Fixpoint registry_get (name : bytes) (r : ServerRegistry) : option BackendServer :=
  match r with
  | [] => None
  | s :: r' => if decide (bs_name s = name) then Some s else registry_get name r'
  end.

Fixpoint registry_register (server : BackendServer) (r : ServerRegistry) : ServerRegistry :=
  match r with
  | [] => [server]
  | s :: r' => if decide (bs_name s = bs_name server) then server :: r' else s :: registry_register server r'
  end.

Definition registry_all (r : ServerRegistry) : list BackendServer := r.

Definition registry_remove (name : bytes) (r : ServerRegistry) : ServerRegistry :=
  filter (fun s => bs_name s <> name) r.

(** ** Globs *)

Definition to_ascii_lowercase (s : bytes) : bytes :=
  map (fun b => if (0x41 <=? bz b) && (bz b <=? 0x5A) then zb (bz b + 32) else b) s.

(** [str::split(c)]: always at least one part. *)
Fixpoint split (c : byte) (s : bytes) : list bytes :=
  match s with
  | [] => [[]]
  | b :: s' =>
      if decide (b = c) then [] :: split c s'
      else match split c s' with p :: ps => (b :: p) :: ps | [] => [[b]] end
  end.

Fixpoint starts_with (s p : bytes) {struct p} : bool :=
  match p, s with
  | [], _ => true
  | _, [] => false
  | c :: p', b :: s' => bool_decide (b = c) && starts_with s' p'
  end.

Definition ends_with (s p : bytes) : bool := starts_with (rev s) (rev p).

(** [str::find]: the offset of the first occurrence. *)
Fixpoint find_sub (seg s : bytes) : option nat :=
  if starts_with s seg then Some 0%nat
  else match s with
       | [] => None
       | _ :: s' => match find_sub seg s' with Some n => Some (S n) | None => None end
       end.

(** [&s[a..b]], which panics out of range. *)
Definition slice (s : bytes) (a b : nat) : option bytes :=
  if (a <=? b)%nat && (b <=? length s)%nat then Some (take (b - a) (drop a s)) else None.

(** [for seg in &parts[1..parts.len() - 1]] *)
Fixpoint match_middle (nl : bytes) (middle_end : nat) (segs : list bytes) (idx : nat)
    : outcome Empty_set bool :=
  match segs with
  | [] => Ok true
  | seg :: segs' =>
      match seg with
      | [] => match_middle nl middle_end segs' idx
      | _ =>
          match slice nl idx middle_end with
          | None => Panic
          | Some window =>
              match find_sub seg window with
              | Some off => match_middle nl middle_end segs' (idx + (off + length seg))
              | None => Ok false
              end
          end
      end
  end.

Definition STAR : byte := x2a.

Definition glob_match_ci (pattern name : bytes) : outcome Empty_set bool :=
  let pl := to_ascii_lowercase pattern in
  let nl := to_ascii_lowercase name in
  let parts := split STAR pl in
  if (length parts =? 1)%nat then Ok (bool_decide (pl = nl))
  else
    let first := default [] (head parts) in
    if negb (is_empty first) && negb (starts_with nl first) then Ok false
    else
      let idx := length first in
      let last_ := default [] (last parts) in
      let suffix_ok :=
        if is_empty last_ then Ok true
        else match slice nl idx (length nl) with
             | None => Panic
             | Some tail => Ok (ends_with tail last_)
             end in
      match suffix_ok with
      | Ok true =>
          let middle_end := (length nl - length last_)%nat in
          match_middle nl middle_end (take (length parts - 2) (drop 1 parts)) idx
      | o => o
      end.

(** ** CIDR *)

Definition prefix_match (w : Z) (net host : bytes) (prefix : Z) : bool :=
  if prefix >? w then false
  else
    let net_u := be_val net in
    let host_u := be_val host in
    let mask := if prefix =? 0 then 0 else wrapu w (Z.shiftl (2 ^ w - 1) (w - prefix)) in
    Z.land net_u mask =? Z.land host_u mask.

Definition prefix_match_v4 : bytes -> bytes -> Z -> bool := prefix_match 32.
Definition prefix_match_v6 : bytes -> bytes -> Z -> bool := prefix_match 128.

Definition cidr_matches (cidr : bytes) (ip : IpAddr) : bool :=
  match split_once 0x2F cidr with
  | None =>
      match parse_ip cidr with Some parsed => bool_decide (parsed = ip) | None => false end
  | Some (net_str, prefix_str) =>
      match parse_uint 255 prefix_str with
      | None => false
      | Some prefix =>
          match parse_ip net_str with
          | None => false
          | Some net =>
              match net, ip with
              | V4 n, V4 host => prefix_match_v4 n host prefix
              | V6 n, V6 host => prefix_match_v6 n host prefix
              | _, _ => false
              end
          end
      end
  end.

(** ** Groups *)

Inductive GroupStrategy := LeastConnections | Weighted | Latency.

Record ServerGroupConfig := mkGroup {
  g_name : bytes; g_members : list bytes; g_strategy : GroupStrategy }.

Definition total_weight (l : list BackendServer) : Z := fold_right (fun s n => bs_weight s + n) 0 l.

(** The loop of [weighted_pick]. *)
Fixpoint weighted_loop (l : list BackendServer) (roll : Z) : option BackendServer :=
  match l with
  | [] => None
  | c :: l' => if roll <? bs_weight c then Some c else weighted_loop l' (roll - bs_weight c)
  end.

(** [gen_range n]: a draw from [0..n). *)
Definition weighted_pick (gen_range : Z -> Z) (candidates : list BackendServer) : option BackendServer :=
  match candidates with
  | [] => None
  | c0 :: _ =>
      let total := total_weight candidates in
      if total =? 0 then Some c0
      else
        match weighted_loop candidates (gen_range total) with
        | Some c => Some c
        | None => last candidates
        end
  end.

Definition group_candidates (group : ServerGroupConfig) (r : ServerRegistry) : list BackendServer :=
  filter (fun s => bs_online s && negb (is_full s))
    (omap (fun name => registry_get name r) (g_members group)).

Definition latency_key (s : BackendServer) : Z :=
  if bs_last_latency_ms s =? 0 then 2 ^ 64 - 1 else bs_last_latency_ms s.

Definition select_from_group (gen_range : Z -> Z) (group : ServerGroupConfig) (r : ServerRegistry)
    : option BackendServer :=
  let candidates := group_candidates group r in
  match g_strategy group with
  | LeastConnections => min_by_key bs_player_count candidates
  | Latency => min_by_key latency_key candidates
  | Weighted => weighted_pick gen_range candidates
  end.

(** ** Rules *)

Record RouteRule := mkRule {
  r_label : bytes; r_name_glob : option bytes; r_client_cidrs : list bytes; r_target : bytes }.

Record RoutingRules := mkRouting {
  default_server : bytes; rules : list RouteRule; server_groups : list ServerGroupConfig }.

Definition rule_matches (rule : RouteRule) (player_name : bytes) (client_ip : option IpAddr)
    : outcome Empty_set bool :=
  let by_ip :=
    match r_client_cidrs rule with
    | [] => true
    | cidrs =>
        match client_ip with
        | None => false
        | Some ip => existsb (fun cidr => cidr_matches cidr ip) cidrs
        end
    end in
  match r_name_glob rule with
  | Some glob =>
      match glob_match_ci glob player_name with
      | Ok true => Ok by_ip
      | o => o
      end
  | None => Ok by_ip
  end.

(** [HashMap::get]; a later group of the same name replaced an earlier one when
    the map was collected. *)
Definition group_get (name : bytes) (gs : list ServerGroupConfig) : option ServerGroupConfig :=
  last (filter (fun g => g_name g = name) gs).

Definition resolve_target (gen_range : Z -> Z) (rr : RoutingRules) (name : bytes) (r : ServerRegistry)
    : option BackendServer :=
  match group_get name (server_groups rr) with
  | Some group => select_from_group gen_range group r
  | None =>
      match registry_get name r with
      | Some s => if bs_online s then Some s else None
      | None => None
      end
  end.

Definition find_online (r : ServerRegistry) : option BackendServer := head (filter (fun s => bs_online s) r).

Definition select (gen_range : Z -> Z) (rr : RoutingRules) (r : ServerRegistry) : option BackendServer :=
  match resolve_target gen_range rr (default_server rr) r with
  | Some s => Some s
  | None => find_online (registry_all r)
  end.

(** The rule loop of [select_for]; the [k]-th resolution draws with [draw k]. *)
Fixpoint select_rules (draw : nat -> Z -> Z) (rr : RoutingRules) (player_name : bytes)
    (client_ip : option IpAddr) (r : ServerRegistry) (k : nat) (l : list RouteRule)
    : outcome Empty_set (option BackendServer) :=
  match l with
  | [] => Ok (select (draw k) rr r)
  | rule :: l' =>
      match rule_matches rule player_name client_ip with
      | Ok false => select_rules draw rr player_name client_ip r (S k) l'
      | Ok true =>
          match resolve_target (draw k) rr (r_target rule) r with
          | Some s => Ok (Some s)
          | None => select_rules draw rr player_name client_ip r (S k) l'
          end
      | Err e => Err e
      | Panic => Panic
      | NoFuel => NoFuel
      end
  end.

Definition select_for (draw : nat -> Z -> Z) (rr : RoutingRules) (player_name : bytes)
    (client_ip : option IpAddr) (r : ServerRegistry) : outcome Empty_set (option BackendServer) :=
  select_rules draw rr player_name client_ip r 0 (rules rr).

(** ** Regions *)

Definition region_fallbacks (preferred : bytes) : list bytes :=
  if decide (preferred = lit "us-east") then [lit "us-west"; lit "eu-west"; lit "asia"]
  else if decide (preferred = lit "us-west") then [lit "us-east"; lit "eu-west"; lit "asia"]
  else if decide (preferred = lit "eu-west") then [lit "us-east"; lit "asia"; lit "us-west"]
  else if decide (preferred = lit "asia") then [lit "us-east"; lit "eu-west"; lit "us-west"]
  else [lit "us-east"; lit "eu-west"; lit "asia"].

Definition is_healthy (s : BackendServer) : bool := negb (bs_health_unhealthy s).

(** The least-loaded healthy server of those [p] picks out. *)
Definition best_in (p : BackendServer -> bool) (servers : list BackendServer) : option BackendServer :=
  min_by_key bs_player_count (filter (fun s => is_healthy s = true) (filter (fun s => p s = true) servers)).

Fixpoint first_some {A B} (f : A -> option B) (l : list A) : option B :=
  match l with
  | [] => None
  | x :: l' => match f x with Some b => Some b | None => first_some f l' end
  end.

(** [region_for]: what the GeoIP database says of the client. *)
Definition select_lobby_by_region (region_for : IpAddr -> bytes) (client_ip : IpAddr)
    (servers : list BackendServer) : option bytes :=
  let preferred := region_for client_ip in
  let choices :=
    (fun s => bool_decide (preferred = lit "global") || bool_decide (bs_region s = preferred))
    :: map (fun f s => bool_decide (bs_region s = f)) (region_fallbacks preferred)
    ++ [fun _ => true] in
  match first_some (fun p => best_in p servers) choices with
  | Some best => Some (bs_name best)
  | None => option_map bs_name (head servers)
  end.

Definition select_with_region (region_for : IpAddr -> bytes) (gen_range : Z -> Z) (rr : RoutingRules)
    (r : ServerRegistry) (client_ip : option IpAddr) : option BackendServer :=
  let by_region :=
    match client_ip with
    | Some ip =>
        match select_lobby_by_region region_for ip (registry_all r) with
        | Some name =>
            match registry_get name r with
            | Some server => if bs_online server then Some server else None
            | None => None
            end
        | None => None
        end
    | None => None
    end in
  match by_region with Some s => Some s | None => select gen_range rr r end.

(** ** Globs: the reference matcher *)

(** A star stands for any run of characters, everything else for itself. *)
Inductive glob : bytes -> bytes -> Prop :=
  | glob_nil : glob [] []
  | glob_star p x s : glob p s -> glob (STAR :: p) (x ++ s)
  | glob_char c p s : c <> STAR -> glob p s -> glob (c :: p) (c :: s).

(** The same, by the parts between the stars. *)
Fixpoint seg_match (parts : list bytes) (s : bytes) : Prop :=
  match parts with
  | [] => False
  | [p] => s = p
  | p :: ps => exists x t, s = p ++ x ++ t /\ seg_match ps t
  end.

(** The segments occur in order. *)
Fixpoint occurs (segs : list bytes) (t : bytes) : Prop :=
  match segs with
  | [] => True
  | m :: ms => exists x r, t = x ++ m ++ r /\ occurs ms r
  end.

Lemma split_nonempty c s : split c s <> [].
Proof. destruct s as [|b s]; [done|]. cbn. destruct (decide _); [done|]. by destruct (split c s). Qed.

Lemma seg_match_cons_char c q qs s :
  seg_match ((c :: q) :: qs) s <-> exists s', s = c :: s' /\ seg_match (q :: qs) s'.
Proof.
  destruct qs as [|q' qs]; cbn [seg_match].
  - split; [by eexists|by intros (s' & -> & ->)].
  - split.
    + intros (x & t & -> & H). exists (q ++ x ++ t). split; [done|]. by exists x, t.
    + intros (s' & -> & x & t & -> & H). by exists x, t.
Qed.

Lemma glob_split p : forall s, glob p s <-> seg_match (split STAR p) s.
Proof.
  induction p as [|c p IH]; intros s; cbn [split].
  - cbn. split; [by inversion 1|intros ->; constructor].
  - destruct (decide (c = STAR)) as [->|Hc].
    + pose proof (split_nonempty STAR p) as Hne. destruct (split STAR p) as [|q qs] eqn:E; [done|].
      cbn [seg_match app]. split.
      * inversion 1 as [|? x t Ht|]; subst; [|done]. exists x, t. split; [done|]. by apply IH.
      * intros (x & t & -> & Ht). constructor. by apply IH.
    + pose proof (split_nonempty STAR p). destruct (split STAR p) as [|q qs] eqn:E; [done|].
      rewrite seg_match_cons_char. split.
      * inversion 1 as [| |? ? s' _ Hs]; subst; [done|]. exists s'. split; [done|]. by apply IH.
      * intros (s' & -> & Hs). constructor; [done|]. by apply IH.
Qed.

Lemma seg_match_parts mids : forall p0 pl s,
  seg_match (p0 :: mids ++ [pl]) s <-> exists t, s = p0 ++ t ++ pl /\ occurs mids t.
Proof.
  induction mids as [|m ms IH]; intros p0 pl s.
  - cbn. split; [intros (x & t & -> & ->); eauto|intros (t & -> & _); exists t, pl; done].
  - change (seg_match (p0 :: (m :: ms) ++ [pl]) s) with
      (exists x t, s = p0 ++ x ++ t /\ seg_match (m :: ms ++ [pl]) t).
    setoid_rewrite IH. split.
    + intros (x & t & -> & t' & -> & Ho). exists (x ++ m ++ t'). rewrite <- !app_assoc.
      split; [done|]. by exists x, t'.
    + intros (t & -> & x & t' & -> & Ho). exists x, (m ++ t' ++ pl). rewrite <- !app_assoc.
      split; [done|]. by exists t'.
Qed.

Lemma occurs_mono ms : forall y r, occurs ms r -> occurs ms (y ++ r).
Proof.
  destruct ms as [|m ms]; intros y r; [done|]. intros (x & r' & -> & H).
  exists (y ++ x), r'. by rewrite <- app_assoc.
Qed.

Lemma starts_with_spec p : forall s, starts_with s p = true <-> exists r, s = p ++ r.
Proof.
  induction p as [|c p IH]; intros s; cbn; [split; [by exists s|done]|].
  destruct s as [|b s]; [split; [done|by intros (r & [=])]|].
  rewrite andb_true_iff, bool_decide_eq_true, IH. split.
  - intros [-> [r ->]]. by exists r.
  - intros (r & [= -> ->]). split; [done|by exists r].
Qed.

Lemma ends_with_spec p s : ends_with s p = true <-> exists r, s = r ++ p.
Proof.
  unfold ends_with. rewrite starts_with_spec. split.
  - intros (r & H). exists (rev r). apply (f_equal (@rev byte)) in H.
    by rewrite rev_involutive, rev_app_distr, rev_involutive in H.
  - intros (r & ->). exists (rev r). apply rev_app_distr.
Qed.

Lemma find_sub_some seg s off : find_sub seg s = Some off ->
  (exists x r, s = x ++ seg ++ r /\ length x = off) /\
  forall x r, s = x ++ seg ++ r -> (off <= length x)%nat.
Proof.
  revert off. induction s as [|b s IH]; intros off; cbn [find_sub].
  - destruct (starts_with [] seg) eqn:E; [|done]. intros [= <-]. apply starts_with_spec in E as [r Hr].
    split; [by exists [], r|lia].
  - destruct (starts_with (b :: s) seg) eqn:E.
    { intros [= <-]. apply starts_with_spec in E as [r Hr]. split; [by exists [], r|lia]. }
    destruct (find_sub seg s) as [n|]; [|done]. intros [= <-].
    destruct (IH n eq_refl) as [(x & r & -> & <-) Hmin]. split; [by exists (b :: x), r|].
    intros [|b' x'] r' Hs.
    + assert (starts_with (b :: x ++ seg ++ r) seg = true) by (apply starts_with_spec; by exists r'). congruence.
    + injection Hs as -> Hs. cbn. apply Hmin in Hs. lia.
Qed.

Lemma find_sub_none seg s x r : find_sub seg s = None -> s <> x ++ seg ++ r.
Proof.
  revert x r. induction s as [|b s IH]; intros x r; cbn [find_sub].
  - destruct (starts_with [] seg) eqn:E; [done|]. intros _ Hs. symmetry in Hs.
    apply app_eq_nil in Hs as [_ [-> _]%app_eq_nil]. done.
  - destruct (starts_with (b :: s) seg) eqn:E; [done|].
    destruct (find_sub seg s) eqn:Ef; [done|]. intros _ Hs. destruct x as [|b' x].
    + assert (starts_with (b :: s) seg = true) by (apply starts_with_spec; by exists r). congruence.
    + injection Hs as _ Hs. by apply (IH x r eq_refl).
Qed.

(** Leftmost matching decides [occurs]: an earlier occurrence leaves more text. *)
Lemma match_middle_spec nl me segs : forall idx, (idx <= me <= length nl)%nat ->
  exists b, match_middle nl me segs idx = Ok b /\
    (b = true <-> occurs segs (take (me - idx) (drop idx nl))).
Proof.
  induction segs as [|seg segs IH]; intros idx Hi; [by exists true|].
  set (w := take (me - idx) (drop idx nl)).
  assert (Hw : length w = (me - idx)%nat) by (unfold w; rewrite length_take, length_drop; lia).
  destruct (decide (seg = [])) as [->|Hne].
  { destruct (IH idx Hi) as (b & Hb & Hiff). exists b. split; [done|]. rewrite Hiff. fold w. cbn. split.
    - intros Ho. by exists [], w.
    - intros (x & r & Hx & Ho). rewrite Hx. by apply occurs_mono. }
  assert (Hstep : match_middle nl me (seg :: segs) idx =
    match find_sub seg w with
    | Some off => match_middle nl me segs (idx + (off + length seg))
    | None => Ok false end).
  { cbn [match_middle]. unfold slice.
    rewrite (proj2 (Nat.leb_le idx me)), (proj2 (Nat.leb_le me (length nl))) by lia. by destruct seg. }
  rewrite Hstep. destruct (find_sub seg w) as [off|] eqn:Ef.
  - destruct (find_sub_some _ _ _ Ef) as [(x & r & Hx & Hlen) Hmin].
    assert (Hlens : (off + length seg + length r = me - idx)%nat)
      by (rewrite <- Hw, Hx, !length_app; lia).
    destruct (IH (idx + (off + length seg))%nat ltac:(lia)) as (b & Hb & Hiff).
    exists b. split; [done|]. rewrite Hiff.
    assert (Hr : take (me - (idx + (off + length seg))) (drop (idx + (off + length seg)) nl) = r).
    { apply (f_equal (drop (off + length seg))) in Hx. unfold w in Hx.
      rewrite app_assoc, drop_app_len, skipn_firstn_comm, drop_drop in Hx by (rewrite length_app; lia).
      rewrite <- Hx. f_equal. lia. }
    rewrite Hr. cbn. split.
    + intros Ho. by exists x, r.
    + intros (x' & r' & Hx' & Ho). assert (Hle : (off <= length x')%nat) by (eapply Hmin; exact Hx').
      rewrite Hx in Hx'. rewrite <- Hlen in Hle.
      assert (Hsuf : exists y, r = y ++ r').
      { apply (f_equal (drop (length x + length seg))) in Hx'.
        rewrite app_assoc, drop_app_len in Hx' by (rewrite length_app; lia).
        rewrite app_assoc, drop_app_le in Hx' by (rewrite length_app; lia). by eexists. }
      destruct Hsuf as [y ->]. by apply occurs_mono.
  - exists false. split; [done|]. split; [done|]. intros (x & r & Hx & _). by apply find_sub_none in Hx.
Qed.

Lemma split_single c s p : split c s = [p] -> p = s.
Proof.
  revert p. induction s as [|b s IH]; intros p; cbn; [by intros [= <-]|].
  destruct (decide (b = c)); [|].
  - intros [= <- H]. by apply split_nonempty in H.
  - pose proof (split_nonempty c s). destruct (split c s) as [|q qs]; [done|].
    intros [= <- ->]. by rewrite (IH q eq_refl).
Qed.

Lemma is_empty_spec (s : bytes) : is_empty s = true <-> s = [].
Proof. by destruct s. Qed.

(** The matcher on the parts of a pattern that has a star. *)
Lemma glob_parts (nl p0 pl : bytes) mids :
  exists b,
    (if negb (is_empty p0) && negb (starts_with nl p0) then Ok false
     else
       let idx := length p0 in
       let suffix_ok :=
         if is_empty pl then Ok true
         else match slice nl idx (length nl) with None => Panic | Some tail => Ok (ends_with tail pl) end in
       match suffix_ok with
       | Ok true => match_middle nl (length nl - length pl) mids idx
       | o => o
       end) = Ok b /\
    (b = true <-> exists t, nl = p0 ++ t ++ pl /\ occurs mids t).
Proof.
  destruct (negb (is_empty p0) && negb (starts_with nl p0)) eqn:Hfirst.
  { exists false. split; [done|]. split; [done|]. intros (t & -> & _).
    apply andb_true_iff in Hfirst as [_ Hs]. rewrite (proj2 (starts_with_spec p0 _)) in Hs; [done|by eexists]. }
  assert (Hp0 : exists u, nl = p0 ++ u).
  { destruct p0 as [|c p0]; [by exists nl|]. cbn [is_empty negb andb] in Hfirst.
    apply starts_with_spec. by destruct (starts_with nl (c :: p0)). }
  destruct Hp0 as [u ->]. cbv zeta. unfold slice.
  rewrite (proj2 (Nat.leb_le (length p0) (length (p0 ++ u)))) by (rewrite length_app; lia).
  rewrite Nat.leb_refl. cbn [andb]. rewrite drop_app_length.
  replace (length (p0 ++ u) - length p0)%nat with (length u) by (rewrite length_app; lia).
  rewrite firstn_all.
  assert (Hsplit : forall v, u = v ++ pl ->
    exists b, match_middle (p0 ++ u) (length (p0 ++ u) - length pl) mids (length p0) = Ok b /\
      (b = true <-> exists t, p0 ++ u = p0 ++ t ++ pl /\ occurs mids t)).
  { intros v ->. destruct (match_middle_spec (p0 ++ v ++ pl) (length (p0 ++ v ++ pl) - length pl) mids (length p0))
      as (b & Hb & Hiff); [rewrite !length_app; lia|].
    exists b. split; [done|]. rewrite Hiff.
    replace (take _ _) with v.
    - split; [by exists v|]. intros (t & Ht & Ho). by apply app_inv_head, app_inv_tail in Ht as ->.
    - rewrite drop_app_length. symmetry. apply take_app_len. rewrite !length_app. lia. }
  destruct pl as [|c pl].
  - apply (Hsplit u). by rewrite app_nil_r.
  - cbn [is_empty]. destruct (ends_with u (c :: pl)) eqn:He.
    + apply ends_with_spec in He as [v Hv]. by apply (Hsplit v).
    + exists false. split; [done|]. split; [done|]. intros (t & Ht & _). apply app_inv_head in Ht as ->.
      rewrite (proj2 (ends_with_spec (c :: pl) _)) in He; [done|by eexists].
Qed.

Lemma glob_match_spec (pattern name : bytes) :
  exists b, glob_match_ci pattern name = Ok b /\
    (b = true <-> glob (to_ascii_lowercase pattern) (to_ascii_lowercase name)).
Proof.
  unfold glob_match_ci. set (pl := to_ascii_lowercase pattern). set (nl := to_ascii_lowercase name).
  setoid_rewrite glob_split.
  pose proof (split_nonempty STAR pl) as Hne.
  destruct (split STAR pl) as [|p0 ps] eqn:E; [done|].
  destruct (decide (ps = [])) as [->|Hps].
  - cbn [length Nat.eqb]. exists (bool_decide (pl = nl)). split; [done|].
    apply split_single in E as ->. rewrite bool_decide_eq_true. cbn. naive_solver.
  - destruct (exists_last Hps) as (mids & lastp & ->).
    replace (length (p0 :: mids ++ [lastp]) =? 1)%nat with false
      by (cbn; rewrite length_app; cbn; destruct (length mids); done).
    setoid_rewrite seg_match_parts.
    cbn [head default from_option]. unfold id.
    replace (last (p0 :: mids ++ [lastp])) with (Some lastp).
    2:{ rewrite app_comm_cons. by rewrite last_snoc. }
    replace (take (length (p0 :: mids ++ [lastp]) - 2) (drop 1 (p0 :: mids ++ [lastp]))) with mids.
    2:{ cbn [drop length]. rewrite length_app. cbn [length]. symmetry. apply take_app_len. lia. }
    apply glob_parts.
Qed.


(** ** CIDR *)

Lemma mask_shape w p : 0 < p <= w ->
  wrapu w (Z.shiftl (2 ^ w - 1) (w - p)) = Z.shiftl (Z.ones p) (w - p).
Proof.
  intros Hp. unfold wrapu. rewrite !Z.shiftl_mul_pow2, Z.ones_equiv by lia.
  pose proof (pow2_pos w ltac:(lia)). pose proof (pow2_pos (w - p) ltac:(lia)).
  assert (Hw : 2 ^ p * 2 ^ (w - p) = 2 ^ w) by (rewrite <- Z.pow_add_r by lia; f_equal; lia).
  pose proof (pow2_pos p ltac:(lia)).
  symmetry. apply (Z.mod_unique _ _ (2 ^ (w - p) - 1)); [|rewrite <- Z.sub_1_r; nia].
  left. rewrite <- Z.sub_1_r. nia.
Qed.

Lemma land_mask x p k : 0 <= p -> 0 <= k -> 0 <= x < 2 ^ (p + k) ->
  Z.land x (Z.shiftl (Z.ones p) k) = Z.shiftl (x / 2 ^ k) k.
Proof.
  intros Hp Hk Hx. rewrite <- (Z.shiftr_div_pow2 x k) by done.
  apply Z.bits_inj'. intros i Hi. rewrite Z.land_spec, !Z.shiftl_spec by done.
  destruct (Z.ltb_spec i k).
  - rewrite !(Z.testbit_neg_r _ (i - k)) by lia. apply andb_false_r.
  - rewrite Z.shiftr_spec by lia. replace (i - k + k) with i by lia.
    destruct (Z.ltb_spec (i - k) p).
    + rewrite Z.ones_spec_low by lia. apply andb_true_r.
    + rewrite Z.ones_spec_high by lia. rewrite andb_false_r. symmetry.
      rewrite <- (Z.mod_small x (2 ^ (p + k))) by done. apply Z.mod_pow2_bits_high. lia.
Qed.

Lemma prefix_match_spec w net host prefix :
  w = 8 * Z.of_nat (length net) -> length net = length host -> 0 <= prefix ->
  prefix_match w net host prefix = true <->
    prefix <= w /\ be_val net / 2 ^ (w - prefix) = be_val host / 2 ^ (w - prefix).
Proof.
  intros Hw Hl Hp. unfold prefix_match. destruct (Z.gtb_spec prefix w); [split; [done|lia]|].
  pose proof (be_val_range net) as Hn. pose proof (be_val_range host) as Hh.
  rewrite <- Hl in Hh. rewrite pow256, <- Hw in Hn, Hh. cbv zeta.
  destruct (Z.eqb_spec prefix 0) as [->|].
  - rewrite !Z.land_0_r, Z.sub_0_r, !Z.div_small by done. done.
  - rewrite mask_shape, !land_mask by (replace (prefix + (w - prefix)) with w by lia; lia || done).
    rewrite Z.eqb_eq, !Z.shiftl_mul_pow2 by lia. pose proof (pow2_pos (w - prefix) ltac:(lia)).
    split; [intros H'; split; [lia|nia]|intros [_ ->]; done].
Qed.

(** The first [prefix] bits agree. *)
Definition same_prefix (n ip : IpAddr) (prefix : Z) : Prop :=
  match n, ip with
  | V4 a, V4 b => prefix <= 32 /\ be_val a / 2 ^ (32 - prefix) = be_val b / 2 ^ (32 - prefix)
  | V6 a, V6 b => prefix <= 128 /\ be_val a / 2 ^ (128 - prefix) = be_val b / 2 ^ (128 - prefix)
  | _, _ => False
  end.

(** CIDR membership is agreement of the leading bits: an address matches
    [net/prefix] exactly when both parse, are of one family, the prefix length
    fits the family, and the first [prefix] bits of address and network agree; a
    text without a slash matches the one address it denotes, and anything
    unparsable matches nothing. *)
Theorem cidr_matches_spec (cidr : bytes) (ip : IpAddr) : ip_ok ip ->
  cidr_matches cidr ip = true <->
    match split_once 0x2F cidr with
    | None => parse_ip cidr = Some ip
    | Some (net, pre) => exists n prefix,
        parse_ip net = Some n /\ parse_uint 255 pre = Some prefix /\ same_prefix n ip prefix
    end.
Proof.
  intros Hip. unfold cidr_matches. destruct (split_once 0x2F cidr) as [[net pre]|].
  - destruct (parse_uint 255 pre) as [prefix|] eqn:Hu; [|by split; [|intros (? & ? & _ & [=] & _)]].
    destruct (parse_ip net) as [n|] eqn:Hn; [|by split; [|intros (? & ? & [=] & _)]].
    apply parse_uint_nonneg in Hu as Hp. pose proof (parse_ip_ok _ _ Hn) as Hnok.
    transitivity (same_prefix n ip prefix).
    + destruct n as [a|a], ip as [b|b]; try done; cbn in Hip, Hnok;
        (apply prefix_match_spec; [rewrite Hnok; done|congruence|lia]).
    + split; [by exists n, prefix|]. by intros (n' & p' & [= ->] & [= ->] & H).
  - destruct (parse_ip cidr) as [p|]; [|done]. rewrite bool_decide_eq_true. split; congruence.
Qed.

Lemma cidr_matches_spec_witness :
  cidr_matches (lit "10.0.1.0/24") (V4 [x0a; x00; x01; x05]) = true /\
  cidr_matches (lit "2001:db8::/32") (V4 [x0a; x00; x01; x05]) = false.
Proof.
  split; [|vm_compute; reflexivity].
  apply (cidr_matches_spec (lit "10.0.1.0/24") (V4 [x0a; x00; x01; x05]) eq_refl).
  exists (V4 [x0a; x00; x01; x00]), 24. split; [vm_compute; reflexivity|]. split; [vm_compute; reflexivity|].
  split; [lia|vm_compute; reflexivity].
Defined.

(** ** Selection *)

Lemma registry_get_some name r s : registry_get name r = Some s -> s ∈ r /\ bs_name s = name.
Proof.
  induction r as [|x r IH]; cbn; [done|]. destruct (decide (bs_name x = name)).
  - intros [= <-]. split; [left|done].
  - intros H. destruct (IH H). split; [by right|done].
Qed.

Lemma group_candidate g r s : s ∈ group_candidates g r <->
  bs_online s = true /\ is_full s = false /\ exists name, name ∈ g_members g /\ registry_get name r = Some s.
Proof.
  unfold group_candidates. rewrite list_elem_of_filter, list_elem_of_omap.
  rewrite Is_true_true, andb_true_iff, negb_true_iff. tauto.
Qed.

Lemma min_by_key_least {A} (key : A -> Z) l x : min_by_key key l = Some x ->
  x ∈ l /\ forall y, y ∈ l -> key x <= key y.
Proof.
  intros H. destruct (min_by_key_spec _ _ _ H) as (l1 & l2 & -> & H1 & H2).
  rewrite Forall_forall in H1, H2. split; [apply elem_of_app; right; left|].
  intros y [Hy|[->|Hy]%elem_of_cons]%elem_of_app; [apply H1 in Hy; cbn in *; lia|lia|by apply H2].
Qed.

Lemma total_weight_cons c l : total_weight (c :: l) = bs_weight c + total_weight l.
Proof. done. Qed.

Lemma weighted_loop_spec l : forall roll, Forall (fun s => 0 <= bs_weight s) l -> 0 <= roll < total_weight l ->
  exists l1 c l2, l = l1 ++ c :: l2 /\ weighted_loop l roll = Some c /\
    total_weight l1 <= roll < total_weight l1 + bs_weight c.
Proof.
  induction l as [|c l IH]; intros roll Hw Hr; [cbn in Hr; lia|]. rewrite total_weight_cons in Hr.
  inversion Hw as [|? ? Hc Hl]; subst. cbn [weighted_loop]. destruct (Z.ltb_spec roll (bs_weight c)).
  - exists [], c, l. cbn. split_and!; [done|done|lia|lia].
  - destruct (IH (roll - bs_weight c) Hl ltac:(lia)) as (l1 & d & l2 & -> & Hd & Hb).
    exists (c :: l1), d, l2. rewrite total_weight_cons. cbn [app]. split_and!; [done|done|lia|lia].
Qed.

(** A generator that keeps [gen_range]'s contract. *)
Definition in_range_gen (gen_range : Z -> Z) : Prop := forall n, 0 < n -> 0 <= gen_range n < n.

Lemma weighted_pick_spec gen_range l : Forall (fun s => 0 <= bs_weight s) l -> in_range_gen gen_range ->
  l <> [] ->
  exists l1 c l2, l = l1 ++ c :: l2 /\ weighted_pick gen_range l = Some c /\
    (0 < total_weight l ->
     total_weight l1 <= gen_range (total_weight l) < total_weight l1 + bs_weight c).
Proof.
  intros Hw Hg Hne. destruct l as [|c0 l]; [done|]. unfold weighted_pick.
  assert (Hpos : 0 <= total_weight (c0 :: l)).
  { clear Hne. induction Hw; [done|]. rewrite total_weight_cons. lia. }
  destruct (Z.eqb_spec (total_weight (c0 :: l)) 0) as [H0|].
  - exists [], c0, l. split_and!; [done|done|lia].
  - destruct (weighted_loop_spec (c0 :: l) (gen_range (total_weight (c0 :: l))) Hw) as (l1 & c & l2 & Hl & Hc & Hb);
      [apply Hg; lia|]. exists l1, c, l2. by rewrite Hc.
Qed.

(** A server group always yields an eligible member when it has one: the
    pick is a member that is registered, online and not full, and there is none
    exactly when no member qualifies.  Least-connections picks a minimal player
    count; latency a minimal measured latency, unmeasured members last; weighted
    picks the member into whose slice of [0..total) the draw falls, so each
    member is chosen by exactly as many draws as its weight, a zero-weight
    member by none unless all are zero. *)
Theorem group_selection (gen_range : Z -> Z) (g : ServerGroupConfig) (r : ServerRegistry) :
  Forall (fun s => 0 <= bs_weight s) r -> in_range_gen gen_range ->
  let eligible := group_candidates g r in
  match select_from_group gen_range g r with
  | None => eligible = []
  | Some s =>
      s ∈ r /\ bs_name s ∈ g_members g /\ bs_online s = true /\ is_full s = false /\
      match g_strategy g with
      | LeastConnections => forall t, t ∈ eligible -> bs_player_count s <= bs_player_count t
      | Latency => forall t, t ∈ eligible -> latency_key s <= latency_key t
      | Weighted => exists l1 l2, eligible = l1 ++ s :: l2 /\
          (0 < total_weight eligible ->
           total_weight l1 <= gen_range (total_weight eligible) < total_weight l1 + bs_weight s)
      end
  end.
Proof.
  intros Hw Hg. cbv zeta. set (el := group_candidates g r).
  assert (Hel : forall s, s ∈ el -> s ∈ r /\ bs_name s ∈ g_members g /\ bs_online s = true /\ is_full s = false).
  { intros s (Ho & Hf & name & Hm & Hget)%group_candidate. apply registry_get_some in Hget as [? <-]. done. }
  assert (Hwel : Forall (fun s => 0 <= bs_weight s) el).
  { apply Forall_forall. intros s Hs. rewrite Forall_forall in Hw. by apply Hw, Hel. }
  unfold select_from_group. fold el. cbv zeta.
  destruct (decide (el = [])) as [Hnil|Hne].
  { rewrite Hnil. by destruct (g_strategy g). }
  destruct (g_strategy g).
  - destruct (min_by_key_nonempty bs_player_count el Hne) as [s Hs]. rewrite Hs.
    apply min_by_key_least in Hs as [Hin Hmin]. destruct (Hel s Hin) as (? & ? & ? & ?). done.
  - destruct (weighted_pick_spec gen_range el Hwel Hg Hne) as (l1 & s & l2 & Heq & Hs & Hroll). rewrite Hs.
    destruct (Hel s) as (? & ? & ? & ?); [rewrite Heq; apply elem_of_app; right; left|].
    split_and!; try done. by exists l1, l2.
  - destruct (min_by_key_nonempty latency_key el Hne) as [s Hs]. rewrite Hs.
    apply min_by_key_least in Hs as [Hin Hmin]. destruct (Hel s Hin) as (? & ? & ? & ?). done.
Qed.

Definition sample_settings : BackendSettings := mkSettings (V4 [x7f; x00; x00; x01], 25566) false None Spigot 0 [] 5.
Definition sample_backend (name : bytes) (online : bool) (players max weight : Z) (unhealthy : bool) : BackendServer :=
  mkBackend name online players max weight 0 (lit "eu-west") 10 3 0 unhealthy sample_settings.

Definition sample_registry : ServerRegistry :=
  [sample_backend (lit "a") true 5 5 1 false; sample_backend (lit "b") true 0 0 5 true].

Lemma group_selection_witness :
  let g := mkGroup (lit "g") [lit "a"; lit "b"] Weighted in
  option_map bs_name (select_from_group (fun n => n - 1) g sample_registry) = Some (lit "b").
Proof.
  pose proof (group_selection (fun n => n - 1) (mkGroup (lit "g") [lit "a"; lit "b"] Weighted) sample_registry) as H.
  cbv zeta in *. destruct (select_from_group _ _ _) as [s|] eqn:E.
  - destruct H as (_ & _ & _ & Hf & _).
    + repeat constructor; vm_compute; congruence.
    + intros n Hn. lia.
    + vm_compute in E. injection E as <-. reflexivity.
  - exfalso. vm_compute in E. discriminate.
Defined.

Lemma weighted_loop_in l : forall roll c, weighted_loop l roll = Some c -> c ∈ l.
Proof.
  induction l as [|d l IH]; intros roll c; cbn; [done|].
  destruct (_ <? _); [intros [= <-]; left|]. intros H. right. by eapply IH.
Qed.

Lemma rule_matches_ok rule name ip : exists b, rule_matches rule name ip = Ok b.
Proof.
  unfold rule_matches. destruct (r_name_glob rule) as [glob_|]; [|by eexists].
  destruct (glob_match_spec glob_ name) as (b & Hb & _). rewrite Hb. destruct b; by eexists.
Qed.

Lemma resolve_target_ok gen_range rr name r s :
  resolve_target gen_range rr name r = Some s -> s ∈ r /\ bs_online s = true.
Proof.
  unfold resolve_target. destruct (group_get name (server_groups rr)) as [g|].
  - intros H. assert (Hin : s ∈ group_candidates g r).
    { unfold select_from_group in H. destruct (g_strategy g).
      - by apply min_by_key_least in H as [? _].
      - unfold weighted_pick in H. destruct (group_candidates g r) as [|c0 l] eqn:E; [done|].
        destruct (_ =? 0); [injection H as <-; left|].
        destruct (weighted_loop _ _) as [c|] eqn:Ew; simplify_eq; [|by apply last_Some_elem_of].
        by apply weighted_loop_in in Ew.
      - by apply min_by_key_least in H as [? _]. }
    apply group_candidate in Hin as (Ho & _ & n & _ & Hg). apply registry_get_some in Hg as [? _]. done.
  - destruct (registry_get name r) as [x|] eqn:E; [|done]. destruct (bs_online x) eqn:Ho; [|done].
    intros [= <-]. apply registry_get_some in E as [? _]. done.
Qed.

Lemma find_online_spec r :
  match find_online r with
  | Some s => s ∈ r /\ bs_online s = true
  | None => forall s, s ∈ r -> bs_online s = false
  end.
Proof.
  unfold find_online. destruct (filter _ r) as [|s l] eqn:E; cbn.
  - intros s Hs. destruct (bs_online s) eqn:Ho; [|done]. exfalso.
    assert (H : s ∈ filter (fun s => bs_online s) r) by (apply list_elem_of_filter; by rewrite Ho).
    rewrite E in H. by apply not_elem_of_nil in H.
  - assert (H : s ∈ filter (fun s => bs_online s) r) by (rewrite E; left).
    apply list_elem_of_filter in H as [Ho Hin]. split; [done|by apply Is_true_true].
Qed.

Lemma select_spec gen_range rr r :
  match select gen_range rr r with
  | Some s => s ∈ r /\ bs_online s = true
  | None => forall s, s ∈ r -> bs_online s = false
  end.
Proof.
  unfold select. destruct (resolve_target _ _ _ _) as [s|] eqn:E; [by apply resolve_target_ok in E|].
  apply find_online_spec.
Qed.

(** Rule number [k] does not decide the choice: it does not match, or its target
    is unavailable. *)
Definition rule_passed (draw : nat -> Z -> Z) (rr : RoutingRules) (name : bytes) (ip : option IpAddr)
    (r : ServerRegistry) (k : nat) (rule : RouteRule) : Prop :=
  rule_matches rule name ip = Ok false \/ resolve_target (draw k) rr (r_target rule) r = None.

Lemma select_rules_spec draw rr name ip r l : forall k,
  exists o, select_rules draw rr name ip r k l = Ok o /\
    ((exists i rule s, o = Some s /\ l !! i = Some rule /\ rule_matches rule name ip = Ok true /\
        resolve_target (draw (k + i)%nat) rr (r_target rule) r = Some s /\
        forall j rule', l !! j = Some rule' -> (j < i)%nat -> rule_passed draw rr name ip r (k + j) rule') \/
     (o = select (draw (k + length l)%nat) rr r /\
        forall j rule', l !! j = Some rule' -> rule_passed draw rr name ip r (k + j) rule')).
Proof.
  induction l as [|rule l IH]; intros k; cbn [select_rules length].
  - rewrite Nat.add_0_r. eexists. split; [done|]. right. split; [done|]. by intros j rule' [=].
  - destruct (rule_matches_ok rule name ip) as [b Hb]. rewrite Hb.
    assert (Hskip : rule_passed draw rr name ip r k rule ->
      exists o, select_rules draw rr name ip r (S k) l = Ok o /\
       ((exists i rule0 s, o = Some s /\ (rule :: l) !! i = Some rule0 /\ rule_matches rule0 name ip = Ok true /\
          resolve_target (draw (k + i)%nat) rr (r_target rule0) r = Some s /\
          forall j rule', (rule :: l) !! j = Some rule' -> (j < i)%nat -> rule_passed draw rr name ip r (k + j) rule') \/
        (o = select (draw (k + S (length l))%nat) rr r /\
          forall j rule', (rule :: l) !! j = Some rule' -> rule_passed draw rr name ip r (k + j) rule'))).
    { intros Hpass. destruct (IH (S k)) as (o & Ho & Hcases). exists o. split; [done|].
      assert (Hsucc : forall j, (S k + j = k + S j)%nat) by lia.
      destruct Hcases as [(i & rl & s & -> & Hi & Hm & Hr & Hbefore)|[-> Hall]]; [left|right].
      - exists (S i), rl, s. rewrite <- Hsucc. split_and!; try done.
        intros [|j] rule' Hj Hlt; cbn in Hj.
        + rewrite Nat.add_0_r. by injection Hj as <-.
        + rewrite <- Hsucc. apply Hbefore; [done|lia].
      - rewrite <- Hsucc. split; [done|]. intros [|j] rule' Hj; cbn in Hj.
        + rewrite Nat.add_0_r. by injection Hj as <-.
        + rewrite <- Hsucc. by apply Hall. }
    destruct b.
    + destruct (resolve_target (draw k) rr (r_target rule) r) as [s|] eqn:Hr; [|apply Hskip; by right].
      exists (Some s). split; [done|]. left. exists 0%nat, rule, s. rewrite Nat.add_0_r.
      split_and!; try done. intros j rule' _ Hlt. lia.
    + apply Hskip. by left.
Qed.


Lemma names_register s r :
  map bs_name (registry_register s r) =
    if decide (bs_name s ∈ map bs_name r) then map bs_name r else map bs_name r ++ [bs_name s].
Proof.
  induction r as [|t r IH]; [done|]. cbn [registry_register].
  destruct (decide (bs_name t = bs_name s)) as [He|Hne]; cbn [map].
  - rewrite decide_True by (rewrite He; left). by rewrite He.
  - rewrite IH. destruct (decide (bs_name s ∈ map bs_name r)).
    + by rewrite decide_True by (by right).
    + rewrite decide_False; [done|]. by intros [|]%elem_of_cons.
Qed.

Lemma get_register s other r :
  registry_get other (registry_register s r) = if decide (other = bs_name s) then Some s else registry_get other r.
Proof.
  induction r as [|t r IH]; cbn.
  - destruct (decide (bs_name s = other)), (decide (other = bs_name s)); congruence.
  - destruct (decide (bs_name t = bs_name s)) as [He|Hne]; cbn; [|rewrite IH]; repeat destruct (decide _); congruence.
Qed.
Lemma get_filter (P : BackendServer -> Prop) `{!forall s, Decision (P s)} (Q : bytes -> Prop) other r :
  (forall s, P s <-> Q (bs_name s)) ->
  (Q other -> registry_get other (filter P r) = registry_get other r) /\ (~ Q other -> registry_get other (filter P r) = None).
Proof.
  intros HPQ. induction r as [|t r [IH1 IH2]]; [done|]. rewrite filter_cons. cbn [registry_get].
  destruct (decide (P t)) as [Ht|Ht]; rewrite HPQ in Ht; cbn [registry_get]; destruct (decide (bs_name t = other)) as [<-|]; naive_solver.
Qed.
Lemma get_remove name other r :
  registry_get other (registry_remove name r) = if decide (other = name) then None else registry_get other r.
Proof.
  unfold registry_remove. destruct (get_filter (fun s => bs_name s <> name) (fun n => n <> name) other r) as [H1 H2]; [done|].
  destruct (decide (other = name)) as [E|E]; [apply H2; intros Hn; by apply Hn|by apply H1].
Qed.

(** The registry is a map: names stay distinct, a registered server is found
    under its name, a removed one is not, and other names are untouched. *)
Theorem registry_is_map (s : BackendServer) (name : bytes) (r : ServerRegistry) :
  NoDup (map bs_name r) ->
  NoDup (map bs_name (registry_register s r)) /\ NoDup (map bs_name (registry_remove name r)) /\
  (forall other, registry_get other (registry_register s r) =
     if decide (other = bs_name s) then Some s else registry_get other r) /\
  (forall other, registry_get other (registry_remove name r) =
     if decide (other = name) then None else registry_get other r).
Proof.
  intros Hnd. split_and!.
  - rewrite names_register. destruct (decide _); [done|]. apply NoDup_app. split_and!; [done| |apply NoDup_singleton].
    intros x Hx Hy%list_elem_of_singleton. by subst.
  - unfold registry_remove. induction r as [|t r IH]; [done|]. cbn in Hnd.
    apply NoDup_cons in Hnd as [Ht Hr]. rewrite filter_cons. destruct (decide _); [|by apply IH].
    cbn. apply NoDup_cons. split; [|by apply IH]. intros (u & Hu & Hin)%list_elem_of_fmap.
    apply list_elem_of_filter in Hin as [_ Hin]. apply Ht. apply list_elem_of_fmap. by exists u.
  - intros other. apply get_register.
  - intros other. apply get_remove.
Qed.

(** Health probes do not reach routing: a backend the prober has marked
    unhealthy is still chosen by [select_for], because only the [online] flag is
    consulted. *)
Theorem routing_ignores_health :
  exists r rr s, bs_health_unhealthy s = true /\ select_for (fun _ _ => 0) rr (lit "Steve") None r = Ok (Some s).
Proof.
  exists sample_registry, (mkRouting (lit "b") [] []), (sample_backend (lit "b") true 0 0 5 true).
  split; [reflexivity|vm_compute; reflexivity].
Qed.
