(* ===== verification/Failover.v ===== *)
(** * Health probes and failover

    crates/proxy-core/src/health_probe.rs and failover.rs: the counters the
    prober keeps per backend, and the groups whose active member follows them.
    The probe's TCP result is an argument; a pass over the registry is a map over
    its servers. *)
From Stdlib Require Import ZArith Lia Strings.Byte.
From stdpp Require Import base list numbers strings.
From S2P Require Import Prelude Buf IpAddr Routing.
Local Open Scope Z_scope.

(** ** Probing *)

Definition set_health (s : BackendServer) (latency fail_count : Z) (unhealthy : bool) : BackendServer :=
  mkBackend (bs_name s) (bs_online s) (bs_player_count s) (bs_max_players s) (bs_weight s) latency
    (bs_region s) (bs_health_probe_interval_secs s) (bs_health_probe_fail_threshold s) fail_count unhealthy (bs_settings s).

(** One probe of one server: [Some latency_ms], or [None] on failure. *)
Definition probe_update (latency_ms : option Z) (s : BackendServer) : BackendServer :=
  if bs_health_probe_interval_secs s =? 0 then s
  else
    match latency_ms with
    | Some latency_ms =>
        set_health s latency_ms (if bs_health_fail_count s >? 0 then 0 else bs_health_fail_count s) false
    | None =>
        let stored := wrapu 32 (bs_health_fail_count s + 1) in
        let new_fail_count := bs_health_fail_count s + 1 in
        if new_fail_count >=? bs_health_probe_fail_threshold s
        then set_health s (bs_last_latency_ms s) stored true
        else set_health s (bs_last_latency_ms s) stored (bs_health_unhealthy s)
    end.

(** One round of the prober. *)
Definition probe_round (probe : bytes -> option Z) (r : ServerRegistry) : ServerRegistry :=
  map (fun s => probe_update (probe (bs_name s)) s) (registry_all r).

(** ** Groups *)

Record FailoverGroup := mkFailoverGroup {
  fg_name : bytes; fg_primary : bytes; fg_standbys : list bytes; fg_auto_failback : bool }.

Record FailoverGroupState := mkFailoverState {
  fs_group : FailoverGroup; fs_current_active : bytes }.

(** The group table, in iteration order. *)
Definition load_groups (groups : list FailoverGroup) : list FailoverGroupState :=
  fold_left (fun m g =>
    (filter (fun st => fg_name (fs_group st) <> fg_name g) m) ++ [mkFailoverState g (fg_primary g)]) groups [].

Definition find_group (name : bytes) (m : list FailoverGroupState) : option FailoverGroupState :=
  head (filter (fun st => fg_name (fs_group st) = name) m).

Definition get_active_server (m : list FailoverGroupState) (group_name : bytes) : option bytes :=
  option_map fs_current_active (find_group group_name m).

Definition get_group_for_server (m : list FailoverGroupState) (server : bytes) : option bytes :=
  option_map (fun st => fg_name (fs_group st))
    (head (filter (fun st => fg_primary (fs_group st) = server \/ server ∈ fg_standbys (fs_group st)) m)).

(** Registered and not marked unhealthy. *)
Definition usable (r : ServerRegistry) (name : bytes) : bool :=
  match registry_get name r with Some s => negb (bs_health_unhealthy s) | None => false end.

Definition marked_unhealthy (r : ServerRegistry) (name : bytes) : bool :=
  match registry_get name r with Some s => bs_health_unhealthy s | None => false end.

(** [iter().position(|s| s == x)] *)
Fixpoint position (x : bytes) (l : list bytes) : option nat :=
  match l with
  | [] => None
  | y :: l' => if decide (y = x) then Some 0%nat else option_map S (position x l')
  end.

Definition check_group_failover (r : ServerRegistry) (st : FailoverGroupState) : FailoverGroupState :=
  let g := fs_group st in
  let current_unhealthy := marked_unhealthy r (fs_current_active st) in
  let primary_healthy := usable r (fg_primary g) in
  if current_unhealthy then
    if bool_decide (fs_current_active st = fg_primary g) then
      match fg_standbys g with
      | standby :: _ => if usable r standby then mkFailoverState g standby else st
      | [] => st
      end
    else
      match position (fs_current_active st) (fg_standbys g) with
      | Some current_idx =>
          match head (filter (fun sb => usable r sb = true) (drop (current_idx + 1) (fg_standbys g))) with
          | Some standby => mkFailoverState g standby
          | None => st
          end
      | None => st
      end
  else if fg_auto_failback g && negb (bool_decide (fs_current_active st = fg_primary g)) && primary_healthy
  then mkFailoverState g (fg_primary g)
  else st.

Definition check_and_failover (r : ServerRegistry) (m : list FailoverGroupState) : list FailoverGroupState :=
  map (check_group_failover r) m.

(** ** Properties *)

(** Consecutive failed probes. *)
Fixpoint failures (k : nat) (s : BackendServer) : BackendServer :=
  match k with O => s | S k' => probe_update None (failures k' s) end.

Lemma failures_fields k s :
  bs_health_probe_interval_secs (failures k s) = bs_health_probe_interval_secs s /\
  bs_health_probe_fail_threshold (failures k s) = bs_health_probe_fail_threshold s.
Proof.
  induction k as [|k [IH1 IH2]]; [done|]. cbn [failures]. unfold probe_update.
  destruct (_ =? 0); [done|]. destruct (_ >=? _); cbn; done.
Qed.

Lemma failures_spec k s : bs_health_probe_interval_secs s <> 0 -> bs_health_fail_count s = 0 ->
  bs_health_unhealthy s = false -> 0 < bs_health_probe_fail_threshold s -> Z.of_nat k < 2 ^ 32 ->
  bs_health_fail_count (failures k s) = Z.of_nat k /\
  bs_health_unhealthy (failures k s) = (bs_health_probe_fail_threshold s <=? Z.of_nat k).
Proof.
  intros Hi Hc Hu Ht. induction k as [|k IH]; intros Hk.
  - cbn. rewrite Hc, Hu. split; [done|]. symmetry. apply Z.leb_gt. lia.
  - destruct IH as [IHc IHu]; [lia|]. destruct (failures_fields k s) as [Hf1 Hf2].
    cbn [failures]. unfold probe_update. rewrite Hf1, Hf2, IHc.
    rewrite (proj2 (Z.eqb_neq _ _) Hi). cbv zeta. rewrite wrapu_id by (unfold fits_u; lia).
    destruct (Z.geb_spec (Z.of_nat k + 1) (bs_health_probe_fail_threshold s)); cbn [set_health bs_health_fail_count bs_health_unhealthy].
    + split; [lia|]. symmetry. apply Z.leb_le. lia.
    + split; [lia|]. rewrite IHu. destruct (Z.leb_spec (bs_health_probe_fail_threshold s) (Z.of_nat k)), (Z.leb_spec (bs_health_probe_fail_threshold s) (Z.of_nat (S k))); lia.
Qed.

(** A backend is marked unhealthy exactly when the configured number of
    consecutive probes has failed, and one successful probe clears the mark and
    the counter, whatever happened before; a backend that opted out is never
    touched. *)
Theorem probe_threshold (s : BackendServer) (k : nat) (latency : Z) :
  (bs_health_probe_interval_secs s = 0 -> forall o, probe_update o s = s) /\
  (bs_health_probe_interval_secs s <> 0 ->
     let up := probe_update (Some latency) s in
     bs_health_unhealthy up = false /\ bs_last_latency_ms up = latency /\
     (0 <= bs_health_fail_count s -> bs_health_fail_count up = 0) /\
     (bs_health_fail_count up = 0 -> 0 < bs_health_probe_fail_threshold s -> Z.of_nat k < 2 ^ 32 ->
        bs_health_unhealthy (failures k up) = (bs_health_probe_fail_threshold s <=? Z.of_nat k))).
Proof.
  split; unfold probe_update at 1.
  - intros -> o. done.
  - intros Hi. unfold probe_update. rewrite (proj2 (Z.eqb_neq _ _) Hi). cbv zeta.
    split_and!; [done|done| |].
    + cbn. intros H. destruct (Z.gtb_spec (bs_health_fail_count s) 0); lia.
    + intros Hc Ht Hk. match type of Hc with bs_health_fail_count ?u = _ =>
        apply (proj2 (failures_spec k u Hi Hc eq_refl Ht Hk)) end.
Qed.

(** The active member belongs to the group. *)
Definition group_inv (st : FailoverGroupState) : Prop :=
  fs_current_active st = fg_primary (fs_group st) \/ fs_current_active st ∈ fg_standbys (fs_group st).

Lemma head_filter_drop r n l sb :
  head (filter (fun x => usable r x = true) (drop n l)) = Some sb -> sb ∈ l /\ usable r sb = true.
Proof.
  intros H. assert (Hin : sb ∈ filter (fun x => usable r x = true) (drop n l)).
  { destruct (filter _ _); [done|]. injection H as ->. left. }
  apply list_elem_of_filter in Hin as [? Hin]. split; [|done].
  rewrite <- (take_drop n l). apply elem_of_app. by right.
Qed.

Lemma check_group_spec r st :
  fs_group (check_group_failover r st) = fs_group st /\
  (check_group_failover r st = st \/
   (usable r (fs_current_active (check_group_failover r st)) = true /\
    (fs_current_active (check_group_failover r st) = fg_primary (fs_group st) \/
     fs_current_active (check_group_failover r st) ∈ fg_standbys (fs_group st)))).
Proof.
  unfold check_group_failover. destruct st as [g cur]. cbn [fs_group fs_current_active].
  destruct (marked_unhealthy r cur).
  - destruct (bool_decide (cur = fg_primary g)).
    + destruct (fg_standbys g) as [|sb sbs] eqn:E; [auto|]. destruct (usable r sb) eqn:Hu; [|auto].
      cbn. split; [done|]. right. split; [done|]. right. left.
    + destruct (position cur (fg_standbys g)) as [i|]; [|auto].
      destruct (head _) as [sb|] eqn:Hh; [|auto]. apply head_filter_drop in Hh as [? ?]. cbn. auto.
  - destruct (fg_auto_failback g && negb (bool_decide (cur = fg_primary g))); cbn [andb]; [|auto].
    destruct (usable r (fg_primary g)) eqn:Hu; [|auto]. cbn. auto.
Qed.

(** Failover only moves inside the group and only to a live member: a check
    keeps the group's definition and the membership of the active server, and if
    it moves the active server at all, the new one is registered and not marked
    unhealthy; a healthy active server is only left for a healthy primary with
    automatic failback on. *)
Theorem failover_safe (r : ServerRegistry) (st : FailoverGroupState) : group_inv st ->
  let st' := check_group_failover r st in
  group_inv st' /\ fs_group st' = fs_group st /\
  (st' = st \/ usable r (fs_current_active st') = true) /\
  (marked_unhealthy r (fs_current_active st) = false -> st' <> st ->
     fg_auto_failback (fs_group st) = true /\ fs_current_active st' = fg_primary (fs_group st) /\
     usable r (fg_primary (fs_group st)) = true).
Proof.
  intros Hinv. cbv zeta. destruct (check_group_spec r st) as [Hg Hcase].
  split_and!; [|done| |].
  - destruct Hcase as [->|[_ Hm]]; [done|]. unfold group_inv. by rewrite Hg.
  - destruct Hcase as [->|[? _]]; auto.
  - intros Hh Hne. unfold check_group_failover in *. rewrite Hh in *.
    destruct (fg_auto_failback (fs_group st)); [|done]. cbn [andb] in *.
    destruct (bool_decide _); [done|]. cbn [negb andb] in *.
    destruct (usable r (fg_primary (fs_group st))); done.
Qed.

(** A group with two standbys, and a registry in which [bad] are unhealthy. *)
Definition demo_group : FailoverGroup := mkFailoverGroup (lit "g") (lit "p") [lit "s1"; lit "s2"] true.
Definition demo_servers (bad : list bytes) : ServerRegistry :=
  map (fun n => sample_backend n true 0 0 1 (bool_decide (n ∈ bad))) [lit "p"; lit "s1"; lit "s2"].

Lemma failover_safe_witness :
  fs_current_active (check_group_failover (demo_servers [lit "p"]) (mkFailoverState demo_group (lit "p"))) = lit "s1" /\
  group_inv (check_group_failover (demo_servers [lit "p"]) (mkFailoverState demo_group (lit "p"))).
Proof.
  split; [vm_compute; reflexivity|].
  apply (failover_safe (demo_servers [lit "p"]) (mkFailoverState demo_group (lit "p"))). left. reflexivity.
Defined.

Lemma filter_unusable r l : Forall (fun sb => usable r sb = false) l ->
  filter (fun sb => usable r sb = true) l = [].
Proof.
  induction 1 as [|sb l Hsb _ IH]; [done|]. rewrite filter_cons, decide_False; [done|]. by rewrite Hsb.
Qed.

(** Failover can leave a group on an unhealthy server although healthy ones
    exist: from an unhealthy primary only the first standby is tried, and from
    an unhealthy standby only later ones are, never an earlier standby and never
    the primary, not even with automatic failback on and the primary healthy. *)
Theorem failover_gets_stuck (r : ServerRegistry) (g : FailoverGroup) :
  (forall sb rest, fg_standbys g = sb :: rest -> marked_unhealthy r (fg_primary g) = true ->
     usable r sb = false ->
     check_group_failover r (mkFailoverState g (fg_primary g)) = mkFailoverState g (fg_primary g)) /\
  (forall i cur, position cur (fg_standbys g) = Some i -> cur <> fg_primary g ->
     marked_unhealthy r cur = true -> Forall (fun sb => usable r sb = false) (drop (i + 1) (fg_standbys g)) ->
     check_group_failover r (mkFailoverState g cur) = mkFailoverState g cur) /\
  (usable (demo_servers [lit "p"; lit "s1"]) (lit "s2") = true /\
   check_group_failover (demo_servers [lit "p"; lit "s1"]) (mkFailoverState demo_group (lit "p")) =
     mkFailoverState demo_group (lit "p")) /\
  (usable (demo_servers [lit "s2"]) (lit "p") = true /\
   check_group_failover (demo_servers [lit "s2"]) (mkFailoverState demo_group (lit "s2")) =
     mkFailoverState demo_group (lit "s2")).
Proof.
  split_and!; try (vm_compute; reflexivity).
  - intros sb rest Hs Hp Hu. unfold check_group_failover. cbn [fs_group fs_current_active].
    rewrite Hp, bool_decide_true, Hs, Hu by done. done.
  - intros i cur Hpos Hne Hu Hall. unfold check_group_failover. cbn [fs_group fs_current_active].
    rewrite Hu, bool_decide_false, Hpos, filter_unusable by done. done.
Qed.
