(* ===== verification/Queue.v ===== *)
(** * Waiting queues for full servers

    crates/proxy-core/src/net/queue.rs: one FIFO of player ids per backend.  The
    outer [DashMap] is a finite map; each method holds the queue's lock for its
    whole body, so methods are atomic steps and every interleaving of callers is
    a sequence of them. *)
From Stdlib Require Import ZArith Lia Strings.Byte.
From stdpp Require Import base list gmap numbers strings.
From S2P Require Import Prelude Failover.
Local Open Scope Z_scope.

Abbreviation queues := (gmap bytes (list bytes)).

Record QueueManager := mkQueueManager { qm_queues : queues; qm_max_queue_size : Z }.

Definition queue_new (max_queue_size : Z) : QueueManager := mkQueueManager ∅ max_queue_size.

(** The queue of a server; an absent entry is an empty queue. *)
Definition queue_of (qm : QueueManager) (server : bytes) : list bytes := default [] (qm_queues qm !! server).

Definition with_queue (qm : QueueManager) (server : bytes) (q : list bytes) : QueueManager :=
  mkQueueManager (<[server := q]> (qm_queues qm)) (qm_max_queue_size qm).

(** [entry(server).or_insert_with(..)], then the body under the lock. *)
Definition enqueue (qm : QueueManager) (server uuid : bytes) : outcome string Z * QueueManager :=
  let queue := queue_of qm server in
  let qm := with_queue qm server queue in
  match position uuid queue with
  | Some pos => (Ok (Z.of_nat pos + 1), qm)
  | None =>
      if negb (qm_max_queue_size qm =? 0) && (Z.of_nat (length queue) >=? qm_max_queue_size qm)
      then (Err "queue is full"%string, qm)
      else
        let queue := queue ++ [uuid] in
        (Ok (Z.of_nat (length queue)), with_queue qm server queue)
  end.

Definition queue_position (qm : QueueManager) (server uuid : bytes) : option Z :=
  match qm_queues qm !! server with
  | None => None
  | Some queue => option_map (fun i => Z.of_nat i + 1) (position uuid queue)
  end.

Definition is_front_or_unqueued (qm : QueueManager) (server uuid : bytes) : bool :=
  match qm_queues qm !! server with
  | Some queue => match queue with front :: _ => bool_decide (front = uuid) | [] => true end
  | None => true
  end.

Definition queue_remove (qm : QueueManager) (server uuid : bytes) : QueueManager :=
  match qm_queues qm !! server with
  | Some queue => with_queue qm server (filter (fun u => u <> uuid) queue)
  | None => qm
  end.

Definition remove_from_all (qm : QueueManager) (uuid : bytes) : QueueManager :=
  mkQueueManager ((fun queue => filter (fun u => u <> uuid) queue) <$> qm_queues qm) (qm_max_queue_size qm).

(** [locked server]: [try_lock] fails because the queue is in use. *)
Definition evict_empty (locked : bytes -> bool) (qm : QueueManager) : QueueManager :=
  mkQueueManager (filter (fun '(server, queue) => locked server = true \/ queue <> []) (qm_queues qm))
    (qm_max_queue_size qm).

(** ** Steps *)

Inductive queue_op :=
  | OpEnqueue (server uuid : bytes)
  | OpRemove (server uuid : bytes)
  | OpRemoveAll (uuid : bytes)
  | OpEvict (locked : bytes -> bool).

Definition queue_step (qm : QueueManager) (op : queue_op) : QueueManager :=
  match op with
  | OpEnqueue server uuid => (enqueue qm server uuid).2
  | OpRemove server uuid => queue_remove qm server uuid
  | OpRemoveAll uuid => remove_from_all qm uuid
  | OpEvict locked => evict_empty locked qm
  end.

Definition queue_run (qm : QueueManager) (ops : list queue_op) : QueueManager := fold_left queue_step ops qm.

(** ** The specification: one sequence per server *)

Definition spec_step (max : Z) (op : queue_op) (server : bytes) (q : list bytes) : list bytes :=
  match op with
  | OpEnqueue s uuid =>
      if decide (s = server) then
        if decide (uuid ∈ q) then q
        else if decide (max <> 0 /\ max <= Z.of_nat (length q)) then q else q ++ [uuid]
      else q
  | OpRemove s uuid => if decide (s = server) then filter (fun u => u <> uuid) q else q
  | OpRemoveAll uuid => filter (fun u => u <> uuid) q
  | OpEvict _ => q
  end.

(** ** Lemmas *)

Lemma position_some x l i : position x l = Some i -> l !! i = Some x /\ (i < length l)%nat.
Proof.
  revert i. induction l as [|y l IH]; intros i; cbn [position]; [done|].
  destruct (decide (y = x)) as [->|]; [intros [= <-]; cbn; split; [done|lia]|].
  destruct (position x l) as [j|]; [|done]. intros [= <-]. destruct (IH j eq_refl). cbn. split; [done|lia].
Qed.

Lemma position_none x l : position x l = None <-> x ∉ l.
Proof.
  induction l as [|y l IH]; cbn [position]; [split; [intros _; apply not_elem_of_nil|done]|].
  rewrite not_elem_of_cons. destruct (decide (y = x)) as [->|]; [split; [done|by intros []]|].
  destruct (position x l); cbn; [|rewrite <- IH; split; [split; [congruence|done]|done]].
  split; [done|]. intros [_ H]. by apply IH in H.
Qed.

Lemma position_snoc x l : x ∉ l -> position x (l ++ [x]) = Some (length l).
Proof.
  induction l as [|y l IH]; cbn; [by rewrite decide_True|]. rewrite not_elem_of_cons. intros [Hne Hl].
  rewrite decide_False by congruence. by rewrite IH.
Qed.

Lemma queue_of_with qm s q server :
  queue_of (with_queue qm s q) server = if decide (s = server) then q else queue_of qm server.
Proof.
  unfold queue_of. cbn. destruct (decide (s = server)) as [->|]; [by rewrite lookup_insert_eq|by rewrite lookup_insert_ne].
Qed.

Lemma queue_max_step qm op : qm_max_queue_size (queue_step qm op) = qm_max_queue_size qm.
Proof.
  destruct op; cbn [queue_step]; [|unfold queue_remove; by destruct (_ !! _)|done|done].
  unfold enqueue. destruct (position _ _); [done|]. by destruct (_ && _).
Qed.

(** Every method acts on each server's sequence as the specification says. *)
Lemma queue_step_refines qm op server :
  queue_of (queue_step qm op) server = spec_step (qm_max_queue_size qm) op server (queue_of qm server).
Proof.
  destruct op as [s uuid|s uuid|uuid|locked]; cbn [queue_step spec_step].
  - unfold enqueue. destruct (position uuid (queue_of qm s)) as [i|] eqn:E.
    + cbn [snd]. rewrite queue_of_with. destruct (decide (s = server)) as [->|]; [|done].
      rewrite decide_True; [done|]. apply position_some in E as [E _]. by eapply list_elem_of_lookup_2.
    + apply position_none in E. change (qm_max_queue_size (with_queue _ _ _)) with (qm_max_queue_size qm).
      destruct (Z.eqb_spec (qm_max_queue_size qm) 0) as [H0|H0];
        destruct (Z.geb_spec (Z.of_nat (length (queue_of qm s))) (qm_max_queue_size qm)); cbn [negb andb snd];
        rewrite ?queue_of_with; (destruct (decide (s = server)) as [->|]; [|done]);
        (destruct (decide (uuid ∈ _)); [done|]);
        destruct (decide (_ /\ _)) as [[]|]; first [done | exfalso; lia].
  - unfold queue_remove. destruct (qm_queues qm !! s) as [q|] eqn:E.
    + rewrite queue_of_with. destruct (decide (s = server)) as [->|]; [|done]. unfold queue_of. by rewrite E.
    + destruct (decide (s = server)) as [->|]; [|done]. unfold queue_of. by rewrite E.
  - unfold queue_of. cbn. rewrite lookup_fmap. by destruct (_ !! _).
  - unfold queue_of. cbn. rewrite map_lookup_filter. destruct (qm_queues qm !! server) as [q|] eqn:E; [|done]. cbn.
    case_guard as H; [done|]. cbn. destruct q; [done|]. exfalso. apply H. by right.
Qed.

Lemma spec_step_sublist max op server q :
  NoDup q -> NoDup (spec_step max op server q) /\
  (max <> 0 -> Z.of_nat (length q) <= max -> Z.of_nat (length (spec_step max op server q)) <= max).
Proof.
  intros Hnd. assert (Hf : forall u, NoDup (filter (fun x => x <> u) q) /\
    (length (filter (fun x => x <> u) q) <= length q)%nat).
  { intros u. split; [by apply NoDup_filter|apply length_filter]. }
  destruct op as [s u|s u|u|]; cbn [spec_step].
  - destruct (decide (s = server)); [|done]. destruct (decide (u ∈ q)); [done|].
    destruct (decide _); [done|]. split.
    + apply NoDup_app. split_and!; [done| |apply NoDup_singleton]. intros x Hx Hy%list_elem_of_singleton. by subst.
    + intros H0 Hl. rewrite length_app. cbn. lia.
  - destruct (Hf u). destruct (decide (s = server)); split; try done. lia.
  - destruct (Hf u). split; [done|lia].
  - done.
Qed.

(** ** Properties *)

Definition queue_inv (qm : QueueManager) : Prop := forall server,
  NoDup (queue_of qm server) /\
  (qm_max_queue_size qm <> 0 -> Z.of_nat (length (queue_of qm server)) <= qm_max_queue_size qm).

(** C18: the queue manager implements one bounded FIFO per server: starting
    empty, after any sequence of calls from any callers, each server's queue is
    what the specification's per-server sequence gives, holds no player twice and
    never exceeds the limit. *)
Theorem queue_refines_fifo (max : Z) (ops : list queue_op) (server : bytes) :
  0 <= max ->
  let qm := queue_run (queue_new max) ops in
  queue_of qm server = fold_left (fun q op => spec_step max op server q) ops [] /\
  NoDup (queue_of qm server) /\ (max <> 0 -> Z.of_nat (length (queue_of qm server)) <= max).
Proof.
  intros Hmax. cbv zeta.
  assert (Hgen : forall qm, qm_max_queue_size qm = max -> NoDup (queue_of qm server) ->
    (max <> 0 -> Z.of_nat (length (queue_of qm server)) <= max) ->
    queue_of (queue_run qm ops) server = fold_left (fun q op => spec_step max op server q) ops (queue_of qm server) /\
    NoDup (queue_of (queue_run qm ops) server) /\
    (max <> 0 -> Z.of_nat (length (queue_of (queue_run qm ops) server)) <= max)).
  { induction ops as [|op ops IH]; intros qm Hm Hnd Hl; [done|]. unfold queue_run in *. cbn [fold_left].
    pose proof (queue_step_refines qm op server) as Hs. rewrite Hm in Hs. rewrite <- Hs.
    destruct (spec_step_sublist max op server _ Hnd) as [Hnd' Hl']. rewrite <- Hs in Hnd', Hl'.
    apply IH; [by rewrite queue_max_step|done|auto]. }
  assert (Hnew : queue_of (queue_new max) server = []) by (unfold queue_of; cbn; by rewrite lookup_empty).
  specialize (Hgen (queue_new max) eq_refl). rewrite Hnew in Hgen.
  apply Hgen; [constructor|]. intros _. cbn. lia.
Qed.

Lemma queue_refines_fifo_witness :
  let qm := queue_run (queue_new 1) [OpEnqueue (lit "s") (lit "a"); OpEnqueue (lit "s") (lit "b")] in
  queue_of qm (lit "s") = [lit "a"].
Proof.
  cbv zeta. destruct (queue_refines_fifo 1 [OpEnqueue (lit "s") (lit "a"); OpEnqueue (lit "s") (lit "b")] (lit "s"))
    as [H _]; [lia|]. rewrite H. vm_compute. reflexivity.
Defined.

Lemma sublist_filter_order (P : bytes -> Prop) `{!forall x, Decision (P x)} (q : list bytes) a b :
  P a -> P b -> (exists l1 l2 l3, q = l1 ++ a :: l2 ++ b :: l3) ->
  exists l1 l2 l3, filter P q = l1 ++ a :: l2 ++ b :: l3.
Proof.
  intros Ha Hb (l1 & l2 & l3 & ->). exists (filter P l1), (filter P l2), (filter P l3).
  rewrite filter_app, filter_cons_True, filter_app, filter_cons_True by done. done.
Qed.

(** [a] waits ahead of [b]. *)
Definition ahead (qm : QueueManager) (server a b : bytes) : Prop :=
  exists l1 l2 l3, queue_of qm server = l1 ++ a :: l2 ++ b :: l3.

(** C19: nobody overtakes: while two players wait for a server, no call by
    anyone changes their order; at most one player is reported at the front of a
    non-empty queue; and [enqueue] answers with the position the player then
    has, repeats it for a player already waiting, and refuses exactly a new
    player on a full queue, changing no queue. *)
Theorem queue_no_overtaking (qm : QueueManager) (op : queue_op) (server a b : bytes) :
  (ahead qm server a b -> a ∈ queue_of (queue_step qm op) server -> b ∈ queue_of (queue_step qm op) server ->
     ahead (queue_step qm op) server a b) /\
  (queue_of qm server <> [] -> is_front_or_unqueued qm server a = true ->
     is_front_or_unqueued qm server b = true -> a = b) /\
  (let '(res, qm') := enqueue qm server a in
   match res with
   | Ok n => queue_position qm' server a = Some n
   | Err _ => (a ∉ queue_of qm server) /\ qm_max_queue_size qm <> 0 /\
              qm_max_queue_size qm <= Z.of_nat (length (queue_of qm server)) /\
              forall s, queue_of qm' s = queue_of qm s
   | _ => False
   end).
Proof.
  split_and!.
  - unfold ahead. intros Hq Ha Hb. rewrite queue_step_refines in *.
    destruct op as [s u|s u|u|]; cbn [spec_step] in *; [| | |done].
    + destruct (decide (s = server)); [|done]. destruct (decide (u ∈ _)); [done|].
      destruct (decide _); [done|]. destruct Hq as (l1 & l2 & l3 & ->).
      exists l1, l2, (l3 ++ [u]). by rewrite <- !app_assoc, <- !app_comm_cons, <- app_assoc.
    + destruct (decide (s = server)); [|done]. apply list_elem_of_filter in Ha as [? _].
      apply list_elem_of_filter in Hb as [? _]. by apply sublist_filter_order.
    + apply list_elem_of_filter in Ha as [? _]. apply list_elem_of_filter in Hb as [? _].
      by apply sublist_filter_order.
  - unfold queue_of, is_front_or_unqueued. destruct (qm_queues qm !! server) as [[|f q]|]; [done| |done].
    intros _ Ha Hb. apply bool_decide_eq_true in Ha, Hb. congruence.
  - unfold enqueue, queue_position. destruct (position a (queue_of qm server)) as [i|] eqn:E.
    + cbn. by rewrite lookup_insert_eq, E.
    + change (qm_max_queue_size (with_queue _ _ _)) with (qm_max_queue_size qm). apply position_none in E as Hni.
      destruct (Z.eqb_spec (qm_max_queue_size qm) 0); cbn [negb andb].
      2:destruct (Z.geb_spec (Z.of_nat (length (queue_of qm server))) (qm_max_queue_size qm)).
      2:{ split_and!; try done. intros s. rewrite queue_of_with. by destruct (decide (server = s)) as [->|]. }
      all: cbn [with_queue qm_queues]; rewrite lookup_insert_eq; cbn [option_map];
        rewrite (position_snoc a (queue_of qm server)) by done; cbn [option_map];
        f_equal; rewrite length_app; cbn; lia.
Qed.
