(* ===== verification/Throttle.v ===== *)
(** * Connection throttle and message rate limit

    crates/proxy-core/src/net/connection_throttle.rs and
    plugin_channel_rate_limit.rs: token buckets per address and per player.  A
    finite [f32] is an integer multiple of 2^-149, so it is modelled by that
    integer, and each arithmetic operation by the exact result rounded to 24
    significant bits, ties to even.  An [Instant] is a number of nanoseconds; the
    time of a call is an argument. *)
From Stdlib Require Import ZArith Lia Strings.Byte.
From stdpp Require Import base list gmap fin_maps numbers strings.
From S2P Require Import Prelude Buf IpAddr.
Local Open Scope Z_scope.

(** ** Single-precision arithmetic *)

(** 1.0 in units of 2^-149. *)
Definition ONE : Z := 2 ^ 149.

(** [num / den] to the nearest integer, ties to even. *)
Definition rne (num den : Z) : Z :=
  let q := num / den in
  let r := num mod den in
  if 2 * r <? den then q
  else if den <? 2 * r then q + 1
  else if Z.even q then q else q + 1.

(** [num / den] (in units of 2^-149, not negative) rounded to 24 bits. *)
Definition rnd (num den : Z) : Z :=
  let q := num / den in
  if q <? 2 ^ 24 then rne num den
  else let k := Z.log2 q - 23 in rne num (den * 2 ^ k) * 2 ^ k.

Definition f32_add (a b : Z) : Z := rnd (a + b) 1.
Definition f32_sub (a b : Z) : Z := rnd (a - b) 1.
Definition f32_mul (a b : Z) : Z := rnd (a * b) ONE.
Definition f32_div (a b : Z) : Z := rnd (a * ONE) b.
Definition f32_of_int (n : Z) : Z := rnd (n * ONE) 1.

(** [Duration::as_secs_f32] *)
Definition as_secs_f32 (nanos : Z) : Z :=
  f32_add (f32_of_int (nanos / 1000000000))
          (f32_div (f32_of_int (nanos mod 1000000000)) (f32_of_int 1000000000)).

Definition secs (n : Z) : Z := n * 1000000000.

(** ** Buckets *)

Record IpRecord := mkIpRecord { rec_tokens : Z; rec_last_update : Z; rec_banned_until : option Z }.

Section Bucket.
(** The constants in which the address and network buckets differ. *)
Context {K : Type} `{Countable K}.
Variables (CAPACITY REFILL_RATE_PER_SEC TEMP_BAN_DURATION MAX_RECORDS RECENT : Z).
Variables (msg_banned msg_many : string).

(** The predicate of the [retain] calls. *)
Definition keep_record (now : Z) (rec : IpRecord) : bool :=
  let active := match rec_banned_until rec with Some u => now <? u | None => false end in
  let not_full := rec_tokens rec <? CAPACITY in
  let recent := (now - rec_last_update rec) <? RECENT in
  active || not_full || recent.

Definition retain_records (now : Z) (m : gmap K IpRecord) : gmap K IpRecord :=
  filter (fun '(_, rec) => keep_record now rec = true) m.

(** The refill and the decision for one record. *)
Definition take_token (now : Z) (rec : IpRecord) : outcome string unit * IpRecord :=
  let elapsed := as_secs_f32 (now - rec_last_update rec) in
  let tokens := Z.min (f32_add (rec_tokens rec) (f32_mul elapsed REFILL_RATE_PER_SEC)) CAPACITY in
  if tokens <? ONE
  then (Err msg_many, mkIpRecord tokens now (Some (now + TEMP_BAN_DURATION)))
  else (Ok tt, mkIpRecord (f32_sub tokens ONE) now (rec_banned_until rec)).

Definition check_record (now : Z) (rec : IpRecord) : outcome string unit * IpRecord :=
  match rec_banned_until rec with
  | Some until =>
      if now <? until then (Err msg_banned, rec)
      else take_token now (mkIpRecord CAPACITY (rec_last_update rec) None)
  | None => take_token now rec
  end.

(** [check_ip] and [check_asn]. *)
Definition check_bucket (now : Z) (key : K) (m : gmap K IpRecord) : outcome string unit * gmap K IpRecord :=
  let full := bool_decide (m !! key = None) && (Z.of_nat (size m) >=? MAX_RECORDS) in
  let m := if full then retain_records now m else m in
  if full && (Z.of_nat (size m) >=? MAX_RECORDS) then (Err msg_many, m)
  else
    let rec := default (mkIpRecord CAPACITY now None) (m !! key) in
    let '(res, rec') := check_record now rec in
    (res, <[key := rec']> m).

End Bucket.

(** ** The throttle *)

Record ConnectionThrottle := mkThrottle {
  ip_records : gmap bytes IpRecord;
  asn_records : gmap Z IpRecord;
  max_per_ip : Z;
  max_per_asn : Z }.

Definition DEFAULT_MAX_CONNECTIONS_PER_IP : Z := 8.
Definition DEFAULT_MAX_CONNECTIONS_PER_ASN : Z := 64.
Definition CAPACITY : Z := 8 * ONE.
Definition REFILL_RATE_PER_SEC : Z := 2 * ONE.
Definition TEMP_BAN_DURATION : Z := secs 120.
Definition MAX_IP_RECORDS : Z := 1000000.
Definition MAX_ASN_RECORDS : Z := 100000.
Definition ASN_CAPACITY : Z := 64 * ONE.
Definition ASN_REFILL_RATE_PER_SEC : Z := 4 * ONE.
Definition ASN_TEMP_BAN_DURATION : Z := secs 300.

Definition with_limits (max_per_ip max_per_asn : Z) : ConnectionThrottle :=
  mkThrottle ∅ ∅ max_per_ip max_per_asn.
Definition throttle_new : ConnectionThrottle :=
  with_limits DEFAULT_MAX_CONNECTIONS_PER_IP DEFAULT_MAX_CONNECTIONS_PER_ASN.

(** An address as a map key: family and octets. *)
Definition ip_key (ip : IpAddr) : bytes := match ip with V4 o => x04 :: o | V6 o => x06 :: o end.

Definition check_ip (now : Z) (ip : IpAddr) (m : gmap bytes IpRecord) : outcome string unit * gmap bytes IpRecord :=
  check_bucket CAPACITY REFILL_RATE_PER_SEC TEMP_BAN_DURATION MAX_IP_RECORDS (secs 10)
    "temporarily banned by IP" "too many connections from IP" now (ip_key ip) m.

Definition check_asn (now : Z) (asn : Z) (m : gmap Z IpRecord) : outcome string unit * gmap Z IpRecord :=
  check_bucket ASN_CAPACITY ASN_REFILL_RATE_PER_SEC ASN_TEMP_BAN_DURATION MAX_ASN_RECORDS (secs 30)
    "temporarily banned by ASN" "too many connections from ASN" now asn m.

Definition resolve_asn (_ : IpAddr) : option Z := None.

Definition throttle_check (now : Z) (ip : IpAddr) (t : ConnectionThrottle) : outcome string unit * ConnectionThrottle :=
  let '(res, ips) := if max_per_ip t >? 0 then check_ip now ip (ip_records t) else (Ok tt, ip_records t) in
  let t := mkThrottle ips (asn_records t) (max_per_ip t) (max_per_asn t) in
  match res with
  | Ok _ =>
      if max_per_asn t >? 0 then
        match resolve_asn ip with
        | Some asn =>
            let '(res, asns) := check_asn now asn (asn_records t) in
            (res, mkThrottle (ip_records t) asns (max_per_ip t) (max_per_asn t))
        | None => (Ok tt, t)
        end
      else (Ok tt, t)
  | e => (e, t)
  end.

Definition throttle_evict_stale (now : Z) (t : ConnectionThrottle) : ConnectionThrottle :=
  mkThrottle (retain_records CAPACITY (secs 10) now (ip_records t))
    (retain_records ASN_CAPACITY (secs 30) now (asn_records t)) (max_per_ip t) (max_per_asn t).

(** ** Plugin messages *)

Record PlayerRateLimit := mkPlayerLimit { pl_tokens : Z; pl_last_update : Z }.

Definition BURST_CAPACITY : Z := 20 * ONE.
Definition MAX_RATE_LIMIT_RECORDS : Z := 100000.

Definition keep_player (now : Z) (rec : PlayerRateLimit) : bool :=
  (pl_tokens rec <? BURST_CAPACITY) || ((now - pl_last_update rec) <? secs 60).

Definition retain_players (now : Z) (m : gmap bytes PlayerRateLimit) : gmap bytes PlayerRateLimit :=
  filter (fun '(_, rec) => keep_player now rec = true) m.

Definition message_check (messages_per_second now : Z) (uuid : bytes) (m : gmap bytes PlayerRateLimit)
    : bool * gmap bytes PlayerRateLimit :=
  let full := bool_decide (m !! uuid = None) && (Z.of_nat (size m) >=? MAX_RATE_LIMIT_RECORDS) in
  let m := if full then retain_players now m else m in
  if full && (Z.of_nat (size m) >=? MAX_RATE_LIMIT_RECORDS) then (false, m)
  else
    let rec := default (mkPlayerLimit BURST_CAPACITY now) (m !! uuid) in
    let elapsed := as_secs_f32 (now - pl_last_update rec) in
    let tokens := Z.min (f32_add (pl_tokens rec) (f32_mul elapsed messages_per_second)) BURST_CAPACITY in
    if tokens <? ONE then (false, <[uuid := mkPlayerLimit tokens now]> m)
    else (true, <[uuid := mkPlayerLimit (f32_sub tokens ONE) now]> m).

Definition messages_evict_stale (now : Z) (m : gmap bytes PlayerRateLimit) : gmap bytes PlayerRateLimit :=
  retain_players now m.

Definition remove_player (uuid : bytes) (m : gmap bytes PlayerRateLimit) : gmap bytes PlayerRateLimit :=
  delete uuid m.

(** ** Rounding *)

Lemma rne_bound num den : 0 < den -> 0 <= num -> 0 <= rne num den /\ 2 * den * rne num den <= 2 * num + den.
Proof.
  intros Hd Hn. unfold rne. pose proof (Z.div_mod num den ltac:(lia)) as Hdm.
  pose proof (Z.mod_pos_bound num den Hd). pose proof (Z.div_pos num den Hn Hd).
  set (q := num / den) in *. set (r := num mod den) in *.
  destruct (Z.ltb_spec (2 * r) den); [nia|]. destruct (Z.ltb_spec den (2 * r)); [nia|].
  destruct (Z.even q); nia.
Qed.

Lemma rnd_nonneg num den : 0 < den -> 0 <= num -> 0 <= rnd num den.
Proof.
  intros Hd Hn. unfold rnd. destruct (Z.ltb_spec (num / den) (2 ^ 24)); [by apply rne_bound|].
  assert (24 <= Z.log2 (num / den)) by (apply Z.log2_le_pow2; lia).
  pose proof (Z.pow_pos_nonneg 2 (Z.log2 (num / den) - 23) ltac:(lia) ltac:(lia)).
  destruct (rne_bound num (den * 2 ^ (Z.log2 (num / den) - 23)) ltac:(nia) Hn). nia.
Qed.

(** Rounding moves a value by less than one part in 2^24, or half a unit. *)
Lemma rnd_bound num : 0 <= num -> 2 ^ 24 * rnd num 1 <= (2 ^ 24 + 1) * num + 2 ^ 23.
Proof.
  intros Hn. unfold rnd. rewrite Z.div_1_r. destruct (Z.ltb_spec num (2 ^ 24)).
  - destruct (rne_bound num 1 ltac:(lia) Hn). lia.
  - assert (Hl : 24 <= Z.log2 num) by (apply Z.log2_le_pow2; lia).
    destruct (Z.log2_spec num ltac:(lia)) as [Hlo _]. set (k := Z.log2 num - 23).
    assert (Hpk : 2 ^ k * 2 ^ 23 <= num) by (rewrite <- Z.pow_add_r by lia; replace (k + 23) with (Z.log2 num) by lia; done).
    pose proof (Z.pow_pos_nonneg 2 k ltac:(lia) ltac:(lia)) as Hk. rewrite Z.mul_1_l.
    destruct (rne_bound num (2 ^ k) Hk Hn) as [_ Hb].
    replace (2 ^ 24) with (2 * 2 ^ 23) by reflexivity. nia.
Qed.

Lemma ONE_pos : 2 ^ 24 < ONE.
Proof. unfold ONE. apply Z.pow_lt_mono_r; lia. Qed.

(** Spending a token from a bucket that is not over-full leaves it below its
    capacity, rounding included. *)
Lemma spend_below cap tokens : ONE <= tokens <= cap -> cap <= 2 ^ 20 * ONE ->
  0 <= f32_sub tokens ONE < cap.
Proof.
  intros Ht Hc. unfold f32_sub. pose proof ONE_pos.
  split; [apply rnd_nonneg; lia|]. pose proof (rnd_bound (tokens - ONE) ltac:(lia)). nia.
Qed.

(** ** Eviction *)

Section BucketProofs.
Context {K : Type} `{Countable K}.
Variables (CAP RATE BAN MAX RECENT : Z) (m1 m2 : string).
Hypothesis Hcap : ONE < CAP.
Hypothesis Hcap' : CAP <= 2 ^ 20 * ONE.

Abbreviation below := (fun (_ : K) (rec : IpRecord) => rec_tokens rec < CAP).

Lemma take_token_below now rec : rec_tokens (take_token CAP RATE BAN m2 now rec).2 < CAP.
Proof using Hcap Hcap'.
  unfold take_token. cbv zeta. set (t := Z.min _ CAP).
  destruct (Z.ltb_spec t ONE); cbn [snd rec_tokens]; [lia|].
  apply spend_below; [|done]. split; [done|]. unfold t. lia.
Qed.

Lemma check_record_below now rec : (rec_banned_until rec <> None -> rec_tokens rec < CAP) ->
  rec_tokens (check_record CAP RATE BAN m1 m2 now rec).2 < CAP.
Proof using Hcap Hcap'.
  intros Hrec. unfold check_record. destruct (rec_banned_until rec) as [u|]; [|apply take_token_below].
  destruct (now <? u); [by apply Hrec|apply take_token_below].
Qed.

Lemma retain_below now (m : gmap K IpRecord) : map_Forall below m -> retain_records CAP RECENT now m = m.
Proof.
  intros Hm. unfold retain_records. apply map_filter_id. intros k rec Hk.
  apply Hm in Hk. unfold keep_record. apply Z.ltb_lt in Hk. rewrite Hk. by rewrite orb_true_r.
Qed.

Lemma check_bucket_below now key (m : gmap K IpRecord) : map_Forall below m ->
  map_Forall below (check_bucket CAP RATE BAN MAX RECENT m1 m2 now key m).2.
Proof using Hcap Hcap'.
  intros Hm. unfold check_bucket. cbv zeta. rewrite (retain_below now m Hm).
  replace (if _ && _ then m else m) with m by (by destruct (_ && _)).
  destruct (_ && _); [done|].
  pose proof (check_record_below now (default (mkIpRecord CAP now None) (m !! key))) as Hr.
  destruct (check_record _ _ _ _ _ _ _) as [res rec']. cbn [snd] in *.
  apply map_Forall_insert_2; [|done]. apply Hr. destruct (m !! key) as [rec|] eqn:E; [|done].
  cbn. intros _. apply (Hm key rec E).
Qed.

(** A full table refuses every new key and stays as it is. *)
Lemma check_bucket_full now key (m : gmap K IpRecord) : map_Forall below m ->
  m !! key = None -> MAX <= Z.of_nat (size m) ->
  check_bucket CAP RATE BAN MAX RECENT m1 m2 now key m = (Err m2, m).
Proof.
  intros Hm Hk Hs. unfold check_bucket. cbv zeta.
  rewrite bool_decide_true by done.
  assert (Hge : (Z.of_nat (size m) >=? MAX) = true) by (rewrite Z.geb_leb; by apply Z.leb_le).
  rewrite Hge. cbn [andb]. rewrite (retain_below now m Hm), Hge. done.
Qed.

End BucketProofs.

(** States of a running throttle. *)
Inductive throttle_reach : ConnectionThrottle -> Prop :=
  | throttle_start a b : throttle_reach (with_limits a b)
  | throttle_checked now ip t : throttle_reach t -> throttle_reach (throttle_check now ip t).2
  | throttle_evicted now t : throttle_reach t -> throttle_reach (throttle_evict_stale now t).

Definition throttle_inv (t : ConnectionThrottle) : Prop :=
  map_Forall (fun _ rec => rec_tokens rec < CAPACITY) (ip_records t) /\ asn_records t = ∅.

Lemma capacity_bounds : ONE < CAPACITY /\ CAPACITY <= 2 ^ 20 * ONE.
Proof. pose proof ONE_pos. unfold CAPACITY. lia. Qed.

Lemma throttle_reach_inv t : throttle_reach t -> throttle_inv t.
Proof.
  destruct capacity_bounds as [Hc1 Hc2].
  induction 1 as [a b|now ip t _ [IH1 IH2]|now t _ [IH1 IH2]].
  - split; [apply map_Forall_empty|done].
  - assert (Hgen : forall ips, map_Forall (fun _ rec => rec_tokens rec < CAPACITY) ips ->
      throttle_inv (mkThrottle ips (asn_records t) (max_per_ip t) (max_per_asn t))) by done.
    unfold throttle_check. destruct (max_per_ip t >? 0).
    + pose proof (check_bucket_below CAPACITY REFILL_RATE_PER_SEC TEMP_BAN_DURATION MAX_IP_RECORDS (secs 10)
        "temporarily banned by IP" "too many connections from IP" Hc1 Hc2 now (ip_key ip) _ IH1) as Hb.
      unfold check_ip. destruct (check_bucket _ _ _ _ _ _ _ _ _ _) as [[] ips]; cbn [snd] in Hb; cbn;
        repeat destruct (_ >? _); by apply Hgen.
    + destruct (_ >? _); by apply Hgen.
  - unfold throttle_evict_stale. rewrite IH2. split; cbn.
    + by rewrite retain_below.
    + apply map_filter_empty.
Qed.

(** The throttle never forgets an address: in every state it can reach, at
    every time, [evict_stale] removes nothing, because every recorded bucket is
    below capacity and refills only when its own address connects again; so once
    a million addresses have been seen, every connection from a new address is
    refused, at any later time, and the table stays as it is. *)
Theorem throttle_never_evicts (t : ConnectionThrottle) (now : Z) (ip : IpAddr) : throttle_reach t ->
  throttle_evict_stale now t = t /\
  (max_per_ip t > 0 -> ip_records t !! ip_key ip = None -> MAX_IP_RECORDS <= Z.of_nat (size (ip_records t)) ->
     throttle_check now ip t = (Err "too many connections from IP"%string, t)).
Proof.
  intros Hr. apply throttle_reach_inv in Hr as [H1 H2]. destruct t as [ips asns a b]. cbn in *. subst. split.
  - unfold throttle_evict_stale. cbn. by rewrite retain_below.
  - intros Ha Hk Hs. unfold throttle_check. cbn. rewrite (proj2 (Z.gtb_lt a 0)) by lia.
    unfold check_ip. by rewrite check_bucket_full.
Qed.

Lemma throttle_never_evicts_witness :
  let t := (throttle_check 0 (V4 [x01; x02; x03; x04]) throttle_new).2 in
  throttle_evict_stale (secs 100000) t = t /\ size (ip_records t) = 1%nat.
Proof.
  cbv zeta. split; [|vm_compute; reflexivity].
  apply (throttle_never_evicts (throttle_check 0 (V4 [x01; x02; x03; x04]) throttle_new).2 (secs 100000) (V4 [])).
  apply throttle_checked. apply throttle_start.
Defined.

Lemma check_bucket_banned {K} `{Countable K} CAP RATE BAN MAX RECENT m1 m2 now key (m : gmap K IpRecord) rec until :
  m !! key = Some rec -> rec_banned_until rec = Some until -> now < until ->
  check_bucket CAP RATE BAN MAX RECENT m1 m2 now key m = (Err m1, m).
Proof.
  intros Hk Hb Hn. unfold check_bucket. cbv zeta. rewrite bool_decide_false by (by rewrite Hk). cbn [andb].
  rewrite Hk. cbn [default from_option]. unfold id, check_record. rewrite Hb, (proj2 (Z.ltb_lt _ _) Hn).
  f_equal. by apply insert_id.
Qed.

(** Connections from one address at one instant. *)
Fixpoint burst (n : nat) (now : Z) (ip : IpAddr) (t : ConnectionThrottle) : list bool * ConnectionThrottle :=
  match n with
  | O => ([], t)
  | S n' =>
      let '(res, t1) := throttle_check now ip t in
      let '(rs, t2) := burst n' now ip t1 in (is_ok res :: rs, t2)
  end.

(** The behaviour of one bucket: from a fresh throttle eight simultaneous
    connections of an address are let in and the ninth bans it; a banned address
    is refused, without touching its record, until 120 seconds have passed, and
    then starts over with a full bucket.  The configured limit only switches the
    check on: any two positive limits give the same answers. *)
Theorem throttle_ban_cycle (t : ConnectionThrottle) (now until : Z) (ip : IpAddr) (rec : IpRecord) :
  (max_per_ip t > 0 -> ip_records t !! ip_key ip = Some rec -> rec_banned_until rec = Some until ->
     now < until -> throttle_check now ip t = (Err "temporarily banned by IP"%string, t)) /\
  (let ip0 := V4 [x01; x02; x03; x04] in
   (burst 10 0 ip0 throttle_new).1 = replicate 8 true ++ [false; false] /\
   let t9 := (burst 9 0 ip0 throttle_new).2 in
   is_ok (throttle_check (secs 120 - 1) ip0 t9).1 = false /\
   (burst 9 (secs 120) ip0 t9).1 = replicate 8 true ++ [false]) /\
  (forall a b, a > 0 -> b > 0 ->
     let ta := mkThrottle (ip_records t) (asn_records t) a (max_per_asn t) in
     let tb := mkThrottle (ip_records t) (asn_records t) b (max_per_asn t) in
     (throttle_check now ip ta).1 = (throttle_check now ip tb).1 /\
     ip_records (throttle_check now ip ta).2 = ip_records (throttle_check now ip tb).2).
Proof.
  split_and!.
  - intros Ha Hk Hb Hn. destruct t as [ips asns a b]. cbn in *. unfold throttle_check. cbn.
    rewrite (proj2 (Z.gtb_lt a 0)) by lia. unfold check_ip. by rewrite (check_bucket_banned _ _ _ _ _ _ _ _ _ _ rec until).
  - cbv zeta. split_and!; vm_compute; reflexivity.
  - intros a b Ha Hb. cbv zeta. unfold throttle_check. cbn [max_per_ip max_per_asn ip_records asn_records].
    rewrite (proj2 (Z.gtb_lt a 0)), (proj2 (Z.gtb_lt b 0)) by lia.
    destruct (check_ip now ip (ip_records t)) as [[] ips]; cbn; repeat destruct (_ >? _); done.
Qed.
