(* ===== verification/ProxyProtocol.v ===== *)
(** * PROXY protocol headers

    crates/proxy-core/src/net/proxy_protocol.rs: the v1 and v2 headers a load
    balancer puts in front of the stream, read strictly, optionally or by
    peeking.  [ipnet::IpNet] is a library type: it and its [contains] are
    parameters.  The texts of the errors are left out, their kinds kept. *)
From Stdlib Require Import ZArith Lia Strings.Byte.
From stdpp Require Import base list numbers strings.
From S2P Require Import Prelude Buf Wire VarInt Codec Negotiation PacketIo IpAddr Routing.
Local Open Scope Z_scope.

(** [std::net::SocketAddr]: the address and the port. *)
Abbreviation SocketAddr := (IpAddr * Z)%type.

Definition V2_SIG : bytes := [x0d; x0a; x0d; x0a; x00; x0d; x0a; x51; x55; x49; x54; x0a].
Definition V1_SIG : bytes := lit "PROXY ".

(** [header_buf.len()] *)
Definition HEADER_BUF : nat := 512.

Inductive ProxyHeaderResult :=
  | Found (addr : SocketAddr)
  | NotFound (consumed : bytes).

(** [buf[a..b]] of the bytes read so far. *)
Definition sub (buf : bytes) (a b : nat) : bytes := take (b - a) (drop a buf).
Definition invalid_data {A} : Conn A := fail (CE_Io KInvalidData).

(** ** Version 1 *)

(** The loop that fills [header_buf] up to the line feed; [room] is
    [header_buf.len() - pos]. *)
Fixpoint v1_line (room : nat) (buf : bytes) : Conn bytes :=
  match room with
  | O => invalid_data
  | S room' =>
      let! b := read_exact 1 in
      let buf := buf ++ b in
      if bool_decide (b = [x0a]) then ret buf else v1_line room' buf
  end.

(** The source address of a complete line. *)
Definition v1_address (line : bytes) : option SocketAddr :=
  let header_str := if utf8_valid line then line else [] in
  let parts := split x20 header_str in
  if (6 <=? length parts)%nat then
    match parse_ip (nth 2 parts []) with
    | Some ip =>
        match parse_uint 65535 (nth 4 parts []) with
        | Some port => Some (ip, port)
        | None => None
        end
    | None => None
    end
  else None.

(** ** Version 2 *)

(** The source address in a complete header of [16 + addr_len] bytes. *)
Definition v2_address (header_buf : bytes) : option SocketAddr :=
  let fam := be_val (sub header_buf 13 14) in
  let addr_len := be_val (sub header_buf 14 16) in
  if (fam =? 0x11) && (addr_len >=? 12) then
    Some (V4 (sub header_buf 16 20), be_val (sub header_buf 24 26))
  else if (fam =? 0x21) && (addr_len >=? 36) then
    Some (V6 (sub header_buf 16 32), be_val (sub header_buf 48 50))
  else None.

(** ** The readers *)

Section Readers.
Context {IpNet : Type} (contains : IpNet -> IpAddr -> bool).

Definition is_trusted (src_ip : IpAddr) (trusted_proxies : list IpNet) : bool :=
  existsb (fun net => contains net src_ip) trusted_proxies.

(** [!trusted_proxies.is_empty() && !is_trusted(..)] *)
Definition refused (peer : SocketAddr) (trusted_proxies : list IpNet) : bool :=
  negb (match trusted_proxies with [] => true | _ => false end) && negb (is_trusted peer.1 trusted_proxies).

Definition read_proxy_header_optional (peer_addr : SocketAddr) (trusted_proxies : list IpNet)
  : Conn ProxyHeaderResult := fun src =>
  match read_exact 6 src with
  | (Err (CE_Io KUnexpectedEof), src) => (Ok (NotFound []), src)
  | (Err e, src) => (Err e, src)
  | (Panic, src) => (Panic, src)
  | (NoFuel, src) => (NoFuel, src)
  | (Ok header_buf, src) =>
      (if bool_decide (header_buf = V1_SIG) then
         let! header_buf := v1_line (HEADER_BUF - 6) header_buf in
         match v1_address header_buf with
         | Some addr =>
             if refused peer_addr trusted_proxies then ret (NotFound header_buf) else ret (Found addr)
         | None => invalid_data
         end
       else if bool_decide (header_buf = take 6 V2_SIG) then
         let! more := read_exact 10 in
         let header_buf := header_buf ++ more in
         if negb (bool_decide (take 12 header_buf = V2_SIG)) then ret (NotFound header_buf)
         else
           let addr_len := be_val (sub header_buf 14 16) in
           if 16 + addr_len >? Z.of_nat HEADER_BUF then invalid_data
           else
             let! more := read_exact (Z.to_nat addr_len) in
             let header_buf := header_buf ++ more in
             match v2_address header_buf with
             | Some addr =>
                 if refused peer_addr trusted_proxies then ret (NotFound header_buf) else ret (Found addr)
             | None => ret (NotFound header_buf)
             end
       else ret (NotFound header_buf)) src
  end.

Definition read_proxy_header (current_addr : SocketAddr) (trusted_proxies : list IpNet) : Conn SocketAddr :=
  let! header_buf := read_exact 6 in
  if bool_decide (header_buf = V1_SIG) then
    let! header_buf := v1_line (HEADER_BUF - 6) header_buf in
    match v1_address header_buf with
    | Some addr => if refused current_addr trusted_proxies then ret current_addr else ret addr
    | None => invalid_data
    end
  else if bool_decide (header_buf = take 6 V2_SIG) then
    let! more := read_exact 10 in
    let header_buf := header_buf ++ more in
    if negb (bool_decide (take 12 header_buf = V2_SIG)) then invalid_data
    else
      let addr_len := be_val (sub header_buf 14 16) in
      if 16 + addr_len >? Z.of_nat HEADER_BUF then invalid_data
      else
        let! more := read_exact (Z.to_nat addr_len) in
        let header_buf := header_buf ++ more in
        match v2_address header_buf with
        | Some addr => if refused current_addr trusted_proxies then ret current_addr else ret addr
        | None => invalid_data
        end
  else invalid_data.

End Readers.

(** Every failed read gives [None], with the bytes that were there consumed. *)
Definition peek_proxy_header : bytes -> option SocketAddr * bytes := fun src =>
  match read_exact 6 src with
  | (Ok peek_buf, src) =>
      if bool_decide (peek_buf = V1_SIG) then (None, src)
      else if bool_decide (peek_buf = take 6 V2_SIG) then
        match read_exact 10 src with
        | (Ok more, src) =>
            let peek_buf := peek_buf ++ more in
            if negb (bool_decide (take 12 peek_buf = V2_SIG)) then (None, src)
            else
              let fam := be_val (sub peek_buf 13 14) in
              let addr_len := be_val (sub peek_buf 14 16) in
              if addr_len >? 36 then (None, src)
              else
                match read_exact (Z.to_nat addr_len) src with
                | (Ok addr_buf, src) =>
                    if (fam =? 0x11) && (addr_len >=? 12) then
                      (Some (V4 (sub addr_buf 0 4), be_val (sub addr_buf 8 10)), src)
                    else if (fam =? 0x21) && (addr_len >=? 36) then
                      (Some (V6 (sub addr_buf 0 16), be_val (sub addr_buf 32 34)), src)
                    else (None, src)
                | (_, src) => (None, src)
                end
        | (_, src) => (None, src)
        end
      else (None, src)
  | (_, src) => (None, src)
  end.

(** ** Reading a stream *)

Lemma read_exact_cases n src :
  (read_exact n src = (Err (CE_Io KUnexpectedEof), []) /\ (length src < n)%nat) \/
  exists bs rest, src = bs ++ rest /\ length bs = n /\ read_exact n src = (Ok bs, rest).
Proof.
  unfold read_exact. destruct (Nat.ltb_spec (length src) n); [by left|right].
  exists (take n src), (drop n src). rewrite take_drop, length_take. split_and!; [done|lia|done].
Qed.

Lemma v1_line_cases room : forall buf src,
  (exists k rest, v1_line room buf src = (Err (CE_Io k), rest)) \/
  exists l rest, src = l ++ rest /\ (length l <= room)%nat /\ v1_line room buf src = (Ok (buf ++ l), rest).
Proof.
  induction room as [|room IH]; intros buf src; cbn [v1_line]; [left; by eexists _, _|].
  unfold bind. destruct (read_exact_cases 1 src) as [[-> _]|(b & rest & -> & Hb & ->)]; [left; by eexists _, _|].
  destruct (bool_decide_reflect (b = [x0a])) as [->|_].
  - right. exists [x0a], rest. split_and!; [done|cbn; lia|done].
  - destruct (IH (buf ++ b) rest) as [H|(l & r & -> & Hl & ->)]; [by left|right].
    exists (b ++ l), r. rewrite length_app, <- !app_assoc. split_and!; [done|lia|done].
Qed.

Lemma reads_v1_line room : forall buf l, x0a ∉ l -> (length l < room)%nat ->
  reads (v1_line room buf) (l ++ [x0a]) (buf ++ l ++ [x0a]).
Proof.
  induction room as [|room IH]; intros buf l Hl Hr; [lia|]. cbn [v1_line].
  destruct l as [|b l]; cbn [app].
  - eapply reads_bind_last; [by apply reads_exact|].
    rewrite bool_decide_true by done. apply reads_ret.
  - apply not_elem_of_cons in Hl as [Hb Hl]. cbn in Hr.
    change (b :: l ++ [x0a]) with ([b] ++ (l ++ [x0a])).
    eapply reads_bind; [by apply reads_exact|]. rewrite bool_decide_false by congruence.
    rewrite app_assoc. apply IH; [done|lia].
Qed.

(** ** Trust, losslessness and agreement *)

Ltac scan :=
  match goal with
  | |- context [read_exact ?n ?s] =>
      destruct (read_exact_cases n s) as [[-> ?]|(? & ? & -> & ? & ->)]
  | |- context [v1_line ?r ?b ?s] =>
      destruct (v1_line_cases r b s) as [(? & ? & ->)|(? & ? & -> & ? & ->)]
  | |- context [if ?b then _ else _] => destruct b eqn:?
  | |- context [match v1_address ?l with _ => _ end] => destruct (v1_address l) eqn:?
  | |- context [match v2_address ?l with _ => _ end] => destruct (v2_address l) eqn:?
  end.

Section Agreement.
Context {IpNet : Type} (contains : IpNet -> IpAddr -> bool) (peer : SocketAddr) (trusted : list IpNet).

Lemma optional_outcomes src :
  match read_proxy_header_optional contains peer trusted src with
  | (Ok (Found a), rest) =>
      refused contains peer trusted = false /\ exists header, src = header ++ rest /\ (length header <= HEADER_BUF)%nat
  | (Ok (NotFound consumed), rest) =>
      src = consumed ++ rest \/ (consumed = [] /\ rest = [] /\ (length src < 6)%nat)
  | (Err e, _) => exists k, e = CE_Io k
  | (Panic, _) | (NoFuel, _) => False
  end.
Proof.
  unfold read_proxy_header_optional, bind, invalid_data. cbv zeta. unfold HEADER_BUF in *.
  repeat scan; cbn [ret fail]; try (by eexists); try (by left; rewrite <- ?app_assoc);
    try (by right); split; try done.
  - rewrite app_assoc. eexists. split; [reflexivity|]. rewrite length_app. lia.
  - rewrite !app_assoc. eexists. split; [reflexivity|]. rewrite !length_app.
    match goal with H : (_ >? _) = false |- _ => rewrite Z.gtb_ltb, Z.ltb_ge in H end. lia.
Qed.

Lemma strict_vs_optional src :
  match read_proxy_header_optional contains peer trusted src with
  | (Ok (Found a), rest) => read_proxy_header contains peer trusted src = (Ok a, rest)
  | (Ok (NotFound _), rest) =>
      (refused contains peer trusted = true /\ read_proxy_header contains peer trusted src = (Ok peer, rest)) \/
      exists k, read_proxy_header contains peer trusted src = (Err (CE_Io k), rest)
  | r => read_proxy_header contains peer trusted src = (match r.1 with Err e => Err e | _ => Panic end, r.2)
  end.
Proof.
  unfold read_proxy_header_optional, read_proxy_header, bind, invalid_data. cbv zeta.
  repeat scan; cbn; eauto.
Qed.

End Agreement.

(** ** Headers a balancer sends *)

Definition octets (ip : IpAddr) : bytes := match ip with V4 o | V6 o => o end.
Definition family_byte (ip : IpAddr) : byte := match ip with V4 _ => x11 | V6 _ => x21 end.

(** A version 2 header: signature, version and command, family, length,
    addresses, ports and extension fields. *)
Definition v2_body (src dst : IpAddr) (sport dport : Z) (tlvs : bytes) : bytes :=
  octets src ++ octets dst ++ be_bytes 2 sport ++ be_bytes 2 dport ++ tlvs.
Definition v2_header (ver_cmd : byte) (src dst : IpAddr) (sport dport : Z) (tlvs : bytes) : bytes :=
  let body := v2_body src dst sport dport tlvs in
  V2_SIG ++ [ver_cmd; family_byte src] ++ be_bytes 2 (Z.of_nat (length body)) ++ body.

(** A version 1 line of the given fields. *)
Definition SP : bytes := [x20].
Definition v1_header (proto src dst sport dport : bytes) : bytes :=
  V1_SIG ++ (proto ++ SP ++ src ++ SP ++ dst ++ SP ++ sport ++ SP ++ dport ++ [x0d]) ++ [x0a].

(** A field of a version 1 line: no separator, no line feed. *)
Definition field_ok (f : bytes) : Prop := (x20 ∉ f) /\ (x0a ∉ f).

Lemma split_field c (f s : bytes) : c ∉ f -> split c (f ++ [c] ++ s) = f :: split c s.
Proof.
  induction f as [|b f IH]; intros Hf; cbn.
  - by rewrite decide_True.
  - apply not_elem_of_cons in Hf as [Hb Hf]. rewrite decide_False by congruence.
    cbn in IH. by rewrite IH.
Qed.

Lemma v1_header_parts proto src dst sport dport :
  Forall field_ok [proto; src; dst; sport] ->
  exists last, split x20 (v1_header proto src dst sport dport) =
    lit "PROXY" :: proto :: src :: dst :: sport :: last /\
    last <> [].
Proof.
  intros H. rewrite !Forall_cons in H. destruct H as ([? _] & [? _] & [? _] & [? _] & _). unfold v1_header, V1_SIG, SP.
  change (lit "PROXY ") with (lit "PROXY" ++ [x20]). rewrite <- !app_assoc.
  rewrite (split_field x20 (lit "PROXY")) by (apply (bool_decide_eq_true_1 (x20 ∉ lit "PROXY")); vm_compute; reflexivity).
  rewrite !split_field by done. eexists. split; [done|]. apply split_nonempty.
Qed.

Lemma v1_address_header proto src dst sport dport ip port :
  Forall field_ok [proto; src; dst; sport] -> utf8_valid (v1_header proto src dst sport dport) = true ->
  parse_ip src = Some ip -> parse_uint 65535 sport = Some port ->
  v1_address (v1_header proto src dst sport dport) = Some (ip, port).
Proof.
  intros Hf Hu Hip Hport. unfold v1_address. rewrite Hu.
  destruct (v1_header_parts proto src dst sport dport Hf) as (last & -> & Hne).
  destruct last; [done|]. cbn [length nth Nat.leb]. by rewrite Hip, Hport.
Qed.

Lemma v2_body_length src dst sport dport tlvs : length (v2_body src dst sport dport tlvs) =
  (length (octets src) + length (octets dst) + 4 + length tlvs)%nat.
Proof. unfold v2_body. rewrite !length_app, !length_be_bytes. lia. Qed.

(** The three parts of a version 2 header, as the readers take them. *)
Lemma v2_header_split c src dst sport dport tlvs :
  let body := v2_body src dst sport dport tlvs in
  v2_header c src dst sport dport tlvs = take 6 V2_SIG ++
    (drop 6 V2_SIG ++ [c; family_byte src] ++ be_bytes 2 (Z.of_nat (length body))) ++ body.
Proof. cbv zeta. unfold v2_header. cbn. done. Qed.

Lemma be_val_2 z : 0 <= z < 65536 -> be_val (be_bytes 2 z) = z.
Proof. intros Hz. rewrite be_val_bytes. apply Z.mod_small. exact Hz. Qed.

Lemma sub_at (buf x y z : bytes) a b :
  buf = x ++ y ++ z -> length x = a -> (a + length y = b)%nat -> sub buf a b = y.
Proof. intros -> <- <-. unfold sub. rewrite drop_app_length, Nat.add_sub_swap, Nat.sub_diag by lia. apply take_app_length. Qed.

(** What the readers make of a version 2 header. *)
Lemma v2_address_header c src dst sport dport tlvs :
  ip_ok src -> length (octets dst) = length (octets src) -> fits_u 16 sport ->
  16 + Z.of_nat (length (v2_body src dst sport dport tlvs)) <= Z.of_nat HEADER_BUF ->
  let header := v2_header c src dst sport dport tlvs in
  be_val (sub header 14 16) = Z.of_nat (length (v2_body src dst sport dport tlvs)) /\
  v2_address header = Some (src, sport).
Proof.
  intros Hs Hd Hp Hlen. cbv zeta. pose proof (v2_body_length src dst sport dport tlvs) as Hb.
  set (header := v2_header _ _ _ _ _ _). set (len := Z.of_nat (length _)) in *.
  change (Z.of_nat HEADER_BUF) with 512 in Hlen.
  assert (Hl : be_val (sub header 14 16) = len).
  { rewrite (sub_at header (V2_SIG ++ [c; family_byte src]) (be_bytes 2 len) (v2_body src dst sport dport tlvs)) by
      (rewrite ?length_be_bytes; done). apply be_val_2. lia. }
  assert (Ho : sub header 16 (16 + length (octets src)) = octets src).
  { apply (sub_at _ (V2_SIG ++ [c; family_byte src] ++ be_bytes 2 len) _
      (octets dst ++ be_bytes 2 sport ++ be_bytes 2 dport ++ tlvs)); done. }
  assert (Hq : be_val (sub header (16 + 2 * length (octets src)) (18 + 2 * length (octets src))) = sport).
  { rewrite (sub_at _ (V2_SIG ++ [c; family_byte src] ++ be_bytes 2 len ++ octets src ++ octets dst)
      (be_bytes 2 sport) (be_bytes 2 dport ++ tlvs)); [by apply be_val_2| |rewrite !length_app; cbn; lia|cbn; lia].
    subst header. unfold v2_header, v2_body. cbv zeta. by rewrite <- !app_assoc. }
  split; [done|]. unfold v2_address. rewrite Hl.
  rewrite (sub_at header (V2_SIG ++ [c]) [family_byte src] (be_bytes 2 len ++ v2_body src dst sport dport tlvs) 13 14) by done.
  destruct src as [o|o]; cbn in Hs, Hd; cbn [family_byte octets] in *; rewrite Hs in *.
  - rewrite (proj2 (Z.geb_le len 12)) by lia. change (be_val [x11]) with 0x11. cbn in Ho, Hq |- *. by rewrite Ho, Hq.
  - rewrite (proj2 (Z.geb_le len 36)) by lia. change (be_val [x21]) with 0x21. cbn in Ho, Hq |- *. by rewrite Ho, Hq.
Qed.

Section Understood.
Context {IpNet : Type} (contains : IpNet -> IpAddr -> bool) (peer : SocketAddr) (trusted : list IpNet).
Hypothesis accepted : refused contains peer trusted = false.

Lemma optional_v1 proto src dst sport dport ip port rest :
  Forall field_ok [proto; src; dst; sport; dport] ->
  utf8_valid (v1_header proto src dst sport dport) = true ->
  (length (v1_header proto src dst sport dport) <= HEADER_BUF)%nat ->
  parse_ip src = Some ip -> parse_uint 65535 sport = Some port ->
  read_proxy_header_optional contains peer trusted (v1_header proto src dst sport dport ++ rest) =
    (Ok (Found (ip, port)), rest).
Proof using accepted.
  intros Hf Hu Hlen Hip Hport. rewrite !Forall_cons in Hf. destruct Hf as (H1 & H2 & H3 & H4 & [_ H5] & _).
  pose proof (v1_address_header proto src dst sport dport ip port ltac:(by rewrite !Forall_cons) Hu Hip Hport) as Ha.
  unfold v1_header in *. set (line := proto ++ _) in *.
  assert (Hline : x0a ∉ line).
  { subst line. unfold SP. rewrite !not_elem_of_app. destruct H1, H2, H3, H4.
    split_and!; try done; by apply (bool_decide_eq_true_1 _). }
  unfold read_proxy_header_optional. rewrite <- app_assoc, (reads_exact V1_SIG 6 eq_refl).
  rewrite bool_decide_true by done. unfold bind. rewrite !length_app in Hlen. cbn [length] in Hlen.
  rewrite reads_v1_line; [|done|change HEADER_BUF with 512%nat in *; change (length V1_SIG) with 6%nat in Hlen; lia].
  rewrite Ha, accepted. done.
Qed.

Lemma v2_scan c src dst sport dport tlvs rest :
  ip_ok src -> length (octets dst) = length (octets src) -> fits_u 16 sport ->
  16 + Z.of_nat (length (v2_body src dst sport dport tlvs)) <= Z.of_nat HEADER_BUF ->
  let body := v2_body src dst sport dport tlvs in
  let first := drop 6 V2_SIG ++ [c; family_byte src] ++ be_bytes 2 (Z.of_nat (length body)) in
  read_exact 6 (v2_header c src dst sport dport tlvs ++ rest) = (Ok (take 6 V2_SIG), first ++ body ++ rest) /\
  read_exact 10 (first ++ body ++ rest) = (Ok first, body ++ rest) /\
  take 12 (take 6 V2_SIG ++ first) = V2_SIG /\
  be_val (sub (take 6 V2_SIG ++ first) 14 16) = Z.of_nat (length body) /\
  read_exact (length body) (body ++ rest) = (Ok body, rest).
Proof using.
  intros Hs Hd Hp Hlen. cbv zeta. set (body := v2_body _ _ _ _ _) in *.
  set (first := drop 6 V2_SIG ++ _). change (Z.of_nat HEADER_BUF) with 512 in Hlen. split_and!.
  - rewrite v2_header_split. cbv zeta. fold body first. rewrite <- !app_assoc. by apply reads_exact.
  - by apply reads_exact.
  - done.
  - rewrite (sub_at _ (V2_SIG ++ [c; family_byte src]) (be_bytes 2 (Z.of_nat (length body))) []); [|done..].
    apply be_val_2. lia.
  - by apply reads_exact.
Qed.

Lemma optional_v2 c src dst sport dport tlvs rest :
  ip_ok src -> length (octets dst) = length (octets src) -> fits_u 16 sport ->
  16 + Z.of_nat (length (v2_body src dst sport dport tlvs)) <= Z.of_nat HEADER_BUF ->
  read_proxy_header_optional contains peer trusted (v2_header c src dst sport dport tlvs ++ rest) =
    (Ok (Found (src, sport)), rest).
Proof using accepted.
  intros Hs Hd Hp Hlen. destruct (v2_scan c src dst sport dport tlvs rest Hs Hd Hp Hlen) as (H6 & H10 & Hsig & Hl & Hbody).
  pose proof (v2_address_header c src dst sport dport tlvs Hs Hd Hp Hlen) as [_ Ha].
  rewrite v2_header_split in Ha. unfold read_proxy_header_optional. rewrite H6.
  rewrite bool_decide_false, bool_decide_true by done. unfold bind. rewrite H10. cbv zeta.
  rewrite bool_decide_true by done. cbn [negb]. rewrite Hl, Z.gtb_ltb, (proj2 (Z.ltb_ge _ _)) by lia.
  rewrite Nat2Z.id, Hbody. replace (v2_address _) with (Some (src, sport)). by rewrite accepted.
Qed.

End Understood.

(** The addresses balancers announce are understood: from an accepted peer
    (a trusted one, or any when no proxy is listed) a version 1 line with a
    readable source address and port, and a version 2 header for either family
    with any extension fields that fit the 512-byte buffer, give exactly that
    address, and leave the stream at the first byte behind the header, with the
    optional and with the strict reader. *)
Theorem proxy_headers_understood {IpNet} (contains : IpNet -> IpAddr -> bool)
    (peer : SocketAddr) (trusted : list IpNet) (rest : bytes) :
  trusted = [] \/ is_trusted contains peer.1 trusted = true ->
  (forall proto src dst sport dport ip port,
     Forall field_ok [proto; src; dst; sport; dport] ->
     utf8_valid (v1_header proto src dst sport dport) = true ->
     (length (v1_header proto src dst sport dport) <= HEADER_BUF)%nat ->
     parse_ip src = Some ip -> parse_uint 65535 sport = Some port ->
     read_proxy_header_optional contains peer trusted (v1_header proto src dst sport dport ++ rest) =
       (Ok (Found (ip, port)), rest) /\
     read_proxy_header contains peer trusted (v1_header proto src dst sport dport ++ rest) = (Ok (ip, port), rest)) /\
  (forall ver_cmd src dst sport dport tlvs,
     ip_ok src -> length (octets dst) = length (octets src) -> fits_u 16 sport ->
     16 + Z.of_nat (length (v2_body src dst sport dport tlvs)) <= Z.of_nat HEADER_BUF ->
     read_proxy_header_optional contains peer trusted (v2_header ver_cmd src dst sport dport tlvs ++ rest) =
       (Ok (Found (src, sport)), rest) /\
     read_proxy_header contains peer trusted (v2_header ver_cmd src dst sport dport tlvs ++ rest) = (Ok (src, sport), rest)).
Proof.
  intros Ht. assert (Hacc : refused contains peer trusted = false).
  { unfold refused. destruct Ht as [->| ->]; [done|]. by rewrite andb_false_r. }
  assert (Hboth : forall s a, read_proxy_header_optional contains peer trusted s = (Ok (Found a), rest) ->
    read_proxy_header_optional contains peer trusted s = (Ok (Found a), rest) /\
    read_proxy_header contains peer trusted s = (Ok a, rest)).
  { intros s a Hs. split; [done|]. pose proof (strict_vs_optional contains peer trusted s) as H. by rewrite Hs in H. }
  split; intros; apply Hboth; [by apply optional_v1|by apply optional_v2].
Qed.

Lemma proxy_headers_understood_witness :
  read_proxy_header (IpNet := unit) (fun _ _ => true) (V4 [x0a; x00; x00; x01], 4000) [tt]
    (v1_header (lit "TCP4") (lit "192.168.0.1") (lit "192.168.0.11") (lit "56324") (lit "443") ++ lit "payload")
  = (Ok (V4 [xc0; xa8; x00; x01], 56324), lit "payload").
Proof.
  apply (proxy_headers_understood (IpNet := unit) (fun _ _ => true) (V4 [x0a; x00; x00; x01], 4000) [tt] (lit "payload")).
  - by right.
  - rewrite !Forall_cons. split_and!; try constructor; apply (bool_decide_eq_true_1 _); vm_compute; reflexivity.
  - vm_compute. reflexivity.
  - apply Nat.leb_le. vm_compute. reflexivity.
  - vm_compute. reflexivity.
  - vm_compute. reflexivity.
Defined.

(** C24: no header is believed from a peer that is not trusted, and nothing is
    lost: on any stream the optional reader returns; an address it reports comes
    from an accepted peer and from a header of at most 512 bytes in front of
    what is left; the bytes it hands back and what is left are the stream it was
    given, unless that ended within six bytes, which are lost.  The strict reader
    consumes the same bytes, reports the same addresses, and otherwise only the
    peer's own address, when the peer is not trusted. *)
Theorem proxy_trust {IpNet} (contains : IpNet -> IpAddr -> bool)
    (peer : SocketAddr) (trusted : list IpNet) (src : bytes) :
  match read_proxy_header_optional contains peer trusted src with
  | (Ok (Found a), rest) =>
      (trusted = [] \/ is_trusted contains peer.1 trusted = true) /\
      (exists header, src = header ++ rest /\ (length header <= HEADER_BUF)%nat) /\
      read_proxy_header contains peer trusted src = (Ok a, rest)
  | (Ok (NotFound consumed), rest) =>
      (src = consumed ++ rest \/ (consumed = [] /\ rest = [] /\ (length src < 6)%nat)) /\
      ((trusted <> [] /\ is_trusted contains peer.1 trusted = false /\
          read_proxy_header contains peer trusted src = (Ok peer, rest)) \/
       exists k, read_proxy_header contains peer trusted src = (Err (CE_Io k), rest))
  | (Err e, rest) => (exists k, e = CE_Io k) /\ read_proxy_header contains peer trusted src = (Err e, rest)
  | (Panic, _) | (NoFuel, _) => False
  end.
Proof.
  pose proof (optional_outcomes contains peer trusted src) as H1.
  pose proof (strict_vs_optional contains peer trusted src) as H2. unfold refused in *.
  destruct (read_proxy_header_optional contains peer trusted src) as [[[a|consumed]|e| |] rest]; cbn in H2; try done.
  - destruct H1 as [Hr Hh]. split_and!; [|done..]. destruct trusted; [by left|right]. by apply negb_false_iff in Hr.
  - split; [done|]. destruct H2 as [[Hr H2]|H2]; [left|by right].
    destruct trusted; [done|]. apply andb_true_iff in Hr as [_ Hr]. apply negb_true_iff in Hr. done.
Qed.

Lemma sub_skip (x y : bytes) n a b : length x = n -> sub (x ++ y) (n + a) (n + b) = sub y a b.
Proof.
  intros <-. unfold sub. rewrite drop_app_add. f_equal. lia.
Qed.

(** A bare peek reports an address only where the strict reader, with no proxy
    listed, reads the same one and stops at the same byte. *)
Theorem peek_agrees {IpNet} (contains : IpNet -> IpAddr -> bool) (peer a : SocketAddr) (src rest : bytes) :
  peek_proxy_header src = (Some a, rest) -> read_proxy_header contains peer [] src = (Ok a, rest).
Proof.
  unfold peek_proxy_header, read_proxy_header, bind, invalid_data. cbv zeta.
  destruct (read_exact_cases 6 src) as [[-> ?]|(h & s1 & -> & Hh & ->)]; [done|].
  destruct (bool_decide (h = V1_SIG)); [done|]. destruct (bool_decide (h = _)); [|done].
  destruct (read_exact_cases 10 s1) as [[-> ?]|(h' & s2 & -> & Hh' & ->)]; [done|].
  destruct (negb _); [done|]. set (len := be_val (sub (h ++ h') 14 16)).
  assert (Hlen : 0 <= len). { pose proof (be_val_range (sub (h ++ h') 14 16)). lia. }
  change (Z.of_nat HEADER_BUF) with 512.
  destruct (Z.gtb_spec len 36); [done|]. destruct (Z.gtb_spec (16 + len) 512); [lia|].
  destruct (read_exact_cases (Z.to_nat len) s2) as [[-> ?]|(b & s3 & -> & Hb & ->)]; [done|].
  assert (Hl : length (h ++ h') = 16%nat) by (rewrite length_app; lia).
  assert (Hpre : forall i j, (j <= 16)%nat -> sub ((h ++ h') ++ b) i j = sub (h ++ h') i j).
  { intros i j Hj. unfold sub. destruct (decide (i <= 16)%nat).
    - rewrite drop_app_le, take_app_le by (rewrite ?length_drop; lia). done.
    - replace (j - i)%nat with 0%nat by lia. done. }
  unfold v2_address. rewrite !Hpre by lia. fold len.
  rewrite (sub_skip _ b 16 0 4 Hl : sub _ 16 20 = _), (sub_skip _ b 16 8 10 Hl : sub _ 24 26 = _),
    (sub_skip _ b 16 0 16 Hl : sub _ 16 32 = _), (sub_skip _ b 16 32 34 Hl : sub _ 48 50 = _).
  destruct (_ && _); [by intros [= <- <-]|]. destruct (_ && _); [by intros [= <- <-]|done].
Qed.
