(* ===== verification/Cluster.v ===== *)
(** * Clustering

    crates/cluster/src: node health (node.rs), the peer registry (discovery.rs),
    leader election (coordination.rs) and node selection (load_balancer.rs).  The
    [DashMap] of peers is the list of its entries in iteration order, ids
    distinct.  Time is a number of milliseconds and an argument of what reads the
    clock; what Redis answers, fresh identifiers and the textual form of a UUID
    are arguments too. *)
From Stdlib Require Import ZArith Lia Strings.Byte.
From stdpp Require Import base list numbers strings.
From S2P Require Import Prelude Buf.
Local Open Scope Z_scope.

(** ** Nodes *)

Inductive NodeRole := Leader | Follower | Standalone.
Inductive NodeState := Starting | Ready | Degraded | Draining | ShuttingDown.

Record NodeCapabilities := mkCaps {
  max_players : Z;
  supports_protocol_versions : list Z;
  supports_mods : bool }.

(** [address] is opaque: nothing here looks into it. *)
Record ClusterNode := mkNode {
  id : bytes;
  address : bytes;
  role : NodeRole;
  state : NodeState;
  player_count : Z;
  last_heartbeat : Z;
  capabilities : NodeCapabilities }.

Definition seconds (n : Z) : Z := 1000 * n.

Definition ClusterNode_new (now : Z) (fresh address : bytes) (role : NodeRole) (max_players : Z) : ClusterNode :=
  mkNode fresh address role Starting 0 now
    (mkCaps max_players [47; 107; 340; 393; 401; 477; 573; 759; 761; 762; 763] true).

Definition node_is_healthy (now : Z) (n : ClusterNode) : bool :=
  (now - last_heartbeat n <? seconds 5) && match state n with Ready | Degraded => true | _ => false end.

Definition can_accept_players (now : Z) (n : ClusterNode) : bool :=
  node_is_healthy now n && (player_count n <? max_players (capabilities n)).

Definition set_role (r : NodeRole) (n : ClusterNode) : ClusterNode :=
  mkNode (id n) (address n) r (state n) (player_count n) (last_heartbeat n) (capabilities n).
Definition beat (now players : Z) (n : ClusterNode) : ClusterNode :=
  mkNode (id n) (address n) (role n) (state n) players now (capabilities n).

(** ** The peer registry *)

Record ServiceDiscovery := mkDiscovery { nodes : list ClusterNode; discovery_local : bytes }.

Fixpoint insert_node (n : ClusterNode) (l : list ClusterNode) : list ClusterNode :=
  match l with
  | [] => [n]
  | m :: l' => if decide (id m = id n) then n :: l' else m :: insert_node n l'
  end.

Definition register_node (n : ClusterNode) (d : ServiceDiscovery) : ServiceDiscovery :=
  mkDiscovery (insert_node n (nodes d)) (discovery_local d).

Definition unregister_node (node_id : bytes) (d : ServiceDiscovery) : ServiceDiscovery :=
  mkDiscovery (filter (fun n => id n <> node_id) (nodes d)) (discovery_local d).

Definition update_heartbeat (now : Z) (node_id : bytes) (players : Z) (d : ServiceDiscovery) : ServiceDiscovery :=
  mkDiscovery (map (fun n => if decide (id n = node_id) then beat now players n else n) (nodes d)) (discovery_local d).

Definition find_node (node_id : bytes) (l : list ClusterNode) : option ClusterNode :=
  head (filter (fun n => id n = node_id) l).

Definition get_node (node_id : bytes) (d : ServiceDiscovery) : option ClusterNode := find_node node_id (nodes d).
Definition get_healthy_nodes (now : Z) (d : ServiceDiscovery) : list ClusterNode :=
  filter (fun n => node_is_healthy now n) (nodes d).
Definition get_available_nodes (now : Z) (d : ServiceDiscovery) : list ClusterNode :=
  filter (fun n => can_accept_players now n) (nodes d).
Definition get_local_node (d : ServiceDiscovery) : option ClusterNode := get_node (discovery_local d) d.
Definition get_all_nodes (d : ServiceDiscovery) : list ClusterNode := nodes d.

Definition health_check (now : Z) (d : ServiceDiscovery) : ServiceDiscovery :=
  let to_remove := map id (filter (fun n => (now - last_heartbeat n >? seconds 10) = true) (nodes d)) in
  fold_left (fun d i => unregister_node i d) to_remove d.

(** ** Leader election *)

(** What one election hears from Redis, when it is configured and reachable:
    the [GET], the lease renewal, the [SET NX EX]; [None] is a failed command. *)
Record RedisReply := mkReply { r_get : option bytes; r_eval : option Z; r_setnx : option bool }.

Record ClusterCoordinator := mkCoordinator {
  discovery : ServiceDiscovery;
  leader_id : option bytes;
  local_node_id : bytes }.

Section Election.
(** [Uuid::to_string] and [Uuid::parse_str]. *)
Context (uuid_to_string : bytes -> bytes) (uuid_parse : bytes -> option bytes).

(** The leader the lock names. *)
Definition lock_leader (local : bytes) (reply : option RedisReply) : option bytes :=
  match reply with
  | None => None
  | Some r =>
      if bool_decide (r_get r = Some (uuid_to_string local)) then
        if default 0 (r_eval r) =? 1 then Some local else None
      else if default false (r_setnx r) then Some local
      else match r_get r with Some s => uuid_parse s | None => None end
  end.

(** [min_by_key(|n| n.id)]: UUIDs are ordered as their bytes. *)
Definition lowest (l : list ClusterNode) : option ClusterNode := min_by_key (fun n => be_val (id n)) l.

(** The elected node among the healthy ones; both [expect]s are reached only
    with a nonempty list. *)
Definition choose_leader (lock : option bytes) (healthy : list ClusterNode) : option ClusterNode :=
  match lock with
  | Some i => match find_node i healthy with Some n => Some n | None => lowest healthy end
  | None => lowest healthy
  end.

(** The loop over [get_all_nodes()]. *)
Definition assign_roles (leader : bytes) (d : ServiceDiscovery) : ServiceDiscovery :=
  fold_left (fun d n => register_node (set_role (if decide (id n = leader) then Leader else Follower) n) d)
    (get_all_nodes d) d.

Definition elect_leader (now : Z) (reply : option RedisReply) (c : ClusterCoordinator)
  : outcome Empty_set unit * ClusterCoordinator :=
  match get_healthy_nodes now (discovery c) with
  | [] => (Ok tt, mkCoordinator (discovery c) None (local_node_id c))
  | healthy =>
      match choose_leader (lock_leader (local_node_id c) reply) healthy with
      | None => (Panic, c)
      | Some leader =>
          (Ok tt, mkCoordinator (assign_roles (id leader) (discovery c)) (Some (id leader)) (local_node_id c))
      end
  end.

Definition is_leader (c : ClusterCoordinator) : bool := bool_decide (leader_id c = Some (local_node_id c)).

Definition get_leader (c : ClusterCoordinator) : option ClusterNode :=
  match leader_id c with Some i => get_node i (discovery c) | None => None end.

Definition with_discovery (f : ServiceDiscovery -> ServiceDiscovery) (c : ClusterCoordinator) : ClusterCoordinator :=
  mkCoordinator (f (discovery c)) (leader_id c) (local_node_id c).

Definition initialize (now : Z) (fresh local_address : bytes) (max_players : Z) (reply : option RedisReply)
    (c : ClusterCoordinator) : outcome Empty_set unit * ClusterCoordinator :=
  elect_leader now reply (with_discovery (register_node (ClusterNode_new now fresh local_address Standalone max_players)) c).

Definition step_down (now : Z) (reply : option RedisReply) (c : ClusterCoordinator)
  : outcome Empty_set unit * ClusterCoordinator :=
  if is_leader c then elect_leader now reply (mkCoordinator (discovery c) None (local_node_id c)) else (Ok tt, c).

Definition on_node_join (now : Z) (reply : option RedisReply) (n : ClusterNode) (c : ClusterCoordinator)
  : outcome Empty_set unit * ClusterCoordinator :=
  elect_leader now reply (with_discovery (register_node n) c).

Definition on_node_leave (now : Z) (reply : option RedisReply) (node_id : bytes) (c : ClusterCoordinator)
  : outcome Empty_set unit * ClusterCoordinator :=
  let c := with_discovery (unregister_node node_id) c in
  match get_leader c with
  | Some leader => if decide (id leader = node_id) then elect_leader now reply c else (Ok tt, c)
  | None => (Ok tt, c)
  end.

End Election.

(** ** Load balancing *)

Inductive LoadBalancingStrategy := RoundRobin | LeastConnections | Random.

(** [timestamp] is the clock in seconds, [hash] what the hasher makes of a fresh
    UUID; both index the list modulo its length. *)
Definition select_node (now timestamp hash : Z) (strategy : LoadBalancingStrategy) (protocol_version : Z)
    (d : ServiceDiscovery) : option ClusterNode :=
  let compatible := filter (fun n => protocol_version ∈ supports_protocol_versions (capabilities n))
                      (get_available_nodes now d) in
  match compatible with
  | [] => None
  | _ =>
      let len := Z.of_nat (length compatible) in
      match strategy with
      | RoundRobin => compatible !! Z.to_nat (wrapu 64 timestamp mod len)
      | LeastConnections => min_by_key player_count compatible
      | Random => compatible !! Z.to_nat (wrapu 64 hash mod len)
      end
  end.

(** ** The registry keeps ids distinct *)

Abbreviation ids l := (map id l).

Lemma ids_insert n l : ids (insert_node n l) = if decide (id n ∈ ids l) then ids l else ids l ++ [id n].
Proof.
  induction l as [|m l IH]; cbn; [by rewrite decide_False by apply not_elem_of_nil|].
  destruct (decide (id m = id n)) as [E|E].
  - rewrite decide_True by (rewrite E; constructor). cbn. by rewrite E.
  - cbn. rewrite IH. destruct (decide (id n ∈ ids l)).
    + by rewrite decide_True by (by constructor).
    + rewrite decide_False; [done|]. by rewrite not_elem_of_cons; split; [congruence|].
Qed.

Lemma insert_distinct n l : NoDup (ids l) -> NoDup (ids (insert_node n l)).
Proof.
  intros H. rewrite ids_insert. destruct (decide _) as [|Hn]; [done|].
  apply NoDup_app. split_and!; [done| |apply NoDup_singleton].
  intros x Hx ->%list_elem_of_singleton. done.
Qed.

Lemma filter_distinct (P : ClusterNode -> Prop) `{!forall n, Decision (P n)} l : NoDup (ids l) -> NoDup (ids (filter P l)).
Proof.
  induction l as [|n l IH]; [done|]. intros [Hn Hl]%NoDup_cons. rewrite filter_cons.
  destruct (decide (P n)); [|by apply IH]. cbn. apply NoDup_cons. split; [|by apply IH].
  intros (m & Hm & Hin)%list_elem_of_fmap. apply Hn. apply list_elem_of_filter in Hin as [_ Hin].
  rewrite Hm. by apply list_elem_of_fmap_2.
Qed.

Lemma find_node_spec i l n : NoDup (ids l) -> find_node i l = Some n <-> n ∈ l /\ id n = i.
Proof.
  unfold find_node. induction l as [|m l IH]; cbn [map].
  - intros _. split; [done|]. by intros [?%not_elem_of_nil _].
  - intros [Hm Hl]%NoDup_cons. rewrite filter_cons. destruct (decide (id m = i)) as [E|E].
    + cbn. split; [intros [= <-]; split; [constructor|done]|]. intros [[->|Hin]%elem_of_cons Hi]; [done|].
      destruct Hm. rewrite E, <- Hi. by apply list_elem_of_fmap_2.
    + rewrite IH by done. rewrite elem_of_cons. split; [tauto|]. intros [[->|?] ?]; done.
Qed.

Lemma find_node_none i l : NoDup (ids l) -> find_node i l = None -> forall n, n ∈ l -> id n <> i.
Proof.
  intros Hd Hf n Hn Hi. assert (find_node i l = Some n) by (by apply find_node_spec). congruence.
Qed.

(** ** Role assignment *)

Definition role_for (leader : bytes) (n : ClusterNode) : NodeRole := if decide (id n = leader) then Leader else Follower.

Lemma insert_in_place (f : ClusterNode -> ClusterNode) l1 n l2 :
  (forall m, id (f m) = id m) -> id n ∉ ids l1 ->
  insert_node (f n) (map f l1 ++ n :: l2) = map f l1 ++ f n :: l2.
Proof.
  intros Hf. induction l1 as [|m l1 IH]; cbn; intros Hn.
  - by rewrite decide_True by (by rewrite Hf).
  - apply not_elem_of_cons in Hn as [Hm Hn]. rewrite decide_False by (rewrite !Hf; congruence). by rewrite IH.
Qed.

Lemma register_all (f : ClusterNode -> ClusterNode) loc l2 : forall l1,
  (forall m, id (f m) = id m) -> NoDup (ids (l1 ++ l2)) ->
  fold_left (fun d n => register_node (f n) d) l2 (mkDiscovery (map f l1 ++ l2) loc) =
    mkDiscovery (map f (l1 ++ l2)) loc.
Proof.
  induction l2 as [|n l2 IH]; intros l1 Hf Hd; cbn [fold_left]; [by rewrite !app_nil_r|].
  unfold register_node at 2. cbn [nodes discovery_local].
  assert (Hn : id n ∉ ids l1).
  { rewrite map_app in Hd. apply NoDup_app in Hd as (_ & Hd & _).
    intros Hin. apply (Hd _ Hin). constructor. }
  rewrite insert_in_place by done.
  replace (map f l1 ++ f n :: l2) with (map f (l1 ++ [n]) ++ l2) by (by rewrite map_app, <- app_assoc).
  rewrite IH by (done || by rewrite <- app_assoc). by rewrite <- app_assoc.
Qed.

Lemma assign_roles_map leader d : NoDup (ids (nodes d)) ->
  assign_roles leader d = mkDiscovery (map (fun n => set_role (role_for leader n) n) (nodes d)) (discovery_local d).
Proof.
  intros Hd. unfold assign_roles, get_all_nodes. destruct d as [l loc]. cbn [nodes] in *.
  apply (register_all (fun n => set_role (role_for leader n) n) loc l []); done.
Qed.

(** ** The choice *)

Lemma lowest_spec l n : lowest l = Some n -> n ∈ l /\ forall m, m ∈ l -> be_val (id n) <= be_val (id m).
Proof.
  unfold lowest. intros (l1 & l2 & -> & H1 & H2)%min_by_key_spec. split; [apply elem_of_app; right; constructor|].
  rewrite Forall_forall in H1, H2. intros m. rewrite elem_of_app, elem_of_cons.
  intros [Hm|[->|Hm]]; [specialize (H1 m Hm); lia|lia|apply H2, Hm].
Qed.

(** The node a lock value names among [l], if it names one. *)
Definition named (lock : option bytes) (l : list ClusterNode) (n : ClusterNode) : Prop :=
  n ∈ l /\ lock = Some (id n).

Lemma choose_leader_spec lock l : NoDup (ids l) -> l <> [] ->
  exists n, choose_leader lock l = Some n /\ n ∈ l /\
    (forall m, named lock l m -> n = m) /\
    ((forall m, ~ named lock l m) -> forall m, m ∈ l -> be_val (id n) <= be_val (id m)).
Proof.
  intros Hd Hne. destruct (min_by_key_nonempty (fun n => be_val (id n)) l Hne) as [w Hw].
  pose proof (lowest_spec l w Hw) as [Hwl Hmin].
  unfold choose_leader. change (lowest l) with (min_by_key (fun n => be_val (id n)) l). rewrite Hw.
  destruct lock as [i|]; [destruct (find_node i l) as [n|] eqn:E|].
  - apply find_node_spec in E as [Hn Hi]; [|done]. exists n. split_and!; [done|done| |].
    + intros m [Hm [= ->]]. assert (find_node (id m) l = Some n) by (by apply find_node_spec).
      assert (find_node (id m) l = Some m) by (by apply find_node_spec). congruence.
    + intros Hno. destruct (Hno n). by split; [|rewrite Hi].
  - exists w. split_and!; [done|done| |done]. intros m [Hm [= ->]]. by destruct (find_node_none _ l Hd E m Hm).
  - exists w. split_and!; [done|done| |done]. by intros m [_ [=]].
Qed.

(** ** Elections *)

Lemma be_val_id_inj (n m : ClusterNode) : length (id n) = 16%nat -> length (id m) = 16%nat ->
  be_val (id n) = be_val (id m) -> id n = id m.
Proof. intros Hn Hm. apply be_val_inj. congruence. Qed.

Lemma choose_leader_perm lock l1 l2 n1 n2 : l1 ≡ₚ l2 -> NoDup (ids l1) -> l1 <> [] ->
  Forall (fun n => length (id n) = 16%nat) l1 ->
  choose_leader lock l1 = Some n1 -> choose_leader lock l2 = Some n2 -> id n1 = id n2.
Proof.
  intros Hp Hd Hne H16 H1 H2. rewrite Forall_forall in H16.
  assert (Hd2 : NoDup (ids l2)) by (by rewrite <- Hp).
  assert (Hne2 : l2 <> []) by (intros ->; by apply Permutation_nil_r in Hp).
  destruct (choose_leader_spec lock l1 Hd Hne) as (m1 & Hm1 & Hin1 & Hlock1 & Hlow1).
  destruct (choose_leader_spec lock l2 Hd2 Hne2) as (m2 & Hm2 & Hin2 & Hlock2 & Hlow2). simplify_eq.
  assert (Hnamed : forall m, named lock l1 m <-> named lock l2 m) by (intros m; unfold named; by rewrite Hp).
  destruct lock as [i|]; [destruct (find_node i l1) as [m|] eqn:E|].
  - apply find_node_spec in E as [Hm Hi]; [|done]. assert (Hnm : named (Some i) l1 m) by (by split; [|rewrite Hi]).
    rewrite (Hlock1 m Hnm), (Hlock2 m (proj1 (Hnamed m) Hnm)). done.
  - assert (Hno : forall m, ~ named (Some i) l1 m).
    { intros m [Hm [= ->]]. by destruct (find_node_none _ l1 Hd E m Hm). }
    assert (Hno2 : forall m, ~ named (Some i) l2 m) by (intros m; rewrite <- Hnamed; apply Hno).
    rewrite <- Hp in Hin2. apply be_val_id_inj; [by apply H16..|].
    specialize (Hlow1 Hno n2 Hin2). rewrite Hp in Hin1. specialize (Hlow2 Hno2 n1 Hin1). lia.
  - assert (Hno : forall l m, ~ named None l m) by (by intros l m [_ [=]]).
    pose proof Hin2 as Hin2'. rewrite <- Hp in Hin2'. pose proof Hin1 as Hin1'. rewrite Hp in Hin1'.
    apply be_val_id_inj; [by apply H16..|].
    specialize (Hlow1 (Hno _) n2 Hin2'). specialize (Hlow2 (Hno _) n1 Hin1'). lia.
Qed.

Section Elected.
Context (to_string : bytes -> bytes) (parse : bytes -> option bytes).

Lemma elect_leader_spec now reply c : NoDup (ids (nodes (discovery c))) ->
  let healthy := get_healthy_nodes now (discovery c) in
  let lock := lock_leader to_string parse (local_node_id c) reply in
  (healthy = [] /\ elect_leader to_string parse now reply c = (Ok tt, mkCoordinator (discovery c) None (local_node_id c))) \/
  exists n, choose_leader lock healthy = Some n /\ n ∈ healthy /\
    (forall m, named lock healthy m -> n = m) /\
    ((forall m, ~ named lock healthy m) -> forall m, m ∈ healthy -> be_val (id n) <= be_val (id m)) /\
    elect_leader to_string parse now reply c =
      (Ok tt, mkCoordinator (mkDiscovery (map (fun m => set_role (role_for (id n) m) m) (nodes (discovery c)))
                (discovery_local (discovery c))) (Some (id n)) (local_node_id c)).
Proof.
  intros Hd. cbv zeta. unfold elect_leader.
  destruct (get_healthy_nodes now (discovery c)) as [|h hs] eqn:E; [by left|right].
  assert (Hdh : NoDup (ids (h :: hs))) by (rewrite <- E; by apply filter_distinct).
  destruct (choose_leader_spec (lock_leader to_string parse (local_node_id c) reply) (h :: hs) Hdh ltac:(done))
    as (n & -> & Hn & Hl & Hm).
  exists n. rewrite assign_roles_map by done. done.
Qed.

End Elected.

Lemma ids_roles leader l : ids (map (fun m => set_role (role_for leader m) m) l) = ids l.
Proof. rewrite map_map. by apply map_ext. Qed.

(** C40: an election always ends, without reaching an [expect] that would panic.
    With no healthy peer there is no leader and nothing changes.  Otherwise the
    leader is a healthy peer: the one the Redis lock names, if it names one, else
    the one with the lowest id; it alone gets the role of leader, all others
    become followers, and nothing else about them changes.  Two coordinators that
    see the same peers, in any order, and the same lock elect the same leader. *)
Theorem leader_election (to_string : bytes -> bytes) (parse : bytes -> option bytes) (now : Z)
    (reply : option RedisReply) (c : ClusterCoordinator) : NoDup (ids (nodes (discovery c))) ->
  let healthy := get_healthy_nodes now (discovery c) in
  let lock := lock_leader to_string parse (local_node_id c) reply in
  let '(res, c') := elect_leader to_string parse now reply c in
  res = Ok tt /\
  match leader_id c' with
  | None => healthy = [] /\ discovery c' = discovery c
  | Some l =>
      (exists n, n ∈ healthy /\ id n = l /\ get_leader c' = Some (set_role Leader n)) /\
      (forall m, m ∈ healthy -> lock = Some (id m) -> l = id m) /\
      ((forall m, m ∈ healthy -> lock <> Some (id m)) -> forall m, m ∈ healthy -> be_val l <= be_val (id m)) /\
      nodes (discovery c') = map (fun n => set_role (if decide (id n = l) then Leader else Follower) n) (nodes (discovery c))
  end /\
  (forall reply2 c2, nodes (discovery c) ≡ₚ nodes (discovery c2) ->
     Forall (fun n => length (id n) = 16%nat) (nodes (discovery c)) ->
     lock_leader to_string parse (local_node_id c2) reply2 = lock ->
     leader_id (elect_leader to_string parse now reply2 c2).2 = leader_id c').
Proof.
  intros Hd. cbv zeta.
  assert (Hperm : forall c2, nodes (discovery c) ≡ₚ nodes (discovery c2) ->
    get_healthy_nodes now (discovery c) ≡ₚ get_healthy_nodes now (discovery c2)).
  { intros c2 Hp. unfold get_healthy_nodes. by rewrite Hp. }
  destruct (elect_leader_spec to_string parse now reply c Hd) as [[He ->]|(n & Hc & Hn & Hl & Hm & ->)]; cbn [leader_id discovery nodes].
  - split_and!; [done|done|done|]. intros reply2 c2 Hp _ _. specialize (Hperm c2 Hp). rewrite He in Hperm.
    apply Permutation_nil_l in Hperm. unfold elect_leader. by rewrite <- Hperm.
  - split_and!; [done|..].
    + exists n. split_and!; [done|done|]. unfold get_leader, get_node. cbn.
      apply find_node_spec; [by rewrite ids_roles|]. split; [|done]. apply list_elem_of_fmap. exists n.
      split; [unfold role_for; by rewrite decide_True|]. by apply list_elem_of_filter in Hn as [_ Hn].
    + intros m Hin Heq. by rewrite (Hl m).
    + intros Hno m Hin. apply Hm; [|done]. intros m' [Hm' E]. by apply (Hno m').
    + done.
    + intros reply2 c2 Hp H16 Hlock. assert (Hd2 : NoDup (ids (nodes (discovery c2)))) by (by rewrite <- Hp).
      specialize (Hperm c2 Hp).
      destruct (elect_leader_spec to_string parse now reply2 c2 Hd2) as [[He _]|(n2 & Hc2 & _ & _ & _ & ->)].
      { rewrite He in Hperm. apply Permutation_nil_r in Hperm. rewrite Hperm in Hn. by apply not_elem_of_nil in Hn. }
      cbn. f_equal. rewrite Hlock in Hc2. symmetry. eapply choose_leader_perm; [exact Hperm| | | |exact Hc|exact Hc2].
      * by apply filter_distinct.
      * intros E. rewrite E in Hn. by apply not_elem_of_nil in Hn.
      * rewrite Forall_forall in H16 |- *. intros m [_ Hin]%list_elem_of_filter. by apply H16.
Qed.

Definition demo_node (b : byte) (st : NodeState) (players : Z) : ClusterNode :=
  mkNode (replicate 16 b) [] Standalone st players 0 (mkCaps 100 [47; 340] true).
Definition demo_coordinator : ClusterCoordinator :=
  mkCoordinator (mkDiscovery [demo_node x03 Ready 0; demo_node x01 Starting 0; demo_node x02 Ready 5] (replicate 16 x03))
    None (replicate 16 x03).

Lemma leader_election_witness :
  NoDup (ids (nodes (discovery demo_coordinator))) /\
  leader_id (elect_leader (fun s => s) Some 1000 None demo_coordinator).2 = Some (replicate 16 x02) /\
  (elect_leader (fun s => s) Some 1000 None demo_coordinator).1 = Ok tt.
Proof.
  assert (Hd : NoDup (ids (nodes (discovery demo_coordinator)))).
  { apply (bool_decide_eq_true_1 _). vm_compute. reflexivity. }
  split_and!; [exact Hd|vm_compute; reflexivity|].
  exact (proj1 (leader_election (fun s => s) Some 1000 None demo_coordinator Hd)).
Defined.

(** A leader that leaves is not replaced: [on_node_leave] looks the leader up
    after having removed it, so it never elects; the departed id stays recorded,
    and [get_leader] finds nobody, however many healthy peers remain. *)
Theorem departed_leader_not_replaced (to_string : bytes -> bytes) (parse : bytes -> option bytes) (now : Z)
    (reply : option RedisReply) (l : bytes) (c : ClusterCoordinator) : leader_id c = Some l ->
  let '(res, c') := on_node_leave to_string parse now reply l c in
  res = Ok tt /\ leader_id c' = Some l /\ get_leader c' = None /\
  nodes (discovery c') = filter (fun n => id n <> l) (nodes (discovery c)).
Proof.
  intros Hl. unfold on_node_leave.
  assert (Hnone : get_leader (with_discovery (unregister_node l) c) = None).
  { unfold get_leader, get_node, find_node, with_discovery. cbn. rewrite Hl, list_filter_filter.
    replace (filter _ _) with (@nil ClusterNode); [done|]. induction (nodes (discovery c)) as [|n ns IH]; [done|].
    rewrite filter_cons, decide_False; [done|tauto]. }
  cbv zeta. rewrite Hnone. done.
Qed.

(** The node [initialize] registers is in the starting state and under an id of
    its own, so whatever Redis says nobody leads after it, at any later time. *)
Theorem initialize_elects_nobody (to_string : bytes -> bytes) (parse : bytes -> option bytes) (now later : Z)
    (reply reply2 : option RedisReply) (fresh address local : bytes) (max_players : Z) :
  let c := mkCoordinator (mkDiscovery [] local) None local in
  let c1 := (initialize to_string parse now fresh address max_players reply c).2 in
  leader_id c1 = None /\ leader_id (elect_leader to_string parse later reply2 c1).2 = None.
Proof.
  cbv zeta. unfold initialize, elect_leader, get_healthy_nodes, with_discovery, register_node. cbn [discovery nodes insert_node].
  assert (Hh : forall t, filter (fun n => node_is_healthy t n) [ClusterNode_new now fresh address Standalone max_players] = []).
  { intros t. rewrite filter_cons, decide_False; [done|]. intros [_ []]%andb_prop_elim. }
  rewrite Hh. cbn [snd leader_id discovery nodes local_node_id]. split; [done|]. by rewrite Hh.
Qed.

(** A node is offered exactly when some peer is healthy, has room and speaks the
    version; it is such a peer, and under least connections an emptiest one. *)
Theorem select_node_spec (now timestamp hash : Z) (strategy : LoadBalancingStrategy) (version : Z) (d : ServiceDiscovery) :
  let fit n := n ∈ nodes d /\ can_accept_players now n = true /\ version ∈ supports_protocol_versions (capabilities n) in
  match select_node now timestamp hash strategy version d with
  | Some n => fit n /\ (strategy = LeastConnections -> forall m, fit m -> player_count n <= player_count m)
  | None => forall n, ~ fit n
  end.
Proof.
  cbv zeta. unfold select_node. set (compatible := filter _ _).
  assert (Hfit : forall n, n ∈ compatible <->
    n ∈ nodes d /\ can_accept_players now n = true /\ version ∈ supports_protocol_versions (capabilities n)).
  { intros n. subst compatible. unfold get_available_nodes. rewrite !list_elem_of_filter.
    split; intros (? & H & ?); split_and!; try done; by apply Is_true_true in H || by apply Is_true_true. }
  assert (Hidx : forall z, compatible <> [] ->
    exists n, compatible !! Z.to_nat (wrapu 64 z mod Z.of_nat (length compatible)) = Some n).
  { intros z Hne. apply lookup_lt_is_Some_2. destruct compatible; [done|]. cbn [length].
    pose proof (Z.mod_pos_bound (wrapu 64 z) (Z.of_nat (S (length compatible))) ltac:(lia)). lia. }
  clearbody compatible. destruct compatible as [|h hs] eqn:E.
  - intros n Hn. apply Hfit in Hn. by apply not_elem_of_nil in Hn.
  - rewrite <- E in *. destruct strategy.
    + destruct (Hidx timestamp ltac:(by rewrite E)) as [n Hn]. rewrite Hn. split; [|done].
      apply Hfit. by eapply list_elem_of_lookup_2.
    + destruct (min_by_key_nonempty player_count compatible ltac:(by rewrite E)) as [n Hn]. rewrite Hn.
      destruct (min_by_key_spec player_count _ n Hn) as (l1 & l2 & Hc & H1 & H2). split.
      * apply Hfit. rewrite Hc. apply elem_of_app. right. constructor.
      * intros _ m Hm%Hfit. rewrite Hc, elem_of_app, elem_of_cons in Hm. rewrite Forall_forall in H1, H2.
        destruct Hm as [Hm|[->|Hm]]; [specialize (H1 m Hm); lia|lia|by apply H2].
    + destruct (Hidx hash ltac:(by rewrite E)) as [n Hn]. rewrite Hn. split; [|done].
      apply Hfit. by eapply list_elem_of_lookup_2.
Qed.
