(* ===== verification/Pipeline.v ===== *)
(** * Channel pipelines

    crates/netty/src/pipeline.rs and handlers.rs: the ordered handler list of a
    channel and the compression handler.  A handler of the trait
    [ChannelHandler] is a record of its two operations; zlib is a parameter, with
    the vocabulary of PacketIo. *)
From Stdlib Require Import ZArith Lia Strings.Byte.
From stdpp Require Import base list numbers strings.
From S2P Require Import Prelude Buf Wire VarInt PacketIo.
Local Open Scope Z_scope.

Inductive HandlerError :=
  | HE_Io (kind : ErrorKind)
  | HE_Compression (kind : ErrorKind)
  | HE_Cipher (msg : string)
  | HE_Protocol (e : ProtocolError)
  | InvalidDataLength (len : Z).

Inductive PipelineError :=
  | HandlerNotFound (name : string)
  | DuplicateName (name : string).

Record ChannelContext := mkContext { compression_threshold : Z; protocol_version : Z }.

(** [Result<Option<Bytes>, HandlerError>] with the context as it is left. *)
Abbreviation step := (M ChannelContext HandlerError (option bytes)).

Record ChannelHandler := mkHandler {
  handler_name : string;
  handle_inbound : bytes -> step;
  handle_outbound : bytes -> step }.

Record ChannelPipeline := mkPipeline { handlers : list ChannelHandler; pipeline_ctx : ChannelContext }.

Definition pipeline_new (protocol_version : Z) : ChannelPipeline := mkPipeline [] (mkContext (-1) protocol_version).

Definition add_last (h : ChannelHandler) (p : ChannelPipeline) : ChannelPipeline :=
  mkPipeline (handlers p ++ [h]) (pipeline_ctx p).

(** [position(|h| h.name() == name)] *)
Fixpoint handler_position (name : string) (l : list ChannelHandler) : option nat :=
  match l with
  | [] => None
  | h :: l' => if decide (handler_name h = name) then Some 0%nat else option_map S (handler_position name l')
  end.

Definition add_before (before : string) (h : ChannelHandler) (p : ChannelPipeline)
  : outcome PipelineError unit * ChannelPipeline :=
  match handler_position before (handlers p) with
  | None => (Err (HandlerNotFound before), p)
  | Some pos => (Ok tt, mkPipeline (take pos (handlers p) ++ h :: drop pos (handlers p)) (pipeline_ctx p))
  end.

Definition pipeline_remove (name : string) (p : ChannelPipeline) : outcome PipelineError unit * ChannelPipeline :=
  match handler_position name (handlers p) with
  | None => (Err (HandlerNotFound name), p)
  | Some pos => (Ok tt, mkPipeline (take pos (handlers p) ++ drop (S pos) (handlers p)) (pipeline_ctx p))
  end.

(** The loop of both directions. *)
Fixpoint run_handlers (f : ChannelHandler -> bytes -> step) (l : list ChannelHandler) (data : bytes) : step :=
  match l with
  | [] => ret (Some data)
  | h :: l' =>
      let! r := f h data in
      match r with Some d => run_handlers f l' d | None => ret None end
  end.

Definition run_pipeline (f : ChannelHandler -> bytes -> step) (l : list ChannelHandler) (data : bytes) (p : ChannelPipeline)
  : outcome HandlerError (option bytes) * ChannelPipeline :=
  let '(r, ctx) := run_handlers f l data (pipeline_ctx p) in (r, mkPipeline (handlers p) ctx).

Definition process_inbound (data : bytes) (p : ChannelPipeline) : outcome HandlerError (option bytes) * ChannelPipeline :=
  run_pipeline handle_inbound (handlers p) data p.

Definition process_outbound (data : bytes) (p : ChannelPipeline) : outcome HandlerError (option bytes) * ChannelPipeline :=
  run_pipeline handle_outbound (rev (handlers p)) data p.

Definition enable_compression (threshold : Z) (p : ChannelPipeline) : ChannelPipeline :=
  mkPipeline (handlers p) (mkContext threshold (protocol_version (pipeline_ctx p))).

(** ** The compression handler *)

Definition MAX_UNCOMPRESSED : Z := 32 * 1024 * 1024.

Section Zlib.
Variable deflate : bytes -> bytes.
Variable inflate : bytes -> bytes * option ErrorKind.

Definition compression_inbound (data : bytes) : step :=
  match VarInt_decode data with
  | (Err e, _) => fail (HE_Protocol e)
  | (Panic, _) => panic
  | (NoFuel, _) => nofuel
  | (Ok data_len, cursor) =>
      if data_len =? 0 then ret (Some cursor)
      else if (data_len <? 0) || (wrapu 64 data_len >? MAX_UNCOMPRESSED) then fail (InvalidDataLength data_len)
      else
        (* read_to_end *)
        match inflate cursor with
        | (decompressed, None) => ret (Some decompressed)
        | (_, Some e) => fail (HE_Compression e)
        end
  end.

Definition compression_outbound (data : bytes) : step :=
  let! ctx := get_state in
  let threshold := compression_threshold ctx in
  if threshold <? 0 then ret (Some data)
  else if wraps 32 (Z.of_nat (length data)) <? threshold then ret (Some (varint_bytes 0 ++ data))
  else ret (Some (varint_bytes (wraps 32 (Z.of_nat (length data))) ++ deflate data)).

Definition CompressionHandler : ChannelHandler :=
  mkHandler "compression" compression_inbound compression_outbound.

End Zlib.

(** ** Handlers that undo their own work *)

(** In context [ctx], [h] turns every outgoing message of [P] into one of [Q]
    and turns it back on the way in, and leaves the context alone. *)
Class Carries (ctx : ChannelContext) (P : bytes -> Prop) (h : ChannelHandler) (Q : bytes -> Prop) : Prop :=
  carries : forall data, P data -> exists d, Q d /\
    handle_outbound h data ctx = (Ok (Some d), ctx) /\ handle_inbound h d ctx = (Ok (Some data), ctx).

(** A handler list, head first, whose last handler takes messages of [P]. *)
Inductive chain (ctx : ChannelContext) (P : bytes -> Prop) : list ChannelHandler -> (bytes -> Prop) -> Prop :=
  | chain_nil : chain ctx P [] P
  | chain_cons h l Q R : chain ctx P l Q -> Carries ctx Q h R -> chain ctx P (h :: l) R.

Lemma run_app f l1 l2 d ctx' : forall data ctx, run_handlers f l1 data ctx = (Ok (Some d), ctx') ->
  run_handlers f (l1 ++ l2) data ctx = run_handlers f l2 d ctx'.
Proof.
  induction l1 as [|h l1 IH]; intros data ctx; cbn [run_handlers app]; [by intros [= -> ->]|].
  unfold bind. destruct (f h data ctx) as [[[d'|]| | |] ctx1] eqn:E; try done. apply IH.
Qed.

Lemma chain_roundtrip ctx P l Q : chain ctx P l Q -> forall data, P data -> exists d, Q d /\
  run_handlers handle_outbound (rev l) data ctx = (Ok (Some d), ctx) /\
  run_handlers handle_inbound l d ctx = (Ok (Some data), ctx).
Proof.
  induction 1 as [|h l Q R _ IH Hh]; intros data Hd; [by exists data|].
  destruct (IH data Hd) as (d & Hq & Hout & Hin). destruct (carries d Hq) as (e & Hr & Hho & Hhi).
  exists e. split_and!; [done| |].
  - cbn [rev]. rewrite (run_app _ _ _ _ _ _ _ Hout). cbn [run_handlers]. unfold bind. by rewrite Hho.
  - cbn [run_handlers]. unfold bind. by rewrite Hhi.
Qed.

(** What the compression handler carries at a threshold. *)
Definition compressible (threshold : Z) (data : bytes) : Prop :=
  Z.of_nat (length data) <= MAX_UNCOMPRESSED /\ (data <> [] \/ threshold > 0).

Lemma compression_carries deflate inflate (ctx : ChannelContext) :
  (forall raw, inflate (deflate raw) = (raw, None)) -> 0 <= compression_threshold ctx ->
  Carries ctx (compressible (compression_threshold ctx)) (CompressionHandler deflate inflate) (fun _ => True).
Proof.
  intros Hz Ht data [Hlen Hne]. change MAX_UNCOMPRESSED with 33554432 in Hlen.
  assert (Hw : wraps 32 (Z.of_nat (length data)) = Z.of_nat (length data)) by (apply wraps_id; [lia|width]).
  cbn [handle_outbound handle_inbound CompressionHandler]. unfold compression_outbound, compression_inbound.
  unfold bind, get_state. rewrite (proj2 (Z.ltb_ge _ _) Ht), Hw.
  destruct (Z.ltb_spec (Z.of_nat (length data)) (compression_threshold ctx)) as [Hlt|Hge].
  - eexists. split_and!; [done|done|]. rewrite varint_bytes_wire.
    pose proof (lawful_reads (c := VarInt) 0 ltac:(cbn; width) data) as Hr. cbn [VarInt dec] in Hr. by rewrite Hr.
  - eexists. split_and!; [done|done|]. rewrite varint_bytes_wire.
    pose proof (lawful_reads (c := VarInt) (Z.of_nat (length data)) ltac:(cbn; width) (deflate data)) as Hr.
    cbn [VarInt dec] in Hr. rewrite Hr.
    destruct (Z.eqb_spec (Z.of_nat (length data)) 0) as [H0|H0].
    { destruct Hne as [Hne|Hne]; [destruct data; [done|cbn in H0; lia]|lia]. }
    rewrite (proj2 (Z.ltb_ge (Z.of_nat (length data)) 0)), wrapu_id by (lia || width).
    change MAX_UNCOMPRESSED with 33554432. rewrite Z.gtb_ltb, (proj2 (Z.ltb_ge _ _) Hlen).
    cbn [orb]. by rewrite Hz.
Qed.

(** A message sent through a pipeline comes back unchanged through the same
    pipeline, for any handlers each of which undoes its own work, since outbound
    data passes them in the reverse order of inbound data; the compression
    handler is one, at every threshold from 0 up, for messages of at most 32 MiB
    (not empty ones at threshold 0), provided zlib inflates what it deflated. *)
Theorem pipeline_roundtrip (p : ChannelPipeline) (P Q : bytes -> Prop) (data : bytes) :
  chain (pipeline_ctx p) P (handlers p) Q -> P data ->
  (exists d, process_outbound data p = (Ok (Some d), p) /\ process_inbound d p = (Ok (Some data), p)) /\
  (forall deflate inflate ctx, (forall raw, inflate (deflate raw) = (raw, None)) -> 0 <= compression_threshold ctx ->
     chain ctx (compressible (compression_threshold ctx)) [CompressionHandler deflate inflate] (fun _ => True)).
Proof.
  intros Hc Hd. split.
  - destruct (chain_roundtrip _ _ _ _ Hc data Hd) as (d & _ & Hout & Hin). exists d.
    unfold process_outbound, process_inbound, run_pipeline. rewrite Hout, Hin. by destruct p.
  - intros deflate inflate ctx Hz Ht. eapply chain_cons; [apply chain_nil|by apply compression_carries].
Qed.

Lemma pipeline_roundtrip_witness :
  let p := add_last (CompressionHandler stored unstored) (enable_compression 3 (pipeline_new 47)) in
  exists d, process_outbound (lit "packet") p = (Ok (Some d), p) /\ process_inbound d p = (Ok (Some (lit "packet")), p).
Proof.
  cbv zeta.
  apply (pipeline_roundtrip (add_last (CompressionHandler stored unstored) (enable_compression 3 (pipeline_new 47)))
    (compressible 3) (fun _ => True) (lit "packet")).
  - apply (chain_cons _ _ _ _ (compressible 3)); [apply chain_nil|].
    exact (compression_carries stored unstored (mkContext 3 47) (fun raw => eq_refl) ltac:(cbn; lia)).
  - split; [vm_compute; congruence|]. left. vm_compute. congruence.
Defined.

(** The 32 MiB limit bounds the announced length only: whatever length between 1
    and the limit is announced, the handler returns all that zlib yields. *)
Theorem announced_length_ignored (deflate : bytes -> bytes) (inflate : bytes -> bytes * option ErrorKind)
    (len : Z) (stream out : bytes) (ctx : ChannelContext) :
  0 < len <= MAX_UNCOMPRESSED -> inflate stream = (out, None) ->
  handle_inbound (CompressionHandler deflate inflate) (varint_bytes len ++ stream) ctx = (Ok (Some out), ctx).
Proof.
  change MAX_UNCOMPRESSED with 33554432. intros Hlen Hi. cbn [handle_inbound CompressionHandler].
  unfold compression_inbound. rewrite varint_bytes_wire.
  pose proof (lawful_reads (c := VarInt) len ltac:(cbn; width) stream) as Hr. cbn [VarInt dec] in Hr. rewrite Hr.
  rewrite (proj2 (Z.eqb_neq len 0)), (proj2 (Z.ltb_ge len 0)), wrapu_id by (lia || width).
  change MAX_UNCOMPRESSED with 33554432. rewrite Z.gtb_ltb, (proj2 (Z.ltb_ge _ _)) by lia. cbn [orb]. by rewrite Hi.
Qed.

(** ** Editing the list *)

Lemma handler_position_spec name l pos : handler_position name l = Some pos ->
  exists h, l !! pos = Some h /\ handler_name h = name /\ Forall (fun g => handler_name g <> name) (take pos l).
Proof.
  revert pos. induction l as [|g l IH]; intros pos; cbn [handler_position]; [done|].
  destruct (decide (handler_name g = name)) as [E|E]; [intros [= <-]; by exists g|].
  destruct (handler_position name l) as [k|]; [|done]. intros [= <-].
  destruct (IH k eq_refl) as (h & Hk & Hn & Hf). exists h. cbn. split_and!; [done|done|]. by apply Forall_cons.
Qed.

Lemma handler_position_none name l : handler_position name l = None <-> Forall (fun g => handler_name g <> name) l.
Proof.
  induction l as [|g l IH]; cbn [handler_position]; [by split|]. rewrite Forall_cons.
  destruct (decide (handler_name g = name)); [split; [done|tauto]|]. rewrite <- IH.
  destruct (handler_position name l); cbn; [split; [done|by intros []]|by split].
Qed.

(** Inserting before a handler and removing that insertion again, under a name
    not in use, restores the pipeline; an unknown name is an error that changes
    nothing. *)
Theorem pipeline_edit (before : string) (h : ChannelHandler) (p : ChannelPipeline) :
  match add_before before h p with
  | (Ok _, p') =>
      (exists l1 g l2, handlers p = l1 ++ g :: l2 /\ handlers p' = l1 ++ h :: g :: l2 /\ handler_name g = before) /\
      (handler_position (handler_name h) (handlers p) = None -> pipeline_remove (handler_name h) p' = (Ok tt, p))
  | (Err e, p') => e = HandlerNotFound before /\ p' = p /\ Forall (fun g => handler_name g <> before) (handlers p)
  | _ => False
  end.
Proof.
  unfold add_before. destruct (handler_position before (handlers p)) as [pos|] eqn:E.
  - destruct (handler_position_spec _ _ _ E) as (g & Hg & Hn & _). split.
    + exists (take pos (handlers p)), g, (drop (S pos) (handlers p)). rewrite (drop_S _ g pos Hg).
      split_and!; [|done|done]. rewrite <- (drop_S _ g pos Hg). by rewrite take_drop.
    + intros Hfree%handler_position_none. unfold pipeline_remove. cbn [handlers pipeline_ctx].
      assert (Hpos : (pos < length (handlers p))%nat) by (by eapply lookup_lt_Some).
      assert (Hp : forall l1 l2, Forall (fun g => handler_name g <> handler_name h) l1 ->
        handler_position (handler_name h) (l1 ++ h :: l2) = Some (length l1)).
      { intros l1 l2. induction l1 as [|m l1 IH]; cbn; [by rewrite decide_True|].
        intros [Hm Hl]%Forall_cons. rewrite decide_False by done. by rewrite IH. }
      rewrite Hp by (by apply Forall_take). f_equal. destruct p as [l c]. cbn [handlers pipeline_ctx] in *. f_equal.
      rewrite take_app_length. change (h :: drop pos l) with ([h] ++ drop pos l). rewrite app_assoc.
      rewrite drop_app_length' by (rewrite length_app; cbn; lia). by rewrite take_drop.
  - split_and!; [done|done|]. by apply handler_position_none.
Qed.
