(* ===== verification/Guard.v ===== *)
(** * Inbound abuse guard

    crates/proxy-core/src/features/exploit_guard.rs: the packet-rate and size
    ceilings of a connection and the content checks for chat, books and signs.
    The clock is an argument, in nanoseconds; a [&str] is its bytes. *)
From Stdlib Require Import ZArith Lia Strings.Byte Bool List Sorted.
From stdpp Require Import base list numbers strings.
From S2P Require Import Prelude Buf Wire VarInt Codec Negotiation PacketIo.
Local Open Scope Z_scope.

Inductive KickReason :=
  | PacketFlood
  | OversizedPacket
  | MalformedPacket
  | OversizedString
  | OversizedNbt
  | IllegalPacket
  | BookExploit
  | IllegalChatCharacters
  | PacketSpam
  | Custom (title detail : bytes).

Abbreviation verdict := (outcome KickReason unit).

(** ** Reading fields *)

(** [for i in 0..5] of [read_varint]; the cursor moves only on success. *)
Fixpoint guard_varint_loop (n : nat) (result shift : Z) (data : bytes) : option (Z * bytes) :=
  match n with
  | O => None
  | S n' =>
      match data with
      | [] => None
      | b :: data' =>
          let result := Z.lor result (wrapu 32 (Z.shiftl (Z.land (bz b) 0x7F) shift)) in
          if Z.land (bz b) 0x80 =? 0 then Some (result, data') else guard_varint_loop n' result (shift + 7) data'
      end
  end.

Definition guard_read_varint (data : bytes) : option (Z * bytes) := guard_varint_loop 5 0 0 data.

Definition guard_decode_string (data : bytes) : option (bytes * bytes) :=
  match guard_read_varint data with
  | None => None
  | Some (len, data) =>
      if Z.of_nat (length data) <? len then None
      else
        let s := take (Z.to_nat len) data in
        if utf8_valid s then Some (s, drop (Z.to_nat len) data) else None
  end.

(** The [char]s of a string, each with its encoding. *)
Fixpoint chars (s : bytes) : list (Z * bytes) :=
  match s with
  | [] => []
  | b0 :: s1 =>
      if bz b0 <=? 0x7F then (bz b0, [b0]) :: chars s1
      else
        match s1 with
        | [] => []
        | b1 :: s2 =>
            if bz b0 <=? 0xDF then (Z.land (bz b0) 0x1F * 64 + Z.land (bz b1) 0x3F, [b0; b1]) :: chars s2
            else
              match s2 with
              | [] => []
              | b2 :: s3 =>
                  if bz b0 <=? 0xEF then
                    (Z.land (bz b0) 0x0F * 4096 + Z.land (bz b1) 0x3F * 64 + Z.land (bz b2) 0x3F, [b0; b1; b2]) :: chars s3
                  else
                    match s3 with
                    | [] => []
                    | b3 :: s4 =>
                        (Z.land (bz b0) 0x07 * 262144 + Z.land (bz b1) 0x3F * 4096 + Z.land (bz b2) 0x3F * 64
                         + Z.land (bz b3) 0x3F, [b0; b1; b2; b3]) :: chars s4
                    end
              end
        end
  end.

(** [char::is_control]: the category Cc. *)
Definition is_control (c : Z) : bool := (c <=? 0x1F) || ((0x7F <=? c) && (c <=? 0x9F)).

Definition hex4 (c : Z) : bytes :=
  map (fun i => let v := (c / 16 ^ i) mod 16 in zb (if v <? 10 then 0x30 + v else 0x57 + v)) [3; 2; 1; 0].

Definition json_escape (s : bytes) : bytes :=
  flat_map (fun '(c, raw) =>
    if c =? 0x5C then [x5c; x5c]
    else if c =? 0x22 then [x5c; x22]
    else if c =? 0x0A then [x5c; x6e]
    else if c =? 0x0D then [x5c; x72]
    else if c =? 0x09 then [x5c; x74]
    else if is_control c then [x5c; x75] ++ hex4 c
    else raw) (chars s).

(** ** Limits *)

Definition GUARD_MAX_PACKET_SIZE : Z := Z.shiftl 1 20.
Definition MAX_BOOK_PAGES : Z := 100.
Definition MAX_BOOK_PAGE_LEN : Z := 1024.
Definition MAX_SIGN_LINE_LEN : Z := 384.
Definition MAX_PACKETS_PER_SECOND : Z := 2000.
Definition MAX_NBT_SIZE : Z := Z.shiftl 2 20.
Definition SECOND : Z := 1000000000.

Record ExploitGuard := mkGuard { packet_count : Z; window_start : Z }.

Definition guard_new (now : Z) : ExploitGuard := mkGuard 0 now.

(** [Instant::duration_since] saturates at zero; [packet_count] is a [u32]. *)
Definition check_rate (now : Z) (g : ExploitGuard) : verdict * ExploitGuard :=
  let g := if Z.max 0 (now - window_start g) >=? SECOND then mkGuard 0 now else g in
  let g := mkGuard (wrapu 32 (packet_count g + 1)) (window_start g) in
  if packet_count g >? MAX_PACKETS_PER_SECOND then (Err PacketFlood, g) else (Ok tt, g).

Definition check_size (pkt_len : Z) : verdict :=
  if pkt_len >? GUARD_MAX_PACKET_SIZE then Err OversizedPacket else Ok tt.

Definition check_packet (now pkt_len : Z) (g : ExploitGuard) : verdict * ExploitGuard :=
  match check_rate now g with
  | (Ok _, g) => (check_size pkt_len, g)
  | (r, g) => (r, g)
  end.

Definition check_chat_message (text : bytes) : verdict :=
  if Z.of_nat (length text) >? 256 then Err OversizedString
  else if existsb (fun '(c, _) => (c =? 0) || (is_control c && negb (c =? 0x0A))) (chars text) then Err IllegalChatCharacters
  else Ok tt.

(** [for _ in 0..n]: one string per turn, at most [max] bytes long. *)
Fixpoint check_strings (n : nat) (max : Z) (too_long : KickReason) (data : bytes) : verdict :=
  match n with
  | O => Ok tt
  | S n' =>
      match guard_decode_string data with
      | None => Err MalformedPacket
      | Some (s, data) =>
          if Z.of_nat (length s) >? max then Err too_long else check_strings n' max too_long data
      end
  end.

Definition check_book_edit (data : bytes) : verdict :=
  match guard_read_varint data with
  | None => Err MalformedPacket
  | Some (page_count, data) =>
      if page_count >? MAX_BOOK_PAGES then Err BookExploit
      else check_strings (Z.to_nat page_count) MAX_BOOK_PAGE_LEN BookExploit data
  end.

Definition check_sign_update (data : bytes) : verdict := check_strings 4 MAX_SIGN_LINE_LEN OversizedString data.

Definition check_string_field (s : bytes) (max : Z) : verdict :=
  if Z.of_nat (length s) >? max then Err OversizedString else Ok tt.

Definition check_nbt_size (data : bytes) : verdict :=
  if Z.of_nat (length data) >? MAX_NBT_SIZE then Err OversizedNbt else Ok tt.

(** ** The rate ceiling *)

(** The verdicts on packets arriving at the given times. *)
Fixpoint rate_run (g : ExploitGuard) (times : list Z) : list bool * ExploitGuard :=
  match times with
  | [] => ([], g)
  | t :: times' =>
      let '(r, g1) := check_rate t g in
      let '(rs, g2) := rate_run g1 times' in (is_ok r :: rs, g2)
  end.

Definition accepted (rs : list bool) : Z := Z.of_nat (count_occ bool_dec rs true).

Lemma accepted_cons b rs : accepted (b :: rs) = (if b then 1 else 0) + accepted rs.
Proof. unfold accepted. destruct b; cbn; lia. Qed.

Lemma check_rate_keep t g : t - window_start g < SECOND -> 0 <= packet_count g -> packet_count g + 1 < 2 ^ 32 ->
  check_rate t g = (if packet_count g + 1 >? MAX_PACKETS_PER_SECOND then Err PacketFlood else Ok tt,
                    mkGuard (packet_count g + 1) (window_start g)).
Proof.
  intros Ht Hc Hb. unfold check_rate. rewrite Z.geb_leb, (proj2 (Z.leb_gt _ _)) by (unfold SECOND in *; lia).
  cbn [packet_count window_start]. rewrite wrapu_id by (unfold fits_u; lia). by destruct (_ >? _).
Qed.

Lemma check_rate_reset t g : SECOND <= t - window_start g ->
  check_rate t g = check_rate t (mkGuard 0 t).
Proof.
  intros Ht. unfold check_rate. cbn [packet_count window_start].
  rewrite !Z.geb_leb, (proj2 (Z.leb_le _ _)) by (unfold SECOND in *; lia).
  by destruct (SECOND <=? Z.max 0 (t - t)).
Qed.

(** Within one window at most 2000 packets pass. *)
Lemma accepted_window ts : forall g, Forall (fun t => t - window_start g < SECOND) ts ->
  0 <= packet_count g -> packet_count g + Z.of_nat (length ts) < 2 ^ 32 ->
  accepted (rate_run g ts).1 <= Z.max 0 (MAX_PACKETS_PER_SECOND - packet_count g).
Proof.
  induction ts as [|t ts IH]; intros g Hw Hc Hb; cbn [rate_run]; [change (accepted _) with 0; lia|].
  apply Forall_cons in Hw as [Ht Hw]. cbn [length] in Hb. rewrite check_rate_keep by lia.
  specialize (IH (mkGuard (packet_count g + 1) (window_start g)) Hw ltac:(cbn; lia) ltac:(cbn [packet_count]; lia)).
  set (g1 := mkGuard _ _) in *.
  destruct (rate_run g1 ts) as [rs g2]. cbn [fst] in *. rewrite accepted_cons. cbn [packet_count g1] in IH.
  destruct (Z.gtb_spec (packet_count g + 1) MAX_PACKETS_PER_SECOND); cbn [is_ok]; lia.
Qed.

(** In any second at most two windows are open. *)
Lemma accepted_second a ts : forall g, Forall (fun t => a <= t < a + SECOND) ts ->
  0 <= packet_count g -> packet_count g + Z.of_nat (length ts) < 2 ^ 32 ->
  accepted (rate_run g ts).1 <= Z.max 0 (MAX_PACKETS_PER_SECOND - packet_count g) + MAX_PACKETS_PER_SECOND.
Proof.
  induction ts as [|t ts IH]; intros g Hs Hc Hb; [change (accepted _) with 0; unfold MAX_PACKETS_PER_SECOND; lia|].
  pose proof Hs as [Ht Hs']%Forall_cons. cbn [length] in Hb.
  destruct (Z.lt_ge_cases (t - window_start g) SECOND) as [Hlt|Hge].
  - cbn [rate_run]. rewrite check_rate_keep by lia. 
    specialize (IH (mkGuard (packet_count g + 1) (window_start g)) Hs' ltac:(cbn; lia) ltac:(cbn [packet_count]; lia)).
    set (g1 := mkGuard _ _) in *.
    destruct (rate_run g1 ts) as [rs g2]. cbn [fst] in *. rewrite accepted_cons. cbn [packet_count g1] in IH.
    destruct (Z.gtb_spec (packet_count g + 1) MAX_PACKETS_PER_SECOND); cbn [is_ok]; lia.
  - assert (Hsame : rate_run g (t :: ts) = rate_run (mkGuard 0 t) (t :: ts)).
    { cbn [rate_run]. by rewrite check_rate_reset by lia. }
    rewrite Hsame. pose proof (accepted_window (t :: ts) (mkGuard 0 t)) as H. cbn [packet_count window_start] in H.
    change (MAX_PACKETS_PER_SECOND - 0) with 2000 in H. unfold MAX_PACKETS_PER_SECOND in *.
    specialize (H ltac:(eapply Forall_impl; [exact Hs|]; cbn; intros; unfold SECOND in *; lia) ltac:(lia) ltac:(cbn [length]; lia)).
    lia.
Qed.

Lemma check_rate_count t g : 0 <= packet_count g -> 0 <= packet_count (check_rate t g).2 <= packet_count g + 1.
Proof.
  intros Hc. unfold check_rate. destruct (_ >=? _); destruct (_ >? _); cbn [snd packet_count];
    (unfold wrapu; pose proof (Z.mod_pos_bound (packet_count g + 1) (2 ^ 32) ltac:(lia));
     pose proof (Z.mod_le (packet_count g + 1) (2 ^ 32) ltac:(lia) ltac:(lia));
     try (change ((0 + 1) mod 2 ^ 32) with 1); lia).
Qed.

Lemma rate_run_count ts : forall g, 0 <= packet_count g ->
  0 <= packet_count (rate_run g ts).2 <= packet_count g + Z.of_nat (length ts).
Proof.
  induction ts as [|t ts IH]; intros g Hc; cbn [rate_run]; [cbn; lia|].
  pose proof (check_rate_count t g Hc) as H. destruct (check_rate t g) as [r g1]. cbn [snd] in H.
  specialize (IH g1 ltac:(lia)). destruct (rate_run g1 ts) as [rs g2]. cbn [snd length] in *. lia.
Qed.

(** The packets counted so far are a tail of those seen, all in the window. *)
Definition counted (seen : list Z) (g : ExploitGuard) : Prop :=
  exists old recent, seen = old ++ recent /\ 0 <= packet_count g <= Z.of_nat (length recent) /\
    Forall (fun x => window_start g <= x) recent.

Lemma counted_step seen t g : counted seen g -> window_start g <= t ->
  counted (seen ++ [t]) (check_rate t g).2 /\ window_start (check_rate t g).2 <= t.
Proof.
  intros (old & recent & -> & Hc & Hf) Ht. destruct (Z.lt_ge_cases (t - window_start g) SECOND) as [Hlt|Hge].
  - assert (Hw : 0 <= wrapu 32 (packet_count g + 1) <= packet_count g + 1).
    { unfold wrapu. split; [apply Z.mod_pos_bound; lia|apply Z.mod_le; lia]. }
    assert (E : (check_rate t g).2 = mkGuard (wrapu 32 (packet_count g + 1)) (window_start g)).
    { unfold check_rate. rewrite Z.geb_leb, (proj2 (Z.leb_gt _ _)) by (unfold SECOND in *; lia). by destruct (_ >? _). }
    rewrite E. split; [|done]. exists old, (recent ++ [t]). cbn [packet_count window_start].
    rewrite app_assoc, length_app. split_and!; [done|lia|cbn; lia|]. apply Forall_app. split; [done|by apply Forall_singleton].
  - rewrite check_rate_reset by lia. rewrite check_rate_keep by (cbn; unfold SECOND; lia).
    cbn [snd packet_count window_start]. split; [|lia]. exists (old ++ recent), [t].
    split_and!; [done|cbn; lia|cbn; lia|]. apply Forall_singleton. cbn. lia.
Qed.

Lemma counted_run ts : forall seen g, counted seen g -> StronglySorted Z.le ts ->
  Forall (fun t => window_start g <= t) ts -> counted (seen ++ ts) (rate_run g ts).2 /\
  forall t, Forall (fun x => x <= t) ts -> window_start g <= t -> window_start (rate_run g ts).2 <= t.
Proof.
  induction ts as [|t ts IH]; intros seen g Hg Hs Hw; cbn [rate_run]; [by rewrite app_nil_r|].
  apply Forall_cons in Hw as [Ht Hw]. apply StronglySorted_inv in Hs as [Hs Hle].
  destruct (counted_step seen t g Hg Ht) as [Hg1 Hw1].
  destruct (check_rate t g) as [r g1]. cbn [snd] in *.
  destruct (IH (seen ++ [t]) g1 Hg1 Hs) as [Hc Hend].
  { rewrite Forall_forall in Hle |- *. intros x Hx. specialize (Hle x Hx). lia. }
  destruct (rate_run g1 ts) as [rs g2]. cbn [snd] in *. rewrite <- app_assoc in Hc. split; [done|].
  intros x Hx _. apply Forall_cons in Hx as [Hx Hxs]. apply Hend; [done|lia].
Qed.

Lemma sorted_last pre t : StronglySorted Z.le (pre ++ [t]) -> StronglySorted Z.le pre /\ Forall (fun x => x <= t) pre.
Proof.
  induction pre as [|x pre IH]; cbn [app]; [split; constructor|].
  intros [Hs Hx]%StronglySorted_inv. destruct (IH Hs) as [Hp Ht]. apply Forall_app in Hx as [Hxp Hxt].
  split; constructor; try done. by inversion Hxt.
Qed.

Lemma refused_many pre t t0 : StronglySorted Z.le (pre ++ [t]) -> Forall (fun x => t0 <= x) (pre ++ [t]) ->
  is_ok (check_rate t (rate_run (guard_new t0) pre).2).1 = false ->
  exists old recent, pre ++ [t] = old ++ recent /\
    MAX_PACKETS_PER_SECOND < Z.of_nat (length recent) /\ Forall (fun x => t - SECOND < x <= t) recent.
Proof.
  intros Hs Hge Hr. apply sorted_last in Hs as [Hs Hpre]. apply Forall_app in Hge as [Hge Ht].
  rewrite Forall_singleton in Ht.
  destruct (counted_run pre [] (guard_new t0)) as [Hc Hw]; [|done|done|].
  { exists [], []. cbn. split_and!; [done|lia|lia|constructor]. }
  specialize (Hw t Hpre Ht). cbn [app] in Hc. set (g := (rate_run _ _).2) in *. clearbody g.
  destruct (Z.lt_ge_cases (t - window_start g) SECOND) as [Hlt|Hge'].
  2:{ rewrite check_rate_reset, check_rate_keep in Hr by (cbn; unfold SECOND in *; lia). done. }
  destruct Hc as (old & recent & -> & Hc & Hf). exists old, (recent ++ [t]).
  rewrite app_assoc, length_app. cbn [length]. split_and!; [done| |].
  - unfold check_rate in Hr. rewrite Z.geb_leb, (proj2 (Z.leb_gt _ _)) in Hr by (unfold SECOND in *; lia).
    cbn [packet_count] in Hr. destruct (Z.gtb_spec (wrapu 32 (packet_count g + 1)) MAX_PACKETS_PER_SECOND); [|done].
    pose proof (Z.mod_le (packet_count g + 1) (2 ^ 32) ltac:(lia) ltac:(lia)). unfold wrapu in *. lia.
  - apply Forall_app in Hpre as [_ Hpre]. apply Forall_app. split; [|apply Forall_singleton; unfold SECOND; lia].
    rewrite Forall_forall in Hf, Hpre |- *. intros x Hx. specialize (Hf x Hx). specialize (Hpre x Hx). lia.
Qed.

(** What the packet-rate ceiling enforces.  No one is kicked unjustly: when a
    packet is refused, it and the 2000 before it arrived within one second.  And
    no flood passes: whatever came before, at most 4000 packets are accepted in
    any second.  The bound is twice the limit because the window is restarted,
    not slid: 2000 packets at the end of a window and 2000 at the start of the
    next are all accepted. *)
Theorem guard_rate_limits (t0 a : Z) (pre seg : list Z) :
  (forall t, StronglySorted Z.le (pre ++ [t]) -> Forall (fun x => t0 <= x) (pre ++ [t]) ->
     is_ok (check_rate t (rate_run (guard_new t0) pre).2).1 = false ->
     exists old recent, pre ++ [t] = old ++ recent /\
       MAX_PACKETS_PER_SECOND < Z.of_nat (length recent) /\ Forall (fun x => t - SECOND < x <= t) recent) /\
  (Z.of_nat (length pre) + Z.of_nat (length seg) < 2 ^ 32 -> Forall (fun t => a <= t < a + SECOND) seg ->
     accepted (rate_run (rate_run (guard_new t0) pre).2 seg).1 <= 2 * MAX_PACKETS_PER_SECOND) /\
  accepted (rate_run (guard_new 0) (replicate 2000 (SECOND - 1) ++ replicate 2000 SECOND)).1 = 4000.
Proof.
  split_and!.
  - intros t. apply refused_many.
  - intros Hb Hs. pose proof (rate_run_count pre (guard_new t0) ltac:(cbn; lia)) as Hc. cbn [guard_new packet_count] in Hc.
    pose proof (accepted_second a seg _ Hs (proj1 Hc) ltac:(lia)). unfold MAX_PACKETS_PER_SECOND in *. lia.
  - vm_compute. reflexivity.
Qed.

(** ** Strings in packets *)

Lemma lor_fits w x y : 0 <= w -> fits_u w x -> fits_u w y -> fits_u w (Z.lor x y).
Proof.
  intros Hw Hx Hy. split; [apply Z.lor_nonneg; unfold fits_u in *; lia|].
  destruct (Z.eq_dec (Z.lor x y) 0) as [->|Hne]; [by apply pow2_pos|].
  apply Z.log2_lt_pow2; [pose proof (proj2 (Z.lor_nonneg x y)); unfold fits_u in *; lia|].
  rewrite Z.log2_lor by (unfold fits_u in *; lia). unfold fits_u in *.
  assert (Hl : forall z, 0 <= z < 2 ^ w -> z <> 0 -> Z.log2 z < w) by (intros; apply Z.log2_lt_pow2; lia).
  destruct (Z.eq_dec x 0) as [->|Hx0]; destruct (Z.eq_dec y 0) as [->|Hy0].
  - done.
  - rewrite Z.lor_0_l in Hne. specialize (Hl y Hy Hy0). cbn [Z.log2]. pose proof (Z.log2_nonneg y). lia.
  - specialize (Hl x Hx Hx0). cbn [Z.log2]. pose proof (Z.log2_nonneg x). lia.
  - pose proof (Hl x Hx Hx0). pose proof (Hl y Hy Hy0). lia.
Qed.

(** The guard's VarInt is the socket's, read as unsigned and all or nothing. *)
Lemma guard_varint_agrees n : forall i r src, fits_u 32 r ->
  match guard_varint_loop n r (7 * i) src with
  | Some (v, rest) => fits_u 32 v /\ read_varint_loop n i r src = (Ok (wraps 32 v), rest)
  | None => exists e rest, read_varint_loop n i r src = (Err e, rest)
  end.
Proof.
  induction n as [|n IH]; intros i r src Hr; cbn [guard_varint_loop read_varint_loop]; [by eexists _, _|].
  destruct src as [|b src]; [by eexists _, _|]. rewrite (bind_ok _ _ _ _ _ (read_u8_cons b src)). cbv zeta.
  set (r1 := Z.lor r _). assert (Hr1 : fits_u 32 r1) by (apply lor_fits; [lia|done|by apply wrapu_fits]).
  destruct (_ =? 0); [done|]. replace (7 * i + 7) with (7 * (i + 1)) by lia. by apply IH.
Qed.

Lemma guard_read_varint_wire v rest : 0 <= v < 2 ^ 31 -> guard_read_varint (wire VarInt v ++ rest) = Some (v, rest).
Proof.
  intros Hv. pose proof (guard_varint_agrees 5 0 0 (wire VarInt v ++ rest) ltac:(width)) as H.
  pose proof (reads_read_varint v ltac:(width) rest) as Hr. unfold read_varint in Hr. unfold guard_read_varint.
  change (7 * 0) with 0 in H. destruct (guard_varint_loop 5 0 0 _) as [[u r]|].
  - destruct H as [Hu H]. rewrite Hr in H. injection H as Hw <-. do 2 f_equal.
    rewrite <- (wrapu_id 32 u) by done. rewrite <- (wrapu_wraps 32 u), <- Hw by lia. apply wrapu_id. width.
  - destruct H as (e & r & H). congruence.
Qed.

Lemma wire_Str s : string_ok s -> wire Str s = wire VarInt (Z.of_nat (length s)) ++ s.
Proof.
  intros [Hu Hl]. destruct (writes_length_prefix (Z.of_nat (length s))) as [Hw _]; [unfold MAX_STRING_LENGTH in Hl; lia|].
  apply (writes_wire_eq Str). cbn [Str enc]. unfold encode_string.
  destruct (Z.gtb_spec (Z.of_nat (length s)) (MAX_STRING_LENGTH * 3)); [lia|].
  apply writes_bind; [done|apply writes_put].
Qed.

Lemma guard_string_wire s rest : string_ok s -> guard_decode_string (wire Str s ++ rest) = Some (s, rest).
Proof.
  intros Hs. pose proof Hs as [Hu Hl]. unfold guard_decode_string. rewrite wire_Str, <- app_assoc by done.
  rewrite guard_read_varint_wire by (unfold MAX_STRING_LENGTH in Hl; lia). rewrite length_app.
  rewrite (proj2 (Z.ltb_ge _ _)) by lia. rewrite Nat2Z.id, take_app_length, drop_app_length. by rewrite Hu.
Qed.

(** The verdict on well-encoded strings: the longest one decides. *)
Lemma check_strings_wire max too_long rest l : Forall string_ok l ->
  check_strings (length l) max too_long (wire_many Str l ++ rest) =
    if existsb (fun s => Z.of_nat (length s) >? max) l then Err too_long else Ok tt.
Proof.
  unfold wire_many. induction l as [|s l IH]; [done|]. intros [Hs Hl]%Forall_cons.
  cbn [length check_strings map concat existsb]. rewrite <- app_assoc, guard_string_wire by done.
  destruct (_ >? _); [done|]. cbn [orb]. by apply IH.
Qed.

Lemma guard_varint_suffix n : forall r s src v rest, guard_varint_loop n r s src = Some (v, rest) ->
  exists used, src = used ++ rest /\ (length used <= n)%nat.
Proof.
  induction n as [|n IH]; intros r s src v rest; cbn [guard_varint_loop]; [done|].
  destruct src as [|b src]; [done|]. destruct (_ =? 0).
  - intros [= _ <-]. exists [b]. split; [done|cbn; lia].
  - intros (used & -> & Hu)%IH. exists (b :: used). split; [done|cbn; lia].
Qed.

Lemma guard_string_suffix data s rest : guard_decode_string data = Some (s, rest) ->
  utf8_valid s = true /\ exists used, data = used ++ s ++ rest /\ (length used <= 5)%nat.
Proof.
  unfold guard_decode_string. destruct (guard_read_varint data) as [[len d]|] eqn:E; [|done].
  apply guard_varint_suffix in E as (used & -> & Hu). destruct (_ <? _); [done|].
  destruct (utf8_valid _) eqn:Hv; [|done]. intros [= <- <-]. split; [done|]. exists used. by rewrite take_drop.
Qed.

(** What any accepted payload holds. *)
Lemma check_strings_ok max too_long n : forall data, check_strings n max too_long data = Ok tt ->
  exists l used rest, length l = n /\ data = used ++ rest /\
    Forall (fun s => utf8_valid s = true /\ Z.of_nat (length s) <= max) l /\
    Z.of_nat (length used) <= Z.of_nat n * (5 + max).
Proof.
  induction n as [|n IH]; intros data; cbn [check_strings].
  - intros _. exists [], [], data. split_and!; [done|done|constructor|cbn; lia].
  - destruct (guard_decode_string data) as [[s d]|] eqn:E; [|done].
    apply guard_string_suffix in E as (Hv & u & -> & Hu).
    destruct (Z.gtb_spec (Z.of_nat (length s)) max) as [|Hs]; [done|]. intros (l & used & rest & Hl & -> & Hf & Hlen)%IH.
    exists (s :: l), (u ++ s ++ used), rest. rewrite <- !app_assoc, !length_app. cbn [length]. split_and!; [lia|done| |lia].
    by apply Forall_cons.
Qed.

(** The book and sign checks are exact on well-encoded payloads: a book passes
    if and only if it has at most 100 pages of at most 1024 bytes each, a sign if
    and only if its four lines have at most 384 bytes each; and whatever bytes
    pass, they begin with at most 100 valid UTF-8 strings within those bounds, so
    a backend parsing them sees no oversized field. *)
Theorem book_and_sign_checks (pages lines : list bytes) (rest data : bytes) :
  Forall string_ok pages -> Forall string_ok lines -> length lines = 4%nat -> Z.of_nat (length pages) < 2 ^ 31 ->
  (check_book_edit (wire VarInt (Z.of_nat (length pages)) ++ wire_many Str pages ++ rest) = Ok tt <->
     Z.of_nat (length pages) <= 100 /\ Forall (fun s => Z.of_nat (length s) <= 1024) pages) /\
  (check_sign_update (wire_many Str lines ++ rest) = Ok tt <-> Forall (fun s => Z.of_nat (length s) <= 384) lines) /\
  (check_book_edit data = Ok tt -> exists n data', guard_read_varint data = Some (Z.of_nat n, data') /\ (n <= 100)%nat /\
     exists l used rest', length l = n /\ data' = used ++ rest' /\ Z.of_nat (length used) <= 100 * 1029 /\
       Forall (fun s => utf8_valid s = true /\ Z.of_nat (length s) <= 1024) l).
Proof.
  intros Hp Hl H4 Hn.
  assert (Hex : forall max too_long (l : list bytes), (if existsb (fun s => Z.of_nat (length s) >? max) l then Err too_long else Ok tt)
            = Ok (E := KickReason) tt <-> Forall (fun s => Z.of_nat (length s) <= max) l).
  { intros max too_long l. rewrite Forall_forall. destruct (existsb _ l) eqn:E.
    - apply existsb_exists in E as (s & Hs & Hgt%Z.gtb_lt). split; [done|]. intros H.
      apply list_elem_of_In in Hs. specialize (H s Hs). lia.
    - split; [|done]. intros _ s Hs. apply Z.nlt_ge. intros Hlt. apply Z.gtb_lt in Hlt.
      apply Bool.not_true_iff_false in E. apply E, existsb_exists. exists s. by rewrite <- list_elem_of_In. }
  split_and!.
  - unfold check_book_edit. rewrite guard_read_varint_wire by lia. unfold MAX_BOOK_PAGES.
    destruct (Z.gtb_spec (Z.of_nat (length pages)) 100); [split; [done|lia]|].
    rewrite Nat2Z.id, check_strings_wire, Hex by done. unfold MAX_BOOK_PAGE_LEN. split; [split; [lia|done]|tauto].
  - unfold check_sign_update. rewrite <- H4, check_strings_wire, Hex by done. done.
  - unfold check_book_edit. intros Hok. pose proof (guard_varint_agrees 5 0 0 data ltac:(width)) as Hv.
    unfold guard_read_varint in *. change (7 * 0) with 0 in Hv.
    destruct (guard_varint_loop 5 0 0 data) as [[v d]|]; [|done]. destruct Hv as [[Hv0 _] _].
    unfold MAX_BOOK_PAGES in Hok. destruct (Z.gtb_spec v 100) as [|Hle]; [done|].
    exists (Z.to_nat v), d. rewrite Z2Nat.id by lia. split_and!; [done|lia|].
    destruct (check_strings_ok _ _ _ _ Hok) as (l & used & r & Hl' & -> & Hf & Hlen).
    exists l, used, r. unfold MAX_BOOK_PAGE_LEN in *. split_and!; [done|done|lia|done].
Qed.

Lemma book_and_sign_checks_witness :
  check_book_edit (wire VarInt 2 ++ wire_many Str [lit "page one"; lit "page two"] ++ []) = Ok tt.
Proof.
  assert (Hok : Forall string_ok [lit "page one"; lit "page two"] /\ Forall string_ok [[]; []; []; []]).
  { split; repeat constructor; vm_compute; congruence. }
  apply (proj1 (book_and_sign_checks [lit "page one"; lit "page two"] [[]; []; []; []] [] []
    (proj1 Hok) (proj2 Hok) eq_refl ltac:(vm_compute; reflexivity))).
  split; [vm_compute; congruence|]. repeat constructor; vm_compute; congruence.
Defined.

(** ** Escaping *)

Definition hex_value (b : byte) : option Z :=
  let v := bz b in
  if (0x30 <=? v) && (v <=? 0x39) then Some (v - 0x30)
  else if (0x61 <=? v) && (v <=? 0x66) then Some (v - 0x57) else None.

(** UTF-8 of a scalar below 0x800. *)
Definition utf8_small (c : Z) : bytes := if c <? 0x80 then [zb c] else [zb (0xC0 + c / 64); zb (0x80 + c mod 64)].

(** The contents of a JSON string literal, read back; [None] where a raw control
    character or a quote would end or break it. *)
Fixpoint json_unescape (s : bytes) : option bytes :=
  match s with
  | [] => Some []
  | b :: s1 =>
      if decide (b = x5c) then
        match s1 with
        | x5c :: s2 => option_map (cons x5c) (json_unescape s2)
        | x22 :: s2 => option_map (cons x22) (json_unescape s2)
        | x6e :: s2 => option_map (cons x0a) (json_unescape s2)
        | x72 :: s2 => option_map (cons x0d) (json_unescape s2)
        | x74 :: s2 => option_map (cons x09) (json_unescape s2)
        | x75 :: h3 :: h2 :: h1 :: h0 :: s2 =>
            match hex_value h3, hex_value h2, hex_value h1, hex_value h0 with
            | Some v3, Some v2, Some v1, Some v0 =>
                option_map (app (utf8_small (v3 * 4096 + v2 * 256 + v1 * 16 + v0))) (json_unescape s2)
            | _, _, _, _ => None
            end
        | _ => None
        end
      else if (bz b <? 0x20) || bool_decide (b = x22) then None
      else option_map (cons b) (json_unescape s1)
  end.

Lemma unescape_pass raw rest : Forall (fun b => 0x80 <= bz b) raw ->
  json_unescape (raw ++ rest) = option_map (app raw) (json_unescape rest).
Proof.
  induction raw as [|b raw IH]; intros H; cbn [app].
  - by destruct (json_unescape rest).
  - apply Forall_cons in H as [Hb H]. cbn [json_unescape].
    rewrite decide_False by (intros ->; by apply Hb).
    rewrite (proj2 (Z.ltb_ge _ _)) by lia. rewrite bool_decide_false by (intros ->; by apply Hb).
    cbn [orb]. rewrite IH by done. by destruct (json_unescape rest).
Qed.

(** What [json_escape] does to one character. *)
Definition escape_char (p : Z * bytes) : bytes :=
  let '(c, raw) := p in
  if c =? 0x5C then [x5c; x5c]
  else if c =? 0x22 then [x5c; x22]
  else if c =? 0x0A then [x5c; x6e]
  else if c =? 0x0D then [x5c; x72]
  else if c =? 0x09 then [x5c; x74]
  else if is_control c then [x5c; x75] ++ hex4 c
  else raw.

Lemma escape_char_large c raw rest : 0x9F < c -> Forall (fun b => 0x80 <= bz b) raw ->
  json_unescape (escape_char (c, raw) ++ rest) = option_map (app raw) (json_unescape rest).
Proof.
  intros Hc Hr. cbn [escape_char]. unfold is_control.
  rewrite !(proj2 (Z.eqb_neq c _)), (proj2 (Z.leb_gt c 0x1F)), (proj2 (Z.leb_gt c 0x9F)) by lia.
  rewrite andb_false_r. by apply unescape_pass.
Qed.

Lemma escape_char_ascii b rest : bz b <= 0x7F ->
  json_unescape (escape_char (bz b, [b]) ++ rest) = option_map (app [b]) (json_unescape rest).
Proof. intros Hb. destruct b; try (exfalso; vm_compute in Hb; by apply Hb); reflexivity. Qed.

Lemma escape_char_two b0 b1 rest : in_range 0xC2 0xDF b0 = true -> in_range 0x80 0xBF b1 = true ->
  json_unescape (escape_char (Z.land (bz b0) 0x1F * 64 + Z.land (bz b1) 0x3F, [b0; b1]) ++ rest) =
    option_map (app [b0; b1]) (json_unescape rest).
Proof.
  intros H0 H1. destruct (decide (b0 = xc2)) as [->|Hne].
  - destruct b1; try (exfalso; vm_compute in H1; congruence); try reflexivity;
      (apply escape_char_large; [vm_compute; reflexivity|repeat constructor; vm_compute; congruence]).
  - assert (Hl : 3 <= Z.land (bz b0) 0x1F) by (destruct b0; try (exfalso; vm_compute in H0; congruence); vm_compute; congruence).
    unfold in_range in *. apply andb_true_iff in H0 as [?%Z.leb_le _]. apply andb_true_iff in H1 as [?%Z.leb_le _].
    assert (0 <= Z.land (bz b1) 0x3F) by (apply Z.land_nonneg; left; apply bz_range).
    apply escape_char_large; [lia|]. repeat constructor; lia.
Qed.

Lemma high_byte lo hi b : 0x80 <= lo -> in_range lo hi b = true -> 0x80 <= bz b.
Proof. unfold in_range. intros H [?%Z.leb_le _]%andb_true_iff. lia. Qed.

(** Escaping is safe: for every string the escaped text is a JSON string body
    that reads back to exactly the string, so a kick reason cannot close its
    literal or smuggle a control character. *)
Theorem json_escape_roundtrip (s : bytes) : utf8_valid s = true -> json_unescape (json_escape s) = Some s.
Proof.
  change (json_escape s) with (flat_map escape_char (chars s)).
  induction s as [s IH] using (induction_ltof1 _ (@length byte)). unfold ltof in IH.
  destruct s as [|b0 s1]; [done|]. cbn [utf8_valid chars].
  assert (Hle : forall b lo hi, in_range lo hi b = true -> lo <= bz b <= hi).
  { unfold in_range. intros b lo hi [?%Z.leb_le ?%Z.leb_le]%andb_true_iff. lia. }
  assert (Hland : forall b k, 0 <= Z.land (bz b) k) by (intros b k; apply Z.land_nonneg; left; apply bz_range).
  destruct (in_range 0 0x7F b0) eqn:E0.
  { intros Hv. apply Hle in E0. rewrite (proj2 (Z.leb_le (bz b0) 0x7F)) by lia. cbn [flat_map].
    rewrite escape_char_ascii by lia. rewrite IH; [done|cbn; lia|done]. }
  destruct s1 as [|b1 s2]; [done|]. destruct (in_range 0xC2 0xDF b0) eqn:E1.
  { intros [H1 Hv]%andb_true_iff. pose proof (Hle _ _ _ E1).
    rewrite (proj2 (Z.leb_gt (bz b0) 0x7F)), (proj2 (Z.leb_le (bz b0) 0xDF)) by lia. cbn [flat_map].
    rewrite escape_char_two by done. rewrite IH; [done|cbn; lia|done]. }
  destruct s2 as [|b2 s3]; [done|]. destruct (in_range 0xE0 0xEF b0) eqn:E2.
  { intros [[H1 H2]%andb_true_iff Hv]%andb_true_iff. pose proof (Hle _ _ _ E2).
    rewrite (proj2 (Z.leb_gt (bz b0) 0x7F)), (proj2 (Z.leb_gt (bz b0) 0xDF)), (proj2 (Z.leb_le (bz b0) 0xEF)) by lia.
    cbn [flat_map]. rewrite escape_char_large; [rewrite IH; [done|cbn; lia|done]| |].
    - assert (Hc : 1 <= Z.land (bz b0) 0x0F \/ 32 <= Z.land (bz b1) 0x3F).
      { destruct (decide (b0 = xe0)) as [->|Hne]; [right|left].
        - destruct b1; try (exfalso; vm_compute in H1; congruence); vm_compute; congruence.
        - destruct b0; try (exfalso; vm_compute in E2; congruence); try done; vm_compute; congruence. }
      pose proof (Hland b0 0x0F). pose proof (Hland b1 0x3F). pose proof (Hland b2 0x3F). lia.
    - assert (Hb1 : 0x80 <= bz b1) by (repeat (case_match; try (by eapply high_byte; [|eassumption]; lia))).
      repeat constructor; [lia|lia|by eapply high_byte; [|eassumption]; lia]. }
  destruct s3 as [|b3 s4]; [done|]. intros [[[[H0 H1]%andb_true_iff H2]%andb_true_iff H3]%andb_true_iff Hv]%andb_true_iff.
  pose proof (Hle _ _ _ H0).
  rewrite (proj2 (Z.leb_gt (bz b0) 0x7F)), (proj2 (Z.leb_gt (bz b0) 0xDF)), (proj2 (Z.leb_gt (bz b0) 0xEF)) by lia.
  cbn [flat_map]. rewrite escape_char_large; [rewrite IH; [done|cbn; lia|done]| |].
  - assert (Hc : 1 <= Z.land (bz b0) 0x07 \/ 16 <= Z.land (bz b1) 0x3F).
    { destruct (decide (b0 = xf0)) as [->|Hne]; [right|left].
      - destruct b1; try (exfalso; vm_compute in H1; congruence); vm_compute; congruence.
      - destruct b0; try (exfalso; vm_compute in H0; congruence); try done; vm_compute; congruence. }
    pose proof (Hland b0 0x07). pose proof (Hland b1 0x3F). pose proof (Hland b2 0x3F). pose proof (Hland b3 0x3F). lia.
  - assert (Hb1 : 0x80 <= bz b1) by (repeat (case_match; try (by eapply high_byte; [|eassumption]; lia))).
    pose proof (Hle _ _ _ H2). pose proof (Hle _ _ _ H3). repeat constructor; lia.
Qed.
