(* ===== verification/Query.v ===== *)
(** * Server-list query

    crates/proxy-core/src/net/query.rs: the UDP query protocol with its challenge
    table.  The clock (nanoseconds) and the random token are arguments of the
    packet that uses them; the parts of [ProxyState] that answers report are a
    record. *)
From Stdlib Require Import ZArith Lia Strings.Byte.
From stdpp Require Import base list numbers gmap strings.
From S2P Require Import Prelude Buf IpAddr.
Local Open Scope Z_scope.

Definition MAGIC : bytes := [xfe; xfd].
Definition TYPE_HANDSHAKE : Z := 0x09.
Definition TYPE_STAT : Z := 0x00.
Definition CHALLENGE_TTL : Z := 30 * 1000000000.
Definition MAX_CHALLENGES : Z := 100000.

Record Challenge := mkChallenge { token : Z; issued_at : Z }.

(** A [SocketAddr] with a session id, as a key: the address with its family, the
    port, the session. *)
Abbreviation query_key := (bytes * Z * Z)%type.
Abbreviation challenges := (gmap query_key Challenge).
Abbreviation SocketAddr := (IpAddr * Z)%type.

Definition key_of (addr : SocketAddr) (session_id : Z) : query_key :=
  (match addr.1 with V4 o => x04 :: o | V6 o => x06 :: o end, addr.2, session_id).

(** What the answers report: configured texts and limits, the backends and the
    sessions, a name for each session whose lock is free. *)
Record QueryState := mkQueryState {
  motd : bytes;
  max_players : Z;
  bind_addr : bytes;
  server_names : list bytes;
  session_names : list (option bytes) }.

(** [to_string] of an unsigned number; 20 digits hold any [u64]. *)
Fixpoint dec_digits (fuel : nat) (z : Z) (acc : bytes) : bytes :=
  match fuel with
  | O => acc
  | S fuel' =>
      let acc := zb (0x30 + z mod 10) :: acc in
      if z <? 10 then acc else dec_digits fuel' (z / 10) acc
  end.
Definition to_string (z : Z) : bytes := dec_digits 20 z [].

Definition push_cstr (s : bytes) : bytes := s ++ [x00].

Definition rsplit_once (c : Z) (s : bytes) : option (bytes * bytes) :=
  match split_once c (rev s) with Some (r, l) => Some (rev l, rev r) | None => None end.

Definition snapshot (st : QueryState) : bytes * Z * Z * Z :=
  let port := match rsplit_once 0x3A (bind_addr st) with
              | Some (_, p) => default 25565 (parse_uint 65535 p)
              | None => 25565
              end in
  (motd st, Z.of_nat (length (session_names st)), max_players st, port).

Definition basic_stat_response (st : QueryState) (session_id : Z) : bytes :=
  let '(motd, online, max, port) := snapshot st in
  [zb TYPE_STAT] ++ be_bytes 4 session_id ++ push_cstr motd ++ push_cstr (lit "SMP") ++ push_cstr (lit "world")
  ++ push_cstr (to_string online) ++ push_cstr (to_string max) ++ rev (be_bytes 2 port) ++ push_cstr (lit "0.0.0.0").

(** [join("; ")] *)
Fixpoint join (sep : bytes) (l : list bytes) : bytes :=
  match l with
  | [] => []
  | [s] => s
  | s :: l' => s ++ sep ++ join sep l'
  end.

Definition full_stat_response (st : QueryState) (session_id : Z) : bytes :=
  let '(motd, online, max, port) := snapshot st in
  let kv := [(lit "hostname", motd); (lit "gametype", lit "SMP"); (lit "game_id", lit "MINECRAFT");
             (lit "version", lit "1.6-1.26"); (lit "plugins", join (lit "; ") (server_names st));
             (lit "map", lit "world"); (lit "numplayers", to_string online); (lit "maxplayers", to_string max);
             (lit "hostport", to_string port); (lit "hostip", lit "0.0.0.0")] in
  [zb TYPE_STAT] ++ be_bytes 4 session_id ++ lit "splitnum" ++ [x00; x80; x00]
  ++ flat_map (fun '(k, v) => push_cstr k ++ push_cstr v) kv ++ [x00; x00]
  ++ [x01] ++ lit "player_" ++ [x00; x00]
  ++ flat_map (fun s => match s with Some name => push_cstr name | None => [] end) (session_names st) ++ [x00].

Definition handshake_response (now draw : Z) (addr : SocketAddr) (session_id : Z) (m : challenges) : bytes * challenges :=
  let m := if Z.of_nat (size m) <? MAX_CHALLENGES then <[key_of addr session_id := mkChallenge draw now]> m else m in
  ([zb TYPE_HANDSHAKE] ++ be_bytes 4 session_id ++ to_string draw ++ [x00], m).

Definition verify_challenge (now : Z) (addr : SocketAddr) (session_id tok : Z) (m : challenges) : bool :=
  match m !! key_of addr session_id with
  | Some c => if now - issued_at c <? CHALLENGE_TTL then token c =? tok else false
  | None => false
  end.

Definition query_evict_stale (now : Z) (m : challenges) : challenges :=
  filter (fun p => (now - issued_at p.2 <? CHALLENGE_TTL) = true) m.

(** [i32::from_be_bytes(data[a..a+4])] *)
Definition i32_at (a : nat) (data : bytes) : Z := wraps 32 (be_val (take 4 (drop a data))).

Definition handle_packet (st : QueryState) (now draw : Z) (data : bytes) (addr : SocketAddr) (m : challenges)
  : option bytes * challenges :=
  if (length data <? 7)%nat || negb (bool_decide (take 2 data = MAGIC)) then (None, m)
  else
    let packet_type := be_val (take 1 (drop 2 data)) in
    let session_id := i32_at 3 data in
    if packet_type =? TYPE_HANDSHAKE then
      let '(r, m) := handshake_response now draw addr session_id m in (Some r, m)
    else if packet_type =? TYPE_STAT then
      if (length data <? 11)%nat then (None, m)
      else
        let tok := i32_at 7 data in
        if negb (verify_challenge now addr session_id tok m) then (None, m)
        else if (15 <=? length data)%nat then (Some (full_stat_response st session_id), m)
        else (Some (basic_stat_response st session_id), m)
    else (None, m).

(** ** Numbers as text *)

Lemma to_digit_dec d : 0 <= d < 10 -> to_digit 10 (zb (0x30 + d)) = Some d.
Proof.
  intros Hd. unfold to_digit. rewrite bz_zb, Z.mod_small by lia. cbv zeta.
  rewrite (proj2 (Z.leb_le 48 (48 + d))), (proj2 (Z.leb_le (48 + d) 57)) by lia. cbn [andb].
  replace (48 + d - 48) with d by lia. by rewrite (proj2 (Z.ltb_lt d 10)) by lia.
Qed.

(** Reading printed digits: what was read before is scaled by their weight. *)
Lemma read_dec_digits fuel : forall z s a c, 0 <= z < 10 ^ Z.of_nat fuel ->
  exists w k, ((0 < fuel)%nat -> (0 < k)%nat) /\
    read_digits 10 (dec_digits fuel z s) a c = read_digits 10 s (a * w + z) (c + k)%nat.
Proof.
  induction fuel as [|fuel IH]; intros z s a c Hz; cbn [dec_digits].
  - exists 1, 0%nat. split; [lia|]. cbn in Hz. f_equal; lia.
  - assert (Hm : 0 <= z mod 10 < 10) by (apply Z.mod_pos_bound; lia). destruct (Z.ltb_spec z 10).
    + exists 10, 1%nat. split; [lia|]. cbn [read_digits]. rewrite to_digit_dec, (Z.mod_small z 10) by lia. f_equal. lia.
    + assert (Hz' : 0 <= z / 10 < 10 ^ Z.of_nat fuel).
      { rewrite Nat2Z.inj_succ, Z.pow_succ_r in Hz by lia. split; [apply Z.div_pos; lia|apply Z.div_lt_upper_bound; lia]. }
      destruct (IH (z / 10) (zb (0x30 + z mod 10) :: s) a c Hz') as (w & k & _ & ->).
      exists (w * 10), (S k). split; [lia|]. cbn [read_digits]. rewrite to_digit_dec by lia.
      f_equal; [|lia]. pose proof (Z.div_mod z 10 ltac:(lia)). lia.
Qed.

Lemma dec_digits_not_plus fuel z s : 0 <= z -> (0 < fuel)%nat ->
  exists d l, 0 <= d < 10 /\ dec_digits fuel z s = zb (0x30 + d) :: l.
Proof.
  revert z s. induction fuel as [|fuel IH]; intros z s Hz Hf; [lia|]. cbn [dec_digits].
  assert (Hm : 0 <= z mod 10 < 10) by (apply Z.mod_pos_bound; lia).
  destruct (Z.ltb_spec z 10); [by eexists _, _|]. destruct fuel as [|fuel]; [by eexists _, _|].
  apply IH; [apply Z.div_pos; lia|lia].
Qed.

Lemma parse_to_string limit z : 0 <= z <= limit -> z < 10 ^ 20 -> parse_uint limit (to_string z) = Some z.
Proof.
  intros Hz Hb. unfold parse_uint, to_string.
  destruct (dec_digits_not_plus 20 z [] ltac:(lia) ltac:(lia)) as (d & l & Hd & E).
  destruct (read_dec_digits 20 z [] 0 0 ltac:(lia)) as (w & k & Hk & Hr). rewrite E in *.
  rewrite bz_zb, Z.mod_small, (proj2 (Z.eqb_neq (48 + d) 43)) by lia. rewrite Hr. cbn [read_digits].
  replace (0 * w + z) with z by lia. specialize (Hk ltac:(lia)).
  rewrite (proj2 (Nat.eqb_neq (0 + k) 0)), Z.gtb_ltb, (proj2 (Z.ltb_ge _ _)) by lia. done.
Qed.

(** ** Runs *)

Inductive query_event :=
  | Received (now draw : Z) (data : bytes) (addr : SocketAddr)
  | Swept (now : Z).

Definition query_step (st : QueryState) (m : challenges) (e : query_event) : challenges :=
  match e with
  | Received now draw data addr => (handle_packet st now draw data addr m).2
  | Swept now => query_evict_stale now m
  end.

Definition query_run (st : QueryState) (es : list query_event) : challenges := fold_left (query_step st) es ∅.

Definition is_request (packet_type : Z) (len : nat) (data : bytes) : Prop :=
  (len <= length data)%nat /\ take 2 data = MAGIC /\ be_val (take 1 (drop 2 data)) = packet_type.

(** The challenge was handed out by an earlier packet from this address. *)
Definition issued (es : list query_event) (k : query_key) (c : Challenge) : Prop :=
  exists data addr, Received (issued_at c) (token c) data addr ∈ es /\
    is_request TYPE_HANDSHAKE 7 data /\ k = key_of addr (i32_at 3 data).

Lemma key_of_inj a b s t : key_of a s = key_of b t -> a = b /\ s = t.
Proof. destruct a as [[] ?], b as [[] ?]; cbn; intros; by simplify_eq. Qed.

Lemma handle_packet_issued st now draw data addr m es :
  map_Forall (issued es) m -> map_Forall (issued (es ++ [Received now draw data addr])) (handle_packet st now draw data addr m).2.
Proof.
  intros Hm. assert (Hm' : map_Forall (issued (es ++ [Received now draw data addr])) m).
  { intros k c Hk. destruct (Hm k c Hk) as (d & a & Hin & H). exists d, a. split; [|done]. apply elem_of_app. by left. }
  unfold handle_packet. destruct (Nat.ltb_spec (length data) 7) as [|H7]; [done|].
  destruct (bool_decide_reflect (take 2 data = MAGIC)) as [Hg|]; [|done]. cbn [orb negb]. cbv zeta.
  destruct (Z.eqb_spec (be_val (take 1 (drop 2 data))) TYPE_HANDSHAKE) as [Ht|_].
  - unfold handshake_response. cbn [snd]. destruct (_ <? _); [|done].
    apply map_Forall_insert_2; [|done]. exists data, addr. split; [|done]. apply elem_of_app. right. constructor.
  - repeat case_match; done.
Qed.

Lemma query_run_issued st es : map_Forall (issued es) (query_run st es).
Proof.
  induction es as [|e es IH] using rev_ind; [apply map_Forall_empty|]. unfold query_run in *. rewrite fold_left_app. cbn [fold_left].
  destruct e as [now draw data addr|now]; cbn [query_step]; [by apply handle_packet_issued|].
  intros k c Hk. apply map_lookup_filter_Some in Hk as [Hk _]. destruct (IH k c Hk) as (d & a & Hin & H).
  exists d, a. split; [|done]. apply elem_of_app. by left.
Qed.

(** The query port is no amplifier: however packets from spoofed and honest
    sources are interleaved with clean-up passes, a statistics answer goes to an
    address only when a handshake from that very address and session was answered
    less than 30 seconds before with the token the request carries.  Conversely a
    handshake that finds room is honoured: the token it prints reads back, and the
    request carrying it within 30 seconds gets the full or the basic answer. *)
Theorem query_no_reflection (st : QueryState) (es : list query_event) (now draw : Z) (data : bytes) (addr : SocketAddr) :
  (forall r, be_val (take 1 (drop 2 data)) = TYPE_STAT ->
     (handle_packet st now draw data addr (query_run st es)).1 = Some r ->
     exists t d, Received t (i32_at 7 data) d addr ∈ es /\ is_request TYPE_HANDSHAKE 7 d /\
       i32_at 3 d = i32_at 3 data /\ now - t < CHALLENGE_TTL) /\
  (forall m t tok d, is_request TYPE_HANDSHAKE 7 d -> 1 <= tok < 2 ^ 31 -> Z.of_nat (size m) < MAX_CHALLENGES ->
     is_request TYPE_STAT 11 data -> i32_at 3 data = i32_at 3 d -> i32_at 7 data = tok -> now - t < CHALLENGE_TTL ->
     exists text, (handle_packet st t tok d addr m).1 =
         Some ([zb TYPE_HANDSHAKE] ++ be_bytes 4 (i32_at 3 d) ++ text ++ [x00]) /\
       parse_uint (2 ^ 31 - 1) text = Some tok /\
       (handle_packet st now draw data addr (handle_packet st t tok d addr m).2).1 =
         Some ((if (15 <=? length data)%nat then full_stat_response else basic_stat_response) st (i32_at 3 data))).
Proof.
  split.
  - intros r Ht. pose proof (query_run_issued st es) as Hm. set (m := query_run st es) in *. clearbody m.
    unfold handle_packet. rewrite Ht. destruct (_ || _); [done|]. cbn [Z.eqb TYPE_STAT TYPE_HANDSHAKE].
    destruct (_ <? _)%nat; [done|]. unfold verify_challenge.
    destruct (m !! key_of addr (i32_at 3 data)) as [c|] eqn:E; [|done].
    destruct (Z.ltb_spec (now - issued_at c) CHALLENGE_TTL) as [Htime|]; [|done].
    destruct (Z.eqb_spec (token c) (i32_at 7 data)) as [Htok|]; [|done]. intros _.
    destruct (Hm _ _ E) as (d & a & Hin & Hd & Hkey). apply key_of_inj in Hkey as [<- Hs].
    exists (issued_at c), d. by rewrite <- Htok.
  - intros m t tok d (H7 & Hg & Hty) Htok Hsize (H11 & Hg' & Hty') Hs Hk Htime. exists (to_string tok).
    assert (E : handle_packet st t tok d addr m =
      (Some ([zb TYPE_HANDSHAKE] ++ be_bytes 4 (i32_at 3 d) ++ to_string tok ++ [x00]),
       <[key_of addr (i32_at 3 d) := mkChallenge tok t]> m)).
    { unfold handle_packet. rewrite (proj2 (Nat.ltb_ge _ _)), bool_decide_true, Hty by done. cbn [orb negb Z.eqb TYPE_HANDSHAKE Pos.eqb].
      unfold handshake_response. by rewrite (proj2 (Z.ltb_lt _ _) Hsize). }
    rewrite E. cbn [fst snd]. split_and!; [done|apply parse_to_string; lia|].
    unfold handle_packet. rewrite (proj2 (Nat.ltb_ge _ 7)), bool_decide_true, Hty' by (done || lia).
    cbn [orb negb Z.eqb TYPE_HANDSHAKE TYPE_STAT]. rewrite (proj2 (Nat.ltb_ge _ 11)) by lia.
    unfold verify_challenge. rewrite Hs, lookup_insert_eq. cbn [issued_at token].
    rewrite (proj2 (Z.ltb_lt _ _) Htime), Hk, Z.eqb_refl. cbn [negb]. by destruct (15 <=? length data)%nat.
Qed.
