(* ===== verification/Pools.v ===== *)
(** * Buffer and connection pools

    crates/proxy-core/src/buffer_pool.rs and net/connection_pool.rs.  A [BytesMut]
    is its capacity and contents; an [ArrayQueue] is the list of its elements,
    oldest first; each queue operation is atomic, so concurrent callers are a
    sequence of operations.  How large an allocation comes out, whether a socket
    is still alive and whether a dial succeeds are arguments. *)
From Stdlib Require Import ZArith Lia Strings.Byte.
From stdpp Require Import base list numbers strings.
From S2P Require Import Prelude Buf Wire.
Local Open Scope Z_scope.

(** ** Buffers *)

Record BytesMut := mkBytesMut { capacity : Z; contents : bytes }.
Definition clear (b : BytesMut) : BytesMut := mkBytesMut (capacity b) [].

Record BufferPool := mkPool { small : list BytesMut; medium : list BytesMut; large : list BytesMut }.

Definition SMALL_MAX : Z := 2048.
Definition MEDIUM_MAX : Z := 32768.
Definition LARGE_MAX : Z := 524288.
Definition SMALL_DEPTH : nat := 64.
Definition MEDIUM_DEPTH : nat := 64.
Definition LARGE_DEPTH : nat := 16.

(** [ArrayQueue::push] of a queue of [depth] places, whose error is ignored. *)
Definition push (depth : nat) (b : BytesMut) (q : list BytesMut) : list BytesMut :=
  if (length q <? depth)%nat then q ++ [b] else q.
Definition pop (q : list BytesMut) : option BytesMut * list BytesMut :=
  match q with [] => (None, []) | b :: q' => (Some b, q') end.

Definition pool_new : BufferPool := mkPool [] [] [].

Section Allocation.
(** The capacity [BytesMut::with_capacity] gives for a wish. *)
Context (alloc : Z -> Z).

(** The match on [pool.pop()]. *)
Definition reuse (size_hint min_cap : Z) (popped : option BytesMut) : BytesMut :=
  match popped with
  | Some buf => if capacity buf >=? size_hint then clear buf else mkBytesMut (alloc min_cap) []
  | None => mkBytesMut (alloc min_cap) []
  end.

Definition pool_acquire (size_hint : Z) (p : BufferPool) : BytesMut * BufferPool :=
  if size_hint <=? SMALL_MAX then
    let '(b, q) := pop (small p) in (reuse size_hint (Z.max SMALL_MAX size_hint) b, mkPool q (medium p) (large p))
  else if size_hint <=? MEDIUM_MAX then
    let '(b, q) := pop (medium p) in (reuse size_hint (Z.max MEDIUM_MAX size_hint) b, mkPool (small p) q (large p))
  else
    let '(b, q) := pop (large p) in (reuse size_hint size_hint b, mkPool (small p) (medium p) q).

End Allocation.

Definition pool_release (buffer : BytesMut) (p : BufferPool) : BufferPool :=
  let buffer := clear buffer in
  let cap := capacity buffer in
  if cap <=? SMALL_MAX then mkPool (push SMALL_DEPTH buffer (small p)) (medium p) (large p)
  else if cap <=? MEDIUM_MAX then mkPool (small p) (push MEDIUM_DEPTH buffer (medium p)) (large p)
  else if cap <=? LARGE_MAX then mkPool (small p) (medium p) (push LARGE_DEPTH buffer (large p))
  else p.

Definition depths (p : BufferPool) : nat * nat * nat := (length (small p), length (medium p), length (large p)).

(** ** Backend connections *)

Section Connections.
Context {TcpStream : Type} (is_alive : TcpStream -> bool).

Record ConnectionPool := mkConnPool { connections : list TcpStream; max_size : nat }.

(** The loop of [acquire]: pooled streams are dropped until one is alive. *)
Fixpoint take_alive (l : list TcpStream) : option TcpStream * list TcpStream :=
  match l with
  | [] => (None, [])
  | c :: l' => if is_alive c then (Some c, l') else take_alive l'
  end.

(** [dial]: how connecting within the timeout ends; [None] is the timeout. *)
Definition conn_acquire (dial : option (outcome ErrorKind TcpStream)) (p : ConnectionPool)
  : outcome ErrorKind TcpStream * ConnectionPool :=
  match take_alive (connections p) with
  | (Some c, l) => (Ok c, mkConnPool l (max_size p))
  | (None, l) => (match dial with Some r => r | None => Err KTimedOut end, mkConnPool l (max_size p))
  end.

Definition conn_release (c : TcpStream) (p : ConnectionPool) : ConnectionPool :=
  if negb (is_alive c) then p
  else if (length (connections p) <? max_size p)%nat then mkConnPool (connections p ++ [c]) (max_size p)
  else p.

Definition pool_size (p : ConnectionPool) : nat := length (connections p).

End Connections.
Arguments ConnectionPool : clear implicits.
Arguments mkConnPool {TcpStream}.
Arguments connections {TcpStream}.
Arguments max_size {TcpStream}.

(** ** The buffer pool is bounded and hands out clean buffers *)

Inductive pool_op := Acquire (size_hint : Z) | Release (b : BytesMut).

Definition pool_step (alloc : Z -> Z) (p : BufferPool) (op : pool_op) : BufferPool :=
  match op with
  | Acquire n => (pool_acquire alloc n p).2
  | Release b => pool_release b p
  end.

(** A tier: no deeper than its queue, only cleared buffers of its sizes. *)
Definition tier (depth : nat) (lo hi : Z) (q : list BytesMut) : Prop :=
  (length q <= depth)%nat /\ Forall (fun b => contents b = [] /\ lo <= capacity b <= hi) q.

Definition pool_inv (p : BufferPool) : Prop :=
  tier SMALL_DEPTH 0 SMALL_MAX (small p) /\ tier MEDIUM_DEPTH (SMALL_MAX + 1) MEDIUM_MAX (medium p) /\
  tier LARGE_DEPTH (MEDIUM_MAX + 1) LARGE_MAX (large p).

Lemma tier_push depth lo hi b q : tier depth lo hi q -> contents b = [] -> lo <= capacity b <= hi ->
  tier depth lo hi (push depth b q).
Proof.
  intros [Hl Hf] Hb Hc. unfold push. destruct (Nat.ltb_spec (length q) depth); [|done].
  split; [rewrite length_app; cbn; lia|]. apply Forall_app. split; [done|]. by rewrite Forall_singleton.
Qed.

Lemma tier_pop depth lo hi q : tier depth lo hi q ->
  tier depth lo hi (pop q).2 /\ forall b, (pop q).1 = Some b -> contents b = [].
Proof.
  intros [Hl Hf]. destruct q as [|b q]; [done|]. cbn. apply Forall_cons in Hf as [[Hb _] Hf].
  split; [split; [cbn in Hl; lia|done]|]. by intros ? [= <-].
Qed.

Definition pooled_bytes (q : list BytesMut) : Z := fold_right (fun b n => capacity b + n) 0 q.

Lemma tier_bytes depth lo hi q : 0 <= hi -> tier depth lo hi q -> pooled_bytes q <= Z.of_nat depth * hi.
Proof.
  intros Hh [Hl Hf]. assert (H : pooled_bytes q <= Z.of_nat (length q) * hi); [|nia].
  clear Hl. induction q as [|b q IH]; cbn [pooled_bytes fold_right length]; [lia|].
  apply Forall_cons in Hf as [[_ Hb] Hf]. specialize (IH Hf). unfold pooled_bytes in IH. lia.
Qed.

Lemma reuse_clean alloc n m b : (forall k, k <= alloc k) -> n <= m ->
  contents (reuse alloc n m b) = [] /\ n <= capacity (reuse alloc n m b).
Proof.
  intros Ha Hn. pose proof (Ha m). unfold reuse. destruct b as [b|]; [|split; [done|cbn; lia]].
  destruct (Z.geb_spec (capacity b) n); split; try done; cbn; lia.
Qed.

Lemma acquire_inv alloc n p : pool_inv p -> pool_inv (pool_acquire alloc n p).2.
Proof.
  intros (Hs & Hm & Hl). unfold pool_acquire.
  pose proof (proj1 (tier_pop _ _ _ _ Hs)). pose proof (proj1 (tier_pop _ _ _ _ Hm)). pose proof (proj1 (tier_pop _ _ _ _ Hl)).
  destruct (_ <=? _); [destruct (pop (small p))|destruct (_ <=? _); [destruct (pop (medium p))|destruct (pop (large p))]]; done.
Qed.

Lemma release_inv b p : 0 <= capacity b -> pool_inv p -> pool_inv (pool_release b p).
Proof.
  intros Hb (Hs & Hm & Hl). unfold pool_release. cbn [clear capacity].
  destruct (Z.leb_spec (capacity b) SMALL_MAX); [split_and!; try done; apply tier_push; try done; cbn; lia|].
  destruct (Z.leb_spec (capacity b) MEDIUM_MAX); [split_and!; try done; apply tier_push; try done; cbn; lia|].
  destruct (Z.leb_spec (capacity b) LARGE_MAX); [split_and!; try done; apply tier_push; try done; cbn; lia|done].
Qed.

Definition op_ok (op : pool_op) : Prop := match op with Acquire _ => True | Release b => 0 <= capacity b end.

Lemma run_inv alloc ops : Forall op_ok ops -> pool_inv (fold_left (pool_step alloc) ops pool_new).
Proof.
  induction ops as [|op ops IH] using rev_ind; intros Hf.
  - split_and!; split; try (cbn; lia); constructor.
  - apply Forall_app in Hf as [Hf Hop]. rewrite Forall_singleton in Hop. rewrite fold_left_app. cbn [fold_left].
    destruct op; cbn [pool_step]; [by apply acquire_inv, IH|by apply release_inv, IH].
Qed.

(** The buffer pool after any sequence of acquisitions and releases: what it
    holds is bounded (at most 64, 64 and 16 buffers, together under 10.2 MiB),
    and a buffer it hands out is empty, whatever its last owner left in it, and
    large enough for the wish. *)
Theorem buffer_pool_safe (alloc : Z -> Z) (ops : list pool_op) (size_hint : Z) :
  (forall k, k <= alloc k) -> Forall op_ok ops ->
  let p := fold_left (pool_step alloc) ops pool_new in
  let b := (pool_acquire alloc size_hint p).1 in
  (length (small p) <= 64)%nat /\ (length (medium p) <= 64)%nat /\ (length (large p) <= 16)%nat /\
  pooled_bytes (small p) + pooled_bytes (medium p) + pooled_bytes (large p) <= 10616832 /\
  contents b = [] /\ size_hint <= capacity b.
Proof.
  intros Ha Hf. cbv zeta. pose proof (run_inv alloc ops Hf) as (Hs & Hm & Hl).
  set (p := fold_left _ _ _) in *. clearbody p.
  pose proof (tier_bytes _ _ SMALL_MAX _ ltac:(done) Hs) as Bs. pose proof (tier_bytes _ _ MEDIUM_MAX _ ltac:(done) Hm) as Bm.
  pose proof (tier_bytes _ _ LARGE_MAX _ ltac:(done) Hl) as Bl.
  change (Z.of_nat SMALL_DEPTH * SMALL_MAX) with 131072 in Bs. change (Z.of_nat MEDIUM_DEPTH * MEDIUM_MAX) with 2097152 in Bm.
  change (Z.of_nat LARGE_DEPTH * LARGE_MAX) with 8388608 in Bl.
  split_and!; [apply Hs|apply Hm|apply Hl|lia|..]; unfold pool_acquire;
    (destruct (_ <=? _); [destruct (pop _)|destruct (_ <=? _); destruct (pop _)]); cbn [fst]; apply reuse_clean; try done; lia.
Qed.

Lemma buffer_pool_safe_witness :
  let p := fold_left (pool_step (fun k => k)) [Release (mkBytesMut 2048 (lit "secret"))] pool_new in
  length (small p) = 1%nat /\ contents (pool_acquire (fun k => k) 100 p).1 = [].
Proof.
  cbv zeta. split; [reflexivity|].
  apply (buffer_pool_safe (fun k => k) [Release (mkBytesMut 2048 (lit "secret"))] 100).
  - intros k. lia.
  - repeat constructor. vm_compute. congruence.
Defined.

(** ** The connection pool *)

(** An acquisition takes the oldest pooled connection that is alive and drops the
    dead ones in front of it; with none alive it dials with an empty pool.  A
    released connection is kept only alive and while there is room, so the pool
    never outgrows its limit and a live one put into an empty pool is the next
    one handed out. *)
Theorem connection_pool_spec {T} (is_alive : T -> bool) (dial : option (outcome ErrorKind T)) (c : T) (p : ConnectionPool T) :
  match (take_alive is_alive (connections p)).1 with
  | Some a => is_alive a = true /\ exists dead, connections p = dead ++ a :: connections (conn_acquire is_alive dial p).2 /\
      Forall (fun d => is_alive d = false) dead /\ (conn_acquire is_alive dial p).1 = Ok a
  | None => Forall (fun d => is_alive d = false) (connections p) /\ connections (conn_acquire is_alive dial p).2 = [] /\
      (conn_acquire is_alive dial p).1 = match dial with Some r => r | None => Err KTimedOut end
  end /\
  ((pool_size p <= max_size p)%nat -> (pool_size (conn_release is_alive c p) <= max_size p)%nat) /\
  (connections p = [] -> (0 < max_size p)%nat -> is_alive c = true ->
     (conn_acquire is_alive dial (conn_release is_alive c p)).1 = Ok c).
Proof.
  split_and!.
  - unfold conn_acquire. destruct p as [l n]. cbn [connections max_size].
    induction l as [|a l IH]; cbn [take_alive]; [by split_and!|].
    destruct (is_alive a) eqn:E; [split; [done|by exists []]|].
    destruct (take_alive is_alive l) as [[b|] r]; cbn [fst connections] in *.
    + destruct IH as (Hb & dead & -> & Hd & Hok). split; [done|]. exists (a :: dead). split_and!; [done|by constructor|done].
    + destruct IH as (Hf & Hr & Hd). split_and!; [by constructor|done|done].
  - unfold pool_size, conn_release. destruct (negb _); [done|].
    destruct (Nat.ltb_spec (length (connections p)) (max_size p)); [|done]. cbn. rewrite length_app. cbn. lia.
  - intros He Hm Ha. unfold conn_release, conn_acquire. rewrite Ha, He. cbn [negb length].
    rewrite (proj2 (Nat.ltb_lt 0 _) Hm). cbn [connections app take_alive]. by rewrite Ha.
Qed.
