(* ===== verification/Reputation.v ===== *)
(** * IP reputation

    crates/proxy-core/src/net/ip_reputation.rs: the static block list and the
    cached verdicts of an external provider.  Each check is given the time it
    runs at (nanoseconds) and how its query ends, should it make one: the verdict
    of a well-formed answer, or [None] for a timeout, a transport error, a status
    other than success or an unreadable body. *)
From Stdlib Require Import ZArith Lia Strings.Byte.
From stdpp Require Import base list numbers gmap strings.
From S2P Require Import Prelude Buf IpAddr Routing Throttle Guard.
Local Open Scope Z_scope.

Definition MAX_CACHE_ENTRIES : Z := 500000.

Record IpReputationConfig := mkReputationConfig {
  cfg_blocklist_cidrs : list bytes;
  cfg_provider_url : option bytes;
  cfg_cache_ttl_secs : Z }.

Record IpReputationFilter := mkFilter {
  blocklist_cidrs : list bytes;
  provider_url : option bytes;
  cache_ttl : Z;
  cache : gmap bytes (bool * Z) }.

(** [char::is_whitespace]: the property White_Space. *)
Definition is_whitespace (c : Z) : bool :=
  ((0x09 <=? c) && (c <=? 0x0D)) || bool_decide (c ∈ [0x20; 0x85; 0xA0; 0x1680; 0x2028; 0x2029; 0x202F; 0x205F; 0x3000])
  || ((0x2000 <=? c) && (c <=? 0x200A)).

(** [trim().is_empty()] *)
Definition blank (s : bytes) : bool := forallb (fun '(c, _) => is_whitespace c) (chars s).

Definition reputation_new (config : IpReputationConfig) : IpReputationFilter :=
  mkFilter (cfg_blocklist_cidrs config)
    (match cfg_provider_url config with Some url => if blank url then None else Some url | None => None end)
    (secs (Z.max (cfg_cache_ttl_secs config) 1)) ∅.

(** Any failure degrades to "not blocked". *)
Definition query_provider (answer : option bool) : bool := default false answer.

Definition reputation_check (now : Z) (answer : option bool) (ip : IpAddr) (f : IpReputationFilter)
  : outcome string unit * IpReputationFilter :=
  if existsb (fun cidr => cidr_matches cidr ip) (blocklist_cidrs f) then (Err "IP in static reputation blocklist"%string, f)
  else
    match provider_url f with
    | None => (Ok tt, f)
    | Some _ =>
        let fresh := match cache f !! ip_key ip with
                     | Some (blocked, checked_at) => if now - checked_at <? cache_ttl f then Some blocked else None
                     | None => None
                     end in
        match fresh with
        | Some true => (Err "IP flagged by reputation provider (cached)"%string, f)
        | Some false => (Ok tt, f)
        | None =>
            let blocked := query_provider answer in
            let f := if Z.of_nat (size (cache f)) <? MAX_CACHE_ENTRIES
                     then mkFilter (blocklist_cidrs f) (provider_url f) (cache_ttl f) (<[ip_key ip := (blocked, now)]> (cache f))
                     else f in
            (if blocked then Err "IP flagged by reputation provider"%string else Ok tt, f)
        end
    end.

Definition reputation_evict_stale (now : Z) (f : IpReputationFilter) : IpReputationFilter :=
  mkFilter (blocklist_cidrs f) (provider_url f) (cache_ttl f)
    (filter (fun p => (now - p.2.2 <? cache_ttl f) = true) (cache f)).

(** ** Runs *)

Inductive reputation_event :=
  | Checked (now : Z) (answer : option bool) (ip : IpAddr)
  | Evicted (now : Z).

Definition reputation_step (f : IpReputationFilter) (e : reputation_event) : IpReputationFilter :=
  match e with
  | Checked now answer ip => (reputation_check now answer ip f).2
  | Evicted now => reputation_evict_stale now f
  end.

Definition reputation_run (config : IpReputationConfig) (es : list reputation_event) : IpReputationFilter :=
  fold_left reputation_step es (reputation_new config).

(** Every cached verdict is what some earlier query of that address came to. *)
Definition sourced (es : list reputation_event) (k : bytes) (v : bool * Z) : Prop :=
  exists answer ip, Checked v.2 answer ip ∈ es /\ k = ip_key ip /\ v.1 = query_provider answer.

Definition filter_inv (config : IpReputationConfig) (es : list reputation_event) (f : IpReputationFilter) : Prop :=
  blocklist_cidrs f = cfg_blocklist_cidrs config /\ cache_ttl f = secs (Z.max (cfg_cache_ttl_secs config) 1) /\
  Z.of_nat (size (cache f)) <= MAX_CACHE_ENTRIES /\ map_Forall (sourced es) (cache f).

Lemma ip_key_inj a b : ip_key a = ip_key b -> a = b.
Proof. destruct a, b; cbn; congruence. Qed.

Lemma sourced_mono es e k v : sourced es k v -> sourced (es ++ [e]) k v.
Proof. intros (answer & ip & Hin & H). exists answer, ip. split; [|done]. apply elem_of_app. by left. Qed.

Lemma size_insert_le {V} (k : bytes) (v : V) (m : gmap bytes V) : (size (<[k := v]> m) <= S (size m))%nat.
Proof. rewrite map_size_insert. destruct (m !! k); cbn; lia. Qed.

Lemma reputation_run_inv config es : filter_inv config es (reputation_run config es).
Proof.
  induction es as [|e es IH] using rev_ind; [split_and!; [done|done|by cbn|apply map_Forall_empty]|].
  unfold reputation_run in *. rewrite fold_left_app. cbn [fold_left]. set (f := fold_left _ _ _) in *.
  destruct IH as (Hb & Ht & Hs & Hf).
  assert (Hf' : map_Forall (sourced (es ++ [e])) (cache f)) by (eapply map_Forall_impl; [exact Hf|]; intros; by apply sourced_mono).
  destruct e as [now answer ip|now]; cbn [reputation_step].
  - unfold reputation_check. destruct (existsb _ _); [done|]. destruct (provider_url f); [|done]. cbv zeta.
    destruct (match cache f !! ip_key ip with Some _ => _ | None => _ end) as [[]|]; [done|done|]. cbn [snd].
    destruct (Z.ltb_spec (Z.of_nat (size (cache f))) MAX_CACHE_ENTRIES); [|done]. split_and!; [done|done| |]; cbn [cache].
    + pose proof (size_insert_le (ip_key ip) (query_provider answer, now) (cache f)). lia.
    + apply map_Forall_insert_2; [|done]. exists answer, ip. split; [|done]. apply elem_of_app. right. constructor.
  - split_and!; [done|done| |]; cbn [cache reputation_evict_stale].
    + pose proof (map_size_filter (fun p => (now - p.2.2 <? cache_ttl f) = true) (cache f)). lia.
    + intros k v Hk. apply map_lookup_filter_Some in Hk as [Hk _]. by apply Hf'.
Qed.

(** What the reputation filter decides after any sequence of checks and
    clean-ups.  An address in the block list is always refused.  Any other one is
    refused only on the provider's word, given for that very address in this check
    or in an earlier one less than the cache time ago; so an unreachable provider
    never costs an honest address its connection.  The cache stays within half a
    million entries. *)
Theorem reputation_fails_open (config : IpReputationConfig) (es : list reputation_event)
    (now : Z) (answer : option bool) (ip : IpAddr) :
  let f := reputation_run config es in
  Z.of_nat (size (cache f)) <= MAX_CACHE_ENTRIES /\
  (existsb (fun cidr => cidr_matches cidr ip) (cfg_blocklist_cidrs config) = true ->
     is_ok (reputation_check now answer ip f).1 = false) /\
  (existsb (fun cidr => cidr_matches cidr ip) (cfg_blocklist_cidrs config) = false ->
     is_ok (reputation_check now answer ip f).1 = false ->
     answer = Some true \/
     exists t, Checked t (Some true) ip ∈ es /\ now - t < secs (Z.max (cfg_cache_ttl_secs config) 1)).
Proof.
  cbv zeta. destruct (reputation_run_inv config es) as (Hb & Ht & Hs & Hf).
  set (f := reputation_run config es) in *. clearbody f. split_and!; [done|..]; unfold reputation_check; rewrite Hb, <- ?Ht.
  - by intros ->.
  - intros ->. destruct (provider_url f); [|done]. cbv zeta.
    assert (Hq : is_ok (if query_provider answer then Err (A := unit) "IP flagged by reputation provider"%string else Ok tt) = false ->
      answer = Some true) by (by destruct answer as [[]|]).
    destruct (cache f !! ip_key ip) as [[blocked at_]|] eqn:E; [|by left; apply Hq].
    destruct (Z.ltb_spec (now - at_) (cache_ttl f)) as [Hlt|]; [|by left; apply Hq].
    destruct blocked; [|done]. intros _. right. destruct (Hf _ _ E) as (a & ip' & Hin & Hk & Hv). cbn [fst snd] in *.
    apply ip_key_inj in Hk as <-. exists at_. destruct a as [[]|]; done.
Qed.
