(* ===== verification/Packets.v ===== *)
(** * Field codecs of the typed packets

    The helpers every module of crates/protocol/src/versions repeats privately:
    [encode_str]/[decode_str], [encode_byte_array]/[decode_byte_array] and [need].
    The packet files are written with them and proved by [packet_lawful].  The
    numbers in the error text of [need] are left out. *)
From Stdlib Require Import ZArith Lia Strings.Byte.
From stdpp Require Import base list numbers strings.
From S2P Require Import Prelude Buf Wire VarInt Codec Nbt.
Local Open Scope Z_scope.

Definition encode_str (s : bytes) : Enc :=
  VarInt_encode (wraps 32 (Z.of_nat (length s)));; put_slice s.

(** The two error texts are built from the context [ctx]. *)
Definition decode_str (missing invalid : string) : Dec bytes :=
  let! v := VarInt_decode in
  let len := wrapu 64 v in
  ensure len (Io KUnexpectedEof missing);;
  let! b := copy_to_bytes len in
  if utf8_valid b then ret b else fail (Io KInvalidData invalid).

Definition decode_bytes (missing : string) : Dec bytes :=
  let! v := VarInt_decode in
  let len := wrapu 64 v in
  ensure len (Io KUnexpectedEof missing);;
  copy_to_bytes len.

Definition need (n : Z) : Dec unit := ensure n (Io KUnexpectedEof "Need more bytes").

(** Values whose length the [as i32] of the writers keeps. *)
Definition text_ok (s : bytes) : Prop := utf8_valid s = true /\ Z.of_nat (length s) < 2 ^ 31.
Definition data_ok (s : bytes) : Prop := Z.of_nat (length s) < 2 ^ 31.

Definition TextOf (missing invalid : string) : codec bytes := Codec encode_str (decode_str missing invalid) text_ok.
Definition Text (ctx : string) : codec bytes := TextOf ("Missing bytes for " ++ ctx) ("Invalid UTF-8 in " ++ ctx).
Definition Data (ctx : string) : codec bytes :=
  Codec encode_str (decode_bytes ("Missing bytes for " ++ ctx)) data_ok.

(** The rest of the packet, as [src.remaining()] bytes. *)
Definition take_rest : Dec bytes := fun src => (Ok src, []).

#[export] Instance TextOf_lawful missing invalid : Lawful (TextOf missing invalid).
Proof.
  apply lawful_intro; cbn [TextOf enc dec wf].
  - intros s [Hu Hl]. destruct (writes_length_prefix (Z.of_nat (length s)) ltac:(lia)) as [Hw Hr].
    exists (wire VarInt (Z.of_nat (length s)) ++ s). split.
    + apply writes_bind; [done|apply writes_put].
    + unfold decode_str. eapply reads_bind; [done|]. rewrite wrapu_id by (unfold fits_u; lia).
      apply reads_ensure; [lia|]. eapply reads_bind_last; [by apply reads_copy|]. rewrite Hu. apply reads_ret.
  - unfold decode_str. solve_total.
  - unfold decode_str. solve_consuming.
Qed.

#[export] Instance Text_lawful ctx : Lawful (Text ctx) := TextOf_lawful _ _.

#[export] Instance Data_lawful ctx : Lawful (Data ctx).
Proof.
  apply lawful_intro; cbn [Data enc dec wf].
  - intros s Hl. unfold data_ok in Hl. destruct (writes_length_prefix (Z.of_nat (length s)) ltac:(lia)) as [Hw Hr].
    exists (wire VarInt (Z.of_nat (length s)) ++ s). split.
    + apply writes_bind; [done|apply writes_put].
    + unfold decode_bytes. eapply reads_bind; [done|]. rewrite wrapu_id by (unfold fits_u; lia).
      apply reads_ensure; [lia|]. by apply reads_copy.
  - unfold decode_bytes. solve_total.
  - unfold decode_bytes. solve_consuming.
Qed.

Lemma reads_all_rest data : reads_all take_rest data data.
Proof. done. Qed.
Lemma total_rest : total take_rest.
Proof. done. Qed.
Lemma consuming_rest : consuming take_rest.
Proof. intros src. exists src. by rewrite app_nil_r. Qed.
#[export] Hint Resolve total_rest consuming_rest : codec.

(** [flag as u8] and [get_u8() != 0]. *)
Definition flag_byte (b : bool) : Z := if b then 1 else 0.
Definition flag_of (v : Z) : bool := negb (v =? 0).

Lemma fits_flag b : fits_u 8 (flag_byte b).
Proof. destruct b; cbn; width. Qed.
Lemma flag_of_byte b : flag_of (flag_byte b) = b.
Proof. by destruct b. Qed.

(** Closes the contract of a packet whose fields are written and read one after
    the other. *)
Ltac field_side :=
  repeat match goal with H : _ /\ _ |- _ => destruct H end;
  rewrite ?flag_of_byte;
  first [done | apply fits_flag | apply reads_ret | solve [cbn in *; width] | idtac].

Ltac packet_fields :=
  intros v Hv; destruct v; cbn in Hv;
  eexists; split; [solve_writes; field_side|solve_reads; field_side].

(** The same for a packet of one field. *)
Ltac packet_value := intros v Hv; eexists; split; [solve_writes; field_side|solve_reads; field_side].

(** The obligations of [lawful_intro], for an unfolded packet. *)
Ltac packet_goals := first [solve [packet_value] | packet_fields | solve [solve_total] | solve [solve_consuming]].

(** The same for a packet whose last field takes the rest. *)
Ltac packet_tail :=
  intros v Hv; destruct v; cbn in Hv;
  eexists; split; [solve_writes; field_side|codec_unfold; repeat reads_step; field_side].
Ltac packet_tail_goals := first [solve [solve_total] | solve [solve_consuming] | packet_tail].

(** ** Further field forms *)

(** A byte array behind a 16-bit length, as 1.7 writes it. *)
Definition encode_short_bytes (data : bytes) : Enc :=
  if 32767 <? Z.of_nat (length data) then fail UnexpectedEof
  else put_i16 (wraps 16 (Z.of_nat (length data)));; put_slice data.

Definition decode_short_bytes (no_length missing : string) : Dec bytes :=
  ensure 2 (Io KUnexpectedEof no_length);;
  let! raw := get_i16 in
  if raw <? 0 then fail UnexpectedEof
  else ensure raw (Io KUnexpectedEof missing);; copy_to_bytes raw.

Definition ShortData (ctx : string) : codec bytes :=
  Codec encode_short_bytes
    (decode_short_bytes ("Missing Short length for " ++ ctx) ("Missing bytes for " ++ ctx))
    (fun s => Z.of_nat (length s) <= 32767).

#[export] Instance ShortData_lawful ctx : Lawful (ShortData ctx).
Proof.
  apply lawful_intro; cbn [ShortData enc dec wf]; unfold encode_short_bytes, decode_short_bytes.
  - intros s Hl. rewrite (proj2 (Z.ltb_ge _ _) Hl). rewrite wraps_id by (unfold fits_s; lia).
    eexists. split; [solve_writes|]. codec_unfold. apply reads_ensure; [length_side|].
    eapply reads_bind; [apply reads_int; [nat_side|unfold fits_s; lia]|].
    rewrite (proj2 (Z.ltb_ge _ _)) by lia. apply reads_ensure; [lia|]. by apply reads_copy.
  - solve_total.
  - solve_consuming.
Qed.

(** [Uuid::as_u64_pair] and [Uuid::from_u64_pair], on the sixteen bytes. *)
Definition uuid_hi (u : bytes) : Z := be_val (take 8 u).
Definition uuid_lo (u : bytes) : Z := be_val (drop 8 u).
Definition uuid_of_pair (hi lo : Z) : bytes := be_bytes 8 hi ++ be_bytes 8 lo.

Definition put_uuid_pair (u : bytes) : Enc := put_i64 (wraps 64 (uuid_hi u));; put_i64 (wraps 64 (uuid_lo u)).
Definition get_uuid_pair : Dec bytes :=
  let! hi := get_i64 in let! lo := get_i64 in ret (uuid_of_pair (wrapu 64 hi) (wrapu 64 lo)).

(** A UUID read as two 64-bit halves behind one check, and as two checked ones. *)
Definition UuidPair (missing : string) : codec bytes :=
  Codec put_uuid_pair (ensure 16 (Io KUnexpectedEof missing);; get_uuid_pair) uuid_ok.
Definition UuidHalves : codec bytes :=
  Codec (fun u => enc I64 (wraps 64 (uuid_hi u));; enc I64 (wraps 64 (uuid_lo u)))
    (let! hi := dec I64 in let! lo := dec I64 in ret (uuid_of_pair (wrapu 64 hi) (wrapu 64 lo))) uuid_ok.

Lemma uuid_pair_split u : uuid_ok u -> uuid_of_pair (wrapu 64 (wraps 64 (uuid_hi u))) (wrapu 64 (wraps 64 (uuid_lo u))) = u.
Proof.
  unfold uuid_ok. intros Hu. unfold uuid_of_pair, uuid_hi, uuid_lo.
  assert (H1 : length (take 8 u) = 8%nat) by (rewrite length_take; lia).
  assert (H2 : length (drop 8 u) = 8%nat) by (rewrite length_drop; lia).
  pose proof (be_val_range (take 8 u)) as R1. pose proof (be_val_range (drop 8 u)) as R2.
  rewrite H1 in R1. rewrite H2 in R2.
  rewrite !wrapu_wraps, !wrapu_id by (unfold fits_u; lia). rewrite !be_bytes_val by done. apply take_drop.
Qed.

Lemma reads_uuid_pair u : uuid_ok u ->
  reads get_uuid_pair (be_bytes 8 (wraps 64 (uuid_hi u)) ++ be_bytes 8 (wraps 64 (uuid_lo u))) u.
Proof.
  intros Hu. unfold get_uuid_pair. codec_unfold.
  eapply reads_bind; [apply reads_int; [nat_side|by apply wraps_fits]|].
  eapply reads_bind_last; [apply reads_int; [nat_side|by apply wraps_fits]|]. cbv beta.
  rewrite uuid_pair_split by done. apply reads_ret.
Qed.

#[export] Instance UuidPair_lawful missing : Lawful (UuidPair missing).
Proof.
  apply lawful_intro; cbn [UuidPair enc dec wf]; unfold put_uuid_pair.
  - intros u Hu. eexists. split; [solve_writes|]. apply reads_ensure; [length_side|]. by apply reads_uuid_pair.
  - unfold get_uuid_pair. solve_total.
  - unfold get_uuid_pair. solve_consuming.
Qed.

#[export] Instance UuidHalves_lawful : Lawful UuidHalves.
Proof.
  apply lawful_intro; cbn [UuidHalves enc dec wf].
  - intros u Hu. eexists. split.
    + solve_writes; by apply wraps_fits.
    + eapply reads_bind; [apply lawful_reads; by apply wraps_fits|].
      eapply reads_bind_last; [apply lawful_reads; by apply wraps_fits|]. cbv beta.
      rewrite uuid_pair_split by done. apply reads_ret.
  - solve_total.
  - solve_consuming.
Qed.

(** [Vec::with_capacity(n)] for elements of [size] bytes: it panics when the
    allocation would exceed [isize::MAX]. *)
Definition with_capacity (size n : Z) : Dec unit :=
  if 2 ^ 63 - 1 <? n * size then panic else ret tt.

(** [let n = VarInt::decode(src)?.0 as usize; let mut v = Vec::with_capacity(n);
    for _ in 0..n { v.push(decode(src)?) }] *)
Definition decode_counted {A} (size : Z) (item : Dec A) : Dec (list A) :=
  let! v := VarInt_decode in
  let n := wrapu 64 v in
  with_capacity size n;; repeat_dec (Z.to_nat n) item.

Definition encode_counted {A} (item : A -> Enc) (l : list A) : Enc :=
  VarInt_encode (wraps 32 (Z.of_nat (length l)));;
  fold_right (fun x k => item x;; k) (ret tt) l.

Lemma writes_items {A} (c : codec A) `{!Lawful c} l : Forall (wf c) l ->
  writes (fold_right (fun x (k : Enc) => enc c x;; k) (ret tt) l) (wire_many c l).
Proof. induction 1 as [|x l Hx _ IH]; [apply writes_ret|]. apply writes_bind; [by apply lawful_writes|exact IH]. Qed.

(** The count reads back when it fits an [i32] and the elements are small enough
    for every such count to be allocated. *)
Lemma counted_roundtrip {A} (c : codec A) `{!Lawful c} size l :
  0 <= size <= 2 ^ 31 -> Forall (wf c) l -> Z.of_nat (length l) < 2 ^ 31 ->
  let bs := wire VarInt (Z.of_nat (length l)) ++ wire_many c l in
  writes (encode_counted (enc c) l) bs /\ reads (decode_counted size (dec c)) bs l.
Proof.
  intros Hs Hl Hlen. destruct (writes_length_prefix (Z.of_nat (length l)) ltac:(lia)) as [Hw Hr]. split.
  - unfold encode_counted. apply writes_bind; [done|by apply writes_items].
  - unfold decode_counted. eapply reads_bind; [done|]. cbv zeta. rewrite wrapu_id by (unfold fits_u; lia).
    assert (Z.of_nat (length l) * size <= 2 ^ 63 - 1).
    { pose proof (Z.mul_le_mono_nonneg (Z.of_nat (length l)) (2 ^ 31) size (2 ^ 31)). lia. }
    unfold with_capacity. rewrite (proj2 (Z.ltb_ge _ _)) by done.
    change (wire_many c l) with ([] ++ wire_many c l). eapply reads_bind; [apply reads_ret|]. cbv beta.
    rewrite Nat2Z.id. by apply reads_many.
Qed.

(** A negative count is a huge one and panics before anything is read. *)
Lemma counted_negative_panics {A} size (item : Dec A) v rest :
  1 <= size -> - 2 ^ 31 <= v < 0 -> (decode_counted size item (wire VarInt v ++ rest)).1 = Panic.
Proof.
  intros Hs Hv. unfold decode_counted, bind.
  assert (Hr : reads VarInt_decode (wire VarInt v) v).
  { apply (lawful_reads (c := VarInt)). change (fits_s 32 v). unfold fits_s. lia. }
  rewrite (Hr rest). cbv beta iota zeta.
  unfold with_capacity. replace (wrapu 64 v) with (v + 2 ^ 64); [|symmetry; unfold wrapu; rewrite <- (Z.mod_add v 1) by lia; apply Z.mod_small; lia].
  pose proof (Z.mul_le_mono_nonneg (2 ^ 63) (v + 2 ^ 64) 1 size).
  by rewrite (proj2 (Z.ltb_lt _ _)) by lia.
Qed.

(** A packet with no fields. *)
Lemma lawful_unit (P : unit -> Prop) : Lawful (Codec (fun _ : unit => ret tt) (ret tt) P).
Proof. apply lawful_intro; [intros [] _; exists []; split; [apply writes_ret|apply reads_ret]|done|apply consuming_ret]. Qed.

(** The readers that answer every fault with [UnexpectedEof]. *)
Definition decode_bytes_eof : Dec bytes :=
  let! v := VarInt_decode in
  let len := wrapu 64 v in
  ensure len UnexpectedEof;; copy_to_bytes len.
Definition decode_str_eof : Dec bytes :=
  let! b := decode_bytes_eof in
  if utf8_valid b then ret b else fail UnexpectedEof.

Definition DataEof : codec bytes := Codec encode_str decode_bytes_eof data_ok.
Definition TextEof : codec bytes := Codec encode_str decode_str_eof text_ok.

#[export] Instance DataEof_lawful : Lawful DataEof.
Proof.
  apply lawful_intro; cbn [DataEof enc dec wf].
  - intros s Hl. unfold data_ok in Hl. destruct (writes_length_prefix (Z.of_nat (length s)) ltac:(lia)) as [Hw Hr].
    exists (wire VarInt (Z.of_nat (length s)) ++ s). split.
    + apply writes_bind; [done|apply writes_put].
    + unfold decode_bytes_eof. eapply reads_bind; [done|]. rewrite wrapu_id by (unfold fits_u; lia).
      apply reads_ensure; [lia|]. by apply reads_copy.
  - unfold decode_bytes_eof. solve_total.
  - unfold decode_bytes_eof. solve_consuming.
Qed.

#[export] Instance TextEof_lawful : Lawful TextEof.
Proof.
  apply lawful_intro; cbn [TextEof enc dec wf].
  - intros s [Hu Hl]. exists (wire DataEof s). split; [by apply (lawful_writes (c := DataEof))|].
    unfold decode_str_eof. eapply reads_bind_last; [by apply (lawful_reads (c := DataEof))|]. rewrite Hu. apply reads_ret.
  - unfold decode_str_eof. apply total_bind; [apply (lawful_total (c := DataEof))|]. solve_total.
  - unfold decode_str_eof. apply consuming_bind; [apply (lawful_consuming (c := DataEof))|]. solve_consuming.
Qed.

(** [if flag && src.remaining() > 0 { Some(rest) } else { None }]. *)
Definition take_rest_if (flag : bool) : Dec (option bytes) := fun src =>
  if flag && negb (is_empty src) then (Ok (Some src), []) else (Ok None, src).
Lemma total_rest_if flag : total (take_rest_if flag).
Proof. intros src. unfold take_rest_if. by destruct (flag && _). Qed.
Lemma consuming_rest_if flag : consuming (take_rest_if flag).
Proof.
  intros src. unfold take_rest_if. destruct (flag && _); [exists src; by rewrite app_nil_r|by exists []].
Qed.
#[export] Hint Resolve total_rest_if consuming_rest_if : codec.

(** The part of the contract that is left of a decoder that can panic. *)
Class RoundTrips {A} (c : codec A) : Prop :=
  roundtrips v : wf c v -> exists bs, writes (enc c v) bs /\ reads (dec c) bs v.

#[export] Instance Lawful_RoundTrips {A} (c : codec A) : Lawful c -> RoundTrips c.
Proof. intros Hc v Hv. exists (wire c v). split; [by apply lawful_writes|by apply lawful_reads]. Qed.

(** ** Documents delimited by [nbt::skip] *)

(** A document [skip] steps over exactly, whatever follows it. *)
Definition skippable (doc : bytes) : Prop := forall rest, nbt_skip (doc ++ rest) = (Ok (Z.of_nat (length doc)), rest).

(** An empty document, and one holding a string. *)
Definition plain_document : bytes := wire NbtCodec (mkNbt [] []).
Definition text_document : bytes := wire NbtCodec empty_string_doc.

Lemma plain_skippable : skippable plain_document.
Proof.
  intros rest. change plain_document with [x0a; x00; x00; x00]. change (Z.of_nat (length _)) with 4.
  assert (H1 : reads (E := ProtocolError) get_u8 [x0a] 10) by done.
  assert (H2 : reads skip_name [x00; x00] tt).
  { unfold skip_name. apply reads_ensure; [cbn; lia|]. eapply (reads_bind_last _ _ _ 0); [done|].
    apply reads_ensure; [cbn; lia|]. done. }
  assert (H3 : forall n, reads (skip_payload_depth (S (S n)) T_Compound 0) [x00] tt).
  { intros n. cbn [skip_payload_depth skip_compound]. change (0 >=? MAX_NBT_DEPTH) with false. cbv iota.
    apply reads_ensure; [cbn; lia|]. eapply (reads_bind_last _ _ _ 0); [done|]. cbn [Z.eqb]. apply reads_ret. }
  unfold nbt_skip. cbv zeta. set (n := (2 * _ + 2)%nat). replace n with (S (S (n - 2))) by lia. clearbody n.
  unfold bind, ensure, remaining at 1. rewrite (proj2 (Z.ltb_ge _ _)) by (rewrite length_app; cbn; lia). cbv beta iota.
  change ([x0a; x00; x00; x00] ++ rest) with ([x0a] ++ ([x00; x00] ++ ([x00] ++ rest))).
  rewrite H1. cbv beta iota. change (10 =? 0) with false. cbv iota. unfold TagType_from_u8, ret.
  cbv beta iota. rewrite H2. cbv beta iota. rewrite H3. unfold remaining. rewrite !length_app. cbn [length].
  match goal with |- (Ok ?a, _) = _ => replace a with 4 by lia end. done.
Qed.

(** ** Optional trailing fields *)

(** [if src.is_empty() { None } else { Some(bool::decode(src)?) }] and the encoder
    that writes nothing for [None]. *)
Definition encode_trailing_flag (o : option bool) : Enc := match o with Some b => enc Bool b | None => ret tt end.
Definition decode_trailing_flag : Dec (option bool) := fun src =>
  if is_empty src then (Ok None, src) else (let! b := dec Bool in ret (Some b)) src.

Lemma trailing_flag_roundtrip o : exists bs, writes (encode_trailing_flag o) bs /\ reads_all decode_trailing_flag bs o.
Proof.
  destruct o as [b|].
  - exists (wire Bool b). split; [by apply lawful_writes|]. by destruct b.
  - exists []. split; [apply writes_ret|done].
Qed.
Lemma total_trailing_flag : total decode_trailing_flag.
Proof. intros src. unfold decode_trailing_flag. destruct (is_empty src); [done|]. revert src. change (total (let! b := dec Bool in ret (Some b))). solve_total. Qed.
Lemma consuming_trailing_flag : consuming decode_trailing_flag.
Proof.
  intros src. unfold decode_trailing_flag. destruct (is_empty src); [by exists []|]. revert src.
  change (consuming (let! b := dec Bool in ret (Some b))). solve_consuming.
Qed.
#[export] Hint Resolve total_trailing_flag consuming_trailing_flag : codec.
