(* ===== verification/Packets18.v ===== *)
(** * Typed packets of 1.8

    crates/protocol/src/versions/v1_8_x: the handshake, status, login and play
    packets, each a record with its encoder and decoder, and the contract of
    [Wire] for every one.  The text form of a UUID is a library's. *)
From Stdlib Require Import ZArith Lia Strings.Byte.
From stdpp Require Import base list numbers strings.
From S2P Require Import Prelude Buf Wire VarInt Codec Packets.
Local Open Scope Z_scope.

(** ** Handshake *)

Record ServerboundHandshake := mkHandshake {
  hs_protocol_version : Z; hs_server_address : bytes; hs_server_port : Z; hs_next_state : Z }.

Definition HandshakeAddress : codec bytes :=
  TextOf "Missing bytes for ServerboundHandshake server_address" "Invalid UTF-8 in ServerboundHandshake server_address".

Definition Handshake_encode (p : ServerboundHandshake) : Enc :=
  enc VarInt (hs_protocol_version p);;
  enc HandshakeAddress (hs_server_address p);;
  put_u16 (hs_server_port p);;
  enc VarInt (hs_next_state p).

Definition Handshake_decode : Dec ServerboundHandshake :=
  let! protocol_version := dec VarInt in
  let! server_address := dec HandshakeAddress in
  ensure 2 (Io KUnexpectedEof "Missing bytes for ServerboundHandshake server_port");;
  let! server_port := get_u16 in
  let! next_state := dec VarInt in
  ret (mkHandshake protocol_version server_address server_port next_state).

Definition Handshake : codec ServerboundHandshake := Codec Handshake_encode Handshake_decode (fun p =>
  fits_s 32 (hs_protocol_version p) /\ text_ok (hs_server_address p) /\ fits_u 16 (hs_server_port p) /\
  fits_s 32 (hs_next_state p)).

(** ** Status *)

Definition StatusRequest_encode (_ : unit) : Enc := ret tt.
Definition StatusRequest_decode : Dec unit := ret tt.
Definition StatusRequest : codec unit := Codec StatusRequest_encode StatusRequest_decode (fun _ => True).

(** [get_i64] with no check in front of it. *)
Definition PingRequest_encode (payload : Z) : Enc := put_i64 payload.
Definition PingRequest_decode : Dec Z := get_i64.

Definition StatusResponse : codec bytes :=
  TextOf "Missing bytes while reading ClientboundStatusResponse JSON payload" "Invalid UTF-8 string in ClientboundStatusResponse".

Definition PongResponse_encode (payload : Z) : Enc := put_i64 payload.
Definition PongResponse_decode : Dec Z :=
  ensure 8 (Io KUnexpectedEof "Missing bytes for ClientboundPongResponse payload");; get_i64.
Definition PongResponse : codec Z := Codec PongResponse_encode PongResponse_decode (fits_s 64).

(** ** Login *)

Definition LoginStart : codec bytes := Text "ServerboundLoginStart username".
Definition LoginDisconnect : codec bytes := Text "ClientboundLoginDisconnect reason".

Record ClientboundEncryptionRequest := mkEncryptionRequest {
  er_server_id : bytes; er_public_key : bytes; er_verify_token : bytes }.

Definition EncryptionRequest_encode (p : ClientboundEncryptionRequest) : Enc :=
  enc (Text "ClientboundEncryptionRequest server_id") (er_server_id p);;
  enc (Data "ClientboundEncryptionRequest public_key") (er_public_key p);;
  enc (Data "ClientboundEncryptionRequest verify_token") (er_verify_token p).

Definition EncryptionRequest_decode : Dec ClientboundEncryptionRequest :=
  let! server_id := dec (Text "ClientboundEncryptionRequest server_id") in
  let! public_key := dec (Data "ClientboundEncryptionRequest public_key") in
  let! verify_token := dec (Data "ClientboundEncryptionRequest verify_token") in
  ret (mkEncryptionRequest server_id public_key verify_token).

Definition EncryptionRequest : codec ClientboundEncryptionRequest :=
  Codec EncryptionRequest_encode EncryptionRequest_decode (fun p =>
    text_ok (er_server_id p) /\ data_ok (er_public_key p) /\ data_ok (er_verify_token p)).

Record LoginProperty := mkLoginProperty { lp_name : bytes; lp_value : bytes; lp_signature : option bytes }.

Definition LoginProperty_encode (p : LoginProperty) : Enc :=
  enc (Text "ProfileProperty name") (lp_name p);;
  enc (Text "ProfileProperty value") (lp_value p);;
  match lp_signature p with
  | Some sig => put_u8 1;; enc (Text "ProfileProperty signature") sig
  | None => put_u8 0
  end.

Definition LoginProperty_decode : Dec LoginProperty :=
  let! name := dec (Text "ProfileProperty name") in
  let! value := dec (Text "ProfileProperty value") in
  ensure 1 (Io KUnexpectedEof "Missing signature flag in ProfileProperty");;
  let! flag := get_u8 in
  if negb (flag =? 0) then
    let! sig := dec (Text "ProfileProperty signature") in ret (mkLoginProperty name value (Some sig))
  else ret (mkLoginProperty name value None).

Definition LoginPropertyCodec : codec LoginProperty := Codec LoginProperty_encode LoginProperty_decode (fun p =>
  text_ok (lp_name p) /\ text_ok (lp_value p) /\ option_ok text_ok (lp_signature p)).

Record ClientboundLoginSuccess := mkLoginSuccess { lsu_uuid : bytes; lsu_username : bytes }.

Section LoginSuccess.
(** [Uuid::hyphenated().to_string()] and [Uuid::parse_str]. *)
Variable uuid_text : bytes -> bytes.
Variable uuid_parse : bytes -> option bytes.

Definition LoginSuccess_encode (p : ClientboundLoginSuccess) : Enc :=
  enc (Text "ClientboundLoginSuccess uuid") (uuid_text (lsu_uuid p));;
  enc (Text "ClientboundLoginSuccess username") (lsu_username p).

Definition LoginSuccess_decode : Dec ClientboundLoginSuccess :=
  let! uuid_str := dec (Text "ClientboundLoginSuccess uuid") in
  match uuid_parse uuid_str with
  | None => fail (Io KInvalidData "Invalid UUID in ClientboundLoginSuccess")
  | Some uuid =>
      let! username := dec (Text "ClientboundLoginSuccess username") in
      ret (mkLoginSuccess uuid username)
  end.

(** The UUIDs whose text is text and reads back. *)
Definition LoginSuccess : codec ClientboundLoginSuccess := Codec LoginSuccess_encode LoginSuccess_decode (fun p =>
  text_ok (uuid_text (lsu_uuid p)) /\ uuid_parse (uuid_text (lsu_uuid p)) = Some (lsu_uuid p) /\ text_ok (lsu_username p)).

End LoginSuccess.

Definition SetCompression_encode (threshold : Z) : Enc := enc VarInt threshold.
Definition SetCompression_decode : Dec Z := dec VarInt.
Definition SetCompressionPacket : codec Z := Codec SetCompression_encode SetCompression_decode (fits_s 32).

Record ServerboundEncryptionResponse := mkEncryptionResponse { ers_shared_secret : bytes; ers_verify_token : bytes }.

Definition EncryptionResponse_encode (p : ServerboundEncryptionResponse) : Enc :=
  enc (Data "ServerboundEncryptionResponse shared_secret") (ers_shared_secret p);;
  enc (Data "ServerboundEncryptionResponse verify_token") (ers_verify_token p).

Definition EncryptionResponse_decode : Dec ServerboundEncryptionResponse :=
  let! shared_secret := dec (Data "ServerboundEncryptionResponse shared_secret") in
  let! verify_token := dec (Data "ServerboundEncryptionResponse verify_token") in
  ret (mkEncryptionResponse shared_secret verify_token).

Definition EncryptionResponse : codec ServerboundEncryptionResponse :=
  Codec EncryptionResponse_encode EncryptionResponse_decode (fun p =>
    data_ok (ers_shared_secret p) /\ data_ok (ers_verify_token p)).

(** ** Play *)

Record ClientboundJoinGame := mkJoinGame {
  jg_entity_id : Z; jg_game_mode : Z; jg_dimension : Z; jg_difficulty : Z; jg_max_players : Z;
  jg_level_type : bytes; jg_reduced_debug_info : bool }.

Definition JoinGame_encode (p : ClientboundJoinGame) : Enc :=
  put_i32 (jg_entity_id p);; put_u8 (jg_game_mode p);; put_i8 (jg_dimension p);; put_u8 (jg_difficulty p);;
  put_u8 (jg_max_players p);; enc (Text "ClientboundJoinGame level_type") (jg_level_type p);;
  put_u8 (flag_byte (jg_reduced_debug_info p)).

Definition JoinGame_decode : Dec ClientboundJoinGame :=
  need (4 + 1 + 1 + 1 + 1);;
  let! entity_id := get_i32 in
  let! game_mode := get_u8 in
  let! dimension := get_i8 in
  let! difficulty := get_u8 in
  let! max_players := get_u8 in
  let! level_type := dec (Text "ClientboundJoinGame level_type") in
  need 1;;
  let! reduced_debug_info := get_u8 in
  ret (mkJoinGame entity_id game_mode dimension difficulty max_players level_type (flag_of reduced_debug_info)).

Definition JoinGame : codec ClientboundJoinGame := Codec JoinGame_encode JoinGame_decode (fun p =>
  fits_s 32 (jg_entity_id p) /\ fits_u 8 (jg_game_mode p) /\ fits_s 8 (jg_dimension p) /\ fits_u 8 (jg_difficulty p) /\
  fits_u 8 (jg_max_players p) /\ text_ok (jg_level_type p)).

Record ClientboundRespawn := mkRespawn { rs_dimension : Z; rs_difficulty : Z; rs_game_mode : Z; rs_level_type : bytes }.

Definition Respawn_encode (p : ClientboundRespawn) : Enc :=
  put_i32 (rs_dimension p);; put_u8 (rs_difficulty p);; put_u8 (rs_game_mode p);;
  enc (Text "ClientboundRespawn level_type") (rs_level_type p).

Definition Respawn_decode : Dec ClientboundRespawn :=
  need (4 + 1 + 1);;
  let! dimension := get_i32 in
  let! difficulty := get_u8 in
  let! game_mode := get_u8 in
  let! level_type := dec (Text "ClientboundRespawn level_type") in
  ret (mkRespawn dimension difficulty game_mode level_type).

Definition Respawn : codec ClientboundRespawn := Codec Respawn_encode Respawn_decode (fun p =>
  fits_s 32 (rs_dimension p) /\ fits_u 8 (rs_difficulty p) /\ fits_u 8 (rs_game_mode p) /\ text_ok (rs_level_type p)).

Record ClientboundPlayerPosition := mkPlayerPosition {
  pp_x : Z; pp_y : Z; pp_z : Z; pp_yaw : Z; pp_pitch : Z; pp_flags : Z }.

Definition PlayerPosition_encode (p : ClientboundPlayerPosition) : Enc :=
  put_f64 (pp_x p);; put_f64 (pp_y p);; put_f64 (pp_z p);; put_f32 (pp_yaw p);; put_f32 (pp_pitch p);; put_u8 (pp_flags p).

Definition PlayerPosition_decode : Dec ClientboundPlayerPosition :=
  need (8 + 8 + 8 + 4 + 4 + 1);;
  let! x := get_f64 in
  let! y := get_f64 in
  let! z := get_f64 in
  let! yaw := get_f32 in
  let! pitch := get_f32 in
  let! flags := get_u8 in
  ret (mkPlayerPosition x y z yaw pitch flags).

Definition PlayerPosition : codec ClientboundPlayerPosition := Codec PlayerPosition_encode PlayerPosition_decode (fun p =>
  fits_u 64 (pp_x p) /\ fits_u 64 (pp_y p) /\ fits_u 64 (pp_z p) /\ fits_u 32 (pp_yaw p) /\ fits_u 32 (pp_pitch p) /\
  fits_u 8 (pp_flags p)).

Definition KeepAlive_encode (keep_alive_id : Z) : Enc := enc VarInt keep_alive_id.
Definition KeepAlive_decode : Dec Z := dec VarInt.
Definition KeepAlive : codec Z := Codec KeepAlive_encode KeepAlive_decode (fits_s 32).

Record ClientboundChatMessage := mkChatMessage { cm_json_message : bytes; cm_position : Z }.

Definition ChatMessage_encode (p : ClientboundChatMessage) : Enc :=
  enc (Text "ClientboundChatMessage json_message") (cm_json_message p);; put_u8 (cm_position p).

Definition ChatMessage_decode : Dec ClientboundChatMessage :=
  let! json_message := dec (Text "ClientboundChatMessage json_message") in
  need 1;;
  let! position := get_u8 in
  ret (mkChatMessage json_message position).

Definition ChatMessage : codec ClientboundChatMessage := Codec ChatMessage_encode ChatMessage_decode (fun p =>
  text_ok (cm_json_message p) /\ fits_u 8 (cm_position p)).

Record ClientboundPluginMessage := mkPluginMessage { pm_channel : bytes; pm_data : bytes }.

Definition PluginMessage_encode (p : ClientboundPluginMessage) : Enc :=
  enc (Text "ClientboundPluginMessage channel") (pm_channel p);; put_slice (pm_data p).

Definition PluginMessage_decode : Dec ClientboundPluginMessage :=
  let! channel := dec (Text "ClientboundPluginMessage channel") in
  let! data := take_rest in
  ret (mkPluginMessage channel data).

Definition PluginMessage : codec ClientboundPluginMessage := Codec PluginMessage_encode PluginMessage_decode (fun p =>
  text_ok (pm_channel p)).

Definition Disconnect : codec bytes := Text "ClientboundDisconnect reason".

Definition SetHeldItem_encode (slot : Z) : Enc := put_u8 slot.
Definition SetHeldItem_decode : Dec Z := need 1;; get_u8.
Definition SetHeldItem : codec Z := Codec SetHeldItem_encode SetHeldItem_decode (fits_u 8).

Record ClientboundSound := mkSound {
  snd_sound_name : bytes; snd_x : Z; snd_y : Z; snd_z : Z; snd_volume : Z; snd_pitch : Z }.

Definition Sound_encode (p : ClientboundSound) : Enc :=
  enc (Text "MinecraftNamedSound context") (snd_sound_name p);; put_i32 (snd_x p);; put_i32 (snd_y p);; put_i32 (snd_z p);;
  put_f32 (snd_volume p);; put_u8 (snd_pitch p).

Definition Sound_decode : Dec ClientboundSound :=
  let! sound_name := dec (Text "MinecraftNamedSound context") in
  need (4 + 4 + 4 + 4 + 1);;
  let! x := get_i32 in
  let! y := get_i32 in
  let! z := get_i32 in
  let! volume := get_f32 in
  let! pitch := get_u8 in
  ret (mkSound sound_name x y z volume pitch).

Definition Sound : codec ClientboundSound := Codec Sound_encode Sound_decode (fun p =>
  text_ok (snd_sound_name p) /\ fits_s 32 (snd_x p) /\ fits_s 32 (snd_y p) /\ fits_s 32 (snd_z p) /\
  fits_u 32 (snd_volume p) /\ fits_u 8 (snd_pitch p)).

Record ClientboundPlayerAbilities := mkPlayerAbilities {
  pa_flags : Z; pa_flying_speed : Z; pa_field_of_view_modifier : Z }.

Definition PlayerAbilities_encode (p : ClientboundPlayerAbilities) : Enc :=
  put_u8 (pa_flags p);; put_f32 (pa_flying_speed p);; put_f32 (pa_field_of_view_modifier p).

Definition PlayerAbilities_decode : Dec ClientboundPlayerAbilities :=
  need (1 + 4 + 4);;
  let! flags := get_u8 in
  let! flying_speed := get_f32 in
  let! field_of_view_modifier := get_f32 in
  ret (mkPlayerAbilities flags flying_speed field_of_view_modifier).

Definition PlayerAbilities : codec ClientboundPlayerAbilities := Codec PlayerAbilities_encode PlayerAbilities_decode (fun p =>
  fits_u 8 (pa_flags p) /\ fits_u 32 (pa_flying_speed p) /\ fits_u 32 (pa_field_of_view_modifier p)).

(** ** The contracts *)

#[export] Instance Handshake_lawful : Lawful Handshake.
Proof.
  apply lawful_intro; cbn [Handshake enc dec wf]; unfold Handshake_encode, Handshake_decode, HandshakeAddress; packet_goals.
Qed.

#[export] Instance JoinGame_lawful : Lawful JoinGame.
Proof. apply lawful_intro; cbn [JoinGame enc dec wf]; unfold JoinGame_encode, JoinGame_decode, need; packet_goals. Qed.

#[export] Instance StatusRequest_lawful : Lawful StatusRequest.
Proof. apply lawful_intro; [intros [] _; exists []; split; [apply writes_ret|apply reads_ret]|done|apply consuming_ret]. Qed.

#[export] Instance StatusResponse_lawful : Lawful StatusResponse := TextOf_lawful _ _.

#[export] Instance PongResponse_lawful : Lawful PongResponse.
Proof. apply lawful_intro; cbn [PongResponse enc dec wf]; unfold PongResponse_encode, PongResponse_decode; packet_goals. Qed.

#[export] Instance LoginStart_lawful : Lawful LoginStart := Text_lawful _.
#[export] Instance LoginDisconnect_lawful : Lawful LoginDisconnect := Text_lawful _.

#[export] Instance EncryptionRequest_lawful : Lawful EncryptionRequest.
Proof.
  apply lawful_intro; cbn [EncryptionRequest enc dec wf]; unfold EncryptionRequest_encode, EncryptionRequest_decode; packet_goals.
Qed.

#[export] Instance LoginProperty_lawful : Lawful LoginPropertyCodec.
Proof.
  apply lawful_intro; cbn [LoginPropertyCodec enc dec wf]; unfold LoginProperty_decode; [|solve_total|solve_consuming].
  intros [name value [sig|]] (Hn & Hv & Hs); cbn in Hn, Hv, Hs; unfold LoginProperty_encode; cbn [lp_name lp_value lp_signature].
  all: eexists; (split; [solve_writes|]); codec_unfold;
    (eapply reads_bind; [by apply lawful_reads|]); (eapply reads_bind; [by apply lawful_reads|]);
    (apply reads_ensure; [length_side|]).
  - eapply reads_bind; [apply reads_uint; width|]. cbn [Z.eqb negb]. solve_reads.
  - eapply reads_bind_last; [apply reads_uint; width|]. apply reads_ret.
Qed.

(** The contract holds for the UUIDs whose text reads back. *)
#[export] Instance LoginSuccess_lawful uuid_text uuid_parse : Lawful (LoginSuccess uuid_text uuid_parse).
Proof.
  apply lawful_intro; cbn [LoginSuccess enc dec wf]; unfold LoginSuccess_decode; [|solve_total|solve_consuming].
  intros [uuid username] (Ht & Hp & Hu). cbn [lsu_uuid lsu_username] in *. unfold LoginSuccess_encode. cbn [lsu_uuid lsu_username].
  eexists. split; [solve_writes|].
  eapply reads_bind; [by apply lawful_reads|]. rewrite Hp. solve_reads.
Qed.

#[export] Instance SetCompression_lawful : Lawful SetCompressionPacket := VarInt_lawful.

#[export] Instance EncryptionResponse_lawful : Lawful EncryptionResponse.
Proof.
  apply lawful_intro; cbn [EncryptionResponse enc dec wf]; unfold EncryptionResponse_encode, EncryptionResponse_decode; packet_goals.
Qed.

#[export] Instance Respawn_lawful : Lawful Respawn.
Proof. apply lawful_intro; cbn [Respawn enc dec wf]; unfold Respawn_encode, Respawn_decode, need; packet_goals. Qed.

#[export] Instance PlayerPosition_lawful : Lawful PlayerPosition.
Proof. apply lawful_intro; cbn [PlayerPosition enc dec wf]; unfold PlayerPosition_encode, PlayerPosition_decode, need; packet_goals. Qed.

#[export] Instance KeepAlive_lawful : Lawful KeepAlive := VarInt_lawful.

#[export] Instance ChatMessage_lawful : Lawful ChatMessage.
Proof. apply lawful_intro; cbn [ChatMessage enc dec wf]; unfold ChatMessage_encode, ChatMessage_decode, need; packet_goals. Qed.

#[export] Instance PluginMessage_lawful : LawfulTail PluginMessage.
Proof.
  apply lawful_tail_intro; cbn [PluginMessage enc dec wf]; unfold PluginMessage_encode, PluginMessage_decode; [|solve_total|solve_consuming].
  intros [channel data] Hc. cbn in Hc. eexists. split; [solve_writes|].
  eapply reads_all_bind; [by apply lawful_reads|]. done.
Qed.

#[export] Instance Disconnect_lawful : Lawful Disconnect := Text_lawful _.

#[export] Instance SetHeldItem_lawful : Lawful SetHeldItem.
Proof. apply lawful_intro; cbn [SetHeldItem enc dec wf]; unfold SetHeldItem_encode, SetHeldItem_decode, need; packet_goals. Qed.

#[export] Instance Sound_lawful : Lawful Sound.
Proof. apply lawful_intro; cbn [Sound enc dec wf]; unfold Sound_encode, Sound_decode, need; packet_goals. Qed.

#[export] Instance PlayerAbilities_lawful : Lawful PlayerAbilities.
Proof. apply lawful_intro; cbn [PlayerAbilities enc dec wf]; unfold PlayerAbilities_encode, PlayerAbilities_decode, need; packet_goals. Qed.

(** ** Properties *)

(** The 1.8 packets keep the codec contract: for every packet of the login,
    status, handshake and play modules with fields in the range of their types,
    decoding its encoding gives it back and leaves what follows (a plugin message,
    whose data run to the end, when nothing follows), and on arbitrary bytes each
    decoder returns an error or a packet, without panicking.  The one exception is
    the ping request: it round-trips, but panics on a packet shorter than eight
    bytes, which its decoder does not check. *)
Theorem v1_8_packets_lawful :
  (Lawful Handshake /\ Lawful StatusRequest /\ Lawful StatusResponse /\ Lawful PongResponse) /\
  (Lawful LoginStart /\ Lawful LoginDisconnect /\ Lawful EncryptionRequest /\ Lawful EncryptionResponse /\
   Lawful LoginPropertyCodec /\ Lawful SetCompressionPacket /\
   forall uuid_text uuid_parse, Lawful (LoginSuccess uuid_text uuid_parse)) /\
  (Lawful JoinGame /\ Lawful Respawn /\ Lawful PlayerPosition /\ Lawful KeepAlive /\ Lawful ChatMessage /\
   LawfulTail PluginMessage /\ Lawful Disconnect /\ Lawful SetHeldItem /\ Lawful Sound /\ Lawful PlayerAbilities) /\
  (forall payload dst rest, fits_s 64 payload -> exists bs, PingRequest_encode payload dst = (Ok tt, dst ++ bs) /\
     PingRequest_decode (bs ++ rest) = (Ok payload, rest)) /\
  (forall src, (PingRequest_decode src).1 = Panic <-> (length src < 8)%nat).
Proof.
  split_and!; try exact _.
  - intros payload dst rest Hp. exists (be_bytes 8 payload). split; [done|]. by apply reads_int; [lia|].
  - intros src. unfold PingRequest_decode, get_i64, get_int, get_uint, bind, take_bytes.
    destruct (Nat.ltb_spec (length src) 8); [done|]. cbn. split; [done|lia].
Qed.
