(* ===== verification/Chars.v ===== *)
(** * Strings of characters

    Where the code works on the characters of a [String] rather than on its
    bytes, a string is the list of its Unicode scalar values.  Here: literals,
    decimal printing ([i64::to_string]), the UTF-16 conversions of the standard
    library, splitting, and the parsed form of a JSON document. *)
From Stdlib Require Import ZArith Lia Strings.String Strings.Ascii.
From stdpp Require Import base list numbers strings pretty.
From S2P Require Import Prelude Buf Wire.
Local Open Scope Z_scope.

Abbreviation chars := (list Z).

Definition char_code (a : ascii) : Z := Z.of_N (N_of_ascii a).

(** The characters of a literal. *)
Definition chr (s : string) : chars := map char_code (list_ascii_of_string s).

(** [n.to_string()]. *)
Definition show (n : Z) : chars := chr (pretty n).

(** A Unicode scalar value. *)
Definition char_ok (c : Z) : Prop := 0 <= c < 0xD800 \/ 0xE000 <= c < 0x110000.

(** ** UTF-16 *)

(** [char::encode_utf16]. *)
Definition utf16_units (c : Z) : list Z :=
  if c <? 0x10000 then [c]
  else [0xD800 + Z.shiftr (c - 0x10000) 10; 0xDC00 + Z.land (c - 0x10000) 0x3FF].

Definition encode_utf16 (s : chars) : list Z := concat (map utf16_units s).

Definition is_surrogate (u : Z) : bool := (0xD800 <=? u) && (u <=? 0xDFFF).

(** [String::from_utf16]: [None] on an unpaired surrogate. *)
Fixpoint from_utf16 (us : list Z) : option chars :=
  match us with
  | [] => Some []
  | u :: us1 =>
      if negb (is_surrogate u) then cs ← from_utf16 us1; Some (u :: cs)
      else if 0xDC00 <=? u then None
      else match us1 with
           | v :: us2 =>
               if (0xDC00 <=? v) && (v <=? 0xDFFF) then
                 cs ← from_utf16 us2;
                 Some (Z.lor (Z.shiftl (Z.land u 0x3FF) 10) (Z.land v 0x3FF) + 0x10000 :: cs)
               else None
           | [] => None
           end
  end.

Lemma low_bits v : 0 <= v < 1024 -> Z.land (0xDC00 + v) 0x3FF = v.
Proof.
  intros Hv. change 0x3FF with (Z.ones 10). rewrite Z.land_ones by lia. change (2 ^ 10) with 1024.
  replace (0xDC00 + v) with (v + 55 * 1024) by lia. rewrite Z.mod_add by lia. by apply Z.mod_small.
Qed.

Lemma high_bits v : 0 <= v < 1024 -> Z.land (0xD800 + v) 0x3FF = v.
Proof.
  intros Hv. change 0x3FF with (Z.ones 10). rewrite Z.land_ones by lia. change (2 ^ 10) with 1024.
  replace (0xD800 + v) with (v + 54 * 1024) by lia. rewrite Z.mod_add by lia. by apply Z.mod_small.
Qed.

(** The two halves of a supplementary character put it together again. *)
Lemma surrogate_pair c : 0x10000 <= c < 0x110000 ->
  let h := Z.shiftr (c - 0x10000) 10 in let l := Z.land (c - 0x10000) 0x3FF in
  0 <= h < 1024 /\ 0 <= l < 1024 /\ Z.lor (Z.shiftl h 10) l + 0x10000 = c.
Proof.
  intros Hc. cbv zeta. change 0x3FF with (Z.ones 10). rewrite Z.shiftr_div_pow2, Z.land_ones by lia.
  change (2 ^ 10) with 1024. set (d := c - 0x10000).
  assert (Hd : 0 <= d < 1024 * 1024) by lia.
  pose proof (Z.div_mod d 1024 ltac:(lia)) as Hdm. pose proof (Z.mod_pos_bound d 1024 ltac:(lia)).
  assert (0 <= d / 1024 < 1024) by (split; [apply Z.div_pos; lia|apply Z.div_lt_upper_bound; lia]).
  split_and!; try lia.
  replace (Z.lor (Z.shiftl (d / 1024) 10) (d mod 1024)) with (Z.shiftl (d / 1024) 10 + d mod 1024).
  - rewrite Z.shiftl_mul_pow2 by lia. change (2 ^ 10) with 1024. lia.
  - symmetry. rewrite <- Z.lxor_lor, <- Z.add_nocarry_lxor; try done.
    all: change 1024 with (2 ^ 10); rewrite <- Z.land_ones by lia; apply Z.bits_inj'; intros n Hn;
      rewrite !Z.land_spec, Z.bits_0; destruct (Z.lt_ge_cases n 10);
      [rewrite Z.shiftl_spec_low by lia; done|rewrite Z.ones_spec_high by lia; by rewrite !andb_false_r].
Qed.

Lemma from_utf16_char c us : char_ok c -> from_utf16 (utf16_units c ++ us) = cs ← from_utf16 us; Some (c :: cs).
Proof.
  intros Hc. unfold utf16_units. destruct (Z.ltb_spec c 0x10000) as [Hs|Hs].
  - cbn [app from_utf16]. unfold is_surrogate.
    destruct (Z.leb_spec 0xD800 c), (Z.leb_spec c 0xDFFF); cbn [andb negb]; try done. destruct Hc; lia.
  - assert (Hr : 0x10000 <= c < 0x110000) by (destruct Hc; lia).
    destruct (surrogate_pair c Hr) as (Hh & Hl & Hc'). cbv zeta in *.
    set (h := Z.shiftr _ _) in *. set (l := Z.land _ _) in *. clearbody h l.
    cbn [app from_utf16]. unfold is_surrogate.
    rewrite (proj2 (Z.leb_le 0xD800 (0xD800 + h))), (proj2 (Z.leb_le (0xD800 + h) 0xDFFF)) by lia. cbn [andb negb].
    rewrite (proj2 (Z.leb_gt 0xDC00 (0xD800 + h))) by lia.
    rewrite (proj2 (Z.leb_le 0xDC00 (0xDC00 + l))), (proj2 (Z.leb_le (0xDC00 + l) 0xDFFF)) by lia. cbn [andb].
    by rewrite high_bits, low_bits, Hc' by lia.
Qed.

(** Every string survives UTF-16. *)
Lemma utf16_roundtrip s : Forall char_ok s -> from_utf16 (encode_utf16 s) = Some s.
Proof.
  induction 1 as [|c s Hc _ IH]; [done|]. unfold encode_utf16 in *. cbn [map concat].
  by rewrite from_utf16_char, IH.
Qed.

Lemma utf16_units_range c : char_ok c -> Forall (fun u => 0 <= u < 65536) (utf16_units c).
Proof.
  intros Hc. unfold utf16_units. destruct (Z.ltb_spec c 0x10000).
  - apply Forall_singleton. destruct Hc; lia.
  - destruct (surrogate_pair c ltac:(destruct Hc; lia)) as (? & ? & _). cbv zeta in *.
    repeat (apply Forall_cons; split; [lia|]). constructor.
Qed.

Lemma encode_utf16_range s : Forall char_ok s -> Forall (fun u => 0 <= u < 65536) (encode_utf16 s).
Proof. induction 1; [constructor|]. unfold encode_utf16. cbn [map concat]. apply Forall_app. split; [by apply utf16_units_range|done]. Qed.

(** ** Splitting at a separator *)

(** [s.split(sep)]. *)
Fixpoint split_at (sep : Z) (s : chars) : list chars :=
  match s with
  | [] => [[]]
  | c :: s' => if c =? sep then [] :: split_at sep s'
               else match split_at sep s' with p :: ps => (c :: p) :: ps | [] => [[c]] end
  end.

Lemma split_at_clean sep s : sep ∉ s -> split_at sep s = [s].
Proof.
  induction s as [|c s IH]; [done|]. intros Hn. apply not_elem_of_cons in Hn as [Hc Hs]. cbn [split_at].
  rewrite (proj2 (Z.eqb_neq c sep)) by congruence. by rewrite IH.
Qed.

Lemma split_at_app sep s t : sep ∉ s -> split_at sep (s ++ sep :: t) = s :: split_at sep t.
Proof.
  induction s as [|c s IH]; intros Hn; cbn [app split_at].
  - by rewrite Z.eqb_refl.
  - apply not_elem_of_cons in Hn as [Hc Hs]. rewrite (proj2 (Z.eqb_neq c sep)) by congruence. by rewrite IH.
Qed.

(** ** Decimal text *)

(** The characters of a number: digits and a sign. *)
Definition is_digit (c : Z) : bool := (48 <=? c) && (c <=? 57).
Definition number_char (c : Z) : bool := is_digit c || (c =? 45).

Lemma digit_char x : is_digit (char_code (pretty_N_char x)) = true.
Proof. unfold pretty_N_char. by repeat case_match. Qed.

Lemma pretty_N_go_digits x s :
  Forall (fun c => is_digit c = true) (chr s) -> Forall (fun c => is_digit c = true) (chr (pretty_N_go x s)).
Proof.
  revert s. induction (N.lt_wf_0 x) as [x _ IH]; intros s Hs.
  assert (x = 0 \/ 0 < x)%N as [->|Hx] by lia; [by rewrite pretty_N_go_0|].
  rewrite pretty_N_go_step by done. apply IH; [by apply N.div_lt|].
  change (chr (String ?a s)) with (char_code a :: chr s). constructor; [apply digit_char|done].
Qed.

Lemma pretty_N_digits (x : N) : Forall (fun c => is_digit c = true) (chr (pretty x)).
Proof.
  unfold pretty, pretty_N. case_decide; [by repeat constructor|]. apply pretty_N_go_digits. constructor.
Qed.

Lemma show_chars n : Forall (fun c => number_char c = true) (show n).
Proof.
  assert (Hd : forall l, Forall (fun c => is_digit c = true) l -> Forall (fun c => number_char c = true) l).
  { intros l Hl. eapply Forall_impl; [exact Hl|]. intros c Hc. unfold number_char. by rewrite Hc. }
  unfold show. destruct n as [|p|p].
  - by repeat constructor.
  - apply Hd, (pretty_N_digits (Npos p)).
  - change (chr (pretty (Zneg p))) with (45 :: chr (pretty (Npos p))). constructor; [done|]. apply Hd, pretty_N_digits.
Qed.

Lemma number_char_not c n : number_char c = false -> c ∉ show n.
Proof.
  intros Hc Hin. pose proof (show_chars n) as H. rewrite Forall_forall in H. specialize (H _ Hin). congruence.
Qed.

(** The value of a string of digits. *)
Definition digits_value (s : chars) : Z := fold_left (fun a c => a * 10 + (c - 48)) s 0.

(** [str::parse] for a signed integer of [w] bits: an optional sign, at least one
    digit, and a value in range. *)
Definition parse_int (w : Z) (s : chars) : option Z :=
  let '(neg, ds) := match s with 43 :: s' => (false, s') | 45 :: s' => (true, s') | _ => (false, s) end in
  if negb (bool_decide (ds = [])) && forallb is_digit ds then
    let v := if neg : bool then - digits_value ds else digits_value ds in
    if bool_decide (fits_s w v) then Some v else None
  else None.

Lemma pretty_N_char_value x : (x < 10)%N -> char_code (pretty_N_char x) - 48 = Z.of_N x.
Proof.
  intros Hx. assert (x = 0 \/ x = 1 \/ x = 2 \/ x = 3 \/ x = 4 \/ x = 5 \/ x = 6 \/ x = 7 \/ x = 8 \/ x = 9)%N as H by lia.
  by repeat destruct H as [->|H]; subst.
Qed.

Lemma pretty_N_go_value x s : digits_value (chr (pretty_N_go x s)) = fold_left (fun a c => a * 10 + (c - 48)) (chr s) (Z.of_N x).
Proof.
  unfold digits_value. revert s. induction (N.lt_wf_0 x) as [x _ IH]; intros s.
  assert (x = 0 \/ 0 < x)%N as [->|Hx] by lia; [by rewrite pretty_N_go_0|].
  rewrite pretty_N_go_step by done. rewrite IH by (by apply N.div_lt).
  change (chr (String ?a s)) with (char_code a :: chr s). cbn [fold_left].
  rewrite pretty_N_char_value by (by apply N.mod_lt). f_equal.
  rewrite (N.div_mod x 10) at 3 by lia. lia.
Qed.

Lemma pretty_N_value (x : N) : digits_value (chr (pretty x)) = Z.of_N x /\ chr (pretty x) <> [].
Proof.
  unfold pretty, pretty_N. case_decide as Hx; [by subst|]. rewrite pretty_N_go_value. split; [done|].
  intros Hn. pose proof (pretty_N_go_value x "") as Hv. rewrite Hn in Hv. cbn in Hv. lia.
Qed.

Lemma parse_digits w (x : N) neg : let v := if neg : bool then - Z.of_N x else Z.of_N x in fits_s w v ->
  parse_int w ((if neg then [45] else []) ++ chr (pretty x)) = Some v.
Proof.
  cbv zeta. intros Hf. destruct (pretty_N_value x) as [Hv Hne]. pose proof (pretty_N_digits x) as Hd.
  set (ds := chr (pretty x)) in *. unfold parse_int.
  assert (Hm : (match (if neg then [45] else []) ++ ds with 43 :: s' => (false, s') | 45 :: s' => (true, s')
                | _ => (false, (if neg then [45] else []) ++ ds) end) = (neg, ds)).
  { destruct neg; [done|]. cbn [app]. destruct ds as [|c ds']; [done|]. apply Forall_cons in Hd as [Hc _].
    assert (c <> 43 /\ c <> 45) as [H1 H2] by (unfold is_digit in Hc; lia).
    repeat (case_match; try done). }
  rewrite Hm. rewrite bool_decide_false by done. cbn [negb andb].
  rewrite (proj2 (forallb_forall is_digit ds)) by (intros c Hc; rewrite Forall_forall in Hd; by apply Hd, list_elem_of_In).
  rewrite Hv. by rewrite bool_decide_true.
Qed.

(** Printing and parsing an integer. *)
Lemma parse_show w z : fits_s w z -> parse_int w (show z) = Some z.
Proof.
  intros Hz. destruct z as [|p|p].
  - apply (parse_digits w 0 false Hz).
  - apply (parse_digits w (Npos p) false Hz).
  - apply (parse_digits w (Npos p) true Hz).
Qed.

(** ** JSON *)

(** [serde_json::Value]; a number is what [as_i64] and [as_f64] (its bit pattern)
    say of it, an object the list of its members. *)
Inductive Value :=
  | JNull
  | JBool (b : bool)
  | JNumber (as_i64 as_f64 : option Z)
  | JString (s : chars)
  | JArray (items : list Value)
  | JObject (members : list (chars * Value)).

(** [Value::get] with a key, and [Value::as_i64]. *)
Definition json_get (v : Value) (key : chars) : option Value :=
  match v with
  | JObject members => snd <$> List.find (fun m => bool_decide (m.1 = key)) members
  | _ => None
  end.
Definition json_i64 (v : Value) : option Z := match v with JNumber n _ => n | _ => None end.
