(* ===== verification/Utf8.v ===== *)
(** * UTF-8

    The conversions between a string's bytes and its characters ([str::chars],
    [String::push] of a [char]), for the code that walks over characters.  A valid
    byte string and the scalar values it spells determine each other. *)
From Stdlib Require Import ZArith Lia Strings.Byte.
From stdpp Require Import base list numbers.
From S2P Require Import Prelude Buf Wire Codec Chars.
Local Open Scope Z_scope.

(** [char::encode_utf8]. *)
Definition utf8_char (c : Z) : bytes :=
  if c <? 0x80 then [zb c]
  else if c <? 0x800 then [zb (0xC0 + c / 64); zb (0x80 + c mod 64)]
  else if c <? 0x10000 then [zb (0xE0 + c / 4096); zb (0x80 + c / 64 mod 64); zb (0x80 + c mod 64)]
  else [zb (0xF0 + c / 262144); zb (0x80 + c / 4096 mod 64); zb (0x80 + c / 64 mod 64); zb (0x80 + c mod 64)].

Definition utf8 (s : chars) : bytes := concat (map utf8_char s).

(** [str::chars], collected: the bytes are those of a [str], which is valid UTF-8. *)
Fixpoint chars_of (bs : bytes) : chars :=
  match bs with
  | [] => []
  | b0 :: s1 =>
      if bz b0 <? 0x80 then bz b0 :: chars_of s1
      else match s1 with
      | [] => []
      | b1 :: s2 =>
          if bz b0 <? 0xE0 then (bz b0 - 0xC0) * 64 + (bz b1 - 0x80) :: chars_of s2
          else match s2 with
          | [] => []
          | b2 :: s3 =>
              if bz b0 <? 0xF0 then (bz b0 - 0xE0) * 4096 + (bz b1 - 0x80) * 64 + (bz b2 - 0x80) :: chars_of s3
              else match s3 with
              | [] => []
              | b3 :: s4 =>
                  (bz b0 - 0xF0) * 262144 + (bz b1 - 0x80) * 4096 + (bz b2 - 0x80) * 64 + (bz b3 - 0x80) :: chars_of s4
              end
          end
      end
  end.

Lemma bz_small z : 0 <= z < 256 -> bz (zb z) = z.
Proof. intros. rewrite bz_zb. by apply Z.mod_small. Qed.

Lemma chars_of_char c bs : char_ok c -> chars_of (utf8_char c ++ bs) = c :: chars_of bs.
Proof.
  intros Hc. assert (0 <= c < 0x110000) by (unfold char_ok in Hc; lia). unfold utf8_char.
  destruct (Z.ltb_spec c 0x80); [|destruct (Z.ltb_spec c 0x800); [|destruct (Z.ltb_spec c 0x10000)]];
    cbn [app chars_of]; rewrite !bz_small by (Z.div_mod_to_equations; lia);
    repeat match goal with |- context [?a <? ?b] => destruct (Z.ltb_spec a b); [try (Z.div_mod_to_equations; lia)|try (Z.div_mod_to_equations; lia)] end;
    f_equal; Z.div_mod_to_equations; lia.
Qed.

Lemma chars_of_utf8 s : Forall char_ok s -> chars_of (utf8 s) = s.
Proof.
  unfold utf8. induction 1 as [|c s Hc Hs IH]; [done|]. cbn [map concat]. by rewrite chars_of_char, IH.
Qed.

Lemma zb_eq b z : bz b = z -> zb z = b.
Proof. intros <-. apply zb_bz. Qed.

(** A valid byte string begins with the bytes of one scalar value. *)
Lemma utf8_valid_inv bs : utf8_valid bs = true ->
  bs = [] \/ exists c rest, char_ok c /\ bs = utf8_char c ++ rest /\ utf8_valid rest = true.
Proof.
  destruct bs as [|b0 s1]; [by left|]. intros H. right. pose proof (bz_range b0) as R0.
  cbn [utf8_valid] in H. unfold in_range in H.
  destruct ((0 <=? bz b0) && (bz b0 <=? 127)) eqn:E1.
  { exists (bz b0), s1. unfold utf8_char, char_ok. rewrite (proj2 (Z.ltb_lt _ _)) by lia. rewrite zb_bz. split_and!; [lia|done..]. }
  destruct s1 as [|b1 s2]; [done|]. pose proof (bz_range b1) as R1.
  destruct ((194 <=? bz b0) && (bz b0 <=? 223)) eqn:E2.
  { apply andb_true_iff in H as [H Hr]. exists ((bz b0 - 0xC0) * 64 + (bz b1 - 0x80)), s2. split_and!; [unfold char_ok; lia| |done].
    unfold utf8_char. rewrite (proj2 (Z.ltb_ge _ _)), (proj2 (Z.ltb_lt _ _)) by lia. cbn [app].
    f_equal; [|f_equal]; symmetry; apply zb_eq; Z.div_mod_to_equations; lia. }
  destruct s2 as [|b2 s3]; [done|]. pose proof (bz_range b2) as R2.
  destruct ((224 <=? bz b0) && (bz b0 <=? 239)) eqn:E3.
  { apply andb_true_iff in H as [[H1 H2]%andb_true_iff Hr].
    exists ((bz b0 - 0xE0) * 4096 + (bz b1 - 0x80) * 64 + (bz b2 - 0x80)), s3.
    assert (0x800 <= (bz b0 - 0xE0) * 4096 + (bz b1 - 0x80) * 64 + (bz b2 - 0x80) < 0x10000 /\ 128 <= bz b1 <= 191 /\
            char_ok ((bz b0 - 0xE0) * 4096 + (bz b1 - 0x80) * 64 + (bz b2 - 0x80))) as (Hc & Hb1 & Hok).
    { unfold char_ok. destruct ((224 <=? bz b0) && (bz b0 <=? 224)) eqn:E4; [lia|].
      destruct ((237 <=? bz b0) && (bz b0 <=? 237)) eqn:E5; lia. }
    split_and!; [done| |done]. unfold utf8_char.
    rewrite (proj2 (Z.ltb_ge _ 128)), (proj2 (Z.ltb_ge _ 2048)), (proj2 (Z.ltb_lt _ 65536)) by lia. cbn [app].
    f_equal; [|f_equal; [|f_equal]]; symmetry; apply zb_eq; Z.div_mod_to_equations; lia. }
  destruct s3 as [|b3 s4]; [done|]. pose proof (bz_range b3) as R3.
  apply andb_true_iff in H as [[[[H0 H1]%andb_true_iff H2]%andb_true_iff H3]%andb_true_iff Hr].
  set (c := (bz b0 - 0xF0) * 262144 + (bz b1 - 0x80) * 4096 + (bz b2 - 0x80) * 64 + (bz b3 - 0x80)).
  assert (0x10000 <= c < 0x110000 /\ 128 <= bz b1 <= 191) as (Hc & Hb1).
  { unfold c. destruct ((240 <=? bz b0) && (bz b0 <=? 240)) eqn:E4; [lia|].
    destruct ((244 <=? bz b0) && (bz b0 <=? 244)) eqn:E5; lia. }
  exists c, s4. split_and!; [unfold char_ok; lia| |done]. unfold utf8_char.
  rewrite (proj2 (Z.ltb_ge c 128)), (proj2 (Z.ltb_ge c 2048)), (proj2 (Z.ltb_ge c 65536)) by lia. cbn [app]. unfold c.
  f_equal; [|f_equal; [|f_equal; [|f_equal]]]; symmetry; apply zb_eq; Z.div_mod_to_equations; lia.
Qed.

Lemma length_utf8_char c : (1 <= length (utf8_char c))%nat.
Proof. unfold utf8_char. repeat case_match; cbn; lia. Qed.

Lemma utf8_chars_of bs : utf8_valid bs = true -> utf8 (chars_of bs) = bs /\ Forall char_ok (chars_of bs).
Proof.
  revert bs. induction bs as [bs IH] using (induction_ltof1 _ (@length byte)). unfold ltof in IH. intros Hv.
  destruct (utf8_valid_inv bs Hv) as [->|(c & rest & Hc & -> & Hr)]; [by split|].
  rewrite chars_of_char by done. destruct (IH rest) as [H1 H2]; [|done|].
  - rewrite length_app. pose proof (length_utf8_char c). lia.
  - split; [|by constructor]. unfold utf8 in *. cbn [map concat]. by rewrite H1.
Qed.

(** What the characters of a string spell is valid. *)
Lemma utf8_valid_char c bs : char_ok c -> utf8_valid (utf8_char c ++ bs) = utf8_valid bs.
Proof.
  intros Hc. assert (0 <= c < 0x110000) by (unfold char_ok in Hc; lia). unfold char_ok in Hc. unfold utf8_char.
  destruct (Z.ltb_spec c 0x80); [|destruct (Z.ltb_spec c 0x800); [|destruct (Z.ltb_spec c 0x10000)]];
    cbn [app utf8_valid]; unfold in_range; rewrite !bz_small by (Z.div_mod_to_equations; lia);
    repeat match goal with |- context [?a <=? ?b] =>
      first [rewrite (proj2 (Z.leb_le a b)) by (Z.div_mod_to_equations; lia)
            |rewrite (proj2 (Z.leb_gt a b)) by (Z.div_mod_to_equations; lia)
            |destruct (Z.leb_spec a b)] end; cbn [andb]; try done; try (Z.div_mod_to_equations; lia).
Qed.

Lemma utf8_valid_utf8 s : Forall char_ok s -> utf8_valid (utf8 s) = true.
Proof.
  unfold utf8. induction 1 as [|c s Hc Hs IH]; [done|]. cbn [map concat]. by rewrite utf8_valid_char.
Qed.

(** [String::from_utf8_lossy]: a sequence that is not the beginning of a character
    is replaced, up to its longest prefix that could be one, by U+FFFD. *)
Definition REPLACEMENT : bytes := [zb 0xEF; zb 0xBF; zb 0xBD].

Definition second_ok (b0 b1 : byte) : bool :=
  if in_range 0xE0 0xE0 b0 then in_range 0xA0 0xBF b1
  else if in_range 0xED 0xED b0 then in_range 0x80 0x9F b1
  else if in_range 0xF0 0xF0 b0 then in_range 0x90 0xBF b1
  else if in_range 0xF4 0xF4 b0 then in_range 0x80 0x8F b1
  else in_range 0x80 0xBF b1.

Fixpoint from_utf8_lossy (s : bytes) : bytes :=
  match s with
  | [] => []
  | b0 :: s1 =>
      if in_range 0x00 0x7F b0 then b0 :: from_utf8_lossy s1
      else if in_range 0xC2 0xDF b0 then
        match s1 with
        | b1 :: s2 => if in_range 0x80 0xBF b1 then b0 :: b1 :: from_utf8_lossy s2 else REPLACEMENT ++ from_utf8_lossy s1
        | [] => REPLACEMENT
        end
      else if in_range 0xE0 0xEF b0 then
        match s1 with
        | b1 :: s2 =>
            if second_ok b0 b1 then
              match s2 with
              | b2 :: s3 => if in_range 0x80 0xBF b2 then b0 :: b1 :: b2 :: from_utf8_lossy s3 else REPLACEMENT ++ from_utf8_lossy s2
              | [] => REPLACEMENT
              end
            else REPLACEMENT ++ from_utf8_lossy s1
        | [] => REPLACEMENT
        end
      else if in_range 0xF0 0xF4 b0 then
        match s1 with
        | b1 :: s2 =>
            if second_ok b0 b1 then
              match s2 with
              | b2 :: s3 =>
                  if in_range 0x80 0xBF b2 then
                    match s3 with
                    | b3 :: s4 =>
                        if in_range 0x80 0xBF b3 then b0 :: b1 :: b2 :: b3 :: from_utf8_lossy s4
                        else REPLACEMENT ++ from_utf8_lossy s3
                    | [] => REPLACEMENT
                    end
                  else REPLACEMENT ++ from_utf8_lossy s2
              | [] => REPLACEMENT
              end
            else REPLACEMENT ++ from_utf8_lossy s1
        | [] => REPLACEMENT
        end
      else REPLACEMENT ++ from_utf8_lossy s1
  end.

Lemma in_range_disjoint lo hi lo' hi' b : in_range lo hi b = true -> hi < lo' \/ hi' < lo -> in_range lo' hi' b = false.
Proof. unfold in_range. lia. Qed.

Lemma second_ok_3 b0 b1 : in_range 0xE0 0xEF b0 = true ->
  second_ok b0 b1 = if in_range 0xE0 0xE0 b0 then in_range 0xA0 0xBF b1
    else if in_range 0xED 0xED b0 then in_range 0x80 0x9F b1 else in_range 0x80 0xBF b1.
Proof.
  intros H. unfold second_ok. rewrite (in_range_disjoint 0xE0 0xEF 0xF0 0xF0), (in_range_disjoint 0xE0 0xEF 0xF4 0xF4) by (done || lia). done.
Qed.
Lemma second_ok_4 b0 b1 : in_range 0xF0 0xF4 b0 = true ->
  second_ok b0 b1 = if in_range 0xF0 0xF0 b0 then in_range 0x90 0xBF b1
    else if in_range 0xF4 0xF4 b0 then in_range 0x80 0x8F b1 else in_range 0x80 0xBF b1.
Proof.
  intros H. unfold second_ok. rewrite (in_range_disjoint 0xF0 0xF4 0xE0 0xE0), (in_range_disjoint 0xF0 0xF4 0xED 0xED) by (done || lia). done.
Qed.

Lemma lossy_valid s : utf8_valid s = true -> from_utf8_lossy s = s.
Proof.
  induction s as [s IH] using (induction_ltof1 _ (@length byte)). unfold ltof in IH. intros Hv.
  destruct s as [|b0 s1]; [done|]. cbn [utf8_valid from_utf8_lossy] in *.
  destruct (in_range 0 127 b0); [f_equal; apply IH; [cbn; lia|done]|].
  destruct s1 as [|b1 s2]; [done|]. destruct (in_range 194 223 b0).
  { apply andb_true_iff in Hv as [-> Hv]. do 2 f_equal. apply IH; [cbn; lia|done]. }
  destruct s2 as [|b2 s3]; [done|]. destruct (in_range 224 239 b0) eqn:E3.
  { apply andb_true_iff in Hv as [[H1 ->]%andb_true_iff Hv]. rewrite second_ok_3, H1 by done. do 3 f_equal. apply IH; [cbn; lia|done]. }
  destruct s3 as [|b3 s4]; [done|].
  apply andb_true_iff in Hv as [[[[E4 H1]%andb_true_iff ->]%andb_true_iff ->]%andb_true_iff Hv].
  rewrite E4, second_ok_4, H1 by done. do 4 f_equal. apply IH; [cbn; lia|done].
Qed.
