(* ===== verification/Snbt.v ===== *)
(** * Textual NBT

    crates/protocol/src/types/nbt_snbt.rs: the printer [to_snbt] and the
    recursive-descent parser [parse_snbt].  The parser's state is its position in
    the vector of characters; its loops recurse on the characters ahead, the
    mutual recursion of values, compounds and lists on fuel, which
    [parse_snbt_returns] shows to be enough.  The text of floating-point numbers
    and the letters outside ASCII are the standard library's tables, parameters
    here. *)
From Stdlib Require Import ZArith Lia Strings.String Strings.Ascii.
From stdpp Require Import base list numbers strings sets pretty.
From S2P Require Import Prelude Buf Wire Codec Nbt Chars Utf8.
Local Open Scope Z_scope.
Local Open Scope koja_scope.

Local Notation "'#' c" := (char_code c%char) (at level 1, format "'#' c").

(** The quotation mark. *)
Definition QUOTE : Z := 34.

Inductive SnbtError :=
  | UnexpectedChar (c : Z) (pos : nat)
  | SnbtUnexpectedEof
  | Expected (c : Z) (pos : nat)
  | UnterminatedString
  | InvalidNumber (s : chars)
  | TypeMismatch.

(** [Display] and [FromStr] of the two floating-point types, on bit patterns of
    [w] bits: what is displayed of a finite number is an optional minus sign,
    digits and at most one point, and is parsed back. *)
Definition float_shape (s : chars) : Prop :=
  exists sign ds frac, s = sign ++ ds ++ frac /\ (sign = [] \/ sign = [#"-"]) /\
    ds <> [] /\ forallb is_digit ds = true /\
    (frac = [] \/ exists fs, frac = #"." :: fs /\ forallb is_digit fs = true).

Class FloatText (w : Z) := {
  float_finite : Z -> bool;
  float_show : Z -> chars;
  float_parse : chars -> option Z;
  float_parse_fits s b : float_parse s = Some b -> fits_u w b;
  float_show_shape b : fits_u w b -> float_finite b = true -> float_shape (float_show b);
  float_parse_show b : fits_u w b -> float_finite b = true -> float_parse (float_show b) = Some b;
}.

(** [char::is_whitespace]: the White_Space property. *)
Definition is_whitespace (c : Z) : bool :=
  ((9 <=? c) && (c <=? 13)) || (c =? 32) || (c =? 0x85) || (c =? 0xA0) || (c =? 0x1680) ||
  ((0x2000 <=? c) && (c <=? 0x200A)) || (c =? 0x2028) || (c =? 0x2029) || (c =? 0x202F) || (c =? 0x205F) || (c =? 0x3000).

(** The character classes of the standard library outside ASCII: a letter is not
    a space. *)
Class CharTable := {
  wide_alphabetic : Z -> bool;
  wide_numeric : Z -> bool;
  wide_alphabetic_not_space c : wide_alphabetic c = true -> is_whitespace c = false;
}.

Section Snbt.
Context {F32 : FloatText 32} {F64 : FloatText 64} {Table : CharTable}.

(** ** Printing *)

(** [str::replace] of a character. *)
Definition replace (c : Z) (by_ : chars) (s : chars) : chars :=
  concat (map (fun x => if x =? c then by_ else [x]) s).

Definition BACKSLASH : Z := 92.

Definition format_snbt_string (s : chars) : chars :=
  let escaped := replace BACKSLASH [BACKSLASH; BACKSLASH] s in
  let escaped := replace QUOTE [BACKSLASH; QUOTE] escaped in
  let escaped := replace 10 [BACKSLASH; #"n"] escaped in
  let escaped := replace 13 [BACKSLASH; #"r"] escaped in
  let escaped := replace 9 [BACKSLASH; #"t"] escaped in
  [QUOTE] ++ escaped ++ [QUOTE].

(** [items.join(",")]. *)
Fixpoint join_comma (items : list chars) : chars :=
  match items with
  | [] => []
  | [x] => x
  | x :: items' => x ++ [#","] ++ join_comma items'
  end.

Fixpoint to_snbt_chars (tag : NbtTag) : chars :=
  match tag with
  | NbtEnd => chr "END"
  | NbtByte v => show v ++ chr "b"
  | NbtShort v => show v ++ chr "s"
  | NbtInt v => show v
  | NbtLong v => show v ++ chr "L"
  | NbtFloat v => float_show (w := 32) v ++ chr "f"
  | NbtDouble v => float_show (w := 64) v ++ chr "d"
  | NbtString s => format_snbt_string (chars_of s)
  | NbtByteArray arr => chr "[B;" ++ join_comma (map (fun b => show b ++ chr "b") arr) ++ chr "]"
  | NbtIntArray arr => chr "[I;" ++ join_comma (map show arr) ++ chr "]"
  | NbtLongArray arr => chr "[L;" ++ join_comma (map (fun l => show l ++ chr "L") arr) ++ chr "]"
  | NbtList items =>
      match items with
      | [] => chr "[]"
      | _ => chr "[" ++ join_comma (map to_snbt_chars items) ++ chr "]"
      end
  | NbtCompound m =>
      match m with
      | [] => chr "{}"
      | _ => chr "{" ++ join_comma (map (fun '(k, v) => chars_of k ++ chr ":" ++ to_snbt_chars v) m) ++ chr "}"
      end
  end.

Definition to_snbt (tag : NbtTag) : bytes := utf8 (to_snbt_chars tag).

(** ** Characters *)

Definition ascii_alphabetic (c : Z) : bool := ((65 <=? c) && (c <=? 90)) || ((97 <=? c) && (c <=? 122)).
Definition is_alphabetic (c : Z) : bool := if c <? 128 then ascii_alphabetic c else wide_alphabetic c.
Definition is_alphanumeric (c : Z) : bool :=
  is_alphabetic c || (if c <? 128 then is_digit c else wide_numeric c).

Definition identifier_start (c : Z) : bool := is_alphabetic c || (c =? #"_").
Definition identifier_char (c : Z) : bool := is_alphanumeric c || (c =? #"_") || (c =? #"-") || (c =? #".").

(** ** Parsing *)

Section Parser.
(** [SnbtParser::input]; [SnbtParser::pos] is the state. *)
Variable input : chars.

Abbreviation P := (M nat SnbtError).

Definition current : P (option Z) := fun pos => (Ok (input !! pos), pos).
Definition step : P unit := fun pos => (Ok tt, S pos).
Definition unexpected {A} (c : Z) : P A := fun pos => (Err (UnexpectedChar c pos), pos).
Definition expected {A} (c : Z) : P A := fun pos => (Err (Expected c pos), pos).

Fixpoint span_len (f : Z -> bool) (rest : chars) : nat :=
  match rest with
  | c :: rest' => if f c then S (span_len f rest') else O
  | [] => O
  end.

Definition skip_whitespace : P unit := fun pos => (Ok tt, (pos + span_len is_whitespace (drop pos input))%nat).

Definition parse_identifier : P chars := fun pos =>
  let n := span_len identifier_char (drop pos input) in (Ok (take n (drop pos input)), (pos + n)%nat).

Definition parse_unquoted_string : P NbtTag :=
  let! s := parse_identifier in
  if bool_decide (s = chr "true") then ret (NbtByte 1)
  else if bool_decide (s = chr "false") then ret (NbtByte 0)
  else ret (NbtString (utf8 s)).

Definition unescape (c : Z) : chars :=
  if c =? #"n" then [10] else if c =? #"r" then [13] else if c =? #"t" then [9]
  else if c =? BACKSLASH then [BACKSLASH] else if c =? #"'" then [#"'"] else if c =? QUOTE then [QUOTE]
  else [BACKSLASH; c].

(** The [while let] of [parse_quoted_string], over the characters ahead. *)
Fixpoint quoted_loop (quote : Z) (rest : chars) (escaped : bool) (result : chars) (pos : nat) :
    outcome SnbtError chars * nat :=
  match rest with
  | [] => (Err UnterminatedString, pos)
  | c :: rest' =>
      if escaped then quoted_loop quote rest' false (result ++ unescape c) (S pos)
      else if c =? BACKSLASH then quoted_loop quote rest' true result (S pos)
      else if c =? quote then (Ok result, S pos)
      else quoted_loop quote rest' false (result ++ [c]) (S pos)
  end.

Definition parse_quoted_string : P chars :=
  let! q := current in
  match q with
  | None => fail SnbtUnexpectedEof
  | Some quote => step;; fun pos => quoted_loop quote (drop pos input) false [] pos
  end.

(** The loop of [parse_number]: the characters it takes, and [has_dot]. *)
Fixpoint number_span (rest : chars) (has_dot : bool) : chars * bool :=
  match rest with
  | c :: rest' =>
      if is_digit c then let '(s, d) := number_span rest' has_dot in (c :: s, d)
      else if (c =? #".") && negb has_dot then let '(s, d) := number_span rest' true in (c :: s, d)
      else ([], has_dot)
  | [] => ([], has_dot)
  end.

Definition parsed (num : chars) (t : option NbtTag) : P NbtTag :=
  match t with Some t => ret t | None => fail (InvalidNumber num) end.

(** The suffix [c.to_ascii_lowercase()] of the five numeric types. *)
Definition with_suffix (c : Z) (num : chars) : option (option NbtTag) :=
  if (c =? #"b") || (c =? #"B") then Some (NbtByte <$> parse_int 8 num)
  else if (c =? #"s") || (c =? #"S") then Some (NbtShort <$> parse_int 16 num)
  else if (c =? #"l") || (c =? #"L") then Some (NbtLong <$> parse_int 64 num)
  else if (c =? #"f") || (c =? #"F") then Some (NbtFloat <$> float_parse (w := 32) num)
  else if (c =? #"d") || (c =? #"D") then Some (NbtDouble <$> float_parse (w := 64) num)
  else None.

Definition parse_number : P NbtTag :=
  let! c := current in
  let! sign := match c with
               | Some s => if (s =? #"+") || (s =? #"-") then step;; ret [s] else ret []
               | None => ret []
               end in
  let! digits := fun pos => let '(s, d) := number_span (drop pos input) false in (Ok (s, d), (pos + length s)%nat) in
  let num := sign ++ digits.1 in
  let! suffix := current in
  match suffix ≫= fun c => with_suffix c num with
  | Some t => step;; parsed num t
  | None => parsed num (if digits.2 : bool then NbtDouble <$> float_parse (w := 64) num else NbtInt <$> parse_int 32 num)
  end.

(** What an element of a typed array may be, and the array it makes. *)
Definition array_elem (type_char : Z) (t : NbtTag) : option Z :=
  if type_char =? #"B" then match t with NbtByte b => Some b | NbtInt i => Some (wraps 8 i) | _ => None end
  else if type_char =? #"I" then match t with NbtInt i => Some i | _ => None end
  else match t with NbtLong l => Some l | NbtInt i => Some i | _ => None end.
Definition array_tag (type_char : Z) (arr : list Z) : NbtTag :=
  if type_char =? #"B" then NbtByteArray arr else if type_char =? #"I" then NbtIntArray arr else NbtLongArray arr.

(** The three loops of [parse_typed_array], which differ in the two above. *)
Fixpoint array_loop (fuel : nat) (type_char : Z) (arr : list Z) : P (list Z) :=
  match fuel with
  | O => nofuel
  | S fuel =>
      let! value := parse_number in
      match array_elem type_char value with
      | None => fail TypeMismatch
      | Some v =>
          skip_whitespace;;
          let! c := current in
          match c with
          | Some c =>
              if c =? #"," then step;; skip_whitespace;; array_loop fuel type_char (arr ++ [v])
              else if c =? #"]" then ret (arr ++ [v])
              else unexpected c
          | None => fail SnbtUnexpectedEof
          end
      end
  end.

Definition parse_typed_array (fuel : nat) (type_char : Z) : P NbtTag :=
  step;; step;; skip_whitespace;;
  let! c := current in
  let! arr := if bool_decide (c = Some #"]") then ret [] else array_loop fuel type_char [] in
  step;; ret (array_tag type_char arr).

Definition is_typed_array (c1 c2 : option Z) : option Z :=
  match c1 with
  | Some t => if ((t =? #"B") || (t =? #"I") || (t =? #"L")) && bool_decide (c2 = Some #";") then Some t else None
  | None => None
  end.

Definition peek_next : P (option Z) := fun pos => (Ok (input !! S pos), pos).

(** The key of a compound entry, or the closing brace. *)
Definition parse_key : P (option chars) :=
  let! c := current in
  match c with
  | Some c =>
      if (c =? QUOTE) || (c =? #"'") then let! k := parse_quoted_string in ret (Some k)
      else if identifier_start c then let! k := parse_identifier in ret (Some k)
      else if c =? #"}" then step;; ret None
      else unexpected c
  | None => fail SnbtUnexpectedEof
  end.

Fixpoint parse_value (fuel : nat) : P NbtTag :=
  match fuel with
  | O => nofuel
  | S fuel =>
      skip_whitespace;;
      let! c := current in
      match c with
      | Some c =>
          if c =? #"{" then
            (** [parse_compound] *)
            step;; skip_whitespace;;
            let! c := current in
            if bool_decide (c = Some #"}") then step;; ret (NbtCompound []) else compound_loop fuel []
          else if c =? #"[" then
            (** [parse_list_or_array] *)
            step;; skip_whitespace;;
            let! c1 := current in
            let! c2 := peek_next in
            match is_typed_array c1 c2 with
            | Some type_char => parse_typed_array fuel type_char
            | None => if bool_decide (c1 = Some #"]") then step;; ret (NbtList []) else list_loop fuel []
            end
          else if (c =? QUOTE) || (c =? #"'") then let! s := parse_quoted_string in ret (NbtString (utf8 s))
          else if is_digit c || (c =? #"-") || (c =? #"+") then parse_number
          else if identifier_start c then parse_unquoted_string
          else unexpected c
      | None => fail SnbtUnexpectedEof
      end
  end
with compound_loop (fuel : nat) (entries : list (bytes * NbtTag)) : P NbtTag :=
  match fuel with
  | O => nofuel
  | S fuel =>
      skip_whitespace;;
      let! key := parse_key in
      match key with
      | None => ret (NbtCompound entries)
      | Some key =>
          skip_whitespace;;
          let! c := current in
          if bool_decide (c = Some #":") then
            step;;
            let! value := parse_value fuel in
            let entries := map_insert (utf8 key) value entries in
            skip_whitespace;;
            let! c := current in
            match c with
            | Some c =>
                if c =? #"," then step;; compound_loop fuel entries
                else if c =? #"}" then step;; ret (NbtCompound entries)
                else unexpected c
            | None => fail SnbtUnexpectedEof
            end
          else expected #":"
      end
  end
with list_loop (fuel : nat) (items : list NbtTag) : P NbtTag :=
  match fuel with
  | O => nofuel
  | S fuel =>
      let! value := parse_value fuel in
      skip_whitespace;;
      let! c := current in
      match c with
      | Some c =>
          if c =? #"," then step;; skip_whitespace;; list_loop fuel (items ++ [value])
          else if c =? #"]" then step;; ret (NbtList (items ++ [value]))
          else unexpected c
      | None => fail SnbtUnexpectedEof
      end
  end.

End Parser.

Definition parse_chars (input : chars) : outcome SnbtError NbtTag * nat :=
  parse_value input (2 * length input + 2) O.

(** [parse_snbt]: the characters of a [&str] are scalar values. *)
Definition parse_snbt (input : bytes) : outcome SnbtError NbtTag := (parse_chars (chars_of input)).1.

(** ** Types *)

(** The values the parser can produce: numbers of their width, valid strings,
    distinct keys, no [End]. *)
Fixpoint tag_typed (t : NbtTag) : bool :=
  match t with
  | NbtEnd => false
  | NbtByte v => bool_decide (fits_s 8 v)
  | NbtShort v => bool_decide (fits_s 16 v)
  | NbtInt v => bool_decide (fits_s 32 v)
  | NbtLong v => bool_decide (fits_s 64 v)
  | NbtFloat v => bool_decide (fits_u 32 v)
  | NbtDouble v => bool_decide (fits_u 64 v)
  | NbtByteArray arr => forallb (fun v => bool_decide (fits_s 8 v)) arr
  | NbtIntArray arr => forallb (fun v => bool_decide (fits_s 32 v)) arr
  | NbtLongArray arr => forallb (fun v => bool_decide (fits_s 64 v)) arr
  | NbtString s => utf8_valid s
  | NbtList items => forallb tag_typed items
  | NbtCompound m => bool_decide (NoDup (map fst m)) && forallb (fun '(k, v) => utf8_valid k && tag_typed v) m
  end.

Definition array_width (type_char : Z) : Z :=
  if type_char =? #"B" then 8 else if type_char =? #"I" then 32 else 64.

(** ** Positions and outcomes *)

Section Outcomes.
Variable input : chars.

(** An error that names a position names what is there. *)
Definition error_at (e : SnbtError) : Prop :=
  match e with
  | UnexpectedChar c p => input !! p = Some c
  | Expected c p => (p <= length input)%nat /\ input !! p <> Some c
  | _ => True
  end.

(** Started at [pos], [m] returns: a value and a position as [Q] says, or an
    error that is right about the input. *)
Definition runs {A} (m : M nat SnbtError A) (pos : nat) (Q : A -> nat -> Prop) : Prop :=
  match m pos with
  | (Ok v, p) => Q v p
  | (Err e, _) => error_at e
  | _ => False
  end.

Lemma runs_bind {A B} (m : M nat SnbtError A) (k : A -> M nat SnbtError B) pos (Q : B -> nat -> Prop) :
  runs m pos (fun v p => runs (k v) p Q) -> runs (bind m k) pos Q.
Proof. unfold runs, bind. destruct (m pos) as [[] ?]; done. Qed.

Lemma runs_weaken {A} (m : M nat SnbtError A) pos (Q Q' : A -> nat -> Prop) :
  runs m pos Q -> (forall v p, Q v p -> Q' v p) -> runs m pos Q'.
Proof. unfold runs. destruct (m pos) as [[] ?]; auto. Qed.

Lemma span_len_le f rest : (span_len f rest <= length rest)%nat.
Proof. induction rest as [|c rest IH]; cbn; [done|]. destruct (f c); cbn; lia. Qed.

Lemma runs_skip pos (Q : unit -> nat -> Prop) :
  (pos <= length input)%nat -> (forall p, (pos <= p <= length input)%nat -> Q tt p) -> runs (skip_whitespace input) pos Q.
Proof.
  intros Hp HQ. apply HQ. pose proof (span_len_le is_whitespace (drop pos input)). rewrite length_drop in *. lia.
Qed.

Lemma lookup_lt_length pos c : input !! pos = Some c -> (pos < length input)%nat.
Proof. apply lookup_lt_Some. Qed.

Lemma number_span_le rest d : (length (number_span rest d).1 <= length rest)%nat.
Proof.
  revert d. induction rest as [|c rest IH]; intros d; [done|]. cbn.
  destruct (is_digit c); [pose proof (IH d); destruct (number_span rest d); cbn in *; lia|].
  destruct ((c =? #".") && negb d); [|cbn; lia]. pose proof (IH true). destruct (number_span rest true); cbn in *; lia.
Qed.

Lemma number_span_dot rest s d : number_span rest false = (s, d) -> s = [] -> d = false.
Proof.
  destruct rest as [|c rest]; cbn [number_span]; [by intros [= <- <-]|]. destruct (is_digit c).
  { destruct (number_span rest false). by intros [= <- <-]. }
  destruct ((c =? #".") && negb false); [|by intros [= <- <-]]. destruct (number_span rest true). by intros [= <- <-].
Qed.

(** The leaves a number can be. *)
Definition number_typed (t : NbtTag) : Prop :=
  match t with
  | NbtByte v => fits_s 8 v
  | NbtShort v => fits_s 16 v
  | NbtInt v => fits_s 32 v
  | NbtLong v => fits_s 64 v
  | NbtFloat v => fits_u 32 v
  | NbtDouble v => fits_u 64 v
  | _ => False
  end.

Lemma parse_int_fits w s v : parse_int w s = Some v -> fits_s w v.
Proof.
  unfold parse_int. match goal with |- context [let '(_, _) := ?p in _] => destruct p as [neg ds] end.
  destruct (_ && _); [|done]. case_bool_decide; [|done]. by intros [= <-].
Qed.

Lemma with_suffix_typed c num t : with_suffix c num = Some (Some t) -> number_typed t.
Proof.
  unfold with_suffix. repeat case_match; intros [=]; 
    match goal with H : _ <$> ?m = Some t |- _ => destruct m eqn:E; [|done]; cbn in H; injection H as <- end; cbn;
    first [by eapply parse_int_fits|by eapply float_parse_fits].
Qed.

Lemma runs_parsed num (t : option NbtTag) pos (Q : NbtTag -> nat -> Prop) :
  (forall v, t = Some v -> Q v pos) -> runs (parsed num t) pos Q.
Proof. destruct t; cbn; intros HQ; [by apply HQ|done]. Qed.

Lemma runs_parse_number pos : (pos <= length input)%nat ->
  runs (parse_number input) pos (fun v p => (pos < p <= length input)%nat /\ number_typed v).
Proof.
  intros Hp. unfold parse_number. apply runs_bind. unfold runs at 1, current.
  apply runs_bind. eapply (runs_weaken _ _ (fun sign p => p = (pos + length sign)%nat /\ (p <= length input)%nat)).
  { destruct (input !! pos) as [c|] eqn:Hc; [|cbn; lia]. apply lookup_lt_length in Hc.
    destruct (_ || _); cbn; lia. }
  intros sign p [-> Hp']. apply runs_bind. unfold runs at 1.
  destruct (number_span (drop (pos + length sign) input) false) as [ds dot] eqn:Hs.
  pose proof (number_span_le (drop (pos + length sign) input) false) as Hl. rewrite Hs, length_drop in Hl. cbn [fst] in Hl.
  apply runs_bind. unfold runs at 1, current. cbn [fst snd].
  destruct (input !! (pos + length sign + length ds)%nat ≫= _) as [t|] eqn:E.
  - destruct (input !! _) as [c|] eqn:Hc in E; [|done]. cbn in E. apply lookup_lt_length in Hc.
    apply runs_bind. unfold runs at 1, step. apply runs_parsed. intros v ->. split; [lia|]. by eapply with_suffix_typed.
  - apply runs_parsed. intros v Hv. destruct dot.
    + assert (ds <> []) by (intros ->; by apply number_span_dot in Hs). destruct ds; [done|].
      destruct (float_parse _) eqn:Ef; [|done]. injection Hv as <-. split; [cbn [length] in *; lia|]. by eapply float_parse_fits.
    + destruct (parse_int 32 (sign ++ ds)) eqn:Ei; [|done]. injection Hv as <-. split; [|by eapply parse_int_fits].
      destruct sign as [|c sign], ds as [|d ds]; cbn [length app] in *; try lia. done.
Qed.

Hypothesis Hinput : Forall char_ok input.

Lemma unescape_ok c : char_ok c -> Forall char_ok (unescape c).
Proof. intros Hc. unfold unescape. repeat case_match; repeat apply Forall_cons_2; try apply Forall_nil_2; try done; left; split; vm_compute; congruence. Qed.

Lemma runs_quoted_loop quote rest : forall escaped result pos, rest = drop pos input -> (pos <= length input)%nat ->
  Forall char_ok rest -> Forall char_ok result ->
  runs (quoted_loop quote rest escaped result) pos (fun s p => (pos < p <= length input)%nat /\ Forall char_ok s).
Proof.
  induction rest as [|c rest IH]; intros escaped result pos Hd Hp Hr Hres; [done|].
  assert (Hn : (S pos <= length input)%nat).
  { assert (H : length (drop pos input) = length (c :: rest)) by by rewrite <- Hd. rewrite length_drop in H. cbn in H. lia. }
  assert (Hd' : rest = drop (S pos) input).
  { by rewrite <- Nat.add_1_r, <- drop_drop, <- Hd. }
  apply Forall_cons in Hr as [Hc Hr].
  assert (Hlater : forall escaped result, Forall char_ok result ->
    runs (quoted_loop quote rest escaped result) (S pos) (fun s p => (pos < p <= length input)%nat /\ Forall char_ok s)).
  { intros e r Hre. eapply runs_weaken; [by apply IH|]. cbn. intros v p [? ?]. split; [lia|done]. }
  unfold runs in *. cbn [quoted_loop]. destruct escaped.
  - apply Hlater, Forall_app. split; [done|by apply unescape_ok].
  - destruct (c =? BACKSLASH); [by apply Hlater|]. destruct (c =? quote); [split; [lia|done]|].
    apply Hlater, Forall_app. split; [done|by constructor].
Qed.

Lemma drop_ok pos : Forall char_ok (drop pos input).
Proof. by apply Forall_drop. Qed.

Lemma runs_parse_quoted pos : (pos <= length input)%nat ->
  runs (parse_quoted_string input) pos (fun s p => (pos < p <= length input)%nat /\ Forall char_ok s).
Proof.
  intros Hp. unfold parse_quoted_string. apply runs_bind. unfold runs at 1, current.
  destruct (input !! pos) as [q|] eqn:Hq; [|done]. apply lookup_lt_length in Hq.
  apply runs_bind. unfold runs at 1, step.
  pose proof (runs_quoted_loop q (drop (S pos) input) false [] (S pos) eq_refl ltac:(lia) (drop_ok _) ltac:(done)) as H.
  eapply runs_weaken; [exact H|]. cbn. intros v p [? ?]. split; [lia|done].
Qed.

Lemma runs_parse_identifier pos c : input !! pos = Some c -> identifier_start c = true ->
  runs (parse_identifier input) pos (fun s p => (pos < p <= length input)%nat /\ Forall char_ok s).
Proof.
  intros Hc Hs. apply lookup_lt_length in Hc as Hl. unfold runs, parse_identifier. cbn.
  pose proof (span_len_le identifier_char (drop pos input)) as Hle. rewrite length_drop in Hle.
  split; [|by apply Forall_take, drop_ok]. split; [|lia].
  rewrite (drop_S _ _ _ Hc) in *. cbn [span_len].
  assert (identifier_char c = true) as ->; [|lia].
  unfold identifier_start, identifier_char, is_alphanumeric in *. destruct (is_alphabetic c); [done|]. cbn in Hs |- *.
  rewrite Hs. by rewrite orb_true_r.
Qed.

Lemma number_tag_typed t : number_typed t -> tag_typed t = true.
Proof. destruct t; cbn; intros H; try done; by apply bool_decide_eq_true. Qed.

Lemma array_elem_fits t v z : array_elem t v = Some z -> number_typed v -> fits_s (array_width t) z.
Proof.
  unfold array_elem, array_width. destruct (t =? #"B"), (t =? #"I"); destruct v; intros [= <-]; cbn; intros H; try done;
    first [by apply wraps_fits | width].
Qed.

Lemma array_tag_typed t arr : Forall (fits_s (array_width t)) arr -> tag_typed (array_tag t arr) = true.
Proof.
  unfold array_tag, array_width. intros H.
  assert (Hb : forall w, Forall (fits_s w) arr -> forallb (fun v => bool_decide (fits_s w v)) arr = true).
  { intros w Hw. apply forallb_forall. intros x Hx%list_elem_of_In. rewrite Forall_forall in Hw. by apply bool_decide_eq_true, Hw. }
  destruct (t =? #"B"); [|destruct (t =? #"I")]; by apply Hb.
Qed.

Lemma runs_array_loop t fuel : forall arr pos, (length input - pos < fuel)%nat -> (pos <= length input)%nat ->
  Forall (fits_s (array_width t)) arr ->
  runs (array_loop input fuel t arr) pos (fun a p => (pos < p < length input)%nat /\ Forall (fits_s (array_width t)) a).
Proof.
  induction fuel as [|fuel IH]; intros arr pos Hf Hp Ha; [lia|]. cbn [array_loop].
  apply runs_bind. eapply runs_weaken; [by apply runs_parse_number|]. cbn beta. intros v p [Hv Ht].
  destruct (array_elem t v) as [z|] eqn:Hz; [|done].
  apply array_elem_fits in Hz; [|done].
  assert (Hnew : Forall (fits_s (array_width t)) (arr ++ [z])) by (apply Forall_app; split; [done|by constructor]).
  apply runs_bind, runs_skip; [lia|]. intros p1 Hp1. apply runs_bind. unfold runs at 1, current.
  destruct (input !! p1) as [c|] eqn:Hc; [|done]. pose proof (lookup_lt_length p1 c Hc) as Hl.
  destruct (c =? #","); [|destruct (c =? #"]"); [split; [lia|done]|done]].
  apply runs_bind. unfold runs at 1, step. apply runs_bind, runs_skip; [lia|]. intros p2 Hp2.
  eapply runs_weaken; [apply IH; [lia|lia|done]|]. cbn beta. intros a q [? ?]. split; [lia|done].
Qed.

Lemma runs_typed_array t fuel pos : (length input - pos < fuel)%nat -> (S (S pos) <= length input)%nat ->
  runs (parse_typed_array input fuel t) pos (fun v p => (pos < p <= length input)%nat /\ tag_typed v = true).
Proof.
  intros Hf Hp. unfold parse_typed_array. apply runs_bind. unfold runs at 1, step. apply runs_bind. unfold runs at 1, step.
  apply runs_bind, runs_skip; [lia|]. intros p1 Hp1. apply runs_bind. unfold runs at 1, current. apply runs_bind.
  case_bool_decide as Hc.
  - unfold runs at 1, ret. apply lookup_lt_length in Hc. apply runs_bind. unfold runs, step, ret. split; [lia|].
    by apply array_tag_typed.
  - eapply runs_weaken; [apply runs_array_loop; [lia|lia|done]|]. cbn beta. intros arr p [Hq Ha].
    apply runs_bind. unfold runs, step, ret. split; [lia|]. by apply array_tag_typed.
Qed.

Lemma keys_map_insert k v m : map fst (map_insert k v m) = if bool_decide (k ∈ map fst m) then map fst m else map fst m ++ [k].
Proof.
  induction m as [|[k' v'] m IH]; cbn [map_insert map fst]; [by rewrite bool_decide_false by set_solver|].
  destruct (decide (k = k')) as [->|Hk]; cbn [map fst]; [by rewrite bool_decide_true by set_solver|].
  rewrite IH. case_bool_decide; [rewrite bool_decide_true by set_solver|rewrite bool_decide_false by set_solver]; done.
Qed.

Lemma NoDup_map_insert k v m : NoDup (map fst m) -> NoDup (map fst (map_insert k v m)).
Proof.
  intros Hm. rewrite keys_map_insert. case_bool_decide; [done|]. apply NoDup_app. split_and!; [done|set_solver|apply NoDup_singleton].
Qed.

Lemma map_insert_typed k v m :
  tag_typed (NbtCompound m) = true -> utf8_valid k = true -> tag_typed v = true ->
  tag_typed (NbtCompound (map_insert k v m)) = true.
Proof.
  cbn [tag_typed]. intros [Hn Hm]%andb_true_iff Hk Hv. apply bool_decide_eq_true in Hn. apply andb_true_iff. split.
  - apply bool_decide_eq_true. by apply NoDup_map_insert.
  - clear Hn. induction m as [|[k' v'] m IH]; cbn [map_insert forallb] in *; [by rewrite Hk, Hv|].
    apply andb_true_iff in Hm as [H1 H2]. destruct (decide (k = k')); subst; cbn [forallb]; rewrite ?H2, ?IH, ?H1 by done; [|done].
    by rewrite Hk, Hv.
Qed.

Lemma runs_parse_key pos : (pos <= length input)%nat ->
  runs (parse_key input) pos (fun k p => (pos < p <= length input)%nat /\ match k with Some k => Forall char_ok k | None => True end).
Proof.
  intros Hp. unfold parse_key. apply runs_bind. unfold runs at 1, current.
  destruct (input !! pos) as [c|] eqn:Hc; [|done]. pose proof (lookup_lt_length pos c Hc) as Hl.
  destruct (_ || _).
  { apply runs_bind. eapply runs_weaken; [by apply runs_parse_quoted|]. done. }
  destruct (identifier_start c) eqn:Hi.
  { apply runs_bind. eapply runs_weaken; [by eapply runs_parse_identifier|]. done. }
  destruct (c =? #"}"); [|done]. apply runs_bind. unfold runs, step, ret. split; [lia|done].
Qed.

(** Fuel enough for the characters ahead. *)
Definition value_spec (fuel : nat) : Prop := forall pos, (pos <= length input)%nat -> (2 * (length input - pos) < fuel)%nat ->
  runs (parse_value input fuel) pos (fun v p => (pos < p <= length input)%nat /\ tag_typed v = true).
Definition compound_spec (fuel : nat) : Prop := forall entries pos, (pos <= length input)%nat ->
  (2 * (length input - pos) + 1 < fuel)%nat -> tag_typed (NbtCompound entries) = true ->
  runs (compound_loop input fuel entries) pos (fun v p => (pos < p <= length input)%nat /\ tag_typed v = true).
Definition list_spec (fuel : nat) : Prop := forall items pos, (pos <= length input)%nat ->
  (2 * (length input - pos) + 1 < fuel)%nat -> forallb tag_typed items = true ->
  runs (list_loop input fuel items) pos (fun v p => (pos < p <= length input)%nat /\ tag_typed v = true).

(** The closing bracket or brace, or the comma and what it continues with. *)
Lemma runs_separated (close : Z) (more : M nat SnbtError NbtTag) (v : NbtTag) pos (Q : NbtTag -> nat -> Prop) :
  (pos <= length input)%nat ->
  (forall p, (pos <= p < length input)%nat -> runs more (S p) Q) ->
  (forall p, (pos <= p < length input)%nat -> Q v (S p)) ->
  runs (skip_whitespace input;; let! c := current input in
        match c with
        | Some c => if c =? #"," then step;; more else if c =? close then step;; ret v else unexpected c
        | None => fail SnbtUnexpectedEof
        end) pos Q.
Proof.
  intros Hp Hmore Hv. apply runs_bind, runs_skip; [done|]. intros p Hp1. apply runs_bind. unfold runs at 1, current.
  destruct (input !! p) as [c|] eqn:Hc; [|done]. pose proof (lookup_lt_length p c Hc) as Hl.
  destruct (c =? #","); [apply runs_bind; unfold runs at 1, step; apply Hmore; lia|].
  destruct (c =? close); [|done]. apply runs_bind. unfold runs, step, ret. apply Hv. lia.
Qed.

Lemma list_spec_step fuel : value_spec fuel -> list_spec fuel -> list_spec (S fuel).
Proof.
  intros IHv IHl items pos Hp Hf Hi. cbn [list_loop]. apply runs_bind. eapply runs_weaken; [apply IHv; lia|].
  cbn beta. intros v p [Hvp Hv].
  assert (Hnew : forallb tag_typed (items ++ [v]) = true) by (rewrite forallb_app; cbn; by rewrite Hi, Hv).
  apply runs_separated; [lia| |intros q Hq; split; [lia|done]].
  intros q Hq. apply runs_bind, runs_skip; [lia|]. intros q' Hq'.
  eapply runs_weaken; [apply IHl; [lia|lia|done]|]. cbn beta. intros w r [? ?]. split; [lia|done].
Qed.

Lemma compound_spec_step fuel : value_spec fuel -> compound_spec fuel -> compound_spec (S fuel).
Proof.
  intros IHv IHc entries pos Hp Hf He. cbn [compound_loop].
  apply runs_bind, runs_skip; [done|]. intros p0 Hp0. apply runs_bind.
  eapply runs_weaken; [apply runs_parse_key; lia|]. cbn beta. intros [k|] p [Hkp Hk]; [|split; [lia|done]].
  apply runs_bind, runs_skip; [lia|]. intros p1 Hp1. apply runs_bind. unfold runs at 1, current.
  case_bool_decide as Hc; [|unfold runs, expected; split; [lia|done]]. apply lookup_lt_length in Hc.
  apply runs_bind. unfold runs at 1, step. apply runs_bind. eapply runs_weaken; [apply IHv; lia|].
  cbn beta. intros v p2 [Hvp Hv].
  assert (Hnew : tag_typed (NbtCompound (map_insert (utf8 k) v entries)) = true).
  { apply map_insert_typed; [done|by apply utf8_valid_utf8|done]. }
  apply runs_separated; [lia| |intros q Hq; split; [lia|done]].
  intros q Hq. eapply runs_weaken; [apply IHc; [lia|lia|done]|]. cbn beta. intros w r [? ?]. split; [lia|done].
Qed.

Lemma runs_unquoted pos c : input !! pos = Some c -> identifier_start c = true ->
  runs (parse_unquoted_string input) pos (fun v p => (pos < p <= length input)%nat /\ tag_typed v = true).
Proof.
  intros Hc Hs. unfold parse_unquoted_string. apply runs_bind. eapply runs_weaken; [by eapply runs_parse_identifier|].
  cbn beta. intros s p [Hp Hok]. repeat case_bool_decide; (split; [lia|]); [done..|]. by apply utf8_valid_utf8.
Qed.

Lemma value_spec_step fuel : compound_spec fuel -> list_spec fuel -> value_spec (S fuel).
Proof.
  intros IHc IHl pos Hp Hf. cbn [parse_value]. apply runs_bind, runs_skip; [done|]. intros p Hp0.
  apply runs_bind. unfold runs at 1, current. destruct (input !! p) as [c|] eqn:Hc; [|done].
  pose proof (lookup_lt_length p c Hc) as Hl.
  destruct (c =? #"{").
  { apply runs_bind. unfold runs at 1, step. apply runs_bind, runs_skip; [lia|]. intros p1 Hp1.
    apply runs_bind. unfold runs at 1, current. case_bool_decide as Hb.
    - apply lookup_lt_length in Hb. apply runs_bind. unfold runs, step, ret. split; [lia|done].
    - eapply runs_weaken; [apply IHc; [lia|lia|done]|]. cbn beta. intros v q [? ?]. split; [lia|done]. }
  destruct (c =? #"[").
  { apply runs_bind. unfold runs at 1, step. apply runs_bind, runs_skip; [lia|]. intros p1 Hp1.
    apply runs_bind. unfold runs at 1, current. apply runs_bind. unfold runs at 1, peek_next.
    destruct (is_typed_array (input !! p1) (input !! S p1)) as [t|] eqn:Ht.
    - assert (S p1 < length input)%nat.
      { unfold is_typed_array in Ht. destruct (input !! p1); [|done]. case_bool_decide as Hsc; [by eapply lookup_lt_length|].
        by rewrite andb_false_r in Ht. }
      eapply runs_weaken; [apply runs_typed_array; lia|]. cbn beta. intros v q [? ?]. split; [lia|done].
    - case_bool_decide as Hb.
      + apply lookup_lt_length in Hb. apply runs_bind. unfold runs, step, ret. split; [lia|done].
      + eapply runs_weaken; [apply IHl; [lia|lia|done]|]. cbn beta. intros v q [? ?]. split; [lia|done]. }
  destruct (_ || _).
  { apply runs_bind. eapply runs_weaken; [by apply runs_parse_quoted; lia|]. cbn beta. intros s q [? ?]. split; [lia|].
    by apply utf8_valid_utf8. }
  destruct (_ || _).
  { eapply runs_weaken; [apply runs_parse_number; lia|]. cbn beta. intros v q [? ?]. split; [lia|]. by apply number_tag_typed. }
  destruct (identifier_start c) eqn:Hi; [|done].
  eapply runs_weaken; [by eapply runs_unquoted|]. cbn beta. intros v q [? ?]. split; [lia|done].
Qed.

Lemma parser_spec fuel : value_spec fuel /\ compound_spec fuel /\ list_spec fuel.
Proof.
  induction fuel as [|fuel (IHv & IHc & IHl)]; [split_and!; intros ?; intros; lia|].
  split_and!; [by apply value_spec_step|by apply compound_spec_step|by apply list_spec_step].
Qed.

End Outcomes.

(** ** Reading what was printed *)

Definition esc (c : Z) : chars :=
  if c =? BACKSLASH then [BACKSLASH; BACKSLASH] else if c =? QUOTE then [BACKSLASH; QUOTE]
  else if c =? 10 then [BACKSLASH; #"n"] else if c =? 13 then [BACKSLASH; #"r"] else if c =? 9 then [BACKSLASH; #"t"]
  else [c].

Lemma replace_app c w s t : replace c w (s ++ t) = replace c w s ++ replace c w t.
Proof. unfold replace. by rewrite map_app, concat_app. Qed.

(** The five replacements do not meet: they escape each character once. *)
Lemma format_escapes s : format_snbt_string s = [QUOTE] ++ concat (map esc s) ++ [QUOTE].
Proof.
  unfold format_snbt_string. cbv zeta. do 2 f_equal.
  induction s as [|c s IH]; [done|]. change (c :: s) with ([c] ++ s). rewrite !replace_app, IH. cbn [map concat app]. f_equal.
  unfold replace, esc. cbn [map concat]. 
  destruct (Z.eqb_spec c BACKSLASH) as [->|]; [done|]. cbn [app map concat].
  destruct (Z.eqb_spec c QUOTE) as [->|]; [done|]. cbn [app map concat].
  destruct (Z.eqb_spec c 10) as [->|]; [done|]. cbn [app map concat].
  destruct (Z.eqb_spec c 13) as [->|]; [done|]. cbn [app map concat].
  by destruct (Z.eqb_spec c 9) as [->|].
Qed.

Lemma quoted_loop_esc post s : forall acc pos,
  quoted_loop QUOTE (concat (map esc s) ++ QUOTE :: post) false acc pos =
    (Ok (acc ++ s), (pos + length (concat (map esc s)) + 1)%nat).
Proof.
  induction s as [|c s IH]; intros acc pos; cbn [map concat app length].
  - cbn [quoted_loop]. rewrite app_nil_r. do 2 f_equal. lia.
  - assert (Hstep : forall rest, quoted_loop QUOTE (esc c ++ rest) false acc pos = quoted_loop QUOTE rest false (acc ++ [c]) (pos + length (esc c))).
    { intros rest. unfold esc.
      destruct (Z.eqb_spec c BACKSLASH) as [->|]; [cbn; f_equal; lia|].
      destruct (Z.eqb_spec c QUOTE) as [->|]; [cbn; f_equal; lia|].
      destruct (Z.eqb_spec c 10) as [->|]; [cbn; f_equal; lia|].
      destruct (Z.eqb_spec c 13) as [->|]; [cbn; f_equal; lia|].
      destruct (Z.eqb_spec c 9) as [->|]; [cbn; f_equal; lia|].
      cbn [app quoted_loop length]. rewrite (proj2 (Z.eqb_neq c BACKSLASH)), (proj2 (Z.eqb_neq c QUOTE)) by done. f_equal. lia. }
    rewrite <- app_assoc, Hstep, IH, <- app_assoc, length_app. cbn [app]. do 2 f_equal. lia.
Qed.

(** What may follow a value inside a document. *)
Definition stop (post : chars) : Prop :=
  match post with [] => True | c :: _ => c = #"," \/ c = #"]" \/ c = #"}" end.

Lemma at_cons (input : chars) pos c r : drop pos input = c :: r -> input !! pos = Some c /\ drop (S pos) input = r.
Proof.
  intros H. split.
  - rewrite <- (Nat.add_0_r pos), <- lookup_drop, H. done.
  - by rewrite <- Nat.add_1_r, <- drop_drop, H.
Qed.

Lemma at_app (input : chars) pos s r : drop pos input = s ++ r -> drop (pos + length s) input = r.
Proof. intros H. by rewrite <- drop_drop, H, drop_app_length. Qed.

Lemma at_nil (input : chars) pos : drop pos input = [] -> input !! pos = None.
Proof. intros H. rewrite <- (Nat.add_0_r pos), <- lookup_drop, H. done. Qed.

Lemma skip_none (input : chars) pos r : drop pos input = r ->
  match r with c :: _ => is_whitespace c = false | [] => True end -> skip_whitespace input pos = (Ok tt, pos).
Proof.
  intros H Hw. unfold skip_whitespace. rewrite H. destruct r as [|c r]; cbn [span_len]; [|rewrite Hw]; do 2 f_equal; lia.
Qed.

Lemma number_span_digits ds : forall rest d, forallb is_digit ds = true ->
  number_span (ds ++ rest) d = (ds ++ (number_span rest d).1, (number_span rest d).2).
Proof.
  induction ds as [|c ds IH]; intros rest d H; [cbn [app]; apply surjective_pairing|].
  cbn [forallb] in H. apply andb_true_iff in H as [Hc H]. cbn [app number_span]. by rewrite Hc, IH.
Qed.

(** Text of a number: sign, digits, fraction. *)
Definition halts (tail : chars) : Prop :=
  match tail with [] => True | c :: _ => is_digit c = false /\ c <> #"." end.

Lemma number_span_halts tail d : halts tail -> number_span tail d = ([], d).
Proof.
  destruct tail as [|c tail]; [done|]. intros [Hd Hdot]. cbn [number_span]. rewrite Hd, (proj2 (Z.eqb_neq c #".")) by done. done.
Qed.

Lemma number_span_shape ds frac tail : forallb is_digit ds = true ->
  (frac = [] \/ exists fs, frac = #"." :: fs /\ forallb is_digit fs = true) -> halts tail ->
  number_span (ds ++ frac ++ tail) false = (ds ++ frac, negb (bool_decide (frac = []))).
Proof.
  intros Hds Hfrac Ht. rewrite number_span_digits by done. destruct Hfrac as [->|(fs & -> & Hfs)].
  - cbn [app]. by rewrite number_span_halts.
  - rewrite bool_decide_false by done. cbn [app number_span]. change (is_digit #".") with false.
    change ((#"." =? #".") && negb false) with true. cbn iota. rewrite number_span_digits by done.
    by rewrite number_span_halts, app_nil_r.
Qed.

(** [parse_number] takes exactly the text of a number. *)
Lemma parse_number_shape (input : chars) pos num tail : drop pos input = num ++ tail -> float_shape num -> halts tail ->
  exists dot, (dot = false -> forall c, c ∈ num -> c <> #".") /\ (dot = true -> #"." ∈ num) /\
  parse_number input pos =
    match (match tail with c :: _ => with_suffix c num | [] => None end) with
    | Some t => (step;; parsed num t) (pos + length num)%nat
    | None => parsed num (if dot : bool then NbtDouble <$> float_parse (w := 64) num else NbtInt <$> parse_int 32 num) (pos + length num)%nat
    end.
Proof.
  intros Hat (sign & ds & frac & -> & Hsign & Hne & Hds & Hfrac) Ht. exists (negb (bool_decide (frac = []))).
  assert (Hnodot : forall l, forallb is_digit l = true -> forall c, c ∈ l -> c <> #".").
  { intros l Hl c Hc ->. rewrite forallb_forall in Hl. specialize (Hl _ (proj1 (list_elem_of_In _ _) Hc)). done. }
  split; [|split].
  { intros Hb. apply negb_false_iff, bool_decide_eq_true in Hb as ->. rewrite app_nil_r. intros c [Hc|Hc]%elem_of_app.
    - destruct Hsign as [->| ->]; [by apply not_elem_of_nil in Hc|]. by apply list_elem_of_singleton in Hc as ->.
    - by eapply Hnodot. }
  { intros Hb. apply negb_true_iff, bool_decide_eq_false in Hb. destruct Hfrac as [->|(fs & -> & _)]; [done|]. 
    apply elem_of_app; right. apply elem_of_app; right. by left. }
  rewrite <- !app_assoc in Hat. unfold parse_number. rewrite (bind_ok _ _ pos (input !! pos) pos) by done.
  assert (Hs : (match input !! pos with
      | Some s => if (s =? #"+") || (s =? #"-") then step;; ret [s] else ret []
      | None => ret []
      end) pos = (Ok (E := SnbtError) sign, (pos + length sign)%nat)).
  { destruct Hsign as [->| ->].
    - destruct ds as [|d ds]; [done|]. cbn [app] in Hat. apply at_cons in Hat as [-> _].
      cbn [forallb] in Hds. apply andb_true_iff in Hds as [Hd _].
      assert ((d =? #"+") || (d =? #"-") = false) as ->. { unfold is_digit in Hd. change #"+" with 43. change #"-" with 45. lia. }
      unfold ret. do 2 f_equal. cbn. lia.
    - cbn [app] in Hat. apply at_cons in Hat as [-> _]. cbn [length]. rewrite Nat.add_1_r. done. }
  rewrite (bind_ok _ _ pos sign (pos + length sign)%nat Hs). apply at_app in Hat.
  erewrite bind_ok; [|cbv beta; rewrite Hat, number_span_shape by done; reflexivity]. cbv beta. cbn [fst snd].
  rewrite app_assoc in Hat. apply at_app in Hat. rewrite app_assoc.
  rewrite (bind_ok _ _ _ (input !! (pos + length sign + length (ds ++ frac))%nat) (pos + length sign + length (ds ++ frac))%nat) by done.
  rewrite <- app_assoc. replace (pos + length (sign ++ ds ++ frac))%nat with (pos + length sign + length (ds ++ frac))%nat by (rewrite !length_app; lia).
  destruct tail as [|c tail].
  - apply at_nil in Hat as ->. done.
  - apply at_cons in Hat as [-> _]. cbn [mbind option_bind]. by destruct (with_suffix c _).
Qed.

(** Characters that can end a number. *)
Lemma stop_halts post : stop post -> halts post.
Proof. destruct post as [|c post]; [done|]. by intros [->|[->| ->]]. Qed.
Lemma stop_no_suffix c post num : stop (c :: post) -> with_suffix c num = None.
Proof. by intros [->|[->| ->]]. Qed.

Lemma show_shape z : float_shape (show z).
Proof.
  assert (Hd : forall x : N, chr (pretty x) <> [] /\ forallb is_digit (chr (pretty x)) = true).
  { intros x. split; [apply pretty_N_value|]. apply forallb_forall. intros c Hc%list_elem_of_In.
    pose proof (pretty_N_digits x) as H. rewrite Forall_forall in H. by apply H. }
  destruct z as [|p|p].
  - exists [], (chr "0"), []. split_and!; auto.
  - exists [], (chr (pretty (Npos p))), []. destruct (Hd (Npos p)). split_and!; auto. cbn [app]. by rewrite app_nil_r.
  - exists [#"-"], (chr (pretty (Npos p))), []. destruct (Hd (Npos p)). split_and!; auto. cbn [app]. by rewrite app_nil_r.
Qed.

Lemma show_no_dot z c : c ∈ show z -> c <> #".".
Proof. intros Hc ->. by apply (number_char_not #"." z) in Hc. Qed.

(** A number with its type suffix, and an integer without. *)
Lemma parse_number_suffix (input : chars) pos num c post t : drop pos input = num ++ c :: post -> float_shape num ->
  halts (c :: post) -> with_suffix c num = Some (Some t) ->
  parse_number input pos = (Ok t, (pos + length (num ++ [c]))%nat).
Proof.
  intros Hat Hs Hh Ht. destruct (parse_number_shape input pos num (c :: post) Hat Hs Hh) as (dot & _ & _ & ->).
  rewrite Ht. cbn. do 2 f_equal. rewrite length_app. cbn. lia.
Qed.

Lemma parse_number_int (input : chars) pos z post : drop pos input = show z ++ post -> stop post -> fits_s 32 z ->
  parse_number input pos = (Ok (NbtInt z), (pos + length (show z))%nat).
Proof.
  intros Hat Hs Hz. destruct (parse_number_shape input pos (show z) post Hat (show_shape z) (stop_halts _ Hs)) as (dot & _ & Hd & ->).
  assert (match post with c :: _ => with_suffix c (show z) | [] => None end = None) as ->.
  { destruct post; [done|]. by eapply stop_no_suffix. }
  destruct dot; [by destruct (show_no_dot z #"."); [apply Hd|]|]. by rewrite parse_show.
Qed.

(** How the elements of a typed array are written. *)
Definition elem_text (type_char : Z) (v : Z) : chars :=
  show v ++ (if type_char =? #"B" then chr "b" else if type_char =? #"I" then [] else chr "L").
Definition array_type (t : Z) : Prop := t = #"B" \/ t = #"I" \/ t = #"L".

Lemma elem_tag (input : chars) t pos v post : array_type t -> drop pos input = elem_text t v ++ post -> stop post ->
  fits_s (array_width t) v ->
  exists tag, parse_number input pos = (Ok tag, (pos + length (elem_text t v))%nat) /\ array_elem t tag = Some v.
Proof.
  intros Ht Hat Hs Hv. unfold elem_text in *. destruct Ht as [->|[->| ->]].
  - exists (NbtByte v). split; [|done]. rewrite <- app_assoc in Hat. eapply parse_number_suffix; [exact Hat|apply show_shape|done|].
    change (with_suffix #"b" (show v)) with (Some (NbtByte <$> parse_int 8 (show v))). by rewrite parse_show.
  - exists (NbtInt v). split; [|done]. rewrite app_nil_r in *. by eapply parse_number_int.
  - exists (NbtLong v). split; [|done]. rewrite <- app_assoc in Hat. eapply parse_number_suffix; [exact Hat|apply show_shape|done|].
    change (with_suffix #"L" (show v)) with (Some (NbtLong <$> parse_int 64 (show v))). by rewrite parse_show.
Qed.

Lemma join_comma_cons x y l : join_comma (x :: y :: l) = x ++ #"," :: join_comma (y :: l).
Proof. done. Qed.

Lemma number_start z : exists c r, show z = c :: r /\ (is_digit c || (c =? #"-") || (c =? #"+") = true).
Proof.
  destruct (show_shape z) as (sign & ds & frac & -> & Hsign & Hne & Hds & _).
  destruct Hsign as [->| ->]; [|by exists #"-", (ds ++ frac)]. destruct ds as [|d ds]; [done|].
  cbn [forallb] in Hds. apply andb_true_iff in Hds as [Hd _]. exists d, (ds ++ frac). by rewrite Hd.
Qed.

Lemma number_not_space c : is_digit c || (c =? #"-") || (c =? #"+") = true -> is_whitespace c = false.
Proof. unfold is_digit, is_whitespace. change #"-" with 45. change #"+" with 43. lia. Qed.

Lemma array_loop_reads (input : chars) t post vs : array_type t -> forall v fuel arr pos,
  drop pos input = join_comma (map (elem_text t) (v :: vs)) ++ #"]" :: post -> Forall (fits_s (array_width t)) (v :: vs) ->
  (length (v :: vs) <= fuel)%nat ->
  array_loop input fuel t arr pos = (Ok (arr ++ v :: vs), (pos + length (join_comma (map (elem_text t) (v :: vs))))%nat).
Proof.
  intros Ht. induction vs as [|w vs IH]; intros v fuel arr pos Hat [Hv Hvs]%Forall_cons Hf;
    (destruct fuel as [|fuel]; [cbn in Hf; lia|]); cbn [array_loop].
  - cbn [map join_comma] in Hat |- *.
    destruct (elem_tag input t pos v _ Ht Hat ltac:(cbn; auto) Hv) as (tag & Hn & He).
    rewrite (bind_ok _ _ _ _ _ Hn). rewrite He. apply at_app in Hat.
    rewrite (bind_ok _ _ _ tt _ (skip_none _ _ _ Hat eq_refl)). apply at_cons in Hat as [Hc _].
    erewrite bind_ok; [|unfold current; rewrite Hc; reflexivity]. done.
  - cbn [map] in Hat |- *. rewrite join_comma_cons in Hat |- *. rewrite <- app_assoc in Hat. cbn [app] in Hat.
    destruct (elem_tag input t pos v _ Ht Hat ltac:(cbn; auto) Hv) as (tag & Hn & He).
    rewrite (bind_ok _ _ _ _ _ Hn). rewrite He. apply at_app in Hat.
    rewrite (bind_ok _ _ _ tt _ (skip_none _ _ _ Hat eq_refl)). apply at_cons in Hat as [Hc Hat].
    erewrite bind_ok; [|unfold current; rewrite Hc; reflexivity]. cbv beta iota.
    change (#"," =? #",") with true. cbv iota. rewrite (bind_ok step _ _ tt _ eq_refl).
    assert (Hns : match drop (S (pos + length (elem_text t v))) input with c :: _ => is_whitespace c = false | [] => True end).
    { rewrite Hat. destruct (number_start w) as (c & r & Hc' & Hcd). apply number_not_space in Hcd.
      destruct vs; cbn [map join_comma]; unfold elem_text; rewrite Hc'; done. }
    rewrite (bind_ok _ _ _ tt _ (skip_none _ _ _ eq_refl Hns)).
    rewrite (IH w); [|done|done|cbn in Hf |- *; lia]. rewrite <- app_assoc. cbn [app]. f_equal.
    rewrite length_app. cbn [length map]. lia.
Qed.

(** *** Values *)

(** The keys that [to_snbt] prints as they are and the parser takes unquoted. *)
Definition key_ok (k : bytes) : bool :=
  utf8_valid k && match chars_of k with c :: _ => identifier_start c | [] => false end && forallb identifier_char (chars_of k).

(** The tags whose text is read back: values of their width, finite floats, valid
    strings, distinct identifier keys, no [End]. *)
Fixpoint snbt_ok (t : NbtTag) : bool :=
  match t with
  | NbtFloat v => bool_decide (fits_u 32 v) && float_finite (w := 32) v
  | NbtDouble v => bool_decide (fits_u 64 v) && float_finite (w := 64) v
  | NbtList items => forallb snbt_ok items
  | NbtCompound m => bool_decide (NoDup (map fst m)) && forallb (fun '(k, v) => key_ok k && snbt_ok v) m
  | t => tag_typed t
  end.

(** [parse_value] reads the text of [t] where it stands. *)
Definition value_reads (t : NbtTag) : Prop := snbt_ok t = true -> forall (input : chars) fuel pos post,
  drop pos input = to_snbt_chars t ++ post -> stop post -> (2 * length (to_snbt_chars t) < fuel)%nat ->
  parse_value input fuel pos = (Ok t, (pos + length (to_snbt_chars t))%nat).

Definition starts_value (s : chars) : Prop :=
  match s with c :: _ => is_whitespace c = false /\ c <> #"]" /\ c <> #"}" /\ ~ array_type c | [] => False end.

(** The dispatch of [parse_value] on its first character. *)
Lemma parse_value_first (input : chars) fuel pos c r : drop pos input = c :: r -> is_whitespace c = false ->
  parse_value input (S fuel) pos =
    (if c =? #"{" then
       step;; skip_whitespace input;; let! c := current input in
       if bool_decide (c = Some #"}") then step;; ret (NbtCompound []) else compound_loop input fuel []
     else if c =? #"[" then
       step;; skip_whitespace input;; let! c1 := current input in let! c2 := peek_next input in
       match is_typed_array c1 c2 with
       | Some type_char => parse_typed_array input fuel type_char
       | None => if bool_decide (c1 = Some #"]") then step;; ret (NbtList []) else list_loop input fuel []
       end
     else if (c =? QUOTE) || (c =? #"'") then let! s := parse_quoted_string input in ret (NbtString (utf8 s))
     else if is_digit c || (c =? #"-") || (c =? #"+") then parse_number input
     else if identifier_start c then parse_unquoted_string input
     else unexpected c) pos.
Proof.
  intros Hat Hw. cbn [parse_value]. rewrite (bind_ok _ _ _ tt _ (skip_none _ _ _ Hat Hw)).
  apply at_cons in Hat as [Hc _]. erewrite bind_ok; [|unfold current; rewrite Hc; reflexivity]. done.
Qed.

Lemma parse_value_number (input : chars) fuel pos num tail : drop pos input = num ++ tail -> float_shape num ->
  parse_value input (S fuel) pos = parse_number input pos.
Proof.
  intros Hat (sign & ds & frac & -> & Hsign & Hne & Hds & _).
  assert (exists c r, sign ++ ds ++ frac = c :: r /\ is_digit c || (c =? #"-") || (c =? #"+") = true) as (c & r & Hr & Hc).
  { destruct Hsign as [->| ->]; [|by exists #"-", (ds ++ frac)]. destruct ds as [|d ds]; [done|].
    cbn [forallb] in Hds. apply andb_true_iff in Hds as [Hd _]. exists d, (ds ++ frac). by rewrite Hd. }
  rewrite Hr in Hat. rewrite (parse_value_first _ _ _ c (r ++ tail) Hat (number_not_space c Hc)).
  assert ((c =? #"{") = false /\ (c =? #"[") = false /\ (c =? QUOTE) || (c =? #"'") = false) as (-> & -> & ->).
  { unfold is_digit in Hc. change #"-" with 45 in Hc. change #"+" with 43 in Hc. change #"{" with 123. change #"[" with 91.
    change #"'" with 39. unfold QUOTE. lia. }
  by rewrite Hc.
Qed.

Lemma reads_string (input : chars) fuel pos s post : drop pos input = format_snbt_string (chars_of s) ++ post ->
  utf8_valid s = true ->
  parse_value input (S fuel) pos = (Ok (NbtString s), (pos + length (format_snbt_string (chars_of s)))%nat).
Proof.
  intros Hat Hv. rewrite format_escapes in Hat |- *. rewrite <- !app_assoc in Hat. cbn [app] in Hat.
  rewrite (parse_value_first _ _ _ _ _ Hat eq_refl). change ((QUOTE =? QUOTE) || (QUOTE =? #"'")) with true.
  change (QUOTE =? #"{") with false. change (QUOTE =? #"[") with false. cbv iota.
  apply at_cons in Hat as [Hc Hat].
  assert (parse_quoted_string input pos = (Ok (chars_of s), (pos + length ([QUOTE] ++ concat (map esc (chars_of s)) ++ [QUOTE]))%nat)) as Hq.
  { unfold parse_quoted_string. erewrite bind_ok; [|unfold current; rewrite Hc; reflexivity].
    cbv beta iota. rewrite (bind_ok step _ _ tt _ eq_refl). cbv beta. rewrite Hat, quoted_loop_esc. f_equal. rewrite !length_app. cbn [length]. lia. }
  rewrite (bind_ok _ _ _ _ _ Hq). unfold ret. by rewrite (proj1 (utf8_chars_of s Hv)).
Qed.

Lemma is_typed_array_type t c2 : array_type t -> is_typed_array (Some t) (Some c2) = if c2 =? #";" then Some t else None.
Proof.
  intros Ht. unfold is_typed_array. destruct (Z.eqb_spec c2 #";") as [->|]; [|rewrite bool_decide_false by congruence];
    by destruct Ht as [->|[->| ->]].
Qed.

Lemma reads_typed_array (input : chars) t fuel pos arr post : array_type t ->
  drop pos input = [#"["; t; #";"] ++ join_comma (map (elem_text t) arr) ++ #"]" :: post ->
  Forall (fits_s (array_width t)) arr -> (length arr <= fuel)%nat ->
  parse_value input (S fuel) pos = (Ok (array_tag t arr), (pos + 4 + length (join_comma (map (elem_text t) arr)))%nat).
Proof.
  intros Ht Hat Ha Hf. cbn [app] in Hat. rewrite (parse_value_first _ _ _ _ _ Hat eq_refl).
  change (#"[" =? #"{") with false. change (#"[" =? #"[") with true. cbv iota.
  apply at_cons in Hat as [_ Hat]. rewrite (bind_ok step _ _ tt _ eq_refl).
  assert (Hns : is_whitespace t = false) by by destruct Ht as [->|[->| ->]].
  rewrite (bind_ok _ _ _ tt _ (skip_none _ _ _ Hat Hns)). apply at_cons in Hat as [Hc Hat]. apply at_cons in Hat as Hat1.
  destruct Hat1 as [Hc2 Hat1].
  erewrite bind_ok; [|unfold current; rewrite Hc; reflexivity]. erewrite bind_ok; [|unfold peek_next; rewrite Hc2; reflexivity].
  rewrite is_typed_array_type by done. change (#";" =? #";") with true. cbv iota.
  unfold parse_typed_array. do 2 rewrite (bind_ok step _ _ tt _ eq_refl).
  destruct arr as [|v vs].
  - cbn [map join_comma app] in Hat1. rewrite (bind_ok _ _ _ tt _ (skip_none _ _ _ Hat1 eq_refl)). apply at_cons in Hat1 as [He _].
    erewrite bind_ok; [|unfold current; rewrite He; reflexivity]. rewrite bool_decide_true by done.
    rewrite (bind_ok (ret []) _ _ [] _ eq_refl), (bind_ok step _ _ tt _ eq_refl). unfold ret. f_equal. cbn. lia.
  - assert (Hfirst : match drop (S (S (S pos))) input with c :: _ => is_whitespace c = false /\ Some c <> Some #"]" | [] => False end).
    { rewrite Hat1. destruct (number_start v) as (c & r & Hc' & Hcd).
      assert (is_whitespace c = false /\ Some c <> Some #"]") as [H1 H2].
      { split; [by apply number_not_space|]. intros [= ->]. done. }
      destruct vs; cbn [map join_comma]; unfold elem_text; rewrite Hc'; done. }
    destruct (drop (S (S (S pos))) input) as [|c r] eqn:Hd; [done|]. destruct Hfirst as [H1 H2].
    rewrite (bind_ok _ _ _ tt _ (skip_none _ _ _ Hd H1)). pose proof (at_cons _ _ _ _ Hd) as [He _].
    erewrite bind_ok; [|unfold current; rewrite He; reflexivity]. rewrite bool_decide_false by done.
    erewrite bind_ok; [|apply (array_loop_reads input t post vs Ht v); [by rewrite Hd|done|done]]. cbn [app].
    rewrite (bind_ok step _ _ tt _ eq_refl). unfold ret. f_equal. lia.
Qed.

Lemma float_shape_starts num tail : float_shape num -> starts_value (num ++ tail).
Proof.
  intros (sign & ds & frac & -> & Hsign & Hne & Hds & _).
  assert (Hok : forall c, is_digit c || (c =? #"-") = true -> is_whitespace c = false /\ c <> #"]" /\ c <> #"}" /\ ~ array_type c).
  { intros c Hc. split; [apply number_not_space; by rewrite Hc|]. unfold is_digit, array_type in *. change #"-" with 45 in Hc.
    change #"]" with 93. change #"}" with 125. change #"B" with 66. change #"I" with 73. change #"L" with 76. lia. }
  destruct Hsign as [->| ->]; [|by apply Hok]. destruct ds as [|d ds]; [done|]. cbn [forallb] in Hds.
  apply andb_true_iff in Hds as [Hd _]. apply Hok. by rewrite Hd.
Qed.

Lemma opener_starts c r : c = QUOTE \/ c = #"[" \/ c = #"{" -> starts_value (c :: r).
Proof. unfold starts_value, array_type. intros [->|[->| ->]]; (split_and!; [done|done|done|]); by intros [[=]|[[=]|[=]]]. Qed.

Lemma value_starts t tail : snbt_ok t = true -> starts_value (to_snbt_chars t ++ tail).
Proof.
  destruct t as [|v|v|v|v|v|v|arr|s|items|m|arr|arr]; cbn [snbt_ok tag_typed to_snbt_chars]; intros Hok; try done;
    rewrite <- ?app_assoc; try (apply float_shape_starts, show_shape).
  1,2: apply andb_true_iff in Hok as [H1 H2]; apply bool_decide_eq_true in H1; by apply float_shape_starts, float_show_shape.
  - by apply opener_starts; right; left.
  - rewrite format_escapes. by apply opener_starts; left.
  - destruct items; by apply opener_starts; right; left.
  - destruct m; by apply opener_starts; right; right.
  - by apply opener_starts; right; left.
  - by apply opener_starts; right; left.
Qed.

Lemma starts_skip (input : chars) pos s : starts_value s -> drop pos input = s -> skip_whitespace input pos = (Ok tt, pos).
Proof. intros Hs Hat. eapply skip_none; [exact Hat|]. destruct s; [done|]. apply Hs. Qed.

(** The comma or the closing character after an element. *)
Lemma separated_comma (input : chars) close (more : M nat SnbtError NbtTag) v pos post : drop pos input = #"," :: post ->
  (skip_whitespace input;; let! c := current input in
   match c with
   | Some c => if c =? #"," then step;; more else if c =? close then step;; ret v else unexpected c
   | None => fail SnbtUnexpectedEof
   end) pos = more (S pos).
Proof.
  intros Hat. rewrite (bind_ok _ _ _ tt _ (skip_none _ _ _ Hat eq_refl)). apply at_cons in Hat as [Hc _].
  erewrite bind_ok; [|unfold current; rewrite Hc; reflexivity]. done.
Qed.

Lemma separated_close (input : chars) close (more : M nat SnbtError NbtTag) v pos post : drop pos input = close :: post ->
  close = #"]" \/ close = #"}" ->
  (skip_whitespace input;; let! c := current input in
   match c with
   | Some c => if c =? #"," then step;; more else if c =? close then step;; ret v else unexpected c
   | None => fail SnbtUnexpectedEof
   end) pos = (Ok v, S pos).
Proof.
  intros Hat Hcl. assert (Hw : is_whitespace close = false) by by destruct Hcl as [->| ->].
  rewrite (bind_ok _ _ _ tt _ (skip_none _ _ _ Hat Hw)). apply at_cons in Hat as [Hc _].
  erewrite bind_ok; [|unfold current; rewrite Hc; reflexivity]. by destruct Hcl as [->| ->].
Qed.

Lemma list_loop_reads (input : chars) post ts : forall t fuel acc pos,
  Forall value_reads (t :: ts) -> forallb snbt_ok (t :: ts) = true ->
  drop pos input = join_comma (map to_snbt_chars (t :: ts)) ++ #"]" :: post ->
  (2 * length (join_comma (map to_snbt_chars (t :: ts))) + 1 < fuel)%nat ->
  list_loop input fuel acc pos = (Ok (NbtList (acc ++ t :: ts)), (pos + length (join_comma (map to_snbt_chars (t :: ts))) + 1)%nat).
Proof.
  induction ts as [|u ts IH]; intros t fuel acc pos [Ht Hts]%Forall_cons Hok Hat Hf;
    cbn [forallb] in Hok; apply andb_true_iff in Hok as [Hokt Hok];
    (destruct fuel as [|fuel]; [lia|]); cbn [list_loop].
  - cbn [map join_comma] in *. rewrite (bind_ok _ _ _ _ _ (Ht Hokt input fuel pos _ Hat ltac:(cbn; auto) ltac:(lia))).
    apply at_app in Hat. rewrite (separated_close _ _ _ _ _ _ Hat) by auto. f_equal. lia.
  - cbn [map] in *. rewrite join_comma_cons in *. rewrite <- app_assoc in Hat. cbn [app] in Hat. rewrite length_app in *. cbn [length] in *.
    rewrite (bind_ok _ _ _ _ _ (Ht Hokt input fuel pos _ Hat ltac:(cbn; auto) ltac:(lia))).
    apply at_app in Hat. rewrite (separated_comma _ _ _ _ _ _ Hat). apply at_cons in Hat as [_ Hat].
    assert (Hs : starts_value (drop (S (pos + length (to_snbt_chars t))) input)).
    { rewrite Hat. cbn [forallb] in Hok. apply andb_true_iff in Hok as [Hu _]. destruct ts; cbn [map join_comma].
      - by apply value_starts.
      - rewrite <- app_assoc. by apply value_starts. }
    rewrite (bind_ok _ _ _ tt _ (starts_skip _ _ _ Hs eq_refl)).
    rewrite (IH u fuel (acc ++ [t]) _ Hts Hok Hat) by lia. rewrite <- app_assoc. cbn [app map]. f_equal. lia.
Qed.

Definition entry_text (e : bytes * NbtTag) : chars := chars_of e.1 ++ chr ":" ++ to_snbt_chars e.2.

Lemma span_len_app f s c r : forallb f s = true -> f c = false -> span_len f (s ++ c :: r) = length s.
Proof.
  intros Hs Hc. induction s as [|x s IH]; cbn [app span_len]; [by rewrite Hc|].
  cbn [forallb] in Hs. apply andb_true_iff in Hs as [Hx Hs]. rewrite Hx. cbn [length]. by rewrite IH.
Qed.

(** An identifier does not look like anything else. *)
Lemma identifier_start_plain c : identifier_start c = true ->
  is_whitespace c = false /\ (c =? QUOTE) || (c =? #"'") = false /\ Some c <> Some #"}".
Proof.
  unfold identifier_start, is_alphabetic, ascii_alphabetic, QUOTE. change #"_" with 95. change #"'" with 39. change #"}" with 125.
  intros H. destruct (Z.ltb_spec c 128) as [Hc|Hc].
  - assert ((65 <= c <= 90) \/ (97 <= c <= 122) \/ c = 95) as Hr by lia.
    split_and!; [unfold is_whitespace; lia|lia|]. intros [= ->]. lia.
  - rewrite (proj2 (Z.eqb_neq c 95)), orb_false_r in H by lia.
    split_and!; [by apply wide_alphabetic_not_space|lia|]. intros [= ->]. lia.
Qed.

Lemma key_reads (input : chars) pos k post : key_ok k = true -> drop pos input = chars_of k ++ #":" :: post ->
  skip_whitespace input pos = (Ok tt, pos) /\ input !! pos <> Some #"}" /\
  parse_key input pos = (Ok (Some (chars_of k)), (pos + length (chars_of k))%nat).
Proof.
  unfold key_ok. intros [[Hv Hs]%andb_true_iff Hall]%andb_true_iff Hat.
  destruct (chars_of k) as [|c s] eqn:Hk; [done|].
  destruct (identifier_start_plain c Hs) as (Hw & Hq & Hb). pose proof (at_cons _ _ c _ Hat) as [Hc _].
  split; [eapply skip_none; [exact Hat|done]|]. split; [by rewrite Hc|].
  unfold parse_key. erewrite bind_ok; [|unfold current; rewrite Hc; reflexivity]. cbv beta iota. rewrite Hq, Hs.
  erewrite bind_ok; [|unfold parse_identifier; rewrite Hat, (span_len_app identifier_char (c :: s) #":" post Hall eq_refl);
    rewrite take_app_length; reflexivity]. done.
Qed.

Lemma compound_loop_reads (input : chars) post m : forall e fuel acc pos,
  Forall (fun e => value_reads e.2) (e :: m) -> forallb (fun '(k, v) => key_ok k && snbt_ok v) (e :: m) = true ->
  NoDup (map fst (acc ++ e :: m)) ->
  drop pos input = join_comma (map entry_text (e :: m)) ++ #"}" :: post ->
  (2 * length (join_comma (map entry_text (e :: m))) + 1 < fuel)%nat ->
  compound_loop input fuel acc pos = (Ok (NbtCompound (acc ++ e :: m)), (pos + length (join_comma (map entry_text (e :: m))) + 1)%nat).
Proof.
  assert (Hentry : forall e fuel acc pos tail, value_reads e.2 -> (let '(k, v) := e in key_ok k && snbt_ok v) = true ->
    e.1 ∉ map fst acc -> drop pos input = entry_text e ++ tail -> stop tail -> (2 * length (entry_text e) < fuel)%nat ->
    compound_loop input (S fuel) acc pos =
      (skip_whitespace input;; let! c := current input in
       match c with
       | Some c => if c =? #"," then step;; compound_loop input fuel (acc ++ [e])
                   else if c =? #"}" then step;; ret (NbtCompound (acc ++ [e])) else unexpected c
       | None => fail SnbtUnexpectedEof
       end) (pos + length (entry_text e))%nat).
  { intros [k v] fuel acc pos tail Hv Hok Hnew Hat Hst Hf. cbn [fst snd] in *. apply andb_true_iff in Hok as [Hk Hokv].
    unfold entry_text in *. cbn [fst snd] in *. rewrite <- app_assoc in Hat. change (chr ":" ++ to_snbt_chars v) with (#":" :: to_snbt_chars v) in *.
    cbn [app] in Hat. destruct (key_reads _ _ _ _ Hk Hat) as (Hskip & _ & Hkey). cbn [compound_loop].
    rewrite (bind_ok _ _ _ _ _ Hskip), (bind_ok _ _ _ _ _ Hkey). apply at_app in Hat.
    rewrite (bind_ok _ _ _ tt _ (skip_none _ _ _ Hat eq_refl)). apply at_cons in Hat as [Hc Hat].
    erewrite bind_ok; [|unfold current; rewrite Hc; reflexivity]. rewrite bool_decide_true by done.
    rewrite (bind_ok step _ _ tt _ eq_refl). rewrite length_app in Hf. cbn [length] in Hf.
    rewrite (bind_ok _ _ _ _ _ (Hv Hokv input fuel _ _ Hat Hst ltac:(lia))). cbv zeta.
    assert (utf8 (chars_of k) = k) as -> by (apply utf8_chars_of; unfold key_ok in Hk; by destruct (utf8_valid k)).
    rewrite map_insert_fresh by done.
    replace (pos + length (chars_of k ++ #":" :: to_snbt_chars v))%nat with (S (pos + length (chars_of k)) + length (to_snbt_chars v))%nat
      by (rewrite length_app; cbn [length]; lia). done. }
  induction m as [|e' m IH]; intros e fuel acc pos [He Hm]%Forall_cons Hok Hnd Hat Hf;
    cbn [forallb] in Hok; apply andb_true_iff in Hok as [Hoke Hok]; (destruct fuel as [|fuel]; [lia|]);
    (assert (Hnew : e.1 ∉ map fst acc)
      by (rewrite map_app in Hnd; apply NoDup_app in Hnd as (_ & Hd & _); intros Hin; apply (Hd _ Hin); cbn; by left)).
  - cbn [map join_comma] in *. rewrite (Hentry e fuel acc pos _ He Hoke Hnew Hat) by (cbn; auto || lia).
    apply at_app in Hat. rewrite (separated_close _ _ _ _ _ _ Hat) by auto. f_equal. lia.
  - cbn [map] in *. rewrite join_comma_cons in *. rewrite <- app_assoc in Hat. cbn [app] in Hat. rewrite length_app in *. cbn [length] in *.
    rewrite (Hentry e fuel acc pos _ He Hoke Hnew Hat) by (cbn; auto || lia).
    apply at_app in Hat. rewrite (separated_comma _ _ _ _ _ _ Hat). apply at_cons in Hat as [_ Hat].
    rewrite (IH e' fuel (acc ++ [e]) _ Hm Hok ltac:(by rewrite <- app_assoc) Hat) by (cbn [map]; lia).
    rewrite <- app_assoc. cbn [app map]. f_equal. lia.
Qed.

Lemma tag_array_fits w arr : forallb (fun v => bool_decide (fits_s w v)) arr = true -> Forall (fits_s w) arr.
Proof.
  intros H. apply Forall_forall. intros v Hv. rewrite forallb_forall in H.
  specialize (H v (proj1 (list_elem_of_In _ _) Hv)). by apply bool_decide_eq_true in H.
Qed.

Lemma length_join_comma (l : list chars) : Forall (fun x => x <> []) l -> (length l <= length (join_comma l))%nat.
Proof.
  induction l as [|x [|y l] IH]; intros H; [done| |].
  - apply Forall_cons in H as [Hx _]. destruct x; [done|]. cbn. lia.
  - rewrite join_comma_cons, length_app. apply Forall_cons in H as [_ H]. specialize (IH H). cbn [length] in *. lia.
Qed.

Lemma elem_text_nonempty t arr : Forall (fun x => x <> []) (map (elem_text t) arr).
Proof.
  apply Forall_forall. intros x Hx%list_elem_of_In. apply in_map_iff in Hx as (v & <- & _). unfold elem_text.
  destruct (number_start v) as (c & r & -> & _). done.
Qed.

Lemma array_reads t arr : array_type t -> Forall (fits_s (array_width t)) arr -> forall (input : chars) fuel pos post,
  drop pos input = ([#"["; t; #";"] ++ join_comma (map (elem_text t) arr) ++ [#"]"]) ++ post ->
  (2 * length ([#"["; t; #";"] ++ join_comma (map (elem_text t) arr) ++ [#"]"]) < fuel)%nat ->
  parse_value input fuel pos = (Ok (array_tag t arr), (pos + length ([#"["; t; #";"] ++ join_comma (map (elem_text t) arr) ++ [#"]"]))%nat).
Proof.
  intros Ht Ha input fuel pos post Hat Hf. rewrite <- !app_assoc in Hat. cbn [app] in Hat.
  destruct fuel as [|fuel]; [lia|].
  pose proof (length_join_comma _ (elem_text_nonempty t arr)) as Hl. rewrite length_map in Hl. rewrite !length_app in Hf |- *. cbn [length] in *.
  rewrite (reads_typed_array input t fuel pos arr post Ht Hat Ha) by lia. f_equal. lia.
Qed.

Lemma leaf_reads t : is_leaf t -> value_reads t.
Proof.
  intros Hleaf Hok input fuel pos post Hat Hst Hf. destruct t as [|v|v|v|v|v|v|arr|s|items|m|arr|arr]; try done;
    cbn [snbt_ok tag_typed to_snbt_chars] in *.
  1-6: destruct fuel as [|fuel]; [lia|].
  - apply bool_decide_eq_true in Hok. rewrite <- app_assoc in Hat. rewrite (parse_value_number _ _ _ _ _ Hat (show_shape v)).
    eapply parse_number_suffix; [exact Hat|apply show_shape|done|].
    change (with_suffix #"b" (show v)) with (Some (NbtByte <$> parse_int 8 (show v))). by rewrite parse_show.
  - apply bool_decide_eq_true in Hok. rewrite <- app_assoc in Hat. rewrite (parse_value_number _ _ _ _ _ Hat (show_shape v)).
    eapply parse_number_suffix; [exact Hat|apply show_shape|done|].
    change (with_suffix #"s" (show v)) with (Some (NbtShort <$> parse_int 16 (show v))). by rewrite parse_show.
  - apply bool_decide_eq_true in Hok. rewrite (parse_value_number _ _ _ _ _ Hat (show_shape v)). by eapply parse_number_int.
  - apply bool_decide_eq_true in Hok. rewrite <- app_assoc in Hat. rewrite (parse_value_number _ _ _ _ _ Hat (show_shape v)).
    eapply parse_number_suffix; [exact Hat|apply show_shape|done|].
    change (with_suffix #"L" (show v)) with (Some (NbtLong <$> parse_int 64 (show v))). by rewrite parse_show.
  - apply andb_true_iff in Hok as [H1%bool_decide_eq_true H2]. pose proof (float_show_shape v H1 H2) as Hsh. rewrite <- app_assoc in Hat.
    rewrite (parse_value_number _ _ _ _ _ Hat Hsh). eapply parse_number_suffix; [exact Hat|done|done|].
    change (with_suffix #"f" ?x) with (Some (NbtFloat <$> float_parse (w := 32) x)). by rewrite float_parse_show.
  - apply andb_true_iff in Hok as [H1%bool_decide_eq_true H2]. pose proof (float_show_shape v H1 H2) as Hsh. rewrite <- app_assoc in Hat.
    rewrite (parse_value_number _ _ _ _ _ Hat Hsh). eapply parse_number_suffix; [exact Hat|done|done|].
    change (with_suffix #"d" ?x) with (Some (NbtDouble <$> float_parse (w := 64) x)). by rewrite float_parse_show.
  - apply (array_reads #"B" arr (or_introl eq_refl) (tag_array_fits 8 arr Hok) input fuel pos post Hat Hf).
  - destruct fuel as [|fuel]; [lia|]. by apply (reads_string input fuel pos s post).
  - assert (He : map show arr = map (elem_text #"I") arr) by (apply map_ext; intros v; unfold elem_text; by rewrite app_nil_r).
    rewrite He in *. apply (array_reads #"I" arr (or_intror (or_introl eq_refl)) (tag_array_fits 32 arr Hok) input fuel pos post Hat Hf).
  - apply (array_reads #"L" arr (or_intror (or_intror eq_refl)) (tag_array_fits 64 arr Hok) input fuel pos post Hat Hf).
Qed.

Lemma list_reads items : Forall value_reads items -> value_reads (NbtList items).
Proof.
  intros Hall Hok input fuel pos post Hat Hst Hf. cbn [snbt_ok] in Hok. destruct fuel as [|fuel]; [lia|].
  destruct items as [|t ts].
  - cbn in Hat. rewrite (parse_value_first _ _ _ _ _ Hat eq_refl). apply at_cons in Hat as [_ Hat].
    change (#"[" =? #"{") with false. change (#"[" =? #"[") with true. cbv iota.
    rewrite (bind_ok step _ _ tt _ eq_refl), (bind_ok _ _ _ tt _ (skip_none _ _ _ Hat eq_refl)). apply at_cons in Hat as [Hc _].
    erewrite bind_ok; [|unfold current; rewrite Hc; reflexivity]. erewrite bind_ok; [|reflexivity].
    change (is_typed_array (Some #"]") ?x) with (@None Z). cbv iota. rewrite bool_decide_true by done.
    rewrite (bind_ok step _ _ tt _ eq_refl). unfold ret. change (length (to_snbt_chars (NbtList []))) with 2%nat. f_equal. lia.
  - change (to_snbt_chars (NbtList (t :: ts))) with ([#"["] ++ join_comma (map to_snbt_chars (t :: ts)) ++ [#"]"]) in *.
    rewrite <- !app_assoc in Hat. cbn [app] in Hat. rewrite !length_app in Hf |- *. cbn [length] in Hf |- *.
    rewrite (parse_value_first _ _ _ _ _ Hat eq_refl). apply at_cons in Hat as [_ Hat].
    change (#"[" =? #"{") with false. change (#"[" =? #"[") with true. cbv iota. rewrite (bind_ok step _ _ tt _ eq_refl).
    assert (Hs : starts_value (drop (S pos) input)).
    { rewrite Hat. pose proof Hok as Hok'. cbn [forallb] in Hok'. apply andb_true_iff in Hok' as [Hu _]. destruct ts; cbn [map join_comma].
      - by apply value_starts.
      - rewrite <- app_assoc. by apply value_starts. }
    rewrite (bind_ok _ _ _ tt _ (starts_skip _ _ _ Hs eq_refl)).
    destruct (drop (S pos) input) as [|c r] eqn:Hd; [done|]. destruct Hs as (_ & Hb & _ & Hna). pose proof (at_cons _ _ _ _ Hd) as [Hc _].
    erewrite bind_ok; [|unfold current; rewrite Hc; reflexivity]. erewrite bind_ok; [|reflexivity].
    assert (is_typed_array (Some c) (input !! S (S pos)) = None) as ->.
    { unfold is_typed_array. destruct (((c =? #"B") || (c =? #"I") || (c =? #"L")) && _) eqn:E; [|done]. destruct Hna. unfold array_type.
      apply andb_true_iff in E as [E _]. lia. }
    rewrite bool_decide_false by congruence. rewrite Hat in Hd.
    rewrite (list_loop_reads input post ts t fuel [] (S pos) Hall Hok ltac:(congruence)) by lia. f_equal. lia.
Qed.

Lemma compound_reads m : Forall (fun e => value_reads e.2) m -> value_reads (NbtCompound m).
Proof.
  intros Hall Hok input fuel pos post Hat Hst Hf. cbn [snbt_ok] in Hok. apply andb_true_iff in Hok as [Hnd%bool_decide_eq_true Hok].
  destruct fuel as [|fuel]; [lia|]. destruct m as [|e m].
  - cbn in Hat. rewrite (parse_value_first _ _ _ _ _ Hat eq_refl). apply at_cons in Hat as [_ Hat].
    change (#"{" =? #"{") with true. cbv iota.
    rewrite (bind_ok step _ _ tt _ eq_refl), (bind_ok _ _ _ tt _ (skip_none _ _ _ Hat eq_refl)). apply at_cons in Hat as [Hc _].
    erewrite bind_ok; [|unfold current; rewrite Hc; reflexivity]. rewrite bool_decide_true by done.
    rewrite (bind_ok step _ _ tt _ eq_refl). unfold ret. change (length (to_snbt_chars (NbtCompound []))) with 2%nat. f_equal. lia.
  - assert (Htext : to_snbt_chars (NbtCompound (e :: m)) = [#"{"] ++ join_comma (map entry_text (e :: m)) ++ [#"}"]).
    { cbn [to_snbt_chars]. do 3 f_equal. apply map_ext. by intros []. }
    rewrite Htext in *. rewrite <- !app_assoc in Hat. cbn [app] in Hat. rewrite !length_app in Hf |- *. cbn [length] in Hf |- *.
    rewrite (parse_value_first _ _ _ _ _ Hat eq_refl). apply at_cons in Hat as [_ Hat].
    change (#"{" =? #"{") with true. cbv iota. rewrite (bind_ok step _ _ tt _ eq_refl).
    assert (exists k tail, key_ok k = true /\ drop (S pos) input = chars_of k ++ #":" :: tail) as (k & tail & Hk & Hd).
    { destruct e as [k v]. cbn [forallb] in Hok. apply andb_true_iff in Hok as [[Hk _]%andb_true_iff _]. rewrite Hat.
      destruct m; cbn [map join_comma]; unfold entry_text; cbn [fst snd]; rewrite <- !app_assoc; eexists k, _; split; try done. }
    destruct (key_reads _ _ _ _ Hk Hd) as (Hskip & Hnb & _). rewrite (bind_ok _ _ _ _ _ Hskip).
    rewrite (bind_ok (current input) _ (S pos) (input !! S pos) (S pos) eq_refl). rewrite bool_decide_false by done.
    rewrite (compound_loop_reads input post m e fuel [] (S pos) Hall Hok Hnd Hat) by lia. f_equal. lia.
Qed.

Lemma all_values_read t : value_reads t.
Proof. induction t using NbtTag_nested_ind; [by apply leaf_reads|by apply list_reads|by apply compound_reads]. Qed.

Lemma chr_ok s : Forall char_ok (chr s).
Proof.
  unfold chr. apply Forall_forall. intros c Hc%list_elem_of_In. apply in_map_iff in Hc as (a & <- & _). left.
  unfold char_code. pose proof (N_ascii_bounded a). lia.
Qed.

Lemma number_text_ok num : float_shape num -> Forall char_ok num.
Proof.
  intros (sign & ds & frac & -> & Hsign & _ & Hds & Hfrac).
  assert (Hd : forall l, forallb is_digit l = true -> Forall char_ok l).
  { intros l Hl. apply Forall_forall. intros c Hc%list_elem_of_In. rewrite forallb_forall in Hl. specialize (Hl c Hc).
    unfold is_digit in Hl. left. lia. }
  apply Forall_app. split; [destruct Hsign as [->| ->]; [done|apply (chr_ok "-")]|]. apply Forall_app. split; [by apply Hd|].
  destruct Hfrac as [->|(fs & -> & Hfs)]; [done|]. apply Forall_cons. split; [by left|by apply Hd].
Qed.

Lemma join_comma_ok l : Forall (Forall char_ok) l -> Forall char_ok (join_comma l).
Proof.
  induction l as [|x [|y l] IH]; intros H; [constructor|by apply Forall_cons in H as [? _]|].
  rewrite join_comma_cons. apply Forall_cons in H as [Hx H]. apply Forall_app. split; [done|].
  apply Forall_cons. split; [by left|by apply IH].
Qed.

Lemma esc_ok s : Forall char_ok s -> Forall char_ok (concat (map esc s)).
Proof.
  induction 1 as [|c s Hc Hs IH]; [constructor|]. cbn [map concat]. apply Forall_app. split; [|done].
  unfold esc. repeat case_match; repeat apply Forall_cons_2; try apply Forall_nil_2; try done; left; split; vm_compute; congruence.
Qed.

Lemma mapped_ok {A} (f : A -> chars) l : (forall x, In x l -> Forall char_ok (f x)) -> Forall char_ok (join_comma (map f l)).
Proof.
  intros H. apply join_comma_ok, Forall_forall. intros x Hx%list_elem_of_In. apply in_map_iff in Hx as (a & <- & Ha). by apply H.
Qed.

Lemma text_ok_chars t : snbt_ok t = true -> Forall char_ok (to_snbt_chars t).
Proof.
  induction t as [t Hleaf|items IH|m IH] using NbtTag_nested_ind.
  - destruct t; try done; cbn [snbt_ok tag_typed to_snbt_chars]; intros Hok; rewrite ?format_escapes; repeat (apply Forall_app; split); try apply chr_ok;
      try (by apply number_text_ok, show_shape);
      try (apply andb_true_iff in Hok as [H1%bool_decide_eq_true H2]; by apply number_text_ok, float_show_shape);
      try (apply mapped_ok; intros v _; repeat (apply Forall_app; split); try apply chr_ok; by apply number_text_ok, show_shape);
      try (apply Forall_singleton; by left). by apply esc_ok, utf8_chars_of.
  - intros Hok. cbn [snbt_ok] in Hok. destruct items as [|t ts]; [apply chr_ok|].
    change (to_snbt_chars (NbtList (t :: ts))) with (chr "[" ++ join_comma (map to_snbt_chars (t :: ts)) ++ chr "]").
    repeat (apply Forall_app; split); try apply chr_ok. apply mapped_ok. intros x Hx. rewrite forallb_forall in Hok.
    rewrite Forall_forall in IH. apply IH; [by apply list_elem_of_In|by apply Hok].
  - intros Hok. cbn [snbt_ok] in Hok. apply andb_true_iff in Hok as [_ Hok]. destruct m as [|e m]; [apply chr_ok|].
    cbn [to_snbt_chars]. repeat (apply Forall_app; split); try apply chr_ok. apply mapped_ok. intros [k v] Hx. rewrite forallb_forall in Hok.
    specialize (Hok _ Hx). apply andb_true_iff in Hok as [Hk Hv]. apply andb_true_iff in Hk as [[Hu _]%andb_true_iff _].
    repeat (apply Forall_app; split); try apply chr_ok; [by apply utf8_chars_of|].
    rewrite Forall_forall in IH. by apply (IH (k, v)); [apply list_elem_of_In|].
Qed.

(** What the parser does with a [&str]. *)
Lemma parse_snbt_spec (input : bytes) : utf8_valid input = true ->
  match parse_snbt input with
  | Ok t => tag_typed t = true
  | Err e => error_at (chars_of input) e
  | _ => False
  end.
Proof.
  intros Hv. destruct (utf8_chars_of input Hv) as [_ Hok].
  pose proof (proj1 (parser_spec (chars_of input) Hok (2 * length (chars_of input) + 2)) O ltac:(lia) ltac:(lia)) as H.
  unfold parse_snbt, parse_chars. unfold runs in H. destruct (parse_value _ _ _) as [[] ?]; cbn; tauto.
Qed.

End Snbt.

(** ** Properties *)

(** Parsing terminates.  On every string [parse_snbt] returns a tag or an
    error, never panicking, whatever the nesting; an unexpected character is the
    one at the position reported, and where a character was expected the input
    has another. *)
Theorem parse_snbt_returns {F32 : FloatText 32} {F64 : FloatText 64} {Table : CharTable} (input : bytes) : utf8_valid input = true ->
  returned (parse_snbt input) /\ forall e, parse_snbt input = Err e -> error_at (chars_of input) e.
Proof.
  intros Hv. pose proof (parse_snbt_spec input Hv) as Hs. destruct (parse_snbt input); try done. split; [done|]. by intros ? [= <-].
Qed.

(** Parsed tags are well typed.  Every number is in the range of its tag's
    machine type, every string and key is valid UTF-8, the keys of every compound
    are distinct, and no [End] tag appears, at any depth. *)
Theorem parse_snbt_typed {F32 : FloatText 32} {F64 : FloatText 64} {Table : CharTable} (input : bytes) (t : NbtTag) :
  utf8_valid input = true -> parse_snbt input = Ok t -> tag_typed t = true.
Proof. intros Hv Ht. pose proof (parse_snbt_spec input Hv) as Hs. by rewrite Ht in Hs. Qed.

(** C39: a tag is read back from its text: nested lists and compounds, typed
    arrays, integers of every width, finite floats, and strings with any
    characters, quotes, backslashes and control characters included, when the
    keys are identifiers. *)
Theorem snbt_roundtrip {F32 : FloatText 32} {F64 : FloatText 64} {Table : CharTable} (t : NbtTag) :
  snbt_ok t = true -> parse_snbt (to_snbt t) = Ok t.
Proof.
  intros Hok. unfold parse_snbt, to_snbt, parse_chars. rewrite chars_of_utf8 by by apply text_ok_chars.
  set (input := to_snbt_chars t).
  rewrite (all_values_read t Hok input (2 * length input + 2)%nat O []); [done|unfold input; by rewrite app_nil_r|done|unfold input; lia].
Qed.

(** A concrete standard library for the witnesses: bit patterns as decimal
    numbers, and no letters outside ASCII. *)
Definition nat_parse (w : Z) (s : chars) : option Z :=
  v ← parse_int (w + 1) s; if bool_decide (fits_u w v) then Some v else None.

Lemma nat_parse_fits w s b : nat_parse w s = Some b -> fits_u w b.
Proof. unfold nat_parse. destruct (parse_int _ s); [|done]. cbn. case_bool_decide; [|done]. by intros [= <-]. Qed.

Lemma nat_parse_show w b : 0 < w -> fits_u w b -> nat_parse w (show b) = Some b.
Proof.
  intros Hw Hb. unfold nat_parse. rewrite parse_show; [cbn; by rewrite bool_decide_true|].
  unfold fits_s, fits_u in *. replace (w + 1 - 1) with w by lia. lia.
Qed.

Definition bits_text (w : Z) (Hw : 0 < w) : FloatText w := {|
  float_finite := fun _ => true; float_show := show; float_parse := nat_parse w;
  float_parse_fits := nat_parse_fits w;
  float_show_shape := fun b _ _ => show_shape b;
  float_parse_show := fun b Hb _ => nat_parse_show w b Hw Hb |}.

Definition ascii_table : CharTable := {|
  wide_alphabetic := fun _ => false; wide_numeric := fun _ => false;
  wide_alphabetic_not_space := fun c H => match Bool.diff_false_true H with end |}.

Definition sample_tag : NbtTag :=
  NbtCompound [(lit "name", NbtString [zb 34; zb 92; zb 10; zb 0xC3; zb 0xA9]); (lit "pos", NbtList [NbtDouble 1; NbtDouble 2]);
               (lit "data", NbtByteArray [1; -2]); (lit "deep", NbtCompound [(lit "n", NbtLong (-5))])].

Lemma snbt_roundtrip_witness :
  let f32 := bits_text 32 eq_refl in let f64 := bits_text 64 eq_refl in let table := ascii_table in
  snbt_ok sample_tag = true /\ parse_snbt (to_snbt sample_tag) = Ok sample_tag.
Proof.
  cbv zeta. assert (H : snbt_ok (F32 := bits_text 32 eq_refl) (F64 := bits_text 64 eq_refl) (Table := ascii_table) sample_tag = true)
    by (vm_compute; reflexivity).
  split; [exact H|exact (snbt_roundtrip sample_tag H)].
Defined.

Lemma parse_snbt_returns_witness :
  let f32 := bits_text 32 eq_refl in let f64 := bits_text 64 eq_refl in let table := ascii_table in
  utf8_valid (lit "{a:[1,}") = true /\ returned (parse_snbt (lit "{a:[1,}")) /\ error_at (chars_of (lit "{a:[1,}")) (UnexpectedChar 125 6).
Proof.
  cbv zeta. assert (H : utf8_valid (lit "{a:[1,}") = true) by reflexivity. split; [exact H|].
  destruct (parse_snbt_returns (F32 := bits_text 32 eq_refl) (F64 := bits_text 64 eq_refl) (Table := ascii_table) (lit "{a:[1,}") H) as [H1 H2].
  split; [exact H1|]. apply H2. vm_compute. reflexivity.
Defined.

Lemma parse_snbt_typed_witness :
  let f32 := bits_text 32 eq_refl in let f64 := bits_text 64 eq_refl in let table := ascii_table in
  utf8_valid (lit "[1b,2b]") = true /\ parse_snbt (lit "[1b,2b]") = Ok (NbtList [NbtByte 1; NbtByte 2]) /\
  tag_typed (NbtList [NbtByte 1; NbtByte 2]) = true.
Proof.
  cbv zeta. assert (H : utf8_valid (lit "[1b,2b]") = true) by reflexivity.
  assert (H1 : parse_snbt (F32 := bits_text 32 eq_refl) (F64 := bits_text 64 eq_refl) (Table := ascii_table) (lit "[1b,2b]") =
    Ok (NbtList [NbtByte 1; NbtByte 2])) by (vm_compute; reflexivity).
  split; [exact H|]. split; [exact H1|exact (parse_snbt_typed (lit "[1b,2b]") _ H H1)].
Defined.

(** Where printing and parsing part.  Keys are printed without quotes whatever
    they contain, so the text of a compound keyed by a resource location is
    refused; [End] is printed as a word that is read as a string; a list may mix
    types when parsed, which the binary format cannot hold; text after the value
    is ignored. *)
Theorem snbt_gaps :
  let f32 := bits_text 32 eq_refl in let f64 := bits_text 64 eq_refl in let table := ascii_table in
  parse_snbt (to_snbt (NbtCompound [(lit "minecraft:plains", NbtInt 1)])) = Err (UnexpectedChar 58 17) /\
  parse_snbt (to_snbt NbtEnd) = Ok (NbtString (lit "END")) /\
  parse_snbt (lit "[1,2b]") = Ok (NbtList [NbtInt 1; NbtByte 2]) /\ nbt_ok 0 (NbtList [NbtInt 1; NbtByte 2]) = false /\
  parse_snbt (lit "1} and more") = Ok (NbtInt 1).
Proof. cbv zeta. split_and!; vm_compute; reflexivity. Qed.
