(* ===== verification/Packets16.v ===== *)
(** * Typed packets of 1.6

    crates/protocol/src/versions/v1_6_x: the pre-netty packets, with strings as
    counted UTF-16, and the server-list answer of the legacy ping.  A [String] is
    the list of its characters here; parsing JSON is a library's, so [from_json]
    starts from the parsed value. *)
From Stdlib Require Import ZArith Lia Strings.Byte.
From stdpp Require Import base list numbers strings.
From S2P Require Import Prelude Buf Wire VarInt Codec Chars Packets.
Local Open Scope Z_scope.

(** ** Strings: a 16-bit count of UTF-16 units and the units *)

(** [raw.chunks(2).map(|c| u16::from_be_bytes([c[0], c[1]]))]. *)
Fixpoint be_units (raw : bytes) : list Z :=
  match raw with
  | b1 :: b2 :: raw' => be_val [b1; b2] :: be_units raw'
  | _ => []
  end.

Definition decode_legacy_string : Dec chars :=
  ensure 2 UnexpectedEof;;
  let! len := get_u16 in
  let byte_len := len * 2 in
  ensure byte_len UnexpectedEof;;
  let! raw := copy_to_bytes byte_len in
  match from_utf16 (be_units raw) with Some s => ret s | None => fail UnexpectedEof end.

Definition encode_legacy_string (s : chars) : Enc :=
  let utf16 := encode_utf16 s in
  put_u16 (wrapu 16 (Z.of_nat (length utf16)));;
  fold_right (fun ch (k : Enc) => put_u16 ch;; k) (ret tt) utf16.

(** The encoder of the handshake module refuses what its count cannot say. *)
Definition encode_legacy_string_strict (s : chars) : Enc :=
  if 65535 <? Z.of_nat (length (encode_utf16 s)) then fail UnexpectedEof else encode_legacy_string s.

Definition need6 (n : Z) : Dec unit := ensure n UnexpectedEof.

(** The reader of the play module takes the units one by one. *)
Definition decode_legacy_string_play : Dec chars :=
  need6 2;;
  let! len := get_u16 in
  need6 (len * 2);;
  let! units := repeat_dec (Z.to_nat len) get_u16 in
  match from_utf16 units with Some s => ret s | None => fail (Io KInvalidData "invalid UCS-2 in pre-netty string") end.

Definition legacy_ok (s : chars) : Prop := Forall char_ok s /\ Z.of_nat (length (encode_utf16 s)) < 65536.

Definition Legacy : codec chars := Codec encode_legacy_string decode_legacy_string legacy_ok.
Definition LegacyStrict : codec chars := Codec encode_legacy_string_strict decode_legacy_string legacy_ok.
Definition LegacyPlay : codec chars := Codec encode_legacy_string decode_legacy_string_play legacy_ok.

(** ** Handshake *)

(** [get_u8] and [get_i32] with no check in front of them. *)
Record ServerboundHandshake := mkHandshake { hs_protocol_version : Z; hs_username : chars; hs_host : chars; hs_port : Z }.

Definition Handshake_encode (p : ServerboundHandshake) : Enc :=
  put_u8 (hs_protocol_version p);; enc LegacyStrict (hs_username p);; enc LegacyStrict (hs_host p);; put_i32 (hs_port p).

Definition Handshake_decode : Dec ServerboundHandshake :=
  let! protocol_version := get_u8 in
  let! username := dec LegacyStrict in
  let! host := dec LegacyStrict in
  let! port := get_i32 in
  ret (mkHandshake protocol_version username host port).

Definition Handshake : codec ServerboundHandshake := Codec Handshake_encode Handshake_decode (fun p =>
  fits_u 8 (hs_protocol_version p) /\ legacy_ok (hs_username p) /\ legacy_ok (hs_host p) /\ fits_s 32 (hs_port p)).

(** ** Login *)

Record HandshakeC2S := mkHandshakeC2S { hc_protocol_version : Z; hc_username : chars; hc_host : chars; hc_port : Z }.

Definition HandshakeC2S_encode (p : HandshakeC2S) : Enc :=
  put_u8 (hc_protocol_version p);; enc Legacy (hc_username p);; enc Legacy (hc_host p);; put_i32 (hc_port p).

Definition HandshakeC2S_decode : Dec HandshakeC2S :=
  ensure 1 UnexpectedEof;;
  let! protocol_version := get_u8 in
  let! username := dec Legacy in
  let! host := dec Legacy in
  ensure 4 UnexpectedEof;;
  let! port := get_i32 in
  ret (mkHandshakeC2S protocol_version username host port).

Definition LoginHandshake : codec HandshakeC2S := Codec HandshakeC2S_encode HandshakeC2S_decode (fun p =>
  fits_u 8 (hc_protocol_version p) /\ wf Legacy (hc_username p) /\ wf Legacy (hc_host p) /\ fits_s 32 (hc_port p)).

(** A byte array behind a 16-bit length that a negative value makes huge. *)
Definition encode_i16_bytes (data : bytes) : Enc := put_i16 (wraps 16 (Z.of_nat (length data)));; put_slice data.
Definition decode_i16_bytes : Dec bytes :=
  ensure 2 UnexpectedEof;;
  let! raw := get_i16 in
  let len := wrapu 64 raw in
  ensure len UnexpectedEof;;
  copy_to_bytes len.
Definition I16Bytes : codec bytes := Codec encode_i16_bytes decode_i16_bytes (fun s => Z.of_nat (length s) <= 32767).

Record EncryptionKeyRequestS2C := mkEncryptionKeyRequest {
  ekr_server_id : chars; ekr_public_key : bytes; ekr_verify_token : bytes }.

Definition EncryptionKeyRequest_encode (p : EncryptionKeyRequestS2C) : Enc :=
  enc Legacy (ekr_server_id p);; enc I16Bytes (ekr_public_key p);; enc I16Bytes (ekr_verify_token p).

Definition EncryptionKeyRequest_decode : Dec EncryptionKeyRequestS2C :=
  let! server_id := dec Legacy in
  let! public_key := dec I16Bytes in
  let! verify_token := dec I16Bytes in
  ret (mkEncryptionKeyRequest server_id public_key verify_token).

Definition EncryptionKeyRequest : codec EncryptionKeyRequestS2C := Codec EncryptionKeyRequest_encode EncryptionKeyRequest_decode (fun p =>
  wf Legacy (ekr_server_id p) /\ wf I16Bytes (ekr_public_key p) /\ wf I16Bytes (ekr_verify_token p)).

Record EncryptionKeyResponseC2S := mkEncryptionKeyResponse { eks_shared_secret : bytes; eks_verify_token : bytes }.

Definition EncryptionKeyResponse_encode (p : EncryptionKeyResponseC2S) : Enc :=
  enc I16Bytes (eks_shared_secret p);; enc I16Bytes (eks_verify_token p).

Definition EncryptionKeyResponse_decode : Dec EncryptionKeyResponseC2S :=
  let! shared_secret := dec I16Bytes in
  let! verify_token := dec I16Bytes in
  ret (mkEncryptionKeyResponse shared_secret verify_token).

Definition EncryptionKeyResponse : codec EncryptionKeyResponseC2S := Codec EncryptionKeyResponse_encode EncryptionKeyResponse_decode (fun p =>
  wf I16Bytes (eks_shared_secret p) /\ wf I16Bytes (eks_verify_token p)).

Record LoginRequestS2C := mkLoginRequest {
  lr_entity_id : Z; lr_level_type : chars; lr_game_mode : Z; lr_dimension : Z; lr_difficulty : Z; lr_world_height : Z;
  lr_max_players : Z }.

Definition LoginRequest_encode (p : LoginRequestS2C) : Enc :=
  put_i32 (lr_entity_id p);; enc Legacy (lr_level_type p);; put_u8 (lr_game_mode p);; put_i8 (lr_dimension p);;
  put_u8 (lr_difficulty p);; put_u8 (lr_world_height p);; put_u8 (lr_max_players p).

Definition LoginRequest_decode : Dec LoginRequestS2C :=
  ensure 4 UnexpectedEof;;
  let! entity_id := get_i32 in
  let! level_type := dec Legacy in
  ensure 5 UnexpectedEof;;
  let! game_mode := get_u8 in
  let! dimension := get_i8 in
  let! difficulty := get_u8 in
  let! world_height := get_u8 in
  let! max_players := get_u8 in
  ret (mkLoginRequest entity_id level_type game_mode dimension difficulty world_height max_players).

Definition LoginRequest : codec LoginRequestS2C := Codec LoginRequest_encode LoginRequest_decode (fun p =>
  fits_s 32 (lr_entity_id p) /\ wf Legacy (lr_level_type p) /\ fits_u 8 (lr_game_mode p) /\
  fits_s 8 (lr_dimension p) /\ fits_u 8 (lr_difficulty p) /\ fits_u 8 (lr_world_height p) /\
  fits_u 8 (lr_max_players p)).

Definition LoginDisconnect_encode (v : chars) : Enc := enc Legacy v.
Definition LoginDisconnect_decode : Dec chars := dec Legacy.
Definition LoginDisconnect : codec chars := Codec LoginDisconnect_encode LoginDisconnect_decode (fun v => wf Legacy v).

(** ** Status *)

Definition LegacyPing_encode (_ : unit) : Enc := ret tt.
Definition LegacyPing_decode : Dec unit := ret tt.
Definition LegacyPing : codec unit := Codec LegacyPing_encode LegacyPing_decode (fun _ => True).

Definition Response_encode (v : chars) : Enc := enc Legacy v.
Definition Response_decode : Dec chars := dec Legacy.
Definition Response : codec chars := Codec Response_encode Response_decode (fun v => wf Legacy v).

(** [get_i64] with no check in front of it. *)
Definition Pong_encode (payload : Z) : Enc := put_i64 payload.
Definition Pong_decode : Dec Z := get_i64.

Fixpoint extract_description_text (v : Value) : chars :=
  match v with
  | JString s => s
  | JObject obj =>
      match json_get v (chr "text") with Some (JString t) => t | _ => [] end ++
      (fix extra (obj : list (chars * Value)) : chars :=
         match obj with
         | [] => []
         | (k, child) :: obj' =>
             if bool_decide (k = chr "extra") then
               match child with
               | JArray items => (fix each (l : list Value) : chars :=
                   match l with [] => [] | x :: l' => extract_description_text x ++ each l' end) items
               | _ => []
               end
             else extra obj'
         end) obj
  | _ => []
  end.

Definition sanitize_legacy (s : chars) : chars :=
  omap (fun c => if c =? 0 then None else if (c =? 10) || (c =? 13) || (c =? 9) then Some 32 else Some c) s.

Record ClientboundLegacyMotd := mkMotd {
  lm_protocol : chars; lm_version : chars; lm_motd : chars; lm_players : chars; lm_max_players : chars }.

(** [from_json], given what [serde_json::from_str] makes of the text. *)
Definition from_json (json : option Value) : ClientboundLegacyMotd :=
  let motd := match json with
              | Some v => match json_get v (chr "description") with
                          | Some desc => let text := extract_description_text desc in
                                         match text with [] => chr "A Minecraft Server" | _ => sanitize_legacy text end
                          | None => chr "A Minecraft Server"
                          end
              | None => chr "A Minecraft Server"
              end in
  let count key fallback :=
    match json with
    | Some v => match json_get v (chr "players") with
                | Some p => match json_get p (chr key) ≫= json_i64 with Some n => show n | None => chr fallback end
                | None => chr fallback
                end
    | None => chr fallback
    end in
  mkMotd (chr "78") (chr "1.6.4") motd (count "online" "0")%string (count "max" "20")%string.

(** The fields behind the magic prefix, each after a NUL. *)
Definition motd_payload (m : ClientboundLegacyMotd) : chars :=
  [0xA7; 49] ++ 0 :: lm_protocol m ++ 0 :: lm_version m ++ 0 :: lm_motd m ++ 0 :: lm_players m ++ 0 :: lm_max_players m.

Definition encode_legacy (m : ClientboundLegacyMotd) : Enc := put_u8 0xFF;; encode_legacy_string (motd_payload m).

(** ** Play *)

Definition KeepAlive_encode (v : Z) : Enc := put_i32 v.
Definition KeepAlive_decode : Dec Z :=
  need6 4;;
  get_i32.
Definition KeepAlive : codec Z := Codec KeepAlive_encode KeepAlive_decode (fun v => fits_s 32 v).

Definition ChatMessage_encode (v : chars) : Enc := enc LegacyPlay v.
Definition ChatMessage_decode : Dec chars := dec LegacyPlay.
Definition ChatMessage : codec chars := Codec ChatMessage_encode ChatMessage_decode (fun v => wf LegacyPlay v).

Record ClientboundPlayerPosition := mkPlayerPosition {
  pp_x : Z; pp_y : Z; pp_stance : Z; pp_z : Z; pp_yaw : Z; pp_pitch : Z; pp_on_ground : bool }.

Definition PlayerPosition_encode (p : ClientboundPlayerPosition) : Enc :=
  put_f64 (pp_x p);; put_f64 (pp_stance p);; put_f64 (pp_y p);; put_f64 (pp_z p);; put_f32 (pp_yaw p);;
  put_f32 (pp_pitch p);; put_u8 (flag_byte (pp_on_ground p)).

Definition PlayerPosition_decode : Dec ClientboundPlayerPosition :=
  need6 (8 + 8 + 8 + 8 + 4 + 4 + 1);;
  let! x := get_f64 in
  let! stance := get_f64 in
  let! y := get_f64 in
  let! z := get_f64 in
  let! yaw := get_f32 in
  let! pitch := get_f32 in
  let! on_ground := get_u8 in
  ret (mkPlayerPosition x y stance z yaw pitch (flag_of on_ground)).

Definition PlayerPosition : codec ClientboundPlayerPosition := Codec PlayerPosition_encode PlayerPosition_decode (fun p =>
  fits_u 64 (pp_x p) /\ fits_u 64 (pp_y p) /\ fits_u 64 (pp_stance p) /\ fits_u 64 (pp_z p) /\ fits_u 32 (pp_yaw p) /\
  fits_u 32 (pp_pitch p)).

Definition HeldItemChange_encode (v : Z) : Enc := put_i16 v.
Definition HeldItemChange_decode : Dec Z :=
  need6 2;;
  get_i16.
Definition HeldItemChange : codec Z := Codec HeldItemChange_encode HeldItemChange_decode (fun v => fits_s 16 v).

Record ClientboundPlayerAbilities := mkPlayerAbilities { pa_flags : Z; pa_flying_speed : Z; pa_walking_speed : Z }.

Definition PlayerAbilities_encode (p : ClientboundPlayerAbilities) : Enc :=
  put_u8 (pa_flags p);; put_f32 (pa_flying_speed p);; put_f32 (pa_walking_speed p).

Definition PlayerAbilities_decode : Dec ClientboundPlayerAbilities :=
  need6 (1 + 4 + 4);;
  let! flags := get_u8 in
  let! flying_speed := get_f32 in
  let! walking_speed := get_f32 in
  ret (mkPlayerAbilities flags flying_speed walking_speed).

Definition PlayerAbilities : codec ClientboundPlayerAbilities := Codec PlayerAbilities_encode PlayerAbilities_decode (fun p =>
  fits_u 8 (pa_flags p) /\ fits_u 32 (pa_flying_speed p) /\ fits_u 32 (pa_walking_speed p)).

Definition Disconnect_encode (v : chars) : Enc := enc LegacyPlay v.
Definition Disconnect_decode : Dec chars := dec LegacyPlay.
Definition Disconnect : codec chars := Codec Disconnect_encode Disconnect_decode (fun v => wf LegacyPlay v).

Record ClientboundRespawn := mkRespawn {
  rs_dimension : Z; rs_difficulty : Z; rs_gamemode : Z; rs_world_height : Z; rs_level_type : chars }.

Definition Respawn_encode (p : ClientboundRespawn) : Enc :=
  put_i32 (rs_dimension p);; put_u8 (rs_difficulty p);; put_u8 (rs_gamemode p);; put_i16 (rs_world_height p);;
  enc LegacyPlay (rs_level_type p).

Definition Respawn_decode : Dec ClientboundRespawn :=
  need6 (4 + 1 + 1 + 2);;
  let! dimension := get_i32 in
  let! difficulty := get_u8 in
  let! gamemode := get_u8 in
  let! world_height := get_i16 in
  let! level_type := dec LegacyPlay in
  ret (mkRespawn dimension difficulty gamemode world_height level_type).

Definition Respawn : codec ClientboundRespawn := Codec Respawn_encode Respawn_decode (fun p =>
  fits_s 32 (rs_dimension p) /\ fits_u 8 (rs_difficulty p) /\ fits_u 8 (rs_gamemode p) /\
  fits_s 16 (rs_world_height p) /\ wf LegacyPlay (rs_level_type p)).

Record ClientboundSpawnPosition := mkSpawnPosition { sp_x : Z; sp_y : Z; sp_z : Z }.

Definition SpawnPosition_encode (p : ClientboundSpawnPosition) : Enc :=
  put_i32 (sp_x p);; put_i32 (sp_y p);; put_i32 (sp_z p).

Definition SpawnPosition_decode : Dec ClientboundSpawnPosition :=
  need6 12;;
  let! x := get_i32 in
  let! y := get_i32 in
  let! z := get_i32 in
  ret (mkSpawnPosition x y z).

Definition SpawnPosition : codec ClientboundSpawnPosition := Codec SpawnPosition_encode SpawnPosition_decode (fun p =>
  fits_s 32 (sp_x p) /\ fits_s 32 (sp_y p) /\ fits_s 32 (sp_z p)).

Record ClientboundTimeUpdate := mkTimeUpdate { tu_world_age : Z; tu_time_of_day : Z }.

Definition TimeUpdate_encode (p : ClientboundTimeUpdate) : Enc :=
  put_i64 (tu_world_age p);; put_i64 (tu_time_of_day p).

Definition TimeUpdate_decode : Dec ClientboundTimeUpdate :=
  need6 16;;
  let! world_age := get_i64 in
  let! time_of_day := get_i64 in
  ret (mkTimeUpdate world_age time_of_day).

Definition TimeUpdate : codec ClientboundTimeUpdate := Codec TimeUpdate_encode TimeUpdate_decode (fun p =>
  fits_s 64 (tu_world_age p) /\ fits_s 64 (tu_time_of_day p)).

Record ClientboundUpdateHealth := mkUpdateHealth { uh_health : Z; uh_food : Z; uh_food_saturation : Z }.

Definition UpdateHealth_encode (p : ClientboundUpdateHealth) : Enc :=
  put_f32 (uh_health p);; put_i16 (uh_food p);; put_f32 (uh_food_saturation p).

Definition UpdateHealth_decode : Dec ClientboundUpdateHealth :=
  need6 10;;
  let! health := get_f32 in
  let! food := get_i16 in
  let! food_saturation := get_f32 in
  ret (mkUpdateHealth health food food_saturation).

Definition UpdateHealth : codec ClientboundUpdateHealth := Codec UpdateHealth_encode UpdateHealth_decode (fun p =>
  fits_u 32 (uh_health p) /\ fits_s 16 (uh_food p) /\ fits_u 32 (uh_food_saturation p)).

(** ** The contracts *)

Lemma writes_units us : writes (fold_right (fun ch (k : Enc) => put_u16 ch;; k) (ret tt) us) (concat (map (be_bytes 2) us)).
Proof. induction us as [|u us IH]; [apply writes_ret|]. cbn [fold_right map concat]. apply writes_bind; [apply writes_put|exact IH]. Qed.

Lemma length_units us : length (concat (map (be_bytes 2) us)) = (2 * length us)%nat.
Proof. induction us as [|u us IH]; [done|]. cbn [map concat length]. rewrite length_app, length_be_bytes, IH. lia. Qed.

Lemma be_units_bytes us : Forall (fun u => 0 <= u < 65536) us -> be_units (concat (map (be_bytes 2) us)) = us.
Proof.
  induction 1 as [|u us Hu _ IH]; [done|]. cbn [map concat].
  pose proof (length_be_bytes 2 u) as Hl. pose proof (be_val_bytes 2 u) as Hv.
  destruct (be_bytes 2 u) as [|b1 [|b2 [|]]]; try done. cbn [app be_units]. rewrite IH. f_equal.
  rewrite Hv. change (256 ^ Z.of_nat 2) with 65536. by apply Z.mod_small.
Qed.

Lemma writes_legacy s : legacy_ok s -> writes (encode_legacy_string s)
  (be_bytes 2 (Z.of_nat (length (encode_utf16 s))) ++ concat (map (be_bytes 2) (encode_utf16 s))).
Proof.
  intros [_ Hl]. unfold encode_legacy_string. cbv zeta. rewrite wrapu_id by (unfold fits_u; lia).
  apply writes_bind; [apply writes_put|apply writes_units].
Qed.

Lemma reads_legacy s : legacy_ok s -> reads decode_legacy_string
  (be_bytes 2 (Z.of_nat (length (encode_utf16 s))) ++ concat (map (be_bytes 2) (encode_utf16 s))) s.
Proof.
  intros [Hs Hl]. unfold decode_legacy_string. codec_unfold. apply reads_ensure; [length_side|].
  eapply reads_bind; [apply reads_uint; unfold fits_u; lia|]. cbv zeta.
  apply reads_ensure; [rewrite length_units; lia|].
  eapply reads_bind_last; [apply reads_take; rewrite length_units; lia|]. cbv beta.
  rewrite be_units_bytes by by apply encode_utf16_range. rewrite utf16_roundtrip by done. apply reads_ret.
Qed.

#[export] Instance Legacy_lawful : Lawful Legacy.
Proof.
  apply lawful_intro; cbn [Legacy enc dec wf].
  - intros s Hs. eexists. split; [by apply writes_legacy|by apply reads_legacy].
  - unfold decode_legacy_string. solve_total.
  - unfold decode_legacy_string. solve_consuming.
Qed.

#[export] Instance LegacyStrict_lawful : Lawful LegacyStrict.
Proof.
  apply lawful_intro; cbn [LegacyStrict enc dec wf].
  - intros s Hs. unfold encode_legacy_string_strict. rewrite (proj2 (Z.ltb_ge _ _)) by (destruct Hs; lia).
    eexists. split; [by apply writes_legacy|by apply reads_legacy].
  - apply (lawful_total (c := Legacy)).
  - apply (lawful_consuming (c := Legacy)).
Qed.

Lemma guarded_units n : guarded (2 * n) (repeat_dec n (get_u16 (E := ProtocolError))).
Proof.
  induction n as [|n IH]; [apply guarded_ret|]. cbn [repeat_dec]. unfold get_u16 in *. apply guarded_uint_bind; [lia|]. intros v.
  intros src Hsrc. unfold bind. specialize (IH src ltac:(lia)). by destruct (repeat_dec n (get_uint 2) src) as [[] ?].
Qed.

#[export] Instance LegacyPlay_lawful : Lawful LegacyPlay.
Proof.
  apply lawful_intro; cbn [LegacyPlay enc dec wf]; unfold decode_legacy_string_play, need6.
  - intros s Hs. eexists. split; [by apply writes_legacy|]. destruct Hs as [Hs Hl]. codec_unfold.
    apply reads_ensure; [length_side|]. eapply reads_bind; [apply reads_uint; unfold fits_u; lia|].
    apply reads_ensure; [rewrite length_units; lia|]. rewrite Nat2Z.id.
    eapply reads_bind_last; [apply (reads_repeat (get_uint 2) (be_bytes 2))|].
    + pose proof (encode_utf16_range s Hs) as Hr. eapply Forall_impl; [exact Hr|]. intros u Hu. cbv beta in Hu. apply reads_uint. unfold fits_u. lia.
    + cbv beta. rewrite utf16_roundtrip by done. apply reads_ret.
  - codec_unfold. apply total_ensure. apply guarded_uint_bind; [nat_side|]. intros len. apply total_guarded, total_ensure.
    intros src Hsrc. unfold bind. pose proof (guarded_units (Z.to_nat len) src ltac:(lia)) as Hg. unfold get_u16 in Hg.
    destruct (repeat_dec (Z.to_nat len) (get_uint 2) src) as [[us| | |] ?]; try done. by destruct (from_utf16 us).
  - codec_unfold. solve_consuming.
Qed.

#[export] Instance Handshake_roundtrips_16 : RoundTrips Handshake.
Proof.
  intros [v u h p] (Hv & Hu & Hh & Hp). cbn [hs_protocol_version hs_username hs_host hs_port] in *. cbn [Handshake enc dec].
  unfold Handshake_encode, Handshake_decode. cbn [hs_protocol_version hs_username hs_host hs_port].
  eexists. split; [solve_writes|solve_reads].
Qed.

#[export] Instance LoginHandshake_lawful_16 : Lawful LoginHandshake.
Proof. apply lawful_intro; cbn [LoginHandshake enc dec wf]; unfold HandshakeC2S_encode, HandshakeC2S_decode, need6; packet_goals. Qed.

#[export] Instance I16Bytes_lawful : Lawful I16Bytes.
Proof.
  apply lawful_intro; cbn [I16Bytes enc dec wf]; unfold encode_i16_bytes, decode_i16_bytes; [|solve_total|solve_consuming].
  intros s Hl. rewrite wraps_id by (unfold fits_s; lia). eexists. split; [solve_writes|]. codec_unfold.
  apply reads_ensure; [length_side|]. eapply reads_bind; [apply reads_int; [nat_side|unfold fits_s; lia]|]. cbv zeta.
  rewrite wrapu_id by (unfold fits_u; lia). apply reads_ensure; [lia|]. apply reads_take. lia.
Qed.

#[export] Instance EncryptionKeyRequest_lawful_16 : Lawful EncryptionKeyRequest.
Proof. apply lawful_intro; cbn [EncryptionKeyRequest enc dec wf]; unfold EncryptionKeyRequest_encode, EncryptionKeyRequest_decode, need6; packet_goals. Qed.

#[export] Instance EncryptionKeyResponse_lawful_16 : Lawful EncryptionKeyResponse.
Proof. apply lawful_intro; cbn [EncryptionKeyResponse enc dec wf]; unfold EncryptionKeyResponse_encode, EncryptionKeyResponse_decode, need6; packet_goals. Qed.

#[export] Instance LoginRequest_lawful_16 : Lawful LoginRequest.
Proof. apply lawful_intro; cbn [LoginRequest enc dec wf]; unfold LoginRequest_encode, LoginRequest_decode, need6; packet_goals. Qed.

#[export] Instance LoginDisconnect_lawful_16 : Lawful LoginDisconnect.
Proof. apply lawful_intro; cbn [LoginDisconnect enc dec wf]; unfold LoginDisconnect_encode, LoginDisconnect_decode, need6; packet_goals. Qed.

#[export] Instance LegacyPing_lawful_16 : Lawful LegacyPing.
Proof. apply lawful_unit. Qed.

#[export] Instance Response_lawful_16 : Lawful Response.
Proof. apply lawful_intro; cbn [Response enc dec wf]; unfold Response_encode, Response_decode, need6; packet_goals. Qed.

Lemma sanitize_clean s : 0 ∉ sanitize_legacy s.
Proof.
  intros (c & Hc & Hs)%list_elem_of_omap. destruct (Z.eqb_spec c 0); [done|].
  destruct ((c =? 10) || (c =? 13) || (c =? 9)); congruence.
Qed.

Lemma motd_fields_clean json :
  (0 ∉ lm_protocol (from_json json)) /\ (0 ∉ lm_version (from_json json)) /\ (0 ∉ lm_motd (from_json json)) /\
  (0 ∉ lm_players (from_json json)) /\ (0 ∉ lm_max_players (from_json json)).
Proof.
  assert (Hlit : forall s : chars, forallb (fun c => negb (c =? 0)) s = true -> 0 ∉ s).
  { intros s Hs Hin. rewrite forallb_forall in Hs. specialize (Hs 0 (proj1 (list_elem_of_In _ _) Hin)). done. }
  assert (Hshow : forall n, 0 ∉ show n) by (intros n; by apply number_char_not).
  unfold from_json. cbn [lm_protocol lm_version lm_motd lm_players lm_max_players].
  split_and!; repeat (case_match; subst); first [apply sanitize_clean | apply Hshow | apply Hlit; vm_compute; reflexivity].
Qed.

#[export] Instance KeepAlive_lawful_16 : Lawful KeepAlive.
Proof. apply lawful_intro; cbn [KeepAlive enc dec wf]; unfold KeepAlive_encode, KeepAlive_decode, need6; packet_goals. Qed.

#[export] Instance ChatMessage_lawful_16 : Lawful ChatMessage.
Proof. apply lawful_intro; cbn [ChatMessage enc dec wf]; unfold ChatMessage_encode, ChatMessage_decode, need6; packet_goals. Qed.

#[export] Instance PlayerPosition_lawful_16 : Lawful PlayerPosition.
Proof.
  apply lawful_intro; cbn [PlayerPosition enc dec wf]; unfold PlayerPosition_encode, PlayerPosition_decode, need6; packet_goals.
Qed.

#[export] Instance HeldItemChange_lawful_16 : Lawful HeldItemChange.
Proof. apply lawful_intro; cbn [HeldItemChange enc dec wf]; unfold HeldItemChange_encode, HeldItemChange_decode, need6; packet_goals. Qed.

#[export] Instance PlayerAbilities_lawful_16 : Lawful PlayerAbilities.
Proof. apply lawful_intro; cbn [PlayerAbilities enc dec wf]; unfold PlayerAbilities_encode, PlayerAbilities_decode, need6; packet_goals. Qed.

#[export] Instance Disconnect_lawful_16 : Lawful Disconnect.
Proof. apply lawful_intro; cbn [Disconnect enc dec wf]; unfold Disconnect_encode, Disconnect_decode, need6; packet_goals. Qed.

#[export] Instance Respawn_lawful_16 : Lawful Respawn.
Proof. apply lawful_intro; cbn [Respawn enc dec wf]; unfold Respawn_encode, Respawn_decode, need6; packet_goals. Qed.

#[export] Instance SpawnPosition_lawful_16 : Lawful SpawnPosition.
Proof. apply lawful_intro; cbn [SpawnPosition enc dec wf]; unfold SpawnPosition_encode, SpawnPosition_decode, need6; packet_goals. Qed.

#[export] Instance TimeUpdate_lawful_16 : Lawful TimeUpdate.
Proof. apply lawful_intro; cbn [TimeUpdate enc dec wf]; unfold TimeUpdate_encode, TimeUpdate_decode, need6; packet_goals. Qed.

#[export] Instance UpdateHealth_lawful_16 : Lawful UpdateHealth.
Proof. apply lawful_intro; cbn [UpdateHealth enc dec wf]; unfold UpdateHealth_encode, UpdateHealth_decode, need6; packet_goals. Qed.

(** ** Properties *)

(** The 1.6 packets keep the codec contract: strings of any characters, of
    fewer than 65536 UTF-16 units, survive the conversion, and on arbitrary bytes
    the decoders return, with two exceptions that check nothing before they read:
    the handshake of the handshake module, which panics on an empty packet and on
    one that ends before the port, and the pong, which panics on fewer than eight
    bytes. *)
Theorem v1_6_packets_lawful :
  (Lawful Legacy /\ Lawful LegacyStrict /\ Lawful LegacyPlay) /\
  (Lawful LoginHandshake /\ Lawful EncryptionKeyRequest /\ Lawful EncryptionKeyResponse /\ Lawful LoginRequest /\
   Lawful LoginDisconnect /\ Lawful LegacyPing /\ Lawful Response) /\
  (Lawful KeepAlive /\ Lawful ChatMessage /\ Lawful PlayerPosition /\ Lawful HeldItemChange /\ Lawful PlayerAbilities /\
   Lawful Disconnect /\ Lawful Respawn /\ Lawful SpawnPosition /\ Lawful TimeUpdate /\ Lawful UpdateHealth) /\
  RoundTrips Handshake /\
  (Handshake_decode []).1 = Panic /\
  (forall v u h rest, fits_u 8 v -> legacy_ok u -> legacy_ok h -> (length rest < 4)%nat ->
     (Handshake_decode (be_bytes 1 v ++ wire LegacyStrict u ++ wire LegacyStrict h ++ rest)).1 = Panic) /\
  (forall src, (Pong_decode src).1 = Panic <-> (length src < 8)%nat).
Proof.
  split_and!; try exact _.
  - reflexivity.
  - intros v u h rest Hv Hu Hh Hl. unfold Handshake_decode.
    unfold bind at 1. unfold get_u8. rewrite (reads_uint 1 v Hv). cbv beta iota.
    unfold bind at 1. rewrite (lawful_reads (c := LegacyStrict) u Hu). cbv beta iota.
    unfold bind at 1. rewrite (lawful_reads (c := LegacyStrict) h Hh). cbv beta iota.
    unfold bind, get_i32, get_int, get_uint, bind, take_bytes. by rewrite (proj2 (Nat.ltb_lt _ _) Hl).
  - intros src. unfold Pong_decode, get_i64, get_int, get_uint, bind, take_bytes.
    destruct (Nat.ltb_spec (length src) 8); [done|]. cbn. split; [done|lia].
Qed.

(** The answer to a legacy ping has exactly the six fields the client splits
    it into, whatever the server's description is: the text carries no NUL into
    the payload, so cutting the payload at NULs gives the prefix, the protocol,
    the version, the description and the two player counts back. *)
Theorem legacy_motd_fields (json : option Value) :
  let m := from_json json in
  split_at 0 (motd_payload m) = [[0xA7; 49]; lm_protocol m; lm_version m; lm_motd m; lm_players m; lm_max_players m].
Proof.
  cbv zeta. destruct (motd_fields_clean json) as (H1 & H2 & H3 & H4 & H5). unfold motd_payload.
  assert (0 ∉ [0xA7; 49]) by (apply (bool_decide_eq_true_1 (0 ∉ [0xA7; 49])); reflexivity).
  by rewrite !split_at_app, split_at_clean.
Qed.
