(* ===== verification/Packets17.v ===== *)
(** * Typed packets of 1.7

    crates/protocol/src/versions/v1_7_x: handshake, status, login and play, in the
    shape of [Packets18]; the key exchange still has 16-bit lengths, and its
    encoder refuses arrays they cannot hold. *)
From Stdlib Require Import ZArith Lia Strings.Byte.
From stdpp Require Import base list numbers strings.
From S2P Require Import Prelude Buf Wire VarInt Codec Packets.
Local Open Scope Z_scope.

(** ** Handshake and status *)

Record ServerboundHandshake := mkHandshake {
  hs_protocol_version : Z; hs_server_address : bytes; hs_server_port : Z; hs_next_state : Z }.

Definition Handshake_encode (p : ServerboundHandshake) : Enc :=
  enc VarInt (hs_protocol_version p);; enc (Text "ServerboundHandshake server_address") (hs_server_address p);;
  put_u16 (hs_server_port p);; enc VarInt (hs_next_state p).

Definition Handshake_decode : Dec ServerboundHandshake :=
  let! protocol_version := dec VarInt in
  let! server_address := dec (Text "ServerboundHandshake server_address") in
  ensure 2 (Io KUnexpectedEof "Missing bytes for ServerboundHandshake server_port");;
  let! server_port := get_u16 in
  let! next_state := dec VarInt in
  ret (mkHandshake protocol_version server_address server_port next_state).

Definition Handshake : codec ServerboundHandshake := Codec Handshake_encode Handshake_decode (fun p =>
  fits_s 32 (hs_protocol_version p) /\ text_ok (hs_server_address p) /\ fits_u 16 (hs_server_port p) /\
  fits_s 32 (hs_next_state p)).

Definition StatusRequest_encode (_ : unit) : Enc := ret tt.
Definition StatusRequest_decode : Dec unit := ret tt.
Definition StatusRequest : codec unit := Codec StatusRequest_encode StatusRequest_decode (fun _ => True).

Definition PingRequest_encode (v : Z) : Enc := put_i64 v.
Definition PingRequest_decode : Dec Z :=
  ensure 8 (Io KUnexpectedEof "Missing bytes for ServerboundPingRequest payload");;
  get_i64.
Definition PingRequest : codec Z := Codec PingRequest_encode PingRequest_decode (fun v => fits_s 64 v).

Definition StatusResponse_encode (v : bytes) : Enc := enc (TextOf "Missing bytes while reading ClientboundStatusResponse JSON payload" "Invalid UTF-8 string in ClientboundStatusResponse") v.
Definition StatusResponse_decode : Dec bytes := dec (TextOf "Missing bytes while reading ClientboundStatusResponse JSON payload" "Invalid UTF-8 string in ClientboundStatusResponse").
Definition StatusResponse : codec bytes := Codec StatusResponse_encode StatusResponse_decode (fun v => text_ok v).

Definition PongResponse_encode (v : Z) : Enc := put_i64 v.
Definition PongResponse_decode : Dec Z :=
  ensure 8 (Io KUnexpectedEof "Missing bytes for ClientboundPongResponse payload");;
  get_i64.
Definition PongResponse : codec Z := Codec PongResponse_encode PongResponse_decode (fun v => fits_s 64 v).

(** ** Login *)

Definition LoginDisconnect_encode (v : bytes) : Enc := enc (Text "ClientboundLoginDisconnect reason") v.
Definition LoginDisconnect_decode : Dec bytes := dec (Text "ClientboundLoginDisconnect reason").
Definition LoginDisconnect : codec bytes := Codec LoginDisconnect_encode LoginDisconnect_decode (fun v => text_ok v).

Record ClientboundEncryptionRequest := mkEncryptionRequest {
  er_server_id : bytes; er_public_key : bytes; er_verify_token : bytes }.

Definition EncryptionRequest_encode (p : ClientboundEncryptionRequest) : Enc :=
  enc (Text "ClientboundEncryptionRequest server_id") (er_server_id p);;
  enc (ShortData "ClientboundEncryptionRequest public_key") (er_public_key p);;
  enc (ShortData "ClientboundEncryptionRequest verify_token") (er_verify_token p).

Definition EncryptionRequest_decode : Dec ClientboundEncryptionRequest :=
  let! server_id := dec (Text "ClientboundEncryptionRequest server_id") in
  let! public_key := dec (ShortData "ClientboundEncryptionRequest public_key") in
  let! verify_token := dec (ShortData "ClientboundEncryptionRequest verify_token") in
  ret (mkEncryptionRequest server_id public_key verify_token).

Definition EncryptionRequest : codec ClientboundEncryptionRequest := Codec EncryptionRequest_encode EncryptionRequest_decode (fun p =>
  text_ok (er_server_id p) /\ wf (ShortData "ClientboundEncryptionRequest public_key") (er_public_key p) /\
  wf (ShortData "ClientboundEncryptionRequest verify_token") (er_verify_token p)).

Record ClientboundLoginSuccess := mkLoginSuccess { lsu_uuid : bytes; lsu_username : bytes }.

Section LoginSuccess.
(** [Uuid::hyphenated().to_string()] and [Uuid::parse_str]. *)
Variable uuid_text : bytes -> bytes.
Variable uuid_parse : bytes -> option bytes.

Definition LoginSuccess_encode (p : ClientboundLoginSuccess) : Enc :=
  enc (Text "ClientboundLoginSuccess uuid") (uuid_text (lsu_uuid p));;
  enc (Text "ClientboundLoginSuccess username") (lsu_username p).

Definition LoginSuccess_decode : Dec ClientboundLoginSuccess :=
  let! uuid_str := dec (Text "ClientboundLoginSuccess uuid") in
  match uuid_parse uuid_str with
  | None => fail (Io KInvalidData "Invalid UUID in ClientboundLoginSuccess")
  | Some uuid =>
      let! username := dec (Text "ClientboundLoginSuccess username") in
      ret (mkLoginSuccess uuid username)
  end.

(** The UUIDs whose text is text and reads back. *)
Definition LoginSuccess : codec ClientboundLoginSuccess := Codec LoginSuccess_encode LoginSuccess_decode (fun p =>
  text_ok (uuid_text (lsu_uuid p)) /\ uuid_parse (uuid_text (lsu_uuid p)) = Some (lsu_uuid p) /\ text_ok (lsu_username p)).

End LoginSuccess.

Definition LoginStart_encode (v : bytes) : Enc := enc (Text "ServerboundLoginStart username") v.
Definition LoginStart_decode : Dec bytes := dec (Text "ServerboundLoginStart username").
Definition LoginStart : codec bytes := Codec LoginStart_encode LoginStart_decode (fun v => text_ok v).

Record ServerboundEncryptionResponse := mkEncryptionResponse { ers_shared_secret : bytes; ers_verify_token : bytes }.

Definition EncryptionResponse_encode (p : ServerboundEncryptionResponse) : Enc :=
  enc (ShortData "ServerboundEncryptionResponse shared_secret") (ers_shared_secret p);;
  enc (ShortData "ServerboundEncryptionResponse verify_token") (ers_verify_token p).

Definition EncryptionResponse_decode : Dec ServerboundEncryptionResponse :=
  let! shared_secret := dec (ShortData "ServerboundEncryptionResponse shared_secret") in
  let! verify_token := dec (ShortData "ServerboundEncryptionResponse verify_token") in
  ret (mkEncryptionResponse shared_secret verify_token).

Definition EncryptionResponse : codec ServerboundEncryptionResponse := Codec EncryptionResponse_encode EncryptionResponse_decode (fun p =>
  wf (ShortData "ServerboundEncryptionResponse shared_secret") (ers_shared_secret p) /\
  wf (ShortData "ServerboundEncryptionResponse verify_token") (ers_verify_token p)).

(** ** Play *)

Definition KeepAlive_encode (v : Z) : Enc := put_i32 v.
Definition KeepAlive_decode : Dec Z :=
  need 4;;
  get_i32.
Definition KeepAlive : codec Z := Codec KeepAlive_encode KeepAlive_decode (fun v => fits_s 32 v).

Record ClientboundJoinGame := mkJoinGame {
  jg_entity_id : Z; jg_game_mode : Z; jg_dimension : Z; jg_difficulty : Z; jg_max_players : Z;
  jg_level_type : bytes }.

Definition JoinGame_encode (p : ClientboundJoinGame) : Enc :=
  put_i32 (jg_entity_id p);; put_u8 (jg_game_mode p);; put_i8 (jg_dimension p);; put_u8 (jg_difficulty p);;
  put_u8 (jg_max_players p);; enc (Text "ClientboundJoinGame level_type") (jg_level_type p).

Definition JoinGame_decode : Dec ClientboundJoinGame :=
  need (4 + 1 + 1 + 1 + 1);;
  let! entity_id := get_i32 in
  let! game_mode := get_u8 in
  let! dimension := get_i8 in
  let! difficulty := get_u8 in
  let! max_players := get_u8 in
  let! level_type := dec (Text "ClientboundJoinGame level_type") in
  ret (mkJoinGame entity_id game_mode dimension difficulty max_players level_type).

Definition JoinGame : codec ClientboundJoinGame := Codec JoinGame_encode JoinGame_decode (fun p =>
  fits_s 32 (jg_entity_id p) /\ fits_u 8 (jg_game_mode p) /\ fits_s 8 (jg_dimension p) /\
  fits_u 8 (jg_difficulty p) /\ fits_u 8 (jg_max_players p) /\ text_ok (jg_level_type p)).

Definition ChatMessage_encode (v : bytes) : Enc := enc (Text "ClientboundChatMessage json_message") v.
Definition ChatMessage_decode : Dec bytes := dec (Text "ClientboundChatMessage json_message").
Definition ChatMessage : codec bytes := Codec ChatMessage_encode ChatMessage_decode (fun v => text_ok v).

Record ClientboundPlayerPosition := mkPlayerPosition {
  pp_x : Z; pp_y : Z; pp_z : Z; pp_yaw : Z; pp_pitch : Z; pp_on_ground : bool }.

Definition PlayerPosition_encode (p : ClientboundPlayerPosition) : Enc :=
  put_f64 (pp_x p);; put_f64 (pp_y p);; put_f64 (pp_z p);; put_f32 (pp_yaw p);; put_f32 (pp_pitch p);;
  put_u8 (flag_byte (pp_on_ground p)).

Definition PlayerPosition_decode : Dec ClientboundPlayerPosition :=
  need (8 + 8 + 8 + 4 + 4 + 1);;
  let! x := get_f64 in
  let! y := get_f64 in
  let! z := get_f64 in
  let! yaw := get_f32 in
  let! pitch := get_f32 in
  let! on_ground := get_u8 in
  ret (mkPlayerPosition x y z yaw pitch (flag_of on_ground)).

Definition PlayerPosition : codec ClientboundPlayerPosition := Codec PlayerPosition_encode PlayerPosition_decode (fun p =>
  fits_u 64 (pp_x p) /\ fits_u 64 (pp_y p) /\ fits_u 64 (pp_z p) /\ fits_u 32 (pp_yaw p) /\ fits_u 32 (pp_pitch p)).

Definition Disconnect_encode (v : bytes) : Enc := enc (Text "ClientboundDisconnect reason") v.
Definition Disconnect_decode : Dec bytes := dec (Text "ClientboundDisconnect reason").
Definition Disconnect : codec bytes := Codec Disconnect_encode Disconnect_decode (fun v => text_ok v).

Record ClientboundPlayerAbilities := mkPlayerAbilities { pa_flags : Z; pa_flying_speed : Z; pa_walking_speed : Z }.

Definition PlayerAbilities_encode (p : ClientboundPlayerAbilities) : Enc :=
  put_i8 (pa_flags p);; put_f32 (pa_flying_speed p);; put_f32 (pa_walking_speed p).

Definition PlayerAbilities_decode : Dec ClientboundPlayerAbilities :=
  need (1 + 4 + 4);;
  let! flags := get_i8 in
  let! flying_speed := get_f32 in
  let! walking_speed := get_f32 in
  ret (mkPlayerAbilities flags flying_speed walking_speed).

Definition PlayerAbilities : codec ClientboundPlayerAbilities := Codec PlayerAbilities_encode PlayerAbilities_decode (fun p =>
  fits_s 8 (pa_flags p) /\ fits_u 32 (pa_flying_speed p) /\ fits_u 32 (pa_walking_speed p)).

(** ** The contracts *)

#[export] Instance Handshake_lawful_17 : Lawful Handshake.
Proof. apply lawful_intro; cbn [Handshake enc dec wf]; unfold Handshake_encode, Handshake_decode, need; packet_goals. Qed.

#[export] Instance StatusRequest_lawful_17 : Lawful StatusRequest.
Proof. apply lawful_unit. Qed.

#[export] Instance PingRequest_lawful_17 : Lawful PingRequest.
Proof. apply lawful_intro; cbn [PingRequest enc dec wf]; unfold PingRequest_encode, PingRequest_decode, need; packet_goals. Qed.

#[export] Instance StatusResponse_lawful_17 : Lawful StatusResponse.
Proof. apply lawful_intro; cbn [StatusResponse enc dec wf]; unfold StatusResponse_encode, StatusResponse_decode, need; packet_goals. Qed.

#[export] Instance PongResponse_lawful_17 : Lawful PongResponse.
Proof. apply lawful_intro; cbn [PongResponse enc dec wf]; unfold PongResponse_encode, PongResponse_decode, need; packet_goals. Qed.

#[export] Instance LoginDisconnect_lawful_17 : Lawful LoginDisconnect.
Proof. apply lawful_intro; cbn [LoginDisconnect enc dec wf]; unfold LoginDisconnect_encode, LoginDisconnect_decode, need; packet_goals. Qed.

#[export] Instance EncryptionRequest_lawful_17 : Lawful EncryptionRequest.
Proof. apply lawful_intro; cbn [EncryptionRequest enc dec wf]; unfold EncryptionRequest_encode, EncryptionRequest_decode, need; packet_goals. Qed.

#[export] Instance LoginSuccess_lawful_17 uuid_text uuid_parse : Lawful (LoginSuccess uuid_text uuid_parse).
Proof.
  apply lawful_intro; cbn [LoginSuccess enc dec wf]; unfold LoginSuccess_decode; [|solve_total|solve_consuming].
  intros [uuid username] (Ht & Hp & Hu). cbn [lsu_uuid lsu_username] in *. unfold LoginSuccess_encode. cbn [lsu_uuid lsu_username].
  eexists. split; [solve_writes|].
  eapply reads_bind; [by apply lawful_reads|]. rewrite Hp. solve_reads.
Qed.

#[export] Instance LoginStart_lawful_17 : Lawful LoginStart.
Proof. apply lawful_intro; cbn [LoginStart enc dec wf]; unfold LoginStart_encode, LoginStart_decode, need; packet_goals. Qed.

#[export] Instance EncryptionResponse_lawful_17 : Lawful EncryptionResponse.
Proof. apply lawful_intro; cbn [EncryptionResponse enc dec wf]; unfold EncryptionResponse_encode, EncryptionResponse_decode, need; packet_goals. Qed.

#[export] Instance KeepAlive_lawful_17 : Lawful KeepAlive.
Proof. apply lawful_intro; cbn [KeepAlive enc dec wf]; unfold KeepAlive_encode, KeepAlive_decode, need; packet_goals. Qed.

#[export] Instance JoinGame_lawful_17 : Lawful JoinGame.
Proof. apply lawful_intro; cbn [JoinGame enc dec wf]; unfold JoinGame_encode, JoinGame_decode, need; packet_goals. Qed.

#[export] Instance ChatMessage_lawful_17 : Lawful ChatMessage.
Proof. apply lawful_intro; cbn [ChatMessage enc dec wf]; unfold ChatMessage_encode, ChatMessage_decode, need; packet_goals. Qed.

#[export] Instance PlayerPosition_lawful_17 : Lawful PlayerPosition.
Proof. apply lawful_intro; cbn [PlayerPosition enc dec wf]; unfold PlayerPosition_encode, PlayerPosition_decode, need; packet_goals. Qed.

#[export] Instance Disconnect_lawful_17 : Lawful Disconnect.
Proof. apply lawful_intro; cbn [Disconnect enc dec wf]; unfold Disconnect_encode, Disconnect_decode, need; packet_goals. Qed.

#[export] Instance PlayerAbilities_lawful_17 : Lawful PlayerAbilities.
Proof. apply lawful_intro; cbn [PlayerAbilities enc dec wf]; unfold PlayerAbilities_encode, PlayerAbilities_decode, need; packet_goals. Qed.

(** ** Properties *)

(** The 1.7 packets keep the codec contract: with fields in the range of
    their types, and the byte arrays of the key exchange no longer than their
    16-bit length can say, each decodes to itself and leaves what follows, and no
    decoder panics on any bytes; a longer key or token is refused by the encoder
    with nothing but the server id written. *)
Theorem v1_7_packets_lawful :
  (Lawful Handshake /\ Lawful StatusRequest /\ Lawful PingRequest /\ Lawful StatusResponse /\ Lawful PongResponse) /\
  (Lawful LoginStart /\ Lawful LoginDisconnect /\ Lawful EncryptionRequest /\ Lawful EncryptionResponse /\
   forall uuid_text uuid_parse, Lawful (LoginSuccess uuid_text uuid_parse)) /\
  (Lawful JoinGame /\ Lawful PlayerPosition /\ Lawful KeepAlive /\ Lawful ChatMessage /\ Lawful Disconnect /\
   Lawful PlayerAbilities) /\
  (forall p dst, 32767 < Z.of_nat (length (ers_shared_secret p)) ->
     EncryptionResponse_encode p dst = (Err UnexpectedEof, dst)).
Proof.
  split_and!; try exact _. intros p dst Hl.
  unfold EncryptionResponse_encode, ShortData, enc, encode_short_bytes, bind. by rewrite (proj2 (Z.ltb_lt _ _) Hl).
Qed.
