(* ===== verification/Packets112.v ===== *)
(** * Typed packets of 1.9 to 1.12

    crates/protocol/src/versions/v1_12_x, which 1.9, 1.10 and 1.11 re-export: the
    packets of [Packets18] with the boss bar, the login plugin exchange and two
    packets whose encoder depends on the protocol while their decoder does not. *)
From Stdlib Require Import ZArith Lia Strings.Byte.
From stdpp Require Import base list numbers strings.
From S2P Require Import Prelude Buf Wire VarInt Codec Packets.
Local Open Scope Z_scope.

(** ** Handshake and status *)

Record ServerboundHandshake := mkHandshake {
  hs_protocol_version : Z; hs_server_address : bytes; hs_server_port : Z; hs_next_state : Z }.

Definition Handshake_encode (p : ServerboundHandshake) : Enc :=
  enc VarInt (hs_protocol_version p);;
  enc (TextOf "Missing bytes while reading ServerboundHandshake address" "Invalid UTF-8 string in ServerboundHandshake address") (hs_server_address p);;
  put_u16 (hs_server_port p);; enc VarInt (hs_next_state p).

Definition Handshake_decode : Dec ServerboundHandshake :=
  let! protocol_version := dec VarInt in
  let! server_address := dec (TextOf "Missing bytes while reading ServerboundHandshake address" "Invalid UTF-8 string in ServerboundHandshake address") in
  ensure 2 (Io KUnexpectedEof "Missing bytes for ServerboundHandshake port");;
  let! server_port := get_u16 in
  let! next_state := dec VarInt in
  ret (mkHandshake protocol_version server_address server_port next_state).

Definition Handshake : codec ServerboundHandshake := Codec Handshake_encode Handshake_decode (fun p =>
  fits_s 32 (hs_protocol_version p) /\ text_ok (hs_server_address p) /\ fits_u 16 (hs_server_port p) /\
  fits_s 32 (hs_next_state p)).

Definition StatusRequest_encode (_ : unit) : Enc := ret tt.
Definition StatusRequest_decode : Dec unit := ret tt.
Definition StatusRequest : codec unit := Codec StatusRequest_encode StatusRequest_decode (fun _ => True).

Definition StatusResponse_encode (v : bytes) : Enc := enc (TextOf "Missing bytes while reading ClientboundStatusResponse JSON payload" "Invalid UTF-8 string in ClientboundStatusResponse") v.
Definition StatusResponse_decode : Dec bytes := dec (TextOf "Missing bytes while reading ClientboundStatusResponse JSON payload" "Invalid UTF-8 string in ClientboundStatusResponse").
Definition StatusResponse : codec bytes := Codec StatusResponse_encode StatusResponse_decode (fun v => text_ok v).

Definition PingRequest_encode (v : Z) : Enc := put_i64 v.
Definition PingRequest_decode : Dec Z :=
  ensure 8 (Io KUnexpectedEof "Missing bytes for ServerboundPingRequest payload");;
  get_i64.
Definition PingRequest : codec Z := Codec PingRequest_encode PingRequest_decode (fun v => fits_s 64 v).

Definition PongResponse_encode (v : Z) : Enc := put_i64 v.
Definition PongResponse_decode : Dec Z :=
  ensure 8 (Io KUnexpectedEof "Missing bytes for ClientboundPongResponse payload");;
  get_i64.
Definition PongResponse : codec Z := Codec PongResponse_encode PongResponse_decode (fun v => fits_s 64 v).

(** ** Login *)

Definition LoginStart_encode (v : bytes) : Enc := enc (Text "ServerboundLoginStart username") v.
Definition LoginStart_decode : Dec bytes := dec (Text "ServerboundLoginStart username").
Definition LoginStart : codec bytes := Codec LoginStart_encode LoginStart_decode (fun v => text_ok v).

Definition LoginDisconnect_encode (v : bytes) : Enc := enc (Text "ClientboundLoginDisconnect reason") v.
Definition LoginDisconnect_decode : Dec bytes := dec (Text "ClientboundLoginDisconnect reason").
Definition LoginDisconnect : codec bytes := Codec LoginDisconnect_encode LoginDisconnect_decode (fun v => text_ok v).

Record ClientboundEncryptionRequest := mkEncryptionRequest {
  er_server_id : bytes; er_public_key : bytes; er_verify_token : bytes }.

Definition EncryptionRequest_encode (p : ClientboundEncryptionRequest) : Enc :=
  enc TextEof (er_server_id p);; enc DataEof (er_public_key p);; enc DataEof (er_verify_token p).

(** Whatever follows the token is skipped. *)
Definition EncryptionRequest_decode : Dec ClientboundEncryptionRequest :=
  let! server_id := dec TextEof in
  let! public_key := dec DataEof in
  let! verify_token := dec DataEof in
  let! _ := take_rest in
  ret (mkEncryptionRequest server_id public_key verify_token).

Definition EncryptionRequest : codec ClientboundEncryptionRequest :=
  Codec EncryptionRequest_encode EncryptionRequest_decode (fun p =>
    text_ok (er_server_id p) /\ data_ok (er_public_key p) /\ data_ok (er_verify_token p)).

Record ServerboundEncryptionResponse := mkEncryptionResponse { ers_shared_secret : bytes; ers_verify_token : bytes }.

Definition EncryptionResponse_encode (p : ServerboundEncryptionResponse) : Enc :=
  enc (Data "ServerboundEncryptionResponse shared_secret") (ers_shared_secret p);;
  enc (Data "ServerboundEncryptionResponse verify_token") (ers_verify_token p).

Definition EncryptionResponse_decode : Dec ServerboundEncryptionResponse :=
  let! shared_secret := dec (Data "ServerboundEncryptionResponse shared_secret") in
  let! verify_token := dec (Data "ServerboundEncryptionResponse verify_token") in
  ret (mkEncryptionResponse shared_secret verify_token).

Definition EncryptionResponse : codec ServerboundEncryptionResponse := Codec EncryptionResponse_encode EncryptionResponse_decode (fun p =>
  data_ok (ers_shared_secret p) /\ data_ok (ers_verify_token p)).

Record ProfileProperty := mkProperty { lp_name : bytes; lp_value : bytes; lp_signature : option bytes }.

Definition ProfileProperty_encode (p : ProfileProperty) : Enc :=
  enc (Text "ProfileProperty name") (lp_name p);;
  enc (Text "ProfileProperty value") (lp_value p);;
  match lp_signature p with
  | Some sig => put_u8 1;; enc (Text "ProfileProperty signature") sig
  | None => put_u8 0
  end.

Definition ProfileProperty_decode : Dec ProfileProperty :=
  let! name := dec (Text "ProfileProperty name") in
  let! value := dec (Text "ProfileProperty value") in
  ensure 1 (Io KUnexpectedEof "Missing signature flag in ProfileProperty");;
  let! flag := get_u8 in
  if flag_of flag then
    let! sig := dec (Text "ProfileProperty signature") in ret (mkProperty name value (Some sig))
  else ret (mkProperty name value None).

Definition Property : codec ProfileProperty := Codec ProfileProperty_encode ProfileProperty_decode (fun p =>
  text_ok (lp_name p) /\ text_ok (lp_value p) /\ option_ok text_ok (lp_signature p)).

Record ClientboundLoginSuccess := mkLoginSuccess { lsu_uuid : bytes; lsu_username : bytes }.

Section LoginSuccess.
(** [Uuid::hyphenated().to_string()] and [Uuid::parse_str]. *)
Variable uuid_text : bytes -> bytes.
Variable uuid_parse : bytes -> option bytes.

Definition UuidText : codec bytes := TextOf "Missing bytes for LoginSuccess UUID" "Invalid UTF-8 inside LoginSuccess UUID".
Definition SuccessName : codec bytes :=
  TextOf "Missing bytes for LoginSuccess Username" "Invalid UTF-8 inside LoginSuccess Username".

Definition LoginSuccess_encode (p : ClientboundLoginSuccess) : Enc :=
  enc UuidText (uuid_text (lsu_uuid p));; enc SuccessName (lsu_username p).

Definition LoginSuccess_decode : Dec ClientboundLoginSuccess :=
  let! uuid_str := dec UuidText in
  match uuid_parse uuid_str with
  | None => fail (Io KInvalidData "Invalid string format for UUID parsing")
  | Some uuid => let! username := dec SuccessName in ret (mkLoginSuccess uuid username)
  end.

Definition LoginSuccess : codec ClientboundLoginSuccess := Codec LoginSuccess_encode LoginSuccess_decode (fun p =>
  text_ok (uuid_text (lsu_uuid p)) /\ uuid_parse (uuid_text (lsu_uuid p)) = Some (lsu_uuid p) /\ text_ok (lsu_username p)).

End LoginSuccess.

Definition SetCompression_encode (v : Z) : Enc := enc VarInt v.
Definition SetCompression_decode : Dec Z := dec VarInt.
Definition SetCompression : codec Z := Codec SetCompression_encode SetCompression_decode (fun v => fits_s 32 v).

Record ClientboundLoginPluginRequest := mkLoginPluginRequest {
  lpr_message_id : Z; lpr_channel : bytes; lpr_data : bytes }.

Definition LoginPluginRequest_encode (p : ClientboundLoginPluginRequest) : Enc :=
  enc VarInt (lpr_message_id p);; enc (Text "ClientboundLoginPluginRequest channel") (lpr_channel p);;
  put_slice (lpr_data p).

Definition LoginPluginRequest_decode : Dec ClientboundLoginPluginRequest :=
  let! message_id := dec VarInt in
  let! channel := dec (Text "ClientboundLoginPluginRequest channel") in
  let! data := take_rest in
  ret (mkLoginPluginRequest message_id channel data).

Definition LoginPluginRequest : codec ClientboundLoginPluginRequest := Codec LoginPluginRequest_encode LoginPluginRequest_decode (fun p =>
  fits_s 32 (lpr_message_id p) /\ text_ok (lpr_channel p)).

Record ServerboundLoginPluginResponse := mkLoginPluginResponse {
  lps_message_id : Z; lps_successful : bool; lps_data : option bytes }.

Definition LoginPluginResponse_encode (p : ServerboundLoginPluginResponse) : Enc :=
  enc VarInt (lps_message_id p);; put_u8 (if lps_successful p then 1 else 0);;
  if lps_successful p then match lps_data p with Some data => put_slice data | None => ret tt end else ret tt.

Definition LoginPluginResponse_decode : Dec ServerboundLoginPluginResponse :=
  let! message_id := dec VarInt in
  ensure 1 (Io KUnexpectedEof "Missing successful flag in ServerboundLoginPluginResponse");;
  let! flag := get_u8 in
  let successful := flag_of flag in
  let! data := take_rest_if successful in
  ret (mkLoginPluginResponse message_id successful data).

(** Data only with success, and never the empty array, which reads back as none. *)
Definition LoginPluginResponse : codec ServerboundLoginPluginResponse :=
  Codec LoginPluginResponse_encode LoginPluginResponse_decode (fun p =>
    fits_s 32 (lps_message_id p) /\
    match lps_data p with None => True | Some data => lps_successful p = true /\ data <> [] end).

Definition LoginAcknowledged_encode (_ : unit) : Enc := ret tt.
Definition LoginAcknowledged_decode : Dec unit := ret tt.
Definition LoginAcknowledged : codec unit := Codec LoginAcknowledged_encode LoginAcknowledged_decode (fun _ => True).

Definition AcknowledgeFinishConfiguration_encode (_ : unit) : Enc := ret tt.
Definition AcknowledgeFinishConfiguration_decode : Dec unit := ret tt.
Definition AckFinishConfiguration : codec unit := Codec AcknowledgeFinishConfiguration_encode AcknowledgeFinishConfiguration_decode (fun _ => True).

(** ** Play *)

Record ClientboundJoinGame := mkJoinGame {
  jg_entity_id : Z; jg_gamemode : Z; jg_dimension : Z; jg_difficulty : Z; jg_max_players : Z; jg_level_type : bytes;
  jg_reduced_debug_info : bool; jg_for_proto : Z }.

Definition LevelType : codec bytes :=
  TextOf "Missing level_type string payload inside ClientboundJoinGame" "Invalid UTF-8 sequence for level_type string".

Definition JoinGame_encode (p : ClientboundJoinGame) : Enc :=
  put_i32 (jg_entity_id p);; put_u8 (jg_gamemode p);;
  (if jg_for_proto p <? 108 then put_i8 (wraps 8 (jg_dimension p)) else put_i32 (jg_dimension p));;
  put_u8 (jg_difficulty p);; put_u8 (jg_max_players p);; enc LevelType (jg_level_type p);;
  put_u8 (flag_byte (jg_reduced_debug_info p)).

Definition u32_MAX : Z := 2 ^ 32 - 1.

Definition JoinGame_decode : Dec ClientboundJoinGame :=
  ensure 11 (Io KUnexpectedEof "Missing initial static data for ClientboundJoinGame");;
  let! entity_id := get_i32 in
  let! gamemode := get_u8 in
  let! dimension := get_i32 in
  let! difficulty := get_u8 in
  let! max_players := get_u8 in
  let! level_type := dec LevelType in
  ensure 1 (Io KUnexpectedEof "Missing reduced_debug_info flag inside ClientboundJoinGame");;
  let! reduced_debug_info := get_u8 in
  ret (mkJoinGame entity_id gamemode dimension difficulty max_players level_type (flag_of reduced_debug_info) u32_MAX).

(** The packets the decoder can produce: it always reads the layout of 1.9.1. *)
Definition JoinGame : codec ClientboundJoinGame := Codec JoinGame_encode JoinGame_decode (fun p =>
  fits_s 32 (jg_entity_id p) /\ fits_u 8 (jg_gamemode p) /\ fits_s 32 (jg_dimension p) /\ fits_u 8 (jg_difficulty p) /\
  fits_u 8 (jg_max_players p) /\ text_ok (jg_level_type p) /\ jg_for_proto p = u32_MAX).

Record ClientboundRespawn := mkRespawn {
  rs_dimension : Z; rs_difficulty : Z; rs_game_mode : Z; rs_level_type : bytes }.

Definition Respawn_encode (p : ClientboundRespawn) : Enc :=
  put_i32 (rs_dimension p);; put_u8 (rs_difficulty p);; put_u8 (rs_game_mode p);;
  enc (Text "ClientboundRespawn level_type") (rs_level_type p).

Definition Respawn_decode : Dec ClientboundRespawn :=
  need (4 + 1 + 1);;
  let! dimension := get_i32 in
  let! difficulty := get_u8 in
  let! game_mode := get_u8 in
  let! level_type := dec (Text "ClientboundRespawn level_type") in
  ret (mkRespawn dimension difficulty game_mode level_type).

Definition Respawn : codec ClientboundRespawn := Codec Respawn_encode Respawn_decode (fun p =>
  fits_s 32 (rs_dimension p) /\ fits_u 8 (rs_difficulty p) /\ fits_u 8 (rs_game_mode p) /\ text_ok (rs_level_type p)).

Record ClientboundPlayerPosition := mkPlayerPosition {
  pp_x : Z; pp_y : Z; pp_z : Z; pp_yaw : Z; pp_pitch : Z; pp_flags : Z; pp_teleport_id : Z }.

Definition PlayerPosition_encode (p : ClientboundPlayerPosition) : Enc :=
  put_f64 (pp_x p);; put_f64 (pp_y p);; put_f64 (pp_z p);; put_f32 (pp_yaw p);; put_f32 (pp_pitch p);;
  put_u8 (pp_flags p);; enc VarInt (pp_teleport_id p).

Definition PlayerPosition_decode : Dec ClientboundPlayerPosition :=
  need (8 + 8 + 8 + 4 + 4 + 1);;
  let! x := get_f64 in
  let! y := get_f64 in
  let! z := get_f64 in
  let! yaw := get_f32 in
  let! pitch := get_f32 in
  let! flags := get_u8 in
  let! teleport_id := dec VarInt in
  ret (mkPlayerPosition x y z yaw pitch flags teleport_id).

Definition PlayerPosition : codec ClientboundPlayerPosition := Codec PlayerPosition_encode PlayerPosition_decode (fun p =>
  fits_u 64 (pp_x p) /\ fits_u 64 (pp_y p) /\ fits_u 64 (pp_z p) /\ fits_u 32 (pp_yaw p) /\ fits_u 32 (pp_pitch p) /\
  fits_u 8 (pp_flags p) /\ fits_s 32 (pp_teleport_id p)).

Record ClientboundKeepAlive := mkKeepAlive { ka_keep_alive_id : Z; ka_for_proto : Z }.

Definition KeepAlive_encode (p : ClientboundKeepAlive) : Enc :=
  if ka_for_proto p <? 340 then enc VarInt (wraps 32 (ka_keep_alive_id p)) else put_i64 (ka_keep_alive_id p).

Definition KeepAlive_decode : Dec ClientboundKeepAlive :=
  need 8;; let! keep_alive_id := get_i64 in ret (mkKeepAlive keep_alive_id u32_MAX).

Definition KeepAlive : codec ClientboundKeepAlive := Codec KeepAlive_encode KeepAlive_decode (fun p =>
  fits_s 64 (ka_keep_alive_id p) /\ ka_for_proto p = u32_MAX).

Record ClientboundChatMessage := mkChatMessage { cm_json_message : bytes; cm_position : Z }.

Definition ChatMessage_encode (p : ClientboundChatMessage) : Enc :=
  enc (Text "ClientboundChatMessage json_message") (cm_json_message p);; put_u8 (cm_position p).

Definition ChatMessage_decode : Dec ClientboundChatMessage :=
  let! json_message := dec (Text "ClientboundChatMessage json_message") in
  need 1;;
  let! position := get_u8 in
  ret (mkChatMessage json_message position).

Definition ChatMessage : codec ClientboundChatMessage := Codec ChatMessage_encode ChatMessage_decode (fun p =>
  text_ok (cm_json_message p) /\ fits_u 8 (cm_position p)).

Definition Disconnect_encode (v : bytes) : Enc := enc (Text "ClientboundDisconnect reason") v.
Definition Disconnect_decode : Dec bytes := dec (Text "ClientboundDisconnect reason").
Definition Disconnect : codec bytes := Codec Disconnect_encode Disconnect_decode (fun v => text_ok v).

Record ClientboundPlayerAbilities := mkPlayerAbilities { pa_flags : Z; pa_flying_speed : Z; pa_walking_speed : Z }.

Definition PlayerAbilities_encode (p : ClientboundPlayerAbilities) : Enc :=
  put_u8 (pa_flags p);; put_f32 (pa_flying_speed p);; put_f32 (pa_walking_speed p).

Definition PlayerAbilities_decode : Dec ClientboundPlayerAbilities :=
  need (1 + 4 + 4);;
  let! flags := get_u8 in
  let! flying_speed := get_f32 in
  let! walking_speed := get_f32 in
  ret (mkPlayerAbilities flags flying_speed walking_speed).

Definition PlayerAbilities : codec ClientboundPlayerAbilities := Codec PlayerAbilities_encode PlayerAbilities_decode (fun p =>
  fits_u 8 (pa_flags p) /\ fits_u 32 (pa_flying_speed p) /\ fits_u 32 (pa_walking_speed p)).

Definition SetCarriedItem_encode (v : Z) : Enc := put_i8 v.
Definition SetCarriedItem_decode : Dec Z :=
  need 1;;
  get_i8.
Definition SetCarriedItem : codec Z := Codec SetCarriedItem_encode SetCarriedItem_decode (fun v => fits_s 8 v).

Inductive BossBarAction :=
  | Add (title : bytes) (health color division flags : Z)
  | Remove
  | UpdateHealth (health : Z)
  | UpdateTitle (title : bytes)
  | UpdateStyle (color division : Z)
  | UpdateFlags (flags : Z).

Record ClientboundBossBar := mkBossBar { bb_uuid : bytes; bb_action : BossBarAction }.

Definition action_id (a : BossBarAction) : Z :=
  match a with
  | Add _ _ _ _ _ => 0 | Remove => 1 | UpdateHealth _ => 2 | UpdateTitle _ => 3 | UpdateStyle _ _ => 4 | UpdateFlags _ => 5
  end.

Definition BossBar_encode (p : ClientboundBossBar) : Enc :=
  put_slice (bb_uuid p);;
  enc VarInt (action_id (bb_action p));;
  match bb_action p with
  | Add title health color division flags =>
      enc (Text "BossBar Add title") title;; put_f32 health;; enc VarInt color;; enc VarInt division;; put_u8 flags
  | Remove => ret tt
  | UpdateHealth health => put_f32 health
  | UpdateTitle title => enc (Text "BossBar UpdateTitle") title
  | UpdateStyle color division => enc VarInt color;; enc VarInt division
  | UpdateFlags flags => put_u8 flags
  end.

Definition BossBarAction_decode (id : Z) : Dec BossBarAction :=
  match id with
  | 0 =>
      let! title := dec (Text "BossBar Add title") in
      need 4;;
      let! health := get_f32 in
      let! color := dec VarInt in
      let! division := dec VarInt in
      need 1;;
      let! flags := get_u8 in
      ret (Add title health color division flags)
  | 1 => ret Remove
  | 2 => need 4;; let! health := get_f32 in ret (UpdateHealth health)
  | 3 => let! title := dec (Text "BossBar UpdateTitle") in ret (UpdateTitle title)
  | 4 => let! color := dec VarInt in let! division := dec VarInt in ret (UpdateStyle color division)
  | 5 => need 1;; let! flags := get_u8 in ret (UpdateFlags flags)
  | _ => fail (Io KInvalidData "Unknown BossBar action id")
  end.

Definition BossBar_decode : Dec ClientboundBossBar :=
  need 16;;
  let! uuid := copy_to_bytes 16 in
  let! id := dec VarInt in
  let! action := BossBarAction_decode id in
  ret (mkBossBar uuid action).

Definition action_ok (a : BossBarAction) : Prop :=
  match a with
  | Add title health color division flags =>
      text_ok title /\ fits_u 32 health /\ fits_s 32 color /\ fits_s 32 division /\ fits_u 8 flags
  | Remove => True
  | UpdateHealth health => fits_u 32 health
  | UpdateTitle title => text_ok title
  | UpdateStyle color division => fits_s 32 color /\ fits_s 32 division
  | UpdateFlags flags => fits_u 8 flags
  end.

Definition BossBar : codec ClientboundBossBar := Codec BossBar_encode BossBar_decode (fun p =>
  uuid_ok (bb_uuid p) /\ action_ok (bb_action p)).

Record ClientboundSound := mkSound {
  snd_sound_id : Z; snd_sound_category : Z; snd_effect_pos_x : Z; snd_effect_pos_y : Z; snd_effect_pos_z : Z;
  snd_volume : Z; snd_pitch : Z }.

Definition Sound_encode (p : ClientboundSound) : Enc :=
  enc VarInt (snd_sound_id p);; enc VarInt (snd_sound_category p);; put_i32 (snd_effect_pos_x p);;
  put_i32 (snd_effect_pos_y p);; put_i32 (snd_effect_pos_z p);; put_f32 (snd_volume p);; put_f32 (snd_pitch p).

Definition Sound_decode : Dec ClientboundSound :=
  let! sound_id := dec VarInt in
  let! sound_category := dec VarInt in
  need (4 + 4 + 4 + 4 + 4);;
  let! effect_pos_x := get_i32 in
  let! effect_pos_y := get_i32 in
  let! effect_pos_z := get_i32 in
  let! volume := get_f32 in
  let! pitch := get_f32 in
  ret (mkSound sound_id sound_category effect_pos_x effect_pos_y effect_pos_z volume pitch).

Definition Sound : codec ClientboundSound := Codec Sound_encode Sound_decode (fun p =>
  fits_s 32 (snd_sound_id p) /\ fits_s 32 (snd_sound_category p) /\ fits_s 32 (snd_effect_pos_x p) /\
  fits_s 32 (snd_effect_pos_y p) /\ fits_s 32 (snd_effect_pos_z p) /\ fits_u 32 (snd_volume p) /\
  fits_u 32 (snd_pitch p)).

(** ** The contracts *)

#[export] Instance Handshake_lawful_112 : Lawful Handshake.
Proof. apply lawful_intro; cbn [Handshake enc dec wf]; unfold Handshake_encode, Handshake_decode, need; packet_goals. Qed.

#[export] Instance StatusRequest_lawful_112 : Lawful StatusRequest.
Proof. apply lawful_unit. Qed.

#[export] Instance StatusResponse_lawful_112 : Lawful StatusResponse.
Proof. apply lawful_intro; cbn [StatusResponse enc dec wf]; unfold StatusResponse_encode, StatusResponse_decode, need; packet_goals. Qed.

#[export] Instance PingRequest_lawful_112 : Lawful PingRequest.
Proof. apply lawful_intro; cbn [PingRequest enc dec wf]; unfold PingRequest_encode, PingRequest_decode, need; packet_goals. Qed.

#[export] Instance PongResponse_lawful_112 : Lawful PongResponse.
Proof. apply lawful_intro; cbn [PongResponse enc dec wf]; unfold PongResponse_encode, PongResponse_decode, need; packet_goals. Qed.

#[export] Instance LoginStart_lawful_112 : Lawful LoginStart.
Proof. apply lawful_intro; cbn [LoginStart enc dec wf]; unfold LoginStart_encode, LoginStart_decode, need; packet_goals. Qed.

#[export] Instance LoginDisconnect_lawful_112 : Lawful LoginDisconnect.
Proof. apply lawful_intro; cbn [LoginDisconnect enc dec wf]; unfold LoginDisconnect_encode, LoginDisconnect_decode, need; packet_goals. Qed.

#[export] Instance EncryptionRequest_lawful_112 : LawfulTail EncryptionRequest.
Proof.
  apply lawful_tail_intro; cbn [EncryptionRequest enc dec wf]; unfold EncryptionRequest_encode, EncryptionRequest_decode;
    [|solve_total|solve_consuming].
  intros [id key token] (Hi & Hk & Ht). eexists. split; [solve_writes|].
  eapply reads_all_bind; [by apply (lawful_reads (c := TextEof))|].
  eapply reads_all_bind; [by apply (lawful_reads (c := DataEof))|].
  eapply reads_all_bind_last; [by apply (lawful_reads (c := DataEof))|]. done.
Qed.

#[export] Instance EncryptionResponse_lawful_112 : Lawful EncryptionResponse.
Proof. apply lawful_intro; cbn [EncryptionResponse enc dec wf]; unfold EncryptionResponse_encode, EncryptionResponse_decode, need; packet_goals. Qed.

#[export] Instance Property_lawful_112 : Lawful Property.
Proof.
  apply lawful_intro; cbn [Property enc dec wf]; unfold ProfileProperty_decode; [|solve_total|solve_consuming].
  intros [name value [sig|]] (Hn & Hv & Hs); cbn in Hn, Hv, Hs; unfold ProfileProperty_encode; cbn [lp_name lp_value lp_signature].
  all: eexists; (split; [solve_writes|]); codec_unfold;
    (eapply reads_bind; [by apply lawful_reads|]); (eapply reads_bind; [by apply lawful_reads|]);
    (apply reads_ensure; [length_side|]).
  - eapply reads_bind; [apply reads_uint; width|]. cbn [flag_of Z.eqb negb]. solve_reads.
  - eapply reads_bind_last; [apply reads_uint; width|]. apply reads_ret.
Qed.

#[export] Instance LoginSuccess_lawful_112 uuid_text uuid_parse : Lawful (LoginSuccess uuid_text uuid_parse).
Proof.
  apply lawful_intro; cbn [LoginSuccess enc dec wf]; unfold LoginSuccess_decode, UuidText, SuccessName; [|solve_total|solve_consuming].
  intros [uuid username] (Ht & Hp & Hu). cbn [lsu_uuid lsu_username] in *. unfold LoginSuccess_encode, UuidText, SuccessName.
  cbn [lsu_uuid lsu_username]. eexists. split; [solve_writes|].
  eapply reads_bind; [by apply lawful_reads|]. rewrite Hp. solve_reads.
Qed.

#[export] Instance SetCompression_lawful_112 : Lawful SetCompression.
Proof. apply lawful_intro; cbn [SetCompression enc dec wf]; unfold SetCompression_encode, SetCompression_decode, need; packet_goals. Qed.

#[export] Instance LoginPluginRequest_lawful_112 : LawfulTail LoginPluginRequest.
Proof. apply lawful_tail_intro; cbn [LoginPluginRequest enc dec wf]; unfold LoginPluginRequest_encode, LoginPluginRequest_decode, need; packet_tail_goals. Qed.

#[export] Instance LoginPluginResponse_lawful_112 : LawfulTail LoginPluginResponse.
Proof.
  apply lawful_tail_intro; cbn [LoginPluginResponse enc dec wf]; unfold LoginPluginResponse_decode; [|solve_total|solve_consuming].
  intros [i s d] [Hi Hd]. cbn in Hi, Hd. unfold LoginPluginResponse_encode. cbn [lps_message_id lps_successful lps_data].
  destruct s, d as [data|]; try (by destruct Hd); (eexists; split; [solve_writes|]); codec_unfold;
    (eapply reads_all_bind; [by apply lawful_reads|]); repeat reads_step; try width; cbn [flag_of Z.eqb negb take_rest_if];
    try reflexivity.
  destruct Hd as [_ Hd]. destruct data; [done|]. reflexivity.
Qed.

#[export] Instance LoginAcknowledged_lawful_112 : Lawful LoginAcknowledged.
Proof. apply lawful_unit. Qed.

#[export] Instance AckFinishConfiguration_lawful_112 : Lawful AckFinishConfiguration.
Proof. apply lawful_unit. Qed.

#[export] Instance JoinGame_lawful_112 : Lawful JoinGame.
Proof.
  apply lawful_intro; cbn [JoinGame enc dec wf]; unfold JoinGame_decode, LevelType; [|solve_total|solve_consuming].
  intros [e g d di m l r fp] (? & ? & ? & ? & ? & ? & Hp). cbn in Hp. subst fp. unfold JoinGame_encode, LevelType. cbn [jg_for_proto].
  change (u32_MAX <? 108) with false. cbv iota. eexists. split; [solve_writes; field_side|solve_reads; field_side].
Qed.

#[export] Instance Respawn_lawful_112 : Lawful Respawn.
Proof. apply lawful_intro; cbn [Respawn enc dec wf]; unfold Respawn_encode, Respawn_decode, need; packet_goals. Qed.

#[export] Instance PlayerPosition_lawful_112 : Lawful PlayerPosition.
Proof. apply lawful_intro; cbn [PlayerPosition enc dec wf]; unfold PlayerPosition_encode, PlayerPosition_decode, need; packet_goals. Qed.

#[export] Instance KeepAlive_lawful_112 : Lawful KeepAlive.
Proof.
  apply lawful_intro; cbn [KeepAlive enc dec wf]; unfold KeepAlive_decode, need; [|solve_total|solve_consuming].
  intros [i fp] [Hi Hp]. cbn in Hi, Hp. subst fp. unfold KeepAlive_encode. cbn [ka_for_proto ka_keep_alive_id].
  change (u32_MAX <? 340) with false. cbv iota. eexists. split; [solve_writes|solve_reads].
Qed.

#[export] Instance ChatMessage_lawful_112 : Lawful ChatMessage.
Proof. apply lawful_intro; cbn [ChatMessage enc dec wf]; unfold ChatMessage_encode, ChatMessage_decode, need; packet_goals. Qed.

#[export] Instance Disconnect_lawful_112 : Lawful Disconnect.
Proof. apply lawful_intro; cbn [Disconnect enc dec wf]; unfold Disconnect_encode, Disconnect_decode, need; packet_goals. Qed.

#[export] Instance PlayerAbilities_lawful_112 : Lawful PlayerAbilities.
Proof. apply lawful_intro; cbn [PlayerAbilities enc dec wf]; unfold PlayerAbilities_encode, PlayerAbilities_decode, need; packet_goals. Qed.

#[export] Instance SetCarriedItem_lawful_112 : Lawful SetCarriedItem.
Proof. apply lawful_intro; cbn [SetCarriedItem enc dec wf]; unfold SetCarriedItem_encode, SetCarriedItem_decode, need; packet_goals. Qed.

#[export] Instance BossBar_lawful_112 : Lawful BossBar.
Proof.
  apply lawful_intro; cbn [BossBar enc dec wf]; unfold BossBar_decode, BossBarAction_decode, need; [|solve_total|solve_consuming].
  intros [uuid action] [Hu Ha]. cbn [bb_uuid bb_action] in Hu, Ha. unfold uuid_ok in Hu. unfold BossBar_encode. cbn [bb_uuid bb_action].
  destruct action; cbn [action_ok action_id] in *; repeat match goal with H : _ /\ _ |- _ => destruct H end;
    (eexists; split; [solve_writes; cbn; width|]); codec_unfold;
    (apply reads_ensure; [rewrite length_app; lia|]);
    (eapply reads_bind; [apply reads_take; rewrite Hu; reflexivity|]);
    (eapply reads_bind; [apply (lawful_reads (c := VarInt)); cbn; width|]); cbv beta iota;
    (eapply reads_bind_last; [repeat reads_step; field_side|apply reads_ret]).
Qed.

#[export] Instance Sound_lawful_112 : Lawful Sound.
Proof. apply lawful_intro; cbn [Sound enc dec wf]; unfold Sound_encode, Sound_decode, need; packet_goals. Qed.

(** ** Properties *)

(** The packets of 1.9 to 1.12 keep the codec contract, each of the decoders
    total on arbitrary bytes.  Two of them write a layout they do not read: the
    keep-alive for protocols below 340 is a VarInt, which the decoder refuses
    whatever its value, and the join packet for protocols below 108 has a one-byte
    dimension, while for every other protocol it is written as it is read. *)
Theorem v1_12_packets_lawful :
  (Lawful Handshake /\ Lawful StatusRequest /\ Lawful StatusResponse /\ Lawful PingRequest /\ Lawful PongResponse) /\
  (Lawful LoginStart /\ Lawful LoginDisconnect /\ LawfulTail EncryptionRequest /\ Lawful EncryptionResponse /\
   Lawful Property /\ Lawful SetCompression /\ LawfulTail LoginPluginRequest /\ LawfulTail LoginPluginResponse /\
   Lawful LoginAcknowledged /\ Lawful AckFinishConfiguration /\
   forall uuid_text uuid_parse, Lawful (LoginSuccess uuid_text uuid_parse)) /\
  (Lawful JoinGame /\ Lawful Respawn /\ Lawful PlayerPosition /\ Lawful KeepAlive /\ Lawful ChatMessage /\
   Lawful Disconnect /\ Lawful PlayerAbilities /\ Lawful SetCarriedItem /\ Lawful BossBar /\ Lawful Sound) /\
  (forall id proto dst, proto < 340 ->
     exists bs, KeepAlive_encode (mkKeepAlive id proto) dst = (Ok tt, dst ++ bs) /\
       exists e, (KeepAlive_decode bs).1 = Err e) /\
  (forall p dst, 108 <= jg_for_proto p -> JoinGame_encode p dst = JoinGame_encode
     (mkJoinGame (jg_entity_id p) (jg_gamemode p) (jg_dimension p) (jg_difficulty p) (jg_max_players p)
        (jg_level_type p) (jg_reduced_debug_info p) u32_MAX) dst).
Proof.
  split_and!; try exact _.
  - intros id proto dst Hp. unfold KeepAlive_encode. cbn [ka_for_proto ka_keep_alive_id].
    rewrite (proj2 (Z.ltb_lt _ _) Hp). exists (wire VarInt (wraps 32 id)). split.
    + apply (lawful_writes (c := VarInt)). by apply wraps_fits.
    + eexists. unfold KeepAlive_decode, need, bind, ensure.
      pose proof (length_wire_VarInt (wraps 32 id)) as Hl. unfold remaining.
      rewrite (proj2 (Z.ltb_lt _ _)) by lia. done.
  - intros p dst Hp. unfold JoinGame_encode. cbn [jg_for_proto jg_entity_id jg_gamemode jg_dimension jg_difficulty jg_max_players jg_level_type jg_reduced_debug_info].
    by rewrite (proj2 (Z.ltb_ge _ _) Hp).
Qed.
