(* ===== verification/Packets116.v ===== *)
(** * Typed packets of 1.13 to 1.16

    crates/protocol/src/versions/v1_16_x, which 1.13 to 1.15 re-export: packets
    with UUIDs as two 64-bit halves, counted lists allocated before they are read,
    and a join packet that carries NBT documents delimited by [nbt::skip]. *)
From Stdlib Require Import ZArith Lia Strings.Byte.
From stdpp Require Import base list numbers strings.
From S2P Require Import Prelude Buf Wire VarInt Codec Nbt Packets.
Local Open Scope Z_scope.

Definition need16 (n : Z) : Dec unit := ensure n (Io KUnexpectedEof "Not enough bytes").

(** [decode_string] and [decode_byte_array] of this family name no field. *)
Definition String16 : codec bytes := Text "string".
Definition Bytes16 : codec bytes := Data "byte array".

(** ** Handshake and status *)

Record ServerboundHandshake := mkHandshake {
  hs_protocol_version : Z; hs_server_address : bytes; hs_server_port : Z; hs_next_state : Z }.

Definition Handshake_encode (p : ServerboundHandshake) : Enc :=
  enc VarInt (hs_protocol_version p);; enc (Text "ServerboundHandshake server_address") (hs_server_address p);;
  put_u16 (hs_server_port p);; enc VarInt (hs_next_state p).

Definition Handshake_decode : Dec ServerboundHandshake :=
  let! protocol_version := dec VarInt in
  let! server_address := dec (Text "ServerboundHandshake server_address") in
  ensure 2 (Io KUnexpectedEof "Missing bytes for ServerboundHandshake server_port");;
  let! server_port := get_u16 in
  let! next_state := dec VarInt in
  ret (mkHandshake protocol_version server_address server_port next_state).

Definition Handshake : codec ServerboundHandshake := Codec Handshake_encode Handshake_decode (fun p =>
  fits_s 32 (hs_protocol_version p) /\ text_ok (hs_server_address p) /\ fits_u 16 (hs_server_port p) /\
  fits_s 32 (hs_next_state p)).

Definition StatusRequest_encode (_ : unit) : Enc := ret tt.
Definition StatusRequest_decode : Dec unit := ret tt.
Definition StatusRequest : codec unit := Codec StatusRequest_encode StatusRequest_decode (fun _ => True).

Definition StatusResponse_encode (v : bytes) : Enc := enc (Text "ClientboundStatusResponse json_response") v.
Definition StatusResponse_decode : Dec bytes := dec (Text "ClientboundStatusResponse json_response").
Definition StatusResponse : codec bytes := Codec StatusResponse_encode StatusResponse_decode (fun v => text_ok v).

Definition PingRequest_encode (v : Z) : Enc := put_i64 v.
Definition PingRequest_decode : Dec Z :=
  ensure 8 (Io KUnexpectedEof "Missing bytes for ServerboundPingRequest payload");;
  get_i64.
Definition PingRequest : codec Z := Codec PingRequest_encode PingRequest_decode (fun v => fits_s 64 v).

Definition PongResponse_encode (v : Z) : Enc := put_i64 v.
Definition PongResponse_decode : Dec Z :=
  ensure 8 (Io KUnexpectedEof "Missing bytes for ClientboundPongResponse payload");;
  get_i64.
Definition PongResponse : codec Z := Codec PongResponse_encode PongResponse_decode (fun v => fits_s 64 v).

(** ** Login *)

Definition LoginStart_encode (v : bytes) : Enc := enc String16 v.
Definition LoginStart_decode : Dec bytes := dec String16.
Definition LoginStart : codec bytes := Codec LoginStart_encode LoginStart_decode (fun v => wf String16 v).

Definition LoginDisconnect_encode (v : bytes) : Enc := enc String16 v.
Definition LoginDisconnect_decode : Dec bytes := dec String16.
Definition LoginDisconnect : codec bytes := Codec LoginDisconnect_encode LoginDisconnect_decode (fun v => wf String16 v).

Record ClientboundEncryptionRequest := mkEncryptionRequest {
  er_server_id : bytes; er_public_key : bytes; er_verify_token : bytes }.

Definition EncryptionRequest_encode (p : ClientboundEncryptionRequest) : Enc :=
  enc String16 (er_server_id p);; enc Bytes16 (er_public_key p);; enc Bytes16 (er_verify_token p).

Definition EncryptionRequest_decode : Dec ClientboundEncryptionRequest :=
  let! server_id := dec String16 in
  let! public_key := dec Bytes16 in
  let! verify_token := dec Bytes16 in
  ret (mkEncryptionRequest server_id public_key verify_token).

Definition EncryptionRequest : codec ClientboundEncryptionRequest := Codec EncryptionRequest_encode EncryptionRequest_decode (fun p =>
  wf String16 (er_server_id p) /\ wf Bytes16 (er_public_key p) /\ wf Bytes16 (er_verify_token p)).

Definition SetCompression_encode (v : Z) : Enc := enc VarInt v.
Definition SetCompression_decode : Dec Z := dec VarInt.
Definition SetCompression : codec Z := Codec SetCompression_encode SetCompression_decode (fun v => fits_s 32 v).

Record ServerboundEncryptionResponse := mkEncryptionResponse { ers_shared_secret : bytes; ers_verify_token : bytes }.

Definition EncryptionResponse_encode (p : ServerboundEncryptionResponse) : Enc :=
  enc Bytes16 (ers_shared_secret p);; enc Bytes16 (ers_verify_token p).

Definition EncryptionResponse_decode : Dec ServerboundEncryptionResponse :=
  let! shared_secret := dec Bytes16 in
  let! verify_token := dec Bytes16 in
  ret (mkEncryptionResponse shared_secret verify_token).

Definition EncryptionResponse : codec ServerboundEncryptionResponse := Codec EncryptionResponse_encode EncryptionResponse_decode (fun p =>
  wf Bytes16 (ers_shared_secret p) /\ wf Bytes16 (ers_verify_token p)).

Record ProfileProperty := mkProperty { lp_name : bytes; lp_value : bytes; lp_signature : option bytes }.

Definition ProfileProperty_encode (p : ProfileProperty) : Enc :=
  enc String16 (lp_name p);;
  enc String16 (lp_value p);;
  match lp_signature p with
  | Some sig => put_u8 1;; enc String16 sig
  | None => put_u8 0
  end.

Definition ProfileProperty_decode : Dec ProfileProperty :=
  let! name := dec String16 in
  let! value := dec String16 in
  ensure 1 (Io KUnexpectedEof "Missing boolean flag for ProfileProperty signature");;
  let! flag := get_u8 in
  if flag_of flag then let! sig := dec String16 in ret (mkProperty name value (Some sig))
  else ret (mkProperty name value None).

Definition Property : codec ProfileProperty := Codec ProfileProperty_encode ProfileProperty_decode (fun p =>
  text_ok (lp_name p) /\ text_ok (lp_value p) /\ option_ok text_ok (lp_signature p)).

Record ClientboundLoginSuccess := mkLoginSuccess { lsu_uuid : bytes; lsu_username : bytes; lsu_properties : list ProfileProperty }.

Definition LoginSuccess_encode (p : ClientboundLoginSuccess) : Enc :=
  put_uuid_pair (lsu_uuid p);; enc String16 (lsu_username p);; encode_counted ProfileProperty_encode (lsu_properties p).

(** A property takes 72 bytes: two strings and an optional one. *)
Definition LoginSuccess_decode : Dec ClientboundLoginSuccess :=
  ensure 16 (Io KUnexpectedEof "Missing bytes for ClientboundLoginSuccess uuid");;
  let! uuid := get_uuid_pair in
  let! username := dec String16 in
  let! properties := decode_counted 72 ProfileProperty_decode in
  ret (mkLoginSuccess uuid username properties).

Definition LoginSuccess : codec ClientboundLoginSuccess := Codec LoginSuccess_encode LoginSuccess_decode (fun p =>
  uuid_ok (lsu_uuid p) /\ text_ok (lsu_username p) /\ Forall (wf Property) (lsu_properties p) /\
  Z.of_nat (length (lsu_properties p)) < 2 ^ 31).

(** ** Play *)

Record ClientboundPlayerAbilities := mkPlayerAbilities { pa_flags : Z; pa_flying_speed : Z; pa_walking_speed : Z }.

Definition PlayerAbilities_encode (p : ClientboundPlayerAbilities) : Enc :=
  put_u8 (pa_flags p);; put_f32 (pa_flying_speed p);; put_f32 (pa_walking_speed p).

Definition PlayerAbilities_decode : Dec ClientboundPlayerAbilities :=
  need16 (1 + 4 + 4);;
  let! flags := get_u8 in
  let! flying_speed := get_f32 in
  let! walking_speed := get_f32 in
  ret (mkPlayerAbilities flags flying_speed walking_speed).

Definition PlayerAbilities : codec ClientboundPlayerAbilities := Codec PlayerAbilities_encode PlayerAbilities_decode (fun p =>
  fits_u 8 (pa_flags p) /\ fits_u 32 (pa_flying_speed p) /\ fits_u 32 (pa_walking_speed p)).

Definition HeldItemChange_encode (v : Z) : Enc := put_i8 v.
Definition HeldItemChange_decode : Dec Z :=
  need16 1;;
  get_i8.
Definition HeldItemChange : codec Z := Codec HeldItemChange_encode HeldItemChange_decode (fun v => fits_s 8 v).

Record ClientboundNamedSoundEffect := mkNamedSoundEffect {
  nse_sound_name : bytes; nse_sound_category : Z; nse_effect_position_x : Z; nse_effect_position_y : Z;
  nse_effect_position_z : Z; nse_volume : Z; nse_pitch : Z }.

Definition NamedSoundEffect_encode (p : ClientboundNamedSoundEffect) : Enc :=
  enc String16 (nse_sound_name p);; enc VarInt (nse_sound_category p);; put_i32 (nse_effect_position_x p);;
  put_i32 (nse_effect_position_y p);; put_i32 (nse_effect_position_z p);; put_f32 (nse_volume p);;
  put_f32 (nse_pitch p).

Definition NamedSoundEffect_decode : Dec ClientboundNamedSoundEffect :=
  let! sound_name := dec String16 in
  let! sound_category := dec VarInt in
  ensure 20 (Io KUnexpectedEof "Missing bytes for ClientboundNamedSoundEffect position/volume/pitch");;
  let! effect_position_x := get_i32 in
  let! effect_position_y := get_i32 in
  let! effect_position_z := get_i32 in
  let! volume := get_f32 in
  let! pitch := get_f32 in
  ret (mkNamedSoundEffect sound_name sound_category effect_position_x effect_position_y effect_position_z volume
  pitch).

Definition NamedSoundEffect : codec ClientboundNamedSoundEffect := Codec NamedSoundEffect_encode NamedSoundEffect_decode (fun p =>
  wf String16 (nse_sound_name p) /\ fits_s 32 (nse_sound_category p) /\ fits_s 32 (nse_effect_position_x p) /\
  fits_s 32 (nse_effect_position_y p) /\ fits_s 32 (nse_effect_position_z p) /\ fits_u 32 (nse_volume p) /\
  fits_u 32 (nse_pitch p)).

Inductive DimensionRef := Identifier (s : bytes) | NbtRef (b : bytes).

Definition DimensionRef_encode (d : DimensionRef) : Enc :=
  match d with Identifier s => enc String16 s | NbtRef b => put_slice b end.

Record ClientboundJoinGame := mkJoinGame {
  jg_entity_id : Z; jg_is_hardcore : bool; jg_game_mode : Z; jg_previous_game_mode : Z; jg_world_names : list bytes;
  jg_dimension_codec : bytes; jg_dimension : DimensionRef; jg_world_name : bytes; jg_hashed_seed : Z; jg_max_players : Z;
  jg_view_distance : Z; jg_reduced_debug_info : bool; jg_enable_respawn_screen : bool; jg_is_debug : bool;
  jg_is_flat : bool }.

Definition JoinGame_encode (p : ClientboundJoinGame) : Enc :=
  put_i32 (jg_entity_id p);; put_u8 (flag_byte (jg_is_hardcore p));; put_u8 (jg_game_mode p);;
  put_i8 (jg_previous_game_mode p);; encode_counted (enc String16) (jg_world_names p);;
  put_slice (jg_dimension_codec p);; DimensionRef_encode (jg_dimension p);; enc String16 (jg_world_name p);;
  put_i64 (jg_hashed_seed p);; enc VarInt (jg_max_players p);; enc VarInt (jg_view_distance p);;
  put_u8 (flag_byte (jg_reduced_debug_info p));; put_u8 (flag_byte (jg_enable_respawn_screen p));;
  put_u8 (flag_byte (jg_is_debug p));; put_u8 (flag_byte (jg_is_flat p)).

(** [let start = src.clone(); let len = skip(src).unwrap_or(0);] and the slice of
    that length, empty when [skip] failed. *)
Definition skipped_document : Dec bytes := fun start =>
  match nbt_skip start with
  | (Ok len, src) => (Ok (if 0 <? len then take (Z.to_nat len) start else []), src)
  | (Err _, src) => (Ok [], src)
  | (Panic, src) => (Panic, src)
  | (NoFuel, src) => (NoFuel, src)
  end.

Definition dimension_decode (ver : Z) : Dec DimensionRef :=
  if (ver <=? 750) || (759 <=? ver) then let! s := dec String16 in ret (Identifier s)
  else let! b := skipped_document in ret (NbtRef b).

Definition JoinGame_decode_ver (ver : Z) : Dec ClientboundJoinGame :=
  ensure 4 (Io KUnexpectedEof "Missing bytes for ClientboundJoinGame entity_id");;
  let! entity_id := get_i32 in
  ensure 3 (Io KUnexpectedEof "Missing bytes for ClientboundJoinGame flags");;
  let! is_hardcore := get_u8 in
  let! game_mode := get_u8 in
  let! previous_game_mode := get_i8 in
  let! world_names := decode_counted 24 (dec String16) in
  let! dimension_codec := skipped_document in
  let! dimension := dimension_decode ver in
  let! world_name := dec String16 in
  ensure 8 (Io KUnexpectedEof "Missing bytes for ClientboundJoinGame hashed_seed");;
  let! hashed_seed := get_i64 in
  let! max_players := dec VarInt in
  let! view_distance := dec VarInt in
  ensure 4 (Io KUnexpectedEof "Missing bytes for ClientboundJoinGame boolean flags");;
  let! reduced_debug_info := get_u8 in
  let! enable_respawn_screen := get_u8 in
  let! is_debug := get_u8 in
  let! is_flat := get_u8 in
  ret (mkJoinGame entity_id (flag_of is_hardcore) game_mode previous_game_mode world_names dimension_codec dimension
    world_name hashed_seed max_players view_distance (flag_of reduced_debug_info) (flag_of enable_respawn_screen)
    (flag_of is_debug) (flag_of is_flat)).

Definition dimension_ok (ver : Z) (d : DimensionRef) : Prop :=
  match d with
  | Identifier s => (ver <= 750 \/ 759 <= ver) /\ text_ok s
  | NbtRef b => (750 < ver < 759) /\ skippable b
  end.

Definition JoinGame (ver : Z) : codec ClientboundJoinGame := Codec JoinGame_encode (JoinGame_decode_ver ver) (fun p =>
  fits_s 32 (jg_entity_id p) /\ fits_u 8 (jg_game_mode p) /\ fits_s 8 (jg_previous_game_mode p) /\
  (Forall text_ok (jg_world_names p) /\ Z.of_nat (length (jg_world_names p)) < 2 ^ 31) /\ skippable (jg_dimension_codec p) /\
  dimension_ok ver (jg_dimension p) /\ text_ok (jg_world_name p) /\ fits_s 64 (jg_hashed_seed p) /\
  fits_s 32 (jg_max_players p) /\ fits_s 32 (jg_view_distance p)).

Record ClientboundRespawn := mkRespawn {
  rs_dimension : bytes; rs_world_name : bytes; rs_hashed_seed : Z; rs_game_mode : Z; rs_previous_game_mode : Z;
  rs_is_debug : bool; rs_is_flat : bool; rs_copy_metadata : bool }.

Definition Respawn_encode (p : ClientboundRespawn) : Enc :=
  enc String16 (rs_dimension p);; enc String16 (rs_world_name p);; put_i64 (rs_hashed_seed p);;
  put_u8 (rs_game_mode p);; put_i8 (rs_previous_game_mode p);; put_u8 (flag_byte (rs_is_debug p));;
  put_u8 (flag_byte (rs_is_flat p));; put_u8 (flag_byte (rs_copy_metadata p)).

Definition Respawn_decode : Dec ClientboundRespawn :=
  let! dimension := dec String16 in
  let! world_name := dec String16 in
  ensure 8 (Io KUnexpectedEof "Missing bytes for ClientboundRespawn hashed_seed");;
  let! hashed_seed := get_i64 in
  ensure 3 (Io KUnexpectedEof "Missing bytes for ClientboundRespawn game modes");;
  let! game_mode := get_u8 in
  let! previous_game_mode := get_i8 in
  ensure 3 (Io KUnexpectedEof "Missing bytes for ClientboundRespawn flags");;
  let! is_debug := get_u8 in
  let! is_flat := get_u8 in
  let! copy_metadata := get_u8 in
  ret (mkRespawn dimension world_name hashed_seed game_mode previous_game_mode (flag_of is_debug) (flag_of is_flat)
  (flag_of copy_metadata)).

Definition Respawn : codec ClientboundRespawn := Codec Respawn_encode Respawn_decode (fun p =>
  wf String16 (rs_dimension p) /\ wf String16 (rs_world_name p) /\ fits_s 64 (rs_hashed_seed p) /\
  fits_u 8 (rs_game_mode p) /\ fits_s 8 (rs_previous_game_mode p)).

Record ClientboundPlayerPosition := mkPlayerPosition {
  pp_x : Z; pp_y : Z; pp_z : Z; pp_yaw : Z; pp_pitch : Z; pp_flags : Z; pp_teleport_id : Z }.

Definition PlayerPosition_encode (p : ClientboundPlayerPosition) : Enc :=
  put_f64 (pp_x p);; put_f64 (pp_y p);; put_f64 (pp_z p);; put_f32 (pp_yaw p);; put_f32 (pp_pitch p);;
  put_u8 (pp_flags p);; enc VarInt (pp_teleport_id p).

Definition PlayerPosition_decode : Dec ClientboundPlayerPosition :=
  ensure (8*3+4*2+1) (Io KUnexpectedEof "Missing bytes for ClientboundPlayerPosition");;
  let! x := get_f64 in
  let! y := get_f64 in
  let! z := get_f64 in
  let! yaw := get_f32 in
  let! pitch := get_f32 in
  let! flags := get_u8 in
  let! teleport_id := dec VarInt in
  ret (mkPlayerPosition x y z yaw pitch flags teleport_id).

Definition PlayerPosition : codec ClientboundPlayerPosition := Codec PlayerPosition_encode PlayerPosition_decode (fun p =>
  fits_u 64 (pp_x p) /\ fits_u 64 (pp_y p) /\ fits_u 64 (pp_z p) /\ fits_u 32 (pp_yaw p) /\ fits_u 32 (pp_pitch p) /\
  fits_u 8 (pp_flags p) /\ fits_s 32 (pp_teleport_id p)).

Definition KeepAlive_encode (v : Z) : Enc := put_i64 v.
Definition KeepAlive_decode : Dec Z :=
  ensure 8 (Io KUnexpectedEof "Missing bytes for ClientboundKeepAlive");;
  get_i64.
Definition KeepAlive : codec Z := Codec KeepAlive_encode KeepAlive_decode (fun v => fits_s 64 v).

Record ClientboundChatMessage := mkChatMessage { cm_json_message : bytes; cm_position : Z; cm_sender : bytes }.

Definition ChatMessage_encode (p : ClientboundChatMessage) : Enc :=
  enc String16 (cm_json_message p);; put_u8 (cm_position p);; put_uuid_pair (cm_sender p).

Definition ChatMessage_decode : Dec ClientboundChatMessage :=
  let! json_message := dec String16 in
  ensure (1 + 16) (Io KUnexpectedEof "Missing bytes for ClientboundChatMessage position/sender");;
  let! position := get_u8 in
  let! hi := get_i64 in
  let! lo := get_i64 in
  ret (mkChatMessage json_message position (uuid_of_pair (wrapu 64 hi) (wrapu 64 lo))).

Definition ChatMessage : codec ClientboundChatMessage := Codec ChatMessage_encode ChatMessage_decode (fun p =>
  text_ok (cm_json_message p) /\ fits_u 8 (cm_position p) /\ uuid_ok (cm_sender p)).

Definition Disconnect_encode (v : bytes) : Enc := enc String16 v.
Definition Disconnect_decode : Dec bytes := dec String16.
Definition Disconnect : codec bytes := Codec Disconnect_encode Disconnect_decode (fun v => wf String16 v).

(** ** The contracts *)

#[export] Instance Handshake_lawful_116 : Lawful Handshake.
Proof. apply lawful_intro; cbn [Handshake enc dec wf]; unfold Handshake_encode, Handshake_decode, need16, String16, Bytes16; packet_goals. Qed.

#[export] Instance StatusRequest_lawful_116 : Lawful StatusRequest.
Proof. apply lawful_unit. Qed.

#[export] Instance StatusResponse_lawful_116 : Lawful StatusResponse.
Proof. apply lawful_intro; cbn [StatusResponse enc dec wf]; unfold StatusResponse_encode, StatusResponse_decode, need16, String16, Bytes16; packet_goals. Qed.

#[export] Instance PingRequest_lawful_116 : Lawful PingRequest.
Proof. apply lawful_intro; cbn [PingRequest enc dec wf]; unfold PingRequest_encode, PingRequest_decode, need16, String16, Bytes16; packet_goals. Qed.

#[export] Instance PongResponse_lawful_116 : Lawful PongResponse.
Proof. apply lawful_intro; cbn [PongResponse enc dec wf]; unfold PongResponse_encode, PongResponse_decode, need16, String16, Bytes16; packet_goals. Qed.

#[export] Instance LoginStart_lawful_116 : Lawful LoginStart.
Proof. apply lawful_intro; cbn [LoginStart enc dec wf]; unfold LoginStart_encode, LoginStart_decode, need16, String16, Bytes16; packet_goals. Qed.

#[export] Instance LoginDisconnect_lawful_116 : Lawful LoginDisconnect.
Proof. apply lawful_intro; cbn [LoginDisconnect enc dec wf]; unfold LoginDisconnect_encode, LoginDisconnect_decode, need16, String16, Bytes16; packet_goals. Qed.

#[export] Instance EncryptionRequest_lawful_116 : Lawful EncryptionRequest.
Proof. apply lawful_intro; cbn [EncryptionRequest enc dec wf]; unfold EncryptionRequest_encode, EncryptionRequest_decode, need16, String16, Bytes16; packet_goals. Qed.

#[export] Instance SetCompression_lawful_116 : Lawful SetCompression.
Proof. apply lawful_intro; cbn [SetCompression enc dec wf]; unfold SetCompression_encode, SetCompression_decode, need16, String16, Bytes16; packet_goals. Qed.

#[export] Instance EncryptionResponse_lawful_116 : Lawful EncryptionResponse.
Proof. apply lawful_intro; cbn [EncryptionResponse enc dec wf]; unfold EncryptionResponse_encode, EncryptionResponse_decode, need16, String16, Bytes16; packet_goals. Qed.

#[export] Instance Property_lawful_116 : Lawful Property.
Proof.
  apply lawful_intro; cbn [Property enc dec wf]; unfold ProfileProperty_decode, String16; [|solve_total|solve_consuming].
  intros [name value [sig|]] (Hn & Hv & Hs); cbn in Hn, Hv, Hs; unfold ProfileProperty_encode, String16; cbn [lp_name lp_value lp_signature].
  all: eexists; (split; [solve_writes|]); codec_unfold;
    (eapply reads_bind; [by apply lawful_reads|]); (eapply reads_bind; [by apply lawful_reads|]);
    (apply reads_ensure; [length_side|]).
  - eapply reads_bind; [apply reads_uint; width|]. cbn [flag_of Z.eqb negb]. solve_reads.
  - eapply reads_bind_last; [apply reads_uint; width|]. apply reads_ret.
Qed.

#[export] Instance LoginSuccess_roundtrips_116 : RoundTrips LoginSuccess.
Proof.
  intros [uuid name props] (Hu & Hn & Hp & Hl). cbn [lsu_uuid lsu_username lsu_properties] in *.
  destruct (counted_roundtrip Property 72 props ltac:(lia) Hp Hl) as [Hw Hr].
  cbn [LoginSuccess enc dec]. unfold LoginSuccess_encode, LoginSuccess_decode, String16, put_uuid_pair. cbn [lsu_uuid lsu_username lsu_properties].
  eexists. split.
  - apply writes_bind; [solve_writes|]. apply writes_bind; [by apply lawful_writes|]. exact Hw.
  - apply reads_ensure; [length_side|]. eapply reads_bind; [by apply reads_uuid_pair|].
    eapply reads_bind; [by apply lawful_reads|]. eapply reads_bind_last; [exact Hr|]. apply reads_ret.
Qed.

#[export] Instance PlayerAbilities_lawful_116 : Lawful PlayerAbilities.
Proof. apply lawful_intro; cbn [PlayerAbilities enc dec wf]; unfold PlayerAbilities_encode, PlayerAbilities_decode, need16, String16, Bytes16; packet_goals. Qed.

#[export] Instance HeldItemChange_lawful_116 : Lawful HeldItemChange.
Proof. apply lawful_intro; cbn [HeldItemChange enc dec wf]; unfold HeldItemChange_encode, HeldItemChange_decode, need16, String16, Bytes16; packet_goals. Qed.

#[export] Instance NamedSoundEffect_lawful_116 : Lawful NamedSoundEffect.
Proof. apply lawful_intro; cbn [NamedSoundEffect enc dec wf]; unfold NamedSoundEffect_encode, NamedSoundEffect_decode, need16, String16, Bytes16; packet_goals. Qed.

Lemma reads_skipped doc : skippable doc -> reads skipped_document doc doc.
Proof.
  intros Hs rest. unfold skipped_document. rewrite (Hs rest).
  destruct (Z.ltb_spec 0 (Z.of_nat (length doc))) as [|Hl].
  - by rewrite Nat2Z.id, take_app_length.
  - destruct doc; [|cbn in Hl; lia]. done.
Qed.

Lemma dimension_roundtrip ver d : dimension_ok ver d ->
  exists bs, writes (DimensionRef_encode d) bs /\ reads (dimension_decode ver) bs d.
Proof.
  unfold dimension_decode. destruct d as [s|b]; intros [Hv Hd]; cbn [DimensionRef_encode].
  - exists (wire String16 s). split; [by apply (lawful_writes (c := Text "string"))|].
    replace ((ver <=? 750) || (759 <=? ver)) with true by lia.
    eapply reads_bind_last; [by apply (lawful_reads (c := Text "string"))|apply reads_ret].
  - exists b. split; [apply writes_put|]. replace ((ver <=? 750) || (759 <=? ver)) with false by lia.
    eapply reads_bind_last; [by apply reads_skipped|apply reads_ret].
Qed.

#[export] Instance JoinGame_roundtrips_116 ver : RoundTrips (JoinGame ver).
Proof.
  intros [e h g pg names doc dim world seed mp vd r er db fl] (He & Hg & Hpg & [Hns Hnl] & Hdoc & Hdim & Hw & Hs & Hm & Hvd).
  cbn [jg_entity_id jg_is_hardcore jg_game_mode jg_previous_game_mode jg_world_names jg_dimension_codec jg_dimension
    jg_world_name jg_hashed_seed jg_max_players jg_view_distance] in *.
  destruct (counted_roundtrip (Text "string") 24 names ltac:(lia) Hns Hnl) as [Hnw Hnr].
  destruct (dimension_roundtrip ver dim Hdim) as (dbs & Hdw & Hdr).
  cbn [JoinGame enc dec]. unfold JoinGame_encode, JoinGame_decode_ver, String16.
  cbn [jg_entity_id jg_is_hardcore jg_game_mode jg_previous_game_mode jg_world_names jg_dimension_codec jg_dimension
    jg_world_name jg_hashed_seed jg_max_players jg_view_distance jg_reduced_debug_info jg_enable_respawn_screen jg_is_debug jg_is_flat].
  pose proof (reads_skipped doc Hdoc) as Hsk.
  eexists. split.
  - codec_unfold. repeat first [exact Hnw | exact Hdw | writes_step]; done.
  - codec_unfold. repeat first
      [ apply reads_ensure; [length_side|]
      | eapply reads_bind; [exact Hnr|] | eapply reads_bind; [exact Hsk|] | eapply reads_bind; [exact Hdr|]
      | reads_step ]; field_side.
Qed.

#[export] Instance Respawn_lawful_116 : Lawful Respawn.
Proof. apply lawful_intro; cbn [Respawn enc dec wf]; unfold Respawn_encode, Respawn_decode, need16, String16, Bytes16; packet_goals. Qed.

#[export] Instance PlayerPosition_lawful_116 : Lawful PlayerPosition.
Proof. apply lawful_intro; cbn [PlayerPosition enc dec wf]; unfold PlayerPosition_encode, PlayerPosition_decode, need16, String16, Bytes16; packet_goals. Qed.

#[export] Instance KeepAlive_lawful_116 : Lawful KeepAlive.
Proof. apply lawful_intro; cbn [KeepAlive enc dec wf]; unfold KeepAlive_encode, KeepAlive_decode, need16, String16, Bytes16; packet_goals. Qed.

#[export] Instance ChatMessage_lawful_116 : Lawful ChatMessage.
Proof.
  apply lawful_intro; cbn [ChatMessage enc dec wf]; unfold ChatMessage_decode, String16; [|solve_total|solve_consuming].
  intros [m p s] (Hm & Hp & Hs). cbn [cm_json_message cm_position cm_sender] in *. unfold ChatMessage_encode, put_uuid_pair, String16.
  cbn [cm_json_message cm_position cm_sender]. eexists. split; [solve_writes|].
  codec_unfold. eapply reads_bind; [by apply lawful_reads|]. apply reads_ensure; [length_side|].
  eapply reads_bind; [by apply reads_uint|].
  eapply reads_bind; [apply reads_int; [nat_side|by apply wraps_fits]|].
  eapply reads_bind_last; [apply reads_int; [nat_side|by apply wraps_fits]|]. cbv beta.
  rewrite uuid_pair_split by done. apply reads_ret.
Qed.

#[export] Instance Disconnect_lawful_116 : Lawful Disconnect.
Proof. apply lawful_intro; cbn [Disconnect enc dec wf]; unfold Disconnect_encode, Disconnect_decode, need16, String16, Bytes16; packet_goals. Qed.

(** ** Properties *)

(** A join packet of 1.16 with the given dimension codec. *)
Definition join_packet (doc : bytes) : ClientboundJoinGame :=
  mkJoinGame 1 false 0 0 [] doc (Identifier []) [] 0 20 8 false true false false.

(** The packets of 1.13 to 1.16 round-trip, and on arbitrary bytes every
    decoder returns, with two exceptions.  The login success reads a count of
    properties and allocates for it first: every packet whose count is negative
    panics.  The join packet round-trips when [nbt::skip] steps over its documents,
    but with a document as ordinary as one holding an empty string the decoder
    refuses its own encoding, and panics when the packet ends with it. *)
Theorem v1_16_packets_lawful :
  (Lawful Handshake /\ Lawful StatusRequest /\ Lawful StatusResponse /\ Lawful PingRequest /\ Lawful PongResponse) /\
  (Lawful LoginStart /\ Lawful LoginDisconnect /\ Lawful EncryptionRequest /\ Lawful EncryptionResponse /\
   Lawful Property /\ Lawful SetCompression /\ RoundTrips LoginSuccess) /\
  ((forall ver, RoundTrips (JoinGame ver)) /\ Lawful Respawn /\ Lawful PlayerPosition /\ Lawful KeepAlive /\
   Lawful ChatMessage /\ Lawful Disconnect /\ Lawful PlayerAbilities /\ Lawful HeldItemChange /\
   Lawful NamedSoundEffect) /\
  (forall uuid name count rest, uuid_ok uuid -> text_ok name -> - 2 ^ 31 <= count < 0 ->
     (LoginSuccess_decode (wire (UuidPair "") uuid ++ wire String16 name ++ wire VarInt count ++ rest)).1 = Panic) /\
  (skippable plain_document /\ wf (JoinGame 736) (join_packet plain_document) /\
   (let full := (JoinGame_encode (join_packet text_document) []).2 in
    (exists e, (JoinGame_decode_ver 736 full).1 = Err e) /\
    (JoinGame_decode_ver 736 (take (8 + length text_document) full)).1 = Panic)).
Proof.
  split_and!; try exact _.
  - intros uuid name count rest Hu Hn Hc.
    assert (Hw : wire (UuidPair "") uuid = be_bytes 8 (wraps 64 (uuid_hi uuid)) ++ be_bytes 8 (wraps 64 (uuid_lo uuid))).
    { apply writes_wire_eq. cbn [UuidPair enc]. unfold put_uuid_pair. solve_writes. }
    rewrite Hw. unfold LoginSuccess_decode, bind, ensure, remaining.
    rewrite (proj2 (Z.ltb_ge _ _)) by (rewrite !length_app, !length_be_bytes; lia).
    rewrite (reads_uuid_pair uuid Hu). cbv beta iota.
    rewrite (lawful_reads (c := String16) (Lawful := Text_lawful "string") name Hn). cbv beta iota.
    pose proof (counted_negative_panics 72 ProfileProperty_decode count rest ltac:(lia) Hc) as Hp.
    destruct (decode_counted 72 ProfileProperty_decode (wire VarInt count ++ rest)) as [[] ?]; done.
  - exact plain_skippable.
  - cbn [JoinGame wf join_packet jg_entity_id jg_game_mode jg_previous_game_mode jg_world_names jg_dimension_codec jg_dimension
      jg_world_name jg_hashed_seed jg_max_players jg_view_distance].
    assert (text_ok []) by (split; [done|cbn; lia]).
    split_and!; first [exact plain_skippable | assumption | apply Forall_nil_2 | unfold fits_s, fits_u; lia | cbn; lia | by split; [lia|] | left; lia].
  - cbv zeta. split; [eexists; vm_compute; reflexivity|vm_compute; reflexivity].
Qed.
