(* ===== verification/Packets119.v ===== *)
(** * Typed packets of 1.17 to 1.19

    crates/protocol/src/versions/v1_19_x, which 1.17 and 1.18 re-export.  From here
    on the packets are written with the codecs of [Codec], whose readers all check
    what they read. *)
From Stdlib Require Import ZArith Lia Strings.Byte.
From stdpp Require Import base list numbers strings.
From S2P Require Import Prelude Buf Wire VarInt Codec Nbt Packets.
Local Open Scope Z_scope.

(** ** Handshake and status *)

Record ServerboundHandshake := mkHandshake {
  hs_protocol_version : Z; hs_server_address : bytes; hs_server_port : Z; hs_next_state : Z }.

Definition Handshake_encode (p : ServerboundHandshake) : Enc :=
  enc VarInt (hs_protocol_version p);; enc Str (hs_server_address p);; enc U16 (hs_server_port p);;
  enc VarInt (hs_next_state p).

Definition Handshake_decode : Dec ServerboundHandshake :=
  let! protocol_version := dec VarInt in
  let! server_address := dec Str in
  let! server_port := dec U16 in
  let! next_state := dec VarInt in
  ret (mkHandshake protocol_version server_address server_port next_state).

Definition Handshake : codec ServerboundHandshake := Codec Handshake_encode Handshake_decode (fun p =>
  fits_s 32 (hs_protocol_version p) /\ wf Str (hs_server_address p) /\ wf U16 (hs_server_port p) /\
  fits_s 32 (hs_next_state p)).

Definition StatusRequest_encode (_ : unit) : Enc := ret tt.
Definition StatusRequest_decode : Dec unit := ret tt.
Definition StatusRequest : codec unit := Codec StatusRequest_encode StatusRequest_decode (fun _ => True).

Definition StatusResponse_encode (v : bytes) : Enc := enc Str v.
Definition StatusResponse_decode : Dec bytes := dec Str.
Definition StatusResponse : codec bytes := Codec StatusResponse_encode StatusResponse_decode (fun v => wf Str v).

Definition PingRequest_encode (v : Z) : Enc := enc I64 v.
Definition PingRequest_decode : Dec Z := dec I64.
Definition PingRequest : codec Z := Codec PingRequest_encode PingRequest_decode (fun v => wf I64 v).

Definition PongResponse_encode (v : Z) : Enc := enc I64 v.
Definition PongResponse_decode : Dec Z := dec I64.
Definition PongResponse : codec Z := Codec PongResponse_encode PongResponse_decode (fun v => wf I64 v).

(** ** Login *)

Record ServerboundLoginStart := mkLoginStart { ls_username : bytes; ls_uuid : option bytes }.

Definition LoginStart_encode (p : ServerboundLoginStart) : Enc :=
  enc Str (ls_username p);; enc (Opt Uuid) (ls_uuid p).

Definition LoginStart_decode : Dec ServerboundLoginStart :=
  let! username := dec Str in
  let! uuid := dec (Opt Uuid) in
  ret (mkLoginStart username uuid).

Definition LoginStart : codec ServerboundLoginStart := Codec LoginStart_encode LoginStart_decode (fun p =>
  wf Str (ls_username p) /\ wf (Opt Uuid) (ls_uuid p)).

Definition LoginDisconnect_encode (v : bytes) : Enc := enc Str v.
Definition LoginDisconnect_decode : Dec bytes := dec Str.
Definition LoginDisconnect : codec bytes := Codec LoginDisconnect_encode LoginDisconnect_decode (fun v => wf Str v).

Record ClientboundEncryptionRequest := mkEncryptionRequest {
  er_server_id : bytes; er_public_key : bytes; er_verify_token : bytes }.

Definition EncryptionRequest_encode (p : ClientboundEncryptionRequest) : Enc :=
  enc Str (er_server_id p);; enc ByteArray (er_public_key p);; enc ByteArray (er_verify_token p).

Definition EncryptionRequest_decode : Dec ClientboundEncryptionRequest :=
  let! server_id := dec Str in
  let! public_key := dec ByteArray in
  let! verify_token := dec ByteArray in
  ret (mkEncryptionRequest server_id public_key verify_token).

Definition EncryptionRequest : codec ClientboundEncryptionRequest := Codec EncryptionRequest_encode EncryptionRequest_decode (fun p =>
  wf Str (er_server_id p) /\ wf ByteArray (er_public_key p) /\ wf ByteArray (er_verify_token p)).

Record ProfileProperty := mkProfileProperty { lp_name : bytes; lp_value : bytes; lp_signature : option bytes }.

Definition ProfileProperty_encode (p : ProfileProperty) : Enc :=
  enc Str (lp_name p);; enc Str (lp_value p);; enc (Opt Str) (lp_signature p).

Definition ProfileProperty_decode : Dec ProfileProperty :=
  let! name := dec Str in
  let! value := dec Str in
  let! signature := dec (Opt Str) in
  ret (mkProfileProperty name value signature).

Definition Property : codec ProfileProperty := Codec ProfileProperty_encode ProfileProperty_decode (fun p =>
  wf Str (lp_name p) /\ wf Str (lp_value p) /\ wf (Opt Str) (lp_signature p)).

Record ClientboundLoginSuccess := mkLoginSuccess {
  lsu_uuid : bytes; lsu_username : bytes; lsu_properties : list ProfileProperty }.

Definition LoginSuccess_encode (p : ClientboundLoginSuccess) : Enc :=
  enc UuidHalves (lsu_uuid p);; enc Str (lsu_username p);; enc (Vec Property) (lsu_properties p).

Definition LoginSuccess_decode : Dec ClientboundLoginSuccess :=
  let! uuid := dec UuidHalves in
  let! username := dec Str in
  let! properties := dec (Vec Property) in
  ret (mkLoginSuccess uuid username properties).

Definition LoginSuccess : codec ClientboundLoginSuccess := Codec LoginSuccess_encode LoginSuccess_decode (fun p =>
  wf UuidHalves (lsu_uuid p) /\ wf Str (lsu_username p) /\ wf (Vec Property) (lsu_properties p)).

Definition SetCompression_encode (v : Z) : Enc := enc VarInt v.
Definition SetCompression_decode : Dec Z := dec VarInt.
Definition SetCompression : codec Z := Codec SetCompression_encode SetCompression_decode (fun v => fits_s 32 v).

Record ClientboundLoginPluginRequest := mkLoginPluginRequest {
  lpr_message_id : Z; lpr_channel : bytes; lpr_data : bytes }.

Definition LoginPluginRequest_encode (p : ClientboundLoginPluginRequest) : Enc :=
  enc VarInt (lpr_message_id p);; enc Str (lpr_channel p);; put_slice (lpr_data p).

Definition LoginPluginRequest_decode : Dec ClientboundLoginPluginRequest :=
  let! message_id := dec VarInt in
  let! channel := dec Str in
  let! data := take_rest in
  ret (mkLoginPluginRequest message_id channel data).

Definition LoginPluginRequest : codec ClientboundLoginPluginRequest := Codec LoginPluginRequest_encode LoginPluginRequest_decode (fun p =>
  fits_s 32 (lpr_message_id p) /\ wf Str (lpr_channel p)).

Record ServerboundEncryptionResponse := mkEncryptionResponse { ers_shared_secret : bytes; ers_verify_token : bytes }.

Definition EncryptionResponse_encode (p : ServerboundEncryptionResponse) : Enc :=
  enc ByteArray (ers_shared_secret p);; enc ByteArray (ers_verify_token p).

Definition EncryptionResponse_decode : Dec ServerboundEncryptionResponse :=
  let! shared_secret := dec ByteArray in
  let! verify_token := dec ByteArray in
  ret (mkEncryptionResponse shared_secret verify_token).

Definition EncryptionResponse : codec ServerboundEncryptionResponse := Codec EncryptionResponse_encode EncryptionResponse_decode (fun p =>
  wf ByteArray (ers_shared_secret p) /\ wf ByteArray (ers_verify_token p)).

Record ServerboundLoginPluginResponse := mkLoginPluginResponse { lps_message_id : Z; lps_data : option bytes }.

Definition LoginPluginResponse_encode (p : ServerboundLoginPluginResponse) : Enc :=
  enc VarInt (lps_message_id p);;
  match lps_data p with Some payload => enc Bool true;; put_slice payload | None => enc Bool false end.

Definition LoginPluginResponse_decode : Dec ServerboundLoginPluginResponse :=
  let! message_id := dec VarInt in
  let! understood := dec Bool in
  if understood then let! data := take_rest in ret (mkLoginPluginResponse message_id (Some data))
  else ret (mkLoginPluginResponse message_id None).

Definition LoginPluginResponse : codec ServerboundLoginPluginResponse :=
  Codec LoginPluginResponse_encode LoginPluginResponse_decode (fun p => fits_s 32 (lps_message_id p)).

(** ** Play *)

Definition Disconnect_encode (v : bytes) : Enc := enc Str v.
Definition Disconnect_decode : Dec bytes := dec Str.
Definition Disconnect : codec bytes := Codec Disconnect_encode Disconnect_decode (fun v => wf Str v).

Definition KeepAlive_encode (v : Z) : Enc := enc I64 v.
Definition KeepAlive_decode : Dec Z := dec I64.
Definition KeepAlive : codec Z := Codec KeepAlive_encode KeepAlive_decode (fun v => wf I64 v).

(** [Option<(String, i64)>] as the join and respawn packets write it. *)
Definition DeathLocation_encode (d : option (bytes * Z)) : Enc :=
  match d with Some (dim, pos) => enc Bool true;; enc Str dim;; enc I64 pos | None => enc Bool false end.
Definition DeathLocation_decode : Dec (option (bytes * Z)) :=
  let! has_death := dec Bool in
  if has_death then let! dim := dec Str in let! pos := dec I64 in ret (Some (dim, pos)) else ret None.
Definition DeathLocation : codec (option (bytes * Z)) := Codec DeathLocation_encode DeathLocation_decode
  (fun d => match d with Some (dim, pos) => string_ok dim /\ fits_s 64 pos | None => True end).

Record ClientboundLogin := mkLogin {
  lg_entity_id : Z; lg_is_hardcore : bool; lg_game_mode : Z; lg_previous_game_mode : Z; lg_dimensions : list bytes;
  lg_registry_codec : bytes; lg_dimension_type : bytes; lg_dimension_name : bytes; lg_hashed_seed : Z; lg_max_players : Z;
  lg_chunk_radius : Z; lg_simulation_distance : Z; lg_reduced_debug_info : bool; lg_enable_respawn_screen : bool;
  lg_is_debug : bool; lg_is_flat : bool; lg_death_location : option (bytes * Z) }.

Definition Login_encode (p : ClientboundLogin) : Enc :=
  enc I32 (lg_entity_id p);; enc Bool (lg_is_hardcore p);; enc U8 (lg_game_mode p);; enc I8 (lg_previous_game_mode p);;
  enc (Vec Str) (lg_dimensions p);; put_slice (lg_registry_codec p);; enc Str (lg_dimension_type p);;
  enc Str (lg_dimension_name p);; enc I64 (lg_hashed_seed p);; enc VarInt (lg_max_players p);;
  enc VarInt (lg_chunk_radius p);; enc VarInt (lg_simulation_distance p);; enc Bool (lg_reduced_debug_info p);;
  enc Bool (lg_enable_respawn_screen p);; enc Bool (lg_is_debug p);; enc Bool (lg_is_flat p);;
  enc DeathLocation (lg_death_location p).

(** [skip] on a clone of the input, and a copy of the length it reports. *)
Definition registry_codec_decode : Dec bytes := fun src =>
  match nbt_skip src with
  | (Ok len, _) => copy_to_bytes len src
  | (Err e, _) => (Err e, src)
  | (Panic, _) => (Panic, src)
  | (NoFuel, _) => (NoFuel, src)
  end.

Definition Login_decode : Dec ClientboundLogin :=
  let! entity_id := dec I32 in
  let! is_hardcore := dec Bool in
  let! game_mode := dec U8 in
  let! previous_game_mode := dec I8 in
  let! dimensions := dec (Vec Str) in
  let! registry_codec := registry_codec_decode in
  let! dimension_type := dec Str in
  let! dimension_name := dec Str in
  let! hashed_seed := dec I64 in
  let! max_players := dec VarInt in
  let! chunk_radius := dec VarInt in
  let! simulation_distance := dec VarInt in
  let! reduced_debug_info := dec Bool in
  let! enable_respawn_screen := dec Bool in
  let! is_debug := dec Bool in
  let! is_flat := dec Bool in
  let! death_location := dec DeathLocation in
  ret (mkLogin entity_id is_hardcore game_mode previous_game_mode dimensions registry_codec dimension_type dimension_name
    hashed_seed max_players chunk_radius simulation_distance reduced_debug_info enable_respawn_screen is_debug is_flat
    death_location).

Definition Login : codec ClientboundLogin := Codec Login_encode Login_decode (fun p =>
  fits_s 32 (lg_entity_id p) /\ fits_u 8 (lg_game_mode p) /\ fits_s 8 (lg_previous_game_mode p) /\
  wf (Vec Str) (lg_dimensions p) /\ skippable (lg_registry_codec p) /\ string_ok (lg_dimension_type p) /\
  string_ok (lg_dimension_name p) /\ fits_s 64 (lg_hashed_seed p) /\ fits_s 32 (lg_max_players p) /\
  fits_s 32 (lg_chunk_radius p) /\ fits_s 32 (lg_simulation_distance p) /\ wf DeathLocation (lg_death_location p)).

Record ClientboundPlayerPosition := mkPlayerPosition {
  pp_x : Z; pp_y : Z; pp_z : Z; pp_yaw : Z; pp_pitch : Z; pp_flags : Z; pp_teleport_id : Z }.

Definition PlayerPosition_encode (p : ClientboundPlayerPosition) : Enc :=
  enc F64 (pp_x p);; enc F64 (pp_y p);; enc F64 (pp_z p);; enc F32 (pp_yaw p);; enc F32 (pp_pitch p);;
  enc U8 (pp_flags p);; enc VarInt (pp_teleport_id p).

Definition PlayerPosition_decode : Dec ClientboundPlayerPosition :=
  let! x := dec F64 in
  let! y := dec F64 in
  let! z := dec F64 in
  let! yaw := dec F32 in
  let! pitch := dec F32 in
  let! flags := dec U8 in
  let! teleport_id := dec VarInt in
  ret (mkPlayerPosition x y z yaw pitch flags teleport_id).

Definition PlayerPosition : codec ClientboundPlayerPosition := Codec PlayerPosition_encode PlayerPosition_decode (fun p =>
  wf F64 (pp_x p) /\ wf F64 (pp_y p) /\ wf F64 (pp_z p) /\ wf F32 (pp_yaw p) /\ wf F32 (pp_pitch p) /\
  wf U8 (pp_flags p) /\ fits_s 32 (pp_teleport_id p)).

Record ClientboundRespawn := mkRespawn {
  rs_dimension_type : bytes; rs_dimension_name : bytes; rs_hashed_seed : Z; rs_game_mode : Z;
  rs_previous_game_mode : Z; rs_is_debug : bool; rs_is_flat : bool; rs_data_kept : Z;
  rs_death_location : option (bytes * Z) }.

Definition Respawn_encode (p : ClientboundRespawn) : Enc :=
  enc Str (rs_dimension_type p);; enc Str (rs_dimension_name p);; enc I64 (rs_hashed_seed p);;
  enc U8 (rs_game_mode p);; enc I8 (rs_previous_game_mode p);; enc Bool (rs_is_debug p);; enc Bool (rs_is_flat p);;
  enc U8 (rs_data_kept p);; enc DeathLocation (rs_death_location p).

Definition Respawn_decode : Dec ClientboundRespawn :=
  let! dimension_type := dec Str in
  let! dimension_name := dec Str in
  let! hashed_seed := dec I64 in
  let! game_mode := dec U8 in
  let! previous_game_mode := dec I8 in
  let! is_debug := dec Bool in
  let! is_flat := dec Bool in
  let! data_kept := dec U8 in
  let! death_location := dec DeathLocation in
  ret (mkRespawn dimension_type dimension_name hashed_seed game_mode previous_game_mode is_debug is_flat data_kept
  death_location).

Definition Respawn : codec ClientboundRespawn := Codec Respawn_encode Respawn_decode (fun p =>
  wf Str (rs_dimension_type p) /\ wf Str (rs_dimension_name p) /\ wf I64 (rs_hashed_seed p) /\
  wf U8 (rs_game_mode p) /\ wf I8 (rs_previous_game_mode p) /\ wf U8 (rs_data_kept p) /\
  wf DeathLocation (rs_death_location p)).

Record ClientboundPlayerAbilities := mkPlayerAbilities { pa_flags : Z; pa_flying_speed : Z; pa_walking_speed : Z }.

Definition PlayerAbilities_encode (p : ClientboundPlayerAbilities) : Enc :=
  enc U8 (pa_flags p);; enc F32 (pa_flying_speed p);; enc F32 (pa_walking_speed p).

Definition PlayerAbilities_decode : Dec ClientboundPlayerAbilities :=
  let! flags := dec U8 in
  let! flying_speed := dec F32 in
  let! walking_speed := dec F32 in
  ret (mkPlayerAbilities flags flying_speed walking_speed).

Definition PlayerAbilities : codec ClientboundPlayerAbilities := Codec PlayerAbilities_encode PlayerAbilities_decode (fun p =>
  wf U8 (pa_flags p) /\ wf F32 (pa_flying_speed p) /\ wf F32 (pa_walking_speed p)).

Record ClientboundSystemChat := mkSystemChat { sc_content : bytes; sc_overlay : bool }.

Definition SystemChat_encode (p : ClientboundSystemChat) : Enc :=
  enc Str (sc_content p);; enc Bool (sc_overlay p).

Definition SystemChat_decode : Dec ClientboundSystemChat :=
  let! content := dec Str in
  let! overlay := dec Bool in
  ret (mkSystemChat content overlay).

Definition SystemChat : codec ClientboundSystemChat := Codec SystemChat_encode SystemChat_decode (fun p =>
  wf Str (sc_content p)).

Definition SetCarriedItem_encode (v : Z) : Enc := enc I8 v.
Definition SetCarriedItem_decode : Dec Z := dec I8.
Definition SetCarriedItem : codec Z := Codec SetCarriedItem_encode SetCarriedItem_decode (fun v => wf I8 v).

(** ** The contracts *)

#[export] Instance Handshake_lawful_119 : Lawful Handshake.
Proof. apply lawful_intro; cbn [Handshake enc dec wf]; unfold Handshake_encode, Handshake_decode; packet_goals. Qed.

#[export] Instance StatusRequest_lawful_119 : Lawful StatusRequest.
Proof. apply lawful_unit. Qed.

#[export] Instance StatusResponse_lawful_119 : Lawful StatusResponse.
Proof. apply lawful_intro; cbn [StatusResponse enc dec wf]; unfold StatusResponse_encode, StatusResponse_decode; packet_goals. Qed.

#[export] Instance PingRequest_lawful_119 : Lawful PingRequest.
Proof. apply lawful_intro; cbn [PingRequest enc dec wf]; unfold PingRequest_encode, PingRequest_decode; packet_goals. Qed.

#[export] Instance PongResponse_lawful_119 : Lawful PongResponse.
Proof. apply lawful_intro; cbn [PongResponse enc dec wf]; unfold PongResponse_encode, PongResponse_decode; packet_goals. Qed.

#[export] Instance LoginStart_lawful_119 : Lawful LoginStart.
Proof. apply lawful_intro; cbn [LoginStart enc dec wf]; unfold LoginStart_encode, LoginStart_decode; packet_goals. Qed.

#[export] Instance LoginDisconnect_lawful_119 : Lawful LoginDisconnect.
Proof. apply lawful_intro; cbn [LoginDisconnect enc dec wf]; unfold LoginDisconnect_encode, LoginDisconnect_decode; packet_goals. Qed.

#[export] Instance EncryptionRequest_lawful_119 : Lawful EncryptionRequest.
Proof. apply lawful_intro; cbn [EncryptionRequest enc dec wf]; unfold EncryptionRequest_encode, EncryptionRequest_decode; packet_goals. Qed.

#[export] Instance Property_lawful_119 : Lawful Property.
Proof. apply lawful_intro; cbn [Property enc dec wf]; unfold ProfileProperty_encode, ProfileProperty_decode; packet_goals. Qed.

#[export] Instance LoginSuccess_lawful_119 : Lawful LoginSuccess.
Proof. apply lawful_intro; cbn [LoginSuccess enc dec wf]; unfold LoginSuccess_encode, LoginSuccess_decode; packet_goals. Qed.

#[export] Instance SetCompression_lawful_119 : Lawful SetCompression.
Proof. apply lawful_intro; cbn [SetCompression enc dec wf]; unfold SetCompression_encode, SetCompression_decode; packet_goals. Qed.

#[export] Instance LoginPluginRequest_lawful_119 : LawfulTail LoginPluginRequest.
Proof. apply lawful_tail_intro; cbn [LoginPluginRequest enc dec wf]; unfold LoginPluginRequest_encode, LoginPluginRequest_decode; packet_tail_goals. Qed.

#[export] Instance EncryptionResponse_lawful_119 : Lawful EncryptionResponse.
Proof. apply lawful_intro; cbn [EncryptionResponse enc dec wf]; unfold EncryptionResponse_encode, EncryptionResponse_decode; packet_goals. Qed.

#[export] Instance LoginPluginResponse_lawful_119 : LawfulTail LoginPluginResponse.
Proof.
  apply lawful_tail_intro; cbn [LoginPluginResponse enc dec wf]; unfold LoginPluginResponse_decode; [|solve_total|solve_consuming].
  intros [i [d|]] Hi; cbn in Hi; unfold LoginPluginResponse_encode; cbn [lps_message_id lps_data];
    (eexists; split; [solve_writes|]);
    (eapply reads_all_bind; [by apply lawful_reads|]).
  - eapply reads_all_bind; [by apply (lawful_reads (c := Bool))|]. done.
  - eapply reads_all_bind_last; [by apply (lawful_reads (c := Bool))|]. done.
Qed.

#[export] Instance Disconnect_lawful_119 : Lawful Disconnect.
Proof. apply lawful_intro; cbn [Disconnect enc dec wf]; unfold Disconnect_encode, Disconnect_decode; packet_goals. Qed.

#[export] Instance KeepAlive_lawful_119 : Lawful KeepAlive.
Proof. apply lawful_intro; cbn [KeepAlive enc dec wf]; unfold KeepAlive_encode, KeepAlive_decode; packet_goals. Qed.

#[export] Instance DeathLocation_lawful_119 : Lawful DeathLocation.
Proof.
  apply lawful_intro; cbn [DeathLocation enc dec wf]; unfold DeathLocation_decode; [|solve_total|solve_consuming].
  intros [[dim pos]|] H; cbn [DeathLocation_encode]; (eexists; split; [solve_writes; tauto|]).
  - destruct H. eapply reads_bind; [by apply (lawful_reads (c := Bool))|]. cbv iota. solve_reads.
  - eapply reads_bind_last; [by apply (lawful_reads (c := Bool))|]. apply reads_ret.
Qed.

Lemma reads_registry_codec doc : skippable doc -> reads registry_codec_decode doc doc.
Proof.
  intros Hs rest. unfold registry_codec_decode. rewrite (Hs rest). cbv iota. unfold copy_to_bytes, take_bytes.
  rewrite Nat2Z.id. destruct (Nat.ltb_spec (length (doc ++ rest)) (length doc)) as [Hl|_]; [rewrite length_app in Hl; lia|].
  by rewrite take_app_length, drop_app_length.
Qed.

#[export] Instance Login_roundtrips_119 : RoundTrips Login.
Proof.
  intros p Hp. destruct p. cbn in Hp. destruct Hp as (? & ? & ? & ? & Hdoc & ?). repeat match goal with H : _ /\ _ |- _ => destruct H end.
  pose proof (reads_registry_codec _ Hdoc) as Hr. cbn [Login enc dec]. unfold Login_encode, Login_decode. eexists. split.
  - solve_writes.
  - repeat first [eapply reads_bind; [exact Hr|] | reads_step]; try done.
Qed.

#[export] Instance PlayerPosition_lawful_119 : Lawful PlayerPosition.
Proof. apply lawful_intro; cbn [PlayerPosition enc dec wf]; unfold PlayerPosition_encode, PlayerPosition_decode; packet_goals. Qed.

#[export] Instance Respawn_lawful_119 : Lawful Respawn.
Proof. apply lawful_intro; cbn [Respawn enc dec wf]; unfold Respawn_encode, Respawn_decode; packet_goals. Qed.

#[export] Instance PlayerAbilities_lawful_119 : Lawful PlayerAbilities.
Proof. apply lawful_intro; cbn [PlayerAbilities enc dec wf]; unfold PlayerAbilities_encode, PlayerAbilities_decode; packet_goals. Qed.

#[export] Instance SystemChat_lawful_119 : Lawful SystemChat.
Proof. apply lawful_intro; cbn [SystemChat enc dec wf]; unfold SystemChat_encode, SystemChat_decode; packet_goals. Qed.

#[export] Instance SetCarriedItem_lawful_119 : Lawful SetCarriedItem.
Proof. apply lawful_intro; cbn [SetCarriedItem enc dec wf]; unfold SetCarriedItem_encode, SetCarriedItem_decode; packet_goals. Qed.

(** ** Properties *)

(** The packets of 1.17 to 1.19 keep the codec contract, and on arbitrary bytes
    every decoder returns; the join packet round-trips when [nbt::skip] steps over
    its registry document, and panics on a packet that ends with a document [skip]
    panics on. *)
Theorem v1_19_packets_lawful :
  (Lawful Handshake /\ Lawful StatusRequest /\ Lawful StatusResponse /\ Lawful PingRequest /\ Lawful PongResponse) /\
  (Lawful LoginStart /\ Lawful LoginDisconnect /\ Lawful EncryptionRequest /\ Lawful EncryptionResponse /\
   Lawful Property /\ Lawful LoginSuccess /\ Lawful SetCompression /\ LawfulTail LoginPluginRequest /\
   LawfulTail LoginPluginResponse) /\
  (RoundTrips Login /\ Lawful Respawn /\ Lawful PlayerPosition /\ Lawful KeepAlive /\ Lawful Disconnect /\
   Lawful PlayerAbilities /\ Lawful SystemChat /\ Lawful SetCarriedItem) /\
  (forall e h g pg, fits_s 32 e -> fits_u 8 g -> fits_s 8 pg ->
     (Login_decode (wire I32 e ++ wire Bool h ++ wire U8 g ++ wire I8 pg ++ wire (Vec Str) [] ++ text_document)).1 = Panic).
Proof.
  split_and!; try exact _. intros e h g pg He Hg Hpg. unfold Login_decode.
  assert (Hv : wf (Vec Str) []) by (split; [by constructor|cbn; unfold MAX_VEC_LEN; lia]).
  unfold bind at 1. rewrite (lawful_reads (c := I32) e He). cbv beta iota.
  unfold bind at 1. rewrite (lawful_reads (c := Bool) h I). cbv beta iota.
  unfold bind at 1. rewrite (lawful_reads (c := U8) g Hg). cbv beta iota.
  unfold bind at 1. rewrite (lawful_reads (c := I8) pg Hpg). cbv beta iota.
  unfold bind at 1. rewrite (lawful_reads (c := Vec Str) [] Hv). cbv beta iota.
  unfold bind at 1. assert (Hp : (registry_codec_decode text_document).1 = Panic) by (vm_compute; reflexivity).
  destruct (registry_codec_decode text_document) as [[] ?]; done.
Qed.
