(* ===== verification/Packets120.v ===== *)
(** * Typed packets of 1.20

    crates/protocol/src/versions/v1_20_x: login packets with optional trailing
    flags, the configuration phase, and a join packet whose dimension reference
    depends on the protocol. *)
From Stdlib Require Import ZArith Lia Strings.Byte.
From stdpp Require Import base list numbers strings.
From S2P Require Import Prelude Buf Wire VarInt Codec Nbt Packets.
Local Open Scope Z_scope.

(** ** Handshake and status *)

Record ServerboundHandshake := mkHandshake {
  hs_protocol_version : Z; hs_server_address : bytes; hs_server_port : Z; hs_next_state : Z }.

Definition Handshake_encode (p : ServerboundHandshake) : Enc :=
  enc VarInt (hs_protocol_version p);; enc Str (hs_server_address p);; enc U16 (hs_server_port p);;
  enc VarInt (hs_next_state p).

Definition Handshake_decode : Dec ServerboundHandshake :=
  let! protocol_version := dec VarInt in
  let! server_address := dec Str in
  let! server_port := dec U16 in
  let! next_state := dec VarInt in
  ret (mkHandshake protocol_version server_address server_port next_state).

Definition Handshake : codec ServerboundHandshake := Codec Handshake_encode Handshake_decode (fun p =>
  fits_s 32 (hs_protocol_version p) /\ wf Str (hs_server_address p) /\ wf U16 (hs_server_port p) /\
  fits_s 32 (hs_next_state p)).

Definition StatusRequest_encode (_ : unit) : Enc := ret tt.
Definition StatusRequest_decode : Dec unit := ret tt.
Definition StatusRequest : codec unit := Codec StatusRequest_encode StatusRequest_decode (fun _ => True).

Definition StatusResponse_encode (v : bytes) : Enc := enc Str v.
Definition StatusResponse_decode : Dec bytes := dec Str.
Definition StatusResponse : codec bytes := Codec StatusResponse_encode StatusResponse_decode (fun v => wf Str v).

Definition PingRequest_encode (v : Z) : Enc := enc I64 v.
Definition PingRequest_decode : Dec Z := dec I64.
Definition PingRequest : codec Z := Codec PingRequest_encode PingRequest_decode (fun v => wf I64 v).

Definition PongResponse_encode (v : Z) : Enc := enc I64 v.
Definition PongResponse_decode : Dec Z := dec I64.
Definition PongResponse : codec Z := Codec PongResponse_encode PongResponse_decode (fun v => wf I64 v).

(** ** Login *)

Record ServerboundLoginStart := mkLoginStart { ls_username : bytes; ls_uuid : bytes }.

Definition LoginStart_encode (p : ServerboundLoginStart) : Enc :=
  enc Str (ls_username p);; enc Uuid (ls_uuid p).

Definition LoginStart_decode : Dec ServerboundLoginStart :=
  let! username := dec Str in
  let! uuid := dec Uuid in
  ret (mkLoginStart username uuid).

Definition LoginStart : codec ServerboundLoginStart := Codec LoginStart_encode LoginStart_decode (fun p =>
  wf Str (ls_username p) /\ wf Uuid (ls_uuid p)).

Record ServerboundEncryptionResponse := mkEncryptionResponse { ers_shared_secret : bytes; ers_verify_token : bytes }.

Definition EncryptionResponse_encode (p : ServerboundEncryptionResponse) : Enc :=
  enc ByteArray (ers_shared_secret p);; enc ByteArray (ers_verify_token p).

Definition EncryptionResponse_decode : Dec ServerboundEncryptionResponse :=
  let! shared_secret := dec ByteArray in
  let! verify_token := dec ByteArray in
  ret (mkEncryptionResponse shared_secret verify_token).

Definition EncryptionResponse : codec ServerboundEncryptionResponse := Codec EncryptionResponse_encode EncryptionResponse_decode (fun p =>
  wf ByteArray (ers_shared_secret p) /\ wf ByteArray (ers_verify_token p)).

Record ServerboundLoginPluginResponse := mkLoginPluginResponse { lps_message_id : Z; lps_data : option bytes }.

Definition LoginPluginResponse_encode (p : ServerboundLoginPluginResponse) : Enc :=
  enc VarInt (lps_message_id p);;
  match lps_data p with Some payload => enc Bool true;; put_slice payload | None => enc Bool false end.

Definition LoginPluginResponse_decode : Dec ServerboundLoginPluginResponse :=
  let! message_id := dec VarInt in
  let! understood := dec Bool in
  if understood then let! data := take_rest in ret (mkLoginPluginResponse message_id (Some data))
  else ret (mkLoginPluginResponse message_id None).

Definition LoginPluginResponse : codec ServerboundLoginPluginResponse :=
  Codec LoginPluginResponse_encode LoginPluginResponse_decode (fun p => fits_s 32 (lps_message_id p)).

Definition LoginAcknowledged_encode (_ : unit) : Enc := ret tt.
Definition LoginAcknowledged_decode : Dec unit := ret tt.
Definition LoginAcknowledged : codec unit := Codec LoginAcknowledged_encode LoginAcknowledged_decode (fun _ => True).

Definition LoginDisconnect_encode (v : bytes) : Enc := enc Str v.
Definition LoginDisconnect_decode : Dec bytes := dec Str.
Definition LoginDisconnect : codec bytes := Codec LoginDisconnect_encode LoginDisconnect_decode (fun v => wf Str v).

Record ClientboundEncryptionRequest := mkEncryptionRequest {
  er_server_id : bytes; er_public_key : bytes; er_verify_token : bytes; er_should_authenticate : option bool }.

Definition EncryptionRequest_encode (p : ClientboundEncryptionRequest) : Enc :=
  enc Str (er_server_id p);; enc ByteArray (er_public_key p);; enc ByteArray (er_verify_token p);;
  encode_trailing_flag (er_should_authenticate p).

Definition EncryptionRequest_decode : Dec ClientboundEncryptionRequest :=
  let! server_id := dec Str in
  let! public_key := dec ByteArray in
  let! verify_token := dec ByteArray in
  let! should_authenticate := decode_trailing_flag in
  ret (mkEncryptionRequest server_id public_key verify_token should_authenticate).

Definition EncryptionRequest : codec ClientboundEncryptionRequest :=
  Codec EncryptionRequest_encode EncryptionRequest_decode (fun p =>
    string_ok (er_server_id p) /\ byte_array_ok (er_public_key p) /\ byte_array_ok (er_verify_token p)).

Record ProfileProperty := mkProfileProperty { lp_name : bytes; lp_value : bytes; lp_signature : option bytes }.

Definition ProfileProperty_encode (p : ProfileProperty) : Enc :=
  enc Str (lp_name p);; enc Str (lp_value p);; enc (Opt Str) (lp_signature p).

Definition ProfileProperty_decode : Dec ProfileProperty :=
  let! name := dec Str in
  let! value := dec Str in
  let! signature := dec (Opt Str) in
  ret (mkProfileProperty name value signature).

Definition Property : codec ProfileProperty := Codec ProfileProperty_encode ProfileProperty_decode (fun p =>
  wf Str (lp_name p) /\ wf Str (lp_value p) /\ wf (Opt Str) (lp_signature p)).

Record ClientboundLoginSuccess := mkLoginSuccess {
  lsu_uuid : bytes; lsu_username : bytes; lsu_properties : list ProfileProperty; lsu_strict_error_handling : option bool }.

Definition LoginSuccess_encode (p : ClientboundLoginSuccess) : Enc :=
  enc UuidHalves (lsu_uuid p);; enc Str (lsu_username p);; enc (Vec Property) (lsu_properties p);;
  encode_trailing_flag (lsu_strict_error_handling p).

Definition LoginSuccess_decode : Dec ClientboundLoginSuccess :=
  let! uuid := dec UuidHalves in
  let! username := dec Str in
  let! properties := dec (Vec Property) in
  let! strict_error_handling := decode_trailing_flag in
  ret (mkLoginSuccess uuid username properties strict_error_handling).

Definition LoginSuccess : codec ClientboundLoginSuccess := Codec LoginSuccess_encode LoginSuccess_decode (fun p =>
  uuid_ok (lsu_uuid p) /\ string_ok (lsu_username p) /\ wf (Vec Property) (lsu_properties p)).

Definition SetCompression_encode (v : Z) : Enc := enc VarInt v.
Definition SetCompression_decode : Dec Z := dec VarInt.
Definition SetCompression : codec Z := Codec SetCompression_encode SetCompression_decode (fun v => fits_s 32 v).

Record ClientboundLoginPluginRequest := mkLoginPluginRequest {
  lpr_message_id : Z; lpr_channel : bytes; lpr_data : bytes }.

Definition LoginPluginRequest_encode (p : ClientboundLoginPluginRequest) : Enc :=
  enc VarInt (lpr_message_id p);; enc Str (lpr_channel p);; put_slice (lpr_data p).

Definition LoginPluginRequest_decode : Dec ClientboundLoginPluginRequest :=
  let! message_id := dec VarInt in
  let! channel := dec Str in
  let! data := take_rest in
  ret (mkLoginPluginRequest message_id channel data).

Definition LoginPluginRequest : codec ClientboundLoginPluginRequest := Codec LoginPluginRequest_encode LoginPluginRequest_decode (fun p =>
  fits_s 32 (lpr_message_id p) /\ wf Str (lpr_channel p)).

(** ** Configuration *)

Definition AcknowledgeFinishConfiguration_encode (_ : unit) : Enc := ret tt.
Definition AcknowledgeFinishConfiguration_decode : Dec unit := ret tt.
Definition AckFinishConfiguration : codec unit := Codec AcknowledgeFinishConfiguration_encode AcknowledgeFinishConfiguration_decode (fun _ => True).

Definition FinishConfiguration_encode (_ : unit) : Enc := ret tt.
Definition FinishConfiguration_decode : Dec unit := ret tt.
Definition FinishConfiguration : codec unit := Codec FinishConfiguration_encode FinishConfiguration_decode (fun _ => True).

(** ** Play *)

Inductive BossBarAction :=
  | Add (title : bytes) (health color division flags : Z)
  | Remove
  | UpdateHealth (health : Z)
  | UpdateTitle (title : bytes)
  | UpdateStyle (color division : Z)
  | UpdateFlags (flags : Z).

Record ClientboundBossBar := mkBossBar { bb_uuid : bytes; bb_action : BossBarAction }.

Definition BossBar_encode (p : ClientboundBossBar) : Enc :=
  enc Uuid (bb_uuid p);;
  match bb_action p with
  | Add title health color division flags =>
      enc VarInt 0;; enc Str title;; enc F32 health;; enc VarInt color;; enc VarInt division;; enc U8 flags
  | Remove => enc VarInt 1
  | UpdateHealth health => enc VarInt 2;; enc F32 health
  | UpdateTitle title => enc VarInt 3;; enc Str title
  | UpdateStyle color division => enc VarInt 4;; enc VarInt color;; enc VarInt division
  | UpdateFlags flags => enc VarInt 5;; enc U8 flags
  end.

Definition BossBarAction_decode (id : Z) : Dec BossBarAction :=
  match id with
  | 0 =>
      let! title := dec Str in
      let! health := dec F32 in
      let! color := dec VarInt in
      let! division := dec VarInt in
      let! flags := dec U8 in
      ret (Add title health color division flags)
  | 1 => ret Remove
  | 2 => let! health := dec F32 in ret (UpdateHealth health)
  | 3 => let! title := dec Str in ret (UpdateTitle title)
  | 4 => let! color := dec VarInt in let! division := dec VarInt in ret (UpdateStyle color division)
  | 5 => let! flags := dec U8 in ret (UpdateFlags flags)
  | _ => fail UnexpectedEof
  end.

Definition BossBar_decode : Dec ClientboundBossBar :=
  let! uuid := dec Uuid in
  let! id := dec VarInt in
  let! action := BossBarAction_decode id in
  ret (mkBossBar uuid action).

Definition action_ok (a : BossBarAction) : Prop :=
  match a with
  | Add title health color division flags =>
      string_ok title /\ fits_u 32 health /\ fits_s 32 color /\ fits_s 32 division /\ fits_u 8 flags
  | Remove => True
  | UpdateHealth health => fits_u 32 health
  | UpdateTitle title => string_ok title
  | UpdateStyle color division => fits_s 32 color /\ fits_s 32 division
  | UpdateFlags flags => fits_u 8 flags
  end.

Definition BossBar : codec ClientboundBossBar := Codec BossBar_encode BossBar_decode (fun p =>
  uuid_ok (bb_uuid p) /\ action_ok (bb_action p)).

Definition Disconnect_encode (v : bytes) : Enc := enc Str v.
Definition Disconnect_decode : Dec bytes := dec Str.
Definition Disconnect : codec bytes := Codec Disconnect_encode Disconnect_decode (fun v => wf Str v).

Definition KeepAlive_encode (v : Z) : Enc := enc I64 v.
Definition KeepAlive_decode : Dec Z := dec I64.
Definition KeepAlive : codec Z := Codec KeepAlive_encode KeepAlive_decode (fun v => wf I64 v).

(** [Option<(String, i64)>] as the join and respawn packets write it. *)
Definition DeathLocation_encode (d : option (bytes * Z)) : Enc :=
  match d with Some (dim, pos) => enc Bool true;; enc Str dim;; enc I64 pos | None => enc Bool false end.
Definition DeathLocation_decode : Dec (option (bytes * Z)) :=
  let! has_death := dec Bool in
  if has_death then let! dim := dec Str in let! pos := dec I64 in ret (Some (dim, pos)) else ret None.
Definition DeathLocation : codec (option (bytes * Z)) := Codec DeathLocation_encode DeathLocation_decode
  (fun d => match d with Some (dim, pos) => string_ok dim /\ fits_s 64 pos | None => True end).

Inductive DimensionTypeRef := Identifier (s : bytes) | Registry (v : Z).

Definition DimensionTypeRef_encode (d : DimensionTypeRef) : Enc :=
  match d with Identifier s => enc Str s | Registry v => enc VarInt v end.

Record ClientboundLogin := mkLogin {
  lg_entity_id : Z; lg_is_hardcore : bool; lg_dimension_names : list bytes; lg_max_players : Z; lg_view_distance : Z;
  lg_simulation_distance : Z; lg_reduced_debug_info : bool; lg_enable_respawn_screen : bool;
  lg_do_limited_crafting : option bool; lg_dimension_type : DimensionTypeRef; lg_dimension_name : bytes;
  lg_hashed_seed : Z; lg_game_mode : Z; lg_previous_game_mode : Z; lg_is_debug : bool; lg_is_flat : bool;
  lg_death_location : option (bytes * Z); lg_portal_cooldown : Z; lg_secure_profile : option bool }.

Definition Login_encode (p : ClientboundLogin) : Enc :=
  enc I32 (lg_entity_id p);; enc Bool (lg_is_hardcore p);; enc (Vec Str) (lg_dimension_names p);;
  enc VarInt (lg_max_players p);; enc VarInt (lg_view_distance p);; enc VarInt (lg_simulation_distance p);;
  enc Bool (lg_reduced_debug_info p);; enc Bool (lg_enable_respawn_screen p);;
  encode_trailing_flag (lg_do_limited_crafting p);; DimensionTypeRef_encode (lg_dimension_type p);;
  enc Str (lg_dimension_name p);; enc I64 (lg_hashed_seed p);; enc U8 (lg_game_mode p);; enc I8 (lg_previous_game_mode p);;
  enc Bool (lg_is_debug p);; enc Bool (lg_is_flat p);; enc DeathLocation (lg_death_location p);;
  enc VarInt (lg_portal_cooldown p);; encode_trailing_flag (lg_secure_profile p).

Definition dimension_type_decode (ver : Z) : Dec DimensionTypeRef :=
  if ver <=? 765 then let! s := dec Str in ret (Identifier s) else let! v := dec VarInt in ret (Registry v).

(** The two optional flags are never read. *)
Definition Login_decode_ver (ver : Z) : Dec ClientboundLogin :=
  let! entity_id := dec I32 in
  let! is_hardcore := dec Bool in
  let! dimension_names := dec (Vec Str) in
  let! max_players := dec VarInt in
  let! view_distance := dec VarInt in
  let! simulation_distance := dec VarInt in
  let! reduced_debug_info := dec Bool in
  let! enable_respawn_screen := dec Bool in
  let do_limited_crafting := None in
  let! dimension_type := dimension_type_decode ver in
  let! dimension_name := dec Str in
  let! hashed_seed := dec I64 in
  let! game_mode := dec U8 in
  let! previous_game_mode := dec I8 in
  let! is_debug := dec Bool in
  let! is_flat := dec Bool in
  let! death_location := dec DeathLocation in
  let! portal_cooldown := dec VarInt in
  let secure_profile := None in
  ret (mkLogin entity_id is_hardcore dimension_names max_players view_distance simulation_distance reduced_debug_info
    enable_respawn_screen do_limited_crafting dimension_type dimension_name hashed_seed game_mode previous_game_mode is_debug
    is_flat death_location portal_cooldown secure_profile).

Definition dimension_type_ok (ver : Z) (d : DimensionTypeRef) : Prop :=
  match d with Identifier s => ver <= 765 /\ string_ok s | Registry v => 765 < ver /\ fits_s 32 v end.

Definition Login (ver : Z) : codec ClientboundLogin := Codec Login_encode (Login_decode_ver ver) (fun p =>
  fits_s 32 (lg_entity_id p) /\ wf (Vec Str) (lg_dimension_names p) /\ fits_s 32 (lg_max_players p) /\
  fits_s 32 (lg_view_distance p) /\ fits_s 32 (lg_simulation_distance p) /\ lg_do_limited_crafting p = None /\
  dimension_type_ok ver (lg_dimension_type p) /\ string_ok (lg_dimension_name p) /\ fits_s 64 (lg_hashed_seed p) /\
  fits_u 8 (lg_game_mode p) /\ fits_s 8 (lg_previous_game_mode p) /\ wf DeathLocation (lg_death_location p) /\
  fits_s 32 (lg_portal_cooldown p) /\ lg_secure_profile p = None).

Record ClientboundPluginMessage := mkPluginMessage { pm_channel : bytes; pm_data : bytes }.

Definition PluginMessage_encode (p : ClientboundPluginMessage) : Enc :=
  enc Str (pm_channel p);; put_slice (pm_data p).

Definition PluginMessage_decode : Dec ClientboundPluginMessage :=
  let! channel := dec Str in
  let! data := take_rest in
  ret (mkPluginMessage channel data).

Definition PluginMessage : codec ClientboundPluginMessage := Codec PluginMessage_encode PluginMessage_decode (fun p =>
  wf Str (pm_channel p)).

Record ClientboundPlayerPosition := mkPlayerPosition {
  pp_x : Z; pp_y : Z; pp_z : Z; pp_yaw : Z; pp_pitch : Z; pp_flags : Z; pp_teleport_id : Z }.

Definition PlayerPosition_encode (p : ClientboundPlayerPosition) : Enc :=
  enc F64 (pp_x p);; enc F64 (pp_y p);; enc F64 (pp_z p);; enc F32 (pp_yaw p);; enc F32 (pp_pitch p);;
  enc U8 (pp_flags p);; enc VarInt (pp_teleport_id p).

Definition PlayerPosition_decode : Dec ClientboundPlayerPosition :=
  let! x := dec F64 in
  let! y := dec F64 in
  let! z := dec F64 in
  let! yaw := dec F32 in
  let! pitch := dec F32 in
  let! flags := dec U8 in
  let! teleport_id := dec VarInt in
  ret (mkPlayerPosition x y z yaw pitch flags teleport_id).

Definition PlayerPosition : codec ClientboundPlayerPosition := Codec PlayerPosition_encode PlayerPosition_decode (fun p =>
  wf F64 (pp_x p) /\ wf F64 (pp_y p) /\ wf F64 (pp_z p) /\ wf F32 (pp_yaw p) /\ wf F32 (pp_pitch p) /\
  wf U8 (pp_flags p) /\ fits_s 32 (pp_teleport_id p)).

Record ClientboundRespawn := mkRespawn {
  rs_dimension_type : Z; rs_dimension_name : bytes; rs_hashed_seed : Z; rs_game_mode : Z; rs_previous_game_mode : Z;
  rs_is_debug : bool; rs_is_flat : bool; rs_data_kept : Z; rs_death_location : option (bytes * Z);
  rs_portal_cooldown : Z }.

Definition Respawn_encode (p : ClientboundRespawn) : Enc :=
  enc VarInt (rs_dimension_type p);; enc Str (rs_dimension_name p);; enc I64 (rs_hashed_seed p);;
  enc U8 (rs_game_mode p);; enc I8 (rs_previous_game_mode p);; enc Bool (rs_is_debug p);; enc Bool (rs_is_flat p);;
  enc U8 (rs_data_kept p);; enc DeathLocation (rs_death_location p);; enc VarInt (rs_portal_cooldown p).

Definition Respawn_decode : Dec ClientboundRespawn :=
  let! dimension_type := dec VarInt in
  let! dimension_name := dec Str in
  let! hashed_seed := dec I64 in
  let! game_mode := dec U8 in
  let! previous_game_mode := dec I8 in
  let! is_debug := dec Bool in
  let! is_flat := dec Bool in
  let! data_kept := dec U8 in
  let! death_location := dec DeathLocation in
  let! portal_cooldown := dec VarInt in
  ret (mkRespawn dimension_type dimension_name hashed_seed game_mode previous_game_mode is_debug is_flat data_kept
  death_location portal_cooldown).

Definition Respawn : codec ClientboundRespawn := Codec Respawn_encode Respawn_decode (fun p =>
  fits_s 32 (rs_dimension_type p) /\ wf Str (rs_dimension_name p) /\ wf I64 (rs_hashed_seed p) /\
  wf U8 (rs_game_mode p) /\ wf I8 (rs_previous_game_mode p) /\ wf U8 (rs_data_kept p) /\
  wf DeathLocation (rs_death_location p) /\ fits_s 32 (rs_portal_cooldown p)).

Record ClientboundPlayerAbilities := mkPlayerAbilities { pa_flags : Z; pa_flying_speed : Z; pa_walking_speed : Z }.

Definition PlayerAbilities_encode (p : ClientboundPlayerAbilities) : Enc :=
  enc U8 (pa_flags p);; enc F32 (pa_flying_speed p);; enc F32 (pa_walking_speed p).

Definition PlayerAbilities_decode : Dec ClientboundPlayerAbilities :=
  let! flags := dec U8 in
  let! flying_speed := dec F32 in
  let! walking_speed := dec F32 in
  ret (mkPlayerAbilities flags flying_speed walking_speed).

Definition PlayerAbilities : codec ClientboundPlayerAbilities := Codec PlayerAbilities_encode PlayerAbilities_decode (fun p =>
  wf U8 (pa_flags p) /\ wf F32 (pa_flying_speed p) /\ wf F32 (pa_walking_speed p)).

Definition SetCarriedItem_encode (v : Z) : Enc := enc I8 v.
Definition SetCarriedItem_decode : Dec Z := dec I8.
Definition SetCarriedItem : codec Z := Codec SetCarriedItem_encode SetCarriedItem_decode (fun v => wf I8 v).

Record ClientboundSystemChat := mkSystemChat { sc_content : bytes; sc_overlay : bool }.

Definition SystemChat_encode (p : ClientboundSystemChat) : Enc :=
  enc Str (sc_content p);; enc Bool (sc_overlay p).

Definition SystemChat_decode : Dec ClientboundSystemChat :=
  let! content := dec Str in
  let! overlay := dec Bool in
  ret (mkSystemChat content overlay).

Definition SystemChat : codec ClientboundSystemChat := Codec SystemChat_encode SystemChat_decode (fun p =>
  wf Str (sc_content p)).

(** ** The contracts *)

#[export] Instance Handshake_lawful_120 : Lawful Handshake.
Proof. apply lawful_intro; cbn [Handshake enc dec wf]; unfold Handshake_encode, Handshake_decode; packet_goals. Qed.

#[export] Instance StatusRequest_lawful_120 : Lawful StatusRequest.
Proof. apply lawful_unit. Qed.

#[export] Instance StatusResponse_lawful_120 : Lawful StatusResponse.
Proof. apply lawful_intro; cbn [StatusResponse enc dec wf]; unfold StatusResponse_encode, StatusResponse_decode; packet_goals. Qed.

#[export] Instance PingRequest_lawful_120 : Lawful PingRequest.
Proof. apply lawful_intro; cbn [PingRequest enc dec wf]; unfold PingRequest_encode, PingRequest_decode; packet_goals. Qed.

#[export] Instance PongResponse_lawful_120 : Lawful PongResponse.
Proof. apply lawful_intro; cbn [PongResponse enc dec wf]; unfold PongResponse_encode, PongResponse_decode; packet_goals. Qed.

#[export] Instance LoginStart_lawful_120 : Lawful LoginStart.
Proof. apply lawful_intro; cbn [LoginStart enc dec wf]; unfold LoginStart_encode, LoginStart_decode; packet_goals. Qed.

#[export] Instance EncryptionResponse_lawful_120 : Lawful EncryptionResponse.
Proof. apply lawful_intro; cbn [EncryptionResponse enc dec wf]; unfold EncryptionResponse_encode, EncryptionResponse_decode; packet_goals. Qed.

#[export] Instance LoginPluginResponse_lawful_120 : LawfulTail LoginPluginResponse.
Proof.
  apply lawful_tail_intro; cbn [LoginPluginResponse enc dec wf]; unfold LoginPluginResponse_decode; [|solve_total|solve_consuming].
  intros [i [d|]] Hi; cbn in Hi; unfold LoginPluginResponse_encode; cbn [lps_message_id lps_data];
    (eexists; split; [solve_writes|]);
    (eapply reads_all_bind; [by apply lawful_reads|]).
  - eapply reads_all_bind; [by apply (lawful_reads (c := Bool))|]. done.
  - eapply reads_all_bind_last; [by apply (lawful_reads (c := Bool))|]. done.
Qed.

#[export] Instance LoginAcknowledged_lawful_120 : Lawful LoginAcknowledged.
Proof. apply lawful_unit. Qed.

#[export] Instance LoginDisconnect_lawful_120 : Lawful LoginDisconnect.
Proof. apply lawful_intro; cbn [LoginDisconnect enc dec wf]; unfold LoginDisconnect_encode, LoginDisconnect_decode; packet_goals. Qed.

#[export] Instance EncryptionRequest_lawful_120 : LawfulTail EncryptionRequest.
Proof.
  apply lawful_tail_intro; cbn [EncryptionRequest enc dec wf]; unfold EncryptionRequest_decode; [|solve_total|solve_consuming].
  intros [i k t o] (Hi & Hk & Ht). cbn in Hi, Hk, Ht. destruct (trailing_flag_roundtrip o) as (bs & Hw & Hr).
  unfold EncryptionRequest_encode. eexists. split.
  - repeat first [exact Hw | writes_step]; done.
  - eapply reads_all_bind; [by apply (lawful_reads (c := Str))|]. eapply reads_all_bind; [by apply (lawful_reads (c := ByteArray))|].
    eapply reads_all_bind; [by apply (lawful_reads (c := ByteArray))|]. unfold reads_all, bind. by rewrite Hr.
Qed.

#[export] Instance Property_lawful_120 : Lawful Property.
Proof. apply lawful_intro; cbn [Property enc dec wf]; unfold ProfileProperty_encode, ProfileProperty_decode; packet_goals. Qed.

#[export] Instance LoginSuccess_lawful_120 : LawfulTail LoginSuccess.
Proof.
  apply lawful_tail_intro; cbn [LoginSuccess enc dec wf]; unfold LoginSuccess_decode; [|solve_total|solve_consuming].
  intros [u n ps o] (Hu & Hn & Hps). cbn [lsu_uuid lsu_username lsu_properties] in *. destruct (trailing_flag_roundtrip o) as (bs & Hw & Hr).
  unfold LoginSuccess_encode. eexists. split.
  - repeat first [exact Hw | writes_step]; done.
  - eapply reads_all_bind; [by apply (lawful_reads (c := UuidHalves))|]. eapply reads_all_bind; [by apply (lawful_reads (c := Str))|].
    eapply reads_all_bind; [by apply (lawful_reads (c := Vec Property))|]. unfold reads_all, bind. by rewrite Hr.
Qed.

#[export] Instance SetCompression_lawful_120 : Lawful SetCompression.
Proof. apply lawful_intro; cbn [SetCompression enc dec wf]; unfold SetCompression_encode, SetCompression_decode; packet_goals. Qed.

#[export] Instance LoginPluginRequest_lawful_120 : LawfulTail LoginPluginRequest.
Proof. apply lawful_tail_intro; cbn [LoginPluginRequest enc dec wf]; unfold LoginPluginRequest_encode, LoginPluginRequest_decode; packet_tail_goals. Qed.

#[export] Instance AckFinishConfiguration_lawful_120 : Lawful AckFinishConfiguration.
Proof. apply lawful_unit. Qed.

#[export] Instance FinishConfiguration_lawful_120 : Lawful FinishConfiguration.
Proof. apply lawful_unit. Qed.

#[export] Instance BossBar_lawful_120 : Lawful BossBar.
Proof.
  apply lawful_intro; cbn [BossBar enc dec wf]; unfold BossBar_decode, BossBarAction_decode; [|solve_total|solve_consuming].
  intros [uuid action] [Hu Ha]. cbn [bb_uuid bb_action] in Hu, Ha. unfold BossBar_encode. cbn [bb_uuid bb_action].
  destruct action; cbn [action_ok] in *; repeat match goal with H : _ /\ _ |- _ => destruct H end;
    (eexists; split; [solve_writes; cbn; width|]);
    (eapply reads_bind; [by apply (lawful_reads (c := Uuid))|]);
    (lazymatch goal with |- reads _ (_ ++ _) _ => eapply reads_bind | _ => eapply reads_bind_last end;
      [apply (lawful_reads (c := VarInt)); cbn; width|]); cbv beta iota;
    (eapply reads_bind_last; [repeat reads_step; done|apply reads_ret]).
Qed.

#[export] Instance Disconnect_lawful_120 : Lawful Disconnect.
Proof. apply lawful_intro; cbn [Disconnect enc dec wf]; unfold Disconnect_encode, Disconnect_decode; packet_goals. Qed.

#[export] Instance KeepAlive_lawful_120 : Lawful KeepAlive.
Proof. apply lawful_intro; cbn [KeepAlive enc dec wf]; unfold KeepAlive_encode, KeepAlive_decode; packet_goals. Qed.

#[export] Instance DeathLocation_lawful_120 : Lawful DeathLocation.
Proof.
  apply lawful_intro; cbn [DeathLocation enc dec wf]; unfold DeathLocation_decode; [|solve_total|solve_consuming].
  intros [[dim pos]|] H; cbn [DeathLocation_encode]; (eexists; split; [solve_writes; tauto|]).
  - destruct H. eapply reads_bind; [by apply (lawful_reads (c := Bool))|]. cbv iota. solve_reads.
  - eapply reads_bind_last; [by apply (lawful_reads (c := Bool))|]. apply reads_ret.
Qed.

Lemma dimension_type_roundtrip ver d : dimension_type_ok ver d ->
  exists bs, writes (DimensionTypeRef_encode d) bs /\ reads (dimension_type_decode ver) bs d.
Proof.
  unfold dimension_type_decode. destruct d as [s|v]; intros [Hv Hd]; cbn [DimensionTypeRef_encode].
  - exists (wire Str s). split; [by apply lawful_writes|]. rewrite (proj2 (Z.leb_le _ _) Hv).
    eapply reads_bind_last; [by apply lawful_reads|apply reads_ret].
  - exists (wire VarInt v). split; [by apply lawful_writes|]. rewrite (proj2 (Z.leb_gt _ _) Hv).
    eapply reads_bind_last; [by apply lawful_reads|apply reads_ret].
Qed.

Lemma total_dimension_type ver : total (dimension_type_decode ver).
Proof. unfold dimension_type_decode. solve_total. Qed.
Lemma consuming_dimension_type ver : consuming (dimension_type_decode ver).
Proof. unfold dimension_type_decode. solve_consuming. Qed.
#[export] Hint Resolve total_dimension_type consuming_dimension_type : codec.

#[export] Instance Login_lawful_120 ver : Lawful (Login ver).
Proof.
  apply lawful_intro; cbn [Login enc dec wf]; unfold Login_decode_ver; [|solve_total|solve_consuming].
  intros p Hp. destruct p. cbn [lg_entity_id lg_is_hardcore lg_dimension_names lg_max_players lg_view_distance lg_simulation_distance
    lg_reduced_debug_info lg_enable_respawn_screen lg_do_limited_crafting lg_dimension_type lg_dimension_name lg_hashed_seed
    lg_game_mode lg_previous_game_mode lg_is_debug lg_is_flat lg_death_location lg_portal_cooldown lg_secure_profile] in Hp.
  destruct Hp as (? & ? & ? & ? & ? & Hc & Hd & Hp). repeat match goal with H : _ /\ _ |- _ => destruct H end. subst.
  destruct (dimension_type_roundtrip _ _ Hd) as (bs & Hw & Hr). unfold Login_encode. cbn [lg_do_limited_crafting lg_secure_profile encode_trailing_flag].
  eexists. split.
  - repeat first [exact Hw | writes_step]; done.
  - repeat first [eapply reads_bind; [exact Hr|] | rewrite !app_nil_r | rewrite !app_nil_l | reads_step]; try done.
Qed.

#[export] Instance PluginMessage_lawful_120 : LawfulTail PluginMessage.
Proof. apply lawful_tail_intro; cbn [PluginMessage enc dec wf]; unfold PluginMessage_encode, PluginMessage_decode; packet_tail_goals. Qed.

#[export] Instance PlayerPosition_lawful_120 : Lawful PlayerPosition.
Proof. apply lawful_intro; cbn [PlayerPosition enc dec wf]; unfold PlayerPosition_encode, PlayerPosition_decode; packet_goals. Qed.

#[export] Instance Respawn_lawful_120 : Lawful Respawn.
Proof. apply lawful_intro; cbn [Respawn enc dec wf]; unfold Respawn_encode, Respawn_decode; packet_goals. Qed.

#[export] Instance PlayerAbilities_lawful_120 : Lawful PlayerAbilities.
Proof. apply lawful_intro; cbn [PlayerAbilities enc dec wf]; unfold PlayerAbilities_encode, PlayerAbilities_decode; packet_goals. Qed.

#[export] Instance SetCarriedItem_lawful_120 : Lawful SetCarriedItem.
Proof. apply lawful_intro; cbn [SetCarriedItem enc dec wf]; unfold SetCarriedItem_encode, SetCarriedItem_decode; packet_goals. Qed.

#[export] Instance SystemChat_lawful_120 : Lawful SystemChat.
Proof. apply lawful_intro; cbn [SystemChat enc dec wf]; unfold SystemChat_encode, SystemChat_decode; packet_goals. Qed.

(** ** Properties *)

(** The 1.20 packets keep the codec contract and no decoder panics; packets
    with an optional trailing flag are read back when nothing follows them; the
    join packet keeps the contract at every protocol number for the dimension
    reference of that protocol, and without the two optional flags, which its
    decoder never reads: written, they are taken for the fields after them. *)
Theorem v1_20_packets_lawful :
  (Lawful Handshake /\ Lawful StatusRequest /\ Lawful StatusResponse /\ Lawful PingRequest /\ Lawful PongResponse) /\
  (Lawful LoginStart /\ Lawful LoginDisconnect /\ LawfulTail EncryptionRequest /\ Lawful EncryptionResponse /\
   Lawful Property /\ LawfulTail LoginSuccess /\ Lawful SetCompression /\ LawfulTail LoginPluginRequest /\
   LawfulTail LoginPluginResponse /\ Lawful LoginAcknowledged /\ Lawful AckFinishConfiguration /\
   Lawful FinishConfiguration) /\
  (Lawful BossBar /\ (forall ver, Lawful (Login ver)) /\ Lawful Respawn /\ Lawful PlayerPosition /\ Lawful KeepAlive /\
   Lawful Disconnect /\ LawfulTail PluginMessage /\ Lawful PlayerAbilities /\ Lawful SetCarriedItem /\
   Lawful SystemChat) /\
  (exists p p' rest, lg_do_limited_crafting p = Some true /\ lg_dimension_type p = Registry 0 /\
     Login_decode_ver 766 (Login_encode p []).2 = (Ok p', rest) /\ lg_dimension_type p' = Registry 1).
Proof.
  split_and!; try exact _.
  exists (mkLogin 1 false [] 20 8 8 false true (Some true) (Registry 0) [] 0 0 0 false false None 0 None).
  do 2 eexists. split; [done|]. split; [done|]. split; [vm_compute; reflexivity|reflexivity].
Qed.
