(* ===== verification/Packets121.v ===== *)
(** * Typed packets of 1.21

    crates/protocol/src/versions/v1_21_x: the 1.20 login packets with one more
    optional field, told apart by the bytes that are left, and play packets that
    check their input themselves. *)
From Stdlib Require Import ZArith Lia Strings.Byte.
From stdpp Require Import base list numbers strings.
From S2P Require Import Prelude Buf Wire VarInt Codec Nbt Packets.
Local Open Scope Z_scope.

(** The helpers of the play module; the numbers in the text of [need] are left out. *)
Definition need21 (n : Z) : Dec unit := ensure n (Io KUnexpectedEof "need more bytes").
Definition String21 : codec bytes := TextOf "need more bytes" "invalid utf-8 string".

(** ** Handshake and status *)

Record ServerboundHandshake := mkHandshake {
  hs_protocol_version : Z; hs_server_address : bytes; hs_server_port : Z; hs_next_state : Z }.

Definition Handshake_encode (p : ServerboundHandshake) : Enc :=
  enc VarInt (hs_protocol_version p);; enc Str (hs_server_address p);; enc U16 (hs_server_port p);;
  enc VarInt (hs_next_state p).

Definition Handshake_decode : Dec ServerboundHandshake :=
  let! protocol_version := dec VarInt in
  let! server_address := dec Str in
  let! server_port := dec U16 in
  let! next_state := dec VarInt in
  ret (mkHandshake protocol_version server_address server_port next_state).

Definition Handshake : codec ServerboundHandshake := Codec Handshake_encode Handshake_decode (fun p =>
  fits_s 32 (hs_protocol_version p) /\ wf Str (hs_server_address p) /\ wf U16 (hs_server_port p) /\
  fits_s 32 (hs_next_state p)).

Definition StatusRequest_encode (_ : unit) : Enc := ret tt.
Definition StatusRequest_decode : Dec unit := ret tt.
Definition StatusRequest : codec unit := Codec StatusRequest_encode StatusRequest_decode (fun _ => True).

Definition StatusResponse_encode (v : bytes) : Enc := enc Str v.
Definition StatusResponse_decode : Dec bytes := dec Str.
Definition StatusResponse : codec bytes := Codec StatusResponse_encode StatusResponse_decode (fun v => wf Str v).

Definition PingRequest_encode (v : Z) : Enc := enc I64 v.
Definition PingRequest_decode : Dec Z := dec I64.
Definition PingRequest : codec Z := Codec PingRequest_encode PingRequest_decode (fun v => wf I64 v).

Definition PongResponse_encode (v : Z) : Enc := enc I64 v.
Definition PongResponse_decode : Dec Z := dec I64.
Definition PongResponse : codec Z := Codec PongResponse_encode PongResponse_decode (fun v => wf I64 v).

(** ** Login *)

Record ServerboundLoginStart := mkLoginStart { ls_username : bytes; ls_uuid : bytes }.

Definition LoginStart_encode (p : ServerboundLoginStart) : Enc :=
  enc Str (ls_username p);; enc Uuid (ls_uuid p).

Definition LoginStart_decode : Dec ServerboundLoginStart :=
  let! username := dec Str in
  let! uuid := dec Uuid in
  ret (mkLoginStart username uuid).

Definition LoginStart : codec ServerboundLoginStart := Codec LoginStart_encode LoginStart_decode (fun p =>
  wf Str (ls_username p) /\ wf Uuid (ls_uuid p)).

Definition LoginDisconnect_encode (v : bytes) : Enc := enc Str v.
Definition LoginDisconnect_decode : Dec bytes := dec Str.
Definition LoginDisconnect : codec bytes := Codec LoginDisconnect_encode LoginDisconnect_decode (fun v => wf Str v).

Record ClientboundEncryptionRequest := mkEncryptionRequest {
  er_server_id : bytes; er_public_key : bytes; er_verify_token : bytes; er_should_authenticate : option bool }.

Definition EncryptionRequest_encode (p : ClientboundEncryptionRequest) : Enc :=
  enc Str (er_server_id p);; enc ByteArray (er_public_key p);; enc ByteArray (er_verify_token p);;
  encode_trailing_flag (er_should_authenticate p).

Definition EncryptionRequest_decode : Dec ClientboundEncryptionRequest :=
  let! server_id := dec Str in
  let! public_key := dec ByteArray in
  let! verify_token := dec ByteArray in
  let! should_authenticate := decode_trailing_flag in
  ret (mkEncryptionRequest server_id public_key verify_token should_authenticate).

Definition EncryptionRequest : codec ClientboundEncryptionRequest :=
  Codec EncryptionRequest_encode EncryptionRequest_decode (fun p =>
    string_ok (er_server_id p) /\ byte_array_ok (er_public_key p) /\ byte_array_ok (er_verify_token p)).

Record ProfileProperty := mkProfileProperty { lp_name : bytes; lp_value : bytes; lp_signature : option bytes }.

Definition ProfileProperty_encode (p : ProfileProperty) : Enc :=
  enc Str (lp_name p);; enc Str (lp_value p);; enc (Opt Str) (lp_signature p).

Definition ProfileProperty_decode : Dec ProfileProperty :=
  let! name := dec Str in
  let! value := dec Str in
  let! signature := dec (Opt Str) in
  ret (mkProfileProperty name value signature).

Definition Property : codec ProfileProperty := Codec ProfileProperty_encode ProfileProperty_decode (fun p =>
  wf Str (lp_name p) /\ wf Str (lp_value p) /\ wf (Opt Str) (lp_signature p)).

Record ClientboundLoginSuccess := mkLoginSuccess {
  lsu_uuid : bytes; lsu_username : bytes; lsu_properties : list ProfileProperty; lsu_strict_error_handling : option bool;
  lsu_session_id : option bytes }.

Definition LoginSuccess_encode (p : ClientboundLoginSuccess) : Enc :=
  enc UuidHalves (lsu_uuid p);; enc Str (lsu_username p);; enc (Vec Property) (lsu_properties p);;
  encode_trailing_flag (lsu_strict_error_handling p);;
  match lsu_session_id p with Some session => enc UuidHalves session | None => ret tt end.

(** Which optional field is there is told from how many bytes are left. *)
Definition trailing_decode : Dec (option bool * option bytes) := fun src =>
  match length src with
  | 1%nat => (let! b := dec Bool in ret (Some b, None)) src
  | 16%nat => (let! u := dec UuidHalves in ret (None, Some u)) src
  | _ => (Ok (None, None), src)
  end.

Definition LoginSuccess_decode : Dec ClientboundLoginSuccess :=
  let! uuid := dec UuidHalves in
  let! username := dec Str in
  let! properties := dec (Vec Property) in
  let! trailing := trailing_decode in
  ret (mkLoginSuccess uuid username properties trailing.1 trailing.2).

Definition LoginSuccess : codec ClientboundLoginSuccess := Codec LoginSuccess_encode LoginSuccess_decode (fun p =>
  uuid_ok (lsu_uuid p) /\ string_ok (lsu_username p) /\ wf (Vec Property) (lsu_properties p) /\
  match lsu_session_id p with Some session => uuid_ok session /\ lsu_strict_error_handling p = None | None => True end).

Definition SetCompression_encode (v : Z) : Enc := enc VarInt v.
Definition SetCompression_decode : Dec Z := dec VarInt.
Definition SetCompression : codec Z := Codec SetCompression_encode SetCompression_decode (fun v => fits_s 32 v).

Record ClientboundLoginPluginRequest := mkLoginPluginRequest {
  lpr_message_id : Z; lpr_channel : bytes; lpr_data : bytes }.

Definition LoginPluginRequest_encode (p : ClientboundLoginPluginRequest) : Enc :=
  enc VarInt (lpr_message_id p);; enc Str (lpr_channel p);; put_slice (lpr_data p).

Definition LoginPluginRequest_decode : Dec ClientboundLoginPluginRequest :=
  let! message_id := dec VarInt in
  let! channel := dec Str in
  let! data := take_rest in
  ret (mkLoginPluginRequest message_id channel data).

Definition LoginPluginRequest : codec ClientboundLoginPluginRequest := Codec LoginPluginRequest_encode LoginPluginRequest_decode (fun p =>
  fits_s 32 (lpr_message_id p) /\ wf Str (lpr_channel p)).

Record ServerboundEncryptionResponse := mkEncryptionResponse { ers_shared_secret : bytes; ers_verify_token : bytes }.

Definition EncryptionResponse_encode (p : ServerboundEncryptionResponse) : Enc :=
  enc ByteArray (ers_shared_secret p);; enc ByteArray (ers_verify_token p).

Definition EncryptionResponse_decode : Dec ServerboundEncryptionResponse :=
  let! shared_secret := dec ByteArray in
  let! verify_token := dec ByteArray in
  ret (mkEncryptionResponse shared_secret verify_token).

Definition EncryptionResponse : codec ServerboundEncryptionResponse := Codec EncryptionResponse_encode EncryptionResponse_decode (fun p =>
  wf ByteArray (ers_shared_secret p) /\ wf ByteArray (ers_verify_token p)).

Record ServerboundLoginPluginResponse := mkLoginPluginResponse { lps_message_id : Z; lps_data : option bytes }.

Definition LoginPluginResponse_encode (p : ServerboundLoginPluginResponse) : Enc :=
  enc VarInt (lps_message_id p);;
  match lps_data p with Some payload => enc Bool true;; put_slice payload | None => enc Bool false end.

Definition LoginPluginResponse_decode : Dec ServerboundLoginPluginResponse :=
  let! message_id := dec VarInt in
  let! understood := dec Bool in
  if understood then let! data := take_rest in ret (mkLoginPluginResponse message_id (Some data))
  else ret (mkLoginPluginResponse message_id None).

Definition LoginPluginResponse : codec ServerboundLoginPluginResponse :=
  Codec LoginPluginResponse_encode LoginPluginResponse_decode (fun p => fits_s 32 (lps_message_id p)).

Definition LoginAcknowledged_encode (_ : unit) : Enc := ret tt.
Definition LoginAcknowledged_decode : Dec unit := ret tt.
Definition LoginAcknowledged : codec unit := Codec LoginAcknowledged_encode LoginAcknowledged_decode (fun _ => True).

(** ** Configuration *)

Definition AcknowledgeFinishConfiguration_encode (_ : unit) : Enc := ret tt.
Definition AcknowledgeFinishConfiguration_decode : Dec unit := ret tt.
Definition AckFinishConfiguration : codec unit := Codec AcknowledgeFinishConfiguration_encode AcknowledgeFinishConfiguration_decode (fun _ => True).

Definition FinishConfiguration_encode (_ : unit) : Enc := ret tt.
Definition FinishConfiguration_decode : Dec unit := ret tt.
Definition FinishConfiguration : codec unit := Codec FinishConfiguration_encode FinishConfiguration_decode (fun _ => True).

(** ** Play *)

Definition KeepAlive_encode (v : Z) : Enc := enc I64 v.
Definition KeepAlive_decode : Dec Z := dec I64.
Definition KeepAlive : codec Z := Codec KeepAlive_encode KeepAlive_decode (fun v => wf I64 v).

Record ClientboundPlayerPosition := mkPlayerPosition {
  pp_x : Z; pp_y : Z; pp_z : Z; pp_yaw : Z; pp_pitch : Z; pp_flags : Z; pp_teleport_id : Z }.

Definition PlayerPosition_encode (p : ClientboundPlayerPosition) : Enc :=
  put_f64 (pp_x p);; put_f64 (pp_y p);; put_f64 (pp_z p);; put_f32 (pp_yaw p);; put_f32 (pp_pitch p);;
  put_u8 (pp_flags p);; enc VarInt (pp_teleport_id p).

Definition PlayerPosition_decode : Dec ClientboundPlayerPosition :=
  need21 (8 + 8 + 8 + 4 + 4 + 1);;
  let! x := get_f64 in
  let! y := get_f64 in
  let! z := get_f64 in
  let! yaw := get_f32 in
  let! pitch := get_f32 in
  let! flags := get_u8 in
  let! teleport_id := dec VarInt in
  ret (mkPlayerPosition x y z yaw pitch flags teleport_id).

Definition PlayerPosition : codec ClientboundPlayerPosition := Codec PlayerPosition_encode PlayerPosition_decode (fun p =>
  fits_u 64 (pp_x p) /\ fits_u 64 (pp_y p) /\ fits_u 64 (pp_z p) /\ fits_u 32 (pp_yaw p) /\ fits_u 32 (pp_pitch p) /\
  fits_u 8 (pp_flags p) /\ fits_s 32 (pp_teleport_id p)).

Record ClientboundSystemChat := mkSystemChat { sc_json_message : bytes; sc_overlay : bool }.

Definition SystemChat_encode (p : ClientboundSystemChat) : Enc :=
  enc String21 (sc_json_message p);; put_u8 (flag_byte (sc_overlay p)).

Definition SystemChat_decode : Dec ClientboundSystemChat :=
  let! json_message := dec String21 in
  need21 1;;
  let! overlay := get_u8 in
  ret (mkSystemChat json_message (flag_of overlay)).

Definition SystemChat : codec ClientboundSystemChat := Codec SystemChat_encode SystemChat_decode (fun p =>
  wf String21 (sc_json_message p)).

(** The optional death location of the join and respawn packets. *)
Definition Death_encode (d : option (bytes * Z)) : Enc :=
  match d with Some (dim, pos) => put_u8 1;; enc String21 dim;; put_i64 pos | None => put_u8 0 end.
Definition Death_decode : Dec (option (bytes * Z)) :=
  need21 1;;
  let! flag := get_u8 in
  if flag_of flag then
    let! dim := dec String21 in
    need21 8;;
    let! pos := get_i64 in
    ret (Some (dim, pos))
  else ret None.
Definition DeathLocation21 : codec (option (bytes * Z)) := Codec Death_encode Death_decode
  (fun d => match d with Some (dim, pos) => text_ok dim /\ fits_s 64 pos | None => True end).

Record ClientboundLogin := mkLogin {
  lg_entity_id : Z; lg_is_hardcore : bool; lg_dimension_names : list bytes; lg_max_players : Z; lg_view_distance : Z;
  lg_simulation_distance : Z; lg_reduced_debug_info : bool; lg_enable_respawn_screen : bool; lg_do_limited_crafting : bool;
  lg_dimension_type : Z; lg_dimension_name : bytes; lg_hashed_seed : Z; lg_game_mode : Z; lg_previous_game_mode : Z;
  lg_is_debug : bool; lg_is_flat : bool; lg_death_location : option (bytes * Z); lg_portal_cooldown : Z;
  lg_sea_level : option Z; lg_online_mode : option bool; lg_secure_profile : bool }.

Definition Login_encode (p : ClientboundLogin) : Enc :=
  put_i32 (lg_entity_id p);; put_u8 (flag_byte (lg_is_hardcore p));; enc (Vec Str) (lg_dimension_names p);;
  enc VarInt (lg_max_players p);; enc VarInt (lg_view_distance p);; enc VarInt (lg_simulation_distance p);;
  put_u8 (flag_byte (lg_reduced_debug_info p));; put_u8 (flag_byte (lg_enable_respawn_screen p));;
  put_u8 (flag_byte (lg_do_limited_crafting p));; enc VarInt (lg_dimension_type p);; enc String21 (lg_dimension_name p);;
  put_i64 (lg_hashed_seed p);; put_u8 (lg_game_mode p);; put_i8 (lg_previous_game_mode p);;
  put_u8 (flag_byte (lg_is_debug p));; put_u8 (flag_byte (lg_is_flat p));; Death_encode (lg_death_location p);;
  enc VarInt (lg_portal_cooldown p);;
  match lg_sea_level p with Some s => enc VarInt s | None => ret tt end;;
  match lg_online_mode p with Some online => put_u8 (flag_byte online) | None => ret tt end;;
  put_u8 (flag_byte (lg_secure_profile p)).

(** [if src.remaining() >= n { Some(read) } else { None }]. *)
Definition when_remaining {A} (n : Z) (read : Dec A) : Dec (option A) := fun src =>
  if n <=? remaining src then (let! v := read in ret (Some v)) src else (Ok None, src).

Definition Login_tail_decode : Dec (option Z * option bool * bool) :=
  let! sea_level := when_remaining 2 (dec VarInt) in
  let! online_mode := when_remaining 2 (let! b := get_u8 in ret (flag_of b)) in
  need21 1;;
  let! secure_profile := get_u8 in
  ret (sea_level, online_mode, flag_of secure_profile).

Definition Login_decode : Dec ClientboundLogin :=
  need21 4;;
  let! entity_id := get_i32 in
  need21 1;;
  let! is_hardcore := get_u8 in
  let! dimension_names := dec (Vec Str) in
  let! max_players := dec VarInt in
  let! view_distance := dec VarInt in
  let! simulation_distance := dec VarInt in
  need21 3;;
  let! reduced_debug_info := get_u8 in
  let! enable_respawn_screen := get_u8 in
  let! do_limited_crafting := get_u8 in
  let! dimension_type := dec VarInt in
  let! dimension_name := dec String21 in
  need21 8;;
  let! hashed_seed := get_i64 in
  need21 4;;
  let! game_mode := get_u8 in
  let! previous_game_mode := get_i8 in
  let! is_debug := get_u8 in
  let! is_flat := get_u8 in
  let! death_location := dec DeathLocation21 in
  let! portal_cooldown := dec VarInt in
  let! tail := Login_tail_decode in
  ret (mkLogin entity_id (flag_of is_hardcore) dimension_names max_players view_distance simulation_distance
    (flag_of reduced_debug_info) (flag_of enable_respawn_screen) (flag_of do_limited_crafting) dimension_type dimension_name
    hashed_seed game_mode previous_game_mode (flag_of is_debug) (flag_of is_flat) death_location portal_cooldown
    tail.1.1 tail.1.2 tail.2).

(** The sea level cannot be left out when the online mode is there. *)
Definition tail_ok (sea_level : option Z) (online_mode : option bool) : Prop :=
  match sea_level with Some s => fits_s 32 s | None => online_mode = None end.

Definition Login : codec ClientboundLogin := Codec Login_encode Login_decode (fun p =>
  fits_s 32 (lg_entity_id p) /\ wf (Vec Str) (lg_dimension_names p) /\ fits_s 32 (lg_max_players p) /\
  fits_s 32 (lg_view_distance p) /\ fits_s 32 (lg_simulation_distance p) /\ fits_s 32 (lg_dimension_type p) /\
  text_ok (lg_dimension_name p) /\ fits_s 64 (lg_hashed_seed p) /\ fits_u 8 (lg_game_mode p) /\
  fits_s 8 (lg_previous_game_mode p) /\ wf DeathLocation21 (lg_death_location p) /\ fits_s 32 (lg_portal_cooldown p) /\
  tail_ok (lg_sea_level p) (lg_online_mode p)).

Record ClientboundRespawn := mkRespawn {
  rs_dimension_type : Z; rs_dimension_name : bytes; rs_hashed_seed : Z; rs_game_mode : Z; rs_previous_game_mode : Z;
  rs_is_debug : bool; rs_is_flat : bool; rs_data_kept : Z; rs_death_location : option (bytes * Z);
  rs_portal_cooldown : Z; rs_sea_level : option Z }.

Definition Respawn_encode (p : ClientboundRespawn) : Enc :=
  enc VarInt (rs_dimension_type p);; enc String21 (rs_dimension_name p);; put_i64 (rs_hashed_seed p);;
  put_u8 (rs_game_mode p);; put_i8 (rs_previous_game_mode p);; put_u8 (flag_byte (rs_is_debug p));;
  put_u8 (flag_byte (rs_is_flat p));; put_u8 (rs_data_kept p);; Death_encode (rs_death_location p);;
  enc VarInt (rs_portal_cooldown p);; match rs_sea_level p with Some s => enc VarInt s | None => ret tt end.

Definition Respawn_decode : Dec ClientboundRespawn :=
  let! dimension_type := dec VarInt in
  let! dimension_name := dec String21 in
  need21 8;;
  let! hashed_seed := get_i64 in
  need21 4;;
  let! game_mode := get_u8 in
  let! previous_game_mode := get_i8 in
  let! is_debug := get_u8 in
  let! is_flat := get_u8 in
  need21 1;;
  let! data_kept := get_u8 in
  let! death_location := dec DeathLocation21 in
  let! portal_cooldown := dec VarInt in
  let! sea_level := when_remaining 1 (dec VarInt) in
  ret (mkRespawn dimension_type dimension_name hashed_seed game_mode previous_game_mode (flag_of is_debug) (flag_of is_flat)
    data_kept death_location portal_cooldown sea_level).

Definition Respawn : codec ClientboundRespawn := Codec Respawn_encode Respawn_decode (fun p =>
  fits_s 32 (rs_dimension_type p) /\ text_ok (rs_dimension_name p) /\ fits_s 64 (rs_hashed_seed p) /\
  fits_u 8 (rs_game_mode p) /\ fits_s 8 (rs_previous_game_mode p) /\ fits_u 8 (rs_data_kept p) /\
  wf DeathLocation21 (rs_death_location p) /\ fits_s 32 (rs_portal_cooldown p) /\
  option_ok (fits_s 32) (rs_sea_level p)).

Record ClientboundSound := mkSound {
  snd_sound_type : Z; snd_sound_name : bytes; snd_sound_category : Z; snd_effect_pos_x : Z; snd_effect_pos_y : Z;
  snd_effect_pos_z : Z; snd_volume : Z; snd_pitch : Z; snd_seed : Z }.

Definition Sound_encode (p : ClientboundSound) : Enc :=
  enc VarInt (snd_sound_type p);; enc String21 (snd_sound_name p);; enc VarInt (snd_sound_category p);;
  put_i32 (snd_effect_pos_x p);; put_i32 (snd_effect_pos_y p);; put_i32 (snd_effect_pos_z p);;
  put_f32 (snd_volume p);; put_f32 (snd_pitch p);; put_i64 (snd_seed p).

Definition Sound_decode : Dec ClientboundSound :=
  let! sound_type := dec VarInt in
  let! sound_name := dec String21 in
  let! sound_category := dec VarInt in
  need21 (4 + 4 + 4 + 4 + 4 + 8);;
  let! effect_pos_x := get_i32 in
  let! effect_pos_y := get_i32 in
  let! effect_pos_z := get_i32 in
  let! volume := get_f32 in
  let! pitch := get_f32 in
  let! seed := get_i64 in
  ret (mkSound sound_type sound_name sound_category effect_pos_x effect_pos_y effect_pos_z volume pitch seed).

Definition Sound : codec ClientboundSound := Codec Sound_encode Sound_decode (fun p =>
  fits_s 32 (snd_sound_type p) /\ wf String21 (snd_sound_name p) /\ fits_s 32 (snd_sound_category p) /\
  fits_s 32 (snd_effect_pos_x p) /\ fits_s 32 (snd_effect_pos_y p) /\ fits_s 32 (snd_effect_pos_z p) /\
  fits_u 32 (snd_volume p) /\ fits_u 32 (snd_pitch p) /\ fits_s 64 (snd_seed p)).

Definition Disconnect_encode (v : bytes) : Enc := enc String21 v.
Definition Disconnect_decode : Dec bytes := dec String21.
Definition Disconnect : codec bytes := Codec Disconnect_encode Disconnect_decode (fun v => wf String21 v).

(** The body as it stands. *)
Definition PlayerAbilities_encode (raw : bytes) : Enc := put_slice raw.
Definition PlayerAbilities_decode : Dec bytes := take_rest.
Definition PlayerAbilities : codec bytes := Codec PlayerAbilities_encode PlayerAbilities_decode (fun _ => True).

(** The body as it stands. *)
Definition SetCarriedItem_encode (raw : bytes) : Enc := put_slice raw.
Definition SetCarriedItem_decode : Dec bytes := take_rest.
Definition SetCarriedItem : codec bytes := Codec SetCarriedItem_encode SetCarriedItem_decode (fun _ => True).

(** ** The contracts *)

#[export] Instance Handshake_lawful_121 : Lawful Handshake.
Proof. apply lawful_intro; cbn [Handshake enc dec wf]; unfold Handshake_encode, Handshake_decode; packet_goals. Qed.

#[export] Instance StatusRequest_lawful_121 : Lawful StatusRequest.
Proof. apply lawful_unit. Qed.

#[export] Instance StatusResponse_lawful_121 : Lawful StatusResponse.
Proof. apply lawful_intro; cbn [StatusResponse enc dec wf]; unfold StatusResponse_encode, StatusResponse_decode; packet_goals. Qed.

#[export] Instance PingRequest_lawful_121 : Lawful PingRequest.
Proof. apply lawful_intro; cbn [PingRequest enc dec wf]; unfold PingRequest_encode, PingRequest_decode; packet_goals. Qed.

#[export] Instance PongResponse_lawful_121 : Lawful PongResponse.
Proof. apply lawful_intro; cbn [PongResponse enc dec wf]; unfold PongResponse_encode, PongResponse_decode; packet_goals. Qed.

#[export] Instance LoginStart_lawful_121 : Lawful LoginStart.
Proof. apply lawful_intro; cbn [LoginStart enc dec wf]; unfold LoginStart_encode, LoginStart_decode; packet_goals. Qed.

#[export] Instance LoginDisconnect_lawful_121 : Lawful LoginDisconnect.
Proof. apply lawful_intro; cbn [LoginDisconnect enc dec wf]; unfold LoginDisconnect_encode, LoginDisconnect_decode; packet_goals. Qed.

#[export] Instance EncryptionRequest_lawful_121 : LawfulTail EncryptionRequest.
Proof.
  apply lawful_tail_intro; cbn [EncryptionRequest enc dec wf]; unfold EncryptionRequest_decode; [|solve_total|solve_consuming].
  intros [i k t o] (Hi & Hk & Ht). cbn in Hi, Hk, Ht. destruct (trailing_flag_roundtrip o) as (bs & Hw & Hr).
  unfold EncryptionRequest_encode. eexists. split.
  - repeat first [exact Hw | writes_step]; done.
  - eapply reads_all_bind; [by apply (lawful_reads (c := Str))|]. eapply reads_all_bind; [by apply (lawful_reads (c := ByteArray))|].
    eapply reads_all_bind; [by apply (lawful_reads (c := ByteArray))|]. unfold reads_all, bind. by rewrite Hr.
Qed.

#[export] Instance Property_lawful_121 : Lawful Property.
Proof. apply lawful_intro; cbn [Property enc dec wf]; unfold ProfileProperty_encode, ProfileProperty_decode; packet_goals. Qed.

Lemma length_uuid_halves u : uuid_ok u -> length (wire UuidHalves u) = 16%nat.
Proof.
  intros Hu. rewrite (writes_wire_eq UuidHalves u (be_bytes 8 (wraps 64 (uuid_hi u)) ++ be_bytes 8 (wraps 64 (uuid_lo u)))).
  - by rewrite length_app, !length_be_bytes.
  - cbn [UuidHalves enc]. apply writes_bind; (apply writes_put || (cbn [I64 enc]; unfold encode_i64; codec_unfold; apply writes_put)).
Qed.

Lemma total_trailing : total trailing_decode.
Proof.
  intros src. unfold trailing_decode.
  assert (H1 : total (let! b := dec Bool in ret (Some b, @None bytes))) by solve_total.
  assert (H2 : total (let! u := dec UuidHalves in ret (@None bool, Some u))) by solve_total.
  repeat case_match; first [done | apply H1 | apply H2].
Qed.

Lemma consuming_trailing : consuming trailing_decode.
Proof.
  intros src. unfold trailing_decode.
  assert (H1 : consuming (let! b := dec Bool in ret (Some b, @None bytes))) by solve_consuming.
  assert (H2 : consuming (let! u := dec UuidHalves in ret (@None bool, Some u))) by solve_consuming.
  repeat case_match; first [apply H1 | apply H2 | by exists []].
Qed.
#[export] Hint Resolve total_trailing consuming_trailing : codec.

#[export] Instance LoginSuccess_lawful_121 : LawfulTail LoginSuccess.
Proof.
  apply lawful_tail_intro; cbn [LoginSuccess enc dec wf]; unfold LoginSuccess_decode; [|solve_total|solve_consuming].
  intros [u n ps o s] (Hu & Hn & Hps & Hs). cbn [lsu_uuid lsu_username lsu_properties lsu_strict_error_handling lsu_session_id] in *.
  assert (Ht : exists bs, writes (encode_trailing_flag o;; match s with Some session => enc UuidHalves session | None => ret tt end) bs /\
    reads_all trailing_decode bs (o, s)).
  { destruct s as [session|].
    - destruct Hs as [Hs ->]. exists ([] ++ wire UuidHalves session). split; [apply writes_bind; [apply writes_ret|by apply lawful_writes]|].
      rewrite app_nil_l. unfold reads_all, trailing_decode. rewrite length_uuid_halves by done. unfold bind.
      by rewrite <- (app_nil_r (wire UuidHalves session)), (lawful_reads (c := UuidHalves) session Hs).
    - destruct o as [b|].
      + exists (wire Bool b ++ []). split; [apply writes_bind; [by apply (lawful_writes (c := Bool))|apply writes_ret]|]. by destruct b.
      + exists []. split; [by apply (writes_bind _ _ [] []); apply writes_ret|done]. }
  destruct Ht as (bs & Hw & Hr). unfold LoginSuccess_encode. cbn [lsu_uuid lsu_username lsu_properties lsu_strict_error_handling lsu_session_id].
  eexists. split.
  - apply writes_bind; [by apply lawful_writes|]. apply writes_bind; [by apply (lawful_writes (c := Str))|].
    apply writes_bind; [by apply (lawful_writes (c := Vec Property))|]. exact Hw.
  - eapply reads_all_bind; [by apply (lawful_reads (c := UuidHalves))|]. eapply reads_all_bind; [by apply (lawful_reads (c := Str))|].
    eapply reads_all_bind; [by apply (lawful_reads (c := Vec Property))|]. unfold reads_all, bind. by rewrite Hr.
Qed.

#[export] Instance SetCompression_lawful_121 : Lawful SetCompression.
Proof. apply lawful_intro; cbn [SetCompression enc dec wf]; unfold SetCompression_encode, SetCompression_decode; packet_goals. Qed.

#[export] Instance LoginPluginRequest_lawful_121 : LawfulTail LoginPluginRequest.
Proof. apply lawful_tail_intro; cbn [LoginPluginRequest enc dec wf]; unfold LoginPluginRequest_encode, LoginPluginRequest_decode; packet_tail_goals. Qed.

#[export] Instance EncryptionResponse_lawful_121 : Lawful EncryptionResponse.
Proof. apply lawful_intro; cbn [EncryptionResponse enc dec wf]; unfold EncryptionResponse_encode, EncryptionResponse_decode; packet_goals. Qed.

#[export] Instance LoginPluginResponse_lawful_121 : LawfulTail LoginPluginResponse.
Proof.
  apply lawful_tail_intro; cbn [LoginPluginResponse enc dec wf]; unfold LoginPluginResponse_decode; [|solve_total|solve_consuming].
  intros [i [d|]] Hi; cbn in Hi; unfold LoginPluginResponse_encode; cbn [lps_message_id lps_data];
    (eexists; split; [solve_writes|]);
    (eapply reads_all_bind; [by apply lawful_reads|]).
  - eapply reads_all_bind; [by apply (lawful_reads (c := Bool))|]. done.
  - eapply reads_all_bind_last; [by apply (lawful_reads (c := Bool))|]. done.
Qed.

#[export] Instance LoginAcknowledged_lawful_121 : Lawful LoginAcknowledged.
Proof. apply lawful_unit. Qed.

#[export] Instance AckFinishConfiguration_lawful_121 : Lawful AckFinishConfiguration.
Proof. apply lawful_unit. Qed.

#[export] Instance FinishConfiguration_lawful_121 : Lawful FinishConfiguration.
Proof. apply lawful_unit. Qed.

#[export] Instance KeepAlive_lawful_121 : Lawful KeepAlive.
Proof. apply lawful_intro; cbn [KeepAlive enc dec wf]; unfold KeepAlive_encode, KeepAlive_decode; packet_goals. Qed.

#[export] Instance PlayerPosition_lawful_121 : Lawful PlayerPosition.
Proof. apply lawful_intro; cbn [PlayerPosition enc dec wf]; unfold PlayerPosition_encode, PlayerPosition_decode, need21, String21; packet_goals. Qed.

#[export] Instance SystemChat_lawful_121 : Lawful SystemChat.
Proof. apply lawful_intro; cbn [SystemChat enc dec wf]; unfold SystemChat_encode, SystemChat_decode, need21, String21; packet_goals. Qed.

#[export] Instance DeathLocation_lawful_121 : Lawful DeathLocation21.
Proof.
  apply lawful_intro; cbn [DeathLocation21 enc dec wf]; unfold Death_decode, need21, String21; [|solve_total|solve_consuming].
  intros [[dim pos]|] H; cbn [Death_encode]; unfold String21; (eexists; split; [solve_writes; tauto|]); codec_unfold;
    (apply reads_ensure; [length_side|]).
  - destruct H. eapply reads_bind; [apply reads_uint; width|]. cbn [flag_of Z.eqb negb]. solve_reads.
  - eapply reads_bind_last; [apply reads_uint; width|]. apply reads_ret.
Qed.

Lemma total_when_remaining {A} n (read : Dec A) : guarded (Z.to_nat n) read -> total (when_remaining n read).
Proof.
  intros Hg src. unfold when_remaining. destruct (Z.leb_spec n (remaining src)) as [H|]; [|done]. unfold bind.
  specialize (Hg src ltac:(unfold remaining in H; lia)). by destruct (read src) as [[] ?].
Qed.

Lemma consuming_when_remaining {A} n (read : Dec A) : consuming read -> consuming (when_remaining n read).
Proof.
  intros Hc src. unfold when_remaining. destruct (n <=? remaining src); [|by exists []]. revert src.
  change (consuming (let! v := read in ret (Some v))). apply consuming_bind; [done|]. intros ?. apply consuming_ret.
Qed.

Lemma total_login_tail : total Login_tail_decode.
Proof.
  unfold Login_tail_decode, need21. apply total_bind; [apply total_when_remaining, total_guarded, lawful_total|]. intros ?.
  apply total_bind; [apply total_when_remaining; solve_total|]. intros ?. solve_total.
Qed.
Lemma consuming_login_tail : consuming Login_tail_decode.
Proof.
  unfold Login_tail_decode, need21. apply consuming_bind; [apply consuming_when_remaining, lawful_consuming|]. intros ?.
  apply consuming_bind; [apply consuming_when_remaining; solve_consuming|]. intros ?. solve_consuming.
Qed.
#[export] Hint Resolve total_login_tail consuming_login_tail : codec.

Lemma login_tail_roundtrip sea online secure : tail_ok sea online ->
  exists bs, writes (match sea with Some s => enc VarInt s | None => ret tt end;;
    match online with Some o => put_u8 (flag_byte o) | None => ret tt end;; put_u8 (flag_byte secure)) bs /\
    reads_all Login_tail_decode bs (sea, online, secure).
Proof.
  intros Ht. destruct sea as [s|]; [|cbn in Ht; subst online].
  - cbn [tail_ok] in Ht. pose proof (length_wire_VarInt s) as Hl.
    exists (wire VarInt s ++ (match online with Some o => be_bytes 1 (flag_byte o) | None => [] end ++ be_bytes 1 (flag_byte secure))).
    split.
    + apply writes_bind; [by apply lawful_writes|]. apply writes_bind; [destruct online; [apply writes_put|apply writes_ret]|apply writes_put].
    + unfold reads_all, Login_tail_decode, when_remaining, need21. unfold bind at 1.
      unfold remaining at 1. rewrite (proj2 (Z.leb_le _ _)) by (rewrite !length_app, !length_be_bytes; lia).
      unfold bind at 1. rewrite (lawful_reads (c := VarInt) s Ht). cbv beta iota.
      destruct online as [[]|], secure; reflexivity.
  - exists ([] ++ ([] ++ be_bytes 1 (flag_byte secure))). split; [|by destruct secure].
    apply writes_bind; [apply writes_ret|]. apply writes_bind; [apply writes_ret|apply writes_put].
Qed.

#[export] Instance Login_lawful_121 : LawfulTail Login.
Proof.
  apply lawful_tail_intro; cbn [Login enc dec wf]; unfold Login_decode, need21, String21; [|solve_total|solve_consuming].
  intros p Hp. destruct p. cbn [lg_entity_id lg_is_hardcore lg_dimension_names lg_max_players lg_view_distance lg_simulation_distance
    lg_reduced_debug_info lg_enable_respawn_screen lg_do_limited_crafting lg_dimension_type lg_dimension_name lg_hashed_seed
    lg_game_mode lg_previous_game_mode lg_is_debug lg_is_flat lg_death_location lg_portal_cooldown lg_sea_level lg_online_mode
    lg_secure_profile] in Hp.
  repeat match goal with H : _ /\ _ |- _ => destruct H end.
  match goal with H : tail_ok _ _ |- _ => destruct (login_tail_roundtrip _ _ lg_secure_profile0 H) as (bs & Hw & Hr) end.
  unfold Login_encode, String21. cbn [lg_entity_id lg_is_hardcore lg_dimension_names lg_max_players lg_view_distance lg_simulation_distance
    lg_reduced_debug_info lg_enable_respawn_screen lg_do_limited_crafting lg_dimension_type lg_dimension_name lg_hashed_seed
    lg_game_mode lg_previous_game_mode lg_is_debug lg_is_flat lg_death_location lg_portal_cooldown lg_sea_level lg_online_mode
    lg_secure_profile].
  change (Death_encode lg_death_location0) with (enc DeathLocation21 lg_death_location0).
  eexists. split.
  - repeat first [exact Hw | codec_unfold; writes_step]; done.
  - codec_unfold. repeat first [apply reads_all_ensure; [length_side|] | reads_step]; field_side.
    unfold reads_all, bind. rewrite Hr. cbv beta iota. by rewrite ?flag_of_byte.
Qed.

Lemma sea_level_roundtrip sea : option_ok (fits_s 32) sea ->
  exists bs, writes (match sea with Some s => enc VarInt s | None => ret tt end) bs /\
    reads_all (when_remaining 1 (dec VarInt)) bs sea.
Proof.
  intros Ht. destruct sea as [s|]; [|exists []; split; [apply writes_ret|done]].
  cbn [option_ok] in Ht. pose proof (length_wire_VarInt s) as Hl. exists (wire VarInt s). split; [by apply lawful_writes|].
  unfold reads_all, when_remaining, remaining. rewrite (proj2 (Z.leb_le _ _)) by lia. unfold bind.
  by rewrite <- (app_nil_r (wire VarInt s)), (lawful_reads (c := VarInt) s Ht).
Qed.

#[export] Instance Respawn_lawful_121 : LawfulTail Respawn.
Proof.
  assert (Ht : total (when_remaining 1 (dec VarInt))) by apply total_when_remaining, total_guarded, lawful_total.
  assert (Hc : consuming (when_remaining 1 (dec VarInt))) by apply consuming_when_remaining, lawful_consuming.
  apply lawful_tail_intro; cbn [Respawn enc dec wf]; unfold Respawn_decode, need21, String21; [|solve_total|solve_consuming].
  intros p Hp. destruct p. cbn [rs_dimension_type rs_dimension_name rs_hashed_seed rs_game_mode rs_previous_game_mode rs_is_debug
    rs_is_flat rs_data_kept rs_death_location rs_portal_cooldown rs_sea_level] in Hp.
  repeat match goal with H : _ /\ _ |- _ => destruct H end.
  match goal with H : option_ok _ _ |- _ => destruct (sea_level_roundtrip _ H) as (bs & Hw & Hr) end.
  unfold Respawn_encode, String21. cbn [rs_dimension_type rs_dimension_name rs_hashed_seed rs_game_mode rs_previous_game_mode rs_is_debug
    rs_is_flat rs_data_kept rs_death_location rs_portal_cooldown rs_sea_level].
  change (Death_encode rs_death_location0) with (enc DeathLocation21 rs_death_location0).
  eexists. split.
  - repeat first [exact Hw | codec_unfold; writes_step]; done.
  - codec_unfold. repeat first [apply reads_all_ensure; [length_side|] | reads_step]; field_side.
    unfold reads_all, bind. rewrite Hr. cbv beta iota. by rewrite ?flag_of_byte.
Qed.

#[export] Instance Sound_lawful_121 : Lawful Sound.
Proof. apply lawful_intro; cbn [Sound enc dec wf]; unfold Sound_encode, Sound_decode, need21, String21; packet_goals. Qed.

#[export] Instance Disconnect_lawful_121 : Lawful Disconnect.
Proof. apply lawful_intro; cbn [Disconnect enc dec wf]; unfold Disconnect_encode, Disconnect_decode, need21, String21; packet_goals. Qed.

#[export] Instance PlayerAbilities_lawful_121 : LawfulTail PlayerAbilities.
Proof.
  apply lawful_tail_intro; [|exact total_rest|exact consuming_rest]. intros raw _. exists raw. split; [apply writes_put|apply reads_all_rest].
Qed.

#[export] Instance SetCarriedItem_lawful_121 : LawfulTail SetCarriedItem.
Proof.
  apply lawful_tail_intro; [|exact total_rest|exact consuming_rest]. intros raw _. exists raw. split; [apply writes_put|apply reads_all_rest].
Qed.

(** ** Properties *)

(** The 1.21 packets keep the codec contract and no decoder panics.  The
    optional trailing fields of login success and of the join packet are told
    apart by length: one alone is read back, but a login success with both is read
    as having neither and leaves their 17 bytes, and a join packet with an online
    mode and no sea level is read as one with a sea level. *)
Theorem v1_21_packets_lawful :
  (Lawful Handshake /\ Lawful StatusRequest /\ Lawful StatusResponse /\ Lawful PingRequest /\ Lawful PongResponse) /\
  (Lawful LoginStart /\ Lawful LoginDisconnect /\ LawfulTail EncryptionRequest /\ Lawful EncryptionResponse /\
   Lawful Property /\ LawfulTail LoginSuccess /\ Lawful SetCompression /\ LawfulTail LoginPluginRequest /\
   LawfulTail LoginPluginResponse /\ Lawful LoginAcknowledged /\ Lawful AckFinishConfiguration /\
   Lawful FinishConfiguration) /\
  (LawfulTail Login /\ LawfulTail Respawn /\ Lawful PlayerPosition /\ Lawful KeepAlive /\ Lawful SystemChat /\
   Lawful Sound /\ Lawful Disconnect /\ LawfulTail PlayerAbilities /\ LawfulTail SetCarriedItem) /\
  (forall b s, uuid_ok s -> trailing_decode (wire Bool b ++ wire UuidHalves s) = (Ok (None, None), wire Bool b ++ wire UuidHalves s)) /\
  (forall b c, Login_tail_decode (be_bytes 1 (flag_byte b) ++ be_bytes 1 (flag_byte c)) = (Ok (Some (flag_byte b), None, c), [])).
Proof.
  split_and!; try exact _.
  - intros b s Hs. unfold trailing_decode. rewrite length_app, length_uuid_halves by done. by destruct b.
  - by intros [] [].
Qed.
