(* ===== verification/Blocks.v ===== *)
(** * Chunks and block flattening

    crates/protocol/src/types/chunk.rs: the chunk section formats and the two
    id converters; crates/protocol/src/types/flattening.rs: the tables between
    ids before and after 1.13, built from the rows of the data files, which are
    arguments here. *)
From Stdlib Require Import ZArith Lia Strings.String.
From stdpp Require Import base list numbers strings gmap.
From S2P Require Import Prelude Buf Wire VarInt.
Local Open Scope Z_scope.

(** ** Sections *)

Inductive ChunkFormat := CF_Legacy | CF_Flattened | CF_ModernBiomes | CF_NewHeight.

Record LegacyChunkSection := mkLegacySection {
  lc_blocks : list Z; lc_metadata : list Z; lc_block_light : list Z; lc_sky_light : list Z }.
Definition LegacyChunkSection_new : LegacyChunkSection :=
  mkLegacySection (replicate 4096 0) (replicate 2048 0) (replicate 2048 0) (replicate 2048 0).
Definition section_size (s : LegacyChunkSection) : nat :=
  (length (lc_blocks s) + length (lc_metadata s) + length (lc_block_light s) + length (lc_sky_light s))%nat.

Record FlattenedChunkSection := mkFlattenedSection {
  fc_block_states : list Z; fc_palette : list string; fc_block_light : list Z; fc_sky_light : list Z }.
Definition FlattenedChunkSection_new : FlattenedChunkSection :=
  mkFlattenedSection (replicate 256 0) ["minecraft:air"%string] (replicate 2048 0) (replicate 2048 0).

Record ModernBiomeChunkSection := mkModernSection { mb_block_states : FlattenedChunkSection; mb_biomes : list Z }.
Definition ModernBiomeChunkSection_new : ModernBiomeChunkSection := mkModernSection FlattenedChunkSection_new (replicate 256 0).

Record NewHeightChunkSection := mkNewHeightSection { nh_block_states : FlattenedChunkSection; nh_biomes : list Z }.
Definition NewHeightChunkSection_new : NewHeightChunkSection := mkNewHeightSection FlattenedChunkSection_new (replicate 64 0).

Inductive ChunkData :=
  | CD_Legacy (sections : list LegacyChunkSection)
  | CD_Flattened (sections : list FlattenedChunkSection)
  | CD_ModernBiomes (sections : list ModernBiomeChunkSection)
  | CD_NewHeight (sections : list NewHeightChunkSection).
Definition ChunkData_format (d : ChunkData) : ChunkFormat :=
  match d with
  | CD_Legacy _ => CF_Legacy | CD_Flattened _ => CF_Flattened
  | CD_ModernBiomes _ => CF_ModernBiomes | CD_NewHeight _ => CF_NewHeight
  end.
Definition section_count (d : ChunkData) : nat :=
  match d with
  | CD_Legacy sections => length sections | CD_Flattened sections => length sections
  | CD_ModernBiomes sections => length sections | CD_NewHeight sections => length sections
  end.

(** ** Converters *)

(** A vector of [n] defaults with entries assigned by index. *)
Definition assigned {A} (n : nat) (dflt : A) (entries : list (nat * A)) : list A :=
  fold_left (fun v e => <[e.1 := e.2]> v) entries (replicate n dflt).

(** [for (id, x) in v.iter().enumerate() { map.insert(x, id as _) }]. *)
Definition reverse_map {K} `{Countable K} (w : Z) (v : list K) : gmap K Z :=
  fold_left (fun m e => <[e.2 := wrapu w (Z.of_nat e.1)]> m) (imap (fun i x => (i, x)) v) ∅.

Definition block_names : list (nat * string) :=
  [
    (0%nat, "minecraft:air"); (1%nat, "minecraft:stone"); (2%nat, "minecraft:grass_block");
    (3%nat, "minecraft:dirt"); (4%nat, "minecraft:cobblestone"); (5%nat, "minecraft:oak_planks");
    (6%nat, "minecraft:spruce_planks"); (7%nat, "minecraft:birch_planks"); (8%nat, "minecraft:jungle_planks");
    (9%nat, "minecraft:acacia_planks"); (10%nat, "minecraft:dark_oak_planks"); (11%nat, "minecraft:bedrock");
    (12%nat, "minecraft:water"); (13%nat, "minecraft:lava"); (14%nat, "minecraft:sand");
    (15%nat, "minecraft:gravel"); (16%nat, "minecraft:gold_ore"); (17%nat, "minecraft:iron_ore");
    (18%nat, "minecraft:coal_ore"); (19%nat, "minecraft:oak_log"); (20%nat, "minecraft:spruce_log");
    (21%nat, "minecraft:birch_log"); (22%nat, "minecraft:jungle_log"); (23%nat, "minecraft:acacia_log");
    (24%nat, "minecraft:dark_oak_log"); (25%nat, "minecraft:oak_leaves"); (26%nat, "minecraft:spruce_leaves");
    (27%nat, "minecraft:birch_leaves"); (28%nat, "minecraft:jungle_leaves");
    (29%nat, "minecraft:acacia_leaves"); (30%nat, "minecraft:dark_oak_leaves"); (31%nat, "minecraft:glass");
    (32%nat, "minecraft:lapis_ore"); (33%nat, "minecraft:lapis_block"); (34%nat, "minecraft:sandstone");
    (35%nat, "minecraft:note_block"); (36%nat, "minecraft:bed"); (37%nat, "minecraft:powered_rail");
    (38%nat, "minecraft:detector_rail"); (39%nat, "minecraft:sticky_piston"); (40%nat, "minecraft:web");
    (41%nat, "minecraft:tall_grass"); (42%nat, "minecraft:dead_bush"); (43%nat, "minecraft:piston");
    (44%nat, "minecraft:piston_head"); (45%nat, "minecraft:white_wool"); (46%nat, "minecraft:orange_wool");
    (47%nat, "minecraft:magenta_wool"); (48%nat, "minecraft:light_blue_wool");
    (49%nat, "minecraft:yellow_wool"); (50%nat, "minecraft:lime_wool"); (51%nat, "minecraft:pink_wool");
    (52%nat, "minecraft:gray_wool"); (53%nat, "minecraft:light_gray_wool"); (54%nat, "minecraft:cyan_wool");
    (55%nat, "minecraft:purple_wool"); (56%nat, "minecraft:blue_wool"); (57%nat, "minecraft:brown_wool");
    (58%nat, "minecraft:green_wool"); (59%nat, "minecraft:red_wool"); (60%nat, "minecraft:black_wool") ]%string.

Record BlockStateConverter := mkBlockConverter { legacy_to_flattened : list string; flattened_to_legacy : gmap string Z }.
Definition BlockStateConverter_new : BlockStateConverter :=
  let v := assigned 4096 "minecraft:air"%string block_names in mkBlockConverter v (reverse_map 16 v).
Definition to_flattened (c : BlockStateConverter) (legacy_id : Z) : string :=
  default "minecraft:air"%string (legacy_to_flattened c !! Z.to_nat legacy_id).
Definition block_to_legacy (c : BlockStateConverter) (flattened_id : string) : Z :=
  default 0 (flattened_to_legacy c !! flattened_id).

Definition biome_ids : list (nat * Z) :=
  [
    (0%nat, 0); (1%nat, 5); (2%nat, 3); (3%nat, 6); (4%nat, 2); (5%nat, 4); (6%nat, 1); (7%nat, 7);
    (8%nat, 8); (9%nat, 9); (10%nat, 10); (11%nat, 11); (12%nat, 12); (13%nat, 13); (14%nat, 14);
    (15%nat, 15); (16%nat, 16); (17%nat, 17); (18%nat, 18); (19%nat, 19); (20%nat, 20); (21%nat, 21);
    (22%nat, 22); (23%nat, 23); (24%nat, 24); (25%nat, 25); (26%nat, 26); (27%nat, 27); (28%nat, 28);
    (29%nat, 29); (30%nat, 30); (31%nat, 31); (32%nat, 32); (33%nat, 33); (34%nat, 34); (35%nat, 35);
    (36%nat, 36); (37%nat, 37); (38%nat, 38); (39%nat, 39) ].

Record BiomeConverter := mkBiomeConverter { legacy_to_modern : list Z; modern_to_legacy : gmap Z Z }.
Definition BiomeConverter_new : BiomeConverter :=
  let v := assigned 256 0 biome_ids in mkBiomeConverter v (reverse_map 8 v).
Definition to_modern (c : BiomeConverter) (legacy_id : Z) : Z := default 0 (legacy_to_modern c !! Z.to_nat legacy_id).
Definition biome_to_legacy (c : BiomeConverter) (modern_id : Z) : Z := default 0 (modern_to_legacy c !! modern_id).

(** ** Flattening tables *)

(** [BlockRow]: id, metadata, modern state and an optional name. *)
Record BlockRow := mkBlockRow { br_id : Z; br_meta : Z; br_modern : Z; br_name : option string }.
Definition legacy_state (r : BlockRow) : Z := Z.lor (wrapu 32 (Z.shiftl (br_id r) 4)) (Z.land (br_meta r) 0xF).
Record ItemRow := mkItemRow { ir_legacy : Z; ir_modern : Z; ir_name : option string }.
Record ItemFile := mkItemFile { identity_range : option (Z * Z); items : list ItemRow }.

(** [entry(k).or_insert(v)]. *)
Definition or_insert (k v : Z) (m : gmap Z Z) : gmap Z Z := match m !! k with Some _ => m | None => <[k := v]> m end.

Record Tables := mkTables { l2m : gmap Z Z; m2l : gmap Z Z; names : gmap Z string }.
Definition tables_empty : Tables := mkTables ∅ ∅ ∅.

(** One row of either file: the inverse keeps its first entry. *)
Definition add_row (t : Tables) (legacy modern : Z) (name : option string) : Tables :=
  mkTables (<[legacy := modern]> (l2m t)) (or_insert modern legacy (m2l t))
    (match name with Some n => <[legacy := n]> (names t) | None => names t end).

Definition block_tables (rows : list BlockRow) : Tables :=
  fold_left (fun t r => add_row t (legacy_state r) (br_modern r) (br_name r)) rows tables_empty.

(** [for i in lo..=hi]. *)
Definition add_identity (t : Tables) (i : Z) : Tables :=
  mkTables (<[wraps 16 i := wrapu 32 i]> (l2m t)) (<[wrapu 32 i := wraps 16 i]> (m2l t)) (names t).
Definition identity_tables (range : option (Z * Z)) : Tables :=
  match range with
  | Some (start, end_) =>
      let lo := Z.max start (- 32768) in let hi := Z.min end_ 32767 in
      fold_left add_identity (seqZ lo (hi - lo + 1)) tables_empty
  | None => tables_empty
  end.
Definition item_tables (f : ItemFile) : Tables :=
  fold_left (fun t r => add_row t (ir_legacy r) (ir_modern r) (ir_name r)) (items f) (identity_tables (identity_range f)).

Definition table_legacy_to_modern (t : Tables) (legacy : Z) : option Z := l2m t !! legacy.
Definition table_modern_to_legacy (t : Tables) (modern : Z) : option Z := m2l t !! modern.
Definition table_name (t : Tables) (legacy : Z) : option string := names t !! legacy.
Definition table_len (t : Tables) : nat := size (l2m t).
Definition table_is_empty (t : Tables) : bool := bool_decide (l2m t = ∅).

(** ** Lemmas *)

Definition keep_row (t : Tables) (r : BlockRow) : Tables := add_row t (legacy_state r) (br_modern r) (br_name r).

Lemma block_tables_snoc rows r : block_tables (rows ++ [r]) = keep_row (block_tables rows) r.
Proof. unfold block_tables. by rewrite fold_left_app. Qed.

Lemma lookup_or_insert k v m k' : or_insert k v m !! k' = if decide (k' = k) then Some (default v (m !! k)) else m !! k'.
Proof.
  unfold or_insert. destruct (m !! k) as [x|] eqn:E; destruct (decide (k' = k)) as [->|Hk]; cbn [default]; try done.
  - by rewrite lookup_insert_eq.
  - by rewrite lookup_insert_ne.
Qed.

(** The first row with a modern state. *)
Definition first_row (rows : list BlockRow) (m l : Z) : Prop :=
  exists pre r post, rows = pre ++ r :: post /\ br_modern r = m /\ legacy_state r = l /\ Forall (fun r' => br_modern r' <> m) pre.

Lemma first_row_snoc rows r m l : first_row (rows ++ [r]) m l <->
  first_row rows m l \/ (Forall (fun r' => br_modern r' <> m) rows /\ br_modern r = m /\ legacy_state r = l).
Proof.
  split.
  - intros (pre & x & post & Heq & Hm & Hl & Hpre). destruct post as [|y post _] using rev_ind.
    + apply app_inj_tail in Heq as [-> ->]. by right.
    + rewrite app_comm_cons, app_assoc in Heq. apply app_inj_tail in Heq as [-> ->]. left. by exists pre, x, post.
  - intros [(pre & x & post & -> & Hx)|(Hall & Hm & Hl)].
    + exists pre, x, (post ++ [r]). rewrite <- app_assoc. by split.
    + by exists rows, r, [].
Qed.

Lemma m2l_first rows m l : m2l (block_tables rows) !! m = Some l <-> first_row rows m l.
Proof.
  assert (H : forall m, (m2l (block_tables rows) !! m = None <-> Forall (fun r => br_modern r <> m) rows) /\
                        forall l, m2l (block_tables rows) !! m = Some l <-> first_row rows m l); [|apply H].
  clear m l. induction rows as [|r rows IH] using rev_ind; intros m.
  - split; [split; [by constructor|done]|]. intros l. split; [done|].
    by intros (pre & x & post & Heq & _); destruct pre.
  - destruct (IH m) as [IHn IHs]. rewrite block_tables_snoc. cbn [keep_row add_row m2l]. rewrite lookup_or_insert.
    rewrite Forall_app, Forall_singleton. setoid_rewrite first_row_snoc.
    destruct (decide (m = br_modern r)) as [->|Hm].
    + split; [split; [done|intros [_ []]; done]|]. intros l. rewrite <- IHs, <- IHn.
      destruct (m2l (block_tables rows) !! br_modern r) eqn:E; cbn [default]; naive_solver.
    + rewrite IHn. split; [naive_solver|]. intros l. rewrite IHs. naive_solver.
Qed.

Lemma l2m_rows rows : NoDup (map legacy_state rows) ->
  forall l m, l2m (block_tables rows) !! l = Some m <-> exists r, r ∈ rows /\ legacy_state r = l /\ br_modern r = m.
Proof.
  induction rows as [|r rows IH] using rev_ind; intros Hnd l m.
  - split; [done|]. intros (r & Hr & _). by apply not_elem_of_nil in Hr.
  - rewrite map_app in Hnd. apply NoDup_app in Hnd as (Hnd & Hnew & _). rewrite block_tables_snoc.
    cbn [keep_row add_row l2m]. setoid_rewrite elem_of_app. setoid_rewrite list_elem_of_singleton.
    destruct (decide (l = legacy_state r)) as [->|Hl].
    + rewrite lookup_insert_eq. split; [intros [= <-]; eauto|]. intros (x & [Hx| ->] & Hlx & <-); [|done].
      exfalso. apply (Hnew (legacy_state r)); [|by left]. rewrite <- Hlx. apply list_elem_of_fmap. eauto.
    + rewrite lookup_insert_ne by done. rewrite IH by done. naive_solver.
Qed.

Lemma length_l2m rows : NoDup (map legacy_state rows) -> table_len (block_tables rows) = length rows.
Proof.
  unfold table_len. induction rows as [|r rows IH] using rev_ind; intros Hnd; [done|].
  rewrite map_app in Hnd. apply NoDup_app in Hnd as (Hnd & Hnew & _). rewrite block_tables_snoc, length_app.
  cbn [keep_row add_row l2m length]. rewrite map_size_insert_None; [rewrite IH by done; lia|].
  destruct (l2m (block_tables rows) !! legacy_state r) as [m|] eqn:E; [|done].
  apply (l2m_rows rows Hnd) in E as (x & Hx & Hlx & _). exfalso. apply (Hnew (legacy_state r)); [|by left].
  rewrite <- Hlx. apply list_elem_of_fmap. eauto.
Qed.

(** ** Properties *)

(** The flattening table.  With one row per legacy state, every row is found
    under its legacy state; a modern state leads back to the first row that has
    it, so going back and forth from a modern state is the identity; and the
    legacy state packs id and metadata without loss. *)
Theorem flattening_tables (rows : list BlockRow) : NoDup (map legacy_state rows) ->
  let t := block_tables rows in
  (forall l m, table_legacy_to_modern t l = Some m <-> exists r, r ∈ rows /\ legacy_state r = l /\ br_modern r = m) /\
  (forall m l, table_modern_to_legacy t m = Some l <-> first_row rows m l) /\
  (forall m l, table_modern_to_legacy t m = Some l -> table_legacy_to_modern t l = Some m) /\
  table_len t = length rows /\
  (forall r, 0 <= br_id r < 2 ^ 28 -> 0 <= br_meta r < 16 -> legacy_state r = 16 * br_id r + br_meta r).
Proof.
  intros Hnd. cbv zeta. unfold table_legacy_to_modern, table_modern_to_legacy.
  assert (H1 := l2m_rows rows Hnd). assert (H2 : forall m l, m2l (block_tables rows) !! m = Some l <-> first_row rows m l) by (intros; apply m2l_first).
  split; [done|]. split; [done|]. split; [|split; [by apply length_l2m|]].
  - intros m l (pre & r & post & -> & Hm & Hl & _)%H2. apply H1. exists r. split_and!; [|done..].
    apply elem_of_app. right. by left.
  - intros r Hid Hmeta. unfold legacy_state. rewrite Z.shiftl_mul_pow2 by lia. change 0xF with (Z.ones 4). rewrite Z.land_ones by lia.
    change (2 ^ 4) with 16. rewrite wrapu_id by (unfold fits_u; lia). rewrite (Z.mod_small (br_meta r)) by lia.
    rewrite Z.lor_comm. change 16 with (2 ^ 4) at 1. rewrite lor_disjoint by lia. lia.
Qed.

Definition sample_rows : list BlockRow :=
  [ mkBlockRow 0 0 0 (Some "Air"%string); mkBlockRow 1 0 1 None; mkBlockRow 1 1 1 None; mkBlockRow 35 14 1397 (Some "Red Wool"%string) ].

Lemma flattening_tables_witness :
  NoDup (map legacy_state sample_rows) /\ table_modern_to_legacy (block_tables sample_rows) 1 = Some 16 /\
  table_legacy_to_modern (block_tables sample_rows) 16 = Some 1.
Proof.
  assert (H : NoDup (map legacy_state sample_rows)) by (apply (bool_decide_eq_true_1 _); vm_compute; reflexivity).
  assert (H1 : table_modern_to_legacy (block_tables sample_rows) 1 = Some 16) by (vm_compute; reflexivity).
  split; [exact H|]. split; [exact H1|]. exact (proj1 (proj2 (proj2 (flattening_tables sample_rows H))) 1 16 H1).
Defined.

(** The reverse maps of the two converters are filled from the whole vectors, the
    defaults at their end included: the named blocks 1 to 60 and biomes 1 to 39
    are converted there and back, but air is taken back to 4095 and the ocean
    (modern biome 0) to 255, whereas an unknown name becomes 0. *)
Theorem converters_reverse :
  let c := BlockStateConverter_new in let b := BiomeConverter_new in
  Forall (fun id => block_to_legacy c (to_flattened c id) = id) (seqZ 1 60) /\
  Forall (fun id => biome_to_legacy b (to_modern b id) = id) (seqZ 1 39) /\
  block_to_legacy c (to_flattened c 0) = 4095 /\ biome_to_legacy b (to_modern b 0) = 255 /\
  block_to_legacy c "minecraft:unknown" = 0.
Proof.
  assert (Hb : (let c := BlockStateConverter_new in forallb (fun id => block_to_legacy c (to_flattened c id) =? id) (seqZ 1 60) &&
    (block_to_legacy c (to_flattened c 0) =? 4095) && (block_to_legacy c "minecraft:unknown" =? 0)) = true) by (vm_compute; reflexivity).
  assert (Hm : (let b := BiomeConverter_new in forallb (fun id => biome_to_legacy b (to_modern b id) =? id) (seqZ 1 39) &&
    (biome_to_legacy b (to_modern b 0) =? 255)) = true) by (vm_compute; reflexivity).
  cbv zeta in Hb, Hm |- *. apply andb_true_iff in Hb as [[H1 H2%Z.eqb_eq]%andb_true_iff H3%Z.eqb_eq].
  apply andb_true_iff in Hm as [H4 H5%Z.eqb_eq]. rewrite forallb_forall in H1, H4.
  split_and!; [| |done..]; apply Forall_forall; intros id Hid%list_elem_of_In; apply Z.eqb_eq; auto.
Qed.
