(* ===== verification/Modloader.v ===== *)
(** * Mod loaders and plugin messages

    crates/proxy-core/src/net/modloader.rs: detection of modded clients by the
    marker in the handshake address and by the channels they register, and the
    Forge handshake reset; crates/proxy-core/src/net/plugin_decoder.rs: the two
    layouts of plugin messages.  The functions that only log are left out. *)
From Stdlib Require Import ZArith Lia Strings.String Strings.Byte.
From stdpp Require Import base list numbers strings sets.
From S2P Require Import Prelude Buf Wire VarInt Codec Negotiation PacketIo Routing Chars Utf8.
Local Open Scope Z_scope.
Local Open Scope koja_scope.

(** ** Strings *)

Abbreviation NUL := x00.

(** [str::contains]. *)
Definition contains (s p : bytes) : bool := match find_sub p s with Some _ => true | None => false end.

(** [trim_end_matches] of a character. *)
Fixpoint trim_end (c : byte) (s : bytes) : bytes :=
  match s with
  | [] => []
  | b :: s' => match trim_end c s' with [] => if decide (b = c) then [] else [b] | t => b :: t end
  end.

(** ** Channels and kinds *)

Definition FML1_HS : bytes := lit "FML|HS".
Definition FML1_PLAY_CHANNELS : list bytes :=
  [FML1_HS; lit "FML"; lit "FML|MP"; lit "FORGE"; lit "REGISTER"; lit "UNREGISTER"].

Inductive FmlDiscriminator :=
  | ServerHello | ClientHello | ModList | FmlRegistryData | HandshakeAck | HandshakeReset | UnknownDiscriminator (b : Z).

Definition FmlDiscriminator_from (b : Z) : FmlDiscriminator :=
  match b with
  | 0 => ServerHello | 1 => ClientHello | 2 => ModList | 3 => FmlRegistryData
  | 0xFF => HandshakeAck | 0xFE => HandshakeReset | other => UnknownDiscriminator other
  end.

Inductive ModloaderKind := MK_Unknown | MK_Fml1 | MK_Fml2 | MK_Fml3 | MK_NeoForge | MK_Fabric | MK_Quilt | MK_Vanilla.
#[export] Instance ModloaderKind_eq_dec : EqDecision ModloaderKind.
Proof. solve_decision. Defined.

Record ModloaderSession := mkModSession {
  ms_kind : ModloaderKind;
  ms_client_mods : list (bytes * bytes);
  ms_server_mods : list (bytes * bytes);
  ms_client_channels : list bytes;
  ms_server_channels : list bytes;
  ms_handshake_complete : bool;
}.
Definition ModloaderSession_new : ModloaderSession := mkModSession MK_Unknown [] [] [] [] false.

Definition marker (tag : string) : bytes := NUL :: lit tag ++ [NUL].

Definition has_fml_marker (addr : bytes) : bool :=
  contains addr (marker "FML") || contains addr (marker "FML2") || contains addr (marker "FML3").

Definition apply_fml_marker (addr : bytes) (kind : ModloaderKind) : bytes :=
  let clean := match split NUL (trim_end NUL addr) with first :: _ => first | [] => addr end in
  match kind with
  | MK_Fml1 => clean ++ marker "FML"
  | MK_Fml2 => clean ++ marker "FML2"
  | MK_Fml3 => clean ++ marker "FML3"
  | _ => clean
  end.

Definition detect_from_address (addr : bytes) : ModloaderKind :=
  if contains addr (marker "FML3") then MK_Fml3
  else if contains addr (marker "FML2") then MK_Fml2
  else if contains addr (marker "FML") then MK_Fml1
  else MK_Unknown.

Definition is_fml1_play_channel (channel : bytes) : bool := bool_decide (channel ∈ FML1_PLAY_CHANNELS).

Definition parse_fml1_discriminator (body : bytes) : option FmlDiscriminator :=
  match body with b :: _ => Some (FmlDiscriminator_from (bz b)) | [] => None end.

(** ** Handshake reset *)

Definition build_fml1_handshake_reset (plugin_msg_id : Z) : Enc :=
  VarInt_encode plugin_msg_id;; encode_string FML1_HS;; put_u8 0xFE.

Definition build_fml1_handshake_reset_legacy : Enc :=
  put_u8 0xFA;; put_u16 (wrapu 16 (Z.of_nat (length (encode_utf16 (chars_of FML1_HS)))));;
  put_slice (concat (map (be_bytes 2) (encode_utf16 (chars_of FML1_HS))));;
  put_u16 1;; put_u8 0xFE.

Definition build_fml1_handshake_reset_for_proto (proto plugin_msg_id : Z) : Enc :=
  if is_pre_netty_proto proto then build_fml1_handshake_reset_legacy else build_fml1_handshake_reset plugin_msg_id.

(** ** Channel lists *)

Definition is_fml3_login_channel (channel : bytes) : bool :=
  bool_decide (channel = lit "fml:loginwrapper") || bool_decide (channel = lit "fml:handshake") ||
  starts_with channel (lit "fml:") || starts_with channel (lit "forge:").

Definition NEO_CHANNELS : list bytes :=
  map lit ["minecraft:register"; "minecraft:unregister"; "minecraft:network"; "c:version"; "c:register";
    "neoforge:register"; "neoforge:tier_sorting"; "neoforge:advanced_addon"; "neoforge:modded_network_setup_failed";
    "fabric-networking-api-v1:register_channel"; "fabric-networking-api-v1:unregister_channel";
    "quilt:init"; "quilt:register"; "qsl:networking"; "quilted_fabric_networking_api_v1:register_channel"]%string.

Definition is_neo_config_channel (channel : bytes) : bool :=
  bool_decide (channel ∈ NEO_CHANNELS) || starts_with channel (lit "neoforge:") || starts_with channel (lit "fml:") ||
  starts_with channel (lit "forge:") || starts_with channel (lit "quilt:") || starts_with channel (lit "qsl:") ||
  starts_with channel (lit "quilted_fabric_").

Definition is_quilt_channel (channel : bytes) : bool :=
  bool_decide (channel = lit "quilt:init") || bool_decide (channel = lit "quilt:register") ||
  bool_decide (channel = lit "qsl:networking") ||
  bool_decide (channel = lit "quilted_fabric_networking_api_v1:register_channel") ||
  starts_with channel (lit "quilt:") || starts_with channel (lit "qsl:") || starts_with channel (lit "quilted_fabric_").

Definition parse_nul_list (data : bytes) : list bytes :=
  map (fun s => if utf8_valid s then s else from_utf8_lossy s) (List.filter (fun s => negb (bool_decide (s = []))) (split NUL data)).

Definition detect_kind_from_channel_list (body : bytes) : option ModloaderKind :=
  let channels := parse_nul_list body in
  if existsb is_quilt_channel channels then Some MK_Quilt
  else if existsb (fun c => starts_with c (lit "neoforge:") || bool_decide (c = lit "neoforge:register") ||
                            bool_decide (c = lit "neoforge:tier_sorting")) channels then Some MK_NeoForge
  else if existsb (fun c => starts_with c (lit "fabric-") ||
                            bool_decide (c = lit "fabric-networking-api-v1:register_channel")) channels then Some MK_Fabric
  else None.

(** ** Plugin messages *)

Record PluginMessage := mkPluginMessage { pm_channel : bytes; pm_data : bytes }.

Inductive PluginMessageError :=
  | PM_Decode (e : ProtocolError)
  | PM_Encode (e : ProtocolError)
  | PM_UnexpectedEof
  | PM_DataTooShort (expected got : Z)
  | PM_DataTooLarge (size max : Z).

(** [map_err] on a reader or writer. *)
Definition lift_err {E F A} (f : E -> F) (m : M bytes E A) : M bytes F A := fun s => (map_err f (m s).1, (m s).2).

(** The versions with a 16-bit length before the data. *)
Definition short_plugin_data (proto : Z) : bool :=
  match nearest proto with V1_6_4 | V1_7_10 | V1_8 => true | _ => false end.

Definition decode_plugin_message (proto : Z) : M bytes PluginMessageError PluginMessage :=
  let! channel := lift_err PM_Decode decode_string in
  if short_plugin_data proto then
    let! payload := get_state in
    if (length payload <? 2)%nat then fail PM_UnexpectedEof
    else
      let! length_ := get_u16 in
      let! payload := get_state in
      if Z.of_nat (length payload) <? length_ then fail (PM_DataTooShort length_ (Z.of_nat (length payload)))
      else ret (mkPluginMessage channel (take (Z.to_nat length_) payload))
  else
    let! payload := get_state in ret (mkPluginMessage channel payload).

(** The two decoders are the same code. *)
Definition decode_serverbound_plugin_message (payload : bytes) (proto : Z) : outcome PluginMessageError PluginMessage :=
  (decode_plugin_message proto payload).1.
Definition decode_clientbound_plugin_message (payload : bytes) (proto : Z) : outcome PluginMessageError PluginMessage :=
  (decode_plugin_message proto payload).1.

Definition encode_plugin_message_into (channel data : bytes) (proto : Z) : M bytes PluginMessageError unit :=
  if short_plugin_data proto then
    lift_err PM_Encode (encode_string channel);;
    if 65535 <? Z.of_nat (length data) then fail (PM_DataTooLarge (Z.of_nat (length data)) 65535)
    else lift_err PM_Encode (encode_u16 (Z.of_nat (length data)));; put_slice data
  else lift_err PM_Encode (encode_string channel);; put_slice data.

Definition encode_plugin_message (channel data : bytes) (proto : Z) : outcome PluginMessageError bytes :=
  match encode_plugin_message_into channel data proto [] with
  | (Ok _, bs) => Ok bs
  | (Err e, _) => Err e
  | (Panic, _) => Panic
  | (NoFuel, _) => NoFuel
  end.

(** ** Lemmas *)

Lemma contains_spec s p : contains s p = true <-> exists x r, s = x ++ p ++ r.
Proof.
  unfold contains. destruct (find_sub p s) as [off|] eqn:E.
  - split; [intros _|done]. apply find_sub_some in E as [(x & r & H & _) _]. eauto.
  - split; [done|]. intros (x & r & ->). by apply (find_sub_none p _ x r) in E.
Qed.

Lemma split_clean c s : c ∉ s -> split c s = [s].
Proof.
  induction s as [|b s IH]; intros H; [done|]. cbn [split]. apply not_elem_of_cons in H as [Hb Hs].
  destruct (decide (b = c)); [congruence|]. by rewrite IH.
Qed.

Lemma split_sep c s t : c ∉ s -> split c (s ++ c :: t) = s :: split c t.
Proof.
  induction s as [|b s IH]; intros H; cbn [app split]; [by destruct (decide (c = c))|].
  apply not_elem_of_cons in H as [Hb Hs]. destruct (decide (b = c)); [congruence|]. by rewrite IH.
Qed.

Lemma split_has_parts c s : split c s <> [].
Proof. destruct s as [|b s]; [done|]. cbn [split]. destruct (decide (b = c)); [done|]. by destruct (split c s). Qed.

(** A part enclosed in separators is a part, and not the first. *)
Lemma split_enclosed c x t r : c ∉ t -> t ∈ tail (split c (x ++ (c :: t ++ [c]) ++ r)).
Proof.
  intros Ht. induction x as [|b x IH]; cbn [app].
  - cbn [split]. rewrite decide_True by done. cbn [tail]. rewrite <- app_assoc. cbn [app]. rewrite split_sep by done. by left.
  - cbn [split app] in *. destruct (decide (b = c)) as [->|].
    + cbn [tail]. revert IH. by destruct (split c (x ++ _)) as [|y ys]; cbn [tail]; [|right].
    + revert IH. by destruct (split c (x ++ _)).
Qed.

(** The address before the first NUL. *)
Definition host (addr : bytes) : bytes := match split NUL addr with first :: _ => first | [] => [] end.

Lemma host_clean addr : NUL ∉ host addr.
Proof.
  unfold host. induction addr as [|b s IH]; [apply not_elem_of_nil|]. cbn [split].
  destruct (decide (b = NUL)); [apply not_elem_of_nil|]. destruct (split NUL s) as [|p ps]; [|apply not_elem_of_cons; split; [congruence|done]].
  apply not_elem_of_cons. split; [congruence|apply not_elem_of_nil].
Qed.

Lemma host_app s t : NUL ∉ s -> host (s ++ NUL :: t) = s.
Proof. intros H. unfold host. by rewrite split_sep. Qed.
Lemma host_id s : NUL ∉ s -> host s = s.
Proof. intros H. unfold host. by rewrite split_clean. Qed.

Lemma host_cons b s : b <> NUL -> host (b :: s) = b :: host s.
Proof. intros Hb. unfold host. cbn [split]. rewrite decide_False by done. pose proof (split_has_parts NUL s). by destruct (split NUL s). Qed.

Lemma host_trim addr : match split NUL (trim_end NUL addr) with first :: _ => first | [] => addr end = host addr.
Proof.
  transitivity (host (trim_end NUL addr)).
  { unfold host. pose proof (split_has_parts NUL (trim_end NUL addr)). by destruct (split NUL _). }
  induction addr as [|b s IH]; [done|]. cbn [trim_end]. destruct (decide (b = NUL)) as [->|Hb].
  - replace (host (NUL :: s)) with (@nil byte) by done. by destruct (trim_end NUL s).
  - rewrite host_cons, <- IH by done. destruct (trim_end NUL s) as [|x l] eqn:E; [|by rewrite host_cons].
    unfold host. cbn [split]. by rewrite decide_False by done.
Qed.

Lemma contains_marker s tag : NUL ∉ lit tag -> NUL ∉ s -> forall tag', NUL ∉ lit tag' -> lit tag' <> [] ->
  contains (s ++ marker tag) (marker tag') = bool_decide (lit tag' = lit tag).
Proof.
  intros Ht Hs tag' Ht' Hne. case_bool_decide as Heq.
  - apply contains_spec. exists s, []. unfold marker. by rewrite Heq, app_nil_r.
  - destruct (contains _ _) eqn:E; [|done]. apply contains_spec in E as (x & r & E). exfalso. apply Heq.
    pose proof (split_enclosed NUL x (lit tag') r Ht') as Hin. unfold marker in E. rewrite <- E in Hin.
    rewrite split_sep, split_sep in Hin by done. cbn in Hin. by apply elem_of_cons in Hin as [?|[?|?%not_elem_of_nil]%elem_of_cons].
Qed.

Lemma lit_clean t : bool_decide (NUL ∈ lit t) = false -> NUL ∉ lit t.
Proof. by intros H%bool_decide_eq_false. Qed.

Lemma detect_marked s tag kind : NUL ∉ s -> (tag, kind) ∈ [("FML", MK_Fml1); ("FML2", MK_Fml2); ("FML3", MK_Fml3)]%string ->
  detect_from_address (s ++ marker tag) = kind /\ has_fml_marker (s ++ marker tag) = true.
Proof.
  intros Hs Hin. unfold detect_from_address, has_fml_marker.
  assert (Hn : forall t, t ∈ ["FML"; "FML2"; "FML3"]%string -> (NUL ∉ lit t) /\ lit t <> []).
  { intros t Ht. repeat (apply elem_of_cons in Ht as [->|Ht]); [..|by apply not_elem_of_nil in Ht];
      (split; [by apply lit_clean|done]). }
  repeat (apply elem_of_cons in Hin as [[= -> ->]|Hin]); [..|by apply not_elem_of_nil in Hin];
    rewrite !contains_marker by (first [done | apply Hn; repeat constructor]); done.
Qed.

Lemma detect_clean s : NUL ∉ s -> detect_from_address s = MK_Unknown /\ has_fml_marker s = false.
Proof.
  intros Hs. assert (Hn : forall tag, contains s (marker tag) = false).
  { intros tag. destruct (contains s (marker tag)) eqn:E; [|done]. apply contains_spec in E as (x & r & ->). destruct Hs.
    apply elem_of_app. right. by left. }
  unfold detect_from_address, has_fml_marker. by rewrite !Hn.
Qed.

(** The joined form of a channel list. *)
Fixpoint join_nul (names : list bytes) : bytes :=
  match names with [] => [] | [n] => n | n :: names' => n ++ NUL :: join_nul names' end.

Lemma split_join names : Forall (fun n => NUL ∉ n) names -> names <> [] -> split NUL (join_nul names) = names.
Proof.
  induction names as [|n [|m names] IH]; intros H Hne; [done| |].
  - apply Forall_cons in H as [H _]. by apply split_clean.
  - apply Forall_cons in H as [Hn H]. change (join_nul (n :: m :: names)) with (n ++ NUL :: join_nul (m :: names)).
    rewrite split_sep by done. by rewrite IH.
Qed.

Lemma quilt_is_neo c : is_quilt_channel c = true -> is_neo_config_channel c = true.
Proof.
  unfold is_quilt_channel, is_neo_config_channel. rewrite !orb_true_iff, !bool_decide_eq_true.
  assert (Hin : forall s, In s NEO_CHANNELS -> s ∈ NEO_CHANNELS) by (intros; by apply list_elem_of_In).
  intros [[[[[[->| ->]| ->]| ->]|H]|H]|H]; [left..| | |]; [| | | |tauto|tauto|tauto];
    do 5 left; apply Hin; unfold NEO_CHANNELS; cbn [map]; repeat (first [left; reflexivity|right]).
Qed.

Lemma lift_reads {E F A} (f : E -> F) (m : M bytes E A) bs v : reads m bs v -> reads (lift_err f m) bs v.
Proof. intros H rest. unfold lift_err. by rewrite H. Qed.
Lemma lift_writes {E F} (f : E -> F) (m : M bytes E unit) bs : writes m bs -> writes (lift_err f m) bs.
Proof. intros H dst. unfold lift_err. by rewrite H. Qed.
Lemma lift_total {E F A} (f : E -> F) (m : M bytes E A) : total m -> total (lift_err f m).
Proof. intros H src. unfold lift_err. cbn. by apply returned_map_err. Qed.

Lemma decode_plugin_total proto : total (decode_plugin_message proto).
Proof.
  intros src. unfold decode_plugin_message, bind at 1.
  pose proof (lift_total PM_Decode decode_string (lawful_total (c := Str)) src) as H.
  destruct (lift_err PM_Decode decode_string src) as [[channel|e| |] rest]; try done.
  destruct (short_plugin_data proto); [|done]. unfold bind, get_state.
  destruct (Nat.ltb_spec (length rest) 2); [done|]. unfold get_u16, get_uint, bind, take_bytes.
  destruct (Nat.ltb_spec (length rest) 2); [lia|]. cbn. by case_match.
Qed.

(** ** Properties *)

(** Forge markers.  Whatever the address, marking it for a kind and detecting
    the kind again gives that kind for the three Forge generations and none for the
    others; the host part is kept, an earlier marker is replaced, and the result
    holds a marker exactly when the kind has one. *)
Theorem fml_marker_roundtrip (addr : bytes) (kind kind' : ModloaderKind) :
  let marked := apply_fml_marker addr kind in
  let forge := bool_decide (kind ∈ [MK_Fml1; MK_Fml2; MK_Fml3]) in
  detect_from_address marked = (if forge then kind else MK_Unknown) /\ has_fml_marker marked = forge /\
  host marked = host addr /\ apply_fml_marker marked kind' = apply_fml_marker addr kind'.
Proof.
  cbv zeta. assert (Hmark : forall a k, apply_fml_marker a k = match k with
    | MK_Fml1 => host a ++ marker "FML" | MK_Fml2 => host a ++ marker "FML2" | MK_Fml3 => host a ++ marker "FML3" | _ => host a end).
  { intros a k. unfold apply_fml_marker. by rewrite host_trim. }
  pose proof (host_clean addr) as Hc.
  assert (Hhost : host (apply_fml_marker addr kind) = host addr).
  { rewrite Hmark. destruct kind; try (by apply host_id); by apply host_app. }
  split; [|split; [|split; [done|]]].
  1, 2: rewrite Hmark; destruct kind; first [by apply (detect_clean _ Hc) |
    by eapply (detect_marked _ _ _ Hc), list_elem_of_In; cbn [In]; auto].
  rewrite (Hmark (apply_fml_marker addr kind)), (Hmark addr kind'), Hhost. done.
Qed.

(** Plugin messages.  A channel name and data, with at most 65535 bytes of
    data on the versions that count them in 16 bits, are read back by both
    decoders from what the encoder writes for the same protocol number; longer
    data is refused there; and the decoder returns on every payload. *)
Theorem plugin_message_roundtrip (proto : Z) :
  (forall channel data, string_ok channel -> (short_plugin_data proto = true -> Z.of_nat (length data) <= 65535) ->
     exists bs, encode_plugin_message channel data proto = Ok bs /\
       decode_serverbound_plugin_message bs proto = Ok (mkPluginMessage channel data) /\
       decode_clientbound_plugin_message bs proto = Ok (mkPluginMessage channel data)) /\
  (forall channel data, string_ok channel -> short_plugin_data proto = true -> 65535 < Z.of_nat (length data) ->
     encode_plugin_message channel data proto = Err (PM_DataTooLarge (Z.of_nat (length data)) 65535)) /\
  (forall payload, returned (decode_serverbound_plugin_message payload proto)).
Proof.
  split; [|split].
  - intros channel data Hc Hd. unfold decode_clientbound_plugin_message, decode_serverbound_plugin_message.
    pose proof (lift_reads PM_Decode _ _ _ (lawful_reads (c := Str) channel Hc)) as Hr.
    pose proof (lift_writes PM_Encode _ _ (lawful_writes (c := Str) channel Hc)) as Hw.
    unfold encode_plugin_message, encode_plugin_message_into, decode_plugin_message.
    destruct (short_plugin_data proto).
    + specialize (Hd eq_refl). exists (wire Str channel ++ be_bytes 2 (Z.of_nat (length data)) ++ data).
      unfold bind at 1. change encode_string with (enc Str). rewrite Hw. cbn [app]. rewrite (proj2 (Z.ltb_ge _ _)) by lia.
      assert (Hl : fits_u 16 (Z.of_nat (length data))) by width.
      pose proof (lift_writes PM_Encode _ _ (lawful_writes (c := U16) _ Hl)) as Hw2. change encode_u16 with (enc U16).
      assert (Hwire : wire U16 (Z.of_nat (length data)) = be_bytes 2 (Z.of_nat (length data))) by done.
      rewrite Hwire in Hw2. unfold bind. rewrite Hw2. unfold put_slice. rewrite app_assoc. split; [done|].
      change decode_string with (dec Str). rewrite <- app_assoc. rewrite Hr. unfold get_state.
      rewrite length_app, length_be_bytes. rewrite (proj2 (Nat.ltb_ge _ _)) by lia.
      unfold get_u16. rewrite (reads_uint 2 (Z.of_nat (length data)) Hl).
      rewrite (proj2 (Z.ltb_ge _ _)) by lia. rewrite Nat2Z.id, firstn_all. done.
    + exists (wire Str channel ++ data). unfold bind. change encode_string with (enc Str). rewrite Hw. unfold put_slice.
      change decode_string with (dec Str). rewrite Hr. done.
  - intros channel data Hc Hs Hl. unfold encode_plugin_message, encode_plugin_message_into. rewrite Hs. unfold bind at 1.
    change encode_string with (enc Str). rewrite (lift_writes PM_Encode _ _ (lawful_writes (c := Str) channel Hc)).
    by rewrite (proj2 (Z.ltb_lt _ _) Hl).
  - intros payload. apply decode_plugin_total.
Qed.

(** Channel registrations.  A list of valid channel names joined by NULs is
    parsed back to the list; a body is taken for Quilt when it registers a Quilt
    channel, else for NeoForge, else for Fabric, whatever the order of the names;
    and every Quilt channel passes the configuration-phase filter. *)
Theorem channel_lists (names : list bytes) :
  Forall (fun n => (NUL ∉ n) /\ n <> [] /\ utf8_valid n = true) names ->
  parse_nul_list (join_nul names) = names /\
  (detect_kind_from_channel_list (join_nul names) = Some MK_Quilt <-> Exists (fun n => is_quilt_channel n = true) names) /\
  (forall names', names ≡ₚ names' ->
     detect_kind_from_channel_list (join_nul names) = detect_kind_from_channel_list (join_nul names')) /\
  (forall n, is_quilt_channel n = true -> is_neo_config_channel n = true).
Proof.
  assert (Hparse : forall names, Forall (fun n => (NUL ∉ n) /\ n <> [] /\ utf8_valid n = true) names -> parse_nul_list (join_nul names) = names).
  { clear names. intros names H. destruct names as [|n names]; [done|]. unfold parse_nul_list.
    rewrite split_join; [|eapply Forall_impl; [exact H|naive_solver]|done].
    induction H as [|m ms (H1 & H2 & H3) H IH]; [done|]. cbn [List.filter]. rewrite bool_decide_false by done. cbn [negb map].
    by rewrite H3, IH. }
  intros H. split; [by apply Hparse|]. split; [|split; [|intros; by apply quilt_is_neo]].
  - unfold detect_kind_from_channel_list. rewrite Hparse by done. rewrite Exists_exists.
    destruct (existsb is_quilt_channel names) eqn:E.
    + split; [intros _|done]. apply existsb_exists in E as (n & Hn & Hq). exists n. split; [by apply list_elem_of_In|done].
    + split; [repeat case_match; done|]. intros (n & Hn & Hq). exfalso.
      assert (existsb is_quilt_channel names = true); [|congruence]. apply existsb_exists. exists n. split; [by apply list_elem_of_In|done].
  - intros names' Hp. unfold detect_kind_from_channel_list. rewrite !Hparse by (done || by rewrite <- Hp).
    assert (He : forall f : bytes -> bool, existsb f names = existsb f names').
    { intros f. clear H. induction Hp; cbn; [done|by rewrite IHHp|by destruct (f x), (f y)|congruence]. }
    by rewrite !He.
Qed.

Lemma channel_lists_witness :
  Forall (fun n => (NUL ∉ n) /\ n <> [] /\ utf8_valid n = true) [lit "minecraft:brand"; lit "qsl:networking"] /\
  parse_nul_list (join_nul [lit "minecraft:brand"; lit "qsl:networking"]) = [lit "minecraft:brand"; lit "qsl:networking"].
Proof.
  assert (H : Forall (fun n => (NUL ∉ n) /\ n <> [] /\ utf8_valid n = true) [lit "minecraft:brand"; lit "qsl:networking"]).
  { repeat apply Forall_cons_2; [..|apply Forall_nil_2]; (split; [apply lit_clean; reflexivity|split; [discriminate|reflexivity]]). }
  split; [exact H|]. exact (proj1 (channel_lists [lit "minecraft:brand"; lit "qsl:networking"] H)).
Defined.
