(* ===== verification/RegistryTables.v ===== *)
(** * The packet id tables

    The constant tables of crates/protocol/src/registry.rs, row by row and in
    their order: [(protocol, state, direction, name, id)].  [PLAY] is split at the
    comments that head each protocol number's rows. *)
From Stdlib Require Import ZArith.
From stdpp Require Import base list numbers strings countable.
From S2P Require Import Prelude.
Local Open Scope Z_scope.

Inductive ProtocolState := Handshake | Status | Login | Configuration | Play.
Inductive Direction := Serverbound | Clientbound.

Definition Entry : Type := Z * ProtocolState * Direction * string * Z.
Definition row (proto : Z) (state : ProtocolState) (dir : Direction) (name : string) (id : Z) : Entry :=
  (proto, state, dir, name, id).

Definition PRE_NETTY : list Entry :=
  [row 78 Login Serverbound "ServerboundPingRequest" 254;
   row 78 Login Serverbound "HandshakeC2S" 2;
   row 78 Login Clientbound "EncryptionKeyRequestS2C" 253;
   row 78 Login Serverbound "EncryptionKeyResponseC2S" 252;
   row 78 Login Clientbound "LoginRequestS2C" 1].

Definition HANDSHAKE : list Entry :=
  [row 4 Handshake Serverbound "ServerboundHandshake" 0].

Definition STATUS : list Entry :=
  [row 4 Status Serverbound "ServerboundStatusRequest" 0;
   row 4 Status Serverbound "ServerboundPingRequest" 1;
   row 4 Status Clientbound "ClientboundStatusResponse" 0;
   row 4 Status Clientbound "ClientboundPongResponse" 1].

Definition LOGIN : list Entry :=
  [row 4 Login Serverbound "ServerboundLoginStart" 0;
   row 4 Login Serverbound "ServerboundEncryptionResponse" 1;
   row 4 Login Clientbound "ClientboundLoginDisconnect" 0;
   row 4 Login Clientbound "ClientboundEncryptionRequest" 1;
   row 4 Login Clientbound "ClientboundLoginSuccess" 2;
   row 47 Login Clientbound "ClientboundSetCompression" 3;
   row 393 Login Clientbound "ClientboundLoginPluginRequest" 4;
   row 393 Login Serverbound "ServerboundLoginPluginResponse" 2;
   row 764 Login Serverbound "ServerboundLoginAcknowledged" 3].

Definition CONFIGURATION : list Entry :=
  [row 764 Configuration Clientbound "ClientboundCustomPayload" 0;
   row 764 Configuration Clientbound "ClientboundPluginMessage" 0;
   row 764 Configuration Clientbound "ClientboundDisconnect" 1;
   row 764 Configuration Clientbound "FinishConfiguration" 2;
   row 764 Configuration Clientbound "ClientboundKeepAlive" 3;
   row 764 Configuration Clientbound "ClientboundPing" 4;
   row 764 Configuration Clientbound "ClientboundRegistryData" 5;
   row 764 Configuration Serverbound "ServerboundCustomPayload" 1;
   row 764 Configuration Serverbound "ServerboundPluginMessage" 1;
   row 764 Configuration Serverbound "FinishConfiguration" 2;
   row 764 Configuration Serverbound "AcknowledgeFinishConfiguration" 2;
   row 766 Configuration Clientbound "ClientboundCustomPayload" 1;
   row 766 Configuration Clientbound "ClientboundPluginMessage" 1;
   row 766 Configuration Clientbound "ClientboundDisconnect" 2;
   row 766 Configuration Clientbound "FinishConfiguration" 3;
   row 766 Configuration Clientbound "ClientboundKeepAlive" 4;
   row 766 Configuration Clientbound "ClientboundPing" 5;
   row 766 Configuration Clientbound "ClientboundRegistryData" 7;
   row 766 Configuration Serverbound "ServerboundCustomPayload" 2;
   row 766 Configuration Serverbound "ServerboundPluginMessage" 2;
   row 766 Configuration Serverbound "FinishConfiguration" 3;
   row 766 Configuration Serverbound "AcknowledgeFinishConfiguration" 3;
   row 766 Configuration Clientbound "ClientboundSelectKnownPacks" 14;
   row 766 Configuration Serverbound "ServerboundSelectKnownPacks" 7].

Definition PLAY_78 : list Entry :=
  [row 78 Play Clientbound "ClientboundKeepAlive" 0;
   row 78 Play Clientbound "ClientboundTimeUpdate" 4;
   row 78 Play Clientbound "ClientboundSpawnPosition" 6;
   row 78 Play Clientbound "ClientboundUpdateHealth" 8;
   row 78 Play Clientbound "ClientboundChatMessage" 3;
   row 78 Play Clientbound "ClientboundRespawn" 9;
   row 78 Play Clientbound "ClientboundPlayerPosition" 13;
   row 78 Play Clientbound "ClientboundHeldItemChange" 16;
   row 78 Play Clientbound "ClientboundPlayerAbilities" 202;
   row 78 Play Clientbound "ClientboundDisconnect" 255].

Definition PLAY_5 : list Entry :=
  [row 5 Play Clientbound "ClientboundKeepAlive" 0;
   row 5 Play Clientbound "ClientboundJoinGame" 1;
   row 5 Play Clientbound "ClientboundChatMessage" 2;
   row 5 Play Clientbound "ClientboundRespawn" 7;
   row 5 Play Clientbound "ClientboundPlayerPosition" 8;
   row 5 Play Clientbound "ClientboundSetHeldItem" 9;
   row 5 Play Clientbound "ClientboundSetCarriedItem" 9;
   row 5 Play Clientbound "ClientboundLevelChunkWithLight" 33;
   row 5 Play Clientbound "ClientboundNamedSoundEffect" 41;
   row 5 Play Clientbound "ClientboundSound" 41;
   row 5 Play Clientbound "ClientboundPlayerAbilities" 57;
   row 5 Play Clientbound "ClientboundPluginMessage" 63;
   row 5 Play Clientbound "ClientboundCustomPayload" 63;
   row 5 Play Clientbound "ClientboundDisconnect" 64;
   row 5 Play Serverbound "ServerboundKeepAlive" 0;
   row 5 Play Serverbound "ServerboundChatMessage" 1;
   row 5 Play Serverbound "ServerboundPluginMessage" 23;
   row 5 Play Serverbound "ServerboundCustomPayload" 23;
   row 5 Play Serverbound "ServerboundMovePlayerStatusOnly" 3;
   row 5 Play Serverbound "ServerboundMovePlayerPos" 4;
   row 5 Play Serverbound "ServerboundMovePlayerRot" 5;
   row 5 Play Serverbound "ServerboundMovePlayerPosRot" 6].

Definition PLAY_47 : list Entry :=
  [row 47 Play Clientbound "ClientboundKeepAlive" 0;
   row 47 Play Clientbound "ClientboundJoinGame" 1;
   row 47 Play Clientbound "ClientboundChatMessage" 2;
   row 47 Play Clientbound "ClientboundRespawn" 7;
   row 47 Play Clientbound "ClientboundPlayerPosition" 8;
   row 47 Play Clientbound "ClientboundSetHeldItem" 9;
   row 47 Play Clientbound "ClientboundSetCarriedItem" 9;
   row 47 Play Clientbound "ClientboundLevelChunkWithLight" 33;
   row 47 Play Clientbound "ClientboundNamedSoundEffect" 41;
   row 47 Play Clientbound "ClientboundSound" 41;
   row 47 Play Clientbound "ClientboundPlayerAbilities" 57;
   row 47 Play Clientbound "ClientboundPluginMessage" 63;
   row 47 Play Clientbound "ClientboundCustomPayload" 63;
   row 47 Play Clientbound "ClientboundDisconnect" 64;
   row 47 Play Serverbound "ServerboundKeepAlive" 0;
   row 47 Play Serverbound "ServerboundChatMessage" 1;
   row 47 Play Serverbound "ServerboundPluginMessage" 23;
   row 47 Play Serverbound "ServerboundCustomPayload" 23;
   row 47 Play Serverbound "ServerboundMovePlayerStatusOnly" 3;
   row 47 Play Serverbound "ServerboundMovePlayerPos" 4;
   row 47 Play Serverbound "ServerboundMovePlayerRot" 5;
   row 47 Play Serverbound "ServerboundMovePlayerPosRot" 6].

Definition PLAY_107 : list Entry :=
  [row 107 Play Clientbound "ClientboundBossBar" 12;
   row 107 Play Clientbound "ClientboundChatMessage" 15;
   row 107 Play Clientbound "ClientboundPluginMessage" 24;
   row 107 Play Clientbound "ClientboundCustomPayload" 24;
   row 107 Play Clientbound "ClientboundNamedSoundEffect" 25;
   row 107 Play Clientbound "ClientboundSound" 25;
   row 107 Play Clientbound "ClientboundDisconnect" 26;
   row 107 Play Clientbound "ClientboundKeepAlive" 31;
   row 107 Play Clientbound "ClientboundLevelChunkWithLight" 32;
   row 107 Play Clientbound "ClientboundJoinGame" 35;
   row 107 Play Clientbound "ClientboundLogin" 35;
   row 107 Play Clientbound "ClientboundPlayerAbilities" 43;
   row 107 Play Clientbound "ClientboundPlayerPosition" 46;
   row 107 Play Clientbound "ClientboundRespawn" 51;
   row 107 Play Clientbound "ClientboundSetHeldItem" 55;
   row 107 Play Clientbound "ClientboundSetCarriedItem" 55;
   row 107 Play Serverbound "ServerboundChatMessage" 2;
   row 107 Play Serverbound "ServerboundPluginMessage" 9;
   row 107 Play Serverbound "ServerboundCustomPayload" 9;
   row 107 Play Serverbound "ServerboundKeepAlive" 11].

Definition PLAY_108 : list Entry :=
  [row 108 Play Clientbound "ClientboundBossBar" 12;
   row 108 Play Clientbound "ClientboundChatMessage" 15;
   row 108 Play Clientbound "ClientboundPluginMessage" 24;
   row 108 Play Clientbound "ClientboundCustomPayload" 24;
   row 108 Play Clientbound "ClientboundNamedSoundEffect" 25;
   row 108 Play Clientbound "ClientboundSound" 25;
   row 108 Play Clientbound "ClientboundDisconnect" 26;
   row 108 Play Clientbound "ClientboundKeepAlive" 31;
   row 108 Play Clientbound "ClientboundLevelChunkWithLight" 32;
   row 108 Play Clientbound "ClientboundJoinGame" 35;
   row 108 Play Clientbound "ClientboundLogin" 35;
   row 108 Play Clientbound "ClientboundPlayerAbilities" 43;
   row 108 Play Clientbound "ClientboundPlayerPosition" 46;
   row 108 Play Clientbound "ClientboundRespawn" 51;
   row 108 Play Clientbound "ClientboundSetHeldItem" 55;
   row 108 Play Clientbound "ClientboundSetCarriedItem" 55;
   row 108 Play Serverbound "ServerboundChatMessage" 2;
   row 108 Play Serverbound "ServerboundPluginMessage" 9;
   row 108 Play Serverbound "ServerboundCustomPayload" 9;
   row 108 Play Serverbound "ServerboundKeepAlive" 11].

Definition PLAY_109 : list Entry :=
  [row 109 Play Clientbound "ClientboundBossBar" 12;
   row 109 Play Clientbound "ClientboundChatMessage" 15;
   row 109 Play Clientbound "ClientboundPluginMessage" 24;
   row 109 Play Clientbound "ClientboundCustomPayload" 24;
   row 109 Play Clientbound "ClientboundNamedSoundEffect" 25;
   row 109 Play Clientbound "ClientboundSound" 25;
   row 109 Play Clientbound "ClientboundDisconnect" 26;
   row 109 Play Clientbound "ClientboundKeepAlive" 31;
   row 109 Play Clientbound "ClientboundLevelChunkWithLight" 32;
   row 109 Play Clientbound "ClientboundJoinGame" 35;
   row 109 Play Clientbound "ClientboundLogin" 35;
   row 109 Play Clientbound "ClientboundPlayerAbilities" 43;
   row 109 Play Clientbound "ClientboundPlayerPosition" 46;
   row 109 Play Clientbound "ClientboundRespawn" 51;
   row 109 Play Clientbound "ClientboundSetHeldItem" 55;
   row 109 Play Clientbound "ClientboundSetCarriedItem" 55;
   row 109 Play Serverbound "ServerboundChatMessage" 2;
   row 109 Play Serverbound "ServerboundPluginMessage" 9;
   row 109 Play Serverbound "ServerboundCustomPayload" 9;
   row 109 Play Serverbound "ServerboundKeepAlive" 11].

Definition PLAY_110 : list Entry :=
  [row 110 Play Clientbound "ClientboundBossBar" 12;
   row 110 Play Clientbound "ClientboundChatMessage" 15;
   row 110 Play Clientbound "ClientboundPluginMessage" 24;
   row 110 Play Clientbound "ClientboundCustomPayload" 24;
   row 110 Play Clientbound "ClientboundNamedSoundEffect" 25;
   row 110 Play Clientbound "ClientboundSound" 25;
   row 110 Play Clientbound "ClientboundDisconnect" 26;
   row 110 Play Clientbound "ClientboundKeepAlive" 31;
   row 110 Play Clientbound "ClientboundLevelChunkWithLight" 32;
   row 110 Play Clientbound "ClientboundJoinGame" 35;
   row 110 Play Clientbound "ClientboundLogin" 35;
   row 110 Play Clientbound "ClientboundPlayerAbilities" 43;
   row 110 Play Clientbound "ClientboundPlayerPosition" 46;
   row 110 Play Clientbound "ClientboundRespawn" 51;
   row 110 Play Clientbound "ClientboundSetHeldItem" 55;
   row 110 Play Clientbound "ClientboundSetCarriedItem" 55;
   row 110 Play Serverbound "ServerboundChatMessage" 2;
   row 110 Play Serverbound "ServerboundPluginMessage" 9;
   row 110 Play Serverbound "ServerboundCustomPayload" 9;
   row 110 Play Serverbound "ServerboundKeepAlive" 11].

Definition PLAY_210 : list Entry :=
  [row 210 Play Clientbound "ClientboundBossBar" 12;
   row 210 Play Clientbound "ClientboundChatMessage" 15;
   row 210 Play Clientbound "ClientboundPluginMessage" 24;
   row 210 Play Clientbound "ClientboundCustomPayload" 24;
   row 210 Play Clientbound "ClientboundNamedSoundEffect" 25;
   row 210 Play Clientbound "ClientboundSound" 25;
   row 210 Play Clientbound "ClientboundDisconnect" 26;
   row 210 Play Clientbound "ClientboundKeepAlive" 31;
   row 210 Play Clientbound "ClientboundLevelChunkWithLight" 32;
   row 210 Play Clientbound "ClientboundJoinGame" 35;
   row 210 Play Clientbound "ClientboundLogin" 35;
   row 210 Play Clientbound "ClientboundPlayerAbilities" 43;
   row 210 Play Clientbound "ClientboundPlayerPosition" 46;
   row 210 Play Clientbound "ClientboundRespawn" 51;
   row 210 Play Clientbound "ClientboundSetHeldItem" 55;
   row 210 Play Clientbound "ClientboundSetCarriedItem" 55;
   row 210 Play Serverbound "ServerboundChatMessage" 2;
   row 210 Play Serverbound "ServerboundPluginMessage" 9;
   row 210 Play Serverbound "ServerboundCustomPayload" 9;
   row 210 Play Serverbound "ServerboundKeepAlive" 11].

Definition PLAY_315 : list Entry :=
  [row 315 Play Clientbound "ClientboundBossBar" 12;
   row 315 Play Clientbound "ClientboundChatMessage" 15;
   row 315 Play Clientbound "ClientboundPluginMessage" 24;
   row 315 Play Clientbound "ClientboundCustomPayload" 24;
   row 315 Play Clientbound "ClientboundNamedSoundEffect" 25;
   row 315 Play Clientbound "ClientboundSound" 25;
   row 315 Play Clientbound "ClientboundDisconnect" 26;
   row 315 Play Clientbound "ClientboundKeepAlive" 31;
   row 315 Play Clientbound "ClientboundLevelChunkWithLight" 32;
   row 315 Play Clientbound "ClientboundJoinGame" 35;
   row 315 Play Clientbound "ClientboundLogin" 35;
   row 315 Play Clientbound "ClientboundPlayerAbilities" 43;
   row 315 Play Clientbound "ClientboundPlayerPosition" 46;
   row 315 Play Clientbound "ClientboundRespawn" 51;
   row 315 Play Clientbound "ClientboundSetHeldItem" 55;
   row 315 Play Clientbound "ClientboundSetCarriedItem" 55;
   row 315 Play Serverbound "ServerboundChatMessage" 2;
   row 315 Play Serverbound "ServerboundPluginMessage" 9;
   row 315 Play Serverbound "ServerboundCustomPayload" 9;
   row 315 Play Serverbound "ServerboundKeepAlive" 11].

Definition PLAY_316 : list Entry :=
  [row 316 Play Clientbound "ClientboundBossBar" 12;
   row 316 Play Clientbound "ClientboundChatMessage" 15;
   row 316 Play Clientbound "ClientboundPluginMessage" 24;
   row 316 Play Clientbound "ClientboundCustomPayload" 24;
   row 316 Play Clientbound "ClientboundNamedSoundEffect" 25;
   row 316 Play Clientbound "ClientboundSound" 25;
   row 316 Play Clientbound "ClientboundDisconnect" 26;
   row 316 Play Clientbound "ClientboundKeepAlive" 31;
   row 316 Play Clientbound "ClientboundLevelChunkWithLight" 32;
   row 316 Play Clientbound "ClientboundJoinGame" 35;
   row 316 Play Clientbound "ClientboundLogin" 35;
   row 316 Play Clientbound "ClientboundPlayerAbilities" 43;
   row 316 Play Clientbound "ClientboundPlayerPosition" 46;
   row 316 Play Clientbound "ClientboundRespawn" 51;
   row 316 Play Clientbound "ClientboundSetHeldItem" 55;
   row 316 Play Clientbound "ClientboundSetCarriedItem" 55;
   row 316 Play Serverbound "ServerboundChatMessage" 2;
   row 316 Play Serverbound "ServerboundPluginMessage" 9;
   row 316 Play Serverbound "ServerboundCustomPayload" 9;
   row 316 Play Serverbound "ServerboundKeepAlive" 11].

Definition PLAY_335 : list Entry :=
  [row 335 Play Clientbound "ClientboundBossBar" 12;
   row 335 Play Clientbound "ClientboundChatMessage" 15;
   row 335 Play Clientbound "ClientboundPluginMessage" 24;
   row 335 Play Clientbound "ClientboundCustomPayload" 24;
   row 335 Play Clientbound "ClientboundNamedSoundEffect" 25;
   row 335 Play Clientbound "ClientboundSound" 25;
   row 335 Play Clientbound "ClientboundDisconnect" 26;
   row 335 Play Clientbound "ClientboundKeepAlive" 31;
   row 335 Play Clientbound "ClientboundLevelChunkWithLight" 32;
   row 335 Play Clientbound "ClientboundJoinGame" 35;
   row 335 Play Clientbound "ClientboundLogin" 35;
   row 335 Play Clientbound "ClientboundPlayerAbilities" 43;
   row 335 Play Clientbound "ClientboundPlayerPosition" 46;
   row 335 Play Clientbound "ClientboundRespawn" 52;
   row 335 Play Clientbound "ClientboundSetHeldItem" 57;
   row 335 Play Clientbound "ClientboundSetCarriedItem" 57;
   row 335 Play Serverbound "ServerboundChatMessage" 3;
   row 335 Play Serverbound "ServerboundPluginMessage" 10;
   row 335 Play Serverbound "ServerboundCustomPayload" 10;
   row 335 Play Serverbound "ServerboundKeepAlive" 12].

Definition PLAY_338 : list Entry :=
  [row 338 Play Clientbound "ClientboundBossBar" 12;
   row 338 Play Clientbound "ClientboundChatMessage" 15;
   row 338 Play Clientbound "ClientboundPluginMessage" 24;
   row 338 Play Clientbound "ClientboundCustomPayload" 24;
   row 338 Play Clientbound "ClientboundNamedSoundEffect" 25;
   row 338 Play Clientbound "ClientboundSound" 25;
   row 338 Play Clientbound "ClientboundDisconnect" 26;
   row 338 Play Clientbound "ClientboundKeepAlive" 31;
   row 338 Play Clientbound "ClientboundLevelChunkWithLight" 32;
   row 338 Play Clientbound "ClientboundJoinGame" 35;
   row 338 Play Clientbound "ClientboundLogin" 35;
   row 338 Play Clientbound "ClientboundPlayerAbilities" 44;
   row 338 Play Clientbound "ClientboundPlayerPosition" 47;
   row 338 Play Clientbound "ClientboundRespawn" 53;
   row 338 Play Clientbound "ClientboundSetHeldItem" 58;
   row 338 Play Clientbound "ClientboundSetCarriedItem" 58;
   row 338 Play Serverbound "ServerboundChatMessage" 2;
   row 338 Play Serverbound "ServerboundPluginMessage" 9;
   row 338 Play Serverbound "ServerboundCustomPayload" 9;
   row 338 Play Serverbound "ServerboundKeepAlive" 11].

Definition PLAY_340 : list Entry :=
  [row 340 Play Clientbound "ClientboundBossBar" 12;
   row 340 Play Clientbound "ClientboundChatMessage" 15;
   row 340 Play Clientbound "ClientboundPluginMessage" 24;
   row 340 Play Clientbound "ClientboundCustomPayload" 24;
   row 340 Play Clientbound "ClientboundNamedSoundEffect" 25;
   row 340 Play Clientbound "ClientboundSound" 25;
   row 340 Play Clientbound "ClientboundDisconnect" 26;
   row 340 Play Clientbound "ClientboundKeepAlive" 31;
   row 340 Play Clientbound "ClientboundLevelChunkWithLight" 32;
   row 340 Play Clientbound "ClientboundJoinGame" 35;
   row 340 Play Clientbound "ClientboundLogin" 35;
   row 340 Play Clientbound "ClientboundPlayerAbilities" 44;
   row 340 Play Clientbound "ClientboundPlayerPosition" 47;
   row 340 Play Clientbound "ClientboundRespawn" 53;
   row 340 Play Clientbound "ClientboundSetHeldItem" 58;
   row 340 Play Clientbound "ClientboundSetCarriedItem" 58;
   row 340 Play Serverbound "ServerboundChatMessage" 2;
   row 340 Play Serverbound "ServerboundPluginMessage" 9;
   row 340 Play Serverbound "ServerboundCustomPayload" 9;
   row 340 Play Serverbound "ServerboundKeepAlive" 11;
   row 340 Play Serverbound "ServerboundMovePlayerStatusOnly" 12;
   row 340 Play Serverbound "ServerboundMovePlayerPos" 13;
   row 340 Play Serverbound "ServerboundMovePlayerPosRot" 14;
   row 340 Play Serverbound "ServerboundMovePlayerRot" 15].

Definition PLAY_393 : list Entry :=
  [row 393 Play Clientbound "ClientboundBossBar" 12;
   row 393 Play Clientbound "ClientboundChatMessage" 14;
   row 393 Play Clientbound "ClientboundPluginMessage" 25;
   row 393 Play Clientbound "ClientboundCustomPayload" 25;
   row 393 Play Clientbound "ClientboundNamedSoundEffect" 26;
   row 393 Play Clientbound "ClientboundSound" 26;
   row 393 Play Clientbound "ClientboundDisconnect" 27;
   row 393 Play Clientbound "ClientboundKeepAlive" 33;
   row 393 Play Clientbound "ClientboundLevelChunkWithLight" 34;
   row 393 Play Clientbound "ClientboundJoinGame" 37;
   row 393 Play Clientbound "ClientboundLogin" 37;
   row 393 Play Clientbound "ClientboundPlayerAbilities" 46;
   row 393 Play Clientbound "ClientboundPlayerPosition" 50;
   row 393 Play Clientbound "ClientboundRespawn" 56;
   row 393 Play Clientbound "ClientboundSetHeldItem" 61;
   row 393 Play Clientbound "ClientboundSetCarriedItem" 61;
   row 393 Play Serverbound "ServerboundChatMessage" 2;
   row 393 Play Serverbound "ServerboundPluginMessage" 10;
   row 393 Play Serverbound "ServerboundCustomPayload" 10;
   row 393 Play Serverbound "ServerboundKeepAlive" 14].

Definition PLAY_401 : list Entry :=
  [row 401 Play Clientbound "ClientboundBossBar" 12;
   row 401 Play Clientbound "ClientboundChatMessage" 14;
   row 401 Play Clientbound "ClientboundPluginMessage" 25;
   row 401 Play Clientbound "ClientboundCustomPayload" 25;
   row 401 Play Clientbound "ClientboundNamedSoundEffect" 26;
   row 401 Play Clientbound "ClientboundSound" 26;
   row 401 Play Clientbound "ClientboundDisconnect" 27;
   row 401 Play Clientbound "ClientboundKeepAlive" 33;
   row 401 Play Clientbound "ClientboundLevelChunkWithLight" 34;
   row 401 Play Clientbound "ClientboundJoinGame" 37;
   row 401 Play Clientbound "ClientboundLogin" 37;
   row 401 Play Clientbound "ClientboundPlayerAbilities" 46;
   row 401 Play Clientbound "ClientboundPlayerPosition" 50;
   row 401 Play Clientbound "ClientboundRespawn" 56;
   row 401 Play Clientbound "ClientboundSetHeldItem" 61;
   row 401 Play Clientbound "ClientboundSetCarriedItem" 61;
   row 401 Play Serverbound "ServerboundChatMessage" 2;
   row 401 Play Serverbound "ServerboundPluginMessage" 10;
   row 401 Play Serverbound "ServerboundCustomPayload" 10;
   row 401 Play Serverbound "ServerboundKeepAlive" 14].

Definition PLAY_404 : list Entry :=
  [row 404 Play Clientbound "ClientboundBossBar" 12;
   row 404 Play Clientbound "ClientboundChatMessage" 14;
   row 404 Play Clientbound "ClientboundPluginMessage" 25;
   row 404 Play Clientbound "ClientboundCustomPayload" 25;
   row 404 Play Clientbound "ClientboundNamedSoundEffect" 26;
   row 404 Play Clientbound "ClientboundSound" 26;
   row 404 Play Clientbound "ClientboundDisconnect" 27;
   row 404 Play Clientbound "ClientboundKeepAlive" 33;
   row 404 Play Clientbound "ClientboundLevelChunkWithLight" 34;
   row 404 Play Clientbound "ClientboundJoinGame" 37;
   row 404 Play Clientbound "ClientboundLogin" 37;
   row 404 Play Clientbound "ClientboundPlayerAbilities" 46;
   row 404 Play Clientbound "ClientboundPlayerPosition" 50;
   row 404 Play Clientbound "ClientboundRespawn" 56;
   row 404 Play Clientbound "ClientboundSetHeldItem" 61;
   row 404 Play Clientbound "ClientboundSetCarriedItem" 61;
   row 404 Play Serverbound "ServerboundChatMessage" 2;
   row 404 Play Serverbound "ServerboundPluginMessage" 10;
   row 404 Play Serverbound "ServerboundCustomPayload" 10;
   row 404 Play Serverbound "ServerboundKeepAlive" 14].

Definition PLAY_477 : list Entry :=
  [row 477 Play Clientbound "ClientboundBossBar" 12;
   row 477 Play Clientbound "ClientboundChatMessage" 14;
   row 477 Play Clientbound "ClientboundPluginMessage" 24;
   row 477 Play Clientbound "ClientboundCustomPayload" 24;
   row 477 Play Clientbound "ClientboundNamedSoundEffect" 25;
   row 477 Play Clientbound "ClientboundSound" 25;
   row 477 Play Clientbound "ClientboundDisconnect" 26;
   row 477 Play Clientbound "ClientboundKeepAlive" 32;
   row 477 Play Clientbound "ClientboundLevelChunkWithLight" 33;
   row 477 Play Clientbound "ClientboundJoinGame" 37;
   row 477 Play Clientbound "ClientboundLogin" 37;
   row 477 Play Clientbound "ClientboundPlayerAbilities" 49;
   row 477 Play Clientbound "ClientboundPlayerPosition" 53;
   row 477 Play Clientbound "ClientboundRespawn" 58;
   row 477 Play Clientbound "ClientboundSetHeldItem" 63;
   row 477 Play Clientbound "ClientboundSetCarriedItem" 63;
   row 477 Play Serverbound "ServerboundChatMessage" 3;
   row 477 Play Serverbound "ServerboundPluginMessage" 11;
   row 477 Play Serverbound "ServerboundCustomPayload" 11;
   row 477 Play Serverbound "ServerboundKeepAlive" 15].

Definition PLAY_480 : list Entry :=
  [row 480 Play Clientbound "ClientboundBossBar" 12;
   row 480 Play Clientbound "ClientboundChatMessage" 14;
   row 480 Play Clientbound "ClientboundPluginMessage" 24;
   row 480 Play Clientbound "ClientboundCustomPayload" 24;
   row 480 Play Clientbound "ClientboundNamedSoundEffect" 25;
   row 480 Play Clientbound "ClientboundSound" 25;
   row 480 Play Clientbound "ClientboundDisconnect" 26;
   row 480 Play Clientbound "ClientboundKeepAlive" 32;
   row 480 Play Clientbound "ClientboundLevelChunkWithLight" 33;
   row 480 Play Clientbound "ClientboundJoinGame" 37;
   row 480 Play Clientbound "ClientboundLogin" 37;
   row 480 Play Clientbound "ClientboundPlayerAbilities" 49;
   row 480 Play Clientbound "ClientboundPlayerPosition" 53;
   row 480 Play Clientbound "ClientboundRespawn" 58;
   row 480 Play Clientbound "ClientboundSetHeldItem" 63;
   row 480 Play Clientbound "ClientboundSetCarriedItem" 63;
   row 480 Play Serverbound "ServerboundChatMessage" 3;
   row 480 Play Serverbound "ServerboundPluginMessage" 11;
   row 480 Play Serverbound "ServerboundCustomPayload" 11;
   row 480 Play Serverbound "ServerboundKeepAlive" 15].

Definition PLAY_485 : list Entry :=
  [row 485 Play Clientbound "ClientboundBossBar" 12;
   row 485 Play Clientbound "ClientboundChatMessage" 14;
   row 485 Play Clientbound "ClientboundPluginMessage" 24;
   row 485 Play Clientbound "ClientboundCustomPayload" 24;
   row 485 Play Clientbound "ClientboundNamedSoundEffect" 25;
   row 485 Play Clientbound "ClientboundSound" 25;
   row 485 Play Clientbound "ClientboundDisconnect" 26;
   row 485 Play Clientbound "ClientboundKeepAlive" 32;
   row 485 Play Clientbound "ClientboundLevelChunkWithLight" 33;
   row 485 Play Clientbound "ClientboundJoinGame" 37;
   row 485 Play Clientbound "ClientboundLogin" 37;
   row 485 Play Clientbound "ClientboundPlayerAbilities" 49;
   row 485 Play Clientbound "ClientboundPlayerPosition" 53;
   row 485 Play Clientbound "ClientboundRespawn" 58;
   row 485 Play Clientbound "ClientboundSetHeldItem" 63;
   row 485 Play Clientbound "ClientboundSetCarriedItem" 63;
   row 485 Play Serverbound "ServerboundChatMessage" 3;
   row 485 Play Serverbound "ServerboundPluginMessage" 11;
   row 485 Play Serverbound "ServerboundCustomPayload" 11;
   row 485 Play Serverbound "ServerboundKeepAlive" 15].

Definition PLAY_490 : list Entry :=
  [row 490 Play Clientbound "ClientboundBossBar" 12;
   row 490 Play Clientbound "ClientboundChatMessage" 14;
   row 490 Play Clientbound "ClientboundPluginMessage" 24;
   row 490 Play Clientbound "ClientboundCustomPayload" 24;
   row 490 Play Clientbound "ClientboundNamedSoundEffect" 25;
   row 490 Play Clientbound "ClientboundSound" 25;
   row 490 Play Clientbound "ClientboundDisconnect" 26;
   row 490 Play Clientbound "ClientboundKeepAlive" 32;
   row 490 Play Clientbound "ClientboundLevelChunkWithLight" 33;
   row 490 Play Clientbound "ClientboundJoinGame" 37;
   row 490 Play Clientbound "ClientboundLogin" 37;
   row 490 Play Clientbound "ClientboundPlayerAbilities" 49;
   row 490 Play Clientbound "ClientboundPlayerPosition" 53;
   row 490 Play Clientbound "ClientboundRespawn" 58;
   row 490 Play Clientbound "ClientboundSetHeldItem" 63;
   row 490 Play Clientbound "ClientboundSetCarriedItem" 63;
   row 490 Play Serverbound "ServerboundChatMessage" 3;
   row 490 Play Serverbound "ServerboundPluginMessage" 11;
   row 490 Play Serverbound "ServerboundCustomPayload" 11;
   row 490 Play Serverbound "ServerboundKeepAlive" 15].

Definition PLAY_498 : list Entry :=
  [row 498 Play Clientbound "ClientboundBossBar" 12;
   row 498 Play Clientbound "ClientboundChatMessage" 14;
   row 498 Play Clientbound "ClientboundPluginMessage" 24;
   row 498 Play Clientbound "ClientboundCustomPayload" 24;
   row 498 Play Clientbound "ClientboundNamedSoundEffect" 25;
   row 498 Play Clientbound "ClientboundSound" 25;
   row 498 Play Clientbound "ClientboundDisconnect" 26;
   row 498 Play Clientbound "ClientboundKeepAlive" 32;
   row 498 Play Clientbound "ClientboundLevelChunkWithLight" 33;
   row 498 Play Clientbound "ClientboundJoinGame" 37;
   row 498 Play Clientbound "ClientboundLogin" 37;
   row 498 Play Clientbound "ClientboundPlayerAbilities" 49;
   row 498 Play Clientbound "ClientboundPlayerPosition" 53;
   row 498 Play Clientbound "ClientboundRespawn" 58;
   row 498 Play Clientbound "ClientboundSetHeldItem" 63;
   row 498 Play Clientbound "ClientboundSetCarriedItem" 63;
   row 498 Play Serverbound "ServerboundChatMessage" 3;
   row 498 Play Serverbound "ServerboundPluginMessage" 11;
   row 498 Play Serverbound "ServerboundCustomPayload" 11;
   row 498 Play Serverbound "ServerboundKeepAlive" 15].

Definition PLAY_573 : list Entry :=
  [row 573 Play Clientbound "ClientboundBossBar" 13;
   row 573 Play Clientbound "ClientboundChatMessage" 15;
   row 573 Play Clientbound "ClientboundPluginMessage" 25;
   row 573 Play Clientbound "ClientboundCustomPayload" 25;
   row 573 Play Clientbound "ClientboundNamedSoundEffect" 26;
   row 573 Play Clientbound "ClientboundSound" 26;
   row 573 Play Clientbound "ClientboundDisconnect" 27;
   row 573 Play Clientbound "ClientboundKeepAlive" 33;
   row 573 Play Clientbound "ClientboundLevelChunkWithLight" 34;
   row 573 Play Clientbound "ClientboundJoinGame" 38;
   row 573 Play Clientbound "ClientboundLogin" 38;
   row 573 Play Clientbound "ClientboundPlayerAbilities" 50;
   row 573 Play Clientbound "ClientboundPlayerPosition" 54;
   row 573 Play Clientbound "ClientboundRespawn" 59;
   row 573 Play Clientbound "ClientboundSetHeldItem" 64;
   row 573 Play Clientbound "ClientboundSetCarriedItem" 64;
   row 573 Play Serverbound "ServerboundChatMessage" 3;
   row 573 Play Serverbound "ServerboundPluginMessage" 11;
   row 573 Play Serverbound "ServerboundCustomPayload" 11;
   row 573 Play Serverbound "ServerboundKeepAlive" 15].

Definition PLAY_575 : list Entry :=
  [row 575 Play Clientbound "ClientboundBossBar" 13;
   row 575 Play Clientbound "ClientboundChatMessage" 15;
   row 575 Play Clientbound "ClientboundPluginMessage" 25;
   row 575 Play Clientbound "ClientboundCustomPayload" 25;
   row 575 Play Clientbound "ClientboundNamedSoundEffect" 26;
   row 575 Play Clientbound "ClientboundSound" 26;
   row 575 Play Clientbound "ClientboundDisconnect" 27;
   row 575 Play Clientbound "ClientboundKeepAlive" 33;
   row 575 Play Clientbound "ClientboundLevelChunkWithLight" 34;
   row 575 Play Clientbound "ClientboundJoinGame" 38;
   row 575 Play Clientbound "ClientboundLogin" 38;
   row 575 Play Clientbound "ClientboundPlayerAbilities" 50;
   row 575 Play Clientbound "ClientboundPlayerPosition" 54;
   row 575 Play Clientbound "ClientboundRespawn" 59;
   row 575 Play Clientbound "ClientboundSetHeldItem" 64;
   row 575 Play Clientbound "ClientboundSetCarriedItem" 64;
   row 575 Play Serverbound "ServerboundChatMessage" 3;
   row 575 Play Serverbound "ServerboundPluginMessage" 11;
   row 575 Play Serverbound "ServerboundCustomPayload" 11;
   row 575 Play Serverbound "ServerboundKeepAlive" 15].

Definition PLAY_578 : list Entry :=
  [row 578 Play Clientbound "ClientboundBossBar" 13;
   row 578 Play Clientbound "ClientboundChatMessage" 15;
   row 578 Play Clientbound "ClientboundPluginMessage" 25;
   row 578 Play Clientbound "ClientboundCustomPayload" 25;
   row 578 Play Clientbound "ClientboundNamedSoundEffect" 26;
   row 578 Play Clientbound "ClientboundSound" 26;
   row 578 Play Clientbound "ClientboundDisconnect" 27;
   row 578 Play Clientbound "ClientboundKeepAlive" 33;
   row 578 Play Clientbound "ClientboundLevelChunkWithLight" 34;
   row 578 Play Clientbound "ClientboundJoinGame" 38;
   row 578 Play Clientbound "ClientboundLogin" 38;
   row 578 Play Clientbound "ClientboundPlayerAbilities" 50;
   row 578 Play Clientbound "ClientboundPlayerPosition" 54;
   row 578 Play Clientbound "ClientboundRespawn" 59;
   row 578 Play Clientbound "ClientboundSetHeldItem" 64;
   row 578 Play Clientbound "ClientboundSetCarriedItem" 64;
   row 578 Play Serverbound "ServerboundChatMessage" 3;
   row 578 Play Serverbound "ServerboundPluginMessage" 11;
   row 578 Play Serverbound "ServerboundCustomPayload" 11;
   row 578 Play Serverbound "ServerboundKeepAlive" 15].

Definition PLAY_735 : list Entry :=
  [row 735 Play Clientbound "ClientboundBossBar" 12;
   row 735 Play Clientbound "ClientboundChatMessage" 14;
   row 735 Play Clientbound "ClientboundPluginMessage" 24;
   row 735 Play Clientbound "ClientboundCustomPayload" 24;
   row 735 Play Clientbound "ClientboundNamedSoundEffect" 25;
   row 735 Play Clientbound "ClientboundSound" 25;
   row 735 Play Clientbound "ClientboundDisconnect" 26;
   row 735 Play Clientbound "ClientboundKeepAlive" 32;
   row 735 Play Clientbound "ClientboundLevelChunkWithLight" 33;
   row 735 Play Clientbound "ClientboundJoinGame" 37;
   row 735 Play Clientbound "ClientboundLogin" 37;
   row 735 Play Clientbound "ClientboundPlayerAbilities" 49;
   row 735 Play Clientbound "ClientboundPlayerPosition" 53;
   row 735 Play Clientbound "ClientboundRespawn" 58;
   row 735 Play Clientbound "ClientboundSetHeldItem" 63;
   row 735 Play Clientbound "ClientboundSetCarriedItem" 63;
   row 735 Play Serverbound "ServerboundChatMessage" 3;
   row 735 Play Serverbound "ServerboundPluginMessage" 11;
   row 735 Play Serverbound "ServerboundCustomPayload" 11;
   row 735 Play Serverbound "ServerboundKeepAlive" 16].

Definition PLAY_736 : list Entry :=
  [row 736 Play Clientbound "ClientboundBossBar" 12;
   row 736 Play Clientbound "ClientboundChatMessage" 14;
   row 736 Play Clientbound "ClientboundPluginMessage" 24;
   row 736 Play Clientbound "ClientboundCustomPayload" 24;
   row 736 Play Clientbound "ClientboundNamedSoundEffect" 25;
   row 736 Play Clientbound "ClientboundSound" 25;
   row 736 Play Clientbound "ClientboundDisconnect" 26;
   row 736 Play Clientbound "ClientboundKeepAlive" 32;
   row 736 Play Clientbound "ClientboundLevelChunkWithLight" 33;
   row 736 Play Clientbound "ClientboundJoinGame" 37;
   row 736 Play Clientbound "ClientboundLogin" 37;
   row 736 Play Clientbound "ClientboundPlayerAbilities" 49;
   row 736 Play Clientbound "ClientboundPlayerPosition" 53;
   row 736 Play Clientbound "ClientboundRespawn" 58;
   row 736 Play Clientbound "ClientboundSetHeldItem" 63;
   row 736 Play Clientbound "ClientboundSetCarriedItem" 63;
   row 736 Play Serverbound "ServerboundChatMessage" 3;
   row 736 Play Serverbound "ServerboundPluginMessage" 11;
   row 736 Play Serverbound "ServerboundCustomPayload" 11;
   row 736 Play Serverbound "ServerboundKeepAlive" 16].

Definition PLAY_751 : list Entry :=
  [row 751 Play Clientbound "ClientboundBossBar" 12;
   row 751 Play Clientbound "ClientboundChatMessage" 14;
   row 751 Play Clientbound "ClientboundPluginMessage" 23;
   row 751 Play Clientbound "ClientboundCustomPayload" 23;
   row 751 Play Clientbound "ClientboundNamedSoundEffect" 24;
   row 751 Play Clientbound "ClientboundSound" 24;
   row 751 Play Clientbound "ClientboundDisconnect" 25;
   row 751 Play Clientbound "ClientboundKeepAlive" 31;
   row 751 Play Clientbound "ClientboundLevelChunkWithLight" 32;
   row 751 Play Clientbound "ClientboundJoinGame" 36;
   row 751 Play Clientbound "ClientboundLogin" 36;
   row 751 Play Clientbound "ClientboundPlayerAbilities" 48;
   row 751 Play Clientbound "ClientboundPlayerPosition" 52;
   row 751 Play Clientbound "ClientboundRespawn" 57;
   row 751 Play Clientbound "ClientboundSetHeldItem" 63;
   row 751 Play Clientbound "ClientboundSetCarriedItem" 63;
   row 751 Play Serverbound "ServerboundChatMessage" 3;
   row 751 Play Serverbound "ServerboundPluginMessage" 11;
   row 751 Play Serverbound "ServerboundCustomPayload" 11;
   row 751 Play Serverbound "ServerboundKeepAlive" 16].

Definition PLAY_753 : list Entry :=
  [row 753 Play Clientbound "ClientboundBossBar" 12;
   row 753 Play Clientbound "ClientboundChatMessage" 14;
   row 753 Play Clientbound "ClientboundPluginMessage" 23;
   row 753 Play Clientbound "ClientboundCustomPayload" 23;
   row 753 Play Clientbound "ClientboundNamedSoundEffect" 24;
   row 753 Play Clientbound "ClientboundSound" 24;
   row 753 Play Clientbound "ClientboundDisconnect" 25;
   row 753 Play Clientbound "ClientboundKeepAlive" 31;
   row 753 Play Clientbound "ClientboundLevelChunkWithLight" 32;
   row 753 Play Clientbound "ClientboundJoinGame" 36;
   row 753 Play Clientbound "ClientboundLogin" 36;
   row 753 Play Clientbound "ClientboundPlayerAbilities" 48;
   row 753 Play Clientbound "ClientboundPlayerPosition" 52;
   row 753 Play Clientbound "ClientboundRespawn" 57;
   row 753 Play Clientbound "ClientboundSetHeldItem" 63;
   row 753 Play Clientbound "ClientboundSetCarriedItem" 63;
   row 753 Play Serverbound "ServerboundChatMessage" 3;
   row 753 Play Serverbound "ServerboundPluginMessage" 11;
   row 753 Play Serverbound "ServerboundCustomPayload" 11;
   row 753 Play Serverbound "ServerboundKeepAlive" 16].

Definition PLAY_754 : list Entry :=
  [row 754 Play Clientbound "ClientboundBossBar" 12;
   row 754 Play Clientbound "ClientboundChatMessage" 14;
   row 754 Play Clientbound "ClientboundPluginMessage" 23;
   row 754 Play Clientbound "ClientboundCustomPayload" 23;
   row 754 Play Clientbound "ClientboundNamedSoundEffect" 24;
   row 754 Play Clientbound "ClientboundSound" 24;
   row 754 Play Clientbound "ClientboundDisconnect" 25;
   row 754 Play Clientbound "ClientboundKeepAlive" 31;
   row 754 Play Clientbound "ClientboundLevelChunkWithLight" 32;
   row 754 Play Clientbound "ClientboundJoinGame" 36;
   row 754 Play Clientbound "ClientboundLogin" 36;
   row 754 Play Clientbound "ClientboundPlayerAbilities" 48;
   row 754 Play Clientbound "ClientboundPlayerPosition" 52;
   row 754 Play Clientbound "ClientboundRespawn" 57;
   row 754 Play Clientbound "ClientboundSetHeldItem" 63;
   row 754 Play Clientbound "ClientboundSetCarriedItem" 63;
   row 754 Play Serverbound "ServerboundChatMessage" 3;
   row 754 Play Serverbound "ServerboundPluginMessage" 11;
   row 754 Play Serverbound "ServerboundCustomPayload" 11;
   row 754 Play Serverbound "ServerboundKeepAlive" 16;
   row 754 Play Serverbound "ServerboundMovePlayerPos" 18;
   row 754 Play Serverbound "ServerboundMovePlayerPosRot" 19;
   row 754 Play Serverbound "ServerboundMovePlayerRot" 20;
   row 754 Play Serverbound "ServerboundMovePlayerStatusOnly" 21].

Definition PLAY_755 : list Entry :=
  [row 755 Play Clientbound "ClientboundBossBar" 13;
   row 755 Play Clientbound "ClientboundChatMessage" 15;
   row 755 Play Clientbound "ClientboundPluginMessage" 24;
   row 755 Play Clientbound "ClientboundCustomPayload" 24;
   row 755 Play Clientbound "ClientboundNamedSoundEffect" 25;
   row 755 Play Clientbound "ClientboundSound" 25;
   row 755 Play Clientbound "ClientboundDisconnect" 26;
   row 755 Play Clientbound "ClientboundKeepAlive" 33;
   row 755 Play Clientbound "ClientboundLevelChunkWithLight" 34;
   row 755 Play Clientbound "ClientboundJoinGame" 38;
   row 755 Play Clientbound "ClientboundLogin" 38;
   row 755 Play Clientbound "ClientboundPlayerAbilities" 50;
   row 755 Play Clientbound "ClientboundPlayerPosition" 56;
   row 755 Play Clientbound "ClientboundRespawn" 61;
   row 755 Play Clientbound "ClientboundSetHeldItem" 72;
   row 755 Play Clientbound "ClientboundSetCarriedItem" 72;
   row 755 Play Serverbound "ServerboundChatMessage" 3;
   row 755 Play Serverbound "ServerboundPluginMessage" 10;
   row 755 Play Serverbound "ServerboundCustomPayload" 10;
   row 755 Play Serverbound "ServerboundKeepAlive" 15].

Definition PLAY_756 : list Entry :=
  [row 756 Play Clientbound "ClientboundBossBar" 13;
   row 756 Play Clientbound "ClientboundChatMessage" 15;
   row 756 Play Clientbound "ClientboundPluginMessage" 24;
   row 756 Play Clientbound "ClientboundCustomPayload" 24;
   row 756 Play Clientbound "ClientboundNamedSoundEffect" 25;
   row 756 Play Clientbound "ClientboundSound" 25;
   row 756 Play Clientbound "ClientboundDisconnect" 26;
   row 756 Play Clientbound "ClientboundKeepAlive" 33;
   row 756 Play Clientbound "ClientboundLevelChunkWithLight" 34;
   row 756 Play Clientbound "ClientboundJoinGame" 38;
   row 756 Play Clientbound "ClientboundLogin" 38;
   row 756 Play Clientbound "ClientboundPlayerAbilities" 50;
   row 756 Play Clientbound "ClientboundPlayerPosition" 56;
   row 756 Play Clientbound "ClientboundRespawn" 61;
   row 756 Play Clientbound "ClientboundSetHeldItem" 72;
   row 756 Play Clientbound "ClientboundSetCarriedItem" 72;
   row 756 Play Serverbound "ServerboundChatMessage" 3;
   row 756 Play Serverbound "ServerboundPluginMessage" 10;
   row 756 Play Serverbound "ServerboundCustomPayload" 10;
   row 756 Play Serverbound "ServerboundKeepAlive" 15].

Definition PLAY_757 : list Entry :=
  [row 757 Play Clientbound "ClientboundBossBar" 13;
   row 757 Play Clientbound "ClientboundChatMessage" 15;
   row 757 Play Clientbound "ClientboundPluginMessage" 24;
   row 757 Play Clientbound "ClientboundCustomPayload" 24;
   row 757 Play Clientbound "ClientboundNamedSoundEffect" 25;
   row 757 Play Clientbound "ClientboundSound" 25;
   row 757 Play Clientbound "ClientboundDisconnect" 26;
   row 757 Play Clientbound "ClientboundKeepAlive" 33;
   row 757 Play Clientbound "ClientboundLevelChunkWithLight" 34;
   row 757 Play Clientbound "ClientboundJoinGame" 38;
   row 757 Play Clientbound "ClientboundLogin" 38;
   row 757 Play Clientbound "ClientboundPlayerAbilities" 50;
   row 757 Play Clientbound "ClientboundPlayerPosition" 56;
   row 757 Play Clientbound "ClientboundRespawn" 61;
   row 757 Play Clientbound "ClientboundSetHeldItem" 72;
   row 757 Play Clientbound "ClientboundSetCarriedItem" 72;
   row 757 Play Serverbound "ServerboundChatMessage" 3;
   row 757 Play Serverbound "ServerboundPluginMessage" 10;
   row 757 Play Serverbound "ServerboundCustomPayload" 10;
   row 757 Play Serverbound "ServerboundKeepAlive" 15].

Definition PLAY_758 : list Entry :=
  [row 758 Play Clientbound "ClientboundBossBar" 13;
   row 758 Play Clientbound "ClientboundChatMessage" 15;
   row 758 Play Clientbound "ClientboundPluginMessage" 24;
   row 758 Play Clientbound "ClientboundCustomPayload" 24;
   row 758 Play Clientbound "ClientboundNamedSoundEffect" 25;
   row 758 Play Clientbound "ClientboundSound" 25;
   row 758 Play Clientbound "ClientboundDisconnect" 26;
   row 758 Play Clientbound "ClientboundKeepAlive" 33;
   row 758 Play Clientbound "ClientboundLevelChunkWithLight" 34;
   row 758 Play Clientbound "ClientboundJoinGame" 38;
   row 758 Play Clientbound "ClientboundLogin" 38;
   row 758 Play Clientbound "ClientboundPlayerAbilities" 50;
   row 758 Play Clientbound "ClientboundPlayerPosition" 56;
   row 758 Play Clientbound "ClientboundRespawn" 61;
   row 758 Play Clientbound "ClientboundSetHeldItem" 72;
   row 758 Play Clientbound "ClientboundSetCarriedItem" 72;
   row 758 Play Serverbound "ServerboundChatMessage" 3;
   row 758 Play Serverbound "ServerboundPluginMessage" 10;
   row 758 Play Serverbound "ServerboundCustomPayload" 10;
   row 758 Play Serverbound "ServerboundKeepAlive" 15].

Definition PLAY_759 : list Entry :=
  [row 759 Play Clientbound "ClientboundBossBar" 10;
   row 759 Play Clientbound "ClientboundPluginMessage" 21;
   row 759 Play Clientbound "ClientboundCustomPayload" 21;
   row 759 Play Clientbound "ClientboundNamedSoundEffect" 22;
   row 759 Play Clientbound "ClientboundSound" 22;
   row 759 Play Clientbound "ClientboundDisconnect" 23;
   row 759 Play Clientbound "ClientboundKeepAlive" 30;
   row 759 Play Clientbound "ClientboundLevelChunkWithLight" 31;
   row 759 Play Clientbound "ClientboundJoinGame" 35;
   row 759 Play Clientbound "ClientboundLogin" 35;
   row 759 Play Clientbound "ClientboundPlayerAbilities" 47;
   row 759 Play Clientbound "ClientboundPlayerPosition" 54;
   row 759 Play Clientbound "ClientboundRespawn" 59;
   row 759 Play Clientbound "ClientboundSetHeldItem" 71;
   row 759 Play Clientbound "ClientboundSetCarriedItem" 71;
   row 759 Play Clientbound "ClientboundSystemChat" 95;
   row 759 Play Serverbound "ServerboundChatCommand" 3;
   row 759 Play Serverbound "ServerboundChatMessage" 4;
   row 759 Play Serverbound "ServerboundPluginMessage" 12;
   row 759 Play Serverbound "ServerboundCustomPayload" 12;
   row 759 Play Serverbound "ServerboundKeepAlive" 17].

Definition PLAY_760 : list Entry :=
  [row 760 Play Clientbound "ClientboundBossBar" 10;
   row 760 Play Clientbound "ClientboundPluginMessage" 22;
   row 760 Play Clientbound "ClientboundCustomPayload" 22;
   row 760 Play Clientbound "ClientboundNamedSoundEffect" 23;
   row 760 Play Clientbound "ClientboundSound" 23;
   row 760 Play Clientbound "ClientboundDisconnect" 25;
   row 760 Play Clientbound "ClientboundKeepAlive" 32;
   row 760 Play Clientbound "ClientboundLevelChunkWithLight" 33;
   row 760 Play Clientbound "ClientboundJoinGame" 37;
   row 760 Play Clientbound "ClientboundLogin" 37;
   row 760 Play Clientbound "ClientboundPlayerAbilities" 49;
   row 760 Play Clientbound "ClientboundPlayerPosition" 57;
   row 760 Play Clientbound "ClientboundRespawn" 62;
   row 760 Play Clientbound "ClientboundSetHeldItem" 74;
   row 760 Play Clientbound "ClientboundSetCarriedItem" 74;
   row 760 Play Clientbound "ClientboundSystemChat" 98;
   row 760 Play Serverbound "ServerboundChatCommand" 4;
   row 760 Play Serverbound "ServerboundChatMessage" 5;
   row 760 Play Serverbound "ServerboundPluginMessage" 13;
   row 760 Play Serverbound "ServerboundCustomPayload" 13;
   row 760 Play Serverbound "ServerboundKeepAlive" 18].

Definition PLAY_761 : list Entry :=
  [row 761 Play Clientbound "ClientboundBossBar" 10;
   row 761 Play Clientbound "ClientboundPluginMessage" 21;
   row 761 Play Clientbound "ClientboundCustomPayload" 21;
   row 761 Play Clientbound "ClientboundDisconnect" 23;
   row 761 Play Clientbound "ClientboundKeepAlive" 31;
   row 761 Play Clientbound "ClientboundLevelChunkWithLight" 32;
   row 761 Play Clientbound "ClientboundJoinGame" 36;
   row 761 Play Clientbound "ClientboundLogin" 36;
   row 761 Play Clientbound "ClientboundPlayerAbilities" 48;
   row 761 Play Clientbound "ClientboundPlayerPosition" 56;
   row 761 Play Clientbound "ClientboundRespawn" 61;
   row 761 Play Clientbound "ClientboundSetHeldItem" 73;
   row 761 Play Clientbound "ClientboundSetCarriedItem" 73;
   row 761 Play Clientbound "ClientboundSound" 94;
   row 761 Play Clientbound "ClientboundNamedSoundEffect" 94;
   row 761 Play Clientbound "ClientboundSystemChat" 96;
   row 761 Play Serverbound "ServerboundChatCommand" 4;
   row 761 Play Serverbound "ServerboundChatMessage" 5;
   row 761 Play Serverbound "ServerboundPluginMessage" 12;
   row 761 Play Serverbound "ServerboundCustomPayload" 12;
   row 761 Play Serverbound "ServerboundKeepAlive" 17].

Definition PLAY_762 : list Entry :=
  [row 762 Play Clientbound "ClientboundBossBar" 11;
   row 762 Play Clientbound "ClientboundPluginMessage" 23;
   row 762 Play Clientbound "ClientboundCustomPayload" 23;
   row 762 Play Clientbound "ClientboundDisconnect" 26;
   row 762 Play Clientbound "ClientboundKeepAlive" 35;
   row 762 Play Clientbound "ClientboundLevelChunkWithLight" 36;
   row 762 Play Clientbound "ClientboundJoinGame" 40;
   row 762 Play Clientbound "ClientboundLogin" 40;
   row 762 Play Clientbound "ClientboundPlayerAbilities" 52;
   row 762 Play Clientbound "ClientboundPlayerPosition" 60;
   row 762 Play Clientbound "ClientboundRespawn" 65;
   row 762 Play Clientbound "ClientboundSetHeldItem" 77;
   row 762 Play Clientbound "ClientboundSetCarriedItem" 77;
   row 762 Play Clientbound "ClientboundSound" 98;
   row 762 Play Clientbound "ClientboundNamedSoundEffect" 98;
   row 762 Play Clientbound "ClientboundSystemChat" 100;
   row 762 Play Serverbound "ServerboundChatCommand" 4;
   row 762 Play Serverbound "ServerboundChatMessage" 5;
   row 762 Play Serverbound "ServerboundPluginMessage" 13;
   row 762 Play Serverbound "ServerboundCustomPayload" 13;
   row 762 Play Serverbound "ServerboundKeepAlive" 18;
   row 762 Play Serverbound "ServerboundMovePlayerPos" 20;
   row 762 Play Serverbound "ServerboundMovePlayerPosRot" 21;
   row 762 Play Serverbound "ServerboundMovePlayerRot" 22;
   row 762 Play Serverbound "ServerboundMovePlayerStatusOnly" 23].

Definition PLAY_763 : list Entry :=
  [row 763 Play Clientbound "ClientboundBossBar" 11;
   row 763 Play Clientbound "ClientboundPluginMessage" 23;
   row 763 Play Clientbound "ClientboundCustomPayload" 23;
   row 763 Play Clientbound "ClientboundDisconnect" 26;
   row 763 Play Clientbound "ClientboundKeepAlive" 35;
   row 763 Play Clientbound "ClientboundLevelChunkWithLight" 36;
   row 763 Play Clientbound "ClientboundJoinGame" 40;
   row 763 Play Clientbound "ClientboundLogin" 40;
   row 763 Play Clientbound "ClientboundPlayerAbilities" 52;
   row 763 Play Clientbound "ClientboundPlayerPosition" 60;
   row 763 Play Clientbound "ClientboundRespawn" 65;
   row 763 Play Clientbound "ClientboundSetHeldItem" 77;
   row 763 Play Clientbound "ClientboundSetCarriedItem" 77;
   row 763 Play Clientbound "ClientboundSound" 98;
   row 763 Play Clientbound "ClientboundNamedSoundEffect" 98;
   row 763 Play Clientbound "ClientboundSystemChat" 100;
   row 763 Play Serverbound "ServerboundChatCommand" 4;
   row 763 Play Serverbound "ServerboundChatMessage" 5;
   row 763 Play Serverbound "ServerboundPluginMessage" 13;
   row 763 Play Serverbound "ServerboundCustomPayload" 13;
   row 763 Play Serverbound "ServerboundKeepAlive" 18].

Definition PLAY_764 : list Entry :=
  [row 764 Play Clientbound "ClientboundBossBar" 10;
   row 764 Play Clientbound "ClientboundPluginMessage" 24;
   row 764 Play Clientbound "ClientboundCustomPayload" 24;
   row 764 Play Clientbound "ClientboundDisconnect" 27;
   row 764 Play Clientbound "ClientboundKeepAlive" 36;
   row 764 Play Clientbound "ClientboundLevelChunkWithLight" 37;
   row 764 Play Clientbound "ClientboundJoinGame" 41;
   row 764 Play Clientbound "ClientboundLogin" 41;
   row 764 Play Clientbound "ClientboundPlayerAbilities" 54;
   row 764 Play Clientbound "ClientboundPlayerPosition" 62;
   row 764 Play Clientbound "ClientboundRespawn" 67;
   row 764 Play Clientbound "ClientboundSetHeldItem" 79;
   row 764 Play Clientbound "ClientboundSetCarriedItem" 79;
   row 764 Play Clientbound "ClientboundSound" 100;
   row 764 Play Clientbound "ClientboundNamedSoundEffect" 100;
   row 764 Play Clientbound "ClientboundSystemChat" 103;
   row 764 Play Serverbound "ServerboundChatCommand" 4;
   row 764 Play Serverbound "ServerboundChatMessage" 5;
   row 764 Play Serverbound "ServerboundPluginMessage" 15;
   row 764 Play Serverbound "ServerboundCustomPayload" 15;
   row 764 Play Serverbound "ServerboundKeepAlive" 20].

Definition PLAY_765 : list Entry :=
  [row 765 Play Clientbound "ClientboundBossBar" 10;
   row 765 Play Clientbound "ClientboundPluginMessage" 24;
   row 765 Play Clientbound "ClientboundCustomPayload" 24;
   row 765 Play Clientbound "ClientboundDisconnect" 27;
   row 765 Play Clientbound "ClientboundKeepAlive" 36;
   row 765 Play Clientbound "ClientboundLevelChunkWithLight" 37;
   row 765 Play Clientbound "ClientboundJoinGame" 41;
   row 765 Play Clientbound "ClientboundLogin" 41;
   row 765 Play Clientbound "ClientboundPlayerAbilities" 54;
   row 765 Play Clientbound "ClientboundPlayerPosition" 62;
   row 765 Play Clientbound "ClientboundRespawn" 69;
   row 765 Play Clientbound "ClientboundSetHeldItem" 81;
   row 765 Play Clientbound "ClientboundSetCarriedItem" 81;
   row 765 Play Clientbound "ClientboundSound" 102;
   row 765 Play Clientbound "ClientboundNamedSoundEffect" 102;
   row 765 Play Clientbound "ClientboundSystemChat" 105;
   row 765 Play Serverbound "ServerboundChatCommand" 4;
   row 765 Play Serverbound "ServerboundChatMessage" 5;
   row 765 Play Serverbound "ServerboundPluginMessage" 15;
   row 765 Play Serverbound "ServerboundCustomPayload" 15;
   row 765 Play Serverbound "ServerboundKeepAlive" 21;
   row 765 Play Serverbound "ServerboundMovePlayerPos" 22;
   row 765 Play Serverbound "ServerboundMovePlayerPosRot" 23;
   row 765 Play Serverbound "ServerboundMovePlayerRot" 24;
   row 765 Play Serverbound "ServerboundMovePlayerStatusOnly" 25].

Definition PLAY_766 : list Entry :=
  [row 766 Play Clientbound "ClientboundBossBar" 10;
   row 766 Play Clientbound "ClientboundPluginMessage" 25;
   row 766 Play Clientbound "ClientboundCustomPayload" 25;
   row 766 Play Clientbound "ClientboundDisconnect" 29;
   row 766 Play Clientbound "ClientboundKeepAlive" 38;
   row 766 Play Clientbound "ClientboundLevelChunkWithLight" 39;
   row 766 Play Clientbound "ClientboundJoinGame" 43;
   row 766 Play Clientbound "ClientboundLogin" 43;
   row 766 Play Clientbound "ClientboundPlayerAbilities" 56;
   row 766 Play Clientbound "ClientboundPlayerPosition" 64;
   row 766 Play Clientbound "ClientboundRespawn" 71;
   row 766 Play Clientbound "ClientboundSetHeldItem" 83;
   row 766 Play Clientbound "ClientboundSetCarriedItem" 83;
   row 766 Play Clientbound "ClientboundSound" 104;
   row 766 Play Clientbound "ClientboundNamedSoundEffect" 104;
   row 766 Play Clientbound "ClientboundSystemChat" 108;
   row 766 Play Serverbound "ServerboundChatCommand" 4;
   row 766 Play Serverbound "ServerboundChatMessage" 6;
   row 766 Play Serverbound "ServerboundPluginMessage" 18;
   row 766 Play Serverbound "ServerboundCustomPayload" 18;
   row 766 Play Serverbound "ServerboundKeepAlive" 24].

Definition PLAY_767 : list Entry :=
  [row 767 Play Clientbound "ClientboundBossBar" 10;
   row 767 Play Clientbound "ClientboundPluginMessage" 25;
   row 767 Play Clientbound "ClientboundCustomPayload" 25;
   row 767 Play Clientbound "ClientboundDisconnect" 29;
   row 767 Play Clientbound "ClientboundKeepAlive" 38;
   row 767 Play Clientbound "ClientboundLevelChunkWithLight" 39;
   row 767 Play Clientbound "ClientboundJoinGame" 43;
   row 767 Play Clientbound "ClientboundLogin" 43;
   row 767 Play Clientbound "ClientboundPlayerAbilities" 56;
   row 767 Play Clientbound "ClientboundPlayerPosition" 64;
   row 767 Play Clientbound "ClientboundRespawn" 71;
   row 767 Play Clientbound "ClientboundSetHeldItem" 83;
   row 767 Play Clientbound "ClientboundSetCarriedItem" 83;
   row 767 Play Clientbound "ClientboundSound" 104;
   row 767 Play Clientbound "ClientboundNamedSoundEffect" 104;
   row 767 Play Clientbound "ClientboundSystemChat" 108;
   row 767 Play Serverbound "ServerboundChatCommand" 4;
   row 767 Play Serverbound "ServerboundChatMessage" 6;
   row 767 Play Serverbound "ServerboundPluginMessage" 18;
   row 767 Play Serverbound "ServerboundCustomPayload" 18;
   row 767 Play Serverbound "ServerboundKeepAlive" 24;
   row 767 Play Serverbound "ServerboundMovePlayerPos" 26;
   row 767 Play Serverbound "ServerboundMovePlayerPosRot" 27;
   row 767 Play Serverbound "ServerboundMovePlayerRot" 28;
   row 767 Play Serverbound "ServerboundMovePlayerStatusOnly" 29].

Definition PLAY_768 : list Entry :=
  [row 768 Play Clientbound "ClientboundBossBar" 10;
   row 768 Play Clientbound "ClientboundPluginMessage" 25;
   row 768 Play Clientbound "ClientboundCustomPayload" 25;
   row 768 Play Clientbound "ClientboundDisconnect" 29;
   row 768 Play Clientbound "ClientboundKeepAlive" 39;
   row 768 Play Clientbound "ClientboundLevelChunkWithLight" 40;
   row 768 Play Clientbound "ClientboundJoinGame" 44;
   row 768 Play Clientbound "ClientboundLogin" 44;
   row 768 Play Clientbound "ClientboundPlayerAbilities" 58;
   row 768 Play Clientbound "ClientboundPlayerPosition" 66;
   row 768 Play Clientbound "ClientboundRespawn" 76;
   row 768 Play Clientbound "ClientboundSetHeldItem" 99;
   row 768 Play Clientbound "ClientboundSetCarriedItem" 99;
   row 768 Play Clientbound "ClientboundSound" 111;
   row 768 Play Clientbound "ClientboundNamedSoundEffect" 111;
   row 768 Play Clientbound "ClientboundSystemChat" 115;
   row 768 Play Serverbound "ServerboundChatCommand" 5;
   row 768 Play Serverbound "ServerboundChatMessage" 7;
   row 768 Play Serverbound "ServerboundPluginMessage" 20;
   row 768 Play Serverbound "ServerboundCustomPayload" 20;
   row 768 Play Serverbound "ServerboundKeepAlive" 26].

Definition PLAY_769 : list Entry :=
  [row 769 Play Clientbound "ClientboundBossBar" 10;
   row 769 Play Clientbound "ClientboundPluginMessage" 25;
   row 769 Play Clientbound "ClientboundCustomPayload" 25;
   row 769 Play Clientbound "ClientboundDisconnect" 29;
   row 769 Play Clientbound "ClientboundKeepAlive" 39;
   row 769 Play Clientbound "ClientboundLevelChunkWithLight" 40;
   row 769 Play Clientbound "ClientboundJoinGame" 44;
   row 769 Play Clientbound "ClientboundLogin" 44;
   row 769 Play Clientbound "ClientboundPlayerAbilities" 58;
   row 769 Play Clientbound "ClientboundPlayerPosition" 66;
   row 769 Play Clientbound "ClientboundRespawn" 76;
   row 769 Play Clientbound "ClientboundSetHeldItem" 99;
   row 769 Play Clientbound "ClientboundSetCarriedItem" 99;
   row 769 Play Clientbound "ClientboundSound" 111;
   row 769 Play Clientbound "ClientboundNamedSoundEffect" 111;
   row 769 Play Clientbound "ClientboundSystemChat" 115;
   row 769 Play Serverbound "ServerboundChatCommand" 5;
   row 769 Play Serverbound "ServerboundChatMessage" 7;
   row 769 Play Serverbound "ServerboundPluginMessage" 20;
   row 769 Play Serverbound "ServerboundCustomPayload" 20;
   row 769 Play Serverbound "ServerboundKeepAlive" 26;
   row 769 Play Serverbound "ServerboundMovePlayerPos" 28;
   row 769 Play Serverbound "ServerboundMovePlayerPosRot" 29;
   row 769 Play Serverbound "ServerboundMovePlayerRot" 30;
   row 769 Play Serverbound "ServerboundMovePlayerStatusOnly" 31].

Definition PLAY_770 : list Entry :=
  [row 770 Play Clientbound "ClientboundBossBar" 9;
   row 770 Play Clientbound "ClientboundPluginMessage" 24;
   row 770 Play Clientbound "ClientboundCustomPayload" 24;
   row 770 Play Clientbound "ClientboundDisconnect" 28;
   row 770 Play Clientbound "ClientboundKeepAlive" 38;
   row 770 Play Clientbound "ClientboundLevelChunkWithLight" 39;
   row 770 Play Clientbound "ClientboundJoinGame" 43;
   row 770 Play Clientbound "ClientboundLogin" 43;
   row 770 Play Clientbound "ClientboundPlayerAbilities" 57;
   row 770 Play Clientbound "ClientboundPlayerPosition" 65;
   row 770 Play Clientbound "ClientboundRespawn" 75;
   row 770 Play Clientbound "ClientboundSetHeldItem" 98;
   row 770 Play Clientbound "ClientboundSetCarriedItem" 98;
   row 770 Play Clientbound "ClientboundSound" 110;
   row 770 Play Clientbound "ClientboundNamedSoundEffect" 110;
   row 770 Play Clientbound "ClientboundSystemChat" 114;
   row 770 Play Serverbound "ServerboundChatCommand" 5;
   row 770 Play Serverbound "ServerboundChatMessage" 7;
   row 770 Play Serverbound "ServerboundPluginMessage" 20;
   row 770 Play Serverbound "ServerboundCustomPayload" 20;
   row 770 Play Serverbound "ServerboundKeepAlive" 26;
   row 770 Play Serverbound "ServerboundMovePlayerPos" 28;
   row 770 Play Serverbound "ServerboundMovePlayerPosRot" 29;
   row 770 Play Serverbound "ServerboundMovePlayerRot" 30;
   row 770 Play Serverbound "ServerboundMovePlayerStatusOnly" 31].

Definition PLAY_771 : list Entry :=
  [row 771 Play Clientbound "ClientboundBossBar" 9;
   row 771 Play Clientbound "ClientboundPluginMessage" 24;
   row 771 Play Clientbound "ClientboundCustomPayload" 24;
   row 771 Play Clientbound "ClientboundDisconnect" 28;
   row 771 Play Clientbound "ClientboundKeepAlive" 38;
   row 771 Play Clientbound "ClientboundLevelChunkWithLight" 39;
   row 771 Play Clientbound "ClientboundJoinGame" 43;
   row 771 Play Clientbound "ClientboundLogin" 43;
   row 771 Play Clientbound "ClientboundPlayerAbilities" 57;
   row 771 Play Clientbound "ClientboundPlayerPosition" 65;
   row 771 Play Clientbound "ClientboundRespawn" 75;
   row 771 Play Clientbound "ClientboundSetHeldItem" 98;
   row 771 Play Clientbound "ClientboundSetCarriedItem" 98;
   row 771 Play Clientbound "ClientboundSound" 110;
   row 771 Play Clientbound "ClientboundNamedSoundEffect" 110;
   row 771 Play Clientbound "ClientboundSystemChat" 114;
   row 771 Play Serverbound "ServerboundChatCommand" 5;
   row 771 Play Serverbound "ServerboundChatMessage" 7;
   row 771 Play Serverbound "ServerboundPluginMessage" 20;
   row 771 Play Serverbound "ServerboundCustomPayload" 20;
   row 771 Play Serverbound "ServerboundKeepAlive" 26].

Definition PLAY_772 : list Entry :=
  [row 772 Play Clientbound "ClientboundBossBar" 9;
   row 772 Play Clientbound "ClientboundPluginMessage" 24;
   row 772 Play Clientbound "ClientboundCustomPayload" 24;
   row 772 Play Clientbound "ClientboundDisconnect" 28;
   row 772 Play Clientbound "ClientboundKeepAlive" 38;
   row 772 Play Clientbound "ClientboundLevelChunkWithLight" 39;
   row 772 Play Clientbound "ClientboundJoinGame" 43;
   row 772 Play Clientbound "ClientboundLogin" 43;
   row 772 Play Clientbound "ClientboundPlayerAbilities" 57;
   row 772 Play Clientbound "ClientboundPlayerPosition" 65;
   row 772 Play Clientbound "ClientboundRespawn" 75;
   row 772 Play Clientbound "ClientboundSetHeldItem" 98;
   row 772 Play Clientbound "ClientboundSetCarriedItem" 98;
   row 772 Play Clientbound "ClientboundSound" 110;
   row 772 Play Clientbound "ClientboundNamedSoundEffect" 110;
   row 772 Play Clientbound "ClientboundSystemChat" 114].

Definition PLAY_773 : list Entry :=
  [row 773 Play Clientbound "ClientboundBossBar" 9;
   row 773 Play Clientbound "ClientboundPluginMessage" 24;
   row 773 Play Clientbound "ClientboundCustomPayload" 24;
   row 773 Play Clientbound "ClientboundDisconnect" 32;
   row 773 Play Clientbound "ClientboundKeepAlive" 43;
   row 773 Play Clientbound "ClientboundLevelChunkWithLight" 44;
   row 773 Play Clientbound "ClientboundJoinGame" 48;
   row 773 Play Clientbound "ClientboundLogin" 48;
   row 773 Play Clientbound "ClientboundPlayerAbilities" 62;
   row 773 Play Clientbound "ClientboundPlayerPosition" 70;
   row 773 Play Clientbound "ClientboundRespawn" 80;
   row 773 Play Clientbound "ClientboundSetHeldItem" 103;
   row 773 Play Clientbound "ClientboundSetCarriedItem" 103;
   row 773 Play Clientbound "ClientboundSound" 115;
   row 773 Play Clientbound "ClientboundNamedSoundEffect" 115;
   row 773 Play Clientbound "ClientboundSystemChat" 119].

Definition PLAY_774 : list Entry :=
  [row 774 Play Clientbound "ClientboundBossBar" 9;
   row 774 Play Clientbound "ClientboundPluginMessage" 24;
   row 774 Play Clientbound "ClientboundCustomPayload" 24;
   row 774 Play Clientbound "ClientboundDisconnect" 32;
   row 774 Play Clientbound "ClientboundKeepAlive" 43;
   row 774 Play Clientbound "ClientboundLevelChunkWithLight" 44;
   row 774 Play Clientbound "ClientboundJoinGame" 48;
   row 774 Play Clientbound "ClientboundLogin" 48;
   row 774 Play Clientbound "ClientboundPlayerAbilities" 62;
   row 774 Play Clientbound "ClientboundPlayerPosition" 70;
   row 774 Play Clientbound "ClientboundRespawn" 80;
   row 774 Play Clientbound "ClientboundSetHeldItem" 103;
   row 774 Play Clientbound "ClientboundSetCarriedItem" 103;
   row 774 Play Clientbound "ClientboundSound" 115;
   row 774 Play Clientbound "ClientboundNamedSoundEffect" 115;
   row 774 Play Clientbound "ClientboundSystemChat" 119].

Definition PLAY_775 : list Entry :=
  [row 775 Play Clientbound "ClientboundBossBar" 9;
   row 775 Play Clientbound "ClientboundPluginMessage" 24;
   row 775 Play Clientbound "ClientboundCustomPayload" 24;
   row 775 Play Clientbound "ClientboundDisconnect" 32;
   row 775 Play Clientbound "ClientboundKeepAlive" 44;
   row 775 Play Clientbound "ClientboundLevelChunkWithLight" 45;
   row 775 Play Clientbound "ClientboundJoinGame" 49;
   row 775 Play Clientbound "ClientboundLogin" 49;
   row 775 Play Clientbound "ClientboundPlayerAbilities" 64;
   row 775 Play Clientbound "ClientboundPlayerPosition" 72;
   row 775 Play Clientbound "ClientboundRespawn" 82;
   row 775 Play Clientbound "ClientboundSetHeldItem" 105;
   row 775 Play Clientbound "ClientboundSetCarriedItem" 105;
   row 775 Play Clientbound "ClientboundSound" 117;
   row 775 Play Clientbound "ClientboundNamedSoundEffect" 117;
   row 775 Play Clientbound "ClientboundSystemChat" 121;
   row 775 Play Serverbound "ServerboundChatCommand" 7;
   row 775 Play Serverbound "ServerboundChatMessage" 9;
   row 775 Play Serverbound "ServerboundPluginMessage" 22;
   row 775 Play Serverbound "ServerboundCustomPayload" 22;
   row 775 Play Serverbound "ServerboundKeepAlive" 28;
   row 775 Play Serverbound "ServerboundMovePlayerPos" 30;
   row 775 Play Serverbound "ServerboundMovePlayerPosRot" 31;
   row 775 Play Serverbound "ServerboundMovePlayerRot" 32;
   row 775 Play Serverbound "ServerboundMovePlayerStatusOnly" 33].

Definition PLAY_776 : list Entry :=
  [row 776 Play Clientbound "ClientboundBossBar" 9;
   row 776 Play Clientbound "ClientboundPluginMessage" 24;
   row 776 Play Clientbound "ClientboundCustomPayload" 24;
   row 776 Play Clientbound "ClientboundDisconnect" 32;
   row 776 Play Clientbound "ClientboundKeepAlive" 44;
   row 776 Play Clientbound "ClientboundLevelChunkWithLight" 45;
   row 776 Play Clientbound "ClientboundJoinGame" 49;
   row 776 Play Clientbound "ClientboundLogin" 49;
   row 776 Play Clientbound "ClientboundPlayerAbilities" 64;
   row 776 Play Clientbound "ClientboundPlayerPosition" 72;
   row 776 Play Clientbound "ClientboundRespawn" 82;
   row 776 Play Clientbound "ClientboundSetHeldItem" 105;
   row 776 Play Clientbound "ClientboundSetCarriedItem" 105;
   row 776 Play Clientbound "ClientboundSound" 117;
   row 776 Play Clientbound "ClientboundNamedSoundEffect" 117;
   row 776 Play Clientbound "ClientboundSystemChat" 121;
   row 776 Play Serverbound "ServerboundChatCommand" 7;
   row 776 Play Serverbound "ServerboundChatMessage" 9;
   row 776 Play Serverbound "ServerboundPluginMessage" 22;
   row 776 Play Serverbound "ServerboundCustomPayload" 22;
   row 776 Play Serverbound "ServerboundKeepAlive" 28;
   row 776 Play Serverbound "ServerboundMovePlayerPos" 30;
   row 776 Play Serverbound "ServerboundMovePlayerPosRot" 31;
   row 776 Play Serverbound "ServerboundMovePlayerRot" 32;
   row 776 Play Serverbound "ServerboundMovePlayerStatusOnly" 33].

Definition PLAY_TRANSITION : list Entry :=
  [row 764 Play Clientbound "ClientboundStartConfiguration" 101;
   row 766 Play Clientbound "ClientboundStartConfiguration" 105;
   row 768 Play Clientbound "ClientboundStartConfiguration" 112;
   row 770 Play Clientbound "ClientboundStartConfiguration" 111;
   row 773 Play Clientbound "ClientboundStartConfiguration" 116;
   row 775 Play Clientbound "ClientboundStartConfiguration" 118;
   row 776 Play Clientbound "ClientboundStartConfiguration" 118;
   row 764 Play Serverbound "ServerboundConfigurationAcknowledged" 11;
   row 766 Play Serverbound "ServerboundConfigurationAcknowledged" 12;
   row 768 Play Serverbound "ServerboundConfigurationAcknowledged" 14;
   row 771 Play Serverbound "ServerboundConfigurationAcknowledged" 15;
   row 775 Play Serverbound "ServerboundConfigurationAcknowledged" 16;
   row 776 Play Serverbound "ServerboundConfigurationAcknowledged" 16].

Definition PLAY : list Entry :=
  PLAY_78 ++
  PLAY_5 ++
  PLAY_47 ++
  PLAY_107 ++
  PLAY_108 ++
  PLAY_109 ++
  PLAY_110 ++
  PLAY_210 ++
  PLAY_315 ++
  PLAY_316 ++
  PLAY_335 ++
  PLAY_338 ++
  PLAY_340 ++
  PLAY_393 ++
  PLAY_401 ++
  PLAY_404 ++
  PLAY_477 ++
  PLAY_480 ++
  PLAY_485 ++
  PLAY_490 ++
  PLAY_498 ++
  PLAY_573 ++
  PLAY_575 ++
  PLAY_578 ++
  PLAY_735 ++
  PLAY_736 ++
  PLAY_751 ++
  PLAY_753 ++
  PLAY_754 ++
  PLAY_755 ++
  PLAY_756 ++
  PLAY_757 ++
  PLAY_758 ++
  PLAY_759 ++
  PLAY_760 ++
  PLAY_761 ++
  PLAY_762 ++
  PLAY_763 ++
  PLAY_764 ++
  PLAY_765 ++
  PLAY_766 ++
  PLAY_767 ++
  PLAY_768 ++
  PLAY_769 ++
  PLAY_770 ++
  PLAY_771 ++
  PLAY_772 ++
  PLAY_773 ++
  PLAY_774 ++
  PLAY_775 ++
  PLAY_776 ++
  PLAY_TRANSITION.

Definition ALL_TABLES : list (list Entry) := [PRE_NETTY; HANDSHAKE; STATUS; LOGIN; CONFIGURATION; PLAY].
