(* ===== verification/Registry.v ===== *)
(** * Packet registry

    crates/protocol/src/registry.rs: the map from (protocol, state, direction,
    name) to a packet id, its exact and nearest-version lookups, the reverse
    lookup, and the registry built from the tables of [RegistryTables].  The log
    lines of [lookup] are left out. *)
From Stdlib Require Import ZArith Lia Strings.String.
From stdpp Require Import base list numbers strings gmap.
From S2P Require Import Prelude Negotiation RegistryTables.
Local Open Scope Z_scope.

#[export] Instance ProtocolState_eq_dec : EqDecision ProtocolState.
Proof. solve_decision. Defined.
#[export] Instance Direction_eq_dec : EqDecision Direction.
Proof. solve_decision. Defined.
#[export] Instance ProtocolState_countable : Countable ProtocolState.
Proof.
  refine (inj_countable'
    (fun s => match s with Handshake => 0 | Status => 1 | Login => 2 | Configuration => 3 | Play => 4 end)
    (fun n => match n with 0 => Handshake | 1 => Status | 2 => Login | 3 => Configuration | _ => Play end) _).
  by intros [].
Defined.
#[export] Instance Direction_countable : Countable Direction.
Proof.
  refine (inj_countable' (fun d => match d with Serverbound => 0 | Clientbound => 1 end)
    (fun n => match n with 0 => Serverbound | _ => Clientbound end) _).
  by intros [].
Defined.

Record PacketMeta := mkMeta { meta_id : Z; meta_name : string }.

Definition DirVec : Type := list (Z * PacketMeta).
Record PacketRegistry := mkRegistry { registry_map : gmap ProtocolState (gmap Direction DirVec) }.

Definition PacketRegistry_new : PacketRegistry := mkRegistry ∅.

(** The closure [|(p, meta)| *p == proto && meta.name == name]. *)
Definition row_is (proto : Z) (name : string) (e : Z * PacketMeta) : bool :=
  (e.1 =? proto) && String.eqb (meta_name e.2) name.

(** [find] through [iter_mut], and the push when it finds nothing. *)
Fixpoint set_or_push (proto : Z) (name : string) (id : Z) (v : DirVec) : DirVec :=
  match v with
  | [] => [(proto, mkMeta id name)]
  | e :: v' => if row_is proto name e then (e.1, mkMeta id (meta_name e.2)) :: v' else e :: set_or_push proto name id v'
  end.

Definition register (r : PacketRegistry) (proto : Z) (state : ProtocolState) (dir : Direction) (name : string)
    (id : Z) : PacketRegistry :=
  let state_map := default ∅ (registry_map r !! state) in
  let dir_vec := default [] (state_map !! dir) in
  mkRegistry (<[state := <[dir := set_or_push proto name id dir_vec]> state_map]> (registry_map r)).

Definition dir_vec (r : PacketRegistry) (state : ProtocolState) (dir : Direction) : option DirVec :=
  registry_map r !! state ≫= fun state_map => state_map !! dir.

Definition get_id (r : PacketRegistry) (proto : Z) (state : ProtocolState) (dir : Direction) (name : string) : option Z :=
  v ← dir_vec r state dir; e ← List.find (row_is proto name) v; Some (meta_id e.2).

(** The loops that keep the entry of the highest protocol: [keep] is the negation
    of the [continue] conditions, [out] what is remembered of the best entry. *)
Definition best_step {A} (keep : Z * PacketMeta -> bool) (out : PacketMeta -> A) (best : option Z * option A)
    (e : Z * PacketMeta) : option Z * option A :=
  if keep e && match best.1 with None => true | Some bp => bp <? e.1 end then (Some e.1, Some (out e.2)) else best.
Definition best_of {A} (keep : Z * PacketMeta -> bool) (out : PacketMeta -> A) (v : DirVec) : option A :=
  (fold_left (best_step keep out) v (None, None)).2.

Definition same_era (proto p : Z) : bool := Bool.eqb (p =? 78) (proto =? 78).

Definition lookup_alias (proto : Z) (alias_name : string) (v : DirVec) : option Z :=
  best_of (fun e => negb (negb (String.eqb (meta_name e.2) alias_name) || (proto <? e.1) || (e.1 =? 78))) meta_id v.

Definition get_id_for_version (r : PacketRegistry) (proto : Z) (state : ProtocolState) (dir : Direction)
    (name : string) : option Z :=
  v ← dir_vec r state dir;
  match List.find (row_is proto name) v with
  | Some e => Some (meta_id e.2)
  | None =>
      let best_id := best_of (fun e => negb (negb (String.eqb (meta_name e.2) name) || (proto <? e.1)) &&
                                same_era proto e.1) meta_id v in
      if negb (bool_decide (is_Some best_id)) && negb (proto =? 78) then
        let aliased := if String.eqb name "ClientboundHeldItemChange"
                       then lookup_alias proto "ClientboundSetHeldItem" v else None in
        match aliased with Some id => Some id | None => best_id end
      else best_id
  end.

Definition get_name_from_id (r : PacketRegistry) (proto : Z) (state : ProtocolState) (dir : Direction)
    (id : Z) : option string :=
  v ← dir_vec r state dir;
  match List.find (fun e => (e.1 =? proto) && (meta_id e.2 =? id)) v with
  | Some e => Some (meta_name e.2)
  | None => best_of (fun e => (meta_id e.2 =? id) && (e.1 <=? proto) && same_era proto e.1) meta_name v
  end.

Definition register_entry (r : PacketRegistry) (e : Entry) : PacketRegistry :=
  match e with (proto, state, dir, name, id) => register r proto state dir name id end.

Definition register_tables (tables : list (list Entry)) : PacketRegistry :=
  fold_left (fun r table => fold_left register_entry table r) tables PacketRegistry_new.

Definition build_default_registry : PacketRegistry := register_tables ALL_TABLES.

(** The fallback [0xFF] of the shorthands [cb_play], [sb_play] and so on. *)
Definition lookup (proto : Z) (state : ProtocolState) (dir : Direction) (name : string) : Z :=
  default 255 (get_id_for_version build_default_registry proto state dir name).
Definition cb_play (proto : Z) (name : string) : Z := lookup proto Play Clientbound name.
Definition sb_play (proto : Z) (name : string) : Z := lookup proto Play Serverbound name.
Definition cb_login (proto : Z) (name : string) : Z := lookup proto Login Clientbound name.
Definition sb_login (proto : Z) (name : string) : Z := lookup proto Login Serverbound name.
Definition cb_config (proto : Z) (name : string) : Z := lookup proto Configuration Clientbound name.
Definition sb_config (proto : Z) (name : string) : Z := lookup proto Configuration Serverbound name.

(** ** Lemmas *)

Definition row_key (e : Z * PacketMeta) : Z * string := (e.1, meta_name e.2).

Lemma row_is_spec proto name e : row_is proto name e = true <-> row_key e = (proto, name).
Proof.
  unfold row_is, row_key. rewrite andb_true_iff, Z.eqb_eq, String.eqb_eq. destruct e; cbn.
  split; [intros [-> ->]; done|intros [= -> ->]; done].
Qed.

(** The id registered under [(proto, name)] in a vector. *)
Definition row_id (v : DirVec) (proto : Z) (name : string) : option Z :=
  e ← List.find (row_is proto name) v; Some (meta_id e.2).

Lemma row_id_set_or_push v proto name id p n :
  row_id (set_or_push proto name id v) p n = if row_is p n (proto, mkMeta id name) then Some id else row_id v p n.
Proof.
  unfold row_id. induction v as [|e v IH]; cbn [set_or_push].
  - cbn [List.find]. by destruct (row_is p n _).
  - destruct (row_is proto name e) eqn:E.
    + apply row_is_spec in E. destruct e as [q [i m]]. cbn [row_key fst snd meta_name] in E. injection E as -> ->.
      cbn [List.find fst snd meta_name].
      change (row_is p n (proto, mkMeta i name)) with (row_is p n (proto, mkMeta id name)).
      by destruct (row_is p n (proto, mkMeta id name)).
    + cbn [List.find]. destruct (row_is p n e) eqn:E1; [|done].
      destruct (row_is p n (proto, mkMeta id name)) eqn:E2; [|done].
      apply row_is_spec in E1, E2. injection E2 as -> ->. apply row_is_spec in E1. congruence.
Qed.

Lemma keys_set_or_push v proto name id :
  map row_key (set_or_push proto name id v) =
    if existsb (row_is proto name) v then map row_key v else map row_key v ++ [(proto, name)].
Proof.
  induction v as [|e v IH]; [done|]. cbn [set_or_push existsb map].
  destruct (row_is proto name e) eqn:E; cbn [orb map app]; [done|]. rewrite IH. by destruct (existsb _ v).
Qed.

Lemma NoDup_set_or_push v proto name id :
  NoDup (map row_key v) -> NoDup (map row_key (set_or_push proto name id v)).
Proof.
  intros Hv. rewrite keys_set_or_push. destruct (existsb _ v) eqn:E; [done|].
  apply NoDup_app. split; [done|]. split; [|apply NoDup_singleton].
  intros k Hk ->%list_elem_of_singleton. apply list_elem_of_In, in_map_iff in Hk as (e & He & Hin).
  apply row_is_spec in He. assert (existsb (row_is proto name) v = true); [|congruence].
  apply existsb_exists. eauto.
Qed.

(** Every vector of the registry has one row per (protocol, name). *)
Definition registry_ok (r : PacketRegistry) : Prop :=
  forall state dir v, dir_vec r state dir = Some v -> NoDup (map row_key v).

Lemma dir_vec_register r proto state dir name id s d :
  dir_vec (register r proto state dir name id) s d =
    if bool_decide (s = state /\ d = dir) then Some (set_or_push proto name id (default [] (dir_vec r state dir)))
    else dir_vec r s d.
Proof.
  unfold dir_vec, register. cbn [registry_map]. case_bool_decide as Hk.
  - destruct Hk as [-> ->]. rewrite lookup_insert_eq. cbn [mbind option_bind]. rewrite lookup_insert_eq.
    by destruct (registry_map r !! state).
  - destruct (decide (s = state)) as [->|]; [|by rewrite lookup_insert_ne].
    rewrite lookup_insert_eq. cbn [mbind option_bind]. rewrite lookup_insert_ne by naive_solver.
    by destruct (registry_map r !! state).
Qed.

Lemma register_ok r proto state dir name id : registry_ok r -> registry_ok (register r proto state dir name id).
Proof.
  intros Hr s d v. rewrite dir_vec_register. case_bool_decide; [|apply Hr].
  intros [= <-]. apply NoDup_set_or_push. destruct (dir_vec r state dir) eqn:E; cbn; [by apply (Hr _ _ _ E)|constructor].
Qed.

Lemma get_id_rows r proto state dir name : get_id r proto state dir name = v ← dir_vec r state dir; row_id v proto name.
Proof. done. Qed.

Lemma get_id_register r proto state dir name id p s d n :
  get_id (register r proto state dir name id) p s d n =
    if bool_decide ((p, s, d, n) = (proto, state, dir, name)) then Some id else get_id r p s d n.
Proof.
  rewrite !get_id_rows, dir_vec_register. case_bool_decide as Hk.
  - destruct Hk as [-> ->]. cbn [mbind option_bind]. rewrite row_id_set_or_push.
    destruct (row_is p n _) eqn:E.
    + apply row_is_spec in E. injection E as <- <-. by rewrite bool_decide_true.
    + rewrite bool_decide_false; [by destruct (dir_vec r state dir)|].
      intros [= -> ->]. unfold row_is in E. cbn in E. by rewrite Z.eqb_refl, String.eqb_refl in E.
  - rewrite bool_decide_false; [done|]. intros [=]. naive_solver.
Qed.

(** The registration that is in force: the last one for its key. *)
Definition last_registration (es : list Entry) (p : Z) (s : ProtocolState) (d : Direction) (n : string) : option Z :=
  fold_left (fun found e => match e with (proto, state, dir, name, id) =>
    if bool_decide ((p, s, d, n) = (proto, state, dir, name)) then Some id else found end) es None.

Lemma register_entries_ok es r : registry_ok r -> registry_ok (fold_left register_entry es r).
Proof.
  revert r. induction es as [|[[[[p s] d] n] i] es IH]; intros r Hr; [done|]. cbn [fold_left register_entry].
  by apply IH, register_ok.
Qed.

Lemma get_id_entries es r p s d n :
  get_id (fold_left register_entry es r) p s d n =
    fold_left (fun found e => match e with (proto, state, dir, name, id) =>
      if bool_decide ((p, s, d, n) = (proto, state, dir, name)) then Some id else found end) es (get_id r p s d n).
Proof.
  revert r. induction es as [|[[[[p' s'] d'] n'] i] es IH]; intros r; [done|]. cbn [fold_left register_entry].
  by rewrite IH, get_id_register.
Qed.

Lemma register_tables_concat tables : register_tables tables = fold_left register_entry (concat tables) PacketRegistry_new.
Proof.
  unfold register_tables. generalize PacketRegistry_new. induction tables as [|t tables IH]; intros r; [done|].
  cbn [fold_left concat]. by rewrite IH, fold_left_app.
Qed.

(** *** The best entry *)

Definition best_inv {A} (keep : Z * PacketMeta -> bool) (out : PacketMeta -> A) (seen : DirVec)
    (best : option Z * option A) : Prop :=
  match best with
  | (None, None) => Forall (fun e => keep e = false) seen
  | (Some bp, Some a) => exists e, e ∈ seen /\ keep e = true /\ e.1 = bp /\ out e.2 = a /\
                           Forall (fun e' => keep e' = true -> e'.1 <= bp) seen
  | _ => False
  end.

Lemma best_of_inv {A} keep (out : PacketMeta -> A) v seen best :
  best_inv keep out seen best -> best_inv keep out (seen ++ v) (fold_left (best_step keep out) v best).
Proof.
  revert seen best. induction v as [|e v IH]; intros seen best Hb; [by rewrite app_nil_r|].
  cbn [fold_left]. rewrite cons_middle, app_assoc. apply IH.
  unfold best_step. destruct best as [[bp|] [a|]]; try done; cbn [best_inv fst] in *.
  - destruct Hb as (e0 & Hin & Hk & <- & <- & Hmax).
    destruct (keep e) eqn:Ke; cbn [andb].
    + destruct (Z.ltb_spec e0.1 e.1) as [Hlt|Hle].
      * exists e. split_and!; [set_solver|done|done|done|].
        apply Forall_app; split; [|by apply Forall_singleton; lia].
        eapply Forall_impl; [exact Hmax|]. intros x Hx ?. specialize (Hx ltac:(done)). lia.
      * exists e0. split_and!; [set_solver|done|done|done|].
        apply Forall_app; split; [done|]. by apply Forall_singleton.
    + exists e0. split_and!; [set_solver|done|done|done|].
      apply Forall_app; split; [done|]. apply Forall_singleton. congruence.
  - destruct (keep e) eqn:Ke; cbn [andb best_inv].
    + exists e. split_and!; [set_solver|done|done|done|].
      apply Forall_app; split; [|by apply Forall_singleton].
      eapply Forall_impl; [exact Hb|]. cbn. congruence.
    + apply Forall_app; split; [done|]. by apply Forall_singleton.
Qed.

Lemma best_of_spec {A} keep (out : PacketMeta -> A) v :
  match best_of keep out v with
  | None => Forall (fun e => keep e = false) v
  | Some a => exists e, e ∈ v /\ keep e = true /\ out e.2 = a /\ Forall (fun e' => keep e' = true -> e'.1 <= e.1) v
  end.
Proof.
  unfold best_of. pose proof (best_of_inv keep out v [] (None, None) ltac:(by constructor)) as H.
  cbn [app] in H. destruct (fold_left _ _ _) as [[bp|] [a|]]; try done. cbn [best_inv snd] in *.
  destruct H as (e & ? & ? & <- & ? & ?). by exists e.
Qed.

(** A row of a vector with distinct keys is the one [find] finds. *)
Lemma row_id_elem v e : NoDup (map row_key v) -> e ∈ v -> row_id v e.1 (meta_name e.2) = Some (meta_id e.2).
Proof.
  unfold row_id. induction v as [|e' v IH]; intros Hnd Hin; [by apply not_elem_of_nil in Hin|].
  cbn [map] in Hnd. apply NoDup_cons in Hnd as [Hno Hnd]. cbn [List.find].
  destruct (row_is e.1 (meta_name e.2) e') eqn:E.
  - apply elem_of_cons in Hin as [->|Hin]; [done|]. apply row_is_spec in E. contradict Hno.
    rewrite E. change (e.1, meta_name e.2) with (row_key e). apply list_elem_of_In, in_map, list_elem_of_In, Hin.
  - apply elem_of_cons in Hin as [->|Hin]; [|by apply IH].
    unfold row_is in E. by rewrite Z.eqb_refl, String.eqb_refl in E.
Qed.

Lemma row_id_inv v p n id : row_id v p n = Some id -> exists e, e ∈ v /\ row_key e = (p, n) /\ meta_id e.2 = id.
Proof.
  unfold row_id. destruct (List.find _ v) as [e|] eqn:E; cbn; [|done]. intros [= <-].
  apply find_some in E as [Hin Hk]. exists e. split_and!; [by apply list_elem_of_In|by apply row_is_spec|done].
Qed.

(** What the fallback promises: [p] is the newest protocol of the request's era,
    not newer than the request, that registers the name, and [id] its id. *)
Definition anchor (r : PacketRegistry) (proto : Z) (s : ProtocolState) (d : Direction) (n : string) (id : Z) : Prop :=
  exists p, get_id r p s d n = Some id /\ p <= proto /\ (p = 78 <-> proto = 78) /\
    forall p' id', get_id r p' s d n = Some id' -> p' <= proto -> (p' = 78 <-> proto = 78) -> p' <= p.

Lemma same_era_spec proto p : same_era proto p = true <-> (p = 78 <-> proto = 78).
Proof. unfold same_era. rewrite Bool.eqb_true_iff. destruct (Z.eqb_spec p 78), (Z.eqb_spec proto 78); intuition congruence. Qed.

(** The entries the fallback considers. *)
Lemma best_of_anchor r s d v proto n keep :
  registry_ok r -> dir_vec r s d = Some v ->
  (forall e, keep e = true <-> (meta_name e.2 = n /\ e.1 <= proto /\ (e.1 = 78 <-> proto = 78))) ->
  forall id, best_of keep meta_id v = Some id <-> anchor r proto s d n id.
Proof.
  intros Hr Hv Hkeep id.
  assert (Hrow : forall e, e ∈ v -> keep e = true -> get_id r e.1 s d n = Some (meta_id e.2)).
  { intros e He Hk. rewrite get_id_rows, Hv. cbn. apply Hkeep in Hk as [<- _]. apply row_id_elem; [by apply (Hr _ _ _ Hv)|done]. }
  assert (Hinv : forall p i, get_id r p s d n = Some i -> p <= proto -> (p = 78 <-> proto = 78) ->
            exists e, e ∈ v /\ keep e = true /\ e.1 = p /\ meta_id e.2 = i).
  { intros p i Hg Hle He. rewrite get_id_rows, Hv in Hg. cbn in Hg. apply row_id_inv in Hg as (e & Hin & [= <- <-] & <-).
    exists e. split_and!; try done. by apply Hkeep. }
  pose proof (best_of_spec keep meta_id v) as Hb. split.
  - intros Heq. rewrite Heq in Hb. destruct Hb as (e & Hin & Hk & <- & Hmax).
    pose proof (proj1 (Hkeep e) Hk) as (Hn & Hle & Hera).
    exists e.1. split; [by apply Hrow|]. split; [done|]. split; [done|].
    intros p' id' Hg Hle' Hera'. destruct (Hinv _ _ Hg Hle' Hera') as (e' & Hin' & Hk' & <- & _).
    rewrite Forall_forall in Hmax. by apply Hmax.
  - intros (p & Hg & Hle & Hera & Hmax). destruct (Hinv _ _ Hg Hle Hera) as (e & Hin & Hk & <- & <-).
    destruct (best_of keep meta_id v) as [a|].
    + destruct Hb as (e1 & Hin1 & Hk1 & <- & Hmax1). f_equal.
      pose proof (proj1 (Hkeep e1) Hk1) as (Hn1 & Hle1 & Hera1).
      assert (e1.1 = e.1) as Heq.
      { rewrite Forall_forall in Hmax1. specialize (Hmax1 e Hin Hk). specialize (Hmax _ _ (Hrow _ Hin1 Hk1) Hle1 Hera1). lia. }
      pose proof (Hrow _ Hin1 Hk1) as G1. rewrite Heq, Hg in G1. by injection G1.
    + rewrite Forall_forall in Hb. specialize (Hb e Hin). congruence.
Qed.

Lemma anchor_exact r proto s d n id :
  get_id r proto s d n = Some id -> forall i, anchor r proto s d n i <-> i = id.
Proof.
  intros Hg i. split.
  - intros (p & Hp & Hle & Hera & Hmax). specialize (Hmax proto id Hg ltac:(lia) ltac:(done)).
    assert (p = proto) as -> by lia. congruence.
  - intros ->. exists proto. split; [done|]. split; [lia|]. split; [done|]. intros; lia.
Qed.

Lemma get_id_for_version_anchor r proto s d n id : registry_ok r ->
  get_id_for_version r proto s d n = Some id <->
    anchor r proto s d n id \/
    ((forall i, ~ anchor r proto s d n i) /\ proto <> 78 /\ n = "ClientboundHeldItemChange"%string /\
     anchor r proto s d "ClientboundSetHeldItem" id).
Proof.
  intros Hr. unfold get_id_for_version. destruct (dir_vec r s d) as [v|] eqn:Hv; cbn [mbind option_bind].
  2: { assert (Hno : forall n i, ~ anchor r proto s d n i).
       { intros m i (p & Hp & _). rewrite get_id_rows, Hv in Hp. done. }
       split; [done|]. intros [H|(_ & _ & _ & H)]; by apply Hno in H. }
  destruct (List.find (row_is proto n) v) as [e|] eqn:Ef.
  - assert (Hg : get_id r proto s d n = Some (meta_id e.2)) by (rewrite get_id_rows, Hv; cbn; unfold row_id; by rewrite Ef).
    pose proof (anchor_exact _ _ _ _ _ _ Hg) as Ha. split.
    + intros [= <-]. left. by apply Ha.
    + intros [H%Ha|(H & _)]; [by subst|]. exfalso. by apply (H (meta_id e.2)), Ha.
  - pose proof (fun k H => best_of_anchor r s d v proto n k Hr Hv H) as Hb.
    unshelve epose proof (Hb (fun e => negb (negb (String.eqb (meta_name e.2) n) || (proto <? e.1)) && same_era proto e.1) _) as Hb1.
    { intros e. cbv beta. rewrite andb_true_iff, negb_orb, andb_true_iff, negb_involutive, String.eqb_eq, negb_true_iff, Z.ltb_ge, same_era_spec. tauto. }
    cbv zeta. destruct (best_of _ meta_id v) as [b|] eqn:Eb.
    + rewrite bool_decide_true by eauto. cbn [negb andb]. rewrite Hb1. split; [tauto|].
      intros [H|(H & _)]; [done|]. exfalso. by apply (H b), Hb1.
    + rewrite bool_decide_false by (intros [? ?]; done). cbn [negb andb].
      assert (Hno : forall i, ~ anchor r proto s d n i) by (intros i Hi; by apply Hb1 in Hi).
      destruct (Z.eqb_spec proto 78) as [->|Hp]; cbn [negb].
      { split; [done|]. intros [H|(_ & H & _)]; [by apply Hno in H|done]. }
      destruct (String.eqb_spec n "ClientboundHeldItemChange") as [->|Hn].
      * assert (Hb2 : lookup_alias proto "ClientboundSetHeldItem" v = Some id <-> anchor r proto s d "ClientboundSetHeldItem" id).
        { apply best_of_anchor; [done..|]. intros e.
          rewrite !negb_orb, !andb_true_iff, negb_involutive, String.eqb_eq, !negb_true_iff, Z.ltb_ge, Z.eqb_neq. tauto. }
        rewrite <- Hb2. destruct (lookup_alias _ _ v) as [a|]; (split; [intros H; right; split_and!; try done|]);
          intros [H|(_ & _ & _ & H)]; try done; by apply Hno in H.
      * split; [done|]. intros [H|(_ & _ & H & _)]; [by apply Hno in H|done].
Qed.

(** *** The default tables *)

Definition default_rows : list Entry := concat ALL_TABLES.

(** Names the tables register as two spellings of one packet. *)
Definition aliases : list (string * string) :=
  [("ClientboundCustomPayload", "ClientboundPluginMessage"); ("ClientboundPluginMessage", "ClientboundCustomPayload");
   ("ServerboundCustomPayload", "ServerboundPluginMessage"); ("ServerboundPluginMessage", "ServerboundCustomPayload");
   ("AcknowledgeFinishConfiguration", "FinishConfiguration");
   ("ClientboundSetCarriedItem", "ClientboundSetHeldItem"); ("ClientboundSound", "ClientboundNamedSoundEffect");
   ("ClientboundNamedSoundEffect", "ClientboundSound"); ("ClientboundLogin", "ClientboundJoinGame")]%string.
Definition spells (n m : string) : bool := String.eqb n m || existsb (fun a => String.eqb n a.1 && String.eqb m a.2) aliases.

(** What the proxy looks up in the play state, by the doc comment of [PLAY]. *)
Definition required_clientbound (proto : Z) : list string :=
  (["ClientboundJoinGame"; "ClientboundRespawn"; "ClientboundKeepAlive"; "ClientboundPluginMessage";
    "ClientboundCustomPayload"; "ClientboundDisconnect"; "ClientboundPlayerAbilities"; "ClientboundPlayerPosition";
    "ClientboundSetCarriedItem"; "ClientboundSetHeldItem"; "ClientboundHeldItemChange"; "ClientboundSound";
    "ClientboundNamedSoundEffect"; "ClientboundLevelChunkWithLight"] ++
   (if proto <? 759 then ["ClientboundChatMessage"] else ["ClientboundSystemChat"]) ++
   (if 107 <=? proto then ["ClientboundBossBar"; "ClientboundLogin"] else []) ++
   (if 764 <=? proto then ["ClientboundStartConfiguration"] else [])).
Definition required_serverbound (proto : Z) : list string :=
  (["ServerboundKeepAlive"; "ServerboundChatMessage"; "ServerboundPluginMessage"; "ServerboundCustomPayload"] ++
   (if 759 <=? proto then ["ServerboundChatCommand"] else []) ++
   (if 764 <=? proto then ["ServerboundConfigurationAcknowledged"] else [])).

Definition resolves (r : PacketRegistry) (proto : Z) (dir : Direction) (name : string) : bool :=
  match get_id_for_version r proto Play dir name with Some id => (0 <=? id) && (id <? 255) | None => false end.

Definition complete_at (r : PacketRegistry) (proto : Z) : bool :=
  forallb (resolves r proto Clientbound) (required_clientbound proto) &&
  forallb (resolves r proto Serverbound) (required_serverbound proto).

(** The reverse lookup of a row's id names the row's packet. *)
Definition row_reversible (r : PacketRegistry) (e : Entry) : bool :=
  match e with (p, s, d, n, i) =>
    match get_id r p s d n, get_name_from_id r p s d i with
    | Some i', Some m => (i' =? i) && spells n m &&
        match get_id_for_version r p s d m with Some i'' => i'' =? i | None => false end
    | _, _ => false
    end
  end.

Definition play_versions : list Z := List.filter (fun p => negb (existsb (Z.eqb p) [4; 73; 74; 78])) SUPPORTED.

Lemma complete_at_spec r proto : complete_at r proto = true ->
  Forall (fun name => 0 <= default 255 (get_id_for_version r proto Play Clientbound name) < 255) (required_clientbound proto) /\
  Forall (fun name => 0 <= default 255 (get_id_for_version r proto Play Serverbound name) < 255) (required_serverbound proto).
Proof.
  intros [H1 H2]%andb_true_iff. rewrite forallb_forall in H1, H2.
  split; apply Forall_forall; intros name Hn%list_elem_of_In; [specialize (H1 _ Hn)|specialize (H2 _ Hn)];
    unfold resolves in *; destruct (get_id_for_version _ _ _ _ _); cbn [default] in *; unfold id in *; lia.
Qed.

Lemma row_reversible_spec r p s d n i : row_reversible r (p, s, d, n, i) = true ->
  get_id r p s d n = Some i /\
  exists m, get_name_from_id r p s d i = Some m /\ spells n m = true /\ get_id_for_version r p s d m = Some i.
Proof.
  unfold row_reversible. destruct (get_id _ p s d n) as [i'|]; [|done].
  destruct (get_name_from_id _ p s d i) as [m|]; [|done].
  intros [[->%Z.eqb_eq Hs]%andb_true_iff Hg]%andb_true_iff. split; [done|]. exists m.
  split_and!; [done..|]. destruct (get_id_for_version _ p s d m); [|done]. by apply Z.eqb_eq in Hg as ->.
Qed.

Lemma default_tables_checked :
  (let r := build_default_registry in
   forallb (complete_at r) play_versions && forallb (row_reversible r) default_rows) = true.
Proof. vm_compute. reflexivity. Qed.

Lemma play_versions_spec proto :
  proto ∈ SUPPORTED -> 5 <= proto -> is_pre_netty (ProtocolVersion_from_id proto) = false -> In proto play_versions.
Proof.
  intros Hin H5 Hpre. apply filter_In. split; [by apply list_elem_of_In|].
  unfold existsb. destruct (Z.eqb_spec proto 4), (Z.eqb_spec proto 73), (Z.eqb_spec proto 74), (Z.eqb_spec proto 78); subst;
    first [lia | done | vm_compute in Hpre; discriminate].
Qed.

(** An id in force was registered. *)
Lemma last_registration_elem es p s d n i : last_registration es p s d n = Some i -> In (p, s, d, n, i) es.
Proof.
  unfold last_registration. set (f := fun found e => _). assert (H : forall es acc, fold_left f es acc = Some i -> acc = Some i \/ In (p, s, d, n, i) es).
  { clear es. induction es as [|[[[[p' s'] d'] n'] i'] es IH]; intros acc; cbn [fold_left]; [by left|].
    intros [Hf|Hin]%IH; [|right; by right]. unfold f in Hf. case_bool_decide as Hk; [|by left].
    injection Hk as -> -> -> ->. injection Hf as ->. right. by left. }
  intros [?|?]%H; done.
Qed.

Lemma tables_fit : forallb (fun e : Entry => match e with (_, _, _, _, i) => (0 <=? i) && (i <? 256) end) (concat ALL_TABLES) = true.
Proof. vm_compute. reflexivity. Qed.

(** The shorthands answer with a byte. *)
Lemma lookup_fits proto s d n : fits_u 8 (lookup proto s d n).
Proof.
  unfold lookup, fits_u, build_default_registry. rewrite register_tables_concat. set (r := fold_left _ _ _).
  assert (Hok : registry_ok r) by (apply register_entries_ok; intros s' d' v; unfold dir_vec; cbn; rewrite lookup_empty; done).
  destruct (get_id_for_version r proto s d n) as [i|] eqn:E; cbn [default]; unfold id; [|lia].
  apply (get_id_for_version_anchor r proto s d n i Hok) in E.
  assert (exists p m, get_id r p s d m = Some i) as (p & m & Hg).
  { destruct E as [(p & Hp & _)|(_ & _ & _ & p & Hp & _)]; eauto. }
  unfold r in Hg. rewrite get_id_entries in Hg. change (get_id PacketRegistry_new p s d m) with (None : option Z) in Hg. apply last_registration_elem in Hg.
  pose proof tables_fit as Ht. rewrite forallb_forall in Ht. specialize (Ht _ Hg). cbv beta iota in Ht. lia.
Qed.

(** ** Properties *)

(** A registry is the finite map its registrations describe: an exact lookup
    gives the id of the last registration for that protocol, state, direction and
    name, and nothing when there is none; the lookup for a version gives exactly
    the id registered by the newest protocol, not newer than the request and on
    the request's side of the pre-netty boundary (78), that has the name, and for
    the renamed held-item packet, when that finds nothing and the request is not
    78, the same under the modern name. *)
Theorem registry_lookup (tables : list (list Entry)) :
  let r := register_tables tables in
  (forall p s d n, get_id r p s d n = last_registration (concat tables) p s d n) /\
  (forall proto s d n id,
     get_id_for_version r proto s d n = Some id <->
       anchor r proto s d n id \/
       ((forall i, ~ anchor r proto s d n i) /\ proto <> 78 /\ n = "ClientboundHeldItemChange"%string /\
        anchor r proto s d "ClientboundSetHeldItem" id)).
Proof.
  cbv zeta. rewrite register_tables_concat. set (r := fold_left _ _ _).
  assert (Hok : registry_ok r) by (apply register_entries_ok; intros s d v; unfold dir_vec; cbn; rewrite lookup_empty; done).
  split; [intros; apply get_id_entries|]. intros proto s d n id. by apply get_id_for_version_anchor.
Qed.

(** The default tables serve every supported version from 1.7.10 on: each
    packet name the proxy looks up in the play state at that version resolves to
    a byte other than the error value 0xFF; and every row of the tables is found
    under its own protocol, with a reverse lookup that names the same packet, up
    to the registered alternative spelling, and leads back to the same id. *)
Theorem default_registry_complete :
  (forall proto, proto ∈ SUPPORTED -> 5 <= proto -> is_pre_netty (ProtocolVersion_from_id proto) = false ->
     Forall (fun name => 0 <= cb_play proto name < 255) (required_clientbound proto) /\
     Forall (fun name => 0 <= sb_play proto name < 255) (required_serverbound proto)) /\
  (forall p s d n i, In (p, s, d, n, i) (concat ALL_TABLES) ->
     get_id build_default_registry p s d n = Some i /\
     exists m, get_name_from_id build_default_registry p s d i = Some m /\ spells n m = true /\
       get_id_for_version build_default_registry p s d m = Some i).
Proof.
  destruct (proj1 (andb_true_iff _ _) default_tables_checked) as [Hc Hr]. split.
  - intros proto Hin H5 Hpre. apply (complete_at_spec build_default_registry).
    apply (proj1 (forallb_forall _ _) Hc), play_versions_spec; assumption.
  - intros p s d n i Hin. apply row_reversible_spec. apply (proj1 (forallb_forall _ _) Hr). exact Hin.
Qed.

(** The tables leave three supported versions out.  1.7.2 (protocol 4) finds no
    play packet at all, because the 1.7 rows are registered at 5.  1.6.1 and
    1.6.2 (73 and 74) are pre-netty versions but the fallback treats only 78 as
    one: they are answered with the ids of 1.8 instead of those of 1.6.4.  And
    the reverse lookup falls back by id, so it names packets whose id has moved:
    at 1.12.2 it calls 0x37 the held-item packet, which is 0x3a there. *)
Theorem registry_gaps :
  cb_play 4 "ClientboundKeepAlive" = 255 /\ cb_play 5 "ClientboundKeepAlive" = 0 /\
  is_pre_netty (ProtocolVersion_from_id 74) = true /\
  cb_play 47 "ClientboundPlayerAbilities" = 57 /\ cb_play 74 "ClientboundPlayerAbilities" = 57 /\
  cb_play 78 "ClientboundPlayerAbilities" = 202 /\
  get_name_from_id build_default_registry 340 Play Clientbound 55 = Some "ClientboundSetHeldItem"%string /\
  cb_play 340 "ClientboundSetHeldItem" = 58.
Proof. split_and!; match goal with |- _ = ?v => vm_cast_no_check (eq_refl v) end. Qed.
