(* ===== verification/Families.v ===== *)
(** * Packet families

    crates/protocol/src/versions/: the [PacketId] of every typed packet, and the
    families as tables of packets.  A family serves a range of protocol numbers
    (versions/mod.rs); its packets are told apart on the wire by their id within a
    state and a direction, so the ids of a family must be distinct there. *)
From Stdlib Require Import ZArith Lia Strings.String.
From stdpp Require Import base list numbers strings.
From S2P Require Import Prelude Buf Wire Negotiation VarInt Codec Packets RegistryTables Registry.
From S2P Require Import Packets16 Packets17 Packets18 Packets112 Packets116 Packets119 Packets120 Packets121.
Local Open Scope Z_scope.

Record Packet := mkPacket {
  pk_family : string;
  pk_name : string;
  pk_state : ProtocolState;
  pk_direction : Direction;
  pk_id : Z -> Z;
  pk_type : Type;
  pk_codec : Z -> codec pk_type;
}.
Arguments mkPacket _ _ _ _ _ {pk_type} _.

(** ** PacketId

    The debug assertion on the version in the 1.7 status packets is left out. *)

(** v1_6_x *)
Definition v1_6_ServerboundHandshake_id (_ : Z) : Z := 2.
Definition v1_6_ServerboundLegacyPing_id (_ : Z) : Z := 254.
Definition v1_6_ClientboundResponse_id (_ : Z) : Z := 0.
Definition v1_6_ClientboundPong_id (_ : Z) : Z := 1.
Definition v1_6_HandshakeC2S_id (_ : Z) : Z := 2.
Definition v1_6_EncryptionKeyRequestS2C_id (_ : Z) : Z := 253.
Definition v1_6_EncryptionKeyResponseC2S_id (_ : Z) : Z := 252.
Definition v1_6_LoginRequestS2C_id (_ : Z) : Z := 1.
Definition v1_6_ClientboundLoginDisconnect_id (_ : Z) : Z := 0.
Definition v1_6_ClientboundKeepAlive_id (ver : Z) : Z := cb_play ver "ClientboundKeepAlive".
Definition v1_6_ClientboundChatMessage_id (ver : Z) : Z := cb_play ver "ClientboundChatMessage".
Definition v1_6_ClientboundPlayerPosition_id (ver : Z) : Z := cb_play ver "ClientboundPlayerPosition".
Definition v1_6_ClientboundHeldItemChange_id (ver : Z) : Z := cb_play ver "ClientboundHeldItemChange".
Definition v1_6_ClientboundPlayerAbilities_id (ver : Z) : Z := cb_play ver "ClientboundPlayerAbilities".
Definition v1_6_ClientboundDisconnect_id (ver : Z) : Z := cb_play ver "ClientboundDisconnect".
Definition v1_6_ClientboundRespawn_id (ver : Z) : Z := cb_play ver "ClientboundRespawn".
Definition v1_6_ClientboundSpawnPosition_id (ver : Z) : Z := cb_play ver "ClientboundSpawnPosition".
Definition v1_6_ClientboundTimeUpdate_id (ver : Z) : Z := cb_play ver "ClientboundTimeUpdate".
Definition v1_6_ClientboundUpdateHealth_id (ver : Z) : Z := cb_play ver "ClientboundUpdateHealth".

(** v1_7_x *)
Definition v1_7_ServerboundHandshake_id (_ : Z) : Z := 0.
Definition v1_7_ServerboundStatusRequest_id (_ : Z) : Z := 0.
Definition v1_7_ServerboundPingRequest_id (_ : Z) : Z := 1.
Definition v1_7_ClientboundStatusResponse_id (_ : Z) : Z := 0.
Definition v1_7_ClientboundPongResponse_id (_ : Z) : Z := 1.
Definition v1_7_ClientboundLoginDisconnect_id (_ : Z) : Z := 0.
Definition v1_7_ClientboundEncryptionRequest_id (_ : Z) : Z := 1.
Definition v1_7_ClientboundLoginSuccess_id (_ : Z) : Z := 2.
Definition v1_7_ServerboundLoginStart_id (_ : Z) : Z := 0.
Definition v1_7_ServerboundEncryptionResponse_id (_ : Z) : Z := 1.
Definition v1_7_ClientboundKeepAlive_id (ver : Z) : Z := cb_play ver "ClientboundKeepAlive".
Definition v1_7_ClientboundJoinGame_id (ver : Z) : Z := cb_play ver "ClientboundJoinGame".
Definition v1_7_ClientboundChatMessage_id (ver : Z) : Z := cb_play ver "ClientboundChatMessage".
Definition v1_7_ClientboundPlayerPosition_id (ver : Z) : Z := cb_play ver "ClientboundPlayerPosition".
Definition v1_7_ClientboundDisconnect_id (ver : Z) : Z := cb_play ver "ClientboundDisconnect".
Definition v1_7_ClientboundPlayerAbilities_id (ver : Z) : Z := cb_play ver "ClientboundPlayerAbilities".

(** v1_8_x *)
Definition v1_8_ServerboundHandshake_id (_ : Z) : Z := 0.
Definition v1_8_ServerboundStatusRequest_id (_ : Z) : Z := 0.
Definition v1_8_ServerboundPingRequest_id (_ : Z) : Z := 1.
Definition v1_8_ClientboundStatusResponse_id (_ : Z) : Z := 0.
Definition v1_8_ClientboundPongResponse_id (_ : Z) : Z := 1.
Definition v1_8_ServerboundLoginStart_id (_ : Z) : Z := 0.
Definition v1_8_ClientboundLoginDisconnect_id (_ : Z) : Z := 0.
Definition v1_8_ClientboundEncryptionRequest_id (_ : Z) : Z := 1.
Definition v1_8_ClientboundLoginSuccess_id (_ : Z) : Z := 2.
Definition v1_8_ClientboundSetCompression_id (_ : Z) : Z := 3.
Definition v1_8_ServerboundEncryptionResponse_id (_ : Z) : Z := 1.
Definition v1_8_ClientboundJoinGame_id (ver : Z) : Z := cb_play ver "ClientboundJoinGame".
Definition v1_8_ClientboundRespawn_id (ver : Z) : Z := cb_play ver "ClientboundRespawn".
Definition v1_8_ClientboundPlayerPosition_id (ver : Z) : Z := cb_play ver "ClientboundPlayerPosition".
Definition v1_8_ClientboundKeepAlive_id (ver : Z) : Z := cb_play ver "ClientboundKeepAlive".
Definition v1_8_ClientboundChatMessage_id (ver : Z) : Z := cb_play ver "ClientboundChatMessage".
Definition v1_8_ClientboundPluginMessage_id (ver : Z) : Z := cb_play ver "ClientboundPluginMessage".
Definition v1_8_ClientboundDisconnect_id (ver : Z) : Z := cb_play ver "ClientboundDisconnect".
Definition v1_8_ClientboundSetHeldItem_id (ver : Z) : Z := cb_play ver "ClientboundSetHeldItem".
Definition v1_8_ClientboundSound_id (ver : Z) : Z := cb_play ver "ClientboundSound".
Definition v1_8_ClientboundPlayerAbilities_id (ver : Z) : Z := cb_play ver "ClientboundPlayerAbilities".

(** v1_12_x *)
Definition v1_12_ServerboundHandshake_id (_ : Z) : Z := 0.
Definition v1_12_ServerboundStatusRequest_id (_ : Z) : Z := 0.
Definition v1_12_ClientboundStatusResponse_id (_ : Z) : Z := 0.
Definition v1_12_ServerboundPingRequest_id (_ : Z) : Z := 1.
Definition v1_12_ClientboundPongResponse_id (_ : Z) : Z := 1.
Definition v1_12_ServerboundLoginStart_id (_ : Z) : Z := 0.
Definition v1_12_ClientboundLoginDisconnect_id (_ : Z) : Z := 0.
Definition v1_12_ClientboundEncryptionRequest_id (_ : Z) : Z := 1.
Definition v1_12_ServerboundEncryptionResponse_id (_ : Z) : Z := 1.
Definition v1_12_ClientboundLoginSuccess_id (_ : Z) : Z := 2.
Definition v1_12_ClientboundSetCompression_id (_ : Z) : Z := 3.
Definition v1_12_ClientboundLoginPluginRequest_id (ver : Z) : Z := if ver =? 340 then 255 else 4.
Definition v1_12_ServerboundLoginPluginResponse_id (ver : Z) : Z := if ver =? 340 then 255 else 2.
Definition v1_12_ServerboundLoginAcknowledged_id (ver : Z) : Z := if ver =? 340 then 255 else 3.
Definition v1_12_AcknowledgeFinishConfiguration_id (ver : Z) : Z := if ver =? 340 then 255 else 2.
Definition v1_12_ClientboundJoinGame_id (ver : Z) : Z := cb_play ver "ClientboundJoinGame".
Definition v1_12_ClientboundRespawn_id (ver : Z) : Z := cb_play ver "ClientboundRespawn".
Definition v1_12_ClientboundPlayerPosition_id (ver : Z) : Z := cb_play ver "ClientboundPlayerPosition".
Definition v1_12_ClientboundKeepAlive_id (ver : Z) : Z := cb_play ver "ClientboundKeepAlive".
Definition v1_12_ClientboundChatMessage_id (ver : Z) : Z := cb_play ver "ClientboundChatMessage".
Definition v1_12_ClientboundDisconnect_id (ver : Z) : Z := cb_play ver "ClientboundDisconnect".
Definition v1_12_ClientboundPlayerAbilities_id (ver : Z) : Z := cb_play ver "ClientboundPlayerAbilities".
Definition v1_12_ClientboundSetCarriedItem_id (ver : Z) : Z := cb_play ver "ClientboundSetCarriedItem".
Definition v1_12_ClientboundBossBar_id (ver : Z) : Z := cb_play ver "ClientboundBossBar".
Definition v1_12_ClientboundSound_id (ver : Z) : Z := cb_play ver "ClientboundSound".

(** v1_16_x *)
Definition v1_16_ServerboundHandshake_id (_ : Z) : Z := 0.
Definition v1_16_ServerboundStatusRequest_id (_ : Z) : Z := 0.
Definition v1_16_ClientboundStatusResponse_id (_ : Z) : Z := 0.
Definition v1_16_ServerboundPingRequest_id (_ : Z) : Z := 1.
Definition v1_16_ClientboundPongResponse_id (_ : Z) : Z := 1.
Definition v1_16_ServerboundLoginStart_id (_ : Z) : Z := 0.
Definition v1_16_ClientboundLoginDisconnect_id (_ : Z) : Z := 0.
Definition v1_16_ClientboundEncryptionRequest_id (_ : Z) : Z := 1.
Definition v1_16_ClientboundLoginSuccess_id (_ : Z) : Z := 2.
Definition v1_16_ClientboundSetCompression_id (_ : Z) : Z := 3.
Definition v1_16_ServerboundEncryptionResponse_id (_ : Z) : Z := 1.
Definition v1_16_ClientboundPlayerAbilities_id (ver : Z) : Z := cb_play ver "ClientboundPlayerAbilities".
Definition v1_16_ClientboundHeldItemChange_id (ver : Z) : Z := cb_play ver "ClientboundHeldItemChange".
Definition v1_16_ClientboundNamedSoundEffect_id (ver : Z) : Z := cb_play ver "ClientboundNamedSoundEffect".
Definition v1_16_ClientboundJoinGame_id (ver : Z) : Z := cb_play ver "ClientboundJoinGame".
Definition v1_16_ClientboundRespawn_id (ver : Z) : Z := cb_play ver "ClientboundRespawn".
Definition v1_16_ClientboundPlayerPosition_id (ver : Z) : Z := cb_play ver "ClientboundPlayerPosition".
Definition v1_16_ClientboundKeepAlive_id (ver : Z) : Z := cb_play ver "ClientboundKeepAlive".
Definition v1_16_ClientboundChatMessage_id (ver : Z) : Z := cb_play ver "ClientboundChatMessage".
Definition v1_16_ClientboundDisconnect_id (ver : Z) : Z := cb_play ver "ClientboundDisconnect".

(** v1_19_x *)
Definition v1_19_ServerboundHandshake_id (_ : Z) : Z := 0.
Definition v1_19_ServerboundStatusRequest_id (_ : Z) : Z := 0.
Definition v1_19_ClientboundStatusResponse_id (_ : Z) : Z := 0.
Definition v1_19_ServerboundPingRequest_id (_ : Z) : Z := 1.
Definition v1_19_ClientboundPongResponse_id (_ : Z) : Z := 1.
Definition v1_19_ServerboundLoginStart_id (_ : Z) : Z := 0.
Definition v1_19_ClientboundLoginDisconnect_id (_ : Z) : Z := 0.
Definition v1_19_ClientboundEncryptionRequest_id (_ : Z) : Z := 1.
Definition v1_19_ClientboundLoginSuccess_id (_ : Z) : Z := 2.
Definition v1_19_ClientboundSetCompression_id (_ : Z) : Z := 3.
Definition v1_19_ClientboundLoginPluginRequest_id (_ : Z) : Z := 4.
Definition v1_19_ServerboundEncryptionResponse_id (_ : Z) : Z := 1.
Definition v1_19_ServerboundLoginPluginResponse_id (_ : Z) : Z := 2.
Definition v1_19_ClientboundDisconnect_id (ver : Z) : Z := cb_play ver "ClientboundDisconnect".
Definition v1_19_ClientboundKeepAlive_id (ver : Z) : Z := cb_play ver "ClientboundKeepAlive".
Definition v1_19_ClientboundLogin_id (ver : Z) : Z := cb_play ver "ClientboundLogin".
Definition v1_19_ClientboundPlayerPosition_id (ver : Z) : Z := cb_play ver "ClientboundPlayerPosition".
Definition v1_19_ClientboundRespawn_id (ver : Z) : Z := cb_play ver "ClientboundRespawn".
Definition v1_19_ClientboundPlayerAbilities_id (ver : Z) : Z := cb_play ver "ClientboundPlayerAbilities".
Definition v1_19_ClientboundSystemChat_id (ver : Z) : Z := cb_play ver "ClientboundSystemChat".
Definition v1_19_ClientboundSetCarriedItem_id (ver : Z) : Z := cb_play ver "ClientboundSetCarriedItem".

(** v1_20_x *)
Definition v1_20_ServerboundHandshake_id (_ : Z) : Z := 0.
Definition v1_20_ServerboundStatusRequest_id (_ : Z) : Z := 0.
Definition v1_20_ClientboundStatusResponse_id (_ : Z) : Z := 0.
Definition v1_20_ServerboundPingRequest_id (_ : Z) : Z := 1.
Definition v1_20_ClientboundPongResponse_id (_ : Z) : Z := 1.
Definition v1_20_ServerboundLoginStart_id (_ : Z) : Z := 0.
Definition v1_20_ServerboundEncryptionResponse_id (_ : Z) : Z := 1.
Definition v1_20_ServerboundLoginPluginResponse_id (_ : Z) : Z := 2.
Definition v1_20_ServerboundLoginAcknowledged_id (_ : Z) : Z := 3.
Definition v1_20_ClientboundLoginDisconnect_id (_ : Z) : Z := 0.
Definition v1_20_ClientboundEncryptionRequest_id (_ : Z) : Z := 1.
Definition v1_20_ClientboundLoginSuccess_id (_ : Z) : Z := 2.
Definition v1_20_ClientboundSetCompression_id (_ : Z) : Z := 3.
Definition v1_20_ClientboundLoginPluginRequest_id (_ : Z) : Z := 4.
Definition v1_20_ServerboundAcknowledgeFinishConfiguration_id (_ : Z) : Z := 2.
Definition v1_20_ClientboundFinishConfiguration_id (_ : Z) : Z := 2.
Definition v1_20_ClientboundBossBar_id (ver : Z) : Z := cb_play ver "ClientboundBossBar".
Definition v1_20_ClientboundDisconnect_id (ver : Z) : Z := cb_play ver "ClientboundDisconnect".
Definition v1_20_ClientboundKeepAlive_id (ver : Z) : Z := cb_play ver "ClientboundKeepAlive".
Definition v1_20_ClientboundLogin_id (ver : Z) : Z := cb_play ver "ClientboundLogin".
Definition v1_20_ClientboundPluginMessage_id (ver : Z) : Z := cb_play ver "ClientboundPluginMessage".
Definition v1_20_ClientboundPlayerPosition_id (ver : Z) : Z := cb_play ver "ClientboundPlayerPosition".
Definition v1_20_ClientboundRespawn_id (ver : Z) : Z := cb_play ver "ClientboundRespawn".
Definition v1_20_ClientboundPlayerAbilities_id (ver : Z) : Z := cb_play ver "ClientboundPlayerAbilities".
Definition v1_20_ClientboundSetCarriedItem_id (ver : Z) : Z := cb_play ver "ClientboundSetCarriedItem".
Definition v1_20_ClientboundSystemChat_id (ver : Z) : Z := cb_play ver "ClientboundSystemChat".

(** v1_21_x *)
Definition v1_21_ServerboundHandshake_id (_ : Z) : Z := 0.
Definition v1_21_ServerboundStatusRequest_id (_ : Z) : Z := 0.
Definition v1_21_ClientboundStatusResponse_id (_ : Z) : Z := 0.
Definition v1_21_ServerboundPingRequest_id (_ : Z) : Z := 1.
Definition v1_21_ClientboundPongResponse_id (_ : Z) : Z := 1.
Definition v1_21_ServerboundLoginStart_id (_ : Z) : Z := 0.
Definition v1_21_ClientboundLoginDisconnect_id (_ : Z) : Z := 0.
Definition v1_21_ClientboundEncryptionRequest_id (_ : Z) : Z := 1.
Definition v1_21_ClientboundLoginSuccess_id (_ : Z) : Z := 2.
Definition v1_21_ClientboundSetCompression_id (_ : Z) : Z := 3.
Definition v1_21_ClientboundLoginPluginRequest_id (_ : Z) : Z := 4.
Definition v1_21_ServerboundEncryptionResponse_id (_ : Z) : Z := 1.
Definition v1_21_ServerboundLoginPluginResponse_id (_ : Z) : Z := 2.
Definition v1_21_ServerboundLoginAcknowledged_id (_ : Z) : Z := 3.
Definition v1_21_ServerboundAcknowledgeFinishConfiguration_id (_ : Z) : Z := 3.
Definition v1_21_ClientboundFinishConfiguration_id (_ : Z) : Z := 3.
Definition v1_21_ClientboundKeepAlive_id (ver : Z) : Z := cb_play ver "ClientboundKeepAlive".
Definition v1_21_ClientboundPlayerPosition_id (ver : Z) : Z := cb_play ver "ClientboundPlayerPosition".
Definition v1_21_ClientboundSystemChat_id (ver : Z) : Z := cb_play ver "ClientboundSystemChat".
Definition v1_21_ClientboundLogin_id (ver : Z) : Z := cb_play ver "ClientboundLogin".
Definition v1_21_ClientboundRespawn_id (ver : Z) : Z := cb_play ver "ClientboundRespawn".
Definition v1_21_ClientboundSound_id (ver : Z) : Z := cb_play ver "ClientboundSound".
Definition v1_21_ClientboundDisconnect_id (ver : Z) : Z := cb_play ver "ClientboundDisconnect".
Definition v1_21_ClientboundPlayerAbilities_id (ver : Z) : Z := cb_play ver "ClientboundPlayerAbilities".
Definition v1_21_ClientboundSetCarriedItem_id (ver : Z) : Z := cb_play ver "ClientboundSetCarriedItem".

Section Families.
(** [Uuid::hyphenated().to_string()] and [Uuid::parse_str]. *)
Context (uuid_text : bytes -> bytes) (uuid_parse : bytes -> option bytes).

Definition v1_6_packets : list Packet :=
  [ mkPacket "v1_6_x" "ServerboundHandshake" RegistryTables.Handshake RegistryTables.Serverbound v1_6_ServerboundHandshake_id (fun _ => Packets16.Handshake);
    mkPacket "v1_6_x" "ServerboundLegacyPing" RegistryTables.Status RegistryTables.Serverbound v1_6_ServerboundLegacyPing_id (fun _ => Packets16.LegacyPing);
    mkPacket "v1_6_x" "ClientboundResponse" RegistryTables.Status RegistryTables.Clientbound v1_6_ClientboundResponse_id (fun _ => Packets16.Response);
    mkPacket "v1_6_x" "ClientboundPong" RegistryTables.Status RegistryTables.Clientbound v1_6_ClientboundPong_id (fun _ => Codec Packets16.Pong_encode Packets16.Pong_decode (fits_s 64));
    mkPacket "v1_6_x" "HandshakeC2S" RegistryTables.Login RegistryTables.Serverbound v1_6_HandshakeC2S_id (fun _ => Packets16.LoginHandshake);
    mkPacket "v1_6_x" "EncryptionKeyRequestS2C" RegistryTables.Login RegistryTables.Clientbound v1_6_EncryptionKeyRequestS2C_id (fun _ => Packets16.EncryptionKeyRequest);
    mkPacket "v1_6_x" "EncryptionKeyResponseC2S" RegistryTables.Login RegistryTables.Serverbound v1_6_EncryptionKeyResponseC2S_id (fun _ => Packets16.EncryptionKeyResponse);
    mkPacket "v1_6_x" "LoginRequestS2C" RegistryTables.Login RegistryTables.Clientbound v1_6_LoginRequestS2C_id (fun _ => Packets16.LoginRequest);
    mkPacket "v1_6_x" "ClientboundLoginDisconnect" RegistryTables.Login RegistryTables.Clientbound v1_6_ClientboundLoginDisconnect_id (fun _ => Packets16.LoginDisconnect);
    mkPacket "v1_6_x" "ClientboundKeepAlive" RegistryTables.Play RegistryTables.Clientbound v1_6_ClientboundKeepAlive_id (fun _ => Packets16.KeepAlive);
    mkPacket "v1_6_x" "ClientboundChatMessage" RegistryTables.Play RegistryTables.Clientbound v1_6_ClientboundChatMessage_id (fun _ => Packets16.ChatMessage);
    mkPacket "v1_6_x" "ClientboundPlayerPosition" RegistryTables.Play RegistryTables.Clientbound v1_6_ClientboundPlayerPosition_id (fun _ => Packets16.PlayerPosition);
    mkPacket "v1_6_x" "ClientboundHeldItemChange" RegistryTables.Play RegistryTables.Clientbound v1_6_ClientboundHeldItemChange_id (fun _ => Packets16.HeldItemChange);
    mkPacket "v1_6_x" "ClientboundPlayerAbilities" RegistryTables.Play RegistryTables.Clientbound v1_6_ClientboundPlayerAbilities_id (fun _ => Packets16.PlayerAbilities);
    mkPacket "v1_6_x" "ClientboundDisconnect" RegistryTables.Play RegistryTables.Clientbound v1_6_ClientboundDisconnect_id (fun _ => Packets16.Disconnect);
    mkPacket "v1_6_x" "ClientboundRespawn" RegistryTables.Play RegistryTables.Clientbound v1_6_ClientboundRespawn_id (fun _ => Packets16.Respawn);
    mkPacket "v1_6_x" "ClientboundSpawnPosition" RegistryTables.Play RegistryTables.Clientbound v1_6_ClientboundSpawnPosition_id (fun _ => Packets16.SpawnPosition);
    mkPacket "v1_6_x" "ClientboundTimeUpdate" RegistryTables.Play RegistryTables.Clientbound v1_6_ClientboundTimeUpdate_id (fun _ => Packets16.TimeUpdate);
    mkPacket "v1_6_x" "ClientboundUpdateHealth" RegistryTables.Play RegistryTables.Clientbound v1_6_ClientboundUpdateHealth_id (fun _ => Packets16.UpdateHealth) ].

Definition v1_7_packets : list Packet :=
  [ mkPacket "v1_7_x" "ServerboundHandshake" RegistryTables.Handshake RegistryTables.Serverbound v1_7_ServerboundHandshake_id (fun _ => Packets17.Handshake);
    mkPacket "v1_7_x" "ServerboundStatusRequest" RegistryTables.Status RegistryTables.Serverbound v1_7_ServerboundStatusRequest_id (fun _ => Packets17.StatusRequest);
    mkPacket "v1_7_x" "ServerboundPingRequest" RegistryTables.Status RegistryTables.Serverbound v1_7_ServerboundPingRequest_id (fun _ => Packets17.PingRequest);
    mkPacket "v1_7_x" "ClientboundStatusResponse" RegistryTables.Status RegistryTables.Clientbound v1_7_ClientboundStatusResponse_id (fun _ => Packets17.StatusResponse);
    mkPacket "v1_7_x" "ClientboundPongResponse" RegistryTables.Status RegistryTables.Clientbound v1_7_ClientboundPongResponse_id (fun _ => Packets17.PongResponse);
    mkPacket "v1_7_x" "ClientboundLoginDisconnect" RegistryTables.Login RegistryTables.Clientbound v1_7_ClientboundLoginDisconnect_id (fun _ => Packets17.LoginDisconnect);
    mkPacket "v1_7_x" "ClientboundEncryptionRequest" RegistryTables.Login RegistryTables.Clientbound v1_7_ClientboundEncryptionRequest_id (fun _ => Packets17.EncryptionRequest);
    mkPacket "v1_7_x" "ClientboundLoginSuccess" RegistryTables.Login RegistryTables.Clientbound v1_7_ClientboundLoginSuccess_id (fun _ => Packets17.LoginSuccess uuid_text uuid_parse);
    mkPacket "v1_7_x" "ServerboundLoginStart" RegistryTables.Login RegistryTables.Serverbound v1_7_ServerboundLoginStart_id (fun _ => Packets17.LoginStart);
    mkPacket "v1_7_x" "ServerboundEncryptionResponse" RegistryTables.Login RegistryTables.Serverbound v1_7_ServerboundEncryptionResponse_id (fun _ => Packets17.EncryptionResponse);
    mkPacket "v1_7_x" "ClientboundKeepAlive" RegistryTables.Play RegistryTables.Clientbound v1_7_ClientboundKeepAlive_id (fun _ => Packets17.KeepAlive);
    mkPacket "v1_7_x" "ClientboundJoinGame" RegistryTables.Play RegistryTables.Clientbound v1_7_ClientboundJoinGame_id (fun _ => Packets17.JoinGame);
    mkPacket "v1_7_x" "ClientboundChatMessage" RegistryTables.Play RegistryTables.Clientbound v1_7_ClientboundChatMessage_id (fun _ => Packets17.ChatMessage);
    mkPacket "v1_7_x" "ClientboundPlayerPosition" RegistryTables.Play RegistryTables.Clientbound v1_7_ClientboundPlayerPosition_id (fun _ => Packets17.PlayerPosition);
    mkPacket "v1_7_x" "ClientboundDisconnect" RegistryTables.Play RegistryTables.Clientbound v1_7_ClientboundDisconnect_id (fun _ => Packets17.Disconnect);
    mkPacket "v1_7_x" "ClientboundPlayerAbilities" RegistryTables.Play RegistryTables.Clientbound v1_7_ClientboundPlayerAbilities_id (fun _ => Packets17.PlayerAbilities) ].

Definition v1_8_packets : list Packet :=
  [ mkPacket "v1_8_x" "ServerboundHandshake" RegistryTables.Handshake RegistryTables.Serverbound v1_8_ServerboundHandshake_id (fun _ => Packets18.Handshake);
    mkPacket "v1_8_x" "ServerboundStatusRequest" RegistryTables.Status RegistryTables.Serverbound v1_8_ServerboundStatusRequest_id (fun _ => Packets18.StatusRequest);
    mkPacket "v1_8_x" "ServerboundPingRequest" RegistryTables.Status RegistryTables.Serverbound v1_8_ServerboundPingRequest_id (fun _ => Codec Packets18.PingRequest_encode Packets18.PingRequest_decode (fits_s 64));
    mkPacket "v1_8_x" "ClientboundStatusResponse" RegistryTables.Status RegistryTables.Clientbound v1_8_ClientboundStatusResponse_id (fun _ => Packets18.StatusResponse);
    mkPacket "v1_8_x" "ClientboundPongResponse" RegistryTables.Status RegistryTables.Clientbound v1_8_ClientboundPongResponse_id (fun _ => Packets18.PongResponse);
    mkPacket "v1_8_x" "ServerboundLoginStart" RegistryTables.Login RegistryTables.Serverbound v1_8_ServerboundLoginStart_id (fun _ => Packets18.LoginStart);
    mkPacket "v1_8_x" "ClientboundLoginDisconnect" RegistryTables.Login RegistryTables.Clientbound v1_8_ClientboundLoginDisconnect_id (fun _ => Packets18.LoginDisconnect);
    mkPacket "v1_8_x" "ClientboundEncryptionRequest" RegistryTables.Login RegistryTables.Clientbound v1_8_ClientboundEncryptionRequest_id (fun _ => Packets18.EncryptionRequest);
    mkPacket "v1_8_x" "ClientboundLoginSuccess" RegistryTables.Login RegistryTables.Clientbound v1_8_ClientboundLoginSuccess_id (fun _ => Packets18.LoginSuccess uuid_text uuid_parse);
    mkPacket "v1_8_x" "ClientboundSetCompression" RegistryTables.Login RegistryTables.Clientbound v1_8_ClientboundSetCompression_id (fun _ => Packets18.SetCompressionPacket);
    mkPacket "v1_8_x" "ServerboundEncryptionResponse" RegistryTables.Login RegistryTables.Serverbound v1_8_ServerboundEncryptionResponse_id (fun _ => Packets18.EncryptionResponse);
    mkPacket "v1_8_x" "ClientboundJoinGame" RegistryTables.Play RegistryTables.Clientbound v1_8_ClientboundJoinGame_id (fun _ => Packets18.JoinGame);
    mkPacket "v1_8_x" "ClientboundRespawn" RegistryTables.Play RegistryTables.Clientbound v1_8_ClientboundRespawn_id (fun _ => Packets18.Respawn);
    mkPacket "v1_8_x" "ClientboundPlayerPosition" RegistryTables.Play RegistryTables.Clientbound v1_8_ClientboundPlayerPosition_id (fun _ => Packets18.PlayerPosition);
    mkPacket "v1_8_x" "ClientboundKeepAlive" RegistryTables.Play RegistryTables.Clientbound v1_8_ClientboundKeepAlive_id (fun _ => Packets18.KeepAlive);
    mkPacket "v1_8_x" "ClientboundChatMessage" RegistryTables.Play RegistryTables.Clientbound v1_8_ClientboundChatMessage_id (fun _ => Packets18.ChatMessage);
    mkPacket "v1_8_x" "ClientboundPluginMessage" RegistryTables.Play RegistryTables.Clientbound v1_8_ClientboundPluginMessage_id (fun _ => Packets18.PluginMessage);
    mkPacket "v1_8_x" "ClientboundDisconnect" RegistryTables.Play RegistryTables.Clientbound v1_8_ClientboundDisconnect_id (fun _ => Packets18.Disconnect);
    mkPacket "v1_8_x" "ClientboundSetHeldItem" RegistryTables.Play RegistryTables.Clientbound v1_8_ClientboundSetHeldItem_id (fun _ => Packets18.SetHeldItem);
    mkPacket "v1_8_x" "ClientboundSound" RegistryTables.Play RegistryTables.Clientbound v1_8_ClientboundSound_id (fun _ => Packets18.Sound);
    mkPacket "v1_8_x" "ClientboundPlayerAbilities" RegistryTables.Play RegistryTables.Clientbound v1_8_ClientboundPlayerAbilities_id (fun _ => Packets18.PlayerAbilities) ].

Definition v1_12_packets : list Packet :=
  [ mkPacket "v1_12_x" "ServerboundHandshake" RegistryTables.Handshake RegistryTables.Serverbound v1_12_ServerboundHandshake_id (fun _ => Packets112.Handshake);
    mkPacket "v1_12_x" "ServerboundStatusRequest" RegistryTables.Status RegistryTables.Serverbound v1_12_ServerboundStatusRequest_id (fun _ => Packets112.StatusRequest);
    mkPacket "v1_12_x" "ClientboundStatusResponse" RegistryTables.Status RegistryTables.Clientbound v1_12_ClientboundStatusResponse_id (fun _ => Packets112.StatusResponse);
    mkPacket "v1_12_x" "ServerboundPingRequest" RegistryTables.Status RegistryTables.Serverbound v1_12_ServerboundPingRequest_id (fun _ => Packets112.PingRequest);
    mkPacket "v1_12_x" "ClientboundPongResponse" RegistryTables.Status RegistryTables.Clientbound v1_12_ClientboundPongResponse_id (fun _ => Packets112.PongResponse);
    mkPacket "v1_12_x" "ServerboundLoginStart" RegistryTables.Login RegistryTables.Serverbound v1_12_ServerboundLoginStart_id (fun _ => Packets112.LoginStart);
    mkPacket "v1_12_x" "ClientboundLoginDisconnect" RegistryTables.Login RegistryTables.Clientbound v1_12_ClientboundLoginDisconnect_id (fun _ => Packets112.LoginDisconnect);
    mkPacket "v1_12_x" "ClientboundEncryptionRequest" RegistryTables.Login RegistryTables.Clientbound v1_12_ClientboundEncryptionRequest_id (fun _ => Packets112.EncryptionRequest);
    mkPacket "v1_12_x" "ServerboundEncryptionResponse" RegistryTables.Login RegistryTables.Serverbound v1_12_ServerboundEncryptionResponse_id (fun _ => Packets112.EncryptionResponse);
    mkPacket "v1_12_x" "ClientboundLoginSuccess" RegistryTables.Login RegistryTables.Clientbound v1_12_ClientboundLoginSuccess_id (fun _ => Packets112.LoginSuccess uuid_text uuid_parse);
    mkPacket "v1_12_x" "ClientboundSetCompression" RegistryTables.Login RegistryTables.Clientbound v1_12_ClientboundSetCompression_id (fun _ => Packets112.SetCompression);
    mkPacket "v1_12_x" "ClientboundLoginPluginRequest" RegistryTables.Login RegistryTables.Clientbound v1_12_ClientboundLoginPluginRequest_id (fun _ => Packets112.LoginPluginRequest);
    mkPacket "v1_12_x" "ServerboundLoginPluginResponse" RegistryTables.Login RegistryTables.Serverbound v1_12_ServerboundLoginPluginResponse_id (fun _ => Packets112.LoginPluginResponse);
    mkPacket "v1_12_x" "ServerboundLoginAcknowledged" RegistryTables.Login RegistryTables.Serverbound v1_12_ServerboundLoginAcknowledged_id (fun _ => Packets112.LoginAcknowledged);
    mkPacket "v1_12_x" "AcknowledgeFinishConfiguration" RegistryTables.Configuration RegistryTables.Serverbound v1_12_AcknowledgeFinishConfiguration_id (fun _ => Packets112.AckFinishConfiguration);
    mkPacket "v1_12_x" "ClientboundJoinGame" RegistryTables.Play RegistryTables.Clientbound v1_12_ClientboundJoinGame_id (fun _ => Packets112.JoinGame);
    mkPacket "v1_12_x" "ClientboundRespawn" RegistryTables.Play RegistryTables.Clientbound v1_12_ClientboundRespawn_id (fun _ => Packets112.Respawn);
    mkPacket "v1_12_x" "ClientboundPlayerPosition" RegistryTables.Play RegistryTables.Clientbound v1_12_ClientboundPlayerPosition_id (fun _ => Packets112.PlayerPosition);
    mkPacket "v1_12_x" "ClientboundKeepAlive" RegistryTables.Play RegistryTables.Clientbound v1_12_ClientboundKeepAlive_id (fun _ => Packets112.KeepAlive);
    mkPacket "v1_12_x" "ClientboundChatMessage" RegistryTables.Play RegistryTables.Clientbound v1_12_ClientboundChatMessage_id (fun _ => Packets112.ChatMessage);
    mkPacket "v1_12_x" "ClientboundDisconnect" RegistryTables.Play RegistryTables.Clientbound v1_12_ClientboundDisconnect_id (fun _ => Packets112.Disconnect);
    mkPacket "v1_12_x" "ClientboundPlayerAbilities" RegistryTables.Play RegistryTables.Clientbound v1_12_ClientboundPlayerAbilities_id (fun _ => Packets112.PlayerAbilities);
    mkPacket "v1_12_x" "ClientboundSetCarriedItem" RegistryTables.Play RegistryTables.Clientbound v1_12_ClientboundSetCarriedItem_id (fun _ => Packets112.SetCarriedItem);
    mkPacket "v1_12_x" "ClientboundBossBar" RegistryTables.Play RegistryTables.Clientbound v1_12_ClientboundBossBar_id (fun _ => Packets112.BossBar);
    mkPacket "v1_12_x" "ClientboundSound" RegistryTables.Play RegistryTables.Clientbound v1_12_ClientboundSound_id (fun _ => Packets112.Sound) ].

Definition v1_16_packets : list Packet :=
  [ mkPacket "v1_16_x" "ServerboundHandshake" RegistryTables.Handshake RegistryTables.Serverbound v1_16_ServerboundHandshake_id (fun _ => Packets116.Handshake);
    mkPacket "v1_16_x" "ServerboundStatusRequest" RegistryTables.Status RegistryTables.Serverbound v1_16_ServerboundStatusRequest_id (fun _ => Packets116.StatusRequest);
    mkPacket "v1_16_x" "ClientboundStatusResponse" RegistryTables.Status RegistryTables.Clientbound v1_16_ClientboundStatusResponse_id (fun _ => Packets116.StatusResponse);
    mkPacket "v1_16_x" "ServerboundPingRequest" RegistryTables.Status RegistryTables.Serverbound v1_16_ServerboundPingRequest_id (fun _ => Packets116.PingRequest);
    mkPacket "v1_16_x" "ClientboundPongResponse" RegistryTables.Status RegistryTables.Clientbound v1_16_ClientboundPongResponse_id (fun _ => Packets116.PongResponse);
    mkPacket "v1_16_x" "ServerboundLoginStart" RegistryTables.Login RegistryTables.Serverbound v1_16_ServerboundLoginStart_id (fun _ => Packets116.LoginStart);
    mkPacket "v1_16_x" "ClientboundLoginDisconnect" RegistryTables.Login RegistryTables.Clientbound v1_16_ClientboundLoginDisconnect_id (fun _ => Packets116.LoginDisconnect);
    mkPacket "v1_16_x" "ClientboundEncryptionRequest" RegistryTables.Login RegistryTables.Clientbound v1_16_ClientboundEncryptionRequest_id (fun _ => Packets116.EncryptionRequest);
    mkPacket "v1_16_x" "ClientboundLoginSuccess" RegistryTables.Login RegistryTables.Clientbound v1_16_ClientboundLoginSuccess_id (fun _ => Packets116.LoginSuccess);
    mkPacket "v1_16_x" "ClientboundSetCompression" RegistryTables.Login RegistryTables.Clientbound v1_16_ClientboundSetCompression_id (fun _ => Packets116.SetCompression);
    mkPacket "v1_16_x" "ServerboundEncryptionResponse" RegistryTables.Login RegistryTables.Serverbound v1_16_ServerboundEncryptionResponse_id (fun _ => Packets116.EncryptionResponse);
    mkPacket "v1_16_x" "ClientboundPlayerAbilities" RegistryTables.Play RegistryTables.Clientbound v1_16_ClientboundPlayerAbilities_id (fun _ => Packets116.PlayerAbilities);
    mkPacket "v1_16_x" "ClientboundHeldItemChange" RegistryTables.Play RegistryTables.Clientbound v1_16_ClientboundHeldItemChange_id (fun _ => Packets116.HeldItemChange);
    mkPacket "v1_16_x" "ClientboundNamedSoundEffect" RegistryTables.Play RegistryTables.Clientbound v1_16_ClientboundNamedSoundEffect_id (fun _ => Packets116.NamedSoundEffect);
    mkPacket "v1_16_x" "ClientboundJoinGame" RegistryTables.Play RegistryTables.Clientbound v1_16_ClientboundJoinGame_id (Packets116.JoinGame);
    mkPacket "v1_16_x" "ClientboundRespawn" RegistryTables.Play RegistryTables.Clientbound v1_16_ClientboundRespawn_id (fun _ => Packets116.Respawn);
    mkPacket "v1_16_x" "ClientboundPlayerPosition" RegistryTables.Play RegistryTables.Clientbound v1_16_ClientboundPlayerPosition_id (fun _ => Packets116.PlayerPosition);
    mkPacket "v1_16_x" "ClientboundKeepAlive" RegistryTables.Play RegistryTables.Clientbound v1_16_ClientboundKeepAlive_id (fun _ => Packets116.KeepAlive);
    mkPacket "v1_16_x" "ClientboundChatMessage" RegistryTables.Play RegistryTables.Clientbound v1_16_ClientboundChatMessage_id (fun _ => Packets116.ChatMessage);
    mkPacket "v1_16_x" "ClientboundDisconnect" RegistryTables.Play RegistryTables.Clientbound v1_16_ClientboundDisconnect_id (fun _ => Packets116.Disconnect) ].

Definition v1_19_packets : list Packet :=
  [ mkPacket "v1_19_x" "ServerboundHandshake" RegistryTables.Handshake RegistryTables.Serverbound v1_19_ServerboundHandshake_id (fun _ => Packets119.Handshake);
    mkPacket "v1_19_x" "ServerboundStatusRequest" RegistryTables.Status RegistryTables.Serverbound v1_19_ServerboundStatusRequest_id (fun _ => Packets119.StatusRequest);
    mkPacket "v1_19_x" "ClientboundStatusResponse" RegistryTables.Status RegistryTables.Clientbound v1_19_ClientboundStatusResponse_id (fun _ => Packets119.StatusResponse);
    mkPacket "v1_19_x" "ServerboundPingRequest" RegistryTables.Status RegistryTables.Serverbound v1_19_ServerboundPingRequest_id (fun _ => Packets119.PingRequest);
    mkPacket "v1_19_x" "ClientboundPongResponse" RegistryTables.Status RegistryTables.Clientbound v1_19_ClientboundPongResponse_id (fun _ => Packets119.PongResponse);
    mkPacket "v1_19_x" "ServerboundLoginStart" RegistryTables.Login RegistryTables.Serverbound v1_19_ServerboundLoginStart_id (fun _ => Packets119.LoginStart);
    mkPacket "v1_19_x" "ClientboundLoginDisconnect" RegistryTables.Login RegistryTables.Clientbound v1_19_ClientboundLoginDisconnect_id (fun _ => Packets119.LoginDisconnect);
    mkPacket "v1_19_x" "ClientboundEncryptionRequest" RegistryTables.Login RegistryTables.Clientbound v1_19_ClientboundEncryptionRequest_id (fun _ => Packets119.EncryptionRequest);
    mkPacket "v1_19_x" "ClientboundLoginSuccess" RegistryTables.Login RegistryTables.Clientbound v1_19_ClientboundLoginSuccess_id (fun _ => Packets119.LoginSuccess);
    mkPacket "v1_19_x" "ClientboundSetCompression" RegistryTables.Login RegistryTables.Clientbound v1_19_ClientboundSetCompression_id (fun _ => Packets119.SetCompression);
    mkPacket "v1_19_x" "ClientboundLoginPluginRequest" RegistryTables.Login RegistryTables.Clientbound v1_19_ClientboundLoginPluginRequest_id (fun _ => Packets119.LoginPluginRequest);
    mkPacket "v1_19_x" "ServerboundEncryptionResponse" RegistryTables.Login RegistryTables.Serverbound v1_19_ServerboundEncryptionResponse_id (fun _ => Packets119.EncryptionResponse);
    mkPacket "v1_19_x" "ServerboundLoginPluginResponse" RegistryTables.Login RegistryTables.Serverbound v1_19_ServerboundLoginPluginResponse_id (fun _ => Packets119.LoginPluginResponse);
    mkPacket "v1_19_x" "ClientboundDisconnect" RegistryTables.Play RegistryTables.Clientbound v1_19_ClientboundDisconnect_id (fun _ => Packets119.Disconnect);
    mkPacket "v1_19_x" "ClientboundKeepAlive" RegistryTables.Play RegistryTables.Clientbound v1_19_ClientboundKeepAlive_id (fun _ => Packets119.KeepAlive);
    mkPacket "v1_19_x" "ClientboundLogin" RegistryTables.Play RegistryTables.Clientbound v1_19_ClientboundLogin_id (fun _ => Packets119.Login);
    mkPacket "v1_19_x" "ClientboundPlayerPosition" RegistryTables.Play RegistryTables.Clientbound v1_19_ClientboundPlayerPosition_id (fun _ => Packets119.PlayerPosition);
    mkPacket "v1_19_x" "ClientboundRespawn" RegistryTables.Play RegistryTables.Clientbound v1_19_ClientboundRespawn_id (fun _ => Packets119.Respawn);
    mkPacket "v1_19_x" "ClientboundPlayerAbilities" RegistryTables.Play RegistryTables.Clientbound v1_19_ClientboundPlayerAbilities_id (fun _ => Packets119.PlayerAbilities);
    mkPacket "v1_19_x" "ClientboundSystemChat" RegistryTables.Play RegistryTables.Clientbound v1_19_ClientboundSystemChat_id (fun _ => Packets119.SystemChat);
    mkPacket "v1_19_x" "ClientboundSetCarriedItem" RegistryTables.Play RegistryTables.Clientbound v1_19_ClientboundSetCarriedItem_id (fun _ => Packets119.SetCarriedItem) ].

Definition v1_20_packets : list Packet :=
  [ mkPacket "v1_20_x" "ServerboundHandshake" RegistryTables.Handshake RegistryTables.Serverbound v1_20_ServerboundHandshake_id (fun _ => Packets120.Handshake);
    mkPacket "v1_20_x" "ServerboundStatusRequest" RegistryTables.Status RegistryTables.Serverbound v1_20_ServerboundStatusRequest_id (fun _ => Packets120.StatusRequest);
    mkPacket "v1_20_x" "ClientboundStatusResponse" RegistryTables.Status RegistryTables.Clientbound v1_20_ClientboundStatusResponse_id (fun _ => Packets120.StatusResponse);
    mkPacket "v1_20_x" "ServerboundPingRequest" RegistryTables.Status RegistryTables.Serverbound v1_20_ServerboundPingRequest_id (fun _ => Packets120.PingRequest);
    mkPacket "v1_20_x" "ClientboundPongResponse" RegistryTables.Status RegistryTables.Clientbound v1_20_ClientboundPongResponse_id (fun _ => Packets120.PongResponse);
    mkPacket "v1_20_x" "ServerboundLoginStart" RegistryTables.Login RegistryTables.Serverbound v1_20_ServerboundLoginStart_id (fun _ => Packets120.LoginStart);
    mkPacket "v1_20_x" "ServerboundEncryptionResponse" RegistryTables.Login RegistryTables.Serverbound v1_20_ServerboundEncryptionResponse_id (fun _ => Packets120.EncryptionResponse);
    mkPacket "v1_20_x" "ServerboundLoginPluginResponse" RegistryTables.Login RegistryTables.Serverbound v1_20_ServerboundLoginPluginResponse_id (fun _ => Packets120.LoginPluginResponse);
    mkPacket "v1_20_x" "ServerboundLoginAcknowledged" RegistryTables.Login RegistryTables.Serverbound v1_20_ServerboundLoginAcknowledged_id (fun _ => Packets120.LoginAcknowledged);
    mkPacket "v1_20_x" "ClientboundLoginDisconnect" RegistryTables.Login RegistryTables.Clientbound v1_20_ClientboundLoginDisconnect_id (fun _ => Packets120.LoginDisconnect);
    mkPacket "v1_20_x" "ClientboundEncryptionRequest" RegistryTables.Login RegistryTables.Clientbound v1_20_ClientboundEncryptionRequest_id (fun _ => Packets120.EncryptionRequest);
    mkPacket "v1_20_x" "ClientboundLoginSuccess" RegistryTables.Login RegistryTables.Clientbound v1_20_ClientboundLoginSuccess_id (fun _ => Packets120.LoginSuccess);
    mkPacket "v1_20_x" "ClientboundSetCompression" RegistryTables.Login RegistryTables.Clientbound v1_20_ClientboundSetCompression_id (fun _ => Packets120.SetCompression);
    mkPacket "v1_20_x" "ClientboundLoginPluginRequest" RegistryTables.Login RegistryTables.Clientbound v1_20_ClientboundLoginPluginRequest_id (fun _ => Packets120.LoginPluginRequest);
    mkPacket "v1_20_x" "ServerboundAcknowledgeFinishConfiguration" RegistryTables.Configuration RegistryTables.Serverbound v1_20_ServerboundAcknowledgeFinishConfiguration_id (fun _ => Packets120.AckFinishConfiguration);
    mkPacket "v1_20_x" "ClientboundFinishConfiguration" RegistryTables.Configuration RegistryTables.Clientbound v1_20_ClientboundFinishConfiguration_id (fun _ => Packets120.FinishConfiguration);
    mkPacket "v1_20_x" "ClientboundBossBar" RegistryTables.Play RegistryTables.Clientbound v1_20_ClientboundBossBar_id (fun _ => Packets120.BossBar);
    mkPacket "v1_20_x" "ClientboundDisconnect" RegistryTables.Play RegistryTables.Clientbound v1_20_ClientboundDisconnect_id (fun _ => Packets120.Disconnect);
    mkPacket "v1_20_x" "ClientboundKeepAlive" RegistryTables.Play RegistryTables.Clientbound v1_20_ClientboundKeepAlive_id (fun _ => Packets120.KeepAlive);
    mkPacket "v1_20_x" "ClientboundLogin" RegistryTables.Play RegistryTables.Clientbound v1_20_ClientboundLogin_id (Packets120.Login);
    mkPacket "v1_20_x" "ClientboundPluginMessage" RegistryTables.Play RegistryTables.Clientbound v1_20_ClientboundPluginMessage_id (fun _ => Packets120.PluginMessage);
    mkPacket "v1_20_x" "ClientboundPlayerPosition" RegistryTables.Play RegistryTables.Clientbound v1_20_ClientboundPlayerPosition_id (fun _ => Packets120.PlayerPosition);
    mkPacket "v1_20_x" "ClientboundRespawn" RegistryTables.Play RegistryTables.Clientbound v1_20_ClientboundRespawn_id (fun _ => Packets120.Respawn);
    mkPacket "v1_20_x" "ClientboundPlayerAbilities" RegistryTables.Play RegistryTables.Clientbound v1_20_ClientboundPlayerAbilities_id (fun _ => Packets120.PlayerAbilities);
    mkPacket "v1_20_x" "ClientboundSetCarriedItem" RegistryTables.Play RegistryTables.Clientbound v1_20_ClientboundSetCarriedItem_id (fun _ => Packets120.SetCarriedItem);
    mkPacket "v1_20_x" "ClientboundSystemChat" RegistryTables.Play RegistryTables.Clientbound v1_20_ClientboundSystemChat_id (fun _ => Packets120.SystemChat) ].

Definition v1_21_packets : list Packet :=
  [ mkPacket "v1_21_x" "ServerboundHandshake" RegistryTables.Handshake RegistryTables.Serverbound v1_21_ServerboundHandshake_id (fun _ => Packets121.Handshake);
    mkPacket "v1_21_x" "ServerboundStatusRequest" RegistryTables.Status RegistryTables.Serverbound v1_21_ServerboundStatusRequest_id (fun _ => Packets121.StatusRequest);
    mkPacket "v1_21_x" "ClientboundStatusResponse" RegistryTables.Status RegistryTables.Clientbound v1_21_ClientboundStatusResponse_id (fun _ => Packets121.StatusResponse);
    mkPacket "v1_21_x" "ServerboundPingRequest" RegistryTables.Status RegistryTables.Serverbound v1_21_ServerboundPingRequest_id (fun _ => Packets121.PingRequest);
    mkPacket "v1_21_x" "ClientboundPongResponse" RegistryTables.Status RegistryTables.Clientbound v1_21_ClientboundPongResponse_id (fun _ => Packets121.PongResponse);
    mkPacket "v1_21_x" "ServerboundLoginStart" RegistryTables.Login RegistryTables.Serverbound v1_21_ServerboundLoginStart_id (fun _ => Packets121.LoginStart);
    mkPacket "v1_21_x" "ClientboundLoginDisconnect" RegistryTables.Login RegistryTables.Clientbound v1_21_ClientboundLoginDisconnect_id (fun _ => Packets121.LoginDisconnect);
    mkPacket "v1_21_x" "ClientboundEncryptionRequest" RegistryTables.Login RegistryTables.Clientbound v1_21_ClientboundEncryptionRequest_id (fun _ => Packets121.EncryptionRequest);
    mkPacket "v1_21_x" "ClientboundLoginSuccess" RegistryTables.Login RegistryTables.Clientbound v1_21_ClientboundLoginSuccess_id (fun _ => Packets121.LoginSuccess);
    mkPacket "v1_21_x" "ClientboundSetCompression" RegistryTables.Login RegistryTables.Clientbound v1_21_ClientboundSetCompression_id (fun _ => Packets121.SetCompression);
    mkPacket "v1_21_x" "ClientboundLoginPluginRequest" RegistryTables.Login RegistryTables.Clientbound v1_21_ClientboundLoginPluginRequest_id (fun _ => Packets121.LoginPluginRequest);
    mkPacket "v1_21_x" "ServerboundEncryptionResponse" RegistryTables.Login RegistryTables.Serverbound v1_21_ServerboundEncryptionResponse_id (fun _ => Packets121.EncryptionResponse);
    mkPacket "v1_21_x" "ServerboundLoginPluginResponse" RegistryTables.Login RegistryTables.Serverbound v1_21_ServerboundLoginPluginResponse_id (fun _ => Packets121.LoginPluginResponse);
    mkPacket "v1_21_x" "ServerboundLoginAcknowledged" RegistryTables.Login RegistryTables.Serverbound v1_21_ServerboundLoginAcknowledged_id (fun _ => Packets121.LoginAcknowledged);
    mkPacket "v1_21_x" "ServerboundAcknowledgeFinishConfiguration" RegistryTables.Configuration RegistryTables.Serverbound v1_21_ServerboundAcknowledgeFinishConfiguration_id (fun _ => Packets121.AckFinishConfiguration);
    mkPacket "v1_21_x" "ClientboundFinishConfiguration" RegistryTables.Configuration RegistryTables.Clientbound v1_21_ClientboundFinishConfiguration_id (fun _ => Packets121.FinishConfiguration);
    mkPacket "v1_21_x" "ClientboundKeepAlive" RegistryTables.Play RegistryTables.Clientbound v1_21_ClientboundKeepAlive_id (fun _ => Packets121.KeepAlive);
    mkPacket "v1_21_x" "ClientboundPlayerPosition" RegistryTables.Play RegistryTables.Clientbound v1_21_ClientboundPlayerPosition_id (fun _ => Packets121.PlayerPosition);
    mkPacket "v1_21_x" "ClientboundSystemChat" RegistryTables.Play RegistryTables.Clientbound v1_21_ClientboundSystemChat_id (fun _ => Packets121.SystemChat);
    mkPacket "v1_21_x" "ClientboundLogin" RegistryTables.Play RegistryTables.Clientbound v1_21_ClientboundLogin_id (fun _ => Packets121.Login);
    mkPacket "v1_21_x" "ClientboundRespawn" RegistryTables.Play RegistryTables.Clientbound v1_21_ClientboundRespawn_id (fun _ => Packets121.Respawn);
    mkPacket "v1_21_x" "ClientboundSound" RegistryTables.Play RegistryTables.Clientbound v1_21_ClientboundSound_id (fun _ => Packets121.Sound);
    mkPacket "v1_21_x" "ClientboundDisconnect" RegistryTables.Play RegistryTables.Clientbound v1_21_ClientboundDisconnect_id (fun _ => Packets121.Disconnect);
    mkPacket "v1_21_x" "ClientboundPlayerAbilities" RegistryTables.Play RegistryTables.Clientbound v1_21_ClientboundPlayerAbilities_id (fun _ => Packets121.PlayerAbilities);
    mkPacket "v1_21_x" "ClientboundSetCarriedItem" RegistryTables.Play RegistryTables.Clientbound v1_21_ClientboundSetCarriedItem_id (fun _ => Packets121.SetCarriedItem) ].

Definition all_packets : list Packet :=
  v1_6_packets ++ v1_7_packets ++ v1_8_packets ++ v1_12_packets ++ v1_16_packets ++ v1_19_packets ++
  v1_20_packets ++ v1_21_packets.

(** The family whose structures a version uses (versions/mod.rs). *)
Definition family_of (v : ProtocolVersion) : list Packet :=
  match canonical_typed_packet_version v with
  | C_V1_6_4 => v1_6_packets
  | C_V1_7_10 => v1_7_packets
  | C_V1_8 => v1_8_packets
  | C_V1_12_2 => v1_12_packets
  | C_V1_15_2 | C_V1_16_5 => v1_16_packets
  | C_V1_18_2 | C_V1_19_4 => v1_19_packets
  | C_V1_20_4 => v1_20_packets
  | C_V1_21 | C_V26 => v1_21_packets
  end.

Definition key_at (ver : Z) (p : Packet) : string * ProtocolState * Direction * Z :=
  (pk_name p, pk_state p, pk_direction p, pk_id p ver).

(** ** Lemmas *)

(** A packet that fills its frame is read back. *)
Class WholePacket {A} (c : codec A) : Prop :=
  whole_packet v : wf c v -> exists bs, writes (enc c v) bs /\ reads_all (dec c) bs v.

#[local] Instance RoundTrips_whole {A} (c : codec A) : RoundTrips c -> WholePacket c.
Proof.
  intros Hc v Hv. destruct (roundtrips v Hv) as (bs & Hw & Hr). exists bs. split; [done|].
  unfold reads_all. rewrite <- (app_nil_r bs) at 1. apply Hr.
Qed.
#[local] Instance LawfulTail_whole {A} (c : codec A) : LawfulTail c -> WholePacket c.
Proof. intros Hc v Hv. exists (wire c v). split; [by apply lawful_tail_writes|by apply lawful_tail_reads]. Qed.
#[local] Instance i64_whole : WholePacket (Codec put_i64 get_i64 (fits_s 64)).
Proof.
  intros v Hv. exists (be_bytes 8 v). cbn [wf enc dec] in *. split; [apply writes_put|].
  unfold reads_all. rewrite <- (app_nil_r (be_bytes 8 v)). apply reads_int; [lia|done].
Qed.

(** The decoders that read bytes they have not checked for: see the properties of
    the families. *)
Definition unguarded : list (string * string) :=
  [ ("v1_6_x", "ServerboundHandshake"); ("v1_6_x", "ClientboundPong"); ("v1_8_x", "ServerboundPingRequest");
    ("v1_16_x", "ClientboundLoginSuccess"); ("v1_16_x", "ClientboundJoinGame"); ("v1_19_x", "ClientboundLogin") ]%string.

(** On arbitrary bytes a decoder returns and removes a prefix. *)
Definition safe {A} (c : codec A) : Prop := total (dec c) /\ consuming (dec c).

Lemma safe_lawful {A} (c : codec A) : Lawful c -> safe c.
Proof. intros H. split; [apply lawful_total|apply lawful_consuming]. Qed.
Lemma safe_tail {A} (c : codec A) : LawfulTail c -> safe c.
Proof. intros H. split; [apply lawful_tail_total|apply lawful_tail_consuming]. Qed.

Definition decoder_spec (ver : Z) (p : Packet) : Prop :=
  if bool_decide ((pk_family p, pk_name p) ∈ unguarded) then exists src, (dec (pk_codec p ver) src).1 = Panic
  else safe (pk_codec p ver).

(** What a row of a family promises at a protocol number. *)
Definition packet_ok (ver : Z) (p : Packet) : Prop := WholePacket (pk_codec p ver) /\ fits_u 8 (pk_id p ver).

Ltac solve_id :=
  cbn [pk_id];
  match goal with |- fits_u 8 (?f ?v) => unfold f end;
  match goal with
  | |- fits_u 8 (cb_play ?v ?n) => exact (lookup_fits v Play Clientbound n)
  | |- fits_u 8 (if ?b then _ else _) => unfold fits_u; destruct b; lia
  | |- _ => unfold fits_u; lia
  end.
Ltac solve_rows := repeat (apply Forall_cons_2; [split; [cbn [pk_codec]; exact _|solve_id]|]); apply Forall_nil_2.

Ltac solve_decoder :=
  unfold decoder_spec; cbn [pk_family pk_name pk_codec];
  match goal with |- context [bool_decide ?P] => let b := eval vm_compute in (bool_decide P) in
    replace (bool_decide P) with b by (vm_compute; reflexivity) end;
  first [ apply safe_lawful; exact _ | apply safe_tail; exact _
        | exists []; vm_compute; reflexivity
        | exists (be_bytes 8 0 ++ text_document); vm_compute; reflexivity
        | exists (be_bytes 17 0 ++ wire VarInt.VarInt (-1)); vm_compute; reflexivity ].
Ltac solve_decoders := repeat (apply Forall_cons_2; [solve_decoder|]); apply Forall_nil_2.

Lemma decoders_spec ver : Forall (decoder_spec ver) all_packets.
Proof.
  unfold all_packets. repeat (apply Forall_app; split).
  - unfold v1_6_packets. solve_decoders.
  - unfold v1_7_packets. solve_decoders.
  - unfold v1_8_packets. solve_decoders.
  - unfold v1_12_packets. solve_decoders.
  - unfold v1_16_packets. solve_decoders.
  - unfold v1_19_packets. solve_decoders.
  - unfold v1_20_packets. solve_decoders.
  - unfold v1_21_packets. solve_decoders.
Qed.

Lemma packets_ok ver : Forall (packet_ok ver) all_packets.
Proof.
  unfold all_packets. repeat (apply Forall_app; split).
  - unfold v1_6_packets. solve_rows.
  - unfold v1_7_packets. solve_rows.
  - unfold v1_8_packets. solve_rows.
  - unfold v1_12_packets. solve_rows.
  - unfold v1_16_packets. solve_rows.
  - unfold v1_19_packets. solve_rows.
  - unfold v1_20_packets. solve_rows.
  - unfold v1_21_packets. solve_rows.
Qed.

(** Keys of different packets that share a state, a direction and a real id. *)
Definition apart (k l : string * ProtocolState * Direction * Z) : bool :=
  match k, l with (n, s, d, i), (n', s', d', i') =>
    (i =? 255) || negb (bool_decide (s = s') && bool_decide (d = d') && (i =? i')) || String.eqb n n'
  end.
Definition keys_apart (ks : list (string * ProtocolState * Direction * Z)) : bool :=
  forallb (fun k => forallb (apart k) ks) ks.

(** The rows of a family whose id at [ver] is the registry's failure value. *)
Definition unresolved (ver : Z) : list string :=
  map pk_name (List.filter (fun p => pk_id p ver =? 255) (family_of (ProtocolVersion_from_id ver))).

Definition ids_distinct_at (ver : Z) : bool := keys_apart (map (key_at ver) (family_of (ProtocolVersion_from_id ver))).

Lemma ids_distinct_checked : forallb ids_distinct_at SUPPORTED = true.
Proof. vm_compute. reflexivity. Qed.

Lemma unresolved_checked :
  forallb (fun ver => Nat.eqb (length (unresolved ver)) 0 || existsb (Z.eqb ver) [4; 73; 74; 78; 340; 755; 756; 757; 758])
    SUPPORTED = true.
Proof. vm_compute. reflexivity. Qed.

End Families.

(** ** Properties *)


(** C37: on arbitrary bytes and at any protocol number, the decoder of every typed
    packet returns and removes a prefix of the buffer, for all but six packets,
    and each of those panics on some bytes. *)
Theorem typed_decoders_safe uuid_text uuid_parse ver :
  Forall (fun p =>
    ((pk_family p, pk_name p) ∉ unguarded -> total (dec (pk_codec p ver)) /\ consuming (dec (pk_codec p ver))) /\
    ((pk_family p, pk_name p) ∈ unguarded -> exists src, (dec (pk_codec p ver) src).1 = Panic))
    (all_packets uuid_text uuid_parse).
Proof.
  eapply Forall_impl; [apply decoders_spec|]. intros p. unfold decoder_spec, safe. case_bool_decide as Hu; intros H; (split; [intros Hn|intros Hy]); first [exact H | by destruct Hn | by destruct Hu].
Qed.


