(* ===== verification/RegistryData.v ===== *)
(** * Configuration-phase registry data

    crates/proxy-core/src/net/registry_data.rs: which bundle a protocol gets, the
    splitting of a bundle into packet bodies, the tags that must be bound, and the
    rewriting of biome music for 1.21.4.  The bundles are data files, so their
    contents are arguments. *)
From Stdlib Require Import ZArith Lia Strings.String Strings.Byte.
From stdpp Require Import base list numbers strings.
From S2P Require Import Prelude Buf Wire VarInt Codec Nbt.
Local Open Scope Z_scope.
Local Open Scope koja_scope.

(** ** Bundles *)

Inductive Bundle :=
  | REGISTRIES_1_20_5 | REGISTRIES_1_21 | REGISTRIES_1_21_3 | REGISTRIES_1_21_5 | REGISTRIES_1_21_6
  | REGISTRIES_1_21_11 | REGISTRIES_26_1 | REGISTRIES_26_2.

Definition bundle_for_proto (proto : Z) : option Bundle :=
  if proto =? 766 then Some REGISTRIES_1_20_5
  else if proto =? 767 then Some REGISTRIES_1_21
  else if (768 <=? proto) && (proto <=? 769) then Some REGISTRIES_1_21_3
  else if proto =? 770 then Some REGISTRIES_1_21_5
  else if (771 <=? proto) && (proto <=? 773) then Some REGISTRIES_1_21_6
  else if proto =? 774 then Some REGISTRIES_1_21_11
  else if proto =? 775 then Some REGISTRIES_26_1
  else if proto =? 776 then Some REGISTRIES_26_2
  else if 776 <? proto then Some REGISTRIES_26_2
  else None.

Definition bundle_is_fallback (proto : Z) : bool := 776 <? proto.

Inductive BundleError := BundleTruncated | BundleOverruns.

(** [read_u32] of [parse_bundle]; the state is the bundle from [off] on. *)
Definition bundle_u32 : M bytes BundleError Z :=
  let! b := get_state in
  if (length b <? 4)%nat then fail BundleTruncated else get_uint 4.

Fixpoint read_bodies (num : nat) : M bytes BundleError (list bytes) :=
  match num with
  | O => ret []
  | S num =>
      let! len := bundle_u32 in
      let! b := get_state in
      if Z.of_nat (length b) <? len then fail BundleOverruns
      else
        let! body := take_bytes (Z.to_nat len) in
        let! rest := read_bodies num in
        ret (body :: rest)
  end.

Definition parse_bundle (bundle : bytes) : outcome BundleError (list bytes) :=
  ((let! num := bundle_u32 in read_bodies (Z.to_nat num)) bundle).1.

(** ** Tags *)

Definition TAGS_1_21_2 : list (string * list string) :=
  [
    ("minecraft:item", [
      "minecraft:enchantable/head_armor"; "minecraft:enchantable/sword"; "minecraft:enchantable/weapon";
      "minecraft:enchantable/equippable"; "minecraft:enchantable/armor"; "minecraft:enchantable/mace";
      "minecraft:enchantable/foot_armor"; "minecraft:enchantable/mining"; "minecraft:enchantable/fire_aspect";
      "minecraft:enchantable/bow"; "minecraft:enchantable/mining_loot"; "minecraft:enchantable/trident";
      "minecraft:enchantable/crossbow"; "minecraft:enchantable/fishing"; "minecraft:enchantable/durability";
      "minecraft:enchantable/sharp_weapon"; "minecraft:enchantable/leg_armor";
      "minecraft:enchantable/chest_armor"; "minecraft:enchantable/vanishing"]);
    ("minecraft:entity_type", [
      "minecraft:sensitive_to_bane_of_arthropods"; "minecraft:sensitive_to_impaling";
      "minecraft:sensitive_to_smite"; "minecraft:arrows"]);
    ("minecraft:block", [
      "minecraft:soul_speed_blocks"; "minecraft:blocks_wind_charge_explosions"]);
    ("minecraft:enchantment", [
      "minecraft:exclusive_set/armor"; "minecraft:exclusive_set/boots"; "minecraft:exclusive_set/bow";
      "minecraft:exclusive_set/crossbow"; "minecraft:exclusive_set/damage"; "minecraft:exclusive_set/mining";
      "minecraft:exclusive_set/riptide"]);
    ("minecraft:worldgen/biome", [
      "minecraft:is_badlands"; "minecraft:is_jungle"; "minecraft:is_savanna"]) ]%string.

Definition DIALOG_TAGS_1_21_6 : list string :=
  [
    "minecraft:pause_screen_additions"; "minecraft:quick_actions" ]%string.

Definition ITEM_TAGS_1_21_11 : list string :=
  [
    "minecraft:enchantable/melee_weapon"; "minecraft:enchantable/lunge"; "minecraft:enchantable/sweeping" ]%string.

Definition BLOCK_TAGS_1_21_11 : list string :=
  [
    "minecraft:lightning_rods" ]%string.

Definition TIMELINE_TAGS_1_21_11 : list string :=
  [
    "minecraft:in_overworld"; "minecraft:in_nether"; "minecraft:in_end" ]%string.

Definition DAMAGE_TYPE_TAGS_26_1 : list string :=
  [
    "minecraft:damages_helmet"; "minecraft:bypasses_armor"; "minecraft:bypasses_shield";
    "minecraft:bypasses_invulnerability"; "minecraft:bypasses_cooldown"; "minecraft:bypasses_effects";
    "minecraft:bypasses_resistance"; "minecraft:bypasses_enchantments"; "minecraft:is_fire";
    "minecraft:is_projectile"; "minecraft:witch_resistant_to"; "minecraft:is_explosion"; "minecraft:is_fall";
    "minecraft:is_drowning"; "minecraft:is_freezing"; "minecraft:is_lightning"; "minecraft:no_anger";
    "minecraft:no_impact"; "minecraft:always_most_significant_fall"; "minecraft:wither_immune_to";
    "minecraft:ignites_armor_stands"; "minecraft:burns_armor_stands"; "minecraft:avoids_guardian_thorns";
    "minecraft:always_triggers_silverfish"; "minecraft:always_hurts_ender_dragons"; "minecraft:no_knockback";
    "minecraft:always_kills_armor_stands"; "minecraft:can_break_armor_stand"; "minecraft:bypasses_wolf_armor";
    "minecraft:is_player_attack"; "minecraft:burn_from_stepping"; "minecraft:panic_causes";
    "minecraft:panic_environmental_causes"; "minecraft:mace_smash" ]%string.

Definition INFINIBURN_TAGS_26 : list string :=
  [
    "minecraft:infiniburn_overworld"; "minecraft:infiniburn_nether"; "minecraft:infiniburn_end" ]%string.

Definition BANNER_PATTERN_TAGS_26_1 : list string :=
  [
    "minecraft:no_item_required"; "minecraft:pattern_item/flower"; "minecraft:pattern_item/creeper";
    "minecraft:pattern_item/skull"; "minecraft:pattern_item/mojang"; "minecraft:pattern_item/globe";
    "minecraft:pattern_item/piglin"; "minecraft:pattern_item/flow"; "minecraft:pattern_item/guster";
    "minecraft:pattern_item/field_masoned"; "minecraft:pattern_item/bordure_indented" ]%string.

(** The closure [extend]: more tags for a registry, which is appended when new. *)
Fixpoint extend (reg : string) (more : list string) (registries : list (string * list string)) : list (string * list string) :=
  match registries with
  | [] => [(reg, more)]
  | (r, tags) :: rest => if String.eqb r reg then (r, tags ++ more) :: rest else (r, tags) :: extend reg more rest
  end.

Definition config_tags (proto : Z) : list (string * list string) :=
  let registries := TAGS_1_21_2 in
  let registries := if 771 <=? proto then extend "minecraft:dialog" DIALOG_TAGS_1_21_6 registries else registries in
  let registries :=
    if 774 <=? proto then
      extend "minecraft:timeline" TIMELINE_TAGS_1_21_11
        (extend "minecraft:block" BLOCK_TAGS_1_21_11 (extend "minecraft:item" ITEM_TAGS_1_21_11 registries))
    else registries in
  if 775 <=? proto then
    extend "minecraft:block" INFINIBURN_TAGS_26
      (extend "minecraft:banner_pattern" BANNER_PATTERN_TAGS_26_1
        (extend "minecraft:damage_type" DAMAGE_TYPE_TAGS_26_1 registries))
  else registries.

(** [write_varint] and the same loop inside [write_str]. *)
Definition write_varint (v : Z) : Enc := encode_groups 5 v.
Definition write_mc_string (s : bytes) : Enc := write_varint (wrapu 32 (Z.of_nat (length s)));; put_slice s.

Definition tags_body (registries : list (string * list string)) : Enc :=
  write_varint (wrapu 32 (Z.of_nat (length registries)));;
  for_each (fun '(registry, tags) =>
    write_mc_string (lit registry);;
    write_varint (wrapu 32 (Z.of_nat (length tags)));;
    for_each (fun tag => write_mc_string (lit tag);; write_varint 0) tags) registries.

Definition config_tags_body_for_proto (proto : Z) : option Enc :=
  if proto <? 768 then None else Some (tags_body (config_tags proto)).

(** ** Biome music *)

(** The loop of [read_mc_string]; a shift past the width of [u32] is taken modulo 32. *)
Fixpoint read_len (fuel : nat) (len shift : Z) : M bytes unit Z :=
  match fuel with
  | O => nofuel
  | S fuel =>
      let! b := get_state in
      match b with
      | [] => fail tt
      | byte :: _ =>
          advance 1;;
          let len := Z.lor len (wrapu 32 (Z.shiftl (Z.land (bz byte) 0x7F) (shift mod 32))) in
          if Z.land (bz byte) 0x80 =? 0 then ret len else read_len fuel len (shift + 7)
      end
  end.

Definition read_mc_string : M bytes unit bytes :=
  let! body := get_state in
  let! len := read_len (S (length body)) 0 0 in
  let! b := get_state in
  if Z.of_nat (length b) <? len then fail tt
  else
    let! s := take_bytes (Z.to_nat len) in
    if utf8_valid s then ret s else fail tt.

(** [HashMap::remove]. *)
Definition map_remove (k : bytes) (m : list (bytes * NbtTag)) : list (bytes * NbtTag) :=
  List.filter (fun e => negb (bool_decide (e.1 = k))) m.

Definition wrap_biome_music (root : list (bytes * NbtTag)) : list (bytes * NbtTag) :=
  match map_get (lit "effects") root with
  | Some (NbtCompound effects) =>
      match map_get (lit "music") effects with
      | Some (NbtCompound music) =>
          let weighted := map_insert (lit "weight") (NbtInt 1) (map_insert (lit "data") (NbtCompound music) []) in
          let effects := map_insert (lit "music") (NbtList [NbtCompound weighted]) (map_remove (lit "music") effects) in
          map_insert (lit "effects") (NbtCompound effects) root
      | _ => root
      end
  | _ => root
  end.

(** One entry: the bytes appended to the output. *)
Definition transform_entry : M bytes unit bytes :=
  let! key := read_mc_string in
  let! b := get_state in
  match b with
  | [] => fail tt
  | flag :: _ =>
      advance 1;;
      let out := (write_mc_string key []).2 ++ [flag] in
      if bz flag =? 0 then ret out
      else
        let! b := get_state in
        match b with
        | tag :: rest =>
            if negb (bz tag =? 0x0a) then fail tt
            else
              let named := [x0a; x00; x00] ++ rest in
              match Nbt_decode named with
              | (Ok nbt, nb) =>
                  advance (Z.of_nat (length named - length nb) - 2);;
                  match Nbt_encode (mkNbt (nbt_name nbt) (wrap_biome_music (nbt_root nbt))) [] with
                  | (Ok _, buf) =>
                      match buf with
                      | b0 :: _ :: _ :: payload => if bz b0 =? 0x0a then ret (out ++ [x0a] ++ payload) else fail tt
                      | _ => fail tt
                      end
                  | _ => fail tt
                  end
              | _ => fail tt
              end
        | [] => fail tt
        end
  end.

Fixpoint transform_entries (count : nat) : M bytes unit bytes :=
  match count with
  | O => ret []
  | S count => let! e := transform_entry in let! es := transform_entries count in ret (e ++ es)
  end.

Definition transform_body : M bytes unit bytes :=
  let! reg := read_mc_string in
  if negb (bool_decide (reg = lit "minecraft:worldgen/biome")) then fail tt
  else
    let! count := fun src => match VarInt_decode src with (Ok v, rest) => (Ok v, rest) | (_, rest) => (Err tt, rest) end in
    let head := (write_mc_string reg []).2 ++ (write_varint (wrapu 32 count) []).2 in
    let! es := transform_entries (Z.to_nat count) in
    ret (head ++ es).

Definition biome_music_list_transform (proto : Z) (body : bytes) : option bytes :=
  if negb (proto =? 769) then None
  else match (transform_body body).1 with Ok out => Some out | _ => None end.

(** ** Lemmas *)

Definition mc_string (s : bytes) : bytes := groups 5 (Z.of_nat (length s)) ++ s.
Definition short_text (s : bytes) : Prop := Z.of_nat (length s) < 2 ^ 32 /\ utf8_valid s = true.

Lemma pow128_5 v : fits_u 32 v -> 0 <= v < 128 ^ Z.of_nat 5.
Proof. unfold fits_u. change (128 ^ Z.of_nat 5) with 34359738368. lia. Qed.

Lemma writes_varint v : fits_u 32 v -> writes (write_varint v) (groups 5 v).
Proof. intros Hv. apply writes_groups; [lia|by apply pow128_5]. Qed.

Lemma varint_written v : fits_u 32 v -> (write_varint v []).2 = wire VarInt (wraps 32 v).
Proof.
  intros Hv. rewrite (writes_varint v Hv []), wire_VarInt, wrapu_wraps, wrapu_id by (done || lia). done.
Qed.

Lemma writes_mc_string s : Z.of_nat (length s) < 2 ^ 32 -> writes (write_mc_string s) (mc_string s).
Proof.
  intros Hs. assert (Hf : fits_u 32 (Z.of_nat (length s))) by (unfold fits_u; lia).
  unfold write_mc_string, mc_string. rewrite wrapu_id by done. apply writes_bind; [by apply writes_varint|apply writes_put].
Qed.

Lemma advance_1 {E} (b : byte) rest : advance (E := E) 1 (b :: rest) = (Ok tt, rest).
Proof. done. Qed.

Lemma read_len_groups n : forall fuel r k v rest, (0 < n)%nat -> (length (groups n v) <= fuel)%nat -> 0 <= k -> 0 <= r < 2 ^ (7 * k) -> 7 * k < 32 ->
  0 <= v < 128 ^ Z.of_nat n -> r + v * 2 ^ (7 * k) < 2 ^ 32 ->
  read_len fuel r (7 * k) (groups n v ++ rest) = (Ok (r + v * 2 ^ (7 * k)), rest).
Proof.
  induction n as [|n IH]; intros fuel r k v rest Hpos Hfuel Hk Hr Hk7 Hv Hw; [lia|].
  pose proof (length_groups_pos (S n) v Hpos). destruct fuel as [|fuel]; [lia|]. rewrite pow128 in Hv. cbn [groups] in *.
  set (p := 2 ^ (7 * k)) in *. assert (Hp : 0 < p) by (apply pow2_pos; lia).
  pose proof (Z.mod_pos_bound v 128 ltac:(lia)) as Hm.
  assert (Hlor : forall x, 0 <= x -> r + x * p < 2 ^ 32 -> Z.lor r (wrapu 32 (Z.shiftl x ((7 * k) mod 32))) = r + x * p).
  { intros x Hx Hlt. rewrite (Z.mod_small (7 * k)), Z.shiftl_mul_pow2 by lia. fold p.
    rewrite wrapu_id by (unfold fits_u; nia). by apply lor_disjoint; lia. }
  destruct (Z.ltb_spec v 128) as [Hlt|Hge].
  - cbn [app read_len]. unfold bind, get_state. rewrite advance_1. cbv beta iota zeta.
    rewrite bz_zb, (Z.mod_small v 256), land_7F, Z.mod_small, land_80_low by lia. cbn [Z.eqb]. by rewrite Hlor by lia.
  - cbn [app read_len]. unfold bind, get_state. rewrite advance_1. cbv beta iota zeta.
    pose proof (div128_bound v _ (conj Hge (proj2 Hv))) as Hdv.
    assert (Hn : (0 < n)%nat) by (destruct n; [rewrite pow128_0 in Hdv; lia|lia]).
    pose proof (Z.div_mod v 128 ltac:(lia)) as Hdm.
    rewrite bz_zb, (Z.mod_small (_ + 128) 256), land_7F_high, land_80_high by lia.
    cbn [Z.eqb]. rewrite Hlor by nia.
    assert (Hp' : 2 ^ (7 * (k + 1)) = 128 * p).
    { subst p. replace (7 * (k + 1)) with (7 + 7 * k) by lia. by rewrite Z.pow_add_r by lia. }
    replace (7 * k + 7) with (7 * (k + 1)) by lia.
    assert (Hk4 : k < 4).
    { destruct (Z.lt_ge_cases k 4) as [|Hge4]; [done|]. exfalso. assert (k = 4) as -> by lia. unfold p in Hw.
      change (2 ^ (7 * 4)) with 268435456 in Hw. change (2 ^ 32) with 4294967296 in Hw. lia. }
    cbn [length] in Hfuel.
    rewrite IH; rewrite ?Hp'; try lia; [|nia]. do 2 f_equal. nia.
Qed.

Lemma reads_mc_string s : short_text s -> reads read_mc_string (mc_string s) s.
Proof.
  intros [Hs Hu] rest. unfold read_mc_string, mc_string. rewrite <- app_assoc. unfold bind at 1, get_state at 1. cbv beta iota.
  assert (Hf : fits_u 32 (Z.of_nat (length s))) by (unfold fits_u; lia).
  pose proof (length_groups_pos 5 (Z.of_nat (length s)) ltac:(lia)) as Hl.
  unfold bind at 1.
  rewrite (read_len_groups 5 _ 0 0 (Z.of_nat (length s)) (s ++ rest)); try lia.
  - unfold bind at 1, get_state. cbv beta iota. change (2 ^ (7 * 0)) with 1. replace (0 + Z.of_nat (length s) * 1) with (Z.of_nat (length s)) by lia.
    rewrite length_app, (proj2 (Z.ltb_ge _ _)) by lia. rewrite Nat2Z.id. unfold bind. rewrite (reads_take s _ eq_refl).
    by rewrite Hu.
  - rewrite length_app. lia.
Qed.

(** *** Bundles *)

Definition bundle_body (b : bytes) : bytes := be_bytes 4 (Z.of_nat (length b)) ++ b.
Definition bundle_of (bodies : list bytes) : bytes :=
  be_bytes 4 (Z.of_nat (length bodies)) ++ concat (map bundle_body bodies).

Lemma reads_bundle_u32 v : fits_u 32 v -> reads bundle_u32 (be_bytes 4 v) v.
Proof.
  intros Hv rest. unfold bundle_u32, bind, get_state. rewrite length_app, length_be_bytes, (proj2 (Nat.ltb_ge _ _)) by lia.
  by rewrite (reads_uint 4 v Hv).
Qed.

Lemma reads_bodies bodies : Forall (fun b => fits_u 32 (Z.of_nat (length b))) bodies ->
  reads (read_bodies (length bodies)) (concat (map bundle_body bodies)) bodies.
Proof.
  induction 1 as [|b bodies Hb H IH]; intros rest; [done|]. cbn [length read_bodies map concat]. unfold bundle_body at 1.
  rewrite <- !app_assoc. unfold bind at 1. rewrite (reads_bundle_u32 _ Hb). unfold bind at 1, get_state.
  rewrite length_app, (proj2 (Z.ltb_ge _ _)) by lia. rewrite Nat2Z.id. unfold bind at 1. rewrite (reads_take b _ eq_refl).
  unfold bind. by rewrite IH.
Qed.

Lemma total_read_bodies n : total (read_bodies n).
Proof.
  induction n as [|n IH]; intros src; [done|]. cbn [read_bodies]. unfold bind at 1, bundle_u32 at 1, bind at 1, get_state at 1.
  destruct (Nat.ltb_spec (length src) 4); [done|]. unfold get_uint, bind at 1, take_bytes at 1.
  rewrite (proj2 (Nat.ltb_ge (length src) 4)) by lia. cbv beta iota. unfold ret at 1.
  unfold bind at 1, get_state. destruct (Z.ltb_spec (Z.of_nat (length (drop 4 src))) (be_val (take 4 src))); [done|].
  unfold bind at 1, take_bytes. rewrite (proj2 (Nat.ltb_ge _ _)) by lia. cbv beta iota. unfold bind, ret.
  specialize (IH (drop (Z.to_nat (be_val (take 4 src))) (drop 4 src))).
  by destruct (read_bodies n _) as [[] ?].
Qed.

(** *** Registry bodies *)

Definition network_nbt (root : list (bytes * NbtTag)) : bytes := x0a :: img (NbtCompound root).
Definition entry_bytes (e : bytes * option (list (bytes * NbtTag))) : bytes :=
  mc_string e.1 ++ match e.2 with None => [x00] | Some root => [x01] ++ network_nbt root end.
Definition registry_body (reg : bytes) (entries : list (bytes * option (list (bytes * NbtTag)))) : bytes :=
  mc_string reg ++ wire VarInt (Z.of_nat (length entries)) ++ concat (map entry_bytes entries).

Definition wrap_entry (e : bytes * option (list (bytes * NbtTag))) : bytes * option (list (bytes * NbtTag)) :=
  (e.1, wrap_biome_music <$> e.2).
Definition entry_ok (e : bytes * option (list (bytes * NbtTag))) : Prop :=
  short_text e.1 /\
  match e.2 with
  | None => True
  | Some root => nbt_value_ok (mkNbt [] root) /\ nbt_value_ok (mkNbt [] (wrap_biome_music root))
  end.

Lemma nbt_img_nameless root : nbt_img (mkNbt [] root) = [x0a; x00; x00] ++ img (NbtCompound root).
Proof. done. Qed.

Lemma reads_transform_entry e : entry_ok e -> reads transform_entry (entry_bytes e) (entry_bytes (wrap_entry e)).
Proof.
  destruct e as [key data]. intros [Hk Hd] rest. unfold entry_bytes, transform_entry, wrap_entry. cbn [fst snd] in *.
  rewrite <- app_assoc. unfold bind at 1. rewrite (reads_mc_string key Hk). unfold bind at 1, get_state at 1.
  rewrite (writes_mc_string key (proj1 Hk) []).
  destruct data as [root|]; cbn [fmap option_fmap option_map app]; unfold bind at 1; rewrite advance_1; [|done].
  destruct Hd as [Hroot Hwrapped]. change (bz x01 =? 0) with false. cbv beta iota zeta.
  unfold bind at 1, get_state at 1, network_nbt. cbn [app]. change (negb (bz x0a =? 10)) with false. cbv iota.
  change (x0a :: x00 :: x00 :: img (NbtCompound root) ++ rest) with (nbt_img (mkNbt [] root) ++ rest).
  rewrite <- (wire_nbt _ Hroot). change Nbt_decode with (dec NbtCodec). rewrite (lawful_reads (c := NbtCodec) _ Hroot).
  rewrite wire_nbt by done. rewrite nbt_img_nameless. unfold bind at 1, advance, bind at 1.
  assert (Hlen : Z.to_nat (Z.of_nat (length (([x0a; x00; x00] ++ img (NbtCompound root)) ++ rest) - length rest) - 2)
                 = length (x0a :: img (NbtCompound root))) by (rewrite !length_app; cbn [length]; lia).
  rewrite Hlen. change (x0a :: img (NbtCompound root) ++ rest) with ((x0a :: img (NbtCompound root)) ++ rest).
  rewrite (reads_take _ _ eq_refl). unfold ret at 1. cbn [nbt_name nbt_root].
  rewrite (writes_nbt _ Hwrapped []). cbn [app]. rewrite nbt_img_nameless. cbn [app]. change (bz x0a =? 10) with true. cbv iota.
  unfold ret. by rewrite <- !app_assoc.
Qed.

Lemma reads_transform_entries es : Forall entry_ok es ->
  reads (transform_entries (length es)) (concat (map entry_bytes es)) (concat (map entry_bytes (map wrap_entry es))).
Proof.
  induction 1 as [|e es He H IH]; intros rest; [done|]. cbn [length transform_entries map concat]. rewrite <- app_assoc.
  unfold bind at 1. rewrite (reads_transform_entry e He). unfold bind. by rewrite IH.
Qed.

(** A reader for the body of [UpdateTags]: registries, tags, entries. *)
Fixpoint repeat_read {A} (n : nat) (m : Dec A) : Dec (list A) :=
  match n with O => ret [] | S n => let! x := m in let! xs := repeat_read n m in ret (x :: xs) end.
Definition counted_read {A} (m : Dec A) : Dec (list A) := let! n := VarInt_decode in repeat_read (Z.to_nat n) m.
Definition read_update_tags : Dec (list (bytes * list (bytes * list Z))) :=
  counted_read (let! r := decode_string in let! tags := counted_read (let! t := decode_string in let! ids := counted_read VarInt_decode in ret (t, ids)) in ret (r, tags)).

Definition bound_empty (registries : list (string * list string)) : list (bytes * list (bytes * list Z)) :=
  map (fun e => (lit e.1, map (fun t => (lit t, [])) e.2)) registries.

Definition tags_ok (registries : list (string * list string)) : Prop :=
  NoDup (map fst registries) /\ Forall (fun e => NoDup e.2) registries /\
  exists bs, tags_body registries [] = (Ok tt, bs) /\ read_update_tags bs = (Ok (bound_empty registries), []).

(** The tags change at 771, 774 and 775 only. *)
Lemma config_tags_steps proto : 768 <= proto ->
  config_tags proto = config_tags (if proto <? 771 then 768 else if proto <? 774 then 771 else if proto <? 775 then 774 else 775).
Proof.
  intros H. unfold config_tags.
  destruct (Z.ltb_spec proto 771); [|destruct (Z.ltb_spec proto 774); [|destruct (Z.ltb_spec proto 775)]];
    destruct (Z.leb_spec 771 proto), (Z.leb_spec 774 proto), (Z.leb_spec 775 proto); done || lia.
Qed.

Ltac decided := match goal with |- ?P => apply (bool_decide_eq_true_1 P); vm_compute; reflexivity end.
Ltac check_tags := split; [decided|split; [decided|]]; eexists; split; [vm_compute; reflexivity|]; vm_compute; reflexivity.

Lemma tags_768 : tags_ok (config_tags 768). Proof. check_tags. Qed.
Lemma tags_771 : tags_ok (config_tags 771). Proof. check_tags. Qed.
Lemma tags_774 : tags_ok (config_tags 774). Proof. check_tags. Qed.
Lemma tags_775 : tags_ok (config_tags 775). Proof. check_tags. Qed.

(** ** Properties *)

(** The parser returns on arbitrary bytes. *)
Lemma parse_bundle_returns bundle : returned (parse_bundle bundle).
Proof.
  unfold parse_bundle, bind at 1, bundle_u32, bind at 1, get_state.
  destruct (Nat.ltb_spec (length bundle) 4); [done|]. unfold get_uint, bind, take_bytes.
  rewrite (proj2 (Nat.ltb_ge (length bundle) 4)) by lia. apply total_read_bodies.
Qed.

(** Registry bundles.  The bodies a bundle was made of are found again, in
    order, whatever follows them; on arbitrary bytes the parser returns, with the
    bodies or with an error; and every protocol from 766 on has a bundle, marked
    as a fallback exactly beyond 776. *)
Theorem bundles_parse :
  (forall bodies rest, fits_u 32 (Z.of_nat (length bodies)) -> Forall (fun b => fits_u 32 (Z.of_nat (length b))) bodies ->
     parse_bundle (bundle_of bodies ++ rest) = Ok bodies) /\
  (forall bundle, returned (parse_bundle bundle)) /\
  (forall proto, bundle_for_proto proto <> None <-> 766 <= proto) /\
  (forall proto, bundle_is_fallback proto = true <-> 776 < proto).
Proof.
  split; [|split; [|split]].
  - intros bodies rest Hn Hb. unfold parse_bundle, bundle_of, bind. rewrite <- app_assoc, (reads_bundle_u32 _ Hn), Nat2Z.id.
    by rewrite (reads_bodies bodies Hb).
  - apply parse_bundle_returns.
  - intros proto. unfold bundle_for_proto.
    repeat match goal with |- context [if ?b then _ else _] => destruct b eqn:?; [split; [lia|done]|] end. split; [done|lia].
  - intros proto. apply Z.ltb_lt.
Qed.

(** The tags of the configuration phase.  From 1.21.2 on the packet exists,
    names every registry once and no tag twice, and reads back as exactly the tags
    the version needs, each bound to nothing; earlier versions get none. *)
Theorem config_tags_wellformed (proto : Z) :
  (proto < 768 -> config_tags_body_for_proto proto = None) /\
  (768 <= proto ->
     NoDup (map fst (config_tags proto)) /\ Forall (fun e => NoDup e.2) (config_tags proto) /\
     exists body bs, config_tags_body_for_proto proto = Some body /\ body [] = (Ok tt, bs) /\
       read_update_tags bs = (Ok (bound_empty (config_tags proto)), [])).
Proof.
  unfold config_tags_body_for_proto. split; [intros H; by rewrite (proj2 (Z.ltb_lt _ _) H)|]. intros H.
  rewrite (proj2 (Z.ltb_ge _ _) H).
  assert (tags_ok (config_tags proto)) as (H1 & H2 & bs & H3 & H4).
  { rewrite config_tags_steps by done.
    destruct (proto <? 771); [apply tags_768|]. destruct (proto <? 774); [apply tags_771|].
    destruct (proto <? 775); [apply tags_774|apply tags_775]. }
  split; [done|]. split; [done|]. by exists (tags_body (config_tags proto)), bs.
Qed.

(** The biome registry for 1.21.4.  Its body is rewritten entry by entry: keys,
    flags and order stay, and in each document the music compound, where there is
    one, becomes a list of one weighted entry; every other protocol and registry
    is left alone. *)
Theorem biome_music_rewritten (reg : bytes) (entries : list (bytes * option (list (bytes * NbtTag)))) (proto : Z) (rest : bytes) :
  short_text reg -> Z.of_nat (length entries) < 2 ^ 31 -> Forall entry_ok entries ->
  biome_music_list_transform proto (registry_body reg entries ++ rest) =
    if bool_decide (proto = 769 /\ reg = lit "minecraft:worldgen/biome") then Some (registry_body reg (map wrap_entry entries)) else None.
Proof.
  intros Hreg Hn He. unfold biome_music_list_transform. destruct (Z.eqb_spec proto 769) as [->|Hp]; cbn [negb];
    [|by rewrite bool_decide_false by naive_solver].
  unfold transform_body, registry_body, bind at 1. rewrite <- !app_assoc, (reads_mc_string reg Hreg).
  case_bool_decide as Hb; cbn [negb]; [|by rewrite bool_decide_false by naive_solver].
  rewrite bool_decide_true by done. unfold bind at 1.
  assert (Hv : wf VarInt (Z.of_nat (length entries))) by (cbn; width).
  change VarInt_decode with (dec VarInt). rewrite (lawful_reads (c := VarInt) _ Hv). unfold bind. rewrite Nat2Z.id.
  rewrite (reads_transform_entries entries He). unfold ret. cbn [fst].
  rewrite (writes_mc_string reg (proj1 Hreg) []), varint_written by (apply wrapu_fits; lia).
  rewrite wraps_wrapu, wraps_id by (done || lia). rewrite length_map, <- app_assoc. done.
Qed.

Definition sample_biomes : list (bytes * option (list (bytes * NbtTag))) :=
  [ (lit "minecraft:plains", Some [(lit "effects", NbtCompound [(lit "music", NbtCompound [(lit "delay", NbtInt 5)])])]);
    (lit "minecraft:desert", None) ].

Lemma biome_music_rewritten_witness :
  (short_text (lit "minecraft:worldgen/biome") /\ Z.of_nat (length sample_biomes) < 2 ^ 31 /\ Forall entry_ok sample_biomes) /\
  biome_music_list_transform 769 (registry_body (lit "minecraft:worldgen/biome") sample_biomes ++ []) =
    Some (registry_body (lit "minecraft:worldgen/biome") (map wrap_entry sample_biomes)).
Proof.
  assert (H1 : short_text (lit "minecraft:worldgen/biome")) by (split; reflexivity).
  assert (H2 : Z.of_nat (length sample_biomes) < 2 ^ 31) by (vm_compute; reflexivity).
  assert (H3 : Forall entry_ok sample_biomes).
  { repeat apply Forall_cons_2; [..|apply Forall_nil_2]; (split; [split; reflexivity|]); [|exact I].
    split; split; vm_compute; reflexivity. }
  split; [split; [exact H1|split; [exact H2|exact H3]]|].
  exact (biome_music_rewritten (lit "minecraft:worldgen/biome") sample_biomes 769 [] H1 H2 H3).
Defined.
