(* ===== verification/Builders.v ===== *)
(** * Packets of the proxy's own

    crates/proxy-core/src/net/packet_ids.rs: ids by state and direction;
    crates/proxy-core/src/net/packet_builder.rs: system messages, plugin messages,
    the brand, disconnects and block updates, per protocol version;
    [json_component_to_nameless_nbt] of net/limbo_packets/mod.rs.  Printing and
    parsing of JSON text belong to the serde_json crate and are parameters. *)
From Stdlib Require Import ZArith Lia Strings.String Strings.Byte.
From stdpp Require Import base list numbers strings.
From S2P Require Import Prelude Buf Wire VarInt Codec Position Nbt Negotiation Packets Chars Utf8.
From S2P Require Import RegistryTables Registry Modloader.
From S2P Require Packets16 Packets17 Packets112 Packets116 Packets119 Packets120 Packets121.
Local Open Scope Z_scope.
Local Open Scope koja_scope.

(** ** Packet ids *)

(** [net::packet_ids::lookup] and its shorthands ask the same registry in the same
    way as those of the protocol crate, modelled in [Registry]. *)
Definition cb_plugin_message_id (proto : Z) : Z := cb_play proto "ClientboundPluginMessage".
Definition sb_plugin_message_id (proto : Z) : Z := sb_play proto "ServerboundPluginMessage".

Definition cb_chat_id (proto : Z) : Z :=
  match nearest proto with
  | V1_6_4 | V1_7_10 | V1_8 | V1_12_2 | V1_16_5 => cb_play proto "ClientboundChatMessage"
  | _ => cb_play proto "ClientboundSystemChat"
  end.

Definition chat_packet_ids_for (proto : Z) : list Z :=
  match nearest proto with
  | V1_6_4 | V1_7_10 | V1_8 | V1_12_2 | V1_16_5 => [sb_play proto "ServerboundChatMessage"]
  | _ =>
      let ids := [sb_play proto "ServerboundChatMessage"] in
      let cmd_id := sb_play proto "ServerboundChatCommand" in
      if negb (cmd_id =? 255) && negb (existsb (Z.eqb cmd_id) ids) then ids ++ [cmd_id] else ids
  end.

(** ** Text components *)

(** [json_value_to_nbt]. *)
Fixpoint json_value_to_nbt (value : Value) : option NbtTag :=
  match value with
  | JString s => Some (NbtString (utf8 s))
  | JBool b => Some (NbtByte (if b then 1 else 0))
  | JNumber (Some i) _ => Some (NbtInt (wraps 32 i))
  | JNumber None f => NbtDouble <$> f
  | JArray items =>
      NbtList <$> (fix go (items : list Value) : option (list NbtTag) :=
        match items with [] => Some [] | it :: items => t ← json_value_to_nbt it; ts ← go items; Some (t :: ts) end) items
  | JObject members =>
      NbtCompound <$> (fix go (members : list (chars * Value)) (out : list (bytes * NbtTag)) : option (list (bytes * NbtTag)) :=
        match members with
        | [] => Some out
        | (k, v) :: members => t ← json_value_to_nbt v; go members (map_insert (utf8 k) t out)
        end) members []
  | JNull => None
  end.

(** The text of a component, [walk] of [plaintext_from_chat_json]. *)
Fixpoint walk (v : Value) : chars :=
  match v with
  | JString s => s
  | JObject members =>
      (fix find (ms : list (chars * Value)) : chars :=
         match ms with
         | [] => []
         | (k, x) :: ms => if bool_decide (k = chr "text") then match x with JString t => t | _ => [] end else find ms
         end) members ++
      (fix find (ms : list (chars * Value)) : chars :=
         match ms with
         | [] => []
         | (k, x) :: ms =>
             if bool_decide (k = chr "extra") then match x with JArray extras => concat (map walk extras) | _ => [] end else find ms
         end) members
  | JArray items => concat (map walk items)
  | _ => []
  end.

Section Json.
(** [serde_json::from_str] and [Value::to_string]. *)
Variable json_parse : bytes -> option Value.
Variable json_text : Value -> bytes.

Definition json_component_to_nameless_nbt (json : bytes) : option bytes :=
  value ← json_parse json;
  match json_value_to_nbt value with
  | Some (NbtCompound root) =>
      match Nbt_encode (mkNbt [] root) [] with
      | (Ok _, b0 :: _ :: _ :: payload) => if bz b0 =? 0x0a then Some (x0a :: payload) else None
      | _ => None
      end
  | _ => None
  end.

Definition plaintext_from_chat_json (s : bytes) : bytes :=
  match json_parse s with
  | Some v => let out := walk v in if bool_decide (out = []) then s else utf8 out
  | None => s
  end.

(** ** Builders *)

(** [unwrap()] of a writer. *)
Definition unwrap (m : Enc) : Enc := fun dst => match m dst with (Err _, dst') => (Panic, dst') | r => r end.
(** A builder starts from an empty buffer and freezes it. *)
Definition built {E} (m : M bytes E unit) : outcome E bytes :=
  match m [] with (Ok _, bs) => Ok bs | (Err e, _) => Err e | (Panic, _) => Panic | (NoFuel, _) => NoFuel end.

Definition system_message (text : bytes) : Value :=
  JObject [(chr "text", JString (chars_of text)); (chr "color", JString (chr "yellow"))].

Definition build_system_message_packet (text : bytes) (proto : Z) : outcome ProtocolError bytes :=
  let json := json_text (system_message text) in
  built (
    unwrap (VarInt_encode (cb_chat_id proto));;
    match nearest proto with
    | V1_6_4 => unwrap (Packets16.ChatMessage_encode (chars_of text))
    | V1_7_10 => unwrap (Packets17.ChatMessage_encode json)
    | V1_8 | V1_12_2 => unwrap (Packets112.ChatMessage_encode (Packets112.mkChatMessage json 1))
    | V1_16_5 => unwrap (Packets116.ChatMessage_encode (Packets116.mkChatMessage json 1 (repeat x00 16)))
    | _ =>
        match (if 765 <=? proto then json_component_to_nameless_nbt json else None) with
        | Some nbt => put_slice nbt;; put_u8 0
        | None => unwrap (Packets120.SystemChat_encode (Packets120.mkSystemChat json false))
        end
    end).

(** The body of a plugin message, and the fallback when it cannot be encoded. *)
Definition plugin_body (channel data : bytes) (proto : Z) : Enc :=
  match encode_plugin_message channel data proto with
  | Ok body => put_slice body
  | _ => unwrap (encode_string channel);; put_slice data
  end.
Definition build_plugin_message_packet (channel data : bytes) (proto : Z) : outcome ProtocolError bytes :=
  built (unwrap (VarInt_encode (cb_plugin_message_id proto));; plugin_body channel data proto).
Definition build_serverbound_plugin_message_packet (channel data : bytes) (proto : Z) : outcome ProtocolError bytes :=
  built (unwrap (VarInt_encode (sb_plugin_message_id proto));; plugin_body channel data proto).

Definition brand_of (kind : ModloaderKind) : bytes :=
  match kind with
  | MK_Fml1 | MK_Fml2 => lit "fml,bukkit"
  | MK_Fml3 => lit "forge"
  | MK_NeoForge => lit "neoforge"
  | MK_Fabric => lit "fabric"
  | MK_Quilt => lit "quilt"
  | MK_Unknown | MK_Vanilla => lit "Kojacoord"
  end.
Definition build_brand_packet (kind : ModloaderKind) (proto : Z) : outcome ProtocolError bytes :=
  built (
    unwrap (VarInt_encode (cb_plugin_message_id proto));;
    unwrap (encode_string (if proto <=? 47 then lit "MC|Brand" else lit "minecraft:brand"));;
    unwrap (encode_string (brand_of kind))).

Definition build_disconnect_packet (json_reason : bytes) (proto : Z) : outcome ProtocolError bytes :=
  built (
    unwrap (VarInt_encode (cb_play proto "ClientboundDisconnect"));;
    match nearest proto with
    | V1_6_4 => unwrap (Packets16.Disconnect_encode (chars_of (plaintext_from_chat_json json_reason)))
    | V1_7_10 => unwrap (Packets17.Disconnect_encode json_reason)
    | V1_8 | V1_12_2 => unwrap (Packets112.Disconnect_encode json_reason)
    | V1_16_5 => unwrap (Packets116.Disconnect_encode json_reason)
    | V1_19_4 => unwrap (Packets119.Disconnect_encode json_reason)
    | V1_20_4 => unwrap (Packets120.Disconnect_encode json_reason)
    | V1_21 => unwrap (Packets121.Disconnect_encode json_reason)
    | _ => unwrap (VarInt_encode (wraps 32 (Z.of_nat (length json_reason))));; put_slice json_reason
    end).

End Json.

(** The closures [pack_pos_new] and [pack_pos_legacy]. *)
Definition pack_pos_new (x y z : Z) : Z :=
  Z.lor (Z.lor (wraps 64 (Z.shiftl (Z.land x 0x3FFFFFF) 38)) (wraps 64 (Z.shiftl (Z.land z 0x3FFFFFF) 12))) (Z.land y 0xFFF).
Definition pack_pos_legacy (x y z : Z) : Z :=
  Z.lor (Z.lor (wraps 64 (Z.shiftl (Z.land x 0x3FFFFFF) 38)) (wraps 64 (Z.shiftl (Z.land y 0xFFF) 26))) (Z.land z 0x3FFFFFF).

Definition packed_update (id pos state : Z) : Enc :=
  unwrap (VarInt_encode id);; unwrap (encode_i64 pos);; unwrap (VarInt_encode (wraps 32 state)).

Definition build_block_update_packet (x y z block_state_id proto : Z) : outcome ProtocolError bytes :=
  built match nearest proto with
  | V1_6_4 | V1_7_10 =>
      unwrap (VarInt_encode 0x23);; unwrap (encode_i32 x);; unwrap (encode_u8 (wrapu 8 y));; unwrap (encode_i32 z);;
      unwrap (VarInt_encode (wraps 32 block_state_id));; unwrap (encode_u8 0)
  | V1_8 | V1_12_2 => packed_update 0x23 (pack_pos_legacy x y z) block_state_id
  | V1_16_5 => packed_update 0x0B (pack_pos_new x y z) block_state_id
  | V1_19_4 | V1_20_4 | V1_21 => packed_update 0x09 (pack_pos_new x y z) block_state_id
  | _ => packed_update 0x09 (pack_pos_new x y z) block_state_id
  end.


(** ** Lemmas *)

Lemma unwrap_writes m bs : writes m bs -> writes (unwrap m) bs.
Proof. intros H dst. unfold unwrap. by rewrite H. Qed.
Lemma built_writes {E} (m : M bytes E unit) bs : writes m bs -> built m = Ok bs.
Proof. intros H. unfold built. by rewrite H. Qed.

(** Whatever the registry answers can be written as a packet id. *)
Lemma id_fits proto s d n : fits_s 32 (lookup proto s d n).
Proof. pose proof (lookup_fits proto s d n). unfold fits_s, fits_u in *. lia. Qed.
Lemma cb_play_fits proto n : fits_s 32 (cb_play proto n).
Proof. unfold cb_play. apply id_fits. Qed.
Lemma writes_id v : fits_s 32 v -> writes (unwrap (VarInt_encode v)) (wire VarInt v).
Proof. intros H. apply unwrap_writes, (lawful_writes (c := VarInt) v H). Qed.
Lemma reads_id v : fits_s 32 v -> reads VarInt_decode (wire VarInt v) v.
Proof. apply (lawful_reads (c := VarInt)). Qed.

(** The families' own string writers and [encode_string] write the same bytes. *)
Lemma encode_str_Str s : string_ok s -> writes (encode_str s) (wire Str s).
Proof.
  intros Hs. pose proof (lawful_writes (c := Str) s Hs) as H. intros dst. rewrite <- H. destruct Hs as [_ Hl].
  cbn [enc Str]. unfold encode_string. destruct (Z.gtb_spec (Z.of_nat (length s)) (MAX_STRING_LENGTH * 3)); [lia|done].
Qed.

(** A packet id followed by a body, and by a typed packet. *)
Lemma built_after id m bs : fits_s 32 id -> writes m bs -> built (unwrap (VarInt_encode id);; m) = Ok (wire VarInt id ++ bs).
Proof. intros Hid Hm. apply built_writes, writes_bind; [by apply writes_id|done]. Qed.
Lemma built_packet {A} (c : codec A) id v : Lawful c -> fits_s 32 id -> wf c v ->
  exists body, built (unwrap (VarInt_encode id);; unwrap (enc c v)) = Ok (wire VarInt id ++ body) /\ dec c body = (Ok v, []).
Proof.
  intros HL Hid Hv. exists (wire c v). split; [apply built_after; [done|apply unwrap_writes, (lawful_writes (c := c) v Hv)]|].
  rewrite <- (app_nil_r (wire c v)). apply (lawful_reads (c := c) v Hv).
Qed.

Lemma json_text_ok s : string_ok s -> text_ok s.
Proof. intros [Hu Hl]. split; [done|]. unfold MAX_STRING_LENGTH in Hl. lia. Qed.

Lemma disconnect_wire (json_parse : bytes -> option Value) (reason : bytes) (proto : Z) :
  nearest proto <> V1_6_4 -> string_ok reason ->
  build_disconnect_packet json_parse reason proto = Ok (wire VarInt (cb_play proto "ClientboundDisconnect") ++ wire Str reason).
Proof.
  intros Hv Hr. apply built_writes, writes_bind; [apply writes_id, cb_play_fits|].
  pose proof (unwrap_writes _ _ (encode_str_Str reason Hr)) as H1.
  pose proof (unwrap_writes _ _ (lawful_writes (c := Str) reason Hr)) as H2.
  destruct (nearest proto) eqn:E; try done; try exact H1; try exact H2;
    (intros dst; transitivity (encode_str reason dst); [|exact (encode_str_Str reason Hr dst)];
     pose proof (encode_str_Str reason Hr dst) as Hd; revert Hd; unfold encode_str, bind, unwrap;
     destruct (VarInt_encode _ dst) as [[] ?]; done).
Qed.

(** ** Properties *)

(** The disconnect packet the proxy builds can be read by the client.  For
    every protocol number not treated as 1.6 and every reason a Rust [String] of
    at most 98301 bytes can hold, the builder returns (no [unwrap] fails) and the
    bytes are the packet id followed by the reason as a length-prefixed string,
    whichever of the eight encoders is used. *)
Theorem disconnect_readable (json_parse : bytes -> option Value) (reason : bytes) (proto : Z) :
  nearest proto <> V1_6_4 -> string_ok reason ->
  exists bs, build_disconnect_packet json_parse reason proto = Ok bs /\
    (let! id := VarInt_decode in let! s := decode_string in ret (id, s)) bs =
      (Ok (cb_play proto "ClientboundDisconnect", reason), []).
Proof.
  intros Hv Hr. exists (wire VarInt (cb_play proto "ClientboundDisconnect") ++ wire Str reason). split.
  - by apply disconnect_wire.
  - rewrite <- (app_nil_r (wire VarInt _ ++ _)), <- app_assoc.
    change decode_string with (dec Str). unfold bind. 
    rewrite (reads_id _ (cb_play_fits _ _)), (lawful_reads (c := Str) reason Hr). done.
Qed.

Lemma disconnect_readable_witness :
  (nearest 757 <> V1_6_4 /\ string_ok (lit "{}")) /\
  exists bs, build_disconnect_packet (fun _ => None) (lit "{}") 757 = Ok bs /\
    (let! id := VarInt_decode in let! s := decode_string in ret (id, s)) bs =
      (Ok (cb_play 757 "ClientboundDisconnect", lit "{}"), []).
Proof.
  assert (H1 : nearest 757 <> V1_6_4) by discriminate.
  assert (H2 : string_ok (lit "{}")) by (split; [reflexivity|unfold MAX_STRING_LENGTH; cbn; lia]).
  split; [split; assumption|]. exact (disconnect_readable (fun _ => None) (lit "{}") 757 H1 H2).
Defined.

(** Reading a system message on the client's side: [body] is what follows the
    packet id. *)
Definition reads_system_message (text json : bytes) (proto : Z) (body : bytes) : Prop :=
  match nearest proto with
  | V1_6_4 => False
  | V1_7_10 => Packets17.ChatMessage_decode body = (Ok json, [])
  | V1_8 | V1_12_2 => Packets112.ChatMessage_decode body = (Ok (Packets112.mkChatMessage json 1), [])
  | V1_16_5 => Packets116.ChatMessage_decode body = (Ok (Packets116.mkChatMessage json 1 (repeat x00 16)), [])
  | _ =>
      if 765 <=? proto
      then exists payload, body = x0a :: payload ++ [x00] /\
             Nbt_decode (x0a :: x00 :: x00 :: payload) =
               (Ok (mkNbt [] [(lit "text", NbtString text); (lit "color", NbtString (lit "yellow"))]), [])
      else Packets120.SystemChat_decode body = (Ok (Packets120.mkSystemChat json false), [])
  end.


(** The component of a system message as nameless NBT: the compound tag and its
    payload, without the empty name. *)
Lemma system_message_nbt json_parse json text :
  nbt_string_ok text = true -> json_parse json = Some (system_message text) ->
  exists payload, json_component_to_nameless_nbt json_parse json = Some (x0a :: payload) /\
    Nbt_decode (x0a :: x00 :: x00 :: payload) =
      (Ok (mkNbt [] [(lit "text", NbtString text); (lit "color", NbtString (lit "yellow"))]), []).
Proof.
  intros Ht Hj. unfold json_component_to_nameless_nbt. rewrite Hj. cbn [option_bind mbind].
  assert (Hu : utf8 (chars_of text) = text).
  { apply utf8_chars_of. unfold nbt_string_ok in Ht. by apply andb_true_iff in Ht as [? _]. }
  set (doc := mkNbt [] [(lit "text", NbtString text); (lit "color", NbtString (lit "yellow"))]).
  assert (Hroot : json_value_to_nbt (system_message text) = Some (NbtCompound (nbt_root doc))).
  { cbn. rewrite Hu. reflexivity. }
  rewrite Hroot. change (mkNbt [] (nbt_root doc)) with doc.
  assert (Hok : nbt_value_ok doc).
  { split; [done|]. cbn. rewrite Ht. reflexivity. }
  pose proof (lawful_writes (c := NbtCodec) doc Hok []) as Hw. pose proof (lawful_reads (c := NbtCodec) doc Hok []) as Hr.
  rewrite (wire_nbt doc Hok) in Hw, Hr. cbn [NbtCodec enc dec] in Hw, Hr. rewrite Hw. 
  change (nbt_img doc) with (x0a :: x00 :: x00 :: img (NbtCompound (nbt_root doc))) in *. cbn [app].
  eexists. split; [reflexivity|]. by rewrite app_nil_r in Hr.
Qed.

(** The system message the proxy builds can be read by the client, outside
    1.6: when serde_json reads back what it prints, the builder returns, and after
    the packet id comes the chat packet of the client's version carrying the JSON
    component or, from protocol 765 on, the component as nameless NBT with the
    text and the colour, followed by the overlay flag. *)
Theorem system_message_readable (json_parse : bytes -> option Value) (json_text : Value -> bytes) (text : bytes) (proto : Z) :
  let json := json_text (system_message text) in
  nearest proto <> V1_6_4 -> nbt_string_ok text = true -> string_ok json ->
  json_parse json = Some (system_message text) ->
  exists body, build_system_message_packet json_parse json_text text proto = Ok (wire VarInt (cb_chat_id proto) ++ body) /\
    reads_system_message text json proto body.
Proof.
  intros json Hv Ht Hs Hj. unfold build_system_message_packet, reads_system_message. fold json.
  assert (Hid : fits_s 32 (cb_chat_id proto)) by (unfold cb_chat_id; destruct (nearest proto); apply cb_play_fits).
  pose proof (json_text_ok json Hs) as Htx.
  assert (Hnew : exists body,
     built (unwrap (VarInt_encode (cb_chat_id proto));;
            match (if 765 <=? proto then json_component_to_nameless_nbt json_parse json else None) with
            | Some nbt => put_slice nbt;; put_u8 0
            | None => unwrap (Packets120.SystemChat_encode (Packets120.mkSystemChat json false))
            end) = Ok (wire VarInt (cb_chat_id proto) ++ body) /\
     (if 765 <=? proto
      then exists payload, body = x0a :: payload ++ [x00] /\
             Nbt_decode (x0a :: x00 :: x00 :: payload) =
               (Ok (mkNbt [] [(lit "text", NbtString text); (lit "color", NbtString (lit "yellow"))]), [])
      else Packets120.SystemChat_decode body = (Ok (Packets120.mkSystemChat json false), []))).
  { destruct (765 <=? proto).
    - destruct (system_message_nbt json_parse json text Ht Hj) as (payload & -> & Hd).
      exists (x0a :: payload ++ [x00]). split; [|by exists payload].
      change (x0a :: payload ++ [x00]) with ((x0a :: payload) ++ [x00]). apply (built_after _ _ _ Hid), writes_bind; [apply writes_put|apply writes_u8].
    - apply (built_packet Packets120.SystemChat _ _ Packets120.SystemChat_lawful_120 Hid). done. }
  destruct (nearest proto); try done; try exact Hnew.
  - apply (built_packet Packets17.ChatMessage _ _ Packets17.ChatMessage_lawful_17 Hid). done.
  - apply (built_packet Packets112.ChatMessage _ _ Packets112.ChatMessage_lawful_112 Hid). done.
  - apply (built_packet Packets112.ChatMessage _ _ Packets112.ChatMessage_lawful_112 Hid). done.
  - apply (built_packet Packets116.ChatMessage _ _ Packets116.ChatMessage_lawful_116 Hid). done.
Qed.

Lemma system_message_readable_witness :
  let text := lit "hi" in
  let print := fun _ : Value => lit "{}" in
  let parse := fun _ : bytes => Some (system_message text) in
  (nearest 767 <> V1_6_4 /\ nbt_string_ok text = true /\ string_ok (print (system_message text)) /\
   parse (print (system_message text)) = Some (system_message text)) /\
  exists body, build_system_message_packet parse print text 767 = Ok (wire VarInt (cb_chat_id 767) ++ body) /\
    reads_system_message text (lit "{}") 767 body.
Proof.
  intros text print parse.
  assert (H1 : nearest 767 <> V1_6_4) by discriminate.
  assert (H3 : string_ok (lit "{}")) by (split; [reflexivity|unfold MAX_STRING_LENGTH; cbn; lia]).
  split; [repeat split; try assumption; apply H3|].
  exact (system_message_readable parse print text 767 H1 eq_refl H3 eq_refl).
Defined.

(** The versions for which a system message has a packet to travel in. *)
Definition has_chat_packet (proto : Z) : bool :=
  existsb (Z.eqb proto) [5; 47; 78; 340; 754] || (759 <=? proto).

(** [cb_chat_id] answers 0xFF, the registry's "no such packet", for 31
    of the supported versions: [nearest] returns a
    supported version as it is, so everything but 1.6.4, 1.7.10, 1.8, 1.12.2 and
    1.16.5 takes the branch meant for 1.19 and later, whose packet the older
    tables do not have. *)
Theorem chat_id_missing :
  Forall (fun proto => (cb_chat_id proto =? 255) = negb (has_chat_packet proto)) SUPPORTED /\
  length (filter (fun proto => has_chat_packet proto = false) SUPPORTED) = 31%nat.
Proof.
  split; [|vm_compute; reflexivity].
  match goal with |- ?P => apply (bool_decide_eq_true_1 P) end. vm_compute. reflexivity.
Qed.

(** The layout of the packed position a client of [proto] is sent, as the match on
    the version chooses it. *)
Definition legacy_packing (proto : Z) : bool := match nearest proto with V1_8 | V1_12_2 => true | _ => false end.
Definition block_update_id (proto : Z) : Z := match nearest proto with V1_8 | V1_12_2 => 0x23 | V1_16_5 => 0x0B | _ => 0x09 end.

Lemma be_bytes_wrap v : be_bytes 8 v = be_bytes 8 (wrapu 64 v).
Proof. rewrite <- (be_bytes_val (be_bytes 8 v) 8) by apply length_be_bytes. by rewrite be_val_bytes. Qed.

Lemma packed_update_written id pos state : fits_s 32 id ->
  built (packed_update id pos state) = Ok (wire VarInt id ++ be_bytes 8 pos ++ wire VarInt (wraps 32 state)).
Proof.
  intros Hid. apply built_after; [done|]. apply writes_bind; [apply unwrap_writes, writes_put|].
  apply writes_id, wraps_fits; lia.
Qed.

(** The block update the proxy builds for a client with packed positions
    decodes to the position, reduced to the field widths, and to the block state
    modulo 2^32, with nothing left over; the layout and the packet id follow the
    version the protocol number is rounded to. *)
Theorem block_update_readable (x y z block_state_id proto : Z) :
  nearest proto <> V1_6_4 -> nearest proto <> V1_7_10 ->
  exists bs pos, build_block_update_packet x y z block_state_id proto = Ok bs /\
    (let! id := VarInt_decode in let! pos := decode_u64 in let! state := VarInt_decode in ret (id, pos, state)) bs =
      (Ok (block_update_id proto, pos, wraps 32 block_state_id), []) /\
    (if legacy_packing proto then decode_legacy_position pos else decode_modern_position pos) = truncated (mkPosition x y z).
Proof.
  intros H6 H7.
  set (packed := if legacy_packing proto then encode_legacy_position (mkPosition x y z) else encode_modern_position (mkPosition x y z)).
  exists (wire VarInt (block_update_id proto) ++ be_bytes 8 packed ++ wire VarInt (wraps 32 block_state_id)), (wrapu 64 packed).
  assert (Hid : fits_s 32 (block_update_id proto)) by (unfold block_update_id; destruct (nearest proto); width).
  assert (Hst : fits_s 32 (wraps 32 block_state_id)) by (apply wraps_fits; lia).
  split; [|split].
  - rewrite <- packed_update_written by done. unfold build_block_update_packet, packed, legacy_packing, block_update_id.
    destruct (nearest proto); done.
  - assert (Hb : be_bytes 8 packed = wire U64 (wrapu 64 packed)) by (exact (be_bytes_wrap packed)).
    rewrite Hb, <- (app_nil_r (wire VarInt (wraps 32 block_state_id))). change decode_u64 with (dec U64). unfold bind.
    rewrite (reads_id _ Hid), (lawful_reads (c := U64) (wrapu 64 packed)) by (apply wrapu_fits; lia).
    by rewrite (reads_id _ Hst).
  - unfold packed. destruct (legacy_packing proto); [rewrite legacy_roundtrip; apply (decode_legacy_packed (mkPosition x y z))|].
    rewrite modern_roundtrip. apply (decode_modern_packed (mkPosition x y z)).
Qed.

Lemma block_update_readable_witness :
  (nearest 340 <> V1_6_4 /\ nearest 340 <> V1_7_10) /\
  exists bs pos, build_block_update_packet (-3) 70 12 1 340 = Ok bs /\
    (let! id := VarInt_decode in let! pos := decode_u64 in let! state := VarInt_decode in ret (id, pos, state)) bs =
      (Ok (block_update_id 340, pos, wraps 32 1), []) /\
    (if legacy_packing 340 then decode_legacy_position pos else decode_modern_position pos) = truncated (mkPosition (-3) 70 12).
Proof.
  assert (H1 : nearest 340 <> V1_6_4) by discriminate. assert (H2 : nearest 340 <> V1_7_10) by discriminate.
  split; [split; assumption|]. exact (block_update_readable (-3) 70 12 1 340 H1 H2).
Defined.
