(* ===== verification/Bridging.v ===== *)
(** * Bridging between versions

    The shims of crates/proxy-core/src for a client and a backend that speak
    different protocols: [config_synthesis.rs] (the configuration phase a 1.20.2
    client waits for), [chat_signing.rs] (signatures taken out of chat messages),
    [cookies_transfers.rs] (the bounded cookie store) and [resource_pack.rs].
    The registry bundles, SHA-1, JSON text and the iteration order of a hash map
    are parameters. *)
From Stdlib Require Import ZArith Lia Strings.String Strings.Byte.
From stdpp Require Import base list numbers strings gmap.
From S2P Require Import Prelude Buf Wire VarInt Codec Negotiation Packets Registry RegistryData Modloader Builders.
Local Open Scope Z_scope.
Local Open Scope koja_scope.

(** The [String] errors of these modules: a text alone, or a text followed by the
    error of the codec. *)
Inductive TextError := Because (msg : string) | Caused (msg : string) (e : ProtocolError).

(** [?] on a result that carries no state. *)
Definition obind {E A B} (o : outcome E A) (k : A -> outcome E B) : outcome E B :=
  match o with Ok a => k a | Err e => Err e | Panic => Panic | NoFuel => NoFuel end.
Notation "'let?' x ':=' o 'in' k" := (obind o (fun x => k)) (at level 10, x binder, o at level 100, k at level 200) : koja_scope.

(** ** The configuration phase *)

Definition proto_has_configuration_phase (protocol_version : Z) : bool :=
  has_configuration_phase (ProtocolVersion_from_id protocol_version).
Definition needs_synthesis (client_protocol backend_protocol : Z) : bool :=
  proto_has_configuration_phase client_protocol && negb (proto_has_configuration_phase backend_protocol).

Inductive SynthesisMode := SM_None | ClientSide | BackendSide.
Definition determine_synthesis_mode (client_protocol backend_protocol : Z) : SynthesisMode :=
  match proto_has_configuration_phase client_protocol, proto_has_configuration_phase backend_protocol with
  | true, false => ClientSide
  | false, true => BackendSide
  | _, _ => SM_None
  end.

(** [Vec::push] of one encoded packet. *)
Definition encoded {E} (f : ProtocolError -> E) (m : Enc) : outcome E bytes := map_err f (built m).

Section Synthesis.
(** The contents of the bundles compiled into the proxy. *)
Variable contents : Bundle -> bytes.

Fixpoint registry_packets (id_registry : Z) (bodies : list bytes) : outcome TextError (list bytes) :=
  match bodies with
  | [] => Ok []
  | body :: bodies =>
      let? pkt := encoded (Caused "encode registry data id") (VarInt_encode id_registry;; put_slice body) in
      let? pkts := registry_packets id_registry bodies in
      Ok (pkt :: pkts)
  end.

Definition build_cfg_packets (protocol_version : Z) : outcome TextError (list bytes) :=
  let canonical := ProtocolVersion_from_id protocol_version in
  if negb (proto_has_configuration_phase protocol_version) then Err (Because "Protocol version does not have configuration phase")
  else
    let? packets :=
      if 766 <=? protocol_version then
        match bundle_for_proto protocol_version with
        | Some bundle =>
            let id_registry := cb_config protocol_version "ClientboundRegistryData" in
            if id_registry =? 0xFF then Ok []
            else match parse_bundle (contents bundle) with
                 | Ok bodies => registry_packets id_registry bodies
                 | Err _ => Ok []
                 | Panic => Panic
                 | NoFuel => NoFuel
                 end
        | None => Ok []
        end
      else Ok [] in
    let? finish_id :=
      match epoch canonical with
      | E_V1_20 => Ok (if 766 <=? ProtocolVersion_id canonical then 0x03 else 0x02)
      | E_V1_21Plus => Ok 0x03
      | _ => Err (Because "config synthesis only valid for 1.20.2+")
      end in
    let? finish := encoded (Caused "encode finish id") (VarInt_encode finish_id) in
    Ok (packets ++ [finish]).

Definition build_cfg_finish_packet (protocol_version : Z) : outcome TextError bytes :=
  let? packets := build_cfg_packets protocol_version in
  match last packets with Some p => Ok p | None => Err (Because "no packets produced") end.

End Synthesis.

(** ** Chat signatures *)

Definition supports_chat_signing (protocol_version : Z) : bool := has_chat_signing (ProtocolVersion_from_id protocol_version).
Definition requires_unsigned_chat (protocol_version : Z) : bool := negb (has_chat_signing (ProtocolVersion_from_id protocol_version)).

Inductive ChatSigningMode := Signed | Unsigned | Preserve.

Definition determine_signing_mode (client_protocol backend_protocol : Z) : ChatSigningMode :=
  match supports_chat_signing client_protocol, supports_chat_signing backend_protocol,
        requires_unsigned_chat client_protocol, requires_unsigned_chat backend_protocol with
  | true, true, false, false => Preserve
  | true, false, false, true => Unsigned
  | false, true, true, false => Unsigned
  | false, false, true, true => Preserve
  | _, _, _, _ => Unsigned
  end.

Abbreviation Reader A := (M bytes TextError A).

(** What is kept of the message, and the fields stepped over. *)
Definition chat_head : Reader (Z * bytes * Z) :=
  let! packet_id := lift_err (Caused "Failed to decode packet ID") VarInt_decode in
  let! message := lift_err (Caused "Failed to decode message") decode_string in
  let! timestamp := lift_err (Caused "Failed to decode timestamp") decode_i64 in
  ret (packet_id, message, timestamp).

Definition skip_signature_uuid : Reader unit :=
  let! has_signature := lift_err (Caused "Failed to decode has_signature") decode_bool in
  if has_signature : bool then
    let! src := get_state in
    if (length src <? 16)%nat then fail (Because "truncated signature UUID") else advance 16
  else ret tt.

Definition skip_signature_bytes : Reader unit :=
  let! has_signature_bytes := lift_err (Caused "Failed to decode has_signature_bytes") decode_bool in
  if has_signature_bytes : bool then
    let! len := lift_err (Caused "Failed to decode signature length") decode_i32 in
    if 0 <? len then
      let! src := get_state in
      if Z.of_nat (length src) <? len then fail (Because "signature byte length exceeds remaining buffer")
      else let! _ := take_bytes (Z.to_nat len) in ret tt
    else ret tt
  else ret tt.

(** [let _ = u64::decode(&mut src)]: an error is dropped with the value. *)
Definition skip_salt (canonical : ProtocolVersion) : Reader unit :=
  if 761 <=? ProtocolVersion_id canonical then fun src => (Ok tt, (decode_u64 src).2) else ret tt.

Definition rebuild (canonical : ProtocolVersion) (packet_id : Z) (message : bytes) (timestamp : Z) : M bytes TextError unit :=
  lift_err (Caused "Failed to encode packet ID") (VarInt_encode packet_id);;
  lift_err (Caused "Failed to encode message") (encode_string message);;
  lift_err (Caused "Failed to encode timestamp") (encode_i64 timestamp);;
  lift_err (Caused "Failed to encode has_signature") (encode_bool false);;
  lift_err (Caused "Failed to encode has_signature_bytes") (encode_bool false);;
  if 761 <=? ProtocolVersion_id canonical then lift_err (Caused "Failed to encode salt") (encode_u64 0) else ret tt.

Definition strip_chat_signature (payload : bytes) (protocol_version : Z) : outcome TextError bytes :=
  let canonical := ProtocolVersion_from_id protocol_version in
  if negb (has_chat_signing canonical) then Ok payload
  else
    match (let! head := chat_head in skip_signature_uuid;; skip_signature_bytes;; skip_salt canonical;; ret head) payload with
    | (Ok (packet_id, message, timestamp), src) =>
        let? rebuilt := built (rebuild canonical packet_id message timestamp) in Ok (rebuilt ++ src)
    | (Err e, _) => Err e
    | (Panic, _) => Panic
    | (NoFuel, _) => NoFuel
    end.

(** ** Cookies *)

Definition supports_cookies_transfers (protocol_version : Z) : bool :=
  765 <=? ProtocolVersion_id (ProtocolVersion_from_id protocol_version).

Abbreviation CookieStore := (gmap bytes bytes).
Definition MAX_COOKIE_STORE_SIZE : nat := 1024.
Definition MAX_COOKIE_DATA_SIZE : nat := 4096.

Section Cookies.
(** [HashMap::keys().next()]: some key, in an order the map does not document. *)
Variable keys_next : CookieStore -> option bytes.

Definition cookie_store (key data : bytes) (cookies : CookieStore) : CookieStore :=
  if (MAX_COOKIE_DATA_SIZE <? length data)%nat then cookies
  else
    let cookies :=
      if (MAX_COOKIE_STORE_SIZE <=? size cookies)%nat && negb (bool_decide (is_Some (cookies !! key))) then
        match keys_next cookies with Some oldest_key => delete oldest_key cookies | None => cookies end
      else cookies in
    <[key := data]> cookies.

End Cookies.

Definition cookie_get (key : bytes) (cookies : CookieStore) : option bytes := cookies !! key.
Definition cookie_remove (key : bytes) (cookies : CookieStore) : CookieStore := delete key cookies.
Definition cookie_clear (cookies : CookieStore) : CookieStore := ∅.

(** ** Resource packs *)

Section ResourcePack.
(** The SHA-1 digest, and [serde_json::to_string] of a string. *)
Variable sha1 : bytes -> bytes.
Variable json_string : bytes -> bytes.

Definition pack_id (url : bytes) : bytes :=
  let pack_id_bytes := take 16 (sha1 url) in
  let pack_id_bytes := <[6%nat := zb (Z.lor (Z.land (bz (nth 6 pack_id_bytes x00)) 0x0F) 0x50)]> pack_id_bytes in
  <[8%nat := zb (Z.lor (Z.land (bz (nth 8 pack_id_bytes x00)) 0x3F) 0x80)]> pack_id_bytes.

Definition pack_packet_id (id : Z) : Z :=
  if id =? 765 then 0x40 else if (id =? 766) || (id =? 767) then 0x46 else 0x4A.

Definition counted_bytes (what : string) (b : bytes) : M bytes TextError unit :=
  lift_err (Caused what) (VarInt_encode (wraps 32 (Z.of_nat (length b))));; put_slice b.

Definition build_resource_pack_packet (url hash : bytes) (required : bool) (prompt : option bytes) (protocol_version : Z) : outcome TextError bytes :=
  let canonical := ProtocolVersion_from_id protocol_version in
  if ProtocolVersion_id canonical <? 765 then Err (Because "resource pack push not implemented for protocol (<765 / 1.20.3)")
  else
    built (lift_err (Caused "encode packet id") (VarInt_encode (pack_packet_id (ProtocolVersion_id canonical)));;
           put_slice (pack_id url);;
           counted_bytes "encode url length" url;;
           counted_bytes "encode hash length" hash;;
           put_u8 (if required then 1 else 0);;
           match prompt with
           | Some p =>
               put_u8 1;;
               counted_bytes "encode prompt length" (lit "{" ++ [x22] ++ lit "text" ++ [x22] ++ lit ":" ++ json_string p ++ lit "}")
           | None => put_u8 0
           end).

End ResourcePack.

Definition should_send_resource_pack (config_url config_hash : option bytes) : bool :=
  bool_decide (is_Some config_url) && bool_decide (is_Some config_hash).

(** ** Lemmas *)

Lemma registry_packets_all id bodies : fits_s 32 id ->
  registry_packets id bodies = Ok (map (fun body => wire VarInt id ++ body) bodies).
Proof.
  intros Hid. induction bodies as [|body bodies IH]; [done|]. cbn [registry_packets map].
  unfold encoded. rewrite (built_writes _ (wire VarInt id ++ body)).
  - cbn [obind map_err]. by rewrite IH.
  - apply writes_bind; [apply (lawful_writes (c := VarInt) id Hid)|apply writes_put].
Qed.

(** The registry agrees with the packet ids written into [build_cfg_packets]. *)
Lemma finish_ids : Forall (fun proto =>
  (proto < 766 -> cb_config proto "FinishConfiguration" = 0x02) /\
  (766 <= proto -> cb_config proto "FinishConfiguration" = 0x03 /\ cb_config proto "ClientboundRegistryData" <> 0xFF))
  (seqZ 764 13).
Proof. match goal with |- ?P => apply (bool_decide_eq_true_1 P) end. vm_compute. reflexivity. Qed.

Lemma known_epoch proto : 764 <= proto <= 776 ->
  epoch (ProtocolVersion_from_id proto) = (if proto <? 767 then E_V1_20 else E_V1_21Plus).
Proof.
  intros H. assert (Hin : proto ∈ seqZ 764 13) by (apply elem_of_seqZ; lia). clear H. revert proto Hin.
  apply Forall_forall. match goal with |- ?P => apply (bool_decide_eq_true_1 P) end. vm_compute. reflexivity.
Qed.

Lemma newer_unknown proto : 776 < proto -> epoch (ProtocolVersion_from_id proto) = E_Unknown.
Proof.
  intros H. assert (Hs : is_supported (ProtocolVersion_from_id proto) = false).
  { rewrite supported_ids. apply bool_decide_eq_false_2. unfold SUPPORTED. rewrite !elem_of_cons, elem_of_nil. lia. }
  by destruct (ProtocolVersion_from_id proto).
Qed.

(** Reading a chat message gives an id, a text and a time stamp that can be
    written again. *)
Lemma decode_i64_ok src v rest : decode_i64 src = (Ok v, rest) -> fits_s 64 v.
Proof.
  unfold decode_i64, bind, ensure, remaining, get_i64, get_int.
  destruct (_ <? _); [done|]. unfold bind. destruct (get_uint 8 src) as [[u| | |] r]; try done.
  cbn. intros [= <- <-]. apply wraps_fits; lia.
Qed.

Lemma lift_ok {E F A} (f : E -> F) (m : M bytes E A) src v rest : lift_err f m src = (Ok v, rest) -> m src = (Ok v, rest).
Proof. unfold lift_err. destruct (m src) as [[] ?]; cbn; congruence. Qed.

Lemma bind_ok_inv {S E A B} (m : M S E A) (k : A -> M S E B) s b s' :
  bind m k s = (Ok b, s') -> exists a s1, m s = (Ok a, s1) /\ k a s1 = (Ok b, s').
Proof. unfold bind. destruct (m s) as [[a| | |] s1]; intros H; try done. by exists a, s1. Qed.

Lemma chat_head_ok src id msg ts rest : chat_head src = (Ok (id, msg, ts), rest) ->
  fits_s 32 id /\ string_ok msg /\ fits_s 64 ts.
Proof.
  unfold chat_head. intros (v & s1 & H1 & (m & s2 & H2 & (t & s3 & H3 & H)%bind_ok_inv)%bind_ok_inv)%bind_ok_inv.
  apply lift_ok in H1, H2, H3. injection H as <- <- <- <-. split; [|split].
  - pose proof (VarInt_decode_cases src) as Hc. rewrite H1 in Hc. apply Hc.
  - apply (decode_string_ok _ _ _ H2).
  - apply (decode_i64_ok _ _ _ H3).
Qed.

(** The message without its signature, as [rebuild] writes it. *)
Definition unsigned_img (canonical : ProtocolVersion) (id : Z) (msg : bytes) (ts : Z) : bytes :=
  wire VarInt id ++ wire Str msg ++ wire I64 ts ++ [x00; x00] ++
  (if 761 <=? ProtocolVersion_id canonical then repeat x00 8 else []).

Lemma rebuild_writes canonical id msg ts : fits_s 32 id -> string_ok msg -> fits_s 64 ts ->
  writes (rebuild canonical id msg ts) (unsigned_img canonical id msg ts).
Proof.
  intros Hi Hm Ht. unfold rebuild, unsigned_img.
  apply writes_bind; [apply lift_writes, (lawful_writes (c := VarInt) id Hi)|].
  apply writes_bind; [apply lift_writes, (lawful_writes (c := Str) msg Hm)|].
  apply writes_bind; [apply lift_writes, (lawful_writes (c := I64) ts Ht)|].
  change ([x00; x00] ++ ?l) with ([x00] ++ [x00] ++ l).
  do 2 (apply writes_bind; [apply lift_writes, (lawful_writes (c := Bool) false I)|]).
  assert (H0 : wf U64 0) by (cbn; unfold fits_u; lia).
  destruct (761 <=? _); [apply lift_writes, (lawful_writes (c := U64) 0 H0)|apply writes_ret].
Qed.

Lemma chat_head_reads id msg ts : fits_s 32 id -> string_ok msg -> fits_s 64 ts ->
  reads chat_head (wire VarInt id ++ wire Str msg ++ wire I64 ts) (id, msg, ts).
Proof.
  intros Hi Hm Ht. unfold chat_head.
  eapply reads_bind; [apply lift_reads, (lawful_reads (c := VarInt) id Hi)|].
  eapply reads_bind; [apply lift_reads, (lawful_reads (c := Str) msg Hm)|].
  eapply reads_bind_last; [apply lift_reads, (lawful_reads (c := I64) ts Ht)|apply reads_ret].
Qed.

(** Stripping what was already stripped finds nothing to skip but the zero salt. *)
Lemma strip_unsigned canonical id msg ts rest : fits_s 32 id -> string_ok msg -> fits_s 64 ts ->
  (let! head := chat_head in skip_signature_uuid;; skip_signature_bytes;; skip_salt canonical;; ret head)
    (unsigned_img canonical id msg ts ++ rest) = (Ok (id, msg, ts), rest).
Proof.
  intros Hi Hm Ht. unfold unsigned_img. rewrite <- !app_assoc.
  rewrite (app_assoc (wire Str msg)), (app_assoc (wire VarInt id)).
  unfold bind at 1. rewrite (chat_head_reads id msg ts Hi Hm Ht). cbv beta iota.
  assert (Hb : forall l, decode_bool (x00 :: l) = (Ok false, l)) by (intros l; exact (lawful_reads (c := Bool) false I l)).
  unfold skip_signature_uuid, skip_signature_bytes, skip_salt, bind, lift_err. cbn [app]. rewrite !Hb. cbn [map_err fst snd].
  unfold ret. rewrite !Hb. cbn [map_err fst snd]. destruct (761 <=? _); [|done].
  assert (H0 : wf U64 0) by (cbn; unfold fits_u; lia). pose proof (lawful_reads (c := U64) 0 H0 rest) as Hr.
  change (wire U64 0) with (repeat x00 8) in Hr. cbn [U64 dec] in Hr. by rewrite Hr.
Qed.

Lemma total_chat : total chat_head /\ total skip_signature_uuid /\ total skip_signature_bytes.
Proof.
  split_and!.
  - unfold chat_head. repeat (apply total_bind; [apply lift_total; first [apply total_VarInt|apply (lawful_total (c := Str))|apply (lawful_total (c := I64))]|intros ?]).
    apply total_ret.
  - unfold skip_signature_uuid. apply total_bind; [apply lift_total, (lawful_total (c := Bool))|]. intros []; [|apply total_ret].
    intros src. unfold bind, get_state. destruct (Nat.ltb_spec (length src) 16); [done|]. unfold advance, bind, take_bytes.
    change (Z.to_nat 16) with 16%nat. by rewrite (proj2 (Nat.ltb_ge _ _)).
  - unfold skip_signature_bytes. apply total_bind; [apply lift_total, (lawful_total (c := Bool))|]. intros []; [|apply total_ret].
    apply total_bind; [apply lift_total, (lawful_total (c := I32))|]. intros len. destruct (Z.ltb_spec 0 len); [|apply total_ret].
    intros src. unfold bind, get_state. destruct (Z.ltb_spec (Z.of_nat (length src)) len); [done|]. unfold take_bytes.
    by rewrite (proj2 (Nat.ltb_ge _ _)) by lia.
Qed.

Lemma cfg_id_fits proto n : fits_s 32 (cb_config proto n).
Proof. unfold cb_config. apply id_fits. Qed.

Lemma finish_encoded {E} (f : ProtocolError -> E) v : fits_s 32 v -> encoded f (VarInt_encode v) = Ok (wire VarInt v).
Proof. intros H. unfold encoded. by rewrite (built_writes (VarInt_encode v) _ (lawful_writes (c := VarInt) v H)). Qed.

(** The RegistryData packets of a version, for any packet id. *)
Lemma bundle_packets contents proto id : fits_s 32 id ->
  exists pre, (match bundle_for_proto proto with
     | Some bundle => match parse_bundle (contents bundle) with
          | Ok bodies => registry_packets id bodies
          | Err _ => Ok [] | Panic => Panic | NoFuel => NoFuel end
     | None => Ok [] end) = Ok (map (fun body => wire VarInt id ++ body) pre) /\
     forall bundle bs, bundle_for_proto proto = Some bundle -> parse_bundle (contents bundle) = Ok bs -> pre = bs.
Proof.
  intros Hid. destruct (bundle_for_proto proto) as [bundle|]; [|by exists []]. pose proof (parse_bundle_returns (contents bundle)).
  destruct (parse_bundle (contents bundle)) as [bodies| | |] eqn:Eb; try done.
  - exists bodies. rewrite (registry_packets_all _ _ Hid). split; [done|]. intros ? ? [= <-]. rewrite Eb. by intros [= ->].
  - exists []. split; [done|]. intros ? ? [= <-]. by rewrite Eb.
Qed.

(** ** Properties *)

(** The configuration phase given to a client whose backend has none.  For
    each of the versions 764 to 776 packets are produced and the last is
    FinishConfiguration under the id the registry has; below 766 it is the only
    one, from 766 on it follows one RegistryData packet for each body of the
    version's bundle, in order.  Every other version is refused, and a version is
    offered the phase exactly when it is at least 764. *)
Theorem configuration_synthesised (contents : Bundle -> bytes) (proto : Z) :
  (proto_has_configuration_phase proto = true <-> 764 <= proto) /\
  (proto < 764 \/ 776 < proto -> exists e, build_cfg_packets contents proto = Err e) /\
  (764 <= proto <= 776 ->
     exists bodies, build_cfg_packets contents proto =
       Ok (map (fun body => wire VarInt (cb_config proto "ClientboundRegistryData") ++ body) bodies ++
           [wire VarInt (cb_config proto "FinishConfiguration")]) /\
       (proto < 766 -> bodies = []) /\
       (766 <= proto -> forall bundle bs, bundle_for_proto proto = Some bundle -> parse_bundle (contents bundle) = Ok bs -> bodies = bs)).
Proof.
  assert (Hphase : proto_has_configuration_phase proto = (764 <=? proto)).
  { unfold proto_has_configuration_phase, has_configuration_phase. by rewrite from_id_id. }
  split; [rewrite Hphase; apply Z.leb_le|]. unfold build_cfg_packets. rewrite Hphase, from_id_id. split.
  - intros Hout. destruct (Z.leb_spec 764 proto); cbn [negb]; [|by eexists]. rewrite newer_unknown by lia.
    assert (Hr : forall o : outcome TextError (list bytes), returned o ->
      exists e, (let? _ := o in Err (Because "config synthesis only valid for 1.20.2+")) = Err (A := list bytes) e).
    { intros [] Ho; cbn; try done; by eexists. }
    cbn [obind]. apply Hr. destruct (766 <=? proto); [|done]. destruct (bundle_for_proto proto) as [bundle|]; [|done].
    destruct (_ =? 255); [done|]. pose proof (parse_bundle_returns (contents bundle)).
    destruct (parse_bundle (contents bundle)); try done. rewrite (registry_packets_all _ _ (cfg_id_fits _ _)). exact I.
  - intros Hin. rewrite (proj2 (Z.leb_le 764 proto)) by lia. cbn [negb]. rewrite known_epoch by lia.
    assert (Hids := proj1 (Forall_forall _ _) finish_ids proto ltac:(apply elem_of_seqZ; lia)). destruct Hids as [Hold Hnew].
    destruct (Z.leb_spec 766 proto) as [H766|H766].
    + destruct (Hnew H766) as [Hfin Hreg]. rewrite (proj2 (Z.eqb_neq _ _) Hreg).
      destruct (bundle_packets contents proto _ (cfg_id_fits proto "ClientboundRegistryData")) as (pre & -> & Hpre).
      exists pre. split; [|split; [lia|done]]. cbn [obind]. rewrite Hfin.
      destruct (proto <? 767); cbn [obind]; rewrite finish_encoded by width; done.
    + exists []. rewrite Hold by lia. split; [|split; [done|lia]]. rewrite (proj2 (Z.ltb_lt proto 767)) by lia. cbn [obind].
      rewrite finish_encoded by width. done.
Qed.

(** Stripping the signature from a chat message.  The function returns on
    every payload and for every version; a version without signatures gets its
    payload back; otherwise the result is the id, the message and the time stamp
    that stand at the front of the payload, then both flags cleared, from 1.19.3
    on a zero salt, and a tail of the payload; and stripping the result again
    changes nothing. *)
Theorem chat_signature_stripped (payload : bytes) (proto : Z) :
  returned (strip_chat_signature payload proto) /\
  (supports_chat_signing proto = false -> strip_chat_signature payload proto = Ok payload) /\
  (forall out, strip_chat_signature payload proto = Ok out ->
     strip_chat_signature out proto = Ok out /\
     (supports_chat_signing proto = true ->
      exists id msg ts rest tail, chat_head payload = (Ok (id, msg, ts), rest) /\
        out = unsigned_img (ProtocolVersion_from_id proto) id msg ts ++ tail)).
Proof.
  unfold strip_chat_signature, supports_chat_signing. set (canonical := ProtocolVersion_from_id proto).
  destruct (has_chat_signing canonical) eqn:Es; cbn [negb]; [|by repeat split; intros].
  set (reader := bind chat_head _). assert (Ht : total reader).
  { destruct total_chat as (H1 & H2 & H3). unfold reader. apply total_bind; [done|]. intros h.
    apply total_bind; [done|intros _]. apply total_bind; [done|intros _]. apply total_bind; [|intros; apply total_ret].
    unfold skip_salt. destruct (761 <=? _); done. }
  assert (Hok : forall src id msg ts rest, reader src = (Ok (id, msg, ts), rest) ->
    built (rebuild canonical id msg ts) = Ok (unsigned_img canonical id msg ts) /\
    reader (unsigned_img canonical id msg ts ++ rest) = (Ok (id, msg, ts), rest) /\
    exists rest', chat_head src = (Ok (id, msg, ts), rest')).
  { intros src id msg ts rest (h & s1 & H1 & (u1 & s2 & _ & (u2 & s3 & _ & (u3 & s4 & _ & H)%bind_ok_inv)%bind_ok_inv)%bind_ok_inv)%bind_ok_inv.
    injection H as -> ->. destruct (chat_head_ok _ _ _ _ _ H1) as (Hi & Hm & Hts). split_and!.
    - apply built_writes, (rebuild_writes _ _ _ _ Hi Hm Hts).
    - apply (strip_unsigned _ _ _ _ _ Hi Hm Hts).
    - by exists s1. }
  specialize (Ht payload). destruct (reader payload) as [[[[id msg] ts]| | |] rest] eqn:Er; cbn in Ht; try done.
  destruct (Hok _ _ _ _ _ Er) as (Hb & Hagain & rest' & Hh). rewrite Hb. cbn [obind]. split_and!; [done|done|].
  intros out [= <-]. rewrite Hagain, Hb. split; [done|]. intros _. by exists id, msg, ts, rest', rest.
Qed.

(** Whether signatures are stripped.  Exactly one side knowing signed chat
    means stripping, otherwise the message is left as it is; the mode [Signed] is
    never chosen. *)
Theorem signing_mode_spec (client_protocol backend_protocol : Z) :
  determine_signing_mode client_protocol backend_protocol =
    (if Bool.eqb (supports_chat_signing client_protocol) (supports_chat_signing backend_protocol) then Preserve else Unsigned) /\
  determine_signing_mode client_protocol backend_protocol <> Signed.
Proof.
  unfold determine_signing_mode, supports_chat_signing, requires_unsigned_chat.
  destruct (has_chat_signing (ProtocolVersion_from_id client_protocol)), (has_chat_signing (ProtocolVersion_from_id backend_protocol)); done.
Qed.

(** The store never holds more than 1024 cookies nor a cookie of more than 4096
    bytes. *)
Definition cookies_ok (m : CookieStore) : Prop :=
  (size m <= MAX_COOKIE_STORE_SIZE)%nat /\ map_Forall (fun _ data => (length data <= MAX_COOKIE_DATA_SIZE)%nat) m.

(** What [keys().next()] promises: a key of the map, unless the map is empty. *)
Definition some_key (keys_next : CookieStore -> option bytes) : Prop :=
  forall m, match keys_next m with Some k => is_Some (m !! k) | None => m = ∅ end.

Lemma cookies_ok_delete k m : cookies_ok m -> cookies_ok (delete k m).
Proof.
  intros [Hs Hd]. split; [|by apply map_Forall_delete].
  destruct (m !! k) as [d|] eqn:E; [rewrite map_size_delete_Some by (by eexists)|rewrite delete_id by done]; lia.
Qed.

(** The cookie store is bounded and keeps what it can.  Whichever key the
    hash map names first, every operation keeps the store within its limits; a
    cookie that is stored is the one read back; too large a cookie changes
    nothing; and storing loses at most one other cookie, only when the store is
    full and the key is new. *)
Theorem cookies_bounded (keys_next : CookieStore -> option bytes) (m : CookieStore) (key data : bytes) :
  some_key keys_next -> cookies_ok m ->
  let m' := cookie_store keys_next key data m in
  cookies_ok m' /\ cookies_ok (cookie_remove key m) /\ cookies_ok (cookie_clear m) /\
  cookie_get key (cookie_remove key m) = None /\
  ((length data <= MAX_COOKIE_DATA_SIZE)%nat -> cookie_get key m' = Some data) /\
  ((MAX_COOKIE_DATA_SIZE < length data)%nat -> m' = m) /\
  (forall k d, k <> key -> cookie_get k m = Some d ->
     cookie_get k m' = Some d \/ (size m = MAX_COOKIE_STORE_SIZE /\ cookie_get key m = None /\ keys_next m = Some k)).
Proof.
  intros Hk Hm m'. unfold cookie_get, cookie_remove, cookie_clear.
  assert (Hrm := cookies_ok_delete key m Hm).
  assert (Hclear : cookies_ok ∅) by (split; [rewrite map_size_empty; unfold MAX_COOKIE_STORE_SIZE; lia|apply map_Forall_empty]).
  unfold m', cookie_store. destruct (Nat.ltb_spec MAX_COOKIE_DATA_SIZE (length data)) as [Hbig|Hfit].
  { split_and!; try done; [by rewrite lookup_delete_eq|lia|]. intros k d _ Hd. by left. }
  set (full := (MAX_COOKIE_STORE_SIZE <=? size m)%nat && negb (bool_decide (is_Some (m !! key)))).
  set (m1 := if full then _ else m).
  assert (Hm1 : cookies_ok m1 /\ ((size m1 < MAX_COOKIE_STORE_SIZE)%nat \/ is_Some (m1 !! key))).
  { unfold m1, full. destruct (Nat.leb_spec MAX_COOKIE_STORE_SIZE (size m)) as [Hf|Hf]; cbn [andb]; [|by split; [|left]].
    destruct (bool_decide_reflect (is_Some (m !! key))) as [Hs|Hs]; cbn [negb]; [by split; [|right]|].
    specialize (Hk m). destruct (keys_next m) as [k|].
    - split; [by apply cookies_ok_delete|]. left. rewrite map_size_delete_Some by done. destruct Hm. unfold MAX_COOKIE_STORE_SIZE in *. lia.
    - subst. rewrite map_size_empty in Hf. unfold MAX_COOKIE_STORE_SIZE in Hf. lia. }
  destruct Hm1 as [[Hs1 Hd1] Hroom]. split_and!; try done.
  - split; [|by apply map_Forall_insert_2]. destruct Hroom as [Hr|Hr].
    + rewrite map_size_insert. destruct (m1 !! key); cbn; lia.
    + rewrite map_size_insert_Some by done. done.
  - by rewrite lookup_delete_eq.
  - intros _. by rewrite lookup_insert_eq.
  - lia.
  - intros k d Hne Hd. rewrite lookup_insert_ne by done. unfold m1, full.
    destruct (Nat.leb_spec MAX_COOKIE_STORE_SIZE (size m)) as [Hf|Hf]; cbn [andb]; [|by left].
    destruct (bool_decide_reflect (is_Some (m !! key))) as [Hs|Hs]; cbn [negb]; [by left|].
    destruct (keys_next m) as [k0|] eqn:Ek; [|by left]. destruct (decide (k0 = k)) as [->|Hkk]; [|left; by rewrite lookup_delete_ne].
    right. split_and!; [destruct Hm; lia| |done]. destruct (m !! key); [|done]. destruct Hs. by eexists.
Qed.

(** The key a concrete map iterates over first. *)
Definition first_key (m : CookieStore) : option bytes := fst <$> head (map_to_list m).
Lemma first_key_some : some_key first_key.
Proof.
  intros m. unfold first_key. destruct (map_to_list m) as [|[k d] l] eqn:E; cbn.
  - by apply map_to_list_empty_iff.
  - exists d. apply elem_of_map_to_list. rewrite E. left.
Qed.

Lemma cookies_bounded_witness :
  (some_key first_key /\ cookies_ok {[lit "a" := lit "1"]}) /\
  let m' := cookie_store first_key (lit "b") (lit "2") {[lit "a" := lit "1"]} in
  cookie_get (lit "b") m' = Some (lit "2").
Proof.
  assert (Hm : cookies_ok {[lit "a" := lit "1"]}).
  { split; [rewrite map_size_singleton; unfold MAX_COOKIE_STORE_SIZE; lia|].
    apply map_Forall_singleton. unfold MAX_COOKIE_DATA_SIZE. cbn. lia. }
  split; [split; [apply first_key_some|exact Hm]|].
  apply (cookies_bounded first_key {[lit "a" := lit "1"]} (lit "b") (lit "2") first_key_some Hm).
  apply Nat.leb_le. vm_compute. reflexivity.
Defined.

(** The component sent as the prompt. *)
Definition prompt_component (json_string : bytes -> bytes) (p : bytes) : bytes :=
  lit "{" ++ [x22] ++ lit "text" ++ [x22] ++ lit ":" ++ json_string p ++ lit "}".

(** The packet as its documentation lays it out. *)
Definition read_resource_pack : Dec (Z * bytes * bytes * bytes * bool * option bytes) :=
  let! id := VarInt_decode in
  let! uuid := decode_uuid in
  let! url := decode_string in
  let! hash := decode_string in
  let! forced := decode_bool in
  let! prompt := decode_option Str in
  ret (id, uuid, url, hash, forced, prompt).

Lemma counted_bytes_writes what b : string_ok b -> writes (counted_bytes what b) (wire Str b).
Proof.
  intros Hb. destruct (writes_length_prefix (Z.of_nat (length b))) as [Hw _].
  { destruct Hb as [_ Hl]. unfold MAX_STRING_LENGTH in Hl. lia. }
  assert (Hs : wire Str b = wire VarInt (Z.of_nat (length b)) ++ b).
  { pose proof (encode_str_Str b Hb []) as H1. pose proof (writes_bind _ _ _ _ Hw (writes_put b) []) as H2.
    unfold encode_str in H1. rewrite H2 in H1. by injection H1. }
  rewrite Hs. apply writes_bind; [by apply lift_writes|apply writes_put].
Qed.

(** The two octets of the pack id that carry the version and the variant. *)
Lemma version_bits b : Z.shiftr (bz (zb (Z.lor (Z.land (bz b) 0x0F) 0x50))) 4 = 5.
Proof. by destruct b. Qed.
Lemma variant_bits b : Z.shiftr (bz (zb (Z.lor (Z.land (bz b) 0x3F) 0x80))) 6 = 2.
Proof. by destruct b. Qed.

Lemma pack_id_length sha1 url : length (sha1 url) = 20%nat -> length (pack_id sha1 url) = 16%nat.
Proof. intros H. unfold pack_id. rewrite !length_insert, length_take, H. done. Qed.

(** The resource-pack packet.  When the digest has its 20 bytes and the texts
    fit a protocol string, a version from 765 on gets a packet that reads back as
    the id, the pack id, the address, the hash, the flag and the prompt component,
    with nothing left; the pack id carries version 5 and the RFC 4122 variant and
    depends on the address only.  Earlier versions are refused. *)
Theorem resource_pack_readable (sha1 json_string : bytes -> bytes) (url hash : bytes) (required : bool) (prompt : option bytes) (proto : Z) :
  length (sha1 url) = 20%nat -> string_ok url -> string_ok hash ->
  match prompt with Some p => string_ok (prompt_component json_string p) | None => True end ->
  (proto < 765 -> exists e, build_resource_pack_packet sha1 json_string url hash required prompt proto = Err e) /\
  (765 <= proto -> exists bs, build_resource_pack_packet sha1 json_string url hash required prompt proto = Ok bs /\
     read_resource_pack bs =
       (Ok (pack_packet_id proto, pack_id sha1 url, url, hash, required, prompt_component json_string <$> prompt), [])) /\
  Z.shiftr (bz (nth 6 (pack_id sha1 url) x00)) 4 = 5 /\ Z.shiftr (bz (nth 8 (pack_id sha1 url) x00)) 6 = 2.
Proof.
  intros Hsha Hu Hh Hp. unfold build_resource_pack_packet. rewrite from_id_id. split; [|split].
  - intros H. rewrite (proj2 (Z.ltb_lt _ _) H). by eexists.
  - intros H. rewrite (proj2 (Z.ltb_ge _ _) H).
    assert (Hid : fits_s 32 (pack_packet_id proto)) by (unfold pack_packet_id; repeat case_match; width).
    assert (Ho : wf (Opt Str) (prompt_component json_string <$> prompt)) by (destruct prompt; done).
    exists (wire VarInt (pack_packet_id proto) ++ pack_id sha1 url ++ wire Str url ++ wire Str hash ++ wire Bool required ++
            wire (Opt Str) (prompt_component json_string <$> prompt)). split.
    + apply built_writes. apply writes_bind; [apply lift_writes, (lawful_writes (c := VarInt) _ Hid)|].
      apply writes_bind; [apply writes_put|]. apply writes_bind; [by apply counted_bytes_writes|].
      apply writes_bind; [by apply counted_bytes_writes|]. apply writes_bind; [by destruct required; apply writes_u8|].
      destruct prompt as [p|]; cbn [fmap option_fmap option_map]; [|apply writes_u8].
      rewrite (writes_wire_eq (Opt Str) _ ([x01] ++ wire Str (prompt_component json_string p))).
      * apply writes_bind; [apply writes_u8|by apply counted_bytes_writes].
      * apply writes_bind; [apply writes_u8|apply (lawful_writes (c := Str) _ Hp)].
    + rewrite <- (app_nil_r (wire (Opt Str) _)). unfold read_resource_pack.
      change decode_string with (dec Str). change decode_bool with (dec Bool). change (decode_option Str) with (dec (Opt Str)).
      unfold bind. rewrite (reads_id _ Hid).
      rewrite (lawful_reads (c := Uuid) (pack_id sha1 url) (pack_id_length sha1 url Hsha)).
      rewrite (lawful_reads (c := Str) url Hu), (lawful_reads (c := Str) hash Hh), (lawful_reads (c := Bool) required I).
      by rewrite (lawful_reads (c := Opt Str) _ Ho).
  - assert (Hl : length (take 16 (sha1 url)) = 16%nat) by (rewrite length_take, Hsha; done).
    unfold pack_id. rewrite !nth_lookup, list_lookup_insert_ne, list_lookup_insert_eq, list_lookup_insert_eq by (rewrite ?length_insert; lia).
    cbn [default]. split; [apply version_bits|apply variant_bits].
Qed.

Lemma resource_pack_readable_witness :
  let sha1 := fun _ : bytes => repeat x00 20 in
  let json_string := fun p : bytes => [x22] ++ p ++ [x22] in
  exists bs, build_resource_pack_packet sha1 json_string (lit "http://h/p") [] true (Some (lit "hi")) 767 = Ok bs /\
     read_resource_pack bs =
       (Ok (pack_packet_id 767, pack_id sha1 (lit "http://h/p"), lit "http://h/p", [], true, prompt_component json_string <$> Some (lit "hi")), []).
Proof.
  intros sha1 json_string.
  assert (H1 : string_ok (lit "http://h/p")) by (split; [reflexivity|unfold MAX_STRING_LENGTH; cbn; lia]).
  assert (H2 : string_ok []) by (split; [reflexivity|unfold MAX_STRING_LENGTH; cbn; lia]).
  assert (H3 : string_ok (prompt_component json_string (lit "hi"))) by (split; [reflexivity|unfold MAX_STRING_LENGTH; cbn; lia]).
  destruct (resource_pack_readable sha1 json_string (lit "http://h/p") [] true (Some (lit "hi")) 767 eq_refl H1 H2 H3) as (_ & H & _).
  apply H. lia.
Defined.
