(* ===== verification/LoginPackets.v ===== *)
(** * Login packets

    crates/proxy-core/src/net/login_packets.rs: the packets of the login dance
    built for a canonical version and a protocol number, and the documented layout
    of LoginSuccess over all versions, which the builders are proved to follow.
    The text of a UUID belongs to the uuid crate and is a parameter. *)
From Stdlib Require Import ZArith Lia Strings.String Strings.Byte.
From stdpp Require Import base list numbers strings.
From S2P Require Import Prelude Buf Wire VarInt Codec Negotiation Packets Chars Utf8 Registry Families Builders.
From S2P Require Auth Packets16 Packets17 Packets18 Packets112 Packets116 Packets119 Packets120 Packets121.
Local Open Scope Z_scope.
Local Open Scope koja_scope.

Record EncodedPacket := mkEncodedPacket { ep_id : Z; ep_body : bytes }.

(** [encode]: the id is asked for first, and an encoder error gives no packet. *)
Definition encode (packet_id : Z -> Z) (proto : Z) (m : Enc) : option EncodedPacket :=
  let id := packet_id proto in
  if id =? 0xFF then None
  else match m [] with (Ok _, body) => Some (mkEncodedPacket id body) | _ => None end.

(** [m.encode(&mut body).ok()?] for a body written by hand under a fixed id. *)
Definition by_hand (id : Z) (m : Enc) : option EncodedPacket :=
  match m [] with (Ok _, body) => Some (mkEncodedPacket id body) | _ => None end.

Record LoginProfile := mkLoginProfile { uuid : bytes; username : bytes; properties : list Auth.ProfileProperty }.

Section Login.
(** [Uuid::hyphenated().to_string()] and [Uuid::parse_str]. *)
Variable uuid_text : bytes -> bytes.
Variable uuid_parse : bytes -> option bytes.

Definition props16 := map (fun p => Packets116.mkProperty (Auth.pp_name p) (Auth.pp_value p) (Auth.pp_signature p)).
Definition props19 := map (fun p => Packets119.mkProfileProperty (Auth.pp_name p) (Auth.pp_value p) (Auth.pp_signature p)).
Definition props20 := map (fun p => Packets120.mkProfileProperty (Auth.pp_name p) (Auth.pp_value p) (Auth.pp_signature p)).
Definition props21 := map (fun p => Packets121.mkProfileProperty (Auth.pp_name p) (Auth.pp_value p) (Auth.pp_signature p)).

(** The raw UUID and the name, without a properties trailer (1.16 to 1.18). *)
Definition raw_success (profile : LoginProfile) : option EncodedPacket :=
  by_hand 0x02 (put_uuid_pair (uuid profile);; VarInt_encode (wraps 32 (Z.of_nat (length (username profile))));; put_slice (username profile)).

Definition build_login_success (canonical : CanonicalVersion) (proto : Z) (profile : LoginProfile) : option EncodedPacket :=
  let '(mkLoginProfile uuid username properties) := profile in
  match canonical with
  | C_V1_6_4 => None
  | C_V1_7_10 => encode v1_7_ClientboundLoginSuccess_id proto (Packets17.LoginSuccess_encode uuid_text (Packets17.mkLoginSuccess uuid username))
  | C_V1_8 => encode v1_8_ClientboundLoginSuccess_id proto (Packets18.LoginSuccess_encode uuid_text (Packets18.mkLoginSuccess uuid username))
  | C_V1_12_2 | C_V1_15_2 =>
      encode v1_12_ClientboundLoginSuccess_id proto (Packets112.LoginSuccess_encode uuid_text (Packets112.mkLoginSuccess uuid username))
  | C_V1_16_5 | C_V1_18_2 =>
      if proto <? 735 then
        encode v1_12_ClientboundLoginSuccess_id proto (Packets112.LoginSuccess_encode uuid_text (Packets112.mkLoginSuccess uuid username))
      else if proto <? 759 then raw_success profile
      else encode v1_16_ClientboundLoginSuccess_id proto (Packets116.LoginSuccess_encode (Packets116.mkLoginSuccess uuid username (props16 properties)))
  | C_V1_19_4 =>
      if proto <? 759 then raw_success profile
      else encode v1_19_ClientboundLoginSuccess_id proto (Packets119.LoginSuccess_encode (Packets119.mkLoginSuccess uuid username (props19 properties)))
  | C_V1_20_4 =>
      let strict := if 766 <=? proto then Some true else None in
      encode v1_20_ClientboundLoginSuccess_id proto (Packets120.LoginSuccess_encode (Packets120.mkLoginSuccess uuid username (props20 properties) strict))
  | C_V1_21 | C_V26 =>
      let strict := if proto =? 767 then Some true else None in
      let session_id := if 776 <=? proto then Some uuid else None in
      encode v1_21_ClientboundLoginSuccess_id proto (Packets121.LoginSuccess_encode (Packets121.mkLoginSuccess uuid username (props21 properties) strict session_id))
  end.

Definition build_encryption_request (canonical : CanonicalVersion) (proto : Z) (server_id public_key verify_token : bytes) : option EncodedPacket :=
  match canonical with
  | C_V1_6_4 => None
  | C_V1_7_10 => encode v1_7_ClientboundEncryptionRequest_id proto (Packets17.EncryptionRequest_encode (Packets17.mkEncryptionRequest server_id public_key verify_token))
  | C_V1_8 => encode v1_8_ClientboundEncryptionRequest_id proto (Packets18.EncryptionRequest_encode (Packets18.mkEncryptionRequest server_id public_key verify_token))
  | C_V1_12_2 | C_V1_15_2 =>
      encode v1_12_ClientboundEncryptionRequest_id proto (Packets112.EncryptionRequest_encode (Packets112.mkEncryptionRequest server_id public_key verify_token))
  | C_V1_16_5 | C_V1_18_2 =>
      encode v1_16_ClientboundEncryptionRequest_id proto (Packets116.EncryptionRequest_encode (Packets116.mkEncryptionRequest server_id public_key verify_token))
  | C_V1_19_4 => encode v1_19_ClientboundEncryptionRequest_id proto (Packets119.EncryptionRequest_encode (Packets119.mkEncryptionRequest server_id public_key verify_token))
  | C_V1_20_4 =>
      let auth := if 766 <=? proto then Some true else None in
      encode v1_20_ClientboundEncryptionRequest_id proto (Packets120.EncryptionRequest_encode (Packets120.mkEncryptionRequest server_id public_key verify_token auth))
  | C_V1_21 | C_V26 =>
      encode v1_21_ClientboundEncryptionRequest_id proto (Packets121.EncryptionRequest_encode (Packets121.mkEncryptionRequest server_id public_key verify_token (Some true)))
  end.

Definition build_set_compression (canonical : CanonicalVersion) (proto threshold : Z) : option EncodedPacket :=
  match canonical with
  | C_V1_6_4 => None
  | C_V1_7_10 => None
  | C_V1_8 => encode v1_8_ClientboundSetCompression_id proto (Packets18.SetCompression_encode threshold)
  | C_V1_12_2 | C_V1_15_2 => encode v1_12_ClientboundSetCompression_id proto (Packets112.SetCompression_encode threshold)
  | C_V1_16_5 | C_V1_18_2 => encode v1_16_ClientboundSetCompression_id proto (Packets116.SetCompression_encode threshold)
  | C_V1_19_4 => encode v1_19_ClientboundSetCompression_id proto (Packets119.SetCompression_encode threshold)
  | C_V1_20_4 => encode v1_20_ClientboundSetCompression_id proto (Packets120.SetCompression_encode threshold)
  | C_V1_21 | C_V26 => encode v1_21_ClientboundSetCompression_id proto (Packets121.SetCompression_encode threshold)
  end.

Definition build_login_disconnect (canonical : CanonicalVersion) (proto : Z) (reason_json : bytes) : option EncodedPacket :=
  match canonical with
  | C_V1_6_4 => None
  | C_V1_7_10 => encode v1_7_ClientboundLoginDisconnect_id proto (Packets17.LoginDisconnect_encode reason_json)
  | C_V1_8 => encode v1_8_ClientboundLoginDisconnect_id proto (enc Packets18.LoginDisconnect reason_json)
  | C_V1_12_2 | C_V1_15_2 => encode v1_12_ClientboundLoginDisconnect_id proto (Packets112.LoginDisconnect_encode reason_json)
  | C_V1_16_5 | C_V1_18_2 => encode v1_16_ClientboundLoginDisconnect_id proto (Packets116.LoginDisconnect_encode reason_json)
  | C_V1_19_4 => encode v1_19_ClientboundLoginDisconnect_id proto (Packets119.LoginDisconnect_encode reason_json)
  | C_V1_20_4 => encode v1_20_ClientboundLoginDisconnect_id proto (Packets120.LoginDisconnect_encode reason_json)
  | C_V1_21 | C_V26 => encode v1_21_ClientboundLoginDisconnect_id proto (Packets121.LoginDisconnect_encode reason_json)
  end.

Definition build_play_disconnect (canonical : CanonicalVersion) (proto : Z) (reason_json : bytes) : option EncodedPacket :=
  match canonical with
  | C_V1_6_4 => encode v1_6_ClientboundDisconnect_id proto (Packets16.Disconnect_encode (chars_of reason_json))
  | C_V1_7_10 => encode v1_7_ClientboundDisconnect_id proto (Packets17.Disconnect_encode reason_json)
  | C_V1_8 => encode v1_8_ClientboundDisconnect_id proto (enc Packets18.Disconnect reason_json)
  | C_V1_12_2 | C_V1_15_2 => encode v1_12_ClientboundDisconnect_id proto (Packets112.Disconnect_encode reason_json)
  | C_V1_16_5 | C_V1_18_2 => encode v1_16_ClientboundDisconnect_id proto (Packets116.Disconnect_encode reason_json)
  | C_V1_19_4 => encode v1_19_ClientboundDisconnect_id proto (Packets119.Disconnect_encode reason_json)
  | C_V1_20_4 => encode v1_20_ClientboundDisconnect_id proto (Packets120.Disconnect_encode reason_json)
  | C_V1_21 | C_V26 => encode v1_21_ClientboundDisconnect_id proto (Packets121.Disconnect_encode reason_json)
  end.

Definition build_backend_handshake (canonical : CanonicalVersion) (proto : Z) (server_address : bytes) (server_port : Z) : option EncodedPacket :=
  match canonical with
  | C_V1_6_4 => None
  | _ => encode v1_8_ServerboundHandshake_id proto (Packets18.Handshake_encode (Packets18.mkHandshake (wraps 32 proto) server_address server_port 2))
  end.

(** [let _ = T::decode(cursor)]: an error is dropped with the value. *)
Definition dropped {A} (m : Dec A) : Dec unit := fun cursor =>
  match m cursor with
  | (Ok _, rest) | (Err _, rest) => (Ok tt, rest)
  | (Panic, rest) => (Panic, rest)
  | (NoFuel, rest) => (NoFuel, rest)
  end.

Definition skip_backend_login_success (canonical : CanonicalVersion) : Dec unit :=
  match canonical with
  | C_V1_6_4 | C_V1_7_10 => dropped (Packets17.LoginSuccess_decode uuid_parse)
  | C_V1_8 => dropped (Packets18.LoginSuccess_decode uuid_parse)
  | C_V1_12_2 | C_V1_15_2 => dropped (Packets112.LoginSuccess_decode uuid_parse)
  | C_V1_16_5 | C_V1_18_2 => dropped Packets116.LoginSuccess_decode
  | C_V1_19_4 => dropped Packets119.LoginSuccess_decode
  | C_V1_20_4 => dropped Packets120.LoginSuccess_decode
  | C_V1_21 | C_V26 => dropped Packets121.LoginSuccess_decode
  end.

Definition build_backend_login_start (canonical : CanonicalVersion) (proto : Z) (username uuid : bytes) : option EncodedPacket :=
  match canonical with
  | C_V1_19_4 => encode v1_19_ServerboundLoginStart_id proto (Packets119.LoginStart_encode (Packets119.mkLoginStart username (Some uuid)))
  | C_V1_20_4 =>
      if proto <? 764 then encode v1_19_ServerboundLoginStart_id proto (Packets119.LoginStart_encode (Packets119.mkLoginStart username (Some uuid)))
      else encode v1_20_ServerboundLoginStart_id proto (Packets120.LoginStart_encode (Packets120.mkLoginStart username uuid))
  | C_V1_21 | C_V26 => encode v1_20_ServerboundLoginStart_id proto (Packets120.LoginStart_encode (Packets120.mkLoginStart username uuid))
  | C_V1_16_5 | C_V1_18_2 => encode v1_16_ServerboundLoginStart_id proto (Packets116.LoginStart_encode username)
  | C_V1_7_10 | C_V1_8 | C_V1_12_2 | C_V1_15_2 => encode v1_8_ServerboundLoginStart_id proto (enc Packets18.LoginStart username)
  | C_V1_6_4 => None
  end.

End Login.

(** ** The documented layout *)

(** Which protocol numbers a canonical version stands for. *)
Definition in_bucket (canonical : CanonicalVersion) (proto : Z) : bool :=
  match canonical with
  | C_V1_6_4 => (73 <=? proto) && (proto <=? 78)
  | C_V1_7_10 | C_V1_8 | C_V1_12_2 | C_V1_15_2 => proto <? 735
  | C_V1_16_5 | C_V1_18_2 => (735 <=? proto) && (proto <? 759)
  | C_V1_19_4 => (759 <=? proto) && (proto <? 763)
  | C_V1_20_4 => (763 <=? proto) && (proto <? 767)
  | C_V1_21 | C_V26 => (767 <=? proto) && (proto <=? 776)
  end.
Definition canonical_of (proto : Z) : CanonicalVersion := canonical_typed_packet_version (ProtocolVersion_from_id proto).

Lemma supported_in_bucket proto : proto ∈ SUPPORTED -> in_bucket (canonical_of proto) proto = true.
Proof. revert proto. apply Forall_forall. match goal with |- ?P => apply (bool_decide_eq_true_1 P) end. vm_compute. reflexivity. Qed.

(** LoginSuccess as its version table describes it: the UUID as text below 735 and
    raw from there on, the name, the properties from 759 on, the strict flag for
    766 and 767, the session id from 776 on. *)
Definition property_img (p : Auth.ProfileProperty) : bytes :=
  wire Str (Auth.pp_name p) ++ wire Str (Auth.pp_value p) ++ wire (Opt Str) (Auth.pp_signature p).
Definition login_success_layout (uuid_text : bytes -> bytes) (proto : Z) (profile : LoginProfile) : bytes :=
  (if proto <? 735 then wire Str (uuid_text (uuid profile)) else uuid profile) ++
  wire Str (username profile) ++
  (if proto <? 759 then []
   else wire VarInt (Z.of_nat (length (properties profile))) ++ concat (map property_img (properties profile))) ++
  (if (proto =? 766) || (proto =? 767) then [x01] else []) ++
  (if 776 <=? proto then uuid profile else []).

Definition property_ok (p : Auth.ProfileProperty) : Prop :=
  string_ok (Auth.pp_name p) /\ string_ok (Auth.pp_value p) /\ option_ok string_ok (Auth.pp_signature p).
Definition profile_ok (uuid_text : bytes -> bytes) (profile : LoginProfile) : Prop :=
  uuid_ok (uuid profile) /\ string_ok (uuid_text (uuid profile)) /\ string_ok (username profile) /\
  Forall property_ok (properties profile) /\ Z.of_nat (length (properties profile)) <= MAX_VEC_LEN.

(** ** Lemmas *)

Lemma encode_writes packet_id proto m bs : packet_id proto <> 0xFF -> writes m bs ->
  encode packet_id proto m = Some (mkEncodedPacket (packet_id proto) bs).
Proof. intros Hid Hm. unfold encode. rewrite (proj2 (Z.eqb_neq _ _) Hid). by rewrite Hm. Qed.
Lemma by_hand_writes id m bs : writes m bs -> by_hand id m = Some (mkEncodedPacket id bs).
Proof. intros Hm. unfold by_hand. by rewrite Hm. Qed.

(** Text and data written by the families' own functions. *)
Lemma text_writes ctx s : string_ok s -> writes (enc (Text ctx) s) (wire Str s).
Proof. apply encode_str_Str. Qed.
Lemma text_of_writes a b s : string_ok s -> writes (enc (TextOf a b) s) (wire Str s).
Proof. apply encode_str_Str. Qed.
Lemma str_writes s : string_ok s -> writes (enc Str s) (wire Str s).
Proof. apply (lawful_writes (c := Str)). Qed.
Lemma uuid_bytes u : uuid_ok u -> be_bytes 8 (wraps 64 (uuid_hi u)) ++ be_bytes 8 (wraps 64 (uuid_lo u)) = u.
Proof. intros Hu. rewrite (be_bytes_wrap (wraps 64 (uuid_hi u))), (be_bytes_wrap (wraps 64 (uuid_lo u))). apply (uuid_pair_split u Hu). Qed.
Lemma uuid_writes u : uuid_ok u -> writes (enc UuidHalves u) u.
Proof. intros Hu. rewrite <- (uuid_bytes u Hu) at 2. apply writes_bind; apply writes_put. Qed.
Lemma uuid_pair_writes u : uuid_ok u -> writes (put_uuid_pair u) u.
Proof. intros Hu. rewrite <- (uuid_bytes u Hu) at 2. apply writes_bind; apply writes_put. Qed.

(** A list of properties, for a family whose encoder writes [property_img]. *)
Lemma properties_written {A} (c : codec A) `{!Lawful c} (f : Auth.ProfileProperty -> A) l :
  (forall p, property_ok p -> wf c (f p) /\ wire c (f p) = property_img p) ->
  Forall property_ok l -> Z.of_nat (length l) <= MAX_VEC_LEN ->
  wf (Vec c) (map f l) /\
  writes (enc (Vec c) (map f l)) (wire VarInt (Z.of_nat (length l)) ++ concat (map property_img l)).
Proof.
  intros Hf Hl Hn.
  assert (Hwf : Forall (wf c) (map f l)) by (apply Forall_map, (Forall_impl _ _ _ Hl); intros p Hp; apply (Hf p Hp)).
  split; [split; [done|by rewrite length_map]|]. cbn [enc Vec]. unfold encode_vec. rewrite length_map.
  destruct (writes_length_prefix (Z.of_nat (length l))) as [Hw _]; [unfold MAX_VEC_LEN in Hn; lia|].
  apply writes_bind; [done|].
  assert (Hi : concat (map property_img l) = wire_many c (map f l)); [|rewrite Hi; by apply writes_many].
  unfold wire_many. rewrite map_map. f_equal. symmetry. apply map_ext_Forall.
  apply (Forall_impl _ _ _ Hl). intros p Hp. apply (Hf p Hp).
Qed.

Lemma property_img_writes (p : Auth.ProfileProperty) : property_ok p ->
  writes (enc Str (Auth.pp_name p);; enc Str (Auth.pp_value p);; enc (Opt Str) (Auth.pp_signature p)) (property_img p).
Proof.
  intros (H1 & H2 & H3). apply writes_bind; [by apply str_writes|]. apply writes_bind; [by apply str_writes|].
  apply (lawful_writes (c := Opt Str)). by destruct (Auth.pp_signature p).
Qed.

Lemma props19_written l : Forall property_ok l -> Z.of_nat (length l) <= MAX_VEC_LEN ->
  wf (Vec Packets119.Property) (props19 l) /\
  writes (enc (Vec Packets119.Property) (props19 l)) (wire VarInt (Z.of_nat (length l)) ++ concat (map property_img l)).
Proof.
  apply (@properties_written _ Packets119.Property Packets119.Property_lawful_119). intros p Hp. split; [by destruct p, Hp as (?&?&?)|].
  apply writes_wire_eq, (property_img_writes p Hp).
Qed.
Lemma props20_written l : Forall property_ok l -> Z.of_nat (length l) <= MAX_VEC_LEN ->
  wf (Vec Packets120.Property) (props20 l) /\
  writes (enc (Vec Packets120.Property) (props20 l)) (wire VarInt (Z.of_nat (length l)) ++ concat (map property_img l)).
Proof.
  apply (@properties_written _ Packets120.Property Packets120.Property_lawful_120). intros p Hp. split; [by destruct p, Hp as (?&?&?)|].
  apply writes_wire_eq, (property_img_writes p Hp).
Qed.
Lemma props21_written l : Forall property_ok l -> Z.of_nat (length l) <= MAX_VEC_LEN ->
  wf (Vec Packets121.Property) (props21 l) /\
  writes (enc (Vec Packets121.Property) (props21 l)) (wire VarInt (Z.of_nat (length l)) ++ concat (map property_img l)).
Proof.
  apply (@properties_written _ Packets121.Property Packets121.Property_lawful_121). intros p Hp. split; [by destruct p, Hp as (?&?&?)|].
  apply writes_wire_eq, (property_img_writes p Hp).
Qed.

(** Deciding the version tests of the layout. *)
Ltac decide_tests :=
  repeat match goal with
  | |- context [?a <? ?b] => first [rewrite (proj2 (Z.ltb_lt a b)) by lia | rewrite (proj2 (Z.ltb_ge a b)) by lia]
  | |- context [?a <=? ?b] => first [rewrite (proj2 (Z.leb_le a b)) by lia | rewrite (proj2 (Z.leb_gt a b)) by lia]
  | |- context [?a =? ?b] => first [rewrite (proj2 (Z.eqb_eq a b)) by lia | rewrite (proj2 (Z.eqb_neq a b)) by lia]
  end; cbn [orb andb app].

(** The last family, with its two trailing fields. *)
Lemma success_21 proto u name props : 767 <= proto -> uuid_ok u -> string_ok name ->
  writes (enc (Vec Packets121.Property) (props21 props)) (wire VarInt (Z.of_nat (length props)) ++ concat (map property_img props)) ->
  encode v1_21_ClientboundLoginSuccess_id proto (Packets121.LoginSuccess_encode (Packets121.mkLoginSuccess u name (props21 props)
     (if proto =? 767 then Some true else None) (if 776 <=? proto then Some u else None))) =
  Some (mkEncodedPacket 2 (u ++ wire Str name ++ (wire VarInt (Z.of_nat (length props)) ++ concat (map property_img props)) ++
     (if proto =? 767 then [x01] else []) ++ (if 776 <=? proto then u else []))).
Proof.
  intros Hp Hu Hn H21. apply encode_writes; [done|].
  apply writes_bind; [by apply uuid_writes|]. apply writes_bind; [by apply str_writes|]. apply writes_bind; [done|]. apply writes_bind.
  - destruct (proto =? 767); [apply (lawful_writes (c := Bool) true I)|apply writes_ret].
  - destruct (776 <=? proto); [by apply uuid_writes|apply writes_ret].
Qed.

(** ** Properties *)

(** LoginSuccess on every version.  For each supported version from 1.7 on
    the builder gives packet 0x02, and its body is, byte for byte, the layout the
    version table documents: the UUID as text below 1.16 and raw after, the
    properties from 1.19 on only, the strict-error flag on 766 and 767 only, the
    session id from 776 on.  Pre-netty versions give no packet. *)
Theorem login_success_by_version (uuid_text : bytes -> bytes) (proto : Z) (profile : LoginProfile) :
  proto ∈ SUPPORTED -> profile_ok uuid_text profile ->
  build_login_success uuid_text (canonical_of proto) proto profile =
    (if is_pre_netty (ProtocolVersion_from_id proto) then None
     else Some (mkEncodedPacket 0x02 (login_success_layout uuid_text proto profile))).
Proof.
  intros Hin (Hu & Ht & Hn & Hp & Hc). pose proof (supported_in_bucket proto Hin) as Hb.
  assert (Hpre : is_pre_netty (ProtocolVersion_from_id proto) = match canonical_of proto with C_V1_6_4 => true | _ => false end).
  { unfold canonical_of, is_pre_netty. by destruct (ProtocolVersion_from_id proto). }
  rewrite Hpre. destruct profile as [u name props]. cbn [uuid username properties] in *.
  unfold build_login_success, login_success_layout, raw_success. cbn [uuid username properties].
  pose proof (props19_written props Hp Hc) as [_ H19]. pose proof (props20_written props Hp Hc) as [_ H20].
  pose proof (props21_written props Hp Hc) as [_ H21].
  destruct (canonical_of proto); cbn [in_bucket] in Hb; rewrite ?andb_true_iff, ?Z.leb_le, ?Z.ltb_lt in Hb;
    try reflexivity;
    decide_tests; rewrite ?app_nil_r.
  - apply encode_writes; [done|]. apply writes_bind; by apply text_writes.
  - apply encode_writes; [done|]. apply writes_bind; by apply text_writes.
  - apply encode_writes; [done|]. apply writes_bind; by apply text_of_writes.
  - apply encode_writes; [done|]. apply writes_bind; by apply text_of_writes.
  - apply by_hand_writes, writes_bind; [by apply uuid_pair_writes|by apply encode_str_Str].
  - apply by_hand_writes, writes_bind; [by apply uuid_pair_writes|by apply encode_str_Str].
  - apply encode_writes; [done|]. apply writes_bind; [by apply uuid_writes|]. apply writes_bind; [by apply str_writes|]. done.
  - destruct (Z.leb_spec 766 proto); decide_tests; rewrite ?app_nil_r; (apply encode_writes; [done|]);
      (apply writes_bind; [by apply uuid_writes|]); (apply writes_bind; [by apply str_writes|]).
    + apply writes_bind; [done|]. apply (lawful_writes (c := Bool) true I).
    + rewrite <- (app_nil_r (_ ++ concat _)). apply writes_bind; [done|apply writes_ret].
  - apply success_21; try done; lia.
  - apply success_21; try done; lia.
Qed.

Definition sample_profile : LoginProfile :=
  mkLoginProfile (repeat x11 16) (lit "Vakea") [Auth.mkProperty (lit "textures") (lit "abc") (Some (lit "sig"))].

Lemma short_ok s : utf8_valid s = true -> (Z.of_nat (length s) <=? MAX_STRING_LENGTH * 3) = true -> string_ok s.
Proof. intros Hu Hl. split; [done|]. by apply Z.leb_le. Qed.

Lemma login_success_by_version_witness :
  (759 ∈ SUPPORTED /\ profile_ok id sample_profile) /\
  build_login_success id (canonical_of 759) 759 sample_profile =
    (if is_pre_netty (ProtocolVersion_from_id 759) then None
     else Some (mkEncodedPacket 0x02 (login_success_layout id 759 sample_profile))).
Proof.
  assert (H1 : 759 ∈ SUPPORTED) by (apply (bool_decide_eq_true_1 (759 ∈ SUPPORTED)); vm_compute; reflexivity).
  assert (H2 : profile_ok id sample_profile).
  { split; [reflexivity|]. split; [apply short_ok; vm_compute; reflexivity|]. split; [apply short_ok; vm_compute; reflexivity|].
    split; [|unfold MAX_VEC_LEN; cbn; lia]. apply Forall_cons. split; [|apply Forall_nil; exact I].
    split; [|split]; apply short_ok; vm_compute; reflexivity. }
  split; [split; assumption|]. exact (login_success_by_version id 759 sample_profile H1 H2).
Defined.

(** A byte array behind a VarInt length, and the other login packets as documented. *)
Definition data_img (b : bytes) : bytes := wire VarInt (Z.of_nat (length b)) ++ b.
Definition encryption_request_layout (proto : Z) (server_id public_key verify_token : bytes) : bytes :=
  wire Str server_id ++
  (if proto <? 47 then be_bytes 2 (Z.of_nat (length public_key)) ++ public_key ++ be_bytes 2 (Z.of_nat (length verify_token)) ++ verify_token
   else data_img public_key ++ data_img verify_token) ++
  (if 766 <=? proto then [x01] else []).
Definition login_start_layout (proto : Z) (username uuid : bytes) : bytes :=
  wire Str username ++ (if proto <? 759 then [] else if proto <? 764 then x01 :: uuid else uuid).

Lemma data_writes b : Z.of_nat (length b) < 2 ^ 31 -> writes (encode_str b) (data_img b).
Proof.
  intros H. destruct (writes_length_prefix (Z.of_nat (length b)) ltac:(lia)) as [Hw _]. apply writes_bind; [done|apply writes_put].
Qed.
Lemma short_data_writes b : Z.of_nat (length b) <= 32767 -> writes (encode_short_bytes b) (be_bytes 2 (Z.of_nat (length b)) ++ b).
Proof.
  intros H. unfold encode_short_bytes. rewrite (proj2 (Z.ltb_ge _ _)) by lia. rewrite wraps_id by width.
  apply writes_bind; apply writes_put.
Qed.

Lemma supported_netty proto : proto ∈ SUPPORTED -> is_pre_netty (ProtocolVersion_from_id proto) = false ->
  in_bucket (canonical_of proto) proto = true /\ canonical_of proto <> C_V1_6_4 /\
  (canonical_of proto = C_V1_7_10 <-> proto < 47).
Proof.
  intros Hin Hpre. split; [by apply supported_in_bucket|].
  assert (H : Forall (fun p => is_pre_netty (ProtocolVersion_from_id p) = false ->
     (match canonical_of p with C_V1_6_4 => false | C_V1_7_10 => p <? 47 | _ => 47 <=? p end) = true) SUPPORTED).
  { match goal with |- ?P => apply (bool_decide_eq_true_1 P) end. vm_compute. reflexivity. }
  pose proof (proj1 (Forall_forall _ _) H proto Hin Hpre) as Hc. clear H.
  destruct (canonical_of proto); try done; rewrite ?Z.leb_le, ?Z.ltb_lt in Hc; (split; [done|split; [done|intros ?; first [reflexivity|exfalso; lia]]]).
Qed.

Lemma encryption_request_written c proto server_id public_key verify_token :
  in_bucket c proto = true -> c <> C_V1_6_4 -> (c = C_V1_7_10 <-> proto < 47) ->
  string_ok server_id -> Z.of_nat (length public_key) <= 32767 -> Z.of_nat (length verify_token) <= 32767 ->
  build_encryption_request c proto server_id public_key verify_token =
    Some (mkEncodedPacket 0x01 (encryption_request_layout proto server_id public_key verify_token)).
Proof.
  intros Hb Hne H7 Hs Hk Hv. unfold encryption_request_layout.
  pose proof (data_writes public_key ltac:(lia)) as Hk'. pose proof (data_writes verify_token ltac:(lia)) as Hv'.
  assert (Hold : forall m, writes m (wire Str server_id) ->
    writes (m;; encode_str public_key;; encode_str verify_token) (wire Str server_id ++ data_img public_key ++ data_img verify_token)).
  { intros m Hm. apply writes_bind; [done|]. by apply writes_bind. }
  assert (Hnew : forall o, writes (enc Str server_id;; encode_str public_key;; encode_str verify_token;; encode_trailing_flag o)
    (wire Str server_id ++ (data_img public_key ++ data_img verify_token) ++ match o with Some true => [x01] | Some false => [x00] | None => [] end)).
  { intros o. rewrite <- app_assoc. apply writes_bind; [by apply str_writes|]. apply writes_bind; [done|]. apply writes_bind; [done|].
    destruct o as [[]|]; [apply (lawful_writes (c := Bool) true I)|apply (lawful_writes (c := Bool) false I)|apply writes_ret]. }
  destruct c; try done; cbn [in_bucket] in Hb; rewrite ?andb_true_iff, ?Z.leb_le, ?Z.ltb_lt in Hb;
    try (assert (proto < 47) by (by apply H7)); try (assert (47 <= proto) by (apply Z.nlt_ge; intros H; by apply H7 in H));
    decide_tests; rewrite ?app_nil_r; unfold build_encryption_request.
  - apply encode_writes; [done|]. rewrite (app_assoc (be_bytes 2 _) public_key). apply writes_bind; [by apply text_writes|].
    apply writes_bind; by apply short_data_writes.
  - apply encode_writes; [done|]. apply Hold. by apply text_writes.
  - apply encode_writes; [done|]. apply Hold. by apply encode_str_Str.
  - apply encode_writes; [done|]. apply Hold. by apply encode_str_Str.
  - apply encode_writes; [done|]. apply Hold. by apply encode_str_Str.
  - apply encode_writes; [done|]. apply Hold. by apply encode_str_Str.
  - apply encode_writes; [done|]. apply Hold. by apply str_writes.
  - destruct (766 <=? proto); (apply encode_writes; [done|]); [apply (Hnew (Some true))|apply (Hnew None)].
  - apply encode_writes; [done|]. apply (Hnew (Some true)).
  - apply encode_writes; [done|]. apply (Hnew (Some true)).
Qed.

Lemma login_start_written c proto username uuid :
  in_bucket c proto = true -> c <> C_V1_6_4 -> string_ok username -> uuid_ok uuid ->
  build_backend_login_start c proto username uuid = Some (mkEncodedPacket 0x00 (login_start_layout proto username uuid)).
Proof.
  intros Hb Hne Hn Hu. unfold login_start_layout.
  assert (Hopt : writes (Packets119.LoginStart_encode (Packets119.mkLoginStart username (Some uuid))) (wire Str username ++ x01 :: uuid)).
  { apply writes_bind; [by apply str_writes|]. change (x01 :: uuid) with ([x01] ++ uuid). apply writes_bind; [apply writes_u8|apply writes_put]. }
  assert (Hraw : writes (Packets120.LoginStart_encode (Packets120.mkLoginStart username uuid)) (wire Str username ++ uuid)).
  { apply writes_bind; [by apply str_writes|apply writes_put]. }
  destruct c; try done; cbn [in_bucket] in Hb; rewrite ?andb_true_iff, ?Z.leb_le, ?Z.ltb_lt in Hb; decide_tests; rewrite ?app_nil_r;
    unfold build_backend_login_start; try (apply encode_writes; [done|]; first [by apply text_writes|done]).
  destruct (proto <? 764); apply encode_writes; done.
Qed.

(** The rest of the login dance on every supported netty version: the
    encryption request with its 16-bit lengths on 1.7 and its extra flag from
    1.20.5 on; SetCompression from 1.8 on and not before; LoginDisconnect; the
    handshake and the LoginStart sent to a backend, the latter with no UUID below
    759, an optional one below 764 and a bare one after.  Each is built, under the
    login packet id, as documented. *)
Theorem login_dance_by_version (proto threshold port : Z) (server_id public_key verify_token reason address username uuid : bytes) :
  proto ∈ SUPPORTED -> is_pre_netty (ProtocolVersion_from_id proto) = false ->
  string_ok server_id -> Z.of_nat (length public_key) <= 32767 -> Z.of_nat (length verify_token) <= 32767 ->
  fits_s 32 threshold -> fits_u 16 port -> string_ok reason -> string_ok address -> string_ok username -> uuid_ok uuid ->
  let c := canonical_of proto in
  build_encryption_request c proto server_id public_key verify_token =
    Some (mkEncodedPacket 0x01 (encryption_request_layout proto server_id public_key verify_token)) /\
  build_set_compression c proto threshold = (if proto <? 47 then None else Some (mkEncodedPacket 0x03 (wire VarInt threshold))) /\
  build_login_disconnect c proto reason = Some (mkEncodedPacket 0x00 (wire Str reason)) /\
  build_backend_login_start c proto username uuid = Some (mkEncodedPacket 0x00 (login_start_layout proto username uuid)) /\
  build_backend_handshake c proto address port =
    Some (mkEncodedPacket 0x00 (wire VarInt proto ++ wire Str address ++ be_bytes 2 port ++ [x02])).
Proof.
  intros Hin Hpre Hs Hk Hv Ht Hp Hr Ha Hn Hu c. destruct (supported_netty proto Hin Hpre) as (Hb & Hne & H7).
  fold c in Hb, Hne, H7.
  assert (Hproto : fits_s 32 proto).
  { assert (H : Forall (fun p => 0 <= p <= 776) SUPPORTED).
    { match goal with |- ?P => apply (bool_decide_eq_true_1 P) end. vm_compute. reflexivity. }
    pose proof (proj1 (Forall_forall _ _) H proto Hin) as H'. cbn in H'. width. }
  split_and!.
  - by apply encryption_request_written.
  - destruct c; try done; decide_tests; rewrite ?andb_true_iff, ?Z.leb_le, ?Z.ltb_lt in Hb;
      first [rewrite (proj2 (Z.ltb_lt proto 47)) by (by apply H7); done
            |rewrite (proj2 (Z.ltb_ge proto 47)) by (apply Z.nlt_ge; intros H; by apply H7 in H);
             apply encode_writes; [done|apply (lawful_writes (c := VarInt) _ Ht)]].
  - destruct c; try done; (apply encode_writes; [done|]); first [by apply text_writes|by apply str_writes|by apply text_of_writes].
  - unfold login_start_layout. by apply login_start_written.
  - assert (Hw : writes (Packets18.Handshake_encode (Packets18.mkHandshake (wraps 32 proto) address port 2))
      (wire VarInt proto ++ wire Str address ++ be_bytes 2 port ++ [x02])).
    { rewrite wraps_id by done. unfold Packets18.Handshake_encode.
      cbn [Packets18.hs_protocol_version Packets18.hs_server_address Packets18.hs_server_port Packets18.hs_next_state].
      apply writes_bind; [apply (lawful_writes (c := VarInt) _ Hproto)|]. apply writes_bind; [by apply encode_str_Str|].
      apply writes_bind; [apply writes_put|]. change [x02] with (wire VarInt 2).
      apply (lawful_writes (c := VarInt) 2). cbn. unfold fits_s. lia. }
    destruct c; try done; (apply encode_writes; done).
Qed.

Lemma login_dance_by_version_witness :
  let u := repeat x11 16 in
  let c := canonical_of 761 in
  build_backend_login_start c 761 (lit "Vakea") u = Some (mkEncodedPacket 0x00 (login_start_layout 761 (lit "Vakea") u)) /\
  build_backend_handshake c 761 (lit "h") 25565 =
    Some (mkEncodedPacket 0x00 (wire VarInt 761 ++ wire Str (lit "h") ++ be_bytes 2 25565 ++ [x02])).
Proof.
  intros u c.
  assert (H1 : 761 ∈ SUPPORTED) by (apply (bool_decide_eq_true_1 (761 ∈ SUPPORTED)); vm_compute; reflexivity).
  assert (Hid : string_ok []) by (apply short_ok; reflexivity). assert (Hr : string_ok (lit "{}")) by (apply short_ok; reflexivity).
  assert (Ha : string_ok (lit "h")) by (apply short_ok; reflexivity). assert (Hn : string_ok (lit "Vakea")) by (apply short_ok; reflexivity).
  assert (Hl : Z.of_nat (length [x01]) <= 32767) by (cbn; lia). assert (Ht : fits_s 32 256) by (unfold fits_s; lia).
  assert (Hp : fits_u 16 25565) by (unfold fits_u; lia). assert (Hu : uuid_ok u) by reflexivity.
  destruct (login_dance_by_version 761 256 25565 [] [x01] [x01] (lit "{}") (lit "h") (lit "Vakea") u H1 eq_refl
    Hid Hl Hl Ht Hp Hr Ha Hn Hu) as (_ & _ & _ & H & H').
  split; assumption.
Defined.
