(* ===== verification/Stream.v ===== *)
(** * Client sockets

    The stream types at the head of crates/proxy-core/src/net/connection.rs:
    [Cfb8State] (AES in 8-bit cipher feedback), [EncryptedStream] with its write
    buffer, and [McStream], a plain or encrypted socket with bytes pushed back in
    front of it.  The AES block function is a parameter; the operating system's
    answers to [poll_write] and [poll_read] are an argument, a list of replies. *)
From Stdlib Require Import ZArith Lia Strings.Byte.
From stdpp Require Import base list numbers.
From S2P Require Import Prelude Buf.
Local Open Scope Z_scope.

Inductive Poll (A : Type) := Ready (a : A) | Pending.
Arguments Ready {A} a.
Arguments Pending {A}.

(** What the kernel answers to a write: the number of bytes taken, an error, or
    not yet. *)
Inductive WriteReply := Wrote (n : nat) | WriteFailed | WriteNotReady.
Inductive StreamError := WriteZero | SocketError | KeyLength.

Section Cipher.
(** [Aes128::encrypt_block] under the session key. *)
Variable encrypt_block : bytes -> bytes.

(** ** Cipher feedback *)

Record Cfb8State := mkCfb8 { sr : bytes }.

(** [self.sr.rotate_left(1); self.sr[15] = ct]. *)
Definition shift_in (s : bytes) (ct : byte) : bytes := <[15%nat := ct]> (drop 1 s ++ take 1 s).
Definition keystream_byte (s : bytes) : byte := nth 0 (encrypt_block s) x00.
Definition xor_byte (a b : byte) : byte := zb (Z.lxor (bz a) (bz b)).

Fixpoint cfb8_encrypt (st : Cfb8State) (data : bytes) : bytes * Cfb8State :=
  match data with
  | [] => ([], st)
  | b :: data =>
      let ct := xor_byte b (keystream_byte (sr st)) in
      let '(rest, st') := cfb8_encrypt (mkCfb8 (shift_in (sr st) ct)) data in
      (ct :: rest, st')
  end.

Fixpoint cfb8_decrypt (st : Cfb8State) (data : bytes) : bytes * Cfb8State :=
  match data with
  | [] => ([], st)
  | ct :: data =>
      let b := xor_byte ct (keystream_byte (sr st)) in
      let '(rest, st') := cfb8_decrypt (mkCfb8 (shift_in (sr st) ct)) data in
      (b :: rest, st')
  end.

(** ** The encrypted stream *)

Definition MAX_WRITE_BUF_SIZE : nat := Z.to_nat (4 * 1024 * 1024).

(** [es_sent] is what the socket has been given so far, and [es_taken] the plain
    bytes the buffer has been filled from: both are the history, which the code
    does not keep. *)
Record EncryptedStream := mkEncrypted {
  es_enc : Cfb8State; es_dec : Cfb8State; es_write_buf : bytes; es_sent : bytes; es_taken : bytes }.

Definition EncryptedStream_new (key : bytes) : outcome unit EncryptedStream :=
  if (length key =? 16)%nat then Ok (mkEncrypted (mkCfb8 key) (mkCfb8 key) [] [] []) else Panic.

(** The loop of [poll_drain], over the replies of the socket. *)
Fixpoint drain_loop (net : list WriteReply) (buf sent : bytes) : Poll (option StreamError) * bytes * bytes * list WriteReply :=
  match buf with
  | [] => (Ready None, [], sent, net)
  | _ =>
      match net with
      | [] => (Pending, buf, sent, [])
      | Wrote 0 :: net => (Ready (Some WriteZero), buf, sent, net)
      | Wrote n :: net => drain_loop net (drop n buf) (sent ++ take n buf)
      | WriteFailed :: net => (Ready (Some SocketError), buf, sent, net)
      | WriteNotReady :: net => (Pending, buf, sent, net)
      end
  end.

Definition poll_drain (net : list WriteReply) (s : EncryptedStream) : Poll (option StreamError) * EncryptedStream * list WriteReply :=
  let '(r, buf, sent, net) := drain_loop net (es_write_buf s) (es_sent s) in
  (r, mkEncrypted (es_enc s) (es_dec s) buf sent (es_taken s), net).

(** [Ok(n)] is [inl n]. *)
Definition poll_write (net : list WriteReply) (buf : bytes) (s : EncryptedStream) : Poll (nat + StreamError) * EncryptedStream * list WriteReply :=
  match poll_drain net s with
  | (Pending, s, net) => (Pending, s, net)
  | (Ready (Some e), s, net) => (Ready (inr e), s, net)
  | (Ready None, s, net) =>
      match buf with
      | [] => (Ready (inl 0%nat), s, net)
      | _ =>
          let '(encrypted, enc) := cfb8_encrypt (es_enc s) buf in
          let s := mkEncrypted enc (es_dec s) (es_write_buf s) (es_sent s) (es_taken s) in
          if (MAX_WRITE_BUF_SIZE <? length (es_write_buf s) + length encrypted)%nat then (Pending, s, net)
          else
            let s := mkEncrypted (es_enc s) (es_dec s) (es_write_buf s ++ encrypted) (es_sent s) (es_taken s ++ buf) in
            match poll_drain net s with
            | (Ready (Some e), s, net) => (Ready (inr e), s, net)
            | (_, s, net) => (Ready (inl (length buf)), s, net)
            end
      end
  end.

(** [poll_flush] and [poll_shutdown] drain first; the socket's own flush follows. *)
Definition poll_flush (net : list WriteReply) (s : EncryptedStream) : Poll (option StreamError) * EncryptedStream * list WriteReply :=
  poll_drain net s.

(** [poll_read]: what the socket delivered is decrypted in place. *)
Definition decrypt_filled (filled : bytes) (s : EncryptedStream) : bytes * EncryptedStream :=
  let '(plain, dec) := cfb8_decrypt (es_dec s) filled in
  (plain, mkEncrypted (es_enc s) dec (es_write_buf s) (es_sent s) (es_taken s)).

(** ** Plain or encrypted, with a prefix *)

Inductive McStreamKind := MS_Empty | MS_Plain | MS_Encrypted (s : EncryptedStream).
Record McStream := mkMcStream { ms_kind : McStreamKind; ms_prefix : bytes }.

Definition McStream_plain : McStream := mkMcStream MS_Plain [].
Definition McStream_empty : McStream := mkMcStream MS_Empty [].
Definition push_prefix (bs : bytes) (s : McStream) : McStream := mkMcStream (ms_kind s) (ms_prefix s ++ bs).

Definition enable_encryption (key : bytes) (s : McStream) : outcome unit McStream :=
  match ms_kind s with
  | MS_Plain => match EncryptedStream_new key with
                | Ok e => Ok (mkMcStream (MS_Encrypted e) (ms_prefix s))
                | _ => Panic
                end
  | MS_Encrypted e => Ok (mkMcStream (MS_Encrypted e) (ms_prefix s))
  | MS_Empty => Panic
  end.

(** A read of at most [room] bytes: pushed-back bytes first and alone; otherwise
    [socket], the bytes the kernel has, of which at most [room] are taken. *)
Definition McStream_poll_read (room : nat) (socket : bytes) (s : McStream) : bytes * McStream * bytes :=
  match ms_prefix s with
  | [] =>
      match ms_kind s with
      | MS_Empty => ([], s, socket)
      | MS_Plain => (take room socket, s, drop room socket)
      | MS_Encrypted e =>
          let '(plain, e) := decrypt_filled (take room socket) e in
          (plain, mkMcStream (MS_Encrypted e) [], drop room socket)
      end
  | prefix => let n := Nat.min (length prefix) room in (take n prefix, mkMcStream (ms_kind s) (drop n prefix), socket)
  end.

(** ** Lemmas *)

Lemma xor_byte_twice a b : xor_byte (xor_byte a b) b = a.
Proof.
  unfold xor_byte. assert (H : 0 <= Z.lxor (bz a) (bz b) < 256).
  { pose proof (bz_range a). pose proof (bz_range b). split; [apply Z.lxor_nonneg; lia|].
    destruct (Z.eq_dec (Z.lxor (bz a) (bz b)) 0) as [->|Hne]; [lia|].
    change 256 with (2 ^ 8). apply Z.log2_lt_pow2; [assert (0 <= Z.lxor (bz a) (bz b)) by (apply Z.lxor_nonneg; lia); lia|].
    eapply Z.le_lt_trans; [apply Z.log2_lxor; lia|]. apply Z.max_lub_lt.
    - destruct (Z.eq_dec (bz a) 0) as [E|]; [rewrite E; cbn; lia|apply Z.log2_lt_pow2; lia].
    - destruct (Z.eq_dec (bz b) 0) as [E|]; [rewrite E; cbn; lia|apply Z.log2_lt_pow2; lia]. }
  rewrite bz_zb, Z.mod_small by done. rewrite Z.lxor_assoc, Z.lxor_nilpotent, Z.lxor_0_r. apply zb_bz.
Qed.

Lemma cfb8_encrypt_app st a b :
  cfb8_encrypt st (a ++ b) =
    let '(ca, st1) := cfb8_encrypt st a in let '(cb, st2) := cfb8_encrypt st1 b in (ca ++ cb, st2).
Proof.
  revert st. induction a as [|x a IH]; intros st; cbn [app cfb8_encrypt].
  - by destruct (cfb8_encrypt st b).
  - rewrite IH. destruct (cfb8_encrypt _ a) as [ca st1]. by destruct (cfb8_encrypt st1 b).
Qed.

Lemma cfb8_decrypt_app st a b :
  cfb8_decrypt st (a ++ b) =
    let '(ca, st1) := cfb8_decrypt st a in let '(cb, st2) := cfb8_decrypt st1 b in (ca ++ cb, st2).
Proof.
  revert st. induction a as [|x a IH]; intros st; cbn [app cfb8_decrypt].
  - by destruct (cfb8_decrypt st b).
  - rewrite IH. destruct (cfb8_decrypt _ a) as [ca st1]. by destruct (cfb8_decrypt st1 b).
Qed.

(** Decryption undoes encryption and both sides end in the same state. *)
Lemma cfb8_inverse st data :
  let '(ct, st') := cfb8_encrypt st data in cfb8_decrypt st ct = (data, st').
Proof.
  revert st. induction data as [|b data IH]; intros st; [done|]. cbn [cfb8_encrypt].
  set (ct := xor_byte b _). specialize (IH (mkCfb8 (shift_in (sr st) ct))).
  destruct (cfb8_encrypt _ data) as [rest st']. cbn [cfb8_decrypt]. rewrite IH. unfold ct. by rewrite xor_byte_twice.
Qed.

Lemma length_cfb8_encrypt st data : length (cfb8_encrypt st data).1 = length data.
Proof.
  revert st. induction data as [|b data IH]; intros st; [done|]. cbn [cfb8_encrypt].
  specialize (IH (mkCfb8 (shift_in (sr st) (xor_byte b (keystream_byte (sr st)))))). destruct (cfb8_encrypt _ data). cbn in *. lia.
Qed.

(** Draining moves bytes from the buffer to the socket and changes nothing else. *)
Lemma drain_loop_moves net buf sent r buf' sent' net' :
  drain_loop net buf sent = (r, buf', sent', net') ->
  sent' ++ buf' = sent ++ buf /\ (r = Ready None -> buf' = []) /\ exists moved, sent' = sent ++ moved.
Proof.
  revert buf sent. induction net as [|reply net IH]; intros buf sent H.
  - destruct buf; cbn in H; injection H as <- <- <- <-; (split; [done|]; split; [done|]; exists []; by rewrite app_nil_r).
  - destruct buf as [|b buf]; [cbn in H; injection H as <- <- <- <-; split; [done|]; split; [done|]; exists []; by rewrite app_nil_r|].
    destruct reply as [[|n]| |]; cbn [drain_loop] in H;
      try (injection H as <- <- <- <-; split; [done|]; split; [done|]; exists []; by rewrite app_nil_r).
    apply IH in H as (H1 & H2 & moved & H3). rewrite <- app_assoc, take_drop in H1. split; [done|]. split; [done|].
    exists (take (S n) (b :: buf) ++ moved). by rewrite app_assoc.
Qed.

(** A socket that takes at least a byte each time empties the buffer. *)
Definition accepting (net : list WriteReply) : Prop := Forall (fun r => exists n, r = Wrote (S n)) net.
Lemma drain_loop_completes net buf sent : accepting net -> (length buf <= length net)%nat ->
  exists net', drain_loop net buf sent = (Ready None, [], sent ++ buf, net') /\ accepting net' /\ (length net <= length net' + length buf)%nat.
Proof.
  intros Hn. revert buf sent. induction Hn as [|r net [n ->] Hn IH]; intros buf sent Hl.
  - destruct buf; [|cbn in Hl; lia]. exists []. cbn. rewrite app_nil_r. split_and!; [done|constructor|lia].
  - destruct buf as [|b buf].
    { exists (Wrote (S n) :: net). cbn. rewrite app_nil_r. split_and!; [done|constructor; [by eexists|done]|lia]. }
    cbn [drain_loop]. destruct (IH (drop (S n) (b :: buf)) (sent ++ take (S n) (b :: buf))) as (net' & H & Ha & Hk).
    + rewrite length_drop. cbn in *. lia.
    + exists net'. rewrite H, <- app_assoc, take_drop. split_and!; [done|done|]. rewrite length_drop in Hk. cbn in *. lia.
Qed.

Lemma poll_drain_completes net s : accepting net -> (length (es_write_buf s) <= length net)%nat ->
  exists net', poll_drain net s = (Ready None, mkEncrypted (es_enc s) (es_dec s) [] (es_sent s ++ es_write_buf s) (es_taken s), net') /\
    accepting net' /\ (length net <= length net' + length (es_write_buf s))%nat.
Proof.
  intros Ha Hl. unfold poll_drain. destruct (drain_loop_completes net (es_write_buf s) (es_sent s) Ha Hl) as (net' & -> & H1 & H2).
  by exists net'.
Qed.

(** What was sent and what is buffered is the encryption of what was taken. *)
Definition stream_ok (key : bytes) (s : EncryptedStream) : Prop :=
  cfb8_encrypt (mkCfb8 key) (es_taken s) = (es_sent s ++ es_write_buf s, es_enc s).

Lemma poll_drain_ok key net s r s' net' : poll_drain net s = (r, s', net') -> stream_ok key s ->
  stream_ok key s' /\ es_taken s' = es_taken s /\ es_enc s' = es_enc s /\ (r = Ready None -> es_write_buf s' = []) /\
  exists moved, es_sent s' = es_sent s ++ moved.
Proof.
  unfold poll_drain. destruct (drain_loop net (es_write_buf s) (es_sent s)) as [[[r0 buf] sent] net0] eqn:E.
  intros [= <- <- <-] Hok. apply drain_loop_moves in E as (H1 & H2 & H3). cbn. unfold stream_ok in *. cbn. rewrite H1. done.
Qed.

Lemma poll_write_ok key net buf s r s' net' : poll_write net buf s = (r, s', net') -> stream_ok key s ->
  (length buf <= MAX_WRITE_BUF_SIZE)%nat ->
  stream_ok key s' /\
  match r with
  | Ready (inl n) => n = length buf /\ es_taken s' = es_taken s ++ buf
  | Ready (inr _) => es_taken s' = es_taken s \/ es_taken s' = es_taken s ++ buf
  | Pending => es_taken s' = es_taken s
  end.
Proof.
  intros H Hok Hlen. unfold poll_write in H. destruct (poll_drain net s) as [[r1 s1] net1] eqn:E1.
  destruct (poll_drain_ok key _ _ _ _ _ E1 Hok) as (Hok1 & Ht1 & He1 & Hempty & _).
  destruct r1 as [[e|]|]; [injection H as <- <- <-; split; [done|by left]| |injection H as <- <- <-; by split].
  destruct buf as [|b buf]; [injection H as <- <- <-; split; [done|split; [done|by rewrite app_nil_r]]|].
  destruct (cfb8_encrypt (es_enc s1) (b :: buf)) as [ct enc] eqn:Ec. specialize (Hempty eq_refl).
  assert (Hl : length ct = length (b :: buf)) by (pose proof (length_cfb8_encrypt (es_enc s1) (b :: buf)) as Hx; by rewrite Ec in Hx).
  cbn [es_write_buf] in H. rewrite Hempty in H. rewrite (proj2 (Nat.ltb_ge _ _)) in H by (cbn [length Nat.add]; lia).
  cbn [es_enc es_dec es_sent es_taken app] in H.
  set (s2 := mkEncrypted enc (es_dec s1) ct (es_sent s1) (es_taken s1 ++ b :: buf)) in H.
  assert (Hok2 : stream_ok key s2).
  { unfold stream_ok, s2. cbn. rewrite cfb8_encrypt_app. unfold stream_ok in Hok1. rewrite Hok1, Ec, Hempty, app_nil_r. done. }
  destruct (poll_drain net1 s2) as [[r2 s3] net2] eqn:E2.
  destruct (poll_drain_ok key _ _ _ _ _ E2 Hok2) as (Hok3 & Ht3 & _). cbn in Ht3. rewrite Ht1 in Ht3.
  destruct r2 as [[e|]|]; injection H as <- <- <-; (split; [done|]); [by right|by split|by split].
Qed.

(** Calls on the stream, each with the socket's replies to it. *)
Inductive StreamCall := CallWrite (buf : bytes) | CallFlush.
Definition stream_call (c : StreamCall * list WriteReply) (s : EncryptedStream) : EncryptedStream :=
  match c.1 with
  | CallWrite buf => (poll_write c.2 buf s).1.2
  | CallFlush => (poll_flush c.2 s).1.2
  end.
Definition stream_run (calls : list (StreamCall * list WriteReply)) (s : EncryptedStream) : EncryptedStream :=
  fold_left (fun s c => stream_call c s) calls s.
Definition call_small (c : StreamCall * list WriteReply) : Prop :=
  match c.1 with CallWrite buf => (length buf <= MAX_WRITE_BUF_SIZE)%nat | CallFlush => True end.

Lemma stream_run_ok key calls s : stream_ok key s -> Forall call_small calls -> stream_ok key (stream_run calls s).
Proof.
  intros Hok Hc. revert s Hok. induction Hc as [|[c net] calls Hsmall _ IH]; intros s Hok; [done|].
  cbn [stream_run fold_left]. apply IH. unfold stream_call. cbn [fst snd]. destruct c as [buf|].
  - destruct (poll_write net buf s) as [[r s'] net'] eqn:E. by apply (poll_write_ok key _ _ _ _ _ _ E Hok).
  - unfold poll_flush. destruct (poll_drain net s) as [[r s'] net'] eqn:E. by apply (poll_drain_ok key _ _ _ _ _ E Hok).
Qed.

(** The other end: the bytes that arrived, decrypted chunk by chunk. *)
Fixpoint peer_reads (st : Cfb8State) (chunks : list bytes) : bytes :=
  match chunks with
  | [] => []
  | chunk :: chunks => let '(plain, st) := cfb8_decrypt st chunk in plain ++ peer_reads st chunks
  end.
Lemma peer_reads_concat st chunks : peer_reads st chunks = (cfb8_decrypt st (concat chunks)).1.
Proof.
  revert st. induction chunks as [|c chunks IH]; intros st; [done|]. cbn [peer_reads concat]. rewrite cfb8_decrypt_app.
  destruct (cfb8_decrypt st c) as [plain st1]. rewrite IH. by destruct (cfb8_decrypt st1 (concat chunks)).
Qed.

(** ** Properties *)

(** C22: an encrypted connection delivers what was written to it, in order.  Over
    any sequence of writes (of at most 4 MiB each) and flushes, with the socket
    taking as few bytes at a time as it likes, refusing or failing, what a peer
    with the same key decrypts, however the bytes are cut up on arrival, is a
    prefix of the bytes the writes were accepted for, and all of them once the
    buffer has been drained. *)
Theorem encrypted_stream_faithful (key : bytes) (calls : list (StreamCall * list WriteReply)) (s : EncryptedStream) (chunks : list bytes) :
  EncryptedStream_new key = Ok s -> Forall call_small calls -> concat chunks = es_sent (stream_run calls s) ->
  exists unread, es_taken (stream_run calls s) = peer_reads (mkCfb8 key) chunks ++ unread /\
    (es_write_buf (stream_run calls s) = [] -> unread = []).
Proof.
  intros Hnew Hsmall Hch. unfold EncryptedStream_new in Hnew. destruct (_ =? _)%nat; [|done]. injection Hnew as <-.
  pose proof (stream_run_ok key calls _ (eq_refl : stream_ok key (mkEncrypted (mkCfb8 key) (mkCfb8 key) [] [] [])) Hsmall) as Hok.
  set (s' := stream_run calls _) in *. unfold stream_ok in Hok. rewrite peer_reads_concat, Hch.
  pose proof (cfb8_inverse (mkCfb8 key) (es_taken s')) as Hinv. rewrite Hok in Hinv. rewrite cfb8_decrypt_app in Hinv.
  destruct (cfb8_decrypt (mkCfb8 key) (es_sent s')) as [p st1]. destruct (cfb8_decrypt st1 (es_write_buf s')) as [q st2] eqn:Eq.
  injection Hinv as Ht _. exists q. cbn [fst]. split; [done|]. intros Hb. rewrite Hb in Eq. by injection Eq as <- _.
Qed.

(** Writing makes progress.  When the socket takes at least one byte at each
    attempt, a write of at most 4 MiB on a stream with [k] bytes buffered is
    accepted whole within [k] plus its length attempts and leaves nothing
    buffered.  A larger write on a drained stream is never accepted: it is told to
    wait whatever the socket does, while the cipher advances past it. *)
Theorem write_progress (net : list WriteReply) (buf : bytes) (s : EncryptedStream) :
  (accepting net -> (length (es_write_buf s) + length buf <= length net)%nat -> (length buf <= MAX_WRITE_BUF_SIZE)%nat ->
   exists s' net', poll_write net buf s = (Ready (inl (length buf)), s', net') /\ es_write_buf s' = []) /\
  (es_write_buf s = [] -> (MAX_WRITE_BUF_SIZE < length buf)%nat ->
   exists s', poll_write net buf s = (Pending, s', net) /\ es_write_buf s' = [] /\ es_taken s' = es_taken s /\
     es_enc s' = (cfb8_encrypt (es_enc s) buf).2).
Proof.
  split.
  - intros Hn Hl Hb. unfold poll_write. destruct (poll_drain_completes net s Hn) as (net1 & -> & Ha1 & Hl1); [lia|].
    destruct buf as [|b buf]; [by eexists _, _|]. cbn [es_enc es_dec es_write_buf es_sent es_taken].
    pose proof (length_cfb8_encrypt (es_enc s) (b :: buf)) as Hc.
    destruct (cfb8_encrypt (es_enc s) (b :: buf)) as [ct enc]. cbn [fst] in Hc. cbn [es_enc es_dec es_write_buf es_sent es_taken app].
    rewrite (proj2 (Nat.ltb_ge _ _)) by (cbn [length Nat.add]; lia).
    destruct (poll_drain_completes net1 (mkEncrypted enc (es_dec s) ct (es_sent s ++ es_write_buf s) (es_taken s ++ b :: buf)) Ha1) as (net2 & -> & _);
      [cbn [es_write_buf]; lia|]. by eexists _, _.
  - intros He Hb. unfold poll_write, poll_drain. rewrite He.
    assert (Hd : forall n sent, drain_loop n [] sent = (Ready None, [], sent, n)) by (by destruct n). rewrite Hd.
    destruct buf as [|b buf]; [cbn in Hb; lia|]. cbn [es_enc es_dec es_write_buf es_sent es_taken].
    pose proof (length_cfb8_encrypt (es_enc s) (b :: buf)) as Hc.
    destruct (cfb8_encrypt (es_enc s) (b :: buf)) as [ct enc]. cbn [fst snd es_enc es_dec es_write_buf es_sent es_taken] in *.
    rewrite (proj2 (Nat.ltb_lt _ _)) by (cbn [length Nat.add]; lia). by eexists.
Qed.

(** What is still to be read: the pushed-back bytes, then what the socket holds. *)
Definition content (s : McStream) (socket : bytes) : bytes :=
  ms_prefix s ++ match ms_kind s with
                 | MS_Empty => []
                 | MS_Plain => socket
                 | MS_Encrypted e => (cfb8_decrypt (es_dec e) socket).1
                 end.
Fixpoint read_rooms (rooms : list nat) (socket : bytes) (s : McStream) : bytes * McStream * bytes :=
  match rooms with
  | [] => ([], s, socket)
  | room :: rooms =>
      let '(got, s, socket) := McStream_poll_read room socket s in
      let '(more, s, socket) := read_rooms rooms socket s in
      (got ++ more, s, socket)
  end.

Lemma poll_read_content room socket s :
  let '(got, s', socket') := McStream_poll_read room socket s in got ++ content s' socket' = content s socket.
Proof.
  unfold McStream_poll_read, content. destruct s as [kind [|b prefix]]; cbn [ms_kind ms_prefix].
  - destruct kind as [| |e]; [done|by apply take_drop|]. unfold decrypt_filled.
    replace (cfb8_decrypt (es_dec e) socket) with (cfb8_decrypt (es_dec e) (take room socket ++ drop room socket)) by (by rewrite take_drop).
    rewrite cfb8_decrypt_app.
    destruct (cfb8_decrypt (es_dec e) (take room socket)) as [p st1] eqn:E. cbn [ms_kind ms_prefix es_dec app].
    by destruct (cfb8_decrypt st1 (drop room socket)).
  - rewrite app_assoc. f_equal. apply take_drop.
Qed.

(** Reading a client socket.  However many bytes are asked for each time,
    what is read followed by what is still to be read is what was there at the
    start; and a byte that was read to look at it and pushed back is read again
    first, on a plain and on an encrypted socket alike. *)
Theorem reads_in_order (rooms : list nat) (socket : bytes) (s : McStream) :
  (let '(got, s', socket') := read_rooms rooms socket s in got ++ content s' socket' = content s socket) /\
  (let '(peek, s', socket') := McStream_poll_read 1 socket s in
   ms_prefix s = [] -> content (push_prefix peek s') socket' = content s socket).
Proof.
  split.
  - revert socket s. induction rooms as [|room rooms IH]; intros socket s; [done|]. cbn [read_rooms].
    pose proof (poll_read_content room socket s) as H. destruct (McStream_poll_read room socket s) as [[got s1] socket1].
    specialize (IH socket1 s1). destruct (read_rooms rooms socket1 s1) as [[more s2] socket2]. by rewrite <- app_assoc, IH.
  - pose proof (poll_read_content 1 socket s) as H. destruct (McStream_poll_read 1 socket s) as [[peek s1] socket1] eqn:E.
    intros Hp. rewrite <- H. unfold content, push_prefix. cbn [ms_kind ms_prefix].
    assert (Hs1 : ms_prefix s1 = []).
    { unfold McStream_poll_read in E. rewrite Hp in E. destruct (ms_kind s) as [| |e]; [| |destruct (decrypt_filled _ _)];
        injection E as <- <- <-; done. }
    by rewrite Hs1.
Qed.

End Cipher.

(** A block function to run the model with. *)
Definition toy_block (s : bytes) : bytes := reverse s.
Definition toy_key : bytes := be_bytes 16 0x000102030405060708090a0b0c0d0e0f.
Definition toy_calls : list (StreamCall * list WriteReply) :=
  [(CallWrite [x68; x65; x6c], [Wrote 1; WriteNotReady]); (CallWrite [x6c; x6f], [Wrote 2; WriteNotReady]);
   (CallFlush, [Wrote 9])].

Lemma encrypted_stream_faithful_witness :
  exists s, EncryptedStream_new toy_key = Ok s /\ Forall call_small toy_calls /\
    let chunks := [take 2 (es_sent (stream_run toy_block toy_calls s)); drop 2 (es_sent (stream_run toy_block toy_calls s))] in
    exists unread, es_taken (stream_run toy_block toy_calls s) = peer_reads toy_block (mkCfb8 toy_key) chunks ++ unread /\
      (es_write_buf (stream_run toy_block toy_calls s) = [] -> unread = []).
Proof.
  eexists. split; [vm_compute; reflexivity|].
  assert (Hs : Forall call_small toy_calls).
  { repeat apply Forall_cons; try apply Forall_nil; cbn [call_small fst toy_calls]; try exact I; apply Nat.leb_le; vm_compute; reflexivity. }
  split; [exact Hs|]. intros chunks. apply (encrypted_stream_faithful toy_block toy_key toy_calls); [vm_compute; reflexivity|exact Hs|].
  unfold chunks. cbn [concat]. rewrite app_nil_r. apply take_drop.
Defined.
