(* ===== verification/Transfer.v ===== *)
(** * Transfers and the server selector

    crates/proxy-core/src/features/transfer.rs: the commands plugins send over the
    proxy's own channel and over the BungeeCord one;
    crates/proxy-core/src/features/server_selector.rs: the channels of the server
    picker, its list with the per-player cooldown, and the connect request.
    serde_json and the uuid crate are parameters; an [Instant] is a number of
    milliseconds and the pings of the backends are arguments. *)
From Stdlib Require Import ZArith Lia Strings.String Strings.Byte Sorting.Sorted.
From stdpp Require Import base list numbers strings gmap.
From S2P Require Import Prelude Buf Wire VarInt Codec Chars Utf8 Routing.
From S2P Require Snbt.
Local Open Scope Z_scope.

(** ** Transfer commands *)

Definition KOJACOORD_CHANNEL : bytes := lit "kojacoord:send".
Definition BUNGEECORD_CHANNEL : bytes := lit "BungeeCord".

Inductive TransferCommand :=
  | Connect (server : bytes)
  | ConnectOther (server uuid : bytes)
  | GetServer
  | GetPlayers.

Inductive TransferResponse :=
  | CurrentServer (name : bytes)
  | PlayerList (count : nat) (players : list bytes)
  | ResponseError (message : bytes)
  | ResponseOk.

(** A string behind a 16-bit length. *)
Definition read_bc_string (data : bytes) : option (bytes * bytes) :=
  match data with
  | b0 :: b1 :: data =>
      let len := Z.to_nat (be_val [b0; b1]) in
      if (length data <? len)%nat then None
      else if utf8_valid (take len data) then Some (take len data, drop len data) else None
  | _ => None
  end.

Definition encode_bc_string (s : bytes) : bytes :=
  let len := Nat.min (length s) (Z.to_nat 65535) in
  be_bytes 2 (Z.of_nat len) ++ take len s.

Definition build_bc_get_server_response (server_name : bytes) : bytes := encode_bc_string server_name.

(** [players.join("\0")]. *)
Fixpoint join (sep : byte) (l : list bytes) : bytes :=
  match l with [] => [] | [x] => x | x :: l => x ++ sep :: join sep l end.
Definition build_bc_get_players_response (players : list bytes) : bytes := encode_bc_string (join x00 players).

Section Transfer.
(** [serde_json::from_slice::<TransferCommand>] and [Uuid::parse_str]. *)
Variable json_command : bytes -> option TransferCommand.
Variable uuid_parse : bytes -> option bytes.

Definition parse_kojacoord (data : bytes) : option TransferCommand :=
  if 65536 <? Z.of_nat (length data) then None else json_command data.

Definition parse_bungeecord (data : bytes) : option TransferCommand :=
  '(sub_cmd, rest) ← read_bc_string data;
  if bool_decide (sub_cmd = lit "Connect") then
    '(server, _) ← read_bc_string rest;
    if is_empty server then None else Some (Connect server)
  else if bool_decide (sub_cmd = lit "ConnectOther") then
    '(server, rest) ← read_bc_string rest;
    '(uuid_str, _) ← read_bc_string rest;
    if is_empty server || is_empty uuid_str then None
    else uuid ← uuid_parse uuid_str; Some (ConnectOther server uuid)
  else if bool_decide (sub_cmd = lit "GetServer") then Some GetServer
  else if bool_decide (sub_cmd = lit "GetPlayers") then Some GetPlayers
  else None.

Definition parse_command (channel data : bytes) : option TransferCommand :=
  if bool_decide (channel = KOJACOORD_CHANNEL) then parse_kojacoord data
  else if bool_decide (channel = BUNGEECORD_CHANNEL) then parse_bungeecord data
  else None.

(** The payload a plugin sends for a command on the BungeeCord channel. *)
Definition bc_command (uuid_text : bytes -> bytes) (c : TransferCommand) : bytes :=
  match c with
  | Connect server => encode_bc_string (lit "Connect") ++ encode_bc_string server
  | ConnectOther server uuid => encode_bc_string (lit "ConnectOther") ++ encode_bc_string server ++ encode_bc_string (uuid_text uuid)
  | GetServer => encode_bc_string (lit "GetServer")
  | GetPlayers => encode_bc_string (lit "GetPlayers")
  end.

(** ** Lemmas *)

Definition bc_text (s : bytes) : Prop := utf8_valid s = true /\ Z.of_nat (length s) <= 65535.

Lemma read_encode_bc s rest : bc_text s -> read_bc_string (encode_bc_string s ++ rest) = Some (s, rest).
Proof.
  intros [Hu Hl]. unfold encode_bc_string. rewrite Nat.min_l by lia. rewrite firstn_all.
  pose proof (length_be_bytes 2 (Z.of_nat (length s))) as Hb. pose proof (be_val_bytes 2 (Z.of_nat (length s))) as Hv.
  change (256 ^ Z.of_nat 2) with 65536 in Hv. rewrite Z.mod_small in Hv by lia.
  destruct (be_bytes 2 (Z.of_nat (length s))) as [|b0 [|b1 [|]]]; try done. cbn [app]. unfold read_bc_string.
  rewrite Hv, Nat2Z.id, length_app, (proj2 (Nat.ltb_ge _ _)) by lia.
  rewrite take_app_length, drop_app_length, Hu. done.
Qed.

#[local] Opaque read_bc_string encode_bc_string.

(** ** Properties *)

(** The BungeeCord channel.  A command written the way plugins write it is
    read back as that command, empty names apart, which are ignored; the answers
    are strings that read back, the player list with its names separated; and a
    channel that is neither of the two never carries a command. *)
Theorem transfer_commands (uuid_text : bytes -> bytes) (c : TransferCommand) :
  match c with
  | Connect server => bc_text server /\ server <> []
  | ConnectOther server uuid => bc_text server /\ server <> [] /\ bc_text (uuid_text uuid) /\ uuid_text uuid <> [] /\ uuid_parse (uuid_text uuid) = Some uuid
  | _ => True
  end ->
  parse_command BUNGEECORD_CHANNEL (bc_command uuid_text c) = Some c /\
  (forall rest, parse_command BUNGEECORD_CHANNEL (encode_bc_string (lit "Connect") ++ encode_bc_string [] ++ rest) = None) /\
  (forall name, bc_text name -> read_bc_string (build_bc_get_server_response name) = Some (name, [])) /\
  (forall players, bc_text (join x00 players) -> read_bc_string (build_bc_get_players_response players) = Some (join x00 players, [])) /\
  (forall channel data, channel <> KOJACOORD_CHANNEL -> channel <> BUNGEECORD_CHANNEL -> parse_command channel data = None).
Proof.
  intros Hc.
  assert (Hlit : bc_text (lit "Connect") /\ bc_text (lit "ConnectOther") /\ bc_text (lit "GetServer") /\ bc_text (lit "GetPlayers"))
    by (repeat split; done).
  destruct Hlit as (L1 & L2 & L3 & L4).
  assert (Hbc : forall data, parse_command BUNGEECORD_CHANNEL data = parse_bungeecord data) by done.
  assert (Hread : forall s, bc_text s -> read_bc_string (encode_bc_string s) = Some (s, [])).
  { intros s Hs. rewrite <- (app_nil_r (encode_bc_string s)). by apply read_encode_bc. }
  assert (Hne : forall s : bytes, s <> [] -> is_empty s = false) by (by intros []).
  split_and!.
  - rewrite Hbc. unfold parse_bungeecord. destruct c as [server|server uuid| |]; cbn [bc_command].
    + destruct Hc as [Hs Hn]. rewrite read_encode_bc by done. cbn. rewrite Hread by done. cbn. by rewrite Hne.
    + destruct Hc as (Hs & Hn & Hu & Hun & Hp). rewrite read_encode_bc by done. cbn. rewrite read_encode_bc by done. cbn.
      rewrite Hread by done. cbn. rewrite !Hne by done. cbn. by rewrite Hp.
    + by rewrite Hread.
    + by rewrite Hread.
  - intros rest. rewrite Hbc. unfold parse_bungeecord. rewrite read_encode_bc by done. cbn. by rewrite read_encode_bc by done.
  - intros name Hn. by apply Hread.
  - intros players Hp. by apply Hread.
  - intros channel data H1 H2. unfold parse_command. rewrite !bool_decide_eq_false_2 by done. done.
Qed.

End Transfer.
#[local] Transparent read_bc_string encode_bc_string.

Lemma transfer_commands_witness :
  let c := ConnectOther (lit "lobby") (repeat x11 16) in
  let text := fun u : bytes => u in let parse := fun s : bytes => Some s in
  parse_command (fun _ => None) parse BUNGEECORD_CHANNEL (bc_command text c) = Some c.
Proof.
  intros c text parse.
  assert (Hl : bc_text (lit "lobby")) by (split; [reflexivity|cbn; lia]).
  assert (Hu : bc_text (repeat x11 16)) by (split; [reflexivity|cbn; lia]).
  assert (Hn : lit "lobby" <> []) by discriminate. assert (Hm : repeat x11 16 <> []) by discriminate.
  assert (Hc : bc_text (lit "lobby") /\ lit "lobby" <> [] /\ bc_text (repeat x11 16) /\ repeat x11 16 <> [] /\ Some (repeat x11 16) = Some (repeat x11 16))
    by (split; [exact Hl|split; [exact Hn|split; [exact Hu|split; [exact Hm|reflexivity]]]]).
  pose proof (transfer_commands (fun _ => None) parse text c Hc) as [H _].
  exact H.
Defined.

Lemma utf8_letters n s : utf8_valid (repeat x61 n ++ s) = utf8_valid s.
Proof. by induction n. Qed.

(** A name cut at 65535 bytes in the middle of a character is refused by the
    reader of the same module. *)
Theorem bc_string_cut (n : nat) : Z.of_nat n = 65534 ->
  utf8_valid (repeat x61 n ++ [xc3; xa9]) = true /\ read_bc_string (encode_bc_string (repeat x61 n ++ [xc3; xa9])) = None.
Proof.
  intros Hn. split; [by rewrite utf8_letters|]. unfold encode_bc_string. rewrite length_app, repeat_length. cbn [length].
  replace (Nat.min (n + 2) (Z.to_nat 65535)) with (n + 1)%nat by lia.
  assert (Ht : take (n + 1) (repeat x61 n ++ [xc3; xa9]) = repeat x61 n ++ [xc3]).
  { rewrite take_app, repeat_length, take_ge by (rewrite repeat_length; lia). f_equal. by replace (n + 1 - n)%nat with 1%nat by lia. }
  rewrite Ht. pose proof (length_be_bytes 2 (Z.of_nat (n + 1))) as Hb. pose proof (be_val_bytes 2 (Z.of_nat (n + 1))) as Hv.
  change (256 ^ Z.of_nat 2) with 65536 in Hv. rewrite Z.mod_small in Hv by lia.
  destruct (be_bytes 2 (Z.of_nat (n + 1))) as [|b0 [|b1 [|]]]; try done. cbn [app]. unfold read_bc_string.
  rewrite Hv, Nat2Z.id, length_app, repeat_length. cbn [length]. rewrite Nat.ltb_irrefl.
  rewrite take_ge by (rewrite length_app, repeat_length; cbn; lia). by rewrite utf8_letters.
Qed.

(** ** The server selector *)

Definition SERVERLIST_COOLDOWN : Z := 5000.
Definition SERVERLIST_COOLDOWN_MAX_ENTRIES : Z := 10000.

Definition is_serverlist_channel (channel : bytes) : bool :=
  bool_decide (channel = lit "kojacoord:serverlist") || bool_decide (channel = lit "KOJACRD|SERVERS").
Definition is_connect_channel (channel : bytes) : bool :=
  bool_decide (channel = lit "kojacoord:connect") || bool_decide (channel = lit "KOJACRD|CONNECT").
Definition is_modpack_channel (channel : bytes) : bool :=
  bool_decide (channel = lit "kojacoord:modpack") || bool_decide (channel = lit "KOJACRD|MODPACK").

(** [str::trim]. *)
Definition trim_start (s : chars) : chars := drop (Snbt.span_len Snbt.is_whitespace s) s.
Definition trim (s : chars) : chars := reverse (trim_start (reverse (trim_start s))).

Definition parse_connect_payload (data : bytes) : option bytes :=
  if utf8_valid data then
    let name := trim (chars_of data) in if bool_decide (name = []) then None else Some (utf8 name)
  else None.

(** The entry of a server in the configuration, as far as the list shows it. *)
Record ServerEntry := mkServerEntry {
  se_name : bytes; se_max_players : option Z; se_display_name : option bytes; se_motd : option bytes;
  se_modpack : option bytes; se_modpack_version : option bytes; se_game_type : option bytes;
  se_address : bytes; se_restricted : bool; se_forwarding_override : option ForwardingMode; se_backend_type : BackendType;
  se_compression_threshold : Z; se_cipher_suites : bytes; se_health_probe_interval_secs : Z;
  se_health_probe_timeout_secs : Z; se_health_probe_fail_threshold : Z; se_region : bytes; se_weight : Z }.

Definition json_opt (value : option bytes) : Value := match value with Some v => JString (chars_of v) | None => JNull end.
Definition json_text_of (value : bytes) : Value := JString (chars_of value).
Definition json_num (n : Z) : Value := JNumber (Some n) None.

(** One entry of the list; [ping] is the time the backend took to answer, in
    milliseconds, when it did. *)
Definition serverlist_entry (servers : list ServerEntry) (max_players : Z) (s : BackendServer) (ping : option Z) : Value :=
  let cfg := find (fun e => bool_decide (se_name e = bs_name s)) servers in
  let motd := default [] (e ← cfg; se_motd e) in
  JObject [
    (chr "name", json_text_of (bs_name s));
    (chr "status", json_text_of (if bs_online s && bool_decide (is_Some ping) then lit "ONLINE" else lit "OFFLINE"));
    (chr "currentPlayers", json_num (bs_player_count s));
    (chr "maxPlayers", json_num (default max_players (e ← cfg; se_max_players e)));
    (chr "pingMs", json_num (default 0 ping));
    (chr "motd", json_text_of motd);
    (chr "displayName", json_text_of (default (bs_name s) (e ← cfg; se_display_name e)));
    (chr "description", json_text_of motd);
    (chr "modpack", json_opt (e ← cfg; se_modpack e));
    (chr "modpackVersion", json_opt (e ← cfg; se_modpack_version e));
    (chr "gameType", json_text_of (default [] (e ← cfg; se_game_type e)))].

Abbreviation Cooldowns := (gmap bytes Z).

(** [Instant::duration_since] saturates at zero. *)
Definition duration_since (now t : Z) : Z := Z.max 0 (now - t).

(** The guard of [build_serverlist_payload]: whether the list is built, and the
    table afterwards. *)
Definition serverlist_admit (now : Z) (player : bytes) (map : Cooldowns) : bool * Cooldowns :=
  match map !! player with
  | Some t =>
      if duration_since now t <? SERVERLIST_COOLDOWN then (false, map)
      else
        let map := if SERVERLIST_COOLDOWN_MAX_ENTRIES <=? Z.of_nat (size map)
                   then filter (fun e => duration_since now e.2 < SERVERLIST_COOLDOWN) map else map in
        (true, <[player := now]> map)
  | None =>
      let map := if SERVERLIST_COOLDOWN_MAX_ENTRIES <=? Z.of_nat (size map)
                 then filter (fun e => duration_since now e.2 < SERVERLIST_COOLDOWN) map else map in
      (true, <[player := now]> map)
  end.

Definition build_serverlist_payload (json_text : Value -> bytes) (servers : list ServerEntry) (max_players now : Z) (player : bytes)
    (registry : ServerRegistry) (pings : list (option Z)) (map : Cooldowns) : bytes * Cooldowns :=
  let '(admitted, map) := serverlist_admit now player map in
  if admitted then
    (json_text (JArray (zip_with (serverlist_entry servers max_players) (registry_all registry) pings)), map)
  else (lit "[]", map).

(** Requests in the order they arrive, as time and player; what is answered with
    a list. *)
Fixpoint serverlist_run (requests : list (Z * bytes)) (map : Cooldowns) : list (Z * bytes) :=
  match requests with
  | [] => []
  | (now, player) :: requests =>
      let '(admitted, map) := serverlist_admit now player map in
      (if admitted then [(now, player)] else []) ++ serverlist_run requests map
  end.

(** Every past answer is remembered, or old enough. *)
Definition remembered (past : list (Z * bytes)) (now : Z) (map : Cooldowns) : Prop :=
  Forall (fun e => e.1 <= now /\ ((exists t, map !! e.2 = Some t /\ e.1 <= t) \/ e.1 + SERVERLIST_COOLDOWN <= now)) past.

Lemma admit_remembers past now player map : remembered past now map ->
  remembered past now (serverlist_admit now player map).2 /\
  ((serverlist_admit now player map).1 = true ->
     (serverlist_admit now player map).2 !! player = Some now /\
     Forall (fun e => e.2 = player -> e.1 + SERVERLIST_COOLDOWN <= now) past).
Proof.
  intros Hp.
  set (kept := if SERVERLIST_COOLDOWN_MAX_ENTRIES <=? Z.of_nat (size map)
               then filter (fun e => duration_since now e.2 < SERVERLIST_COOLDOWN) map else map).
  assert (Hkept : remembered past now (<[player := now]> kept)).
  { apply (Forall_impl _ _ _ Hp). intros [t p] [Hle [(t' & Hl & Ht)|Hold]]; cbn [fst snd] in *; (split; [done|]); [|by right].
    destruct (decide (p = player)) as [->|Hne]; [left; exists now; by rewrite lookup_insert_eq|].
    rewrite lookup_insert_ne by done. unfold kept. destruct (_ <=? _); [|left; by exists t'].
    destruct (decide (duration_since now t' < SERVERLIST_COOLDOWN)) as [Hd|Hd].
    - left. exists t'. split; [|done]. by apply map_lookup_filter_Some.
    - right. unfold duration_since, SERVERLIST_COOLDOWN in *. lia. }
  unfold serverlist_admit. fold kept. destruct (map !! player) as [t0|] eqn:E.
  - destruct (Z.ltb_spec (duration_since now t0) SERVERLIST_COOLDOWN) as [Hc|Hc]; [by split|]. cbn [fst snd].
    split; [done|]. intros _. split; [by rewrite lookup_insert_eq|]. apply (Forall_impl _ _ _ Hp). intros [t p] [Hle [(t' & Hl & Ht)|Hold]] Heq; cbn [fst snd] in *; subst p; [|done].
    rewrite E in Hl. injection Hl as <-. unfold duration_since, SERVERLIST_COOLDOWN in *. lia.
  - cbn [fst snd]. split; [done|]. intros _. split; [by rewrite lookup_insert_eq|]. apply (Forall_impl _ _ _ Hp). intros [t p] [Hle [(t' & Hl & Ht)|Hold]] Heq; cbn [fst snd] in *; subst p; [|done].
    by rewrite E in Hl.
Qed.

Lemma remembered_later past now now' map : now <= now' -> remembered past now map -> remembered past now' map.
Proof. intros H Hp. apply (Forall_impl _ _ _ Hp). intros e [Hle [Hm|Hold]]; (split; [lia|]); [by left|right; lia]. Qed.

Lemma run_spaced requests past now map : StronglySorted (fun a b => a.1 <= b.1) requests -> Forall (fun r => now <= r.1) requests ->
  remembered past now map ->
  ForallOrdPairs (fun a b => a.2 = b.2 -> a.1 + SERVERLIST_COOLDOWN <= b.1) (serverlist_run requests map) /\
  Forall (fun r => Forall (fun e => e.2 = r.2 -> e.1 + SERVERLIST_COOLDOWN <= r.1) past) (serverlist_run requests map).
Proof.
  intros Hs. revert past now map. induction Hs as [|[t p] requests Hs IH Hlt]; intros past now map Hle Hp; [split; constructor|].
  apply Forall_cons in Hle as [Ht Hle]. cbn [fst] in Ht. pose proof (remembered_later _ _ _ _ Ht Hp) as Hp'.
  destruct (admit_remembers past t p map Hp') as [Hkeep Had]. cbn [serverlist_run].
  destruct (serverlist_admit t p map) as [admitted map']. cbn [fst snd] in *. destruct admitted.
  - destruct (Had eq_refl) as [Hm Hpast]. destruct (IH ((t, p) :: past) t map') as [H1 H2].
    + done.
    + apply Forall_cons. split; [|done]. cbn. split; [lia|]. left. exists t. split; [done|lia].
    + cbn [app]. split.
      * constructor; [|done]. apply (Forall_impl _ _ _ H2). intros r Hr. apply Forall_cons in Hr as [Hr _]. cbn in Hr. cbn. intros E. by apply Hr.
      * constructor; [cbn; apply (Forall_impl _ _ _ Hpast); intros e He E; by apply He|].
        apply (Forall_impl _ _ _ H2). intros r Hr. by apply Forall_cons in Hr as [_ Hr].
  - cbn [app]. apply (IH past t map'); done.
Qed.

(** The server list is rate limited.  Whatever players ask and in whatever
    order of time, two lists built for the same player are at least five seconds
    apart, also when the table of last answers is being purged. *)
Theorem serverlist_cooldown (requests : list (Z * bytes)) :
  StronglySorted (fun a b => a.1 <= b.1) requests ->
  ForallOrdPairs (fun a b => a.2 = b.2 -> a.1 + SERVERLIST_COOLDOWN <= b.1) (serverlist_run requests ∅).
Proof.
  intros Hs. destruct requests as [|[t p] requests]; [constructor|].
  apply (run_spaced ((t, p) :: requests) [] t ∅); [done| |constructor].
  apply StronglySorted_inv in Hs as [_ Hs]. constructor; [done|]. exact Hs.
Qed.

Lemma serverlist_cooldown_witness :
  let requests := [(0, lit "a"); (10, lit "b"); (4000, lit "a"); (5000, lit "a")] in
  StronglySorted (fun a b => a.1 <= b.1) requests /\
  ForallOrdPairs (fun a b => a.2 = b.2 -> a.1 + SERVERLIST_COOLDOWN <= b.1) (serverlist_run requests ∅).
Proof.
  intros requests.
  assert (H : StronglySorted (fun a b : Z * bytes => a.1 <= b.1) requests)
    by (repeat constructor; cbn; lia).
  split; [exact H|]. exact (serverlist_cooldown requests H).
Defined.
