(* ===== verification/Commands.v ===== *)
(** * Proxy commands

    crates/proxy-core/src/features/commands.rs: the slash commands the proxy
    answers itself, and the hand-over of the others to plugins; the session record
    of crates/proxy-core/src/session.rs.  The plugin manager, the tick counters,
    the account-linking service, Unicode lower-casing and the iteration order of
    hash maps are parameters. *)
From Stdlib Require Import ZArith Lia Strings.String Strings.Byte Sorting.Permutation.
From stdpp Require Import base list numbers strings gmap.
From S2P Require Import Prelude Buf Wire VarInt Codec Chars Utf8 IpAddr Routing Auth Transfer.
From S2P Require Snbt.
Local Open Scope Z_scope.

(** ** Sessions *)

Inductive ConnectionState := Handshaking | Status | Login | Configuration | Play.

Record PlayerSession := mkSession {
  ps_uuid : bytes; ps_username : bytes; ps_client_ip : IpAddr; ps_protocol_version : Z; ps_state : ConnectionState;
  ps_current_server : option bytes; ps_transferred : bool; ps_properties : list ProfileProperty;
  ps_locale : option bytes; ps_view_distance : option Z; ps_cookies : gmap bytes bytes }.

(** The entries of the session table in iteration order, each with whether
    [try_read] gets its lock. *)
Abbreviation Sessions := (list (PlayerSession * bool)).

(** ** Results *)

Inductive CommandResult := Handled | Switch (target : bytes) | NotACommand | CommandError (msg : bytes).

Inductive PluginResponse :=
  | PR_None | PR_Cancel | PR_Message (msg : bytes) | PR_Broadcast (msg : bytes)
  | PR_KickPlayer (uuid reason : bytes) | PR_Custom | PR_UpdatePlayerSample (sample : list (bytes * bytes)) | PR_PermissionResult.

(** What a command or a plugin asks of the proxy: a chat line for everyone, a
    disconnect, a chat line for one player; and a plugin message handed to the
    plugins. *)
Inductive Effect := Broadcast (msg : bytes) | Kick (uuid json : bytes) | Tell (uuid msg : bytes) | Notify (uuid channel data : bytes).

Record CommandSender := mkSender { cs_uuid : option bytes; cs_name : bytes; cs_permissions : list bytes; cs_is_console : bool }.

(** [mgr.find_command] (the declared permission of the command) and
    [mgr.dispatch_command]. *)
Record PluginManager := mkPluginManager {
  find_command : bytes -> option (option bytes);
  dispatch_command : bytes -> list bytes -> CommandSender -> option (option PluginResponse);
  loaded_plugins : list (bytes * bytes * bytes) }.

(** What [handle_register] learns: no token is configured, the service cannot be
    used, or its code. *)
Inductive LinkReply := NoToken | Unreachable | LinkCode (code : bytes).

Record CommandEnv := mkCommandEnv {
  registry : ServerRegistry;
  sessions : Sessions;
  config_servers : list bytes;
  plugins : PluginManager;
  (** [{:.1}] of the rate over a window, and whether it is below a bound *)
  tps_text : Z -> bytes;
  tps_below : Z -> Z -> bool;
  link_reply : LinkReply }.

(** Messages to the sender and further effects, in order. *)
Record Output := mkOutput { messages : list bytes; effects : list Effect }.
Definition says (l : list bytes) : Output := mkOutput l [].

Definition number (n : Z) : bytes := utf8 (show n).

(** ** Parsing *)

(** [splitn(n, ' ')]. *)
Fixpoint splitn (n : nat) (c : byte) (s : bytes) : list bytes :=
  match n with
  | O => []
  | 1%nat => [s]
  | S n => (fix go (acc s : bytes) : list bytes :=
              match s with
              | [] => [reverse acc]
              | b :: s => if bool_decide (b = c) then reverse acc :: splitn n c s else go (b :: acc) s
              end) [] s
  end.

Fixpoint trim_start_slashes (s : bytes) : bytes :=
  match s with b :: s' => if bool_decide (b = x2f) then trim_start_slashes s' else s | [] => [] end.

(** [split_whitespace().next().unwrap_or("")]. *)
Definition first_word (s : bytes) : bytes :=
  let cs := trim_start (chars_of s) in utf8 (take (Snbt.span_len (fun c => negb (Snbt.is_whitespace c)) cs) cs).

Section Commands.
(** [str::to_lowercase]. *)
Variable to_lowercase : bytes -> bytes.
(** [json!({"text": reason, "color": "red"}).to_string()]. *)
Variable red_text : bytes -> bytes.
(** The order in which a hash map hands out its entries. *)
Variable map_order : list (bytes * list bytes) -> list (bytes * list bytes).

Definition PROXY_COMMANDS : list bytes :=
  map lit ["server"; "servers"; "hub"; "lobby"; "spawn"; "glist"; "list"; "find"; "koja"; "kojacoord"; "gplugins"; "gtps"; "register"]%string.
Definition is_proxy_command (input : bytes) : bool := bool_decide (to_lowercase (first_word input) ∈ PROXY_COMMANDS).

(** ** Handlers *)

Definition here (session : PlayerSession) (name : bytes) : bool := bool_decide (ps_current_server session = Some name).

Definition server_line (session : PlayerSession) (s : BackendServer) : bytes :=
  lit "  " ++ (if bs_online s then lit "§a●" else lit "§c●") ++ lit " §f" ++ bs_name s ++ lit "§7 [" ++
  number (bs_player_count s) ++ lit " players]" ++ (if here session (bs_name s) then lit " §7(you are here)" else []).

Definition handle_server (env : CommandEnv) (parts : list bytes) (session : PlayerSession) : CommandResult * Output :=
  match parts with
  | _ :: ((_ :: _) as target) :: _ =>
      match registry_get target (registry env) with
      | None => (Handled, says [lit "§cServer '" ++ target ++ lit "' not found."])
      | Some backend =>
          if negb (bs_online backend) then (Handled, says [lit "§cServer '" ++ target ++ lit "' is currently offline."])
          else if here session target then (Handled, says [lit "§eYou are already on §f" ++ target ++ lit "§e."])
          else (Switch target, says [lit "§aConnecting you to §f" ++ target ++ lit "§a…"])
      end
  | _ => (Handled, says ((lit "§6§lKojacoordNetwork §7— §aOnline Servers") :: map (server_line session) (registry_all (registry env))))
  end.

Definition handle_hub (env : CommandEnv) (session : PlayerSession) : CommandResult * Output :=
  let default := match config_servers env with s :: _ => s | [] => lit "lobby" end in
  match registry_get default (registry env) with
  | None => (Handled, says [lit "§cLobby server is unavailable."])
  | Some _ =>
      if here session default then (Handled, says [lit "§eYou are already on §f" ++ default ++ lit "§e."])
      else (Switch default, says [lit "§aSending you to §f" ++ default ++ lit "§a…"])
  end.

(** [by_server.entry(server).or_default().push(name)]. *)
Fixpoint push_player (server name : bytes) (m : list (bytes * list bytes)) : list (bytes * list bytes) :=
  match m with
  | [] => [(server, [name])]
  | (k, v) :: m => if bool_decide (k = server) then (k, v ++ [name]) :: m else (k, v) :: push_player server name m
  end.
Definition server_of (s : PlayerSession) : bytes := default (lit "unknown") (ps_current_server s).
Definition by_server (l : Sessions) : list (bytes * list bytes) :=
  fold_left (fun m '(s, readable) => if readable : bool then push_player (server_of s) (ps_username s) m else m) l [].

Fixpoint join_with (sep : bytes) (l : list bytes) : bytes :=
  match l with [] => [] | [x] => x | x :: l => x ++ sep ++ join_with sep l end.
Definition glist_line (e : bytes * list bytes) : bytes :=
  lit "§e" ++ e.1 ++ lit " §7[" ++ number (Z.of_nat (length e.2)) ++ lit "]: §f" ++ join_with (lit "§7, §f") e.2.

Definition handle_glist (env : CommandEnv) : CommandResult * Output :=
  let count := length (sessions env) in
  (Handled, says ((lit "§6§lKojacoordNetwork §7— §f" ++ number (Z.of_nat count) ++ lit " §7player" ++
                   (if (count =? 1)%nat then [] else lit "s") ++ lit " online")
                  :: map glist_line (map_order (by_server (sessions env))))).

Definition eq_ignore_ascii_case (a b : bytes) : bool := bool_decide (to_ascii_lowercase a = to_ascii_lowercase b).

Fixpoint find_session (name : bytes) (l : Sessions) : option PlayerSession :=
  match l with
  | [] => None
  | (s, readable) :: l => if readable && eq_ignore_ascii_case (ps_username s) name then Some s else find_session name l
  end.
Definition handle_find (env : CommandEnv) (parts : list bytes) : CommandResult * Output :=
  let target_name := default [] (parts !! 1%nat) in
  if is_empty target_name then (Handled, says [lit "§cUsage: /find <player>"])
  else match find_session target_name (sessions env) with
       | Some s => (Handled, says [lit "§f" ++ ps_username s ++ lit " §7is on §a" ++ server_of s])
       | None => (Handled, says [lit "§cPlayer '" ++ target_name ++ lit "' is not online."])
       end.

Definition handle_koja (session : PlayerSession) : CommandResult * Output :=
  (Handled, says [lit "§6§lKojacoord Proxy"; lit "§7Version: §f1.0.0"; lit "§7Powered by §5Rust §7+ §bTokio";
                  lit "§7Protocol: §f" ++ number (ps_protocol_version session)]).

Definition handle_plugins (env : CommandEnv) : CommandResult * Output :=
  let l := loaded_plugins (plugins env) in
  (Handled, says ((lit "§6§lPlugins §7(§f" ++ number (Z.of_nat (length l)) ++ lit "§7)")
     :: match l with
        | [] => [lit "§7No plugins loaded."]
        | _ => map (fun '(name, version, author) => lit "§a" ++ name ++ lit " §7v§f" ++ version ++ lit " §7by §e" ++ author) l
        end)).

Definition tps_line (env : CommandEnv) (window : Z) : bytes :=
  lit "§eTPS (" ++ number window ++ lit "s): " ++
  (if tps_below env window 15 then lit "§c" else if tps_below env window 18 then lit "§e" else lit "§a") ++ tps_text env window.
Definition handle_gtps (env : CommandEnv) : CommandResult * Output :=
  (Handled, says (lit "§6§lServer TPS (Ticks Per Second)" :: map (tps_line env) [5; 10; 20; 30] ++
                  [lit "§7Online players: §f" ++ number (Z.of_nat (length (sessions env)))])).

Definition handle_register (env : CommandEnv) : CommandResult * Output :=
  (Handled, says
     match link_reply env with
     | NoToken => [lit "§cAccount linking is not configured on this server."]
     | Unreachable => [lit "§cCould not reach the registration service. Try again later."]
     | LinkCode [] => [lit "§cCould not generate a code, please try again later."]
     | LinkCode code => [lit "§aAccount linking code generated!"; lit "§7Your code: §f§l" ++ code;
                         lit "§7Go to §bkojacoord.net/signup §7and enter it within 15 minutes."]
     end).

Definition apply_command_response (resp : PluginResponse) : Output :=
  match resp with
  | PR_None | PR_Cancel => says []
  | PR_Message msg => says [msg]
  | PR_Broadcast msg => mkOutput [] [Broadcast msg]
  | PR_KickPlayer uuid reason => mkOutput [] [Kick uuid (red_text reason)]
  | PR_Custom => says []
  | PR_UpdatePlayerSample _ | PR_PermissionResult => says []
  end.

Definition dispatch_plugin_command (env : CommandEnv) (cmd : bytes) (parts : list bytes) (session : PlayerSession) : CommandResult * Output :=
  match find_command (plugins env) cmd with
  | None => (NotACommand, says [])
  | Some permission =>
      let sender := mkSender (Some (ps_uuid session)) (ps_username session) (option_list permission) false in
      match dispatch_command (plugins env) cmd (drop 1 parts) sender with
      | Some (Some resp) => (Handled, apply_command_response resp)
      | Some None => (Handled, says [])
      | None => (Handled, says [lit "§cThat command failed. Check the console for details."])
      end
  end.

Definition handle_command (env : CommandEnv) (input : bytes) (session : PlayerSession) : CommandResult * Output :=
  let trimmed := trim_start_slashes input in
  let parts := splitn 5 x20 trimmed in
  let cmd := to_lowercase (default [] (parts !! 0%nat)) in
  if negb (is_proxy_command trimmed) then dispatch_plugin_command env cmd parts session
  else
    let among l := bool_decide (cmd ∈ map lit l) in
    if among ["server"; "servers"]%string then handle_server env parts session
    else if among ["hub"; "lobby"; "spawn"]%string then handle_hub env session
    else if among ["glist"; "list"]%string then handle_glist env
    else if among ["find"]%string then handle_find env parts
    else if among ["koja"; "kojacoord"]%string then handle_koja session
    else if among ["register"]%string then handle_register env
    else if among ["gplugins"]%string then handle_plugins env
    else if among ["gtps"]%string then handle_gtps env
    else (NotACommand, says []).

(** ** Lemmas *)

Definition plain_char (c : Z) : Prop := char_ok c /\ Snbt.is_whitespace c = false.

Lemma chars_of_word cs rest : Forall plain_char cs -> chars_of (utf8 cs ++ x20 :: rest) = cs ++ 0x20 :: chars_of rest.
Proof.
  intros Hcs. induction Hcs as [|c cs [Hok _] _ IH].
  - cbn [utf8 map concat app]. change (x20 :: rest) with (utf8_char 0x20 ++ rest). rewrite chars_of_char; [done|unfold char_ok; lia].
  - unfold utf8. cbn [map concat]. rewrite <- app_assoc, chars_of_char by done. cbn [app]. f_equal. exact IH.
Qed.

Lemma first_word_lit cs rest : cs <> [] -> Forall plain_char cs -> first_word (utf8 cs ++ x20 :: rest) = utf8 cs.
Proof.
  intros Hne Hcs. unfold first_word. rewrite chars_of_word by done.
  assert (Ht : trim_start (cs ++ 0x20 :: chars_of rest) = cs ++ 0x20 :: chars_of rest).
  { destruct Hcs as [|c cs' [_ Hw] _]; [done|]. unfold trim_start. cbn [app Snbt.span_len]. by rewrite Hw. }
  rewrite Ht. f_equal. clear Ht Hne. induction Hcs as [|c cs [_ Hw] _ IH]; [done|]. cbn [app Snbt.span_len]. rewrite Hw. cbn [negb take]. by rewrite IH.
Qed.

Lemma push_player_entries server name m :
  Permutation (concat (map (fun e => map (pair e.1) e.2) (push_player server name m)))
              ((server, name) :: concat (map (fun e => map (pair e.1) e.2) m)).
Proof.
  induction m as [|[k v] m IH]; [done|]. cbn [push_player]. destruct (bool_decide_reflect (k = server)) as [->|Hne]; cbn [map concat fst snd].
  - rewrite map_app, <- app_assoc. cbn [map app]. symmetry. apply Permutation_middle.
  - rewrite IH. symmetry. apply Permutation_middle.
Qed.
Lemma push_player_keys server name m : NoDup (map fst m) ->
  NoDup (map fst (push_player server name m)) /\ (forall k, k ∈ map fst (push_player server name m) -> k = server \/ k ∈ map fst m).
Proof.
  induction m as [|[k v] m IH]; intros Hnd.
  - split; [apply NoDup_singleton|]. intros k Hk. left. by apply list_elem_of_singleton in Hk.
  - apply NoDup_cons in Hnd as [Hk Hnd]. destruct (IH Hnd) as [H1 H2]. cbn [push_player].
    destruct (bool_decide_reflect (k = server)) as [->|Hne]; cbn [map fst].
    + split; [by apply NoDup_cons|]. intros k' Hk'. by right.
    + split; [apply NoDup_cons; split; [|done]; intros Hin; destruct (H2 _ Hin); done|].
      intros k' [->|Hk']%elem_of_cons; [right; left|]. destruct (H2 _ Hk'); [by left|right; by right].
Qed.

Definition readable (l : Sessions) : list PlayerSession := map fst (filter (fun e => e.2 = true) l).

Lemma by_server_spec l :
  NoDup (map fst (by_server l)) /\
  Permutation (concat (map (fun e => map (pair e.1) e.2) (by_server l)))
              (map (fun s => (server_of s, ps_username s)) (readable l)).
Proof.
  unfold by_server, readable. rewrite <- (rev_involutive l). induction (rev l) as [|[s r] l' IH]; [split; [constructor|done]|].
  cbn [rev]. rewrite fold_left_app. cbn [fold_left]. destruct IH as [IH1 IH2]. rewrite filter_app, map_app, map_app.
  destruct r; cbn [fold_left].
  - split; [by apply push_player_keys|]. rewrite push_player_entries, IH2. rewrite filter_cons_True by done. cbn [filter list_filter map fst].
    apply Permutation_cons_append.
  - rewrite filter_cons_False by done. cbn [filter list_filter map]. rewrite app_nil_r. done.
Qed.

(** The words of the proxy's own commands. *)
Lemma proxy_words : Forall (fun label => exists cs, label = utf8 cs /\ cs <> [] /\ Forall plain_char cs) PROXY_COMMANDS.
Proof.
  assert (H : forall w : string, bool_decide (utf8 (chr w) = lit w /\ chr w <> [] /\ Forall (fun c => 0 <= c < 0xD800 /\ Snbt.is_whitespace c = false) (chr w)) = true ->
    exists cs, lit w = utf8 cs /\ cs <> [] /\ Forall plain_char cs).
  { intros w (H1 & H2 & H3)%bool_decide_eq_true_1. exists (chr w). split; [done|]. split; [done|].
    apply (Forall_impl _ _ _ H3). intros c [Hc Hw]. split; [by left|done]. }
  unfold PROXY_COMMANDS. repeat (apply Forall_cons; split; [apply H; vm_compute; reflexivity|]). by apply Forall_nil.
Qed.

(** ** Properties *)

(** Which commands the proxy keeps.  A line whose first word is one of the
    proxy's commands is answered by the proxy, whatever follows the blank after
    it, and is never passed on to a plugin or to the backend; any other line is
    offered to the plugins, and goes to the backend exactly when no plugin has
    the command. *)
Theorem proxy_commands_kept (env : CommandEnv) (session : PlayerSession) :
  (forall l, l ∈ PROXY_COMMANDS -> to_lowercase l = l) ->
  (forall label args, label ∈ PROXY_COMMANDS -> (handle_command env (x2f :: label ++ x20 :: args) session).1 <> NotACommand) /\
  (forall input, is_proxy_command (trim_start_slashes input) = false ->
     ((handle_command env input session).1 = NotACommand <->
      find_command (plugins env) (to_lowercase (default [] (splitn 5 x20 (trim_start_slashes input) !! 0%nat))) = None)).
Proof.
  intros Hlow. split.
  - intros label args Hin.
    destruct (proj1 (Forall_forall _ _) proxy_words label Hin) as (cs & -> & Hne & Hcs).
    assert (Htrim : trim_start_slashes (x2f :: utf8 cs ++ x20 :: args) = utf8 cs ++ x20 :: args).
    { cbn [trim_start_slashes]. rewrite bool_decide_eq_true_2 by done. unfold PROXY_COMMANDS in Hin.
      clear -Hin. cbn [map] in Hin. repeat (apply elem_of_cons in Hin as [->|Hin]; [reflexivity|]). by apply elem_of_nil in Hin. }
    unfold handle_command. rewrite Htrim. unfold is_proxy_command. rewrite first_word_lit by done. rewrite Hlow by done.
    rewrite bool_decide_eq_true_2 by done. cbn [negb].
    assert (Hparts : splitn 5 x20 (utf8 cs ++ x20 :: args) !! 0%nat = Some (utf8 cs)).
    { clear -Hin. unfold PROXY_COMMANDS in Hin. cbn [map] in Hin. repeat (apply elem_of_cons in Hin as [->|Hin]; [reflexivity|]). by apply elem_of_nil in Hin. }
    rewrite Hparts. cbn [default]. unfold id. rewrite Hlow by done.
    assert (Hs : forall p, (handle_server env p session).1 <> NotACommand).
    { intros p. unfold handle_server. repeat case_match; done. }
    assert (Hh : (handle_hub env session).1 <> NotACommand) by (unfold handle_hub; repeat case_match; done).
    assert (Hf : forall p, (handle_find env p).1 <> NotACommand) by (intros p; unfold handle_find; repeat case_match; done).
    clear Hparts Htrim Hne Hcs. unfold PROXY_COMMANDS in Hin. cbn [map] in Hin.
    repeat (apply elem_of_cons in Hin as [E|Hin]; [rewrite E; cbn -[handle_server handle_hub handle_find handle_glist handle_koja handle_register handle_plugins handle_gtps splitn]; first [apply Hs|apply Hh|apply Hf|done]|]).
    by apply elem_of_nil in Hin.
  - intros input Hn. unfold handle_command. rewrite Hn. cbn [negb]. unfold dispatch_plugin_command.
    destruct (find_command _ _) as [perm|]; [|done]. destruct (dispatch_command _ _ _ _) as [[]|]; done.
Qed.

(** A command can only move a player to a server that exists and is not the
    one the player is on; [/server] also requires it to be online, the other
    switch goes to the first configured server. *)
Theorem command_switch_safe (env : CommandEnv) (input : bytes) (session : PlayerSession) (target : bytes) :
  (handle_command env input session).1 = Switch target ->
  exists backend, registry_get target (registry env) = Some backend /\ ps_current_server session <> Some target /\
    (bs_online backend = true \/ target = match config_servers env with s :: _ => s | [] => lit "lobby" end).
Proof.
  intros H. unfold handle_command in H. destruct (negb _).
  { exfalso. revert H. unfold dispatch_plugin_command. repeat case_match; done. }
  assert (Hserver : forall parts, (handle_server env parts session).1 = Switch target ->
    exists backend, registry_get target (registry env) = Some backend /\ ps_current_server session <> Some target /\ bs_online backend = true).
  { intros parts Hs. unfold handle_server in Hs. destruct parts as [|? [|[|b t] ?]]; try done.
    destruct (registry_get (b :: t) (registry env)) as [backend|] eqn:Er; [|discriminate Hs]. destruct (bs_online backend) eqn:Eo; [|discriminate Hs]. cbn [negb] in Hs.
    unfold here in Hs. destruct (bool_decide_reflect (ps_current_server session = Some (b :: t))) as [|Hne]; [discriminate Hs|]. injection Hs as <-.
    by exists backend. }
  repeat match type of H with context [if ?b then _ else _] => destruct b end; try done.
  - destruct (Hserver _ H) as (backend & H1 & H2 & H3). exists backend. split_and!; [done|done|by left].
  - unfold handle_hub in H. set (d := match config_servers env with s :: _ => s | [] => lit "lobby" end) in *.
    destruct (registry_get d (registry env)) as [backend|] eqn:Er; [|discriminate H]. unfold here in H.
    destruct (bool_decide_reflect (ps_current_server session = Some d)) as [|Hne]; [discriminate H|]. injection H as <-.
    exists backend. split_and!; [done|done|by right].
  - exfalso. revert H. unfold handle_find. repeat case_match; done.
Qed.

(** [/glist] lists every player once.  Whatever order the hash map has, the
    servers named are distinct and the players under them are the readable
    sessions, each once and under its own server; the count is that of all
    sessions. *)
Theorem glist_complete (env : CommandEnv) :
  (forall m, Permutation (map_order m) m) ->
  exists entries, messages (handle_glist env).2 =
      (lit "§6§lKojacoordNetwork §7— §f" ++ number (Z.of_nat (length (sessions env))) ++ lit " §7player" ++
       (if (length (sessions env) =? 1)%nat then [] else lit "s") ++ lit " online") :: map glist_line entries /\
    NoDup (map fst entries) /\
    Permutation (concat (map (fun e => map (pair e.1) e.2) entries))
                (map (fun s => (server_of s, ps_username s)) (readable (sessions env))).
Proof.
  intros Ho. exists (map_order (by_server (sessions env))). split; [done|].
  destruct (by_server_spec (sessions env)) as [H1 H2]. specialize (Ho (by_server (sessions env))). split.
  - rewrite Ho. done.
  - rewrite <- H2. rewrite Ho. done.
Qed.

End Commands.

(** ** Examples *)

Definition no_plugins : PluginManager := mkPluginManager (fun _ => None) (fun _ _ _ => None) [].
Definition sample_backend (name : string) (online : bool) : BackendServer := mkBackend (lit name) online 3 0 1 0 [] 0 0 0 false Routing.sample_settings.
Definition sample_session : PlayerSession :=
  mkSession (repeat x11 16) (lit "Vakea") (V4 [x7f; x00; x00; x01]) 767 Play (Some (lit "lobby")) false [] None None ∅.
Definition sample_env : CommandEnv :=
  mkCommandEnv [sample_backend "lobby" true; sample_backend "games" true] [(sample_session, true)] [lit "lobby"] no_plugins
    (fun _ => lit "20.0") (fun _ _ => false) NoToken.

Lemma proxy_commands_kept_witness :
  (forall l, l ∈ PROXY_COMMANDS -> (fun s : bytes => s) l = l) /\
  (handle_command (fun s => s) (fun s => s) (fun m => m) sample_env (x2f :: lit "server" ++ x20 :: lit "games") sample_session).1 <> NotACommand.
Proof.
  assert (H : forall l, l ∈ PROXY_COMMANDS -> (fun s : bytes => s) l = l) by reflexivity.
  split; [exact H|]. destruct (proxy_commands_kept (fun s => s) (fun s => s) (fun m => m) sample_env sample_session H) as [Hk _].
  apply Hk. left.
Defined.

Lemma command_switch_safe_witness :
  (handle_command (fun s => s) (fun s => s) (fun m => m) sample_env (lit "/server games") sample_session).1 = Switch (lit "games") /\
  exists backend, registry_get (lit "games") (registry sample_env) = Some backend /\ ps_current_server sample_session <> Some (lit "games") /\
    (bs_online backend = true \/ lit "games" = match config_servers sample_env with s :: _ => s | [] => lit "lobby" end).
Proof.
  assert (H : (handle_command (fun s => s) (fun s => s) (fun m => m) sample_env (lit "/server games") sample_session).1 = Switch (lit "games"))
    by (vm_compute; reflexivity).
  split; [exact H|]. exact (command_switch_safe _ _ _ _ _ _ _ H).
Defined.

Lemma glist_complete_witness :
  (forall m : list (bytes * list bytes), Permutation ((fun x => x) m) m) /\
  exists entries, messages (handle_glist (fun m => m) sample_env).2 =
      (lit "§6§lKojacoordNetwork §7— §f" ++ number (Z.of_nat (length (sessions sample_env))) ++ lit " §7player" ++
       (if (length (sessions sample_env) =? 1)%nat then [] else lit "s") ++ lit " online") :: map glist_line entries /\
    NoDup (map fst entries) /\
    Permutation (concat (map (fun e => map (pair e.1) e.2) entries))
                (map (fun s => (server_of s, ps_username s)) (readable (sessions sample_env))).
Proof.
  assert (H : forall m : list (bytes * list bytes), Permutation ((fun x => x) m) m) by reflexivity.
  split; [exact H|]. exact (glist_complete (fun m => m) sample_env H).
Defined.

(** A line whose first word ends in another kind of white space is taken for a
    proxy command, is not offered to plugins, and is still not answered: the two
    ways of finding the first word disagree. *)
Theorem tab_after_command :
  let line := lit "/server" ++ [x09] ++ lit "games" in
  is_proxy_command (fun s => s) (trim_start_slashes line) = true /\
  handle_command (fun s => s) (fun s => s) (fun m => m) sample_env line sample_session = (NotACommand, says []).
Proof. split; vm_compute; reflexivity. Qed.
