(* ===== verification/Proxy.v ===== *)
(** * The state the connections share

    crates/proxy-core/src/proxy.rs: the ring of packet times behind /gtps, the
    queues towards the players, kicking and messaging, the answers and commands of
    plugins, evacuation of a server and the hot reload of the server list.  JSON
    text, address syntax, the locks [try_read] meets and the iteration order of the
    session table are parameters. *)
From Stdlib Require Import ZArith Lia Strings.String Strings.Byte Sorting.Permutation.
From stdpp Require Import base list numbers strings gmap.
From S2P Require Import Prelude Buf Wire VarInt Codec IpAddr Routing Chars Utf8 Negotiation Registry RegistryData.
From S2P Require Import Modloader Builders Transfer Commands.
Local Open Scope Z_scope.
Local Open Scope koja_scope.

(** ** Packet rate *)

Definition EMPTY_SLOT : Z := 0.
Definition RING_SIZE : Z := 32768.

Record TpsTracker := mkTps { slots : list Z; cursor : Z }.
Definition TpsTracker_new : TpsTracker := mkTps (replicate (Z.to_nat RING_SIZE) EMPTY_SLOT) 0.

(** [micros]: the time since the tracker was made. *)
Definition record_packet (micros : Z) (t : TpsTracker) : TpsTracker :=
  let idx := cursor t mod RING_SIZE in
  let val := if micros =? EMPTY_SLOT then 1 else micros in
  mkTps (<[Z.to_nat idx := val]> (slots t)) (wrapu 64 (cursor t + 1)).

(** The packets [calculate_tps] counts; the rate is [20.0] for none of them, and
    otherwise their number over the length of the window. *)
Definition counts (cutoff val : Z) : bool := negb (val =? EMPTY_SLOT) && (cutoff <=? val).
Definition tps_cutoff (window_seconds now_micros : Z) : Z :=
  Z.max 0 (now_micros - wrapu 64 (window_seconds * 1000000)).
Definition calculate_tps (window_seconds now_micros : Z) (t : TpsTracker) : option Z :=
  let count := Z.of_nat (length (filter (fun v => counts (tps_cutoff window_seconds now_micros) v = true) (slots t))) in
  if count =? 0 then None else Some count.

(** ** Player counts *)

(** [fetch_add] and [fetch_sub] on the count of a registered server: an
    [AtomicUsize] wraps. *)
Definition with_count (n : Z) (s : BackendServer) : BackendServer :=
  mkBackend (bs_name s) (bs_online s) n (bs_max_players s) (bs_weight s) (bs_last_latency_ms s) (bs_region s)
    (bs_health_probe_interval_secs s) (bs_health_probe_fail_threshold s) (bs_health_fail_count s) (bs_health_unhealthy s) (bs_settings s).
Definition count_by (d : Z) (name : bytes) (r : ServerRegistry) : ServerRegistry :=
  map (fun s => if bool_decide (bs_name s = name) then with_count (wrapu 64 (bs_player_count s + d)) s else s) r.

Definition with_server (server : option bytes) (transferred : bool) (s : PlayerSession) : PlayerSession :=
  mkSession (ps_uuid s) (ps_username s) (ps_client_ip s) (ps_protocol_version s) (ps_state s) server transferred
    (ps_properties s) (ps_locale s) (ps_view_distance s) (ps_cookies s).

(** Leaving a server: the old one of a session, when it has one. *)
Definition leave (s : PlayerSession) (r : ServerRegistry) : ServerRegistry :=
  match ps_current_server s with Some old => count_by (-1) old r | None => r end.

(** ** State *)

(** The sending half of a player's channel: what was queued, and whether the relay
    still receives. *)
Record Channel := mkChannel { ch_queue : list bytes; ch_open : bool }.
Record LimboCustomization := mkLimboCustomization { welcome_message : option bytes; bossbar_title : option bytes; spawn : option (Z * Z * Z) }.
Record ProxyState := mkProxy {
  px_sessions : gmap bytes PlayerSession; px_outbound : gmap bytes Channel; px_servers : ServerRegistry;
  px_config_servers : list ServerEntry; px_limbo : LimboCustomization }.

Definition px_set_sessions x st := mkProxy x (px_outbound st) (px_servers st) (px_config_servers st) (px_limbo st).
Definition px_set_outbound x st := mkProxy (px_sessions st) x (px_servers st) (px_config_servers st) (px_limbo st).
Definition px_set_servers x st := mkProxy (px_sessions st) (px_outbound st) x (px_config_servers st) (px_limbo st).
Definition px_set_limbo x st := mkProxy (px_sessions st) (px_outbound st) (px_servers st) (px_config_servers st) x.

Inductive PluginCommand :=
  | RegisterServer (name address : bytes) (port max_players : Z)
  | DeregisterServer (name : bytes)
  | TransferPlayer (uuid server : bytes)
  | KickPlayer (uuid reason : bytes)
  | SendSystemMessage (uuid message : bytes)
  | BroadcastMessage (message : bytes)
  | SetLimboCustomization (c : LimboCustomization).

Abbreviation Px A := (M ProxyState ProtocolError A).
Definition px_modify (f : ProxyState -> ProxyState) : Px unit := fun st => (Ok tt, f st).
Definition px_lift {A} (o : outcome ProtocolError A) : Px A := fun st => (o, st).
Fixpoint for_each {A} (f : A -> Px unit) (l : list A) : Px unit :=
  match l with [] => ret tt | x :: l => f x;; for_each f l end.

Section Proxy.
(** serde_json, and [SocketAddr]'s parser. *)
Variable json_parse : bytes -> option Value.
Variable json_text : Value -> bytes.
Variable parse_addr : bytes -> option (IpAddr * Z).
(** Whether a session is locked for writing when [try_read] meets it. *)
Variable locked : bytes -> bool.
(** The order in which the session table is iterated. *)
Variable session_order : gmap bytes PlayerSession -> list bytes.

(** ** Messages *)

Definition send_to_player (uuid packet : bytes) : Px bool := fun st =>
  match px_outbound st !! uuid with
  | Some ch => if ch_open ch then (Ok true, px_set_outbound (<[uuid := mkChannel (ch_queue ch ++ [packet]) true]> (px_outbound st)) st) else (Ok false, st)
  | None => (Ok false, st)
  end.

(** The protocol of a player whose session can be read at once. *)
Definition readable_proto (uuid : bytes) (st : ProxyState) : option Z :=
  match px_sessions st !! uuid with
  | Some s => if locked uuid then None else Some (ps_protocol_version s)
  | None => None
  end.

Definition kick_player (uuid reason_json : bytes) : Px unit :=
  let! st := get_state in
  match readable_proto uuid st with
  | Some proto => let! pkt := px_lift (build_disconnect_packet json_parse reason_json proto) in send_to_player uuid pkt;; ret tt
  | None => ret tt
  end.

Definition send_system_message_to (uuid text : bytes) : Px unit :=
  let! st := get_state in
  match readable_proto uuid st with
  | Some proto => let! raw := px_lift (build_system_message_packet json_parse json_text text proto) in send_to_player uuid raw;; ret tt
  | None => ret tt
  end.

Definition broadcast_system_message (text : bytes) : Px unit :=
  let! st := get_state in for_each (fun uuid => send_system_message_to uuid text) (session_order (px_sessions st)).

(** ** Answers of plugins *)

Definition red_json (reason : bytes) : bytes :=
  json_text (JObject [(chr "text", JString (chars_of reason)); (chr "color", JString (chr "red"))]).

Definition response_effects (subject : option bytes) (r : PluginResponse) : list Effect :=
  match r with
  | PR_Message msg => match subject with Some uuid => [Tell uuid msg] | None => [] end
  | PR_Broadcast msg => [Broadcast msg]
  | PR_KickPlayer uuid reason => [Kick uuid (red_json reason)]
  | PR_None | PR_Cancel | PR_Custom | PR_UpdatePlayerSample _ | PR_PermissionResult => []
  end.
Definition kicks (subject : option bytes) (r : PluginResponse) : bool :=
  match r with PR_KickPlayer uuid _ => bool_decide (Some uuid = subject) | _ => false end.

(** [dispatch_plugin_event] on what the plugins answered: the effects in order, and
    whether the subject of the event was kicked. *)
Definition dispatch_plugin_event (subject : option bytes) (responses : list PluginResponse) : list Effect * bool :=
  (concat (map (response_effects subject) responses), existsb (kicks subject) responses).

Definition run_effect (e : Effect) : Px unit :=
  match e with
  | Broadcast msg => broadcast_system_message msg
  | Kick uuid json => kick_player uuid json
  | Tell uuid msg => send_system_message_to uuid msg
  | Notify _ _ _ => ret tt
  end.

(** ** Commands of plugins *)

Definition evacuation_reason : bytes :=
  let q := [x22] in
  lit "{" ++ q ++ lit "text" ++ q ++ lit ":" ++ q ++ lit "§cThe server you were on has shut down. Reconnecting you to the lobby..." ++ q ++ lit "}".

Definition evacuate_one (from_server to_server uuid : bytes) : Px nat := fun st =>
  match px_sessions st !! uuid with
  | Some s =>
      if bool_decide (ps_current_server s = Some from_server) then
        (px_modify (px_set_sessions (<[uuid := with_server (Some to_server) (ps_transferred s) s]> (px_sessions st)));;
         px_modify (px_set_servers (count_by 1 to_server (count_by (-1) from_server (px_servers st))));;
         kick_player uuid evacuation_reason;; ret 1%nat) st
      else (Ok 0%nat, st)
  | None => (Ok 0%nat, st)
  end.
Fixpoint evacuate_each (from_server to_server : bytes) (snapshot : list bytes) : Px nat :=
  match snapshot with
  | [] => ret 0%nat
  | uuid :: snapshot =>
      let! n := evacuate_one from_server to_server uuid in
      let! m := evacuate_each from_server to_server snapshot in ret (n + m)%nat
  end.
Definition evacuate_players (from_server to_server : bytes) : Px nat :=
  let! st := get_state in evacuate_each from_server to_server (session_order (px_sessions st)).

Definition plugin_server (name : bytes) (addr : IpAddr * Z) (max_players : Z) : BackendServer :=
  mkBackend name true 0 max_players 1 0 [] 0 3 0 false (mkSettings addr false None Spigot 0 [] 5).

Definition process_plugin_command (cmd : PluginCommand) : Px unit :=
  let! st := get_state in
  match cmd with
  | RegisterServer name address port max_players =>
      match parse_addr (address ++ lit ":" ++ number port) with
      | None => ret tt
      | Some addr =>
          let r := match registry_get name (px_servers st) with Some _ => registry_remove name (px_servers st) | None => px_servers st end in
          px_modify (px_set_servers (registry_register (plugin_server name addr max_players) r))
      end
  | DeregisterServer name =>
      match registry_get name (px_servers st) with
      | Some _ =>
          let default_server := match px_config_servers st with s :: _ => se_name s | [] => lit "lobby" end in
          evacuate_players name default_server;;
          px_modify (fun st => px_set_servers (registry_remove name (px_servers st)) st)
      | None => ret tt
      end
  | TransferPlayer uuid server =>
      match px_sessions st !! uuid with
      | Some target =>
          px_modify (px_set_servers (count_by 1 server (leave target (px_servers st))));;
          px_modify (px_set_sessions (<[uuid := with_server (Some server) (ps_transferred target) target]> (px_sessions st)))
      | None => ret tt
      end
  | KickPlayer uuid reason => kick_player uuid (json_text (JObject [(chr "text", JString (chars_of reason))]))
  | SendSystemMessage uuid message => send_system_message_to uuid message
  | BroadcastMessage message => broadcast_system_message message
  | SetLimboCustomization c => px_modify (px_set_limbo c)
  end.

(** ** Hot reload *)

Definition entry_server (s : ServerEntry) (addr : IpAddr * Z) (player_count : Z) (online : bool) : BackendServer :=
  mkBackend (se_name s) online player_count (default 0 (se_max_players s)) (se_weight s) 0 (se_region s)
    (se_health_probe_interval_secs s) (se_health_probe_fail_threshold s) 0 false
    (mkSettings addr (se_restricted s) (se_forwarding_override s) (se_backend_type s) (se_compression_threshold s) (se_cipher_suites s) (se_health_probe_timeout_secs s)).

Definition needs_update (existing : BackendServer) (s : ServerEntry) (addr : IpAddr * Z) : bool :=
  let o := bs_settings existing in
  negb (bool_decide (st_address o = addr)) || negb (bool_decide (st_restricted o = se_restricted s)) ||
  negb (bool_decide (st_forwarding_override o = se_forwarding_override s)) || negb (bool_decide (st_backend_type o = se_backend_type s)).

Definition reload_entry (r : ServerRegistry) (s : ServerEntry) : ServerRegistry :=
  match parse_addr (se_address s) with
  | None => r
  | Some addr =>
      match registry_get (se_name s) r with
      | Some existing =>
          if needs_update existing s addr then registry_register (entry_server s addr (bs_player_count existing) (bs_online existing)) r else r
      | None => registry_register (entry_server s addr 0 true) r
      end
  end.
Definition reload_servers (new_config : list ServerEntry) (r : ServerRegistry) : ServerRegistry :=
  let r := fold_left reload_entry new_config r in
  filter (fun s => bs_name s ∈ map se_name new_config) r.
End Proxy.

(** ** The ring holds the last packets *)

(** What was recorded, oldest first, with the empty slots in front. *)
Definition ring_window (history : list Z) : list Z := drop (length history) (replicate (Z.to_nat RING_SIZE) EMPTY_SLOT ++ history).
Definition stamp (micros : Z) : Z := if micros =? EMPTY_SLOT then 1 else micros.
Definition record_all (times : list Z) : TpsTracker := fold_left (fun t micros => record_packet micros t) times TpsTracker_new.

(** The ring read from its cursor. *)
Record ring_ok (history : list Z) (t : TpsTracker) : Prop := {
  ring_len : length (slots t) = Z.to_nat RING_SIZE;
  ring_pos : cursor t = wrapu 64 (Z.of_nat (length history));
  ring_rot : let c := Z.to_nat (cursor t mod RING_SIZE) in drop c (slots t) ++ take c (slots t) = ring_window history }.

Lemma window_snoc history v : ring_window (history ++ [v]) = tail (ring_window history) ++ [v].
Proof.
  unfold ring_window. rewrite length_app. cbn [length]. rewrite (app_assoc (replicate _ _)).
  set (l := replicate _ _ ++ history).
  assert (Hl : (length history < length l)%nat) by (unfold l, RING_SIZE; rewrite length_app, length_replicate; lia).
  rewrite drop_app_le by lia. f_equal. rewrite <- drop_drop. by destruct (drop (length history) l).
Qed.

Lemma rotate_insert (a b : list Z) x v :
  let l' := <[length a := v]> (a ++ x :: b) in
  drop (S (length a)) l' ++ take (S (length a)) l' = tail (drop (length a) (a ++ x :: b) ++ take (length a) (a ++ x :: b)) ++ [v].
Proof.
  cbn zeta. rewrite insert_app_r_alt, Nat.sub_diag by lia. cbn [insert list_insert].
  rewrite drop_app_length, take_app_length. cbn [app tail].
  replace (a ++ v :: b) with ((a ++ [v]) ++ b) by (by rewrite <- app_assoc).
  replace (S (length a)) with (length (a ++ [v])) by (rewrite length_app; cbn; lia).
  rewrite drop_app_length, take_app_length. apply app_assoc.
Qed.

Lemma ring_step history micros t : ring_ok history t -> ring_ok (history ++ [stamp micros]) (record_packet micros t).
Proof.
  intros [Hl Hp Hr]. unfold record_packet. fold (stamp micros).
  set (c := Z.to_nat (cursor t mod RING_SIZE)) in *.
  assert (Hc : 0 <= cursor t mod RING_SIZE < RING_SIZE) by (apply Z.mod_pos_bound; done).
  split; cbn [slots cursor].
  - by rewrite length_insert.
  - rewrite Hp, length_app. cbn [length]. unfold wrapu. rewrite Zplus_mod_idemp_l. f_equal. lia.
  - assert (Hn : wrapu 64 (cursor t + 1) mod RING_SIZE = (cursor t mod RING_SIZE + 1) mod RING_SIZE).
    { unfold wrapu. rewrite Zplus_mod_idemp_l. apply Z.mod_mod_divide. by exists (2 ^ 49). }
    rewrite window_snoc, <- Hr, Hn.
    assert (Hlt : (c < length (slots t))%nat) by (unfold c; lia).
    destruct (lookup_lt_is_Some_2 (slots t) c Hlt) as [x Hx].
    pose proof (rotate_insert (take c (slots t)) (drop (S c) (slots t)) x (stamp micros)) as Hrot. cbn zeta in Hrot.
    rewrite length_take_le, take_drop_middle in Hrot by (done || lia). rewrite <- Hrot.
    destruct (decide (cursor t mod RING_SIZE + 1 = RING_SIZE)) as [E|E].
    + rewrite E, Z_mod_same_full. cbn [Z.to_nat take drop]. rewrite app_nil_r.
      assert (Hs : S c = length (<[c := stamp micros]> (slots t))) by (rewrite length_insert; unfold c; lia).
      rewrite Hs, drop_all, firstn_all. done.
    + rewrite Z.mod_small by lia. replace (Z.to_nat (cursor t mod RING_SIZE + 1)) with (S c) by (unfold c; lia). done.
Qed.

Lemma record_all_ok times : ring_ok (map stamp times) (record_all times).
Proof.
  unfold record_all. rewrite <- (rev_involutive times). induction (rev times) as [|micros l IH]; cbn [rev].
  - split; [apply length_replicate|done|]. change (cursor _ mod RING_SIZE) with 0. cbn [Z.to_nat drop take fold_left slots TpsTracker_new map].
    unfold ring_window. cbn [length drop]. done.
  - rewrite map_app, fold_left_app. cbn [map fold_left]. by apply ring_step.
Qed.

Lemma counts_stamp cutoff micros : counts cutoff (stamp micros) = (cutoff <=? stamp micros).
Proof. unfold counts, stamp, EMPTY_SLOT. by destruct (Z.eqb_spec micros 0) as [->|H]; [|apply Z.eqb_neq in H as ->]. Qed.

Lemma filter_counts_window cutoff times :
  filter (fun v => counts cutoff v = true) (ring_window (map stamp times)) =
  filter (fun v => cutoff <= v) (drop (length times - Z.to_nat RING_SIZE) (map stamp times)).
Proof.
  unfold ring_window. rewrite length_map, drop_app, drop_replicate, length_replicate, filter_app.
  replace (filter _ (replicate _ _)) with (@nil Z); [cbn [app]|].
  - set (l := drop _ (map stamp times)).
    assert (Hl : Forall (fun v => exists micros, v = stamp micros) l).
    { apply Forall_drop, Forall_forall. intros v (m & -> & _)%list_elem_of_fmap. by exists m. }
    induction Hl as [|v l [m ->] _ IH]; [done|].
    destruct (decide (cutoff <= stamp m)).
    + rewrite !filter_cons_True, IH; [done|done|]. rewrite counts_stamp. by apply Z.leb_le.
    + rewrite !filter_cons_False, IH; [done|done|]. rewrite counts_stamp. intros ?%Z.leb_le. done.
  - induction (Z.to_nat RING_SIZE - length times)%nat as [|n IH]; [done|]. cbn [replicate]. by rewrite filter_cons_False.
Qed.

(** The lock-free packet ring behind /gtps.  After any number of packets the
    rate over a window is computed from exactly those of the last 32768 packets
    whose time stamp is not before the window; 20 is reported when there are none. *)
Theorem tps_counts_window (times : list Z) (window_seconds now_micros : Z) :
  let cutoff := tps_cutoff window_seconds now_micros in
  let recent := drop (length times - Z.to_nat RING_SIZE) (map stamp times) in
  let n := length (filter (fun v => cutoff <= v) recent) in
  calculate_tps window_seconds now_micros (record_all times) = if (n =? 0)%nat then None else Some (Z.of_nat n).
Proof.
  cbn zeta. destruct (record_all_ok times) as [Hl _ Hr]. cbn zeta in Hr. unfold calculate_tps.
  set (cutoff := tps_cutoff _ _). rewrite <- filter_counts_window, <- Hr.
  set (c := Z.to_nat _). rewrite (filter_app _ (drop c _)), length_app.
  rewrite <- (take_drop c (slots (record_all times))) at 1. rewrite filter_app, length_app.
  set (a := length (filter _ (take _ _))). set (b := length (filter _ (drop _ _))).
  rewrite (Nat.add_comm b a). set (n := (a + b)%nat). rewrite <- (take_drop c (slots (record_all times))) at 1. rewrite filter_app, length_app. fold a b n.
  destruct (Nat.eqb_spec n 0) as [->|Hn]; [done|]. replace (Z.of_nat n =? 0) with false by (symmetry; apply Z.eqb_neq; lia). done.
Qed.

(** ** Counting players *)

Definition on_server (name : bytes) (e : bytes * PlayerSession) : Prop := ps_current_server e.2 = Some name.
#[export] Instance on_server_dec name e : Decision (on_server name e).
Proof. unfold on_server. apply _. Defined.
Definition occupancy (name : bytes) (m : gmap bytes PlayerSession) : nat := size (filter (on_server name) m).

(** The counts of the registered servers are [f], at their width. *)
Definition tally (r : ServerRegistry) (f : bytes -> Z) : Prop :=
  forall name b, registry_get name r = Some b -> bs_player_count b = wrapu 64 (f name).
(** The count of every registered server is the number of sessions on it. *)
Definition census (r : ServerRegistry) (m : gmap bytes PlayerSession) : Prop := tally r (fun name => Z.of_nat (occupancy name m)).

Definition here_one (name : bytes) (s : PlayerSession) : nat := if bool_decide (ps_current_server s = Some name) then 1%nat else 0%nat.

Lemma occupancy_fresh name m k s : m !! k = None -> occupancy name (<[k := s]> m) = (here_one name s + occupancy name m)%nat.
Proof.
  intros Hk. unfold occupancy, here_one. destruct (bool_decide_reflect (ps_current_server s = Some name)) as [E|E].
  - rewrite map_filter_insert_True by done. rewrite map_size_insert_None; [done|]. apply map_lookup_filter_None. by left.
  - rewrite map_filter_insert_False by done. by rewrite delete_id.
Qed.
Lemma occupancy_update name m k s s' : m !! k = Some s ->
  (occupancy name (<[k := s']> m) + here_one name s = here_one name s' + occupancy name m)%nat.
Proof.
  intros Hk. rewrite <- (insert_delete_id m k s Hk) at 2. rewrite <- (insert_delete_eq m k s').
  rewrite !occupancy_fresh by apply lookup_delete_eq. lia.
Qed.

Lemma registry_get_count d name other r :
  registry_get other (count_by d name r) =
    (fun s => if bool_decide (other = name) then with_count (wrapu 64 (bs_player_count s + d)) s else s) <$> registry_get other r.
Proof.
  unfold count_by. induction r as [|s r IH]; [done|]. cbn [map registry_get].
  destruct (bool_decide_reflect (bs_name s = name)) as [E|E]; cbn [bs_name with_count];
    (destruct (decide (bs_name s = other)) as [E'|E']; [|exact IH]); cbn [fmap option_fmap option_map].
  - rewrite bool_decide_eq_true_2 by congruence. done.
  - rewrite bool_decide_eq_false_2 by congruence. done.
Qed.

Lemma tally_ext r f g : (forall name, f name = g name) -> tally r f -> tally r g.
Proof. intros E Ht name b Hg. by rewrite <- E, (Ht _ _ Hg). Qed.
Lemma tally_count d n r f : tally r f -> tally (count_by d n r) (fun name => f name + if bool_decide (name = n) then d else 0).
Proof.
  intros Ht name b Hg. rewrite registry_get_count in Hg. destruct (registry_get name r) as [b0|] eqn:E; [|done]. cbn in Hg. injection Hg as <-.
  destruct (bool_decide (name = n)); cbn [bs_player_count with_count]; rewrite (Ht _ _ E).
  - unfold wrapu. apply Zplus_mod_idemp_l.
  - by rewrite Z.add_0_r.
Qed.
Lemma tally_leave s r f : tally r f -> tally (leave s r) (fun name => f name - Z.of_nat (here_one name s)).
Proof.
  intros Ht. unfold leave, here_one. destruct (ps_current_server s) as [old|].
  - apply (tally_ext _ (fun name => f name + if bool_decide (name = old) then -1 else 0)); [|by apply tally_count].
    intros name. destruct (bool_decide_reflect (name = old)) as [->|Hne].
    + rewrite bool_decide_eq_true_2 by done. lia.
    + rewrite bool_decide_eq_false_2 by congruence. lia.
  - apply (tally_ext _ f); [|done]. intros name. rewrite bool_decide_eq_false_2 by done. lia.
Qed.

Definition enter (s : PlayerSession) (r : ServerRegistry) : ServerRegistry :=
  match ps_current_server s with Some new => count_by 1 new r | None => r end.
Lemma tally_enter s r f : tally r f -> tally (enter s r) (fun name => f name + Z.of_nat (here_one name s)).
Proof.
  intros Ht. unfold enter, here_one. destruct (ps_current_server s) as [new|].
  - apply (tally_ext _ (fun name => f name + if bool_decide (name = new) then 1 else 0)); [|by apply tally_count].
    intros name. destruct (bool_decide_reflect (name = new)) as [->|Hne].
    + rewrite bool_decide_eq_true_2 by done. lia.
    + rewrite bool_decide_eq_false_2 by congruence. lia.
  - apply (tally_ext _ f); [|done]. intros name. rewrite bool_decide_eq_false_2 by done. lia.
Qed.

(** The census with debts: each name in [leaks] has one player too many. *)
Definition times (name : bytes) (leaks : list bytes) : nat := length (filter (fun n => n = name) leaks).
Definition owed (leaks : list bytes) (r : ServerRegistry) (m : gmap bytes PlayerSession) : Prop :=
  tally r (fun name => Z.of_nat (occupancy name m + times name leaks)).
Lemma owed_nil r m : owed [] r m <-> census r m.
Proof. split; apply tally_ext; intros name; cbn; f_equal; lia. Qed.

(** Moving one session: its old server is left and the new one, if any, entered. *)
Lemma owed_move leaks r m k s s' : owed leaks r m -> m !! k = Some s -> owed leaks (enter s' (leave s r)) (<[k := s']> m).
Proof.
  intros Hc Hk. eapply tally_ext; [|apply tally_enter, tally_leave, Hc].
  intros name. cbn beta. pose proof (occupancy_update name m k s s' Hk). lia.
Qed.
Lemma owed_transfer leaks r m k s server t : owed leaks r m -> m !! k = Some s ->
  owed leaks (count_by 1 server (leave s r)) (<[k := with_server (Some server) t s]> m).
Proof. exact (owed_move leaks r m k s (with_server (Some server) t s)). Qed.
Lemma owed_exit leaks r m k s t : owed leaks r m -> m !! k = Some s -> owed leaks (leave s r) (<[k := with_server None t s]> m).
Proof. exact (owed_move leaks r m k s (with_server None t s)). Qed.
(** A session that keeps its server changes no count; one that is taken off it
    without the count being given up leaves a debt. *)
Lemma owed_same_server leaks r m k s s' : owed leaks r m -> m !! k = Some s -> ps_current_server s' = ps_current_server s -> owed leaks r (<[k := s']> m).
Proof.
  intros Hc Hk Hs. eapply tally_ext; [|exact Hc]. intros name. cbn beta. pose proof (occupancy_update name m k s s' Hk) as H.
  unfold here_one in H. rewrite Hs in H. lia.
Qed.
Definition debt (s : PlayerSession) (leaks : list bytes) : list bytes := match ps_current_server s with Some name => name :: leaks | None => leaks end.
Lemma times_debt name s leaks : times name (debt s leaks) = (here_one name s + times name leaks)%nat.
Proof.
  unfold debt, here_one, times. destruct (ps_current_server s) as [n|]; [|by rewrite bool_decide_eq_false_2].
  rewrite filter_cons. destruct (decide (n = name)) as [->|Hne]; [by rewrite bool_decide_eq_true_2|by rewrite bool_decide_eq_false_2 by congruence].
Qed.
Lemma owed_abandon leaks r m k s t : owed leaks r m -> m !! k = Some s -> owed (debt s leaks) r (<[k := with_server None t s]> m).
Proof.
  intros Hc Hk. eapply tally_ext; [|exact Hc]. intros name. cbn beta. rewrite times_debt.
  pose proof (occupancy_update name m k s (with_server None t s) Hk) as H.
  assert (here_one name (with_server None t s) = 0%nat) by done. lia.
Qed.
Lemma owed_delete leaks r m k s : owed leaks r m -> m !! k = Some s -> owed (debt s leaks) r (delete k m).
Proof.
  intros Hc Hk. eapply tally_ext; [|exact Hc]. intros name. cbn beta. rewrite times_debt.
  pose proof (occupancy_fresh name (delete k m) k s (lookup_delete_eq _ _)) as H. rewrite insert_delete_id in H by done. lia.
Qed.
Lemma owed_insert leaks r m k s : owed leaks r m -> m !! k = None -> ps_current_server s = None -> owed leaks r (<[k := s]> m).
Proof.
  intros Hc Hk Hs. eapply tally_ext; [|exact Hc]. intros name. cbn beta. rewrite occupancy_fresh by done.
  unfold here_one. by rewrite Hs, bool_decide_eq_false_2.
Qed.
Lemma census_transfer r m k s server t : census r m -> m !! k = Some s ->
  census (count_by 1 server (leave s r)) (<[k := with_server (Some server) t s]> m).
Proof. rewrite <- !owed_nil. apply owed_transfer. Qed.
Lemma census_remove r m name : census r m -> census (registry_remove name r) m.
Proof.
  intros Hc other b Hg. apply Hc. rewrite get_remove in Hg. by destruct (decide (other = name)).
Qed.

(** ** Messages and tables *)

Definition push (pkt : bytes) (ch : Channel) : Channel := if ch_open ch then mkChannel (ch_queue ch ++ [pkt]) true else ch.

Lemma send_to_player_eq uuid pkt st :
  exists b, send_to_player uuid pkt st = (Ok b, px_set_outbound (alter (push pkt) uuid (px_outbound st)) st).
Proof.
  assert (Hsame : (forall ch, px_outbound st !! uuid = Some ch -> push pkt ch = ch) ->
            px_set_outbound (alter (push pkt) uuid (px_outbound st)) st = st).
  { intros H. rewrite alter_id by exact H. by destruct st. }
  unfold send_to_player. destruct (px_outbound st !! uuid) as [ch|] eqn:E; [destruct (ch_open ch) eqn:Eo|].
  - exists true. do 3 f_equal. apply map_eq. intros i. destruct (decide (i = uuid)) as [->|Hne].
    + rewrite lookup_insert_eq, lookup_alter_eq, E. cbn. unfold push. by rewrite Eo.
    + by rewrite lookup_insert_ne, lookup_alter_ne by done.
  - exists false. rewrite Hsame; [done|]. intros ch' [= <-]. unfold push. by rewrite Eo.
  - exists false. by rewrite Hsame.
Qed.

(** What a message does: it is put into the channel of the player, if any. *)
Definition tables_kept {A} (m : Px A) : Prop := forall st, px_sessions (m st).2 = px_sessions st /\ px_servers (m st).2 = px_servers st.

Section Messages.
Variable json_parse : bytes -> option Value.
Variable json_text : Value -> bytes.
Variable parse_addr : bytes -> option (IpAddr * Z).
Variable locked : bytes -> bool.
Variable session_order : gmap bytes PlayerSession -> list bytes.

Lemma tables_kept_bind {A B} (m : Px A) (k : A -> Px B) : tables_kept m -> (forall a, tables_kept (k a)) -> tables_kept (bind m k).
Proof.
  intros Hm Hk st. unfold bind. destruct (Hm st) as [H1 H2]. destruct (m st) as [[a| | |] st']; cbn [fst snd] in *; try done.
  destruct (Hk a st') as [H3 H4]. split; congruence.
Qed.
Lemma tables_kept_send uuid pkt : tables_kept (send_to_player uuid pkt).
Proof. intros st. destruct (send_to_player_eq uuid pkt st) as [b ->]. done. Qed.
Lemma tables_kept_for_each {A} (f : A -> Px unit) l : (forall x, tables_kept (f x)) -> tables_kept (for_each f l).
Proof. intros Hf. induction l as [|x l IH]; cbn [for_each]; [done|]. by apply tables_kept_bind. Qed.

Lemma tables_kept_kick uuid reason : tables_kept (kick_player json_parse locked uuid reason).
Proof.
  unfold kick_player. apply tables_kept_bind; [done|]. intros st0. destruct (readable_proto _ _ _); [|done].
  apply tables_kept_bind; [done|]. intros pkt. apply tables_kept_bind; [apply tables_kept_send|done].
Qed.
Lemma tables_kept_tell uuid text : tables_kept (send_system_message_to json_parse json_text locked uuid text).
Proof.
  unfold send_system_message_to. apply tables_kept_bind; [done|]. intros st0. destruct (readable_proto _ _ _); [|done].
  apply tables_kept_bind; [done|]. intros pkt. apply tables_kept_bind; [apply tables_kept_send|done].
Qed.
Lemma tables_kept_broadcast text : tables_kept (broadcast_system_message json_parse json_text locked session_order text).
Proof.
  unfold broadcast_system_message. apply tables_kept_bind; [done|]. intros st0. apply tables_kept_for_each. intros uuid. apply tables_kept_tell.
Qed.

(** ** Census *)

Definition px_census (st : ProxyState) : Prop := census (px_servers st) (px_sessions st).

Lemma px_census_kept {A} (m : Px A) st : tables_kept m -> px_census st -> px_census (m st).2.
Proof. intros Hm Hc. unfold px_census. destruct (Hm st) as [-> ->]. exact Hc. Qed.

Lemma census_evacuate_one from_server to_server uuid st : px_census st ->
  px_census (evacuate_one json_parse locked from_server to_server uuid st).2.
Proof.
  intros Hc. unfold evacuate_one. destruct (px_sessions st !! uuid) as [s|] eqn:E; [|done].
  destruct (bool_decide_reflect (ps_current_server s = Some from_server)) as [Ecur|]; [|done].
  unfold bind at 1 2, px_modify. cbn [fst snd px_set_sessions px_set_servers px_servers px_sessions].
  apply px_census_kept; [apply tables_kept_bind; [apply tables_kept_kick|done]|].
  unfold px_census. cbn [px_servers px_sessions px_set_sessions px_set_servers].
  pose proof (census_transfer _ _ _ _ to_server (ps_transferred s) Hc E) as H. unfold leave in H. by rewrite Ecur in H.
Qed.
Lemma census_evacuate_each from_server to_server l st : px_census st ->
  px_census (evacuate_each json_parse locked from_server to_server l st).2.
Proof.
  revert st. induction l as [|uuid l IH]; intros st Hc; cbn [evacuate_each]; [done|].
  pose proof (census_evacuate_one from_server to_server uuid st Hc) as H1. unfold bind.
  destruct (evacuate_one _ _ _ _ _ st) as [[n| | |] st1]; cbn [fst snd] in *; try done.
  pose proof (IH st1 H1) as H2. destruct (evacuate_each _ _ _ _ _ st1) as [[k| | |] st2]; done.
Qed.

(** C16: the player counts stay true.  If the count of every registered server is
    the number of sessions that are on it, it still is after any command a plugin
    sends, whether the command ends normally or a packet cannot be built; the one
    exception is registering a server under a name that players are on, which
    starts it at zero. *)
Theorem census_invariant (cmd : PluginCommand) (st : ProxyState) :
  px_census st ->
  match cmd with RegisterServer name _ _ _ => occupancy name (px_sessions st) = 0%nat | _ => True end ->
  px_census (process_plugin_command json_parse json_text parse_addr locked session_order cmd st).2.
Proof.
  intros Hc Hcmd. unfold process_plugin_command. unfold bind at 1. unfold get_state at 1.
  destruct cmd as [name address port mx|name|uuid server|uuid reason|uuid message|message|c].
  - destruct (parse_addr _) as [addr|]; [|done]. unfold px_census. cbn [snd px_modify px_servers px_sessions px_set_servers].
    intros other b. rewrite get_register. cbn [bs_name plugin_server]. destruct (decide (other = name)) as [->|Hne].
    + intros [= <-]. by rewrite Hcmd.
    + destruct (registry_get name (px_servers st)); [rewrite get_remove, decide_False by done|]; apply Hc.
  - destruct (registry_get name (px_servers st)) as [b|]; [|done].
    pose proof (census_evacuate_each name (match px_config_servers st with s :: _ => se_name s | [] => lit "lobby" end) (session_order (px_sessions st)) st Hc) as H.
    unfold evacuate_players, bind, get_state, px_modify. destruct (evacuate_each _ _ _ _ _ st) as [[n| | |] st']; try done.
    by apply census_remove.
  - destruct (px_sessions st !! uuid) as [s|] eqn:E; [|done]. unfold bind, px_modify, px_census.
    cbn [snd px_set_servers px_set_sessions px_servers px_sessions]. by apply census_transfer.
  - apply px_census_kept; [apply tables_kept_kick|done].
  - apply px_census_kept; [apply tables_kept_tell|done].
  - apply px_census_kept; [apply tables_kept_broadcast|done].
  - done.
Qed.
End Messages.

(** ** Who is reached *)

Section Delivery.
Variable json_parse : bytes -> option Value.
Variable json_text : Value -> bytes.
Variable parse_addr : bytes -> option (IpAddr * Z).
Variable locked : bytes -> bool.
Variable session_order : gmap bytes PlayerSession -> list bytes.
(** The session table hands out every key once. *)
Hypothesis session_order_keys : forall m, Permutation (session_order m) (map fst (map_to_list m)).

Lemma session_order_nodup m : NoDup (session_order m).
Proof. rewrite session_order_keys. apply NoDup_fst_map_to_list. Qed.
Lemma session_order_elem m uuid : uuid ∈ session_order m <-> is_Some (m !! uuid).
Proof.
  rewrite session_order_keys, list_elem_of_fmap. split.
  - intros ([k s] & -> & H%elem_of_map_to_list). by exists s.
  - intros [s H%elem_of_map_to_list]. by exists (uuid, s).
Qed.

(** What a player with session [s] gets of packet [raw s]. *)
Definition reach (raw : PlayerSession -> bytes) (m : gmap bytes PlayerSession) (uuid : bytes) (ch : Channel) : Channel :=
  match m !! uuid with Some s => if locked uuid then ch else push (raw s) ch | None => ch end.

Lemma tell_eq raw text uuid st :
  (forall s, px_sessions st !! uuid = Some s -> locked uuid = false -> build_system_message_packet json_parse json_text text (ps_protocol_version s) = Ok (raw s)) ->
  send_system_message_to json_parse json_text locked uuid text st =
    (Ok tt, px_set_outbound (alter (reach raw (px_sessions st) uuid) uuid (px_outbound st)) st).
Proof.
  intros Hb. unfold send_system_message_to, bind at 1, get_state, readable_proto, reach.
  assert (Hsame : px_set_outbound (alter (fun ch => ch) uuid (px_outbound st)) st = st) by (rewrite alter_id by done; by destruct st).
  destruct (px_sessions st !! uuid) as [s|] eqn:E; [|by rewrite Hsame]. destruct (locked uuid) eqn:El; [by rewrite Hsame|].
  unfold px_lift, bind. rewrite (Hb s eq_refl eq_refl). destruct (send_to_player_eq uuid (raw s) st) as [b ->]. done.
Qed.

Lemma for_each_pointwise (f : bytes -> Px unit) (g : bytes -> Channel -> Channel) l st0 :
  (forall uuid st, px_sessions st = px_sessions st0 -> uuid ∈ l ->
     f uuid st = (Ok tt, px_set_outbound (alter (g uuid) uuid (px_outbound st)) st)) ->
  NoDup l ->
  exists out, for_each f l st0 = (Ok tt, px_set_outbound out st0) /\
    forall uuid, out !! uuid = if decide (uuid ∈ l) then g uuid <$> px_outbound st0 !! uuid else px_outbound st0 !! uuid.
Proof.
  intros Hf Hnd. assert (H : forall st, px_sessions st = px_sessions st0 -> exists out, for_each f l st = (Ok tt, px_set_outbound out st) /\
    forall uuid, out !! uuid = if decide (uuid ∈ l) then g uuid <$> px_outbound st !! uuid else px_outbound st !! uuid); [|by apply H].
  induction Hnd as [|x l Hx Hnd IH]; intros st Hst; cbn [for_each].
  - exists (px_outbound st). by destruct st.
  - unfold bind. rewrite Hf; [|done|by left].
    destruct (IH (fun uuid st H Hin => Hf uuid st H (list_elem_of_further _ _ _ Hin)) (px_set_outbound (alter (g x) x (px_outbound st)) st) Hst) as (out & E & Hout).
    exists out. rewrite E. split; [done|]. intros uuid. rewrite Hout. cbn [px_outbound px_set_outbound].
    destruct (decide (uuid = x)) as [->|Hne].
    + rewrite decide_False by done. rewrite decide_True by left. apply lookup_alter_eq.
    + rewrite lookup_alter_ne by done. destruct (decide (uuid ∈ l)); [rewrite decide_True by (by right)|rewrite decide_False by (by intros [|]%elem_of_cons)]; done.
Qed.

(** A broadcast reaches everyone once.  When the chat packet can be built for
    every player whose session is not locked, the broadcast returns, each of these
    players that has a relay gets one more packet, the one for its own version,
    at the end of its queue, and nothing else changes. *)
Theorem broadcast_reaches_all (raw : PlayerSession -> bytes) (text : bytes) (st : ProxyState) :
  (forall uuid s, px_sessions st !! uuid = Some s -> locked uuid = false ->
     build_system_message_packet json_parse json_text text (ps_protocol_version s) = Ok (raw s)) ->
  exists out, broadcast_system_message json_parse json_text locked session_order text st = (Ok tt, px_set_outbound out st) /\
    forall uuid, out !! uuid =
      match px_outbound st !! uuid, px_sessions st !! uuid with
      | Some ch, Some s => Some (if ch_open ch && negb (locked uuid) then mkChannel (ch_queue ch ++ [raw s]) true else ch)
      | o, _ => o
      end.
Proof.
  intros Hb. unfold broadcast_system_message, bind, get_state.
  destruct (for_each_pointwise (fun uuid => send_system_message_to json_parse json_text locked uuid text) (reach raw (px_sessions st)) (session_order (px_sessions st)) st) as (out & E & Hout).
  - intros uuid st' Hst _. rewrite (tell_eq raw); [by rewrite Hst|]. intros s Hs. rewrite Hst in Hs. by apply (Hb uuid).
  - apply session_order_nodup.
  - exists out. split; [exact E|]. intros uuid. rewrite Hout. unfold reach, push.
    destruct (px_sessions st !! uuid) as [s|] eqn:Es.
    + rewrite decide_True by (apply session_order_elem; by exists s). destruct (px_outbound st !! uuid) as [ch|]; [|done]. cbn.
      destruct (locked uuid), (ch_open ch); done.
    + rewrite decide_False by (rewrite session_order_elem, Es; intros [? ?]; done). by destruct (px_outbound st !! uuid).
Qed.
(** ** Evacuation *)

Definition disconnect_bytes (reason : bytes) (proto : Z) : bytes := wire VarInt (cb_play proto "ClientboundDisconnect") ++ wire Str reason.
Definition netty_only (m : gmap bytes PlayerSession) : Prop := map_Forall (fun _ s => nearest (ps_protocol_version s) <> V1_6_4) m.
Definition evacuated (from_server to_server : bytes) (s : PlayerSession) : PlayerSession :=
  if bool_decide (ps_current_server s = Some from_server) then with_server (Some to_server) (ps_transferred s) s else s.
Definition notice (from_server : bytes) (m : gmap bytes PlayerSession) (uuid : bytes) (ch : Channel) : Channel :=
  match m !! uuid with
  | Some s => if bool_decide (ps_current_server s = Some from_server) && negb (locked uuid)
              then push (disconnect_bytes evacuation_reason (ps_protocol_version s)) ch else ch
  | None => ch
  end.

Lemma evacuation_reason_ok : string_ok evacuation_reason.
Proof. split; [vm_compute; reflexivity|unfold MAX_STRING_LENGTH; vm_compute; discriminate]. Qed.

Lemma disconnect_eq reason proto : nearest proto <> V1_6_4 -> string_ok reason ->
  build_disconnect_packet json_parse reason proto = Ok (disconnect_bytes reason proto).
Proof. unfold disconnect_bytes. exact (disconnect_wire json_parse reason proto). Qed.

Lemma kick_eq uuid reason st s : px_sessions st !! uuid = Some s -> nearest (ps_protocol_version s) <> V1_6_4 -> string_ok reason ->
  kick_player json_parse locked uuid reason st =
    (Ok tt, px_set_outbound (if locked uuid then px_outbound st else alter (push (disconnect_bytes reason (ps_protocol_version s))) uuid (px_outbound st)) st).
Proof.
  intros Hs Hn Hr. unfold kick_player, bind at 1, get_state, readable_proto. rewrite Hs. destruct (locked uuid); [by destruct st|].
  unfold px_lift, bind. rewrite (disconnect_eq reason _ Hn Hr).
  destruct (send_to_player_eq uuid (disconnect_bytes reason (ps_protocol_version s)) st) as [b E]. rewrite E. reflexivity.
Qed.

Lemma evacuate_one_eq from_server to_server uuid st : netty_only (px_sessions st) ->
  exists n r, evacuate_one json_parse locked from_server to_server uuid st =
    (Ok n, mkProxy (alter (evacuated from_server to_server) uuid (px_sessions st)) (alter (notice from_server (px_sessions st) uuid) uuid (px_outbound st))
                   r (px_config_servers st) (px_limbo st)).
Proof.
  intros Hn. unfold evacuate_one, notice.
  assert (Hsame : forall f : PlayerSession -> PlayerSession, (forall s, px_sessions st !! uuid = Some s -> f s = s) ->
    st = mkProxy (alter f uuid (px_sessions st)) (alter (fun ch => ch) uuid (px_outbound st)) (px_servers st) (px_config_servers st) (px_limbo st)).
  { intros f Hf. rewrite !alter_id by done. by destruct st. }
  destruct (px_sessions st !! uuid) as [s|] eqn:E; [|exists 0%nat, (px_servers st); f_equal; by apply Hsame].
  assert (Hev : ps_current_server s = Some from_server -> <[uuid := with_server (Some to_server) (ps_transferred s) s]> (px_sessions st) = alter (evacuated from_server to_server) uuid (px_sessions st)).
  { intros Hcur. apply map_eq. intros i. destruct (decide (i = uuid)) as [->|Hne].
    - rewrite lookup_insert_eq, lookup_alter_eq, E. cbn. unfold evacuated. by rewrite bool_decide_eq_true_2.
    - by rewrite lookup_insert_ne, lookup_alter_ne. }
  destruct (bool_decide_reflect (ps_current_server s = Some from_server)) as [Ecur|Ecur].
  - exists 1%nat, (count_by 1 to_server (count_by (-1) from_server (px_servers st))).
    unfold bind, px_modify. cbn [px_set_sessions px_set_servers px_sessions px_outbound px_servers px_config_servers px_limbo].
    erewrite (kick_eq _ evacuation_reason); [|cbn [px_sessions]; apply lookup_insert_eq|exact (Hn _ _ E)|exact evacuation_reason_ok].
    cbn [px_set_outbound px_sessions px_outbound px_servers px_config_servers px_limbo ps_protocol_version with_server andb].
    rewrite Hev by done. unfold ret. destruct (locked uuid); cbn [negb]; [|done]. rewrite (alter_id (fun ch : Channel => ch)) by done. reflexivity.
  - exists 0%nat, (px_servers st). f_equal. cbn [andb]. apply Hsame. intros s' [= <-]. unfold evacuated. by rewrite bool_decide_eq_false_2.
Qed.

Lemma evacuate_each_eq from_server to_server l st : NoDup l -> netty_only (px_sessions st) ->
  exists n st', evacuate_each json_parse locked from_server to_server l st = (Ok n, st') /\
    (forall uuid, px_sessions st' !! uuid = if decide (uuid ∈ l) then evacuated from_server to_server <$> px_sessions st !! uuid else px_sessions st !! uuid) /\
    (forall uuid, px_outbound st' !! uuid = if decide (uuid ∈ l) then notice from_server (px_sessions st) uuid <$> px_outbound st !! uuid else px_outbound st !! uuid).
Proof.
  intros Hnd. revert st. induction Hnd as [|x l Hx Hnd IH]; intros st Hn; cbn [evacuate_each].
  - exists 0%nat, st. done.
  - destruct (evacuate_one_eq from_server to_server x st Hn) as (n & r & E). unfold bind. rewrite E.
    match goal with |- context [evacuate_each _ _ _ _ _ ?s1] => set (st1 := s1) end.
    assert (Hn1 : netty_only (px_sessions st1)).
    { intros i s Hs. cbn [px_sessions st1] in Hs. destruct (decide (i = x)) as [->|Hne].
      - rewrite lookup_alter_eq in Hs. apply fmap_Some in Hs as (s0 & Hs0 & ->). unfold evacuated. case_bool_decide; exact (Hn _ _ Hs0).
      - rewrite lookup_alter_ne in Hs by done. exact (Hn _ _ Hs). }
    destruct (IH st1 Hn1) as (m & st' & E' & Hs' & Ho'). rewrite E'. exists (n + m)%nat, st'. split; [done|].
    assert (Hcase : forall uuid, uuid <> x -> (uuid ∈ x :: l <-> uuid ∈ l)) by (intros uuid Hne; rewrite elem_of_cons; tauto).
    split; intros uuid; [rewrite Hs'|rewrite Ho']; cbn [px_sessions px_outbound st1]; destruct (decide (uuid = x)) as [->|Hne];
      try (rewrite decide_False by done; rewrite decide_True by left; apply lookup_alter_eq);
      rewrite lookup_alter_ne by done.
    + destruct (decide (uuid ∈ l)), (decide (uuid ∈ x :: l)); try done; exfalso; naive_solver.
    + unfold notice at 1. rewrite lookup_alter_ne by done. fold (notice from_server (px_sessions st) uuid).
      destruct (decide (uuid ∈ l)), (decide (uuid ∈ x :: l)); try done; exfalso; naive_solver.
Qed.

(** Taking a server out of service.  On a proxy without 1.6 clients, removing a
    registered server returns; the name is no longer registered; every session that
    was on it is now on the first configured server and no other session changed;
    and each evacuated player whose session is not locked finds the disconnect
    notice at the end of its queue, once, while every other queue is unchanged.
    When the server removed is the first configured one, its players stay on the
    name that has just been removed. *)
Theorem deregister_evacuates (name : bytes) (st : ProxyState) :
  let to_server := match px_config_servers st with s :: _ => se_name s | [] => lit "lobby" end in
  is_Some (registry_get name (px_servers st)) -> netty_only (px_sessions st) ->
  exists st', process_plugin_command json_parse json_text parse_addr locked session_order (DeregisterServer name) st = (Ok tt, st') /\
    registry_get name (px_servers st') = None /\
    (forall uuid, px_sessions st' !! uuid = evacuated name to_server <$> px_sessions st !! uuid) /\
    (forall uuid, px_outbound st' !! uuid = notice name (px_sessions st) uuid <$> px_outbound st !! uuid) /\
    (to_server <> name -> occupancy name (px_sessions st') = 0%nat) /\
    (to_server = name -> occupancy name (px_sessions st') = occupancy name (px_sessions st)).
Proof.
  intros to_server [b Hb] Hn. unfold process_plugin_command, bind at 1, get_state. rewrite Hb.
  destruct (evacuate_each_eq name to_server (session_order (px_sessions st)) st (session_order_nodup _) Hn) as (n & st' & E & Hs & Ho).
  unfold evacuate_players, bind, get_state. fold to_server. rewrite E. eexists. split; [done|].
  cbn [px_modify snd px_servers px_sessions px_outbound px_set_servers].
  assert (Hs' : forall uuid, px_sessions st' !! uuid = evacuated name to_server <$> px_sessions st !! uuid).
  { intros uuid. rewrite Hs. destruct (decide _) as [|Hnot]; [done|]. rewrite session_order_elem, <- eq_None_not_Some in Hnot. by rewrite Hnot. }
  split_and!; [|done| | |].
  - rewrite get_remove. by rewrite decide_True.
  - intros uuid. rewrite Ho. destruct (decide _) as [|Hnot]; [done|]. rewrite session_order_elem, <- eq_None_not_Some in Hnot.
    unfold notice. rewrite Hnot. by destruct (px_outbound st !! uuid).
  - intros Hne. unfold occupancy. apply map_size_empty_iff, map_empty. intros uuid. apply map_lookup_filter_None. right. intros s Hl. rewrite Hs' in Hl.
    apply fmap_Some in Hl as (s0 & _ & ->). unfold on_server, evacuated. cbn [snd]. case_bool_decide as Hc; [|done]. cbn. congruence.
  - intros Heq. f_equal. apply map_eq. intros uuid. rewrite Hs'. destruct (px_sessions st !! uuid) as [s|]; [|done]. cbn. f_equal.
    unfold evacuated. rewrite Heq. case_bool_decide as Hc; [|done]. destruct s. cbn in *. by subst.
Qed.
End Delivery.

(** ** Hot reload *)

Section Reload.
Variable parse_addr : bytes -> option (IpAddr * Z).

(** What a reload makes of the entry of one name. *)
Definition reloaded (s : ServerEntry) (o : option BackendServer) : option BackendServer :=
  match parse_addr (se_address s) with
  | None => o
  | Some addr =>
      match o with
      | Some existing => Some (if needs_update existing s addr then entry_server s addr (bs_player_count existing) (bs_online existing) else existing)
      | None => Some (entry_server s addr 0 true)
      end
  end.

Lemma get_reload_entry name s r :
  registry_get name (reload_entry parse_addr r s) = if decide (name = se_name s) then reloaded s (registry_get name r) else registry_get name r.
Proof.
  unfold reload_entry, reloaded. destruct (parse_addr _) as [addr|]; [|by destruct (decide _)].
  destruct (registry_get (se_name s) r) as [e|] eqn:E.
  - destruct (needs_update e s addr) eqn:En.
    + rewrite get_register. cbn [bs_name entry_server]. destruct (decide _) as [->|]; [|done]. by rewrite E, En.
    + destruct (decide _) as [->|]; [|done]. by rewrite E, En.
  - rewrite get_register. cbn [bs_name entry_server]. destruct (decide _) as [->|]; [|done]. by rewrite E.
Qed.

Lemma get_reload_other name l r : name ∉ map se_name l -> registry_get name (fold_left (reload_entry parse_addr) l r) = registry_get name r.
Proof.
  revert r. induction l as [|s l IH]; intros r Hn; [done|]. cbn [map] in Hn. apply not_elem_of_cons in Hn as [H1 H2].
  cbn [fold_left]. rewrite IH by done. rewrite get_reload_entry. by rewrite decide_False.
Qed.
Lemma get_reload_entries s l r : NoDup (map se_name l) -> s ∈ l ->
  registry_get (se_name s) (fold_left (reload_entry parse_addr) l r) = reloaded s (registry_get (se_name s) r).
Proof.
  revert r. induction l as [|t l IH]; intros r Hnd Hs; [by apply elem_of_nil in Hs|]. cbn [map] in Hnd. apply NoDup_cons in Hnd as [Ht Hnd].
  cbn [fold_left]. apply elem_of_cons in Hs as [->|Hs].
  - rewrite get_reload_other, get_reload_entry by done. by rewrite decide_True.
  - rewrite IH, get_reload_entry by done. rewrite decide_False; [done|]. intros E. apply Ht. rewrite <- E. apply list_elem_of_fmap. by exists s.
Qed.

(** Hot reload of the server list.  With distinct names in the new
    configuration, a server it does not list is gone; a listed one whose address
    cannot be parsed is left as it was; a new one is registered, online and empty;
    and a known one keeps its player count and its online flag, and has the address,
    restriction, forwarding mode and type of the configuration afterwards.  If
    these four did not change, nothing of the entry does: a new limit, weight,
    region or probe setting waits for a restart. *)
Theorem reload_spec (new_config : list ServerEntry) (r : ServerRegistry) :
  NoDup (map se_name new_config) ->
  let r' := reload_servers parse_addr new_config r in
  (forall name, name ∉ map se_name new_config -> registry_get name r' = None) /\
  (forall s, s ∈ new_config ->
     match parse_addr (se_address s), registry_get (se_name s) r with
     | None, old => registry_get (se_name s) r' = old
     | Some addr, None => registry_get (se_name s) r' = Some (entry_server s addr 0 true)
     | Some addr, Some e => exists e', registry_get (se_name s) r' = Some e' /\
         bs_player_count e' = bs_player_count e /\ bs_online e' = bs_online e /\
         st_address (bs_settings e') = addr /\ st_restricted (bs_settings e') = se_restricted s /\
         st_forwarding_override (bs_settings e') = se_forwarding_override s /\ st_backend_type (bs_settings e') = se_backend_type s /\
         (needs_update e s addr = false -> e' = e)
     end).
Proof.
  intros Hnd r'. unfold r', reload_servers.
  assert (Hf : forall name, (name ∈ map se_name new_config -> registry_get name (filter (fun s => bs_name s ∈ map se_name new_config) (fold_left (reload_entry parse_addr) new_config r)) = registry_get name (fold_left (reload_entry parse_addr) new_config r)) /\
     (name ∉ map se_name new_config -> registry_get name (filter (fun s => bs_name s ∈ map se_name new_config) (fold_left (reload_entry parse_addr) new_config r)) = None)).
  { intros name. by apply (get_filter _ (fun n => n ∈ map se_name new_config)). }
  split; [intros name; apply Hf|]. intros s Hs.
  rewrite (proj1 (Hf (se_name s))) by (apply list_elem_of_fmap; by exists s). rewrite get_reload_entries by done. unfold reloaded.
  destruct (parse_addr (se_address s)) as [addr|]; [|done]. destruct (registry_get (se_name s) r) as [e|]; [|done].
  eexists. split; [done|]. destruct (needs_update e s addr) eqn:En; [done|].
  unfold needs_update in En. apply orb_false_iff in En as [[[H1 H2]%orb_false_iff H3]%orb_false_iff H4].
  rewrite negb_false_iff, bool_decide_eq_true in H1, H2, H3, H4. done.
Qed.
End Reload.

(** ** Witnesses *)

Definition demo_uuid (b : byte) : bytes := repeat b 16.
Definition demo_session (b : byte) (server : bytes) : PlayerSession :=
  mkSession (demo_uuid b) (lit "Steve") (V4 [x7f; x00; x00; x01]) 340 Play (Some server) false [] None None ∅.
Definition demo_entry (name address : bytes) (max_players : option Z) : ServerEntry :=
  mkServerEntry name max_players None None None None None address false None Spigot 0 [] 0 5 3 [] 1.
Definition demo_addr (s : bytes) : option (IpAddr * Z) := if is_empty s then None else Some (V4 [x7f; x00; x00; x01], 25566).
Definition demo_order (m : gmap bytes PlayerSession) : list bytes := map fst (map_to_list m).
Definition demo_text (v : Value) : bytes := [].
Definition demo_state : ProxyState :=
  mkProxy (<[demo_uuid x01 := demo_session x01 (lit "survival")]> (<[demo_uuid x02 := demo_session x02 (lit "lobby")]> ∅))
    {[demo_uuid x01 := mkChannel [] true]}
    [Routing.sample_backend (lit "lobby") true 1 0 1 false; Routing.sample_backend (lit "survival") true 1 10 1 false]
    [demo_entry (lit "lobby") (lit "a") None] (mkLimboCustomization None None None).
Definition demo_run (cmd : PluginCommand) (st : ProxyState) : outcome ProtocolError unit * ProxyState :=
  process_plugin_command (fun _ => None) demo_text demo_addr (fun _ => false) demo_order cmd st.

Lemma demo_census : px_census demo_state.
Proof.
  intros name b. unfold demo_state. cbn [px_servers registry_get].
  destruct (decide _) as [<-|_]; [intros [= <-]; vm_compute; reflexivity|].
  destruct (decide _) as [<-|_]; [intros [= <-]; vm_compute; reflexivity|done].
Qed.
Lemma demo_netty : netty_only (px_sessions demo_state).
Proof. match goal with |- ?P => apply (bool_decide_eq_true_1 P) end. vm_compute. reflexivity. Qed.

Lemma census_invariant_witness :
  px_census demo_state /\ px_census (demo_run (TransferPlayer (demo_uuid x01) (lit "lobby")) demo_state).2.
Proof.
  split; [exact demo_census|].
  exact (census_invariant (fun _ => None) demo_text demo_addr (fun _ => false) demo_order (TransferPlayer (demo_uuid x01) (lit "lobby")) demo_state demo_census I).
Defined.

Lemma broadcast_reaches_all_witness :
  exists out, broadcast_system_message (fun _ => None) demo_text (fun _ => false) demo_order (lit "hi") demo_state = (Ok tt, px_set_outbound out demo_state) /\
    exists raw, out !! demo_uuid x01 = Some (mkChannel [raw] true).
Proof.
  set (raw := match build_system_message_packet (fun _ => None) demo_text (lit "hi") 340 with Ok bs => bs | _ => [] end).
  destruct (broadcast_reaches_all (fun _ => None) demo_text (fun _ => false) demo_order (fun m => Permutation_refl _) (fun _ => raw) (lit "hi") demo_state) as (out & E & Hout).
  - intros uuid s Hs _. unfold demo_state in Hs. cbn [px_sessions] in Hs.
    apply lookup_insert_Some in Hs as [[_ <-]|[_ Hs]]; [vm_compute; reflexivity|].
    apply lookup_insert_Some in Hs as [[_ <-]|[_ Hs]]; [vm_compute; reflexivity|done].
  - exists out. split; [exact E|]. exists raw. rewrite Hout. vm_compute. reflexivity.
Defined.

Lemma deregister_evacuates_witness :
  exists st', demo_run (DeregisterServer (lit "survival")) demo_state = (Ok tt, st') /\
    registry_get (lit "survival") (px_servers st') = None /\ occupancy (lit "survival") (px_sessions st') = 0%nat.
Proof.
  destruct (deregister_evacuates (fun _ => None) demo_text demo_addr (fun _ => false) demo_order (fun m => Permutation_refl _) (lit "survival") demo_state)
    as (st' & E & Hr & _ & _ & Hocc & _); [by eexists|exact demo_netty|].
  exists st'. split; [exact E|]. split; [exact Hr|]. apply Hocc. discriminate.
Defined.

Lemma reload_spec_witness :
  let config := [demo_entry (lit "lobby") (lit "b") (Some 50); demo_entry (lit "games") (lit "c") None] in
  exists e, registry_get (lit "lobby") (reload_servers demo_addr config (px_servers demo_state)) = Some e /\ bs_player_count e = 1 /\
    registry_get (lit "survival") (reload_servers demo_addr config (px_servers demo_state)) = None.
Proof.
  intros config. destruct (reload_spec demo_addr config (px_servers demo_state)) as [H1 H2].
  - match goal with |- ?P => apply (bool_decide_eq_true_1 P) end. vm_compute. reflexivity.
  - specialize (H2 (demo_entry (lit "lobby") (lit "b") (Some 50)) (list_elem_of_here _ _)).
    change (registry_get (se_name _) (px_servers demo_state)) with (Some (Routing.sample_backend (lit "lobby") true 1 0 1 false)) in H2. cbn [demo_addr se_address demo_entry is_empty] in H2.
    destruct H2 as (e & He & Hc & _). exists e. split; [exact He|]. split; [exact Hc|]. apply H1.
    match goal with |- ?P => apply (bool_decide_eq_true_1 P) end. vm_compute. reflexivity.
Defined.

(** Registering a server under the name of one that players are on starts its count
    at zero; when a player then leaves, the count wraps and the server is full. *)
Theorem reregistered_server_is_full :
  let st1 := (demo_run (RegisterServer (lit "survival") (lit "host") 25565 10) demo_state).2 in
  let st2 := (demo_run (TransferPlayer (demo_uuid x01) (lit "lobby")) st1).2 in
  px_census demo_state /\ exists b, registry_get (lit "survival") (px_servers st2) = Some b /\ bs_player_count b = 2 ^ 64 - 1 /\ is_full b = true.
Proof. split; [exact demo_census|]. eexists. split; [vm_compute; reflexivity|]. split; vm_compute; reflexivity. Qed.

(** A changed player limit alone is not taken over by a reload. *)
Theorem reload_ignores_limit :
  let r := [Routing.sample_backend (lit "lobby") true 1 20 1 false] in
  reload_servers demo_addr [demo_entry (lit "lobby") (lit "a") (Some 50)] r = r.
Proof. vm_compute. reflexivity. Qed.
