(* ===== verification/Relay.v ===== *)
(** * The play-phase relay

    crates/proxy-core/src/net/relay.rs: the two pumps of [PacketRelay::run] (backend
    to client and client to backend), the task that writes injected packets, the
    helpers [process_packet_hooks], [request_switch] and [handle_transfer_command],
    and the exit.  Each turn of a loop is one step on the state the tasks share; an
    event says what [select!] picked.  Plugins, JSON text, zlib, the pings of the
    selector and the order of hash maps are parameters. *)
From Stdlib Require Import ZArith Lia Strings.String Strings.Byte.
From stdpp Require Import base list numbers strings gmap.
From S2P Require Import Prelude Buf Wire VarInt Codec Negotiation PacketIo Routing Guard Chars Utf8 Registry RegistryData.
From S2P Require Import IpAddr Modloader Builders Bridging Transfer Commands Proxy.
Local Open Scope Z_scope.
Local Open Scope koja_scope.

(** ** State *)

Inductive Task := S2C | C2S | OutTask.
#[export] Instance Task_eq_dec : EqDecision Task.
Proof. solve_decision. Defined.

Record RelayConfig := mkRelayConfig {
  protocol_version : Z; backend_protocol : Z; client_thresh : Z; backend_thresh : Z; player_uuid : bytes;
  batch_s2c_writes : bool; chat_signing_translation : bool; cookies_transfers_passthrough : bool;
  max_players : Z; server_entries : list ServerEntry }.

(** What was written to the client (by whom, one entry per locked write), what the
    backend was sent, the packets queued for the client, the write-batching buffer,
    the two cells the outer pipeline reads, and the tables shared by the proxy. The
    flags say whether the sockets still take bytes. *)
Record RelayState := mkRelay {
  to_client : list (Task * bytes); to_backend : bytes; out_queue : list bytes; pending_s2c : bytes;
  switch_target : option bytes; kick_reason : option bytes;
  session_table : gmap bytes PlayerSession; servers : ServerRegistry; cooldowns : Cooldowns; proxy_effects : list Effect;
  client_open : bool; backend_open : bool }.

Definition set_client x st := mkRelay x (to_backend st) (out_queue st) (pending_s2c st) (switch_target st) (kick_reason st) (session_table st) (servers st) (cooldowns st) (proxy_effects st) (client_open st) (backend_open st).
Definition set_backend x st := mkRelay (to_client st) x (out_queue st) (pending_s2c st) (switch_target st) (kick_reason st) (session_table st) (servers st) (cooldowns st) (proxy_effects st) (client_open st) (backend_open st).
Definition set_out x st := mkRelay (to_client st) (to_backend st) x (pending_s2c st) (switch_target st) (kick_reason st) (session_table st) (servers st) (cooldowns st) (proxy_effects st) (client_open st) (backend_open st).
Definition set_pending x st := mkRelay (to_client st) (to_backend st) (out_queue st) x (switch_target st) (kick_reason st) (session_table st) (servers st) (cooldowns st) (proxy_effects st) (client_open st) (backend_open st).
Definition set_switch x st := mkRelay (to_client st) (to_backend st) (out_queue st) (pending_s2c st) x (kick_reason st) (session_table st) (servers st) (cooldowns st) (proxy_effects st) (client_open st) (backend_open st).
Definition set_kick x st := mkRelay (to_client st) (to_backend st) (out_queue st) (pending_s2c st) (switch_target st) x (session_table st) (servers st) (cooldowns st) (proxy_effects st) (client_open st) (backend_open st).
Definition set_sessions x st := mkRelay (to_client st) (to_backend st) (out_queue st) (pending_s2c st) (switch_target st) (kick_reason st) x (servers st) (cooldowns st) (proxy_effects st) (client_open st) (backend_open st).
Definition set_servers x st := mkRelay (to_client st) (to_backend st) (out_queue st) (pending_s2c st) (switch_target st) (kick_reason st) (session_table st) x (cooldowns st) (proxy_effects st) (client_open st) (backend_open st).
Definition set_cooldowns x st := mkRelay (to_client st) (to_backend st) (out_queue st) (pending_s2c st) (switch_target st) (kick_reason st) (session_table st) (servers st) x (proxy_effects st) (client_open st) (backend_open st).
Definition set_effects x st := mkRelay (to_client st) (to_backend st) (out_queue st) (pending_s2c st) (switch_target st) (kick_reason st) (session_table st) (servers st) (cooldowns st) x (client_open st) (backend_open st).

Abbreviation Rl A := (M RelayState ConnectionError A).
Definition modify (f : RelayState -> RelayState) : Rl unit := fun st => (Ok tt, f st).
Definition from_outcome {E A} (f : E -> ConnectionError) (o : outcome E A) : Rl A := fun st => (map_err f o, st).
Definition ignore_error (m : Rl unit) : Rl unit := fun st => match m st with (Err _, st') => (Ok tt, st') | r => r end.

(** [continue], or leaving the loop with [Ok(())]. *)
Inductive LoopControl := Continue | Break.

Definition from_backend (e : ConnectionError) : ConnectionError := CE_Backend e.

Inductive PacketHookResult := Forward | Drop | Modify (data : bytes) | Replace (packet_id : Z) (data : bytes).
Inductive PacketDirection := Clientbound | Serverbound.

(** ** Parameters *)

Record RelayEnv := mkRelayEnv {
  deflate : bytes -> bytes;
  (** plugins: [has_packet_hooks], the hooks, [subscribes(PlayerMove)], the answers
      to a move and to a chat line *)
  has_packet_hooks : bool;
  run_hooks : Z -> PacketDirection -> bytes -> PacketHookResult;
  subscribes_move : bool;
  on_move : bytes -> Z -> Z -> Z -> bool -> list PluginResponse;
  on_chat : bytes -> list PluginResponse;
  (** serde_json *)
  json_parse : bytes -> option Value;
  json_text : Value -> bytes;
  json_command : bytes -> option TransferCommand;
  response_json : TransferResponse -> option bytes;
  (** [build_kick_message], whose JSON text is fixed *)
  build_kick_message : KickReason -> bytes;
  uuid_parse : bytes -> option bytes;
  bundle_contents : Bundle -> bytes;
  to_lowercase : bytes -> bytes;
  map_order : list (bytes * list bytes) -> list (bytes * list bytes);
  keys_next : gmap bytes bytes -> option bytes;
  (** the session table in iteration order, with the locks [try_read] gets *)
  iter_sessions : gmap bytes PlayerSession -> Sessions;
  command_env : CommandEnv;
  pings : list (option Z) }.

Section Relay.
Variable env : RelayEnv.
Variable cfg : RelayConfig.

(** ** Writing *)

Definition encode_for_client (raw : bytes) : bytes :=
  if is_pre_netty_proto (protocol_version cfg) then raw else encode_packet (deflate env) raw (client_thresh cfg).

(** [write_all] on the client, under its lock. *)
Definition write_bytes (who : Task) (bs : bytes) : Rl unit := fun st =>
  if client_open st then (Ok tt, set_client (to_client st ++ [(who, bs)]) st) else (Err (CE_Io KOther), st).
Definition write_client (who : Task) (raw : bytes) : Rl unit := write_bytes who (encode_for_client raw).
(** [write_packet(bw, raw).map_err(from_backend)]. *)
Definition write_backend (raw : bytes) : Rl unit := fun st =>
  if backend_open st then (Ok tt, set_backend (to_backend st ++ encode_packet (deflate env) raw (backend_thresh cfg)) st)
  else (Err (from_backend (CE_Io KOther)), st).

(** [if !pending.is_empty() { write_all(&pending)?; pending.clear() }], and the
    variant that drops the error. *)
Definition flush_pending : Rl unit := fun st =>
  match pending_s2c st with
  | [] => (Ok tt, st)
  | bs => (write_bytes S2C bs;; modify (set_pending [])) st
  end.
Definition flush_quietly : Rl unit := fun st =>
  match pending_s2c st with
  | [] => (Ok tt, st)
  | bs => (ignore_error (write_bytes S2C bs);; modify (set_pending [])) st
  end.

(** A [Bytes] built by one of the packet builders. *)
Definition builder {A} (o : outcome ProtocolError A) : Rl A := from_outcome CE_Protocol o.

Definition kick {A} (reason : KickReason) : Rl A :=
  let! pkt := builder (build_disconnect_packet (json_parse env) (build_kick_message env reason) (protocol_version cfg)) in
  ignore_error (write_client C2S pkt);;
  fail CE_Closed.

(** ** Hooks, switches, transfers *)

(** [Ok(data)] is [Some data], [Err(data)] is [None]. *)
Definition process_packet_hooks (packet_id : Z) (direction : PacketDirection) (data : bytes) : Rl (option bytes) :=
  if negb (has_packet_hooks env) then ret (Some data)
  else match run_hooks env packet_id direction data with
       | Forward => ret (Some data)
       | Drop => ret None
       | Modify new_data => ret (Some new_data)
       | Replace new_id new_data => ret (Some (wire VarInt new_id ++ new_data))
       end.

Definition own_session (st : RelayState) : option PlayerSession := session_table st !! player_uuid cfg.

Definition red_text (reason : bytes) : bytes := red_json (json_text env) reason.

Definition request_switch (server : bytes) : Rl bool :=
  let! st := get_state in
  match registry_get server (servers st) with
  | Some b =>
      if bs_online b then modify (set_switch (Some server));; ret true
      else
        let! raw := builder (build_system_message_packet (json_parse env) (json_text env)
                      (red_text (lit "Server '" ++ server ++ lit "' is currently offline.")) (protocol_version cfg)) in
        write_client C2S raw;; ret false
  | None =>
      let! raw := builder (build_system_message_packet (json_parse env) (json_text env)
                    (red_text (lit "Unknown server '" ++ server ++ lit "'.")) (protocol_version cfg)) in
      write_client C2S raw;; ret false
  end.

Definition with_cookies (c : gmap bytes bytes) (s : PlayerSession) : PlayerSession :=
  mkSession (ps_uuid s) (ps_username s) (ps_client_ip s) (ps_protocol_version s) (ps_state s) (ps_current_server s)
    (ps_transferred s) (ps_properties s) (ps_locale s) (ps_view_distance s) c.

Definition handle_transfer_command (cmd : TransferCommand) : Rl (option bytes) :=
  let! st := get_state in
  match cmd with
  | Connect server =>
      match registry_get server (servers st), own_session st with
      | Some _, Some s =>
          modify (set_servers (count_by 1 server (leave s (servers st))));;
          modify (set_sessions (<[player_uuid cfg := with_server (Some server) true s]> (session_table st)));;
          ret None
      | _, _ => ret None
      end
  | ConnectOther server uuid =>
      match session_table st !! uuid with
      | Some target =>
          modify (set_servers (count_by 1 server (leave target (servers st))));;
          modify (set_sessions (<[uuid := with_server (Some server) true target]> (session_table st)));;
          ret None
      | None => ret None
      end
  | GetServer =>
      ret (response_json env (CurrentServer (default (lit "unknown") (s ← own_session st; ps_current_server s))))
  | GetPlayers =>
      let players := filter (fun n => n <> []) (map ps_username (readable (iter_sessions env (session_table st)))) in
      ret (response_json env (PlayerList (length players) players))
  end.

(** ** Backend to client *)

Definition PENDING_FLUSH_CAP : nat := Z.to_nat (32 * 1024).

(** Forward one packet: batched, and flushed when the cap is reached or nothing
    more is buffered from the backend; or written at once. *)
Definition forward_s2c (data : bytes) (more_buffered : bool) : Rl unit :=
  if batch_s2c_writes cfg then
    modify (fun st => set_pending (pending_s2c st ++ encode_for_client data) st);;
    let! st := get_state in
    if (PENDING_FLUSH_CAP <=? length (pending_s2c st))%nat || negb more_buffered
    then write_bytes S2C (pending_s2c st);; modify (set_pending [])
    else ret tt
  else write_client S2C data.

Definition is_brand (channel : bytes) : bool := bool_decide (channel = lit "minecraft:brand") || bool_decide (channel = lit "MC|Brand").

(** A plugin message from the backend: [Some] when it was dealt with. *)
Definition s2c_plugin_message (payload : bytes) : Rl (option LoopControl) :=
  match decode_clientbound_plugin_message (VarInt_decode payload).2 (protocol_version cfg) with
  | Ok msg =>
      if is_brand (pm_channel msg) then ret (Some Continue)
      else match parse_command (json_command env) (uuid_parse env) (pm_channel msg) (pm_data msg) with
           | Some cmd =>
               let! resp := handle_transfer_command cmd in
               match resp with
               | Some resp =>
                   let! pkt_raw := builder (build_plugin_message_packet KOJACOORD_CHANNEL resp (protocol_version cfg)) in
                   flush_pending;; write_client S2C pkt_raw;; ret (Some Continue)
               | None => ret (Some Continue)
               end
           | None => ret None
           end
  | _ => ret None
  end.

Definition s2c_packet (payload : bytes) (more_buffered : bool) : Rl LoopControl :=
  let proto := protocol_version cfg in
  match VarInt_decode payload with
  | (Ok v, _) =>
      if (v <? 0) || (255 <? v) then flush_pending;; write_client S2C payload;; ret Continue
      else if v =? cb_play proto "ClientboundLevelChunkWithLight" then forward_s2c payload more_buffered;; ret Continue
      else
        let! handled := if v =? cb_plugin_message_id proto then s2c_plugin_message payload else ret None in
        match handled with
        | Some control => ret control
        | None =>
            if v =? cb_play proto "ClientboundDisconnect" then
              let reason := match decode_string (VarInt_decode payload).2 with (Ok s, _) => s | _ => lit "Backend disconnected" end in
              flush_quietly;; modify (set_kick (Some reason));; ret Break
            else
              let! kept := process_packet_hooks v Clientbound payload in
              match kept with
              | Some data => forward_s2c data more_buffered;; ret Continue
              | None => ret Continue
              end
        end
  | _ => ret Continue
  end.

(** What the loop is woken by; [more_buffered]: the reader still holds bytes of the
    backend after this packet. *)
Inductive S2cEvent := S2cStopped | S2cShutdown (reason : bytes) | S2cPacket (payload : bytes) (more_buffered : bool) | S2cFailed (e : ConnectionError).

Definition s2c_step (e : S2cEvent) : Rl LoopControl :=
  match e with
  | S2cStopped => ret Break
  | S2cShutdown reason =>
      flush_quietly;;
      let! raw := builder (build_disconnect_packet (json_parse env) reason (protocol_version cfg)) in
      ignore_error (write_client S2C raw);; ret Break
  | S2cPacket payload more => s2c_packet payload more
  | S2cFailed e => fail (from_backend e)
  end.

(** The loop, and the flush after a clean exit. *)
Fixpoint s2c_loop (events : list S2cEvent) : Rl LoopControl :=
  match events with
  | [] => ret Continue
  | e :: events =>
      let! control := s2c_step e in
      match control with Continue => s2c_loop events | Break => flush_pending;; ret Break end
  end.

(** ** Client to backend *)

(** [state.dispatch_plugin_event(..)]. *)
Definition dispatch_event (responses : list PluginResponse) : Rl bool :=
  let '(todo, kicked) := dispatch_plugin_event (json_text env) (Some (player_uuid cfg)) responses in
  modify (fun st => set_effects (proxy_effects st ++ todo) st);; ret kicked.

(** A movement packet: the plugins that listen are told, and the first that kicks
    this player ends the connection. *)
Definition read_move (with_rotation : bool) (body : bytes) : option (Z * Z * Z * bool) :=
  match (let! x := decode_f64 in let! y := decode_f64 in let! z := decode_f64 in ret (x, y, z)) body with
  | (Ok (x, y, z), body) =>
      let body := if with_rotation then (decode_f32 (decode_f32 body).2).2 else body in
      Some (x, y, z, match decode_bool body with (Ok b, _) => b | _ => false end)
  | _ => None
  end.
Fixpoint first_kick (responses : list PluginResponse) : option bytes :=
  match responses with
  | [] => None
  | PR_KickPlayer uuid reason :: responses => if bool_decide (uuid = player_uuid cfg) then Some reason else first_kick responses
  | _ :: responses => first_kick responses
  end.
Definition c2s_move (pkt_id : Z) (payload : bytes) : Rl unit :=
  let proto := protocol_version cfg in
  let rot := pkt_id =? sb_play proto "ServerboundMovePlayerPosRot" in
  if (rot || (pkt_id =? sb_play proto "ServerboundMovePlayerPos")) && subscribes_move env then
    match read_move rot (VarInt_decode payload).2 with
    | Some (x, y, z, on_ground) =>
        match first_kick (on_move env (player_uuid cfg) x y z on_ground) with
        | Some reason => kick (Custom (lit "Anticheat Violation") reason)
        | None => ret tt
        end
    | None => ret tt
    end
  else ret tt.

Definition store_cookie (data : bytes) : Rl unit :=
  modify (fun st => match own_session st with
    | Some s => set_sessions (<[player_uuid cfg := with_cookies (cookie_store (keys_next env) (lit "default") data (ps_cookies s)) s]> (session_table st)) st
    | None => st
    end).

(** [request_switch(..)?], then [return Ok(())] or [continue]. *)
Definition switch_or_continue (server : bytes) : Rl (option LoopControl) :=
  let! leaving := request_switch server in ret (Some (if leaving : bool then Break else Continue)).

Definition c2s_plugin_message (now : Z) (payload : bytes) : Rl (option LoopControl) :=
  let proto := protocol_version cfg in
  match decode_serverbound_plugin_message (VarInt_decode payload).2 proto with
  | Ok msg =>
      let channel := pm_channel msg in
      (if supports_cookies_transfers proto && cookies_transfers_passthrough cfg && bool_decide (channel = lit "minecraft:cookie_response")
       then store_cookie (pm_data msg) else ret tt);;
      if is_serverlist_channel channel then
        let! st := get_state in
        let '(answer, cooldowns) := build_serverlist_payload (json_text env) (server_entries cfg) (max_players cfg) now (player_uuid cfg) (servers st) (pings env) (cooldowns st) in
        modify (set_cooldowns cooldowns);;
        let! pkt_raw := builder (build_plugin_message_packet channel answer proto) in
        write_client C2S pkt_raw;; ret (Some Continue)
      else if is_connect_channel channel then
        match parse_connect_payload (pm_data msg) with
        | Some server => switch_or_continue server
        | None => ret (Some Continue)
        end
      else if is_modpack_channel channel then
        modify (fun st => set_effects (proxy_effects st ++ [Notify (player_uuid cfg) channel (pm_data msg)]) st);; ret (Some Continue)
      else
        match parse_command (json_command env) (uuid_parse env) channel (pm_data msg) with
        | Some (Connect server) => switch_or_continue server
        | Some cmd =>
            let! resp := handle_transfer_command cmd in
            match resp with
            | Some resp =>
                let! pkt_raw := builder (build_plugin_message_packet KOJACOORD_CHANNEL resp proto) in
                write_backend pkt_raw;; ret (Some Continue)
            | None => ret (Some Continue)
            end
        | None => ret None
        end
  | _ => ret None
  end.

Definition send_messages (l : list bytes) : Rl unit :=
  foldr (fun msg rest =>
    (let! raw := builder (build_system_message_packet (json_parse env) (json_text env) msg (protocol_version cfg)) in
     ignore_error (write_client C2S raw));; rest) (ret tt) l.

(** The session the chat handlers read. *)
Definition command_tables (st : RelayState) : CommandEnv :=
  let e := command_env env in
  mkCommandEnv (servers st) (iter_sessions env (session_table st)) (config_servers e) (plugins e) (tps_text e) (tps_below e) (link_reply e).

Definition c2s_command (command_line : bytes) : Rl (option LoopControl) :=
  let! st := get_state in
  match own_session st with
  | None => ret None
  | Some session =>
      let '(result, out) := handle_command (to_lowercase env) red_text (map_order env) (command_tables st) command_line session in
      modify (fun st => set_effects (proxy_effects st ++ effects out) st);;
      send_messages (messages out);;
      match result with
      | Switch target => switch_or_continue target
      | Handled => ret (Some Continue)
      | NotACommand | CommandError _ => ret None
      end
  end.

Definition c2s_plain_chat (text : bytes) : Rl (option LoopControl) :=
  let! kicked := dispatch_event (on_chat env text) in
  if kicked : bool then ret (Some Break)
  else
    let! st := get_state in
    let name := match own_session st with Some s => ps_username s | None => [] end in
    modify (fun st => set_effects (proxy_effects st ++ [Broadcast (name ++ lit ": " ++ text)]) st);;
    ret (Some Continue).

(** A chat packet: how the loop goes on, and the payload to forward if it does. *)
Definition c2s_chat (pkt_id : Z) (payload : bytes) : Rl (option LoopControl * bytes) :=
  let proto := protocol_version cfg in
  match decode_string (VarInt_decode payload).2 with
  | (Ok text, _) =>
      let slash := starts_with text (lit "/") in
      let cmd_id := sb_play proto "ServerboundChatCommand" in
      let treat_as_command := (negb (cmd_id =? 0xFF) && (pkt_id =? cmd_id)) || slash in
      let command_line := if treat_as_command && negb slash then lit "/" ++ text else text in
      match check_chat_message text with
      | Err reason => kick reason
      | _ =>
          let modified_payload :=
            if chat_signing_translation cfg then
              match determine_signing_mode proto (backend_protocol cfg) with
              | Unsigned => match strip_chat_signature payload proto with Ok stripped => stripped | _ => payload end
              | _ => payload
              end
            else payload in
          let! control := if treat_as_command then c2s_command command_line else c2s_plain_chat text in
          ret (control, modified_payload)
      end
  | _ => ret (None, payload)
  end.

(** Before the packet that ends a configuration phase the client does not have. *)
Definition inject_configuration (pkt_id : Z) : Rl unit :=
  let proto := protocol_version cfg in
  match determine_synthesis_mode proto (backend_protocol cfg) with
  | ClientSide =>
      if (pkt_id =? 0x03) && has_configuration_phase (ProtocolVersion_from_id proto) then
        match build_cfg_packets (bundle_contents env) proto with
        | Ok packets => modify (fun st => set_out (out_queue st ++ packets) st)
        | _ => ret tt
        end
      else ret tt
  | _ => ret tt
  end.

Definition c2s_packet (now : Z) (payload : bytes) : Rl LoopControl :=
  let proto := protocol_version cfg in
  match VarInt_decode payload with
  | (Ok v, _) =>
      if (v <? 0) || (255 <? v) then write_backend payload;; ret Continue
      else
        c2s_move v payload;;
        let! handled := if v =? sb_plugin_message_id proto then c2s_plugin_message now payload else ret None in
        match handled with
        | Some control => ret control
        | None =>
            let! '(handled, modified_payload) :=
              if bool_decide (v ∈ chat_packet_ids_for proto) then c2s_chat v payload else ret (None, payload) in
            match handled with
            | Some control => ret control
            | None => inject_configuration v;; write_backend modified_payload;; ret Continue
            end
        end
  | _ => kick MalformedPacket
  end.

Inductive C2sEvent := C2sStopped | C2sShutdown | C2sBackendOut (packet : option bytes) | C2sPacket (now : Z) (payload : bytes) | C2sFailed (e : ConnectionError).

Definition c2s_step (e : C2sEvent) : Rl LoopControl :=
  match e with
  | C2sStopped | C2sShutdown => ret Break
  | C2sBackendOut (Some raw) => write_backend raw;; ret Continue
  | C2sBackendOut None => ret Break
  | C2sPacket now payload => c2s_packet now payload
  | C2sFailed e => fail e
  end.

(** ** Injected packets *)

(** One turn of [out_task]: the next queued packet is written; a failed write ends
    the task. *)
Definition out_step : Rl LoopControl := fun st =>
  match out_queue st with
  | [] => (Ok Continue, st)
  | raw :: rest =>
      match write_client OutTask raw (set_out rest st) with
      | (Ok _, st) => (Ok Continue, st)
      | (_, st) => (Ok Break, st)
      end
  end.

(** ** Leaving *)

Inductive RelayExit := Disconnected | ExitSwitch (target : bytes) | BackendKicked (reason : bytes).

(** After the tasks ended with [c2s_res] and [s2c_res]; the client stream can
    always be put together again, since the tasks have given their clones back. *)
Definition relay_exit (c2s_res s2c_res : outcome ConnectionError unit) : Rl RelayExit :=
  modify (fun st => match own_session st with
    | Some s => set_sessions (<[player_uuid cfg := with_server None (ps_transferred s) s]> (session_table st))
                  (if ps_transferred s then st else set_servers (leave s (servers st)) st)
    | None => st
    end);;
  let! st := get_state in
  modify (set_switch None);;
  match switch_target st, c2s_res with
  | Some target, Ok _ => ret (ExitSwitch target)
  | _, _ =>
      modify (set_kick None);;
      match kick_reason st with
      | Some reason => ret (BackendKicked reason)
      | None =>
          from_outcome id c2s_res;; from_outcome id s2c_res;; ret Disconnected
      end
  end.
End Relay.

(** ** Batching *)

Definition set_batch (b : bool) (cfg : RelayConfig) : RelayConfig :=
  mkRelayConfig (protocol_version cfg) (backend_protocol cfg) (client_thresh cfg) (backend_thresh cfg) (player_uuid cfg)
    b (chat_signing_translation cfg) (cookies_transfers_passthrough cfg) (max_players cfg) (server_entries cfg).

Definition wrote_s2c (st : RelayState) : bytes := concat (map snd (filter (fun e => e.1 = S2C) (to_client st))).
(** Everything but the client's side. *)
Definition core (st : RelayState) : RelayState := set_client [] (set_pending [] st).

(** A batching and a plain relay in the same situation: the same but for the bytes
    still held back, which are less than the cap. *)
Record in_step (b n : RelayState) : Prop := {
  step_core : core b = core n;
  step_bytes : wrote_s2c b ++ pending_s2c b = wrote_s2c n;
  step_plain : pending_s2c n = [];
  step_open : client_open b = true;
  step_cap : (length (pending_s2c b) < PENDING_FLUSH_CAP)%nat }.

Lemma cap_pos : (length (A := byte) [] < PENDING_FLUSH_CAP)%nat.
Proof. unfold PENDING_FLUSH_CAP. cbn [length]. lia. Qed.

Section Batching.
Variable env : RelayEnv.
Variable cfg : RelayConfig.

(** Two programs that keep relays in step and answer the same. *)
Definition alike {A} (mb mn : Rl A) : Prop := forall b n, in_step b n ->
  (mb b).1 = (mn n).1 /\ in_step (mb b).2 (mn n).2.

Lemma alike_bind {A B} (mb mn : Rl A) (kb kn : A -> Rl B) :
  alike mb mn -> (forall a, alike (kb a) (kn a)) -> alike (bind mb kb) (bind mn kn).
Proof.
  intros Hm Hk b n Hs. unfold bind. destruct (Hm b n Hs) as [Hr Hst].
  destruct (mb b) as [[a| | |] b'], (mn n) as [[a'| | |] n']; cbn [fst snd] in *; try done; simplify_eq; try (by split).
  by apply Hk.
Qed.
Lemma alike_ret {A} (a : A) : alike (ret a) (ret a).
Proof. by intros b n Hs. Qed.
Lemma alike_builder {A} (o : outcome ProtocolError A) : alike (builder o) (builder o).
Proof. by intros b n Hs. Qed.

Lemma wrote_snoc st who bs : wrote_s2c (set_client (to_client st ++ [(who, bs)]) st) =
  wrote_s2c st ++ (if bool_decide (who = S2C) then bs else []).
Proof.
  unfold wrote_s2c. cbn [to_client set_client]. rewrite filter_app, map_app, concat_app. f_equal.
  destruct (bool_decide_reflect (who = S2C)) as [->|Hne]; [rewrite filter_cons_True by done|rewrite filter_cons_False by done]; cbn; rewrite ?app_nil_r; done.
Qed.

Lemma in_step_open b n : in_step b n -> client_open n = true.
Proof. intros [Hc _ _ Ho _]. rewrite <- Ho. symmetry. exact (f_equal client_open Hc). Qed.

Lemma alike_flush : alike flush_pending flush_pending.
Proof.
  intros b n Hs. destruct (Hs) as [Hc Hb Hn Ho Hl]. unfold flush_pending. rewrite Hn.
  destruct (pending_s2c b) as [|x l] eqn:Ep; [by split|].
  unfold bind, write_bytes, modify. rewrite Ho. cbn [fst snd]. split; [done|]. split; try done; [|apply cap_pos].
  cbn [pending_s2c set_pending]. rewrite app_nil_r. unfold wrote_s2c at 1. cbn [to_client set_pending].
  change (wrote_s2c (set_client (to_client b ++ [(S2C, x :: l)]) b) = wrote_s2c n). rewrite wrote_snoc. exact Hb.
Qed.

Lemma alike_flush_quietly : alike flush_quietly flush_quietly.
Proof.
  intros b n Hs. destruct (alike_flush b n Hs) as [Hr Hst]. unfold flush_quietly, flush_pending in *.
  destruct Hs as [Hc Hb Hn Ho Hl]. rewrite Hn in *. destruct (pending_s2c b) as [|x l]; [done|].
  unfold ignore_error, bind, write_bytes, modify in *. rewrite Ho in *. done.
Qed.

(** Once the buffer is empty both sides write alike. *)
Lemma alike_write raw : alike (flush_pending;; write_client env (set_batch true cfg) S2C raw) (flush_pending;; write_client env (set_batch false cfg) S2C raw).
Proof.
  intros b n Hs. destruct (alike_flush b n Hs) as [Hr Hst].
  assert (Hp : (flush_pending b).1 = Ok tt /\ pending_s2c (flush_pending b).2 = []).
  { unfold flush_pending. destruct (pending_s2c b) eqn:E; [done|]. unfold bind, write_bytes, modify. by rewrite (step_open _ _ Hs). }
  destruct Hp as [Hp1 Hp2]. unfold bind. destruct (flush_pending b) as [rb b'], (flush_pending n) as [rn n']. cbn [fst snd] in *. subst rb rn.
  destruct (Hst) as [Hc Hb Hn Ho Hl]. unfold write_client, write_bytes. rewrite Ho, (in_step_open _ _ Hst). cbn [fst snd]. split; [done|].
  split; try done. rewrite wrote_snoc. cbn [pending_s2c set_client]. rewrite Hp2, app_nil_r. rewrite wrote_snoc. rewrite Hp2, app_nil_r in Hb. by rewrite Hb.
Qed.

(** The bytes do not depend on what is held back. *)
Lemma wrote_pending x st : wrote_s2c (set_pending x st) = wrote_s2c st.
Proof. done. Qed.
Lemma alike_forward data more : alike (forward_s2c env (set_batch true cfg) data more) (forward_s2c env (set_batch false cfg) data more).
Proof.
  intros b n Hs. destruct (Hs) as [Hc Hb Hn Ho Hl]. unfold forward_s2c. cbn [batch_s2c_writes set_batch].
  set (frame := encode_for_client env (set_batch true cfg) data).
  unfold write_client. change (encode_for_client env (set_batch false cfg) data) with frame.
  unfold bind, modify, get_state, write_bytes. rewrite (in_step_open _ _ Hs). cbn [pending_s2c set_pending].
  destruct ((PENDING_FLUSH_CAP <=? length (pending_s2c b ++ frame))%nat || negb more) eqn:Ecap; cbn [fst snd client_open set_pending].
  - rewrite Ho. cbn [fst snd]. split; [done|]. split; try done; [|apply cap_pos].
    change (wrote_s2c (set_client (to_client b ++ [(S2C, pending_s2c b ++ frame)]) b) ++ [] = wrote_s2c (set_client (to_client n ++ [(S2C, frame)]) n)).
    rewrite !wrote_snoc, <- Hb. cbn. by rewrite app_nil_r, <- app_assoc.
  - apply orb_false_iff in Ecap as [Ecap _]. apply Nat.leb_gt in Ecap.
    unfold ret. split; [done|]. split; try done. cbn [snd]. rewrite wrote_pending, wrote_snoc, <- Hb. cbn [pending_s2c set_pending]. by rewrite <- app_assoc.
Qed.

(** What only changes the tables does the same on both sides. *)
Lemma alike_tables f (Hf : forall b n, core b = core n -> core (f b) = core (f n))
  (Hk : forall st, to_client (f st) = to_client st /\ pending_s2c (f st) = pending_s2c st /\ client_open (f st) = client_open st) :
  alike (modify f) (modify f).
Proof.
  intros b n [Hc Hb Hn Ho Hl]. destruct (Hk b) as (Eb & Pb & Ob), (Hk n) as (En & Pn & _).
  split; [done|]. split; cbn [modify snd]; [by apply Hf| |congruence|congruence|congruence].
  unfold wrote_s2c in *. by rewrite Eb, Pb, En.
Qed.
Lemma alike_set_sessions x : alike (modify (set_sessions x)) (modify (set_sessions x)).
Proof. apply alike_tables; [|done]. intros b n Hc. exact (f_equal (set_sessions x) Hc). Qed.
Lemma alike_set_servers x : alike (modify (set_servers x)) (modify (set_servers x)).
Proof. apply alike_tables; [|done]. intros b n Hc. exact (f_equal (set_servers x) Hc). Qed.
Lemma alike_set_kick x : alike (modify (set_kick x)) (modify (set_kick x)).
Proof. apply alike_tables; [|done]. intros b n Hc. exact (f_equal (set_kick x) Hc). Qed.

(** A continuation of [get_state] that looks at the tables only. *)
Lemma alike_get {A} (kb kn : RelayState -> Rl A) :
  (forall st, kb st = kb (core st)) -> (forall st, kn st = kn (core st)) -> (forall st, alike (kb st) (kn st)) ->
  alike (bind get_state kb) (bind get_state kn).
Proof. intros Eb En Hk b n Hs. unfold bind, get_state. rewrite (Eb b), (En n), (step_core _ _ Hs). by apply Hk. Qed.

Lemma alike_handle_transfer cmd :
  alike (handle_transfer_command env (set_batch true cfg) cmd) (handle_transfer_command env (set_batch false cfg) cmd).
Proof.
  unfold handle_transfer_command. apply alike_get; [by destruct cmd..|].
  intros st. unfold own_session. cbn [player_uuid set_batch].
  destruct cmd as [s|s u| |]; try apply alike_ret; [destruct (registry_get s (servers st)); [|apply alike_ret]; destruct (session_table st !! _)|destruct (session_table st !! _)];
    try apply alike_ret;
    (apply alike_bind; [apply alike_set_servers|intros _]; apply alike_bind; [apply alike_set_sessions|intros _]; apply alike_ret).
Qed.

Lemma then_assoc {A B} (m : Rl unit) (k : Rl A) (g : A -> Rl B) st : (m;; bind k g) st = (bind (m;; k) g) st.
Proof. unfold bind. destruct (m st) as [[?| | |] st']; done. Qed.

Lemma alike_write_ret {A} raw (a : A) : alike (flush_pending;; write_client env (set_batch true cfg) S2C raw;; ret a) (flush_pending;; write_client env (set_batch false cfg) S2C raw;; ret a).
Proof. intros b n Hs. rewrite !then_assoc. revert b n Hs. apply alike_bind; [apply alike_write|intros _; apply alike_ret]. Qed.

Lemma alike_plugin_message payload :
  alike (s2c_plugin_message env (set_batch true cfg) payload) (s2c_plugin_message env (set_batch false cfg) payload).
Proof.
  unfold s2c_plugin_message. cbn [protocol_version set_batch].
  destruct (decode_clientbound_plugin_message _ _) as [msg| | |]; try apply alike_ret.
  destruct (is_brand (pm_channel msg)); [apply alike_ret|].
  destruct (parse_command _ _ _ _) as [cmd|]; [|apply alike_ret].
  apply alike_bind; [apply alike_handle_transfer|]. intros [resp|]; [|apply alike_ret].
  apply alike_bind; [apply alike_builder|]. intros raw. apply alike_write_ret.
Qed.

Lemma alike_hooks v dir payload : alike (process_packet_hooks env v dir payload) (process_packet_hooks env v dir payload).
Proof. unfold process_packet_hooks. destruct (negb _); [apply alike_ret|]. destruct (run_hooks _ _ _ _); apply alike_ret. Qed.

Lemma alike_packet payload more : alike (s2c_packet env (set_batch true cfg) payload more) (s2c_packet env (set_batch false cfg) payload more).
Proof.
  unfold s2c_packet. cbn [protocol_version set_batch]. destruct (VarInt_decode payload) as [[v| | |] rest]; try apply alike_ret.
  destruct ((v <? 0) || (255 <? v)); [apply alike_write_ret|].
  destruct (v =? cb_play _ "ClientboundLevelChunkWithLight"); [apply alike_bind; [apply alike_forward|intros _; apply alike_ret]|].
  apply alike_bind; [destruct (v =? _); [apply alike_plugin_message|apply alike_ret]|]. intros [control|]; [apply alike_ret|].
  destruct (v =? cb_play _ "ClientboundDisconnect").
  - apply alike_bind; [apply alike_flush_quietly|intros _]. apply alike_bind; [apply alike_set_kick|intros _]. apply alike_ret.
  - apply alike_bind; [apply alike_hooks|]. intros [data|]; [|apply alike_ret]. apply alike_bind; [apply alike_forward|intros _; apply alike_ret].
Qed.

Lemma flush_quietly_empties st : (flush_quietly st).1 = Ok tt /\ pending_s2c (flush_quietly st).2 = [].
Proof.
  unfold flush_quietly. destruct (pending_s2c st) eqn:E; [done|].
  unfold bind, ignore_error, write_bytes, modify. by destruct (client_open st).
Qed.
Lemma flush_pending_empties st : (flush_pending st).1 = Ok tt -> pending_s2c (flush_pending st).2 = [].
Proof.
  unfold flush_pending. destruct (pending_s2c st) eqn:E; [done|].
  unfold bind, write_bytes, modify. by destruct (client_open st).
Qed.

Lemma alike_shutdown reason : alike (s2c_step env (set_batch true cfg) (S2cShutdown reason)) (s2c_step env (set_batch false cfg) (S2cShutdown reason)).
Proof.
  intros b n Hs. destruct (alike_flush_quietly b n Hs) as [Hr Hst], (flush_quietly_empties b) as [Hq He].
  cbn [s2c_step protocol_version set_batch]. unfold bind.
  destruct (flush_quietly b) as [rb b'], (flush_quietly n) as [rn n']. cbn [fst snd] in *. subst rb rn.
  unfold builder, from_outcome. destruct (build_disconnect_packet _ _ _) as [raw| | |]; cbn [map_err]; [|done..].
  unfold ignore_error, write_client, write_bytes. destruct (Hst) as [Hc Hb Hn Ho Hl]. rewrite Ho, (in_step_open _ _ Hst).
  unfold ret. cbn [fst snd]. split; [done|]. split; try done. rewrite !wrote_snoc. cbn [pending_s2c set_client]. rewrite He, app_nil_r in *. by rewrite Hb.
Qed.

Lemma alike_step e : alike (s2c_step env (set_batch true cfg) e) (s2c_step env (set_batch false cfg) e).
Proof.
  destruct e as [|reason|payload more|e]; [apply alike_ret|apply alike_shutdown|apply alike_packet|]. by intros b n Hs.
Qed.

Lemma alike_loop events : alike (s2c_loop env (set_batch true cfg) events) (s2c_loop env (set_batch false cfg) events).
Proof.
  induction events as [|e events IH]; cbn [s2c_loop]; [apply alike_ret|].
  apply alike_bind; [apply alike_step|]. intros []; [exact IH|]. apply alike_bind; [apply alike_flush|intros _; apply alike_ret].
Qed.

(** A loop that was left has flushed. *)
Lemma loop_left_flushed c events st : (s2c_loop env c events st).1 = Ok Break -> pending_s2c (s2c_loop env c events st).2 = [].
Proof.
  revert st. induction events as [|e events IH]; intros st; [done|]. cbn [s2c_loop]. unfold bind.
  destruct (s2c_step env c e st) as [[[]| | |] st']; cbn [fst snd]; try done; [apply IH|].
  pose proof (flush_pending_empties st') as H. destruct (flush_pending st') as [[[]| | |] st'']; cbn [fst snd] in *; try done. intros _. by apply H.
Qed.
End Batching.


(** ** Invariants of the steps *)

Section Keeps.
Variable P : RelayState -> Prop.

(** Whatever the outcome, the state reached satisfies [P] again. *)
Definition keeps {A} (m : Rl A) : Prop := forall st, P st -> P (m st).2.

Lemma keeps_ret {A} (a : A) : keeps (ret a).
Proof. by intros st. Qed.
Lemma keeps_fail {A} e : keeps (A := A) (fail e).
Proof. by intros st. Qed.
Lemma keeps_builder {A} (o : outcome ProtocolError A) : keeps (builder o).
Proof. by intros st. Qed.
Lemma keeps_from {E A} (f : E -> ConnectionError) (o : outcome E A) : keeps (from_outcome f o).
Proof. by intros st. Qed.
Lemma keeps_bind {A B} (m : Rl A) (k : A -> Rl B) : keeps m -> (forall a, keeps (k a)) -> keeps (bind m k).
Proof.
  intros Hm Hk st Hst. unfold bind. pose proof (Hm st Hst) as H. destruct (m st) as [[a| | |] st']; cbn [fst snd] in *; try done. by apply Hk.
Qed.
Lemma keeps_get {A} (k : RelayState -> Rl A) : (forall st, P st -> keeps (k st)) -> keeps (bind get_state k).
Proof. intros Hk st Hst. by apply Hk. Qed.
Lemma keeps_ignore m : keeps m -> keeps (ignore_error m).
Proof. intros Hm st Hst. unfold ignore_error. pose proof (Hm st Hst). by destruct (m st) as [[]]. Qed.
Lemma keeps_modify f : (forall st, P st -> P (f st)) -> keeps (modify f).
Proof. intros Hf st Hst. by apply Hf. Qed.
End Keeps.

Create HintDb keeps.
#[export] Hint Resolve keeps_ret keeps_fail keeps_builder keeps_from : keeps.
#[export] Hint Opaque builder from_outcome bind ret fail ignore_error modify get_state : keeps.

(** One step of a proof that a program keeps a predicate: through a bind, into the
    branches, or by a lemma at hand. *)
Ltac keeps_step :=
  lazymatch goal with
  | |- keeps _ (bind get_state _) => apply keeps_get; intros ? ?
  | |- keeps _ (bind _ _) => apply keeps_bind; [|intros ?]
  | |- keeps _ (ignore_error _) => apply keeps_ignore
  | |- keeps _ (match ?x with _ => _ end) => destruct x
  | |- keeps _ _ => solve [eauto 2 with keeps]
  end.
Ltac keeps_auto := repeat keeps_step.

(** The transfer command in a plugin message of the backend or of the client. *)
Definition s2c_carries (env : RelayEnv) (cfg : RelayConfig) (payload : bytes) : option TransferCommand :=
  match decode_clientbound_plugin_message (VarInt_decode payload).2 (protocol_version cfg) with
  | Ok msg => parse_command (json_command env) (uuid_parse env) (pm_channel msg) (pm_data msg)
  | _ => None
  end.
Definition c2s_carries (env : RelayEnv) (cfg : RelayConfig) (payload : bytes) : option TransferCommand :=
  match decode_serverbound_plugin_message (VarInt_decode payload).2 (protocol_version cfg) with
  | Ok msg => parse_command (json_command env) (uuid_parse env) (pm_channel msg) (pm_data msg)
  | _ => None
  end.

(** What neither the tables nor the backend notices. *)
Record quiet (P : RelayState -> Prop) : Prop := {
  quiet_client : forall x st, P st -> P (set_client x st);
  quiet_pending : forall x st, P st -> P (set_pending x st);
  quiet_out : forall x st, P st -> P (set_out x st);
  quiet_switch : forall x st, P st -> P (set_switch x st);
  quiet_kick : forall x st, P st -> P (set_kick x st);
  quiet_cooldowns : forall x st, P st -> P (set_cooldowns x st);
  quiet_effects : forall x st, P st -> P (set_effects x st) }.

Section Quiet.
Variable P : RelayState -> Prop.
Hypothesis HP : quiet P.
Variable env : RelayEnv.
Variable cfg : RelayConfig.

Lemma keeps_write_bytes who bs : keeps P (write_bytes who bs).
Proof. intros st Hst. unfold write_bytes. destruct (client_open st); [by apply HP|done]. Qed.
Lemma keeps_write_client who raw : keeps P (write_client env cfg who raw).
Proof. apply keeps_write_bytes. Qed.
Lemma keeps_flush : keeps P flush_pending.
Proof.
  intros st Hst. unfold flush_pending. destruct (pending_s2c st) as [|x l]; [done|].
  apply (keeps_bind P); [apply keeps_write_bytes|intros _; apply keeps_modify; intros; by apply HP|done].
Qed.
Lemma keeps_flush_quietly : keeps P flush_quietly.
Proof.
  intros st Hst. unfold flush_quietly. destruct (pending_s2c st) as [|x l]; [done|].
  apply (keeps_bind P); [apply keeps_ignore, keeps_write_bytes|intros _; apply keeps_modify; intros; by apply HP|done].
Qed.
Lemma keeps_set_switch x : keeps P (modify (set_switch x)).
Proof. apply keeps_modify. intros. by apply HP. Qed.
Lemma keeps_set_kick x : keeps P (modify (set_kick x)).
Proof. apply keeps_modify. intros. by apply HP. Qed.
Lemma keeps_set_cooldowns x : keeps P (modify (set_cooldowns x)).
Proof. apply keeps_modify. intros. by apply HP. Qed.
Lemma keeps_effects f : keeps P (modify (fun st => set_effects (f st) st)).
Proof. apply keeps_modify. intros. by apply HP. Qed.
Lemma keeps_out f : keeps P (modify (fun st => set_out (f st) st)).
Proof. apply keeps_modify. intros. by apply HP. Qed.
Lemma keeps_pending f : keeps P (modify (fun st => set_pending (f st) st)).
Proof. apply keeps_modify. intros. by apply HP. Qed.
#[local] Hint Resolve keeps_write_bytes keeps_write_client keeps_flush keeps_flush_quietly keeps_set_switch keeps_set_kick
  keeps_set_cooldowns keeps_effects keeps_out keeps_pending : keeps.

Lemma keeps_kick {A} reason : keeps P (kick (A := A) env cfg reason).
Proof. unfold kick. keeps_auto. Qed.
Lemma keeps_request_switch server : keeps P (request_switch env cfg server).
Proof. unfold request_switch. keeps_auto. Qed.
#[local] Hint Resolve keeps_kick keeps_request_switch : keeps.
Lemma keeps_switch_or_continue server : keeps P (switch_or_continue env cfg server).
Proof. unfold switch_or_continue. keeps_auto. Qed.
Lemma keeps_send_messages l : keeps P (send_messages env cfg l).
Proof. unfold send_messages. induction l as [|msg l IH]; cbn [foldr]; keeps_auto. Qed.
Lemma keeps_dispatch_event responses : keeps P (dispatch_event env cfg responses).
Proof. unfold dispatch_event. keeps_auto. Qed.
#[local] Hint Resolve keeps_switch_or_continue keeps_send_messages keeps_dispatch_event : keeps.
Lemma keeps_plain_chat text : keeps P (c2s_plain_chat env cfg text).
Proof. unfold c2s_plain_chat. keeps_auto. Qed.
Lemma keeps_command command_line : keeps P (c2s_command env cfg command_line).
Proof. unfold c2s_command. keeps_auto. Qed.
Lemma keeps_move pkt_id payload : keeps P (c2s_move env cfg pkt_id payload).
Proof. unfold c2s_move. keeps_auto. Qed.
Lemma keeps_inject pkt_id : keeps P (inject_configuration env cfg pkt_id).
Proof. unfold inject_configuration. keeps_auto. Qed.
Lemma keeps_forward data more : keeps P (forward_s2c env cfg data more).
Proof. unfold forward_s2c. keeps_auto. Qed.
Lemma keeps_hooks v dir payload : keeps P (process_packet_hooks env v dir payload).
Proof. unfold process_packet_hooks. keeps_auto. Qed.
#[local] Hint Resolve keeps_plain_chat keeps_command keeps_move keeps_inject keeps_forward keeps_hooks : keeps.
Lemma keeps_chat pkt_id payload : keeps P (c2s_chat env cfg pkt_id payload).
Proof. unfold c2s_chat. keeps_auto. Qed.

(** The operations that do touch the tables or the backend; of the transfer commands,
    those the packet at hand carries. *)
Hypothesis keeps_cookie : forall data, keeps P (store_cookie env cfg data).
Hypothesis keeps_backend : forall raw, keeps P (write_backend env cfg raw).
#[local] Hint Resolve keeps_chat keeps_cookie keeps_backend : keeps.

Lemma keeps_c2s_plugin now payload :
  (forall cmd, c2s_carries env cfg payload = Some cmd -> keeps P (handle_transfer_command env cfg cmd)) -> keeps P (c2s_plugin_message env cfg now payload).
Proof.
  unfold c2s_carries, c2s_plugin_message. intros Hcmd. destruct (decode_serverbound_plugin_message _ _) as [msg| | |]; [|apply keeps_ret..].
  destruct (parse_command _ _ _ _) as [cmd|]; [specialize (Hcmd cmd eq_refl)|]; keeps_auto.
Qed.
Lemma keeps_s2c_plugin payload :
  (forall cmd, s2c_carries env cfg payload = Some cmd -> keeps P (handle_transfer_command env cfg cmd)) -> keeps P (s2c_plugin_message env cfg payload).
Proof.
  unfold s2c_carries, s2c_plugin_message. intros Hcmd. destruct (decode_clientbound_plugin_message _ _) as [msg| | |]; [|apply keeps_ret..].
  destruct (parse_command _ _ _ _) as [cmd|]; [specialize (Hcmd cmd eq_refl)|]; keeps_auto.
Qed.
#[local] Hint Resolve keeps_c2s_plugin keeps_s2c_plugin : keeps.
Lemma keeps_c2s_step e :
  (forall now payload cmd, e = C2sPacket now payload -> c2s_carries env cfg payload = Some cmd -> keeps P (handle_transfer_command env cfg cmd)) ->
  keeps P (c2s_step env cfg e).
Proof.
  intros Hcmd. destruct e as [| |[raw|]|now payload|e]; cbn [c2s_step]; unfold c2s_packet; [keeps_auto..| |keeps_auto].
  specialize (Hcmd now payload). pose proof (keeps_c2s_plugin now payload (fun cmd => Hcmd cmd eq_refl)). keeps_auto.
Qed.
Lemma keeps_s2c_step e :
  (forall payload more cmd, e = S2cPacket payload more -> s2c_carries env cfg payload = Some cmd -> keeps P (handle_transfer_command env cfg cmd)) ->
  keeps P (s2c_step env cfg e).
Proof.
  intros Hcmd. destruct e as [|reason|payload more|e]; cbn [s2c_step]; unfold s2c_packet; [keeps_auto..| |keeps_auto].
  specialize (Hcmd payload more). pose proof (keeps_s2c_plugin payload (fun cmd => Hcmd cmd eq_refl)). keeps_auto.
Qed.
Lemma keeps_out_step : keeps P (out_step env cfg).
Proof.
  intros st Hst. unfold out_step. destruct (out_queue st) as [|raw rest]; [done|].
  pose proof (keeps_write_client OutTask raw (set_out rest st) (quiet_out _ HP rest st Hst)) as H. by destruct (write_client _ _ _ _ _) as [[] ?].
Qed.
End Quiet.

(** ** Runs *)

(** The three tasks in any order: which one takes its next step. *)
Inductive RelayEvent := EvS2c (e : S2cEvent) | EvC2s (e : C2sEvent) | EvOut.
Definition relay_step (env : RelayEnv) (cfg : RelayConfig) (e : RelayEvent) : Rl LoopControl :=
  match e with EvS2c e => s2c_step env cfg e | EvC2s e => c2s_step env cfg e | EvOut => out_step env cfg end.
(** The transfer command its packet carries. *)
Definition carries (env : RelayEnv) (cfg : RelayConfig) (e : RelayEvent) : option TransferCommand :=
  match e with
  | EvS2c (S2cPacket payload _) => s2c_carries env cfg payload
  | EvC2s (C2sPacket _ payload) => c2s_carries env cfg payload
  | _ => None
  end.
Definition relay_run (env : RelayEnv) (cfg : RelayConfig) (events : list RelayEvent) (st : RelayState) : RelayState :=
  fold_left (fun st e => (relay_step env cfg e st).2) events st.

Definition rl_census (st : RelayState) : Prop := census (servers st) (session_table st).

Definition rl_owed (leaks : list bytes) (st : RelayState) : Prop := owed leaks (servers st) (session_table st).

Lemma quiet_owed leaks : quiet (rl_owed leaks).
Proof. by split. Qed.
Lemma keeps_transfer_owed leaks env cfg cmd : keeps (rl_owed leaks) (handle_transfer_command env cfg cmd).
Proof.
  intros st Hc. unfold handle_transfer_command, bind at 1, get_state. destruct cmd as [server|server uuid| |]; try done.
  - destruct (registry_get server (servers st)); [|done]. destruct (own_session cfg st) as [s|] eqn:E; [|done]. by apply owed_transfer.
  - destruct (session_table st !! uuid) as [s|] eqn:E; [|done]. by apply owed_transfer.
Qed.
Lemma keeps_cookie_owed leaks env cfg data : keeps (rl_owed leaks) (store_cookie env cfg data).
Proof. intros st Hc. unfold store_cookie, modify. cbn [snd]. destruct (own_session cfg st) as [s|] eqn:E; [|done]. by eapply owed_same_server. Qed.
Lemma keeps_backend_owed leaks env cfg raw : keeps (rl_owed leaks) (write_backend env cfg raw).
Proof. intros st Hc. unfold write_backend. by destruct (backend_open st). Qed.

(** A run keeps what each of its steps keeps. *)
Lemma relay_run_keeps (P : RelayState -> Prop) env cfg events st : quiet P ->
  (forall data, keeps P (store_cookie env cfg data)) -> (forall raw, keeps P (write_backend env cfg raw)) ->
  Forall (fun e => forall cmd, carries env cfg e = Some cmd -> keeps P (handle_transfer_command env cfg cmd)) events ->
  P st -> P (relay_run env cfg events st).
Proof.
  intros HP Hcookie Hback Hcmd. unfold relay_run. revert st. induction Hcmd as [|e events He _ IH]; intros st Hst; [done|]. cbn [fold_left]. apply IH.
  destruct e as [e|e|]; cbn [relay_step].
  - apply keeps_s2c_step; try done. intros payload more cmd -> H. by apply He.
  - apply keeps_c2s_step; try done. intros now payload cmd -> H. by apply He.
  - by apply keeps_out_step.
Qed.
Lemma relay_run_owed leaks env cfg events st : rl_owed leaks st -> rl_owed leaks (relay_run env cfg events st).
Proof.
  apply relay_run_keeps; [apply quiet_owed|apply keeps_cookie_owed|apply keeps_backend_owed|].
  apply Forall_forall. intros e _ cmd _. apply keeps_transfer_owed.
Qed.

(** The player's own session: it stays in the table, and it is not marked as
    transferred unless some packet asks for it. *)
Definition moves_player (cfg : RelayConfig) (cmd : TransferCommand) : bool :=
  match cmd with Connect _ => true | ConnectOther _ uuid => bool_decide (uuid = player_uuid cfg) | GetServer | GetPlayers => false end.
Definition attended (t : bool -> Prop) (cfg : RelayConfig) (st : RelayState) : Prop := exists s, own_session cfg st = Some s /\ t (ps_transferred s).
Lemma attended_quiet t cfg : quiet (attended t cfg).
Proof. by split. Qed.
Lemma keeps_cookie_attended t env cfg data : keeps (attended t cfg) (store_cookie env cfg data).
Proof.
  intros st (s & Hs & Ht). unfold store_cookie, modify. cbn [snd]. rewrite Hs. unfold attended, own_session. cbn [session_table set_sessions].
  rewrite lookup_insert_eq. eauto.
Qed.
Lemma keeps_backend_attended t env cfg raw : keeps (attended t cfg) (write_backend env cfg raw).
Proof. intros st Hst. unfold write_backend. by destruct (backend_open st). Qed.
Lemma keeps_transfer_attended (t : bool -> Prop) env cfg cmd : t true \/ moves_player cfg cmd = false -> keeps (attended t cfg) (handle_transfer_command env cfg cmd).
Proof.
  intros Hcmd st (s & Hs & Ht). unfold handle_transfer_command, bind at 1, get_state. rewrite Hs. unfold attended, own_session in *.
  destruct cmd as [server|server uuid| |]; try (by exists s).
  - destruct (registry_get server (servers st)); [|by exists s]. destruct Hcmd as [Hcmd|]; [|done]. cbn [snd session_table set_sessions modify bind ret set_servers].
    rewrite lookup_insert_eq. eauto.
  - destruct (session_table st !! uuid) as [s'|] eqn:E; [|by exists s]. cbn [snd session_table set_sessions modify bind ret set_servers].
    destruct (decide (uuid = player_uuid cfg)) as [->|Hne]; [|rewrite lookup_insert_ne by done; by exists s].
    rewrite lookup_insert_eq. destruct Hcmd as [Hcmd|Hcmd]; [eauto|]. cbn in Hcmd. by rewrite bool_decide_eq_true_2 in Hcmd.
Qed.
Lemma relay_run_attended (t : bool -> Prop) env cfg events st :
  t true \/ Forall (fun e => forall cmd, carries env cfg e = Some cmd -> moves_player cfg cmd = false) events ->
  attended t cfg st -> attended t cfg (relay_run env cfg events st).
Proof.
  intros Ht. apply relay_run_keeps; [apply attended_quiet|apply keeps_cookie_attended|apply keeps_backend_attended|].
  destruct Ht as [Ht|Ht]; [apply Forall_forall; intros e _|apply (Forall_impl _ _ _ Ht); intros e He];
    intros cmd Hc; apply keeps_transfer_attended; [by left|right; by apply He].
Qed.

(** Leaving empties the player's place, and gives up its count unless the session
    was marked as transferred. *)
Lemma relay_exit_tables cfg c2s_res s2c_res st s : own_session cfg st = Some s ->
  servers (relay_exit cfg c2s_res s2c_res st).2 = (if ps_transferred s then servers st else leave s (servers st)) /\
  session_table (relay_exit cfg c2s_res s2c_res st).2 = <[player_uuid cfg := with_server None (ps_transferred s) s]> (session_table st).
Proof.
  intros Hown. unfold relay_exit, bind, modify, get_state, ret, from_outcome. cbn beta iota zeta. rewrite Hown.
  destruct (ps_transferred s); cbn [servers session_table set_sessions set_servers switch_target];
    repeat (case_match; cbn [map_err snd fst servers session_table set_sessions set_servers set_switch set_kick] in *); simplify_eq; done.
Qed.

(** Player counts and the relay.  Through any interleaving of the three tasks,
    whatever the client, the backend and the plugins send, the count of every
    registered server stays the number of sessions on it; leaving the relay keeps
    it so unless the session was marked as transferred, and then the server the
    player was on is left with one player too many. *)
Theorem relay_census (env : RelayEnv) (cfg : RelayConfig) (events : list RelayEvent) (c2s_res s2c_res : outcome ConnectionError unit) (st : RelayState) (s : PlayerSession) :
  rl_census st ->
  let st1 := relay_run env cfg events st in
  let st2 := (relay_exit cfg c2s_res s2c_res st1).2 in
  rl_census st1 /\
  (own_session cfg st1 = Some s ->
    (ps_transferred s = false -> rl_census st2) /\
    (forall name b, ps_transferred s = true -> ps_current_server s = Some name -> registry_get name (servers st2) = Some b ->
       bs_player_count b = wrapu 64 (Z.of_nat (occupancy name (session_table st2)) + 1))).
Proof.
  intros Hc st1 st2. assert (Hc1 : rl_census st1) by (apply owed_nil, relay_run_owed, owed_nil, Hc). split; [done|]. intros Hown.
  destruct (relay_exit_tables cfg c2s_res s2c_res st1 s Hown) as [Es Et]. fold st2 in Es, Et. unfold rl_census. rewrite Es, Et. unfold own_session in Hown. split.
  - intros ->. by apply owed_nil, owed_exit; [apply owed_nil|].
  - intros name b -> Hcur Hg. pose proof (occupancy_update name _ _ _ (with_server None true s) Hown) as Ho. unfold here_one in Ho.
    rewrite Hcur, bool_decide_eq_true_2, bool_decide_eq_false_2 in Ho by done. rewrite (Hc1 _ _ Hg). f_equal. lia.
Qed.

(** ** Chat *)

(** A chat packet: its id is one of the chat ids and not that of a plugin message or
    of a movement, and its text can be read. *)
Record chat_packet (cfg : RelayConfig) (payload : bytes) (v : Z) (text : bytes) : Prop := {
  chat_id : (VarInt_decode payload).1 = Ok v;
  chat_range : 0 <= v <= 255;
  chat_ids : v ∈ chat_packet_ids_for (protocol_version cfg);
  chat_not_plugin : v <> sb_plugin_message_id (protocol_version cfg);
  chat_not_move : v <> sb_play (protocol_version cfg) "ServerboundMovePlayerPos" /\ v <> sb_play (protocol_version cfg) "ServerboundMovePlayerPosRot";
  chat_text : (decode_string (VarInt_decode payload).2).1 = Ok text }.

Definition is_command (cfg : RelayConfig) (v : Z) (text : bytes) : bool :=
  let cmd_id := sb_play (protocol_version cfg) "ServerboundChatCommand" in
  (negb (cmd_id =? 0xFF) && (v =? cmd_id)) || starts_with text (lit "/").
Definition command_line_of (text : bytes) : bytes := if starts_with text (lit "/") then text else lit "/" ++ text.
Definition stripped_payload (cfg : RelayConfig) (payload : bytes) : bytes :=
  if chat_signing_translation cfg then
    match determine_signing_mode (protocol_version cfg) (backend_protocol cfg) with
    | Unsigned => match strip_chat_signature payload (protocol_version cfg) with Ok stripped => stripped | _ => payload end
    | _ => payload
    end
  else payload.

Section Chat.
Variable env : RelayEnv.
Variable cfg : RelayConfig.

Lemma c2s_packet_chat payload v text now st : chat_packet cfg payload v text ->
  c2s_packet env cfg now payload st =
    (let! '(handled, modified_payload) := c2s_chat env cfg v payload in
     match handled with
     | Some control => ret control
     | None => inject_configuration env cfg v;; write_backend env cfg modified_payload;; ret Continue
     end) st.
Proof.
  intros [Hid Hr Hin Hpm [Hm1 Hm2] _]. unfold c2s_packet. destruct (VarInt_decode payload) as [o rest] eqn:E. cbn [fst] in Hid. subst o.
  replace ((v <? 0) || (255 <? v)) with false by (symmetry; apply orb_false_iff; split; apply Z.ltb_ge; lia).
  unfold c2s_move at 1. rewrite (proj2 (Z.eqb_neq _ _) Hm1), (proj2 (Z.eqb_neq _ _) Hm2). cbn [orb andb].
  rewrite (proj2 (Z.eqb_neq _ _) Hpm), bool_decide_eq_true_2 by done. reflexivity.
Qed.

Lemma c2s_chat_eq payload v text : chat_packet cfg payload v text ->
  c2s_chat env cfg v payload =
    match check_chat_message text with
    | Err reason => kick env cfg reason
    | _ => let! control := if is_command cfg v text then c2s_command env cfg (command_line_of text) else c2s_plain_chat env cfg text in
           ret (control, stripped_payload cfg payload)
    end.
Proof.
  intros H. unfold c2s_chat. pose proof (chat_text _ _ _ _ H) as Ht. destruct (decode_string _) as [o rest]. cbn [fst] in Ht. subst o.
  unfold is_command, command_line_of, stripped_payload. destruct (check_chat_message text); try done;
    destruct (starts_with text (lit "/")); rewrite ?orb_true_r, ?orb_false_r, ?andb_false_r; cbn [negb]; rewrite ?andb_true_r; try done;
    match goal with |- context [?a && ?b] => destruct (a && b) end; done.
Qed.

Definition same_backend (st0 st : RelayState) : Prop := to_backend st = to_backend st0.
Lemma quiet_same_backend st0 : quiet (same_backend st0).
Proof. by split. Qed.

Lemma bind_pair {A B C} (m : Rl A) (b : B) (k : A * B -> Rl C) st :
  bind (bind m (fun a => ret (a, b))) k st =
    match m st with (Ok a, st') => k (a, b) st' | (Err e, st') => (Err e, st') | (Panic, st') => (Panic, st') | (NoFuel, st') => (NoFuel, st') end.
Proof. unfold bind, ret. by destruct (m st) as [[] ?]. Qed.

Lemma command_declined line session st st' : own_session cfg st = Some session ->
  c2s_command env cfg line st = (Ok None, st') ->
  let result := (handle_command (to_lowercase env) (red_text env) (map_order env) (command_tables env st) line session).1 in
  result <> Handled /\ forall target, result <> Switch target.
Proof.
  intros Hown. unfold c2s_command. unfold bind at 1. unfold get_state at 1. rewrite Hown.
  destruct (handle_command _ _ _ _ _ _) as [result out]. cbn [fst]. unfold bind.
  destruct (modify _ st) as [[[]| | |] st1]; try done. destruct (send_messages _ _ _ st1) as [[[]| | |] st2]; try done.
  destruct result as [|target| |msg]; try done. unfold switch_or_continue, bind. destruct (request_switch _ _ _ st2) as [[[]| | |] st3]; done.
Qed.

Lemma forward_effect v payload st : to_backend ((inject_configuration env cfg v;; write_backend env cfg payload;; ret Continue) st).2 = to_backend st \/
  to_backend ((inject_configuration env cfg v;; write_backend env cfg payload;; ret Continue) st).2 = to_backend st ++ encode_packet (deflate env) payload (backend_thresh cfg).
Proof.
  pose proof (keeps_inject _ (quiet_same_backend st) env cfg v st eq_refl) as Hi. unfold bind. unfold same_backend in Hi.
  destruct (inject_configuration env cfg v st) as [[[]| | |] st1]; cbn [snd] in *; try (by left).
  unfold write_backend. destruct (backend_open st1); cbn [snd]; [right|by left]. unfold ret. cbn [snd to_backend set_backend]. by rewrite Hi.
Qed.

End Chat.

(** ** Witnesses *)

Definition toy_commands : CommandEnv := mkCommandEnv [] [] [] (mkPluginManager (fun _ => None) (fun _ _ _ => None) []) (fun _ => []) (fun _ _ => false) NoToken.
Definition toy_env : RelayEnv := mkRelayEnv (fun bs => bs) false (fun _ _ _ => Forward) false (fun _ _ _ _ _ => []) (fun _ => []) (fun _ => None) (fun _ => []) (fun _ => None) (fun _ => None)
  (fun _ => []) (fun _ => None) (fun _ => []) (fun s => s) (fun l => l) (fun _ => None) (fun m => map (fun e => (e.2, true)) (map_to_list m)) toy_commands [].
Definition toy_uuid : bytes := repeat x01 16.
Definition toy_cfg : RelayConfig := mkRelayConfig 340 340 (-1) (-1) toy_uuid true false false 20 [].
Definition toy_session : PlayerSession := mkSession toy_uuid (lit "Steve") (V4 [x7f; x00; x00; x01]) 340 Play (Some (lit "lobby")) false [] None None ∅.
Definition toy_registry : ServerRegistry := [with_count 1 (Routing.sample_backend (lit "lobby") true 1 0 1 false); Routing.sample_backend (lit "survival") true 0 0 1 false].
Definition toy_state : RelayState := mkRelay [] [] [] [] None None {[toy_uuid := toy_session]} toy_registry ∅ [] true true.
(** Two packets that arrived together, then a stop. *)
Definition toy_events : list S2cEvent := [S2cPacket [x20; x01] true; S2cPacket [x20; x02] false; S2cStopped].


Lemma toy_census : rl_census toy_state.
Proof.
  intros name b. unfold toy_state, toy_registry. cbn [servers registry_get].
  destruct (decide _) as [<-|_]; [intros [= <-]; vm_compute; reflexivity|].
  destruct (decide _) as [<-|_]; [intros [= <-]; vm_compute; reflexivity|done].
Qed.

(** The backend asks for the player to be moved, then the relay ends. *)
Definition toy_transfer : list RelayEvent :=
  [EvS2c (S2cPacket (wire VarInt (cb_plugin_message_id 340) ++ wire Str (lit "BungeeCord") ++ encode_bc_string (lit "Connect") ++ encode_bc_string (lit "survival")) false)].

Lemma relay_census_witness :
  let st1 := relay_run toy_env toy_cfg toy_transfer toy_state in
  let st2 := (relay_exit toy_cfg (Ok tt) (Ok tt) st1).2 in
  rl_census toy_state /\ rl_census st1 /\ switch_target st1 = None /\
  exists b, registry_get (lit "survival") (servers st2) = Some b /\ occupancy (lit "survival") (session_table st2) = 0%nat /\ bs_player_count b = 1.
Proof.
  set (s := with_server (Some (lit "survival")) true toy_session).
  destruct (relay_census toy_env toy_cfg toy_transfer (Ok tt) (Ok tt) toy_state s toy_census) as [H1 H2].
  assert (Hown : own_session toy_cfg (relay_run toy_env toy_cfg toy_transfer toy_state) = Some s) by (vm_compute; reflexivity).
  cbn zeta. split; [exact toy_census|]. split; [exact H1|]. split; [vm_compute; reflexivity|].
  eexists. split; [vm_compute; reflexivity|]. split; [vm_compute; reflexivity|]. vm_compute. reflexivity.
Defined.

Definition toy_chat : bytes := wire VarInt 2 ++ wire Str (lit "hello").
Lemma toy_chat_packet : chat_packet toy_cfg toy_chat 2 (lit "hello").
Proof.
  split; [vm_compute; reflexivity|lia| | | |vm_compute; reflexivity].
  - match goal with |- ?P => apply (bool_decide_eq_true_1 P) end. vm_compute. reflexivity.
  - match goal with |- ?P => apply (bool_decide_eq_true_1 P) end. vm_compute. reflexivity.
  - match goal with |- ?P => apply (bool_decide_eq_true_1 P) end. vm_compute. reflexivity.
Qed.


(** A forwarded packet can be held back for as long as the backend is silent: when
    the packet behind it, already received, is one the relay swallows (here the
    backend's brand), nothing flushes the buffer. *)
Theorem batched_packet_stalls :
  let brand := wire VarInt (cb_plugin_message_id 340) ++ wire Str (lit "MC|Brand") ++ wire Str (lit "Paper") in
  let r := s2c_loop toy_env toy_cfg [S2cPacket [x20; x01] true; S2cPacket brand false] toy_state in
  r.1 = Ok Continue /\ to_client r.2 = [] /\ pending_s2c r.2 = encode_for_client toy_env toy_cfg [x20; x01].
Proof. vm_compute. repeat split; reflexivity. Qed.

(** The refusal of a switch is wrapped twice: the text of the chat component the
    player gets is itself the JSON of a component. *)
Theorem refusal_wrapped_twice (env : RelayEnv) (cfg : RelayConfig) (server : bytes) (st : RelayState) :
  registry_get server (servers st) = None -> client_open st = true ->
  exists o, o = build_system_message_packet (json_parse env) (json_text env) (red_json (json_text env) (lit "Unknown server '" ++ server ++ lit "'.")) (protocol_version cfg) /\
    forall raw, o = Ok raw -> request_switch env cfg server st = (Ok false, set_client (to_client st ++ [(C2S, encode_for_client env cfg raw)]) st).
Proof.
  intros Hg Ho. eexists. split; [reflexivity|]. intros raw Hraw. unfold request_switch, bind at 1, get_state. rewrite Hg.
  unfold builder, from_outcome, red_text, bind. rewrite Hraw. cbn [map_err]. unfold write_client, write_bytes. rewrite Ho. reflexivity.
Qed.
