(* ===== verification/Login.v ===== *)
(** * Keys and addresses of the login phase

    crates/proxy-core/src/net/connection.rs: reading the client's Encryption
    Response, decoding and encoding an Encryption Request, the forwarding mode of a
    backend and the address announced to it.  UUID and JSON text are parameters. *)
From Stdlib Require Import ZArith Lia Strings.String Strings.Byte.
From stdpp Require Import base list numbers strings.
From S2P Require Import Prelude Buf Wire VarInt Codec Negotiation Routing Chars Utf8 Registry RegistryData Modloader Builders.
From S2P Require Import Auth LoginPackets.
Local Open Scope Z_scope.
Local Open Scope koja_scope.

(** ** Encryption Response *)

Definition eof {A} : Dec A := fail UnexpectedEof.

(** A byte array behind an [i16] and behind a VarInt length. *)
Definition read_short_array : Dec bytes :=
  ensure 2 UnexpectedEof;;
  let! len := get_i16 in
  if len <? 0 then eof else ensure len UnexpectedEof;; let! bs := copy_to_bytes len in ret bs.
Definition read_varint_array : Dec bytes :=
  let! len := VarInt_decode in
  if len <? 0 then eof else ensure len UnexpectedEof;; let! bs := copy_to_bytes len in ret bs.

(** The body of [recv_encryption_response], behind the packet id: the shared secret
    and the verify token, empty when the client signed instead (1.19 to 1.19.2). *)
Definition read_encryption_response (proto : Z) : Dec (bytes * bytes) :=
  match epoch (nearest proto) with
  | E_V1_7 =>
      let! ss := read_short_array in
      let! vt := read_short_array in
      ret (ss, vt)
  | _ =>
      let! ss := read_varint_array in
      if (759 <=? proto) && (proto <=? 760) then
        ensure 1 UnexpectedEof;;
        let! has_verify_token := get_u8 in
        if negb (has_verify_token =? 0) then
          let! vt := read_varint_array in ret (ss, vt)
        else
          ensure 8 UnexpectedEof;;
          let! _ := get_i64 in
          let! _ := read_varint_array in
          ret (ss, [])
      else
        let! vt := read_varint_array in ret (ss, vt)
  end.

(** ** Encryption Request *)

Definition saturating_add_i16 (a b : Z) : Z := Z.max (-32768) (Z.min 32767 (a + b)).

Definition decode_encryption_request (e : Epoch) : Dec (bytes * bytes * bytes) :=
  let! server_id := decode_string in
  match e with
  | E_V1_7 =>
      ensure 2 UnexpectedEof;;
      let! pk_len := get_i16 in
      if pk_len <? 0 then eof
      else
        ensure (saturating_add_i16 pk_len 2) UnexpectedEof;;
        let! public_key := copy_to_bytes pk_len in
        let! vt_len := get_i16 in
        if vt_len <? 0 then eof
        else ensure vt_len UnexpectedEof;; let! verify_token := copy_to_bytes vt_len in ret (server_id, public_key, verify_token)
  | _ =>
      let! public_key := read_varint_array in
      let! verify_token := read_varint_array in
      ret (server_id, public_key, verify_token)
  end.

Definition encode_encryption_request (e : Epoch) (server_id public_key verify_token : bytes) : Enc :=
  encode_string server_id;;
  match e with
  | E_V1_7 =>
      if (32767 <? Z.of_nat (length public_key)) || (32767 <? Z.of_nat (length verify_token)) then fail UnexpectedEof
      else
        put_i16 (wraps 16 (Z.of_nat (length public_key)));; put_slice public_key;;
        put_i16 (wraps 16 (Z.of_nat (length verify_token)));; put_slice verify_token
  | _ =>
      VarInt_encode (wraps 32 (Z.of_nat (length public_key)));; put_slice public_key;;
      VarInt_encode (wraps 32 (Z.of_nat (length verify_token)));; put_slice verify_token
  end.

(** ** Forwarding *)

Definition effective_forwarding_mode (per_server_override : option ForwardingMode) (global : ForwardingMode) (ip_forward : bool) : ForwardingMode :=
  match per_server_override with
  | Some mode => mode
  | None => match global with FM_None => if ip_forward then FM_Bungeecord else FM_None | mode => mode end
  end.

(** [server_address.split('\0').next()]. *)
Definition clean_host (server_address : bytes) : bytes := match split NUL server_address with first :: _ => first | [] => server_address end.
Definition is_forge_like (t : BackendType) : bool := match t with Forge | Hybrid => true | Spigot => false end.
Definition fml_marker (kind : ModloaderKind) : bytes :=
  match kind with MK_Fml1 => marker "FML" | MK_Fml2 => marker "FML2" | MK_Fml3 => marker "FML3" | _ => [] end.

Section Backend.
Variable hyphenated : bytes -> bytes.
Variable props_json : list ProfileProperty -> option bytes.

(** The address of the handshake [send_backend_handshake] sends; [None]: the
    properties have no JSON text. *)
Definition handshake_address (mode : ForwardingMode) (backend_type : BackendType) (kind : ModloaderKind)
    (server_address client_ip uuid username : bytes) (properties : list ProfileProperty) : option bytes :=
  let host := clean_host server_address in
  match mode with
  | FM_Bungeecord =>
      match bungeecord_suffix hyphenated props_json client_ip (mkProfile uuid username properties) with
      | Some suffix => let base := host ++ suffix in Some (if is_forge_like backend_type then base ++ fml_marker kind else base)
      | None => None
      end
  | FM_Velocity | FM_None => Some (if is_forge_like backend_type then apply_fml_marker host kind else host)
  end.

(** The handshake and the login start, each framed without compression. *)
Definition backend_packet (o : option EncodedPacket) : list bytes :=
  match o with Some pkt => [wire VarInt (ep_id pkt) ++ ep_body pkt] | None => [] end.
Definition send_backend_handshake (proto : Z) (mode : ForwardingMode) (backend_type : BackendType) (kind : ModloaderKind)
    (server_address client_ip uuid username : bytes) (properties : list ProfileProperty) : option (list bytes) :=
  let canonical := canonical_typed_packet_version (nearest proto) in
  match handshake_address mode backend_type kind server_address client_ip uuid username properties with
  | Some address =>
      Some (backend_packet (build_backend_handshake canonical proto address 25565) ++
            backend_packet (build_backend_login_start canonical proto username uuid))
  | None => None
  end.
End Backend.

(** ** Lemmas *)

Lemma total_short_array : total read_short_array.
Proof.
  unfold read_short_array. apply total_ensure. apply guarded_int_bind; [done|]. intros len. apply total_guarded.
  destruct (len <? 0); [apply total_fail|]. apply total_ensure_copy. intros bs. apply total_ret.
Qed.
Lemma total_varint_array : total read_varint_array.
Proof.
  unfold read_varint_array. apply total_bind; [apply (lawful_total (c := VarInt))|]. intros len.
  destruct (len <? 0); [apply total_fail|]. apply total_ensure_copy. intros bs. apply total_ret.
Qed.

Definition varint_array (bs : bytes) : bytes := wire VarInt (Z.of_nat (length bs)) ++ bs.
Definition short_array (bs : bytes) : bytes := be_bytes 2 (Z.of_nat (length bs)) ++ bs.

Lemma reads_counted len bs : len = Z.of_nat (length bs) ->
  reads (if len <? 0 then eof else ensure len UnexpectedEof;; let! bs := copy_to_bytes len in ret bs) bs bs.
Proof.
  intros ->. replace (Z.of_nat (length bs) <? 0) with false by (symmetry; apply Z.ltb_ge; lia).
  apply reads_ensure; [lia|]. eapply reads_bind_last; [by apply reads_copy|apply reads_ret].
Qed.
Lemma reads_short_array bs : Z.of_nat (length bs) <= 32767 -> reads read_short_array (short_array bs) bs.
Proof.
  intros Hl. unfold read_short_array, short_array. apply reads_ensure; [rewrite length_app, length_be_bytes; lia|].
  eapply reads_bind; [apply (reads_int 2); [lia|width]|]. by apply reads_counted.
Qed.
Lemma reads_varint_array bs : Z.of_nat (length bs) < 2 ^ 31 -> reads read_varint_array (varint_array bs) bs.
Proof.
  intros Hl. unfold read_varint_array, varint_array. eapply reads_bind; [apply (lawful_reads (c := VarInt)); cbn [wf VarInt]; width|]. by apply reads_counted.
Qed.

(** What a client of a version sends behind the packet id. *)
Definition response_layout (proto : Z) (ss vt sig : bytes) (salt : Z) (signed : bool) : bytes :=
  match epoch (nearest proto) with
  | E_V1_7 => short_array ss ++ short_array vt
  | _ =>
      if (759 <=? proto) && (proto <=? 760) then
        varint_array ss ++ (if signed then [x00] ++ be_bytes 8 salt ++ varint_array sig else [x01] ++ varint_array vt)
      else varint_array ss ++ varint_array vt
  end.

(** The client's answer to the encryption request.  The reader returns on every
    packet and never panics; what a client of any version sends is read as its
    shared secret and verify token, with 16-bit lengths for 1.7 and VarInt lengths
    after it; and a client of 1.19 to 1.19.2 that signs its answer yields an empty
    token, while no other client's non-empty token is lost. *)
Theorem encryption_response_read (proto : Z) (ss vt sig : bytes) (salt : Z) (signed : bool) :
  total (read_encryption_response proto) /\
  (Z.of_nat (length ss) <= 32767 -> Z.of_nat (length vt) <= 32767 -> Z.of_nat (length sig) <= 32767 -> fits_s 64 salt ->
   reads (read_encryption_response proto) (response_layout proto ss vt sig salt signed)
     (ss, if signed && (759 <=? proto) && (proto <=? 760) && negb (bool_decide (epoch (nearest proto) = E_V1_7)) then [] else vt)).
Proof.
  split.
  - unfold read_encryption_response. assert (Hv := total_varint_array). assert (Hs := total_short_array).
    destruct (epoch (nearest proto)); (apply total_bind; [done|]; intros ss0);
      try (destruct (_ && _); [apply total_ensure, guarded_uint_bind; [done|]; intros z; apply total_guarded; destruct (negb _); [|apply total_ensure, guarded_int_bind; [done|]; intros ?; apply total_guarded, total_bind; [done|intros ?; apply total_ret]]|]);
      (apply total_bind; [done|intros ?; apply total_ret]).
  - intros Hss Hvt Hsig Hsalt. unfold read_encryption_response, response_layout.
    assert (Hv1 : reads read_varint_array (varint_array ss) ss) by (apply reads_varint_array; lia).
    assert (Hv2 : reads read_varint_array (varint_array vt) vt) by (apply reads_varint_array; lia).
    assert (Hv3 : reads read_varint_array (varint_array sig) sig) by (apply reads_varint_array; lia).
    destruct (bool_decide_reflect (epoch (nearest proto) = E_V1_7)) as [->|Hne].
    { rewrite andb_false_r. eapply reads_bind; [by apply reads_short_array|]. eapply reads_bind_last; [by apply reads_short_array|apply reads_ret]. }
    rewrite andb_true_r.
    assert (Hrest : reads (let! ss := read_varint_array in
        if (759 <=? proto) && (proto <=? 760) then
          ensure 1 UnexpectedEof;;
          let! has_verify_token := get_u8 in
          if negb (has_verify_token =? 0) then let! vt := read_varint_array in ret (ss, vt)
          else ensure 8 UnexpectedEof;; let! _ := get_i64 in let! _ := read_varint_array in ret (ss, [])
        else let! vt := read_varint_array in ret (ss, vt))
       (if (759 <=? proto) && (proto <=? 760) then
          varint_array ss ++ (if signed then [x00] ++ be_bytes 8 salt ++ varint_array sig else [x01] ++ varint_array vt)
        else varint_array ss ++ varint_array vt)
       (ss, if signed && (759 <=? proto) && (proto <=? 760) then [] else vt)).
    { rewrite <- andb_assoc. destruct ((759 <=? proto) && (proto <=? 760)).
      - rewrite andb_true_r. eapply reads_bind; [done|]. apply reads_ensure; [destruct signed; cbn; lia|].
        destruct signed; (eapply reads_bind; [apply (reads_uint 1 0 ltac:(width)) || apply (reads_uint 1 1 ltac:(width))|]).
        + cbn [Z.eqb negb]. apply reads_ensure; [rewrite length_app, length_be_bytes; lia|].
          eapply reads_bind; [apply (reads_int 8); [lia|done]|]. eapply reads_bind_last; [done|apply reads_ret].
        + cbn [Z.eqb negb]. eapply reads_bind_last; [done|apply reads_ret].
      - rewrite andb_false_r. eapply reads_bind; [done|]. eapply reads_bind_last; [done|apply reads_ret]. }
    destruct (epoch (nearest proto)); try done; exact Hrest.
Qed.

Definition request_layout (e : Epoch) (server_id public_key verify_token : bytes) : bytes :=
  wire Str server_id ++
  match e with
  | E_V1_7 => short_array public_key ++ short_array verify_token
  | _ => varint_array public_key ++ varint_array verify_token
  end.

Lemma writes_varint_array bs : Z.of_nat (length bs) < 2 ^ 31 ->
  writes (VarInt_encode (wraps 32 (Z.of_nat (length bs)));; put_slice bs) (varint_array bs).
Proof.
  intros Hl. rewrite wraps_id by (first [lia|width]). apply writes_bind; [apply (lawful_writes (c := VarInt)); cbn [wf VarInt]; width|apply writes_put].
Qed.
Lemma writes_short_array bs : Z.of_nat (length bs) <= 32767 ->
  writes (E := ProtocolError) (put_i16 (wraps 16 (Z.of_nat (length bs)));; put_slice bs) (short_array bs).
Proof. intros Hl. rewrite wraps_id by (first [lia|width]). apply writes_bind; [intros dst; reflexivity|apply writes_put]. Qed.

Lemma writes_then (m1 m2 m3 : Enc) bs1 bs2 : writes (m1;; m2) bs1 -> writes m3 bs2 -> writes (m1;; m2;; m3) (bs1 ++ bs2).
Proof. intros H1 H2 dst. pose proof (writes_bind _ _ _ _ H1 H2 dst) as H. rewrite <- H. symmetry. apply bind_assoc. Qed.

(** An encryption request survives the proxy.  For every version, a server id
    with its key and token, of lengths the version can express, is written in the
    version's layout and read back unchanged; outside 1.7 the reader returns on
    every input. *)
Theorem encryption_request_roundtrip (e : Epoch) (server_id public_key verify_token : bytes) :
  string_ok server_id ->
  (let limit := if bool_decide (e = E_V1_7) then 32767 else 2 ^ 31 - 1 in
   Z.of_nat (length public_key) <= limit /\ Z.of_nat (length verify_token) <= limit) ->
  writes (encode_encryption_request e server_id public_key verify_token) (request_layout e server_id public_key verify_token) /\
  reads (decode_encryption_request e) (request_layout e server_id public_key verify_token) (server_id, public_key, verify_token) /\
  (e <> E_V1_7 -> total (decode_encryption_request e)).
Proof.
  intros Hid Hlen. unfold encode_encryption_request, decode_encryption_request, request_layout.
  assert (Hw : writes (encode_string server_id) (wire Str server_id)) by exact (lawful_writes (c := Str) server_id Hid).
  assert (Hr : reads decode_string (wire Str server_id) server_id) by exact (lawful_reads (c := Str) server_id Hid).
  assert (Ht : total decode_string) by exact (lawful_total (c := Str)).
  assert (Hva := total_varint_array).
  destruct (bool_decide_reflect (e = E_V1_7)) as [->|Hne]; cbn zeta in Hlen; destruct Hlen as [Hp Hv].
  - split; [|split; [|done]].
    + apply writes_bind; [done|]. replace (_ || _) with false by (symmetry; apply orb_false_iff; split; apply Z.ltb_ge; lia).
      apply writes_then; by apply writes_short_array.
    + eapply reads_bind; [done|]. unfold short_array at 1. rewrite <- app_assoc. apply reads_ensure; [rewrite length_app, length_be_bytes; lia|].
      eapply reads_bind; [apply (reads_int 2); [lia|width]|].
      replace (Z.of_nat (length public_key) <? 0) with false by (symmetry; apply Z.ltb_ge; lia).
      apply reads_ensure; [unfold saturating_add_i16, short_array; rewrite !length_app, length_be_bytes; lia|].
      eapply reads_bind; [by apply reads_copy|]. eapply reads_bind; [apply (reads_int 2); [lia|width]|].
      replace (Z.of_nat (length verify_token) <? 0) with false by (symmetry; apply Z.ltb_ge; lia).
      apply reads_ensure; [lia|]. eapply reads_bind_last; [by apply reads_copy|apply reads_ret].
  - assert (Hw2 : writes (VarInt_encode (wraps 32 (Z.of_nat (length public_key)));; put_slice public_key;;
        VarInt_encode (wraps 32 (Z.of_nat (length verify_token)));; put_slice verify_token) (varint_array public_key ++ varint_array verify_token)).
    { apply writes_then; apply writes_varint_array; lia. }
    assert (Hr2 : reads (let! public_key := read_varint_array in let! verify_token := read_varint_array in ret (server_id, public_key, verify_token))
        (varint_array public_key ++ varint_array verify_token) (server_id, public_key, verify_token)).
    { eapply reads_bind; [apply reads_varint_array; lia|]. eapply reads_bind_last; [apply reads_varint_array; lia|apply reads_ret]. }
    assert (Ht2 : forall s : bytes, total (let! public_key := read_varint_array in let! verify_token := read_varint_array in ret (s, public_key, verify_token))).
    { intros s. apply total_bind; [done|]. intros pk. apply total_bind; [done|]. intros vt. apply total_ret. }
    split; [|split; [|intros _]].
    + apply writes_bind; [done|]. by destruct e.
    + eapply reads_bind; [done|]. by destruct e.
    + apply total_bind; [done|]. intros s. by destruct e.
Qed.

Lemma encryption_request_roundtrip_witness :
  string_ok [] /\ reads (decode_encryption_request E_V1_8) (request_layout E_V1_8 [] [x01] [x02; x03]) ([], [x01], [x02; x03]).
Proof.
  assert (H1 : string_ok []) by (split; [reflexivity|unfold MAX_STRING_LENGTH; cbn; lia]).
  split; [exact H1|].
  destruct (encryption_request_roundtrip E_V1_8 [] [x01] [x02; x03] H1) as (_ & H & _); [cbn zeta; split; vm_compute; intros Hc; discriminate Hc|exact H].
Defined.

(** A key of 32767 bytes that ends a 1.7 request passes the length check, which adds
    two to an [i16] that saturates, and the read of the token length then panics. *)
Theorem request_length_saturates (key : bytes) : Z.of_nat (length key) = 32767 ->
  (decode_encryption_request E_V1_7 (wire Str [] ++ short_array key)).1 = Panic.
Proof.
  intros Hl. unfold decode_encryption_request, bind at 1.
  assert (Hid : string_ok []) by (split; [reflexivity|unfold MAX_STRING_LENGTH; cbn; lia]).
  change decode_string with (dec Str). rewrite (lawful_reads (c := Str) [] Hid).
  unfold short_array, bind, ensure, remaining, get_i16. cbv beta iota. rewrite length_app, length_be_bytes.
  replace (Z.of_nat (2 + length key) <? 2) with false by (symmetry; apply Z.ltb_ge; lia). cbv beta iota.
  rewrite (reads_int 2 (Z.of_nat (length key)) ltac:(lia) ltac:(width)). rewrite Hl. cbv beta iota.
  change (32767 <? 0) with false. cbv beta iota. rewrite Hl. change (saturating_add_i16 32767 2) with 32767. change (32767 <? 32767) with false. cbv beta iota.
  pose proof (reads_copy (E := ProtocolError) key 32767 (eq_sym Hl) []) as H. rewrite app_nil_r in H. rewrite H. reflexivity.
Qed.

(** ** Addresses *)

Lemma clean_host_clean a : NUL ∉ clean_host a.
Proof.
  unfold clean_host. induction a as [|b a IH]; cbn [split]; [by apply not_elem_of_nil|].
  destruct (decide (b = NUL)) as [->|Hne]; [by apply not_elem_of_nil|].
  destruct (split NUL a) as [|p ps] eqn:E; [by destruct (split_nonempty NUL a)|].
  rewrite not_elem_of_cons. split; [congruence|exact IH].
Qed.
Lemma apply_marker_clean h kind : NUL ∉ h -> apply_fml_marker h kind = h ++ fml_marker kind.
Proof.
  intros Hh. unfold apply_fml_marker. rewrite host_trim.
  assert (E : Modloader.host h = h) by (unfold Modloader.host; by rewrite split_clean).
  rewrite E. destruct kind; cbn [fml_marker]; rewrite ?app_nil_r; done.
Qed.

(** The fields a mod-loader marker adds behind the last one. *)
Definition marker_fields (forge_like : bool) (kind : ModloaderKind) : list bytes :=
  if forge_like then
    match kind with MK_Fml1 => [lit "FML"; []] | MK_Fml2 => [lit "FML2"; []] | MK_Fml3 => [lit "FML3"; []] | _ => [] end
  else [].

Lemma split_marked h forge_like kind : NUL ∉ h ->
  split NUL (if forge_like : bool then h ++ fml_marker kind else h) = h :: marker_fields forge_like kind.
Proof.
  intros Hh. unfold marker_fields. destruct forge_like; [|by apply split_clean].
  destruct kind; cbn [fml_marker]; rewrite ?app_nil_r; try (by apply split_clean); unfold marker; rewrite split_sep by done; reflexivity.
Qed.

(** C25: a client cannot forge what a backend is told about it.  Whatever address the
    client announces, the fields a backend finds in the handshake between NUL bytes
    are: first a part of the client's address without NULs; then, with BungeeCord
    forwarding, the address of its connection, its UUID and its properties, each as
    one field; and last, for a mod-loader backend, the marker of the client's
    kind, which is one of three constants. *)
Theorem forwarding_not_forged (hyphenated : bytes -> bytes) (props_json : list ProfileProperty -> option bytes)
    (mode : ForwardingMode) (backend_type : BackendType) (kind : ModloaderKind) (server_address client_ip uuid username : bytes)
    (properties : list ProfileProperty) (address : bytes) :
  (NUL ∉ client_ip) -> (forall u, NUL ∉ hyphenated u) -> (forall ps j, props_json ps = Some j -> NUL ∉ j) ->
  handshake_address hyphenated props_json mode backend_type kind server_address client_ip uuid username properties = Some address ->
  (NUL ∉ clean_host server_address) /\
  split NUL address =
    [clean_host server_address] ++
    match mode with FM_Bungeecord => [client_ip; hyphenated uuid; default [] (props_json properties)] | _ => [] end ++
    marker_fields (is_forge_like backend_type) kind.
Proof.
  intros Hip Hu Hj H. split; [apply clean_host_clean|]. pose proof (clean_host_clean server_address) as Hc.
  unfold handshake_address in H. destruct mode.
  - rewrite apply_marker_clean in H by done. injection H as <-. by apply split_marked.
  - unfold bungeecord_suffix in H. cbn [ap_properties ap_id] in H. destruct (props_json properties) as [j|] eqn:Ej; [|done].
    assert (E : address = clean_host server_address ++ NUL :: client_ip ++ NUL :: hyphenated uuid ++ NUL :: (if is_forge_like backend_type then j ++ fml_marker kind else j)).
    { injection H as <-. destruct (is_forge_like backend_type); cbn [app]; rewrite <- ?app_assoc; cbn [app]; rewrite <- ?app_assoc; cbn [app]; rewrite <- ?app_assoc; done. }
    rewrite E, !split_sep by auto. rewrite split_marked by (by apply (Hj properties)). reflexivity.
  - rewrite apply_marker_clean in H by done. injection H as <-. by apply split_marked.
Qed.

Lemma forwarding_not_forged_witness :
  let spoofed := lit "play.example.net" ++ [x00] ++ lit "10.0.0.1" ++ [x00] ++ lit "uuid" ++ marker "FML" in
  exists address, handshake_address (fun _ => lit "0-0") (fun _ => Some (lit "[]")) FM_Bungeecord Forge MK_Fml1 spoofed (lit "203.0.113.7") [] (lit "Steve") [] = Some address /\
    split NUL address = [lit "play.example.net"; lit "203.0.113.7"; lit "0-0"; lit "[]"; lit "FML"; []].
Proof.
  eexists. split; [reflexivity|].
  refine (proj2 (forwarding_not_forged (fun _ => lit "0-0") (fun _ => Some (lit "[]")) FM_Bungeecord Forge MK_Fml1 _ (lit "203.0.113.7") [] (lit "Steve") [] _ _ _ _ eq_refl)).
  - match goal with |- ?P => apply (bool_decide_eq_true_1 P) end. vm_compute. reflexivity.
  - intros _. match goal with |- ?P => apply (bool_decide_eq_true_1 P) end. vm_compute. reflexivity.
  - intros _ j [= <-]. match goal with |- ?P => apply (bool_decide_eq_true_1 P) end. vm_compute. reflexivity.
Defined.
