(* ===== verification/Float.v ===== *)
(** * Floating-point numbers as bit patterns

    The arithmetic of [f32] and [f64] and their conversions to integers, which the
    standard library defines by IEEE 754, on the bit patterns the other files use. *)
From Stdlib Require Import ZArith Lia Floats.SpecFloat.
From stdpp Require Import base numbers.
From S2P Require Import Prelude.
Local Open Scope Z_scope.

Section Format.
(** Bits of the mantissa and of the exponent. *)
Variables mw ew : Z.
Definition f_prec : Z := mw + 1.
Definition f_emax : Z := 2 ^ (ew - 1).
Definition f_emin : Z := 3 - f_emax - f_prec.
Definition f_sign (bits : Z) : bool := Z.testbit bits (mw + ew).
Definition f_exp (bits : Z) : Z := Z.land (Z.shiftr bits mw) (2 ^ ew - 1).
Definition f_man (bits : Z) : Z := Z.land bits (2 ^ mw - 1).

Definition float_of_bits (bits : Z) : spec_float :=
  if f_exp bits =? 2 ^ ew - 1 then
    if f_man bits =? 0 then S754_infinity (f_sign bits) else S754_nan
  else if f_exp bits =? 0 then
    match f_man bits with Zpos m => S754_finite (f_sign bits) m f_emin | _ => S754_zero (f_sign bits) end
  else match f_man bits + 2 ^ mw with Zpos m => S754_finite (f_sign bits) m (f_exp bits - 1 + f_emin) | _ => S754_nan end.

Definition signed_bits (s : bool) (magnitude : Z) : Z := (if s then 2 ^ (mw + ew) else 0) + magnitude.
(** A [NaN] is written as the quiet one; the bits of others are not kept. *)
Definition bits_of_float (x : spec_float) : Z :=
  match x with
  | S754_zero s => signed_bits s 0
  | S754_infinity s => signed_bits s ((2 ^ ew - 1) * 2 ^ mw)
  | S754_nan => (2 ^ ew - 1) * 2 ^ mw + 2 ^ (mw - 1)
  | S754_finite s m e => signed_bits s (if Zpos m <? 2 ^ mw then Zpos m else (e - f_emin + 1) * 2 ^ mw + (Zpos m - 2 ^ mw))
  end.

Definition f_add (a b : Z) : Z := bits_of_float (SFadd f_prec f_emax (float_of_bits a) (float_of_bits b)).
Definition f_mul (a b : Z) : Z := bits_of_float (SFmul f_prec f_emax (float_of_bits a) (float_of_bits b)).

(** [x as iN] and [x as uN]: towards zero, saturating, and zero for [NaN]. *)
Definition f_trunc (x : spec_float) : Z :=
  match x with
  | S754_finite s m e => let v := if 0 <=? e then Zpos m * 2 ^ e else Zpos m / 2 ^ (- e) in if s then - v else v
  | _ => 0
  end.
Definition f_as (lo hi bits : Z) : Z :=
  match float_of_bits bits with
  | S754_infinity s => if s then lo else hi
  | x => Z.max lo (Z.min hi (f_trunc x))
  end.
End Format.

Definition f64_add : Z -> Z -> Z := f_add 52 11.
Definition f64_mul : Z -> Z -> Z := f_mul 52 11.
Definition f32_mul : Z -> Z -> Z := f_mul 23 8.
Definition f64_as_i32 : Z -> Z := f_as 52 11 (- 2 ^ 31) (2 ^ 31 - 1).
Definition f32_as_u8 : Z -> Z := f_as 23 8 0 255.

Lemma f_as_range mw ew lo hi bits : lo <= hi -> lo <= 0 <= hi -> lo <= f_as mw ew lo hi bits <= hi.
Proof. intros H1 H2. unfold f_as. destruct (float_of_bits mw ew bits) as [s|s| |s m e]; [|destruct s| |]; lia. Qed.

(** 256.0 + 1.62, 256.0 * 8.0 as an integer, and the extremes. *)
Example f64_sample :
  f64_add 0x4070000000000000 0x3FF9EB851EB851EC = 0x4070_19EB_851E_B852 /\
  f64_as_i32 (f64_mul 0x4070000000000000 0x4020000000000000) = 2048 /\
  f64_as_i32 0x7FF0000000000000 = 2147483647 /\ f64_as_i32 0x7FF8000000000000 = 0 /\ f64_as_i32 0xBFE0000000000000 = 0 /\
  f32_as_u8 (f32_mul 0x3F800000 0x427C0000) = 63.
Proof. vm_compute. repeat split. Qed.
