(* ===== verification/Dimension.v ===== *)
(** * Dimension codecs

    crates/protocol/src/dimension_codec.rs and
    crates/proxy-core/src/protocol/dimension_codec.rs: the registry documents a
    client is given when it joins, and the standalone description of a dimension.
    The contents of the embedded files are arguments; the order in which a hash map
    yields its entries is one, too, and the theorems hold for every order.  The texts
    of errors are left out. *)
From Stdlib Require Import ZArith Lia Strings.String Strings.Byte.
From stdpp Require Import base list numbers strings.
From S2P Require Import Prelude Buf Wire Codec Nbt Negotiation.
Local Open Scope Z_scope.
Local Open Scope koja_scope.

Abbreviation entries := (list (bytes * NbtTag)).

(** Successive [insert]s into an empty map. *)
Definition hashmap (inserts : entries) : entries := fold_left (fun m '(k, t) => map_insert k t m) inserts [].

Definition d_0_0 : Z := 0.
Definition d_0_1 : Z := 0x3DCCCCCD.
Definition d_0_125 : Z := 0x3E000000.
Definition d_0_8 : Z := 0x3F4CCCCD.
Definition d_0_05 : Z := 0x3D4CCCCD.
Definition d_0_4 : Z := 0x3ECCCCCD.
Definition double_1_0 : Z := 0x3FF0000000000000.
Definition flag8 (b : bool) : NbtTag := NbtByte (Z.b2z b).

(** ** The documents of the protocol crate *)

Definition dimension_type_element (has_skylight has_ceiling ultrawarm natural : bool) (infiniburn effects : bytes)
    (is_1_20_4 : bool) (fixed_time : option Z) : entries :=
  hashmap (
    [(lit "piglin_safe", NbtByte 0);
     (lit "natural", flag8 natural);
     (lit "ambient_light", NbtFloat (if has_skylight then d_0_0 else d_0_1));
     (lit "infiniburn", NbtString infiniburn);
     (lit "respawn_anchor_works", NbtByte 0);
     (lit "has_skylight", flag8 has_skylight);
     (lit "bed_works", NbtByte 1);
     (lit "effects", NbtString effects);
     (lit "has_raids", NbtByte 1)] ++
    (if is_1_20_4 then [(lit "min_y", NbtInt 0); (lit "height", NbtInt 256)] else []) ++
    [(lit "logical_height", NbtInt 256);
     (lit "coordinate_scale", NbtDouble double_1_0);
     (lit "ultrawarm", flag8 ultrawarm);
     (lit "has_ceiling", flag8 has_ceiling)] ++
    (if is_1_20_4 then
       [(lit "monster_spawn_light_level", NbtInt 7); (lit "monster_spawn_block_light_limit", NbtInt 0)] ++
       match fixed_time with Some t => [(lit "fixed_time", NbtLong t)] | None => [] end
     else [])).

Definition dim_entry (name : bytes) (id : Z) (element : entries) : NbtTag :=
  NbtCompound (hashmap [(lit "name", NbtString name); (lit "id", NbtInt id); (lit "element", NbtCompound element)]).

Definition biome_effects : NbtTag :=
  NbtCompound (hashmap
    [(lit "sky_color", NbtInt 7907327); (lit "water_fog_color", NbtInt 329011);
     (lit "fog_color", NbtInt 12638463); (lit "water_color", NbtInt 4159204)]).
Definition plains_biome_element : NbtTag :=
  NbtCompound (hashmap
    [(lit "precipitation", NbtString (lit "rain")); (lit "depth", NbtFloat d_0_125); (lit "temperature", NbtFloat d_0_8);
     (lit "scale", NbtFloat d_0_05); (lit "downfall", NbtFloat d_0_4); (lit "category", NbtString (lit "plains"));
     (lit "effects", biome_effects)]).
Definition biome_entry (name : bytes) (id : Z) : NbtTag :=
  NbtCompound (hashmap [(lit "name", NbtString name); (lit "id", NbtInt id); (lit "element", plains_biome_element)]).
Definition registry (registry_id : bytes) (values : list NbtTag) : NbtTag :=
  NbtCompound (hashmap [(lit "type", NbtString registry_id); (lit "value", NbtList values)]).

Definition OVERWORLD : bytes := lit "minecraft:overworld".
Definition THE_NETHER : bytes := lit "minecraft:the_nether".
Definition THE_END : bytes := lit "minecraft:the_end".

Definition overworld_element (v : bool) : entries :=
  dimension_type_element true false false true (lit "minecraft:infiniburn_overworld") OVERWORLD v None.
Definition nether_element (v : bool) : entries :=
  dimension_type_element false true true false (lit "minecraft:infiniburn_nether") THE_NETHER v (Some 18000).
Definition end_element (v : bool) : entries :=
  dimension_type_element false false false false (lit "minecraft:infiniburn_end") THE_END v None.

Definition codec_root (is_1_20_4 : bool) : entries :=
  hashmap
    [(lit "minecraft:dimension_type",
      registry (lit "minecraft:dimension_type")
        [dim_entry OVERWORLD 0 (overworld_element is_1_20_4); dim_entry THE_NETHER 1 (nether_element is_1_20_4);
         dim_entry THE_END 2 (end_element is_1_20_4)]);
     (lit "minecraft:worldgen/biome", registry (lit "minecraft:worldgen/biome") [biome_entry (lit "minecraft:plains") 1])].

Inductive DimSchema := S_V1_16_2 | S_V1_17 | S_V1_18_2 | S_V1_19 | S_V1_20_4.
#[export] Instance DimSchema_eq_dec : EqDecision DimSchema.
Proof. solve_decision. Defined.

Definition augment_for_schema (m : entries) (schema : DimSchema) : entries :=
  let tall := map_insert (lit "height") (NbtInt 256) (map_insert (lit "min_y") (NbtInt 0) m) in
  match schema with
  | S_V1_16_2 => m
  | S_V1_17 | S_V1_18_2 | S_V1_20_4 => tall
  | S_V1_19 => map_insert (lit "monster_spawn_light_level") (NbtInt 7) (map_insert (lit "monster_spawn_block_light_limit") (NbtInt 0) tall)
  end.

Definition dimension_type_root (key : bytes) (schema : DimSchema) : entries :=
  let v := bool_decide (schema = S_V1_20_4) in
  augment_for_schema
    (if decide (key = THE_NETHER) then nether_element v else if decide (key = THE_END) then end_element v else overworld_element v) schema.

Definition schema_for_proto (proto : Z) : DimSchema :=
  if 764 <=? proto then S_V1_20_4 else if 759 <=? proto then S_V1_19 else if 758 <=? proto then S_V1_18_2
  else if 755 <=? proto then S_V1_17 else S_V1_16_2.

(** ** The 1.16 and 1.16.1 document, and the minimal chat registry *)

Definition make_entry (name : bytes) (piglin_safe natural ambient_light : Z) (infiniburn : bytes)
    (respawn_anchor_works has_skylight bed_works : Z) (fixed_time : option Z) (has_raids logical_height shrunk ultrawarm has_ceiling : Z) : NbtTag :=
  NbtCompound (hashmap (
    [(lit "name", NbtString name);
     (lit "piglin_safe", NbtByte piglin_safe);
     (lit "natural", NbtByte natural);
     (lit "ambient_light", NbtFloat ambient_light);
     (lit "infiniburn", NbtString infiniburn);
     (lit "respawn_anchor_works", NbtByte respawn_anchor_works);
     (lit "has_skylight", NbtByte has_skylight);
     (lit "bed_works", NbtByte bed_works)] ++
    match fixed_time with Some t => [(lit "fixed_time", NbtLong t)] | None => [] end ++
    [(lit "has_raids", NbtByte has_raids);
     (lit "logical_height", NbtInt logical_height);
     (lit "shrunk", NbtByte shrunk);
     (lit "ultrawarm", NbtByte ultrawarm);
     (lit "has_ceiling", NbtByte has_ceiling)])).

Definition dimension_list : NbtTag :=
  NbtList
    [make_entry OVERWORLD 0 1 d_0_0 (lit "minecraft:infiniburn_overworld") 0 1 1 None 1 256 0 0 0;
     make_entry (lit "minecraft:overworld_caves") 0 1 d_0_0 (lit "minecraft:infiniburn_overworld") 0 1 1 None 1 256 0 0 1;
     make_entry THE_NETHER 1 0 d_0_1 (lit "minecraft:infiniburn_nether") 1 0 0 (Some 18000) 0 128 1 1 1;
     make_entry THE_END 0 0 d_0_0 (lit "minecraft:infiniburn_end") 0 0 0 (Some 6000) 1 256 0 0 0].
Definition codec_1_16_root : entries := hashmap [(lit "dimension", dimension_list)].

Definition chat_elem (translation_key : bytes) : NbtTag :=
  NbtCompound (hashmap
    [(lit "translation_key", NbtString translation_key);
     (lit "parameters", NbtList [NbtString (lit "sender"); NbtString (lit "content")])]).
Definition minimal_registry_root : entries :=
  hashmap
    [(lit "minecraft:chat_type",
      NbtCompound (hashmap
        [(lit "type", NbtString (lit "minecraft:chat_type"));
         (lit "value", NbtList
            [NbtCompound (hashmap
               [(lit "name", NbtString (lit "minecraft:chat"));
                (lit "id", NbtInt 0);
                (lit "element", NbtCompound (hashmap
                   [(lit "chat", chat_elem (lit "chat.type.text")); (lit "narration", chat_elem (lit "chat.type.text.narrate"))]))])])]))].

(** ** Injection *)

Definition uses_dimension_codec (protocol_version : Z) : bool :=
  match epoch (ProtocolVersion_from_id protocol_version) with
  | E_V1_16 | E_V1_17_To_1_18 | E_V1_19 | E_V1_20 | E_V1_21Plus => true
  | _ => false
  end.
Definition needs_codec_injection (client_protocol backend_protocol : Z) : bool :=
  uses_dimension_codec client_protocol && negb (uses_dimension_codec backend_protocol).
Inductive CodecInjectionMode := CI_None | CI_ClientSide | CI_BackendSide.
#[export] Instance CodecInjectionMode_eq_dec : EqDecision CodecInjectionMode.
Proof. solve_decision. Defined.
Definition determine_injection_mode (client_protocol backend_protocol : Z) : CodecInjectionMode :=
  match uses_dimension_codec client_protocol, uses_dimension_codec backend_protocol with
  | true, false => CI_ClientSide
  | false, true => CI_BackendSide
  | _, _ => CI_None
  end.

(** ** Encoding *)

Definition ok {E A} (o : outcome E A) : option A := match o with Ok a => Some a | _ => None end.

(** The embedded files. *)
Record DimFiles := mkDimFiles {
  VIAVERSION_DIM_REGISTRY_1_16_2 : bytes; DIM_CODEC_1_17 : bytes; DIM_CODEC_1_18 : bytes; DIM_CODEC_1_18_2 : bytes;
  DIM_CODEC_1_19 : bytes; DIM_CODEC_1_19_2 : bytes; DIM_CODEC_1_19_4 : bytes; DIM_CODEC_1_20 : bytes }.

Section Order.
(** The order in which a map with these entries yields them. *)
Variable order : entries -> entries.

Fixpoint arrange (t : NbtTag) : NbtTag :=
  match t with
  | NbtList items => NbtList (map arrange items)
  | NbtCompound m => NbtCompound (order (map (fun '(k, t) => (k, arrange t)) m))
  | _ => t
  end.
Definition arranged (m : entries) : entries := order (map (fun '(k, t) => (k, arrange t)) m).

(** An [Nbt] with an empty name, encoded into a fresh buffer. *)
Definition nbt_bytes (root : entries) : outcome ProtocolError bytes :=
  match Nbt_encode (mkNbt [] (arranged root)) [] with
  | (Ok _, bs) => Ok bs | (Err e, _) => Err e | (Panic, _) => Panic | (NoFuel, _) => NoFuel
  end.

Definition dimension_codec_nbt_with_version (is_1_20_4 : bool) : outcome ProtocolError bytes := nbt_bytes (codec_root is_1_20_4).
Definition dimension_codec_nbt : outcome ProtocolError bytes := dimension_codec_nbt_with_version false.
Definition dimension_codec_nbt_1_20_4 : outcome ProtocolError bytes := dimension_codec_nbt_with_version true.

Definition dimension_type_nbt_with_version (key : bytes) (schema : DimSchema) : outcome ProtocolError bytes := nbt_bytes (dimension_type_root key schema).
Definition dimension_type_nbt (key : bytes) : outcome ProtocolError bytes := dimension_type_nbt_with_version key S_V1_16_2.
Definition dimension_type_nbt_1_20_4 (key : bytes) : outcome ProtocolError bytes := dimension_type_nbt_with_version key S_V1_20_4.
Definition dimension_type_nbt_for_proto (key : bytes) (proto : Z) : outcome ProtocolError bytes :=
  dimension_type_nbt_with_version key (schema_for_proto proto).

Definition build_codec_1_16_0_or_1_16_1 : option bytes := ok (nbt_bytes codec_1_16_root).
Definition build_minimal_dimension_codec : option bytes := ok dimension_codec_nbt.
Definition build_minimal_registry : option bytes := ok (nbt_bytes minimal_registry_root).

Variable files : DimFiles.

Definition build_dimension_codec_for_proto (proto : Z) : option bytes :=
  if (proto =? 735) || (proto =? 736) then build_codec_1_16_0_or_1_16_1
  else if (751 <=? proto) && (proto <=? 754) then Some (VIAVERSION_DIM_REGISTRY_1_16_2 files)
  else if (proto =? 755) || (proto =? 756) then Some (DIM_CODEC_1_17 files)
  else if proto =? 757 then Some (DIM_CODEC_1_18 files)
  else if proto =? 758 then Some (DIM_CODEC_1_18_2 files)
  else if proto =? 759 then Some (DIM_CODEC_1_19 files)
  else if (proto =? 760) || (proto =? 761) then Some (DIM_CODEC_1_19_2 files)
  else if proto =? 762 then Some (DIM_CODEC_1_19_4 files)
  else if proto =? 763 then Some (DIM_CODEC_1_20 files)
  else if 764 <=? proto then ok dimension_codec_nbt_1_20_4
  else ok dimension_codec_nbt.

(** The named root [0x0a, length, name, payload] without its name. *)
Definition config_codec_nameless_for_proto (proto : Z) : option bytes :=
  if negb ((764 <=? proto) && (proto <=? 765)) then None
  else match DIM_CODEC_1_20 files with
  | x0a :: b1 :: b2 :: rest =>
      let name_len := Z.to_nat (be_val [b1; b2]) in
      if (length rest <? name_len)%nat then None else Some (x0a :: drop name_len rest)
  | _ => None
  end.

(** The element of the first entry of the registry with this name. *)
Definition entry_element (dim_key : bytes) (e : NbtTag) : option NbtTag :=
  match e with
  | NbtCompound m =>
      match map_get (lit "name") m with
      | Some (NbtString n) => if decide (n = dim_key) then map_get (lit "element") m else None
      | _ => None
      end
  | _ => None
  end.
Fixpoint find_map {A B} (f : A -> option B) (l : list A) : option B :=
  match l with [] => None | x :: l' => match f x with Some y => Some y | None => find_map f l' end end.
Definition registry_element (root : entries) (dim_key : bytes) : option NbtTag :=
  match map_get (lit "minecraft:dimension_type") root with
  | Some (NbtCompound dim_reg) =>
      match map_get (lit "value") dim_reg with
      | Some (NbtList items) => find_map (entry_element dim_key) items
      | _ => None
      end
  | _ => None
  end.
Definition inline_dimension_nbt_for_proto (dim_key : bytes) (proto : Z) : option bytes :=
  match build_dimension_codec_for_proto proto with
  | Some codec =>
      match (Nbt_decode codec).1 with
      | Ok nbt =>
          match registry_element (nbt_root nbt) dim_key with
          | Some (NbtCompound element_map) => ok (nbt_bytes element_map)
          | _ => None
          end
      | _ => None
      end
  | None => None
  end.
End Order.

(** ** Documents up to the order of their entries *)

Inductive doc_eq : NbtTag -> NbtTag -> Prop :=
  | doc_leaf t : is_leaf t -> doc_eq t t
  | doc_list l1 l2 : Forall2 doc_eq l1 l2 -> doc_eq (NbtList l1) (NbtList l2)
  | doc_compound m1 m m2 : m1 ≡ₚ m -> Forall2 (fun e1 e2 => e1.1 = e2.1 /\ doc_eq e1.2 e2.2) m m2 -> doc_eq (NbtCompound m1) (NbtCompound m2).

Lemma map_get_None k m : map_get k m = None <-> k ∉ map fst m.
Proof.
  induction m as [|[k' t] m IH]; cbn [map_get map fst]; [split; [intros _; apply not_elem_of_nil|done]|].
  rewrite not_elem_of_cons. destruct (decide (k = k')); [split; [discriminate|intros [? _]; done]|]. rewrite IH. tauto.
Qed.
Lemma map_get_elem k t m : NoDup (map fst m) -> map_get k m = Some t <-> (k, t) ∈ m.
Proof.
  induction m as [|[k' t'] m IH]; cbn [map_get map fst]; [intros _; split; [discriminate|intros H; by apply not_elem_of_nil in H]|].
  intros [Hk Hd]%NoDup_cons. rewrite elem_of_cons. destruct (decide (k = k')) as [->|Hne].
  - split; [intros [= ->]; by left|]. intros [[= ->]|H]; [done|]. exfalso. apply Hk.
    apply list_elem_of_fmap. exists (k', t). done.
  - rewrite IH by done. split; [by right|]. intros [[= ? ?]|H]; done.
Qed.
Lemma map_get_perm k m1 m2 : NoDup (map fst m1) -> m1 ≡ₚ m2 -> map_get k m1 = map_get k m2.
Proof.
  intros Hd Hp. assert (Hd2 : NoDup (map fst m2)) by (by rewrite <- Hp).
  destruct (map_get k m1) as [t|] eqn:E1.
  - symmetry. apply map_get_elem; [done|]. rewrite <- Hp. by apply map_get_elem.
  - symmetry. apply map_get_None. apply map_get_None in E1. by rewrite <- Hp.
Qed.

Lemma nbt_ok_compound_intro d m : d < MAX_NBT_DEPTH -> NoDup (map fst m) ->
  Forall (fun e => nbt_string_ok e.1 = true /\ tag_type e.2 <> T_End /\ nbt_ok (d + 1) e.2 = true) m -> nbt_ok d (NbtCompound m) = true.
Proof.
  intros Hd Hn Hm. cbn [nbt_ok]. rewrite !andb_true_iff. split_and!; [by apply Z.ltb_lt|by apply bool_decide_eq_true|].
  apply forallb_forall. intros [k t] Hx%list_elem_of_In. rewrite Forall_forall in Hm. destruct (Hm _ Hx) as (H1 & H2 & H3). cbn in H1, H2, H3.
  rewrite !andb_true_iff. split_and!; [done|by apply bool_decide_eq_true|done].
Qed.
Lemma nbt_ok_list_intro d t0 l :
  Z.of_nat (length (t0 :: l)) <= MAX_NBT_ARRAY_LEN ->
  Forall (fun t => tag_type t = tag_type t0) (t0 :: l) ->
  Forall (fun t => nbt_ok (elem_depth t0 d) t = true) (t0 :: l) ->
  (tag_type t0 = T_Compound -> d < MAX_NBT_DEPTH) -> nbt_ok d (NbtList (t0 :: l)) = true.
Proof.
  intros Hl Ht Ho Hd. cbn [nbt_ok]. unfold elem_depth in Ho. rewrite Forall_forall in Ht, Ho. rewrite !andb_true_iff. split_and!; [by apply Z.leb_le| |].
  - apply forallb_forall. intros x Hx%list_elem_of_In. by apply bool_decide_eq_true, Ht.
  - destruct (bool_decide_reflect (tag_type t0 = T_Compound)) as [Hc|].
    + rewrite andb_true_iff. split; [by apply Z.ltb_lt, Hd|]. apply forallb_forall. intros x Hx%list_elem_of_In. by apply Ho.
    + apply forallb_forall. intros x Hx%list_elem_of_In. by apply Ho.
Qed.

(** Less nesting above a tag leaves it well formed. *)
Lemma nbt_ok_mono t : forall d d', d' <= d -> nbt_ok d t = true -> nbt_ok d' t = true.
Proof.
  induction t as [t Ht|items IH|m IH] using NbtTag_nested_ind; intros d d' Hle Hok.
  - destruct t; done.
  - destruct items as [|t0 l]; [done|]. apply nbt_ok_list in Hok as (H1 & H2 & H3 & H4). apply nbt_ok_list_intro; [done|done| |intros Hc; specialize (H4 Hc); lia].
    rewrite Forall_forall in *. intros t Ht. apply (IH t Ht (elem_depth t0 d)); [unfold elem_depth; case_bool_decide; lia|by apply H3].
  - apply nbt_ok_compound in Hok as (H1 & H2 & H3). apply nbt_ok_compound_intro; [lia|done|].
    rewrite Forall_forall in *. intros e He. destruct (H3 e He) as (? & ? & ?). split_and!; [done|done|]. by apply (IH e He (d + 1)); [lia|].
Qed.

Section Arranged.
Context (order : entries -> entries) (Horder : forall m, order m ≡ₚ m).

Lemma arrange_type t : tag_type (arrange order t) = tag_type t.
Proof. by destruct t. Qed.
Lemma fst_arranged (m : entries) : map fst (map (fun '(k, t) => (k, arrange order t)) m) = map fst m.
Proof. rewrite map_map. apply map_ext. by intros [k t]. Qed.
Lemma keys_arranged (m : entries) : map fst (arranged order m) ≡ₚ map fst m.
Proof using Horder. unfold arranged. rewrite Horder. by rewrite fst_arranged. Qed.

Lemma arrange_ok t : forall d, nbt_ok d t = true -> nbt_ok d (arrange order t) = true.
Proof using Horder.
  induction t as [t Ht|items IH|m IH] using NbtTag_nested_ind; intros d Hok.
  - by destruct t.
  - destruct items as [|t0 l]; [done|]. apply nbt_ok_list in Hok as (H1 & H2 & H3 & H4). cbn [arrange map].
    rewrite Forall_forall in IH, H2, H3.
    apply nbt_ok_list_intro; [by rewrite <- (length_map (arrange order)) in H1| | |by rewrite arrange_type].
    + change (arrange order t0 :: map (arrange order) l) with (map (arrange order) (t0 :: l)). apply Forall_forall.
      intros x (t & -> & Ht)%list_elem_of_fmap. rewrite !arrange_type. by apply H2.
    + change (arrange order t0 :: map (arrange order) l) with (map (arrange order) (t0 :: l)). apply Forall_forall.
      intros x (t & -> & Ht)%list_elem_of_fmap. unfold elem_depth. rewrite arrange_type. apply (IH t Ht). by apply H3.
  - apply nbt_ok_compound in Hok as (H1 & H2 & H3). cbn [arrange]. fold (arranged order m). apply nbt_ok_compound_intro; [done|by rewrite keys_arranged|].
    unfold arranged. rewrite Horder. rewrite Forall_forall in *. intros x ([k t] & -> & He)%list_elem_of_fmap. cbn.
    destruct (H3 _ He) as (? & ? & ?). rewrite arrange_type. split_and!; [done|done|]. by apply (IH _ He).
Qed.

Lemma arrange_eq t : doc_eq (arrange order t) t.
Proof using Horder.
  induction t as [t Ht|items IH|m IH] using NbtTag_nested_ind.
  - destruct t; try done; by constructor.
  - cbn [arrange]. constructor. induction IH; constructor; done.
  - cbn [arrange]. eapply doc_compound; [apply Horder|]. induction IH as [|[k t] m ? ? IH2]; constructor; done.
Qed.

Lemma map_get_arranged k (m : entries) : NoDup (map fst m) -> map_get k (arranged order m) = arrange order <$> map_get k m.
Proof using Horder.
  intros Hd. rewrite (map_get_perm k (arranged order m) (map (fun '(k, t) => (k, arrange order t)) m)); [|by rewrite keys_arranged|apply Horder].
  clear Hd. induction m as [|[k' t] m IH]; [done|]. cbn [map map_get fst]. destruct (decide (k = k')); done.
Qed.

(** A well-formed document is encoded, and read back up to order. *)
Lemma nbt_bytes_ok root : nbt_ok 0 (NbtCompound root) = true ->
  exists bs, nbt_bytes order root = Ok bs /\ Nbt_decode bs = (Ok (mkNbt [] (arranged order root)), []).
Proof using Horder.
  intros Hok. assert (Hv : nbt_value_ok (mkNbt [] (arranged order root))) by (split; [done|exact (arrange_ok _ 0 Hok)]).
  unfold nbt_bytes. pose proof (lawful_writes (c := NbtCodec) _ Hv []) as Hw. cbn [enc NbtCodec app] in Hw. rewrite Hw.
  eexists. split; [reflexivity|]. pose proof (lawful_reads (c := NbtCodec) _ Hv []) as Hr. by rewrite app_nil_r in Hr.
Qed.
End Arranged.

(** ** Looking a dimension up *)

Definition item_ok (t : NbtTag) : Prop := match t with NbtCompound m => NoDup (map fst m) | _ => True end.

Lemma find_map_Some {A B} (f : A -> option B) l y : find_map f l = Some y -> exists x, x ∈ l /\ f x = Some y.
Proof.
  induction l as [|x l IH]; cbn [find_map]; [discriminate|]. destruct (f x) as [z|] eqn:E.
  - intros [= ->]. exists x. split; [by left|done].
  - intros H. destruct (IH H) as (x' & ? & ?). exists x'. split; [by right|done].
Qed.
Lemma map_get_value k m t d : nbt_ok d (NbtCompound m) = true -> map_get k m = Some t -> nbt_ok (d + 1) t = true.
Proof.
  intros (_ & Hd & Hm)%nbt_ok_compound Hk%map_get_elem; [|done]. rewrite Forall_forall in Hm. by destruct (Hm _ Hk) as (_ & _ & ?).
Qed.
Lemma items_ok d items : nbt_ok d (NbtList items) = true -> forall t, t ∈ items -> nbt_ok d t = true.
Proof.
  intros Hok t Ht. destruct items as [|t0 l]; [by apply not_elem_of_nil in Ht|].
  apply nbt_ok_list in Hok as (_ & _ & H & _). rewrite Forall_forall in H. apply (nbt_ok_mono _ (elem_depth t0 d)); [unfold elem_depth; case_bool_decide; lia|by apply H].
Qed.

Lemma registry_element_ok root key t : nbt_ok 0 (NbtCompound root) = true -> registry_element root key = Some t -> nbt_ok 0 t = true.
Proof.
  intros Hok H. unfold registry_element in H.
  destruct (map_get _ root) as [[]|] eqn:E1; try discriminate. pose proof (map_get_value _ _ _ _ Hok E1) as Ho1.
  destruct (map_get _ map) as [[]|] eqn:E2; try discriminate. pose proof (map_get_value _ _ _ _ Ho1 E2) as Ho2.
  destruct (find_map_Some _ _ _ H) as (e & He & Hf). pose proof (items_ok _ _ Ho2 e He) as Ho3.
  unfold entry_element in Hf. destruct e; try discriminate. destruct (map_get (lit "name") _) as [[]|]; try discriminate.
  destruct (decide _); [|discriminate]. eapply nbt_ok_mono; [|exact (map_get_value _ _ _ _ Ho3 Hf)]. lia.
Qed.

Section Lookup.
Context (order : entries -> entries) (Horder : forall m, order m ≡ₚ m).

Lemma entry_element_arranged key e : item_ok e -> entry_element key (arrange order e) = arrange order <$> entry_element key e.
Proof using Horder.
  intros He. destruct e; try done. cbn [arrange entry_element]. fold (arranged order map). rewrite map_get_arranged by done.
  destruct (map_get (lit "name") map) as [t|]; [|done]. destruct t; try done. cbn [fmap option_fmap option_map arrange].
  destruct (decide _); [|done]. by rewrite map_get_arranged.
Qed.
Lemma registry_element_arranged root key : nbt_ok 0 (NbtCompound root) = true ->
  registry_element (arranged order root) key = arrange order <$> registry_element root key.
Proof using Horder.
  intros Hok. unfold registry_element. rewrite map_get_arranged by (try done; by apply nbt_ok_compound in Hok as (_ & ? & _)).
  destruct (map_get _ root) as [t|] eqn:E1; [|done]. pose proof (map_get_value _ _ _ _ Hok E1) as Ho1. destruct t; try done.
  cbn [fmap option_fmap option_map arrange]. fold (arranged order map). rewrite map_get_arranged by (try done; by apply nbt_ok_compound in Ho1 as (_ & ? & _)).
  destruct (map_get _ map) as [t|] eqn:E2; [|done]. pose proof (map_get_value _ _ _ _ Ho1 E2) as Ho2. destruct t; try done.
  cbn [fmap option_fmap option_map arrange].
  assert (Hi : forall t, t ∈ items -> item_ok t).
  { intros t Ht. pose proof (items_ok _ _ Ho2 t Ht) as H. destruct t; try done. by apply nbt_ok_compound in H as (_ & ? & _). }
  clear -Hi Horder. induction items as [|e l IH]; [done|]. cbn [List.map find_map]. rewrite entry_element_arranged by (apply Hi; by left).
  destruct (entry_element key e); [done|]. apply IH. intros t Ht. apply Hi. by right.
Qed.
End Lookup.

(** ** Properties *)

(** The description of a dimension given beside the registry is the registry's
    own.  Whatever the order of hash maps, when the registry document of a protocol
    is well formed and has an entry for a dimension, the inline description is
    produced and reads back as exactly the fields of that entry, up to their order;
    when the registry has no such entry, none is produced. *)
Theorem inline_dimension_faithful (order : entries -> entries) (files : DimFiles) (proto : Z) (key : bytes) (n : Nbt) :
  (forall m, order m ≡ₚ m) -> nbt_value_ok n ->
  build_dimension_codec_for_proto order files proto = Some (wire NbtCodec n) ->
  match registry_element (nbt_root n) key with
  | Some (NbtCompound m) =>
      exists bs m', inline_dimension_nbt_for_proto order files key proto = Some bs /\
        Nbt_decode bs = (Ok (mkNbt [] m'), []) /\ doc_eq (NbtCompound m') (NbtCompound m)
  | _ => inline_dimension_nbt_for_proto order files key proto = None
  end.
Proof.
  intros Ho Hn Hb. unfold inline_dimension_nbt_for_proto. rewrite Hb.
  pose proof (lawful_reads (c := NbtCodec) n Hn []) as Hr. rewrite app_nil_r in Hr. cbn [dec NbtCodec] in Hr. rewrite Hr. cbn [fst].
  destruct (registry_element (nbt_root n) key) as [t|] eqn:E; [|done]. destruct t; try done.
  pose proof (registry_element_ok _ _ _ (proj2 Hn) E) as Hok. destruct (nbt_bytes_ok order Ho _ Hok) as (bs & H1 & H2).
  exists bs, (arranged order map). rewrite H1. split_and!; [done|done|]. exact (arrange_eq order Ho (NbtCompound map)).
Qed.

Definition one_dimension : entries :=
  [(lit "minecraft:dimension_type", NbtCompound [(lit "value", NbtList [NbtCompound
      [(lit "name", NbtString OVERWORLD); (lit "element", NbtCompound [(lit "height", NbtInt 384); (lit "min_y", NbtInt (-64))])]])])].
Definition one_file : bytes := Eval vm_compute in wire NbtCodec (mkNbt [] one_dimension).
Lemma inline_dimension_faithful_witness :
  nbt_value_ok (mkNbt [] one_dimension) /\
  exists bs m', inline_dimension_nbt_for_proto (@rev _) (mkDimFiles [] [] one_file [] [] [] [] []) OVERWORLD 757 = Some bs /\
    Nbt_decode bs = (Ok (mkNbt [] m'), []) /\ doc_eq (NbtCompound m') (NbtCompound [(lit "height", NbtInt 384); (lit "min_y", NbtInt (-64))]).
Proof.
  assert (Hn : nbt_value_ok (mkNbt [] one_dimension)) by (split; vm_compute; reflexivity).
  split; [exact Hn|].
  refine (inline_dimension_faithful (@rev _) (mkDimFiles [] [] one_file [] [] [] [] []) 757 OVERWORLD (mkNbt [] one_dimension) _ Hn _);
    [intros m; symmetry; apply Permutation_rev|vm_compute; reflexivity].
Defined.

Definition vanilla_dimensions : list bytes := [OVERWORLD; THE_NETHER; THE_END].

Lemma codec_root_ok v : nbt_ok 0 (NbtCompound (codec_root v)) = true.
Proof. destruct v; vm_compute; reflexivity. Qed.
Lemma codec_elements v key : key ∈ vanilla_dimensions ->
  registry_element (codec_root v) key = Some (NbtCompound (dimension_type_root key (if v then S_V1_20_4 else S_V1_16_2))).
Proof. intros H. repeat (apply elem_of_cons in H as [->|H]; [destruct v; vm_compute; reflexivity|]). by apply not_elem_of_nil in H. Qed.

Lemma leaf_arrange order t : is_leaf t -> arrange order t = t.
Proof. by destruct t. Qed.
Lemma leaves_arranged order m : Forall (fun e => is_leaf e.2) m -> arranged order m = order m.
Proof.
  intros H. unfold arranged. f_equal. induction H as [|[k t] m Ht _ IH]; [done|]. cbn [map]. cbn in Ht. by rewrite leaf_arrange, IH.
Qed.
Lemma dimension_leaves key schema : Forall (fun e => is_leaf e.2) (dimension_type_root key schema).
Proof.
  unfold dimension_type_root. destruct (decide (key = THE_NETHER)); [|destruct (decide (key = THE_END))];
    destruct schema; vm_compute; repeat (constructor; [exact I|]); constructor.
Qed.
Lemma dimension_root_ok key schema : nbt_ok 0 (NbtCompound (dimension_type_root key schema)) = true.
Proof.
  unfold dimension_type_root. destruct (decide (key = THE_NETHER)); [|destruct (decide (key = THE_END))]; destruct schema; vm_compute; reflexivity.
Qed.

(** The registry the proxy makes up is readable and complete, whatever the order
    of hash maps: it decodes without a remainder, it has the three vanilla
    dimensions, and the description of each in it has the same fields as the
    standalone description of that dimension for the same schema, which decodes
    without a remainder, too. *)
Theorem dimension_codec_consistent (order : entries -> entries) (v : bool) (key : bytes) :
  (forall m, order m ≡ₚ m) -> key ∈ vanilla_dimensions ->
  let schema := if v then S_V1_20_4 else S_V1_16_2 in
  exists bs n m bs' m', dimension_codec_nbt_with_version order v = Ok bs /\ Nbt_decode bs = (Ok n, []) /\
    registry_element (nbt_root n) key = Some (NbtCompound m) /\
    dimension_type_nbt_with_version order key schema = Ok bs' /\ Nbt_decode bs' = (Ok (mkNbt [] m'), []) /\
    m ≡ₚ m' /\ m' ≡ₚ dimension_type_root key schema.
Proof.
  intros Ho Hk schema. destruct (nbt_bytes_ok order Ho _ (codec_root_ok v)) as (bs & H1 & H2).
  destruct (nbt_bytes_ok order Ho _ (dimension_root_ok key schema)) as (bs' & H3 & H4).
  exists bs, (mkNbt [] (arranged order (codec_root v))), (arranged order (dimension_type_root key schema)), bs', (arranged order (dimension_type_root key schema)).
  split_and!; [exact H1|exact H2| |exact H3|exact H4|done|].
  - cbn [nbt_root]. rewrite registry_element_arranged by (try exact Ho; apply codec_root_ok). by rewrite codec_elements.
  - rewrite leaves_arranged by apply dimension_leaves. apply Ho.
Qed.

Lemma dimension_codec_consistent_witness :
  THE_NETHER ∈ vanilla_dimensions /\
  exists bs n m bs' m', dimension_codec_nbt_with_version (@rev _) true = Ok bs /\ Nbt_decode bs = (Ok n, []) /\
    registry_element (nbt_root n) THE_NETHER = Some (NbtCompound m) /\
    dimension_type_nbt_with_version (@rev _) THE_NETHER S_V1_20_4 = Ok bs' /\ Nbt_decode bs' = (Ok (mkNbt [] m'), []) /\
    m ≡ₚ m' /\ m' ≡ₚ dimension_type_root THE_NETHER S_V1_20_4.
Proof.
  assert (Hk : THE_NETHER ∈ vanilla_dimensions) by (right; left). split; [exact Hk|].
  apply (dimension_codec_consistent (@rev _) true THE_NETHER); [intros m; symmetry; apply Permutation_rev|exact Hk].
Defined.

(** The 1.20.2 form of an embedded registry is the same payload without the name
    of its root; other protocols have no such form. *)
Theorem config_codec_payload (files : DimFiles) (n : Nbt) (proto : Z) :
  nbt_value_ok n -> DIM_CODEC_1_20 files = wire NbtCodec n ->
  config_codec_nameless_for_proto files proto =
    if (764 <=? proto) && (proto <=? 765) then Some (x0a :: img (NbtCompound (nbt_root n))) else None.
Proof.
  intros Hn Hf. unfold config_codec_nameless_for_proto. destruct ((764 <=? proto) && (proto <=? 765)); [|done]. cbn [negb].
  rewrite Hf, wire_nbt by done. unfold nbt_img, string_img. destruct Hn as [Hs _]. unfold nbt_string_ok in Hs. apply andb_true_iff in Hs as [_ Hl%Z.leb_le].
  change (be_bytes 1 10) with [x0a]. assert (Hb : exists b1 b2, be_bytes 2 (Z.of_nat (length (nbt_name n))) = [b1; b2]) by (eexists _, _; reflexivity).
  destruct Hb as (b1 & b2 & Hb). rewrite Hb. cbn [app]. rewrite <- Hb, be_val_bytes.
  rewrite Z.mod_small by (change (256 ^ Z.of_nat 2) with 65536; lia). rewrite Nat2Z.id.
  replace (_ <? _)%nat with false; [|symmetry; apply Nat.ltb_ge; rewrite length_app; lia]. by rewrite drop_app_length.
Qed.

(** The schema chosen for a protocol describes the vertical bounds from 1.17 on and
    the light limits of spawning from 1.19 on. *)
Theorem schema_fields (key : bytes) (proto : Z) :
  let root := dimension_type_root key (schema_for_proto proto) in
  (map_get (lit "min_y") root = Some (NbtInt 0) <-> 755 <= proto) /\
  (map_get (lit "height") root = Some (NbtInt 256) <-> 755 <= proto) /\
  (map_get (lit "monster_spawn_light_level") root = Some (NbtInt 7) <-> 759 <= proto).
Proof.
  unfold schema_for_proto. cbn zeta. destruct (764 <=? proto) eqn:E1; [|destruct (759 <=? proto) eqn:E2; [|destruct (758 <=? proto) eqn:E3; [|destruct (755 <=? proto) eqn:E4]]];
    rewrite ?Z.leb_le, ?Z.leb_gt in *; unfold dimension_type_root; destruct (decide (key = THE_NETHER)); try destruct (decide (key = THE_END));
    vm_compute map_get; split_and!; split; intros H; try done; try lia; try discriminate H.
Qed.
