(* ===== verification/LimboPackets.v ===== *)
(** * Packets of the waiting world

    crates/proxy-core/src/net/limbo_packets: one builder per canonical version behind
    the trait [LimboPackets] (mod.rs, v1_6.rs to v26.rs), the void chunk, and the
    legacy respawn.  JSON text, the files of the dimension registries and the order
    of hash maps are parameters; floats are bit patterns. *)
From Stdlib Require Import ZArith Lia Strings.String Strings.Byte.
From stdpp Require Import base list numbers strings.
From S2P Require Import Prelude Buf Wire VarInt Codec Negotiation Packets Chars Utf8 Registry Families Builders LoginPackets Nbt Dimension Float.
From S2P Require Packets16 Packets17 Packets18 Packets112 Packets116 Packets119 Packets120 Packets121.
Local Open Scope Z_scope.
Local Open Scope koja_scope.

(** ** The void chunk *)

Inductive HeightmapFmt := NamedNbt | AnonNbt | HeightArray.
#[export] Instance HeightmapFmt_eq_dec : EqDecision HeightmapFmt.
Proof. solve_decision. Defined.

Fixpoint times (n : nat) (m : Enc) : Enc := match n with O => ret tt | S n => m;; times n m end.
(** A length cast to [i32] and written before its bytes. *)
Definition put_sized (bs : bytes) : Enc := VarInt_encode (wraps 32 (Z.of_nat (length bs)));; put_slice bs.
(** What an encoder writes into a buffer of its own. *)
Definition fresh (m : Enc) : bytes := (m []).2.

Definition put_motion_blocking_field : Enc :=
  put_u8 0x0c;;
  put_u16 (Z.of_nat (length (lit "MOTION_BLOCKING")));; put_slice (lit "MOTION_BLOCKING");;
  put_i32 37;;
  times 37 (put_i64 0).

(** [((1u64 << n) - 1) as i64], saturating at all bits. *)
Definition section_mask (n : nat) : Z := if (64 <=? n)%nat then -1 else wraps 64 (2 ^ Z.of_nat n - 1).

Definition empty_section : Enc :=
  put_i16 0;; put_u8 0;; VarInt_encode 0;; VarInt_encode 0;; put_u8 0;; VarInt_encode 0;; VarInt_encode 0.
Definition empty_light (sections : nat) : Enc :=
  VarInt_encode 0;; VarInt_encode 0;;
  VarInt_encode 1;; put_i64 (section_mask (sections + 2));;
  VarInt_encode 1;; put_i64 (section_mask (sections + 2));;
  VarInt_encode 0;; VarInt_encode 0.

Definition void_chunk_body (sections : nat) (trust_edges : bool) (hm : HeightmapFmt) : Enc :=
  put_i32 0;; put_i32 0;;
  match hm with
  | NamedNbt => put_u8 0x0a;; put_u16 0;; put_motion_blocking_field;; put_u8 0
  | AnonNbt => put_u8 0x0a;; put_motion_blocking_field;; put_u8 0
  | HeightArray => VarInt_encode 0
  end;;
  put_sized (fresh (times sections empty_section));;
  VarInt_encode 0;;
  (if trust_edges then put_u8 1 else ret tt);;
  empty_light sections.

Definition section_1_16 : Enc := put_i16 0;; put_u8 4;; VarInt_encode 1;; VarInt_encode 0;; VarInt_encode 256;; times 256 (put_i64 0).
Definition void_chunk_body_1_17 (sections : nat) : Enc :=
  put_i32 0;; put_i32 0;;
  VarInt_encode 1;; put_i64 (section_mask sections);;
  put_u8 0x0a;; put_u16 0;; put_motion_blocking_field;; put_u8 0;;
  VarInt_encode (wraps 32 (Z.of_nat (sections * 64)));; times (sections * 64) (VarInt_encode 0);;
  put_sized (fresh (times sections section_1_16));;
  VarInt_encode 0.
Definition light_update_body_1_17 (sections : nat) : Enc := VarInt_encode 0;; VarInt_encode 0;; put_u8 1;; empty_light sections.
Definition default_spawn_body : Enc := put_i64 0;; put_f32 0.

(** ** The trait *)

Record PlayerPos := mkPlayerPos { pos_x : Z; pos_y : Z; pos_z : Z; pos_yaw : Z; pos_pitch : Z }.
Record SoundParams := mkSoundParams { snd_x : Z; snd_y : Z; snd_z : Z; snd_volume : Z; snd_pitch : Z }.

Record LimboPackets := mkLimboPackets {
  join_game : Z -> bytes -> option EncodedPacket;
  respawn : Z -> bytes -> option EncodedPacket;
  player_abilities : Z -> option EncodedPacket;
  held_item_change : Z -> option EncodedPacket;
  player_position : Z -> PlayerPos -> Z -> option EncodedPacket;
  chat : Z -> bytes -> option EncodedPacket;
  note_sound : Z -> SoundParams -> option EncodedPacket;
  bossbar_add : Z -> bytes -> bytes -> option EncodedPacket;
  bossbar_remove : Z -> bytes -> option EncodedPacket;
  keepalive : Z -> Z -> option EncodedPacket;
  brand : Z -> bytes -> option EncodedPacket;
  set_center_chunk : Z -> option EncodedPacket;
  set_default_spawn : Z -> option EncodedPacket;
  chunk_batch_start : Z -> option EncodedPacket;
  chunk_batch_finished : Z -> Z -> option EncodedPacket;
  start_wait_chunks_event : Z -> option EncodedPacket;
  chunk_data : Z -> option EncodedPacket;
  light_update : Z -> option EncodedPacket;
  spawn_position : Z -> PlayerPos -> option EncodedPacket;
  time_update : Z -> option EncodedPacket;
  update_health : Z -> option EncodedPacket }.

(** The methods a version does not override. *)
Definition none1 {A} (_ : A) : option EncodedPacket := None.
Definition none2 {A B} (_ : A) (_ : B) : option EncodedPacket := None.

(** [encode] of this module, and a body written by hand under a looked-up id. *)
Definition typed (packet_id : Z -> Z) (proto : Z) (m : Enc) : option EncodedPacket := encode packet_id proto m.
Definition hand (id : Z) (m : Enc) : option EncodedPacket := if id =? 0xFF then None else by_hand id m.

Definition FLAT : bytes := lit "flat".
Definition f32_1_0 : Z := 0x3F800000.
Definition f64_8_0 : Z := 0x4020000000000000.
Definition eighths (x : Z) : Z := f64_as_i32 (f64_mul x f64_8_0).
Definition sized_brand (brand : bytes) : bytes := fresh (put_sized brand).
Definition NIL_UUID : bytes := replicate 16 x00.

(** ** 1.6, 1.7 and 1.8 *)

Definition V1_6_respawn (proto : Z) (_ : bytes) : option EncodedPacket :=
  typed v1_6_ClientboundRespawn_id proto (Packets16.Respawn_encode (Packets16.mkRespawn 0 0 0 256 (chars_of (lit "default")))).
Definition V1_6_player_abilities (proto : Z) : option EncodedPacket :=
  typed v1_6_ClientboundPlayerAbilities_id proto (Packets16.PlayerAbilities_encode (Packets16.mkPlayerAbilities 0x04 0 0)).
Definition V1_6_held_item_change (proto : Z) : option EncodedPacket :=
  typed v1_6_ClientboundHeldItemChange_id proto (Packets16.HeldItemChange_encode 0).
Definition V1_6_player_position (proto : Z) (pos : PlayerPos) (_ : Z) : option EncodedPacket :=
  typed v1_6_ClientboundPlayerPosition_id proto (Packets16.PlayerPosition_encode
    (Packets16.mkPlayerPosition (pos_x pos) (pos_y pos) (f64_add (pos_y pos) 0x3FF9EB851EB851EC) (pos_z pos) (pos_yaw pos) (pos_pitch pos) true)).
Definition V1_6_chat (proto : Z) (json_message : bytes) : option EncodedPacket :=
  typed v1_6_ClientboundChatMessage_id proto (Packets16.ChatMessage_encode (chars_of json_message)).
Definition V1_6_keepalive (proto : Z) (id : Z) : option EncodedPacket :=
  typed v1_6_ClientboundKeepAlive_id proto (Packets16.KeepAlive_encode (wraps 32 id)).
Definition V1_6_spawn_position (proto : Z) (pos : PlayerPos) : option EncodedPacket :=
  typed v1_6_ClientboundSpawnPosition_id proto (Packets16.SpawnPosition_encode
    (Packets16.mkSpawnPosition (f64_as_i32 (pos_x pos)) (f64_as_i32 (pos_y pos)) (f64_as_i32 (pos_z pos)))).
Definition V1_6_time_update (proto : Z) : option EncodedPacket :=
  typed v1_6_ClientboundTimeUpdate_id proto (Packets16.TimeUpdate_encode (Packets16.mkTimeUpdate 0 6000)).
Definition V1_6_update_health (proto : Z) : option EncodedPacket :=
  typed v1_6_ClientboundUpdateHealth_id proto (Packets16.UpdateHealth_encode (Packets16.mkUpdateHealth 0x41A00000 20 0x40A00000)).
Definition V1_6 : LimboPackets := {|
  join_game _ _ := None; respawn := V1_6_respawn; player_abilities := V1_6_player_abilities; held_item_change := V1_6_held_item_change;
  player_position := V1_6_player_position; chat := V1_6_chat; note_sound _ _ := None; bossbar_add _ _ _ := None; bossbar_remove _ _ := None;
  keepalive := V1_6_keepalive; brand _ _ := None; set_center_chunk := none1; set_default_spawn := none1; chunk_batch_start := none1;
  chunk_batch_finished := none2; start_wait_chunks_event := none1; chunk_data := none1; light_update := none1;
  spawn_position := V1_6_spawn_position; time_update := V1_6_time_update; update_health := V1_6_update_health |}.

Definition V1_7_join_game (proto : Z) (_ : bytes) : option EncodedPacket :=
  typed v1_7_ClientboundJoinGame_id proto (Packets17.JoinGame_encode (Packets17.mkJoinGame 0 0x03 0 0 20 FLAT)).
Definition V1_7_player_abilities (proto : Z) : option EncodedPacket :=
  typed v1_7_ClientboundPlayerAbilities_id proto (Packets17.PlayerAbilities_encode (Packets17.mkPlayerAbilities 0x06 0 0)).
Definition V1_7_player_position (proto : Z) (pos : PlayerPos) (_ : Z) : option EncodedPacket :=
  typed v1_7_ClientboundPlayerPosition_id proto (Packets17.PlayerPosition_encode
    (Packets17.mkPlayerPosition (pos_x pos) (pos_y pos) (pos_z pos) (pos_yaw pos) (pos_pitch pos) true)).
Definition V1_7_chat (proto : Z) (json_message : bytes) : option EncodedPacket :=
  typed v1_7_ClientboundChatMessage_id proto (Packets17.ChatMessage_encode json_message).
Definition V1_7_keepalive (proto : Z) (id : Z) : option EncodedPacket :=
  typed v1_7_ClientboundKeepAlive_id proto (Packets17.KeepAlive_encode (wraps 32 id)).
Definition V1_7_brand (proto : Z) (brand : bytes) : option EncodedPacket :=
  typed v1_8_ClientboundPluginMessage_id proto (Packets18.PluginMessage_encode (Packets18.mkPluginMessage (lit "MC|Brand") (sized_brand brand))).
Definition V1_7 : LimboPackets := {|
  join_game := V1_7_join_game; respawn _ _ := None; player_abilities := V1_7_player_abilities; held_item_change _ := None;
  player_position := V1_7_player_position; chat := V1_7_chat; note_sound _ _ := None; bossbar_add _ _ _ := None; bossbar_remove _ _ := None;
  keepalive := V1_7_keepalive; brand := V1_7_brand; set_center_chunk := none1; set_default_spawn := none1; chunk_batch_start := none1;
  chunk_batch_finished := none2; start_wait_chunks_event := none1; chunk_data := none1; light_update := none1; spawn_position := none2;
  time_update := none1; update_health := none1 |}.

Definition V1_8_join_game (proto : Z) (_ : bytes) : option EncodedPacket :=
  typed v1_8_ClientboundJoinGame_id proto (Packets18.JoinGame_encode (Packets18.mkJoinGame 0 0x03 0 0 20 FLAT false)).
Definition V1_8_respawn (proto : Z) (_ : bytes) : option EncodedPacket :=
  typed v1_8_ClientboundRespawn_id proto (Packets18.Respawn_encode (Packets18.mkRespawn 0 0 0 FLAT)).
Definition V1_8_player_abilities (proto : Z) : option EncodedPacket :=
  typed v1_8_ClientboundPlayerAbilities_id proto (Packets18.PlayerAbilities_encode (Packets18.mkPlayerAbilities 0x06 0 0)).
Definition V1_8_held_item_change (proto : Z) : option EncodedPacket :=
  typed v1_8_ClientboundSetHeldItem_id proto (Packets18.SetHeldItem_encode 0).
Definition V1_8_player_position (proto : Z) (pos : PlayerPos) (_ : Z) : option EncodedPacket :=
  typed v1_8_ClientboundPlayerPosition_id proto (Packets18.PlayerPosition_encode
    (Packets18.mkPlayerPosition (pos_x pos) (pos_y pos) (pos_z pos) (pos_yaw pos) (pos_pitch pos) 0)).
Definition V1_8_chat (proto : Z) (json_message : bytes) : option EncodedPacket :=
  typed v1_8_ClientboundChatMessage_id proto (Packets18.ChatMessage_encode (Packets18.mkChatMessage json_message 1)).
Definition V1_8_note_sound (proto : Z) (pos : SoundParams) : option EncodedPacket :=
  typed v1_8_ClientboundSound_id proto (Packets18.Sound_encode
    (Packets18.mkSound (lit "records.cat") (f64_as_i32 (snd_x pos)) (f64_as_i32 (snd_y pos)) (f64_as_i32 (snd_z pos)) (snd_volume pos)
      (f32_as_u8 (f32_mul (snd_pitch pos) 0x427C0000)))).
Definition V1_8_keepalive (proto : Z) (id : Z) : option EncodedPacket :=
  typed v1_8_ClientboundKeepAlive_id proto (Packets18.KeepAlive_encode (wraps 32 id)).
Definition V1_8_brand (proto : Z) (brand : bytes) : option EncodedPacket :=
  typed v1_8_ClientboundPluginMessage_id proto (Packets18.PluginMessage_encode (Packets18.mkPluginMessage (lit "MC|Brand") (sized_brand brand))).
Definition V1_8 : LimboPackets := {|
  join_game := V1_8_join_game; respawn := V1_8_respawn; player_abilities := V1_8_player_abilities; held_item_change := V1_8_held_item_change;
  player_position := V1_8_player_position; chat := V1_8_chat; note_sound := V1_8_note_sound; bossbar_add _ _ _ := None;
  bossbar_remove _ _ := None; keepalive := V1_8_keepalive; brand := V1_8_brand; set_center_chunk := none1; set_default_spawn := none1;
  chunk_batch_start := none1; chunk_batch_finished := none2; start_wait_chunks_event := none1; chunk_data := none1; light_update := none1;
  spawn_position := none2; time_update := none1; update_health := none1 |}.

(** ** 1.9 to 1.12 *)

Definition brand_1_20 (channel : bytes) (proto : Z) (brand : bytes) : option EncodedPacket :=
  typed v1_20_ClientboundPluginMessage_id proto (Packets120.PluginMessage_encode (Packets120.mkPluginMessage channel (sized_brand brand))).
Definition bossbar_1_12 (proto : Z) (uuid : bytes) (action : Packets112.BossBarAction) : option EncodedPacket :=
  typed v1_12_ClientboundBossBar_id proto (Packets112.BossBar_encode (Packets112.mkBossBar uuid action)).

Definition V1_12_join_game (proto : Z) (_ : bytes) : option EncodedPacket :=
  typed v1_12_ClientboundJoinGame_id proto (Packets112.JoinGame_encode (Packets112.mkJoinGame 0 0x03 0 0 20 FLAT false proto)).
Definition V1_12_respawn (proto : Z) (_ : bytes) : option EncodedPacket :=
  typed v1_12_ClientboundRespawn_id proto (Packets112.Respawn_encode (Packets112.mkRespawn 0 0 0 FLAT)).
Definition V1_12_player_abilities (proto : Z) : option EncodedPacket :=
  typed v1_12_ClientboundPlayerAbilities_id proto (Packets112.PlayerAbilities_encode (Packets112.mkPlayerAbilities 0x06 0 0)).
Definition V1_12_held_item_change (proto : Z) : option EncodedPacket :=
  typed v1_12_ClientboundSetCarriedItem_id proto (Packets112.SetCarriedItem_encode 0).
Definition V1_12_player_position (proto : Z) (pos : PlayerPos) (teleport_id : Z) : option EncodedPacket :=
  typed v1_12_ClientboundPlayerPosition_id proto (Packets112.PlayerPosition_encode
    (Packets112.mkPlayerPosition (pos_x pos) (pos_y pos) (pos_z pos) (pos_yaw pos) (pos_pitch pos) 0 teleport_id)).
Definition V1_12_chat (proto : Z) (json_message : bytes) : option EncodedPacket :=
  typed v1_12_ClientboundChatMessage_id proto (Packets112.ChatMessage_encode (Packets112.mkChatMessage json_message 1)).
Definition V1_12_bossbar_add (proto : Z) (uuid : bytes) (title : bytes) : option EncodedPacket :=
  bossbar_1_12 proto uuid (Packets112.Add title f32_1_0 1 0 0).
Definition V1_12_bossbar_remove (proto : Z) (uuid : bytes) : option EncodedPacket :=
  bossbar_1_12 proto uuid Packets112.Remove.
Definition V1_12_keepalive (proto : Z) (id : Z) : option EncodedPacket :=
  typed v1_12_ClientboundKeepAlive_id proto (Packets112.KeepAlive_encode (Packets112.mkKeepAlive id proto)).
Definition V1_12_brand (proto : Z) : bytes -> option EncodedPacket :=
  brand_1_20 (if 393 <=? proto then lit "minecraft:brand" else lit "MC|Brand") proto.
Definition V1_12 : LimboPackets := {|
  join_game := V1_12_join_game; respawn := V1_12_respawn; player_abilities := V1_12_player_abilities;
  held_item_change := V1_12_held_item_change; player_position := V1_12_player_position; chat := V1_12_chat; note_sound _ _ := None;
  bossbar_add := V1_12_bossbar_add; bossbar_remove := V1_12_bossbar_remove; keepalive := V1_12_keepalive; brand := V1_12_brand;
  set_center_chunk := none1; set_default_spawn := none1; chunk_batch_start := none1; chunk_batch_finished := none2;
  start_wait_chunks_event := none1; chunk_data := none1; light_update := none1; spawn_position := none2; time_update := none1;
  update_health := none1 |}.

(** ** 1.16 *)

Definition build_chat_pre_1_16 (proto : Z) (json_message : bytes) : option EncodedPacket :=
  hand (v1_16_ClientboundChatMessage_id proto) (put_sized json_message;; put_i8 1).
Definition build_join_game_1_13_through_1_15 (proto : Z) : option EncodedPacket :=
  hand (v1_16_ClientboundJoinGame_id proto)
    (put_i32 0;; put_u8 0x03;; put_i32 0;;
     (if 573 <=? proto then put_i64 0 else ret tt);;
     (if proto <? 477 then put_u8 0 else ret tt);;
     put_u8 20;; put_sized FLAT;;
     (if 477 <=? proto then VarInt_encode 8 else ret tt);;
     put_u8 0;;
     (if 573 <=? proto then put_u8 1 else ret tt)).
Definition legacy_respawn_body (proto dimension game_mode : Z) : Enc :=
  put_i32 dimension;;
  (if proto <? 477 then put_u8 0 else if 573 <=? proto then put_i64 0 else ret tt);;
  put_u8 game_mode;; put_sized FLAT.
Definition build_respawn_1_13_through_1_15 (proto : Z) : option EncodedPacket :=
  hand (v1_16_ClientboundRespawn_id proto) (legacy_respawn_body proto 0 0).
Definition build_legacy_respawn (proto dimension game_mode : Z) : option EncodedPacket :=
  if 735 <=? proto then None else hand (cb_play proto "ClientboundRespawn") (legacy_respawn_body proto dimension game_mode).

Definition named_sound (name : bytes) (proto : Z) (pos : SoundParams) : option EncodedPacket :=
  typed v1_16_ClientboundNamedSoundEffect_id proto (Packets116.NamedSoundEffect_encode
    (Packets116.mkNamedSoundEffect name 2 (eighths (snd_x pos)) (eighths (snd_y pos)) (eighths (snd_z pos)) (snd_volume pos) (snd_pitch pos))).
Definition chat_1_16 (proto : Z) (json_message : bytes) : option EncodedPacket :=
  typed v1_16_ClientboundChatMessage_id proto (Packets116.ChatMessage_encode (Packets116.mkChatMessage json_message 1 NIL_UUID)).

Section Builders.
Variable order : entries -> entries.
Variable files : DimFiles.
Variable json_parse : bytes -> option Value.

Definition build_join_game_1_16_0_or_1_16_1 (proto : Z) (world_name : bytes) : option EncodedPacket :=
  if v1_16_ClientboundJoinGame_id proto =? 0xFF then None
  else match build_dimension_codec_for_proto order files proto with
  | Some dimension_codec =>
      by_hand (v1_16_ClientboundJoinGame_id proto)
        (put_i32 0;; put_u8 3;; put_i8 (-1);; VarInt_encode 1;; put_sized world_name;; put_slice dimension_codec;;
         put_sized OVERWORLD;; put_sized world_name;; put_i64 0;; VarInt_encode 20;; VarInt_encode 8;;
         put_u8 0;; put_u8 1;; put_u8 0;; put_u8 1)
  | None => None
  end.

Definition join_game_1_16 (proto : Z) (world_name : bytes) : option EncodedPacket :=
  if proto <? 735 then build_join_game_1_13_through_1_15 proto
  else if (proto =? 735) || (proto =? 736) then build_join_game_1_16_0_or_1_16_1 proto world_name
  else
    dimension_codec ← build_dimension_codec_for_proto order files proto;
    dimension ← (if (751 <=? proto) && (proto <=? 758) then Packets116.NbtRef <$> ok (dimension_type_nbt_for_proto order OVERWORLD proto)
                 else Some (Packets116.Identifier OVERWORLD));
    typed v1_16_ClientboundJoinGame_id proto (Packets116.JoinGame_encode
      (Packets116.mkJoinGame 0 false 3 (-1) [world_name] dimension_codec dimension world_name 0 20 8 false true false true)).

Definition V1_16_join_game : Z -> bytes -> option EncodedPacket :=
  join_game_1_16.
Definition V1_16_respawn (proto : Z) (world_name : bytes) : option EncodedPacket :=
  if proto <? 735 then build_respawn_1_13_through_1_15 proto
    else typed v1_16_ClientboundRespawn_id proto (Packets116.Respawn_encode (Packets116.mkRespawn OVERWORLD world_name 0 0 (-1) false true false)).
Definition V1_16_player_abilities (proto : Z) : option EncodedPacket :=
  typed v1_16_ClientboundPlayerAbilities_id proto (Packets116.PlayerAbilities_encode (Packets116.mkPlayerAbilities 0x06 0 0)).
Definition V1_16_held_item_change (proto : Z) : option EncodedPacket :=
  typed v1_16_ClientboundHeldItemChange_id proto (Packets116.HeldItemChange_encode 0).
Definition V1_16_player_position (proto : Z) (pos : PlayerPos) (teleport_id : Z) : option EncodedPacket :=
  typed v1_16_ClientboundPlayerPosition_id proto (Packets116.PlayerPosition_encode
    (Packets116.mkPlayerPosition (pos_x pos) (pos_y pos) (pos_z pos) (pos_yaw pos) (pos_pitch pos) 0 teleport_id)).
Definition V1_16_chat (proto : Z) (json_message : bytes) : option EncodedPacket :=
  if proto <? 735 then build_chat_pre_1_16 proto json_message else chat_1_16 proto json_message.
Definition V1_16_note_sound : Z -> SoundParams -> option EncodedPacket :=
  named_sound (lit "minecraft:records.cat").
Definition V1_16_bossbar_add (proto : Z) (uuid : bytes) (title : bytes) : option EncodedPacket :=
  bossbar_1_12 proto uuid (Packets112.Add title f32_1_0 1 0 0).
Definition V1_16_bossbar_remove (proto : Z) (uuid : bytes) : option EncodedPacket :=
  bossbar_1_12 proto uuid Packets112.Remove.
Definition V1_16_keepalive (proto : Z) (id : Z) : option EncodedPacket :=
  typed v1_16_ClientboundKeepAlive_id proto (Packets116.KeepAlive_encode id).
Definition V1_16_brand : Z -> bytes -> option EncodedPacket :=
  brand_1_20 (lit "minecraft:brand").
Definition V1_16 : LimboPackets := {|
  join_game := V1_16_join_game; respawn := V1_16_respawn; player_abilities := V1_16_player_abilities;
  held_item_change := V1_16_held_item_change; player_position := V1_16_player_position; chat := V1_16_chat; note_sound := V1_16_note_sound;
  bossbar_add := V1_16_bossbar_add; bossbar_remove := V1_16_bossbar_remove; keepalive := V1_16_keepalive; brand := V1_16_brand;
  set_center_chunk := none1; set_default_spawn := none1; chunk_batch_start := none1; chunk_batch_finished := none2;
  start_wait_chunks_event := none1; chunk_data := none1; light_update := none1; spawn_position := none2; time_update := none1;
  update_health := none1 |}.

(** ** 1.17 to 1.19 *)

Definition in_range (lo hi proto : Z) : bool := (lo <=? proto) && (proto <=? hi).
Definition MUSIC : bytes := lit "minecraft:music_disc.cat".
Definition sound_tail (pos : SoundParams) : Enc :=
  VarInt_encode 2;; put_i32 (eighths (snd_x pos));; put_i32 (eighths (snd_y pos));; put_i32 (eighths (snd_z pos));;
  put_f32 (snd_volume pos);; put_f32 (snd_pitch pos);; put_i64 0.
(** A sound event given inline: no registry id, its name, no fixed range. *)
Definition inline_sound (id : Z) (pos : SoundParams) : option EncodedPacket := hand id (VarInt_encode 0;; put_sized MUSIC;; put_u8 0;; sound_tail pos).
Definition bossbar_1_20 (proto : Z) (uuid : bytes) (action : Packets120.BossBarAction) : option EncodedPacket :=
  typed v1_20_ClientboundBossBar_id proto (Packets120.BossBar_encode (Packets120.mkBossBar uuid action)).
Definition center_body : Enc := VarInt_encode 0;; VarInt_encode 0.
(** A packet under an id pinned in the builder. *)
Definition pinned (id : option Z) (m : Enc) : option EncodedPacket := match id with Some id => by_hand id m | None => None end.

Definition build_join_game_1_17_or_1_18 (proto : Z) (world_name : bytes) : option EncodedPacket :=
  if v1_19_ClientboundLogin_id proto =? 0xFF then None
  else
    registry_codec ← build_dimension_codec_for_proto order files proto;
    dimension_nbt ← inline_dimension_nbt_for_proto order files OVERWORLD proto;
    by_hand (v1_19_ClientboundLogin_id proto)
      (put_i32 0;; put_u8 0;; put_u8 3;; put_i8 (-1);; VarInt_encode 1;; put_sized world_name;;
       put_slice registry_codec;; put_slice dimension_nbt;; put_sized world_name;; put_i64 0;; VarInt_encode 20;; VarInt_encode 8;;
       (if 757 <=? proto then VarInt_encode 8 else ret tt);; put_u8 0;; put_u8 1;; put_u8 0;; put_u8 1).
Definition build_respawn_1_17_or_1_18 (proto : Z) (world_name : bytes) : option EncodedPacket :=
  if v1_19_ClientboundRespawn_id proto =? 0xFF then None
  else
    dimension_nbt ← inline_dimension_nbt_for_proto order files OVERWORLD proto;
    by_hand (v1_19_ClientboundRespawn_id proto)
      (put_slice dimension_nbt;; put_sized world_name;; put_i64 0;; put_u8 0;; put_i8 (-1);; put_u8 0;; put_u8 1;; put_u8 0).

Definition position_1_19 (proto : Z) (pos : PlayerPos) (teleport_id : Z) : option EncodedPacket :=
  if in_range 755 761 proto then
    hand (v1_19_ClientboundPlayerPosition_id proto)
      (put_f64 (pos_x pos);; put_f64 (pos_y pos);; put_f64 (pos_z pos);; put_f32 (pos_yaw pos);; put_f32 (pos_pitch pos);;
       put_u8 0;; VarInt_encode teleport_id;; put_u8 0)
  else typed v1_19_ClientboundPlayerPosition_id proto (Packets119.PlayerPosition_encode
    (Packets119.mkPlayerPosition (pos_x pos) (pos_y pos) (pos_z pos) (pos_yaw pos) (pos_pitch pos) 0 teleport_id)).

Definition V1_19_join_game (proto : Z) (world_name : bytes) : option EncodedPacket :=
  if in_range 755 758 proto then build_join_game_1_17_or_1_18 proto world_name
    else if negb (in_range 759 763 proto) then None
    else
      registry_codec ← build_dimension_codec_for_proto order files proto;
      typed v1_19_ClientboundLogin_id proto (Packets119.Login_encode
        (Packets119.mkLogin 0 false 3 (-1) [world_name] registry_codec OVERWORLD world_name 0 20 8 8 false true false true None)).
Definition V1_19_respawn (proto : Z) (world_name : bytes) : option EncodedPacket :=
  if in_range 755 758 proto then build_respawn_1_17_or_1_18 proto world_name
    else if proto <? 759 then None
    else typed v1_19_ClientboundRespawn_id proto (Packets119.Respawn_encode (Packets119.mkRespawn OVERWORLD world_name 0 0 (-1) false true 0 None)).
Definition V1_19_player_abilities (proto : Z) : option EncodedPacket :=
  typed v1_19_ClientboundPlayerAbilities_id proto (Packets119.PlayerAbilities_encode (Packets119.mkPlayerAbilities 0x06 0 0)).
Definition V1_19_held_item_change (proto : Z) : option EncodedPacket :=
  typed v1_19_ClientboundSetCarriedItem_id proto (Packets119.SetCarriedItem_encode 0).
Definition V1_19_player_position : Z -> PlayerPos -> Z -> option EncodedPacket :=
  position_1_19.
Definition V1_19_chat (proto : Z) (json_message : bytes) : option EncodedPacket :=
  if in_range 755 758 proto then chat_1_16 proto json_message
    else if proto <? 759 then None
    else typed v1_19_ClientboundSystemChat_id proto (Packets119.SystemChat_encode (Packets119.mkSystemChat json_message false)).
Definition V1_19_note_sound (proto : Z) (pos : SoundParams) : option EncodedPacket :=
  if in_range 755 758 proto then named_sound MUSIC proto pos
    else if in_range 759 760 proto then hand (v1_21_ClientboundSound_id proto) (put_sized MUSIC;; sound_tail pos)
    else inline_sound (v1_21_ClientboundSound_id proto) pos.
Definition V1_19_bossbar_add (proto : Z) (uuid : bytes) (title : bytes) : option EncodedPacket :=
  bossbar_1_20 proto uuid (Packets120.Add title f32_1_0 1 0 0).
Definition V1_19_bossbar_remove (proto : Z) (uuid : bytes) : option EncodedPacket :=
  bossbar_1_20 proto uuid Packets120.Remove.
Definition V1_19_keepalive (proto : Z) (id : Z) : option EncodedPacket :=
  typed v1_19_ClientboundKeepAlive_id proto (Packets119.KeepAlive_encode id).
Definition V1_19_brand : Z -> bytes -> option EncodedPacket :=
  brand_1_20 (lit "minecraft:brand").
Definition V1_19_set_center_chunk (proto : Z) : option EncodedPacket :=
  pinned
    (if in_range 755 758 proto then Some 0x49 else if proto =? 759 then Some 0x48 else if proto =? 760 then Some 0x4b
     else if proto =? 761 then Some 0x4a else if proto =? 762 then Some 0x4e else None) center_body.
Definition V1_19_set_default_spawn (proto : Z) : option EncodedPacket :=
  pinned (if proto =? 761 then Some 0x4c else if proto =? 762 then Some 0x50 else None) default_spawn_body.
Definition V1_19_chunk_data (proto : Z) : option EncodedPacket :=
  let pid := cb_play proto "ClientboundLevelChunkWithLight" in
    if pid =? 0xFF then None
    else if proto <=? 756 then by_hand pid (void_chunk_body_1_17 16) else by_hand pid (void_chunk_body 24 true NamedNbt).
Definition V1_19_light_update (proto : Z) : option EncodedPacket :=
  if in_range 755 756 proto then by_hand 0x25 (light_update_body_1_17 16) else None.
Definition V1_19 : LimboPackets := {|
  join_game := V1_19_join_game; respawn := V1_19_respawn; player_abilities := V1_19_player_abilities;
  held_item_change := V1_19_held_item_change; player_position := V1_19_player_position; chat := V1_19_chat; note_sound := V1_19_note_sound;
  bossbar_add := V1_19_bossbar_add; bossbar_remove := V1_19_bossbar_remove; keepalive := V1_19_keepalive; brand := V1_19_brand;
  set_center_chunk := V1_19_set_center_chunk; set_default_spawn := V1_19_set_default_spawn; chunk_batch_start := none1;
  chunk_batch_finished := none2; start_wait_chunks_event := none1; chunk_data := V1_19_chunk_data; light_update := V1_19_light_update;
  spawn_position := none2; time_update := none1; update_health := none1 |}.

(** ** 1.20 *)

Definition nbt_chat (proto : Z) (json_message : bytes) : option EncodedPacket :=
  let id := cb_play proto "ClientboundSystemChat" in
  if id =? 0xFF then None
  else component ← json_component_to_nameless_nbt json_parse json_message; by_hand id (put_slice component;; put_u8 0).
Definition nbt_bossbar_add (proto : Z) (uuid title : bytes) : option EncodedPacket :=
  let id := cb_play proto "ClientboundBossBar" in
  if id =? 0xFF then None
  else
    component ← json_component_to_nameless_nbt json_parse title;
    by_hand id (encode_uuid uuid;; VarInt_encode 0;; put_slice component;; put_f32 f32_1_0;; VarInt_encode 1;; VarInt_encode 0;; put_u8 0).

Definition join_game_763 (world_name : bytes) : option EncodedPacket :=
  if v1_20_ClientboundLogin_id 763 =? 0xFF then None
  else
    codec ← build_dimension_codec_for_proto order files 763;
    by_hand (v1_20_ClientboundLogin_id 763)
      (put_i32 0;; put_u8 0;; put_u8 3;; put_i8 (-1);; VarInt_encode 1;; put_sized world_name;; put_slice codec;;
       put_sized OVERWORLD;; put_sized world_name;; put_i64 0;; VarInt_encode 20;; VarInt_encode 8;; VarInt_encode 8;;
       put_u8 0;; put_u8 1;; put_u8 0;; put_u8 1;; put_u8 0;; VarInt_encode 0).

Definition V1_20_join_game (proto : Z) (world_name : bytes) : option EncodedPacket :=
  if proto =? 763 then join_game_763 world_name
    else typed v1_20_ClientboundLogin_id proto (Packets120.Login_encode
      (Packets120.mkLogin 0 false [world_name] 20 8 8 false true (if 764 <=? proto then Some false else None)
        (if 766 <=? proto then Packets120.Registry 0 else Packets120.Identifier OVERWORLD) world_name 0 3 (-1) false true None 0
        (if 766 <=? proto then Some false else None))).
Definition V1_20_respawn (proto : Z) (world_name : bytes) : option EncodedPacket :=
  typed v1_20_ClientboundRespawn_id proto (Packets120.Respawn_encode
    (Packets120.mkRespawn 0 world_name 0 0 (-1) false true 0 None 0)).
Definition V1_20_player_abilities (proto : Z) : option EncodedPacket :=
  typed v1_20_ClientboundPlayerAbilities_id proto (Packets120.PlayerAbilities_encode (Packets120.mkPlayerAbilities 0x06 0 0)).
Definition V1_20_held_item_change (proto : Z) : option EncodedPacket :=
  typed v1_20_ClientboundSetCarriedItem_id proto (Packets120.SetCarriedItem_encode 0).
Definition V1_20_player_position (proto : Z) (pos : PlayerPos) (teleport_id : Z) : option EncodedPacket :=
  typed v1_20_ClientboundPlayerPosition_id proto (Packets120.PlayerPosition_encode
    (Packets120.mkPlayerPosition (pos_x pos) (pos_y pos) (pos_z pos) (pos_yaw pos) (pos_pitch pos) 0 teleport_id)).
Definition V1_20_chat (proto : Z) (json_message : bytes) : option EncodedPacket :=
  if 765 <=? proto then nbt_chat proto json_message
    else typed v1_20_ClientboundSystemChat_id proto (Packets120.SystemChat_encode (Packets120.mkSystemChat json_message false)).
Definition V1_20_note_sound (proto : Z) : SoundParams -> option EncodedPacket :=
  inline_sound (cb_play proto "ClientboundSound").
Definition V1_20_bossbar_add (proto : Z) (uuid : bytes) (title : bytes) : option EncodedPacket :=
  if 765 <=? proto then nbt_bossbar_add proto uuid title else bossbar_1_20 proto uuid (Packets120.Add title f32_1_0 1 0 0).
Definition V1_20_bossbar_remove (proto : Z) (uuid : bytes) : option EncodedPacket :=
  bossbar_1_20 proto uuid Packets120.Remove.
Definition V1_20_keepalive (proto : Z) (id : Z) : option EncodedPacket :=
  typed v1_20_ClientboundKeepAlive_id proto (Packets120.KeepAlive_encode id).
Definition V1_20_brand : Z -> bytes -> option EncodedPacket :=
  brand_1_20 (lit "minecraft:brand").
Definition V1_20_set_center_chunk (proto : Z) : option EncodedPacket :=
  pinned
    (if proto =? 763 then Some 0x4e else if proto =? 764 then Some 0x50 else if proto =? 765 then Some 0x52 else if proto =? 766 then Some 0x54 else None) center_body.
Definition V1_20_set_default_spawn (proto : Z) : option EncodedPacket :=
  pinned
    (if proto =? 763 then Some 0x50 else if proto =? 764 then Some 0x52 else if proto =? 765 then Some 0x54 else if proto =? 766 then Some 0x56 else None) default_spawn_body.
Definition V1_20_chunk_batch_start (proto : Z) : option EncodedPacket :=
  pinned (if in_range 764 766 proto then Some 0x0d else None) (ret tt).
Definition V1_20_chunk_batch_finished (proto : Z) (batch_size : Z) : option EncodedPacket :=
  pinned (if in_range 764 766 proto then Some 0x0c else None) (VarInt_encode batch_size).
Definition V1_20_start_wait_chunks_event (proto : Z) : option EncodedPacket :=
  pinned (if proto =? 765 then Some 0x20 else if proto =? 766 then Some 0x22 else None) (put_u8 13;; put_f32 0).
Definition V1_20_chunk_data (proto : Z) : option EncodedPacket :=
  hand (cb_play proto "ClientboundLevelChunkWithLight") (void_chunk_body 24 false (if proto <=? 763 then NamedNbt else AnonNbt)).
Definition V1_20 : LimboPackets := {|
  join_game := V1_20_join_game; respawn := V1_20_respawn; player_abilities := V1_20_player_abilities;
  held_item_change := V1_20_held_item_change; player_position := V1_20_player_position; chat := V1_20_chat; note_sound := V1_20_note_sound;
  bossbar_add := V1_20_bossbar_add; bossbar_remove := V1_20_bossbar_remove; keepalive := V1_20_keepalive; brand := V1_20_brand;
  set_center_chunk := V1_20_set_center_chunk; set_default_spawn := V1_20_set_default_spawn; chunk_batch_start := V1_20_chunk_batch_start;
  chunk_batch_finished := V1_20_chunk_batch_finished; start_wait_chunks_event := V1_20_start_wait_chunks_event;
  chunk_data := V1_20_chunk_data; light_update := none1; spawn_position := none2; time_update := none1; update_health := none1 |}.

(** ** 1.21 and 26 *)

Definition V1_21_join_game (proto : Z) (world_name : bytes) : option EncodedPacket :=
  typed v1_21_ClientboundLogin_id proto (Packets121.Login_encode
    (Packets121.mkLogin (if 775 <=? proto then 1 else 0) false [world_name] 20 8 8 false true false 0 world_name 0 3 (-1) false true None 0
      (if 768 <=? proto then Some 63 else None) (if 776 <=? proto then Some false else None) false)).
Definition V1_21_respawn (proto : Z) (world_name : bytes) : option EncodedPacket :=
  typed v1_21_ClientboundRespawn_id proto (Packets121.Respawn_encode
    (Packets121.mkRespawn 0 world_name 0 0 (-1) false true 0 None 0 (if 768 <=? proto then Some 0 else None))).
Definition V1_21_player_abilities (proto : Z) : option EncodedPacket :=
  typed v1_21_ClientboundPlayerAbilities_id proto (Packets121.PlayerAbilities_encode (x06 :: replicate 8 x00)).
Definition V1_21_held_item_change (proto : Z) : option EncodedPacket :=
  typed v1_21_ClientboundSetCarriedItem_id proto (Packets121.SetCarriedItem_encode [x00]).
Definition V1_21_player_position (proto : Z) (pos : PlayerPos) (teleport_id : Z) : option EncodedPacket :=
  if 768 <=? proto then
      hand (cb_play proto "ClientboundPlayerPosition")
        (VarInt_encode teleport_id;; put_f64 (pos_x pos);; put_f64 (pos_y pos);; put_f64 (pos_z pos);; put_f64 0;; put_f64 0;; put_f64 0;;
         put_f32 (pos_yaw pos);; put_f32 (pos_pitch pos);; put_i32 0)
    else typed v1_21_ClientboundPlayerPosition_id proto (Packets121.PlayerPosition_encode
      (Packets121.mkPlayerPosition (pos_x pos) (pos_y pos) (pos_z pos) (pos_yaw pos) (pos_pitch pos) 0 teleport_id)).
Definition V1_21_chat : Z -> bytes -> option EncodedPacket :=
  nbt_chat.
Definition V1_21_note_sound (proto : Z) : SoundParams -> option EncodedPacket :=
  inline_sound (cb_play proto "ClientboundSound").
Definition V1_21_bossbar_add : Z -> bytes -> bytes -> option EncodedPacket :=
  nbt_bossbar_add.
Definition V1_21_bossbar_remove (proto : Z) (uuid : bytes) : option EncodedPacket :=
  bossbar_1_20 proto uuid Packets120.Remove.
Definition V1_21_keepalive (proto : Z) (id : Z) : option EncodedPacket :=
  typed v1_21_ClientboundKeepAlive_id proto (Packets121.KeepAlive_encode id).
Definition V1_21_brand : Z -> bytes -> option EncodedPacket :=
  brand_1_20 (lit "minecraft:brand").
Definition V1_21_set_center_chunk (proto : Z) : option EncodedPacket :=
  pinned
    (if proto =? 767 then Some 0x54 else if in_range 768 769 proto then Some 0x58 else if in_range 770 772 proto then Some 0x57
     else if in_range 773 774 proto then Some 0x5c else None) center_body.
Definition V1_21_chunk_batch_start (proto : Z) : option EncodedPacket :=
  pinned (if in_range 767 769 proto then Some 0x0d else if in_range 770 774 proto then Some 0x0c else None) (ret tt).
Definition V1_21_chunk_batch_finished (proto : Z) (batch_size : Z) : option EncodedPacket :=
  pinned (if in_range 767 769 proto then Some 0x0c else if in_range 770 774 proto then Some 0x0b else None) (VarInt_encode batch_size).
Definition V1_21_start_wait_chunks_event (proto : Z) : option EncodedPacket :=
  pinned
    (if proto =? 767 then Some 0x22 else if in_range 768 769 proto then Some 0x23 else if in_range 770 772 proto then Some 0x22
     else if in_range 773 774 proto then Some 0x26 else None) (put_u8 13;; put_f32 0).
Definition V1_21_chunk_data (proto : Z) : option EncodedPacket :=
  hand (cb_play proto "ClientboundLevelChunkWithLight") (void_chunk_body 24 false (if 770 <=? proto then HeightArray else AnonNbt)).
Definition V1_21 : LimboPackets := {|
  join_game := V1_21_join_game; respawn := V1_21_respawn; player_abilities := V1_21_player_abilities;
  held_item_change := V1_21_held_item_change; player_position := V1_21_player_position; chat := V1_21_chat; note_sound := V1_21_note_sound;
  bossbar_add := V1_21_bossbar_add; bossbar_remove := V1_21_bossbar_remove; keepalive := V1_21_keepalive; brand := V1_21_brand;
  set_center_chunk := V1_21_set_center_chunk; set_default_spawn := none1; chunk_batch_start := V1_21_chunk_batch_start;
  chunk_batch_finished := V1_21_chunk_batch_finished; start_wait_chunks_event := V1_21_start_wait_chunks_event;
  chunk_data := V1_21_chunk_data; light_update := none1; spawn_position := none2; time_update := none1; update_health := none1 |}.

Definition V26 : LimboPackets := {|
  join_game := join_game V1_21; respawn := respawn V1_21; player_abilities := player_abilities V1_21; held_item_change := held_item_change V1_21;
  player_position := player_position V1_21; chat := chat V1_21; note_sound := note_sound V1_21; bossbar_add := bossbar_add V1_21;
  bossbar_remove := bossbar_remove V1_21; keepalive := keepalive V1_21; brand := brand V1_21; chunk_data := chunk_data V1_21;
  set_center_chunk _ := by_hand 0x5e center_body;
  chunk_batch_start _ := by_hand 0x0c (ret tt);
  chunk_batch_finished _ batch_size := by_hand 0x0b (VarInt_encode batch_size);
  start_wait_chunks_event _ := by_hand 0x26 (put_u8 13;; put_f32 0);
  set_default_spawn := none1; light_update := none1; spawn_position := none2; time_update := none1; update_health := none1 |}.

Definition for_version (canonical : CanonicalVersion) : LimboPackets :=
  match canonical with
  | C_V1_6_4 => V1_6
  | C_V1_7_10 => V1_7
  | C_V1_8 => V1_8
  | C_V1_12_2 | C_V1_15_2 => V1_12
  | C_V1_16_5 | C_V1_18_2 => V1_16
  | C_V1_19_4 => V1_19
  | C_V1_20_4 => V1_20
  | C_V1_21 => V1_21
  | C_V26 => V26
  end.
End Builders.

(** ** Ids *)

Inductive Kind :=
  | K_Join | K_Respawn | K_Abilities | K_Held | K_Position | K_Chat | K_Sound | K_Boss | K_KeepAlive | K_Brand
  | K_Center | K_Spawn | K_BatchStart | K_BatchFinished | K_Event | K_Chunk | K_Light | K_SpawnPosition | K_Time | K_Health.
#[export] Instance Kind_eq_dec : EqDecision Kind.
Proof. solve_decision. Defined.
Definition kinds : list Kind :=
  [K_Join; K_Respawn; K_Abilities; K_Held; K_Position; K_Chat; K_Sound; K_Boss; K_KeepAlive; K_Brand;
   K_Center; K_Spawn; K_BatchStart; K_BatchFinished; K_Event; K_Chunk; K_Light; K_SpawnPosition; K_Time; K_Health].

(** A packet of a kind that some call of the builder returns. *)
Definition builds (v : LimboPackets) (k : Kind) (proto : Z) (e : EncodedPacket) : Prop :=
  match k with
  | K_Join => exists w, join_game v proto w = Some e
  | K_Respawn => exists w, respawn v proto w = Some e
  | K_Abilities => player_abilities v proto = Some e
  | K_Held => held_item_change v proto = Some e
  | K_Position => exists pos t, player_position v proto pos t = Some e
  | K_Chat => exists json, chat v proto json = Some e
  | K_Sound => exists pos, note_sound v proto pos = Some e
  | K_Boss => (exists u t, bossbar_add v proto u t = Some e) \/ exists u, bossbar_remove v proto u = Some e
  | K_KeepAlive => exists id, keepalive v proto id = Some e
  | K_Brand => exists b, brand v proto b = Some e
  | K_Center => set_center_chunk v proto = Some e
  | K_Spawn => set_default_spawn v proto = Some e
  | K_BatchStart => chunk_batch_start v proto = Some e
  | K_BatchFinished => exists n, chunk_batch_finished v proto n = Some e
  | K_Event => start_wait_chunks_event v proto = Some e
  | K_Chunk => chunk_data v proto = Some e
  | K_Light => light_update v proto = Some e
  | K_SpawnPosition => exists pos, spawn_position v proto pos = Some e
  | K_Time => time_update v proto = Some e
  | K_Health => update_health v proto = Some e
  end.

(** The id a version uses for a kind, [None] when it has no such packet: the
    registered id of a packet name, or the one the builder pins. *)
Definition kind_name (c : CanonicalVersion) (proto : Z) (k : Kind) : string :=
  let modern := match c with C_V1_19_4 => negb (in_range 755 758 proto) | C_V1_20_4 | C_V1_21 | C_V26 => true | _ => false end in
  match k with
  | K_Join => match c with C_V1_19_4 | C_V1_20_4 | C_V1_21 | C_V26 => "ClientboundLogin" | _ => "ClientboundJoinGame" end
  | K_Respawn => "ClientboundRespawn"
  | K_Abilities => "ClientboundPlayerAbilities"
  | K_Held => match c with C_V1_6_4 | C_V1_16_5 | C_V1_18_2 => "ClientboundHeldItemChange" | C_V1_8 => "ClientboundSetHeldItem" | _ => "ClientboundSetCarriedItem" end
  | K_Position => "ClientboundPlayerPosition"
  | K_Chat => if modern then "ClientboundSystemChat" else "ClientboundChatMessage"
  | K_Sound => if modern then "ClientboundSound" else match c with C_V1_8 => "ClientboundSound" | _ => "ClientboundNamedSoundEffect" end
  | K_Boss => "ClientboundBossBar"
  | K_KeepAlive => "ClientboundKeepAlive"
  | K_Brand => "ClientboundPluginMessage"
  | K_Chunk => "ClientboundLevelChunkWithLight"
  | K_SpawnPosition => "ClientboundSpawnPosition"
  | K_Time => "ClientboundTimeUpdate"
  | K_Health => "ClientboundUpdateHealth"
  | _ => ""
  end.
Definition no_files : DimFiles := mkDimFiles [] [] [] [] [] [] [] [].
Definition id_of (c : CanonicalVersion) (k : Kind) (proto : Z) : option Z :=
  let v := for_version id no_files (fun _ => None) c in
  match k with
  | K_Center => ep_id <$> set_center_chunk v proto
  | K_Spawn => ep_id <$> set_default_spawn v proto
  | K_BatchStart => ep_id <$> chunk_batch_start v proto
  | K_BatchFinished => ep_id <$> chunk_batch_finished v proto 0
  | K_Event => ep_id <$> start_wait_chunks_event v proto
  | K_Light => ep_id <$> light_update v proto
  | _ => let i := cb_play proto (kind_name c proto k) in if i =? 0xFF then None else Some i
  end.

Lemma zero_written : (VarInt_encode 0 []).1 = Ok tt.
Proof. reflexivity. Qed.

Section Ids.
Local Opaque cb_play VarInt_encode void_chunk_body void_chunk_body_1_17 light_update_body_1_17.

Lemma encode_id f proto m e : encode f proto m = Some e -> ep_id e = f proto /\ f proto <> 0xFF.
Proof.
  unfold encode. destruct (Z.eqb_spec (f proto) 0xFF); [discriminate|]. destruct (m []) as [[] ?]; try discriminate. intros [= <-]. done.
Qed.
Lemma by_hand_id i m e : by_hand i m = Some e -> ep_id e = i.
Proof. unfold by_hand. destruct (m []) as [[] ?]; try discriminate. by intros [= <-]. Qed.
Lemma hand_id i m e : hand i m = Some e -> ep_id e = i /\ i <> 0xFF.
Proof. unfold hand. destruct (Z.eqb_spec i 0xFF); [discriminate|]. by intros ->%by_hand_id. Qed.
Lemma registered i e : ep_id e = i -> i <> 0xFF -> (if i =? 0xFF then None else Some i) = Some (ep_id e).
Proof. intros -> H. by rewrite (proj2 (Z.eqb_neq _ _) H). Qed.
Lemma batch_finished_id i m m' e : pinned i m = Some e -> (m' []).1 = Ok tt -> ep_id <$> pinned i m' = Some (ep_id e).
Proof.
  destruct i as [i|]; [|discriminate]. cbn [pinned]. intros ->%by_hand_id Hm. unfold by_hand. destruct (m' []) as [r b]. cbn in Hm. by subst r.
Qed.

Ltac limbo_step :=
  match goal with
  | H : exists _, _ |- _ => destruct H as [? H]
  | H : _ \/ _ |- _ => destruct H as [H|H]
  | H : None = Some _ |- _ => discriminate H
  | H : none1 _ = Some _ |- _ => discriminate H
  | H : none2 _ _ = Some _ |- _ => discriminate H
  | H : (if ?b then _ else _) = Some _ |- _ => destruct b eqn:?
  | H : _ ≫= _ = Some _ |- _ => apply bind_Some in H as (? & ? & H)
  | H : match ?o with Some _ => _ | None => _ end = Some _ |- _ => destruct o eqn:?; [|discriminate H]
  | H : typed _ _ _ = Some _ |- _ => apply encode_id in H as [? ?]
  | H : hand _ _ = Some _ |- _ => apply hand_id in H as [? ?]
  | H : by_hand _ _ = Some _ |- _ => apply by_hand_id in H
  | H : (_ =? _) = false |- _ => apply Z.eqb_neq in H
  | H : (?p =? 763) = true |- _ => apply Z.eqb_eq in H; subst p
  end.
Ltac limbo_unfold H :=
  cbv [join_game respawn player_abilities held_item_change player_position chat note_sound bossbar_add bossbar_remove keepalive brand
    chunk_data spawn_position time_update update_health V1_6_respawn V1_6_player_abilities V1_6_held_item_change V1_6_player_position V1_6_chat
    V1_6_keepalive V1_6_spawn_position V1_6_time_update V1_6_update_health V1_7_join_game V1_7_player_abilities V1_7_player_position V1_7_chat
    V1_7_keepalive V1_7_brand V1_8_join_game V1_8_respawn V1_8_player_abilities V1_8_held_item_change V1_8_player_position V1_8_chat V1_8_note_sound
    V1_8_keepalive V1_8_brand V1_12_join_game V1_12_respawn V1_12_player_abilities V1_12_held_item_change V1_12_player_position V1_12_chat
    V1_12_bossbar_add V1_12_bossbar_remove V1_12_keepalive V1_12_brand V1_16_join_game V1_16_respawn V1_16_player_abilities V1_16_held_item_change
    V1_16_player_position V1_16_chat V1_16_note_sound V1_16_bossbar_add V1_16_bossbar_remove V1_16_keepalive V1_16_brand V1_19_join_game V1_19_respawn
    V1_19_player_abilities V1_19_held_item_change V1_19_player_position V1_19_chat V1_19_note_sound V1_19_bossbar_add V1_19_bossbar_remove
    V1_19_keepalive V1_19_brand V1_19_set_center_chunk V1_19_set_default_spawn V1_19_chunk_data V1_19_light_update V1_20_join_game V1_20_respawn
    V1_20_player_abilities V1_20_held_item_change V1_20_player_position V1_20_chat V1_20_note_sound V1_20_bossbar_add V1_20_bossbar_remove
    V1_20_keepalive V1_20_brand V1_20_set_center_chunk V1_20_set_default_spawn V1_20_chunk_batch_start V1_20_chunk_batch_finished
    V1_20_start_wait_chunks_event V1_20_chunk_data V1_21_join_game V1_21_respawn V1_21_player_abilities V1_21_held_item_change V1_21_player_position
    V1_21_chat V1_21_note_sound V1_21_bossbar_add V1_21_bossbar_remove V1_21_keepalive V1_21_brand V1_21_set_center_chunk V1_21_chunk_batch_start
    V1_21_chunk_batch_finished V1_21_start_wait_chunks_event V1_21_chunk_data V1_6 V1_7 V1_8 V1_12 V1_16 V1_19 V1_20 V1_21 V26
    join_game_1_16 build_join_game_1_13_through_1_15 build_join_game_1_16_0_or_1_16_1 build_respawn_1_13_through_1_15 build_chat_pre_1_16 chat_1_16
    named_sound bossbar_1_12 bossbar_1_20 brand_1_20 build_join_game_1_17_or_1_18 build_respawn_1_17_or_1_18 position_1_19 inline_sound
    nbt_chat nbt_bossbar_add join_game_763] in H.

Ltac limbo_id H :=
  cbn [builds] in H; cbv beta iota delta [for_version] in H; limbo_unfold H; repeat limbo_step;
  unfold id_of, kind_name; repeat match goal with H : in_range 755 758 _ = _ |- _ => rewrite H; clear H end; cbn [negb];
  match goal with H1 : ep_id ?e = _, H2 : _ <> 0xFF |- _ => exact (registered _ _ H1 H2) end.

Ltac limbo_fields :=
  cbn [for_version V1_6 V1_7 V1_8 V1_12 V1_16 V1_19 V1_20 V1_21 V26 set_center_chunk set_default_spawn chunk_batch_start start_wait_chunks_event light_update
    V1_19_set_center_chunk V1_19_set_default_spawn V1_19_light_update V1_20_set_center_chunk V1_20_set_default_spawn V1_20_chunk_batch_start V1_20_start_wait_chunks_event V1_21_set_center_chunk V1_21_chunk_batch_start V1_21_start_wait_chunks_event].
Lemma same_builder (f : LimboPackets -> Z -> option EncodedPacket) order files json_parse c proto :
  (forall o1 f1 j1 o2 f2 j2, f (for_version o1 f1 j1 c) proto = f (for_version o2 f2 j2 c) proto) ->
  f (for_version order files json_parse c) proto = f (for_version id no_files (fun _ => None) c) proto.
Proof. intros H. apply H. Qed.

(** Every packet has the id of its kind. *)
Lemma builds_id order files json_parse c k proto e : builds (for_version order files json_parse c) k proto e -> id_of c k proto = Some (ep_id e).
Proof.
  intros H. destruct k; try (destruct c; limbo_id H); cbn [builds id_of] in *.
  - rewrite <- (same_builder set_center_chunk order files json_parse c proto), H; [reflexivity|]. intros; destruct c; limbo_fields; reflexivity.
  - rewrite <- (same_builder set_default_spawn order files json_parse c proto), H; [reflexivity|]. intros; destruct c; limbo_fields; reflexivity.
  - rewrite <- (same_builder chunk_batch_start order files json_parse c proto), H; [reflexivity|]. intros; destruct c; limbo_fields; reflexivity.
  - destruct H as [n H]. destruct c; try discriminate H.
    all: cbn [for_version V26 V1_20 V1_21 chunk_batch_finished V1_20_chunk_batch_finished V1_21_chunk_batch_finished] in H |- *.
    + refine (batch_finished_id _ _ _ _ H _). apply zero_written.
    + refine (batch_finished_id _ _ _ _ H _). apply zero_written.
    + rewrite (by_hand_id _ _ _ H). unfold by_hand. pose proof zero_written as Hz. destruct (VarInt_encode 0 []) as [r b]. cbn in Hz. by subst r.
  - rewrite <- (same_builder start_wait_chunks_event order files json_parse c proto), H; [reflexivity|]. intros; destruct c; limbo_fields; reflexivity.
  - rewrite <- (same_builder light_update order files json_parse c proto), H; [reflexivity|]. intros; destruct c; limbo_fields; reflexivity.
Qed.
End Ids.

Definition limbo_of (order : entries -> entries) (files : DimFiles) (json_parse : bytes -> option Value) (proto : Z) : LimboPackets :=
  for_version order files json_parse (canonical_typed_packet_version (nearest proto)).

(** The kinds of packets a version has, with their ids. *)
Definition kind_ids (proto : Z) : list (Kind * Z) :=
  let c := canonical_typed_packet_version (nearest proto) in omap (fun k => pair k <$> id_of c k proto) kinds.
Definition ids_ok (l : list (Kind * Z)) : bool := bool_decide (NoDup l.*2) && forallb (fun e => (0 <=? e.2) && (e.2 <? 0xFF)) l.
Lemma ids_ok_spec l : ids_ok l = true -> NoDup l.*2 /\ forall k i, (k, i) ∈ l -> 0 <= i < 0xFF.
Proof.
  intros [Hn%bool_decide_eq_true Hr]%andb_true_iff. split; [done|]. intros k i H%list_elem_of_In. rewrite forallb_forall in Hr.
  specialize (Hr _ H). cbn [snd] in Hr. apply andb_true_iff in Hr as [?%Z.leb_le ?%Z.ltb_lt]. lia.
Qed.
Lemma ids_checked : forallb (fun proto => ids_ok (kind_ids proto)) SUPPORTED = true.
Proof. vm_compute. reflexivity. Qed.
Lemma kinds_all k : k ∈ kinds.
Proof. apply list_elem_of_In. destruct k; cbn; tauto. Qed.
Lemma kind_ids_elem proto k i : id_of (canonical_typed_packet_version (nearest proto)) k proto = Some i -> (k, i) ∈ kind_ids proto.
Proof. intros H. unfold kind_ids. apply list_elem_of_omap. exists k. split; [apply kinds_all|]. by rewrite H. Qed.
Lemma NoDup_snd {A} (l : list (A * Z)) a b i : NoDup l.*2 -> (a, i) ∈ l -> (b, i) ∈ l -> a = b.
Proof.
  induction l as [|[c j] l IH]; [intros _ H; by apply not_elem_of_nil in H|]. cbn. intros [Hn Hd]%NoDup_cons [Ha|Ha]%elem_of_cons [Hb|Hb]%elem_of_cons.
  - congruence.
  - injection Ha as <- <-. exfalso. apply Hn. apply list_elem_of_fmap. by exists (b, i).
  - injection Hb as <- <-. exfalso. apply Hn. apply list_elem_of_fmap. by exists (a, i).
  - by apply IH.
Qed.

(** A client waiting in limbo can tell every packet apart.  For every supported
    protocol number, whatever the builder of its version is asked for, the packets
    it returns have one-byte ids that are not the failure value, and packets of
    different kinds have different ids, those pinned in the builder included. *)
Theorem limbo_ids_unambiguous (order : entries -> entries) (files : DimFiles) (json_parse : bytes -> option Value)
    (proto : Z) (k1 k2 : Kind) (e1 e2 : EncodedPacket) :
  proto ∈ SUPPORTED -> builds (limbo_of order files json_parse proto) k1 proto e1 -> builds (limbo_of order files json_parse proto) k2 proto e2 ->
  0 <= ep_id e1 < 0xFF /\ (ep_id e1 = ep_id e2 -> k1 = k2).
Proof.
  intros Hp%list_elem_of_In H1%builds_id%kind_ids_elem H2%builds_id%kind_ids_elem.
  destruct (ids_ok_spec _ (proj1 (forallb_forall _ _) ids_checked _ Hp)) as [Hn Hr]. split; [exact (Hr _ _ H1)|].
  intros Heq. rewrite Heq in H1. exact (NoDup_snd _ _ _ _ Hn H1 H2).
Qed.

Lemma limbo_ids_unambiguous_witness :
  764 ∈ SUPPORTED /\
  let v := limbo_of id no_files (fun _ => None) 764 in
  let e1 := mkEncodedPacket 0x50 [x00; x00] in let e2 := mkEncodedPacket 0x0d [] in
  builds v K_Center 764 e1 /\ builds v K_BatchStart 764 e2 /\ 0 <= ep_id e1 < 0xFF /\ (ep_id e1 = ep_id e2 -> K_Center = K_BatchStart).
Proof.
  assert (Hp : 764 ∈ SUPPORTED) by (match goal with |- ?P => apply (bool_decide_eq_true_1 P) end; vm_compute; reflexivity).
  split; [exact Hp|]. cbv zeta.
  assert (H1 : builds (limbo_of id no_files (fun _ => None) 764) K_Center 764 (mkEncodedPacket 0x50 [x00; x00])) by (vm_compute; reflexivity).
  assert (H2 : builds (limbo_of id no_files (fun _ => None) 764) K_BatchStart 764 (mkEncodedPacket 0x0d [])) by (vm_compute; reflexivity).
  split; [exact H1|]. split; [exact H2|]. exact (limbo_ids_unambiguous id no_files (fun _ => None) 764 K_Center K_BatchStart _ _ Hp H1 H2).
Defined.

(** ** What a client reads of the void chunk *)

Record Section_ := mkSection_ { sec_blocks : Z; sec_block : Z; sec_biome : Z }.
Record ChunkView := mkChunkView {
  cv_x : Z; cv_z : Z; cv_heightmaps : list (bytes * NbtTag); cv_sections : list Section_; cv_entities : Z;
  cv_light : list Z; cv_dark : list Z }.

(** The documented layout of a chunk with light whose sections hold one value each
    and whose light arrays are empty; anything else is refused. *)
Definition expect (m : Dec Z) (v : Z) : Dec unit := let! x := m in if x =? v then ret tt else fail (UnknownNbtTag 0).
Definition get_byte : Dec Z := ensure 1 UnexpectedEof;; get_u8.
Definition get_int : Dec Z := ensure 4 UnexpectedEof;; get_i32.
Definition get_long : Dec Z := ensure 8 UnexpectedEof;; get_i64.
Definition read_section : Dec Section_ :=
  ensure 2 UnexpectedEof;; let! blocks := get_i16 in
  expect get_byte 0;; let! block := VarInt_decode in expect VarInt_decode 0;;
  expect get_byte 0;; let! biome := VarInt_decode in expect VarInt_decode 0;;
  ret (mkSection_ blocks block biome).
Definition read_mask : Dec (list Z) := let! n := VarInt_decode in repeat_dec (Z.to_nat n) get_long.
Definition read_light : Dec (list Z * list Z) :=
  let! sky := read_mask in let! block := read_mask in
  let! empty_sky := read_mask in let! empty_block := read_mask in
  expect VarInt_decode 0;; expect VarInt_decode 0;;
  ret (sky ++ block, empty_sky ++ empty_block).
Definition read_heightmaps (hm : HeightmapFmt) : Dec (list (bytes * NbtTag)) :=
  match hm with
  | NamedNbt => let! n := Nbt_decode in ret (nbt_root n)
  | AnonNbt => expect get_byte 0x0a;; let! t := read_tag_payload T_Compound in match t with NbtCompound m => ret m | _ => fail (UnknownNbtTag 0) end
  | HeightArray => expect VarInt_decode 0;; ret []
  end.
Definition read_void_chunk (sections : nat) (trust_edges : bool) (hm : HeightmapFmt) : Dec ChunkView :=
  let! x := get_int in let! z := get_int in
  let! maps := read_heightmaps hm in
  let! len := VarInt_decode in
  if negb (len =? 8 * Z.of_nat sections) then fail UnexpectedEof
  else
    let! secs := repeat_dec sections read_section in
    let! entities := VarInt_decode in
    (if trust_edges then expect get_byte 1 else ret tt);;
    let! light := read_light in
    ret (mkChunkView x z maps secs entities light.1 light.2).

Definition section_img : bytes := replicate 8 x00.
Definition heights : Nbt := mkNbt [] [(lit "MOTION_BLOCKING", NbtLongArray (replicate 37 0))].
Definition heightmap_img (hm : HeightmapFmt) : bytes :=
  match hm with NamedNbt => nbt_img heights | AnonNbt => x0a :: img (NbtCompound (nbt_root heights)) | HeightArray => [x00] end.
Definition mask_img (n : nat) : bytes := x01 :: be_bytes 8 (section_mask (n + 2)).
Definition light_img (n : nat) : bytes := [x00] ++ [x00] ++ mask_img n ++ mask_img n ++ [x00] ++ [x00].
Definition chunk_img (n : nat) (trust_edges : bool) (hm : HeightmapFmt) : bytes :=
  be_bytes 4 0 ++ be_bytes 4 0 ++ heightmap_img hm ++ (wire VarInt (8 * Z.of_nat n) ++ concat (replicate n section_img)) ++ [x00] ++
  (if trust_edges then [x01] else []) ++ light_img n.

Lemma writes_small v b : wire VarInt v = [b] -> wf VarInt v -> writes (VarInt_encode v) [b].
Proof. intros <- Hv. exact (lawful_writes (c := VarInt) v Hv). Qed.
Lemma writes_0 : writes (VarInt_encode 0) [x00].
Proof. apply writes_small; [reflexivity|cbn; width]. Qed.
Lemma writes_1 : writes (VarInt_encode 1) [x01].
Proof. apply writes_small; [reflexivity|cbn; width]. Qed.
Lemma writes_times n m bs : writes m bs -> writes (times n m) (concat (replicate n bs)).
Proof. intros Hm. induction n as [|n IH]; [apply writes_ret|]. cbn [times replicate concat]. by apply writes_bind. Qed.
Lemma fresh_writes m bs : writes m bs -> fresh m = bs.
Proof. intros H. unfold fresh. by rewrite H. Qed.
Lemma writes_sized bs : Z.of_nat (length bs) < 2 ^ 31 -> writes (put_sized bs) (wire VarInt (Z.of_nat (length bs)) ++ bs).
Proof.
  intros Hl. unfold put_sized. rewrite wraps_id by (first [lia|width]). apply writes_bind; [apply (lawful_writes (c := VarInt)); cbn [wf VarInt]; width|apply writes_put].
Qed.

Lemma writes_eq (m : Enc) bs bs' : writes m bs -> bs = bs' -> writes m bs'.
Proof. by intros ? <-. Qed.
Ltac writes_hand :=
  repeat (eapply writes_bind; [first [apply writes_0 | apply writes_1 | apply writes_put | apply writes_ret]|]); first [apply writes_0 | apply writes_1 | apply writes_put | apply writes_ret].
Lemma writes_section : writes empty_section section_img.
Proof. unfold empty_section. eapply writes_eq; [codec_unfold; writes_hand|reflexivity]. Qed.
Lemma writes_light n : writes (empty_light n) (light_img n).
Proof. unfold empty_light. eapply writes_eq; [codec_unfold; writes_hand|reflexivity]. Qed.
Lemma length_sections n : length (concat (replicate n section_img)) = (8 * n)%nat.
Proof. induction n as [|n IH]; [done|]. cbn [replicate concat]. rewrite length_app, IH. cbn [length section_img replicate]. lia. Qed.
Lemma writes_motion : exists bs, writes put_motion_blocking_field bs /\ bs ++ [x00] = img (NbtCompound (nbt_root heights)).
Proof.
  eexists. split.
  - unfold put_motion_blocking_field. codec_unfold. do 4 (eapply writes_bind; [apply writes_put|]). apply writes_times, writes_put.
  - vm_compute. reflexivity.
Qed.
Lemma writes_heights hm : writes (match hm with
  | NamedNbt => put_u8 0x0a;; put_u16 0;; put_motion_blocking_field;; put_u8 0
  | AnonNbt => put_u8 0x0a;; put_motion_blocking_field;; put_u8 0
  | HeightArray => VarInt_encode 0
  end) (heightmap_img hm).
Proof.
  destruct writes_motion as (bs & Hb & Hi). destruct hm; cbn [heightmap_img].
  - unfold nbt_img. rewrite <- Hi. codec_unfold. do 3 (eapply writes_bind; [first [apply writes_put|exact Hb]|]). apply writes_put.
  - rewrite <- Hi. change (x0a :: bs ++ [x00]) with ([x0a] ++ bs ++ [x00]). codec_unfold. do 2 (eapply writes_bind; [first [apply writes_put|exact Hb]|]). apply writes_put.
  - apply writes_0.
Qed.
Lemma writes_chunk n trust_edges hm : Z.of_nat n < 2 ^ 27 -> writes (void_chunk_body n trust_edges hm) (chunk_img n trust_edges hm).
Proof.
  intros Hn. unfold void_chunk_body, chunk_img. rewrite (fresh_writes _ _ (writes_times n _ _ writes_section)).
  codec_unfold. do 2 (eapply writes_bind; [apply writes_put|]). eapply writes_bind; [apply writes_heights|].
  eapply writes_bind. { replace (8 * Z.of_nat n) with (Z.of_nat (length (concat (replicate n section_img)))) by (rewrite length_sections; lia). apply writes_sized. rewrite length_sections. lia. }
  eapply writes_bind; [apply writes_0|]. eapply writes_bind; [|apply writes_light]. destruct trust_edges; [apply writes_put|apply writes_ret].
Qed.

Lemma reads_small v b : wire VarInt v = [b] -> wf VarInt v -> reads VarInt_decode [b] v.
Proof. intros <- Hv. exact (lawful_reads (c := VarInt) v Hv). Qed.
Lemma reads_0 : reads VarInt_decode [x00] 0.
Proof. apply reads_small; [reflexivity|cbn; width]. Qed.
Lemma reads_1 : reads VarInt_decode [x01] 1.
Proof. apply reads_small; [reflexivity|cbn; width]. Qed.
Lemma reads_expect m bs v : reads m bs v -> reads (expect m v) bs tt.
Proof. intros H. unfold expect. eapply reads_bind_last; [exact H|]. rewrite Z.eqb_refl. apply reads_ret. Qed.
Lemma reads_byte v : fits_u 8 v -> reads get_byte (be_bytes 1 v) v.
Proof. intros H. unfold get_byte. apply reads_ensure; [rewrite length_be_bytes; lia|]. by apply (reads_uint 1). Qed.
Lemma reads_get_int v : fits_s 32 v -> reads get_int (be_bytes 4 v) v.
Proof. intros H. unfold get_int. apply reads_ensure; [rewrite length_be_bytes; lia|]. apply (reads_int 4); [lia|done]. Qed.
Lemma reads_get_long v : fits_s 64 v -> reads get_long (be_bytes 8 v) v.
Proof. intros H. unfold get_long. apply reads_ensure; [rewrite length_be_bytes; lia|]. apply (reads_int 8); [lia|done]. Qed.

Definition air : Section_ := mkSection_ 0 0 0.
Lemma reads_section : reads read_section section_img air.
Proof.
  change section_img with (be_bytes 2 0 ++ be_bytes 1 0 ++ [x00] ++ [x00] ++ be_bytes 1 0 ++ [x00] ++ [x00]).
  unfold read_section. apply reads_ensure; [cbn; lia|]. eapply reads_bind; [apply (reads_int 2); [lia|width]|].
  eapply reads_bind; [apply reads_expect, reads_byte; width|]. eapply reads_bind; [apply reads_0|]. eapply reads_bind; [apply reads_expect, reads_0|].
  eapply reads_bind; [apply reads_expect, reads_byte; width|]. eapply reads_bind; [apply reads_0|]. eapply reads_bind_last; [apply reads_expect, reads_0|apply reads_ret].
Qed.
Lemma section_mask_range n : fits_s 64 (section_mask n).
Proof. unfold section_mask. destruct (64 <=? n)%nat; [width|]. apply wraps_fits. lia. Qed.
Lemma section_mask_bits n i : 0 <= i < 64 -> Z.testbit (section_mask n) i = (i <? Z.of_nat n).
Proof.
  intros Hi. unfold section_mask. destruct (Nat.leb_spec 64 n) as [Hn|Hn].
  - rewrite Z.bits_m1 by lia. symmetry. apply Z.ltb_lt. lia.
  - assert (H : 0 < 2 ^ Z.of_nat n <= 2 ^ 63) by (split; [lia|apply Z.pow_le_mono_r; lia]).
    rewrite wraps_id by (first [lia|width]). replace (2 ^ Z.of_nat n - 1) with (Z.ones (Z.of_nat n)) by (rewrite Z.ones_equiv; lia).
    destruct (Z.ltb_spec i (Z.of_nat n)); [by apply Z.ones_spec_low; lia|by apply Z.ones_spec_high; lia].
Qed.
Lemma reads_mask n : reads read_mask (mask_img n) [section_mask (n + 2)].
Proof.
  unfold read_mask, mask_img. change (x01 :: ?b) with ([x01] ++ b). eapply reads_bind; [apply reads_1|]. change (Z.to_nat 1) with 1%nat. cbn [repeat_dec].
  eapply reads_bind_last; [apply reads_get_long, section_mask_range|]. apply reads_ret.
Qed.
Lemma reads_no_mask : reads read_mask [x00] [].
Proof. unfold read_mask. eapply reads_bind_last; [apply reads_0|]. apply reads_ret. Qed.
Lemma reads_light n : reads read_light (light_img n) ([], [section_mask (n + 2); section_mask (n + 2)]).
Proof.
  unfold read_light, light_img. eapply reads_bind; [apply reads_no_mask|]. eapply reads_bind; [apply reads_no_mask|].
  eapply reads_bind; [apply reads_mask|]. eapply reads_bind; [apply reads_mask|]. eapply reads_bind; [apply reads_expect, reads_0|].
  eapply reads_bind_last; [apply reads_expect, reads_0|]. apply reads_ret.
Qed.
Lemma heights_ok : nbt_value_ok heights.
Proof. split; vm_compute; reflexivity. Qed.
Lemma reads_heightmaps hm : reads (read_heightmaps hm) (heightmap_img hm) (if bool_decide (hm = HeightArray) then [] else nbt_root heights).
Proof.
  destruct hm; cbn [read_heightmaps heightmap_img bool_decide]; [| |eapply reads_bind_last; [apply reads_expect, reads_0|apply reads_ret]].
  - rewrite <- wire_nbt by apply heights_ok. eapply reads_bind_last; [apply (lawful_reads (c := NbtCodec)), heights_ok|]. apply reads_ret.
  - change (x0a :: ?b) with (be_bytes 1 0x0a ++ b). eapply reads_bind; [apply reads_expect, reads_byte; width|].
    eapply reads_bind_last; [apply (reads_tag_payload (NbtCompound (nbt_root heights))); vm_compute; reflexivity|]. apply reads_ret.
Qed.

(** The void chunk is a chunk.  For every number of sections and every era, the
    body written is read, to its last byte, by the documented layout of that era: at
    the origin, with sections that hold nothing but air, no block entity, no light
    data, and masks that declare exactly the sections of the world, one below it
    and one above it as empty. *)
Theorem void_chunk_readable (n : nat) (trust_edges : bool) (hm : HeightmapFmt) : Z.of_nat n < 2 ^ 27 ->
  let body := fresh (void_chunk_body n trust_edges hm) in
  exists mask, read_void_chunk n trust_edges hm body =
      (Ok (mkChunkView 0 0 (if bool_decide (hm = HeightArray) then [] else nbt_root heights) (replicate n air) 0 [] [mask; mask]), []) /\
    forall i, 0 <= i < 64 -> Z.testbit mask i = (i <? Z.of_nat n + 2).
Proof.
  intros Hn. cbn zeta. rewrite (fresh_writes _ _ (writes_chunk n trust_edges hm Hn)). exists (section_mask (n + 2)).
  split; [|intros i Hi; rewrite section_mask_bits by done; f_equal; lia].
  assert (H : reads (read_void_chunk n trust_edges hm) (chunk_img n trust_edges hm)
    (mkChunkView 0 0 (if bool_decide (hm = HeightArray) then [] else nbt_root heights) (replicate n air) 0 [] [section_mask (n + 2); section_mask (n + 2)])).
  { unfold read_void_chunk, chunk_img. rewrite <- !app_assoc. do 2 (eapply reads_bind; [apply reads_get_int; width|]). eapply reads_bind; [apply reads_heightmaps|].
    eapply reads_bind; [apply (lawful_reads (c := VarInt)); cbn [wf VarInt]; width|]. rewrite Z.eqb_refl. cbn [negb].
    eapply reads_bind.
    { rewrite <- (length_replicate n air) at 1. replace (concat (replicate n section_img)) with (concat (map (fun _ => section_img) (replicate n air))); [|clear; induction n as [|n IH]; [done|cbn [replicate map concat]; by rewrite IH]].
      apply (reads_repeat read_section (fun _ => section_img)). apply Forall_replicate. apply reads_section. }
    eapply reads_bind; [apply reads_0|]. eapply reads_bind. { destruct trust_edges; [apply reads_expect; apply (reads_byte 1); width|apply reads_ret]. }
    eapply reads_bind_last; [apply reads_light|]. apply reads_ret. }
  specialize (H []). by rewrite app_nil_r in H.
Qed.
Lemma void_chunk_readable_witness : Z.of_nat 24 < 2 ^ 27 /\
  exists mask, read_void_chunk 24 false AnonNbt (fresh (void_chunk_body 24 false AnonNbt)) =
      (Ok (mkChunkView 0 0 (nbt_root heights) (replicate 24 air) 0 [] [mask; mask]), []) /\
    forall i, 0 <= i < 64 -> Z.testbit mask i = (i <? Z.of_nat 24 + 2).
Proof. split; [lia|]. apply (void_chunk_readable 24 false AnonNbt). lia. Defined.

(** ** Positions and the choice of the builder *)

(** The protocol numbers of the supported versions behind each canonical version. *)
Definition canonical_range (c : CanonicalVersion) (proto : Z) : bool :=
  match c with
  | C_V1_6_4 => in_range 73 78 proto
  | C_V1_7_10 => in_range 4 5 proto
  | C_V1_8 => proto =? 47
  | C_V1_12_2 => in_range 107 340 proto
  | C_V1_15_2 => in_range 393 578 proto
  | C_V1_16_5 => in_range 735 754 proto
  | C_V1_18_2 => in_range 755 758 proto
  | C_V1_19_4 => in_range 759 762 proto
  | C_V1_20_4 => in_range 763 766 proto
  | C_V1_21 => in_range 767 774 proto
  | C_V26 => in_range 775 776 proto
  end.
Lemma canonical_ranges : forallb (fun proto => canonical_range (canonical_typed_packet_version (nearest proto)) proto) SUPPORTED = true.
Proof. vm_compute. reflexivity. Qed.
Lemma canonical_in_range proto : proto ∈ SUPPORTED -> canonical_range (canonical_typed_packet_version (nearest proto)) proto = true.
Proof. intros H%list_elem_of_In. exact (proj1 (forallb_forall _ _) canonical_ranges _ H). Qed.
Definition id_present (proto i : Z) : bool := (proto =? 4) || negb (i =? 0xFF).
Lemma id_present_spec proto i : id_present proto i = true -> proto <> 4 -> (i =? 0xFF) = false.
Proof. unfold id_present. intros H Hne%Z.eqb_neq. rewrite Hne in H. by apply negb_true_iff in H. Qed.
Lemma position_ids : forallb (fun proto => id_present proto (cb_play proto "ClientboundPlayerPosition")) SUPPORTED = true.
Proof. vm_compute. reflexivity. Qed.
Lemma position_id proto : proto ∈ SUPPORTED -> proto <> 4 -> (cb_play proto "ClientboundPlayerPosition" =? 0xFF) = false.
Proof. intros H%list_elem_of_In Hne. exact (id_present_spec _ _ (proj1 (forallb_forall _ _) position_ids _ H) Hne). Qed.

Definition get_float64 : Dec Z := ensure 8 UnexpectedEof;; get_f64.
Definition get_float32 : Dec Z := ensure 4 UnexpectedEof;; get_f32.
Definition read_look (x y z : Z) : Dec PlayerPos := let! yaw := get_float32 in let! pitch := get_float32 in ret (mkPlayerPos x y z yaw pitch).
Definition read_place : Dec PlayerPos :=
  let! x := get_float64 in let! y := get_float64 in let! z := get_float64 in read_look x y z.

(** The documented clientbound position of a protocol number, with the id of the
    teleport where there is one. *)
Definition read_position (proto : Z) : Dec (PlayerPos * option Z) :=
  if in_range 73 78 proto then
    let! x := get_float64 in let! _ := get_float64 in let! y := get_float64 in let! z := get_float64 in
    let! pos := read_look x y z in let! _ := get_byte in ret (pos, None)
  else if proto <? 107 then let! pos := read_place in let! _ := get_byte in ret (pos, None)
  else if 768 <=? proto then
    let! t := VarInt_decode in
    let! x := get_float64 in let! y := get_float64 in let! z := get_float64 in
    let! _ := get_float64 in let! _ := get_float64 in let! _ := get_float64 in
    let! pos := read_look x y z in let! _ := get_int in ret (pos, Some t)
  else
    let! pos := read_place in let! _ := get_byte in let! t := VarInt_decode in
    (if in_range 755 761 proto then let! _ := get_byte in ret tt else ret tt);;
    ret (pos, Some t).

Definition pos_ok (pos : PlayerPos) : Prop :=
  fits_u 64 (pos_x pos) /\ fits_u 64 (pos_y pos) /\ fits_u 64 (pos_z pos) /\ fits_u 32 (pos_yaw pos) /\ fits_u 32 (pos_pitch pos).
Definition look_img (pos : PlayerPos) : bytes := be_bytes 4 (pos_yaw pos) ++ be_bytes 4 (pos_pitch pos).
Definition place_img (pos : PlayerPos) : bytes := be_bytes 8 (pos_x pos) ++ be_bytes 8 (pos_y pos) ++ be_bytes 8 (pos_z pos) ++ look_img pos.

Lemma reads_float64 v : fits_u 64 v -> reads get_float64 (be_bytes 8 v) v.
Proof. intros H. unfold get_float64. apply reads_ensure; [rewrite length_be_bytes; lia|]. by apply (reads_uint 8). Qed.
Lemma reads_float32 v : fits_u 32 v -> reads get_float32 (be_bytes 4 v) v.
Proof. intros H. unfold get_float32. apply reads_ensure; [rewrite length_be_bytes; lia|]. by apply (reads_uint 4). Qed.
Lemma reads_look pos : pos_ok pos -> reads (read_look (pos_x pos) (pos_y pos) (pos_z pos)) (look_img pos) pos.
Proof.
  intros (_ & _ & _ & H1 & H2). unfold read_look, look_img. eapply reads_bind; [by apply reads_float32|]. eapply reads_bind_last; [by apply reads_float32|]. destruct pos. apply reads_ret.
Qed.
Lemma reads_place pos : pos_ok pos -> reads read_place (place_img pos) pos.
Proof.
  intros H. pose proof H as (H1 & H2 & H3 & _). unfold read_place, place_img. do 3 (eapply reads_bind; [by apply reads_float64|]). by apply reads_look.
Qed.
Lemma typed_body f proto m bs : (f proto =? 0xFF) = false -> writes m bs -> typed f proto m = Some (mkEncodedPacket (f proto) bs).
Proof. intros Hf Hm. unfold typed, encode. rewrite Hf, Hm. done. Qed.
Lemma hand_body i m bs : (i =? 0xFF) = false -> writes m bs -> hand i m = Some (mkEncodedPacket i bs).
Proof. intros Hf Hm. unfold hand, by_hand. rewrite Hf, Hm. done. Qed.

(** The body each builder writes for a position. *)
Definition position_img (proto : Z) (pos : PlayerPos) (t : Z) : bytes :=
  if in_range 73 78 proto then
    be_bytes 8 (pos_x pos) ++ be_bytes 8 (f64_add (pos_y pos) 0x3FF9EB851EB851EC) ++ be_bytes 8 (pos_y pos) ++ be_bytes 8 (pos_z pos) ++ look_img pos ++ [x01]
  else if proto <? 47 then place_img pos ++ [x01]
  else if proto <? 107 then place_img pos ++ [x00]
  else if 768 <=? proto then
    wire VarInt t ++ be_bytes 8 (pos_x pos) ++ be_bytes 8 (pos_y pos) ++ be_bytes 8 (pos_z pos) ++ be_bytes 8 0 ++ be_bytes 8 0 ++ be_bytes 8 0 ++ look_img pos ++ be_bytes 4 0
  else place_img pos ++ [x00] ++ wire VarInt t ++ (if in_range 755 761 proto then [x00] else []).

Definition modern_img (pos : PlayerPos) (t : Z) : bytes := place_img pos ++ [x00] ++ wire VarInt t.

Ltac writes_fields :=
  repeat (eapply writes_bind; [first [apply writes_put|eassumption]|]); first [apply writes_put|eassumption].
Ltac position_fields H :=
  intros H; eapply writes_eq; [codec_unfold; writes_fields|unfold modern_img, place_img, look_img; by rewrite <- ?app_assoc].

Lemma written_112 pos t : writes (enc VarInt t) (wire VarInt t) ->
  writes (Packets112.PlayerPosition_encode (Packets112.mkPlayerPosition (pos_x pos) (pos_y pos) (pos_z pos) (pos_yaw pos) (pos_pitch pos) 0 t)) (modern_img pos t).
Proof. unfold Packets112.PlayerPosition_encode; cbn [Packets112.pp_x Packets112.pp_y Packets112.pp_z Packets112.pp_yaw Packets112.pp_pitch Packets112.pp_flags Packets112.pp_teleport_id]. position_fields H. Qed.
Lemma written_116 pos t : writes (enc VarInt t) (wire VarInt t) ->
  writes (Packets116.PlayerPosition_encode (Packets116.mkPlayerPosition (pos_x pos) (pos_y pos) (pos_z pos) (pos_yaw pos) (pos_pitch pos) 0 t)) (modern_img pos t).
Proof. exact (written_112 pos t). Qed.
Lemma written_119 pos t : writes (enc VarInt t) (wire VarInt t) ->
  writes (Packets119.PlayerPosition_encode (Packets119.mkPlayerPosition (pos_x pos) (pos_y pos) (pos_z pos) (pos_yaw pos) (pos_pitch pos) 0 t)) (modern_img pos t).
Proof. exact (written_112 pos t). Qed.
Lemma written_120 pos t : writes (enc VarInt t) (wire VarInt t) ->
  writes (Packets120.PlayerPosition_encode (Packets120.mkPlayerPosition (pos_x pos) (pos_y pos) (pos_z pos) (pos_yaw pos) (pos_pitch pos) 0 t)) (modern_img pos t).
Proof. exact (written_112 pos t). Qed.
Lemma written_121 pos t : writes (enc VarInt t) (wire VarInt t) ->
  writes (Packets121.PlayerPosition_encode (Packets121.mkPlayerPosition (pos_x pos) (pos_y pos) (pos_z pos) (pos_yaw pos) (pos_pitch pos) 0 t)) (modern_img pos t).
Proof. exact (written_112 pos t). Qed.
Lemma written_1_17 pos t : writes (enc VarInt t) (wire VarInt t) ->
  writes (put_f64 (pos_x pos);; put_f64 (pos_y pos);; put_f64 (pos_z pos);; put_f32 (pos_yaw pos);; put_f32 (pos_pitch pos);;
       put_u8 0;; VarInt_encode t;; put_u8 0) (modern_img pos t ++ [x00]).
Proof. position_fields H. Qed.
Lemma written_768 pos t : writes (enc VarInt t) (wire VarInt t) ->
  writes (VarInt_encode t;; put_f64 (pos_x pos);; put_f64 (pos_y pos);; put_f64 (pos_z pos);; put_f64 0;; put_f64 0;; put_f64 0;;
         put_f32 (pos_yaw pos);; put_f32 (pos_pitch pos);; put_i32 0)
   (wire VarInt t ++ be_bytes 8 (pos_x pos) ++ be_bytes 8 (pos_y pos) ++ be_bytes 8 (pos_z pos) ++ be_bytes 8 0 ++ be_bytes 8 0 ++ be_bytes 8 0 ++ look_img pos ++ be_bytes 4 0).
Proof. position_fields H. Qed.

(** The layout that applies to a protocol number. *)
Inductive Layout := L_Stance | L_Ground | L_Teleport | L_Dismount | L_Delta.
Definition layout_of (proto : Z) : Layout :=
  if in_range 73 78 proto then L_Stance else if proto <? 107 then L_Ground else if 768 <=? proto then L_Delta
  else if in_range 755 761 proto then L_Dismount else L_Teleport.
Definition layout_img (l : Layout) (pos : PlayerPos) (t : Z) (ground : byte) : bytes :=
  match l with
  | L_Stance => be_bytes 8 (pos_x pos) ++ be_bytes 8 (f64_add (pos_y pos) 0x3FF9EB851EB851EC) ++ be_bytes 8 (pos_y pos) ++ be_bytes 8 (pos_z pos) ++ look_img pos ++ [ground]
  | L_Ground => place_img pos ++ [ground]
  | L_Teleport => modern_img pos t
  | L_Dismount => modern_img pos t ++ [x00]
  | L_Delta => wire VarInt t ++ be_bytes 8 (pos_x pos) ++ be_bytes 8 (pos_y pos) ++ be_bytes 8 (pos_z pos) ++ be_bytes 8 0 ++ be_bytes 8 0 ++ be_bytes 8 0 ++ look_img pos ++ be_bytes 4 0
  end.

Lemma read_position_layout proto : read_position proto =
  match layout_of proto with
  | L_Stance =>
      let! x := get_float64 in let! _ := get_float64 in let! y := get_float64 in let! z := get_float64 in
      let! pos := read_look x y z in let! _ := get_byte in ret (pos, None)
  | L_Ground => let! pos := read_place in let! _ := get_byte in ret (pos, None)
  | L_Delta =>
      let! t := VarInt_decode in
      let! x := get_float64 in let! y := get_float64 in let! z := get_float64 in
      let! _ := get_float64 in let! _ := get_float64 in let! _ := get_float64 in
      let! pos := read_look x y z in let! _ := get_int in ret (pos, Some t)
  | L_Dismount =>
      let! pos := read_place in let! _ := get_byte in let! t := VarInt_decode in
      (let! _ := get_byte in ret tt);; ret (pos, Some t)
  | L_Teleport => let! pos := read_place in let! _ := get_byte in let! t := VarInt_decode in ret tt;; ret (pos, Some t)
  end.
Proof. unfold read_position, layout_of. destruct (in_range 73 78 proto), (proto <? 107), (768 <=? proto), (in_range 755 761 proto); reflexivity. Qed.

Definition has_teleport (l : Layout) : bool := match l with L_Stance | L_Ground => false | _ => true end.
Lemma reads_any8 v : reads get_float64 (be_bytes 8 v) (v mod 2 ^ 64).
Proof.
  assert (E : be_bytes 8 v = be_bytes 8 (v mod 2 ^ 64)).
  { pose proof (be_bytes_val (be_bytes 8 v) 8 (length_be_bytes _ _)) as H. by rewrite be_val_bytes in H. }
  rewrite E. apply reads_float64. unfold fits_u. apply Z.mod_pos_bound. lia.
Qed.
Lemma reads_layout proto pos t ground : pos_ok pos -> fits_s 32 t -> bz ground < 2 ->
  reads (read_position proto) (layout_img (layout_of proto) pos t ground) (pos, if has_teleport (layout_of proto) then Some t else None).
Proof.
  intros Hpos Ht Hg. rewrite read_position_layout. pose proof Hpos as (H1 & H2 & H3 & _).
  assert (Hv : reads VarInt_decode (wire VarInt t) t) by (apply (lawful_reads (c := VarInt)); exact Ht).
  assert (Hb : forall b, reads get_byte [b] (bz b)).
  { intros b. unfold get_byte. apply reads_ensure; [cbn; lia|]. pose proof (bz_range b). replace [b] with (be_bytes 1 (bz b)) by (cbn [be_bytes]; rewrite Z.div_1_r; f_equal; apply zb_bz). apply (reads_uint 1). width. }
  destruct (layout_of proto); cbn [layout_img has_teleport].
  - eapply reads_bind; [by apply reads_float64|]. eapply reads_bind; [apply reads_any8|]. do 2 (eapply reads_bind; [by apply reads_float64|]).
    eapply reads_bind; [by apply reads_look|]. eapply reads_bind_last; [apply Hb|apply reads_ret].
  - eapply reads_bind; [by apply reads_place|]. eapply reads_bind_last; [apply Hb|apply reads_ret].
  - unfold modern_img. eapply reads_bind; [by apply reads_place|]. eapply reads_bind; [apply Hb|]. eapply reads_bind_last; [exact Hv|]. apply reads_ret.
  - unfold modern_img. rewrite <- !app_assoc. eapply reads_bind; [by apply reads_place|]. eapply reads_bind; [apply Hb|]. eapply reads_bind; [exact Hv|].
    eapply reads_bind_last; [eapply reads_bind_last; [apply Hb|apply reads_ret]|apply reads_ret].
  - eapply reads_bind; [exact Hv|]. do 3 (eapply reads_bind; [by apply reads_float64|]). do 3 (eapply reads_bind; [apply reads_float64; width|]).
    eapply reads_bind; [by apply reads_look|]. eapply reads_bind_last; [apply reads_get_int; width|apply reads_ret].
Qed.

Lemma place_16 pos : writes (Packets16.PlayerPosition_encode
    (Packets16.mkPlayerPosition (pos_x pos) (pos_y pos) (f64_add (pos_y pos) 0x3FF9EB851EB851EC) (pos_z pos) (pos_yaw pos) (pos_pitch pos) true)) (layout_img L_Stance pos 0 x01).
Proof.
  unfold Packets16.PlayerPosition_encode; cbn [Packets16.pp_x Packets16.pp_y Packets16.pp_stance Packets16.pp_z Packets16.pp_yaw Packets16.pp_pitch Packets16.pp_on_ground].
  eapply writes_eq; [codec_unfold; writes_fields|]. cbn [layout_img]. unfold look_img. by rewrite <- ?app_assoc.
Qed.
Lemma place_17 pos : writes (Packets17.PlayerPosition_encode
    (Packets17.mkPlayerPosition (pos_x pos) (pos_y pos) (pos_z pos) (pos_yaw pos) (pos_pitch pos) true)) (layout_img L_Ground pos 0 x01).
Proof.
  unfold Packets17.PlayerPosition_encode; cbn [Packets17.pp_x Packets17.pp_y Packets17.pp_z Packets17.pp_yaw Packets17.pp_pitch Packets17.pp_on_ground].
  eapply writes_eq; [codec_unfold; writes_fields|]. cbn [layout_img]. unfold place_img, look_img. by rewrite <- ?app_assoc.
Qed.
Lemma place_18 pos : writes (Packets18.PlayerPosition_encode
    (Packets18.mkPlayerPosition (pos_x pos) (pos_y pos) (pos_z pos) (pos_yaw pos) (pos_pitch pos) 0)) (layout_img L_Ground pos 0 x00).
Proof.
  unfold Packets18.PlayerPosition_encode; cbn [Packets18.pp_x Packets18.pp_y Packets18.pp_z Packets18.pp_yaw Packets18.pp_pitch Packets18.pp_flags].
  eapply writes_eq; [codec_unfold; writes_fields|]. cbn [layout_img]. unfold place_img, look_img. by rewrite <- ?app_assoc.
Qed.

(** The layout of every protocol number of a canonical version. *)
Ltac ranges := unfold canonical_range, layout_of, in_range in *; repeat match goal with |- context [?a <=? ?b] => destruct (Z.leb_spec a b); cbn [andb]; try lia end;
  repeat match goal with |- context [?a <? ?b] => destruct (Z.ltb_spec a b); try lia end.
Lemma layout_in_range c proto : canonical_range c proto = true ->
  match c with
  | C_V1_6_4 => layout_of proto = L_Stance
  | C_V1_7_10 | C_V1_8 => layout_of proto = L_Ground
  | C_V1_12_2 | C_V1_15_2 | C_V1_16_5 | C_V1_20_4 => layout_of proto = L_Teleport
  | C_V1_18_2 => layout_of proto = L_Dismount
  | C_V1_19_4 => layout_of proto = if in_range 755 761 proto then L_Dismount else L_Teleport
  | C_V1_21 | C_V26 => layout_of proto = if 768 <=? proto then L_Delta else L_Teleport
  end.
Proof.
  intros H. destruct c; cbn [canonical_range] in H; try apply Z.eqb_eq in H; try (unfold in_range in H; apply andb_true_iff in H as [?%Z.leb_le ?%Z.leb_le]); ranges; done.
Qed.

Lemma position_written order files json_parse proto pos t : proto ∈ SUPPORTED -> proto <> 4 -> fits_s 32 t ->
  canonical_typed_packet_version (nearest proto) <> C_V1_18_2 ->
  exists e g, player_position (limbo_of order files json_parse proto) proto pos t = Some e /\ bz g < 2 /\ ep_body e = layout_img (layout_of proto) pos t g.
Proof.
  intros Hp H4 Ht Hgap. pose proof (position_id proto Hp H4) as Hid. pose proof (layout_in_range _ _ (canonical_in_range proto Hp)) as Hl. clear Hp.
  assert (Hv : writes (enc VarInt t) (wire VarInt t)) by (apply (lawful_writes (c := VarInt)); exact Ht).
  unfold limbo_of. revert Hl Hgap. destruct (canonical_typed_packet_version (nearest proto)); cbn [for_version]; intros Hl Hgap;
    try (rewrite Hl; clear Hl); cbn [player_position V1_6_player_position V1_7_player_position V1_8_player_position V1_12_player_position V1_16_player_position V1_19_player_position V1_20_player_position V1_21_player_position V1_6 V1_7 V1_8 V1_12 V1_16 V1_19 V1_20 V1_21 V26]; try (exfalso; exact (Hgap eq_refl)).
  - eexists _, x01. split; [exact (typed_body v1_6_ClientboundPlayerPosition_id proto _ _ Hid (place_16 pos))|split; reflexivity].
  - eexists _, x01. split; [exact (typed_body v1_7_ClientboundPlayerPosition_id proto _ _ Hid (place_17 pos))|split; reflexivity].
  - eexists _, x00. split; [exact (typed_body v1_8_ClientboundPlayerPosition_id proto _ _ Hid (place_18 pos))|split; reflexivity].
  - eexists _, x00. split; [exact (typed_body v1_12_ClientboundPlayerPosition_id proto _ _ Hid (written_112 pos t Hv))|split; reflexivity].
  - eexists _, x00. split; [exact (typed_body v1_12_ClientboundPlayerPosition_id proto _ _ Hid (written_112 pos t Hv))|split; reflexivity].
  - eexists _, x00. split; [exact (typed_body v1_16_ClientboundPlayerPosition_id proto _ _ Hid (written_116 pos t Hv))|split; reflexivity].
  - unfold V1_19_player_position, position_1_19. destruct (in_range 755 761 proto).
    + eexists _, x00. split; [exact (hand_body (v1_19_ClientboundPlayerPosition_id proto) _ _ Hid (written_1_17 pos t Hv))|split; reflexivity].
    + eexists _, x00. split; [exact (typed_body v1_19_ClientboundPlayerPosition_id proto _ _ Hid (written_119 pos t Hv))|split; reflexivity].
  - eexists _, x00. split; [exact (typed_body v1_20_ClientboundPlayerPosition_id proto _ _ Hid (written_120 pos t Hv))|split; reflexivity].
  - unfold V1_21_player_position. destruct (768 <=? proto); eexists _, x00; (split; [first [exact (hand_body (cb_play proto "ClientboundPlayerPosition") _ _ Hid (written_768 pos t Hv))|exact (typed_body v1_21_ClientboundPlayerPosition_id proto _ _ Hid (written_121 pos t Hv))]|split; reflexivity]).
  - unfold V1_21_player_position. destruct (768 <=? proto); eexists _, x00; (split; [first [exact (hand_body (cb_play proto "ClientboundPlayerPosition") _ _ Hid (written_768 pos t Hv))|exact (typed_body v1_21_ClientboundPlayerPosition_id proto _ _ Hid (written_121 pos t Hv))]|split; reflexivity]).
Qed.

Lemma not_1_18 proto : proto ∈ SUPPORTED -> ~ (755 <= proto <= 758) -> canonical_typed_packet_version (nearest proto) <> C_V1_18_2.
Proof.
  intros Hp Hn Hc. pose proof (canonical_in_range proto Hp) as H. rewrite Hc in H. cbn [canonical_range] in H. unfold in_range in H.
  apply andb_true_iff in H as [?%Z.leb_le ?%Z.leb_le]. lia.
Qed.

(** Limbo puts a client where it means to.  For every supported protocol number
    but 1.7.2, which has no ids, and 1.17 to 1.18.2, the position packet is built and
    the documented layout of that protocol reads it, to its last byte, as the given
    coordinates, view and teleport id. *)
Theorem limbo_position_readable (order : entries -> entries) (files : DimFiles) (json_parse : bytes -> option Value) (proto : Z) (pos : PlayerPos) (t : Z) :
  proto ∈ SUPPORTED -> proto <> 4 -> ~ (755 <= proto <= 758) -> pos_ok pos -> fits_s 32 t ->
  exists e, player_position (limbo_of order files json_parse proto) proto pos t = Some e /\
    read_position proto (ep_body e) = (Ok (pos, if has_teleport (layout_of proto) then Some t else None), []).
Proof.
  intros Hp H4 Hn Hpos Ht. destruct (position_written order files json_parse proto pos t Hp H4 Ht (not_1_18 proto Hp Hn)) as (e & g & He & Hg & Hb).
  exists e. split; [exact He|]. rewrite Hb. pose proof (reads_layout proto pos t g Hpos Ht Hg []) as H. by rewrite app_nil_r in H.
Qed.

Definition limbo_spot : PlayerPos := mkPlayerPos 0 0x4070000000000000 0 0 0.
Lemma limbo_position_readable_witness :
  769 ∈ SUPPORTED /\ pos_ok limbo_spot /\
  exists e, player_position (limbo_of id no_files (fun _ => None) 769) 769 limbo_spot 1 = Some e /\
    read_position 769 (ep_body e) = (Ok (limbo_spot, Some 1), []).
Proof.
  assert (Hp : 769 ∈ SUPPORTED) by (match goal with |- ?P => apply (bool_decide_eq_true_1 P) end; vm_compute; reflexivity).
  assert (Hpos : pos_ok limbo_spot) by (unfold pos_ok, limbo_spot; cbn [pos_x pos_y pos_z pos_yaw pos_pitch]; split_and!; width).
  split; [exact Hp|]. split; [exact Hpos|].
  exact (limbo_position_readable id no_files (fun _ => None) 769 limbo_spot 1 Hp ltac:(lia) ltac:(lia) Hpos ltac:(width)).
Defined.

(** The documented join packet of 1.13 to 1.15. *)
Definition read_join_1_13 (proto : Z) : Dec (Z * Z * bytes) :=
  let! _ := get_int in let! mode := get_byte in let! dimension := get_int in
  (if 573 <=? proto then let! _ := get_long in ret tt else ret tt);;
  (if proto <? 477 then let! _ := get_byte in ret tt else ret tt);;
  let! _ := get_byte in
  let! level := decode_string in
  (if 477 <=? proto then let! _ := VarInt_decode in ret tt else ret tt);;
  let! _ := get_byte in
  (if 573 <=? proto then let! _ := get_byte in ret tt else ret tt);;
  ret (mode, dimension, level).
Definition reads_exactly {A} (m : Dec A) (o : option EncodedPacket) : bool :=
  match o with Some e => match m (ep_body e) with (Ok _, []) => true | _ => false end | None => false end.

(** Two builders are never chosen where they were written for: 1.14 and 1.15 clients
    get the join packet of 1.12, which their layout does not read, though the
    builder of 1.16 has one it does; and 1.17 to 1.18.2 clients get the position of
    1.16, which lacks their last byte, though the builder of 1.19 writes it. *)
Theorem limbo_builder_misplaced (order : entries -> entries) (files : DimFiles) (json_parse : bytes -> option Value) :
  Forall (fun proto =>
    reads_exactly (read_join_1_13 proto) (join_game (limbo_of order files json_parse proto) proto (lit "kojacoord:limbo")) = false /\
    reads_exactly (read_join_1_13 proto) (join_game (V1_16 order files) proto (lit "kojacoord:limbo")) = true)
    [477; 480; 485; 490; 498; 573; 575; 578] /\
  Forall (fun proto =>
    reads_exactly (read_position proto) (player_position (limbo_of order files json_parse proto) proto limbo_spot 1) = false /\
    reads_exactly (read_position proto) (player_position (V1_19 order files) proto limbo_spot 1) = true)
    [755; 756; 757; 758].
Proof. split; repeat (apply List.Forall_cons; [split; vm_compute; reflexivity|]); apply List.Forall_nil. Qed.
