(* ===== verification/Backend.v ===== *)
(** * Joining a backend

    crates/proxy-core/src/net/connection.rs: [complete_backend_login] with the
    configuration phase it relays ([transition_client_to_config],
    [relay_config_phase]) and the world reset of a live switch
    ([apply_switch_world_reset]).  Both sockets are byte streams: what the peer has
    still to say, at whose end a read fails, and the writes made so far, of which
    only so many may succeed.  A wait that times out is a stream that ends there:
    both give an I/O error.  zlib, HMAC and UUID text are parameters. *)
From Stdlib Require Import ZArith Lia Strings.String Strings.Byte.
From stdpp Require Import base list numbers strings.
From S2P Require Import Prelude Buf Wire VarInt Codec Negotiation PacketIo Routing Chars Utf8 Registry RegistryData Modloader.
From S2P Require Import Auth LoginPackets Login LimboPackets.
From S2P Require Packets Packets17 Packets18 Packets112 Packets116 Packets119 Packets120 Packets121.
Local Open Scope Z_scope.
Local Open Scope koja_scope.

(** ** Sockets *)

(** The writes so far and how many more succeed ([None]: all). *)
Record Tx := mkTx { tx_sent : list bytes; tx_room : option nat }.

Definition transmit (bs : bytes) (t : Tx) : outcome ConnectionError unit * Tx :=
  match tx_room t with
  | Some O => (Err (CE_Io KOther), t)
  | room => (Ok tt, mkTx (tx_sent t ++ [bs]) (Nat.pred <$> room))
  end.

Record Wires := mkWires {
  client : bytes; to_client : Tx;
  backend : bytes; to_backend : Tx;
  ml_kind : ModloaderKind; client_login_acked : bool; handshake_complete : bool }.

Definition set_client x w := mkWires x (to_client w) (backend w) (to_backend w) (ml_kind w) (client_login_acked w) (handshake_complete w).
Definition set_to_client x w := mkWires (client w) x (backend w) (to_backend w) (ml_kind w) (client_login_acked w) (handshake_complete w).
Definition set_backend x w := mkWires (client w) (to_client w) x (to_backend w) (ml_kind w) (client_login_acked w) (handshake_complete w).
Definition set_to_backend x w := mkWires (client w) (to_client w) (backend w) x (ml_kind w) (client_login_acked w) (handshake_complete w).
Definition set_ml_kind x w := mkWires (client w) (to_client w) (backend w) (to_backend w) x (client_login_acked w) (handshake_complete w).
Definition set_acked x w := mkWires (client w) (to_client w) (backend w) (to_backend w) (ml_kind w) x (handshake_complete w).
Definition set_complete x w := mkWires (client w) (to_client w) (backend w) (to_backend w) (ml_kind w) (client_login_acked w) x.

Abbreviation W A := (M Wires ConnectionError A).

Definition lift {A} (o : outcome ConnectionError A) : W A := fun w => (o, w).
Definition modify (f : Wires -> Wires) : W unit := fun w => (Ok tt, f w).
Definition on_client {A} (m : Conn A) : W A := fun w => let '(o, rest) := m (client w) in (o, set_client rest w).
Definition on_backend {A} (m : Conn A) : W A := fun w => let '(o, rest) := m (backend w) in (o, set_backend rest w).
Definition emit_client (bs : bytes) : W unit := fun w => let '(o, t) := transmit bs (to_client w) in (o, set_to_client t w).
Definition emit_backend (bs : bytes) : W unit := fun w => let '(o, t) := transmit bs (to_backend w) in (o, set_to_backend t w).

(** [VarInt::decode(&mut cursor)?.0 as u8] on a copy of a packet: its id and the
    bytes behind it. *)
Definition packet_id (raw : bytes) : outcome ConnectionError (Z * bytes) :=
  match VarInt_decode raw with
  | (Ok v, cursor) => Ok (wrapu 8 v, cursor)
  | (Err e, _) => Err (CE_Protocol e)
  | (Panic, _) => Panic
  | (NoFuel, _) => NoFuel
  end.

(** Decoding on a cursor nobody reads further. *)
Definition on_cursor {A} (m : Dec A) (cursor : bytes) : outcome ConnectionError A := map_err CE_Protocol (m cursor).1.

(** A payload encoded into a fresh buffer. *)
Definition payload (m : Enc) : outcome ConnectionError bytes :=
  match m [] with
  | (Ok _, bs) => Ok bs
  | (Err e, _) => Err (CE_Protocol e)
  | (Panic, _) => Panic
  | (NoFuel, _) => NoFuel
  end.

(** ** Ids *)

Record LoginIds := mkLoginIds {
  id_set_compression : Z; id_login_success : Z; id_login_plugin : Z; id_login_plugin_sb : Z;
  id_login_ack : Z; id_cfg_ack : Z; id_login_disconnect : Z; id_encryption_request : Z }.

Definition login_ids (backend_protocol : Z) : LoginIds :=
  mkLoginIds (cb_login backend_protocol "ClientboundSetCompression")
    (cb_login backend_protocol "ClientboundLoginSuccess")
    (cb_login backend_protocol "ClientboundLoginPluginRequest")
    (sb_login backend_protocol "ServerboundLoginPluginResponse")
    (sb_login backend_protocol "ServerboundLoginAcknowledged")
    (sb_config backend_protocol "AcknowledgeFinishConfiguration")
    (cb_login backend_protocol "ClientboundLoginDisconnect")
    (cb_login backend_protocol "ClientboundEncryptionRequest").

Record ConfigIds := mkConfigIds {
  id_finish_cfg : Z; id_cb_custom : Z; id_sb_custom : Z; id_cb_ping : Z; id_cfg_ack_sb : Z;
  id_cb_known_packs : Z; id_sb_known_packs : Z }.

Definition config_ids (proto : Z) : ConfigIds :=
  mkConfigIds (cb_config proto "FinishConfiguration")
    (cb_config proto "ClientboundCustomPayload")
    (sb_config proto "ServerboundCustomPayload")
    (cb_config proto "ClientboundPing")
    (sb_config proto "AcknowledgeFinishConfiguration")
    (cb_config proto "ClientboundSelectKnownPacks")
    (sb_config proto "ServerboundSelectKnownPacks").

Section Backend.
Variable deflate : bytes -> bytes.
Variable inflate : bytes -> bytes * option ErrorKind.

Definition read_client (threshold : Z) : W bytes := on_client (read_packet inflate threshold).
Definition read_backend (threshold : Z) : W bytes := on_backend (read_packet inflate threshold).
Definition tell_client (raw : bytes) (threshold : Z) : W unit := emit_client (encode_packet deflate raw threshold).
Definition tell_backend (raw : bytes) (threshold : Z) : W unit := emit_backend (encode_packet deflate raw threshold).

(** ** The configuration phase *)

(** Reads and drops client packets until one has the id wanted. *)
Fixpoint await_client (fuel : nat) (wanted threshold : Z) : W unit :=
  match fuel with
  | O => nofuel
  | S fuel' =>
      let! raw := read_client threshold in
      let! p := lift (packet_id raw) in
      if p.1 =? wanted then ret tt else await_client fuel' wanted threshold
  end.

Definition transition_client_to_config (proto client_thresh : Z) : W unit :=
  let start_cfg_id := cb_play proto "ClientboundStartConfiguration" in
  let ack_id := sb_play proto "ServerboundConfigurationAcknowledged" in
  if (start_cfg_id =? 0xFF) || (ack_id =? 0xFF) then fail CE_Closed
  else
    let! pkt := lift (payload (VarInt_encode start_cfg_id)) in
    tell_client pkt client_thresh;;
    (fun w => await_client (S (length (client w))) ack_id client_thresh w);;
    modify (set_acked true).

Definition detected_kind (channel : bytes) (kind : ModloaderKind) : ModloaderKind :=
  match kind with
  | MK_Unknown =>
      if starts_with channel (lit "neoforge:") then MK_NeoForge
      else if starts_with channel (lit "fabric") || starts_with channel (lit "c:") then MK_Fabric
      else kind
  | _ => kind
  end.

(** The loop of the known-packs exchange: client packets go to the backend up to
    and including the response. *)
Fixpoint relay_known_packs (fuel : nat) (id_sb client_thresh backend_threshold : Z) : W unit :=
  match fuel with
  | O => nofuel
  | S fuel' =>
      let! resp := read_client client_thresh in
      let! p := lift (packet_id resp) in
      tell_backend resp backend_threshold;;
      if p.1 =? id_sb then ret tt else relay_known_packs fuel' id_sb client_thresh backend_threshold
  end.

(** [String::decode(&mut cursor).unwrap_or_default()]. *)
Definition channel_of (cursor : bytes) : bytes := match (decode_string cursor).1 with Ok channel => channel | _ => [] end.

(** One turn of the first loop: the packets kept for the client, or [None] after
    FinishConfiguration. *)
Definition config_packet (ids : ConfigIds) (client_thresh backend_threshold : Z) (buffered_for_client : list bytes) : W (option (list bytes)) :=
  let! raw_payload := read_backend backend_threshold in
  let! p := lift (packet_id raw_payload) in
  let pkt_id := p.1 in
  if pkt_id =? id_finish_cfg ids then ret None
  else if pkt_id =? id_cb_custom ids then
    let channel := channel_of p.2 in
    if is_neo_config_channel channel then
      (fun w => modify (set_ml_kind (detected_kind channel (ml_kind w))) w);;
      tell_client raw_payload client_thresh;;
      let! resp_raw := read_client client_thresh in
      let! _ := lift (packet_id resp_raw) in
      tell_backend resp_raw backend_threshold;;
      ret (Some buffered_for_client)
    else ret (Some (buffered_for_client ++ [raw_payload]))
  else if pkt_id =? id_cb_ping ids then
    tell_client raw_payload client_thresh;;
    let! pong_raw := read_client client_thresh in
    tell_backend pong_raw backend_threshold;;
    ret (Some buffered_for_client)
  else if negb (id_cb_known_packs ids =? 0xFF) && (pkt_id =? id_cb_known_packs ids) then
    tell_client raw_payload client_thresh;;
    (fun w => relay_known_packs (S (length (client w))) (id_sb_known_packs ids) client_thresh backend_threshold w);;
    ret (Some buffered_for_client)
  else ret (Some (buffered_for_client ++ [raw_payload])).

Fixpoint config_loop (fuel : nat) (ids : ConfigIds) (client_thresh backend_threshold : Z) (buffered : list bytes) : W (list bytes) :=
  match fuel with
  | O => nofuel
  | S fuel' =>
      let! next := config_packet ids client_thresh backend_threshold buffered in
      match next with
      | None => ret buffered
      | Some buffered' => config_loop fuel' ids client_thresh backend_threshold buffered'
      end
  end.

Fixpoint write_all_client (pkts : list bytes) (client_thresh : Z) : W unit :=
  match pkts with
  | [] => ret tt
  | pkt :: pkts' => tell_client pkt client_thresh;; write_all_client pkts' client_thresh
  end.

Definition relay_config_phase (proto client_thresh backend_threshold : Z) : W unit :=
  let ids := config_ids proto in
  let! buffered := (fun w => config_loop (S (length (backend w))) ids client_thresh backend_threshold [] w) in
  write_all_client buffered client_thresh;;
  let! p := lift (payload (VarInt_encode (id_finish_cfg ids);; Packets120.FinishConfiguration_encode tt)) in
  tell_client p client_thresh;;
  (fun w => await_client (S (length (client w))) (id_cfg_ack_sb ids) client_thresh w);;
  modify (set_complete true).

(** ** The login phase *)

Variable uuid_parse : bytes -> option bytes.
Variable hmac_sha256 : bytes -> bytes -> bytes.
Variable velocity_secret client_ip : bytes.

(** A packet answering [message_id], [vec.into()] being [Some(vec)]. *)
Definition plugin_response (id message_id : Z) (data : bytes) : Enc :=
  VarInt_encode id;; Packets120.LoginPluginResponse_encode (Packets120.mkLoginPluginResponse message_id (Some data)).

Definition respond (id message_id : Z) (data : bytes) (backend_threshold : Z) : W unit :=
  let! resp := lift (payload (plugin_response id message_id data)) in
  tell_backend resp backend_threshold.

Definition decode_plugin_request : Dec (Z * bytes * bytes) :=
  let! message_id := VarInt_decode in
  let! channel := decode_string in
  let! remaining := get_state in
  ret (message_id, channel, remaining).

Definition answer_plugin_request (ids : LoginIds) (profile : AuthenticatedProfile) (mode : ForwardingMode)
    (client_thresh backend_threshold : Z) (cursor : bytes) : W unit :=
  let! req := lift (on_cursor decode_plugin_request cursor) in
  let '(message_id, channel, remaining) := req in
  let sb := id_login_plugin_sb ids in
  if bool_decide (channel = lit "velocity:player_info") && bool_decide (mode = FM_Velocity) then
    if Buf.is_empty velocity_secret then respond sb message_id [] backend_threshold
    else respond sb message_id (velocity_header hmac_sha256 velocity_secret client_ip profile) backend_threshold
  else if is_fml3_login_channel channel then
    let! req_payload := lift (payload (VarInt_encode (id_login_plugin ids);; VarInt_encode message_id;; encode_string channel;; put_slice remaining)) in
    tell_client req_payload client_thresh;;
    let! client_raw := read_client client_thresh in
    let! p := lift (packet_id client_raw) in
    if p.1 =? sb then tell_backend client_raw backend_threshold
    else respond sb message_id [] backend_threshold
  else respond sb message_id [] backend_threshold.

(** One turn of the login loop: the threshold in force and whether LoginSuccess
    was read. *)
Definition login_packet (client_proto backend_protocol : Z) (profile : AuthenticatedProfile) (mode : ForwardingMode)
    (client_thresh backend_threshold : Z) : W (Z * bool) :=
  let ids := login_ids backend_protocol in
  let client_id_encryption_request := cb_login client_proto "ClientboundEncryptionRequest" in
  let! pkt_bytes := read_backend backend_threshold in
  let! p := lift (packet_id pkt_bytes) in
  let '(packet_id, cursor) := p in
  let shape_differs := negb (bool_decide (epoch (nearest backend_protocol) = epoch (nearest client_proto))) in
  let id_differs := negb (backend_protocol =? client_proto) && negb (id_encryption_request ids =? client_id_encryption_request) in
  if (packet_id =? id_encryption_request ids) && (shape_differs || id_differs) then
    let! req := lift (on_cursor (decode_encryption_request (epoch (nearest backend_protocol))) cursor) in
    let '(server_id, public_key, verify_token) := req in
    let! new_payload := lift (payload (VarInt_encode client_id_encryption_request;;
      encode_encryption_request (epoch (nearest client_proto)) server_id public_key verify_token)) in
    tell_client new_payload client_thresh;;
    ret (backend_threshold, false)
  else if packet_id =? id_set_compression ids then
    let! threshold := lift (on_cursor VarInt_decode cursor) in
    ret (threshold, false)
  else if packet_id =? id_login_success ids then
    let! _ := lift (on_cursor (skip_backend_login_success uuid_parse (canonical_typed_packet_version (nearest backend_protocol))) cursor) in
    ret (backend_threshold, true)
  else if packet_id =? id_login_plugin ids then
    answer_plugin_request ids profile mode client_thresh backend_threshold cursor;;
    ret (backend_threshold, false)
  else if packet_id =? id_login_disconnect ids then fail CE_Closed
  else ret (backend_threshold, false).

Fixpoint login_loop (fuel : nat) (client_proto backend_protocol : Z) (profile : AuthenticatedProfile) (mode : ForwardingMode)
    (client_thresh backend_threshold : Z) : W Z :=
  match fuel with
  | O => nofuel
  | S fuel' =>
      let! next := login_packet client_proto backend_protocol profile mode client_thresh backend_threshold in
      let '(backend_threshold', finished) := next in
      if finished : bool then ret backend_threshold'
      else login_loop fuel' client_proto backend_protocol profile mode client_thresh backend_threshold'
  end.

Definition complete_backend_login (client_proto backend_protocol : Z) (profile : AuthenticatedProfile) (mode : ForwardingMode)
    (client_in_play : bool) (client_thresh : Z) : W Z :=
  let ids := login_ids backend_protocol in
  let! backend_threshold := (fun w =>
    login_loop (S (length (backend w))) client_proto backend_protocol profile mode client_thresh NO_COMPRESSION w) in
  (if has_configuration_phase (nearest client_proto) && has_configuration_phase (nearest backend_protocol) then
     (if client_in_play then ret tt
      else
        let! actual := read_client client_thresh in
        let! _ := lift (packet_id actual) in
        modify (set_acked true));;
     let! ack := lift (payload (VarInt_encode (id_login_ack ids);; Packets120.LoginAcknowledged_encode tt)) in
     tell_backend ack backend_threshold;;
     (if client_in_play then transition_client_to_config client_proto client_thresh else ret tt);;
     relay_config_phase client_proto client_thresh backend_threshold;;
     let! cfg_ack_buf := lift (payload (VarInt_encode (id_cfg_ack ids);; Packets120.AcknowledgeFinishConfiguration_encode tt)) in
     tell_backend cfg_ack_buf backend_threshold
   else ret tt);;
  ret backend_threshold.

(** ** The world of a live switch *)

Definition LIMBO_DIMENSION : Z := 0.

Definition send_switch_respawn (proto client_thresh dimension game_mode : Z) : W unit :=
  match build_legacy_respawn proto dimension game_mode with
  | Some pkt => fun w =>
      let '(o, bs) := write_typed_packet deflate (ep_id pkt) (ep_body pkt) proto client_thresh [] in
      match o with Ok _ => emit_client bs w | Err e => (Err e, w) | Panic => (Panic, w) | NoFuel => (NoFuel, w) end
  | None => ret tt
  end.

(** Entity id, game mode and dimension, behind a length check of nine. *)
Definition legacy_join_fields (cursor : bytes) : option (Z * Z) :=
  if 9 <=? remaining cursor then
    match (get_i32 (E := ProtocolError);; let! game_mode := get_u8 in let! dimension := get_i32 in ret (dimension, game_mode)) cursor with
    | (Ok r, _) => Some r
    | _ => None
    end
  else None.

Definition apply_switch_world_reset (proto client_thresh backend_threshold : Z) : W unit :=
  let! join := read_backend backend_threshold in
  let join_game_id := cb_play proto "ClientboundJoinGame" in
  let '(decoded, cur) := VarInt_decode join in
  let pkt_id := match decoded with Ok v => wrapu 8 v | _ => 0xFF end in
  match (if pkt_id =? join_game_id then legacy_join_fields cur else None) with
  | Some (target_dim, game_mode) =>
      (if target_dim =? LIMBO_DIMENSION then
         send_switch_respawn proto client_thresh (if 0 <=? target_dim then -1 else 0) game_mode
       else ret tt);;
      send_switch_respawn proto client_thresh target_dim game_mode
  | None => tell_client join client_thresh
  end.
End Backend.

(** ** Lemmas *)

Lemma writes_varint_bytes v : writes (VarInt_encode v) (varint_bytes v).
Proof.
  assert (Hw : writes (VarInt_encode v) (groups 5 (wrapu 32 v))).
  { apply writes_groups; [lia|]. pose proof (wrapu_fits 32 v ltac:(lia)) as [? ?]. change (128 ^ Z.of_nat 5) with 34359738368. lia. }
  intros dst. rewrite (Hw dst). unfold varint_bytes. by rewrite (Hw []).
Qed.
Lemma payload_writes m bs : writes m bs -> payload m = Ok bs.
Proof. unfold payload. intros H. by rewrite (H []). Qed.
Lemma payload_id v : payload (VarInt_encode v) = Ok (varint_bytes v).
Proof. apply payload_writes, writes_varint_bytes. Qed.
Lemma payload_empty v : payload (VarInt_encode v;; ret tt) = Ok (varint_bytes v).
Proof. apply payload_writes. intros dst. unfold bind. by rewrite writes_varint_bytes. Qed.

Lemma packet_id_cases raw : (exists i cur, packet_id raw = Ok (i, cur)) \/ exists e, packet_id raw = Err (CE_Protocol e).
Proof.
  unfold packet_id. pose proof (VarInt_decode_cases raw) as H.
  destruct (VarInt_decode raw) as [[v|e| |] cur]; eauto; done.
Qed.
Lemma returned_packet_id raw : returned (packet_id raw).
Proof. destruct (packet_id_cases raw) as [(? & ? & ->)|[? ->]]; done. Qed.

(** The id of a packet, as the proxy reads it. *)
Definition id_of (p : bytes) : option Z := match packet_id p with Ok (i, _) => Some i | _ => None end.
Lemma id_of_Some p i : id_of p = Some i -> exists cur, packet_id p = Ok (i, cur).
Proof. unfold id_of. destruct (packet_id p) as [[j cur]| | |]; try done. intros [= ->]. eauto. Qed.

Section Streams.
Variable deflate : bytes -> bytes.
Variable inflate : bytes -> bytes * option ErrorKind.

(** A stream that says these packets and leaves the rest. *)
Inductive hears (threshold : Z) : bytes -> list bytes -> bytes -> Prop :=
  | hears_nil s : hears threshold s [] s
  | hears_cons s p s1 ps s2 :
      read_packet inflate threshold s = (Ok p, s1) -> hears threshold s1 ps s2 -> hears threshold s (p :: ps) s2.

Lemma hears_app thr s ps qs s2 : hears thr s (ps ++ qs) s2 <-> exists s1, hears thr s ps s1 /\ hears thr s1 qs s2.
Proof.
  revert s. induction ps as [|p ps IH]; intros s; cbn [app].
  - split; [intros H; exists s; split; [constructor|done]|intros (s1 & H & ?); by inversion H; subst].
  - split.
    + intros H. inversion H as [|? ? s3 ? ? Hr Hh]; subst. apply IH in Hh as (s1 & H1 & H2). exists s1. split; [by econstructor|done].
    + intros (s1 & H & H2). inversion H as [|? ? s3 ? ? Hr Hh]; subst. econstructor; [done|]. apply IH. eauto.
Qed.
Lemma hears_length thr s ps s1 : hears thr s ps s1 -> (length ps + length s1 <= length s)%nat.
Proof. induction 1 as [|s p s1 ps s2 Hr Hh IH]; [done|]. apply read_packet_shrinks in Hr. cbn. lia. Qed.
Lemma hears_one thr s p s1 : hears thr s [p] s1 -> read_packet inflate thr s = (Ok p, s1).
Proof. intros H. inversion H as [|? ? ? ? ? Hr Hh]; subst. by inversion Hh; subst. Qed.

(** Encoded packets are heard. *)
Lemma hears_encoded thr ps rest :
  Forall (fun p => reads (read_packet inflate thr) (encode_packet deflate p thr) p) ps ->
  hears thr (concat (map (fun p => encode_packet deflate p thr) ps) ++ rest) ps rest.
Proof.
  induction 1 as [|p ps Hp _ IH]; cbn [map concat]; [constructor|]. rewrite <- app_assoc. econstructor; [apply Hp|done].
Qed.

(** Both sockets taking every write. *)
Definition st c tc b tb k a h : Wires := mkWires c (mkTx tc None) b (mkTx tb None) k a h.
Lemma st_eta w : tx_room (to_client w) = None -> tx_room (to_backend w) = None ->
  w = st (client w) (tx_sent (to_client w)) (backend w) (tx_sent (to_backend w)) (ml_kind w) (client_login_acked w) (handshake_complete w).
Proof. destruct w as [? [? ?] ? [? ?] ? ? ?]. cbn. by intros -> ->. Qed.

Lemma read_client_st thr c p c' tc b tb k a h : read_packet inflate thr c = (Ok p, c') ->
  read_client inflate thr (st c tc b tb k a h) = (Ok p, st c' tc b tb k a h).
Proof. intros H. unfold read_client, on_client. cbn. by rewrite H. Qed.
Lemma read_backend_st thr b p b' c tc tb k a h : read_packet inflate thr b = (Ok p, b') ->
  read_backend inflate thr (st c tc b tb k a h) = (Ok p, st c tc b' tb k a h).
Proof. intros H. unfold read_backend, on_backend. cbn. by rewrite H. Qed.
Lemma tell_client_st raw thr c tc b tb k a h :
  tell_client deflate raw thr (st c tc b tb k a h) = (Ok tt, st c (tc ++ [encode_packet deflate raw thr]) b tb k a h).
Proof. done. Qed.
Lemma tell_backend_st raw thr c tc b tb k a h :
  tell_backend deflate raw thr (st c tc b tb k a h) = (Ok tt, st c tc b (tb ++ [encode_packet deflate raw thr]) k a h).
Proof. done. Qed.

Definition not_id (wanted : Z) (p : bytes) : Prop := exists i, id_of p = Some i /\ i <> wanted.

Lemma await_client_st thr wanted ign ack c c' fuel tc b tb k a h :
  hears thr c (ign ++ [ack]) c' -> Forall (not_id wanted) ign -> id_of ack = Some wanted -> (length ign < fuel)%nat ->
  await_client inflate fuel wanted thr (st c tc b tb k a h) = (Ok tt, st c' tc b tb k a h).
Proof.
  intros Hh Hign Hack. revert c fuel Hh. induction Hign as [|p ign (i & Hi & Hne) _ IH]; intros c [|fuel] Hh Hf; cbn in Hf; try lia.
  - apply hears_one in Hh. apply id_of_Some in Hack as [cur Hack]. cbn [await_client].
    erewrite bind_ok by (by apply read_client_st). unfold bind, lift. rewrite Hack. cbn. by rewrite Z.eqb_refl.
  - cbn [app] in Hh. inversion Hh as [|? ? s3 ? ? Hr Hh']; subst. apply id_of_Some in Hi as [cur Hi]. cbn [await_client].
    erewrite bind_ok by (by apply read_client_st). unfold bind at 1, lift. rewrite Hi. cbn [fst].
    rewrite (proj2 (Z.eqb_neq i wanted) Hne). apply IH; [done|lia].
Qed.
Lemma write_all_client_st pkts thr c tc b tb k a h :
  write_all_client deflate pkts thr (st c tc b tb k a h) =
  (Ok tt, st c (tc ++ map (fun p => encode_packet deflate p thr) pkts) b tb k a h).
Proof.
  revert tc. induction pkts as [|p pkts IH]; intros tc; cbn [write_all_client map]; [by rewrite app_nil_r|].
  erewrite bind_ok by apply tell_client_st. rewrite IH. by rewrite <- app_assoc.
Qed.
Lemma relay_known_packs_st id_sb ct bt pre last c c' fuel tc b tb k a h :
  hears ct c (pre ++ [last]) c' -> Forall (not_id id_sb) pre -> id_of last = Some id_sb -> (length pre < fuel)%nat ->
  relay_known_packs deflate inflate fuel id_sb ct bt (st c tc b tb k a h) =
  (Ok tt, st c' tc b (tb ++ map (fun p => encode_packet deflate p bt) (pre ++ [last])) k a h).
Proof.
  intros Hh Hpre Hlast. revert c fuel tb Hh. induction Hpre as [|p pre (i & Hi & Hne) _ IH]; intros c [|fuel] tb Hh Hf; cbn in Hf; try lia.
  - apply hears_one in Hh. apply id_of_Some in Hlast as [cur Hlast]. cbn [relay_known_packs].
    erewrite bind_ok by (by apply read_client_st). unfold bind at 1, lift. rewrite Hlast. cbn [fst].
    erewrite bind_ok by apply tell_backend_st. by rewrite Z.eqb_refl.
  - cbn [app] in Hh. inversion Hh as [|? ? s3 ? ? Hr Hh']; subst. apply id_of_Some in Hi as [cur Hi]. cbn [relay_known_packs].
    erewrite bind_ok by (by apply read_client_st). unfold bind at 1, lift. rewrite Hi. cbn [fst].
    erewrite bind_ok by apply tell_backend_st. rewrite (proj2 (Z.eqb_neq i id_sb) Hne).
    rewrite (IH _ _ _ Hh') by lia. cbn [map app]. by rewrite <- app_assoc.
Qed.
End Streams.

(** ** Specification of the configuration phase *)

(** What a backend packet asks of the client: nothing (it is held back until the
    end), one packet in answer, or all packets up to the known-packs response. *)
Inductive Turn := Held | OneReply | KnownPacks.

Definition turn_of (ids : ConfigIds) (p : bytes) : Turn :=
  match packet_id p with
  | Ok (i, cur) =>
      if i =? id_cb_custom ids then if is_neo_config_channel (channel_of cur) then OneReply else Held
      else if i =? id_cb_ping ids then OneReply
      else if negb (id_cb_known_packs ids =? 0xFF) && (i =? id_cb_known_packs ids) then KnownPacks
      else Held
  | _ => Held
  end.
Definition is_held (ids : ConfigIds) (p : bytes) : bool := match turn_of ids p with Held => true | _ => false end.
Definition is_asked (ids : ConfigIds) (p : bytes) : bool := negb (is_held ids p).

(** What the client says while the backend says [bs]. *)
Inductive exchanges (ids : ConfigIds) : list bytes -> list bytes -> Prop :=
  | exchange_done : exchanges ids [] []
  | exchange_held p bs cs : turn_of ids p = Held -> exchanges ids bs cs -> exchanges ids (p :: bs) cs
  | exchange_reply p bs c cs : turn_of ids p = OneReply -> id_of c <> None -> exchanges ids bs cs -> exchanges ids (p :: bs) (c :: cs)
  | exchange_packs p bs pre last cs :
      turn_of ids p = KnownPacks -> Forall (not_id (id_sb_known_packs ids)) pre -> id_of last = Some (id_sb_known_packs ids) ->
      exchanges ids bs cs -> exchanges ids (p :: bs) ((pre ++ [last]) ++ cs).

(** The mod loader found on the way. *)
Definition kind_step (ids : ConfigIds) (k : ModloaderKind) (p : bytes) : ModloaderKind :=
  match packet_id p with
  | Ok (i, cur) => if (i =? id_cb_custom ids) && is_neo_config_channel (channel_of cur) then detected_kind (channel_of cur) k else k
  | _ => k
  end.

Section ConfigPhase.
Variable deflate : bytes -> bytes.
Variable inflate : bytes -> bytes * option ErrorKind.
Variable ids : ConfigIds.
Variable ct bt : Z.
Local Abbreviation encC := (fun p => encode_packet deflate p ct).
Local Abbreviation encB := (fun p => encode_packet deflate p bt).

Lemma is_asked_turn p t : turn_of ids p = t -> is_asked ids p = match t with Held => false | _ => true end.
Proof. unfold is_asked, is_held. intros ->. by destruct t. Qed.
Lemma is_held_turn p t : turn_of ids p = t -> is_held ids p = match t with Held => true | _ => false end.
Proof. unfold is_held. intros ->. by destruct t. Qed.

(** One packet that is not FinishConfiguration, with what the client says to it. *)
Lemma config_packet_st p bs cs0 b b' c c' buf tc tb k a h :
  not_id (id_finish_cfg ids) p -> read_packet inflate bt b = (Ok p, b') ->
  exchanges ids (p :: bs) cs0 -> (exists cs', hears inflate ct c cs0 cs' /\ cs' = c') ->
  exists cs1 cs2 c1, cs0 = cs1 ++ cs2 /\ exchanges ids bs cs2 /\ hears inflate ct c1 cs2 c' /\
    config_packet deflate inflate ids ct bt buf (st c tc b tb k a h) =
    (Ok (Some (if is_held ids p then buf ++ [p] else buf)),
     st c1 (if is_held ids p then tc else tc ++ [encC p]) b' (tb ++ map encB cs1) (kind_step ids k p) a h).
Proof.
  intros (i & Hi & Hne) Hr Hex (c'' & Hh & ->). apply id_of_Some in Hi as [cur Hi].
  unfold config_packet. unfold kind_step. rewrite Hi.
  setoid_rewrite (bind_ok _ _ _ _ _ (read_backend_st _ _ _ _ _ c tc tb k a h Hr)).
  unfold bind at 1, lift. rewrite Hi. cbn [fst snd]. rewrite (proj2 (Z.eqb_neq i _) Hne).
  assert (Ht : turn_of ids p = if i =? id_cb_custom ids then if is_neo_config_channel (channel_of cur) then OneReply else Held
      else if i =? id_cb_ping ids then OneReply
      else if negb (id_cb_known_packs ids =? 0xFF) && (i =? id_cb_known_packs ids) then KnownPacks else Held)
    by (unfold turn_of; by rewrite Hi).
  inversion Hex as [|? ? ? Hturn Hex'|? ? r cs Hturn Hid Hex'|? ? pre last cs Hturn Hpre Hlast Hex']; subst; rewrite (is_held_turn _ _ Hturn); rewrite Ht in Hturn.
  - exists [], cs0, c. split_and!; [done|done|done|]. rewrite app_nil_r.
    destruct (i =? id_cb_custom ids); [destruct (is_neo_config_channel _); [done|by rewrite andb_false_r]|].
    destruct (i =? id_cb_ping ids); [done|]. by destruct (_ && _).
  - inversion Hh as [|? ? c1 ? ? Hrc Hh']; subst. exists [r], cs, c1. split_and!; [done|done|done|].
    destruct (id_of r) as [j|] eqn:Hj; [|done]. apply id_of_Some in Hj as [curj Hj].
    destruct (i =? id_cb_custom ids) eqn:Hcust.
    + destruct (is_neo_config_channel _); [|done]. cbn [andb].
      rewrite (bind_ok (fun w => modify (set_ml_kind (detected_kind (channel_of cur) (ml_kind w))) w) _ (st c tc b' tb k a h) tt
        (st c tc b' tb (detected_kind (channel_of cur) k) a h) eq_refl).
      setoid_rewrite (bind_ok _ _ _ _ _ (tell_client_st deflate p ct c tc b' tb (detected_kind (channel_of cur) k) a h)).
      setoid_rewrite (bind_ok _ _ _ _ _ (read_client_st inflate ct _ _ _ _ _ _ _ _ _ Hrc)).
      unfold bind at 1, lift. by rewrite Hj.
    + destruct (i =? id_cb_ping ids); [|by destruct (_ && _)]. cbn [andb].
      setoid_rewrite (bind_ok _ _ _ _ _ (tell_client_st deflate p ct c tc b' tb k a h)).
      by setoid_rewrite (bind_ok _ _ _ _ _ (read_client_st inflate ct _ _ _ _ _ _ _ _ _ Hrc)).
  - apply hears_app in Hh as (c1 & Hh1 & Hh2). exists (pre ++ [last]), cs, c1. split_and!; [done|done|done|].
    destruct (i =? id_cb_custom ids); [by destruct (is_neo_config_channel _)|]. cbn [andb].
    destruct (i =? id_cb_ping ids); [done|]. destruct (_ && _); [|done].
    setoid_rewrite (bind_ok _ _ _ _ _ (tell_client_st deflate p ct c tc b' tb k a h)).
    assert (Hk : relay_known_packs deflate inflate (S (length c)) (id_sb_known_packs ids) ct bt (st c (tc ++ [encC p]) b' tb k a h) =
      (Ok tt, st c1 (tc ++ [encC p]) b' (tb ++ map encB (pre ++ [last])) k a h)).
    { apply relay_known_packs_st; try done. apply hears_length in Hh1. rewrite length_app in Hh1. cbn in Hh1. lia. }
    unfold bind. cbn [client st]. by rewrite Hk.
Qed.

Lemma config_loop_st bs : forall fin cs b b' c c' buf fuel tc tb k a h,
  Forall (not_id (id_finish_cfg ids)) bs -> id_of fin = Some (id_finish_cfg ids) ->
  hears inflate bt b (bs ++ [fin]) b' -> exchanges ids bs cs -> hears inflate ct c cs c' -> (length bs < fuel)%nat ->
  config_loop deflate inflate fuel ids ct bt buf (st c tc b tb k a h) =
  (Ok (buf ++ List.filter (is_held ids) bs),
   st c' (tc ++ map encC (List.filter (is_asked ids) bs)) b' (tb ++ map encB cs) (fold_left (kind_step ids) bs k) a h).
Proof.
  induction bs as [|p bs IH]; intros fin cs b b' c c' buf [|fuel] tc tb k a h Hbs Hfin Hb Hex Hc Hf; cbn in Hf; try lia.
  - apply hears_one in Hb. inversion Hex; subst. inversion Hc; subst. cbn [config_loop List.filter map fold_left]. rewrite !app_nil_r.
    apply id_of_Some in Hfin as [cur Hfin]. unfold config_packet, bind at 1 2.
    rewrite (read_backend_st _ _ _ _ _ _ _ _ _ _ _ Hb). unfold bind at 1, lift. rewrite Hfin. cbn [fst]. by rewrite Z.eqb_refl.
  - apply Forall_cons in Hbs as [Hp Hbs]. cbn [app] in Hb. inversion Hb as [|? ? b1 ? ? Hr Hb']; subst.
    destruct (config_packet_st p bs cs b b1 c c' buf tc tb k a h Hp Hr Hex ltac:(eauto)) as (cs1 & cs2 & c1 & -> & Hex2 & Hc2 & Hstep).
    cbn [config_loop]. rewrite (bind_ok _ _ _ _ _ Hstep).
    rewrite (IH fin cs2 b1 b' c1 c' _ fuel _ _ _ a h Hbs Hfin Hb' Hex2 Hc2 ltac:(lia)). cbn [List.filter fold_left].
    rewrite map_app, app_assoc. unfold is_asked. destruct (is_held ids p); cbn [negb map]; by rewrite <- ?app_assoc.
Qed.
End ConfigPhase.

(** C14: the configuration phase loses nothing and invents nothing.  When the
    backend says [bs] and then FinishConfiguration, and the client answers what it
    is asked ([cs]), says some more ([ign]) and then acknowledges, the phase
    returns; the client has been sent every packet of the backend once, first
    those it had to answer and then those held back, each in their order, and then
    FinishConfiguration; the backend has been sent exactly the answers, verbatim
    and in order; and both streams stand right behind what was read. *)
Theorem config_phase_relayed (deflate : bytes -> bytes) (inflate : bytes -> bytes * option ErrorKind) (proto ct bt : Z) (w : Wires)
    (bs cs ign : list bytes) (fin ack b' c' : bytes) :
  let ids := config_ids proto in
  tx_room (to_client w) = None -> tx_room (to_backend w) = None ->
  hears inflate bt (backend w) (bs ++ [fin]) b' -> hears inflate ct (client w) (cs ++ ign ++ [ack]) c' ->
  Forall (not_id (id_finish_cfg ids)) bs -> id_of fin = Some (id_finish_cfg ids) -> exchanges ids bs cs ->
  Forall (not_id (id_cfg_ack_sb ids)) ign -> id_of ack = Some (id_cfg_ack_sb ids) ->
  relay_config_phase deflate inflate proto ct bt w =
  (Ok tt,
   mkWires c'
     (mkTx (tx_sent (to_client w) ++ map (fun p => encode_packet deflate p ct)
        (List.filter (is_asked ids) bs ++ List.filter (is_held ids) bs ++ [varint_bytes (id_finish_cfg ids)])) None)
     b' (mkTx (tx_sent (to_backend w) ++ map (fun p => encode_packet deflate p bt) cs) None)
     (fold_left (kind_step ids) bs (ml_kind w)) (client_login_acked w) true).
Proof.
  intros ids Hc Hb Hhb Hhc Hbs Hfin Hex Hign Hack. rewrite (st_eta w Hc Hb) at 1.
  destruct w as [c0 [tc0 rc] b0 [tb0 rb] k a h]. cbn [client to_client backend to_backend ml_kind client_login_acked handshake_complete tx_sent tx_room] in *.
  apply hears_app in Hhc as (c1 & Hh1 & Hh2).
  assert (Hlb := hears_length _ _ _ _ _ Hhb). assert (Hl2 := hears_length _ _ _ _ _ Hh2). rewrite length_app in Hlb, Hl2. cbn [length] in Hlb, Hl2.
  unfold relay_config_phase. fold ids. unfold bind at 1. cbn [backend st].
  rewrite (config_loop_st deflate inflate ids ct bt bs fin cs b0 b' c0 c1 [] (S (length b0)) tc0 tb0 k a h Hbs Hfin Hhb Hex Hh1 ltac:(lia)).
  rewrite (bind_ok _ _ _ _ _ (write_all_client_st _ _ _ _ _ _ _ _ _ _)).
  unfold bind at 1, lift. change (payload _) with (payload (VarInt_encode (id_finish_cfg ids);; ret tt)) at 1. rewrite payload_empty.
  rewrite (bind_ok _ _ _ _ _ (tell_client_st _ _ _ _ _ _ _ _ _ _)).
  assert (Haw := await_client_st inflate ct (id_cfg_ack_sb ids) ign ack c1 c' (S (length c1))).
  unfold bind at 1. cbn [client st]. rewrite Haw by (try done; lia).
  unfold modify, set_complete, st. cbn. do 3 f_equal. rewrite !map_app, <- !app_assoc. done.
Qed.
Definition cfg_w : Wires :=
  mkWires (concat (map encode_frame [[x06; x01]; [x00; x65]; [x07; x00]; [x00; x66]; [x03]]) ++ [x55]) (mkTx [] None)
    (concat (map encode_frame [[x07; x0a]; [x05; x00; x00; x00; x01]; [x0e; x00]; [x0d; x00]; [x03]])) (mkTx [] None) MK_Unknown false false.
Lemma config_phase_relayed_witness :
  relay_config_phase stored unstored 766 NO_COMPRESSION NO_COMPRESSION cfg_w =
  (Ok tt,
   mkWires [x55] (mkTx (map encode_frame [[x05; x00; x00; x00; x01]; [x0e; x00]; [x07; x0a]; [x0d; x00]; [x03]]) None)
     [] (mkTx (map encode_frame [[x06; x01]; [x00; x65]; [x07; x00]]) None) MK_Unknown false true).
Proof.
  rewrite (config_phase_relayed stored unstored 766 NO_COMPRESSION NO_COMPRESSION cfg_w
    [[x07; x0a]; [x05; x00; x00; x00; x01]; [x0e; x00]; [x0d; x00]] [[x06; x01]; [x00; x65]; [x07; x00]] [[x00; x66]] [x03] [x03] [] [x55]).
  - vm_compute. reflexivity.
  - reflexivity.
  - reflexivity.
  - repeat (eapply hears_cons; [vm_compute; reflexivity|]). apply hears_nil.
  - repeat (eapply hears_cons; [vm_compute; reflexivity|]). apply hears_nil.
  - repeat (apply List.Forall_cons; [eexists; split; [vm_compute; reflexivity|vm_compute; discriminate]|]). apply List.Forall_nil.
  - vm_compute. reflexivity.
  - apply exchange_held; [vm_compute; reflexivity|]. apply exchange_reply; [vm_compute; reflexivity|vm_compute; discriminate|].
    apply (exchange_packs _ _ _ [[x00; x65]] [x07; x00] []); [vm_compute; reflexivity| |vm_compute; reflexivity|].
    + apply List.Forall_cons; [eexists; split; [vm_compute; reflexivity|vm_compute; discriminate]|]. apply List.Forall_nil.
    + apply exchange_held; [vm_compute; reflexivity|]. apply exchange_done.
  - repeat (apply List.Forall_cons; [eexists; split; [vm_compute; reflexivity|vm_compute; discriminate]|]). apply List.Forall_nil.
  - vm_compute. reflexivity.
Defined.

(** ** Termination *)

(** [m] neither runs out of fuel nor, when [strict], panics. *)
Definition settled {E A} (strict : bool) (o : outcome E A) : Prop :=
  match o with NoFuel => False | Panic => strict = false | Ok _ | Err _ => True end.
Definition settles {S E A} (strict : bool) (m : M S E A) : Prop := forall w, settled strict (m w).1.
Definition keeps_backend {A} (m : W A) : Prop := forall w, backend (m w).2 = backend w.

Lemma returned_settled {E A} strict (o : outcome E A) : returned o -> settled strict o.
Proof. by destruct o. Qed.
Lemma settles_bind {S E A B} strict (m : M S E A) (k : A -> M S E B) : settles strict m -> (forall a, settles strict (k a)) -> settles strict (bind m k).
Proof. intros Hm Hk w. unfold bind. specialize (Hm w). destruct (m w) as [[a|e| |] w']; [apply Hk|done|done|done]. Qed.
Lemma settles_if {S E A} strict (b : bool) (m1 m2 : M S E A) : settles strict m1 -> settles strict m2 -> settles strict (if b then m1 else m2).
Proof. by destruct b. Qed.
Lemma settles_lift {A} strict (o : outcome ConnectionError A) : settled strict o -> settles strict (lift o).
Proof. by intros H w. Qed.
Lemma settles_packet_id strict raw : settles strict (lift (packet_id raw)).
Proof. apply settles_lift, returned_settled, returned_packet_id. Qed.
Lemma settles_emit strict bs : settles strict (emit_client bs) /\ settles strict (emit_backend bs).
Proof. split; intros w; by destruct w as [? [? [[|?]|]] ? [? [[|?]|]] ? ? ?]. Qed.
Lemma settles_write strict deflate raw thr : settles strict (tell_client deflate raw thr) /\ settles strict (tell_backend deflate raw thr).
Proof. split; apply settles_emit. Qed.
Lemma settles_read strict inflate thr : settles strict (read_client inflate thr) /\ settles strict (read_backend inflate thr).
Proof.
  split; intros w; unfold read_client, read_backend, on_client, on_backend;
    [pose proof (total_read_packet inflate thr (client w)) as H|pose proof (total_read_packet inflate thr (backend w)) as H];
    destruct (read_packet _ _ _); by apply returned_settled.
Qed.
Lemma settles_payload strict m bs : writes m bs -> settles strict (lift (payload m)).
Proof. intros H. apply settles_lift. by rewrite (payload_writes _ _ H). Qed.
Lemma settles_decode {A} strict (m : Dec A) cur : total m -> settles strict (lift (on_cursor m cur)).
Proof. intros H. apply settles_lift. unfold on_cursor. specialize (H cur). by destruct (m cur).1. Qed.

Lemma keeps_backend_bind {A B} (m : W A) (k : A -> W B) : keeps_backend m -> (forall a, keeps_backend (k a)) -> keeps_backend (bind m k).
Proof. intros Hm Hk w. unfold bind. specialize (Hm w). destruct (m w) as [[a|e| |] w']; cbn in *; rewrite ?Hk; done. Qed.
Lemma keeps_if {A} (b : bool) (m1 m2 : W A) : keeps_backend m1 -> keeps_backend m2 -> keeps_backend (if b then m1 else m2).
Proof. by destruct b. Qed.
Lemma keeps_emit bs : keeps_backend (emit_client bs) /\ keeps_backend (emit_backend bs).
Proof. split; intros w; by destruct w as [? [? [[|?]|]] ? [? [[|?]|]] ? ? ?]. Qed.
Lemma keeps_write deflate raw thr : keeps_backend (tell_client deflate raw thr) /\ keeps_backend (tell_backend deflate raw thr).
Proof. split; apply keeps_emit. Qed.
Lemma keeps_read inflate thr : keeps_backend (read_client inflate thr).
Proof. intros w. unfold read_client, on_client. by destruct (read_packet _ _ _). Qed.
Lemma keeps_lift {A} (o : outcome ConnectionError A) : keeps_backend (lift o).
Proof. done. Qed.

Ltac wires := repeat first
  [ match goal with |- forall _, _ => intros ? end
  | apply settles_bind | apply keeps_backend_bind
  | apply settles_packet_id | apply keeps_lift | apply keeps_read
  | apply settles_write | apply keeps_write | apply settles_read
  | apply settles_if | apply keeps_if | done ].

Section Termination.
Variable deflate : bytes -> bytes.
Variable inflate : bytes -> bytes * option ErrorKind.

Lemma read_client_shrinks thr w p w' : read_client inflate thr w = (Ok p, w') -> (length (client w') < length (client w))%nat.
Proof.
  unfold read_client, on_client. destruct (read_packet inflate thr (client w)) as [o rest] eqn:E. intros [= -> <-].
  by apply read_packet_shrinks in E.
Qed.
Lemma read_backend_shrinks thr w p w' : read_backend inflate thr w = (Ok p, w') -> (length (backend w') < length (backend w))%nat.
Proof.
  unfold read_backend, on_backend. destruct (read_packet inflate thr (backend w)) as [o rest] eqn:E. intros [= -> <-].
  by apply read_packet_shrinks in E.
Qed.
Lemma write_backend_client raw thr w : client (tell_backend deflate raw thr w).2 = client w.
Proof. by destruct w as [? [? [[|?]|]] ? [? [[|?]|]] ? ? ?]. Qed.

Lemma settles_await strict fuel wanted thr w : (length (client w) < fuel)%nat -> settled strict (await_client inflate fuel wanted thr w).1.
Proof.
  revert w. induction fuel as [|fuel IH]; intros w Hl; [lia|]. cbn [await_client]. unfold bind at 1.
  pose proof (proj1 (settles_read strict inflate thr) w) as Hs. destruct (read_client inflate thr w) as [[p|e| |] w'] eqn:E; try done.
  apply read_client_shrinks in E. unfold bind, lift. destruct (packet_id_cases p) as [(i & cur & ->)|[e ->]]; [|done]. cbn [fst].
  destruct (_ =? _); [done|]. apply IH. lia.
Qed.
Lemma settles_known_packs strict fuel id_sb ct bt w : (length (client w) < fuel)%nat ->
  settled strict (relay_known_packs deflate inflate fuel id_sb ct bt w).1.
Proof.
  revert w. induction fuel as [|fuel IH]; intros w Hl; [lia|]. cbn [relay_known_packs]. unfold bind at 1.
  pose proof (proj1 (settles_read strict inflate ct) w) as Hs. destruct (read_client inflate ct w) as [[p|e| |] w'] eqn:E; try done.
  apply read_client_shrinks in E. unfold bind at 1, lift. destruct (packet_id_cases p) as [(i & cur & ->)|[e ->]]; [|done]. unfold bind. cbn [fst].
  pose proof (proj2 (settles_write strict deflate p bt) w') as Hw. pose proof (write_backend_client p bt w') as Hc.
  destruct (tell_backend deflate p bt w') as [[[]|e| |] w2]; try done. cbn in Hc. destruct (_ =? _); [done|]. apply IH. rewrite Hc. lia.
Qed.
Lemma keeps_known_packs fuel id_sb ct bt : keeps_backend (relay_known_packs deflate inflate fuel id_sb ct bt).
Proof. induction fuel as [|fuel IH]; [done|]. cbn [relay_known_packs]. wires. Qed.

Lemma config_packet_settles strict ids ct bt buf : settles strict (config_packet deflate inflate ids ct bt buf).
Proof.
  unfold config_packet. wires.
  intros w. apply settles_known_packs. lia.
Qed.
Lemma config_packet_shrinks ids ct bt buf w buf' w' :
  config_packet deflate inflate ids ct bt buf w = (Ok buf', w') -> (length (backend w') < length (backend w))%nat.
Proof.
  unfold config_packet. intros H. apply bind_inv_ok in H as (raw & w1 & Hr & H). apply read_backend_shrinks in Hr.
  set (k := fun raw => _) in H || idtac.
  match type of H with ?m w1 = _ => assert (Hk : keeps_backend m) end.
  { wires. - intros w0. apply keeps_known_packs. }
  specialize (Hk w1). rewrite H in Hk. cbn in Hk. congruence || (rewrite Hk; lia).
Qed.
Lemma config_loop_settles strict fuel ids ct bt : forall buf w, (length (backend w) < fuel)%nat ->
  settled strict (config_loop deflate inflate fuel ids ct bt buf w).1.
Proof.
  induction fuel as [|fuel IH]; intros buf w Hl; [lia|]. cbn [config_loop]. unfold bind.
  pose proof (config_packet_settles strict ids ct bt buf w) as Hs.
  destruct (config_packet deflate inflate ids ct bt buf w) as [[[buf'|]|e| |] w'] eqn:E; try done.
  apply config_packet_shrinks in E. apply IH. lia.
Qed.
Lemma write_all_settles strict pkts ct : settles strict (write_all_client deflate pkts ct).
Proof. induction pkts as [|p pkts IH]; cbn [write_all_client]; wires. Qed.

Lemma writes_id_only v : writes (VarInt_encode v;; ret tt) (varint_bytes v).
Proof. intros dst. unfold bind. by rewrite writes_varint_bytes. Qed.

Lemma relay_config_settles strict proto ct bt : settles strict (relay_config_phase deflate inflate proto ct bt).
Proof.
  unfold relay_config_phase. cbv zeta. generalize (config_ids proto) as ids. intros ids. wires.
  - intros w. apply config_loop_settles. lia.
  - apply write_all_settles.
  - eapply settles_payload, writes_id_only.
  - intros w. apply settles_await. lia.
Qed.
Lemma transition_settles strict proto ct : settles strict (transition_client_to_config deflate inflate proto ct).
Proof.
  unfold transition_client_to_config. cbv zeta. generalize (cb_play proto "ClientboundStartConfiguration") (sb_play proto "ServerboundConfigurationAcknowledged").
  intros start_cfg_id ack_id. wires.
  - eapply settles_payload, writes_varint_bytes.
  - intros w. apply settles_await. lia.
Qed.
End Termination.

Lemma total_dropped {A} (m : Dec A) : total m -> total (dropped m).
Proof. intros H src. unfold dropped. specialize (H src). by destruct (m src) as [[]]. Qed.

(** The eras whose LoginSuccess the proxy decodes without ever panicking. *)
Definition skip_safe (canonical : CanonicalVersion) : bool :=
  match canonical with C_V1_16_5 | C_V1_18_2 => false | _ => true end.
Lemma total_skip uuid_parse canonical : skip_safe canonical = true -> total (skip_backend_login_success uuid_parse canonical).
Proof.
  destruct canonical; intros H; try discriminate H; apply total_dropped.
  - apply (@lawful_total _ _ (Packets17.LoginSuccess_lawful_17 id uuid_parse)).
  - apply (@lawful_total _ _ (Packets17.LoginSuccess_lawful_17 id uuid_parse)).
  - apply (@lawful_total _ _ (Packets18.LoginSuccess_lawful id uuid_parse)).
  - apply (@lawful_total _ _ (Packets112.LoginSuccess_lawful_112 id uuid_parse)).
  - apply (@lawful_total _ _ (Packets112.LoginSuccess_lawful_112 id uuid_parse)).
  - apply (@lawful_total _ _ Packets119.LoginSuccess_lawful_119).
  - apply (@lawful_tail_total _ _ Packets120.LoginSuccess_lawful_120).
  - apply (@lawful_tail_total _ _ Packets121.LoginSuccess_lawful_121).
  - apply (@lawful_tail_total _ _ Packets121.LoginSuccess_lawful_121).
Qed.

Lemma settles_total {E A} strict (m : M bytes E A) : total m -> settles strict m.
Proof. intros H w. apply returned_settled, H. Qed.
Lemma settles_repeat strict {A} n (item : Dec A) : settles strict item -> settles strict (repeat_dec n item).
Proof. intros H. induction n as [|n IH]; [done|]. cbn [repeat_dec]. wires. Qed.
Lemma settles_dropped {A} strict (m : Dec A) : settles strict m -> settles strict (dropped m).
Proof. intros H src. unfold dropped. specialize (H src). by destruct (m src) as [[]]. Qed.

Lemma settles_take {E} n : settles (E := E) false (take_bytes n).
Proof. intros src. unfold take_bytes. by destruct (_ <? _)%nat. Qed.
Lemma settles_success_116 : settles false Packets116.LoginSuccess_decode.
Proof.
  unfold Packets116.LoginSuccess_decode. apply settles_bind; [intros src; unfold ensure; by destruct (_ <? _)|]. intros _.
  apply settles_bind; [unfold Packets.get_uuid_pair, get_i64, Buf.get_int, Buf.get_uint; wires; apply settles_take|]. intros uuid.
  apply settles_bind; [apply settles_total, (@lawful_total _ _ (Packets.Text_lawful _))|]. intros name.
  apply settles_bind; [|by intros]. unfold Packets.decode_counted.
  apply settles_bind; [apply settles_total, (lawful_total (c := VarInt))|]. intros v. cbv zeta.
  apply settles_bind; [unfold Packets.with_capacity; by destruct (_ <? _)|]. intros _.
  apply settles_repeat, settles_total, (@lawful_total _ _ Packets116.Property_lawful_116).
Qed.

(** A plugin response on the wire, flagged as understood. *)
Definition response_bytes (id message_id : Z) (data : bytes) : bytes := varint_bytes id ++ varint_bytes message_id ++ [x01] ++ data.

Section LoginTermination.
Variable deflate : bytes -> bytes.
Variable inflate : bytes -> bytes * option ErrorKind.
Variable uuid_parse : bytes -> option bytes.
Variable hmac_sha256 : bytes -> bytes -> bytes.
Variable velocity_secret client_ip : bytes.

Lemma settles_skip canonical cur : settles (skip_safe canonical) (lift (on_cursor (skip_backend_login_success uuid_parse canonical) cur)).
Proof.
  destruct (skip_safe canonical) eqn:H; [apply settles_decode; by apply total_skip|].
  apply settles_lift. unfold on_cursor.
  assert (Hs : settles false (skip_backend_login_success uuid_parse canonical)).
  { destruct canonical; try discriminate H; apply settles_dropped, settles_success_116. }
  specialize (Hs cur). by destruct (skip_backend_login_success uuid_parse canonical cur).1.
Qed.

Lemma writes_response id message_id data : writes (plugin_response id message_id data) (response_bytes id message_id data).
Proof.
  unfold plugin_response, response_bytes, Packets120.LoginPluginResponse_encode. cbn [Packets120.lps_message_id Packets120.lps_data].
  apply writes_bind; [apply writes_varint_bytes|]. apply writes_bind; [apply writes_varint_bytes|]. apply writes_bind; [done|apply writes_put].
Qed.
Lemma settles_respond strict id message_id data bt : settles strict (respond deflate id message_id data bt).
Proof. unfold respond. wires. eapply settles_payload, writes_response. Qed.
Lemma keeps_respond id message_id data bt : keeps_backend (respond deflate id message_id data bt).
Proof. unfold respond. wires. Qed.

Lemma total_plugin_request : total decode_plugin_request.
Proof.
  unfold decode_plugin_request. apply total_bind; [apply (lawful_total (c := VarInt))|]. intros i.
  apply total_bind; [apply (lawful_total (c := Str))|]. by intros c.
Qed.
Lemma settles_forward strict id message_id channel remaining :
  settles strict (lift (payload (VarInt_encode id;; VarInt_encode message_id;; encode_string channel;; put_slice remaining))).
Proof.
  apply settles_lift. unfold payload. rewrite (bind_ok _ _ _ tt _ (writes_varint_bytes id [])). rewrite (bind_ok _ _ _ tt _ (writes_varint_bytes message_id _)).
  unfold bind at 1. unfold encode_string. destruct (_ >? _); [exact I|]. by rewrite (bind_ok _ _ _ tt _ (writes_varint_bytes _ _)).
Qed.
Lemma settles_answer strict ids profile mode ct bt cur :
  settles strict (answer_plugin_request deflate inflate hmac_sha256 velocity_secret client_ip ids profile mode ct bt cur).
Proof.
  unfold answer_plugin_request. apply settles_bind; [apply settles_decode, total_plugin_request|]. intros [[message_id channel] remaining].
  cbv zeta. apply settles_if; [apply settles_if; apply settles_respond|]. apply settles_if; [|apply settles_respond].
  apply settles_bind; [exact (settles_forward strict (id_login_plugin ids) message_id channel remaining)|]. intros req.
  apply settles_bind; [apply settles_write|]. intros _. apply settles_bind; [apply settles_read|]. intros raw.
  apply settles_bind; [apply settles_packet_id|]. intros p. apply settles_if; [apply settles_write|apply settles_respond].
Qed.
Lemma keeps_answer ids profile mode ct bt cur :
  keeps_backend (answer_plugin_request deflate inflate hmac_sha256 velocity_secret client_ip ids profile mode ct bt cur).
Proof.
  unfold answer_plugin_request. apply keeps_backend_bind; [apply keeps_lift|]. intros [[message_id channel] remaining].
  cbv zeta. apply keeps_if; [apply keeps_if; apply keeps_respond|]. apply keeps_if; [|apply keeps_respond].
  apply keeps_backend_bind; [apply keeps_lift|]. intros req. apply keeps_backend_bind; [apply keeps_write|]. intros _.
  apply keeps_backend_bind; [apply keeps_read|]. intros raw. apply keeps_backend_bind; [apply keeps_lift|]. intros p.
  apply keeps_if; [apply keeps_write|apply keeps_respond].
Qed.
End LoginTermination.

Lemma bind_ext {S E A B} (m : M S E A) (k k' : A -> M S E B) s : (forall a s', k a s' = k' a s') -> bind m k s = bind m k' s.
Proof. intros H. unfold bind. by destruct (m s) as [[]]. Qed.

Section SameProtocol.
Variable deflate : bytes -> bytes.
Variable inflate : bytes -> bytes * option ErrorKind.
Variable uuid_parse : bytes -> option bytes.
Variable hmac_sha256 : bytes -> bytes -> bytes.
Variable velocity_secret client_ip : bytes.
Variable profile : AuthenticatedProfile.
Variable mode : ForwardingMode.
Variable ct : Z.
Local Abbreviation answer := (answer_plugin_request deflate inflate hmac_sha256 velocity_secret client_ip).

(** A turn of the login loop when both sides speak the same protocol, as at every
    call: an encryption request is then one of the unexpected packets. *)
Definition login_turn (ids : LoginIds) (canonical : CanonicalVersion) (bt : Z) : W (Z * bool) :=
  let! raw := read_backend inflate bt in
  let! p := lift (packet_id raw) in
  if p.1 =? id_set_compression ids then
    let! threshold := lift (on_cursor VarInt_decode p.2) in ret (threshold, false)
  else if p.1 =? id_login_success ids then
    let! _ := lift (on_cursor (skip_backend_login_success uuid_parse canonical) p.2) in ret (bt, true)
  else if p.1 =? id_login_plugin ids then answer ids profile mode ct bt p.2;; ret (bt, false)
  else if p.1 =? id_login_disconnect ids then fail CE_Closed
  else ret (bt, false).

Lemma login_packet_same proto bt w :
  login_packet deflate inflate uuid_parse hmac_sha256 velocity_secret client_ip proto proto profile mode ct bt w =
  login_turn (login_ids proto) (canonical_typed_packet_version (nearest proto)) bt w.
Proof.
  unfold login_packet, login_turn. cbv zeta. generalize (login_ids proto) as ids. intros ids.
  apply bind_ext. intros raw w1. apply bind_ext. intros [i cur] w2. cbn [fst snd].
  rewrite bool_decide_eq_true_2 by reflexivity. rewrite Z.eqb_refl. cbn [negb orb andb]. rewrite andb_false_r. reflexivity.
Qed.

Fixpoint login_turns (fuel : nat) (ids : LoginIds) (canonical : CanonicalVersion) (bt : Z) : W Z :=
  match fuel with
  | O => nofuel
  | S fuel' =>
      let! next := login_turn ids canonical bt in
      if next.2 : bool then ret next.1 else login_turns fuel' ids canonical next.1
  end.
Lemma login_loop_same proto fuel : forall bt w,
  login_loop deflate inflate uuid_parse hmac_sha256 velocity_secret client_ip fuel proto proto profile mode ct bt w =
  login_turns fuel (login_ids proto) (canonical_typed_packet_version (nearest proto)) bt w.
Proof.
  induction fuel as [|fuel IH]; intros bt w; [reflexivity|]. cbn [login_loop login_turns]. unfold bind.
  rewrite login_packet_same. destruct (login_turn _ _ bt w) as [[[thr fin]|e| |] w']; try reflexivity.
  cbn [fst snd]. destruct fin; [reflexivity|apply IH].
Qed.

Lemma login_turn_settles ids canonical bt : settles (skip_safe canonical) (login_turn ids canonical bt).
Proof.
  unfold login_turn. apply settles_bind; [apply settles_read|]. intros raw. apply settles_bind; [apply settles_packet_id|]. intros p.
  apply settles_if; [apply settles_bind; [apply settles_decode, (lawful_total (c := VarInt))|by intros]|].
  apply settles_if; [apply settles_bind; [apply settles_skip|by intros]|].
  apply settles_if; [apply settles_bind; [apply settles_answer|by intros]|]. apply settles_if; by intros w.
Qed.
Lemma login_turn_shrinks ids canonical bt w r w' : login_turn ids canonical bt w = (Ok r, w') -> (length (backend w') < length (backend w))%nat.
Proof.
  unfold login_turn. intros H. apply bind_inv_ok in H as (raw & w1 & Hr & H). apply read_backend_shrinks in Hr.
  match type of H with ?m w1 = _ => assert (Hk : keeps_backend m) end.
  { apply keeps_backend_bind; [apply keeps_lift|]. intros p. apply keeps_if; [apply keeps_backend_bind; [apply keeps_lift|by intros]|].
    apply keeps_if; [apply keeps_backend_bind; [apply keeps_lift|by intros]|].
    apply keeps_if; [apply keeps_backend_bind; [apply keeps_answer|by intros]|]. apply keeps_if; by intros w0. }
  specialize (Hk w1). rewrite H in Hk. cbn in Hk. rewrite Hk. lia.
Qed.
Lemma login_turns_settles ids canonical fuel : forall bt w, (length (backend w) < fuel)%nat ->
  settled (skip_safe canonical) (login_turns fuel ids canonical bt w).1.
Proof.
  induction fuel as [|fuel IH]; intros bt w Hl; [lia|]. cbn [login_turns]. unfold bind.
  pose proof (login_turn_settles ids canonical bt w) as Hs.
  destruct (login_turn ids canonical bt w) as [[[thr fin]|e| |] w'] eqn:E; try exact Hs.
  apply login_turn_shrinks in E. cbn [fst snd]. destruct fin; [exact I|]. apply IH. lia.
Qed.
End SameProtocol.


(** ** What the backend is told *)

Section Dialogue.
Variable deflate : bytes -> bytes.
Variable inflate : bytes -> bytes * option ErrorKind.
Variable uuid_parse : bytes -> option bytes.
Variable hmac_sha256 : bytes -> bytes -> bytes.
Variable secret ip : bytes.
Variable profile : AuthenticatedProfile.
Variable mode : ForwardingMode.
Local Abbreviation header := (velocity_header hmac_sha256 secret ip profile).

(** The data sent back on a channel that is not left to the client. *)
Definition answer_data (channel : bytes) : bytes :=
  if bool_decide (channel = lit "velocity:player_info") && bool_decide (mode = FM_Velocity) && negb (Buf.is_empty secret) then header else [].

(** What each backend packet does to the threshold, and what is sent for it. *)
Definition next_threshold (ids : LoginIds) (thr : Z) (p : bytes) : Z :=
  match packet_id p with
  | Ok (i, cur) => if i =? id_set_compression ids then match (VarInt_decode cur).1 with Ok t => t | _ => thr end else thr
  | _ => thr
  end.
Definition replies_to (ids : LoginIds) (thr : Z) (p : bytes) : list bytes :=
  match packet_id p with
  | Ok (i, cur) =>
      if i =? id_set_compression ids then []
      else if i =? id_login_plugin ids then
        match (decode_plugin_request cur).1 with
        | Ok (message_id, channel, _) => [encode_packet deflate (response_bytes (id_login_plugin_sb ids) message_id (answer_data channel)) thr]
        | _ => []
        end
      else []
  | _ => []
  end.

(** A packet before LoginSuccess that the proxy deals with alone. *)
Definition quiet (ids : LoginIds) (p : bytes) : Prop :=
  exists i cur, packet_id p = Ok (i, cur) /\
    if i =? id_set_compression ids then exists t, (VarInt_decode cur).1 = Ok t
    else i <> id_login_success ids /\
      if i =? id_login_plugin ids then
        exists message_id channel rest, (decode_plugin_request cur).1 = Ok (message_id, channel, rest) /\ is_fml3_login_channel channel = false
      else i <> id_login_disconnect ids.

(** A backend that says [ps], each under the threshold in force, up to threshold
    [thr']; [out] is what it gets. *)
Inductive dialogue (ids : LoginIds) : Z -> bytes -> list bytes -> Z -> bytes -> list bytes -> Prop :=
  | dialogue_nil thr b : dialogue ids thr b [] thr b []
  | dialogue_cons thr b p b1 ps thr' b' out :
      read_packet inflate thr b = (Ok p, b1) -> quiet ids p -> dialogue ids (next_threshold ids thr p) b1 ps thr' b' out ->
      dialogue ids thr b (p :: ps) thr' b' (replies_to ids thr p ++ out).

Lemma respond_st sb message_id data bt c tc b tb k a h :
  respond deflate sb message_id data bt (st c tc b tb k a h) =
  (Ok tt, st c tc b (tb ++ [encode_packet deflate (response_bytes sb message_id data) bt]) k a h).
Proof.
  unfold respond. unfold bind, lift. rewrite (payload_writes _ _ (writes_response sb message_id data)). apply tell_backend_st.
Qed.
Lemma velocity_not_fml3 : is_fml3_login_channel (lit "velocity:player_info") = false.
Proof. reflexivity. Qed.

Lemma login_turn_st ids canonical ct thr b p b1 c tc tb k a h :
  read_packet inflate thr b = (Ok p, b1) -> quiet ids p ->
  login_turn deflate inflate uuid_parse hmac_sha256 secret ip profile mode ct ids canonical thr (st c tc b tb k a h) =
  (Ok (next_threshold ids thr p, false), st c tc b1 (tb ++ replies_to ids thr p) k a h).
Proof.
  intros Hr (i & cur & Hi & Hq). unfold login_turn, next_threshold, replies_to. rewrite (bind_ok _ _ _ _ _ (read_backend_st inflate thr b p b1 c tc tb k a h Hr)).
  unfold bind at 1, lift at 1. rewrite Hi. cbn [fst snd].
  destruct (i =? id_set_compression ids) eqn:E1.
  { destruct Hq as [t Ht]. unfold bind, lift, on_cursor. rewrite Ht. cbn. by rewrite app_nil_r. }
  destruct Hq as [Hs Hq]. rewrite (proj2 (Z.eqb_neq i _) Hs).
  destruct (i =? id_login_plugin ids) eqn:E2.
  2:{ rewrite (proj2 (Z.eqb_neq i _) Hq). by rewrite app_nil_r. }
  destruct Hq as (message_id & channel & rest & Hd & Hf). rewrite Hd.
  unfold bind at 1. unfold answer_plugin_request, bind at 1, lift at 1, on_cursor. rewrite Hd. cbn [map_err]. cbv zeta.
  rewrite Hf. unfold answer_data. destruct (_ && bool_decide _); cbn [andb]; [destruct (Buf.is_empty secret); cbn [negb]|];
    by rewrite respond_st.
Qed.
Lemma login_turns_st ids canonical ct thr b ps thr' b' out :
  dialogue ids thr b ps thr' b' out -> forall succ cur b2 fuel c tc tb k a h,
  read_packet inflate thr' b' = (Ok succ, b2) -> packet_id succ = Ok (id_login_success ids, cur) ->
  id_set_compression ids <> id_login_success ids ->
  returned (skip_backend_login_success uuid_parse canonical cur).1 -> skip_safe canonical = true -> (length ps < fuel)%nat ->
  login_turns deflate inflate uuid_parse hmac_sha256 secret ip profile mode ct fuel ids canonical thr (st c tc b tb k a h) =
  (Ok thr', st c tc b2 (tb ++ out) k a h).
Proof.
  induction 1 as [thr b|thr b p b1 ps thr' b' out Hr Hq Hd IH]; intros succ cur b2 [|fuel] c tc tb k a h Hs Hi Hne Hret Hsafe Hf; cbn in Hf; try lia.
  - cbn [login_turns]. unfold bind at 1. unfold login_turn. rewrite (bind_ok _ _ _ _ _ (read_backend_st inflate thr b succ b2 c tc tb k a h Hs)).
    unfold bind at 1, lift at 1. rewrite Hi. cbn [fst snd]. rewrite (proj2 (Z.eqb_neq _ _) (not_eq_sym Hne)), Z.eqb_refl.
    unfold bind, lift, on_cursor.
    assert (Hok : (skip_backend_login_success uuid_parse canonical cur).1 = Ok tt).
    { assert (Hd : forall A (m : Dec A), returned (dropped m cur).1 -> (dropped m cur).1 = Ok tt)
        by (intros A m; unfold dropped; by destruct (m cur) as [[]]).
      destruct canonical; try discriminate Hsafe; apply Hd; exact Hret. }
    rewrite Hok. cbn. by rewrite app_nil_r.
  - cbn [login_turns]. rewrite (bind_ok _ _ _ _ _ (login_turn_st ids canonical ct thr b p b1 c tc tb k a h Hr Hq)). cbn [fst snd].
    rewrite (IH succ cur b2 fuel c tc _ k a h) by (done || lia). by rewrite <- app_assoc.
Qed.
End Dialogue.
Lemma dialogue_length deflate inflate hmac secret ip profile mode ids thr b ps thr' b' out :
  dialogue deflate inflate hmac secret ip profile mode ids thr b ps thr' b' out -> (length ps + length b' <= length b)%nat.
Proof. induction 1 as [|thr b p b1 ps thr' b' out Hr Hq Hd IH]; [done|]. apply read_packet_shrinks in Hr. cbn. lia. Qed.

(** What a backend is told during login, exactly.  When the backend sends any
    number of packets the proxy deals with alone (compression, plugin requests,
    anything unexpected) and then LoginSuccess, the loop returns the threshold last
    announced; the backend has been sent one answer per plugin request, with the
    request's id and in order, each under the threshold in force then; the signed
    identity is the answer to [velocity:player_info] when Velocity forwarding with a
    secret is configured, and every other answer is empty; the client is neither
    read nor written to.  Without a configuration phase that is the whole login. *)
Theorem backend_login_dialogue (deflate : bytes -> bytes) (inflate : bytes -> bytes * option ErrorKind) (uuid_parse : bytes -> option bytes)
    (hmac_sha256 : bytes -> bytes -> bytes) (secret ip : bytes) (proto : Z) (profile : AuthenticatedProfile) (mode : ForwardingMode)
    (in_play : bool) (ct : Z) (w : Wires) (ps out : list bytes) (thr : Z) (b1 succ b2 : bytes) :
  let ids := login_ids proto in
  tx_room (to_client w) = None -> tx_room (to_backend w) = None ->
  id_set_compression ids <> id_login_success ids -> skip_safe (canonical_typed_packet_version (nearest proto)) = true ->
  dialogue deflate inflate hmac_sha256 secret ip profile mode ids NO_COMPRESSION (backend w) ps thr b1 out ->
  read_packet inflate thr b1 = (Ok succ, b2) -> id_of succ = Some (id_login_success ids) ->
  let w' := set_to_backend (mkTx (tx_sent (to_backend w) ++ out) None) (set_backend b2 w) in
  login_loop deflate inflate uuid_parse hmac_sha256 secret ip (S (length (backend w))) proto proto profile mode ct NO_COMPRESSION w = (Ok thr, w') /\
  (has_configuration_phase (nearest proto) = false ->
   complete_backend_login deflate inflate uuid_parse hmac_sha256 secret ip proto proto profile mode in_play ct w = (Ok thr, w')).
Proof.
  intros ids Hrc Hrb Hne Hsafe Hd Hs Hsucc w'. apply id_of_Some in Hsucc as [cur Hcur].
  assert (Hl : login_loop deflate inflate uuid_parse hmac_sha256 secret ip (S (length (backend w))) proto proto profile mode ct NO_COMPRESSION w = (Ok thr, w')).
  { rewrite login_loop_same. subst w'. rewrite (st_eta w Hrc Hrb) at 2.
    rewrite (login_turns_st deflate inflate uuid_parse hmac_sha256 secret ip profile mode _ _ ct NO_COMPRESSION _ ps thr b1 out Hd succ cur b2).
    - destruct w as [c [tc rc] b [tb rb] k a h]. cbn in *. by subst rc rb.
    - done.
    - exact Hcur.
    - exact Hne.
    - by apply total_skip.
    - done.
    - apply dialogue_length in Hd. lia. }
  split; [exact Hl|]. intros Hcfg. unfold complete_backend_login. cbv zeta.
  rewrite (bind_ok (fun w => login_loop _ _ _ _ _ _ (S (length (backend w))) _ _ _ _ _ _ w) _ w _ _ Hl), Hcfg. reflexivity.
Qed.

Definition login_w : Wires :=
  mkWires [] (mkTx [] None)
    (encode_frame ([x04; x07] ++ wire Str (lit "velocity:player_info")) ++ encode_frame ([x04; x08] ++ wire Str (lit "example:hello")) ++
     encode_frame [x03; x05] ++ encode_packet stored ([x04; x09] ++ wire Str (lit "velocity:player_info")) 5 ++
     encode_packet stored ([x02] ++ wire Str (lit "u") ++ wire Str (lit "n")) 5)
    (mkTx [] None) MK_Unknown false false.
Definition login_profile : AuthenticatedProfile := mkProfile (replicate 16 x11) (lit "n") [].
Definition toy_hmac (key msg : bytes) : bytes := [x5a].

Definition quietb (ids : LoginIds) (p : bytes) : bool :=
  match packet_id p with
  | Ok (i, cur) =>
      if i =? id_set_compression ids then is_ok (VarInt_decode cur).1
      else negb (i =? id_login_success ids) &&
        if i =? id_login_plugin ids then
          match (decode_plugin_request cur).1 with Ok (_, channel, _) => negb (is_fml3_login_channel channel) | _ => false end
        else negb (i =? id_login_disconnect ids)
  | _ => false
  end.
Lemma quietb_spec ids p : quietb ids p = true -> quiet ids p.
Proof.
  unfold quietb, quiet. destruct (packet_id p) as [[i cur]| | |]; try done. intros H. exists i, cur. split; [done|].
  destruct (i =? id_set_compression ids); [destruct (VarInt_decode cur).1 as [t| | |]; try done; by exists t|].
  apply andb_true_iff in H as [H1 H]. rewrite negb_true_iff, Z.eqb_neq in H1. split; [done|].
  destruct (i =? id_login_plugin ids); [|by rewrite negb_true_iff, Z.eqb_neq in H].
  destruct (decode_plugin_request cur).1 as [[[m ch] rest]| | |]; try done. exists m, ch, rest. split; [done|by rewrite negb_true_iff in H].
Qed.
Lemma dialogue_step deflate inflate hmac secret ip profile mode ids thr b p b1 ps thr' b' out out1 :
  read_packet inflate thr b = (Ok p, b1) -> quietb ids p = true ->
  out1 = replies_to deflate hmac secret ip profile mode ids thr p ++ out ->
  dialogue deflate inflate hmac secret ip profile mode ids (next_threshold ids thr p) b1 ps thr' b' out ->
  dialogue deflate inflate hmac secret ip profile mode ids thr b (p :: ps) thr' b' out1.
Proof. intros Hr Hq -> Hd. apply dialogue_cons with b1; [done|by apply quietb_spec|done]. Qed.

Lemma backend_login_dialogue_witness :
  complete_backend_login stored unstored (fun _ => None) toy_hmac (lit "s") (lit "10.0.0.1") 498 498 login_profile FM_Velocity false NO_COMPRESSION login_w =
  (Ok 5, mkWires [] (mkTx [] None) []
    (mkTx [encode_frame (response_bytes 2 7 (velocity_header toy_hmac (lit "s") (lit "10.0.0.1") login_profile));
           encode_frame (response_bytes 2 8 []);
           encode_packet stored (response_bytes 2 9 (velocity_header toy_hmac (lit "s") (lit "10.0.0.1") login_profile)) 5] None) MK_Unknown false false).
Proof.
  assert (Hd : dialogue stored unstored toy_hmac (lit "s") (lit "10.0.0.1") login_profile FM_Velocity (login_ids 498) NO_COMPRESSION (backend login_w)
    [[x04; x07] ++ wire Str (lit "velocity:player_info"); [x04; x08] ++ wire Str (lit "example:hello"); [x03; x05];
     [x04; x09] ++ wire Str (lit "velocity:player_info")] 5 (encode_packet stored ([x02] ++ wire Str (lit "u") ++ wire Str (lit "n")) 5)
    [encode_frame (response_bytes 2 7 (velocity_header toy_hmac (lit "s") (lit "10.0.0.1") login_profile));
     encode_frame (response_bytes 2 8 []);
     encode_packet stored (response_bytes 2 9 (velocity_header toy_hmac (lit "s") (lit "10.0.0.1") login_profile)) 5]).
  { do 4 (eapply dialogue_step; [vm_compute; reflexivity|vm_compute; reflexivity|vm_compute; reflexivity|]).
    apply dialogue_nil. }
  apply (proj2 (backend_login_dialogue stored unstored (fun _ => None) toy_hmac (lit "s") (lit "10.0.0.1") 498 login_profile FM_Velocity false NO_COMPRESSION login_w
    _ _ 5 _ ([x02] ++ wire Str (lit "u") ++ wire Str (lit "n")) [] eq_refl eq_refl ltac:(vm_compute; discriminate) ltac:(vm_compute; reflexivity)
    Hd ltac:(vm_compute; reflexivity) ltac:(vm_compute; reflexivity))).
  vm_compute. reflexivity.
Defined.

(** Whatever happens, [m] adds to the backend's stream only writes in [P]. *)
Definition emits {A} (P : bytes -> Prop) (m : W A) : Prop :=
  forall w, exists out, tx_sent (to_backend (m w).2) = tx_sent (to_backend w) ++ out /\ Forall P out.
Lemma emits_bind {A B} P (m : W A) (k : A -> W B) : emits P m -> (forall a, emits P (k a)) -> emits P (bind m k).
Proof.
  intros Hm Hk w. unfold bind. destruct (Hm w) as (out & Ho & HP). destruct (m w) as [[a|e| |] w1]; cbn in *; try by (exists out).
  destruct (Hk a w1) as (out2 & -> & HP2). exists (out ++ out2). rewrite Ho, app_assoc. split; [done|by apply Forall_app].
Qed.
Lemma emits_if {A} P (b : bool) (m1 m2 : W A) : emits P m1 -> emits P m2 -> emits P (if b then m1 else m2).
Proof. by destruct b. Qed.
Lemma emits_still {A} P (m : W A) : (forall w, to_backend (m w).2 = to_backend w) -> emits P m.
Proof. intros H w. exists []. rewrite H, app_nil_r. by split. Qed.
Lemma emits_lift {A} P (o : outcome ConnectionError A) : emits P (lift o).
Proof. by apply emits_still. Qed.
Lemma emits_read P inflate thr : emits P (read_client inflate thr) /\ emits P (read_backend inflate thr).
Proof. split; apply emits_still; intros w; unfold read_client, read_backend, on_client, on_backend; by destruct (read_packet _ _ _). Qed.
Lemma emits_client P deflate raw thr : emits P (tell_client deflate raw thr).
Proof. apply emits_still. intros w. by destruct w as [? [? [[|?]|]] ? [? [[|?]|]] ? ? ?]. Qed.
Lemma emits_backend (P : bytes -> Prop) deflate raw thr : P (encode_packet deflate raw thr) -> emits P (tell_backend deflate raw thr).
Proof.
  intros HP w. destruct w as [? ? ? [sent [[|n]|]] ? ? ?]; cbn; [exists []; by rewrite app_nil_r|..];
    exists [encode_packet deflate raw thr]; (split; [done|by apply List.Forall_cons]).
Qed.

Section Identity.
Variable deflate : bytes -> bytes.
Variable inflate : bytes -> bytes * option ErrorKind.
Variable uuid_parse : bytes -> option bytes.
Variable hmac_sha256 : bytes -> bytes -> bytes.
Variable secret ip : bytes.
Variable profile : AuthenticatedProfile.
Variable mode : ForwardingMode.
Variable sb : Z.

(** An empty answer, a packet the client itself answered with, or the signed
    identity where it belongs. *)
Definition permitted (bs : bytes) : Prop :=
  exists thr, (exists message_id, bs = encode_packet deflate (response_bytes sb message_id []) thr) \/
    (exists p, id_of p = Some sb /\ bs = encode_packet deflate p thr) \/
    (mode = FM_Velocity /\ secret <> [] /\ exists message_id,
       bs = encode_packet deflate (response_bytes sb message_id (velocity_header hmac_sha256 secret ip profile)) thr).

Lemma emits_respond message_id data bt : permitted (encode_packet deflate (response_bytes sb message_id data) bt) ->
  emits permitted (respond deflate sb message_id data bt).
Proof.
  intros H w. unfold respond, bind, lift. rewrite (payload_writes _ _ (writes_response sb message_id data)).
  by apply emits_backend.
Qed.
Lemma permitted_empty message_id bt : permitted (encode_packet deflate (response_bytes sb message_id []) bt).
Proof. exists bt. left. by exists message_id. Qed.

Lemma emits_answer ids ct bt cur : id_login_plugin_sb ids = sb ->
  emits permitted (answer_plugin_request deflate inflate hmac_sha256 secret ip ids profile mode ct bt cur).
Proof.
  intros Hsb. unfold answer_plugin_request. apply emits_bind; [apply emits_lift|]. intros [[message_id channel] rest]. cbv zeta. rewrite Hsb.
  assert (He := permitted_empty message_id bt).
  destruct (bool_decide (channel = _) && bool_decide (mode = FM_Velocity)) eqn:Hv.
  - apply andb_true_iff in Hv as [_ Hv%bool_decide_eq_true]. destruct (Buf.is_empty secret) eqn:Hs; [by apply emits_respond|].
    apply emits_respond. exists bt. right. right. split; [done|]. split; [by destruct secret|]. by exists message_id.
  - apply emits_if; [|by apply emits_respond]. apply emits_bind; [apply emits_lift|]. intros req.
    apply emits_bind; [apply emits_client|]. intros _. apply emits_bind; [apply emits_read|]. intros raw.
    intros w. unfold bind at 1, lift. destruct (packet_id raw) as [[i c]|e| |] eqn:E; try by (exists []; rewrite app_nil_r).
    cbn [fst]. destruct (Z.eqb_spec i sb) as [->|]; [|by apply emits_respond].
    apply emits_backend. exists bt. right. left. exists raw. unfold id_of. by rewrite E.
Qed.
Lemma emits_turn ids canonical ct bt : id_login_plugin_sb ids = sb ->
  emits permitted (login_turn deflate inflate uuid_parse hmac_sha256 secret ip profile mode ct ids canonical bt).
Proof.
  intros Hsb. unfold login_turn. apply emits_bind; [apply emits_read|]. intros raw. apply emits_bind; [apply emits_lift|]. intros p.
  apply emits_if; [apply emits_bind; [apply emits_lift|intros; by apply emits_still]|].
  apply emits_if; [apply emits_bind; [apply emits_lift|intros; by apply emits_still]|].
  apply emits_if; [apply emits_bind; [by apply emits_answer|intros; by apply emits_still]|].
  apply emits_if; by apply emits_still.
Qed.
Lemma emits_turns ids canonical ct fuel : id_login_plugin_sb ids = sb -> forall bt,
  emits permitted (login_turns deflate inflate uuid_parse hmac_sha256 secret ip profile mode ct fuel ids canonical bt).
Proof.
  intros Hsb. induction fuel as [|fuel IH]; intros bt; [by apply emits_still|]. cbn [login_turns].
  apply emits_bind; [by apply emits_turn|]. intros next. apply emits_if; [by apply emits_still|apply IH].
Qed.
End Identity.

(** The proxy vouches for a player only where it is configured to.  Whatever
    the backend asks and however the login ends, everything it is sent in the login
    phase is an empty plugin response, a packet of the client's own, or the signed
    identity; and the signed identity only under Velocity forwarding with a secret
    configured. *)
Theorem identity_only_when_configured (deflate : bytes -> bytes) (inflate : bytes -> bytes * option ErrorKind) (uuid_parse : bytes -> option bytes)
    (hmac_sha256 : bytes -> bytes -> bytes) (secret ip : bytes) (proto : Z) (profile : AuthenticatedProfile) (mode : ForwardingMode)
    (ct bt : Z) (fuel : nat) (w : Wires) :
  exists out,
    tx_sent (to_backend (login_loop deflate inflate uuid_parse hmac_sha256 secret ip fuel proto proto profile mode ct bt w).2) =
      tx_sent (to_backend w) ++ out /\
    Forall (permitted deflate hmac_sha256 secret ip profile mode (id_login_plugin_sb (login_ids proto))) out.
Proof. rewrite login_loop_same. exact (emits_turns deflate inflate uuid_parse hmac_sha256 secret ip profile mode _ _ _ ct fuel eq_refl bt w). Qed.

(** A backend of the 1.16 era that announces a negative number of profile
    properties makes the connection task panic. *)
Theorem login_success_panics :
  (complete_backend_login stored unstored (fun _ => None) toy_hmac (lit "s") (lit "10.0.0.1") 754 754 login_profile FM_None false NO_COMPRESSION
    (mkWires [] (mkTx [] None) (encode_frame ([x02] ++ replicate 16 x11 ++ wire Str (lit "n") ++ wire VarInt (-1))) (mkTx [] None) MK_Unknown false false)).1 = Panic.
Proof. vm_compute. reflexivity. Qed.

(** ** Live switches *)

(** The worlds a list of respawns leads through, from where the client is. *)
Fixpoint world_changes (from : Z) (dims : list Z) : Prop :=
  match dims with [] => True | d :: dims' => d <> from /\ world_changes d dims' end.

Definition respawn_frame (deflate : bytes -> bytes) (proto ct game_mode dimension : Z) : list bytes :=
  match build_legacy_respawn proto dimension game_mode with
  | Some pkt => [(write_typed_packet deflate (ep_id pkt) (ep_body pkt) proto ct []).2]
  | None => []
  end.
Definition switch_dims (dimension : Z) : list Z := if dimension =? LIMBO_DIMENSION then [-1; dimension] else [dimension].

Lemma send_switch_respawn_st deflate proto ct dimension game_mode c tc b tb k a h :
  send_switch_respawn deflate proto ct dimension game_mode (st c tc b tb k a h) =
  (Ok tt, st c (tc ++ respawn_frame deflate proto ct game_mode dimension) b tb k a h).
Proof.
  unfold send_switch_respawn, respawn_frame. destruct (build_legacy_respawn proto dimension game_mode) as [pkt|]; [|by rewrite app_nil_r].
  unfold write_typed_packet, write_legacy_bytes, write_packet, write_all. by destruct (is_pre_netty_proto proto).
Qed.

(** A live switch of an old client.  When the backend's first packet is a join
    packet with a 32-bit dimension, it is consumed and the client gets respawns
    instead, carrying the backend's game mode; the last one goes to the backend's
    dimension and each goes to another dimension than the one before it, starting
    from limbo's, so that the client rebuilds its world; a first packet of any
    other kind is passed on unchanged. *)
Theorem switch_rebuilds_world (deflate : bytes -> bytes) (inflate : bytes -> bytes * option ErrorKind) (proto ct bt : Z) (w : Wires)
    (join b' cur : bytes) (i : Z) :
  tx_room (to_client w) = None -> tx_room (to_backend w) = None ->
  read_packet inflate bt (backend w) = (Ok join, b') -> VarInt_decode join = (Ok i, cur) ->
  let sent out := (Ok tt, set_to_client (mkTx (tx_sent (to_client w) ++ out) None) (set_backend b' w)) in
  apply_switch_world_reset deflate inflate proto ct bt w =
    (if wrapu 8 i =? cb_play proto "ClientboundJoinGame" then
       match legacy_join_fields cur with
       | Some (dimension, game_mode) => sent (concat (map (respawn_frame deflate proto ct game_mode) (switch_dims dimension)))
       | None => sent [encode_packet deflate join ct]
       end
     else sent [encode_packet deflate join ct]) /\
  (forall entity game_mode dimension tail, fits_s 32 entity -> fits_u 8 game_mode -> fits_s 32 dimension ->
     legacy_join_fields (be_bytes 4 entity ++ be_bytes 1 game_mode ++ be_bytes 4 dimension ++ tail) = Some (dimension, game_mode)) /\
  (forall dimension, world_changes LIMBO_DIMENSION (switch_dims dimension) /\ List.last (switch_dims dimension) 1 = dimension).
Proof.
  intros Hrc Hrb Hr Hi sent. split_and!.
  - subst sent. cbv beta. rewrite (st_eta w Hrc Hrb) at 1. unfold apply_switch_world_reset. generalize (cb_play proto "ClientboundJoinGame") as jid. intros jid.
    rewrite (bind_ok _ _ _ _ _ (read_backend_st inflate bt _ join b' _ _ _ _ _ _ Hr)). rewrite Hi. cbv zeta.
    destruct w as [c [tc rc] b [tb rb] k a h]. cbn [tx_room to_client to_backend backend client tx_sent ml_kind client_login_acked handshake_complete] in *. subst rc rb.
    destruct (wrapu 8 i =? jid); [|reflexivity].
    destruct (legacy_join_fields cur) as [[dimension game_mode]|]; [|reflexivity]. unfold switch_dims, LIMBO_DIMENSION.
    destruct (Z.eqb_spec dimension 0) as [->|]; cbn [map concat].
    + rewrite (bind_ok _ _ _ _ _ (send_switch_respawn_st _ _ _ _ _ _ _ _ _ _ _ _)). rewrite send_switch_respawn_st.
      unfold st, set_to_client, set_backend. cbn. by rewrite app_nil_r, <- app_assoc.
    + unfold bind, ret. rewrite send_switch_respawn_st. unfold st, set_to_client, set_backend. cbn. by rewrite app_nil_r.
  - intros entity game_mode dimension tail He Hg Hd. unfold legacy_join_fields.
    replace (9 <=? _) with true by (symmetry; apply Z.leb_le; unfold remaining; rewrite !length_app, !length_be_bytes; lia).
    assert (H : reads (E := ProtocolError) (get_i32;; let! game_mode := get_u8 in let! dimension := get_i32 in ret (dimension, game_mode))
      (be_bytes 4 entity ++ be_bytes 1 game_mode ++ be_bytes 4 dimension) (dimension, game_mode)).
    { eapply reads_bind; [apply (reads_int 4); [lia|done]|]. eapply reads_bind; [apply (reads_uint 1); done|].
      eapply reads_bind_last; [apply (reads_int 4); [lia|done]|apply reads_ret]. }
    specialize (H tail). rewrite <- !app_assoc in H. by rewrite H.
  - intros dimension. unfold switch_dims, LIMBO_DIMENSION. destruct (Z.eqb_spec dimension 0) as [->|]; cbn; split_and!; try done; lia.
Qed.
Lemma switch_rebuilds_world_witness :
  apply_switch_world_reset stored unstored 340 NO_COMPRESSION NO_COMPRESSION
    (mkWires [] (mkTx [] None) (encode_frame ([x23] ++ be_bytes 4 7 ++ be_bytes 1 1 ++ be_bytes 4 0 ++ [x02; x14])) (mkTx [] None) MK_Unknown false false) =
  (Ok tt, mkWires [] (mkTx (respawn_frame stored 340 NO_COMPRESSION 1 (-1) ++ respawn_frame stored 340 NO_COMPRESSION 1 0) None) [] (mkTx [] None) MK_Unknown false false).
Proof.
  etransitivity; [apply (proj1 (switch_rebuilds_world stored unstored 340 NO_COMPRESSION NO_COMPRESSION
    (mkWires [] (mkTx [] None) (encode_frame ([x23] ++ be_bytes 4 7 ++ be_bytes 1 1 ++ be_bytes 4 0 ++ [x02; x14])) (mkTx [] None) MK_Unknown false false)
    ([x23] ++ be_bytes 4 7 ++ be_bytes 1 1 ++ be_bytes 4 0 ++ [x02; x14]) [] (be_bytes 4 7 ++ be_bytes 1 1 ++ be_bytes 4 0 ++ [x02; x14]) 0x23
    eq_refl eq_refl ltac:(vm_compute; reflexivity) ltac:(vm_compute; reflexivity)))|].
  vm_compute. reflexivity.
Defined.

(** The 1.8 join packet has a one-byte dimension, as the typed packet of this very
    program writes it, but the switch reads four bytes: an overworld join is taken
    for another dimension, no respawn away from limbo's overworld is sent first,
    and the respawn that is sent names a dimension that does not exist. *)
Theorem switch_misreads_1_8 :
  let join := Packets18.mkJoinGame 7 1 0 2 20 (lit "default") false in
  legacy_join_fields (wire Packets18.JoinGame join) = Some (0x00021407, 1) /\
  Packets18.jg_dimension join = LIMBO_DIMENSION /\
  switch_dims 0x00021407 = [0x00021407].
Proof. vm_compute. auto. Qed.
