(* ===== verification/Limbo.v ===== *)
(** * The waiting world

    crates/proxy-core/src/net/limbo.rs: the handler that keeps a client in a world
    of its own while it looks for a backend.  The configuration phase, the entry
    sequence and every packet sent run on the client's half of [Backend.Wires]; the
    packets themselves are those of [LimboPackets].  The loop takes the branch that
    [select!] finds ready, so a run is a sequence of events; an event that cancels
    the pending read says how many bytes that read had already taken.  What the
    routing sees, whether a dial succeeds and the text of JSON are parameters. *)
From Stdlib Require Import ZArith Lia Strings.String Strings.Byte.
From stdpp Require Import base list numbers strings gmap.
From S2P Require Import Prelude Buf Wire VarInt Codec Negotiation PacketIo Routing Chars Utf8 Registry RegistryData Modloader.
From S2P Require Import Failover Queue Builders LoginPackets Dimension LimboPackets Backend.
From S2P Require Import Proxy.
From S2P Require Packets120.
Local Open Scope Z_scope.
Local Open Scope koja_scope.

(** ** Data *)

(** 0.0 and 256.0. *)
Definition LIMBO_X : Z := 0.
Definition LIMBO_Y : Z := 0x4070000000000000.
Definition LIMBO_Z : Z := 0.
Definition spawn_xyz (c : LimboCustomization) : Z * Z * Z := default (LIMBO_X, LIMBO_Y, LIMBO_Z) (spawn c).

Definition LIMBO_WORLD_NAME : bytes := lit "kojacoord:limbo".
(** [Uuid::parse_str(BOSSBAR_UUID)]. *)
Definition BOSSBAR_UUID : bytes := be_bytes 16 0x12345678123412341234123456789abc.

Record LimboHandler := mkLimboHandler {
  lh_proto : Z; lh_threshold : Z; lh_kind : ModloaderKind; target_server : option bytes;
  client_past_login_ack : bool; client_in_play : bool; lh_uuid : bytes;
  customization : LimboCustomization; queue_enabled : bool; shutdown_reason : bytes; lh_rules : RoutingRules }.

(** ** Reading and dropping *)

Definition consume (n : nat) : Conn unit := let! _ := read_exact n in ret tt.
Definition read_ucs2_string : Conn Z :=
  let! len_buf := read_exact 2 in
  let char_count := be_val len_buf in
  let! _ := read_exact (Z.to_nat (char_count * 2)) in
  ret (2 + char_count * 2).

Definition hex2 (z : Z) : string :=
  let digit d := if d <? 10 then Ascii.ascii_of_N (Z.to_N (48 + d)) else Ascii.ascii_of_N (Z.to_N (55 + d)) in
  String (digit (z / 16)) (String (digit (z mod 16)) EmptyString).

Definition read_and_discard_pre_netty : Conn unit :=
  let! packet_id := read_u8 in
  match packet_id with
  | 0x00 => consume 4
  | 0x03 => read_ucs2_string;; ret tt
  | 0x07 => consume 9
  | 0x0A => consume 1
  | 0x0B => consume 33
  | 0x0C => consume 9
  | 0x0D => consume 41
  | 0x0E => consume 11
  | 0x10 => consume 2
  | 0x12 => consume 5
  | 0x13 => consume 9
  | 0xCA => consume 9
  | 0xCB => read_ucs2_string;; ret tt
  | 0xCC => read_ucs2_string;; consume 4
  | 0xCD => consume 1
  | 0xFA =>
      read_ucs2_string;;
      let! data_len_buf := read_exact 2 in
      let data_len := Z.max (i16_from_be data_len_buf) 0 in
      if data_len >? 0 then consume (Z.to_nat data_len) else ret tt
  | 0xFE => consume 1
  | 0xFF => read_ucs2_string;; ret tt
  | other => fail (CE_Protocol (Io KInvalidData (String.append "unknown pre-netty packet id 0x" (hex2 other))))
  end.

Definition read_and_discard (proto : Z) : Conn unit :=
  if is_pre_netty_proto proto then read_and_discard_pre_netty else (let! _ := read_frame in ret tt).

(** ** Choosing a backend *)

(** [candidate_backend]: the pinned server if it is online, else what the rules pick. *)
Definition candidate_backend (target : option bytes) (draw : Z -> Z) (rules : RoutingRules) (r : ServerRegistry) : option BackendServer :=
  match target with
  | Some name =>
      match registry_get name r with
      | Some b => if bs_online b then Some b else None
      | None => None
      end
  | None => select draw rules r
  end.

(** [try_connect_backend]; [dial name] is the stream of a connection that succeeds
    in time, from the pool or new. *)
Definition try_connect_backend (enabled : bool) (uuid : bytes) (candidate : option BackendServer) (dial : bytes -> option bytes)
    (qm : QueueManager) : option (bytes * bytes) * QueueManager :=
  match candidate with
  | None => (None, qm)
  | Some b =>
      let name := bs_name b in
      if enabled && is_full b then (None, (enqueue qm name uuid).2)
      else if enabled && negb (is_front_or_unqueued qm name uuid) then (None, qm)
      else match dial name with
           | Some stream => (Some (name, stream), if enabled then queue_remove qm name uuid else qm)
           | None => (None, qm)
           end
  end.

(** ** Runs *)

Record LimboState := mkLimboState { ls_wires : Wires; ls_queue : QueueManager; ka_id : Z }.
Abbreviation L A := (M LimboState ConnectionError A).
Definition on_wires {A} (m : W A) : L A := fun s => let '(o, w) := m (ls_wires s) in (o, mkLimboState w (ls_queue s) (ka_id s)).

(** The branch [select!] takes.  [cut]: what the cancelled read had taken. *)
Inductive LimboEvent :=
  | PollTick (cut : nat) (servers : ServerRegistry) (draw : Z -> Z) (dial : bytes -> option bytes)
  | KeepAliveTick (cut : nat) (servers : ServerRegistry) (draw : Z -> Z)
  | ShutdownNotified (cut : nat)
  | ClientPacket.

(** The future of the pending read is dropped and its bytes with it. *)
Definition cancel_read (cut : nat) : L unit := on_wires (fun w => (Ok tt, set_client (drop cut (client w)) w)).

Section Limbo.
Variable deflate : bytes -> bytes.
Variable inflate : bytes -> bytes * option ErrorKind.
(** The order of hash maps, the embedded files, and JSON. *)
Variable order : entries -> entries.
Variable files : DimFiles.
Variable contents : Bundle -> bytes.
Variable json_parse : bytes -> option Value.
Variable json_text : Value -> bytes.
Variable error_text : ConnectionError -> bytes.

(** ** Sending *)

Section Handler.
Variable lh : LimboHandler.
Local Abbreviation proto := (lh_proto lh).
Local Abbreviation threshold := (lh_threshold lh).

Definition packets : LimboPackets := for_version order files json_parse (canonical_typed_packet_version (nearest proto)).

Definition send_typed (id : Z) (body : bytes) : W unit := emit_client (write_typed_packet deflate id body proto threshold []).2.
Definition send_encoded (pkt : EncodedPacket) : W unit := send_typed (ep_id pkt) (ep_body pkt).
Definition send_built (built : option EncodedPacket) : W unit := match built with Some pkt => send_encoded pkt | None => ret tt end.
Definition send_raw (raw : bytes) : W unit := emit_client (write_client_packet deflate raw proto threshold []).2.

(** What a builder of whole packets gives; its [unwrap] can panic. *)
Definition raw_packet (o : outcome ProtocolError bytes) : W bytes := lift (map_err CE_Protocol o).

Definition send_limbo_entry_respawn : W unit :=
  send_built (build_legacy_respawn proto (-1) 3);; send_built (build_legacy_respawn proto 0 3).
Definition send_login_play : W unit :=
  if client_in_play lh && (proto <? 735) then send_limbo_entry_respawn
  else send_built (join_game packets proto LIMBO_WORLD_NAME).
Definition send_respawn : W unit := send_built (respawn packets proto LIMBO_WORLD_NAME).
Definition send_plugin_brand : W unit := send_built (brand packets proto (brand_of (lh_kind lh))).
Definition send_fml1_handshake_reset : W unit :=
  let! frame := raw_packet (built (build_fml1_handshake_reset_for_proto proto (cb_plugin_message_id proto))) in
  if is_pre_netty_proto proto then emit_client frame else tell_client deflate frame threshold.
Definition send_player_abilities : W unit := send_built (player_abilities packets proto).
Definition send_held_item_change : W unit := send_built (held_item_change packets proto).
Definition limbo_pos (xyz : Z * Z * Z) : PlayerPos := mkPlayerPos xyz.1.1 xyz.1.2 xyz.2 0 0.
Definition send_player_position (teleport_id : Z) : W unit :=
  send_built (player_position packets proto (limbo_pos (spawn_xyz (customization lh))) teleport_id).

Definition text_component (text : bytes) : bytes := json_text (JObject [(chr "text", JString (chars_of text))]).
Definition red_component (text : bytes) : bytes := json_text (JObject [(chr "text", JString (chars_of text)); (chr "color", JString (chr "red"))]).
(** The two built-in texts are literals of the source, printed as they stand. *)
Definition DEFAULT_MSG_JSON : bytes :=
  quoted "{'text':'The server is currently offline. You have been placed in limbo and will be connected automatically when it comes back online.','color':'yellow'}".
Definition DEFAULT_TITLE : bytes := quoted "{'text':'Waiting for server...','color':'yellow'}".
Definition send_limbo_chat : W unit :=
  send_built (chat packets proto (match welcome_message (customization lh) with Some text => text_component text | None => DEFAULT_MSG_JSON end)).
Definition send_note_sound : W unit := send_built (note_sound packets proto (mkSoundParams LIMBO_X LIMBO_Y LIMBO_Z 0x3F800000 0x3F800000)).
Definition send_bossbar_add : W unit :=
  send_built (bossbar_add packets proto BOSSBAR_UUID (match bossbar_title (customization lh) with Some text => text_component text | None => DEFAULT_TITLE end)).
Definition send_bossbar_remove : W unit := send_built (bossbar_remove packets proto BOSSBAR_UUID).
Definition send_keepalive (id : Z) : W unit := send_built (keepalive packets proto id).

(** ** The configuration phase *)

Definition transition_play_to_config : W unit :=
  let start_id := cb_play proto "ClientboundStartConfiguration" in
  let ack_id := sb_play proto "ServerboundConfigurationAcknowledged" in
  if (start_id =? 0xFF) || (ack_id =? 0xFF) then fail CE_Closed
  else send_typed start_id [];; (fun w => await_client inflate (S (length (client w))) ack_id threshold w).

Fixpoint send_bodies (id : Z) (bodies : list bytes) : W unit :=
  match bodies with
  | [] => ret tt
  | body :: bodies' => send_typed id (default body (biome_music_list_transform proto body));; send_bodies id bodies'
  end.
Definition send_registries : W unit :=
  match config_codec_nameless_for_proto files proto with
  | Some codec =>
      let id_registry := cb_config proto "ClientboundRegistryData" in
      if id_registry =? 0xFF then ret tt else send_typed id_registry codec
  | None =>
      match bundle_for_proto proto with
      | Some bundle =>
          let id_registry := cb_config proto "ClientboundRegistryData" in
          if id_registry =? 0xFF then ret tt
          else match parse_bundle (contents bundle) with Ok bodies => send_bodies id_registry bodies | _ => ret tt end
      | None => ret tt
      end
  end.
Definition send_tags : W unit :=
  match config_tags_body_for_proto proto with
  | Some tags => let! body := lift (payload tags) in send_typed 0x0D body
  | None => ret tt
  end.

Definition MAX_CONFIG_PACKETS : nat := 8.
(** [for _ in 0..MAX_CONFIG_PACKETS]. *)
Fixpoint await_ack (n : nat) (expected_ack : Z) : W unit :=
  match n with
  | O => ret tt
  | S n' =>
      let! raw := read_client inflate threshold in
      let! p := lift (packet_id raw) in
      if p.1 =? expected_ack then ret tt else await_ack n' expected_ack
  end.

Definition run_configuration_phase : W unit :=
  (if client_in_play lh then transition_play_to_config
   else if client_past_login_ack lh then ret tt
   else let! raw := read_client inflate threshold in let! _ := lift (packet_id raw) in ret tt);;
  send_registries;;
  send_tags;;
  let id_finish := cb_config proto "FinishConfiguration" in
  if id_finish =? 0xFF then ret tt
  else
    let! body := lift (payload (Packets120.FinishConfiguration_encode tt)) in
    send_typed id_finish body;;
    await_ack MAX_CONFIG_PACKETS (sb_config proto "AcknowledgeFinishConfiguration").

(** ** Entering *)

Definition has_bossbar : bool := 107 <=? proto.

Definition limbo_entry : W unit :=
  (if 764 <=? proto then run_configuration_phase else ret tt);;
  send_login_play;;
  (if is_pre_netty_proto proto then
     send_built (spawn_position packets proto (limbo_pos (LIMBO_X, LIMBO_Y, LIMBO_Z)));;
     send_built (time_update packets proto);;
     send_built (update_health packets proto)
   else ret tt);;
  (if 47 <=? proto then send_plugin_brand else ret tt);;
  (if bool_decide (lh_kind lh = MK_Fml1) && is_pre_netty_proto proto then send_fml1_handshake_reset else ret tt);;
  send_player_abilities;;
  send_held_item_change;;
  send_built (set_center_chunk packets proto);;
  send_built (chunk_batch_start packets proto);;
  send_built (chunk_data packets proto);;
  send_built (light_update packets proto);;
  send_built (chunk_batch_finished packets proto 1);;
  send_built (start_wait_chunks_event packets proto);;
  send_built (set_default_spawn packets proto);;
  send_player_position 1;;
  send_limbo_chat;;
  send_note_sound;;
  (if has_bossbar then send_bossbar_add else ret tt).

(** ** The loop *)

Definition poll (servers : ServerRegistry) (draw : Z -> Z) (dial : bytes -> option bytes) : L (option (bytes * bytes)) := fun s =>
  let '(r, qm) := try_connect_backend (queue_enabled lh) (lh_uuid lh) (candidate_backend (target_server lh) draw (lh_rules lh) servers) dial (ls_queue s) in
  (Ok r, mkLimboState (ls_wires s) qm (ka_id s)).

Definition position_text (name : bytes) (position : Z) : bytes :=
  [xc2; xa7] ++ lit "ePosition in queue for " ++ [xc2; xa7] ++ lit "f" ++ name ++ [xc2; xa7] ++ lit "e: " ++ [xc2; xa7] ++ lit "6" ++ utf8 (show position).
Definition send_queue_position_update (servers : ServerRegistry) (draw : Z -> Z) : L unit := fun s =>
  if negb (queue_enabled lh) then (Ok tt, s)
  else match candidate_backend (target_server lh) draw (lh_rules lh) servers with
  | None => (Ok tt, s)
  | Some b =>
      match queue_position (ls_queue s) (bs_name b) (lh_uuid lh) with
      | None => (Ok tt, s)
      | Some position =>
          on_wires (let! raw := raw_packet (build_system_message_packet json_parse json_text (position_text (bs_name b) position) proto) in send_raw raw) s
      end
  end.

Definition limbo_event (e : LimboEvent) : L (option (bytes * bytes)) :=
  match e with
  | PollTick cut servers draw dial =>
      cancel_read cut;;
      let! backend := poll servers draw dial in
      match backend with
      | None => ret None
      | Some b =>
          (if has_bossbar then on_wires send_bossbar_remove else ret tt);;
          on_wires send_respawn;;
          ret (Some b)
      end
  | KeepAliveTick cut servers draw =>
      cancel_read cut;;
      (fun s => (Ok tt, mkLimboState (ls_wires s) (ls_queue s) (wraps 64 (ka_id s + 1))));;
      (fun s => on_wires (send_keepalive (ka_id s)) s);;
      send_queue_position_update servers draw;;
      ret None
  | ShutdownNotified cut =>
      cancel_read cut;;
      let! raw := on_wires (raw_packet (build_disconnect_packet json_parse (shutdown_reason lh) proto)) in
      (fun s => (Ok tt, (on_wires (send_raw raw) s).2));;
      fail CE_Closed
  | ClientPacket => on_wires (on_client (read_and_discard proto));; ret None
  end.

(** The events so far: [None] while the client still waits. *)
Fixpoint limbo_loop (es : list LimboEvent) : L (option (bytes * bytes)) :=
  match es with
  | [] => ret None
  | e :: es' =>
      let! r := limbo_event e in
      match r with Some b => ret (Some b) | None => limbo_loop es' end
  end.

Definition run_inner (es : list LimboEvent) : L (option (bytes * bytes)) := on_wires limbo_entry;; limbo_loop es.

(** A client that is not gone is told why. *)
Definition gone (e : ConnectionError) : bool := match e with CE_Closed | CE_Io _ => true | _ => false end.
Definition run (es : list LimboEvent) : L (option (bytes * bytes)) := fun s =>
  match run_inner es s with
  | (Err e, s') =>
      if gone e then (Err e, s')
      else
        match build_disconnect_packet json_parse (red_component (lit "Limbo error: " ++ error_text e)) proto with
        | Ok raw => (Err e, (on_wires (tell_client deflate raw threshold) s').2)
        | _ => (Panic, s')
        end
  | r => r
  end.
End Handler.
End Limbo.

(** ** Lemmas: queues *)

Lemma queue_of_remove qm server uuid : queue_of (queue_remove qm server uuid) server = filter (fun u => u <> uuid) (queue_of qm server).
Proof.
  unfold queue_remove. destruct (qm_queues qm !! server) as [q|] eqn:E; [|unfold queue_of; by rewrite E].
  rewrite queue_of_with, decide_True by done. unfold queue_of. by rewrite E.
Qed.
Lemma queue_of_remove_other qm server uuid other : other <> server -> queue_of (queue_remove qm server uuid) other = queue_of qm other.
Proof.
  intros Hne. unfold queue_remove. destruct (qm_queues qm !! server) as [q|]; [|done]. rewrite queue_of_with, decide_False; done.
Qed.
Lemma front_spec qm server uuid :
  is_front_or_unqueued qm server uuid = true <-> queue_of qm server = [] \/ exists q, queue_of qm server = uuid :: q.
Proof.
  unfold is_front_or_unqueued, queue_of. destruct (qm_queues qm !! server) as [[|x q]|]; cbn.
  - split; [by left|done].
  - rewrite bool_decide_eq_true. split; [intros ->; right; by exists q|intros [|[? [= <- _]]]; done].
  - split; [by left|done].
Qed.
Lemma queue_of_enqueue qm server uuid :
  queue_of (enqueue qm server uuid).2 server =
    queue_of qm server ++
    (if decide (uuid ∈ queue_of qm server) then []
     else if negb (qm_max_queue_size qm =? 0) && (Z.of_nat (length (queue_of qm server)) >=? qm_max_queue_size qm) then [] else [uuid]) /\
  forall other, other <> server -> queue_of (enqueue qm server uuid).2 other = queue_of qm other.
Proof.
  unfold enqueue. destruct (position uuid (queue_of qm server)) as [i|] eqn:E.
  - apply position_some in E as [E _]. apply list_elem_of_lookup_2 in E. rewrite (decide_True _ _ E), app_nil_r. cbn [snd].
    split; [by rewrite queue_of_with, decide_True|]. intros other Ho. by rewrite queue_of_with, decide_False.
  - apply position_none in E. rewrite (decide_False _ _ E). cbn [qm_max_queue_size with_queue].
    destruct (_ && _); cbn [snd].
    + rewrite app_nil_r. split; [by rewrite queue_of_with, decide_True|]. intros other Ho. by rewrite queue_of_with, decide_False.
    + split; [by rewrite !queue_of_with, decide_True|]. intros other Ho. by rewrite !queue_of_with, !decide_False.
Qed.

(** Who leaves limbo.  A poll leads to a server exactly when the candidate can
    be dialled and, with queueing enabled, has room and nobody else waits at the
    front of its queue; the player then waits for it no longer.  A player refused
    because the server is full waits at the end of its queue, unless already
    waiting or the queue is at its limit; any other refusal changes no queue, and
    no poll touches the queue of another server. *)
Theorem limbo_admission (enabled : bool) (uuid : bytes) (candidate : option BackendServer) (dial : bytes -> option bytes) (qm : QueueManager) :
  let '(r, qm') := try_connect_backend enabled uuid candidate dial qm in
  (forall name stream, r = Some (name, stream) <-> exists b, candidate = Some b /\ bs_name b = name /\ dial name = Some stream /\
     (enabled = true -> is_full b = false /\ (queue_of qm name = [] \/ exists q, queue_of qm name = uuid :: q))) /\
  (forall b, candidate = Some b ->
     queue_of qm' (bs_name b) =
       match r with
       | Some _ => if enabled then filter (fun u => u <> uuid) (queue_of qm (bs_name b)) else queue_of qm (bs_name b)
       | None =>
           if enabled && is_full b && negb (bool_decide (uuid ∈ queue_of qm (bs_name b))) &&
              ((qm_max_queue_size qm =? 0) || (Z.of_nat (length (queue_of qm (bs_name b))) <? qm_max_queue_size qm))
           then queue_of qm (bs_name b) ++ [uuid] else queue_of qm (bs_name b)
       end /\
     forall other, other <> bs_name b -> queue_of qm' other = queue_of qm other) /\
  (candidate = None -> r = None /\ qm' = qm).
Proof.
  unfold try_connect_backend. destruct candidate as [b|]; [|split_and!; [intros name stream; split; [done|by intros (? & ? & _)]|done|done]].
  destruct (enabled && is_full b) eqn:Hfull.
  { apply andb_true_iff in Hfull as [-> Hfull]. cbn [andb]. split_and!.
    - intros name stream. split; [done|]. intros (b' & [= <-] & _ & _ & H). destruct (H eq_refl). congruence.
    - intros b' [= <-]. destruct (queue_of_enqueue qm (bs_name b) uuid) as [-> Ho]. split; [|done]. rewrite Hfull. cbn [andb].
      destruct (decide (uuid ∈ queue_of qm (bs_name b))) as [Hin|Hin].
      + rewrite bool_decide_eq_true_2 by done. cbn [negb andb]. by rewrite app_nil_r.
      + rewrite bool_decide_eq_false_2 by done. cbn [negb andb]. rewrite Z.geb_leb, Z.leb_antisym.
        destruct (qm_max_queue_size qm =? 0); cbn [negb orb andb]; [done|]. destruct (_ <? _); cbn [negb]; by rewrite ?app_nil_r.
    - done. }
  destruct (enabled && negb (is_front_or_unqueued qm (bs_name b) uuid)) eqn:Hfront.
  { apply andb_true_iff in Hfront as [-> Hfront]. cbn [andb] in Hfull. rewrite negb_true_iff in Hfront. split_and!.
    - intros name stream. split; [done|]. intros (b' & [= <-] & <- & _ & H). destruct (H eq_refl) as [_ Hf]. apply front_spec in Hf. congruence.
    - intros b' [= <-]. by rewrite Hfull.
    - done. }
  assert (Hok : enabled = true -> is_full b = false /\ (queue_of qm (bs_name b) = [] \/ exists q, queue_of qm (bs_name b) = uuid :: q)).
  { intros ->. cbn in Hfull, Hfront. split; [done|]. rewrite negb_false_iff in Hfront. by apply front_spec. }
  destruct (dial (bs_name b)) as [stream0|] eqn:Hd; split_and!.
  - intros name stream. split; [intros [= <- <-]; by exists b|]. intros (b' & [= <-] & <- & Hd' & _). congruence.
  - intros b' [= <-]. destruct enabled; [|done]. rewrite queue_of_remove. split; [done|]. intros other Ho. by apply queue_of_remove_other.
  - done.
  - intros name stream. split; [done|]. intros (b' & [= <-] & <- & Hd' & _). congruence.
  - intros b' [= <-]. rewrite Hfull. done.
  - done.
Qed.

(** ** The queue drains *)

(** Polls for a server that stays up and has room: who is let through, in order. *)
Fixpoint polls (b : BackendServer) (dial : bytes -> option bytes) (qm : QueueManager) (us : list bytes) : list bytes * QueueManager :=
  match us with
  | [] => ([], qm)
  | u :: us' =>
      let '(r, qm1) := try_connect_backend true u (Some b) dial qm in
      let '(through, qm2) := polls b dial qm1 us' in
      (match r with Some _ => u :: through | None => through end, qm2)
  end.
(** One sequence of players, and one player in front of it. *)
Fixpoint fifo_polls (q us : list bytes) : list bytes * list bytes :=
  match us with
  | [] => ([], q)
  | u :: us' =>
      match q with
      | [] => let '(through, q2) := fifo_polls [] us' in (u :: through, q2)
      | x :: q' => if decide (u = x) then let '(through, q2) := fifo_polls q' us' in (u :: through, q2) else fifo_polls q us'
      end
  end.

Lemma polls_fifo b dial stream us : is_full b = false -> dial (bs_name b) = Some stream -> forall qm, NoDup (queue_of qm (bs_name b)) ->
  let '(through, qm') := polls b dial qm us in
  fifo_polls (queue_of qm (bs_name b)) us = (through, queue_of qm' (bs_name b)) /\ NoDup (queue_of qm' (bs_name b)).
Proof.
  intros Hfull Hd. induction us as [|u us IH]; intros qm Hnd; [done|]. cbn [polls fifo_polls]. unfold try_connect_backend.
  rewrite Hfull. cbn [andb]. destruct (is_front_or_unqueued qm (bs_name b) u) eqn:Hf; cbn [negb].
  - rewrite Hd. specialize (IH (queue_remove qm (bs_name b) u)). rewrite queue_of_remove in IH.
    apply front_spec in Hf. destruct (polls b dial (queue_remove qm (bs_name b) u) us) as [through qm2].
    destruct Hf as [Hq|[q Hq]]; rewrite Hq in Hnd, IH |- *.
    + rewrite filter_nil in IH. destruct (IH ltac:(by apply NoDup_nil_2)) as [-> ?]. done.
    + apply NoDup_cons in Hnd as [Hu Hnd]. rewrite filter_cons_False in IH by naive_solver.
      assert (Hq' : filter (fun u' => u' <> u) q = q).
      { clear -Hu. induction q as [|y q IH]; [done|]. rewrite not_elem_of_cons in Hu. rewrite filter_cons_True by naive_solver. f_equal. apply IH. naive_solver. }
      rewrite Hq' in IH. rewrite decide_True by done. destruct (IH Hnd) as [-> ?]. done.
  - assert (Hne : ~ (queue_of qm (bs_name b) = [] \/ exists q, queue_of qm (bs_name b) = u :: q)) by (rewrite <- front_spec; congruence).
    specialize (IH qm Hnd). destruct (polls b dial qm us) as [through qm2].
    destruct (queue_of qm (bs_name b)) as [|x q]; [by destruct Hne; left|].
    rewrite decide_False by (intros ->; apply Hne; right; by exists q). done.
Qed.

Lemma fifo_polls_app q us vs :
  fifo_polls q (us ++ vs) = let '(a, q1) := fifo_polls q us in let '(c, q2) := fifo_polls q1 vs in (a ++ c, q2).
Proof.
  revert q. induction us as [|u us IH]; intros q; cbn [app fifo_polls]; [by destruct (fifo_polls q vs)|].
  destruct q as [|x q]; [rewrite IH|destruct (decide (u = x)); rewrite IH].
  1,2: destruct (fifo_polls _ us) as [a q1]; by destruct (fifo_polls q1 vs).
  by destruct (fifo_polls _ us) as [a q1].
Qed.
(** The first to get through are the first of the queue. *)
Lemma fifo_polls_order q us through q' : fifo_polls q us = (through, q') ->
  exists gone extra, q = gone ++ q' /\ through = gone ++ extra /\ (q' <> [] -> extra = []).
Proof.
  revert q through. induction us as [|u us IH]; intros q through; cbn [fifo_polls]; [intros [= <- <-]; by exists [], []|].
  destruct q as [|x q].
  - destruct (fifo_polls [] us) as [t q2] eqn:E. intros [= <- <-]. destruct (IH _ _ E) as (g & ex & Hg & -> & Hn).
    symmetry in Hg. apply app_eq_nil in Hg as [-> ->]. exists [], (u :: ex). split_and!; [done|done|done].
  - destruct (decide (u = x)) as [->|]; [|apply IH]. destruct (fifo_polls q us) as [t q2] eqn:E. intros [= <- <-].
    destruct (IH _ _ E) as (g & ex & -> & -> & Hn). exists (x :: g), ex. done.
Qed.
Lemma fifo_polls_progress x q us : x ∈ us -> (length (fifo_polls (x :: q) us).2 <= length q)%nat.
Proof.
  assert (Hle : forall us' q', (length (fifo_polls q' us').2 <= length q')%nat).
  { intros us' q'. destruct (fifo_polls q' us') as [t q2] eqn:E. apply fifo_polls_order in E as (g & ex & -> & _). cbn. rewrite length_app. lia. }
  induction us as [|u us IH]; [by intros ?%not_elem_of_nil|]. intros [->|Hin]%elem_of_cons; cbn [fifo_polls].
  - rewrite decide_True by done. specialize (Hle us q). by destruct (fifo_polls q us).
  - destruct (decide (u = x)); [|by apply IH]. specialize (Hle us q). by destruct (fifo_polls q us).
Qed.

(** C20: Everyone who waits gets in.  While a server is up, accepts connections and
    has room, let every waiting player poll at least once in each round, in any
    order and mixed with polls by anyone else: after as many rounds as there were
    players waiting the queue is empty, and the first to be let through were those
    players, in the order in which they waited. *)
Theorem limbo_queue_drains (b : BackendServer) (dial : bytes -> option bytes) (stream : bytes) (qm : QueueManager) (rounds : list (list bytes)) :
  is_full b = false -> dial (bs_name b) = Some stream -> NoDup (queue_of qm (bs_name b)) ->
  length rounds = length (queue_of qm (bs_name b)) -> Forall (fun round => queue_of qm (bs_name b) ⊆ round) rounds ->
  exists others, (polls b dial qm (concat rounds)).1 = queue_of qm (bs_name b) ++ others /\
    queue_of (polls b dial qm (concat rounds)).2 (bs_name b) = [].
Proof.
  intros Hfull Hd Hnd Hlen Hall. pose proof (polls_fifo b dial stream (concat rounds) Hfull Hd qm Hnd) as Hp.
  destruct (polls b dial qm (concat rounds)) as [through qm']. destruct Hp as [Hf _]. cbn [fst snd].
  assert (Hempty : queue_of qm' (bs_name b) = []).
  { assert (Hgen : forall rounds q q0, q ⊆ q0 -> (length q <= length rounds)%nat -> Forall (fun round => q0 ⊆ round) rounds ->
        (fifo_polls q (concat rounds)).2 = []).
    { clear. induction rounds as [|round rounds IH]; intros q q0 Hsub Hl Hall; [destruct q; cbn in Hl; [done|lia]|].
      apply Forall_cons in Hall as [Hr Hall]. cbn [concat]. rewrite fifo_polls_app.
      destruct (fifo_polls q round) as [a q1] eqn:E. pose proof (fifo_polls_order _ _ _ _ E) as (g & ex & -> & _ & _).
      destruct (fifo_polls q1 (concat rounds)) as [c q2] eqn:E2. cbn [snd].
      assert (H2 : (fifo_polls q1 (concat rounds)).2 = []); [|by rewrite E2 in H2].
      apply (IH q1 q0); [set_solver| |done]. destruct (g ++ q1) as [|x q] eqn:Eq; [apply app_eq_nil in Eq as [_ ->]; cbn; lia|].
      pose proof (fifo_polls_progress x q round ltac:(set_solver)) as Hprog. rewrite E in Hprog. cbn in Hprog, Hl. lia. }
    specialize (Hgen rounds _ (queue_of qm (bs_name b)) ltac:(done) ltac:(lia) Hall). by rewrite Hf in Hgen. }
  apply fifo_polls_order in Hf as (g & ex & Hq & -> & _). rewrite Hempty, app_nil_r in Hq. subst g. by exists ex.
Qed.
Definition demo_server (count limit : Z) : BackendServer := sample_backend (lit "lobby") true count limit 1 false.
Lemma limbo_queue_drains_witness :
  let qm := queue_run (queue_new 0) [OpEnqueue (lit "lobby") (lit "a"); OpEnqueue (lit "lobby") (lit "b")] in
  exists others, (polls (demo_server 0 10) (fun _ => Some []) qm [lit "b"; lit "a"; lit "c"; lit "b"; lit "a"]).1 = [lit "a"; lit "b"] ++ others /\
    queue_of (polls (demo_server 0 10) (fun _ => Some []) qm [lit "b"; lit "a"; lit "c"; lit "b"; lit "a"]).2 (lit "lobby") = [].
Proof.
  apply (limbo_queue_drains (demo_server 0 10) (fun _ => Some []) []
    (queue_run (queue_new 0) [OpEnqueue (lit "lobby") (lit "a"); OpEnqueue (lit "lobby") (lit "b")])
    [[lit "b"; lit "a"]; [lit "c"; lit "b"; lit "a"]]).
  - reflexivity.
  - reflexivity.
  - match goal with |- ?P => apply (bool_decide_eq_true_1 P) end. vm_compute. reflexivity.
  - vm_compute. reflexivity.
  - match goal with |- ?P => apply (bool_decide_eq_true_1 P) end. vm_compute. reflexivity.
Defined.

(** A player who left while at the front of a queue, without being taken out of it,
    keeps everyone else out for ever: whatever the load of the server and whoever
    polls, nobody else is let through. *)
Theorem departed_player_blocks_queue (absent server : bytes) (qs : list (bytes * BackendServer * (bytes -> option bytes))) :
  Forall (fun '(uuid, b, _) => uuid <> absent /\ bs_name b = server) qs -> forall qm q, queue_of qm server = absent :: q ->
  let run := fold_left (fun '(through, qm) '(uuid, b, dial) =>
    let '(r, qm') := try_connect_backend true uuid (Some b) dial qm in (match r with Some x => through ++ [x] | None => through end, qm')) qs ([], qm) in
  run.1 = [] /\ exists q', queue_of run.2 server = absent :: q'.
Proof.
  induction qs as [|[[uuid b] dial] qs IH]; intros Hall qm q Hq; [by split; [|exists q]|].
  apply Forall_cons in Hall as [[Hne Hb] Hall]. cbv zeta. cbn [fold_left].
  assert (Hs : exists qm' q', try_connect_backend true uuid (Some b) dial qm = (None, qm') /\ queue_of qm' server = absent :: q').
  { unfold try_connect_backend. cbn [andb]. rewrite Hb. destruct (is_full b).
    - destruct (queue_of_enqueue qm server uuid) as [He _]. rewrite Hq in He. cbn [app] in He. eauto.
    - destruct (is_front_or_unqueued qm server uuid) eqn:E; [|by cbn [negb]; eauto].
      apply front_spec in E as [E|[? E]]; rewrite Hq in E; [done|]. by injection E as <-. }
  destruct Hs as (qm' & q' & -> & Hq'). exact (IH Hall qm' q' Hq').
Qed.

(** The number of players of a server is raised only when the login has completed,
    after the poll: two players who wait for its last place are both let through. *)
Theorem last_place_taken_twice :
  let qm := queue_run (queue_new 0) [OpEnqueue (lit "lobby") (lit "a"); OpEnqueue (lit "lobby") (lit "b")] in
  (polls (demo_server 9 10) (fun _ => Some []) qm [lit "a"; lit "b"]).1 = [lit "a"; lit "b"].
Proof. vm_compute. reflexivity. Qed.

(** ** Reading in limbo *)

(** A read for its effect only. *)
Definition erased {A} (r : outcome ConnectionError A * bytes) : outcome ConnectionError unit * bytes :=
  (match r.1 with Ok _ => Ok tt | Err e => Err e | Panic => Panic | NoFuel => NoFuel end, r.2).

(** The ids both readers of 1.6 packets know, and those only the relay knows. *)
Definition SHARED_IDS : list Z := [0x00; 0x03; 0x07; 0x0A; 0x0B; 0x0C; 0x0D; 0x0E; 0x10; 0x12; 0x13; 0xCA; 0xCB; 0xCC; 0xCD; 0xFA; 0xFF].
Definition RELAY_ONLY_IDS : list Z := [0x0F; 0x16; 0x65; 0x66; 0x6A; 0x82].

Ltac same_reads := unfold ret; cbv beta iota; repeat (match goal with
  | |- context [read_exact ?n ?s] => destruct (read_exact n s) as [[?|?| |] ?]; cbv beta iota; try reflexivity
  | |- context [if ?c then _ else _] => destruct c
  end); try reflexivity.

Lemma discard_shared id rest : id ∈ SHARED_IDS ->
  (match id with
   | 0x00 => consume 4 | 0x03 => read_ucs2_string;; ret tt | 0x07 => consume 9 | 0x0A => consume 1 | 0x0B => consume 33
   | 0x0C => consume 9 | 0x0D => consume 41 | 0x0E => consume 11 | 0x10 => consume 2 | 0x12 => consume 5 | 0x13 => consume 9
   | 0xCA => consume 9 | 0xCB => read_ucs2_string;; ret tt | 0xCC => read_ucs2_string;; consume 4 | 0xCD => consume 1
   | 0xFA =>
       read_ucs2_string;;
       let! data_len_buf := read_exact 2 in
       let data_len := Z.max (i16_from_be data_len_buf) 0 in
       if data_len >? 0 then consume (Z.to_nat data_len) else ret tt
   | 0xFE => consume 1 | 0xFF => read_ucs2_string;; ret tt
   | other => fail (CE_Protocol (Io KInvalidData (String.append "unknown pre-netty packet id 0x" (hex2 other))))
   end) rest = erased (read_pre_netty_body id [zb id] rest).
Proof.
  intros Hin. repeat (apply elem_of_cons in Hin as [->|Hin]; [
    unfold read_pre_netty_body, fixed_len, read_ucs2_into, read_into, consume, read_ucs2_string, erased, bind; same_reads|]).
  by apply not_elem_of_nil in Hin.
Qed.

(** Limbo and the relay agree on where 1.6 packets end.  A packet with an id both
    know is dropped in limbo by reading exactly the bytes the relay would read, on
    truncated streams too; six ids the relay passes on (placing a block, the
    inventory, a sign) make limbo give up with an error. *)
Theorem limbo_discard_agrees (b : byte) (rest : bytes) :
  (bz b ∈ SHARED_IDS -> read_and_discard_pre_netty (b :: rest) = erased (read_pre_netty_packet (b :: rest))) /\
  (bz b ∈ RELAY_ONLY_IDS ->
     read_and_discard_pre_netty (b :: rest) = (Err (CE_Protocol (Io KInvalidData (String.append "unknown pre-netty packet id 0x" (hex2 (bz b))))), rest) /\
     gone (CE_Protocol (Io KInvalidData (String.append "unknown pre-netty packet id 0x" (hex2 (bz b))))) = false).
Proof.
  assert (Hr : read_and_discard_pre_netty (b :: rest) = bind read_u8 (fun id => _) (b :: rest)) by reflexivity.
  split; intros Hin; rewrite Hr, (bind_ok _ _ _ _ _ (read_u8_cons b rest)).
  - rewrite discard_shared by done. unfold read_pre_netty_packet, read_into at 1.
    rewrite (bind_ok _ _ _ [b] rest) by (unfold read_exact; cbn; by rewrite drop_0). cbn [app].
    by rewrite zb_bz, be_val_cons, Z.pow_0_r, Z.mul_1_r, Z.add_0_r.
  - split; [|done]. revert Hin. generalize (bz b) as id. intros id Hin.
    repeat (apply elem_of_cons in Hin as [->|Hin]; [reflexivity|]). by apply not_elem_of_nil in Hin.
Qed.
Lemma limbo_discard_agrees_witness :
  read_and_discard_pre_netty [xcc; x00; x01; x00; x65; x01; x02; x03; x04; x0a] = (Ok tt, [x0a]) /\
  gone (CE_Protocol (Io KInvalidData (String.append "unknown pre-netty packet id 0x" (hex2 0x0F)))) = false.
Proof.
  split.
  - rewrite (proj1 (limbo_discard_agrees xcc [x00; x01; x00; x65; x01; x02; x03; x04; x0a])); [vm_compute; reflexivity|].
    match goal with |- ?P => apply (bool_decide_eq_true_1 P) end. vm_compute. reflexivity.
  - apply (proj2 (limbo_discard_agrees x0f [])). match goal with |- ?P => apply (bool_decide_eq_true_1 P) end. vm_compute. reflexivity.
Defined.

(** ** Staying in step with the client *)

Section InStep.
Variable deflate : bytes -> bytes.
Variable order : entries -> entries.
Variable files : DimFiles.
Variable json_parse : bytes -> option Value.
Variable json_text : Value -> bytes.
Variable lh : LimboHandler.
Local Abbreviation event := (limbo_event deflate order files json_parse json_text lh).
Local Abbreviation loop := (limbo_loop deflate order files json_parse json_text lh).

(** The pending read had taken nothing. *)
Definition uncut (e : LimboEvent) : Prop :=
  match e with PollTick cut _ _ _ | KeepAliveTick cut _ _ | ShutdownNotified cut => cut = 0%nat | ClientPacket => True end.
Definition packets_read (es : list LimboEvent) : nat :=
  length (List.filter (fun e => match e with ClientPacket => true | _ => false end) es).

(** [m] leaves what the client has still to say alone. *)
Definition keeps_client {A} (m : L A) : Prop := forall s, client (ls_wires (m s).2) = client (ls_wires s).
Lemma keeps_client_bind {A B} (m : L A) (k : A -> L B) : keeps_client m -> (forall a, keeps_client (k a)) -> keeps_client (bind m k).
Proof. intros Hm Hk s. unfold bind. specialize (Hm s). destruct (m s) as [[a|e| |] s']; cbn in *; rewrite ?Hk; done. Qed.
Lemma keeps_client_emit bs : keeps_client (on_wires (emit_client bs)).
Proof. intros [w q k]. by destruct w as [? [? [[|?]|]] ? ? ? ? ?]. Qed.
Lemma keeps_client_send pkt : keeps_client (on_wires (send_built deflate lh pkt)).
Proof. destruct pkt as [p|]; [apply keeps_client_emit|by intros [? ? ?]]. Qed.
Lemma keeps_client_position servers draw : keeps_client (send_queue_position_update deflate json_parse json_text lh servers draw).
Proof.
  intros s. unfold send_queue_position_update. destruct (negb _); [done|]. destruct (candidate_backend _ _ _ _) as [b|]; [|done].
  destruct (queue_position _ _ _) as [pos|]; [|done]. unfold on_wires, bind, raw_packet, lift.
  destruct (map_err _ _) as [raw|e| |]; try by destruct s. apply (keeps_client_emit _ s).
Qed.
Lemma cancel_nothing s : cancel_read 0 s = (Ok tt, s).
Proof. destruct s as [[? ? ? ? ? ? ?] ? ?]. reflexivity. Qed.

Lemma uncut_keeps_client e : uncut e -> e <> ClientPacket -> keeps_client (event e).
Proof.
  intros Hu Hne s. destruct e as [cut servers draw dial|cut servers draw|cut|]; [..|done]; cbn in Hu; subst cut; cbn [limbo_event];
    rewrite (bind_ok _ _ _ _ _ (cancel_nothing s)).
  - apply keeps_client_bind; [intros s1; unfold poll; by destruct (try_connect_backend _ _ _ _ _)|]. intros [b|]; [|by intros s1].
    apply keeps_client_bind; [destruct (has_bossbar lh); [apply keeps_client_send|by intros s1]|]. intros _.
    apply keeps_client_bind; [apply keeps_client_send|]. by intros _ s1.
  - apply keeps_client_bind; [by intros s1|]. intros _. apply keeps_client_bind; [intros s1; apply keeps_client_send|]. intros _.
    apply keeps_client_bind; [apply keeps_client_position|]. by intros _ s1.
  - apply keeps_client_bind; [by intros [? ? ?]|]. intros raw. apply keeps_client_bind; [intros s1; apply keeps_client_emit|]. by intros _ s1.
Qed.

Lemma loop_in_step es : Forall uncut es -> is_pre_netty_proto (lh_proto lh) = false -> forall ps rest s s',
  Forall body_ok ps -> client (ls_wires s) = concat (map encode_frame ps) ++ rest -> (packets_read es <= length ps)%nat ->
  loop es s = (Ok None, s') -> client (ls_wires s') = concat (map encode_frame (drop (packets_read es) ps)) ++ rest.
Proof.
  intros Hes Hp. induction Hes as [|e es He _ IH]; intros ps rest s s' Hps Hc Hl; [by intros [= <-]|].
  cbn [limbo_loop]. intros H. apply bind_inv_ok in H as (r & s1 & Hev & H). destruct r as [b|]; [done|].
  assert (e = ClientPacket \/ (e <> ClientPacket /\ packets_read (e :: es) = packets_read es)) as [->|[Hne Hn]]
    by (destruct e; [right; by split..|by left]).
  - cbn in Hl |- *. destruct ps as [|p ps]; [cbn in Hl; lia|]. apply Forall_cons in Hps as [Hpok Hps].
    cbn [limbo_event] in Hev. apply bind_inv_ok in Hev as ([] & s2 & Hr & [= <-]).
    apply (IH ps rest s2 s' Hps); [|cbn in Hl; unfold packets_read; lia|done].
    unfold on_wires, on_client, read_and_discard in Hr. rewrite Hp, Hc in Hr. cbn [map concat] in Hr. rewrite <- app_assoc in Hr.
    rewrite (bind_ok _ _ _ _ _ (reads_frame p Hpok _)) in Hr. injection Hr as <-. done.
  - rewrite Hn in Hl |- *. apply (IH ps rest s1 s' Hps); [|done|done].
    pose proof (uncut_keeps_client e He Hne s) as Hk. rewrite Hev in Hk. cbn in Hk. by rewrite Hk.
Qed.
End InStep.

(** Limbo reads packet by packet.  As long as no timer interrupts a read that
    has begun, the loop consumes the client's stream in whole packets, one per
    client event, whatever is polled, sent and queued in between. *)
Theorem limbo_in_step (deflate : bytes -> bytes) (order : entries -> entries) (files : DimFiles) (json_parse : bytes -> option Value)
    (json_text : Value -> bytes) (lh : LimboHandler) (es : list LimboEvent) (ps : list bytes) (rest : bytes) (s s' : LimboState) :
  Forall uncut es -> is_pre_netty_proto (lh_proto lh) = false -> Forall body_ok ps ->
  client (ls_wires s) = concat (map encode_frame ps) ++ rest -> (packets_read es <= length ps)%nat ->
  limbo_loop deflate order files json_parse json_text lh es s = (Ok None, s') ->
  client (ls_wires s') = concat (map encode_frame (drop (packets_read es) ps)) ++ rest.
Proof. intros. by eapply loop_in_step. Qed.

Definition demo_handler (proto : Z) : LimboHandler :=
  mkLimboHandler proto NO_COMPRESSION MK_Vanilla (Some (lit "lobby")) false false (lit "u") (mkLimboCustomization None None None) true [] (mkRouting [] [] []).
Definition demo_files : DimFiles := mkDimFiles [] [] [] [] [] [] [] [].
Definition demo_state (input : bytes) : LimboState :=
  mkLimboState (mkWires input (mkTx [] None) [] (mkTx [] None) MK_Vanilla false false) (queue_new 0) 0.
Definition demo_loop (proto : Z) (es : list LimboEvent) (input : bytes) : bytes :=
  client (ls_wires (limbo_loop stored id demo_files (fun _ => None) (fun _ => []) (demo_handler proto) es (demo_state input)).2).
Lemma limbo_in_step_witness :
  demo_loop 340 [ClientPacket; PollTick 0 [] id (fun _ => None); ClientPacket] (concat (map encode_frame [[x0b; x01]; [x0c]; [x0d]])) = encode_frame [x0d].
Proof.
  unfold demo_loop. rewrite <- (app_nil_r (encode_frame [x0d])).
  change (encode_frame [x0d] ++ []) with (concat (map encode_frame (drop 2 [[x0b; x01]; [x0c]; [x0d]])) ++ []).
  apply (limbo_in_step stored id demo_files (fun _ => None) (fun _ => []) (demo_handler 340) [ClientPacket; PollTick 0 [] id (fun _ => None); ClientPacket]
    [[x0b; x01]; [x0c]; [x0d]] [] (demo_state (concat (map encode_frame [[x0b; x01]; [x0c]; [x0d]])))).
  - repeat constructor.
  - vm_compute. reflexivity.
  - repeat (apply List.Forall_cons; [vm_compute; discriminate|]). apply List.Forall_nil.
  - reflexivity.
  - vm_compute. lia.
  - vm_compute. reflexivity.
Defined.

(** A timer that fires while a packet is half read drops the half that was read: the
    rest of it is then taken for the next packet.  Here the length and one byte of
    a packet are lost to a poll, and the two reads that follow return at a place
    where no packet of the client ends. *)
Theorem limbo_poll_loses_bytes :
  let said := [[x0b; x02; x09]; [x0c; x01; x01]; [x0d]] in
  (read_and_discard 340 (take 2 (concat (map encode_frame said)))).1 = Err (CE_Io KUnexpectedEof) /\
  demo_loop 340 [PollTick 2 [] id (fun _ => None); ClientPacket] (concat (map encode_frame said)) = [x0c; x01; x01; x01; x0d] /\
  forall k, concat (map encode_frame (drop k said)) <> [x0c; x01; x01; x01; x0d].
Proof.
  split_and!; [vm_compute; reflexivity..|]. intros k. do 3 (destruct k as [|k]; [vm_compute; discriminate|]). destruct k; vm_compute; discriminate.
Qed.

(** A 1.6 client that limbo gives up on is sent its disconnect packet behind the
    length prefix of the modern framing, which 1.6 does not have. *)
Theorem limbo_kick_misframed :
  let r := run stored unstored id demo_files (fun _ => []) (fun _ => None) (fun _ => lit "j") (fun _ => lit "e") (demo_handler 78) [ClientPacket] (demo_state [x0f]) in
  exists raw, build_disconnect_packet (fun _ => None) (lit "j") 78 = Ok raw /\
    last (tx_sent (to_client (ls_wires r.2))) = Some (encode_frame raw) /\ encode_frame raw <> raw /\
    (write_client_packet stored raw 78 NO_COMPRESSION []).2 = raw.
Proof. eexists. split; [vm_compute; reflexivity|]. split; [vm_compute; reflexivity|]. split; [vm_compute; discriminate|]. vm_compute. reflexivity. Qed.
