(* ===== verification/Identity.v ===== *)
(** * Who a player is

    crates/auth/src/mojang_lookup.rs (the account behind a name) and property_sig.rs
    (the signatures on the properties of a profile).  HTTP, JSON, base64, DER keys
    and RSA are parameters. *)
From Stdlib Require Import ZArith Lia Strings.String Strings.Byte.
From stdpp Require Import base list numbers strings.
From S2P Require Import Prelude Buf Wire VarInt Codec Chars Utf8 Auth Transfer.
Local Open Scope Z_scope.
Local Open Scope koja_scope.

(** ** The account behind a name *)

Inductive MojangLookupError := NotFound (name : bytes) | Network (why : bytes) | Parse (why : bytes).

Definition MOJANG_PROFILES : bytes := lit "https://api.mojang.com/users/profiles/minecraft/".

Section Lookup.
(** The GET with a budget of four seconds; the text of its errors. *)
Variable http_get : bytes -> HttpResult.
Variable http_error : bytes.
(** [serde_json::from_str] into the [id] of [MojangProfileLookup], and its error. *)
Variable parse_lookup : bytes -> bytes + bytes.
(** [Uuid::parse_str], and its error. *)
Variable uuid_parse : bytes -> bytes + bytes.

Definition is_success (code : Z) : bool := (200 <=? code) && (code <=? 299).
Definition hyphenate (id : bytes) : bytes :=
  take 8 id ++ [zb 0x2D] ++ take 4 (drop 8 id) ++ [zb 0x2D] ++ take 4 (drop 12 id) ++ [zb 0x2D] ++ take 4 (drop 16 id) ++ [zb 0x2D] ++ drop 20 id.
Definition account_name (trimmed : bytes) : bool := forallb (fun b => is_ascii_alphanumeric b || bool_decide (b = zb 0x5F)) trimmed.
Definition trim_str (s : bytes) : bytes := utf8 (trim (chars_of s)).

(** Slicing [id] off a character boundary panics. *)
Definition resolve_mojang_uuid (username : bytes) : outcome MojangLookupError bytes :=
  let trimmed := trim_str username in
  if bool_decide (trimmed = []) then Err (NotFound username)
  else if negb (account_name trimmed) then Err (NotFound username)
  else
    let of_status code (body : option bytes) :=
      if (code =? 204) || (code =? 404) then Err (NotFound trimmed)
      else if negb (is_success code) then Err (Network (lit "Mojang API returned HTTP " ++ utf8 (show code)))
      else match body with
           | None => Err (Network http_error)
           | Some body =>
               if bool_decide (trim_str body = []) then Err (NotFound trimmed)
               else match parse_lookup body with
                    | inr e => Err (Parse e)
                    | inl id =>
                        if negb (length id =? 32)%nat then Err (Parse (lit "unexpected UUID length " ++ utf8 (show (Z.of_nat (length id))) ++ lit " in Mojang reply"))
                        else if forallb (is_char_boundary id) [8; 12; 16; 20]%nat then
                          match uuid_parse (hyphenate id) with inl u => Ok u | inr e => Err (Parse e) end
                        else Panic
                    end
           end in
    match http_get (MOJANG_PROFILES ++ trimmed) with
    | HttpUnreachable => Err (Network http_error)
    | HttpStatus code body => of_status code (Some body)
    | HttpBodyFailed code => of_status code None
    end.

(** ** Signed properties *)

Inductive PropertySigError := MissingSignature | BadPublicKey (why : bytes) | Base64 (what why : bytes) | RsaVerify (why : bytes).

(** What [thiserror] writes. *)
Definition sig_error_text (e : PropertySigError) : bytes :=
  match e with
  | MissingSignature => lit "property is missing a signature (offline-mode property?)"
  | BadPublicKey why => lit "mojang public key is malformed: " ++ why
  | Base64 what why => lit "base64 decode failed for " ++ what ++ lit ": " ++ why
  | RsaVerify why => lit "RSA verification failed: " ++ why
  end.

(** The length octets behind the tag, most significant first. *)
Definition der_sequence_len (buf : bytes) : option Z :=
  match buf with
  | tag :: first :: rest =>
      if negb (bool_decide (tag = x30)) then None
      else
        let first := bz first in
        if first <? 0x80 then Some (2 + first)
        else
          let n := Z.land first 0x7f in
          if (n =? 0) || (n >? 4) || (Z.of_nat (length rest) <? n) then None
          else Some (2 + n + fold_left (fun len b => Z.lor (wrapu 64 (Z.shiftl len 8)) (bz b)) (take (Z.to_nat n) rest) 0)
  | _ => None
  end.

(** [str::lines]. *)
Fixpoint split_lines (s : chars) : list chars :=
  match s with
  | [] => []
  | c :: s' => if c =? 10 then [] :: split_lines s' else match split_lines s' with [] => [[c]] | l :: ls => (c :: l) :: ls end
  end.
Definition chop_cr (line : chars) : chars := match reverse line with c :: rest => if c =? 13 then reverse rest else line | [] => line end.
Definition starts_dashes (line : chars) : bool := bool_decide (take 5 line = chr "-----").
Definition key_payload (key_str : bytes) : bytes :=
  utf8 (List.filter (fun c => negb (Snbt.is_whitespace c) && negb (c =? 61))
    (concat (List.filter (fun line => negb (starts_dashes line)) (map chop_cr (split_lines (trim (chars_of key_str))))))).

Context {PublicKey : Type}.
Variable b64_decode : bytes -> bytes + bytes.
Variable from_public_key_der : bytes -> PublicKey + bytes.
(** PKCS#1 v1.5 over a SHA-1 digest: the error, if any. *)
Variable rsa_verify : PublicKey -> bytes -> bytes -> option bytes.
Variable sha1 : bytes -> bytes.

Definition parse_mojang_public_key (key_str : bytes) : PublicKey + PropertySigError :=
  match b64_decode (key_payload key_str) with
  | inr e => inr (Base64 (lit "mojang_public_key") e)
  | inl der =>
      let der := match der_sequence_len der with
                 | Some len => if len <=? Z.of_nat (length der) then take (Z.to_nat len) der else der
                 | None => der
                 end in
      match from_public_key_der der with inl k => inl k | inr e => inr (BadPublicKey e) end
  end.

Definition verify_property (property : ProfileProperty) (mojang_key : PublicKey) (require_signature : bool) : option PropertySigError :=
  match pp_signature property with
  | None => if require_signature then Some MissingSignature else None
  | Some sig_b64 =>
      match b64_decode sig_b64 with
      | inr e => Some (Base64 (lit "signature") e)
      | inl sig => match rsa_verify mojang_key (sha1 (pp_value property)) sig with Some e => Some (RsaVerify e) | None => None end
      end
  end.

Fixpoint verify_properties_loop (verified : nat) (properties : list ProfileProperty) (mojang_key : PublicKey) (require_signature : bool) : nat + PropertySigError :=
  match properties with
  | [] => inl verified
  | prop :: properties' =>
      match verify_property prop mojang_key require_signature with
      | Some e => inr e
      | None => verify_properties_loop (S verified) properties' mojang_key require_signature
      end
  end.
Definition verify_properties (properties : list ProfileProperty) (mojang_key : PublicKey) (require_signature : bool) : nat + PropertySigError :=
  verify_properties_loop 0 properties mojang_key require_signature.
End Lookup.

(** ** Theorems *)

(** The length of a DER element: short, or long in [k] octets. *)
Definition der_length (k : nat) (n : Z) : bytes := match k with O => [zb n] | _ => zb (0x80 + Z.of_nat k) :: be_bytes k n end.
Definition der_length_ok (k : nat) (n : Z) : Prop := match k with O => 0 <= n < 0x80 | _ => (k <= 4)%nat /\ 0 <= n < 256 ^ Z.of_nat k end.

Lemma lor_shift_add a b : 0 <= b < 256 -> Z.lor (Z.shiftl a 8) b = a * 256 + b.
Proof. intros Hb. rewrite Z.shiftl_mul_pow2 by lia. rewrite Z.lor_comm, (lor_disjoint b a 8) by (cbn; lia). cbn. lia. Qed.

Lemma length_octets bs a : 0 <= a -> a * 256 ^ Z.of_nat (length bs) + be_val bs < 2 ^ 64 ->
  fold_left (fun len b => Z.lor (wrapu 64 (Z.shiftl len 8)) (bz b)) bs a = a * 256 ^ Z.of_nat (length bs) + be_val bs.
Proof.
  revert a. induction bs as [|b bs IH]; intros a Ha Hlt; [cbn; lia|]. cbn [fold_left]. cbn [length] in *.
  rewrite be_val_cons in *. rewrite Nat2Z.inj_succ, Z.pow_succ_r in * by lia.
  pose proof (bz_range b). pose proof (be_val_range bs). set (p := 256 ^ Z.of_nat (length bs)) in *. assert (0 < p) by (apply Z.pow_pos_nonneg; lia).
  assert (Hs : a * 256 < 2 ^ 64) by nia.
  replace (wrapu 64 (Z.shiftl a 8)) with (Z.shiftl a 8) by (rewrite Z.shiftl_mul_pow2 by lia; change (2 ^ 8) with 256; unfold wrapu; rewrite Z.mod_small; lia).
  rewrite lor_shift_add by done. rewrite IH; [|lia|]; fold p; nia.
Qed.

Lemma der_len_spec k n rest : der_length_ok k n -> der_sequence_len (x30 :: der_length k n ++ rest) = Some (1 + Z.of_nat (length (der_length k n)) + n).
Proof.
  intros Hn. destruct k as [|k].
  - cbn in Hn. cbn [der_length app der_sequence_len length]. rewrite bool_decide_eq_true_2 by done. cbn [negb]. rewrite bz_zb, Z.mod_small by lia.
    replace (n <? 128) with true by lia. f_equal; lia.
  - destruct Hn as [Hk Hn]. set (w := S k) in *. assert (Hw : (1 <= w)%nat) by (unfold w; lia). replace (der_length w n) with (zb (0x80 + Z.of_nat w) :: be_bytes w n) by done.
    cbn [app der_sequence_len length]. rewrite bool_decide_eq_true_2 by done. cbn [negb]. rewrite bz_zb, Z.mod_small by lia.
    replace (128 + Z.of_nat w <? 128) with false by lia.
    assert (Hland : Z.land (128 + Z.of_nat w) 127 = Z.of_nat w) by (clear -Hk; assert (w = 0 \/ w = 1 \/ w = 2 \/ w = 3 \/ w = 4)%nat as [-> |[-> |[-> |[-> | ->]]]] by lia; done).
    rewrite Hland, length_app, length_be_bytes.
    match goal with |- context [if ?b then None else _] => assert (Hb : b = false) by (clearbody w; clear - Hk Hw; rewrite Z.gtb_ltb; repeat (apply orb_false_iff; split); first [apply Z.eqb_neq|apply Z.ltb_ge]; lia); rewrite Hb end.
    rewrite Nat2Z.id, take_app_length' by (by rewrite length_be_bytes).
    assert (Hp : 256 ^ Z.of_nat w <= 256 ^ 4) by (apply Z.pow_le_mono_r; lia).
    rewrite length_octets; [|lia|]; rewrite ?length_be_bytes, ?be_val_bytes, ?Z.mod_small by lia; [f_equal; lia|lia].
Qed.

Section Keys.
Context {PublicKey : Type}.
Variable b64_decode : bytes -> bytes + bytes.
Variable from_public_key_der : bytes -> PublicKey + bytes.
Variable rsa_verify : PublicKey -> bytes -> bytes -> option bytes.
Variable sha1 : bytes -> bytes.

(** The length of a DER sequence decides what is read of the configured key: for
    every content and every form of the length octets the code accepts, whatever
    follows the sequence in the decoded text is dropped and exactly the sequence is
    parsed. *)
Theorem key_trailing_junk (key_str content junk : bytes) (k : nat) :
  let der := x30 :: der_length k (Z.of_nat (length content)) ++ content in
  der_length_ok k (Z.of_nat (length content)) -> b64_decode (key_payload key_str) = inl (der ++ junk) ->
  parse_mojang_public_key b64_decode from_public_key_der key_str =
    match from_public_key_der der with inl key => inl key | inr e => inr (BadPublicKey e) end.
Proof.
  intros der Hk Hb. unfold parse_mojang_public_key. rewrite Hb. unfold der.
  replace ((x30 :: der_length k (Z.of_nat (length content)) ++ content) ++ junk) with (x30 :: der_length k (Z.of_nat (length content)) ++ (content ++ junk)) by (cbn; by rewrite <- app_assoc).
  rewrite der_len_spec by done. cbn [length]. rewrite !length_app.
  match goal with |- context [if ?b then _ else _] => replace b with true by (symmetry; apply Z.leb_le; lia) end.
  match goal with |- context [take ?n ?l] => replace (take n l) with (x30 :: der_length k (Z.of_nat (length content)) ++ content); [done|] end.
  replace (Z.to_nat _) with (S (length (der_length k (Z.of_nat (length content))) + length content)) by lia.
  cbn [take]. f_equal. rewrite app_assoc, take_app_length' by (by rewrite length_app). done.
Qed.

Definition signed_by (key : PublicKey) (p : ProfileProperty) : Prop :=
  exists sig_b64 sig, pp_signature p = Some sig_b64 /\ b64_decode sig_b64 = inl sig /\ rsa_verify key (sha1 (pp_value p)) sig = None.
Lemma verify_property_spec key p : verify_property b64_decode rsa_verify sha1 p key true = None <-> signed_by key p.
Proof.
  unfold verify_property, signed_by. destruct (pp_signature p) as [s|]; [|split; [done|by intros (? & ? & ? & _)]].
  destruct (b64_decode s) as [sig|e] eqn:Eb; [|split; [done|intros (s' & sig & [= <-] & H & _); congruence]].
  destruct (rsa_verify key (sha1 (pp_value p)) sig) eqn:Er; [split; [done|]|split; [intros _; by exists s, sig|done]].
  intros (s' & sig' & [= <-] & H & H'). rewrite Eb in H. injection H as <-. congruence.
Qed.
Lemma verify_loop_spec n key ps : match verify_properties_loop b64_decode rsa_verify sha1 n ps key true with
  | inl m => m = (n + length ps)%nat /\ Forall (signed_by key) ps
  | inr e => exists good p bad, ps = good ++ p :: bad /\ Forall (signed_by key) good /\ ~ signed_by key p /\ verify_property b64_decode rsa_verify sha1 p key true = Some e
  end.
Proof.
  revert n. induction ps as [|p ps IH]; intros n; cbn [verify_properties_loop length]; [split; [lia|done]|].
  destruct (verify_property _ _ _ p key true) as [e|] eqn:E.
  - exists [], p, ps. split_and!; try done. rewrite <- verify_property_spec, E. done.
  - specialize (IH (S n)). apply verify_property_spec in E. destruct (verify_properties_loop _ _ _ _ ps key true) as [m|e].
    + destruct IH as [-> Hf]. split; [lia|by apply List.Forall_cons].
    + destruct IH as (good & p' & bad & -> & Hg & Hb & He). exists (p :: good), p', bad. split_and!; try done. by apply List.Forall_cons.
Qed.

(** In online mode a profile passes exactly when every property carries a
    signature that decodes and holds for the SHA-1 of its value; the answer is then
    their number, and otherwise the error of the first property that fails. *)
Theorem properties_all_signed (key : PublicKey) (ps : list ProfileProperty) :
  let r := verify_properties b64_decode rsa_verify sha1 ps key true in
  (r = inl (length ps) <-> Forall (signed_by key) ps) /\
  (forall e, r = inr e -> exists good p bad, ps = good ++ p :: bad /\ Forall (signed_by key) good /\ ~ signed_by key p /\
     verify_property b64_decode rsa_verify sha1 p key true = Some e).
Proof.
  intros r. unfold r, verify_properties. pose proof (verify_loop_spec 0 key ps) as H. destruct (verify_properties_loop _ _ _ 0 ps key true) as [m|e].
  - destruct H as [-> H]. split; [by split|done].
  - destruct H as (good & p & bad & -> & Hg & Hb & He). split; [split; [done|]|].
    + intros Hf. apply Forall_app in Hf as [_ Hf]. apply Forall_cons in Hf as [Hp _]. done.
    + intros e' [= <-]. exists good, p, bad. done.
Qed.
End Keys.

(** The account lookup.  A name is only ever asked for when, trimmed, it consists of
    letters, digits and underscores, so it is one path segment of the URL and
    nothing else; an id is only answered for a reply with a success status other
    than 204 whose body names a 32-byte id that parses with its hyphens put back;
    and everything that is not a 204, a 404, an empty body or a malformed name is
    not taken for a missing account. *)
Theorem lookup_sound (http_get : bytes -> HttpResult) (http_error : bytes) (parse_lookup uuid_parse : bytes -> bytes + bytes) (username : bytes) :
  let name := trim_str username in
  let r := resolve_mojang_uuid http_get http_error parse_lookup uuid_parse username in
  (forall http_get', (name = [] \/ account_name name = false \/ http_get' (MOJANG_PROFILES ++ name) = http_get (MOJANG_PROFILES ++ name)) ->
     resolve_mojang_uuid http_get' http_error parse_lookup uuid_parse username = r) /\
  (forall u, r = Ok u -> name <> [] /\ account_name name = true /\
     exists code body id, http_get (MOJANG_PROFILES ++ name) = HttpStatus code body /\ is_success code = true /\ code <> 204 /\
       parse_lookup body = inl id /\ length id = 32%nat /\ uuid_parse (hyphenate id) = inl u) /\
  (forall n, r = Err (NotFound n) -> name = [] \/ account_name name = false \/
     exists code, (exists body, http_get (MOJANG_PROFILES ++ name) = HttpStatus code body /\ (code = 204 \/ code = 404 \/ trim_str body = [])) \/
       (http_get (MOJANG_PROFILES ++ name) = HttpBodyFailed code /\ (code = 204 \/ code = 404))).
Proof.
  intros name r. unfold r, resolve_mojang_uuid. fold name.
  destruct (bool_decide_reflect (name = [])) as [E|Hne]; [split_and!; [done..|by left]|].
  destruct (account_name name) eqn:Ea; cbn [negb]; [|split_and!; [done..|by right; left]]. split.
  - intros get' [H|[H|H]]; [done..|]. by rewrite H.
  - destruct (http_get (MOJANG_PROFILES ++ name)) as [|code body|code] eqn:Eh; [done| |].
    + destruct ((code =? 204) || (code =? 404)) eqn:Ec.
      { split; [done|]. intros n _. right; right. exists code. left. exists body. split; [done|]. apply orb_true_iff in Ec as [Ec|Ec]; apply Z.eqb_eq in Ec; auto. }
      apply orb_false_iff in Ec as [Ec1 Ec2]. apply Z.eqb_neq in Ec1, Ec2.
      destruct (is_success code) eqn:Es; cbn [negb]; [|done].
      destruct (bool_decide_reflect (trim_str body = [])) as [Eb|Hb].
      { split; [done|]. intros n _. right; right. exists code. left. exists body. auto. }
      destruct (parse_lookup body) as [id|e] eqn:Ep; [|done]. destruct (length id =? 32)%nat eqn:El; cbn [negb]; [|done].
      destruct (forallb _ _); [|done]. destruct (uuid_parse (hyphenate id)) as [u|e] eqn:Eu; [|done]. split; [|done].
      intros u' [= <-]. split_and!; [done..|]. exists code, body, id. apply Nat.eqb_eq in El. done.
    + destruct ((code =? 204) || (code =? 404)) eqn:Ec; [|by destruct (is_success code)].
      split; [done|]. intros n _. right; right. exists code. right. split; [done|]. apply orb_true_iff in Ec as [Ec|Ec]; apply Z.eqb_eq in Ec; auto.
Qed.

(** A reply whose id is 32 bytes of something other than ASCII panics the task that
    asked. *)
Theorem lookup_panics_on_reply :
  resolve_mojang_uuid (fun _ => HttpStatus 200 (lit "{}")) [] (fun _ => inl (lit "0000000" ++ [xc3; xa9] ++ lit "00000000000000000000000")) inl (lit "Steve") = Panic.
Proof. vm_compute. reflexivity. Qed.

Lemma lookup_sound_witness :
  let get url := if bool_decide (url = MOJANG_PROFILES ++ lit "Steve") then HttpStatus 200 (lit "{}") else HttpUnreachable in
  let id := replicate 32 (zb 0x61) in
  resolve_mojang_uuid get [] (fun _ => inl id) inl (lit " Steve ") = Ok (hyphenate id) /\
  (exists code body id', get (MOJANG_PROFILES ++ trim_str (lit " Steve ")) = HttpStatus code body /\ is_success code = true /\ code <> 204 /\
     inl id = (inl id' : bytes + bytes) /\ length id' = 32%nat /\ inl (hyphenate id') = (inl (hyphenate id) : bytes + bytes)) /\
  resolve_mojang_uuid (fun _ => HttpUnreachable) [] (fun _ => inl id) inl (lit "a/b") = Err (NotFound (lit "a/b")).
Proof.
  cbv zeta. set (get := fun url => if bool_decide (url = MOJANG_PROFILES ++ lit "Steve") then HttpStatus 200 (lit "{}") else HttpUnreachable).
  assert (H : resolve_mojang_uuid get [] (fun _ => inl (replicate 32 (zb 0x61))) inl (lit " Steve ") = Ok (hyphenate (replicate 32 (zb 0x61)))) by (vm_compute; reflexivity).
  split; [exact H|]. split; [|vm_compute; reflexivity].
  destruct (lookup_sound get [] (fun _ => inl (replicate 32 (zb 0x61))) inl (lit " Steve ")) as (_ & Hok & _).
  destruct (Hok _ H) as (_ & _ & code & body & id' & H1 & H2 & H3 & H4 & H5 & H6). exists code, body, id'. split_and!; assumption.
Defined.

Lemma key_trailing_junk_witness :
  let der := [x30; x81; x02; x05; x00] in
  parse_mojang_public_key (fun s => inl (der ++ [x07])) (fun d => inl d) (lit "-----BEGIN PUBLIC KEY-----") = inl der.
Proof.
  cbv zeta. apply (key_trailing_junk (fun s => inl ([x30; x81; x02; x05; x00] ++ [x07])) (fun d => inl d) (lit "-----BEGIN PUBLIC KEY-----") [x05; x00] [x07] 1).
  - cbn. lia.
  - reflexivity.
Defined.
