(* ===== verification/Cipher.v ===== *)
(** * The ciphers of the proxy's own channels

    crates/proxy-core/src/security/encryption.rs: three AEAD ciphers whose nonce is
    a base nonce mixed with a message counter, the post-quantum KEM with AES-256-GCM,
    and the registry that dispatches on the algorithm of a key.  The primitives of
    the RustCrypto crates and the operating system's randomness are parameters
    ([Crypto]) with the laws their documentation gives ([CryptoLaws]). *)
From Stdlib Require Import ZArith Lia Strings.String Strings.Byte.
From stdpp Require Import base list gmap numbers strings.
From S2P Require Import Prelude Buf Chars Utf8.
Local Open Scope Z_scope.
Local Open Scope koja_scope.

(** ** Algorithms and keys *)

Inductive EncryptionAlgorithm := Aes256Gcm | ChaCha20Poly1305 | XChaCha20Poly1305 | PostQuantumKem | Custom (id : Z).

#[export] Instance algorithm_eq_dec : EqDecision EncryptionAlgorithm.
Proof. solve_decision. Defined.
#[export] Instance algorithm_countable : Countable EncryptionAlgorithm.
Proof.
  refine (inj_countable' (fun a => match a with Aes256Gcm => inl 0%nat | ChaCha20Poly1305 => inl 1%nat | XChaCha20Poly1305 => inl 2%nat
                                      | PostQuantumKem => inl 3%nat | Custom id => inr id end)
    (fun c => match c with inl 0%nat => Aes256Gcm | inl 1%nat => ChaCha20Poly1305 | inl 2%nat => XChaCha20Poly1305
                      | inl _ => PostQuantumKem | inr id => Custom id end) _).
  by intros [].
Defined.

(** [{:?}]. *)
Definition debug_algorithm (a : EncryptionAlgorithm) : bytes :=
  match a with
  | Aes256Gcm => lit "Aes256Gcm" | ChaCha20Poly1305 => lit "ChaCha20Poly1305" | XChaCha20Poly1305 => lit "XChaCha20Poly1305"
  | PostQuantumKem => lit "PostQuantumKem" | Custom id => lit "Custom(" ++ utf8 (show id) ++ lit ")"
  end.

Record EncryptionKey := mkKey {
  k_algorithm : EncryptionAlgorithm; k_data : bytes; k_id : bytes; k_nonce : option bytes;
  k_counter : Z (** [AtomicU64] *) }.

Definition key_new (algorithm : EncryptionAlgorithm) (key_data key_id : bytes) : EncryptionKey := mkKey algorithm key_data key_id None 0.
Definition with_nonce (k : EncryptionKey) (nonce : bytes) : EncryptionKey :=
  mkKey (k_algorithm k) (k_data k) (k_id k) (Some nonce) (k_counter k).

Definition le_bytes (n : nat) (z : Z) : bytes := rev (be_bytes n z).
Definition le_val (bs : bytes) : Z := be_val (rev bs).

Fixpoint xor_into (derived ctr_bytes : bytes) : bytes :=
  match ctr_bytes, derived with
  | [], _ => derived
  | _, [] => []
  | b :: ctr_bytes', d :: derived' => zb (Z.lxor (bz d) (bz b)) :: xor_into derived' ctr_bytes'
  end.
Definition xor_nonce_with_counter (base : bytes) (ctr : Z) : bytes := xor_into base (le_bytes 8 ctr).

(** What an encryption changes: the counter of the key, and how often the operating
    system's generator has been drawn from. *)
Record Vault := mkVault { v_key : EncryptionKey; v_draws : nat }.

Definition fetch_add : M Vault bytes Z := fun v =>
  let k := v_key v in
  (Ok (k_counter k), mkVault (mkKey (k_algorithm k) (k_data k) (k_id k) (k_nonce k) (wrapu 64 (k_counter k + 1))) (v_draws v)).
Definition key_of : M Vault bytes EncryptionKey := fun v => (Ok (v_key v), v).

Definition derive_nonce : M Vault bytes (option (bytes * Z)) :=
  let! k := key_of in
  match k_nonce k with
  | None => ret None
  | Some base => let! ctr := fetch_add in ret (Some (xor_nonce_with_counter base ctr, ctr))
  end.

(** ** The primitives *)

(** Draws of [OsRng] are numbered; [os_random i n] is the [i]th draw, of [n] bytes. *)
Record Crypto := mkCrypto {
  post_quantum : bool; (** the cargo feature *)
  os_random : nat -> nat -> bytes;
  uuid_v4 : nat -> bytes;
  aead_seal : EncryptionAlgorithm -> bytes -> bytes -> bytes -> option bytes; (** algorithm, key, nonce, plaintext *)
  aead_open : EncryptionAlgorithm -> bytes -> bytes -> bytes -> option bytes;
  aead_error : bytes;
  invalid_length : bytes;
  Ek : Type; Dk : Type; KemCt : Type;
  kem_generate : nat -> Dk * Ek;
  ek_as_bytes : Ek -> bytes; dk_as_bytes : Dk -> bytes; ct_as_slice : KemCt -> bytes;
  ek_try_from : bytes -> option Ek; dk_try_from : bytes -> option Dk; ct_try_from : bytes -> option KemCt;
  encapsulate : Ek -> nat -> option (KemCt * bytes);
  decapsulate : Dk -> KemCt -> option bytes }.

Section Ciphers.
Context (C : Crypto).

Definition draw : M Vault bytes nat := fun v => (Ok (v_draws v), mkVault (v_key v) (S (v_draws v))).
Definition fill_bytes (n : nat) : M Vault bytes bytes := let! i := draw in ret (os_random C i n).

(** ** The trait, and the AEAD ciphers *)

Record Cipher := mkCipher {
  c_encrypt : bytes -> M Vault bytes bytes;
  c_decrypt : bytes -> EncryptionKey -> outcome bytes bytes;
  c_algorithm : EncryptionAlgorithm;
  c_key_size : Z; c_nonce_size : Z }.

Definition bad_size (what name : bytes) (expected got : Z) : bytes :=
  lit "Invalid " ++ what ++ lit " size for " ++ name ++ lit ": expected " ++ utf8 (show expected) ++ lit ", got " ++ utf8 (show got).
Definition len (bs : bytes) : Z := Z.of_nat (length bs).

(** The three ciphers have one body, over their algorithm, name and nonce size. *)
Definition aead_encrypt (alg : EncryptionAlgorithm) (name : bytes) (nonce_size : Z) (plaintext : bytes) : M Vault bytes bytes :=
  let! key := key_of in
  if negb (bool_decide (k_algorithm key = alg)) then fail (lit "Key algorithm mismatch")
  else if negb (len (k_data key) =? 32) then fail (bad_size (lit "key") name 32 (len (k_data key)))
  else
    let! derived := derive_nonce in
    match derived with
    | None => fail (lit "Nonce required for " ++ name)
    | Some (nonce, ctr) =>
        if negb (len nonce =? nonce_size) then fail (bad_size (lit "nonce") name nonce_size (len nonce))
        else match aead_seal C alg (k_data key) nonce plaintext with
             | None => fail (name ++ lit " encryption failed: " ++ aead_error C)
             | Some ciphertext => ret (le_bytes 8 ctr ++ ciphertext)
             end
    end.

Definition aead_decrypt (alg : EncryptionAlgorithm) (name : bytes) (nonce_size : Z) (ciphertext : bytes) (key : EncryptionKey) : outcome bytes bytes :=
  if negb (bool_decide (k_algorithm key = alg)) then Err (lit "Key algorithm mismatch")
  else if negb (len (k_data key) =? 32) then Err (bad_size (lit "key") name 32 (len (k_data key)))
  else match k_nonce key with
  | None => Err (lit "Nonce required for " ++ name)
  | Some base =>
      if negb (len base =? nonce_size) then Err (bad_size (lit "nonce") name nonce_size (len base))
      else if len ciphertext <? 8 then Err (lit "Ciphertext too short: missing counter prefix")
      else
        let ctr := le_val (take 8 ciphertext) in
        match aead_open C alg (k_data key) (xor_nonce_with_counter base ctr) (drop 8 ciphertext) with
        | None => Err (name ++ lit " decryption failed: " ++ aead_error C)
        | Some plaintext => Ok plaintext
        end
  end.

Definition Aes256GcmCipher : Cipher :=
  mkCipher (aead_encrypt Aes256Gcm (lit "AES-256-GCM") 12) (aead_decrypt Aes256Gcm (lit "AES-256-GCM") 12) Aes256Gcm 32 12.
Definition ChaCha20Poly1305Cipher : Cipher :=
  mkCipher (aead_encrypt ChaCha20Poly1305 (lit "ChaCha20-Poly1305") 12) (aead_decrypt ChaCha20Poly1305 (lit "ChaCha20-Poly1305") 12)
    ChaCha20Poly1305 32 12.
Definition XChaCha20Poly1305Cipher : Cipher :=
  mkCipher (aead_encrypt XChaCha20Poly1305 (lit "XChaCha20-Poly1305") 24) (aead_decrypt XChaCha20Poly1305 (lit "XChaCha20-Poly1305") 24)
    XChaCha20Poly1305 32 24.

(** ** ML-KEM-768 with AES-256-GCM *)

Definition generate_keypair_bytes : M Vault bytes bytes :=
  let! i := draw in
  let '(dk, ek) := kem_generate C i in
  let ek_bytes := ek_as_bytes C ek in
  ret (be_bytes 4 (wrapu 32 (len ek_bytes)) ++ ek_bytes ++ dk_as_bytes C dk).

Definition split_keypair (key_data : bytes) : outcome bytes (bytes * bytes) :=
  if len key_data <? 4 then Err (lit "PQ key_data too short for length prefix")
  else
    let ek_len := be_val (take 4 key_data) in
    let rest := drop 4 key_data in
    if len rest <? ek_len then Err (lit "PQ key_data truncated: encapsulation key")
    else Ok (take (Z.to_nat ek_len) rest, drop (Z.to_nat ek_len) rest).

Definition parse_ek (bs : bytes) : outcome bytes (Ek C) :=
  match ek_try_from C bs with None => Err (lit "invalid ML-KEM encapsulation key length") | Some ek => Ok ek end.
Definition parse_dk (bs : bytes) : outcome bytes (Dk C) :=
  match dk_try_from C bs with None => Err (lit "invalid ML-KEM decapsulation key length") | Some dk => Ok dk end.

(** [Aes256Gcm::new_from_slice]: a key of another length is refused. *)
Definition aes_setup (shared : bytes) : outcome bytes unit :=
  if len shared =? 32 then Ok tt else Err (lit "AES-256-GCM key setup failed: " ++ invalid_length C).

Definition lift {A} (o : outcome bytes A) : M Vault bytes A := fun v => (o, v).

Definition pq_encrypt (plaintext key_data : bytes) : M Vault bytes bytes :=
  let! halves := lift (split_keypair key_data) in
  let! ek := lift (parse_ek halves.1) in
  let! i := draw in
  match encapsulate C ek i with
  | None => fail (lit "ML-KEM encapsulation failed")
  | Some (kem_ct, shared) =>
      lift (aes_setup shared) ;;
      let! nonce_bytes := fill_bytes 12 in
      match aead_seal C Aes256Gcm shared nonce_bytes plaintext with
      | None => fail (lit "AES-256-GCM encryption failed: " ++ aead_error C)
      | Some aead_ct =>
          let kem_ct := ct_as_slice C kem_ct in
          ret (be_bytes 4 (wrapu 32 (len kem_ct)) ++ kem_ct ++ nonce_bytes ++ aead_ct)
      end
  end.

Definition pq_open (dk : Dk C) (rest : bytes) (kem_ct_len : Z) : outcome bytes bytes :=
  if len rest <? kem_ct_len + 12 then Err (lit "PQ ciphertext truncated")
  else
    let kem_ct_bytes := take (Z.to_nat kem_ct_len) rest in
    let tail := drop (Z.to_nat kem_ct_len) rest in
    let nonce_bytes := take 12 tail in
    let aead_ct := drop 12 tail in
    match ct_try_from C kem_ct_bytes with
    | None => Err (lit "invalid ML-KEM ciphertext length")
    | Some kem_ct =>
        match decapsulate C dk kem_ct with
        | None => Err (lit "ML-KEM decapsulation failed")
        | Some shared =>
            match aes_setup shared with
            | Ok _ =>
                match aead_open C Aes256Gcm shared nonce_bytes aead_ct with
                | None => Err (lit "AES-256-GCM decryption failed: " ++ aead_error C)
                | Some plaintext => Ok plaintext
                end
            | Err e => Err e | Panic => Panic | NoFuel => NoFuel
            end
        end
    end.

Definition pq_decrypt (ciphertext key_data : bytes) : outcome bytes bytes :=
  match split_keypair key_data with
  | Ok (_, dk_bytes) =>
      match parse_dk dk_bytes with
      | Ok dk =>
          if len ciphertext <? 4 then Err (lit "PQ ciphertext too short for length prefix")
          else pq_open dk (drop 4 ciphertext) (be_val (take 4 ciphertext))
      | Err e => Err e | Panic => Panic | NoFuel => NoFuel
      end
  | Err e => Err e | Panic => Panic | NoFuel => NoFuel
  end.

Definition PostQuantumKemCipher : Cipher :=
  mkCipher
    (fun plaintext =>
       let! key := key_of in
       if negb (bool_decide (k_algorithm key = PostQuantumKem)) then fail (lit "Key algorithm mismatch")
       else pq_encrypt plaintext (k_data key))
    (fun ciphertext key =>
       if negb (bool_decide (k_algorithm key = PostQuantumKem)) then Err (lit "Key algorithm mismatch")
       else pq_decrypt ciphertext (k_data key))
    PostQuantumKem (4 + 1184 + 2400) 0.

(** ** Generating keys *)

Definition generate (algorithm : EncryptionAlgorithm) : M Vault bytes EncryptionKey :=
  let fresh (nonce_size : nat) :=
    let! key_data := fill_bytes 32 in
    let! nonce := fill_bytes nonce_size in
    let! i := draw in
    ret (mkKey algorithm key_data (uuid_v4 C i) (Some nonce) 0) in
  match algorithm with
  | PostQuantumKem =>
      if post_quantum C then
        let! key_data := generate_keypair_bytes in
        let! i := draw in
        ret (mkKey algorithm key_data (uuid_v4 C i) None 0)
      else fail (lit "PostQuantumKem requires the `post-quantum` cargo feature")
  | Aes256Gcm | ChaCha20Poly1305 => fresh 12%nat
  | XChaCha20Poly1305 => fresh 24%nat
  | Custom size => fail (lit "Custom algorithm requires explicit key size, got " ++ utf8 (show size))
  end.

(** ** The registry *)

Record EncryptionManager := mkManager { m_ciphers : gmap EncryptionAlgorithm Cipher; m_default : EncryptionAlgorithm }.

Definition manager_new : EncryptionManager :=
  let ciphers := <[XChaCha20Poly1305 := XChaCha20Poly1305Cipher]>
                  (<[ChaCha20Poly1305 := ChaCha20Poly1305Cipher]> (<[Aes256Gcm := Aes256GcmCipher]> ∅)) in
  mkManager (if post_quantum C then <[PostQuantumKem := PostQuantumKemCipher]> ciphers else ciphers) Aes256Gcm.

Definition register_cipher (algorithm : EncryptionAlgorithm) (cipher : Cipher) (m : EncryptionManager) : EncryptionManager :=
  mkManager (<[algorithm := cipher]> (m_ciphers m)) (m_default m).
Definition set_default_algorithm (algorithm : EncryptionAlgorithm) (m : EncryptionManager) : EncryptionManager :=
  mkManager (m_ciphers m) algorithm.

Definition no_cipher (a : EncryptionAlgorithm) : bytes := lit "No cipher registered for algorithm " ++ debug_algorithm a.
Definition manager_encrypt (m : EncryptionManager) (plaintext : bytes) : M Vault bytes bytes :=
  let! key := key_of in
  match m_ciphers m !! k_algorithm key with
  | None => fail (no_cipher (k_algorithm key))
  | Some cipher => c_encrypt cipher plaintext
  end.
Definition manager_decrypt (m : EncryptionManager) (ciphertext : bytes) (key : EncryptionKey) : outcome bytes bytes :=
  match m_ciphers m !! k_algorithm key with
  | None => Err (no_cipher (k_algorithm key))
  | Some cipher => c_decrypt cipher ciphertext key
  end.
Definition generate_key_with_algorithm (m : EncryptionManager) (a : EncryptionAlgorithm) : M Vault bytes EncryptionKey := generate a.
Definition generate_key (m : EncryptionManager) : M Vault bytes EncryptionKey := generate (m_default m).
Definition registered_algorithms (m : EncryptionManager) : gset EncryptionAlgorithm := dom (m_ciphers m).
Definition get_cipher_info (m : EncryptionManager) (a : EncryptionAlgorithm) : option (Z * Z) :=
  match m_ciphers m !! a with None => None | Some c => Some (c_key_size c, c_nonce_size c) end.

End Ciphers.

(** ** What the primitives promise *)

(** [P_MAX] of aes-gcm, the smallest of the three limits on a plaintext. *)
Definition P_MAX : Z := 2 ^ 36.
Definition aead_nonce (a : EncryptionAlgorithm) : option nat :=
  match a with Aes256Gcm | ChaCha20Poly1305 => Some 12%nat | XChaCha20Poly1305 => Some 24%nat | _ => None end.

Class CryptoLaws (C : Crypto) : Prop := {
  os_random_length i n : length (os_random C i n) = n;
  seal_total a k n p : aead_nonce a = Some (length n) -> length k = 32%nat -> len p <= P_MAX -> is_Some (aead_seal C a k n p);
  open_seal a k n p c : aead_seal C a k n p = Some c -> aead_open C a k n c = Some p;
  ek_roundtrip ek : ek_try_from C (ek_as_bytes C ek) = Some ek;
  dk_roundtrip dk : dk_try_from C (dk_as_bytes C dk) = Some dk;
  ct_roundtrip ct : ct_try_from C (ct_as_slice C ct) = Some ct;
  ek_length ek : length (ek_as_bytes C ek) = 1184%nat;
  ct_length ct : length (ct_as_slice C ct) = 1088%nat;
  kem_correct i j : match encapsulate C (kem_generate C i).2 j with
                    | Some (ct, shared) => length shared = 32%nat /\ decapsulate C (kem_generate C i).1 ct = Some shared
                    | None => False
                    end }.

(** ** Counters and nonces *)

Lemma length_le_bytes n z : length (le_bytes n z) = n.
Proof. unfold le_bytes. by rewrite length_rev, length_be_bytes. Qed.

Lemma le_val_bytes ctr : fits_u 64 ctr -> le_val (le_bytes 8 ctr) = ctr.
Proof. intros H. unfold le_val, le_bytes. rewrite rev_involutive, be_val_bytes, Z.mod_small; [done|]. apply H. Qed.

Lemma le_bytes_inj c1 c2 : fits_u 64 c1 -> fits_u 64 c2 -> le_bytes 8 c1 = le_bytes 8 c2 -> c1 = c2.
Proof. intros H1 H2 He. by rewrite <- (le_val_bytes c1), <- (le_val_bytes c2), He. Qed.

Lemma byte_lxor_range d b : 0 <= Z.lxor (bz d) (bz b) < 256.
Proof.
  pose proof (bz_range d). pose proof (bz_range b). split; [apply Z.lxor_nonneg; lia|].
  change 256 with (2 ^ 8). destruct (decide (Z.lxor (bz d) (bz b) = 0)) as [->|Hn]; [lia|].
  assert (0 <= Z.lxor (bz d) (bz b)) by (apply Z.lxor_nonneg; lia).
  apply Z.log2_lt_pow2; [lia|]. pose proof (Z.log2_lxor (bz d) (bz b) ltac:(lia) ltac:(lia)).
  assert (Hl : forall z, 0 <= z < 256 -> Z.log2 z < 8).
  { intros z Hz. destruct (decide (z = 0)) as [->|]; [cbn; lia|]. apply Z.log2_lt_pow2; lia. }
  pose proof (Hl (bz d) ltac:(lia)). pose proof (Hl (bz b) ltac:(lia)). lia.
Qed.

Lemma length_xor_into base : forall cs, length (xor_into base cs) = length base.
Proof. induction base as [|d ds IH]; intros [|c cs]; cbn; [done..|]. by rewrite IH. Qed.

Lemma xor_into_inj base : forall cs1 cs2, length cs1 = length cs2 -> (length cs1 <= length base)%nat ->
  xor_into base cs1 = xor_into base cs2 -> cs1 = cs2.
Proof.
  induction base as [|d ds IH]; intros [|c1 cs1] [|c2 cs2] Hl Hb He; cbn in *; simplify_eq; try done; [lia|].
  f_equal; [|apply IH; [done|lia|done]]. apply bz_inj.
  assert (Hx : Z.lxor (bz d) (bz c1) = Z.lxor (bz d) (bz c2)).
  { rewrite <- (Z.mod_small _ 256 (byte_lxor_range d c1)), <- (Z.mod_small _ 256 (byte_lxor_range d c2)), <- !bz_zb. congruence. }
  by rewrite <- (Z.lxor_0_l (bz c1)), <- (Z.lxor_nilpotent (bz d)), Z.lxor_assoc, Hx, <- Z.lxor_assoc, Z.lxor_nilpotent, Z.lxor_0_l.
Qed.

Lemma counter_nonce_inj base c1 c2 : (8 <= length base)%nat -> fits_u 64 c1 -> fits_u 64 c2 ->
  xor_nonce_with_counter base c1 = xor_nonce_with_counter base c2 -> c1 = c2.
Proof.
  intros Hb H1 H2 He. apply le_bytes_inj; [done..|].
  by apply (xor_into_inj base); rewrite ?length_le_bytes.
Qed.

(** ** Encryption *)

Definition at_counter (k : EncryptionKey) (c : Z) : EncryptionKey := mkKey (k_algorithm k) (k_data k) (k_id k) (k_nonce k) c.

(** The cipher registered under an algorithm is the program's own. *)
Definition built_in (C : Crypto) (m : EncryptionManager) (a : EncryptionAlgorithm) : Prop :=
  m_ciphers m !! a = m_ciphers (manager_new C) !! a.

Definition nonce_bytes_of (a : EncryptionAlgorithm) : Z := match a with XChaCha20Poly1305 => 24 | _ => 12 end.
Definition cipher_name (a : EncryptionAlgorithm) : bytes :=
  match a with Aes256Gcm => lit "AES-256-GCM" | ChaCha20Poly1305 => lit "ChaCha20-Poly1305" | _ => lit "XChaCha20-Poly1305" end.

(** What keeps an AEAD key from being used, in the order of the checks, with whether
    the attempt spends a counter value. *)
Definition key_fault (a : EncryptionAlgorithm) (k : EncryptionKey) : option (bytes * bool) :=
  if negb (len (k_data k) =? 32) then Some (bad_size (lit "key") (cipher_name a) 32 (len (k_data k)), false)
  else match k_nonce k with
  | None => Some (lit "Nonce required for " ++ cipher_name a, false)
  | Some base => if len base =? nonce_bytes_of a then None
                 else Some (bad_size (lit "nonce") (cipher_name a) (nonce_bytes_of a) (len base), true)
  end.

Lemma len_counter_nonce base c : len (xor_nonce_with_counter base c) = len base.
Proof. unfold len, xor_nonce_with_counter. by rewrite length_xor_into. Qed.

Section Encryption.
Context (C : Crypto).
Implicit Types (m : EncryptionManager) (a : EncryptionAlgorithm).

Lemma built_in_aead m a n : built_in C m a -> aead_nonce a = Some n ->
  m_ciphers m !! a = Some (mkCipher (aead_encrypt C a (cipher_name a) (nonce_bytes_of a)) (aead_decrypt C a (cipher_name a) (nonce_bytes_of a))
                             a 32 (nonce_bytes_of a)) /\ Z.of_nat n = nonce_bytes_of a.
Proof.
  unfold built_in. intros -> Ha. unfold manager_new.
  destruct a, (post_quantum C); simplify_eq/=; (split; [|done]); by simplify_map_eq.
Qed.

Lemma built_in_pq m : built_in C m PostQuantumKem -> post_quantum C = true -> m_ciphers m !! PostQuantumKem = Some (PostQuantumKemCipher C).
Proof. unfold built_in, manager_new. intros -> ->. by simplify_map_eq. Qed.

(** One encryption under an AEAD key, with the sizes of its parts checked. *)
Lemma encrypt_runs m a n k d p : built_in C m a -> aead_nonce a = Some n -> k_algorithm k = a ->
  manager_encrypt m p (mkVault k d) =
  match key_fault a k with
  | Some (e, spent) => (Err e, mkVault (if spent then at_counter k (wrapu 64 (k_counter k + 1)) else k) d)
  | None =>
      (match aead_seal C a (k_data k) (xor_nonce_with_counter (default [] (k_nonce k)) (k_counter k)) p with
       | Some s => Ok (le_bytes 8 (k_counter k) ++ s)
       | None => Err (cipher_name a ++ lit " encryption failed: " ++ aead_error C)
       end, mkVault (at_counter k (wrapu 64 (k_counter k + 1))) d)
  end.
Proof.
  intros Hm Ha Hk. destruct (built_in_aead m a n Hm Ha) as [Hc _].
  unfold manager_encrypt, key_of, bind. cbn [v_key]. rewrite Hk, Hc. cbn [c_encrypt].
  unfold aead_encrypt, derive_nonce, key_of, fetch_add, bind, fail, ret, key_fault. cbv beta iota delta [v_key v_draws].
  rewrite Hk, bool_decide_true by done. cbn [negb].
  destruct (negb (len (k_data k) =? 32)); [done|].
  destruct (k_nonce k) as [base|] eqn:Hn; cbn [default]; [|done].
  rewrite !len_counter_nonce. unfold at_counter. rewrite Hk, Hn.
  destruct (len base =? nonce_bytes_of a); cbn [negb]; [|done].
  by destruct (aead_seal C a (k_data k) _ p).
Qed.

Lemma decrypt_runs m a n k ct : built_in C m a -> aead_nonce a = Some n -> k_algorithm k = a ->
  manager_decrypt m ct k =
  match key_fault a k with
  | Some (e, _) => Err e
  | None =>
      if len ct <? 8 then Err (lit "Ciphertext too short: missing counter prefix")
      else match aead_open C a (k_data k) (xor_nonce_with_counter (default [] (k_nonce k)) (le_val (take 8 ct))) (drop 8 ct) with
           | Some p => Ok p
           | None => Err (cipher_name a ++ lit " decryption failed: " ++ aead_error C)
           end
  end.
Proof.
  intros Hm Ha Hk. destruct (built_in_aead m a n Hm Ha) as [Hc _].
  unfold manager_decrypt. rewrite Hk, Hc. cbn [c_decrypt]. unfold aead_decrypt, key_fault.
  rewrite Hk, bool_decide_true by done. cbn [negb].
  destruct (negb (len (k_data k) =? 32)); [done|]. destruct (k_nonce k) as [base|]; [|done].
  cbn [default]. destruct (len base =? nonce_bytes_of a); cbn [negb]; [|done].
  destruct (len ct <? 8); [done|]. by destruct (aead_open C a (k_data k) _ _).
Qed.

Lemma key_fault_at a k c : key_fault a (at_counter k c) = key_fault a k.
Proof. done. Qed.

Lemma take8 c s : take 8 (le_bytes 8 c ++ s) = le_bytes 8 c /\ drop 8 (le_bytes 8 c ++ s) = s.
Proof. split; [apply take_app_len|apply drop_app_len]; by rewrite length_le_bytes. Qed.

(** ** Round trips *)

Context {laws : CryptoLaws C}.

Lemma aead_there_and_back m a n k c c' d p : built_in C m a -> aead_nonce a = Some n -> k_algorithm k = a ->
  key_fault a k = None -> fits_u 64 c -> len p <= P_MAX ->
  exists ct v, manager_encrypt m p (mkVault (at_counter k c) d) = (Ok ct, v) /\ manager_decrypt m ct (at_counter k c') = Ok p.
Proof.
  intros Hm Ha Hk Hf Hc Hp. destruct (built_in_aead m a n Hm Ha) as [_ Hn].
  rewrite (encrypt_runs m a n _ _ _ Hm Ha) by done. rewrite key_fault_at, Hf. cbn [k_data k_nonce k_counter at_counter].
  assert (Hs : is_Some (aead_seal C a (k_data k) (xor_nonce_with_counter (default [] (k_nonce k)) c) p)).
  { apply seal_total; [|..|done].
    - unfold key_fault in Hf. destruct (negb _); [done|]. destruct (k_nonce k) as [base|]; [|done]. cbn.
      destruct (len base =? nonce_bytes_of a) eqn:Hl; [|done]. apply Z.eqb_eq in Hl. unfold len in Hl.
      unfold xor_nonce_with_counter. rewrite length_xor_into, Ha. f_equal. lia.
    - unfold key_fault in Hf. destruct (len (k_data k) =? 32) eqn:Hl; [|done]. apply Z.eqb_eq in Hl. unfold len in Hl. lia. }
  destruct Hs as [s Hs]. rewrite Hs. eexists _, _. split; [done|].
  rewrite (decrypt_runs m a n _ _ Hm Ha) by done. rewrite key_fault_at, Hf. cbn [k_data k_nonce at_counter].
  destruct (take8 c s) as [-> ->].
  replace (len (le_bytes 8 c ++ s) <? 8) with false
    by (symmetry; apply Z.ltb_ge; unfold len; rewrite length_app, length_le_bytes; lia).
  by rewrite le_val_bytes, (open_seal _ _ _ _ _ Hs).
Qed.

Lemma keypair_splits ek dk : split_keypair (be_bytes 4 (wrapu 32 (len (ek_as_bytes C ek))) ++ ek_as_bytes C ek ++ dk_as_bytes C dk) =
  Ok (ek_as_bytes C ek, dk_as_bytes C dk).
Proof.
  unfold split_keypair. rewrite (take_app_len (be_bytes 4 _)), (drop_app_len (be_bytes 4 _)) by (by rewrite length_be_bytes).
  rewrite be_val_bytes. assert (Hw : wrapu 32 (len (ek_as_bytes C ek)) = 1184) by (unfold len; by rewrite ek_length).
  rewrite Hw. change (1184 mod 256 ^ Z.of_nat 4) with 1184.
  rewrite (proj2 (Z.ltb_ge _ 4)) by (unfold len; rewrite length_app, length_be_bytes; lia).
  replace (len (ek_as_bytes C ek ++ dk_as_bytes C dk) <? 1184) with false by (symmetry; apply Z.ltb_ge; unfold len; rewrite length_app, ek_length; lia).
  assert (Hn : Z.to_nat 1184 = length (ek_as_bytes C ek)) by (rewrite ek_length; reflexivity).
  by rewrite (take_app_len _ _ _ Hn), (drop_app_len _ _ _ Hn).
Qed.

Lemma pq_there_and_back i ek dk p d k : kem_generate C i = (dk, ek) -> len p <= P_MAX ->
  let data := be_bytes 4 (wrapu 32 (len (ek_as_bytes C ek))) ++ ek_as_bytes C ek ++ dk_as_bytes C dk in
  exists ct v, pq_encrypt C p data (mkVault k d) = (Ok ct, v) /\ pq_decrypt C ct data = Ok p.
Proof.
  intros Hg Hp data. unfold pq_encrypt, pq_decrypt, data. rewrite keypair_splits.
  unfold lift at 1, bind at 1. cbn [fst]. unfold parse_ek, parse_dk, lift, bind. rewrite ek_roundtrip, dk_roundtrip.
  unfold draw. cbn [v_draws v_key]. pose proof (kem_correct i d) as Hkem. rewrite Hg in Hkem. cbn [fst snd] in Hkem.
  destruct (encapsulate C ek d) as [[kct shared]|] eqn:He; [|done]. destruct Hkem as [Hsh Hdec].
  assert (Hset : aes_setup C shared = Ok tt) by (unfold aes_setup, len; by rewrite Hsh).
  rewrite Hset. unfold fill_bytes, bind, draw. cbn [v_draws v_key]. unfold ret.
  destruct (seal_total Aes256Gcm shared (os_random C (S d) 12) p) as [s Hs]; [by rewrite os_random_length|done..|].
  rewrite Hs. eexists _, _. split; [done|].
  set (ct := be_bytes 4 _ ++ _).
  assert (Hlen : wrapu 32 (len (ct_as_slice C kct)) = 1088) by (unfold len; by rewrite ct_length).
  replace (len ct <? 4) with false by (symmetry; apply Z.ltb_ge; unfold ct, len; rewrite length_app, length_be_bytes; lia).
  unfold ct. rewrite (take_app_len (be_bytes 4 _)), (drop_app_len (be_bytes 4 _)) by (by rewrite length_be_bytes).
  rewrite be_val_bytes, Hlen. change (1088 mod 256 ^ Z.of_nat 4) with 1088. unfold pq_open.
  rewrite (proj2 (Z.ltb_ge _ (1088 + 12))) by (unfold len; rewrite !length_app, ct_length, os_random_length; lia).
  assert (Hn : Z.to_nat 1088 = length (ct_as_slice C kct)) by (rewrite ct_length; reflexivity).
  rewrite (take_app_len _ _ _ Hn), (drop_app_len _ _ _ Hn).
  rewrite take_app_len, drop_app_len by (by rewrite os_random_length).
  by rewrite ct_roundtrip, Hdec, Hset, (open_seal _ _ _ _ _ Hs).
Qed.
End Encryption.

(** A generated key carries what its cipher checks. *)
Lemma generate_sound C `{!CryptoLaws C} a v k v' : generate C a v = (Ok k, v') ->
  k_algorithm k = a /\ k_counter k = 0 /\
  match aead_nonce a with
  | Some _ => key_fault a k = None
  | None => a = PostQuantumKem /\ post_quantum C = true /\ exists i dk ek, kem_generate C i = (dk, ek) /\
              k_data k = be_bytes 4 (wrapu 32 (len (ek_as_bytes C ek))) ++ ek_as_bytes C ek ++ dk_as_bytes C dk
  end.
Proof.
  assert (H32 : forall i, (len (os_random C i 32) =? 32) = true) by (intros i; unfold len; by rewrite os_random_length).
  assert (Hn : forall i n, len (os_random C i n) = Z.of_nat n) by (intros i n; unfold len; by rewrite os_random_length).
  destruct a; unfold generate, generate_keypair_bytes, fill_bytes, draw, bind, ret, fail; cbn [v_draws v_key].
  1-3: intros [= <- <-]; cbn [k_algorithm k_counter aead_nonce]; unfold key_fault; cbn [k_data k_nonce]; rewrite H32, !Hn; done.
  - destruct (post_quantum C) eqn:Hp; [|done]. destruct (kem_generate C (v_draws v)) as [dk ek] eqn:Hg. cbn [v_draws].
    intros [= <- <-]. cbn. split_and!; [done..|]. by eexists _, dk, ek.
  - done.
Qed.

(** ** Many messages under one key *)

Fixpoint encrypt_all (m : EncryptionManager) (messages : list bytes) (v : Vault) : list (outcome bytes bytes) * Vault :=
  match messages with
  | [] => ([], v)
  | p :: rest => let '(o, v1) := manager_encrypt m p v in let '(os, v2) := encrypt_all m rest v1 in (o :: os, v2)
  end.

Fixpoint sent (os : list (outcome bytes bytes)) : list bytes :=
  match os with [] => [] | Ok ct :: rest => ct :: sent rest | _ :: rest => sent rest end.

Definition message_counter (ct : bytes) : Z := le_val (take 8 ct).
(** The nonce the receiver of a message opens it with. *)
Definition message_nonce (base ct : bytes) : bytes := xor_nonce_with_counter base (message_counter ct).

Section Many.
Context (C : Crypto) (m : EncryptionManager) (a : EncryptionAlgorithm) (n : nat).
Context (Hm : built_in C m a) (Ha : aead_nonce a = Some n).

(** The message [ct] carries [p], sealed under the nonce its counter gives. *)
Definition carries_sealed (k : EncryptionKey) (p ct : bytes) : Prop :=
  len (default [] (k_nonce k)) = nonce_bytes_of a /\ aead_seal C a (k_data k) (message_nonce (default [] (k_nonce k)) ct) p = Some (drop 8 ct).

Lemma next_counter_differs c : wrapu 64 (c + 1) <> c.
Proof.
  unfold wrapu. intros He. pose proof (Z.mod_pos_bound (c + 1) (2 ^ 64) ltac:(lia)) as Hb. rewrite He in Hb.
  destruct (decide (c + 1 = 2 ^ 64)) as [Hx|]; [rewrite Hx, Z.mod_same in He; lia|]. rewrite Z.mod_small in He; lia.
Qed.

(** One message takes the counter it finds; without one the counter may still advance. *)
Lemma encrypt_step k d p o v : k_algorithm k = a -> fits_u 64 (k_counter k) -> manager_encrypt m p (mkVault k d) = (o, v) ->
  (exists ct, o = Ok ct /\ message_counter ct = k_counter k /\ carries_sealed k p ct /\ v = mkVault (at_counter k (wrapu 64 (k_counter k + 1))) d) \/
  (sent [o] = [] /\ exists c, v = mkVault (at_counter k c) d /\ (c = k_counter k \/ c = wrapu 64 (k_counter k + 1))).
Proof.
  intros Hk Hc. rewrite (encrypt_runs C m a n k d p Hm Ha Hk). destruct (key_fault a k) as [[e spent]|] eqn:Hf.
  { intros [= <- <-]. right. split; [done|]. destruct spent; [by eauto|]. exists (k_counter k). split; [by destruct k|by left]. }
  destruct (aead_seal C a (k_data k) _ p) as [s|] eqn:Hs; intros [= <- <-]; [left|right; eauto].
  assert (Hmc : message_counter (le_bytes 8 (k_counter k) ++ s) = k_counter k).
  { unfold message_counter. rewrite (proj1 (take8 _ _)). by apply le_val_bytes. }
  exists (le_bytes 8 (k_counter k) ++ s). split_and!; [done|done| |done]. split.
  - unfold key_fault in Hf. destruct (negb _); [done|]. destruct (k_nonce k) as [base|]; [|done]. cbn.
    destruct (len base =? nonce_bytes_of a) eqn:Hl; [by apply Z.eqb_eq|done].
  - unfold message_nonce. rewrite Hmc, (proj2 (take8 _ _)). exact Hs.
Qed.

(** The messages sent before the counter wraps carry distinct counters. *)
Lemma counters_increase messages : forall k d os v, k_algorithm k = a -> 0 <= k_counter k ->
  k_counter k + Z.of_nat (length messages) <= 2 ^ 64 -> encrypt_all m messages (mkVault k d) = (os, v) ->
  NoDup (map message_counter (sent os)) /\
  Forall (fun ct => k_counter k <= message_counter ct < 2 ^ 64 /\ exists p, p ∈ messages /\ carries_sealed k p ct) (sent os).
Proof.
  induction messages as [|p rest IH]; intros k d os v Hk Hc Hmax.
  { intros [= <- <-]. split; constructor. }
  cbn [encrypt_all length] in *. destruct (manager_encrypt m p _) as [o v1] eqn:Hp.
  destruct (encrypt_all m rest v1) as [os' v'] eqn:He. intros [= <- <-].
  (* the rest runs from a later counter [c] *)
  assert (Hrest : forall c, v1 = mkVault (at_counter k c) d -> c = k_counter k \/ c = wrapu 64 (k_counter k + 1) ->
    NoDup (map message_counter (sent os')) /\
    Forall (fun ct => (c = k_counter k \/ k_counter k < message_counter ct) /\
      k_counter k <= message_counter ct < 2 ^ 64 /\ exists q, q ∈ p :: rest /\ carries_sealed k q ct) (sent os')).
  { intros c -> Hcc. destruct rest as [|q rest]; [injection He as <- <-; split; constructor|].
    assert (Hw : wrapu 64 (k_counter k + 1) = k_counter k + 1) by (cbn in Hmax; apply wrapu_id; unfold fits_u; lia).
    rewrite Hw in Hcc. destruct (IH (at_counter k c) d os' v' Hk ltac:(cbn; lia) ltac:(cbn in *; lia) He) as [Hnd Hall].
    split; [done|]. eapply Forall_impl; [exact Hall|]. cbn [k_counter at_counter]. intros ct (Hr & q' & Hq & Hs).
    split_and!; [lia..|]. exists q'. split; [by right|exact Hs]. }
  destruct (encrypt_step k d p o v1 Hk ltac:(unfold fits_u; cbn in Hmax; lia) Hp) as [(ct & -> & Hmc & Hs & Hv)|(Hno & c & Hv & Hcc)].
  - destruct (Hrest _ Hv ltac:(by right)) as [Hnd Hall]. cbn [sent map]. split.
    + apply NoDup_cons. split; [|done]. rewrite Hmc. intros (ct' & Hct & Hin)%list_elem_of_fmap.
      rewrite Forall_forall in Hall. destruct (Hall ct' Hin) as ([Heq|?] & _); [|lia].
      by destruct (next_counter_differs (k_counter k)).
    + constructor; [|eapply Forall_impl; [exact Hall|]; by cbn; intros ? (_ & ?)].
      rewrite Hmc. split; [lia|]. exists p. split; [by left|done].
  - destruct (Hrest _ Hv Hcc) as [Hnd Hall].
    replace (sent (o :: os')) with (sent os') by (by destruct o). split; [done|].
    eapply Forall_impl; [exact Hall|]. by cbn; intros ? (_ & ?).
Qed.
End Many.

(** ** The theorems *)

(** A message encrypted under a generated key opens again to itself, for each of
    the four algorithms: whatever count the key has reached when the message is sent
    and whatever count the receiver's copy has, a plaintext within the ciphers' limit
    is encrypted, and the result decrypts to it.  The manager may have further
    ciphers registered, as long as the key's algorithm is the program's own. *)
Theorem generated_key_roundtrip C `{!CryptoLaws C} m a v k v' c c' d p :
  generate C a v = (Ok k, v') -> built_in C m a -> fits_u 64 c -> len p <= P_MAX ->
  exists ct v'', manager_encrypt m p (mkVault (at_counter k c) d) = (Ok ct, v'') /\ manager_decrypt m ct (at_counter k c') = Ok p.
Proof.
  intros Hg Hm Hc Hp. destruct (generate_sound C a v k v' Hg) as (Hk & _ & Hrest).
  destruct (aead_nonce a) as [n|] eqn:Ha; [by apply (aead_there_and_back C m a n)|].
  destruct Hrest as (-> & Hpq & i & dk & ek & Hgen & Hdata).
  unfold manager_encrypt, manager_decrypt, key_of, bind. cbn [v_key k_algorithm at_counter].
  rewrite Hk, (built_in_pq C m Hm Hpq). cbn [c_encrypt c_decrypt PostQuantumKemCipher]. unfold key_of, bind.
  cbn [v_key k_algorithm k_data at_counter]. rewrite Hk, Hdata, bool_decide_true by done. cbn [negb].
  by apply (pq_there_and_back C i).
Qed.

(** C34: No nonce is used twice under one key.  However many messages are encrypted one
    after another under a fresh AEAD key, up to the 2^64 the counter can tell apart and
    failures included, the nonces of the messages sent are pairwise distinct, and each
    message really is one of the plaintexts sealed under the nonce its prefix gives. *)
Theorem nonces_never_repeat C m a k base messages d :
  built_in C m a -> is_Some (aead_nonce a) -> k_algorithm k = a -> k_nonce k = Some base -> k_counter k = 0 ->
  Z.of_nat (length messages) <= 2 ^ 64 ->
  let out := sent (encrypt_all m messages (mkVault k d)).1 in
  NoDup (map (message_nonce base) out) /\
  Forall (fun ct => exists p, p ∈ messages /\ aead_seal C a (k_data k) (message_nonce base ct) p = Some (drop 8 ct)) out.
Proof.
  intros Hm [n Ha] Hk Hbase Hc Hlen. destruct (encrypt_all m messages (mkVault k d)) as [os v] eqn:He. cbn [fst].
  destruct (counters_increase C m a n Hm Ha messages k d os v Hk ltac:(lia) ltac:(lia) He) as [Hnd Hall].
  unfold carries_sealed in Hall. rewrite Hbase, Hc in Hall. cbn [default] in Hall. split.
  - unfold message_nonce. rewrite <- (map_map message_counter (xor_nonce_with_counter base)).
    apply NoDup_fmap_2_strong; [|done]. intros c1 c2 (ct1 & -> & H1)%list_elem_of_fmap (ct2 & -> & H2)%list_elem_of_fmap Heq.
    rewrite Forall_forall in Hall. destruct (Hall _ H1) as (R1 & _ & _ & Hl & _), (Hall _ H2) as (R2 & _).
    apply (counter_nonce_inj base); [|unfold fits_u; lia..|done].
    unfold len in Hl. destruct a; cbn in Hl; lia.
  - eapply Forall_impl; [exact Hall|]. cbn. intros ct (_ & p & Hp & _ & Hs). by exists p.
Qed.

(** Bytes from the network never make the ciphers panic: decryption always returns,
    with the plaintext or with one of its errors. *)
Theorem decrypt_returns C m a ct k : built_in C m a -> k_algorithm k = a -> returned (manager_decrypt m ct k).
Proof.
  intros Hm Hk. unfold built_in in Hm. unfold manager_decrypt. rewrite Hk, Hm. unfold manager_new. cbn [m_ciphers].
  assert (Haead : forall b s z, returned (aead_decrypt C b s z ct k)).
  { intros b s z. unfold aead_decrypt. repeat case_match; done. }
  match goal with |- returned (match ?o with _ => _ end) => destruct o as [c|] eqn:Hl end; [|exact I].
  assert (c = PostQuantumKemCipher C \/ c = XChaCha20Poly1305Cipher C \/ c = ChaCha20Poly1305Cipher C \/ c = Aes256GcmCipher C)
    as [-> |[-> |[-> | ->]]] by (destruct (post_quantum C); simplify_map_eq; repeat (rewrite lookup_insert_Some in Hl); naive_solver).
  2-4: apply Haead.
  cbn [c_decrypt PostQuantumKemCipher]. unfold pq_decrypt, pq_open, split_keypair, parse_dk, aes_setup. repeat case_match; simplify_eq; done.
Qed.

(** ** Behaviour that surprises *)

(** A cipher of the program registered under a [Custom] number refuses every key of
    that number: it compares the key's algorithm with its own. *)
Theorem custom_registration_unusable C m id k d p : k_algorithm k = Custom id ->
  manager_encrypt (register_cipher (Custom id) (Aes256GcmCipher C) m) p (mkVault k d) = (Err (lit "Key algorithm mismatch"), mkVault k d).
Proof.
  intros Hk. unfold manager_encrypt, key_of, bind, register_cipher. cbn [v_key m_ciphers]. rewrite Hk, lookup_insert_eq.
  cbn [c_encrypt Aes256GcmCipher]. unfold aead_encrypt, key_of, bind. cbn [v_key]. by rewrite Hk.
Qed.

(** Two holders of the same key material count from zero each: what they send first
    is sealed under one nonce. *)
Theorem copies_share_nonces C m a key_data nonce id1 id2 p q d s t v w :
  built_in C m a -> is_Some (aead_nonce a) ->
  manager_encrypt m p (mkVault (with_nonce (key_new a key_data id1) nonce) d) = (Ok s, v) ->
  manager_encrypt m q (mkVault (with_nonce (key_new a key_data id2) nonce) d) = (Ok t, w) ->
  message_nonce nonce s = message_nonce nonce t.
Proof.
  intros Hm [n Ha] Hs Ht. unfold message_nonce.
  assert (Hz : fits_u 64 0) by (unfold fits_u; lia).
  destruct (encrypt_step C m a n Hm Ha (with_nonce (key_new a key_data id1) nonce) d p _ _ eq_refl Hz Hs) as [(? & [= <-] & -> & _)|[[=] _]].
  by destruct (encrypt_step C m a n Hm Ha (with_nonce (key_new a key_data id2) nonce) d q _ _ eq_refl Hz Ht) as [(? & [= <-] & -> & _)|[[=] _]].
Qed.

(** ** A concrete instance *)

(** Transparent sealing: the nonce in front of the plaintext. *)
Definition plain_open (n c : bytes) : option bytes := if bool_decide (take (length n) c = n) then Some (drop (length n) c) else None.
Definition plain_crypto : Crypto :=
  mkCrypto true (fun i n => replicate n (zb (Z.of_nat i))) (fun i => [zb (Z.of_nat i)])
    (fun _ _ n p => Some (n ++ p)) (fun _ _ n c => plain_open n c) (lit "aead::Error") (lit "Invalid Length")
    unit unit unit (fun _ => (tt, tt))
    (fun _ => replicate 1184 x01) (fun _ => replicate 2400 x02) (fun _ => replicate 1088 x03)
    (fun _ => Some tt) (fun _ => Some tt) (fun _ => Some tt)
    (fun _ _ => Some (tt, replicate 32 x04)) (fun _ _ => Some (replicate 32 x04)).

#[export] Instance plain_crypto_laws : CryptoLaws plain_crypto.
Proof.
  split; cbn [plain_crypto os_random aead_seal aead_open ek_try_from dk_try_from ct_try_from ek_as_bytes dk_as_bytes ct_as_slice
    encapsulate decapsulate kem_generate fst snd].
  - intros. apply length_replicate.
  - by eauto.
  - intros a k n p c [= <-]. unfold plain_open. by rewrite take_app_len, bool_decide_true, drop_app_len.
  - by intros [].
  - by intros [].
  - by intros [].
  - intros. apply length_replicate.
  - intros. apply length_replicate.
  - intros. split; [apply length_replicate|done].
Qed.

Definition sample_vault : Vault := mkVault (key_new (Custom 0) [] []) 0.
Definition sample_key : EncryptionKey := mkKey XChaCha20Poly1305 (replicate 32 x00) [x02] (Some (replicate 24 x01)) 0.

Lemma generated_key_roundtrip_witness :
  generate plain_crypto XChaCha20Poly1305 sample_vault = (Ok sample_key, mkVault (key_new (Custom 0) [] []) 3) /\
  exists ct v'', manager_encrypt (manager_new plain_crypto) (lit "gossip") (mkVault (at_counter sample_key 7) 0) = (Ok ct, v'') /\
    manager_decrypt (manager_new plain_crypto) ct (at_counter sample_key 0) = Ok (lit "gossip").
Proof.
  split; [vm_compute; reflexivity|].
  apply (generated_key_roundtrip plain_crypto (manager_new plain_crypto) XChaCha20Poly1305 sample_vault sample_key
           (mkVault (key_new (Custom 0) [] []) 3) 7 0 0 (lit "gossip")).
  - vm_compute; reflexivity.
  - reflexivity.
  - unfold fits_u; lia.
  - vm_compute; discriminate.
Defined.

Lemma nonces_never_repeat_witness :
  length (sent (encrypt_all (manager_new plain_crypto) [lit "a"; lit "b"; lit "a"] (mkVault sample_key 0)).1) = 3%nat /\
  NoDup (map (message_nonce (replicate 24 x01)) (sent (encrypt_all (manager_new plain_crypto) [lit "a"; lit "b"; lit "a"] (mkVault sample_key 0)).1)).
Proof.
  split; [vm_compute; reflexivity|].
  apply (nonces_never_repeat plain_crypto (manager_new plain_crypto) XChaCha20Poly1305 sample_key (replicate 24 x01)
           [lit "a"; lit "b"; lit "a"] 0); [reflexivity|by eexists|reflexivity..|cbn; lia].
Defined.
