(* ===== verification/Session.v ===== *)
(** * A player's session

    crates/proxy-core/src/net/connection.rs from the accepted login on:
    [finalise_login], [connect_to_backend], [run_limbo_then_connect],
    [switch_to_server] and the loop over relay legs, with the tables they keep
    (sessions, player counts, queues, metrics).  The phases themselves are the
    definitions of [Login], [Backend], [Limbo] and [Relay]; what the world does is
    a script: how each dial ends and what that backend sends, which events a stay
    in limbo and a leg of the relay consist of.  Signatures, plugins, JSON, random
    choices and the order of hash maps are parameters. *)
From Stdlib Require Import ZArith Lia Strings.String Strings.Byte.
From stdpp Require Import base list numbers strings gmap.
From S2P Require Import Prelude Buf Wire VarInt Codec Negotiation PacketIo IpAddr ProxyProtocol Routing Chars Utf8 Registry RegistryData Modloader.
From S2P Require Import Auth Builders Bridging LoginPackets Transfer Failover Queue Commands Proxy Identity Login Dimension LimboPackets Backend Limbo.
From S2P Require Packets16 Relay.
Local Open Scope Z_scope.
Local Open Scope koja_scope.

(** ** Events for plugins *)

Inductive PluginEvent :=
  | ServerListPing (max_players online_players : Z)
  | PreLogin (username address : bytes)
  | PostLogin (uuid username : bytes)
  | PlayerJoin (uuid username : bytes)
  | ServerConnect (uuid target : bytes)
  | ServerConnected (uuid server : bytes)
  | ServerSwitch (uuid : bytes) (from : option bytes) (to : bytes)
  | ServerKick (uuid server reason : bytes)
  | PlayerLeave (uuid : bytes)
  | PlayerDisconnect (uuid username : bytes).

(** ** The script *)

(** How one leg of the relay goes: its events, how the two pumps end, and what the
    client has not yet said when it is over. *)
Record Leg := mkLeg {
  leg_events : list Relay.RelayEvent; leg_c2s : outcome ConnectionError unit; leg_s2c : outcome ConnectionError unit;
  leg_client : bytes; leg_cooldowns : Cooldowns }.

(** The dials of [connect_to_backend] in order ([None]: it fails), the stays in
    limbo, and the legs. *)
Record Script := mkScript { dials : list (option (bytes * option nat)); stays : list (list LimboEvent); legs : list Leg }.

(** ** State *)

Record ClientConnection := mkConnection {
  wires : Wires; (** the client's stream and that of the current backend *)
  detached : bool; (** the client's stream has been handed to a relay that ended *)
  addr : SocketAddr; conn_state : ConnectionState; protocol_version : Z; compression_threshold : Z;
  keys : list (nat * bytes); (** encryption: after how many writes, with which key *)
  session_table : gmap bytes PlayerSession; registry : ServerRegistry; queue_manager : QueueManager;
  player_metrics : list bytes; fired : list PluginEvent; effects : list Effect;
  script : Script }.

Definition set_wires x c := mkConnection x (detached c) (addr c) (conn_state c) (protocol_version c) (compression_threshold c) (keys c) (session_table c) (registry c) (queue_manager c) (player_metrics c) (fired c) (effects c) (script c).
Definition set_detached x c := mkConnection (wires c) x (addr c) (conn_state c) (protocol_version c) (compression_threshold c) (keys c) (session_table c) (registry c) (queue_manager c) (player_metrics c) (fired c) (effects c) (script c).
Definition set_addr x c := mkConnection (wires c) (detached c) x (conn_state c) (protocol_version c) (compression_threshold c) (keys c) (session_table c) (registry c) (queue_manager c) (player_metrics c) (fired c) (effects c) (script c).
Definition set_conn_state x c := mkConnection (wires c) (detached c) (addr c) x (protocol_version c) (compression_threshold c) (keys c) (session_table c) (registry c) (queue_manager c) (player_metrics c) (fired c) (effects c) (script c).
Definition set_protocol x c := mkConnection (wires c) (detached c) (addr c) (conn_state c) x (compression_threshold c) (keys c) (session_table c) (registry c) (queue_manager c) (player_metrics c) (fired c) (effects c) (script c).
Definition set_threshold x c := mkConnection (wires c) (detached c) (addr c) (conn_state c) (protocol_version c) x (keys c) (session_table c) (registry c) (queue_manager c) (player_metrics c) (fired c) (effects c) (script c).
Definition set_keys x c := mkConnection (wires c) (detached c) (addr c) (conn_state c) (protocol_version c) (compression_threshold c) x (session_table c) (registry c) (queue_manager c) (player_metrics c) (fired c) (effects c) (script c).
Definition set_tables t r c := mkConnection (wires c) (detached c) (addr c) (conn_state c) (protocol_version c) (compression_threshold c) (keys c) t r (queue_manager c) (player_metrics c) (fired c) (effects c) (script c).
Definition set_queue x c := mkConnection (wires c) (detached c) (addr c) (conn_state c) (protocol_version c) (compression_threshold c) (keys c) (session_table c) (registry c) x (player_metrics c) (fired c) (effects c) (script c).
Definition set_metrics x c := mkConnection (wires c) (detached c) (addr c) (conn_state c) (protocol_version c) (compression_threshold c) (keys c) (session_table c) (registry c) (queue_manager c) x (fired c) (effects c) (script c).
Definition set_fired x y c := mkConnection (wires c) (detached c) (addr c) (conn_state c) (protocol_version c) (compression_threshold c) (keys c) (session_table c) (registry c) (queue_manager c) (player_metrics c) x y (script c).
Definition set_script x c := mkConnection (wires c) (detached c) (addr c) (conn_state c) (protocol_version c) (compression_threshold c) (keys c) (session_table c) (registry c) (queue_manager c) (player_metrics c) (fired c) (effects c) x.

Abbreviation Co A := (M ClientConnection ConnectionError A).
Definition change (f : ClientConnection -> ClientConnection) : Co unit := fun c => (Ok tt, f c).
Definition read {A} (f : ClientConnection -> A) : Co A := fun c => (Ok (f c), c).
(** [let _ = m.await]. *)
Definition best_effort (m : Co unit) : Co unit := fun c => match m c with (Err _, c') => (Ok tt, c') | r => r end.
(** The result of [m] as a value, for a [match]. *)
Definition caught {A} (m : Co A) : Co (A + ConnectionError) := fun c =>
  match m c with
  | (Ok a, c') => (Ok (inl a), c')
  | (Err e, c') => (Ok (inr e), c')
  | (Panic, c') => (Panic, c')
  | (NoFuel, c') => (NoFuel, c')
  end.

(** On the streams.  [McStream::Empty], left behind by the relay, swallows writes
    and is at its end. *)
Definition on_streams {A} (m : W A) : Co A := fun c =>
  let w := wires c in
  if detached c then
    let '(o, w') := m (set_client [] (set_to_client (mkTx [] None) w)) in
    (o, set_wires (set_client (client w) (set_to_client (to_client w) w')) c)
  else let '(o, w') := m w in (o, set_wires w' c).

(** Counts, [fetch_add(1)] on the entry of that name. *)
Definition count_in (name : bytes) : Co unit := fun c => (Ok tt, set_tables (session_table c) (count_by 1 name (registry c)) c).
Definition set_current_server (uuid : bytes) (server : option bytes) : Co unit := fun c =>
  (Ok tt, match session_table c !! uuid with
          | Some s => set_tables (<[uuid := with_server server (ps_transferred s) s]> (session_table c)) (registry c) c
          | None => c
          end).
Definition remove_session (uuid : bytes) : Co unit := change (fun c => set_tables (delete uuid (session_table c)) (registry c) c).

(** ** Parameters *)

Record ConnEnv := mkConnEnv {
  deflate : bytes -> bytes; inflate : bytes -> bytes * option ErrorKind;
  order : entries -> entries; dim_files : DimFiles; bundles : Bundle -> bytes;
  json_parse : bytes -> option Value; json_text : Value -> bytes; json_string : bytes -> bytes; props_json : list ProfileProperty -> option bytes; json_error : bytes;
  hyphenated : bytes -> bytes; uuid_parse : bytes -> option bytes; ip_text : IpAddr -> bytes; error_text : ConnectionError -> bytes;
  hmac_sha256 : bytes -> bytes -> bytes; sha1 : bytes -> bytes;
  PublicKey : Type; b64_decode : bytes -> bytes + bytes; from_public_key_der : bytes -> PublicKey + bytes; rsa_verify : PublicKey -> bytes -> bytes -> option bytes;
  plugins : PluginEvent -> list PluginResponse;
  region_for : IpAddr -> bytes; draw : Z -> Z; failover : list FailoverGroupState;
  relay_env : Relay.RelayEnv }.

Record ConnConfig := mkConnConfig {
  maintenance : bool; bypass_uuids : list bytes; kick_message : bytes;
  online_mode : bool; mojang_public_key : bytes;
  resource_pack : option bytes * option bytes * bool * option bytes;
  forwarding_mode : ForwardingMode; ip_forward : bool; velocity_secret : bytes;
  routing_rules : RoutingRules; limbo_customization : LimboCustomization; queue_on : bool; shutdown_text : bytes;
  batching : bool; chat_translation : bool; cookie_passthrough : bool; slots : Z; entries_of_config : list ServerEntry }.

Section Session.
Variable env : ConnEnv.
Variable config : ConnConfig.

(** ** Sending *)

Definition write_raw_login_packet (pkt : EncodedPacket) : Co unit := fun c =>
  on_streams (let! p := lift (payload (VarInt_encode (ep_id pkt);; put_slice (ep_body pkt))) in tell_client (deflate env) p (compression_threshold c)) c.
Definition write_built (built : option EncodedPacket) : Co unit := match built with Some pkt => write_raw_login_packet pkt | None => ret tt end.
Definition canonical_of (c : ClientConnection) : CanonicalVersion := canonical_typed_packet_version (nearest (protocol_version c)).

Definition send_set_compression_with_threshold (threshold : Z) : Co unit := fun c =>
  let ver := nearest (protocol_version c) in
  match epoch ver with
  | E_PreNetty | E_V1_7 => (Ok tt, c)
  | _ => write_built (build_set_compression (canonical_typed_packet_version ver) (protocol_version c) threshold) c
  end.

Definition send_login_success (uuid username : bytes) (properties : list ProfileProperty) : Co unit := fun c =>
  match canonical_of c with
  | C_V1_6_4 =>
      on_streams (let! wire := lift (payload (put_u8 0x01;;
        Packets16.LoginRequest_encode (Packets16.mkLoginRequest 0 (chr "flat") 3 0 0 0 20))) in emit_client wire) c
  | canonical => write_built (build_login_success (hyphenated env) canonical (protocol_version c) (mkLoginProfile uuid username properties)) c
  end.
Definition send_encryption_request (der_public_key verify_token : bytes) : Co unit := fun c =>
  write_built (build_encryption_request (canonical_of c) (protocol_version c) [] der_public_key verify_token) c.
Definition send_disconnect_login (reason_json : bytes) : Co unit := fun c =>
  if is_pre_netty_proto (protocol_version c) then
    on_streams (let! body := lift (payload (put_u8 0xFF;;
      Packets16.LoginDisconnect_encode (chars_of (plaintext_from_chat_json (json_parse env) reason_json)))) in emit_client body) c
  else write_built (build_login_disconnect (canonical_of c) (protocol_version c) reason_json) c.
Definition send_play_disconnect (reason_json : bytes) : Co unit := fun c =>
  write_built (build_play_disconnect (canonical_of c) (protocol_version c) reason_json) c.

(** ** Plugins *)

(** [dispatch_plugin_event]: whether the subject was kicked. *)
Definition dispatch (subject : bytes) (e : PluginEvent) : Co bool := fun c =>
  let '(todo, kicked) := dispatch_plugin_event (json_text env) (Some subject) (plugins env e) in
  (Ok kicked, set_fired (fired c ++ [e]) (effects c ++ todo) c).
Definition fire (subject : bytes) (e : PluginEvent) : Co unit := let! _ := dispatch subject e in ret tt.

(** ** Backends *)

Definition effective_mode (server : option BackendServer) : ForwardingMode :=
  effective_forwarding_mode (match server with Some b => st_forwarding_override (bs_settings b) | None => None end) (forwarding_mode config) (ip_forward config).
(** [unwrap_or_default()]. *)
Definition backend_kind (server : option BackendServer) : BackendType := match server with Some b => st_backend_type (bs_settings b) | None => Spigot end.

Fixpoint write_frames (pkts : list bytes) : W unit :=
  match pkts with [] => ret tt | p :: pkts' => tell_backend (deflate env) p NO_COMPRESSION;; write_frames pkts' end.
Definition backend_handshake (server_address username uuid : bytes) (properties : list ProfileProperty) (server : option BackendServer) : Co unit := fun c =>
  match send_backend_handshake (hyphenated env) (props_json env) (protocol_version c) (effective_mode server) (backend_kind server)
          (ml_kind (wires c)) server_address (ip_text env (addr c).1) uuid username properties with
  | Some pkts => on_streams (write_frames pkts) c
  | None => (Err (CE_Auth (lit "Failed to create Bungeecord suffix: " ++ json_error env)), c)
  end.
Definition backend_login (username uuid : bytes) (properties : list ProfileProperty) (server : option BackendServer) (client_in_play : bool) : Co Z := fun c =>
  on_streams (complete_backend_login (deflate env) (inflate env) (uuid_parse env) (hmac_sha256 env) (velocity_secret config) (ip_text env (addr c).1)
    (protocol_version c) (protocol_version c) (mkProfile uuid username properties) (effective_mode server) client_in_play (compression_threshold c)) c.

(** The connection is made: nothing has been sent over it. *)
Definition attach_backend (stream : bytes) (room : option nat) : Co unit :=
  change (fun c => set_wires (set_backend stream (set_to_backend (mkTx [] room) (wires c))) c).

(** [pool.acquire()] or [connect_with_timeout]. *)
Definition dial : Co (option (bytes * option nat)) := fun c =>
  match dials (script c) with
  | [] => (NoFuel, c)
  | d :: rest => (Ok d, set_script (mkScript rest (stays (script c)) (legs (script c))) c)
  end.

(** A stay in limbo, on the client's stream and the shared queues. *)
Definition limbo_handler (c : ClientConnection) (target : option bytes) (in_play : bool) (uuid : bytes) : LimboHandler :=
  mkLimboHandler (protocol_version c) (compression_threshold c) (ml_kind (wires c)) target (client_login_acked (wires c)) in_play uuid
    (limbo_customization config) (queue_on config) (shutdown_text config) (routing_rules config).
Definition stay_in_limbo (target : option bytes) (in_play : bool) (uuid : bytes) : Co unit := fun c =>
  match stays (script c) with
  | [] => (NoFuel, c)
  | events :: rest =>
      let '(o, s) := Limbo.run (deflate env) (inflate env) (order env) (dim_files env) (bundles env) (json_parse env) (json_text env) (error_text env)
        (limbo_handler c target in_play uuid) events (mkLimboState (wires c) (queue_manager c) 0) in
      let c' := set_script (mkScript (dials (script c)) rest (legs (script c))) (set_queue (ls_queue s) (set_wires (ls_wires s) c)) in
      match o with
      | Ok (Some (_, stream)) => attach_backend stream None c'
      | Ok None => (NoFuel, c')
      | Err e => (Err e, c')
      | Panic => (Panic, c')
      | NoFuel => (NoFuel, c')
      end
  end.

(** proxy.rs *)
Definition route_via_failover (r : ServerRegistry) (client_ip : option IpAddr) : option BackendServer :=
  candidate ← select_with_region (region_for env) (draw env) (routing_rules config) r client_ip;
  match get_group_for_server (failover env) (bs_name candidate) with
  | Some group =>
      match get_active_server (failover env) group with
      | Some active_name =>
          if decide (active_name = bs_name candidate) then Some candidate
          else match registry_get active_name r with
               | Some active => if bs_online active then Some active else Some candidate
               | None => Some candidate
               end
      | None => Some candidate
      end
  | None => Some candidate
  end.

Definition run_limbo_then_connect (username fwd_host uuid : bytes) (props : list ProfileProperty) : Co Z :=
  stay_in_limbo None false uuid;;
  let! selected_server := read (fun c => route_via_failover (registry c) (Some (addr c).1)) in
  backend_handshake fwd_host username uuid props selected_server;;
  let! backend_threshold := backend_login username uuid props selected_server true in
  match selected_server with
  | Some b => count_in (bs_name b);; set_current_server uuid (Some (bs_name b))
  | None => ret tt
  end;;
  ret backend_threshold.

Definition connect_to_backend (username original_host uuid : bytes) (props : list ProfileProperty) : Co Z :=
  let! backend_opt := read (fun c => select_with_region (region_for env) (draw env) (routing_rules config) (registry c) (Some (addr c).1)) in
  match backend_opt with
  | None => run_limbo_then_connect username original_host uuid props
  | Some b =>
      let! stream_result := dial in
      match stream_result with
      | None => run_limbo_then_connect username original_host uuid props
      | Some (stream, room) =>
          attach_backend stream room;;
          let! sent := caught (backend_handshake original_host username uuid props (Some b)) in
          match sent with
          | inr _ => run_limbo_then_connect username original_host uuid props
          | inl _ =>
              let! logged_in := caught (backend_login username uuid props (Some b) false) in
              match logged_in with
              | inl backend_threshold =>
                  count_in (bs_name b);; set_current_server uuid (Some (bs_name b));; ret backend_threshold
              | inr _ => run_limbo_then_connect username original_host uuid props
              end
          end
      end
  end.

Definition switch_to_server (target username original_host uuid : bytes) (props : list ProfileProperty) : Co Z :=
  stay_in_limbo (Some target) true uuid;;
  let! server := read (fun c => registry_get target (registry c)) in
  backend_handshake original_host username uuid props server;;
  let! backend_threshold := backend_login username uuid props server true in
  count_in target;;
  set_current_server uuid (Some target);;
  (fun c => if protocol_version c <? 735
            then on_streams (apply_switch_world_reset (deflate env) (inflate env) (protocol_version c) (compression_threshold c) backend_threshold) c
            else (Ok tt, c));;
  ret backend_threshold.

(** ** Relay legs *)

(** The proxy speaks the client's protocol on both links. *)
Definition leg_config (uuid : bytes) (backend_threshold : Z) (c : ClientConnection) : Relay.RelayConfig :=
  Relay.mkRelayConfig (protocol_version c) (protocol_version c) (compression_threshold c) backend_threshold uuid
    (batching config) (chat_translation config) (cookie_passthrough config) (slots config) (entries_of_config config).
Definition leg_state (leg : Leg) (c : ClientConnection) : Relay.RelayState :=
  Relay.mkRelay [] [] [] [] None None (session_table c) (registry c) (leg_cooldowns leg) (effects c) true true.
Definition relay (uuid : bytes) (backend_threshold : Z) : Co Relay.RelayExit := fun c =>
  match legs (script c) with
  | [] => (NoFuel, c)
  | leg :: rest =>
      let cfg := leg_config uuid backend_threshold c in
      let '(o, st') := Relay.relay_exit cfg (leg_c2s leg) (leg_s2c leg) (Relay.relay_run (relay_env env) cfg (leg_events leg) (leg_state leg c)) in
      let w := wires c in
      let w' := set_client (leg_client leg) (set_to_client (mkTx (tx_sent (to_client w) ++ map snd (Relay.to_client st')) (tx_room (to_client w))) w) in
      let c' := set_script (mkScript (dials (script c)) (stays (script c)) rest)
        (set_fired (fired c) (Relay.proxy_effects st') (set_tables (Relay.session_table st') (Relay.servers st') (set_wires w' c))) in
      match o with
      | Ok (Relay.ExitSwitch _ as e) | Ok (Relay.BackendKicked _ as e) => (Ok e, c')
      | Ok Relay.Disconnected => (Ok Relay.Disconnected, set_detached true c')
      | Err e => (Err e, set_detached true c')
      | Panic => (Panic, set_detached true c')
      | NoFuel => (NoFuel, set_detached true c')
      end
  end.

Definition client_gone (e : ConnectionError) : bool := match e with CE_Closed | CE_Io _ => true | _ => false end.
Definition disconnect_reason_text (e : ConnectionError) : bytes :=
  match e with
  | CE_Auth msg => msg
  | CE_Backend _ => lit "Lost connection to the server."
  | other => error_text env other
  end.
Definition red (text : bytes) : bytes := red_json (json_text env) text.
(** A constant of the source; its JSON is written out there. *)
Definition red_constant (text : string) : bytes := quoted "{'text':'" ++ lit text ++ quoted "','color':'red'}".

(** The player's server, or the empty name. *)
Definition current_server (uuid : bytes) (c : ClientConnection) : bytes :=
  match session_table c !! uuid with Some s => default [] (ps_current_server s) | None => [] end.

Definition tell_kicked (reason : bytes) : Co unit := fun c =>
  match build_system_message_packet (json_parse env) (json_text env)
          (lit "You were kicked from the server: " ++ plaintext_from_chat_json (json_parse env) reason) (protocol_version c) with
  | Ok raw => best_effort (on_streams (tell_client (deflate env) raw (compression_threshold c))) c
  | _ => (Panic, c)
  end.

(** The loop over relay legs; its value is that of [result]. *)
Fixpoint session_loop (n : nat) (username original_host uuid : bytes) (props : list ProfileProperty) (backend_threshold : Z) : Co unit :=
  match n with
  | O => nofuel
  | Datatypes.S n' =>
      let! exit := relay uuid backend_threshold in
      match exit with
      | Relay.Disconnected => ret tt
      | Relay.ExitSwitch target =>
          let! switched := caught (switch_to_server target username original_host uuid props) in
          match switched with
          | inl threshold =>
              fire uuid (ServerSwitch uuid None target);;
              fire uuid (ServerConnected uuid target);;
              session_loop n' username original_host uuid props threshold
          | inr e =>
              (if client_gone e then ret tt else best_effort (send_play_disconnect (red_constant "Failed to connect to that server.")));;
              fail e
          end
      | Relay.BackendKicked reason =>
          (fun c => fire uuid (ServerKick uuid (current_server uuid c) (plaintext_from_chat_json (json_parse env) reason)) c);;
          tell_kicked reason;;
          let! fallback_target := read (fun c => match select (draw env) (routing_rules config) (registry c) with Some b => bs_name b | None => [] end) in
          let! switched := caught (switch_to_server fallback_target username original_host uuid props) in
          match switched with
          | inl threshold =>
              fire uuid (ServerSwitch uuid None fallback_target);;
              session_loop n' username original_host uuid props threshold
          | inr e => fail e
          end
      end
  end.

(** ** From the accepted login to the end *)

Definition send_resource_pack : Co unit := fun c =>
  let '(pack_url, pack_hash, required, prompt) := resource_pack config in
  match pack_url, pack_hash with
  | Some url, Some hash =>
      if should_send_resource_pack pack_url pack_hash then
        match build_resource_pack_packet (sha1 env) (json_string env) url hash required prompt (protocol_version c) with
        | Ok packet => best_effort (on_streams (tell_client (deflate env) packet (compression_threshold c))) c
        | Err _ => (Ok tt, c)
        | Panic => (Panic, c)
        | NoFuel => (NoFuel, c)
        end
      else (Ok tt, c)
  | _, _ => (Ok tt, c)
  end.

Definition bypassed (uuid : bytes) : bool := existsb (fun allowed => eq_ignore_ascii_case allowed (hyphenated env uuid)) (bypass_uuids config).
Definition check_maintenance (uuid : bytes) : Co unit :=
  if maintenance config && negb (bypassed uuid) then
    best_effort (send_disconnect_login (red (kick_message config)));;
    fail (CE_Auth (lit "maintenance mode active"))
  else ret tt.
(** [None] when the key does not parse, else the error if a signature does not hold. *)
Definition configured_key : PublicKey env + PropertySigError := parse_mojang_public_key (b64_decode env) (from_public_key_der env) (mojang_public_key config).
Definition signature_verdict (properties : list ProfileProperty) : option (option bytes) :=
  match configured_key with
  | inr _ => None
  | inl key => match verify_properties (b64_decode env) (rsa_verify env) (sha1 env) properties key true with inl _ => Some None | inr e => Some (Some (sig_error_text e)) end
  end.
Definition check_signatures (properties : list ProfileProperty) : Co unit := fun c =>
  let is_pre_netty_login := match canonical_of c with C_V1_6_4 => true | _ => false end in
  if online_mode config && negb is_pre_netty_login && negb (match properties with [] => true | _ => false end) then
    match signature_verdict properties with
    | Some (Some e) =>
        (best_effort (send_disconnect_login (red (lit "Profile signature check failed: " ++ e)));;
         fail (CE_Auth (lit "bad signature: " ++ e))) c
    | Some None | None => (Ok tt, c)
    end
  else (Ok tt, c).

Definition new_session (uuid username : bytes) (properties : list ProfileProperty) (c : ClientConnection) : PlayerSession :=
  mkSession uuid username (addr c).1 (protocol_version c) Play None false properties None None ∅.
Definition open_session (uuid username : bytes) (properties : list ProfileProperty) : Co unit :=
  change (fun c => set_tables (<[uuid := new_session uuid username properties c]> (session_table c)) (registry c) c);;
  change (fun c => set_metrics (player_metrics c ++ [uuid]) c).

(** What follows the relay loop. *)
Definition close_session (uuid username : bytes) (result : unit + ConnectionError) : Co unit :=
  remove_session uuid;;
  change (fun c => set_queue (remove_from_all (queue_manager c) uuid) c);;
  change (fun c => set_metrics (List.filter (fun u => negb (bool_decide (u = uuid))) (player_metrics c)) c);;
  fire uuid (PlayerLeave uuid);;
  fire uuid (PlayerDisconnect uuid username);;
  match result with
  | inr e =>
      (if client_gone e then ret tt else best_effort (send_play_disconnect (red (disconnect_reason_text e))));;
      fail e
  | inl _ => ret tt
  end.

Definition finalise_login (uuid username : bytes) (properties : list ProfileProperty) (original_host : bytes) : Co unit :=
  check_maintenance uuid;;
  check_signatures properties;;
  send_login_success uuid username properties;;
  open_session uuid username properties;;
  send_resource_pack;;
  let! post_login_kicked := dispatch uuid (PostLogin uuid username) in
  let! join_kicked := if post_login_kicked : bool then ret true else dispatch uuid (PlayerJoin uuid username) in
  if join_kicked : bool then
    remove_session uuid;;
    best_effort (send_play_disconnect (red_constant "You were not allowed to join."));;
    fail (CE_Auth (lit "join rejected by plugin"))
  else
    let! backend_result := caught (connect_to_backend username original_host uuid properties) in
    match backend_result with
    | inr e =>
        remove_session uuid;;
        (if client_gone e then ret tt else best_effort (send_play_disconnect (red_constant "Could not connect to any backend server.")));;
        fail e
    | inl backend_threshold =>
        let! target := read (current_server uuid) in
        fire uuid (ServerConnect uuid target);;
        fire uuid (ServerConnected uuid target);;
        change (set_conn_state Play);;
        let! result := caught (fun c => session_loop (Datatypes.S (length (legs (script c)))) username original_host uuid properties backend_threshold c) in
        close_session uuid username result
    end.
End Session.

(** ** What leaves the tables alone *)

(** The tables, the legs to come and the protocol. *)
Definition frame (c : ClientConnection) := (session_table c, registry c, legs (script c), protocol_version c).
Definition steady {A} (m : Co A) : Prop := forall c, frame (m c).2 = frame c.

Lemma steady_ret {A} (a : A) : steady (ret a).
Proof. done. Qed.
Lemma steady_fail {A} (e : ConnectionError) : steady (fail (A := A) e).
Proof. done. Qed.
Lemma steady_bind {A B} (m : Co A) (k : A -> Co B) : steady m -> (forall a, steady (k a)) -> steady (bind m k).
Proof. intros Hm Hk c. unfold bind. pose proof (Hm c) as H. destruct (m c) as [[a| | |] c']; cbn [snd] in *; try done. by rewrite Hk. Qed.
Lemma steady_best m : steady m -> steady (best_effort m).
Proof. intros Hm c. unfold best_effort. pose proof (Hm c) as H. by destruct (m c) as [[] ?]. Qed.
Lemma steady_caught {A} (m : Co A) : steady m -> steady (caught m).
Proof. intros Hm c. unfold caught. pose proof (Hm c) as H. by destruct (m c) as [[] ?]. Qed.
Lemma steady_streams {A} (m : W A) : steady (on_streams m).
Proof. intros c. unfold on_streams. destruct (detached c); [destruct (m _) as [o w]|destruct (m _) as [o w]]; done. Qed.
Lemma steady_read {A} (f : ClientConnection -> A) : steady (read f).
Proof. done. Qed.
Lemma steady_change f : (forall c, frame (f c) = frame c) -> steady (change f).
Proof. intros Hf c. apply Hf. Qed.
Create HintDb steady.
#[export] Hint Resolve steady_ret steady_fail steady_streams steady_read : steady.
#[export] Hint Opaque on_streams read change best_effort caught bind ret fail : steady.
Ltac steady_step :=
  lazymatch goal with
  | |- steady (bind _ _) => apply steady_bind; [|intros ?]
  | |- steady (best_effort _) => apply steady_best
  | |- steady (caught _) => apply steady_caught
  | |- steady (match ?x with _ => _ end) => destruct x
  | |- steady _ => first [solve [eauto 2 with steady] | done]
  end.
Ltac steady_auto := solve [repeat steady_step].

Section Steady.
Variable env : ConnEnv.
Variable config : ConnConfig.

Lemma steady_raw pkt : steady (write_raw_login_packet env pkt).
Proof. intros c. apply steady_streams. Qed.
Lemma steady_built o : steady (write_built env o).
Proof. destruct o; [apply steady_raw|apply steady_ret]. Qed.
#[local] Hint Resolve steady_raw steady_built : steady.
Lemma steady_login_success uuid username props : steady (send_login_success env uuid username props).
Proof. intros c. unfold send_login_success. destruct (canonical_of c); first [apply steady_streams|apply steady_built]. Qed.
Lemma steady_disconnect_login reason : steady (send_disconnect_login env reason).
Proof. intros c. unfold send_disconnect_login. destruct (is_pre_netty_proto _); first [apply steady_streams|apply steady_built]. Qed.
Lemma steady_play_disconnect reason : steady (send_play_disconnect env reason).
Proof. intros c. apply steady_built. Qed.
Lemma steady_dispatch subject e : steady (dispatch env subject e).
Proof. intros c. unfold dispatch. by destruct (dispatch_plugin_event _ _ _). Qed.
#[local] Hint Resolve steady_login_success steady_disconnect_login steady_play_disconnect steady_dispatch : steady.
Lemma steady_fire subject e : steady (fire env subject e).
Proof. unfold fire. steady_auto. Qed.
Lemma steady_handshake address username uuid props server : steady (backend_handshake env config address username uuid props server).
Proof. intros c. unfold backend_handshake. destruct (send_backend_handshake _ _ _ _ _ _ _ _ _ _ _); [apply steady_streams|done]. Qed.
Lemma steady_backend_login username uuid props server play : steady (backend_login env config username uuid props server play).
Proof. intros c. apply steady_streams. Qed.
Lemma steady_attach stream room : steady (attach_backend stream room).
Proof. by apply steady_change. Qed.
Lemma steady_dial : steady dial.
Proof. intros c. unfold dial. by destruct (dials (script c)). Qed.
Lemma steady_limbo target play uuid : steady (stay_in_limbo env config target play uuid).
Proof.
  intros c. unfold stay_in_limbo. destruct (stays (script c)) as [|events rest]; [done|].
  by destruct (Limbo.run _ _ _ _ _ _ _ _ _ _ _) as [[[[name stream]|]| | |] s].
Qed.
Lemma steady_resource_pack : steady (send_resource_pack env config).
Proof.
  intros c. unfold send_resource_pack. destruct (resource_pack config) as [[[url hash] required] prompt].
  destruct url as [url|], hash as [hash|]; try done. destruct (should_send_resource_pack _ _); [|done].
  destruct (build_resource_pack_packet _ _ _ _ _ _ _); try done. apply steady_best, steady_streams.
Qed.
Lemma steady_maintenance uuid : steady (check_maintenance env config uuid).
Proof. unfold check_maintenance. steady_auto. Qed.
Lemma steady_signatures props : steady (check_signatures env config props).
Proof.
  intros c. unfold check_signatures. cbn zeta. destruct (_ && _ && _); [|done]. destruct (signature_verdict env config props) as [[e|]|]; try done.
  apply (steady_bind (best_effort _) (fun _ => fail _)); [|intros _]; steady_auto.
Qed.
Lemma steady_tell_kicked reason : steady (tell_kicked env reason).
Proof.
  intros c. unfold tell_kicked. destruct (build_system_message_packet _ _ _ _); try done. apply steady_best, steady_streams.
Qed.
End Steady.
#[export] Hint Resolve steady_raw steady_built steady_login_success steady_disconnect_login steady_play_disconnect steady_dispatch steady_fire
  steady_handshake steady_backend_login steady_attach steady_dial steady_limbo steady_resource_pack steady_maintenance steady_signatures steady_tell_kicked : steady.

(** ** Counts over a session *)

(** What is framed carries over, and a steady step either fails there or goes on. *)
Definition framed (P : ClientConnection -> Prop) : Prop := forall c c', frame c' = frame c -> P c -> P c'.
Lemma steady_then {A B} (m : Co A) (k : A -> Co B) (P : ClientConnection -> Prop) (Q : outcome ConnectionError B -> ClientConnection -> Prop) c :
  steady m -> framed P -> P c -> (forall o c', (forall b, o <> Ok b) -> P c' -> Q o c') -> (forall a c', P c' -> Q (k a c').1 (k a c').2) ->
  Q (bind m k c).1 (bind m k c).2.
Proof.
  intros Hm HP Hc Hstop Hgo. pose proof (HP _ _ (Hm c) Hc) as Hc'. unfold bind.
  destruct (m c) as [[a| | |] c']; cbn [snd] in *; [by apply Hgo|by apply Hstop..].
Qed.

(** It came to an end: neither a panic nor a script that was too short. *)
Definition definite {A} (o : outcome ConnectionError A) : Prop := match o with Ok _ | Err _ => True | Panic | NoFuel => False end.

Section Counts.
Variable env : ConnEnv.
Variable config : ConnConfig.
Variable uuid : bytes.
(** Whether the session may be marked as transferred. *)
Variable t : bool -> Prop.

(** The player has a session, on [srv] or on no server; the counts are right but
    for [leaks]. *)
Definition seated (leaks : list bytes) (srv : option bytes) (c : ClientConnection) : Prop :=
  owed leaks (registry c) (session_table c) /\
  exists s, session_table c !! uuid = Some s /\ ps_current_server s = srv /\ t (ps_transferred s).
Lemma seated_framed leaks srv : framed (seated leaks srv).
Proof. intros c c' E. unfold seated, frame in *. injection E as -> -> _ _. done. Qed.

(** The counting and the placing, which together keep the books. *)
Lemma place_seated leaks name c : seated leaks None c ->
  exists c', (count_in name;; set_current_server uuid (Some name)) c = (Ok tt, c') /\
    seated leaks (Some name) c' /\ legs (script c') = legs (script c) /\ protocol_version c' = protocol_version c.
Proof.
  intros [Ho (s & Hs & Hsrv & Ht)]. unfold count_in, set_current_server, bind. cbn [session_table set_tables]. rewrite Hs.
  eexists. split; [reflexivity|]. split; [|done]. split; cbn [registry session_table set_tables].
  - pose proof (owed_transfer leaks _ _ _ s name (ps_transferred s) Ho Hs) as H. unfold leave in H. by rewrite Hsrv in H.
  - rewrite lookup_insert_eq. eauto.
Qed.

(** From no server to some server, with a failure leaving the player on none. *)
Definition arrives {A} (m : Co A) : Prop := forall leaks c, seated leaks None c ->
  exists srv, seated leaks srv (m c).2 /\ legs (script (m c).2) = legs (script c) /\ protocol_version (m c).2 = protocol_version c /\
    ((exists e, (m c).1 = Err e) -> 735 <= protocol_version c -> srv = None).
Lemma arrives_steady {A} (m : Co A) : steady m -> arrives m.
Proof.
  intros Hm leaks c Hc. pose proof (Hm c) as E. exists None. split; [by eapply seated_framed|].
  unfold frame in E. injection E as _ _ El Ep. done.
Qed.
Lemma arrives_bind {A B} (m : Co A) (k : A -> Co B) : steady m -> (forall a, arrives (k a)) -> arrives (bind m k).
Proof.
  intros Hm Hk leaks c Hc. pose proof (Hm c) as E. assert (Hc' : seated leaks None (m c).2) by (by eapply seated_framed).
  unfold frame in E. injection E as _ _ El Ep. unfold bind.
  destruct (m c) as [[a| | |] c']; cbn [fst snd] in *; [|by exists None..].
  destruct (Hk a leaks c' Hc') as (srv & H1 & H2 & H3 & H4). rewrite Ep in H4. exists srv. split; [done|]. by rewrite H2, H3.
Qed.
Lemma arrives_place {A} name (m : Co A) : (forall c, 735 <= protocol_version c -> exists a, (m c).1 = Ok a) -> steady m ->
  arrives (count_in name;; set_current_server uuid (Some name);; m).
Proof.
  intros Hok Hm leaks c Hc. destruct (place_seated leaks name c Hc) as (c' & E & Hc' & El & Ep).
  pose proof (Hm c') as Ef. pose proof (seated_framed _ _ _ _ Ef Hc') as Hs. specialize (Hok c'). rewrite Ep in Hok. unfold bind in *.
  destruct (count_in name c) as [[[]| | |] c1]; cbn [fst snd] in *; try done. rewrite E. unfold frame in Ef. injection Ef as _ _ El' Ep'.
  exists (Some name). split; [done|]. split; [congruence|]. split; [congruence|]. intros [e He] Hp. destruct (Hok Hp) as [a Ha]. congruence.
Qed.

Lemma arrives_limbo username fwd_host props : arrives (run_limbo_then_connect env config username fwd_host uuid props).
Proof.
  unfold run_limbo_then_connect. apply arrives_bind; [steady_auto|intros _]. apply arrives_bind; [steady_auto|intros server].
  apply arrives_bind; [steady_auto|intros _]. apply arrives_bind; [steady_auto|intros threshold].
  destruct server as [b|]; [|apply arrives_steady; steady_auto].
  intros leaks c Hc. assert (H := arrives_place (bs_name b) (ret threshold) (fun c _ => ex_intro _ threshold eq_refl) ltac:(steady_auto) leaks c Hc).
  revert H. unfold bind. by destruct (count_in _ c) as [[[]| | |] c1].
Qed.

Lemma arrives_connect username original_host props : arrives (connect_to_backend env config username original_host uuid props).
Proof.
  unfold connect_to_backend. apply arrives_bind; [steady_auto|]. intros [b|]; [|apply arrives_limbo].
  apply arrives_bind; [steady_auto|]. intros [[stream room]|]; [|apply arrives_limbo].
  apply arrives_bind; [steady_auto|intros _]. apply arrives_bind; [steady_auto|]. intros [_|_]; [|apply arrives_limbo].
  apply arrives_bind; [steady_auto|]. intros [threshold|_]; [|apply arrives_limbo].
  apply arrives_place; [intros c _; by eexists|steady_auto].
Qed.

Lemma arrives_switch target username original_host props : arrives (switch_to_server env config target username original_host uuid props).
Proof.
  unfold switch_to_server. repeat (apply arrives_bind; [steady_auto|intros ?]). apply arrives_place.
  - intros c Hp. unfold bind. replace (protocol_version c <? 735) with false by lia. by eexists.
  - apply steady_bind; [|intros _; steady_auto]. intros c. destruct (_ <? _); [apply steady_streams|done].
Qed.

(** *** One leg *)

(** No packet of the leg asks for this player to be moved. *)
Definition probe (proto : Z) : Relay.RelayConfig := Relay.mkRelayConfig proto proto 0 0 uuid false false false 0 [].
Definition calm_leg (proto : Z) (leg : Leg) : bool :=
  forallb (fun e => match Relay.carries (relay_env env) (probe proto) e with Some cmd => negb (Relay.moves_player (probe proto) cmd) | None => true end) (leg_events leg).

Lemma calm_leg_spec thr leg c : calm_leg (protocol_version c) leg = true ->
  Forall (fun e => forall cmd, Relay.carries (relay_env env) (leg_config config uuid thr c) e = Some cmd ->
                     Relay.moves_player (leg_config config uuid thr c) cmd = false) (leg_events leg).
Proof.
  intros H. apply Forall_forall. intros e He cmd Hc. unfold calm_leg in H. rewrite forallb_forall in H.
  specialize (H e (proj1 (list_elem_of_In _ _) He)).
  replace (Relay.carries (relay_env env) (probe (protocol_version c)) e) with (Some cmd) in H by (rewrite <- Hc; by destruct e as [[]|[]|]).
  apply negb_true_iff in H. exact H.
Qed.

Lemma relay_result thr leg rest c : legs (script c) = leg :: rest ->
  let cfg := leg_config config uuid thr c in
  let st' := (Relay.relay_exit cfg (leg_c2s leg) (leg_s2c leg) (Relay.relay_run (relay_env env) cfg (leg_events leg) (leg_state leg c))).2 in
  frame (relay env config uuid thr c).2 = (Relay.session_table st', Relay.servers st', rest, protocol_version c).
Proof.
  intros El cfg st'. unfold relay. rewrite El. fold cfg. unfold st'. destruct (Relay.relay_exit _ _ _ _) as [[[]| | |] st2]; reflexivity.
Qed.

Lemma relay_seated leaks srv thr leg rest c : seated leaks srv c -> legs (script c) = leg :: rest ->
  t true \/ calm_leg (protocol_version c) leg = true ->
  exists leaks', seated leaks' None (relay env config uuid thr c).2 /\ (length leaks' <= Datatypes.S (length leaks))%nat /\ ((forall b, t b -> b = false) -> leaks' = leaks).
Proof.
  intros [Ho (s & Hs & _ & Ht)] El Hcalm. pose proof (relay_result thr leg rest c El) as Ef. cbn zeta in Ef.
  set (cfg := leg_config config uuid thr c) in *. set (st1 := Relay.relay_run _ cfg _ _) in *.
  assert (Ho1 : Relay.rl_owed leaks st1) by (by apply Relay.relay_run_owed).
  assert (Ha : Relay.attended t cfg st1).
  { apply Relay.relay_run_attended; [|by exists s]. destruct Hcalm; [by left|right]. by apply calm_leg_spec. }
  destruct Ha as (s1 & Hs1 & Ht1). destruct (Relay.relay_exit_tables cfg (leg_c2s leg) (leg_s2c leg) st1 s1 Hs1) as [Es Et].
  destruct (Relay.relay_exit _ _ _ _) as [o st2]. cbn [fst snd] in *. unfold frame in Ef. injection Ef as Ft Fr _ _.
  unfold seated. rewrite Ft, Fr, Es, Et.
  assert (Hseat : exists s', <[uuid := with_server None (ps_transferred s1) s1]> (Relay.session_table st1) !! uuid = Some s' /\ ps_current_server s' = None /\ t (ps_transferred s'))
    by (rewrite lookup_insert_eq; eauto).
  destruct (ps_transferred s1) eqn:Etr.
  - exists (debt s1 leaks). split; [split; [by apply owed_abandon|done]|]. split; [unfold debt; destruct (ps_current_server s1); cbn; lia|].
    intros Hf. by specialize (Hf true Ht1).
  - exists leaks. split; [split; [by apply owed_exit|done]|]. split; [lia|done].
Qed.

(** *** The loop over legs *)

(** How a part of the session ends: where the player is, what is owed and how many
    legs that took. *)
Definition leg_bound (leaks : list bytes) (c : ClientConnection) : nat := (length leaks + length (legs (script c)))%nat.
Definition ends (leaks : list bytes) (c : ClientConnection) (o : outcome ConnectionError unit) (c' : ClientConnection) : Prop :=
  exists leaks' srv, seated leaks' srv c' /\ (leg_bound leaks' c' <= leg_bound leaks c)%nat /\ ((forall b, t b -> b = false) -> leaks' = leaks) /\
    (definite o -> 735 <= protocol_version c -> srv = None).
Definition calm (c : ClientConnection) : Prop := t true \/ Forall (fun leg => calm_leg (protocol_version c) leg = true) (legs (script c)).

(** The state between two legs. *)
Definition between (leaks : list bytes) (c0 : ClientConnection) (srv : option bytes) (c : ClientConnection) : Prop :=
  seated leaks srv c /\ protocol_version c = protocol_version c0 /\ legs (script c) = legs (script c0).
Lemma between_framed leaks c0 srv : framed (between leaks c0 srv).
Proof. intros c c' E [H1 H2]. split; [by eapply seated_framed|]. unfold frame in E. injection E as _ _ -> ->. done. Qed.
Lemma ends_here leaks c0 o c : between leaks c0 None c -> ends leaks c0 o c.
Proof. intros (H1 & H2 & H3). exists leaks, None. unfold leg_bound. by rewrite H3. Qed.
Lemma ends_stopped leaks c0 srv o c : ~ definite o -> between leaks c0 srv c -> ends leaks c0 o c.
Proof. intros Hn (H1 & H2 & H3). exists leaks, srv. unfold leg_bound. rewrite H3. by split_and!. Qed.
Lemma ends_failed leaks c0 srv o c : (735 <= protocol_version c0 -> srv = None) -> between leaks c0 srv c -> ends leaks c0 o c.
Proof. intros Hsrv (H1 & H2 & H3). exists leaks, srv. unfold leg_bound. rewrite H3. by split_and!. Qed.

Lemma bind_caught {A B} (m : Co A) (k : A + ConnectionError -> Co B) c :
  bind (caught m) k c = match m c with (Ok a, c') => k (inl a) c' | (Err e, c') => k (inr e) c' | (Panic, c') => (Panic, c') | (NoFuel, c') => (NoFuel, c') end.
Proof. unfold bind, caught. by destruct (m c) as [[] ?]. Qed.

(** A switch between two legs: the next leg, or the end. *)
Lemma switch_ends leaks c0 target username original_host props (on_error : ConnectionError -> Co unit) (next : Z -> Co unit) c :
  (forall e, steady (on_error e)) ->
  (forall threshold srv c', between leaks c0 srv c' -> ends leaks c0 (next threshold c').1 (next threshold c').2) -> between leaks c0 None c ->
  let m := let! switched := caught (switch_to_server env config target username original_host uuid props) in
           match switched with inl threshold => next threshold | inr e => on_error e;; fail e end in
  ends leaks c0 (m c).1 (m c).2.
Proof.
  intros Hsteady Hnext (H1 & H2 & H3). cbn zeta. destruct (arrives_switch target username original_host props leaks c H1) as (srv & A1 & A2 & A3 & A4).
  rewrite bind_caught. destruct (switch_to_server _ _ _ _ _ _ _ c) as [[threshold|e| |] c1]; cbn [fst snd] in *.
  - apply (Hnext threshold srv). by split_and!; [|congruence..].
  - assert (Hc1 : between leaks c0 srv c1) by (by split_and!; [|congruence..]).
    apply (steady_then (on_error e) (fun _ => fail e) (between leaks c0 srv) (ends leaks c0)); [apply Hsteady|apply between_framed|done| |];
      intros; apply (ends_failed _ _ srv); try done; rewrite <- H2; intros Hp; by apply A4; [eexists|].
  - apply (ends_stopped _ _ srv); [by intros []|]. by split_and!; [|congruence..].
  - apply (ends_stopped _ _ srv); [by intros []|]. by split_and!; [|congruence..].
Qed.
Lemma bind_run {A B} (m : Co A) (k : A -> Co B) c :
  bind m k c = match m c with (Ok a, c') => k a c' | (Err e, c') => (Err e, c') | (Panic, c') => (Panic, c') | (NoFuel, c') => (NoFuel, c') end.
Proof. done. Qed.
Lemma ends_trans leaks c leaks1 c1 o c2 : protocol_version c1 = protocol_version c -> (leg_bound leaks1 c1 <= leg_bound leaks c)%nat ->
  ((forall b, t b -> b = false) -> leaks1 = leaks) -> ends leaks1 c1 o c2 -> ends leaks c o c2.
Proof.
  intros Hp Hb Hl (leaks2 & srv & H1 & H2 & H3 & H4). exists leaks2, srv. split_and!; [done|lia| |by rewrite <- Hp].
  intros Ht. by rewrite H3, Hl.
Qed.
Lemma ends_after leaks c srv c1 o c2 : between leaks c srv c1 -> ends leaks c1 o c2 -> ends leaks c o c2.
Proof. intros (_ & Hp & Hl). apply ends_trans; [done|unfold leg_bound; by rewrite Hl|done]. Qed.

(** Telling the plugins never fails. *)
Lemma ends_fire leaks c0 srv subject e (k : Co unit) c : between leaks c0 srv c ->
  (forall c', between leaks c0 srv c' -> ends leaks c0 (k c').1 (k c').2) -> ends leaks c0 ((fire env subject e;; k) c).1 ((fire env subject e;; k) c).2.
Proof.
  intros Hc Hk. pose proof (between_framed _ _ _ _ _ (steady_fire env subject e c) Hc) as Hc'. revert Hc'.
  unfold fire, dispatch, bind. destruct (dispatch_plugin_event _ _ _) as [todo kicked]. unfold ret. cbn [snd]. apply Hk.
Qed.

Lemma loop_ends n username original_host props threshold leaks srv c : seated leaks srv c -> calm c ->
  ends leaks c (session_loop env config n username original_host uuid props threshold c).1 (session_loop env config n username original_host uuid props threshold c).2.
Proof.
  revert threshold leaks srv c. induction n as [|n IH]; intros threshold leaks srv c Hc Hcalm; [apply (ends_stopped _ _ srv); [by intros []|done]|].
  cbn [session_loop]. destruct (legs (script c)) as [|leg rest] eqn:El.
  { rewrite bind_run. unfold relay. rewrite El. apply (ends_stopped _ _ srv); [by intros []|done]. }
  assert (Hleg : t true \/ calm_leg (protocol_version c) leg = true).
  { destruct Hcalm as [|Hcalm]; [by left|right]. rewrite El in Hcalm. by inversion Hcalm. }
  destruct (relay_seated leaks srv threshold leg rest c Hc El Hleg) as (leaks1 & Hs1 & Hb1 & Ht1).
  pose proof (relay_result threshold leg rest c El) as Ef. cbn zeta in Ef. unfold frame in Ef. injection Ef as _ _ El1 Ep1. rewrite bind_run.
  assert (Hcalm1 : forall c', protocol_version c' = protocol_version c -> legs (script c') = rest -> calm c').
  { intros c' Ep' El'. unfold calm. rewrite Ep', El'. destruct Hcalm as [|Hcalm]; [by left|right]. rewrite El in Hcalm. by inversion Hcalm. }
  destruct (relay _ _ _ _ c) as [o c1]; cbn [fst snd] in *.
  apply (ends_trans _ _ leaks1 c1); [done|unfold leg_bound; rewrite El, El1; cbn [length]; lia|done|].
  assert (Hb : between leaks1 c1 None c1) by done.
  assert (Hnext : forall threshold srv c', between leaks1 c1 srv c' ->
    ends leaks1 c1 (session_loop env config n username original_host uuid props threshold c').1 (session_loop env config n username original_host uuid props threshold c').2).
  { intros thr srv' c' (Hs' & Hp' & Hl'). apply (ends_after _ _ srv' c'); [done|]. apply (IH thr leaks1 srv'); [done|]. apply Hcalm1; congruence. }
  destruct o as [[|target|reason]|e| |]; try (by apply ends_here).
  - apply (switch_ends leaks1 c1 target username original_host props (fun e => if client_gone e then ret tt else best_effort _)); [intros e; steady_auto| |done].
    intros thr srv' c' Hc'. apply (ends_fire _ _ srv'); [done|]. intros c2 Hc2. apply (ends_fire _ _ srv'); [done|]. intros c3. apply Hnext.
  - apply (ends_fire _ _ None uuid (ServerKick uuid (current_server uuid c1) (plaintext_from_chat_json (json_parse env) reason))); [done|]. intros c2 Hc2.
    apply (steady_then (tell_kicked env reason) _ (between leaks1 c1 None) (ends leaks1 c1)); [steady_auto|apply between_framed|done|by intros; apply ends_here|].
    intros _ c3 Hc3. cbn beta. rewrite bind_run. cbn [read].
    apply (switch_ends leaks1 c1 _ username original_host props (fun _ => ret tt)); [intros e; steady_auto| |done].
    intros thr srv' c' Hc'. apply (ends_fire _ _ srv'); [done|]. intros c4. apply Hnext.
Qed.

(** *** Opening and closing *)

(** Steps whose error is dropped. *)
Definition mild {A} (m : Co A) : Prop := forall c e, (m c).1 <> Err e.
Lemma mild_best m : mild (best_effort m).
Proof. intros c e. unfold best_effort. by destruct (m c) as [[] ?]. Qed.
Lemma mild_dispatch subject e : mild (dispatch env subject e).
Proof. intros c e'. unfold dispatch. by destruct (dispatch_plugin_event _ _ _). Qed.
Lemma mild_resource_pack : mild (send_resource_pack env config).
Proof.
  intros c e. unfold send_resource_pack. destruct (resource_pack config) as [[[[url|] [hash|]] required] prompt]; try done.
  destruct (should_send_resource_pack _ _); [|done]. destruct (build_resource_pack_packet _ _ _ _ _ _ _); try done. apply mild_best.
Qed.
Lemma mild_then {A B} (m : Co A) (k : A -> Co B) (P : ClientConnection -> Prop) (Q : outcome ConnectionError B -> ClientConnection -> Prop) c :
  steady m -> mild m -> framed P -> P c -> (forall o c', ~ definite o -> P c' -> Q o c') -> (forall a c', P c' -> Q (k a c').1 (k a c').2) ->
  Q (bind m k c).1 (bind m k c).2.
Proof.
  intros Hm Hn HP Hc Hstop Hgo. pose proof (HP _ _ (Hm c) Hc) as Hc'. specialize (Hn c). rewrite bind_run.
  destruct (m c) as [[a|e| |] c']; cbn [fst snd] in *; [by apply Hgo|by destruct (Hn e)|apply Hstop; [by intros []|done]..].
Qed.

(** At the end: what is owed, and the session gone if the end was reached. *)
Definition closes (c0 : ClientConnection) (o : outcome ConnectionError unit) (c : ClientConnection) : Prop :=
  exists leaks, owed leaks (registry c) (session_table c) /\ (length leaks <= Datatypes.S (length (legs (script c0))))%nat /\
    (definite o -> session_table c !! uuid = None) /\ ((forall b, t b -> b = false) -> 735 <= protocol_version c0 -> leaks = []).
Definition cleared (c0 : ClientConnection) (c : ClientConnection) : Prop := closes c0 (Ok tt) c.
Lemma cleared_framed c0 : framed (cleared c0).
Proof. intros c c' E. unfold cleared, closes, frame in *. by injection E as -> -> _ _. Qed.
Lemma closes_cleared c0 o c : cleared c0 c -> closes c0 o c.
Proof. intros (leaks & H1 & H2 & H3 & H4). exists leaks. split_and!; try done. intros _. by apply H3. Qed.

Definition absent (c0 c : ClientConnection) : Prop :=
  owed [] (registry c) (session_table c) /\ session_table c !! uuid = None /\ protocol_version c = protocol_version c0 /\ legs (script c) = legs (script c0).
Lemma absent_framed c0 : framed (absent c0).
Proof. intros c c' E. unfold absent, frame in *. by injection E as -> -> -> ->. Qed.
Lemma closes_absent c0 o c : absent c0 c -> closes c0 o c.
Proof. intros (H1 & H2 & _). exists []. split_and!; [done|cbn; lia|done..]. Qed.
Lemma closes_waiting c0 o c : ~ definite o -> between [] c0 None c -> closes c0 o c.
Proof. intros Ho ((H1 & _) & _). exists []. split_and!; [done|cbn; lia|done..]. Qed.

Lemma closes_ended c0 o o' c : ends [] c0 o c -> ~ definite o' -> closes c0 o' c.
Proof.
  intros (leaks & srv & [H1 _] & H2 & H3 & _) Ho. exists leaks. split_and!; [done| |done|by intros Ht _; apply H3].
  unfold leg_bound in H2. cbn [length] in H2. lia.
Qed.
Lemma remove_ended c0 o c : ends [] c0 o c -> definite o ->
  exists c', remove_session uuid c = (Ok tt, c') /\ cleared c0 c'.
Proof.
  intros (leaks & srv & [H1 (s & Hs & Hsrv & _)] & H2 & H3 & H4) Ho. eexists. split; [reflexivity|].
  exists (debt s leaks). cbn [registry session_table set_tables]. split_and!.
  - by apply owed_delete.
  - unfold leg_bound in H2. cbn [length] in H2. unfold debt. destruct (ps_current_server s); cbn [length]; lia.
  - intros _. apply lookup_delete_eq.
  - intros Ht Hp. unfold debt. by rewrite Hsrv, H4, H3.
Qed.

(** Once the session is out of the table, what follows leaves the tables alone. *)
Lemma closes_steady c0 (m : Co unit) c : steady m -> cleared c0 c -> closes c0 (m c).1 (m c).2.
Proof. intros Hm Hc. apply closes_cleared. by apply (cleared_framed _ _ _ (Hm c)). Qed.
Lemma closes_removed c0 o (m : Co unit) c : steady m -> ends [] c0 o c -> definite o ->
  closes c0 ((remove_session uuid;; m) c).1 ((remove_session uuid;; m) c).2.
Proof.
  intros Hm He Ho. destruct (remove_ended _ _ _ He Ho) as (c' & E & Hc'). rewrite bind_run, E. by apply closes_steady.
Qed.

Lemma open_waiting username props c0 c : t false -> absent c0 c ->
  exists c', open_session uuid username props c = (Ok tt, c') /\ between [] c0 None c'.
Proof.
  intros Ht (H1 & H2 & H3 & H4). eexists. split; [reflexivity|]. split; [|done]. split; cbn [registry session_table set_tables set_metrics].
  - by apply owed_insert.
  - rewrite lookup_insert_eq. eauto.
Qed.

Lemma close_closes username result c0 o c : ends [] c0 o c -> definite o ->
  closes c0 (close_session env uuid username result c).1 (close_session env uuid username result c).2.
Proof.
  intros He Ho. unfold close_session. apply (closes_removed _ o); [|done..].
  repeat (apply steady_bind; [first [by apply steady_change|steady_auto]|intros _]). destruct result; steady_auto.
Qed.

(** From the accepted player to the end. *)
Lemma played_closes username original_host props c0 c : calm c0 -> between [] c0 None c ->
  let m := let! backend_result := caught (connect_to_backend env config username original_host uuid props) in
    match backend_result with
    | inr e =>
        remove_session uuid;;
        (if client_gone e then ret tt else best_effort (send_play_disconnect env (red_constant "Could not connect to any backend server.")));;
        fail e
    | inl backend_threshold =>
        let! target := read (current_server uuid) in
        fire env uuid (ServerConnect uuid target);;
        fire env uuid (ServerConnected uuid target);;
        change (set_conn_state Play);;
        let! result := caught (fun c => session_loop env config (Datatypes.S (length (legs (script c)))) username original_host uuid props backend_threshold c) in
        close_session env uuid username result
    end in
  closes c0 (m c).1 (m c).2.
Proof.
  intros Hcalm Hc. cbn zeta. rewrite bind_caught.
  destruct (arrives_connect username original_host props [] c (proj1 Hc)) as (srv & A1 & A2 & A3 & A4). destruct Hc as (_ & Hp & Hl).
  destruct (connect_to_backend _ _ _ _ _ _ c) as [[threshold|e| |] c1]; cbn [fst snd] in *.
  2: { apply (closes_removed c0 (Err e)); [destruct (client_gone e); steady_auto| |done].
       apply (ends_failed _ _ srv); [|by split_and!; [|congruence..]]. rewrite <- Hp. intros H. by apply A4; [eexists|]. }
  2, 3: (apply (closes_ended c0 Panic); [|by intros []]; apply (ends_stopped _ _ srv); [by intros []|by split_and!; [|congruence..]]).
  rewrite bind_run. cbn [read].
  assert (Hb : between [] c0 srv c1) by (by split_and!; [|congruence..]).
  assert (Hgo : forall c', between [] c0 srv c' -> closes c0
    ((change (set_conn_state Play);; let! result := caught (fun c => session_loop env config (Datatypes.S (length (legs (script c)))) username original_host uuid props threshold c) in
      close_session env uuid username result) c').1
    ((change (set_conn_state Play);; let! result := caught (fun c => session_loop env config (Datatypes.S (length (legs (script c)))) username original_host uuid props threshold c) in
      close_session env uuid username result) c').2).
  { intros c' Hc'. rewrite bind_run. cbn [change]. set (c2 := set_conn_state Play c').
    assert (Hc2 : between [] c0 srv c2) by done. rewrite bind_caught.
    assert (He : ends [] c0 (session_loop env config (Datatypes.S (length (legs (script c2)))) username original_host uuid props threshold c2).1
                            (session_loop env config (Datatypes.S (length (legs (script c2)))) username original_host uuid props threshold c2).2).
    { apply (ends_after _ _ srv c2); [done|]. apply (loop_ends _ _ _ _ _ _ srv); [apply Hc2|].
      unfold calm in *. by rewrite (proj1 (proj2 Hc2)), (proj2 (proj2 Hc2)). }
    destruct (session_loop _ _ _ _ _ _ _ _ c2) as [[[]|e| |] c3]; cbn [fst snd] in *;
      [by eapply close_closes..|eapply closes_ended; [exact He|by intros []]|eapply closes_ended; [exact He|by intros []]]. }
  assert (Hstop : forall o c', ~ definite o -> between [] c0 srv c' -> closes c0 o c').
  { intros o c' Ho ((H1 & _) & _). exists []. split_and!; [done|cbn; lia|done..]. }
  assert (Hfire : forall e, mild (fire env uuid e)).
  { intros e c' e'. unfold fire, bind. pose proof (mild_dispatch uuid e c') as H. destruct (dispatch _ _ _ _) as [[]]; cbn [fst] in *; [done|by destruct (H e0)|done..]. }
  apply (mild_then (fire env uuid _) _ (between [] c0 srv) (closes c0)); [steady_auto|done|apply between_framed|done|done|]. intros _ c2 Hc2. cbn beta.
  apply (mild_then (fire env uuid _) _ (between [] c0 srv) (closes c0)); [steady_auto|done|apply between_framed|done|done|]. intros _ c3 Hc3. by apply Hgo.
Qed.

Lemma finalise_closes username props original_host c : t false -> calm c -> owed [] (registry c) (session_table c) -> session_table c !! uuid = None ->
  closes c (finalise_login env config uuid username props original_host c).1 (finalise_login env config uuid username props original_host c).2.
Proof.
  intros Ht Hcalm Ho Hn. assert (Ha : absent c c) by done. unfold finalise_login.
  apply (steady_then (check_maintenance env config uuid) _ (absent c) (closes c)); [steady_auto|apply absent_framed|done|intros; by apply closes_absent|]. intros _ c1 Hc1. cbn beta.
  apply (steady_then (check_signatures env config props) _ (absent c) (closes c)); [steady_auto|apply absent_framed|done|intros; by apply closes_absent|]. intros _ c2 Hc2. cbn beta.
  apply (steady_then (send_login_success env uuid username props) _ (absent c) (closes c)); [steady_auto|apply absent_framed|done|intros; by apply closes_absent|]. intros _ c3 Hc3. cbn beta.
  destruct (open_waiting username props c c3 Ht Hc3) as (c4 & E & Hc4). rewrite bind_run, E.
  apply (mild_then (send_resource_pack env config) _ (between [] c None) (closes c)); [steady_auto|apply mild_resource_pack|apply between_framed|done|intros; by apply closes_waiting|].
  intros _ c5 Hc5. cbn beta.
  apply (mild_then (dispatch env uuid _) _ (between [] c None) (closes c)); [steady_auto|apply mild_dispatch|apply between_framed|done|intros; by apply closes_waiting|].
  intros kicked c6 Hc6. cbn beta.
  apply (mild_then (if kicked then ret true else dispatch env uuid _) _ (between [] c None) (closes c));
    [destruct kicked; steady_auto|destruct kicked; [done|apply mild_dispatch]|apply between_framed|done|intros; by apply closes_waiting|].
  intros [] c7 Hc7; [|by apply played_closes].
  apply (closes_removed c (Ok tt)); [steady_auto|by apply ends_here|done].
Qed.
End Counts.

(** C12: Player counts over whole sessions.  When the counts of the registered servers
    are right and the player is not yet known, then after the login, the connections,
    the stays in limbo, all legs of the relay and the switches between them, however
    they end, they are right but for one player too many per name in [leaks]; there
    is at most one per leg and one more; and a session that ended is no longer in the
    table.  There is none when no packet of a leg asked for the player to be moved
    and the client speaks 1.16 or later. *)
Theorem session_census (env : ConnEnv) (config : ConnConfig) (uuid username : bytes) (props : list ProfileProperty) (original_host : bytes) (c : ClientConnection) :
  census (registry c) (session_table c) -> session_table c !! uuid = None ->
  let '(o, c') := finalise_login env config uuid username props original_host c in
  exists leaks, owed leaks (registry c') (session_table c') /\ (length leaks <= Datatypes.S (length (legs (script c))))%nat /\
    (definite o -> session_table c' !! uuid = None) /\
    (forallb (calm_leg env uuid (protocol_version c)) (legs (script c)) = true -> 735 <= protocol_version c -> leaks = [] /\ census (registry c') (session_table c')).
Proof.
  rewrite <- owed_nil. intros Ho Hn. destruct (forallb _ _) eqn:Ecalm.
  - pose proof (finalise_closes env config uuid (fun b => b = false) username props original_host c eq_refl) as H.
    destruct (finalise_login _ _ _ _ _ _ c) as [o c']. destruct H as (leaks & H1 & H2 & H3 & H4); [|done..|].
    { right. apply Forall_forall. intros leg Hleg. rewrite forallb_forall in Ecalm. by apply Ecalm, list_elem_of_In. }
    exists leaks. split_and!; try done. intros _ Hp. assert (leaks = []) as -> by (by apply H4). split; [done|by apply owed_nil].
  - pose proof (finalise_closes env config uuid (fun _ => True) username props original_host c I (or_introl I)) as H.
    destruct (finalise_login _ _ _ _ _ _ c) as [o c']. destruct H as (leaks & H1 & H2 & H3 & _); [done..|]. by exists leaks.
Qed.

(** ** Refusals *)

(** What others can see of a session: the tables, the queues, the metrics and what
    plugins were told. *)
Definition public (c : ClientConnection) :=
  (session_table c, registry c, queue_manager c, player_metrics c, fired c, effects c, script c).
Definition private {A} (m : Co A) : Prop := forall c, public (m c).2 = public c.
Lemma private_streams {A} (m : W A) : private (on_streams m).
Proof. intros c. unfold on_streams. by destruct (detached c); destruct (m _). Qed.
Lemma private_best m : private m -> private (best_effort m).
Proof. intros Hm c. unfold best_effort. pose proof (Hm c) as H. by destruct (m c) as [[] ?]. Qed.
Lemma private_disconnect_login env reason : private (send_disconnect_login env reason).
Proof.
  intros c. unfold send_disconnect_login. destruct (is_pre_netty_proto _); [apply private_streams|].
  destruct (build_login_disconnect _ _ _); [apply private_streams|done].
Qed.
(** Told, then refused. *)
Lemma told_refused env reason e c : let r := (best_effort (send_disconnect_login env reason);; fail (A := unit) e) c in
  (r.1 = Err e \/ ~ definite r.1) /\ public r.2 = public c.
Proof.
  cbn zeta. pose proof (private_best _ (private_disconnect_login env reason) c) as Hp.
  assert (Hn : forall e', (best_effort (send_disconnect_login env reason) c).1 <> Err e') by (intros e'; unfold best_effort; by destruct (send_disconnect_login env reason c) as [[] ?]).
  rewrite bind_run. destruct (best_effort _ c) as [[[]|e'| |] c']; cbn [fst snd] in *; [by split; [left|]|by destruct (Hn e')|split; [by right; intros []|done]..].
Qed.
Lemma refused_first {A} (m : Co unit) (k : Co A) (e : ConnectionError) c :
  (let r := m c in (r.1 = Err e \/ ~ definite r.1) /\ public r.2 = public c) ->
  (let r := (m;; k) c in (r.1 = Err e \/ ~ definite r.1) /\ public r.2 = public c).
Proof.
  cbn zeta. rewrite bind_run. destruct (m c) as [[[]|e'| |] c']; cbn [fst snd]; intros [H Hp].
  - destruct H as [H|H]; [done|by destruct (H I)].
  - split; [|done]. destruct H as [H|H]; [left; by injection H as ->|by destruct (H I)].
  - split; [right; by intros []|done].
  - split; [right; by intros []|done].
Qed.

(** Who is let in.  While maintenance is on, a player whose id is not on the
    bypass list is refused, whatever their profile; without maintenance, in online
    mode, so is a player of 1.7 or later with a property that is not signed with the
    configured key.  Either way nothing has been registered, queued, counted or
    announced. *)
Theorem refused_before_registered (env : ConnEnv) (config : ConnConfig) (uuid username : bytes) (props : list ProfileProperty) (original_host : bytes) (c : ClientConnection) :
  let r := finalise_login env config uuid username props original_host c in
  (maintenance config = true -> bypassed env config uuid = false ->
     (r.1 = Err (CE_Auth (lit "maintenance mode active")) \/ ~ definite r.1) /\ public r.2 = public c) /\
  (forall key, maintenance config = false \/ bypassed env config uuid = true -> online_mode config = true -> canonical_of c <> C_V1_6_4 ->
     configured_key env config = inl key -> ~ Forall (signed_by (b64_decode env) (rsa_verify env) (sha1 env) key) props ->
     exists e, (r.1 = Err (CE_Auth (lit "bad signature: " ++ sig_error_text e)) \/ ~ definite r.1) /\ public r.2 = public c).
Proof.
  intros r. unfold r, finalise_login. split.
  - intros Hm Hb. apply refused_first. unfold check_maintenance. rewrite Hm, Hb. apply told_refused.
  - intros key Hm Ho Hv Hk Hsig. rewrite bind_run. unfold check_maintenance.
    replace (maintenance config && negb (bypassed env config uuid)) with false by (by destruct Hm as [->| ->]; rewrite ?andb_false_r).
    unfold ret at 1. cbv iota beta. pose proof (verify_loop_spec (b64_decode env) (rsa_verify env) (sha1 env) 0 key props) as Hl.
    destruct (verify_properties_loop _ _ _ 0 props key true) as [m|e] eqn:El; [by destruct Hl|]. exists e.
    apply refused_first. unfold check_signatures, signature_verdict, verify_properties. cbv zeta. rewrite Ho, Hk, El.
    replace (match canonical_of c with C_V1_6_4 => true | _ => false end) with false by (by destruct (canonical_of c)).
    destruct props; [done|]. cbn [negb andb]. apply told_refused.
Qed.

(** ** What the code does not do *)

(** After a leg that ended the connection the client's stream is gone: nothing that
    is written afterwards reaches the client. *)
Theorem words_after_relay_lost (env : ConnEnv) (config : ConnConfig) (uuid reason : bytes) (threshold : Z) (c : ClientConnection) :
  let r := relay env config uuid threshold c in
  (exists e, r.1 = Err e) -> tx_sent (to_client (wires (send_play_disconnect env reason r.2).2)) = tx_sent (to_client (wires r.2)).
Proof.
  intros r [e He]. assert (Hd : detached r.2 = true).
  { unfold r, relay in *. destruct (legs (script c)); [done|]. by destruct (Relay.relay_exit _ _ _ _) as [[[]| | |] st2]. }
  unfold send_play_disconnect, write_built. destruct (build_play_disconnect _ _ _); [|done].
  unfold write_raw_login_packet, on_streams. rewrite Hd. by destruct (bind _ _ _).
Qed.

(** A plugin that is told of a kick by a backend never learns which backend: the
    relay has cleared the player's server by then. *)
Theorem kick_event_nameless (env : ConnEnv) (config : ConnConfig) (uuid : bytes) (threshold : Z) (c : ClientConnection) :
  is_Some (session_table c !! uuid) -> is_Some (head (legs (script c))) ->
  current_server uuid (relay env config uuid threshold c).2 = [].
Proof.
  intros [s Hs] [leg Hleg]. destruct (legs (script c)) as [|leg' rest] eqn:El; [done|]. injection Hleg as ->.
  pose proof (relay_result env config uuid threshold leg rest c El) as Ef. cbn zeta in Ef. unfold frame in Ef. injection Ef as Et _ _ _.
  assert (Ha : Relay.attended (fun _ => True) (leg_config config uuid threshold c)
    (Relay.relay_run (relay_env env) (leg_config config uuid threshold c) (leg_events leg) (leg_state leg c))).
  { apply Relay.relay_run_attended; [by left|by exists s]. }
  destruct Ha as (s1 & Hs1 & _). destruct (Relay.relay_exit_tables _ (leg_c2s leg) (leg_s2c leg) _ s1 Hs1) as [_ E2].
  unfold current_server. rewrite Et, E2. change (Relay.player_uuid (leg_config config uuid threshold c)) with uuid. by rewrite lookup_insert_eq.
Qed.

(** ** Witnesses *)

Definition toy_conn : ConnEnv := mkConnEnv stored unstored id demo_files (fun _ => []) (fun _ => None) (fun _ => lit "j") (fun s => s) (fun _ => None) []
  (fun u => u) (fun _ => None) (fun _ => lit "10.0.0.1") (fun _ => lit "e") (fun _ _ => []) (fun _ => []) bytes inl inl (fun _ _ _ => Some (lit "no")) (fun _ => [])
  (fun _ => []) id [] Relay.toy_env.
Definition toy_config (down queue : bool) : ConnConfig := mkConnConfig down [lit "op"] (lit "later") true [] (None, None, false, None) FM_None false []
  (mkRouting (lit "lobby") [] []) (mkLimboCustomization None None None) queue [] true false false 20 [].
Definition toy_wires (said : bytes) : Wires := mkWires said (mkTx [] None) [] (mkTx [] None) MK_Vanilla false false.
Definition toy_start (proto : Z) (said : bytes) (r : ServerRegistry) (todo : Script) : ClientConnection :=
  mkConnection (toy_wires said) false (V4 [x0a; x00; x00; x01], 4000) Login proto NO_COMPRESSION [] ∅ r (queue_new 0) [] [] [] todo.
Definition one_server : ServerRegistry := [Routing.sample_backend (lit "lobby") true 0 0 1 false].
(** A backend that accepts the player, and a leg in which it sends a packet and the
    client goes. *)
Definition toy_accepts : bytes := encode_frame ([x02] ++ replicate 16 x11 ++ wire Str (lit "n")).
Definition toy_leg : Leg := mkLeg [Relay.EvS2c (Relay.S2cPacket [x20; x01] false); Relay.EvC2s Relay.C2sStopped] (Ok tt) (Ok tt) [] ∅.
Definition toy_session_start : ClientConnection := toy_start 754 [] one_server (mkScript [Some (toy_accepts, None)] [] [toy_leg]).

Lemma toy_start_census proto said todo : census (registry (toy_start proto said one_server todo)) (session_table (toy_start proto said one_server todo)).
Proof.
  intros name b. cbn [registry toy_start registry_get one_server].
  destruct (decide _) as [<-|_]; [|done]. intros [= <-]. vm_compute. reflexivity.
Qed.

Lemma session_census_witness :
  let r := finalise_login toy_conn (toy_config false false) (lit "u") (lit "n") [] (lit "h") toy_session_start in
  r.1 = Ok tt /\ fired r.2 = [PostLogin (lit "u") (lit "n"); PlayerJoin (lit "u") (lit "n"); ServerConnect (lit "u") (lit "lobby"); ServerConnected (lit "u") (lit "lobby");
                             PlayerLeave (lit "u"); PlayerDisconnect (lit "u") (lit "n")] /\
  session_table r.2 !! lit "u" = None /\ census (registry r.2) (session_table r.2).
Proof.
  pose proof (session_census toy_conn (toy_config false false) (lit "u") (lit "n") [] (lit "h") toy_session_start (toy_start_census _ _ _) eq_refl) as H.
  assert (Ho : (finalise_login toy_conn (toy_config false false) (lit "u") (lit "n") [] (lit "h") toy_session_start).1 = Ok tt) by (vm_compute; reflexivity).
  assert (Hf : fired (finalise_login toy_conn (toy_config false false) (lit "u") (lit "n") [] (lit "h") toy_session_start).2 =
    [PostLogin (lit "u") (lit "n"); PlayerJoin (lit "u") (lit "n"); ServerConnect (lit "u") (lit "lobby"); ServerConnected (lit "u") (lit "lobby");
     PlayerLeave (lit "u"); PlayerDisconnect (lit "u") (lit "n")]) by (vm_compute; reflexivity).
  destruct (finalise_login toy_conn _ _ _ _ _ toy_session_start) as [o c']. cbn [fst snd] in *. subst o.
  destruct H as (leaks & _ & _ & H3 & H4). split; [done|]. split; [exact Hf|]. split; [exact (H3 I)|].
  apply H4; [vm_compute; reflexivity|]. vm_compute. discriminate.
Defined.

Lemma refused_before_registered_witness :
  let c := toy_session_start in
  public (finalise_login toy_conn (toy_config true false) (lit "u") (lit "n") [] (lit "h") c).2 = public c /\
  public (finalise_login toy_conn (toy_config false false) (lit "u") (lit "n") [mkProperty (lit "p") (lit "v") None] (lit "h") c).2 = public c.
Proof.
  cbv zeta. split.
  - apply (proj1 (refused_before_registered toy_conn (toy_config true false) (lit "u") (lit "n") [] (lit "h") toy_session_start)); reflexivity.
  - destruct (proj2 (refused_before_registered toy_conn (toy_config false false) (lit "u") (lit "n") [mkProperty (lit "p") (lit "v") None] (lit "h") toy_session_start) [])
      as [e [_ H]]; [by left|reflexivity|vm_compute; discriminate|reflexivity| |exact H].
    intros H. apply Forall_cons in H as [(s & sig & H & _) _]. discriminate H.
Defined.

(** A player who leaves while waiting for a full server on the first connection is
    not taken out of the queue or the metrics, and the plugins that heard of the
    join never hear of the leaving.  The session is the only thing removed. *)
Definition full_server : ServerRegistry := [Routing.sample_backend (lit "lobby") true 5 5 1 false].
Theorem waiting_player_never_leaves :
  let c := toy_start 340 [] full_server (mkScript [None] [[PollTick 0 full_server id (fun _ => None); ClientPacket]] []) in
  let r := finalise_login toy_conn (toy_config false true) (lit "u") (lit "n") [] (lit "h") c in
  r.1 = Err (CE_Io KUnexpectedEof) /\ session_table r.2 !! lit "u" = None /\
  queue_of (queue_manager r.2) (lit "lobby") = [lit "u"] /\ player_metrics r.2 = [lit "u"] /\
  fired r.2 = [PostLogin (lit "u") (lit "n"); PlayerJoin (lit "u") (lit "n")].
Proof. vm_compute. repeat split; reflexivity. Qed.

(** The player is counted on the server the routing chooses after limbo, which need
    not be the one limbo connected to: the poll saw [games], and by the time the
    session is placed the routing says [lobby]. *)
Theorem limbo_counts_elsewhere :
  let games := Routing.sample_backend (lit "games") true 0 0 1 false in
  let c := toy_start 340 [] one_server
    (mkScript [None] [[PollTick 0 [games] id (fun _ => Some (encode_frame ([x02] ++ wire Str (lit "u") ++ wire Str (lit "n"))))]] []) in
  let r := connect_to_backend toy_conn (toy_config false false) (lit "n") (lit "h") (lit "u") [] c in
  is_ok r.1 = true /\ map bs_player_count (registry r.2) = [1].
Proof. vm_compute. split; reflexivity. Qed.

(** A switch of a client before 1.16 that fails while the new world is announced has
    already been counted: the session goes, and the server keeps a player that is
    not there. *)
Theorem failed_switch_keeps_count :
  let accepts := encode_frame ([x02] ++ wire Str (lit "u") ++ wire Str (lit "n")) in
  let asks := wire VarInt (sb_plugin_message_id 340) ++ wire Str (lit "KOJACRD|CONNECT") ++ lit "games" in
  let two := [Routing.sample_backend (lit "lobby") true 0 0 1 false; Routing.sample_backend (lit "games") true 0 0 1 false] in
  let c := toy_start 340 [] two (mkScript [Some (accepts, None)] [[PollTick 0 two id (fun _ => Some accepts)]]
             [mkLeg [Relay.EvC2s (Relay.C2sPacket 0 asks)] (Ok tt) (Ok tt) [] ∅]) in
  let r := finalise_login toy_conn (toy_config false false) (lit "u") (lit "n") [] (lit "h") c in
  (exists e, r.1 = Err e) /\ session_table r.2 = ∅ /\ map bs_player_count (registry r.2) = [0; 1].
Proof. vm_compute. split; [by eexists|]. split; reflexivity. Qed.
