(* ===== verification/Status.v ===== *)
(** * The server-list answer

    The status text of crates/proxy-core: the favicon and the cached suffix of
    src/proxy.rs (set at start-up, refreshed every second by the accept loop, rebuilt
    by [reload_config]) and the texts that [handle_status] and [handle_legacy_ping] of
    net/connection.rs put around it.  Base64 and the JSON text of a value are
    parameters. *)
From Stdlib Require Import ZArith Lia Strings.String Strings.Byte.
From stdpp Require Import base list numbers strings gmap.
From S2P Require Import Prelude Buf Wire Codec Chars Utf8 Commands.
From S2P Require Packets16.
Local Open Scope Z_scope.
Local Open Scope koja_scope.

(** ** Favicon *)

Definition PNG_MAGIC : bytes := [x89; x50; x4e; x47; x0d; x0a; x1a; x0a].
Definition looks_like_png (bs : bytes) : bool := bool_decide (take 8 bs = PNG_MAGIC).

Inductive FileRead := FileMissing | FileFailed | FileContents (bs : bytes).

Section Status.
Variable base64 : bytes -> bytes.
Variable json_text : Value -> bytes.
Variable hyphenated : bytes -> bytes.

Definition load_favicon (file : FileRead) : option bytes :=
  match file with
  | FileMissing | FileFailed => None
  | FileContents bs => if looks_like_png bs then Some (lit "data:image/png;base64," ++ base64 bs) else None
  end.

(** ** The suffix *)

Record Listeners := mkListeners { motd : bytes; motd_json : option Value; server_lore : option bytes; max_players : Z }.
Record StatusState := mkStatus { cached_suffix : bytes; favicon : option bytes }.

Definition number_value (n : Z) : Value := JNumber (Some n) None.
Definition text_value (s : bytes) : Value := JString (chars_of s).

Definition initial_suffix : bytes := quoted "},'players':{'max':0,'online':0,'sample':[]},'description':{'text':''}}".
Definition status_new (file : FileRead) : StatusState := mkStatus initial_suffix (load_favicon file).

Definition favicon_field (st : StatusState) : bytes :=
  match favicon st with Some f => quoted ",'favicon':" ++ json_text (text_value f) | None => [] end.

(** One player of the sample, and the sample of the first twelve sessions whose lock
    is free. *)
Definition player_json (lore : option bytes) (s : PlayerSession) : Value :=
  JObject ([(chr "name", text_value (ps_username s)); (chr "id", text_value (hyphenated (ps_uuid s)))] ++
           match lore with Some l => [(chr "lore", text_value l)] | None => [] end).
Definition player_sample (lore : option bytes) (sessions : Sessions) : list Value :=
  let sample := map (player_json lore) (readable (take 12 sessions)) in
  match sample, lore with
  | [], Some l => [JObject [(chr "name", JString []); (chr "id", JString []); (chr "lore", text_value l)]]
  | _, _ => sample
  end.

(** One tick of the refresh. *)
Definition refresh_status (boot : Listeners) (sessions : Sessions) (st : StatusState) : StatusState :=
  let description := match motd_json boot with Some v => v | None => JObject [(chr "text", text_value (motd boot))] end in
  let players := JObject [(chr "max", number_value (max_players boot)); (chr "online", number_value (Z.of_nat (length sessions)));
                          (chr "sample", JArray (player_sample (server_lore boot) sessions))] in
  mkStatus (quoted "},'players':" ++ json_text players ++ quoted ",'description':" ++ json_text description ++ favicon_field st ++ quoted "}") (favicon st).

(** The part of [reload_config] that rebuilds it. *)
Definition reload_status (new_config : Listeners) (file : FileRead) (st : StatusState) : StatusState :=
  let st := mkStatus (cached_suffix st) (load_favicon file) in
  mkStatus (quoted "},'players':{'max':" ++ number (max_players new_config) ++ quoted ",'online':0,'sample':[]},'description':{'text':" ++
            json_text (text_value (motd new_config)) ++ quoted "}" ++ favicon_field st ++ quoted "}") (favicon st).

(** ** The answers *)

Definition status_json (proto : Z) (st : StatusState) : bytes := quoted "{'version':{'name':'Koja','protocol':" ++ number proto ++ cached_suffix st.
Fixpoint comma_separated (l : list bytes) : bytes := match l with [] => [] | [x] => x | x :: l' => x ++ lit "," ++ comma_separated l' end.
Definition sample_json (sample : list (bytes * bytes)) : bytes :=
  comma_separated (map (fun '(name, uuid) => quoted "{'name':'" ++ name ++ quoted "','uuid':'" ++ uuid ++ quoted "'}") sample).
Definition custom_status_json (proto max online : Z) (sample : list (bytes * bytes)) (st : StatusState) : bytes :=
  quoted "{'version':{'name':'Koja','protocol':'" ++ number proto ++ quoted "'},'players':{'max':" ++ number max ++ quoted ",'online':" ++ number online ++
  quoted ",'sample':[" ++ sample_json sample ++ quoted "]}" ++ cached_suffix st ++ quoted "}".
Definition legacy_ping_json (st : StatusState) : bytes := quoted "{'version':{'name':'Koja','protocol':78}" ++ cached_suffix st.
End Status.

(** ** Nesting *)

(** A reading of JSON text that only looks at strings and brackets. *)
Inductive Mode := Out | InString | Escaped.
#[export] Instance Mode_eq_dec : EqDecision Mode.
Proof. solve_decision. Defined.
Fixpoint scan (bs : bytes) (open : list bool) (m : Mode) : option (list bool * Mode) :=
  match bs with
  | [] => Some (open, m)
  | b :: bs' =>
      match m with
      | Escaped => scan bs' open InString
      | InString => if bool_decide (b = x22) then scan bs' open Out else if bool_decide (b = x5c) then scan bs' open Escaped else scan bs' open InString
      | Out =>
          if bool_decide (b = x22) then scan bs' open InString
          else if bool_decide (b = x7b) then scan bs' (true :: open) Out
          else if bool_decide (b = x5b) then scan bs' (false :: open) Out
          else if bool_decide (b = x7d) then match open with true :: open' => scan bs' open' Out | _ => None end
          else if bool_decide (b = x5d) then match open with false :: open' => scan bs' open' Out | _ => None end
          else scan bs' open Out
      end
  end.
(** Text that closes what it opens, and a whole text that does. *)
Definition balanced (bs : bytes) : Prop := forall open, scan bs open Out = Some (open, Out).
Definition nested (bs : bytes) : bool := bool_decide (scan bs [] Out = Some ([], Out)).

Lemma scan_app a b open m : scan (a ++ b) open m = match scan a open m with Some (open', m') => scan b open' m' | None => None end.
Proof.
  revert open m. induction a as [|x a IH]; intros open m; [done|]. cbn [app scan].
  destruct m; repeat (case_bool_decide; [try apply IH|]); try apply IH; destruct open as [|[] open]; try done; apply IH.
Qed.
Lemma balanced_scan a b open : balanced a -> scan (a ++ b) open Out = scan b open Out.
Proof. intros Ha. by rewrite scan_app, Ha. Qed.

Definition plain_byte (b : byte) : bool := negb (bool_decide (b ∈ [x22; x7b; x5b; x7d; x5d])).
Lemma plain_balanced bs : Forall (fun b => plain_byte b = true) bs -> balanced bs.
Proof.
  intros Hp open. induction Hp as [|b bs Hb _ IH]; [done|]. cbn [scan]. unfold plain_byte in Hb. rewrite negb_true_iff, bool_decide_eq_false in Hb.
  repeat (rewrite bool_decide_eq_false_2 by (intros ->; apply Hb; set_solver)). exact IH.
Qed.
Lemma number_plain n : Forall (fun b => plain_byte b = true) (number n) /\ Forall (fun b => b <> x22 /\ b <> x5c) (number n).
Proof.
  rewrite <- Forall_and. unfold number, utf8. apply Forall_concat, Forall_fmap, (Forall_impl _ _ _ (show_chars n)). intros c Hc. cbn [compose].
  assert (Hr : c = 45 \/ 48 <= c <= 57).
  { unfold number_char, is_digit in Hc. apply orb_true_iff in Hc as [Hc|Hc]; [right; apply andb_true_iff in Hc as [H1 H2]; lia|left; lia]. }
  unfold utf8_char. replace (c <? 128) with true by (symmetry; apply Z.ltb_lt; lia). apply List.Forall_cons; [|apply List.Forall_nil].
  assert (Hb : bz (zb c) = c) by (rewrite bz_zb, Z.mod_small; lia). split.
  - unfold plain_byte. rewrite negb_true_iff. apply bool_decide_eq_false_2. rewrite !elem_of_cons, elem_of_nil.
    intros H. repeat destruct H as [H|H]; try done; rewrite H in Hb; vm_compute in Hb; lia.
  - split; intros H; rewrite H in Hb; vm_compute in Hb; lia.
Qed.
Lemma number_balanced n : balanced (number n).
Proof. apply plain_balanced, number_plain. Qed.
Lemma number_in_string n open : scan (number n) open InString = Some (open, InString).
Proof.
  destruct (number_plain n) as [_ H]. induction H as [|b bs [H1 H2] _ IH]; [done|]. cbn [scan]. by rewrite !bool_decide_eq_false_2.
Qed.

(** The suffix closes the version and the whole object. *)
Definition closing (suffix : bytes) : Prop := forall open, scan suffix (true :: true :: open) Out = Some (open, Out).

(** More open brackets outside change nothing, so a text that closes two cannot do
    with one. *)
Lemma scan_frame bs open m outer : match scan bs open m with Some (open', m') => scan bs (open ++ outer) m = Some (open' ++ outer, m') | None => True end.
Proof.
  revert open m. induction bs as [|b bs IH]; intros open m; [done|]. cbn [scan].
  destruct m; repeat (case_bool_decide; [try apply IH|]); try apply IH.
  - destruct open as [|[] open]; try done. apply IH.
  - destruct open as [|[] open]; try done. apply IH.
Qed.
Lemma closing_one suffix : closing suffix -> scan suffix [true] Out = None.
Proof.
  intros Hc. pose proof (scan_frame suffix [true] Out [true]) as H. destruct (scan suffix [true] Out) as [[open m]|]; [|done].
  cbn [app] in H. rewrite (Hc []) in H. injection H as H _. by destruct open.
Qed.

Section Nesting.
Variable base64 : bytes -> bytes.
Variable json_text : Value -> bytes.
Variable hyphenated : bytes -> bytes.
Hypothesis json_balanced : forall v, balanced (json_text v).

Lemma favicon_balanced st : balanced (favicon_field json_text st).
Proof. unfold favicon_field. intros open. destruct (favicon st) as [f|]; [|reflexivity].
  rewrite scan_app. change (scan (quoted ",'favicon':") open Out) with (Some (open, Out)). cbv iota beta. apply json_balanced.
Qed.
Lemma closing_initial : closing initial_suffix.
Proof. intros open. reflexivity. Qed.
Lemma closing_refresh boot sessions st : closing (cached_suffix (refresh_status json_text hyphenated boot sessions st)).
Proof.
  intros open. unfold refresh_status. cbn [cached_suffix]. rewrite scan_app. change (scan (quoted "},'players':") (true :: true :: open) Out) with (Some (true :: open, Out)). cbv iota beta.
  rewrite (balanced_scan _ _ _ (json_balanced _)), scan_app. change (scan (quoted ",'description':") (true :: open) Out) with (Some (true :: open, Out)). cbv iota beta.
  rewrite (balanced_scan _ _ _ (json_balanced _)), (balanced_scan _ _ _ (favicon_balanced _)). reflexivity.
Qed.
Lemma closing_reload config file st : closing (cached_suffix (reload_status base64 json_text config file st)).
Proof.
  intros open. unfold reload_status. cbn [cached_suffix]. rewrite scan_app. change (scan (quoted "},'players':{'max':") (true :: true :: open) Out) with (Some (true :: true :: open, Out)). cbv iota beta.
  rewrite (balanced_scan _ _ _ (number_balanced _)), scan_app.
  change (scan (quoted ",'online':0,'sample':[]},'description':{'text':") (true :: true :: open) Out) with (Some (true :: true :: open, Out)). cbv iota beta.
  rewrite (balanced_scan _ _ _ (json_balanced _)), scan_app. change (scan (quoted "}") (true :: true :: open) Out) with (Some (true :: open, Out)). cbv iota beta.
  rewrite (balanced_scan _ _ _ (favicon_balanced _)). reflexivity.
Qed.

(** What the proxy keeps: the state at start-up, after refreshes and reloads in any
    order. *)
Inductive kept : StatusState -> Prop :=
  | kept_new file : kept (status_new base64 file)
  | kept_refresh boot sessions st : kept st -> kept (refresh_status json_text hyphenated boot sessions st)
  | kept_reload config file st : kept st -> kept (reload_status base64 json_text config file st).
Lemma kept_closing st : kept st -> closing (cached_suffix st).
Proof. destruct 1; [apply closing_initial|apply closing_refresh|apply closing_reload]. Qed.

(** The status answer.  If the JSON text of every value closes what it opens, then
    after any sequence of refreshes and reloads the text sent for a modern ping is
    one object that closes everything it opens, for every protocol number; but with
    a player sample from a plugin, whatever its players, or for a legacy ping, brackets are closed that
    were never opened. *)
Theorem status_well_nested (st : StatusState) (proto max online : Z) (sample : list (bytes * bytes)) :
  kept st -> balanced (sample_json sample) ->
  nested (status_json proto st) = true /\
  nested (legacy_ping_json st) = false /\ nested (custom_status_json proto max online sample st) = false.
Proof.
  intros Hk Hs. apply kept_closing in Hk. unfold nested. split_and!.
  - apply bool_decide_eq_true_2. unfold status_json. rewrite scan_app. change (scan (quoted "{'version':{'name':'Koja','protocol':") [] Out) with (Some ([true; true], Out)). cbv iota beta.
    by rewrite (balanced_scan _ _ _ (number_balanced _)).
  - apply bool_decide_eq_false_2. unfold legacy_ping_json. rewrite scan_app. change (scan (quoted "{'version':{'name':'Koja','protocol':78}") [] Out) with (Some ([true], Out)). cbv iota beta.
    by rewrite closing_one.
  - apply bool_decide_eq_false_2. unfold custom_status_json. rewrite scan_app.
    change (scan (quoted "{'version':{'name':'Koja','protocol':'") [] Out) with (Some ([true; true], InString)). cbv iota beta.
    rewrite scan_app, number_in_string. cbv iota beta. rewrite scan_app. change (scan (quoted "'},'players':{'max':") [true; true] InString) with (Some ([true; true], Out)). cbv iota beta.
    rewrite (balanced_scan _ _ _ (number_balanced _)), scan_app. change (scan (quoted ",'online':") [true; true] Out) with (Some ([true; true], Out)). cbv iota beta.
    rewrite (balanced_scan _ _ _ (number_balanced _)), scan_app. change (scan (quoted ",'sample':[") [true; true] Out) with (Some ([false; true; true], Out)). cbv iota beta.
    rewrite (balanced_scan _ _ _ Hs), scan_app. change (scan (quoted "]}") [false; true; true] Out) with (Some ([true], Out)). cbv iota beta.
    by rewrite scan_app, closing_one.
Qed.
End Nesting.

Lemma status_well_nested_witness :
  let text (_ : Value) := lit "{}" in
  let st := refresh_status text id (mkListeners (lit "hi") None None 20) [] (status_new id (FileContents (PNG_MAGIC ++ [x00]))) in
  nested (status_json 765 st) = true /\ nested (custom_status_json 765 20 0 [(lit "a", lit "b")] st) = false.
Proof.
  cbv zeta. set (text := fun _ : Value => lit "{}").
  assert (Ht : forall v, balanced (text v)) by (intros v open; reflexivity).
  assert (Hs : balanced (sample_json [(lit "a", lit "b")])) by (intros open; reflexivity).
  destruct (status_well_nested id text id Ht (refresh_status text id (mkListeners (lit "hi") None None 20) [] (status_new id (FileContents (PNG_MAGIC ++ [x00])))) 765 20 0
    [(lit "a", lit "b")] (kept_refresh id text id _ _ _ (kept_new id text id _)) Hs) as (H1 & _ & H3). split; assumption.
Defined.

(** A parser that refuses badly nested text makes of every legacy answer the built-in
    defaults: the configured text and the player count are never shown. *)
Theorem legacy_ping_shows_defaults (base64 : bytes -> bytes) (json_text : Value -> bytes) (hyphenated : bytes -> bytes) (json_parse : bytes -> option Value) (st : StatusState) :
  (forall v, balanced (json_text v)) -> (forall s v, json_parse s = Some v -> nested s = true) -> kept base64 json_text hyphenated st ->
  Packets16.from_json (json_parse (legacy_ping_json st)) = Packets16.mkMotd (chr "78") (chr "1.6.4") (chr "A Minecraft Server") (chr "0") (chr "20").
Proof.
  intros Ht Hp Hk. destruct (json_parse (legacy_ping_json st)) as [v|] eqn:E; [|reflexivity].
  apply Hp in E. apply (kept_closing base64 json_text hyphenated Ht) in Hk. apply bool_decide_eq_true_1 in E. unfold legacy_ping_json in E. rewrite scan_app in E.
  change (scan (quoted "{'version':{'name':'Koja','protocol':78}") [] Out) with (Some ([true], Out)) in E. cbv iota beta in E. by rewrite closing_one in E.
Qed.

(** A reload shows its text and limit for at most a second: the refresh that follows
    writes what the configuration at start-up says, as if nothing had been reloaded. *)
Theorem reload_forgotten (base64 : bytes -> bytes) (json_text : Value -> bytes) (hyphenated : bytes -> bytes) (boot new_config : Listeners) (file : FileRead) (sessions : Sessions) (st : StatusState) :
  favicon st = load_favicon base64 file ->
  refresh_status json_text hyphenated boot sessions (reload_status base64 json_text new_config file st) = refresh_status json_text hyphenated boot sessions st.
Proof. intros Hf. unfold refresh_status, reload_status, favicon_field. cbn [favicon]. by rewrite Hf. Qed.
