(* ===== verification/Connection.v ===== *)
(** * A connection from its first byte

    crates/proxy-core/src/net/connection.rs up to the accepted login: [run],
    [send_graceful_kick], [run_inner] with its look at the first byte, the status and
    the legacy ping, the Bedrock probe, the login of 1.6 and [handle_login], which
    drives the pipeline of [Auth] and ends in [Session.finalise_login].  Where the
    client's bytes end it either closes or stays silent until a timeout; how many
    bytes a plain read finds is an input. *)
From Stdlib Require Import ZArith Lia Strings.String Strings.Byte.
From stdpp Require Import base list numbers strings gmap.
From S2P Require Import Prelude Buf Wire VarInt Codec Negotiation PacketIo IpAddr ProxyProtocol Routing Chars Utf8 Registry RegistryData Modloader.
From S2P Require Import Auth Builders LoginPackets Transfer Failover Queue Commands Proxy Identity Login Status Backend Session.
From S2P Require Packets16 Packets18.
Local Open Scope Z_scope.
Local Open Scope koja_scope.

(** ** Inputs *)

Record FrontEnv := mkFrontEnv {
  silent : bool; (** at the end of its bytes the client waits rather than closes *)
  chunks : list nat; (** how many bytes the plain reads find *)
  probe_bytes : nat; (** how many bytes arrive within the time of the Bedrock probe *)
  status : StatusState;
  subscribes_pre_login : bool;
  (** the account lookup *)
  lookup_get : bytes -> HttpResult; lookup_error : bytes; parse_lookup : bytes -> bytes + bytes; lookup_uuid : bytes -> bytes + bytes;
  (** the pipeline: the error of [build], and what it is built of *)
  build_error : option bytes;
  http_get : bytes -> Z -> HttpResult; parse_raw : bytes -> option (bytes * bytes * list ProfileProperty); uuid_parse_str : bytes -> option bytes;
  md5 : bytes -> bytes; rsa_decrypt : bytes -> option bytes; json_reason : bytes -> bytes; pub_key_der : bytes; token : bytes; permits : Z }.

Record FrontConfig (IpNet : Type) := mkFrontConfig {
  proxy_protocol : bool; proxy_protocol_optional : bool; trusted_proxies : list IpNet;
  max_players : Z; auth_compression : Z; session_timeout : Z; prevent_proxies : bool }.
Arguments mkFrontConfig {IpNet}. Arguments proxy_protocol {IpNet}. Arguments proxy_protocol_optional {IpNet}. Arguments trusted_proxies {IpNet}.
Arguments max_players {IpNet}. Arguments auth_compression {IpNet}. Arguments session_timeout {IpNet}. Arguments prevent_proxies {IpNet}.

Section Connection.
Context {IpNet : Type}.
Variable contains : IpNet -> IpAddr -> bool.
Variable env : ConnEnv.
Variable config : ConnConfig.
Variable front : FrontEnv.
Variable fcfg : FrontConfig IpNet.

(** ** Reading *)

Definition from_client {A} (m : Conn A) : Co A := on_streams (on_client m).
Definition timed_out {A} : Co A := fail (CE_Io KTimedOut).
(** [timeout(.., m)]: at the end of what the client sends, a silent client makes the
    wait run out. *)
Definition patient {A} (m : Co A) : Co A := fun c =>
  match m c with
  | (Err (CE_Io KUnexpectedEof), c') => (Err (CE_Io (if silent front then KTimedOut else KUnexpectedEof)), c')
  | r => r
  end.
Definition decoded {A} (m : Dec A) (cursor : bytes) : Co A := fun c => (on_cursor m cursor, c).
(** Dropping the packet id. *)
Definition body_of (raw : bytes) : Co bytes := fun c =>
  match VarInt_decode raw with (Ok _, cursor) => (Ok cursor, c) | (o, _) => (match o with Err e => Err (CE_Protocol e) | Panic => Panic | _ => NoFuel end, c) end.
Definition read_raw_packet_bytes : Co bytes := fun c => from_client (read_packet (inflate env) (compression_threshold c)) c.
(** [read_packet::<T>] and [write_packet::<T>] for the packets of 1.8 used here. *)
Definition read_typed {A} (m : Dec A) : Co A := let! raw := read_raw_packet_bytes in let! cursor := body_of raw in decoded m cursor.
Definition write_typed (pid : Z) (m : Enc) : Co unit := fun c =>
  if pid =? 0xFF then (Ok tt, c)
  else on_streams (let! p := lift (payload (VarInt_encode pid;; m)) in tell_client (deflate env) p (compression_threshold c)) c.
(** [stream.read] into [room] bytes, when [chunk] are there. *)
Definition read_some (chunk room : nat) : Conn bytes := fun src => let n := Nat.min chunk room in (Ok (take n src), drop n src).

(** ** Status *)

Fixpoint custom_sample (responses : list PluginResponse) : option (list (bytes * bytes)) :=
  match responses with [] => None | PR_UpdatePlayerSample sample :: _ => Some sample | _ :: responses' => custom_sample responses' end.
Definition handle_status : Co unit :=
  from_client read_varint;; from_client read_varint;;
  let! c := get_state in
  let online_players := Z.of_nat (size (session_table c)) in
  let ping := ServerListPing (max_players fcfg) online_players in
  change (fun c => set_fired (fired c ++ [ping]) (effects c) c);;
  let json := match custom_sample (plugins env ping) with
              | Some sample => custom_status_json (protocol_version c) (max_players fcfg) online_players sample (status front)
              | None => status_json (protocol_version c) (status front)
              end in
  write_typed 0 (enc Packets18.StatusResponse json);;
  let! payload := read_typed Packets18.PingRequest_decode in
  write_typed 1 (Packets18.PingRequest_encode payload).

(** ** Clients of other kinds *)

Definition RAKNET_MAGIC : bytes := [x00; xff; xff; x00; xfe; xfe; xfe; xfe; xfd; xfd; xfd; xfd; x12; x34; x56; x78].
Definition peek_looks_like_bedrock : Co bool :=
  from_client (fun src =>
    if (16 <=? probe_bytes front)%nat && (16 <=? length src)%nat then (Ok (bool_decide (take 16 src = RAKNET_MAGIC)), drop 16 src)
    else (Ok false, drop (Nat.min 16 (probe_bytes front)) src)).
Definition bedrock_reply : bytes := [x19; x00] ++ RAKNET_MAGIC ++ be_bytes 8 0.
Definition handle_bedrock_unsupported : Co unit := best_effort (on_streams (emit_client bedrock_reply));; fail CE_Closed.

(** The bytes of the request, until none come, or 1024 have been read. *)
Fixpoint drain_ping (chunks : list nat) (drained_total : nat) : Conn unit :=
  match chunks with
  | [] => ret tt
  | chunk :: chunks' =>
      let! got := read_some chunk 256 in
      match length got with
      | O => ret tt
      | n => if (1024 <=? drained_total + n)%nat then ret tt else drain_ping chunks' (drained_total + n)
      end
  end.
Definition handle_legacy_ping : Co unit :=
  from_client (drain_ping (chunks front) 0);;
  on_streams (let! response := lift (payload (Packets16.encode_legacy (Packets16.from_json (json_parse env (legacy_ping_json (status front)))))) in emit_client response).

(** ** Login of 1.6 *)

(** [Uuid::new_v3], and the namespace of object identifiers. *)
Definition NAMESPACE_OID : bytes := be_bytes 16 0x6ba7b8129dad11d180b400c04fd430c8.
Definition new_v3 (namespace name : bytes) : bytes :=
  let b := md5 front (namespace ++ name) in
  let b := <[6%nat := zb (Z.lor (Z.land (bz (default x00 (b !! 6%nat))) 0x0F) 0x30)]> b in
  <[8%nat := zb (Z.lor (Z.land (bz (default x00 (b !! 8%nat))) 0x3F) 0x80)]> b.

Definition legacy_kick (reason_json : bytes) : outcome ConnectionError bytes :=
  payload (put_u8 0xFF;; Packets16.LoginDisconnect_encode (chars_of (plaintext_from_chat_json (json_parse env) reason_json))).
Definition NO_ACCOUNT : bytes := red_constant "This server requires a Minecraft.net account. The username you joined with isn't registered.".
Definition NOT_SUPPORTED : bytes := red_constant "1.6.4 login is not yet supported by this proxy. Use 1.7+ to connect.".

Definition resolve (username : bytes) : outcome MojangLookupError bytes :=
  resolve_mojang_uuid (lookup_get front) (lookup_error front) (parse_lookup front) (lookup_uuid front) username.

(** What the single read of the handshake gives. *)
Definition read_legacy_handshake : Co bytes := fun c =>
  if silent front && bool_decide (client (wires c) = []) then (Err (CE_Io KTimedOut), c)
  else from_client (read_some (default 1024%nat (head (chunks front))) 1024) c.

Definition legacy_join (uuid username host : bytes) : Co unit :=
  let! joined := caught (finalise_login env config uuid username [] host) in
  match joined with
  | inl _ => ret tt
  | inr _ => on_streams (let! wire := lift (legacy_kick NOT_SUPPORTED) in emit_client wire)
  end.

Definition handle_legacy_login : Co unit :=
  let! body := read_legacy_handshake in
  match (Packets16.HandshakeC2S_decode body).1 with
  | Ok hs =>
      let username := utf8 (Packets16.hc_username hs) in
      let host := utf8 (Packets16.hc_host hs) in
      change (set_protocol (Packets16.hc_protocol_version hs));;
      change (set_conn_state Login);;
      match resolve username with
      | Ok uuid => legacy_join uuid username host
      | Err (NotFound _ as e) =>
          if online_mode config then
            on_streams (let! frame := lift (legacy_kick NO_ACCOUNT) in fun w => (Ok tt, (emit_client frame w).2))
          else legacy_join (new_v3 NAMESPACE_OID (lit "OfflinePlayer:" ++ username)) username host
      | Err _ => legacy_join (new_v3 NAMESPACE_OID (lit "OfflinePlayer:" ++ username)) username host
      | Panic => fun c => (Panic, c)
      | NoFuel => fun c => (NoFuel, c)
      end
  | Err _ => ret tt
  | Panic => fun c => (Panic, c)
  | NoFuel => fun c => (NoFuel, c)
  end.

(** ** Login *)

Definition auth_config : AuthConfig := mkAuthConfig (online_mode config) (auth_compression fcfg) (session_timeout fcfg) (prevent_proxies fcfg).
Definition pipeline : AuthState -> AuthEvent -> bytes -> option (AuthState * list AuthOutbound) :=
  Auth.process (sha1 env) (http_get front) (parse_raw front) (uuid_parse_str front) (md5 front) (rsa_decrypt front) (json_reason front) (pub_key_der front) auth_config
    (token front) (permits front).

Definition first_denial (responses : list PluginResponse) : option bytes :=
  foldr (fun r rest => match r with PR_Cancel => Some (lit "Connection refused.") | PR_KickPlayer _ reason => Some reason | _ => rest end) None responses.
Definition pre_login (username : bytes) : Co unit := fun c =>
  if subscribes_pre_login front then
    let e := PreLogin username (ip_text env (addr c).1) in
    let c := set_fired (fired c ++ [e]) (effects c) c in
    match first_denial (plugins env e) with
    | Some reason => (best_effort (send_disconnect_login env (red env reason));; fail (CE_Auth (lit "login rejected by plugin"))) c
    | None => (Ok tt, c)
    end
  else (Ok tt, c).

Definition unsupported_text (proto : Z) : bytes :=
  lit "Unsupported client version (protocol " ++ number proto ++ lit "). This proxy supports Minecraft 1.6.x – 26.2.".
Definition check_version : Co unit := fun c =>
  if is_supported (ProtocolVersion_from_id (protocol_version c)) then (Ok tt, c)
  else (best_effort (send_disconnect_login env (red env (unsupported_text (protocol_version c))));;
        fail (CE_Auth (lit "unsupported protocol version " ++ number (protocol_version c)))) c.

(** The UUID of a login start; only its presence matters. *)
Definition two_halves : Dec unit := decode_i64;; decode_i64;; ret tt.
Definition client_uuid (proto : Z) (cursor : bytes) : outcome ConnectionError (option bytes) :=
  let pv := nearest proto in
  let inline cursor :=
    match two_halves cursor with
    | (Ok _, rest) => Ok (Some (take 16 cursor))
    | (Err _, _) => Err (CE_Auth (lit "failed to decode client UUID"))
    | (Panic, _) => Panic
    | (NoFuel, _) => NoFuel
    end in
  if has_login_start_uuid pv then
    if has_mandatory_login_start_uuid pv then inline cursor
    else match decode_bool cursor with
         | (Ok true, cursor) => inline cursor
         | (Panic, _) => Panic
         | _ => Ok None
         end
  else Ok None.

Definition agree_compression (threshold : Z) : Co unit :=
  send_set_compression_with_threshold env threshold;;
  change (fun c => match epoch (nearest (protocol_version c)) with E_PreNetty | E_V1_7 => c | _ => set_threshold threshold c end).
Definition start_encryption (secret : bytes) : Co unit :=
  change (fun c => set_keys (keys c ++ [(length (tx_sent (to_client (wires c))), secret)]) c).

(** One round of what the pipeline wants done: [None] once the session was played,
    else whether encryption was requested.  The second round knows no request. *)
Fixpoint outbound (second : bool) (original_host : bytes) (events : list AuthOutbound) (requested : bool) : Co (option bool) :=
  match events with
  | [] => ret (Some requested)
  | EncryptionRequest _ public_key verify_token :: events' =>
      if second then outbound second original_host events' requested
      else send_encryption_request env public_key verify_token;; outbound second original_host events' true
  | SetCompression threshold :: events' => agree_compression threshold;; outbound second original_host events' requested
  | LoginSuccess uuid username properties :: _ => finalise_login env config uuid username properties original_host;; ret None
  | LoginDisconnect reason :: _ => best_effort (send_disconnect_login env reason);; fail (CE_Auth reason)
  | EnableEncryption shared_secret :: events' => start_encryption shared_secret;; outbound second original_host events' requested
  end.

Definition process_event (state : AuthState) (event : AuthEvent) : Co (AuthState * list AuthOutbound) := fun c =>
  match pipeline state event (ip_text env (addr c).1) with Some r => (Ok r, c) | None => (Panic, c) end.
Definition recv_encryption_response : Co (bytes * bytes) := fun c => read_typed (read_encryption_response (protocol_version c)) c.

Definition authentication_failed {A} : Co A := fail (CE_Auth (lit "Authentication failed")).
Definition authenticate (username : bytes) (final_uuid : option bytes) (original_host : bytes) : Co unit :=
  match build_error front with
  | Some e => fail (CE_Auth e)
  | None =>
      let! '(state, events) := process_event AwaitingLoginStart (LoginStart username final_uuid) in
      let! first := outbound false original_host events false in
      match first with
      | None => ret tt
      | Some false => authentication_failed
      | Some true =>
          let! '(secret_enc, token_enc) := patient recv_encryption_response in
          let! c := get_state in
          let! '(_, events) := process_event state (EncryptionResponse secret_enc token_enc (protocol_version c)) in
          let! second := outbound true original_host events false in
          match second with None => ret tt | Some _ => authentication_failed end
      end
  end.

(** The name, and where the UUID would begin. *)
Definition read_login_start : Co (bytes * bytes) :=
  let! raw := patient read_raw_packet_bytes in
  let! cursor := body_of raw in
  fun c => match decode_string cursor with
           | (Ok username, rest) => (Ok (username, rest), c)
           | (Err e, _) => (Err (CE_Protocol e), c)
           | (Panic, _) => (Panic, c)
           | (NoFuel, _) => (NoFuel, c)
           end.
Definition handle_login (original_host : bytes) : Co unit :=
  let! '(username, rest) := read_login_start in
  check_version;;
  let! client_uuid := (fun c => (client_uuid (protocol_version c) rest, c)) in
  let final_uuid := if online_mode config then client_uuid else Some (offline_uuid (md5 front) username) in
  pre_login username;;
  authenticate username final_uuid original_host.

(** ** From the first byte *)

Definition proxy_header : Co unit :=
  if proxy_protocol fcfg then
    let! c := get_state in
    if proxy_protocol_optional fcfg then
      let! found := from_client (read_proxy_header_optional contains (addr c) (trusted_proxies fcfg)) in
      match found with Found real_addr => change (set_addr real_addr) | ProxyProtocol.NotFound _ => ret tt end
    else let! real_addr := from_client (read_proxy_header contains (addr c) (trusted_proxies fcfg)) in change (set_addr real_addr)
  else ret tt.

Definition first_byte : Co Z := fun c => match from_client read_u8 c with (Err _, c') => (Err (CE_Io KTimedOut), c') | r => r end.
(** [push_prefix], with nothing pushed back before. *)
Definition push_back (b : Z) : Co unit := on_streams (fun w => (Ok tt, set_client (zb b :: client w) w)).

Definition after_handshake (handshake : Packets18.ServerboundHandshake) : Co unit :=
  change (set_protocol (wrapu 32 (Packets18.hs_protocol_version handshake)));;
  change (fun c => set_wires (set_ml_kind (detect_from_address (Packets18.hs_server_address handshake)) (wires c)) c);;
  match Packets18.hs_next_state handshake with
  | 1 => change (set_conn_state Commands.Status);; handle_status
  | 2 => change (set_conn_state Login);; handle_login (Packets18.hs_server_address handshake)
  | _ => fail CE_Closed
  end.
Definition handle_handshake : Co unit := let! handshake := patient (read_typed Packets18.Handshake_decode) in after_handshake handshake.

Definition run_inner : Co unit :=
  proxy_header;;
  let! peek := first_byte in
  if peek =? 0xFE then handle_legacy_ping
  else
    let! bedrock := if peek =? 0x05 then peek_looks_like_bedrock else ret false in
    if bedrock : bool then handle_bedrock_unsupported
    else if peek =? 0x02 then handle_legacy_login
    else push_back peek;; handle_handshake.

Definition send_graceful_kick (e : ConnectionError) : Co unit := fun c =>
  if client_gone e then (Ok tt, c)
  else
    let json := red env (lit "Disconnected: " ++ disconnect_reason_text env e) in
    match conn_state c with
    | Login | Configuration => best_effort (send_disconnect_login env json) c
    | Play => best_effort (send_play_disconnect env json) c
    | Commands.Status | Handshaking => (Ok tt, c)
    end.
Definition run : Co unit :=
  let! result := caught run_inner in
  match result with inl _ => ret tt | inr e => send_graceful_kick e;; fail e end.

(** [ClientConnection::new], on what the client will send. *)
Definition new_connection (peer : SocketAddr) (said : bytes) (table : gmap bytes PlayerSession) (r : ServerRegistry) (qm : QueueManager) (todo : Script) : ClientConnection :=
  mkConnection (mkWires said (mkTx [] None) [] (mkTx [] None) (ms_kind ModloaderSession_new) false false) false peer Handshaking 0 NO_COMPRESSION [] table r qm [] [] [] todo.
End Connection.

(** ** Authentication end to end *)

Section Vouched.
Variable env : ConnEnv.
Variable config : ConnConfig.
Variable front : FrontEnv.
Context {IpNet : Type}.
Variable fcfg : FrontConfig IpNet.

Lemma steady_from_client {A} (m : Conn A) : steady (from_client m).
Proof. apply steady_streams. Qed.
Lemma steady_patient {A} (m : Co A) : steady m -> steady (patient front m).
Proof. intros Hm c. unfold patient. pose proof (Hm c) as H. destruct (m c) as [[a|e| |] c']; [exact H| |exact H..]. destruct e as [[]| | | | | |]; exact H. Qed.
Lemma steady_body raw : steady (body_of raw).
Proof. intros c. unfold body_of. by destruct (VarInt_decode raw) as [[] ?]. Qed.
Lemma steady_raw_packet : steady (read_raw_packet_bytes env).
Proof. intros c. apply steady_from_client. Qed.
#[local] Hint Resolve steady_from_client steady_patient steady_body steady_raw_packet : steady.
Lemma steady_read_typed {A} (m : Dec A) : steady (read_typed env m).
Proof. unfold read_typed. steady_auto. Qed.
Lemma steady_encryption_response : steady (recv_encryption_response env).
Proof. intros c. apply steady_read_typed. Qed.
Lemma steady_encryption_request der token : steady (send_encryption_request env der token).
Proof. intros c. apply steady_built. Qed.
Lemma steady_set_compression threshold : steady (send_set_compression_with_threshold env threshold).
Proof. intros c. unfold send_set_compression_with_threshold. destruct (epoch _); first [apply steady_built|done]. Qed.
Lemma steady_agree threshold : steady (agree_compression env threshold).
Proof.
  unfold agree_compression. apply steady_bind; [apply steady_set_compression|intros _]. apply steady_change. intros c. by destruct (epoch _).
Qed.
Lemma steady_enable secret : steady (start_encryption secret).
Proof. by apply steady_change. Qed.
Lemma steady_process state event : steady (process_event env config front fcfg state event).
Proof. intros c. unfold process_event. by destruct (pipeline _ _ _ _ _ _ _). Qed.
Lemma steady_login_start : steady (read_login_start env front).
Proof.
  unfold read_login_start. apply steady_bind; [apply steady_patient, steady_raw_packet|intros raw]. apply steady_bind; [apply steady_body|intros cursor].
  intros c. by destruct (decode_string cursor) as [[] ?].
Qed.
Lemma steady_version : steady (check_version env).
Proof.
  intros c. unfold check_version. destruct (is_supported _); [done|].
  apply (steady_bind (best_effort _) (fun _ => fail _)); [|intros _]; steady_auto.
Qed.
Lemma steady_pre_login username : steady (pre_login env front username).
Proof.
  intros c. unfold pre_login. destruct (subscribes_pre_login front); [|done]. destruct (first_denial _) as [reason|]; [|done].
  assert (Hs : steady (best_effort (send_disconnect_login env (red env reason));; fail (A := unit) (CE_Auth (lit "login rejected by plugin"))))
    by (apply steady_bind; [|intros ?]; steady_auto).
  exact (Hs (set_fired _ _ c)).
Qed.
#[local] Hint Resolve steady_read_typed steady_encryption_response steady_encryption_request steady_agree steady_enable steady_process steady_login_start steady_version steady_pre_login : steady.

(** The session server has vouched: the client knew the secret behind
    [secret_enc], and for its hash and the name the client gave the answer names
    this account. *)
Definition vouched (username secret u n : bytes) (ps : list ProfileProperty) : Prop :=
  exists secret_enc ip body id, rsa_decrypt front secret_enc = Some secret /\ length secret = 16%nat /\
    http_get front (session_url username (minecraft_hex_digest (sha1 env) [] secret (pub_key_der front)) (if prevent_proxies fcfg then Some ip else None)) (session_timeout fcfg)
      = HttpStatus 200 body /\
    parse_raw front body = Some (id, n, ps) /\ parse_uuid (uuid_parse_str front) id = Ok u.

Lemma verify_session_ok username hash ip prof :
  verify_session (http_get front) (parse_raw front) (uuid_parse_str front) username hash ip (permits front) (session_timeout fcfg) = Ok prof ->
  exists body id, http_get front (session_url username hash ip) (session_timeout fcfg) = HttpStatus 200 body /\
    parse_raw front body = Some (id, ap_name prof, ap_properties prof) /\ parse_uuid (uuid_parse_str front) id = Ok (ap_id prof).
Proof.
  unfold verify_session. destruct (permits front <=? 0); [done|].
  destruct (http_get front _ _) as [|code body|code] eqn:Eh; [done| |].
  - destruct (decide (code = 200)) as [->|Hne].
    + destruct (parse_raw front body) as [[[id n] ps]|] eqn:Ep; [|done]. destruct (parse_uuid _ id) as [u| | |] eqn:Eu; try done. intros [= <-]. by exists body, id.
    + intros H. exfalso. revert H. repeat (case_match; try done; try lia).
  - intros H. exfalso. revert H. repeat (case_match; try done).
Qed.

Lemma pipeline_start username uuid ip st evs : online_mode config = true ->
  pipeline env config front fcfg AwaitingLoginStart (LoginStart username uuid) ip = Some (st, evs) ->
  (exists reason, evs = [LoginDisconnect reason]) \/ (exists key, st = AwaitingEncryptionResponse (token front) username ip /\ evs = [EncryptionRequest [] key (token front)]).
Proof.
  intros Ho. unfold pipeline, process, auth_step, step_login_start, auth_config. cbn [Auth.online_mode]. rewrite Ho.
  destruct (negb (is_valid_username username)); intros [= <- <-]; eauto.
Qed.
Lemma pipeline_response verify_token username ip secret_enc token_enc proto ip' st evs :
  pipeline env config front fcfg (AwaitingEncryptionResponse verify_token username ip) (EncryptionResponse secret_enc token_enc proto) ip' = Some (st, evs) ->
  (exists reason, evs = [LoginDisconnect reason]) \/
  (exists secret prof, evs = EnableEncryption secret :: compression_out (auth_config config fcfg) ++ [LoginSuccess (ap_id prof) (ap_name prof) (ap_properties prof)] /\
     vouched username secret (ap_id prof) (ap_name prof) (ap_properties prof)).
Proof.
  unfold pipeline, process, auth_step, step_encryption_response. destruct (rsa_decrypt front secret_enc) as [secret|] eqn:Er; [|intros [= <- <-]; eauto].
  destruct (check_token _ _ _ _) as [e|]; [intros [= <- <-]; eauto|].
  destruct (length secret =? 16)%nat eqn:El; cbn [negb]; [|intros [= <- <-]; eauto]. apply Nat.eqb_eq in El.
  cbv zeta. unfold auth_config at 1 2. cbn [prevent_proxy_connections session_timeout_secs].
  destruct (verify_session _ _ _ _ _ _ _ _) as [prof|e| |] eqn:Ev; [|intros [= <- <-]; eauto|done..].
  apply verify_session_ok in Ev as (body & id & H1 & H2 & H3). intros [= <- <-]. right. exists secret, prof. split; [reflexivity|].
  exists secret_enc, ip, body, id. done.
Qed.

Lemma keys_agree threshold c : keys (agree_compression env threshold c).2 = keys c.
Proof.
  unfold agree_compression. rewrite bind_run.
  assert (H : keys (send_set_compression_with_threshold env threshold c).2 = keys c).
  { unfold send_set_compression_with_threshold. destruct (epoch _); try done;
      (unfold write_built; destruct (build_set_compression _ _ _); [|done]; unfold write_raw_login_packet, on_streams; destruct (detached c); destruct (bind _ _ _); done). }
  destruct (send_set_compression_with_threshold env threshold c) as [[a|e| |] c1]; cbn [fst snd] in *; try done.
  rewrite <- H. unfold change. cbn [snd]. by destruct (epoch _).
Qed.

(** Where a login ends: the tables as they were, or in a session of an account the
    session server vouched for, with encryption under the client's secret. *)
Definition admitted_by (original_host : bytes) (c : ClientConnection) (o : outcome ConnectionError unit) (c' : ClientConnection) : Prop :=
  frame c' = frame c \/
  exists username secret u n ps c1 k, vouched username secret u n ps /\ frame c1 = frame c /\ last (keys c1) = Some (k, secret) /\
    (o, c') = finalise_login env config u n ps original_host c1.

Lemma framed_like c : framed (fun c' => frame c' = frame c).
Proof. intros c1 c2 E H. by rewrite E. Qed.
Lemma stays {A} (m : Co A) original_host c c' o : steady m -> frame c' = frame c -> admitted_by original_host c o (m c').2.
Proof. intros Hm Hc. left. by rewrite Hm. Qed.

Lemma outbound_steady second host evs requested :
  Forall (fun e => match e with LoginSuccess _ _ _ => False | _ => True end) evs -> steady (outbound env config second host evs requested).
Proof.
  intros H. revert requested. induction H as [|e evs He _ IH]; intros requested; cbn [outbound]; [steady_auto|].
  destruct e; [destruct second; [apply IH|]|..]; try done; try (apply steady_bind; [steady_auto|intros _; first [apply IH|steady_auto]]).
Qed.

Lemma bind_assoc_run {A B C} (m : Co A) (k : A -> Co B) (h : B -> Co C) c : bind (bind m k) h c = bind m (fun a => bind (k a) h) c.
Proof. rewrite !bind_run. by destruct (m c) as [[] ?]. Qed.

(** The second round, once the pipeline is content. *)
Lemma finish_login username secret u n ps host c0 c :
  vouched username secret u n ps -> frame c = frame c0 ->
  let m := let! second := outbound env config true host (EnableEncryption secret :: compression_out (auth_config config fcfg) ++ [LoginSuccess u n ps]) false in
           match second with None => ret tt | Some _ => authentication_failed end in
  admitted_by host c0 (m c).1 (m c).2.
Proof.
  intros Hv Hc. cbv zeta. cbn [outbound]. set (c1 := (start_encryption secret c).2).
  assert (Hf1 : frame c1 = frame c0) by (unfold c1; by rewrite steady_enable).
  assert (Hk1 : exists k, last (keys c1) = Some (k, secret)) by (eexists; apply last_snoc).
  assert (Hfin : forall c2, frame c2 = frame c0 -> (exists k, last (keys c2) = Some (k, secret)) ->
    admitted_by host c0 ((let! second := (finalise_login env config u n ps host;; ret (None : option bool)) in match second with None => ret tt | Some _ => authentication_failed end) c2).1
      ((let! second := (finalise_login env config u n ps host;; ret (None : option bool)) in match second with None => ret tt | Some _ => authentication_failed end) c2).2).
  { intros c2 Hf2 [k Hk2]. right. exists username, secret, u, n, ps, c2, k. split_and!; try done. rewrite !bind_run.
    by destruct (finalise_login _ _ _ _ _ _ c2) as [[[]| | |] c3]. }
  rewrite bind_assoc_run, bind_run. change (start_encryption secret c) with (Ok tt : outcome ConnectionError unit, c1). cbv iota beta.
  unfold compression_out. destruct (_ >=? 0); cbn [app outbound]; [|by apply Hfin]. rewrite bind_assoc_run, bind_run.
  pose proof (steady_agree (Auth.compression_threshold (auth_config config fcfg)) c1) as Hf2. pose proof (keys_agree (Auth.compression_threshold (auth_config config fcfg)) c1) as Hk2.
  destruct (agree_compression env _ c1) as [[[]|e| |] c2]; cbn [fst snd] in *; [apply Hfin; [congruence|by rewrite Hk2]|left; cbn; congruence..].
Qed.

Lemma process_run state event c : process_event env config front fcfg state event c =
  match pipeline env config front fcfg state event (ip_text env (addr c).1) with Some r => (Ok r, c) | None => (Panic, c) end.
Proof. done. Qed.

Lemma authenticate_admits username uuid host c0 c : online_mode config = true -> frame c = frame c0 ->
  admitted_by host c0 (authenticate env config front fcfg username uuid host c).1 (authenticate env config front fcfg username uuid host c).2.
Proof.
  intros Ho Hc. unfold authenticate. destruct (build_error front); [by left|].
  rewrite bind_run, process_run. destruct (pipeline _ _ _ _ AwaitingLoginStart _ _) as [[st evs]|] eqn:Ep; [|left; exact Hc]. cbv iota beta.
  apply pipeline_start in Ep as [[reason ->]|(key & -> & ->)]; [| |done].
  { cbn [outbound]. rewrite bind_assoc_run. apply (steady_then _ _ (fun c' => frame c' = frame c0) (admitted_by host c0)); [steady_auto|apply framed_like|done|intros; by left|].
    intros _ c1 H1. by left. }
  cbn [outbound]. rewrite bind_assoc_run.
  apply (steady_then _ _ (fun c' => frame c' = frame c0) (admitted_by host c0)); [steady_auto|apply framed_like|done|intros; by left|]. intros _ c1 H1. cbn beta. rewrite bind_run. cbn [ret]. cbv iota beta.
  apply (steady_then _ _ (fun c' => frame c' = frame c0) (admitted_by host c0)); [apply steady_patient; steady_auto|apply framed_like|done|intros; by left|].
  intros [secret_enc token_enc] c2 H2. cbn beta iota. rewrite bind_run. cbn [get_state]. cbv iota beta.
  rewrite bind_run, process_run. destruct (pipeline _ _ _ _ (AwaitingEncryptionResponse _ _ _) _ _) as [[st evs]|] eqn:Ep; [|left; exact H2]. cbv iota beta.
  apply pipeline_response in Ep as [[reason ->]|(secret & prof & -> & Hv)].
  - cbn [outbound]. rewrite bind_assoc_run. apply (steady_then _ _ (fun c' => frame c' = frame c0) (admitted_by host c0)); [steady_auto|apply framed_like|done|intros; by left|].
    intros _ c3 H3. by left.
  - by apply (finish_login username secret).
Qed.

End Vouched.

(** ** The first byte *)

Section FirstByte.
Context {IpNet : Type}.
Variable contains : IpNet -> IpAddr -> bool.
Variable env : ConnEnv.
Variable config : ConnConfig.
Variable front : FrontEnv.
Variable fcfg : FrontConfig IpNet.

Definition handshake_body (h : Packets18.ServerboundHandshake) : bytes := x00 :: wire Packets18.Handshake h.
(** What is left of the client's bytes. *)
Definition unread (rest : bytes) (c : ClientConnection) : ClientConnection := set_wires (set_client rest (wires c)) c.

Lemma length_varint v : (1 <= length (wire VarInt v))%nat.
Proof. rewrite wire_VarInt. apply (length_groups_pos 5). lia. Qed.
Lemma length_handshake h : wf Packets18.Handshake h -> (6 <= length (handshake_body h))%nat.
Proof.
  intros Hw. cbn [handshake_body length]. destruct (Hw) as (H1 & H2 & H3 & H4).
  set (addr := wire VarInt (wraps 32 (Z.of_nat (length (Packets18.hs_server_address h)))) ++ Packets18.hs_server_address h).
  assert (Hwr : writes (Packets18.Handshake_encode h)
    (wire VarInt (Packets18.hs_protocol_version h) ++ addr ++ be_bytes 2 (Packets18.hs_server_port h) ++ wire VarInt (Packets18.hs_next_state h))).
  { unfold Packets18.Handshake_encode. apply writes_bind; [by apply lawful_writes|]. apply writes_bind.
    { apply writes_bind; [|apply writes_put]. apply (lawful_writes (c := VarInt)). apply wraps_fits. lia. }
    apply writes_bind; [apply writes_put|by apply lawful_writes]. }
  rewrite (writes_wire_eq Packets18.Handshake h _ Hwr). unfold addr. rewrite !length_app, length_be_bytes.
  pose proof (length_varint (Packets18.hs_protocol_version h)). pose proof (length_varint (Packets18.hs_next_state h)).
  pose proof (length_varint (wraps 32 (Z.of_nat (length (Packets18.hs_server_address h))))). lia.
Qed.

(** The first byte of a frame. *)
Definition lead (n : Z) : Z := if n <? 128 then n else n mod 128 + 128.
Lemma frame_lead body : body_ok body -> exists more, encode_frame body = zb (lead (Z.of_nat (length body))) :: more /\ 0 <= lead (Z.of_nat (length body)) < 256.
Proof.
  intros Hb. destruct (body_ok_fits body Hb) as (Hf & Hw & _). unfold encode_frame. rewrite varint_bytes_wire, Hw, wire_VarInt.
  unfold body_ok in Hb. change MAX_PACKET_SIZE with 2097152 in Hb. rewrite wrapu_id by width. cbn [groups]. unfold lead.
  pose proof (Z.mod_pos_bound (Z.of_nat (length body)) 128 ltac:(lia)).
  destruct (Z.ltb_spec (Z.of_nat (length body)) 128); eexists; (split; [reflexivity|lia]).
Qed.

Lemma from_client_run {A} (m : Conn A) c o rest : detached c = false -> m (client (wires c)) = (o, rest) -> from_client m c = (o, unread rest c).
Proof. intros Hd Hm. unfold from_client, on_streams, on_client. rewrite Hd, Hm. reflexivity. Qed.
Lemma unread_unread a b c : unread a (unread b c) = unread a c.
Proof. reflexivity. Qed.

(** A frame with a handshake, read whole. *)
Lemma handshake_read h rest c : wf Packets18.Handshake h -> body_ok (handshake_body h) -> detached c = false -> compression_threshold c = NO_COMPRESSION ->
  client (wires c) = encode_frame (handshake_body h) ++ rest -> handle_handshake env config front fcfg c = after_handshake env config front fcfg h (unread rest c).
Proof.
  intros Hw Hb Hd Ht Hc. unfold handle_handshake. rewrite bind_run.
  assert (Hr : read_typed env Packets18.Handshake_decode c = (Ok h, unread rest c)).
  { unfold read_typed. rewrite bind_run. unfold read_raw_packet_bytes. rewrite Ht.
    rewrite (from_client_run _ c (Ok (handshake_body h)) rest Hd).
    - cbv iota beta. rewrite bind_run. unfold body_of. assert (Hv : VarInt_decode (handshake_body h) = (Ok 0, wire Packets18.Handshake h)) by (change (handshake_body h) with (wire VarInt 0 ++ wire Packets18.Handshake h); apply (lawful_reads (c := VarInt) 0); cbn; unfold fits_s; lia). rewrite Hv. cbv iota beta.
      unfold decoded, on_cursor. pose proof (@lawful_reads _ _ Packets18.Handshake_lawful h Hw []) as Hl. rewrite app_nil_r in Hl.
      change (dec Packets18.Handshake) with Packets18.Handshake_decode in Hl. by rewrite Hl.
    - rewrite Hc. unfold read_packet. rewrite (bind_ok _ _ _ (handshake_body h) rest (reads_frame _ Hb rest)). reflexivity. }
  unfold patient. by rewrite Hr.
Qed.

(** C23: the look at the first byte.  Without a PROXY header, a connection that opens with
    a frame holding a handshake is taken for what it is, whatever the handshake
    says: its first byte is neither that of a 1.6 login nor of a Bedrock client.
    The exception is a frame whose length is 126 modulo 128 and at least 128, which is
    answered as the ping of an old client. *)
Theorem first_byte_dispatch (h : Packets18.ServerboundHandshake) (rest : bytes) (c : ClientConnection) :
  wf Packets18.Handshake h -> body_ok (handshake_body h) -> proxy_protocol fcfg = false -> detached c = false -> compression_threshold c = NO_COMPRESSION ->
  client (wires c) = encode_frame (handshake_body h) ++ rest ->
  let n := Z.of_nat (length (handshake_body h)) in
  (n < 128 \/ n mod 128 <> 126 -> run_inner contains env config front fcfg c = after_handshake env config front fcfg h (unread rest c)) /\
  (128 <= n -> n mod 128 = 126 -> run_inner contains env config front fcfg c = handle_legacy_ping env front (unread (drop 1 (encode_frame (handshake_body h)) ++ rest) c)).
Proof.
  intros Hw Hb Hp Hd Ht Hc n. pose proof (length_handshake h Hw) as Hlen. destruct (frame_lead _ Hb) as (more & Ef & Hl). fold n in Ef, Hl.
  assert (Hbyte : first_byte c = (Ok (lead n), unread (more ++ rest) c)).
  { unfold first_byte. rewrite (from_client_run read_u8 c (Ok (lead n)) (more ++ rest) Hd); [reflexivity|].
    rewrite Hc, Ef. cbn [app]. rewrite read_u8_cons, bz_zb, Z.mod_small by done. reflexivity. }
  unfold run_inner, proxy_header. rewrite Hp, !bind_run. cbn [ret]. cbv iota beta. rewrite !bind_run, Hbyte. cbv iota beta.
  assert (Hn : 6 <= n) by (unfold n; lia). unfold lead in *. pose proof (Z.mod_pos_bound n 128 ltac:(lia)) as Hm. split.
  - intros Hcond. set (b := if n <? 128 then n else n mod 128 + 128) in *.
    assert (Hne : b <> 0xFE /\ b <> 5 /\ b <> 2) by (unfold b; destruct (Z.ltb_spec n 128); lia). destruct Hne as (N1 & N2 & N3).
    rewrite (proj2 (Z.eqb_neq _ _) N1), (proj2 (Z.eqb_neq _ _) N2), (proj2 (Z.eqb_neq _ _) N3). rewrite bind_run. cbn [ret]. cbv iota beta.
    rewrite bind_run. unfold push_back, on_streams. change (detached (unread (more ++ rest) c)) with (detached c). rewrite Hd. cbv iota beta.
    rewrite (handshake_read h rest); try done. cbn [client wires set_wires set_client unread]. rewrite Ef. reflexivity.
  - intros H1 H2. replace (n <? 128) with false by (symmetry; apply Z.ltb_ge; lia). rewrite H2. cbn [Z.add Z.eqb]. rewrite Ef. reflexivity.
Qed.
End FirstByte.

(** ** Witnesses *)

(** A client that may join: its secret and token are encrypted as [Auth.demo_rsa]
    undoes it, and the session server knows Steve. *)
Definition demo_front (refuses : bool) : FrontEnv :=
  mkFrontEnv false [1024%nat] 16 (status_new id FileMissing) false (fun _ => HttpStatus 200 (lit "{}")) [] (fun _ => inl (replicate 32 (zb 0x61))) (fun _ => inl (replicate 16 x22)) None
    (fun url t => if refuses then HttpStatus 204 [] else Auth.demo_http url t) Auth.demo_parse Auth.demo_uuid (fun _ => replicate 16 x00) Auth.demo_rsa (fun s => s) [x30] [x01; x02; x03; x04] 10.
Definition demo_fcfg (optional : bool) : FrontConfig unit := mkFrontConfig optional true [] 20 256 5 false.
Definition demo_handshake (proto next : Z) : Packets18.ServerboundHandshake := Packets18.mkHandshake proto (lit "play") 25565 next.
Definition demo_login : bytes :=
  encode_frame ([x00] ++ wire Str (lit "Steve")) ++
  encode_frame ([x01] ++ wire VarInt 17 ++ [x02] ++ replicate 16 x07 ++ wire VarInt 5 ++ [x02; x01; x02; x03; x04]).
Definition demo_script : Script := mkScript [Some (toy_accepts, None)] [] [toy_leg].
Definition demo_start (said : bytes) : ClientConnection := new_connection (V4 [x0a; x00; x00; x01], 4000) said ∅ one_server (queue_new 0) demo_script.
Definition demo_run (refuses optional : bool) (said : bytes) := run (fun _ _ => true) toy_conn (toy_config false false) (demo_front refuses) (demo_fcfg optional) (demo_start said).

Lemma first_byte_dispatch_witness :
  run_inner (fun (_ : unit) _ => true) toy_conn (toy_config false false) (demo_front false) (demo_fcfg false) (demo_start (encode_frame (handshake_body (demo_handshake 754 3)) ++ [x05])) =
  after_handshake toy_conn (toy_config false false) (demo_front false) (demo_fcfg false) (demo_handshake 754 3)
    (unread [x05] (demo_start (encode_frame (handshake_body (demo_handshake 754 3)) ++ [x05]))).
Proof.
  apply (first_byte_dispatch (fun (_ : unit) _ => true) toy_conn (toy_config false false) (demo_front false) (demo_fcfg false) (demo_handshake 754 3) [x05]).
  - cbn. unfold fits_s, fits_u. split; [lia|]. split; [|lia]. match goal with |- ?P => apply (bool_decide_eq_true_1 P) end. vm_compute. reflexivity.
  - vm_compute. discriminate.
  - reflexivity.
  - reflexivity.
  - reflexivity.
  - reflexivity.
  - left. vm_compute. reflexivity.
Defined.

Definition demo_at_login : ClientConnection := set_conn_state Login (set_protocol 754 (demo_start demo_login)).

(** ** What the code does not do *)

(** In online mode a client of 1.6 is given the account of any name it likes: the
    session server, which here refuses everyone, is not asked. *)
Definition legacy_said (name : string) : bytes := x02 :: (wire Packets16.LoginHandshake (Packets16.mkHandshakeC2S 78 (chr name) (chr "play") 25565)).
Theorem legacy_login_unverified :
  let r := demo_run true false (legacy_said "Notch") in
  online_mode (toy_config false false) = true /\ (forall url t, http_get (demo_front true) url t = HttpStatus 204 []) /\
  exists rest, fired r.2 = PostLogin (replicate 16 x22) (lit "Notch") :: rest.
Proof. split; [reflexivity|]. split; [reflexivity|]. eexists. vm_compute. reflexivity. Qed.

(** With the PROXY header optional, a client that does not send one loses the first
    six bytes of its handshake: a login that succeeds without the option fails with
    it. *)
Theorem optional_header_eats_handshake :
  let said := encode_frame (handshake_body (demo_handshake 754 2)) ++ demo_login in
  (demo_run false false said).1 = Ok tt /\ exists e, (demo_run false true said).1 = Err e.
Proof. split; [vm_compute; reflexivity|]. eexists. vm_compute. reflexivity. Qed.

(** A refused login is refused twice: the client is sent the reason and then the
    same wrapped into a second disconnect packet. *)
Theorem refusal_sent_twice :
  let r := demo_run true false (encode_frame (handshake_body (demo_handshake 754 2)) ++ demo_login) in
  (exists e, r.1 = Err (CE_Auth e)) /\ map (fun p => nth 1 p x00) (tx_sent (to_client (wires r.2))) = [x01; x00; x00].
Proof. split; [eexists|]; vm_compute; reflexivity. Qed.

(** A host name of 246 bytes makes the frame 254 bytes long: the player who asks for
    the status is answered as a client of 1.6. *)
Theorem long_host_taken_for_ping :
  let h := Packets18.mkHandshake 754 (replicate 246 (zb 0x61)) 25565 1 in
  let r := demo_run false false (encode_frame (handshake_body h) ++ encode_frame [x00]) in
  r.1 = Ok tt /\ conn_state r.2 = Handshaking /\ map (head (A := byte)) (tx_sent (to_client (wires r.2))) = [Some xff].
Proof. vm_compute. repeat split; reflexivity. Qed.

(** A ping request of fewer than eight bytes panics the task. *)
Theorem short_ping_panics :
  (demo_run false false (encode_frame (handshake_body (demo_handshake 754 1)) ++ encode_frame [x00] ++ encode_frame [x01; x00])).1 = Panic.
Proof. vm_compute. reflexivity. Qed.
