(* ===== verification/Control.v ===== *)
(** * Managing the proxy from outside

    crates/proxy-core/src/services/mod.rs and server_management.rs (the TCP channel
    that takes one JSON line: registering backends, reporting their state, moving
    players, maintenance mode) and control_plane/mod.rs (the gRPC service over a table
    of servers and rules of its own).  The JSON grammar, UUID syntax and tonic are
    parameters. *)
From Stdlib Require Import ZArith Lia Bool Strings.String Strings.Byte.
From stdpp Require Import base list gmap numbers strings.
From S2P Require Import Prelude Buf Wire VarInt Codec IpAddr Routing Chars Utf8 Negotiation Transfer Commands Proxy.
Local Open Scope Z_scope.
Local Open Scope koja_scope.

(** ** Comparing secrets *)

(** [diff |= a[i] ^ b[i]]. *)
Definition diff_bits (a b : bytes) : Z := foldl (fun d p => Z.lor d (Z.lxor (bz p.1) (bz p.2))) 0 (zip a b).
Definition constant_time_eq (a b : bytes) : bool :=
  if negb (length a =? length b)%nat then false else diff_bits a b =? 0.

(** ** Messages *)

Record ServerRegistration := mkRegistration {
  rg_name : bytes; rg_address : bytes; rg_port : Z; rg_template : option bytes; rg_max_players : Z; rg_token : bytes }.
Record ServerStatusUpdate := mkStatusUpdate { su_name : bytes; su_online : bool; su_player_count : option Z; su_token : bytes }.
Record ServerDeregistration := mkDeregistration { dg_name : bytes; dg_token : bytes }.
Record PlayerTransfer := mkTransfer { tr_uuid : bytes; tr_server : bytes; tr_token : bytes }.
Record ServerEvacuation := mkEvacuation { ev_from : bytes; ev_to : bytes; ev_token : bytes }.
Record MaintenanceToggle := mkToggle { mt_enabled : bool; mt_token : bytes }.
Definition default_max_players : Z := 100.

Section Decode.
(** An unsigned integer of the document. *)
Variable as_u64 : Value -> option Z.

(** serde's derived [Deserialize]: of an object the named members, each at most once,
    others ignored; of an array the fields in order, all of them. *)
Fixpoint once (key : chars) (ms : list (chars * Value)) : option (option Value) :=
  match ms with
  | [] => Some None
  | (k, v) :: rest =>
      match once key rest with
      | None => None
      | Some r => if bool_decide (k = key) then match r with None => Some (Some v) | Some _ => None end else Some r
      end
  end.
Fixpoint members (keys : list chars) (ms : list (chars * Value)) : option (list (option Value)) :=
  match keys with
  | [] => Some []
  | k :: rest => match once k ms, members rest ms with Some v, Some vs => Some (v :: vs) | _, _ => None end
  end.
Definition fields_of (keys : list chars) (v : Value) : option (list (option Value)) :=
  match v with
  | JObject ms => members keys ms
  | JArray items => if (length items =? length keys)%nat then Some (map Some items) else None
  | _ => None
  end.

Definition de_string (v : option Value) : option bytes := match v with Some (JString s) => Some (utf8 s) | _ => None end.
Definition de_bool (v : option Value) : option bool := match v with Some (JBool b) => Some b | _ => None end.
Definition de_uint (w : Z) (v : option Value) : option Z := v ≫= fun x => as_u64 x ≫= fun n => if (0 <=? n) && (n <? 2 ^ w) then Some n else None.
(** [Option<T>]: absent or null is [None]. *)
Definition de_option {A} (f : option Value -> option A) (v : option Value) : option (option A) :=
  match v with None | Some JNull => Some None | Some _ => Some <$> f v end.
Definition de_default {A} (d : A) (f : option Value -> option A) (v : option Value) : option A := match v with None => Some d | Some _ => f v end.

Definition de_registration (v : Value) : option ServerRegistration :=
  match fields_of [chr "name"; chr "address"; chr "port"; chr "template"; chr "max_players"; chr "auth_token"] v with
  | Some [n; a; p; t; m; k] =>
      match de_string n, de_string a, de_uint 16 p, de_option de_string t, de_default default_max_players (de_uint 32) m, de_string k with
      | Some n, Some a, Some p, Some t, Some m, Some k => Some (mkRegistration n a p t m k)
      | _, _, _, _, _, _ => None
      end
  | _ => None
  end.
Definition de_status (v : Value) : option ServerStatusUpdate :=
  match fields_of [chr "name"; chr "online"; chr "player_count"; chr "auth_token"] v with
  | Some [n; o; c; k] =>
      match de_string n, de_bool o, de_option (de_uint 64) c, de_string k with
      | Some n, Some o, Some c, Some k => Some (mkStatusUpdate n o c k)
      | _, _, _, _ => None
      end
  | _ => None
  end.
Definition de_deregistration (v : Value) : option ServerDeregistration :=
  match fields_of [chr "name"; chr "auth_token"] v with
  | Some [n; k] => match de_string n, de_string k with Some n, Some k => Some (mkDeregistration n k) | _, _ => None end
  | _ => None
  end.
Definition de_transfer (v : Value) : option PlayerTransfer :=
  match fields_of [chr "uuid"; chr "server"; chr "auth_token"] v with
  | Some [u; s; k] => match de_string u, de_string s, de_string k with Some u, Some s, Some k => Some (mkTransfer u s k) | _, _, _ => None end
  | _ => None
  end.
Definition de_evacuation (v : Value) : option ServerEvacuation :=
  match fields_of [chr "from_server"; chr "to_server"; chr "auth_token"] v with
  | Some [f; t; k] => match de_string f, de_string t, de_string k with Some f, Some t, Some k => Some (mkEvacuation f t k) | _, _, _ => None end
  | _ => None
  end.
Definition de_toggle (v : Value) : option MaintenanceToggle :=
  match fields_of [chr "enabled"; chr "auth_token"] v with
  | Some [e; k] => match de_bool e, de_string k with Some e, Some k => Some (mkToggle e k) | _, _ => None end
  | _ => None
  end.

(** The first of the six a document reads as. *)
Inductive MgmtMessage :=
  | MM_registration (r : ServerRegistration) | MM_status (s : ServerStatusUpdate) | MM_deregistration (d : ServerDeregistration)
  | MM_transfer (t : PlayerTransfer) | MM_evacuation (e : ServerEvacuation) | MM_toggle (t : MaintenanceToggle).
Definition classify (v : Value) : option MgmtMessage :=
  match de_registration v with
  | Some r => Some (MM_registration r)
  | None =>
      match de_status v with
      | Some s => Some (MM_status s)
      | None =>
          match de_deregistration v with
          | Some d => Some (MM_deregistration d)
          | None =>
              match de_transfer v with
              | Some t => Some (MM_transfer t)
              | None =>
                  match de_evacuation v with
                  | Some e => Some (MM_evacuation e)
                  | None => MM_toggle <$> de_toggle v
                  end
              end
          end
      end
  end.
End Decode.

(** ** The TCP channel *)

(** The proxy's tables, the maintenance flag, and what was written back. *)
Record MgmtState := mkMgmt { mg_proxy : ProxyState; mg_maintenance : bool; mg_reply : bytes }.
Inductive MgmtError := ME_line_too_long | ME_read | ME_bad_address | ME_bad_uuid | ME_protocol (e : ProtocolError).
Abbreviation Mg A := (M MgmtState MgmtError A).

Definition say (s : bytes) : Mg unit := fun st => (Ok tt, mkMgmt (mg_proxy st) (mg_maintenance st) (mg_reply st ++ s)).
Definition line_of (s : string) : bytes := lit s ++ [x0a].
Definition in_proxy {A} (m : Px A) : Mg A := fun st =>
  let '(o, px) := m (mg_proxy st) in (map_err ME_protocol o, mkMgmt px (mg_maintenance st) (mg_reply st)).

Section Management.
Variable json_parse : bytes -> option Value.
Variable json_text : Value -> bytes.
Variable parse_addr : bytes -> option (IpAddr * Z).
Variable locked : bytes -> bool.
Variable session_order : gmap bytes PlayerSession -> list bytes.
(** The members of a JSON document as they are written; [Uuid::parse_str]. *)
Variable json_doc : bytes -> option Value.
Variable as_u64 : Value -> option Z.
Variable uuid_parse : bytes -> option bytes.
Variable auth_token : bytes.

Definition authorised (token : bytes) (k : Mg unit) : Mg unit :=
  if negb (constant_time_eq token auth_token) then say (line_of "ERROR: Invalid auth token") else k.

Definition handle_registration (r : ServerRegistration) : Mg unit :=
  authorised (rg_token r)
    (match parse_addr (rg_address r ++ lit ":" ++ number (rg_port r)) with
     | None => fail ME_bad_address
     | Some addr =>
         in_proxy (px_modify (fun px =>
           let servers := match registry_get (rg_name r) (px_servers px) with Some _ => registry_remove (rg_name r) (px_servers px) | None => px_servers px end in
           px_set_servers (registry_register (plugin_server (rg_name r) addr (rg_max_players r)) servers) px)) ;;
         say (line_of "OK: Server registered")
     end).

Definition set_online (b : bool) (s : BackendServer) : BackendServer :=
  mkBackend (bs_name s) b (bs_player_count s) (bs_max_players s) (bs_weight s) (bs_last_latency_ms s) (bs_region s)
    (bs_health_probe_interval_secs s) (bs_health_probe_fail_threshold s) (bs_health_fail_count s) (bs_health_unhealthy s) (bs_settings s).
Definition update_server (name : bytes) (f : BackendServer -> BackendServer) (r : ServerRegistry) : ServerRegistry :=
  map (fun s => if bool_decide (bs_name s = name) then f s else s) r.

Definition handle_status_update (u : ServerStatusUpdate) : Mg unit :=
  authorised (su_token u)
    (let! st := get_state in
     match registry_get (su_name u) (px_servers (mg_proxy st)) with
     | Some _ =>
         in_proxy (px_modify (fun px => px_set_servers
           (update_server (su_name u) (fun s => match su_player_count u with Some n => with_count n (set_online (su_online u) s) | None => set_online (su_online u) s end)
              (px_servers px)) px)) ;;
         say (line_of "OK: Status updated")
     | None => say (line_of "ERROR: Server not found")
     end).

Definition handle_deregistration (d : ServerDeregistration) : Mg unit :=
  authorised (dg_token d)
    (let! st := get_state in
     match registry_get (dg_name d) (px_servers (mg_proxy st)) with
     | Some _ =>
         let default_server := match px_config_servers (mg_proxy st) with s :: _ => se_name s | [] => lit "lobby" end in
         in_proxy (evacuate_players json_parse locked session_order (dg_name d) default_server) ;;
         in_proxy (px_modify (fun px => px_set_servers (registry_remove (dg_name d) (px_servers px)) px)) ;;
         say (line_of "OK: Server deregistered")
     | None => say (line_of "ERROR: Server not found")
     end).

Definition handle_evacuation (e : ServerEvacuation) : Mg unit :=
  authorised (ev_token e)
    (let! count := in_proxy (evacuate_players json_parse locked session_order (ev_from e) (ev_to e)) in
     say (lit "OK: Evacuated " ++ number (Z.of_nat count) ++ line_of " players")).

Definition handle_maintenance_toggle (t : MaintenanceToggle) : Mg unit :=
  authorised (mt_token t)
    ((fun st => (Ok tt, mkMgmt (mg_proxy st) (mt_enabled t) (mg_reply st))) ;;
     say (lit "OK: Maintenance mode " ++ line_of (if mt_enabled t then "enabled" else "disabled"))).

Definition handle_player_transfer (t : PlayerTransfer) : Mg unit :=
  authorised (tr_token t)
    (match uuid_parse (tr_uuid t) with
     | None => fail ME_bad_uuid
     | Some uuid =>
         let! st := get_state in
         match px_sessions (mg_proxy st) !! uuid with
         | Some target =>
             in_proxy (px_modify (fun px => px_set_servers (count_by 1 (tr_server t) (leave target (px_servers px))) px)) ;;
             in_proxy (px_modify (fun px => px_set_sessions (<[uuid := with_server (Some (tr_server t)) true target]> (px_sessions px)) px)) ;;
             say (line_of "OK: Transfer completed")
         | None => say (line_of "ERROR: Player not found")
         end
     end).

Definition handle_message (m : MgmtMessage) : Mg unit :=
  match m with
  | MM_registration r => handle_registration r | MM_status s => handle_status_update s | MM_deregistration d => handle_deregistration d
  | MM_transfer t => handle_player_transfer t | MM_evacuation e => handle_evacuation e | MM_toggle t => handle_maintenance_toggle t
  end.
(** One connection: the line it sends, [None] when it is no text or the read fails. *)
Definition handle_connection (line : option bytes) : Mg unit :=
  match line with
  | None => fail ME_read
  | Some line =>
      if 65536 <? Z.of_nat (length line) then fail ME_line_too_long
      else match json_doc line ≫= classify as_u64 with
           | Some m => handle_message m
           | None => say (line_of "ERROR: Invalid message format")
           end
  end.
End Management.

(** ** The gRPC service *)

Inductive ServerStatus := Online | Offline | Draining | Maintenance.
#[export] Instance server_status_eq_dec : EqDecision ServerStatus.
Proof. solve_decision. Defined.
(** The enum of control_plane.proto, as its number. *)
Definition status_code (s : ServerStatus) : Z := match s with Online => 0 | Offline => 1 | Draining => 2 | Maintenance => 3 end.
Definition status_try_from (n : Z) : option ServerStatus :=
  if n =? 0 then Some Online else if n =? 1 then Some Offline else if n =? 2 then Some Draining else if n =? 3 then Some Maintenance else None.

(** Floats are bit patterns. *)
Record ServerInfo := mkInfo {
  si_name : bytes; si_address : bytes; si_status : ServerStatus; si_player_count : Z; si_max_players : Z; si_region : bytes; si_latency : Z }.
Record ProtoServerInfo := mkProtoInfo {
  pi_name : bytes; pi_address : bytes; pi_status : Z; pi_player_count : Z; pi_max_players : Z; pi_region : bytes; pi_latency : Z; pi_last_updated : Z }.
Definition to_proto (now : Z) (i : ServerInfo) : ProtoServerInfo :=
  mkProtoInfo (si_name i) (si_address i) (status_code (si_status i)) (si_player_count i) (si_max_players i) (si_region i) (si_latency i) now.
Definition from_proto (i : ProtoServerInfo) : ServerInfo :=
  mkInfo (pi_name i) (pi_address i) (default Offline (status_try_from (pi_status i))) (pi_player_count i) (pi_max_players i) (pi_region i) (pi_latency i).

Record RoutingRule := mkRule {
  rl_id : bytes; rl_pattern : bytes; rl_target : bytes; rl_priority : Z; rl_enabled : bool; rl_metadata : gmap bytes bytes }.
Record ProxyMetrics := mkMetrics {
  pm_total_connections : Z; pm_active_connections : Z; pm_bytes_sent : Z; pm_bytes_received : Z; pm_uptime : Z; pm_cpu : Z; pm_memory : Z; pm_error_rate : Z }.

Record ControlPlaneState := mkControl { cp_servers : gmap bytes ServerInfo; cp_rules : gmap bytes RoutingRule; cp_metrics : ProxyMetrics; cp_start : Z }.
Definition control_new (start : Z) : ControlPlaneState := mkControl ∅ ∅ (mkMetrics 0 0 0 0 0 0 0 0) start.

Inductive Status := PermissionDenied (m : bytes) | InvalidArgument (m : bytes) | NotFound (m : bytes).
Abbreviation Cp A := (M ControlPlaneState Status A).
Definition cp_modify (f : ControlPlaneState -> ControlPlaneState) : Cp unit := fun st => (Ok tt, f st).

Definition upsert_server (i : ServerInfo) : Cp unit := cp_modify (fun st => mkControl (<[si_name i := i]> (cp_servers st)) (cp_rules st) (cp_metrics st) (cp_start st)).
Definition remove_server_state (name : bytes) : Cp (option ServerInfo) := fun st =>
  (Ok (cp_servers st !! name), mkControl (delete name (cp_servers st)) (cp_rules st) (cp_metrics st) (cp_start st)).
Definition update_status_state (name : bytes) (s : ServerStatus) : M ControlPlaneState bytes unit := fun st =>
  match cp_servers st !! name with
  | Some i => (Ok tt, mkControl (<[name := mkInfo (si_name i) (si_address i) s (si_player_count i) (si_max_players i) (si_region i) (si_latency i)]> (cp_servers st))
                        (cp_rules st) (cp_metrics st) (cp_start st))
  | None => (Err (lit "Server '" ++ name ++ lit "' not found"), st)
  end.
Definition upsert_routing_rule (r : RoutingRule) : Cp unit := cp_modify (fun st => mkControl (cp_servers st) (<[rl_id r := r]> (cp_rules st)) (cp_metrics st) (cp_start st)).
Definition remove_rule_state (id : bytes) : Cp (option RoutingRule) := fun st =>
  (Ok (cp_rules st !! id), mkControl (cp_servers st) (delete id (cp_rules st)) (cp_metrics st) (cp_start st)).
Definition toggle_rule_state (id : bytes) (enabled : bool) : M ControlPlaneState bytes unit := fun st =>
  match cp_rules st !! id with
  | Some r => (Ok tt, mkControl (cp_servers st) (<[id := mkRule (rl_id r) (rl_pattern r) (rl_target r) (rl_priority r) enabled (rl_metadata r)]> (cp_rules st)) (cp_metrics st) (cp_start st))
  | None => (Err (lit "Routing rule '" ++ id ++ lit "' not found"), st)
  end.
Definition get_metrics_state (now : Z) : Cp ProxyMetrics := fun st =>
  let m := cp_metrics st in
  let m' := mkMetrics (pm_total_connections m) (pm_active_connections m) (pm_bytes_sent m) (pm_bytes_received m) (now - cp_start st) (pm_cpu m) (pm_memory m) (pm_error_rate m) in
  (Ok m', mkControl (cp_servers st) (cp_rules st) m' (cp_start st)).

(** A call, with what its authorization metadata holds, when it is text. *)
Inductive CpRequest :=
  | Q_get_servers (filter_region : bytes) (filter_status : Z) | Q_add_server (server : option ProtoServerInfo) | Q_remove_server (name : bytes)
  | Q_update_status (name : bytes) (status : Z) | Q_get_rules (enabled_only : bool) | Q_add_rule (rule : option RoutingRule)
  | Q_remove_rule (id : bytes) | Q_toggle_rule (id : bytes) (enabled : bool) | Q_get_metrics | Q_health.
Inductive CpResponse :=
  | A_servers (l : list ProtoServerInfo) | A_done (message : bytes) | A_rules (l : list RoutingRule) | A_metrics (m : ProxyMetrics) | A_healthy.

Section Grpc.
Variable auth_enabled : bool.
Variable auth_token : option bytes.
(** The time of a call, and the order a table is read in. *)
Variable now : Z.
Variable server_order : gmap bytes ServerInfo -> list ServerInfo.
Variable rule_order : gmap bytes RoutingRule -> list RoutingRule.

Definition strip_prefix (p s : bytes) : option bytes := if bool_decide (take (length p) s = p) then Some (drop (length p) s) else None.
Definition check_auth (authorization : option bytes) : Cp unit :=
  if negb auth_enabled then ret tt
  else match auth_token with
  | None => fail (PermissionDenied (lit "auth token not configured"))
  | Some token =>
      match authorization ≫= strip_prefix (lit "Bearer ") with
      | Some t => if constant_time_eq t token then ret tt else fail (PermissionDenied (lit "invalid or missing auth token"))
      | None => fail (PermissionDenied (lit "invalid or missing auth token"))
      end
  end.

Definition listed (filter_region : bytes) (filter_status : Z) (s : ServerInfo) : bool :=
  if negb (bool_decide (filter_region = [])) && negb (bool_decide (si_region s = [])) && negb (bool_decide (si_region s = filter_region)) then false
  else if negb (filter_status =? 0) then
    match status_try_from filter_status with Some f => bool_decide (si_status s = f) | None => true end
  else true.

Definition serve (q : CpRequest) : Cp CpResponse :=
  match q with
  | Q_get_servers region status => fun st => (Ok (A_servers (map (to_proto now) (filter (fun s => listed region status s = true) (server_order (cp_servers st))))), st)
  | Q_add_server None => fail (InvalidArgument (lit "Server info required"))
  | Q_add_server (Some i) => upsert_server (from_proto i) ;; ret (A_done (lit "Server added successfully"))
  | Q_remove_server name =>
      let! r := remove_server_state name in
      match r with Some _ => ret (A_done (lit "Server removed successfully")) | None => fail (NotFound (lit "Server '" ++ name ++ lit "' not found")) end
  | Q_update_status name code =>
      match status_try_from code with
      | None => fail (InvalidArgument (lit "Invalid server status"))
      | Some s => fun st => match update_status_state name s st with
                            | (Ok _, st') => (Ok (A_done (lit "Server status updated successfully")), st')
                            | (Err e, st') => (Err (NotFound e), st') | (Panic, st') => (Panic, st') | (NoFuel, st') => (NoFuel, st')
                            end
      end
  | Q_get_rules enabled_only => fun st =>
      let rules := rule_order (cp_rules st) in
      (Ok (A_rules (if enabled_only then filter (fun r => rl_enabled r = true) rules else rules)), st)
  | Q_add_rule None => fail (InvalidArgument (lit "Routing rule required"))
  | Q_add_rule (Some r) => upsert_routing_rule r ;; ret (A_done (lit "Routing rule added successfully"))
  | Q_remove_rule id =>
      let! r := remove_rule_state id in
      match r with Some _ => ret (A_done (lit "Routing rule removed successfully")) | None => fail (NotFound (lit "Routing rule '" ++ id ++ lit "' not found")) end
  | Q_toggle_rule id enabled => fun st =>
      match toggle_rule_state id enabled st with
      | (Ok _, st') => (Ok (A_done (lit "Routing rule toggled successfully")), st')
      | (Err e, st') => (Err (NotFound e), st') | (Panic, st') => (Panic, st') | (NoFuel, st') => (NoFuel, st')
      end
  | Q_get_metrics => let! m := get_metrics_state now in ret (A_metrics m)
  | Q_health => ret A_healthy
  end.
Definition handle_request (authorization : option bytes) (q : CpRequest) : Cp CpResponse := check_auth authorization ;; serve q.
End Grpc.

(** ** Secrets *)

Lemma lxor_zero (a b : byte) : Z.lxor (bz a) (bz b) = 0 -> a = b.
Proof. intros H. apply bz_inj. by apply Z.lxor_eq. Qed.

Lemma diff_acc l : forall d, 0 <= d ->
  foldl (fun d (p : byte * byte) => Z.lor d (Z.lxor (bz p.1) (bz p.2))) d l = 0 <-> d = 0 /\ Forall (fun p => p.1 = p.2) l.
Proof.
  induction l as [|[a b] l IH]; intros d Hd; cbn [foldl fst snd]; [by split; [intros ->|intros []]|].
  assert (Hx : 0 <= Z.lxor (bz a) (bz b)) by (apply Z.lxor_nonneg; pose proof (bz_range a); pose proof (bz_range b); lia).
  rewrite IH by (by apply Z.lor_nonneg). rewrite Z.lor_eq_0_iff, Forall_cons. cbn [fst snd]. split.
  - intros ([-> Hx0] & Hl). split_and!; [done|by apply lxor_zero|done].
  - intros (-> & -> & Hl). split_and!; [done|apply Z.lxor_nilpotent|done].
Qed.

Lemma zip_eq (a : bytes) : forall b, length a = length b -> Forall (fun p => p.1 = p.2) (zip a b) <-> a = b.
Proof.
  induction a as [|x a IH]; intros [|y b] Hl; try done; cbn in *.
  injection Hl as Hl. rewrite Forall_cons, (IH b Hl). cbn. split; [by intros [-> ->]|by intros [= -> ->]].
Qed.

Lemma constant_time_spec a b : constant_time_eq a b = bool_decide (a = b).
Proof.
  unfold constant_time_eq. destruct (Nat.eqb_spec (length a) (length b)) as [Hl|Hl]; cbn [negb].
  - unfold diff_bits. destruct (Z.eqb_spec (foldl (fun d p => Z.lor d (Z.lxor (bz p.1) (bz p.2))) 0 (zip a b)) 0) as [H|H];
      rewrite diff_acc, (zip_eq a b Hl) in H by lia; symmetry; [apply bool_decide_eq_true; by destruct H|apply bool_decide_eq_false; intros E; by apply H].
  - symmetry. apply bool_decide_eq_false. by intros ->.
Qed.

(** ** Who may manage *)

Definition token_of (m : MgmtMessage) : bytes :=
  match m with
  | MM_registration r => rg_token r | MM_status s => su_token s | MM_deregistration d => dg_token d
  | MM_transfer t => tr_token t | MM_evacuation e => ev_token e | MM_toggle t => mt_token t
  end.

Section ManagementLaws.
Variable json_parse : bytes -> option Value.
Variable json_text : Value -> bytes.
Variable parse_addr : bytes -> option (IpAddr * Z).
Variable locked : bytes -> bool.
Variable session_order : gmap bytes PlayerSession -> list bytes.
Variable json_doc : bytes -> option Value.
Variable as_u64 : Value -> option Z.
Variable uuid_parse : bytes -> option bytes.
Variable auth_token : bytes.
Abbreviation message := (handle_message json_parse parse_addr locked session_order uuid_parse auth_token).
Abbreviation connection := (handle_connection json_parse parse_addr locked session_order json_doc as_u64 uuid_parse auth_token).

Lemma refused token k st : token <> auth_token -> authorised auth_token token k st = say (line_of "ERROR: Invalid auth token") st.
Proof. intros Hn. unfold authorised. by rewrite constant_time_spec, bool_decide_false. Qed.

Lemma message_refused m st : token_of m <> auth_token -> message m st = say (line_of "ERROR: Invalid auth token") st.
Proof. intros Hn. destruct m; by apply refused. Qed.

(** C31: Nothing is managed without the secret.  Whatever line arrives on the
    management port, the proxy's servers and sessions, what was queued for players and
    the maintenance flag change only when the line is a well-formed message that
    carries the configured token, byte for byte; one that carries another is answered
    with that error alone. *)
Theorem management_needs_token line st o st' : connection (Some line) st = (o, st') ->
  mg_proxy st' = mg_proxy st /\ mg_maintenance st' = mg_maintenance st \/
  exists m, json_doc line ≫= classify as_u64 = Some m /\ token_of m = auth_token.
Proof.
  unfold handle_connection. destruct (_ <? _); [intros [= <- <-]; by left|].
  destruct (json_doc line ≫= classify as_u64) as [m|] eqn:Hm; [|intros [= <- <-]; by left].
  destruct (decide (token_of m = auth_token)) as [Ht|Ht]; [right; by exists m|].
  rewrite message_refused by done. intros [= <- <-]. by left.
Qed.

Lemma in_proxy_proxy {A} (f : Px A) st : mg_proxy (in_proxy f st).2 = (f (mg_proxy st)).2.
Proof. unfold in_proxy. by destruct (f (mg_proxy st)). Qed.

(** A sequence that ends with a reply. *)
Lemma proxy_then_say {A} (f : Px A) s st : mg_proxy ((let! a := in_proxy f in say (s a)) st).2 = (f (mg_proxy st)).2.
Proof. unfold bind, in_proxy. destruct (f (mg_proxy st)) as [[] px]; done. Qed.

Lemma proxy_then {A} (f : Px A) (k : A -> Mg unit) (P : ProxyState -> Prop) st :
  P (f (mg_proxy st)).2 -> (forall a st', P (mg_proxy st') -> P (mg_proxy (k a st').2)) -> P (mg_proxy ((let! a := in_proxy f in k a) st).2).
Proof. intros Hf Hk. unfold bind, in_proxy. destruct (f (mg_proxy st)) as [[a|e| |] px]; cbn in *; [by apply Hk|done..]. Qed.

(** The player counts stay true under management.  If the count of every
    registered server is the number of sessions on it, it still is after any message:
    registrations, deregistrations with their evacuation, transfers, evacuations and
    status reports; the exceptions are registering over a name players are on, and a
    report that states a count. *)
Theorem management_census m st : px_census (mg_proxy st) ->
  match m with
  | MM_registration r => occupancy (rg_name r) (px_sessions (mg_proxy st)) = 0%nat
  | MM_status s => su_player_count s = None
  | _ => True
  end -> px_census (mg_proxy (message m st).2).
Proof.
  intros Hc Hm. destruct (decide (token_of m = auth_token)) as [Ht|Ht]; [|by rewrite message_refused].
  destruct m as [r|u|d|t|e|t]; cbn [handle_message token_of] in *;
    unfold handle_registration, handle_status_update, handle_deregistration, handle_player_transfer, handle_evacuation, handle_maintenance_toggle, authorised;
    rewrite constant_time_spec, bool_decide_true by done; cbn [negb].
  - destruct (parse_addr _) as [addr|]; [|done]. apply proxy_then; [|done].
    unfold px_census, px_modify. cbn [snd px_servers px_sessions px_set_servers]. intros other b. rewrite get_register. cbn [bs_name plugin_server].
    destruct (decide (other = rg_name r)) as [-> |Hne]; [intros [= <-]; by rewrite Hm|].
    destruct (registry_get (rg_name r) (px_servers (mg_proxy st))); [rewrite get_remove, decide_False by done|]; apply Hc.
  - rewrite Hm. unfold bind at 1, get_state at 1. destruct (registry_get (su_name u) _) as [b1|]; [|done]. apply proxy_then; [|done].
    unfold px_census, px_modify. cbn [snd px_servers px_sessions px_set_servers]. intros other b Hg.
    assert (Hx : exists b0, registry_get other (px_servers (mg_proxy st)) = Some b0 /\ bs_player_count b = bs_player_count b0).
    { clear -Hg. unfold update_server in Hg. induction (px_servers (mg_proxy st)) as [|s l IH]; [done|]. cbn [map registry_get] in Hg |- *.
      destruct (bool_decide (bs_name s = su_name u)); cbn [bs_name set_online] in Hg;
        (destruct (decide (bs_name s = other)); [injection Hg as <-; by exists s|by apply IH]). }
    destruct Hx as (b0 & Hb0 & ->). by apply Hc.
  - unfold bind at 1, get_state at 1. destruct (registry_get (dg_name d) _); [|done]. apply proxy_then.
    + unfold evacuate_players, bind, get_state. by apply census_evacuate_each.
    + intros n st' Hc'. apply proxy_then; [|done]. by apply census_remove.
  - destruct (uuid_parse _) as [uuid|]; [|done]. unfold bind at 1, get_state at 1.
    destruct (px_sessions (mg_proxy st) !! uuid) as [s|] eqn:Hs; [|done].
    unfold bind, in_proxy, px_modify, px_census. cbn [snd mg_proxy map_err px_set_servers px_set_sessions px_servers px_sessions say].
    by apply census_transfer.
  - apply proxy_then; [|done]. unfold evacuate_players, bind, get_state. by apply census_evacuate_each.
  - done.
Qed.
End ManagementLaws.

(** ** The gRPC service *)

(** Who may call: everyone while authentication is off; otherwise who presents the
    configured token. *)
Definition may_call (auth_enabled : bool) (auth_token authorization : option bytes) : Prop :=
  auth_enabled = false \/ exists token, auth_token = Some token /\ authorization = Some (lit "Bearer " ++ token).

Lemma strip_prefix_some p s t : strip_prefix p s = Some t <-> s = p ++ t.
Proof.
  unfold strip_prefix. case_bool_decide as Hp; split.
  - intros [= <-]. rewrite <- (take_drop (length p) s) at 1. by rewrite Hp.
  - intros ->. by rewrite drop_app_length.
  - done.
  - intros ->. by rewrite take_app_length in Hp.
Qed.

(** The control plane answers those who may call and nobody else.  With the right
    to call a request is served; without it every request, reads included, is denied
    before it is looked at and the tables stay as they are.  Authentication without a
    configured token denies everyone. *)
Theorem control_plane_guarded auth_enabled auth_token now server_order rule_order authorization q st :
  let r := handle_request auth_enabled auth_token now server_order rule_order authorization q st in
  (may_call auth_enabled auth_token authorization -> r = serve now server_order rule_order q st) /\
  (~ may_call auth_enabled auth_token authorization -> (exists m, r.1 = Err (PermissionDenied m)) /\ r.2 = st).
Proof.
  cbn zeta. unfold handle_request, check_auth, may_call, bind. destruct auth_enabled; cbn [negb]; [|split; [done|intros Hn; exfalso; auto]].
  destruct auth_token as [token|]; [|split; [intros [|(t & ? & _)]; done|by eauto]].
  destruct (authorization ≫= strip_prefix (lit "Bearer ")) as [t|] eqn:Ha.
  - destruct authorization as [a|]; [|done]. apply strip_prefix_some in Ha as ->. rewrite constant_time_spec. case_bool_decide as Ht.
    + subst. split; [done|]. intros Hn. exfalso. apply Hn. right. by exists token.
    + split; [|by eauto]. intros [|(t' & [= ->] & [= ->])]; done.
  - split; [|by eauto]. intros [|(t & [= ->] & ->)]; [done|]. cbn [mbind option_bind] in Ha.
    by rewrite (proj2 (strip_prefix_some _ _ t) eq_refl) in Ha.
Qed.

(** The two tables do what they are told: lookups after each change. *)
Lemma server_info_roundtrip now i : from_proto (to_proto now i) = i.
Proof. by destruct i as [? ? []]. Qed.

(** ** Behaviour that surprises *)

(** A registration whose port is out of range is no registration, but it has the name
    and the token of a deregistration, and is carried out as one. *)
Theorem bad_registration_deregisters as_u64 (name address token : chars) n :
  as_u64 (JNumber (Some n) None) = Some n -> 65535 < n ->
  classify as_u64 (JObject [(chr "name", JString name); (chr "address", JString address); (chr "port", JNumber (Some n) None); (chr "auth_token", JString token)]) =
  Some (MM_deregistration (mkDeregistration (utf8 name) (utf8 token))).
Proof.
  intros Hn Hbig. unfold classify.
  assert (Hr : de_uint as_u64 16 (Some (JNumber (Some n) None)) = None).
  { unfold de_uint. cbn [mbind option_bind]. rewrite Hn. cbn [mbind option_bind].
    destruct (Z.ltb_spec n (2 ^ 16)); [lia|]. by rewrite andb_false_r. }
  set (doc := JObject _).
  assert (H1 : de_registration as_u64 doc = None).
  { unfold de_registration.
    assert (Hf : fields_of [chr "name"; chr "address"; chr "port"; chr "template"; chr "max_players"; chr "auth_token"] doc =
      Some [Some (JString name); Some (JString address); Some (JNumber (Some n) None); None; None; Some (JString token)]) by reflexivity.
    rewrite Hf, Hr. reflexivity. }
  rewrite H1. reflexivity.
Qed.

(** A report of a count replaces the proxy's own: the census of the sessions is lost. *)
Theorem reported_count_uncounted :
  let st := mkMgmt (mkProxy ∅ ∅ [plugin_server (lit "lobby") (V4 [x7f; x00; x00; x01], 25565) 100] [] (mkLimboCustomization None None None)) false [] in
  px_census (mg_proxy st) /\
  ~ px_census (mg_proxy (handle_message (fun _ => None) (fun _ => None) (fun _ => false) (fun _ => []) (fun _ => None) (lit "secret")
      (MM_status (mkStatusUpdate (lit "lobby") true (Some 7) (lit "secret"))) st).2).
Proof.
  split.
  - intros name b Hg. cbn in Hg. destruct (decide _); [|done]. injection Hg as <-. vm_compute. reflexivity.
  - intros Hc. specialize (Hc (lit "lobby") _ ltac:(vm_compute; reflexivity)). vm_compute in Hc. done.
Qed.

(** A transfer to a server that does not exist is reported as done, and takes the
    player off the count of the server he is on. *)
Theorem transfer_to_nowhere json_parse parse_addr locked session_order uuid_parse auth_token t uuid s st :
  tr_token t = auth_token -> uuid_parse (tr_uuid t) = Some uuid -> px_sessions (mg_proxy st) !! uuid = Some s ->
  registry_get (tr_server t) (px_servers (mg_proxy st)) = None ->
  exists st', handle_message json_parse parse_addr locked session_order uuid_parse auth_token (MM_transfer t) st = (Ok tt, st') /\
    mg_reply st' = mg_reply st ++ line_of "OK: Transfer completed" /\ ps_current_server <$> px_sessions (mg_proxy st') !! uuid = Some (Some (tr_server t)).
Proof.
  intros Ht Hu Hs Hr. cbn [handle_message]. unfold handle_player_transfer, authorised. rewrite constant_time_spec, bool_decide_true by done.
  cbn [negb]. rewrite Hu. unfold bind at 1, get_state at 1. rewrite Hs. eexists. split; [reflexivity|]. cbn. by rewrite lookup_insert_eq.
Qed.

(** Asking for the servers that are online lists all of them: that status is zero,
    which means no filter. *)
Theorem online_filter_ignored s : listed [] (status_code Online) s = true.
Proof. done. Qed.

(** A registration, as an operator sends it. *)
Definition lobby_message : MgmtMessage := MM_registration (mkRegistration (lit "lobby") (lit "10.0.0.1") 25565 None 100 (lit "secret")).
Definition empty_state : MgmtState := mkMgmt (mkProxy ∅ ∅ [] [] (mkLimboCustomization None None None)) false [].
Definition toggle_doc (token : string) : Value := JObject [(chr "enabled", JBool true); (chr "auth_token", JString (chr token))].
Abbreviation sample_connection token :=
  (handle_connection (fun _ => None) (fun _ => None) (fun _ => false) (fun _ => []) (fun _ => Some (toggle_doc token)) (fun _ => None) (fun _ => None) (lit "secret")).

Lemma management_needs_token_witness :
  mg_maintenance (sample_connection "secret" (Some (lit "x")) empty_state).2 = true /\
  (mg_proxy (sample_connection "wrong" (Some (lit "x")) empty_state).2 = mg_proxy empty_state /\
   mg_maintenance (sample_connection "wrong" (Some (lit "x")) empty_state).2 = false).
Proof.
  split; [vm_compute; reflexivity|].
  destruct (management_needs_token (fun _ => None) (fun _ => None) (fun _ => false) (fun _ => []) (fun _ => Some (toggle_doc "wrong")) (fun _ => None)
    (fun _ => None) (lit "secret") (lit "x") empty_state _ _ (surjective_pairing _)) as [H|(m & Hm & Ht)]; [exact H|].
  exfalso. vm_compute in Hm. injection Hm as <-. vm_compute in Ht. discriminate.
Defined.

Lemma management_census_witness :
  px_census (mg_proxy (handle_message (fun _ => None) (fun _ => Some (V4 [x0a; x00; x00; x01], 25565)) (fun _ => false) (fun _ => []) (fun _ => None) (lit "secret") lobby_message empty_state).2) /\
  length (px_servers (mg_proxy (handle_message (fun _ => None) (fun _ => Some (V4 [x0a; x00; x00; x01], 25565)) (fun _ => false) (fun _ => []) (fun _ => None) (lit "secret") lobby_message empty_state).2)) = 1%nat.
Proof.
  split; [|vm_compute; reflexivity].
  apply (management_census (fun _ => None) (fun _ => Some (V4 [x0a; x00; x00; x01], 25565)) (fun _ => false) (fun _ => []) (fun _ => None) (lit "secret") lobby_message empty_state).
  - intros name b [=].
  - vm_compute. reflexivity.
Defined.
