(* ===== verification/Plugins.v ===== *)
(** * Plugins: events, packet hooks, and the manager that owns them

    crates/plugin-abi/src/lib.rs (events and their bits, permissions, metadata),
    crates/plugin-system/src/api.rs (the [Plugin] trait, packet hooks, the activity
    snapshot), integrity.rs (trusted hashes), sandbox.rs (the policy check) and
    manager.rs (loading, unloading, commands, event and packet dispatch).

    A plugin is the trait [PluginTrait] over a state [G] of its own; a call into it
    returns or unwinds ([guard_plugin_call] catches that).  Iterating a [HashMap] takes
    the order of the keys as an argument.  The loader is the parameter
    [load_wasm], which [Wasm] implements. *)
From Stdlib Require Import ZArith Lia Bool Strings.String Strings.Byte.
From stdpp Require Import base list gmap sorting numbers strings.
From S2P Require Import Prelude Buf Wire Codec Chars Utf8 Auth Transfer Routing Commands.
From S2P Require Relay.
Import Relay(PacketDirection, Clientbound, Serverbound, PacketHookResult, Forward, Drop, Modify, Replace).
Local Open Scope Z_scope.
Local Open Scope koja_scope.

(** ** The ABI *)

Inductive PluginEventKind :=
  | K_PlayerJoin | K_PlayerLeave | K_PlayerChat | K_PlayerMove | K_ServerMessage | K_ServerListPing | K_Custom | K_PreLogin
  | K_PostLogin | K_ServerConnect | K_ServerSwitch | K_ServerKick | K_ProxyPing | K_TabComplete | K_PluginMessage
  | K_PermissionCheck | K_ServerConnected | K_SettingsChanged | K_PlayerDisconnect | K_RedisMessage.

(** [kind as u32]. *)
Definition kind_bit (k : PluginEventKind) : Z :=
  Z.shiftl 1 match k with
    | K_PlayerJoin => 0 | K_PlayerLeave => 1 | K_PlayerChat => 2 | K_PlayerMove => 3 | K_ServerMessage => 4 | K_ServerListPing => 5
    | K_Custom => 6 | K_PreLogin => 7 | K_PostLogin => 8 | K_ServerConnect => 9 | K_ServerSwitch => 10 | K_ServerKick => 11
    | K_ProxyPing => 12 | K_TabComplete => 13 | K_PluginMessage => 14 | K_PermissionCheck => 15 | K_ServerConnected => 16
    | K_SettingsChanged => 17 | K_PlayerDisconnect => 18 | K_RedisMessage => 19
    end.

Definition ALL_EVENTS : Z := 2 ^ 32 - 1.
Definition default_event_mask : Z := Z.land ALL_EVENTS (Z.lxor (2 ^ 32 - 1) (kind_bit K_PlayerMove)).

(** Coordinates are bit patterns, JSON values their text. *)
Inductive PluginEvent :=
  | PlayerJoin (uuid username : bytes) | PlayerLeave (uuid : bytes) | PlayerChat (uuid message : bytes)
  | PlayerMove (uuid : bytes) (x y z : Z) (on_ground : bool) | ServerMessage (message : bytes)
  | CustomEvent (event_type data : bytes)
  | ServerListPing (max_players online_players : Z) (sample : list (bytes * bytes))
  | PreLogin (username address : bytes) | PostLogin (uuid username : bytes) | ServerConnect (uuid target : bytes)
  | ServerSwitch (uuid : bytes) (from : option bytes) (to : bytes) | ServerKick (uuid server reason : bytes)
  | PlayerDisconnect (uuid username : bytes) | ServerConnected (uuid server : bytes)
  | SettingsChanged (uuid : bytes) (locale : option bytes) (view_distance : option Z)
  | TabComplete (uuid input : bytes) | PluginMessage (uuid channel data : bytes) | PermissionCheck (uuid node : bytes)
  | RedisMessage (channel payload : bytes).

Definition kind (e : PluginEvent) : PluginEventKind :=
  match e with
  | PlayerJoin _ _ => K_PlayerJoin | PlayerLeave _ => K_PlayerLeave | PlayerChat _ _ => K_PlayerChat | PlayerMove _ _ _ _ _ => K_PlayerMove
  | ServerMessage _ => K_ServerMessage | ServerListPing _ _ _ => K_ServerListPing | CustomEvent _ _ => K_Custom | PreLogin _ _ => K_PreLogin
  | PostLogin _ _ => K_PostLogin | ServerConnect _ _ => K_ServerConnect | ServerSwitch _ _ _ => K_ServerSwitch | ServerKick _ _ _ => K_ServerKick
  | PlayerDisconnect _ _ => K_PlayerDisconnect | ServerConnected _ _ => K_ServerConnected | SettingsChanged _ _ _ => K_SettingsChanged
  | TabComplete _ _ => K_TabComplete | PluginMessage _ _ _ => K_PluginMessage | PermissionCheck _ _ => K_PermissionCheck
  | RedisMessage _ _ => K_RedisMessage
  end.

Inductive PluginPermission :=
  | ReadPlayerInfo | P_KickPlayer | SendMessage | P_Broadcast | ModifyPackets | ReadPackets | AccessServers | RegisterServers | AccessRouting
  | ReadConfig | ExecuteCommands | ManageSanctions | UseRedis | UseHttp.
#[export] Instance permission_eq_dec : EqDecision PluginPermission.
Proof. solve_decision. Defined.

Definition permission_name (p : PluginPermission) : bytes :=
  lit match p with
      | ReadPlayerInfo => "read_player_info" | P_KickPlayer => "kick_player" | SendMessage => "send_message" | P_Broadcast => "broadcast"
      | ModifyPackets => "modify_packets" | ReadPackets => "read_packets" | AccessServers => "access_servers"
      | RegisterServers => "register_servers" | AccessRouting => "access_routing" | ReadConfig => "read_config"
      | ExecuteCommands => "execute_commands" | ManageSanctions => "manage_sanctions" | UseRedis => "use_redis" | UseHttp => "use_http"
      end.
(** [{:?}]. *)
Definition debug_permission (p : PluginPermission) : bytes :=
  lit match p with
      | ReadPlayerInfo => "ReadPlayerInfo" | P_KickPlayer => "KickPlayer" | SendMessage => "SendMessage" | P_Broadcast => "Broadcast"
      | ModifyPackets => "ModifyPackets" | ReadPackets => "ReadPackets" | AccessServers => "AccessServers"
      | RegisterServers => "RegisterServers" | AccessRouting => "AccessRouting" | ReadConfig => "ReadConfig"
      | ExecuteCommands => "ExecuteCommands" | ManageSanctions => "ManageSanctions" | UseRedis => "UseRedis" | UseHttp => "UseHttp"
      end.

Record PluginMetadata := mkMetadata {
  md_name : bytes; md_version : bytes; md_author : bytes; md_description : bytes; md_min_proxy_version : bytes;
  md_dependencies : list bytes; md_permissions : list PluginPermission; md_events : Z }.
Definition metadata_new (name version : bytes) : PluginMetadata := mkMetadata name version [] [] (lit "0.1.0") [] [] default_event_mask.

Record PluginCommandSpec := mkSpec { spec_label : bytes; spec_aliases : list bytes; spec_permission : option bytes; spec_description : bytes }.
Definition spec_new (label : bytes) : PluginCommandSpec := mkSpec label [] None [].
Definition spec_alias (alias : bytes) (s : PluginCommandSpec) : PluginCommandSpec :=
  mkSpec (spec_label s) (spec_aliases s ++ [alias]) (spec_permission s) (spec_description s).

(** A console has every permission. *)
Definition sender_has_permission (s : CommandSender) (node : bytes) : bool :=
  cs_is_console s || existsb (fun p => bool_decide (p = lit "*") || bool_decide (p = node)) (cs_permissions s).

(** ** Trusted hashes and the sandbox policy *)

Record PluginVerifier := mkVerifier { trusted_hashes : list bytes; require_verification : bool }.
Definition verifier_new : PluginVerifier := mkVerifier [] false.
Definition normal_hash (h : bytes) : bytes := to_ascii_lowercase (utf8 (trim (chars_of h))).
Definition with_trusted_hashes (hashes : list bytes) : PluginVerifier :=
  mkVerifier (filter (fun h => h <> []) (map normal_hash hashes)) true.
Definition set_require_verification (require : bool) (v : PluginVerifier) : PluginVerifier := mkVerifier (trusted_hashes v) require.
Definition add_trusted_hash (hash : bytes) (v : PluginVerifier) : PluginVerifier :=
  mkVerifier (normal_hash hash :: trusted_hashes v) (require_verification v).

Section Verify.
(** SHA-256; what reading the file gives. *)
Variable sha256 : bytes -> bytes.
Variable read_file : bytes + bytes.

Definition file_sha256 (parent_dir : bool) (display : bytes) : outcome bytes bytes :=
  if parent_dir then Err (lit "Invalid input: " ++ display)
  else match read_file with inr e => Err e | inl bs => Ok (hex_encode (sha256 bs)) end.
Definition verify (v : PluginVerifier) (parent_dir : bool) (display : bytes) : outcome bytes unit :=
  match file_sha256 parent_dir display with
  | Ok digest =>
      if bool_decide (trusted_hashes v = []) then
        if require_verification v then
          Err (lit "plugin verification is required but no trusted hashes are configured; refusing to load " ++ display ++
               lit " (sha256=" ++ digest ++ lit ")")
        else Ok tt
      else if bool_decide (digest ∈ trusted_hashes v) then Ok tt
      else Err (lit "plugin " ++ display ++ lit " failed integrity verification: sha256=" ++ digest ++ lit " is not in the trusted allowlist")
  | Err e => Err e | Panic => Panic | NoFuel => NoFuel
  end.
End Verify.

Record SandboxConfig := mkSandbox { allow_filesystem : bool; allow_network : bool; allow_process_spawn : bool; restricted_paths : list bytes }.
Definition sandbox_default : SandboxConfig :=
  mkSandbox false false false [lit "/etc"; lit "/sys"; lit "/proc"; lit "/root"; lit "C:\Windows"; lit "C:\System32"].
Definition validate_plugin_permissions (requested allowed : SandboxConfig) : outcome bytes unit :=
  if allow_filesystem requested && negb (allow_filesystem allowed) then Err (lit "Plugin requests filesystem access but it is not allowed")
  else if allow_network requested && negb (allow_network allowed) then Err (lit "Plugin requests network access but it is not allowed")
  else if allow_process_spawn requested && negb (allow_process_spawn allowed) then Err (lit "Plugin requests process spawning but it is not allowed")
  else Ok tt.

#[export] Instance response_eq_dec : EqDecision PluginResponse.
Proof. solve_decision. Defined.

(** ** Calls into plugins *)

(** A call returns, or unwinds with a payload. *)
Inductive call (A : Type) := Returned (a : A) | Unwound (payload : bytes).
Arguments Returned {A} a.
Arguments Unwound {A} payload.

(** [anyhow::Result]. *)
Abbreviation result A := (A + bytes)%type.

Definition guard_plugin_call {A} (what : bytes) (c : call A) : result A :=
  match c with Returned a => inl a | Unwound payload => inr (lit "plugin panicked during " ++ what ++ lit ": " ++ payload) end.
Definition unwrap_or {A} (d : A) (r : result A) : A := match r with inl a => a | inr _ => d end.

(** ** Packet hooks *)

Record PacketFilter := mkFilter { f_protocol_version : option Z; f_packet_id : option Z; f_direction : PacketDirection }.
#[export] Instance direction_eq_dec : EqDecision PacketDirection.
Proof. solve_decision. Defined.
Record PacketData := mkPacket { pk_protocol_version : Z; pk_packet_id : Z; pk_direction : PacketDirection; pk_data : bytes; pk_player : option bytes }.
Record PacketEvent := mkHook {
  h_filter : PacketFilter; h_hook : PacketData -> call (result PacketHookResult); h_priority : Z; h_plugin_name : bytes }.

Definition hook (filter : PacketFilter) (f : PacketData -> call (result PacketHookResult)) : PacketEvent := mkHook filter f 0 [].
Definition hook_to_clientbound (protocol_version packet_id : option Z) f : PacketEvent := hook (mkFilter protocol_version packet_id Clientbound) f.
Definition hook_to_serverbound (protocol_version packet_id : option Z) f : PacketEvent := hook (mkFilter protocol_version packet_id Serverbound) f.
Definition with_priority (p : Z) (h : PacketEvent) : PacketEvent := mkHook (h_filter h) (h_hook h) p (h_plugin_name h).
Definition with_plugin_name (n : bytes) (h : PacketEvent) : PacketEvent := mkHook (h_filter h) (h_hook h) (h_priority h) n.

Definition matches (h : PacketEvent) (p : PacketData) : bool :=
  if negb (bool_decide (pk_direction p = f_direction (h_filter h))) then false
  else if (match f_protocol_version (h_filter h) with Some v => negb (pk_protocol_version p =? v) | None => false end) then false
  else if (match f_packet_id (h_filter h) with Some id => negb (pk_packet_id p =? id) | None => false end) then false
  else true.

Definition with_data (p : PacketData) (d : bytes) : PacketData :=
  mkPacket (pk_protocol_version p) (pk_packet_id p) (pk_direction p) d (pk_player p).

Definition execute (h : PacketEvent) (p : PacketData) : call (result PacketHookResult) := h_hook h p.
Definition hook_outcome (h : PacketEvent) (p : PacketData) : result PacketHookResult :=
  unwrap_or (inl Forward) (guard_plugin_call (lit "packet_hook") (execute h p)).

(** One pass over the hooks; the answer [Modify] of the first pass starts the second
    over all hooks. *)
Fixpoint run_pass (again : bytes -> PacketHookResult) (hooks : list PacketEvent) (p : PacketData) : PacketHookResult :=
  match hooks with
  | [] => Forward
  | h :: rest =>
      match hook_outcome h p with
      | inl Drop => Drop
      | inl (Replace id data) => Replace id data
      | inl (Modify data) => again data
      | inl Forward | inr _ => run_pass again rest p
      end
  end.
Definition run_hooks_inner (hooks : list PacketEvent) (p : PacketData) (already_modified : bool) : PacketHookResult :=
  if already_modified then run_pass Modify hooks p
  else run_pass (fun data => run_pass Modify hooks (with_data p data)) hooks p.
Definition run_hooks (hooks : list PacketEvent) (p : PacketData) : PacketHookResult := run_hooks_inner hooks p false.

(** [sort_by_key(Reverse(priority))] is a stable sort. *)
Fixpoint place_hook (h : PacketEvent) (l : list PacketEvent) : list PacketEvent :=
  match l with
  | [] => [h]
  | g :: rest => if h_priority g <=? h_priority h then h :: l else g :: place_hook h rest
  end.
Fixpoint sort_hooks (l : list PacketEvent) : list PacketEvent :=
  match l with [] => [] | h :: rest => place_hook h (sort_hooks rest) end.

(** ** The manager *)

Record PluginContext := mkContext {
  cx_plugin_id : bytes; cx_version : bytes; cx_config : gmap bytes bytes; cx_command_tx : option nat; cx_runtime : bool }.

(** A path: how it is shown, its last component unless it ends in [..], and whether it
    has a [..] component. *)
Record Path := mkPath { p_display : bytes; p_file_name : option bytes; p_parent_dir : bool }.

(** Splitting a file name at its last dot, as [std::path] does: a leading dot is no
    separator. *)
Fixpoint split_last_dot (s : bytes) : option (bytes * bytes) :=
  match s with
  | [] => None
  | b :: rest =>
      match split_last_dot rest with
      | Some (before, after) => Some (b :: before, after)
      | None => if bool_decide (b = x2e) then Some ([], rest) else None
      end
  end.
Definition split_file (name : bytes) : bytes * option bytes :=
  match split_last_dot name with
  | Some ([], _) | None => (name, None)
  | Some (before, after) => (before, Some after)
  end.
Definition to_str (s : bytes) : option bytes := if utf8_valid s then Some s else None.
Definition plugin_name_of (p : Path) : bytes := default (lit "unknown") (p_file_name p ≫= fun n => to_str (split_file n).1).
Definition extension_of (p : Path) : option bytes := p_file_name p ≫= fun n => (split_file n).2 ≫= to_str.

(** The trait both sides of the host speak. *)
Record PluginTrait (G : Type) := mkTrait {
  subscribed_events : G -> call Z;
  on_enable : G -> call (result unit) * G;
  on_disable : G -> call (result unit) * G;
  on_unload : G -> call (result unit) * G;
  handle_event : PluginEvent -> G -> call (result (option PluginResponse)) * G;
  register_commands : G -> call (list PluginCommandSpec) * G;
  handle_command : bytes -> list bytes -> CommandSender -> G -> call (result (option PluginResponse)) * G;
  register_packet_hooks : G -> call (list PacketEvent) * G;
  drain_redis_messages : G -> call (list (bytes * bytes)) * G }.
Arguments subscribed_events {G}. Arguments on_enable {G}. Arguments on_disable {G}. Arguments on_unload {G}.
Arguments handle_event {G}. Arguments register_commands {G}. Arguments handle_command {G}.
Arguments register_packet_hooks {G}. Arguments drain_redis_messages {G}.

Section Manager.
(** The state of one plugin and of the loader. *)
Context {G L : Type}.
Variable T : PluginTrait G.
Variable load_wasm : bytes -> bytes -> bytes -> PluginContext -> M L bytes (G * PluginMetadata).
Variable read_file : Path -> result bytes.
Variable to_lowercase : bytes -> bytes.

Record PluginManager := mkManager {
  wasm_loader : L; plugins : gmap bytes (G * PluginMetadata); plugin_configs : gmap bytes PluginContext;
  packet_hooks : list PacketEvent; sandbox_enabled : bool; sandbox_config : SandboxConfig;
  allowed_permissions : gmap bytes (list PluginPermission);
  command_receivers : gmap bytes nat; (** the channels with a receiver waiting here *)
  runtime_handle : bool; event_mask : Z; hook_count : Z;
  commands : gmap bytes (bytes * PluginCommandSpec);
  channels : nat; (** how many channels were made *)
  retired : list (bytes * G) (** the instances that were torn down, as they were left *) }.

Definition set_loader x m := mkManager x (plugins m) (plugin_configs m) (packet_hooks m) (sandbox_enabled m) (sandbox_config m) (allowed_permissions m) (command_receivers m) (runtime_handle m) (event_mask m) (hook_count m) (commands m) (channels m) (retired m).
Definition set_plugins x m := mkManager (wasm_loader m) x (plugin_configs m) (packet_hooks m) (sandbox_enabled m) (sandbox_config m) (allowed_permissions m) (command_receivers m) (runtime_handle m) (event_mask m) (hook_count m) (commands m) (channels m) (retired m).
Definition set_configs x m := mkManager (wasm_loader m) (plugins m) x (packet_hooks m) (sandbox_enabled m) (sandbox_config m) (allowed_permissions m) (command_receivers m) (runtime_handle m) (event_mask m) (hook_count m) (commands m) (channels m) (retired m).
Definition set_hooks x m := mkManager (wasm_loader m) (plugins m) (plugin_configs m) x (sandbox_enabled m) (sandbox_config m) (allowed_permissions m) (command_receivers m) (runtime_handle m) (event_mask m) (hook_count m) (commands m) (channels m) (retired m).
Definition set_sandbox_enabled x m := mkManager (wasm_loader m) (plugins m) (plugin_configs m) (packet_hooks m) x (sandbox_config m) (allowed_permissions m) (command_receivers m) (runtime_handle m) (event_mask m) (hook_count m) (commands m) (channels m) (retired m).
Definition set_sandbox x m := mkManager (wasm_loader m) (plugins m) (plugin_configs m) (packet_hooks m) (sandbox_enabled m) x (allowed_permissions m) (command_receivers m) (runtime_handle m) (event_mask m) (hook_count m) (commands m) (channels m) (retired m).
Definition set_allowed x m := mkManager (wasm_loader m) (plugins m) (plugin_configs m) (packet_hooks m) (sandbox_enabled m) (sandbox_config m) x (command_receivers m) (runtime_handle m) (event_mask m) (hook_count m) (commands m) (channels m) (retired m).
Definition set_receivers x m := mkManager (wasm_loader m) (plugins m) (plugin_configs m) (packet_hooks m) (sandbox_enabled m) (sandbox_config m) (allowed_permissions m) x (runtime_handle m) (event_mask m) (hook_count m) (commands m) (channels m) (retired m).
Definition set_activity mask count m := mkManager (wasm_loader m) (plugins m) (plugin_configs m) (packet_hooks m) (sandbox_enabled m) (sandbox_config m) (allowed_permissions m) (command_receivers m) (runtime_handle m) mask count (commands m) (channels m) (retired m).
Definition set_commands x m := mkManager (wasm_loader m) (plugins m) (plugin_configs m) (packet_hooks m) (sandbox_enabled m) (sandbox_config m) (allowed_permissions m) (command_receivers m) (runtime_handle m) (event_mask m) (hook_count m) x (channels m) (retired m).
Definition set_channels x m := mkManager (wasm_loader m) (plugins m) (plugin_configs m) (packet_hooks m) (sandbox_enabled m) (sandbox_config m) (allowed_permissions m) (command_receivers m) (runtime_handle m) (event_mask m) (hook_count m) (commands m) x (retired m).
Definition retire name g m := mkManager (wasm_loader m) (plugins m) (plugin_configs m) (packet_hooks m) (sandbox_enabled m) (sandbox_config m) (allowed_permissions m) (command_receivers m) (runtime_handle m) (event_mask m) (hook_count m) (commands m) (channels m) (retired m ++ [(name, g)]).

Definition with_wasm_loader (l : L) (runtime : bool) : PluginManager :=
  mkManager l ∅ ∅ [] true sandbox_default ∅ ∅ runtime 0 0 ∅ 0 [].

(** [PluginActivity]. *)
Definition subscribes (m : PluginManager) (k : PluginEventKind) : bool := negb (Z.land (event_mask m) (kind_bit k) =? 0).
Definition has_packet_hooks (m : PluginManager) : bool := negb (hook_count m =? 0).

Definition mask_of (g : G) : Z := unwrap_or 0 (guard_plugin_call (lit "subscribed_events") (subscribed_events T g)).
Definition masks (ps : gmap bytes (G * PluginMetadata)) : list Z := map (fun e => mask_of e.2.1) (map_to_list ps).
Definition refresh_activity (m : PluginManager) : PluginManager :=
  set_activity (foldr Z.lor 0 (masks (plugins m))) (Z.of_nat (length (packet_hooks m))) m.

Definition find_command (m : PluginManager) (label : bytes) : option (bytes * PluginCommandSpec) := commands m !! to_lowercase label.

(** [values().filter(|..| seen.insert(..))], in the order of the keys given. *)
Fixpoint first_of_each (seen : list (bytes * bytes)) (l : list (bytes * PluginCommandSpec)) : list (bytes * PluginCommandSpec) :=
  match l with
  | [] => []
  | (owner, spec) :: rest =>
      if bool_decide ((owner, spec_label spec) ∈ seen) then first_of_each seen rest
      else (owner, spec) :: first_of_each ((owner, spec_label spec) :: seen) rest
  end.
Definition list_commands (m : PluginManager) (order : list bytes) : list (bytes * PluginCommandSpec) :=
  first_of_each [] (omap (fun k => commands m !! k) order).

Definition set_plugin_state (name : bytes) (g : G) (m : PluginManager) : PluginManager :=
  match plugins m !! name with
  | Some (_, md) => set_plugins (<[name := (g, md)]> (plugins m)) m
  | None => m
  end.

Definition dispatch_command (label : bytes) (args : list bytes) (sender : CommandSender) : M PluginManager bytes (option PluginResponse) := fun m =>
  match find_command m label with
  | None => (Ok None, m)
  | Some (owner, _) =>
      match plugins m !! owner with
      | None => (Ok None, m)
      | Some (g, _) =>
          let '(c, g') := handle_command T label args sender g in
          (match unwrap_or (inl None) (guard_plugin_call (lit "handle_command") c) with inl r => Ok r | inr e => Err e end, set_plugin_state owner g' m)
      end
  end.

Definition set_allowed_permissions (plugin_name : bytes) (permissions : list PluginPermission) (m : PluginManager) : PluginManager :=
  set_allowed (<[plugin_name := permissions]> (allowed_permissions m)) m.
Definition has_permission (m : PluginManager) (plugin_name : bytes) (p : PluginPermission) : bool :=
  match allowed_permissions m !! plugin_name with Some allowed => bool_decide (p ∈ allowed) | None => false end.
(** [apply_sandbox] restricts the process, not the manager. *)
Definition enable_sandbox (enabled : bool) (m : PluginManager) : PluginManager := set_sandbox_enabled enabled m.
Definition set_sandbox_config (c : SandboxConfig) (m : PluginManager) : PluginManager := set_sandbox c m.

(** *** Loading *)

Fixpoint register_labels (plugin_name : bytes) (spec : PluginCommandSpec) (labels : list bytes)
    (cs : gmap bytes (bytes * PluginCommandSpec)) : gmap bytes (bytes * PluginCommandSpec) :=
  match labels with
  | [] => cs
  | label :: rest =>
      let key := to_lowercase label in
      register_labels plugin_name spec rest (match cs !! key with Some _ => cs | None => <[key := (plugin_name, spec)]> cs end)
  end.
Fixpoint register_specs (plugin_name : bytes) (specs : list PluginCommandSpec) (cs : gmap bytes (bytes * PluginCommandSpec)) :=
  match specs with
  | [] => cs
  | spec :: rest => register_specs plugin_name rest (register_labels plugin_name spec (spec_label spec :: spec_aliases spec) cs)
  end.

Definition add_hooks (name : bytes) (hooks : list PacketEvent) (l : list PacketEvent) : list PacketEvent :=
  match hooks with [] => l | _ => sort_hooks (l ++ map (with_plugin_name name) hooks) end.

Definition not_allowed (p : PluginPermission) : bytes := lit "Plugin requested permission " ++ debug_permission p ++ lit " which is not allowed".

(** The part after the module is loaded. *)
Definition install (plugin_name : bytes) (context : PluginContext) (plugin : G) (metadata : PluginMetadata) : M PluginManager bytes PluginMetadata := fun m =>
  match list_find (fun p => has_permission m (md_name metadata) p = false) (md_permissions metadata) with
  | Some (_, p) => (Err (not_allowed p), m)
  | None =>
      let '(_, plugin) := on_enable T plugin in
      let '(h, plugin) := register_packet_hooks T plugin in
      let hooks := unwrap_or [] (guard_plugin_call (lit "register_packet_hooks") h) in
      let m := set_hooks (add_hooks (md_name metadata) hooks (packet_hooks m)) m in
      let '(c, plugin) := register_commands T plugin in
      let specs := unwrap_or [] (guard_plugin_call (lit "register_commands") c) in
      let m := set_commands (register_specs plugin_name specs (commands m)) m in
      let m := set_plugins (<[plugin_name := (plugin, metadata)]> (plugins m)) m in
      let m := set_configs (<[plugin_name := context]> (plugin_configs m)) m in
      let m := set_receivers (match cx_command_tx context with Some ch => <[plugin_name := ch]> (command_receivers m) | None => command_receivers m end) m in
      (Ok metadata, refresh_activity m)
  end.

Definition load_plugin (path : Path) (config : gmap bytes bytes) : M PluginManager bytes PluginMetadata := fun m =>
  let plugin_name := plugin_name_of path in
  let m := set_channels (S (channels m)) m in
  let context := mkContext plugin_name (lit "1.0.0") config (Some (channels m)) true in
  let ext := default [] (to_ascii_lowercase <$> extension_of path) in
  if bool_decide (ext = lit "wasm") then
    match read_file path with
    | inr _ => (Err (lit "Failed to read WASM file"), m)
    | inl wasm_bytes =>
        match load_wasm plugin_name (lit "1.0.0") wasm_bytes context (wasm_loader m) with
        | (Ok (plugin, metadata), l) => install plugin_name context plugin metadata (set_loader l m)
        | (Err _, l) => (Err (lit "Failed to load WASM plugin"), set_loader l m)
        | (Panic, l) => (Panic, set_loader l m)
        | (NoFuel, l) => (NoFuel, set_loader l m)
        end
    end
  else (Err (lit "Unsupported plugin extension '" ++ ext ++ lit "' for " ++ p_display path ++ lit " (only .wasm is supported)"), m).

(** The entries of a directory, in the order they are listed; an entry that cannot be
    read ends the scan. *)
Fixpoint load_entries (configs : gmap bytes (gmap bytes bytes)) (l : list (result Path)) : M PluginManager bytes unit :=
  match l with
  | [] => ret tt
  | inr e :: _ => fail e
  | inl path :: rest =>
      let is_plugin := match extension_of path with Some ext => eq_ignore_ascii_case ext (lit "wasm") | None => false end in
      fun m =>
        if is_plugin then
          match load_plugin path (default ∅ (configs !! plugin_name_of path)) m with
          | (Panic, m') => (Panic, m') | (NoFuel, m') => (NoFuel, m')
          | (_, m') => load_entries configs rest m'
          end
        else load_entries configs rest m
  end.
Definition load_plugins_from_dir (dir : Path) (exists_dir : bool) (listing : result (list (result Path)))
    (configs : gmap bytes (gmap bytes bytes)) : M PluginManager bytes unit :=
  if p_parent_dir dir then fail (lit "Invalid input: " ++ p_display dir)
  else if negb exists_dir then ret tt
  else match listing with inr e => fail e | inl l => load_entries configs l end.

(** *** Unloading *)

Definition unload_plugin (name : bytes) : M PluginManager bytes PluginMetadata := fun m =>
  match plugins m !! name with
  | None => (Err (lit "Plugin not found: " ++ name), m)
  | Some (plugin, metadata) =>
      let m := set_plugins (delete name (plugins m)) m in
      let '(_, plugin) := on_disable T plugin in
      let '(_, plugin) := on_unload T plugin in
      let m := retire name plugin m in
      let m := set_configs (delete name (plugin_configs m)) m in
      let m := set_hooks (filter (fun h => h_plugin_name h <> name) (packet_hooks m)) m in
      let m := set_commands (filter (fun e => e.2.1 <> name) (commands m)) m in
      (Ok metadata, refresh_activity m)
  end.

Definition reload_plugin (path : Path) (config : gmap bytes bytes) : M PluginManager bytes PluginMetadata := fun m =>
  load_plugin path config (unload_plugin (plugin_name_of path) m).2.

Fixpoint unload_names (names : list bytes) (m : PluginManager) : PluginManager :=
  match names with [] => m | n :: rest => unload_names rest (unload_plugin n m).2 end.
Definition unload_all (order : list bytes) (m : PluginManager) : PluginManager := unload_names order m.

(** *** Events *)

Definition answer (e : PluginEvent) (g : G) : result (option PluginResponse) * G :=
  let '(c, g') := handle_event T e g in (unwrap_or (inl None) (guard_plugin_call (lit "handle_event") c), g').

Fixpoint broadcast_loop (e : PluginEvent) (order : list bytes) (responses : list PluginResponse) (m : PluginManager) : list PluginResponse * PluginManager :=
  match order with
  | [] => (responses, m)
  | name :: rest =>
      match plugins m !! name with
      | None => broadcast_loop e rest responses m
      | Some (g, _) =>
          let '(r, g') := answer e g in
          let m := set_plugin_state name g' m in
          match r with
          | inl (Some PR_Cancel) => ([PR_Cancel], m)
          | inl (Some response) => broadcast_loop e rest (responses ++ [response]) m
          | inl None | inr _ => broadcast_loop e rest responses m
          end
      end
  end.
Definition broadcast_event (order : list bytes) (e : PluginEvent) (m : PluginManager) : list PluginResponse * PluginManager :=
  broadcast_loop e order [] m.

Fixpoint feed_messages (msgs : list (bytes * bytes)) (g : G) : list PluginResponse * G :=
  match msgs with
  | [] => ([], g)
  | (channel, payload) :: rest =>
      let '(r, g1) := answer (RedisMessage channel payload) g in
      let '(rs, g2) := feed_messages rest g1 in
      (match r with inl (Some response) => response :: rs | _ => rs end, g2)
  end.
Fixpoint pump_redis (order : list bytes) (m : PluginManager) : list PluginResponse * PluginManager :=
  match order with
  | [] => ([], m)
  | name :: rest =>
      match plugins m !! name with
      | None => pump_redis rest m
      | Some (g, _) =>
          let '(c, g1) := drain_redis_messages T g in
          let '(rs, g2) := feed_messages (unwrap_or [] (guard_plugin_call (lit "drain_redis_messages") c)) g1 in
          let '(rs', m') := pump_redis rest (set_plugin_state name g2 m) in
          (rs ++ rs', m')
      end
  end.

(** *** Packets *)

Definition snapshot_matching_hooks (m : PluginManager) (p : PacketData) : list PacketEvent :=
  filter (fun h => matches h p = true) (packet_hooks m).
Definition process_packet (m : PluginManager) (p : PacketData) : PacketHookResult := run_hooks (snapshot_matching_hooks m p) p.

Definition is_loaded (m : PluginManager) (name : bytes) : bool := bool_decide (is_Some (plugins m !! name)).
Definition get_plugin_metadata (m : PluginManager) (name : bytes) : option PluginMetadata := snd <$> plugins m !! name.
Definition loaded_plugins (m : PluginManager) (order : list bytes) : list (bytes * PluginMetadata) :=
  omap (fun n => (fun e => (n, e.2)) <$> plugins m !! n) order.
End Manager.

(** ** Order of the hooks *)

Definition before (g h : PacketEvent) : Prop := h_priority h <= h_priority g.
Abbreviation by_priority := (Sorted.StronglySorted before).

Lemma place_hook_perm h l : place_hook h l ≡ₚ h :: l.
Proof. induction l as [|g l IH]; cbn; [done|]. case_match; [done|]. rewrite IH. apply Permutation_swap. Qed.

Lemma sort_hooks_perm l : sort_hooks l ≡ₚ l.
Proof. induction l as [|h l IH]; cbn; [done|]. by rewrite place_hook_perm, IH. Qed.

Lemma place_hook_sorted h l : by_priority l -> by_priority (place_hook h l).
Proof.
  induction 1 as [|g l Hs IH Hg]; cbn; [by repeat constructor|].
  destruct (h_priority g <=? h_priority h) eqn:Hp.
  - apply Z.leb_le in Hp. constructor; [by constructor|]. constructor; [exact Hp|].
    eapply Forall_impl; [exact Hg|]. unfold before. cbn. intros x ?. lia.
  - apply Z.leb_gt in Hp. constructor; [done|]. rewrite place_hook_perm. constructor; [unfold before; lia|done].
Qed.

Lemma sort_hooks_sorted l : by_priority (sort_hooks l).
Proof. induction l; cbn; [constructor|by apply place_hook_sorted]. Qed.

Lemma place_hook_first h l : Forall (before h) l -> place_hook h l = h :: l.
Proof. destruct l as [|g l]; cbn; [done|]. intros [Hg _]%Forall_cons. unfold before in Hg. by rewrite (proj2 (Z.leb_le _ _) Hg). Qed.

Lemma sort_sorted l : by_priority l -> sort_hooks l = l.
Proof. induction 1 as [|h l _ IH Hh]; cbn; [done|]. by rewrite IH, place_hook_first. Qed.

Section FilterSort.
Context (P : PacketEvent -> Prop) `{!forall h, Decision (P h)}.

Lemma filter_place h l : by_priority l -> filter P (place_hook h l) = if decide (P h) then place_hook h (filter P l) else filter P l.
Proof.
  induction 1 as [|g l Hs IH Hg]; cbn [place_hook].
  { rewrite filter_cons, filter_nil. by case_decide. }
  destruct (h_priority g <=? h_priority h) eqn:Hp.
  - rewrite filter_cons. case_decide; [|done]. symmetry. apply place_hook_first.
    apply Z.leb_le in Hp. apply Forall_forall. intros x [_ Hx]%list_elem_of_filter. unfold before.
    apply elem_of_cons in Hx as [-> |Hx]; [lia|]. rewrite Forall_forall in Hg. specialize (Hg x Hx). unfold before in Hg. lia.
  - rewrite !filter_cons, IH. repeat case_decide; cbn [place_hook]; by rewrite ?Hp.
Qed.

(** The sort is stable: it commutes with selecting hooks. *)
Lemma filter_sort l : filter P (sort_hooks l) = sort_hooks (filter P l).
Proof.
  induction l as [|h l IH]; cbn [sort_hooks]; [done|].
  rewrite filter_place, IH, filter_cons by apply sort_hooks_sorted. by case_decide.
Qed.

Lemma sorted_filter l : by_priority l -> by_priority (filter P l).
Proof. intros Hs. rewrite <- (sort_sorted l Hs), filter_sort. apply sort_hooks_sorted. Qed.
End FilterSort.

Lemma add_hooks_sorted n hs l : by_priority l -> by_priority (add_hooks n hs l).
Proof. destruct hs; [done|]. intros _. apply sort_hooks_sorted. Qed.

(** ** What the hooks decide *)

Fixpoint first_answer (hooks : list PacketEvent) (p : PacketData) : option PacketHookResult :=
  match hooks with
  | [] => None
  | h :: rest => match hook_outcome h p with inl Forward | inr _ => first_answer rest p | inl r => Some r end
  end.

Lemma run_pass_first again hooks p : run_pass again hooks p =
  match first_answer hooks p with None => Forward | Some (Modify d) => again d | Some r => r end.
Proof. induction hooks as [|h l IH]; cbn; [done|]. destruct (hook_outcome h p) as [[]|]; done. Qed.

(** A packet is decided by the first hook, in order of priority, that neither
    forwards nor fails; a hook that panics or errors counts as forwarding.  A
    modification restarts the hooks on the changed packet, once, and there the first
    decision is final. *)
Lemma run_hooks_spec hooks p : run_hooks hooks p =
  match first_answer hooks p with
  | None => Forward
  | Some (Modify d) => match first_answer hooks (with_data p d) with None => Forward | Some r => r end
  | Some r => r
  end.
Proof.
  unfold run_hooks, run_hooks_inner. rewrite run_pass_first.
  destruct (first_answer hooks p) as [[]|]; try done. rewrite run_pass_first.
  by destruct (first_answer hooks _) as [[]|].
Qed.

(** A modification that no hook modifies again is lost: the packet is forwarded as it
    came.  A hook that modifies every packet has its change applied twice. *)
Theorem modification_lost hooks p d : first_answer hooks p = Some (Modify d) -> first_answer hooks (with_data p d) = None ->
  run_hooks hooks p = Forward.
Proof. intros H1 H2. by rewrite run_hooks_spec, H1, H2. Qed.

Theorem modification_applied_twice filter (f : bytes -> bytes) p :
  run_hooks [hook filter (fun q => Returned (inl (Modify (f (pk_data q)))))] p = Modify (f (f (pk_data p))).
Proof. by rewrite run_hooks_spec. Qed.

(** ** The invariant of the manager *)

Section Invariant.
Context {G L : Type} (T : PluginTrait G).
Context (load_wasm : bytes -> bytes -> bytes -> PluginContext -> M L bytes (G * PluginMetadata)).
Context (read_file : Path -> result bytes) (to_lowercase : bytes -> bytes).
Abbreviation Mgr := (PluginManager (G := G) (L := L)).
Implicit Types (m : Mgr) (g : G).

(** What a plugin subscribes to does not change while it runs. *)
Class SteadyMask : Prop := {
  steady_event e g : mask_of T (handle_event T e g).2 = mask_of T g;
  steady_command l a s g : mask_of T (handle_command T l a s g).2 = mask_of T g;
  steady_drain g : mask_of T (drain_redis_messages T g).2 = mask_of T g }.

Record manager_ok (m : Mgr) : Prop := {
  ok_configs : dom (plugin_configs m) = dom (plugins m);
  ok_owners : map_Forall (fun _ e => is_Some (plugins m !! e.1)) (commands m);
  ok_order : by_priority (packet_hooks m);
  ok_count : hook_count m = Z.of_nat (length (packet_hooks m));
  ok_mask : event_mask m = foldr Z.lor 0 (masks T (plugins m)) }.

Lemma register_labels_keep n spec labels : forall cs k v, cs !! k = Some v -> register_labels to_lowercase n spec labels cs !! k = Some v.
Proof.
  induction labels as [|l ls IH]; intros cs k v Hk; cbn; [done|]. apply IH. case_match; [done|].
  rewrite lookup_insert_ne; [done|]. congruence.
Qed.
Lemma register_specs_keep n specs : forall cs k v, cs !! k = Some v -> register_specs to_lowercase n specs cs !! k = Some v.
Proof. induction specs as [|s ss IH]; intros cs k v Hk; [done|]. apply IH. by apply register_labels_keep. Qed.

Lemma register_labels_new n spec labels : forall cs k v, register_labels to_lowercase n spec labels cs !! k = Some v -> cs !! k = Some v \/ v.1 = n.
Proof.
  induction labels as [|l ls IH]; intros cs k v Hk; cbn in Hk; [by left|]. apply IH in Hk as [Hk|]; [|by right].
  case_match; [by left|]. apply lookup_insert_Some in Hk as [[_ <-]|[_ ?]]; [by right|by left].
Qed.
Lemma register_specs_new n specs : forall cs k v, register_specs to_lowercase n specs cs !! k = Some v -> cs !! k = Some v \/ v.1 = n.
Proof.
  induction specs as [|s ss IH]; intros cs k v Hk; [by left|]. apply IH in Hk as [Hk|]; [|by right].
  by apply register_labels_new in Hk.
Qed.

Lemma refresh_ok m : dom (plugin_configs m) = dom (plugins m) -> map_Forall (fun _ e => is_Some (plugins m !! e.1)) (commands m) ->
  by_priority (packet_hooks m) -> manager_ok (refresh_activity T m).
Proof. by split. Qed.

(** A refused or failed load leaves everything but the loader as it was. *)
Lemma install_cases n cx g md m o m' : install T to_lowercase n cx g md m = (o, m') ->
  (exists p, p ∈ md_permissions md /\ has_permission m (md_name md) p = false /\ o = Err (not_allowed p) /\ m' = m) \/
  (o = Ok md /\ Forall (fun p => has_permission m (md_name md) p = true) (md_permissions md) /\
   exists g' hooks specs, (hooks = [] \/ exists g0, (register_packet_hooks T g0).1 = Returned hooks) /\ m' = refresh_activity T (set_receivers (match cx_command_tx cx with Some ch => <[n := ch]> (command_receivers m) | None => command_receivers m end)
     (set_configs (<[n := cx]> (plugin_configs m)) (set_plugins (<[n := (g', md)]> (plugins m))
       (set_commands (register_specs to_lowercase n specs (commands m)) (set_hooks (add_hooks (md_name md) hooks (packet_hooks m)) m)))))).
Proof.
  unfold install. destruct (list_find _ _) as [[i p]|] eqn:Hf.
  - intros [= <- <-]. left. apply list_find_Some in Hf as (Hp & Hn & _). exists p. split_and!; [|done..].
    by eapply list_elem_of_lookup_2.
  - apply list_find_None in Hf. destruct (on_enable T g) as [r1 g1]. destruct (register_packet_hooks T g1) as [r2 g2] eqn:H2.
    destruct (register_commands T g2) as [r3 g3]. intros [= <- <-]. right. split_and!; [done| |].
    + eapply Forall_impl; [exact Hf|]. cbn. intros p Hp. by destruct (has_permission m (md_name md) p).
    + eexists g3, _, _. split; [|done]. destruct r2 as [hs|]; [right; exists g1; by rewrite H2|by left].
Qed.

Lemma install_ok n cx g md m : manager_ok m -> manager_ok (install T to_lowercase n cx g md m).2.
Proof.
  intros Hok. destruct (install T to_lowercase n cx g md m) as [o m'] eqn:Hi.
  destruct (install_cases n cx g md m o m' Hi) as [(p & _ & _ & -> & ->)|(-> & _ & g' & hooks & specs & _ & ->)]; [done|].
  destruct Hok as [Hc Ho Hs _ _]. apply refresh_ok; cbn.
  - by rewrite !dom_insert_L, Hc.
  - intros k v Hv. destruct (decide (v.1 = n)) as [-> |Hn]; [rewrite lookup_insert_eq; eauto|].
    apply register_specs_new in Hv as [Hv|]; [|done]. rewrite lookup_insert_ne by done. by apply (Ho k v).
  - by apply add_hooks_sorted.
Qed.

Lemma load_ok path config m : manager_ok m -> manager_ok (load_plugin T load_wasm read_file to_lowercase path config m).2.
Proof.
  intros Hok. unfold load_plugin. case_match; [|by destruct Hok]. case_match; [|by destruct Hok].
  destruct (load_wasm _ _ _ _ _) as [[[g md]|e| |] ld]; cbn; [|by destruct Hok..].
  apply install_ok. by destruct Hok.
Qed.

Lemma unload_ok name m : manager_ok m -> manager_ok (unload_plugin T name m).2.
Proof.
  intros Hok. unfold unload_plugin. destruct (plugins m !! name) as [[g md]|] eqn:Hp; [|done].
  destruct (on_disable T g) as [r1 g1]. destruct (on_unload T g1) as [r2 g2]. destruct Hok as [Hc Ho Hs _ _].
  apply refresh_ok; cbn.
  - by rewrite !dom_delete_L, Hc.
  - intros k v [Hv Hn]%map_lookup_filter_Some. cbn in Hn. rewrite lookup_delete_ne by done. by apply (Ho k v).
  - by apply sorted_filter.
Qed.

Lemma load_entries_ok configs l : forall m, manager_ok m -> manager_ok (load_entries T load_wasm read_file to_lowercase configs l m).2.
Proof.
  induction l as [|[path|e] l IH]; intros m Hok; cbn [load_entries]; [done| |done]. case_match; [|by apply IH].
  pose proof (load_ok path (default ∅ (configs !! plugin_name_of path)) m Hok) as Hl.
  destruct (load_plugin _ _ _ _ _ _ m) as [[] m'] eqn:He; cbn in Hl |- *; [by apply IH|by apply IH|done..].
Qed.

(** Plugins at work. *)
Lemma set_state_ok name g m : manager_ok m -> (forall g0 md, plugins m !! name = Some (g0, md) -> mask_of T g = mask_of T g0) ->
  manager_ok (set_plugin_state name g m).
Proof.
  intros [Hc Ho Hs Hn Hm] Hsteady. unfold set_plugin_state. destruct (plugins m !! name) as [[g0 md]|] eqn:Hp; [|done].
  split; cbn; [|..|done|done|].
  - rewrite dom_insert_L, Hc. symmetry. apply elem_of_dom_2 in Hp. set_solver.
  - intros k v Hv. destruct (Ho k v Hv) as [x Hx]. destruct (decide (v.1 = name)) as [-> |]; [rewrite lookup_insert_eq|rewrite lookup_insert_ne by done]; eauto.
  - rewrite Hm. clear -Hp Hsteady. specialize (Hsteady _ _ eq_refl). unfold masks.
    rewrite <- (insert_id (plugins m) name (g0, md)) at 1 by done.
    assert (Hfold : forall (f : gmap bytes (G * PluginMetadata)), foldr Z.lor 0 (map (fun e => mask_of T e.2.1) (map_to_list f)) =
      map_fold (fun _ e acc => Z.lor (mask_of T e.1) acc) 0 f).
    { intros f. rewrite map_fold_foldr. induction (map_to_list f) as [|[k [x y]] r IH]; cbn; [done|]. by rewrite IH. }
    rewrite !Hfold, <- !(insert_delete_eq (plugins m)), !map_fold_insert_L by
      (try apply lookup_delete_eq; intros; rewrite !Z.lor_assoc; f_equal; apply Z.lor_comm).
    cbn. by rewrite Hsteady.
Qed.

Context {steady : SteadyMask}.

Lemma answer_steady e g : mask_of T (answer T e g).2 = mask_of T g.
Proof. unfold answer. rewrite <- (steady_event e g). by destruct (handle_event T e g). Qed.

Lemma feed_steady msgs : forall g, mask_of T (feed_messages T msgs g).2 = mask_of T g.
Proof.
  induction msgs as [|[c p] msgs IH]; intros g; cbn [feed_messages]; [done|].
  pose proof (answer_steady (RedisMessage c p) g) as Ha. destruct (answer T _ g) as [r g1].
  specialize (IH g1). destruct (feed_messages T msgs g1) as [rs g2]. cbn in *. congruence.
Qed.

Lemma broadcast_ok e order : forall rs m, manager_ok m -> manager_ok (broadcast_loop T e order rs m).2.
Proof.
  induction order as [|n order IH]; intros rs m Hok; cbn [broadcast_loop]; [done|].
  destruct (plugins m !! n) as [[g md]|] eqn:Hp; [|by apply IH].
  pose proof (answer_steady e g) as Ha. destruct (answer T e g) as [r g'].
  assert (manager_ok (set_plugin_state n g' m)) by (apply set_state_ok; [done|]; intros g0 md0 H0; cbn in Ha; congruence).
  destruct r as [[[]|]|]; by try apply IH.
Qed.

Lemma pump_ok order : forall m, manager_ok m -> manager_ok (pump_redis T order m).2.
Proof.
  induction order as [|n order IH]; intros m Hok; cbn [pump_redis]; [done|].
  destruct (plugins m !! n) as [[g md]|] eqn:Hp; [|by apply IH].
  pose proof (steady_drain g) as Hd. destruct (drain_redis_messages T g) as [c g1].
  pose proof (feed_steady (unwrap_or [] (guard_plugin_call (lit "drain_redis_messages") c)) g1) as Hf.
  destruct (feed_messages T _ g1) as [rs g2].
  specialize (IH (set_plugin_state n g2 m)). destruct (pump_redis T order _) as [rs' m']. cbn in *.
  apply IH, set_state_ok; [done|]. intros g0 md0 H0. congruence.
Qed.

Lemma dispatch_ok label args sender m : manager_ok m -> manager_ok (dispatch_command T to_lowercase label args sender m).2.
Proof.
  intros Hok. unfold dispatch_command. destruct (find_command to_lowercase m label) as [[owner spec]|]; [|done].
  destruct (plugins m !! owner) as [[g md]|] eqn:Hp; [|done].
  pose proof (steady_command label args sender g) as Hs. destruct (handle_command T label args sender g) as [c g'].
  apply set_state_ok; [done|]. intros g0 md0 H0. cbn in Hs. congruence.
Qed.

Lemma unload_names_ok names : forall m, manager_ok m -> manager_ok (unload_names T names m).
Proof. induction names as [|n ns IH]; intros m Hok; cbn; [done|]. by apply IH, unload_ok. Qed.

(** Taking the receivers out, once, for the tasks that listen to them
    ([start_plugin_command_processors]). *)
Definition take_receivers (m : Mgr) : gmap bytes nat * Mgr := (command_receivers m, set_receivers ∅ m).

(** The operations of the manager, in any order. *)
Inductive mstep : Mgr -> Mgr -> Prop :=
  | S_load path config m : mstep m (load_plugin T load_wasm read_file to_lowercase path config m).2
  | S_dir dir there listing configs m : mstep m (load_plugins_from_dir T load_wasm read_file to_lowercase dir there listing configs m).2
  | S_unload name m : mstep m (unload_plugin T name m).2
  | S_reload path config m : mstep m (reload_plugin T load_wasm read_file to_lowercase path config m).2
  | S_unload_all order m : mstep m (unload_all T order m)
  | S_event order e m : mstep m (broadcast_event T order e m).2
  | S_pump order m : mstep m (pump_redis T order m).2
  | S_command label args sender m : mstep m (dispatch_command T to_lowercase label args sender m).2
  | S_allow name perms m : mstep m (set_allowed_permissions name perms m)
  | S_sandbox b m : mstep m (enable_sandbox b m)
  | S_policy c m : mstep m (set_sandbox_config c m)
  | S_take m : mstep m (take_receivers m).2.

Inductive reachable (loader : L) (runtime : bool) : Mgr -> Prop :=
  | R_start : reachable loader runtime (with_wasm_loader loader runtime)
  | R_step m m' : reachable loader runtime m -> mstep m m' -> reachable loader runtime m'.

Lemma mstep_ok m m' : mstep m m' -> manager_ok m -> manager_ok m'.
Proof.
  intros Hs Hok. destruct Hs.
  - by apply load_ok.
  - unfold load_plugins_from_dir. case_match; [done|]. case_match; [done|]. destruct listing; [by apply load_entries_ok|done].
  - by apply unload_ok.
  - unfold reload_plugin. by apply load_ok, unload_ok.
  - by apply unload_names_ok.
  - by apply broadcast_ok.
  - by apply pump_ok.
  - by apply dispatch_ok.
  - by destruct Hok.
  - by destruct Hok.
  - by destruct Hok.
  - by destruct Hok.
Qed.

Lemma reachable_ok loader runtime m : reachable loader runtime m -> manager_ok m.
Proof. induction 1 as [|m m' _ IH Hs]; [by split; try constructor|]. by eapply mstep_ok. Qed.

(** *** What every hook satisfies *)

Section Hooks.
Context (P : PacketEvent -> Prop).
Hypothesis P_named : forall n h, P h -> P (with_plugin_name n h).
Hypothesis P_registered : forall g l, (register_packet_hooks T g).1 = Returned l -> Forall P l.

Lemma set_state_hooks n g m : packet_hooks (set_plugin_state n g m) = packet_hooks m.
Proof. unfold set_plugin_state. by destruct (plugins m !! n) as [[? ?]|]. Qed.
Lemma broadcast_hooks e order : forall rs m, packet_hooks (broadcast_loop T e order rs m).2 = packet_hooks m.
Proof.
  induction order as [|n order IH]; intros rs m; cbn [broadcast_loop]; [done|]. destruct (plugins m !! n) as [[g md]|]; [|by apply IH].
  destruct (answer T e g) as [[[[]|]|] g']; cbn [snd]; by rewrite ?IH, set_state_hooks.
Qed.
Lemma pump_hooks order : forall m, packet_hooks (pump_redis T order m).2 = packet_hooks m.
Proof.
  induction order as [|n order IH]; intros m; cbn [pump_redis]; [done|]. destruct (plugins m !! n) as [[g md]|]; [|by apply IH].
  destruct (drain_redis_messages T g) as [c g1]. destruct (feed_messages T _ g1) as [rs g2].
  specialize (IH (set_plugin_state n g2 m)). destruct (pump_redis T order _) as [rs' m']. cbn in *. by rewrite IH, set_state_hooks.
Qed.
Lemma dispatch_hooks label args sender m : packet_hooks (dispatch_command T to_lowercase label args sender m).2 = packet_hooks m.
Proof.
  unfold dispatch_command. destruct (find_command to_lowercase m label) as [[owner spec]|]; [|done].
  destruct (plugins m !! owner) as [[g md]|]; [|done]. destruct (handle_command T label args sender g) as [c g']. apply set_state_hooks.
Qed.

Lemma install_hooks n cx g md m : Forall P (packet_hooks m) -> Forall P (packet_hooks (install T to_lowercase n cx g md m).2).
Proof.
  intros Hm. destruct (install T to_lowercase n cx g md m) as [o m'] eqn:Hi.
  destruct (install_cases n cx g md m o m' Hi) as [(p & _ & _ & -> & ->)|(-> & _ & g' & hooks & specs & Hh & ->)]; [done|]. cbn.
  assert (Hhooks : Forall P hooks) by (destruct Hh as [-> |(g0 & Hg)]; [constructor|by eapply P_registered]).
  unfold add_hooks. destruct hooks as [|h hooks]; [done|]. rewrite sort_hooks_perm. apply Forall_app. split; [done|].
  apply List.Forall_map. eapply Forall_impl; [exact Hhooks|]. auto.
Qed.
Lemma load_hooks path config m : Forall P (packet_hooks m) -> Forall P (packet_hooks (load_plugin T load_wasm read_file to_lowercase path config m).2).
Proof.
  intros Hm. unfold load_plugin. case_match; [|done]. case_match; [|done].
  destruct (load_wasm _ _ _ _ _) as [[[g md]|e| |] ld]; cbn; [|done..]. by apply install_hooks.
Qed.
Lemma unload_hooks name m : Forall P (packet_hooks m) -> Forall P (packet_hooks (unload_plugin T name m).2).
Proof.
  intros Hm. unfold unload_plugin. destruct (plugins m !! name) as [[g md]|]; [|done].
  destruct (on_disable T g) as [r1 g1]. destruct (on_unload T g1) as [r2 g2]. cbn. apply Forall_forall. intros h [_ Hh]%list_elem_of_filter.
  rewrite Forall_forall in Hm. by apply Hm.
Qed.
Lemma load_entries_hooks configs l : forall m, Forall P (packet_hooks m) ->
  Forall P (packet_hooks (load_entries T load_wasm read_file to_lowercase configs l m).2).
Proof.
  induction l as [|[path|e] l IH]; intros m Hok; cbn [load_entries]; [done| |done]. case_match; [|by apply IH].
  pose proof (load_hooks path (default ∅ (configs !! plugin_name_of path)) m Hok) as Hl.
  destruct (load_plugin _ _ _ _ _ _ m) as [[] m'] eqn:He; cbn in Hl |- *; [by apply IH|by apply IH|done..].
Qed.

Lemma reachable_hooks loader runtime m : reachable loader runtime m -> Forall P (packet_hooks m).
Proof.
  induction 1 as [|m m' _ IH Hs]; [constructor|]. destruct Hs; try exact IH.
  - by apply load_hooks.
  - unfold load_plugins_from_dir. case_match; [done|]. case_match; [done|]. destruct listing; [by apply load_entries_hooks|done].
  - by apply unload_hooks.
  - unfold reload_plugin. by apply load_hooks, unload_hooks.
  - unfold unload_all. revert m IH. induction order as [|n ns IHn]; intros m IH; [done|]. cbn. by apply IHn, unload_hooks.
  - unfold broadcast_event. by rewrite broadcast_hooks.
  - by rewrite pump_hooks.
  - by rewrite dispatch_hooks.
Qed.
End Hooks.

(** ** The activity snapshot *)

Lemma kind_bit_testbit x k : (Z.land x (kind_bit k) =? 0) = negb (Z.testbit x (Z.log2 (kind_bit k))).
Proof.
  assert (Hb : exists i, 0 <= i /\ kind_bit k = 2 ^ i) by (eexists; split; [|apply Z.shiftl_1_l]; destruct k; lia).
  destruct Hb as (i & Hi & ->). rewrite Z.log2_pow2 by done.
  destruct (Z.testbit x i) eqn:Ht; cbn.
  - apply Z.eqb_neq. intros H0. assert (Z.testbit (Z.land x (2 ^ i)) i = true) as Hx by (by rewrite Z.land_spec, Ht, Z.pow2_bits_true).
    rewrite H0, Z.bits_0 in Hx. done.
  - apply Z.eqb_eq. apply Z.bits_inj'. intros j Hj. rewrite Z.land_spec, Z.bits_0.
    destruct (decide (j = i)) as [-> |]; [by rewrite Ht|]. rewrite Z.pow2_bits_false by lia. by rewrite andb_false_r.
Qed.

Lemma testbit_union l i : Z.testbit (foldr Z.lor 0 l) i = existsb (fun x => Z.testbit x i) l.
Proof. induction l as [|x l IH]; cbn; [apply Z.bits_0|]. by rewrite Z.lor_spec, IH. Qed.

Lemma subscribes_iff m k : manager_ok m ->
  subscribes m k = true <-> exists name g md, plugins m !! name = Some (g, md) /\ Z.land (mask_of T g) (kind_bit k) <> 0.
Proof.
  intros Hok. unfold subscribes. rewrite kind_bit_testbit, negb_involutive, (ok_mask _ Hok), testbit_union, existsb_exists.
  setoid_rewrite <- Z.eqb_neq. setoid_rewrite kind_bit_testbit. split.
  - intros (x & Hin & Hx). apply in_map_iff in Hin as ([n [g md]] & <- & Hin). apply list_elem_of_In, elem_of_map_to_list in Hin.
    exists n, g, md. cbn in Hx. by rewrite Hx.
  - intros (n & g & md & Hp & Hx). exists (mask_of T g). split; [|by destruct (Z.testbit _ _)].
    unfold masks. apply in_map_iff. exists (n, (g, md)). split; [done|]. by apply list_elem_of_In, elem_of_map_to_list.
Qed.

Lemma no_hooks_forward m p : manager_ok m -> has_packet_hooks m = false -> process_packet m p = Forward.
Proof.
  intros Hok Hn. unfold has_packet_hooks in Hn. apply negb_false_iff, Z.eqb_eq in Hn. rewrite (ok_count _ Hok) in Hn.
  unfold process_packet, snapshot_matching_hooks. destruct (packet_hooks m); [done|]. cbn in Hn. lia.
Qed.
End Invariant.

(** ** The theorems *)

Section Theorems.
Context {G L : Type} (T : PluginTrait G).
Context (load_wasm : bytes -> bytes -> bytes -> PluginContext -> M L bytes (G * PluginMetadata)).
Context (read_file : Path -> result bytes) (to_lowercase : bytes -> bytes).
Abbreviation Mgr := (PluginManager (G := G) (L := L)).
Abbreviation load := (load_plugin T load_wasm read_file to_lowercase).
Implicit Types (m : Mgr).

(** C27: the lock-free snapshot the relay consults is exact after any sequence of
    loads, unloads, reloads, events and commands: an event kind is reported as wanted
    exactly when a loaded plugin subscribes to it, and when it reports no packet hooks
    running them would forward every packet; the relay that skips the plugin lock then
    does with each packet what it would do by asking the hooks. *)
Theorem activity_exact loader runtime m `{!SteadyMask T} :
  reachable T load_wasm read_file to_lowercase loader runtime m ->
  (forall k, subscribes m k = true <-> exists name g md, plugins m !! name = Some (g, md) /\ Z.land (mask_of T g) (kind_bit k) <> 0) /\
  (forall p, has_packet_hooks m = false -> process_packet m p = Forward) /\
  (forall env id dir data st version player,
     Relay.has_packet_hooks env = has_packet_hooks m ->
     Relay.run_hooks env id dir data = process_packet m (mkPacket version id dir data player) ->
     Relay.process_packet_hooks env id dir data st =
     (Ok match process_packet m (mkPacket version id dir data player) with
         | Forward => Some data | Drop => None | Modify d => Some d
         | Replace new_id d => Some (wire VarInt.VarInt new_id ++ d)
         end, st)).
Proof.
  intros Hr. apply reachable_ok in Hr; [|done]. split_and!; [by intros k; apply subscribes_iff|by intros p; apply (no_hooks_forward T)|].
  intros env id dir data st version player Hh Hrun. unfold Relay.process_packet_hooks. rewrite Hh, Hrun.
  destruct (has_packet_hooks m) eqn:Hn; cbn [negb]; [by destruct (process_packet m _)|].
  by rewrite (no_hooks_forward T m _ Hr Hn).
Qed.

(** C26: A plugin never gets a permission the operator has not allowed.  A load that
    succeeds had every permission its metadata asks for on the list of its name, and
    none is on an absent list; a load that fails for any reason leaves the plugins,
    their hooks, commands, contexts and channels, and the activity snapshot exactly as
    they were. *)
Theorem permissions_enforced path config m o m' : load path config m = (o, m') ->
  match o with
  | Ok md => Forall (fun p => exists allowed, allowed_permissions m !! md_name md = Some allowed /\ p ∈ allowed) (md_permissions md) /\
             (exists g, plugins m' !! plugin_name_of path = Some (g, md))
  | _ => plugins m' = plugins m /\ packet_hooks m' = packet_hooks m /\ commands m' = commands m /\ plugin_configs m' = plugin_configs m /\
         command_receivers m' = command_receivers m /\ event_mask m' = event_mask m /\ hook_count m' = hook_count m
  end.
Proof.
  unfold load_plugin. case_match; [|by intros [= <- <-]]. case_match; [|by intros [= <- <-]].
  destruct (load_wasm _ _ _ _ _) as [[[g md]|e| |] ld]; [|by intros [= <- <-]..].
  intros Hi. destruct (install_cases T to_lowercase _ _ _ _ _ _ _ Hi) as [(p & _ & _ & -> & ->)|(-> & Hall & g' & hooks & specs & _ & ->)]; [done|].
  split.
  - eapply Forall_impl; [exact Hall|]. cbn. intros p Hp. unfold has_permission in Hp. cbn in Hp.
    destruct (allowed_permissions m !! md_name md) as [allowed|]; [|done]. exists allowed. split; [done|by apply bool_decide_eq_true in Hp].
  - exists g'. cbn. by rewrite lookup_insert_eq.
Qed.

Lemma unload_new_commands (n : bytes) (specs : list PluginCommandSpec) (cs : gmap bytes (bytes * PluginCommandSpec)) : map_Forall (fun _ (e : bytes * PluginCommandSpec) => e.1 <> n) cs ->
  filter (fun e : bytes * (bytes * PluginCommandSpec) => e.2.1 <> n) (register_specs to_lowercase n specs cs) = cs.
Proof.
  intros Hn. apply map_eq. intros k. destruct (cs !! k) as [v|] eqn:Hk.
  - apply map_lookup_filter_Some. split; [by apply register_specs_keep|]. by apply (Hn k v).
  - apply map_lookup_filter_None. right. intros v Hv. apply register_specs_new in Hv as [Hv|Hv]; [congruence|]. cbn. by intros [].
Qed.

Lemma unload_new_hooks n hs l : by_priority l -> Forall (fun h => h_plugin_name h <> n) l ->
  filter (fun h => h_plugin_name h <> n) (add_hooks n hs l) = l.
Proof.
  intros Hs Hn. assert (Hl : filter (fun h => h_plugin_name h <> n) l = l).
  { induction Hn as [|x r Hx _ IH]; [done|]. inversion Hs. rewrite filter_cons_True by done. f_equal. by apply IH. }
  destruct hs as [|h hs]; [exact Hl|]. unfold add_hooks. rewrite filter_sort, filter_app, Hl.
  assert (Hnew : filter (fun h => h_plugin_name h <> n) (map (with_plugin_name n) (h :: hs)) = []).
  { induction (h :: hs) as [|x r IH]; [done|]. cbn [map]. rewrite filter_cons_False; [exact IH|]. cbn. by intros []. }
  by rewrite Hnew, app_nil_r, sort_sorted.
Qed.


(** *** Events *)

(** What a loaded plugin answers to an event, a panic or an error counting as nothing. *)
Definition answers (m : Mgr) (e : PluginEvent) (n : bytes) : option PluginResponse :=
  plugins m !! n ≫= fun p => match (answer T e p.1).1 with inl r => r | inr _ => None end.

Lemma set_state_other n g m k : k <> n -> plugins (set_plugin_state n g m) !! k = plugins m !! k.
Proof using G L T. clear load_wasm read_file to_lowercase. intros Hk. unfold set_plugin_state. destruct (plugins m !! n) as [[? ?]|]; [|done]. cbn. by rewrite lookup_insert_ne. Qed.

(** The manager once the plugin [n] has handled the event. *)
Definition after (e : PluginEvent) (n : bytes) (m : Mgr) : Mgr :=
  match plugins m !! n with Some (g, _) => set_plugin_state n (answer T e g).2 m | None => m end.
Definition handled (e : PluginEvent) (p : G * PluginMetadata) : G * PluginMetadata := ((answer T e p.1).2, p.2).

Lemma after_other e n m k : k <> n -> plugins (after e n m) !! k = plugins m !! k.
Proof using G L T. clear load_wasm read_file to_lowercase. intros Hk. unfold after. destruct (plugins m !! n) as [[g md]|]; [by apply set_state_other|done]. Qed.
Lemma after_self e n m : plugins (after e n m) !! n = handled e <$> plugins m !! n.
Proof using G L T.
  clear load_wasm read_file to_lowercase.
  unfold after. destruct (plugins m !! n) as [[g md]|] eqn:Hp; [|by rewrite Hp]. unfold set_plugin_state. rewrite Hp. cbn.
  by rewrite lookup_insert_eq.
Qed.

Lemma broadcast_cons e n order rs m : broadcast_loop T e (n :: order) rs m =
  if decide (answers m e n = Some PR_Cancel) then ([PR_Cancel], after e n m)
  else broadcast_loop T e order (rs ++ option_list (answers m e n)) (after e n m).
Proof using G L T.
  clear load_wasm read_file to_lowercase.
  cbn [broadcast_loop]. unfold answers, after. destruct (plugins m !! n) as [[g md]|]; cbn [mbind option_bind fst].
  - destruct (answer T e g) as [[[[]|]|] g']; cbn; by rewrite ?decide_True, ?decide_False, ?app_nil_r by done.
  - rewrite decide_False by done. cbn. by rewrite app_nil_r.
Qed.

(** What delivering the event to [order] gives, after [rs]. *)
Definition delivered (e : PluginEvent) (rs : list PluginResponse) (m : Mgr) (order : list bytes) (r : list PluginResponse * Mgr) : Prop :=
  (exists pre n post, order = pre ++ n :: post /\ answers m e n = Some PR_Cancel /\ Forall (fun k => answers m e k <> Some PR_Cancel) pre /\
     r.1 = [PR_Cancel] /\ forall k, k ∉ pre ++ [n] -> plugins r.2 !! k = plugins m !! k) \/
  (Forall (fun k => answers m e k <> Some PR_Cancel) order /\ r.1 = rs ++ omap (answers m e) order /\
   forall k, plugins r.2 !! k = if decide (k ∈ order) then handled e <$> plugins m !! k else plugins m !! k).

Lemma delivered_cons e rs m n order r : n ∉ order -> answers m e n <> Some PR_Cancel ->
  delivered e (rs ++ option_list (answers m e n)) (after e n m) order r -> delivered e rs m (n :: order) r.
Proof using G L T.
  clear load_wasm read_file to_lowercase.
  intros Hn Hc Hd.
  assert (Ha : forall k, k ∈ order -> answers (after e n m) e k = answers m e k).
  { intros k Hk. unfold answers. rewrite after_other; [done|]. by intros ->. }
  assert (Hmap : omap (answers (after e n m) e) order = omap (answers m e) order).
  { clear -Ha. induction order as [|j l IH]; [done|]. cbn. rewrite Ha by left. rewrite IH; [done|]. intros k Hk. apply Ha. by right. }
  destruct Hd as [(pre & k & post & -> & Hk & Hpre & Hr & Hrest)|(Hall & Hr & Hpl)].
  - left. exists (n :: pre), k, post. split_and!; [done|by rewrite <- Ha by set_solver| |done|].
    + constructor; [done|]. rewrite Forall_forall in Hpre |- *. intros j Hj. rewrite <- Ha by set_solver. by apply Hpre.
    + intros j Hj. rewrite Hrest by set_solver. apply after_other. set_solver.
  - right. split_and!.
    + constructor; [done|]. rewrite Forall_forall in Hall |- *. intros j Hj. rewrite <- Ha by done. by apply Hall.
    + rewrite Hr, <- app_assoc, Hmap. cbn [omap list_omap]. by destruct (answers m e n).
    + intros k. rewrite Hpl. destruct (decide (k = n)) as [-> |Hk].
      * rewrite decide_False, decide_True by (done || left). apply after_self.
      * rewrite after_other by done. destruct (decide (k ∈ order)), (decide (k ∈ n :: order)); set_solver.
Qed.

Lemma broadcast_delivers e order : forall rs m, NoDup order -> delivered e rs m order (broadcast_loop T e order rs m).
Proof using G L T.
  clear load_wasm read_file to_lowercase.
  induction order as [|n order IH]; intros rs m Hnd.
  { right. cbn. split_and!; [done|by rewrite app_nil_r|done]. }
  apply NoDup_cons in Hnd as [Hn Hnd]. rewrite broadcast_cons. case_decide as Hc.
  - left. exists [], n, order. cbn. split_and!; [done..|]. intros k Hk. apply after_other. set_solver.
  - apply delivered_cons; [done..|]. by apply IH.
Qed.

(** An event reaches every plugin once and any of them can veto it.  In whatever
    order the plugins are visited, either one of them cancels: then the answer is that
    cancellation alone, and the plugins after it are not called; or none does: then the
    answer is every response in that order, each plugin having handled the event
    exactly once. *)
Theorem broadcast_veto order e m : NoDup order ->
  let r := broadcast_event T order e m in
  (exists pre n post, order = pre ++ n :: post /\ answers m e n = Some PR_Cancel /\ Forall (fun k => answers m e k <> Some PR_Cancel) pre /\
     r.1 = [PR_Cancel] /\ forall k, k ∉ pre ++ [n] -> plugins r.2 !! k = plugins m !! k) \/
  (Forall (fun k => answers m e k <> Some PR_Cancel) order /\ r.1 = omap (answers m e) order /\
   forall k, plugins r.2 !! k = if decide (k ∈ order) then (fun p => ((answer T e p.1).2, p.2)) <$> plugins m !! k else plugins m !! k).
Proof using G L T. clear load_wasm read_file to_lowercase. intros Hnd. exact (broadcast_delivers e order [] m Hnd). Qed.

(** Commands stay with the plugin that claimed them first.  A load, whether it
    succeeds or not, changes no label or alias that is taken, whatever the case it is
    written in, and every command belongs to a plugin that is loaded. *)
Theorem first_claim_wins `{!SteadyMask T} loader runtime path config m label owner spec :
  reachable T load_wasm read_file to_lowercase loader runtime m ->
  find_command to_lowercase m label = Some (owner, spec) ->
  find_command to_lowercase (load path config m).2 label = Some (owner, spec) /\ is_Some (plugins m !! owner).
Proof.
  intros Hr Hf. apply reachable_ok in Hr; [|done]. split; [|exact (ok_owners _ _ Hr _ _ Hf)].
  unfold find_command in *. unfold load_plugin. case_match; [|done]. case_match; [|done].
  destruct (load_wasm _ _ _ _ _) as [[[g md]|er| |] ld]; [|done..].
  destruct (install _ _ _ _ _ _ _) as [o m'] eqn:Hi.
  destruct (install_cases T to_lowercase _ _ _ _ _ _ _ Hi) as [(p & _ & _ & -> & ->)|(-> & _ & g' & hooks & specs & _ & ->)]; [done|].
  cbn. by apply register_specs_keep.
Qed.
End Theorems.

(** ** Behaviour that surprises *)

Section Surprises.
Context {G L : Type} (T : PluginTrait G).
Context (load_wasm : bytes -> bytes -> bytes -> PluginContext -> M L bytes (G * PluginMetadata)).
Context (read_file : Path -> result bytes) (to_lowercase : bytes -> bytes).
Implicit Types (m : PluginManager (G := G) (L := L)).

(** Hooks carry the name of the metadata, unloading removes those with the name of the
    file: a plugin named otherwise keeps its hooks when it is gone. *)
Theorem renamed_plugin_keeps_hooks m n h : h ∈ packet_hooks m -> h_plugin_name h <> n -> h ∈ packet_hooks (unload_plugin T n m).2.
Proof.
  intros Hh Hn. unfold unload_plugin. destruct (plugins m !! n) as [[g md]|]; [|done].
  destruct (on_disable T g) as [r1 g1]. destruct (on_unload T g1) as [r2 g2]. cbn. by apply list_elem_of_filter.
Qed.

(** The tasks that carry out plugins' commands take the receivers once, at the start.
    A plugin loaded later sends into a channel whose receiver stays with the manager. *)
Theorem reloaded_plugin_unheard m path config md m' :
  load_plugin T load_wasm read_file to_lowercase path config (take_receivers m).2 = (Ok md, m') ->
  exists cx ch, plugin_configs m' !! plugin_name_of path = Some cx /\ cx_command_tx cx = Some ch /\
    command_receivers m' = {[plugin_name_of path := ch]}.
Proof.
  unfold load_plugin. case_match; [|done]. case_match; [|done]. destruct (load_wasm _ _ _ _ _) as [[[g md']|er| |] ld]; [|done..].
  intros Hi. destruct (install_cases T to_lowercase _ _ _ _ _ _ _ Hi) as [(p & _ & _ & [=] & _)|(_ & _ & g' & hooks & specs & _ & ->)].
  eexists _, _. cbn. split_and!; [by rewrite lookup_insert_eq|done|done].
Qed.
End Surprises.

(** ** A concrete manager *)

(** A plugin that records the events it sees and answers each alike. *)
Record Sample := mkSample { sm_mask : Z; sm_specs : list PluginCommandSpec; sm_hooks : list PacketEvent; sm_reply : option PluginResponse; sm_seen : list PluginEvent }.
Definition sample_trait : PluginTrait Sample :=
  mkTrait Sample (fun g => Returned (sm_mask g)) (fun g => (Returned (inl tt), g)) (fun g => (Returned (inl tt), g)) (fun g => (Returned (inl tt), g))
    (fun e g => (Returned (inl (sm_reply g)), mkSample (sm_mask g) (sm_specs g) (sm_hooks g) (sm_reply g) (sm_seen g ++ [e])))
    (fun g => (Returned (sm_specs g), g)) (fun _ _ _ g => (Returned (inl (sm_reply g)), g)) (fun g => (Returned (sm_hooks g), g))
    (fun g => (Returned [], g)).
#[export] Instance sample_steady : SteadyMask sample_trait.
Proof. by split. Qed.

Definition sample_load (s : Sample) (md : PluginMetadata) : bytes -> bytes -> bytes -> PluginContext -> M unit bytes (Sample * PluginMetadata) :=
  fun _ _ _ _ l => (Ok (s, md), l).
Definition sample_file (_ : Path) : result bytes := inl (lit "module").
Definition chat_path : Path := mkPath (lit "plugins/chat.wasm") (Some (lit "chat.wasm")) false.
Definition chat_plugin : Sample :=
  mkSample (kind_bit K_PlayerChat) [spec_new (lit "me")] [hook (mkFilter None None Serverbound) (fun _ => Returned (inl Forward))] None [].
Definition chat_metadata (name : bytes) : PluginMetadata := mkMetadata name (lit "1.0.0") [] [] (lit "0.1.0") [] [SendMessage] (kind_bit K_PlayerChat).
Definition fresh_manager : PluginManager := set_allowed_permissions (lit "chat") [SendMessage] (with_wasm_loader (G := Sample) tt true).
Definition loaded_manager : PluginManager :=
  (load_plugin sample_trait (sample_load chat_plugin (chat_metadata (lit "chat"))) sample_file to_ascii_lowercase chat_path ∅ fresh_manager).2.

Lemma fresh_reachable load : reachable sample_trait load sample_file to_ascii_lowercase tt true fresh_manager.
Proof. eapply R_step; [apply R_start|]. apply S_allow. Qed.
Lemma loaded_reachable : reachable sample_trait (sample_load chat_plugin (chat_metadata (lit "chat"))) sample_file to_ascii_lowercase tt true loaded_manager.
Proof. eapply R_step; [apply fresh_reachable|]. apply S_load. Qed.

Lemma pair_intro {A B} (p : A * B) a b : p.1 = a -> p.2 = b -> p = (a, b).
Proof. by destruct p; cbn; intros -> ->. Qed.

Abbreviation sample_load_as name := (load_plugin sample_trait (sample_load chat_plugin (chat_metadata (lit name))) sample_file to_ascii_lowercase chat_path ∅).
Lemma chat_loads : sample_load_as "chat" fresh_manager = (Ok (chat_metadata (lit "chat")), loaded_manager).
Proof. apply pair_intro; [vm_compute|]; reflexivity. Qed.
Lemma other_refused : sample_load_as "other" fresh_manager = (Err (not_allowed SendMessage), (sample_load_as "other" fresh_manager).2).
Proof. apply pair_intro; [vm_compute|]; reflexivity. Qed.

(** A plugin that asked for chat lines only is called for a step a player takes. *)
Theorem unsubscribed_event_delivered :
  subscribes loaded_manager K_PlayerMove = false /\
  exists g md, plugins (broadcast_event sample_trait [lit "chat"] (PlayerMove [] 0 0 0 true) loaded_manager).2 !! lit "chat" = Some (g, md) /\
    sm_seen g = [PlayerMove [] 0 0 0 true].
Proof. split; [vm_compute; reflexivity|]. eexists _, _. split; vm_compute; reflexivity. Qed.

Lemma activity_exact_witness : subscribes loaded_manager K_PlayerChat = true /\ has_packet_hooks fresh_manager = false /\
  process_packet fresh_manager (mkPacket 47 0 Serverbound [] None) = Forward.
Proof.
  split.
  - apply (proj1 (activity_exact sample_trait (sample_load chat_plugin (chat_metadata (lit "chat"))) sample_file to_ascii_lowercase tt true loaded_manager
      loaded_reachable) K_PlayerChat). eexists (lit "chat"), chat_plugin, _. split; [vm_compute; reflexivity|]. vm_compute. discriminate.
  - split; [vm_compute; reflexivity|].
    apply (activity_exact sample_trait (sample_load chat_plugin (chat_metadata (lit "chat"))) sample_file to_ascii_lowercase tt true fresh_manager).
    + apply fresh_reachable.
    + vm_compute; reflexivity.
Defined.

Lemma permissions_enforced_witness :
  Forall (fun p => exists allowed, allowed_permissions fresh_manager !! lit "chat" = Some allowed /\ p ∈ allowed) [SendMessage] /\
  plugins (load_plugin sample_trait (sample_load chat_plugin (chat_metadata (lit "other"))) sample_file to_ascii_lowercase chat_path ∅ fresh_manager).2 = ∅.
Proof.
  split.
  - exact (proj1 (permissions_enforced sample_trait (sample_load chat_plugin (chat_metadata (lit "chat"))) sample_file to_ascii_lowercase
      chat_path ∅ fresh_manager (Ok (chat_metadata (lit "chat"))) loaded_manager chat_loads)).
  - exact (proj1 (permissions_enforced sample_trait (sample_load chat_plugin (chat_metadata (lit "other"))) sample_file to_ascii_lowercase
      chat_path ∅ fresh_manager (Err (not_allowed SendMessage)) _ other_refused)).
Defined.


Lemma broadcast_veto_witness : (broadcast_event sample_trait [lit "chat"] (PlayerChat [] []) loaded_manager).1 = [].
Proof.
  destruct (broadcast_veto sample_trait [lit "chat"] (PlayerChat [] []) loaded_manager) as [(pre & n & post & Ho & Ha & _)|(_ & -> & _)].
  - apply NoDup_singleton.
  - exfalso. destruct pre as [|x [|y pre]]; cbn in Ho; [|discriminate..]. injection Ho as <- <-. vm_compute in Ha. discriminate.
  - vm_compute. reflexivity.
Defined.

Lemma first_claim_wins_witness :
  find_command to_ascii_lowercase (load_plugin sample_trait (sample_load chat_plugin (chat_metadata (lit "chat"))) sample_file to_ascii_lowercase
    chat_path ∅ loaded_manager).2 (lit "ME") = Some (lit "chat", spec_new (lit "me")).
Proof.
  apply (first_claim_wins sample_trait (sample_load chat_plugin (chat_metadata (lit "chat"))) sample_file to_ascii_lowercase tt true
    chat_path ∅ loaded_manager (lit "ME") (lit "chat") (spec_new (lit "me"))).
  - apply loaded_reachable.
  - vm_compute. reflexivity.
Defined.
