(* ===== verification/Wasm.v ===== *)
(** * Plugins in the sandbox

    crates/plugin-system/src/wasm_loader.rs: the imports the host offers a guest, the
    loader, and the adapter that implements the trait of [Plugins] by calling a guest.

    What wasmtime runs is not the program's code: a guest is a tree ([Guest]) of the
    imports it calls and how it goes on with each result, over a state [W] of its own
    and its linear memory.  Redis, HTTP and serde_json are parameters. *)
From Stdlib Require Import ZArith Lia Bool Strings.String Strings.Byte.
From stdpp Require Import base list gmap numbers strings.
From S2P Require Import Prelude Buf Wire VarInt Codec Chars Utf8 Auth Transfer Routing Commands Plugins.
From S2P Require Relay Proxy.
Local Open Scope Z_scope.
Local Open Scope koja_scope.

(** ** The module on disk *)

(** [read_varu32] over at most five bytes. *)
Fixpoint varu32_groups (n : nat) (shift result used : Z) (bs : bytes) : option (Z * Z) :=
  match n, bs with
  | O, _ | _, [] => None
  | S n', b :: bs' =>
      let result := Z.lor result (wrapu 32 (Z.shiftl (Z.land (bz b) 0x7f) shift)) in
      if Z.land (bz b) 0x80 =? 0 then Some (result, used + 1) else varu32_groups n' (shift + 7) result (used + 1) bs'
  end.
Definition read_varu32 (bs : bytes) : option (Z * Z) := varu32_groups 5 0 0 0 bs.

Definition WASM_MAGIC : bytes := [x00; x61; x73; x6d].

(** The body of a custom section, when its name is one of [names]. *)
Definition named_section (names : list bytes) (section : bytes) : option (option bytes) :=
  match read_varu32 section with
  | None => None
  | Some (name_len, name_used) =>
      let name_end := name_used + name_len in
      if name_end <=? remaining section then
        if bool_decide (take (Z.to_nat name_len) (drop (Z.to_nat name_used) section) ∈ names) then Some (Some (drop (Z.to_nat name_end) section))
        else None
      else None
  end.

(** The sections from [bs] on, the rest of the module; [fuel] bounds the sections. *)
Fixpoint scan_sections (fuel : nat) (names : list bytes) (bs : bytes) : outcome unit (option bytes) :=
  match fuel, bs with
  | O, _ => NoFuel
  | _, [] => Ok None
  | S fuel', id :: bs1 =>
      match read_varu32 bs1 with
      | None => Ok None
      | Some (size, used) =>
          let bs2 := drop (Z.to_nat used) bs1 in
          if remaining bs2 <? size then Ok None
          else
            match (if bool_decide (id = x00) then named_section names (take (Z.to_nat size) bs2) else None) with
            | Some payload => Ok payload
            | None => scan_sections fuel' names (drop (Z.to_nat size) bs2)
            end
      end
  end.
Definition find_custom_section (bs : bytes) (names : list bytes) : outcome unit (option bytes) :=
  if (length bs <? 8)%nat || negb (bool_decide (take 4 bs = WASM_MAGIC)) then Ok None
  else scan_sections (S (length bs)) names (drop 8 bs).

(** ** The guest's memory *)

Definition mem_read (mem : option bytes) (ptr len : Z) : option bytes :=
  mem ≫= fun m => if Z.of_nat (length m) <? ptr + len then None else Some (take (Z.to_nat len) (drop (Z.to_nat ptr) m)).
Definition mem_write (m : bytes) (ptr : Z) (data : bytes) : option bytes :=
  if Z.of_nat (length m) <? ptr + Z.of_nat (length data) then None
  else Some (take (Z.to_nat ptr) m ++ data ++ drop (Z.to_nat ptr + length data) m).

Definition read_bytes (mem : option bytes) (ptr len : Z) : option bytes := mem_read mem ptr len.
Definition read_string (mem : option bytes) (ptr len : Z) : option bytes := from_utf8_lossy <$> read_bytes mem ptr len.
Definition write_out (mem : option bytes) (ptr cap : Z) (data : bytes) : Z * option bytes :=
  match mem with
  | None => (0, mem)
  | Some m =>
      let n := Nat.min (length data) (Z.to_nat cap) in
      match mem_write m ptr (take n data) with None => (0, mem) | Some m' => (wrapu 32 (Z.of_nat n), Some m') end
  end.

(** ** The host *)

Inductive RedisOp :=
  | R_publish (chan msg : bytes) | R_get (key : bytes) | R_set (key val : bytes) | R_del (key : bytes) | R_expire (key : bytes) (secs : Z).
(** What leaves the sandbox. *)
Inductive HostEffect :=
  | E_log (level : Z) (message : bytes) | E_command (cmd : Proxy.PluginCommand) | E_redis_connect (url : bytes) | E_redis (op : RedisOp)
  | E_subscribe (pattern : bool) (chan : bytes) | E_http (method url body : bytes).

(** One subscription: whether it is a pattern, its channel, and whether its task waits
    for a message. *)
Record Subscription := mkSub { sub_pattern : bool; sub_channel : bytes; sub_waiting : bool }.
Record RedisShared := mkRedis { rd_client : bool; rd_conn : bool; rd_inbox : list (bytes * bytes); rd_alive : bool; rd_subs : list Subscription }.
Definition redis_new : RedisShared := mkRedis false false [] true [].

Record WasmHostState := mkHost {
  hs_config : gmap bytes bytes; hs_command_tx : option bool; (** is there a channel, does it still have its receiver *)
  hs_permissions : list PluginPermission; hs_plugin_name : bytes; hs_runtime : bool; hs_redis : RedisShared;
  hs_effects : list HostEffect }.
Definition set_redis (r : RedisShared) (h : WasmHostState) : WasmHostState :=
  mkHost (hs_config h) (hs_command_tx h) (hs_permissions h) (hs_plugin_name h) (hs_runtime h) r (hs_effects h).
Definition set_permissions (p : list PluginPermission) (h : WasmHostState) : WasmHostState :=
  mkHost (hs_config h) (hs_command_tx h) p (hs_plugin_name h) (hs_runtime h) (hs_redis h) (hs_effects h).
Definition emit (e : HostEffect) (h : WasmHostState) : WasmHostState :=
  mkHost (hs_config h) (hs_command_tx h) (hs_permissions h) (hs_plugin_name h) (hs_runtime h) (hs_redis h) (hs_effects h ++ [e]).
Definition has (h : WasmHostState) (p : PluginPermission) : bool := bool_decide (p ∈ hs_permissions h).

(** Services, each asked for the [n]th effect; a failure covers the five seconds'
    timeout. *)
Record Services := mkServices {
  redis_dial : nat -> bytes -> bool; redis_reply : nat -> RedisOp -> result (option bytes); pubsub_opens : nat -> bool -> bytes -> bool;
  http_reply : nat -> bytes -> bytes -> bytes -> result bytes; parse_command : bytes -> option Proxy.PluginCommand }.

Inductive Import :=
  | I_log (level ptr len : Z) | I_get_config (key_ptr key_len out_ptr out_len : Z) | I_send_command (ptr len : Z) | I_has_permission (ptr len : Z)
  | I_redis_connect (ptr len : Z) | I_redis_publish (chan_ptr chan_len msg_ptr msg_len : Z) | I_redis_get (key_ptr key_len out_ptr out_cap : Z)
  | I_redis_set (key_ptr key_len val_ptr val_len : Z) | I_redis_del (key_ptr key_len : Z) | I_redis_expire (key_ptr key_len secs : Z)
  | I_redis_subscribe (pattern : bool) (chan_ptr chan_len : Z) | I_redis_poll (out_ptr out_cap : Z)
  | I_http_request (method_ptr method_len url_ptr url_len body_ptr body_len out_ptr out_cap : Z).

Section Host.
Context (sv : Services).

(** An import gives its result, the guest's memory and the host afterwards; [None] is
    an error, which traps the guest. *)
Abbreviation Answer := (option (Z * option bytes) * WasmHostState)%type.

Definition now (h : WasmHostState) : nat := length (hs_effects h).
Definition as_flag (b : bool) : Z := if b then 1 else 0.

Definition redis_ready (h : WasmHostState) : bool := has h UseRedis && hs_runtime h && rd_conn (hs_redis h).
Definition run_redis (op : RedisOp) (h : WasmHostState) : result (option bytes) * WasmHostState := (redis_reply sv (now h) op, emit (E_redis op) h).
Definition redis_flag (op : RedisOp) (mem : option bytes) (h : WasmHostState) : Answer :=
  if redis_ready h then let '(r, h') := run_redis op h in (Some (as_flag (match r with inl _ => true | inr _ => false end), mem), h')
  else (Some (0, mem), h).

Definition import_log (mem : option bytes) (level ptr len : Z) (h : WasmHostState) : Answer :=
  match read_string mem ptr len with None => (None, h) | Some message => (Some (0, mem), emit (E_log level message) h) end.
Definition import_get_config (mem : option bytes) (key_ptr key_len out_ptr out_len : Z) (h : WasmHostState) : Answer :=
  match read_string mem key_ptr key_len with
  | None => (None, h)
  | Some key => match hs_config h !! key with None => (Some (0, mem), h) | Some value => (Some (write_out mem out_ptr out_len value), h) end
  end.
Definition import_send_command (mem : option bytes) (ptr len : Z) (h : WasmHostState) : Answer :=
  match read_bytes mem ptr len with
  | None => (None, h)
  | Some raw =>
      match parse_command sv raw with
      | None => (Some (0, mem), h)
      | Some cmd => match hs_command_tx h with
                    | Some true => (Some (1, mem), emit (E_command cmd) h)
                    | Some false | None => (Some (0, mem), h)
                    end
      end
  end.
Definition import_has_permission (mem : option bytes) (ptr len : Z) (h : WasmHostState) : Answer :=
  match read_string mem ptr len with
  | None => (None, h)
  | Some name => (Some (as_flag (existsb (fun p => eq_ignore_ascii_case (permission_name p) (utf8 (trim (chars_of name)))) (hs_permissions h)), mem), h)
  end.
Definition import_redis_connect (mem : option bytes) (ptr len : Z) (h : WasmHostState) : Answer :=
  match read_string mem ptr len with
  | None => (None, h)
  | Some url =>
      if negb (has h UseRedis) then (Some (0, mem), h)
      else if negb (hs_runtime h) then (Some (0, mem), h)
      else
        let r := hs_redis h in
        if redis_dial sv (now h) url
        then (Some (1, mem), emit (E_redis_connect url) (set_redis (mkRedis true true (rd_inbox r) (rd_alive r) (rd_subs r)) h))
        else (Some (0, mem), emit (E_redis_connect url) h)
  end.
Definition import_redis_publish (mem : option bytes) (chan_ptr chan_len msg_ptr msg_len : Z) (h : WasmHostState) : Answer :=
  match read_string mem chan_ptr chan_len, read_bytes mem msg_ptr msg_len with
  | Some chan, Some msg => redis_flag (R_publish chan msg) mem h
  | _, _ => (None, h)
  end.
Definition import_redis_get (mem : option bytes) (key_ptr key_len out_ptr out_cap : Z) (h : WasmHostState) : Answer :=
  match read_string mem key_ptr key_len with
  | None => (None, h)
  | Some key =>
      if redis_ready h then
        let '(r, h') := run_redis (R_get key) h in
        match r with
        | inl (Some bs) => let '(n, mem') := write_out mem out_ptr out_cap bs in (Some (wraps 32 n, mem'), h')
        | inl None | inr _ => (Some (-1, mem), h')
        end
      else (Some (-1, mem), h)
  end.
Definition import_redis_set (mem : option bytes) (key_ptr key_len val_ptr val_len : Z) (h : WasmHostState) : Answer :=
  match read_string mem key_ptr key_len, read_bytes mem val_ptr val_len with
  | Some key, Some val => redis_flag (R_set key val) mem h
  | _, _ => (None, h)
  end.
Definition import_redis_del (mem : option bytes) (key_ptr key_len : Z) (h : WasmHostState) : Answer :=
  match read_string mem key_ptr key_len with None => (None, h) | Some key => redis_flag (R_del key) mem h end.
Definition import_redis_expire (mem : option bytes) (key_ptr key_len secs : Z) (h : WasmHostState) : Answer :=
  match read_string mem key_ptr key_len with None => (None, h) | Some key => redis_flag (R_expire key secs) mem h end.

(** [redis_subscribe] and [redis_psubscribe] start a task. *)
Definition import_redis_subscribe (mem : option bytes) (pattern : bool) (chan_ptr chan_len : Z) (h : WasmHostState) : Answer :=
  match read_string mem chan_ptr chan_len with
  | None => (None, h)
  | Some chan =>
      if negb (has h UseRedis) then (Some (0, mem), h)
      else if negb (hs_runtime h) then (Some (0, mem), h)
      else
        let r := hs_redis h in
        if negb (rd_client r) then (Some (0, mem), h)
        else
          let waiting := pubsub_opens sv (now h) pattern chan && rd_alive r in
          (Some (1, mem), emit (E_subscribe pattern chan)
             (set_redis (mkRedis (rd_client r) (rd_conn r) (rd_inbox r) (rd_alive r) (rd_subs r ++ [mkSub pattern chan waiting])) h))
  end.
Definition import_redis_poll (mem : option bytes) (out_ptr out_cap : Z) (h : WasmHostState) : Answer :=
  let r := hs_redis h in
  match rd_inbox r with
  | [] => (Some (-1, mem), h)
  | (chan, payload) :: rest =>
      let '(n, mem') := write_out mem out_ptr out_cap (chan ++ [x0a] ++ payload) in
      (Some (wraps 32 n, mem'), set_redis (mkRedis (rd_client r) (rd_conn r) rest (rd_alive r) (rd_subs r)) h)
  end.
Definition import_http_request (mem : option bytes) (method_ptr method_len url_ptr url_len body_ptr body_len out_ptr out_cap : Z) (h : WasmHostState) : Answer :=
  match read_string mem method_ptr method_len, read_string mem url_ptr url_len, read_bytes mem body_ptr body_len with
  | Some method, Some url, Some body =>
      if negb (has h UseHttp) then (Some (-1, mem), h)
      else if negb (hs_runtime h) then (Some (-1, mem), h)
      else
        let h' := emit (E_http method url body) h in
        match http_reply sv (now h) method url body with
        | inl bs => let '(n, mem') := write_out mem out_ptr out_cap bs in (Some (wraps 32 n, mem'), h')
        | inr _ => (Some (-1, mem), h')
        end
  | _, _, _ => (None, h)
  end.

Definition host_call (i : Import) (mem : option bytes) (h : WasmHostState) : Answer :=
  match i with
  | I_log level ptr len => import_log mem level ptr len h
  | I_get_config kp kl op ol => import_get_config mem kp kl op ol h
  | I_send_command p l => import_send_command mem p l h
  | I_has_permission p l => import_has_permission mem p l h
  | I_redis_connect p l => import_redis_connect mem p l h
  | I_redis_publish cp cl mp ml => import_redis_publish mem cp cl mp ml h
  | I_redis_get kp kl op oc => import_redis_get mem kp kl op oc h
  | I_redis_set kp kl vp vl => import_redis_set mem kp kl vp vl h
  | I_redis_del kp kl => import_redis_del mem kp kl h
  | I_redis_expire kp kl s => import_redis_expire mem kp kl s h
  | I_redis_subscribe pat cp cl => import_redis_subscribe mem pat cp cl h
  | I_redis_poll op oc => import_redis_poll mem op oc h
  | I_http_request mp ml up ul bp bl op oc => import_http_request mem mp ml up ul bp bl op oc h
  end.

(** A message for the [i]th subscription; one whose payload is no text is skipped.  The
    task looks at [alive] before it waits for the next message. *)
Definition deliver (i : nat) (channel : bytes) (payload : option bytes) (h : WasmHostState) : WasmHostState :=
  let r := hs_redis h in
  match rd_subs r !! i with
  | Some s =>
      if sub_waiting s then
        let inbox := match payload with
                     | Some p => if (length (rd_inbox r) <? 4096)%nat then rd_inbox r ++ [(channel, p)] else rd_inbox r
                     | None => rd_inbox r
                     end in
        set_redis (mkRedis (rd_client r) (rd_conn r) inbox (rd_alive r) (<[i := mkSub (sub_pattern s) (sub_channel s) (rd_alive r)]> (rd_subs r))) h
      else h
  | None => h
  end.

(** ** Guests *)

Inductive Guest (W A : Type) : Type :=
  | G_return (a : A) (w : W) (mem : option bytes)
  | G_trap (w : W) (mem : option bytes)
  | G_import (i : Import) (w : W) (mem : option bytes) (k : Z -> option bytes -> Guest W A).
Arguments G_return {W A}. Arguments G_trap {W A}. Arguments G_import {W A}.

(** A call of the guest: its value, or [None] when it trapped (an error of an import
    included), with the guest's state, memory and host after it. *)
Fixpoint run_guest {W A} (g : Guest W A) (h : WasmHostState) : option A * W * option bytes * WasmHostState :=
  match g with
  | G_return a w mem => (Some a, w, mem, h)
  | G_trap w mem => (None, w, mem, h)
  | G_import i w mem k =>
      match host_call i mem h with
      | (None, h') => (None, w, mem, h')
      | (Some (v, mem'), h') => run_guest (k v mem') h'
      end
  end.
End Host.
Arguments G_return {W A}. Arguments G_trap {W A}. Arguments G_import {W A}.

(** ** The exports of a module *)

(** [get_typed_func] finds an export or not; each runs in the guest's state. *)
Definition Export (W A : Type) : Type := W -> option bytes -> Guest W A.
Record Module (W : Type) := mkModule {
  x_start : Guest W unit; (** instantiation *)
  x_init : option (Export W unit); x_on_enable : option (Export W unit); x_on_disable : option (Export W unit);
  x_metadata : option (Export W Z);
  x_alloc : option (Z -> Export W Z); x_dealloc : option (Z -> Z -> Export W unit);
  x_handle_event : option (Z -> Z -> Export W Z); (** returning [u64] *)
  x_handle_event_legacy : option (Z -> Z -> Export W Z);
  x_get_packet_hooks : option (Export W Z); x_get_packet_hook : option (Z -> Export W Z) }.
Arguments x_start {W}. Arguments x_init {W}. Arguments x_on_enable {W}. Arguments x_on_disable {W}. Arguments x_metadata {W}.
Arguments x_alloc {W}. Arguments x_dealloc {W}. Arguments x_handle_event {W}. Arguments x_handle_event_legacy {W}.
Arguments x_get_packet_hooks {W}. Arguments x_get_packet_hook {W}.

Record WasmPluginInstance (W : Type) := mkInstance {
  in_name : bytes; in_version : bytes; in_module : Module W; in_w : W; in_mem : option bytes; in_host : WasmHostState;
  in_metadata : PluginMetadata; in_disabled : bool }.
Arguments mkInstance {W}. Arguments in_name {W}. Arguments in_version {W}. Arguments in_module {W}. Arguments in_w {W}.
Arguments in_mem {W}. Arguments in_host {W}. Arguments in_metadata {W}. Arguments in_disabled {W}.

Section Adapter.
Context {W : Type} (sv : Services).
(** [serde_json]: an event, a response, a manifest. *)
Context (event_json : PluginEvent -> option bytes) (parse_response : bytes -> option PluginResponse) (parse_metadata : bytes -> option PluginMetadata).
Abbreviation Inst := (WasmPluginInstance W).

Definition with_guest (i : Inst) (w : W) (mem : option bytes) (h : WasmHostState) : Inst :=
  mkInstance (in_name i) (in_version i) (in_module i) w mem h (in_metadata i) (in_disabled i).
Definition enter {A} (f : Export W A) (i : Inst) : option A * Inst :=
  let '(a, w, mem, h) := run_guest sv (f (in_w i) (in_mem i)) (in_host i) in (a, with_guest i w mem h).

Definition SCRATCH : Z := 0x10000.

(** [Err] is [None]. *)
Definition write_to_guest (data : bytes) (i : Inst) : option (Z * Z) * Inst :=
  match in_mem i with
  | None => (None, i)
  | Some mem =>
      let len := wrapu 32 (Z.of_nat (length data)) in
      match x_alloc (in_module i) with
      | Some alloc =>
          let '(p, i1) := enter (alloc len) i in
          match p with
          | None => (None, i1)
          | Some ptr =>
              match in_mem i1 ≫= fun m => mem_write m ptr data with
              | None => (None, i1)
              | Some m' => (Some (ptr, len), with_guest i1 (in_w i1) (Some m') (in_host i1))
              end
          end
      | None =>
          if Z.of_nat (length mem) <? SCRATCH + Z.of_nat (length data) then (None, i)
          else match mem_write mem SCRATCH data with
               | Some m' => (Some (SCRATCH, len), with_guest i (in_w i) (Some m') (in_host i))
               | None => (None, i)
               end
      end
  end.
Definition read_guest_bytes (ptr len : Z) (i : Inst) : option bytes := mem_read (in_mem i) ptr len.
Definition free_in_guest (ptr len : Z) (i : Inst) : Inst :=
  if ptr =? SCRATCH then i
  else match x_dealloc (in_module i) with Some dealloc => (enter (dealloc ptr len) i).2 | None => i end.

Definition packed_ptr (packed : Z) : Z := Z.shiftr packed 32.
Definition packed_len (packed : Z) : Z := Z.land packed 0xFFFFFFFF.

Definition call_lifecycle (func : option (Export W unit)) (what : bytes) (i : Inst) : result unit * Inst :=
  match func with
  | None => (inl tt, i)
  | Some f => let '(r, i') := enter f i in (match r with Some _ => inl tt | None => inr (lit "Failed to call " ++ what) end, i')
  end.

Definition read_runtime_metadata (i : Inst) : option PluginMetadata * Inst :=
  match x_metadata (in_module i) with
  | None => (None, i)
  | Some f =>
      let '(r, i1) := enter f i in
      match r with
      | None => (None, i1)
      | Some packed =>
          if packed =? 0 then (None, i1)
          else match read_guest_bytes (packed_ptr packed) (packed_len packed) i1 with
               | None => (None, i1)
               | Some bs => (parse_metadata bs, free_in_guest (packed_ptr packed) (packed_len packed) i1)
               end
      end
  end.

Definition wasm_handle_event (e : PluginEvent) (i : Inst) : result (option PluginResponse) * Inst :=
  match event_json e with
  | None => (inl None, i)
  | Some event_bytes =>
      let '(p, i1) := write_to_guest event_bytes i in
      match p with
      | None => (inl None, i1)
      | Some (in_ptr, in_len) =>
          match x_handle_event (in_module i), x_handle_event_legacy (in_module i) with
          | Some f, _ =>
              let '(r, i2) := enter (f in_ptr in_len) i1 in
              match r with
              | None => (inr (lit "handle_event call failed"), i2)
              | Some packed =>
                  let i3 := free_in_guest in_ptr in_len i2 in
                  if packed =? 0 then (inl None, i3)
                  else
                    let resp := read_guest_bytes (packed_ptr packed) (packed_len packed) i3 in
                    (inl (resp ≫= parse_response), free_in_guest (packed_ptr packed) (packed_len packed) i3)
              end
          | None, Some f =>
              let '(r, i2) := enter (f in_ptr in_len) i1 in
              match r with
              | None => (inr (lit "handle_event (legacy) call failed"), i2)
              | Some v => (inl (if v =? 1 then Some PR_Cancel else None), free_in_guest in_ptr in_len i2)
              end
          | None, None => (inl None, free_in_guest in_ptr in_len i1)
          end
      end
  end.

(** The hook of every packet a guest asks for. *)
Definition guest_hook (hook_id : Z) : PacketEvent :=
  with_priority 100
    (hook (mkFilter None (Some (Z.land hook_id 0xFFFF)) (if Z.shiftr hook_id 16 =? 0 then Relay.Serverbound else Relay.Clientbound))
       (fun _ => Returned (inl Relay.Forward))).
Fixpoint gather_hooks (get_hook : Z -> Export W Z) (n : nat) (k : Z) (i : Inst) : list PacketEvent * Inst :=
  match n with
  | O => ([], i)
  | S n' =>
      let '(r, i1) := enter (get_hook k) i in
      let '(rest, i2) := gather_hooks get_hook n' (k + 1) i1 in
      (match r with Some hook_id => guest_hook hook_id :: rest | None => rest end, i2)
  end.
Definition wasm_register_packet_hooks (i : Inst) : list PacketEvent * Inst :=
  match x_get_packet_hooks (in_module i) with
  | None => ([], i)
  | Some f =>
      let '(count, i1) := enter f i in
      match count, x_get_packet_hook (in_module i) with
      | Some n, Some get_hook => gather_hooks get_hook (Z.to_nat (Z.min n 1024)) 0 i1
      | _, _ => ([], i1)
      end
  end.

Definition wasm_on_disable (i : Inst) : result unit * Inst :=
  let h := in_host i in
  let r := hs_redis h in
  let i1 := with_guest i (in_w i) (in_mem i) (set_redis (mkRedis (rd_client r) (rd_conn r) (rd_inbox r) false (rd_subs r)) h) in
  call_lifecycle (x_on_disable (in_module i)) (lit "on_disable") i1.

Definition wasm_drain (i : Inst) : list (bytes * bytes) * Inst :=
  let h := in_host i in
  let r := hs_redis h in
  (rd_inbox r, with_guest i (in_w i) (in_mem i) (set_redis (mkRedis (rd_client r) (rd_conn r) [] (rd_alive r) (rd_subs r)) h)).

Definition calmly {A} (r : A * Inst) : call A * Inst := (Returned r.1, r.2).

(** [WasmPluginAdapter]: commands are left at the trait's defaults. *)
Definition wasm_trait : PluginTrait Inst :=
  mkTrait Inst
    (fun i => Returned (md_events (in_metadata i)))
    (fun i => calmly (call_lifecycle (x_on_enable (in_module i)) (lit "on_enable") i))
    (fun i => calmly (wasm_on_disable i))
    (fun i => (Returned (inl tt), i))
    (fun e i => calmly (wasm_handle_event e i))
    (fun i => (Returned [], i))
    (fun _ _ _ i => (Returned (inl None), i))
    (fun i => calmly (wasm_register_packet_hooks i))
    (fun i => calmly (wasm_drain i)).

(** ** The loader *)

Context (compile : bytes -> option (Module W)) (sha256 : bytes -> bytes).

Record WasmLoader := mkLoader {
  ld_plugins : gmap bytes bytes; (** the names it holds an instance under, with their versions *)
  ld_verifier : PluginVerifier; ld_sandbox : SandboxConfig;
  ld_effects : list HostEffect (** what guests did while they were loaded *) }.
Definition loader_new (v : PluginVerifier) : WasmLoader := mkLoader ∅ v sandbox_default [].

Definition fallback_metadata (name version : bytes) : PluginMetadata :=
  mkMetadata name version (lit "Unknown") (lit "WASM Plugin") (lit "0.1.0") [] [] default_event_mask.
Definition extract_metadata (module_bytes name version : bytes) : PluginMetadata :=
  match find_custom_section module_bytes [lit "kojacoord_metadata"; lit "kojacoord:meta"] with
  | Ok (Some payload) =>
      match parse_metadata payload with
      | Some m =>
          mkMetadata (if bool_decide (md_name m = []) then name else md_name m) (if bool_decide (md_version m = []) then version else md_version m)
            (md_author m) (md_description m) (md_min_proxy_version m) (md_dependencies m) (md_permissions m) (md_events m)
      | None => fallback_metadata name version
      end
  | _ => fallback_metadata name version
  end.

Definition trusted (v : PluginVerifier) (digest : bytes) : bool :=
  if bool_decide (trusted_hashes v = []) then negb (require_verification v) else bool_decide (digest ∈ trusted_hashes v).
Definition refusal (v : PluginVerifier) (name digest : bytes) : bytes :=
  if bool_decide (trusted_hashes v = []) then
    lit "WASM plugin verification is required but no trusted hashes are configured; refusing to load " ++ name ++ lit " (sha256=" ++ digest ++ lit ")"
  else lit "WASM plugin " ++ name ++ lit " failed integrity verification: sha256=" ++ digest ++ lit " is not in the trusted allowlist".

Definition note (h : WasmHostState) (l : WasmLoader) : WasmLoader :=
  mkLoader (ld_plugins l) (ld_verifier l) (ld_sandbox l) (ld_effects l ++ hs_effects h).

(** The instance, once it has started: [init], the manifest, the registry. *)
Definition finish_load (name version : bytes) (i : Inst) : M WasmLoader bytes (Inst * PluginMetadata) := fun l =>
  let '(r, i1) := call_lifecycle (x_init (in_module i)) (lit "init function") i in
  match r with
  | inr _ => (Err (lit "Failed to call init function"), note (in_host i1) l)
  | inl _ =>
      let '(rt, i2) := read_runtime_metadata i1 in
      let i3 := match rt with
                | Some md => mkInstance (in_name i2) (in_version i2) (in_module i2) (in_w i2) (in_mem i2) (set_permissions (md_permissions md) (in_host i2)) md (in_disabled i2)
                | None => i2
                end in
      let l := note (in_host i3) l in
      (Ok (i3, in_metadata i3), mkLoader (<[name := version]> (ld_plugins l)) (ld_verifier l) (ld_sandbox l) (ld_effects l))
  end.

Definition loader_load_plugin (name version module_bytes : bytes) (context : PluginContext) : M WasmLoader bytes (Inst * PluginMetadata) := fun l =>
  if (length module_bytes <? 8)%nat || negb (bool_decide (take 4 module_bytes = WASM_MAGIC))
  then (Err (lit "Invalid WASM module: missing magic number"), l)
  else
    let digest := hex_encode (sha256 module_bytes) in
    if negb (trusted (ld_verifier l) digest) then (Err (refusal (ld_verifier l) name digest), l)
    else
      let metadata := extract_metadata module_bytes name version in
      let host := mkHost (cx_config context) ((fun _ => true) <$> cx_command_tx context) (md_permissions metadata) name true redis_new [] in
      match compile module_bytes with
      | None => (Err (lit "Failed to compile WASM module"), l)
      | Some m =>
          let '(r, w, mem, h) := run_guest sv (x_start m) host in
          match r with
          | None => (Err (lit "Failed to instantiate WASM module"), note h l)
          | Some _ => finish_load name version (mkInstance name version m w mem h metadata false) l
          end
      end.

Definition loader_unload_plugin (name : bytes) : M WasmLoader bytes unit := fun l =>
  match ld_plugins l !! name with
  | Some _ => (Ok tt, mkLoader (delete name (ld_plugins l)) (ld_verifier l) (ld_sandbox l) (ld_effects l))
  | None => (Err (lit "Plugin '" ++ name ++ lit "' not found"), l)
  end.
Definition list_plugins (l : WasmLoader) (order : list bytes) : list (bytes * bytes) := omap (fun n => (fun v => (n, v)) <$> ld_plugins l !! n) order.
End Adapter.

(** ** Finding a section *)

(** The loop is that of [VarInt] without the check of the last byte. *)
Lemma varu32_decodes fuel : forall n r s k src v rest, 0 <= k -> k + Z.of_nat n = 5 ->
  decode_groups 32 5 (fun _ => false) fuel r s k src = (Ok v, rest) ->
  exists used, varu32_groups n s r k src = Some (v, k + Z.of_nat used) /\ (used <= length src)%nat /\ rest = drop used src.
Proof.
  induction fuel as [|fuel IH]; intros n r s k src v rest Hk Hn Hd; [done|].
  destruct n as [|n]; [cbn [decode_groups] in Hd; destruct (Z.geb_spec k 5); [done|lia]|].
  destruct src as [|b src].
  { cbn [decode_groups] in Hd. destruct (Z.geb_spec k 5); [lia|]. unfold bind, ensure, remaining in Hd. cbn in Hd. done. }
  rewrite decode_groups_step in Hd by first [lia | apply andb_false_r]. cbn [varu32_groups]. cbv zeta in Hd.
  destruct (Z.land (bz b) 128 =? 0).
  - injection Hd as <- <-. exists 1%nat. cbn [length]. split_and!; [do 2 f_equal; lia|lia|done].
  - destruct (IH n _ _ (k + 1) _ _ _ ltac:(lia) ltac:(lia) Hd) as (used & Hu & Hl & ->). exists (S used). cbn [length].
    split_and!; [rewrite Hu; do 2 f_equal; lia|lia|done].
Qed.

(** LEB128 of an unsigned number. *)
Definition leb (z : Z) : bytes := groups 5 z.

Lemma read_varu32_leb z rest : fits_u 32 z -> read_varu32 (leb z ++ rest) = Some (z, Z.of_nat (length (leb z))).
Proof.
  intros Hz. assert (Hr : decode_groups 32 5 (fun _ => false) 6 0 0 0 (leb z ++ rest) = (Ok z, rest)).
  { pose proof (reads_groups 32 5 (fun _ => false) ltac:(lia) 5 6 0 0 z ltac:(lia) ltac:(lia) ltac:(lia)) as H.
    rewrite Z.add_0_l, Z.mul_1_r in H. apply H; [lia|unfold fits_u in Hz; cbn; lia|unfold fits_u in Hz; lia|done]. }
  destruct (varu32_decodes 6 5 0 0 0 _ z rest ltac:(lia) ltac:(lia) Hr) as (used & Hu & Hle & Hd).
  unfold read_varu32. rewrite Hu, Z.add_0_l. do 3 f_equal.
  apply (f_equal length) in Hd. rewrite length_drop in Hd. rewrite length_app in *. lia.
Qed.

(** What a module consists of after its header. *)
Inductive WasmSection := CustomSection (name payload : bytes) | OtherSection (id : byte) (body : bytes).
Definition section_body (s : WasmSection) : bytes :=
  match s with CustomSection name payload => leb (Z.of_nat (length name)) ++ name ++ payload | OtherSection _ body => body end.
Definition section_id (s : WasmSection) : byte := match s with CustomSection _ _ => x00 | OtherSection id _ => id end.
Definition section_wf (s : WasmSection) : Prop :=
  Z.of_nat (length (section_body s)) < 2 ^ 32 /\ match s with CustomSection _ _ => True | OtherSection id _ => id <> x00 end.
Definition section_bytes (s : WasmSection) : bytes := section_id s :: leb (Z.of_nat (length (section_body s))) ++ section_body s.
Fixpoint first_payload (names : list bytes) (l : list WasmSection) : option bytes :=
  match l with
  | [] => None
  | CustomSection name payload :: rest => if bool_decide (name ∈ names) then Some payload else first_payload names rest
  | OtherSection _ _ :: rest => first_payload names rest
  end.

Lemma named_custom names name payload : Z.of_nat (length (section_body (CustomSection name payload))) < 2 ^ 32 ->
  named_section names (section_body (CustomSection name payload)) = if bool_decide (name ∈ names) then Some (Some payload) else None.
Proof.
  cbn [section_body]. rewrite !length_app. intros Hl. unfold named_section. rewrite read_varu32_leb by (unfold fits_u; lia).
  rewrite (proj2 (Z.leb_le _ _)) by (unfold remaining; rewrite !length_app; lia).
  rewrite <- Nat2Z.inj_add, !Nat2Z.id, <- drop_drop.
  by rewrite !drop_app_length, take_app_length.
Qed.

Lemma scan_total names : forall fuel bs, (length bs < fuel)%nat -> exists r, scan_sections fuel names bs = Ok r.
Proof.
  induction fuel as [|fuel IH]; intros bs Hl; [lia|]. destruct bs as [|id bs]; [by eexists|]. cbn [scan_sections].
  destruct (read_varu32 bs) as [[size used]|]; [|by eexists]. destruct (_ <? _); [by eexists|].
  case_match; [by eexists|]. apply IH. rewrite !length_drop. cbn [length] in Hl. lia.
Qed.

Lemma scan_finds names : forall l fuel, Forall section_wf l -> (length (concat (map section_bytes l)) < fuel)%nat ->
  scan_sections fuel names (concat (map section_bytes l)) = Ok (first_payload names l).
Proof.
  induction l as [|s l IH]; intros fuel Hwf Hf; (destruct fuel as [|fuel]; [cbn in Hf; lia|]); [done|].
  apply Forall_cons in Hwf as [[Hlen Hid] Hwf]. cbn [map concat] in *. unfold section_bytes at 1 in Hf. unfold section_bytes at 1.
  cbn [app scan_sections]. rewrite <- app_assoc. rewrite read_varu32_leb by (unfold fits_u; lia). rewrite !Nat2Z.id, drop_app_length.
  rewrite (proj2 (Z.ltb_ge _ _)) by (unfold remaining; rewrite length_app; lia).
  rewrite take_app_length, drop_app_length.
  assert (Hrest : scan_sections fuel names (concat (map section_bytes l)) = Ok (first_payload names l)).
  { apply IH; [done|]. cbn [app length] in Hf. rewrite !length_app in Hf. lia. }
  rewrite Hrest. destruct s as [name payload|id body]; cbn [section_id first_payload].
  - rewrite bool_decide_true, named_custom by done. by case_bool_decide.
  - by rewrite bool_decide_false.
Qed.

(** The manifest of a module is found where it is.  For every module made of a
    header and sections, the search returns the payload of the first custom section
    with one of the names, skipping the others whole; on any other bytes it returns as
    well, whatever their lengths claim. *)
Theorem custom_section_found names :
  (forall header l, length header = 8%nat -> take 4 header = WASM_MAGIC -> Forall section_wf l ->
     find_custom_section (header ++ concat (map section_bytes l)) names = Ok (first_payload names l)) /\
  (forall bs, exists r, find_custom_section bs names = Ok r).
Proof.
  split.
  - intros header l H8 Hm Hwf. unfold find_custom_section.
    rewrite (proj2 (Nat.ltb_ge _ _)) by (rewrite length_app; lia). rewrite take_app_le, Hm by lia. rewrite bool_decide_true by done. cbn [orb negb].
    rewrite drop_app_len by done. apply scan_finds; [done|]. rewrite length_app. lia.
  - intros bs. unfold find_custom_section. case_match; [by eexists|]. apply scan_total. rewrite length_drop. lia.
Qed.

(** ** The guest's memory *)

Lemma mem_write_spec m ptr data m' : 0 <= ptr -> mem_write m ptr data = Some m' ->
  length m' = length m /\ mem_read (Some m') ptr (Z.of_nat (length data)) = Some data /\
  (forall k, (k < Z.to_nat ptr \/ Z.to_nat ptr + length data <= k)%nat -> m' !! k = m !! k).
Proof.
  intros Hp. unfold mem_write. destruct (Z.ltb_spec (Z.of_nat (length m)) (ptr + Z.of_nat (length data))) as [|Hb]; [done|].
  intros [= <-]. assert (Hlen : length (take (Z.to_nat ptr) m) = Z.to_nat ptr) by (rewrite length_take; lia).
  assert (Hl : length (take (Z.to_nat ptr) m ++ data ++ drop (Z.to_nat ptr + length data) m) = length m) by (rewrite !length_app, length_take, length_drop; lia).
  split_and!; [done| |].
  - unfold mem_read. cbn [mbind option_bind]. rewrite Hl, (proj2 (Z.ltb_ge _ _)) by lia.
    by rewrite drop_app_len, Nat2Z.id, take_app_len by done.
  - intros k [Hk|Hk].
    + rewrite lookup_app_l by lia. by rewrite lookup_take_lt by lia.
    + rewrite lookup_app_r by lia. rewrite lookup_app_r by lia. rewrite lookup_drop. f_equal. lia.
Qed.

(** Where an import may write. *)
Definition out_window (i : Import) : option (Z * Z) :=
  match i with
  | I_get_config _ _ p c | I_redis_get _ _ p c | I_redis_poll p c | I_http_request _ _ _ _ _ _ p c => Some (p, c)
  | _ => None
  end.

Definition confined (mem mem' : option bytes) (window : option (Z * Z)) : Prop :=
  match mem, mem' with
  | Some m, Some m' => length m' = length m /\
      forall k, match window with Some (p, c) => (k < Z.to_nat p \/ Z.to_nat p + Z.to_nat c <= k)%nat | None => True end -> m' !! k = m !! k
  | None, None => True
  | _, _ => False
  end.

Lemma confined_refl mem w : confined mem mem w.
Proof. by destruct mem. Qed.

Lemma write_out_confined mem p c data : 0 <= p -> confined mem (write_out mem p c data).2 (Some (p, c)).
Proof.
  intros Hp. unfold write_out. destruct mem as [m|]; [|done]. destruct (mem_write m p _) as [m'|] eqn:Hw; [|by apply confined_refl].
  destruct (mem_write_spec _ _ _ _ Hp Hw) as (Hl & _ & Hk). cbn. split; [done|]. intros k Hr. apply Hk. rewrite length_take. lia.
Qed.

(** ** What the imports allow *)

Definition is_redis (e : HostEffect) : Prop := match e with E_redis_connect _ | E_redis _ | E_subscribe _ _ => True | _ => False end.
Definition is_http (e : HostEffect) : Prop := match e with E_http _ _ _ => True | _ => False end.

(** [h'] is [h] after more effects, each with the permission it needs, an inbox within
    its bound and the rest of the host untouched. *)
Record lawful_step (h h' : WasmHostState) : Prop := {
  ls_permissions : hs_permissions h' = hs_permissions h;
  ls_effects : exists l, hs_effects h' = hs_effects h ++ l /\
    Forall (fun e => (is_redis e -> UseRedis ∈ hs_permissions h) /\ (is_http e -> UseHttp ∈ hs_permissions h)) l;
  ls_inbox : (length (rd_inbox (hs_redis h')) <= length (rd_inbox (hs_redis h)))%nat }.

Lemma step_refl h : lawful_step h h.
Proof. split; [done| |done]. exists []. split; [by rewrite app_nil_r|constructor]. Qed.

Lemma step_trans h1 h2 h3 : lawful_step h1 h2 -> lawful_step h2 h3 -> lawful_step h1 h3.
Proof.
  intros [P1 (l1 & E1 & A1) I1] [P2 (l2 & E2 & A2) I2]. split; [congruence| |lia].
  exists (l1 ++ l2). rewrite E2, E1, app_assoc. split; [done|]. apply Forall_app. split; [done|]. by rewrite P1 in A2.
Qed.

Lemma step_emit e h : (is_redis e -> UseRedis ∈ hs_permissions h) -> (is_http e -> UseHttp ∈ hs_permissions h) -> lawful_step h (emit e h).
Proof. intros Hr Hh. split; [done| |done]. exists [e]. split; [done|]. by constructor. Qed.

Lemma step_redis r h : (length (rd_inbox r) <= length (rd_inbox (hs_redis h)))%nat -> lawful_step h (set_redis r h).
Proof. intros Hl. split; [done| |done]. exists []. split; [by rewrite app_nil_r|constructor]. Qed.

Lemma has_elem h p : has h p = true -> p ∈ hs_permissions h.
Proof. unfold has. by rewrite bool_decide_eq_true. Qed.

Section Laws.
Context (sv : Services).

Lemma redis_flag_step op mem h : lawful_step h (redis_flag sv op mem h).2.
Proof.
  unfold redis_flag, redis_ready. destruct (has h UseRedis) eqn:Hp; cbn [andb]; [|apply step_refl].
  destruct (_ && _); [|apply step_refl]. cbn. apply step_emit; [intros _; by apply has_elem|done].
Qed.

Lemma host_call_step i mem h : lawful_step h (host_call sv i mem h).2.
Proof.
  destruct i; cbn [host_call].
  - unfold import_log. case_match; [by apply step_emit|apply step_refl].
  - unfold import_get_config. repeat case_match; apply step_refl.
  - unfold import_send_command. repeat case_match; try apply step_refl. by apply step_emit.
  - unfold import_has_permission. case_match; apply step_refl.
  - unfold import_redis_connect. case_match; [|apply step_refl]. destruct (has h UseRedis) eqn:Hp; cbn [negb]; [|apply step_refl].
    case_match; [apply step_refl|]. case_match; cbn [snd].
    + eapply step_trans; cycle 1; [apply step_emit; [intros _; by apply (has_elem h)|done]|by apply step_redis].
    + apply step_emit; [intros _; by apply has_elem|done].
  - unfold import_redis_publish. repeat case_match; try apply step_refl. apply redis_flag_step.
  - unfold import_redis_get. case_match; [|apply step_refl]. unfold redis_ready.
    destruct (has h UseRedis) eqn:Hp; cbn [andb]; [|apply step_refl]. destruct (_ && _); [|apply step_refl]. cbn [run_redis].
    assert (lawful_step h (emit (E_redis (R_get l)) h)) by (apply step_emit; [intros _; by apply has_elem|done]).
    unfold run_redis. destruct (redis_reply sv _ _) as [[]|]; [|done..]. by destruct (write_out _ _ _ _).
  - unfold import_redis_set. repeat case_match; try apply step_refl. apply redis_flag_step.
  - unfold import_redis_del. case_match; [apply redis_flag_step|apply step_refl].
  - unfold import_redis_expire. case_match; [apply redis_flag_step|apply step_refl].
  - unfold import_redis_subscribe. case_match; [|apply step_refl]. destruct (has h UseRedis) eqn:Hp; cbn [negb]; [|apply step_refl].
    case_match; [apply step_refl|]. case_match; [apply step_refl|]. cbn [snd].
    eapply step_trans; cycle 1; [apply step_emit; [intros _; by apply (has_elem h)|done]|by apply step_redis].
  - unfold import_redis_poll. destruct (rd_inbox (hs_redis h)) as [|[c p] rest] eqn:Hi; [apply step_refl|].
    destruct (write_out _ _ _ _). apply step_redis. cbn. rewrite Hi. cbn. lia.
  - unfold import_http_request. repeat (case_match; try apply step_refl); simplify_eq; cbn [snd];
      (apply step_emit; [done|]); intros _; apply has_elem; by destruct (has h UseHttp).
Qed.

Lemma run_guest_step {W A} (g : Guest W A) : forall h, lawful_step h (run_guest sv g h).2.
Proof.
  induction g as [a w mem|w mem|i w mem k IH]; intros h; cbn [run_guest]; [apply step_refl..|].
  pose proof (host_call_step i mem h) as Hs. destruct (host_call sv i mem h) as [[[v mem']|] h']; [|done].
  eapply step_trans; [exact Hs|apply IH].
Qed.

(** C30: the network is behind its permissions.  Whatever code a guest runs, it reaches
    Redis only with [use_redis] and HTTP only with [use_http] among the permissions its
    store was given, and it never changes those itself. *)
Theorem network_needs_permission {W A} (g : Guest W A) h :
  let h' := (run_guest sv g h).2 in
  hs_permissions h' = hs_permissions h /\
  exists l, hs_effects h' = hs_effects h ++ l /\
    (UseRedis ∉ hs_permissions h -> Forall (fun e => ~ is_redis e) l) /\ (UseHttp ∉ hs_permissions h -> Forall (fun e => ~ is_http e) l).
Proof.
  intros h'. destruct (run_guest_step g h) as [Hp (l & He & Hl) _]. split; [exact Hp|]. exists l.
  split; [exact He|]. split; intros Hn; (eapply Forall_impl; [exact Hl|]); cbn; tauto.
Qed.

(** An import stays within the buffer the guest names for its result.  It never
    changes the size of the guest's memory, and no byte outside the window of pointer
    and capacity it was given; imports without such a window write nothing. *)
Theorem imports_confined i mem h v mem' h' :
  match out_window i with Some (p, _) => 0 <= p | None => True end ->
  host_call sv i mem h = (Some (v, mem'), h') -> confined mem mem' (out_window i).
Proof.
  assert (Hflag : forall op, redis_flag sv op mem h = (Some (v, mem'), h') -> mem' = mem).
  { intros op. unfold redis_flag. case_match; cbn; [|by intros [= _ <- _]]. by intros [= _ <- _]. }
  intros Hp. destruct i; cbn [host_call out_window] in *.
  all: try (unfold import_log, import_send_command, import_has_permission, import_redis_connect, import_redis_publish, import_redis_set,
              import_redis_del, import_redis_expire, import_redis_subscribe in *;
            repeat case_match; try done; try (intros [= <- <- <-]; apply confined_refl);
            intros Hc; apply Hflag in Hc; subst; apply confined_refl).
  - unfold import_get_config. repeat case_match; try done; try (intros [= <- <- <-]; apply confined_refl).
    intros [= Hw _]. pose proof (write_out_confined mem out_ptr out_len l0 Hp) as Hc. by rewrite Hw in Hc.
  - unfold import_redis_get, run_redis. case_match; [|done]. case_match; [|intros [= <- <- <-]; apply confined_refl].
    destruct (redis_reply sv _ _) as [[bs|]|]; [|intros [= <- <- <-]; apply confined_refl..].
    pose proof (write_out_confined mem out_ptr out_cap bs Hp) as Hc. destruct (write_out _ _ _ _) as [n m']. by intros [= <- <- <-].
  - unfold import_redis_poll. destruct (rd_inbox _) as [|[c pl] rest]; [intros [= <- <- <-]; apply confined_refl|].
    pose proof (write_out_confined mem out_ptr out_cap (c ++ [x0a] ++ pl) Hp) as Hc. destruct (write_out _ _ _ _) as [n m']. by intros [= <- <- <-].
  - unfold import_http_request. do 3 (case_match; [|done]). do 2 (case_match; [intros [= <- <- <-]; apply confined_refl|]).
    destruct (http_reply sv _ _ _ _) as [bs|]; [|intros [= <- <- <-]; apply confined_refl].
    pose proof (write_out_confined mem out_ptr out_cap bs Hp) as Hc. destruct (write_out _ _ _ _) as [n m']. by intros [= <- <- <-].
Qed.

Lemma deliver_bounded i c p h : (length (rd_inbox (hs_redis h)) <= 4096)%nat -> (length (rd_inbox (hs_redis (deliver i c p h))) <= 4096)%nat.
Proof.
  intros Hb. unfold deliver. destruct (rd_subs (hs_redis h) !! i) as [s|]; [|done]. destruct (sub_waiting s); [|done].
  cbn [hs_redis set_redis rd_inbox]. destruct p; [|exact Hb].
  destruct (Nat.ltb_spec (length (rd_inbox (hs_redis h))) 4096); [|exact Hb]. rewrite length_app. cbn [length]. lia.
Qed.
End Laws.

(** ** The adapter *)

Section AdapterLaws.
Context {W : Type} (sv : Services).
Context (event_json : PluginEvent -> option bytes) (parse_response : bytes -> option PluginResponse) (parse_metadata : bytes -> option PluginMetadata).
Abbreviation Inst := (WasmPluginInstance W).
Abbreviation trait := (wasm_trait (W := W) sv event_json parse_response).

(** What no call of the guest changes. *)
Definition same_plugin (i i' : Inst) : Prop := in_metadata i' = in_metadata i /\ in_module i' = in_module i /\ in_disabled i' = in_disabled i.

Lemma enter_same {A} (f : Export W A) (i : Inst) : same_plugin i (enter sv f i).2.
Proof. unfold enter. by destruct (run_guest sv _ _) as [[[a w] mem] h]. Qed.

Lemma free_same ptr n (i : Inst) : same_plugin i (free_in_guest sv ptr n i).
Proof. unfold free_in_guest. case_match; [done|]. case_match; [apply enter_same|done]. Qed.

Lemma write_same data (i : Inst) : same_plugin i (write_to_guest sv data i).2.
Proof.
  unfold write_to_guest. case_match; [|done]. case_match; [|by repeat case_match].
  pose proof (enter_same (e (wrapu 32 (Z.of_nat (length data)))) i) as He. destruct (enter sv _ i) as [[p|] i1]; [|done].
  cbn in He. by case_match.
Qed.

Lemma same_trans (i j k : Inst) : same_plugin i j -> same_plugin j k -> same_plugin i k.
Proof. unfold same_plugin. intuition congruence. Qed.

Lemma handle_same e (i : Inst) : same_plugin i (wasm_handle_event sv event_json parse_response e i).2.
Proof.
  unfold wasm_handle_event. case_match; [|done]. pose proof (write_same l i) as H1. destruct (write_to_guest sv l i) as [[[p n]|] i1]; [|done].
  cbn in H1. destruct (x_handle_event (in_module i)) as [f|].
  - pose proof (enter_same (f p n) i1) as H2. destruct (enter sv (f p n) i1) as [[packed|] i2]; cbn in H2; [|by eapply same_trans].
    pose proof (free_same p n i2) as H3. assert (same_plugin i (free_in_guest sv p n i2)) by eauto using same_trans.
    case_match; [done|]. cbn [snd]. eapply same_trans; [done|apply free_same].
  - destruct (x_handle_event_legacy (in_module i)) as [f|]; cbn [snd].
    + pose proof (enter_same (f p n) i1) as H2. destruct (enter sv (f p n) i1) as [[v|] i2]; cbn in H2 |- *; [|by eapply same_trans].
      eapply same_trans; [by eapply same_trans|apply free_same].
    + eapply same_trans; [done|apply free_same].
Qed.

(** The adapter meets what the manager relies on. *)
#[export] Instance wasm_steady : SteadyMask trait.
Proof.
  split.
  - intros e i. unfold mask_of. cbn. by rewrite (proj1 (handle_same e i)).
  - done.
  - done.
Qed.

(** An event reaches the guest as it was written.  When the host has a place for
    it, by the guest's allocator or at the scratch offset, the guest is entered with a
    pointer and a length at which its memory holds exactly the JSON of the event. *)
Theorem guest_receives_event data (i i' : Inst) ptr n :
  Z.of_nat (length data) < 2 ^ 32 -> (forall alloc a, x_alloc (in_module i) = Some alloc -> (enter sv (alloc (Z.of_nat (length data))) i).1 = Some a -> 0 <= a) ->
  write_to_guest sv data i = (Some (ptr, n), i') -> read_guest_bytes ptr n i' = Some data.
Proof.
  intros Hd Ha. unfold write_to_guest. assert (Hw : wrapu 32 (Z.of_nat (length data)) = Z.of_nat (length data)) by (apply wrapu_id; unfold fits_u; lia).
  rewrite Hw. destruct (in_mem i) as [mem|]; [|done]. destruct (x_alloc (in_module i)) as [alloc|].
  - specialize (Ha alloc). destruct (enter sv _ i) as [[p|] i1]; [|done].
    destruct (in_mem i1 ≫= _) as [m'|] eqn:Hm; [|done]. intros [= <- <- <-]. destruct (in_mem i1) as [m1|]; [|done]. cbn in Hm.
    exact (proj1 (proj2 (mem_write_spec _ _ _ _ (Ha _ eq_refl eq_refl) Hm))).
  - destruct (_ <? _); [done|]. destruct (mem_write mem SCRATCH data) as [m'|] eqn:Hm; [|done]. intros [= <- <- <-].
    exact (proj1 (proj2 (mem_write_spec mem SCRATCH data m' ltac:(unfold SCRATCH; lia) Hm))).
Qed.

(** ** Loading *)

Context (compile : bytes -> option (Module W)) (sha256 : bytes -> bytes).
Abbreviation loading := (loader_load_plugin sv parse_metadata compile sha256).

(** C29: No code runs that the operator has not vouched for.  A module that lacks the
    magic number, or whose digest is not on the list of trusted hashes when there is a
    list or one is required, is refused before it is compiled: the loader is unchanged
    and no guest has had any effect.  A module that loads is trusted. *)
Theorem unverified_never_runs name version bs cx l o l' : loading name version bs cx l = (o, l') ->
  (trusted (ld_verifier l) (hex_encode (sha256 bs)) = false \/ take 4 bs <> WASM_MAGIC -> (exists e, o = Err e) /\ l' = l) /\
  (forall i md, o = Ok (i, md) ->
     (hex_encode (sha256 bs) ∈ trusted_hashes (ld_verifier l) \/ (trusted_hashes (ld_verifier l) = [] /\ require_verification (ld_verifier l) = false)) /\
     ld_plugins l' !! name = Some version /\ md = in_metadata i).
Proof.
  unfold loader_load_plugin. destruct ((length bs <? 8)%nat || negb (bool_decide (take 4 bs = WASM_MAGIC))) eqn:Hm.
  { intros [= <- <-]. split; [by eauto|done]. }
  destruct (trusted (ld_verifier l) (hex_encode (sha256 bs))) eqn:Ht; cbn [negb].
  - intros Hload. split.
    { intros [|Hn]; [done|]. apply orb_false_iff in Hm as [_ Hm]. by rewrite bool_decide_false in Hm. }
    intros i md ->. split_and!.
    + unfold trusted in Ht. case_bool_decide; [right; by destruct (require_verification _)|left; by apply bool_decide_eq_true in Ht].
    + destruct (compile bs); [|done]. destruct (run_guest sv _ _) as [[[[] w] mem] h]; [|done]. unfold finish_load in Hload.
      destruct (call_lifecycle _ _ _ _) as [[] i1]; [|done]. destruct (read_runtime_metadata _ _ i1) as [rt i2].
      injection Hload as _ _ <-. cbn. by rewrite lookup_insert_eq.
    + destruct (compile bs); [|done]. destruct (run_guest sv _ _) as [[[[] w] mem] h]; [|done]. unfold finish_load in Hload.
      destruct (call_lifecycle _ _ _ _) as [[] i1]; [|done]. destruct (read_runtime_metadata _ _ i1) as [rt i2].
      by injection Hload as <- <- _.
  - intros [= <- <-]. split; [by eauto|done].
Qed.

(** ** Behaviour that surprises *)

Lemma gather_inert get_hook : forall k n (i : Inst) p, Forall (fun h => hook_outcome h p = inl Relay.Forward) (gather_hooks sv get_hook k n i).1.
Proof.
  induction k as [|k IH]; intros n i p; cbn [gather_hooks]; [constructor|]. destruct (enter sv _ i) as [r i1].
  specialize (IH (n + 1) i1 p). destruct (gather_hooks sv get_hook k (n + 1) i1) as [rest i2]. cbn in *. destruct r; [|done]. by constructor.
Qed.

Lemma forwarding_hooks hooks p : Forall (fun h => forall q, hook_outcome h q = inl Relay.Forward) hooks -> run_hooks hooks p = Relay.Forward.
Proof.
  intros Hh. rewrite run_hooks_spec. assert (Hn : first_answer hooks p = None); [|by rewrite Hn].
  induction Hh as [|h l Hf _ IH]; [done|]. cbn. by rewrite Hf.
Qed.

(** The packet hooks a guest registers never call it: with plugins loaded by this
    loader, every packet is forwarded as it came. *)
Theorem guest_hooks_inert read_file to_lowercase loader runtime m p :
  reachable trait loading read_file to_lowercase loader runtime m -> process_packet m p = Relay.Forward.
Proof.
  intros Hr. unfold process_packet. apply forwarding_hooks. apply Forall_forall. intros h [_ Hh]%list_elem_of_filter q.
  assert (Hall : Forall (fun h => forall q, hook_outcome h q = inl Relay.Forward) (packet_hooks m)).
  { eapply (reachable_hooks trait loading read_file to_lowercase (fun h => forall q, hook_outcome h q = inl Relay.Forward)); [by intros n' h' Hh'| |exact Hr].
    intros g l. cbn. intros [= <-]. apply Forall_forall. intros x Hx q'. unfold wasm_register_packet_hooks in Hx.
    destruct (x_get_packet_hooks _); [|by apply elem_of_nil in Hx]. destruct (enter sv _ g) as [[n|] i1]; [|by apply elem_of_nil in Hx].
    destruct (x_get_packet_hook _) as [get_hook|]; [|by apply elem_of_nil in Hx].
    pose proof (gather_inert get_hook (Z.to_nat (Z.min n 1024)) 0 i1 q') as Hf. rewrite Forall_forall in Hf. by apply Hf. }
  rewrite Forall_forall in Hall. by apply Hall.
Qed.

(** A guest that traps is not disabled: it is called for the next event as for this one. *)
Theorem trapped_plugin_called_again e (i i' : Inst) r : wasm_handle_event sv event_json parse_response e i = (r, i') -> in_disabled i' = in_disabled i.
Proof. intros He. pose proof (handle_same e i) as (_ & _ & Hd). by rewrite He in Hd. Qed.

(** Unloading a plugin leaves its instance with the loader. *)
Theorem unloaded_instance_kept (m : PluginManager) name : wasm_loader (unload_plugin trait name m).2 = wasm_loader (L := WasmLoader) m.
Proof. unfold unload_plugin. destruct (plugins m !! name) as [[g md]|]; [|done]. by destruct (on_disable trait g), (on_unload trait _). Qed.
End AdapterLaws.

(** Commands to the proxy ask for no permission: a guest without any moves players,
    kicks them and registers servers. *)
Theorem commands_unchecked sv mem ptr n raw cmd h : read_bytes mem ptr n = Some raw -> parse_command sv raw = Some cmd -> hs_command_tx h = Some true ->
  host_call sv (I_send_command ptr n) mem (set_permissions [] h) = (Some (1, mem), emit (E_command cmd) (set_permissions [] h)).
Proof. intros Hr Hp Ht. cbn. unfold import_send_command. by rewrite Hr, Hp; cbn; rewrite Ht. Qed.

(** *** The inbox *)

(** What happens to the host of one instance, in any order: calls into the guest,
    messages for its subscriptions, the host draining the inbox. *)
Inductive host_step (sv : Services) : WasmHostState -> WasmHostState -> Prop :=
  | H_guest W A (g : Guest W A) h : host_step sv h (run_guest sv g h).2
  | H_message i channel payload h : host_step sv h (deliver i channel payload h)
  | H_drain W (i : WasmPluginInstance W) : host_step sv (in_host i) (in_host (wasm_drain i).2)
  | H_disable W (i : WasmPluginInstance W) : host_step sv (in_host i) (in_host (wasm_on_disable sv i).2).

Inductive host_life (sv : Services) (h0 : WasmHostState) : WasmHostState -> Prop :=
  | L_start : host_life sv h0 h0
  | L_step h h' : host_life sv h0 h -> host_step sv h h' -> host_life sv h0 h'.

Lemma lifecycle_inbox {W} sv f what (i : WasmPluginInstance W) :
  (length (rd_inbox (hs_redis (in_host (call_lifecycle sv f what i).2))) <= length (rd_inbox (hs_redis (in_host i))))%nat.
Proof.
  unfold call_lifecycle, enter. destruct f as [f|]; [|done]. pose proof (run_guest_step sv (f (in_w i) (in_mem i)) (in_host i)) as [_ _ Hi].
  destruct (run_guest sv _ _) as [[[a w] mem] h]. exact Hi.
Qed.

(** The queue of messages for a guest is bounded.  However many messages arrive
    and however seldom the guest polls, at most 4096 wait. *)
Theorem inbox_bounded sv h0 h : hs_redis h0 = redis_new -> host_life sv h0 h -> (length (rd_inbox (hs_redis h)) <= 4096)%nat.
Proof.
  intros H0. induction 1 as [|h h' _ IH Hs]; [rewrite H0; cbn [rd_inbox redis_new length]; lia|]. destruct Hs as [W A g h|i c p h|W i|W i].
  - pose proof (run_guest_step sv g h) as [_ _ Hi]. lia.
  - by apply deliver_bounded.
  - cbn [wasm_drain snd in_host with_guest hs_redis set_redis rd_inbox length]. lia.
  - unfold wasm_on_disable. etransitivity; [apply lifecycle_inbox|]. exact IH.
Qed.

(** ** A concrete guest *)

Definition sample_services : Services :=
  mkServices (fun _ _ => true) (fun _ _ => inl None) (fun _ _ _ => true) (fun _ _ _ _ => inl (lit "ok")) (fun _ => None).
Definition greedy_metadata : PluginMetadata := mkMetadata (lit "evil") (lit "1.0.0") [] [] (lit "0.1.0") [] [UseHttp] default_event_mask.
(** A guest that fetches a page while it is initialised. *)
Definition greedy_memory : bytes := lit "GEThttp://x/" ++ replicate 20 x00.
Definition greedy_module : Module unit :=
  mkModule unit (G_return tt tt (Some greedy_memory))
    (Some (fun w mem => G_import (I_http_request 0 3 3 9 0 0 12 20) w mem (fun _ mem' => G_return tt w mem')))
    None None None None None None None None None.
Definition greedy_file : bytes :=
  WASM_MAGIC ++ [x01; x00; x00; x00] ++ section_bytes (CustomSection (lit "kojacoord_metadata") (lit "{}")).
Definition greedy_trait : PluginTrait (WasmPluginInstance unit) := wasm_trait sample_services (fun _ => None) (fun _ => None).
Definition greedy_load := loader_load_plugin sample_services (fun _ => Some greedy_metadata) (fun _ => Some greedy_module) (fun _ => []).
Definition evil_path : Path := mkPath (lit "plugins/evil.wasm") (Some (lit "evil.wasm")) false.

(** The allowlist is consulted after the guest has run: a plugin refused for asking for
    HTTP has already used it, and its instance stays with the loader. *)
Theorem refused_plugin_ran :
  let r := load_plugin greedy_trait greedy_load (fun _ => inl greedy_file) (fun s => s) evil_path ∅ (with_wasm_loader (loader_new verifier_new) true) in
  r.1 = Err (not_allowed UseHttp) /\
  ld_effects (wasm_loader r.2) = [E_http (lit "GET") (lit "http://x/") []] /\ ld_plugins (wasm_loader r.2) !! lit "evil" = Some (lit "1.0.0").
Proof. split_and!; vm_compute; reflexivity. Qed.

Definition sample_host : WasmHostState := mkHost ∅ (Some true) [] (lit "p") true redis_new [].

Lemma imports_confined_witness : confined (Some greedy_memory) (Some greedy_memory) (out_window (I_redis_poll 0 4)).
Proof.
  apply (imports_confined sample_services (I_redis_poll 0 4) (Some greedy_memory) sample_host (-1) (Some greedy_memory) sample_host).
  - cbn. lia.
  - reflexivity.
Defined.

Definition scratch_instance : WasmPluginInstance unit :=
  mkInstance (lit "p") (lit "1.0.0") greedy_module tt (Some (replicate 65600 x00)) sample_host greedy_metadata false.
Lemma guest_receives_event_witness :
  read_guest_bytes SCRATCH 2 (write_to_guest sample_services (lit "{}") scratch_instance).2 = Some (lit "{}").
Proof.
  apply (guest_receives_event sample_services (lit "{}") scratch_instance (write_to_guest sample_services (lit "{}") scratch_instance).2 SCRATCH 2).
  - cbn. lia.
  - intros alloc a [=].
  - apply pair_intro; [vm_compute|]; reflexivity.
Defined.

Lemma unverified_never_runs_witness :
  (exists e, (greedy_load (lit "evil") (lit "1.0.0") greedy_file (mkContext [] [] ∅ None true) (loader_new (with_trusted_hashes [lit "ab"]))).1 = Err e) /\
  (greedy_load (lit "evil") (lit "1.0.0") greedy_file (mkContext [] [] ∅ None true) (loader_new (with_trusted_hashes [lit "ab"]))).2 = loader_new (with_trusted_hashes [lit "ab"]).
Proof.
  apply (unverified_never_runs sample_services (fun _ => Some greedy_metadata) (fun _ => Some greedy_module) (fun _ => [])
    (lit "evil") (lit "1.0.0") greedy_file (mkContext [] [] ∅ None true) (loader_new (with_trusted_hashes [lit "ab"]))).
  - apply surjective_pairing.
  - left. vm_compute. reflexivity.
Defined.

Lemma inbox_bounded_witness : (length (rd_inbox (hs_redis (deliver 0 (lit "c") (Some (lit "m")) sample_host))) <= 4096)%nat.
Proof.
  apply (inbox_bounded sample_services sample_host).
  - reflexivity.
  - eapply L_step; [apply L_start|]. apply H_message.
Defined.
