(* ===== verification/CrashReport.v ===== *)
(** * Crash reports

    crates/proxy-core/src/crash_report.rs: the ring of recent actions, the text of a
    report, and the redaction that keeps addresses out of both.  The clock, the
    back trace and the files of the operating system are arguments. *)
From Stdlib Require Import ZArith Lia Bool Strings.String Strings.Byte.
From stdpp Require Import base list numbers strings.
From S2P Require Import Prelude Buf Wire Codec Auth Chars Utf8 Transfer IpAddr Commands Control.
Local Open Scope Z_scope.
Local Open Scope koja_scope.

Definition MAX_BREADCRUMBS : nat := 150.
Definition MAX_MEMMAP_LINES : nat := 400.

(** ** Redaction *)

Definition is_ascii_digit (b : byte) : bool := in_range 0x30 0x39 b.
Definition DOT : byte := zb 0x2E.
Definition digit_or_dot (b : byte) : bool := is_ascii_digit b || bool_decide (b = DOT).

(** [while pos < s.len() && s[pos].is_ascii_digit() && pos - start < 3] *)
Fixpoint digits (room : nat) (s : bytes) : nat :=
  match room, s with
  | S room', b :: s' => if is_ascii_digit b then S (digits room' s') else 0
  | _, _ => 0
  end.

(** The loop over the octets from number [octet] on, [n] of them left. *)
Fixpoint match_octets (n octet pos : nat) (s : bytes) : option nat :=
  match n with
  | O => Some pos
  | S n' =>
      let go pos :=
        let d := digits 3 (drop pos s) in
        if (d =? 0)%nat then None else match_octets n' (S octet) (pos + d) s in
      if (0 <? octet)%nat
      then if bool_decide (s !! pos = Some DOT) then go (pos + 1)%nat else None
      else go pos
  end.

Definition match_ipv4 (s : bytes) : option nat :=
  match match_octets 4 0 0 s with
  | Some pos => match s !! pos with
                | Some b => if digit_or_dot b then None else Some pos
                | None => Some pos
                end
  | None => None
  end.

Definition utf8_len (first : byte) : nat :=
  if bz first <? 0x80 then 1
  else if Z.shiftr (bz first) 5 =? 6 then 2
  else if Z.shiftr (bz first) 4 =? 14 then 3
  else 4.

(** [&text[i..j]] *)
Definition str_slice (text : bytes) (i j : nat) : outcome unit bytes :=
  if (i <=? j)%nat && is_char_boundary text i && is_char_boundary text j then Ok (take (j - i) (drop i text)) else Panic.

Definition REDACTED : bytes := lit "[redacted-ip]".

Definition left_boundary_ok (text : bytes) (i : nat) : bool :=
  (i =? 0)%nat || match text !! (i - 1)%nat with Some b => negb (digit_or_dot b) | None => true end.

(** The loop from position [i] on: what is pushed to [out] from there. *)
Fixpoint redact_loop (fuel : nat) (text : bytes) (i : nat) : outcome unit bytes :=
  match text !! i with
  | None => Ok []
  | Some b =>
      match fuel with
      | O => NoFuel
      | S fuel' =>
          let keep :=
            let ch_len := utf8_len b in
            match str_slice text i (i + ch_len) with
            | Ok ch => match redact_loop fuel' text (i + ch_len) with Ok out => Ok (ch ++ out) | o => o end
            | o => o
            end in
          if left_boundary_ok text i
          then match match_ipv4 (drop i text) with
               | Some len => match redact_loop fuel' text (i + len) with Ok out => Ok (REDACTED ++ out) | o => o end
               | None => keep
               end
          else keep
      end
  end.

Definition redact_ipv4 (text : bytes) : outcome unit bytes := redact_loop (length text) text 0.
Definition redact (text : bytes) : outcome unit bytes := redact_ipv4 text.

Example redacts_ipv4_keeps_port : redact (lit "New connection from 192.168.1.42:51234") = Ok (lit "New connection from [redacted-ip]:51234").
Proof. reflexivity. Qed.
Example does_not_redact_versions : redact (lit "proto 1.2.3.4.5 ok") = Ok (lit "proto 1.2.3.4.5 ok").
Proof. reflexivity. Qed.

(** What an address is, independently of the matcher: four groups of one to three
    digits with dots between them. *)
Definition octet_text (s : bytes) : Prop := (1 <= length s <= 3)%nat /\ Forall (fun b => is_ascii_digit b = true) s.
Definition quad (q : bytes) : Prop := exists a b c d,
  octet_text a /\ octet_text b /\ octet_text c /\ octet_text d /\ q = a ++ DOT :: b ++ DOT :: c ++ DOT :: d.
Definition not_numeric (o : option byte) : Prop := match o with Some b => digit_or_dot b = false | None => True end.
(** An address in the text that stands on its own: not a part of a longer
    sequence of numbers and dots. *)
Definition exposes (text : bytes) : Prop := exists pre q post,
  text = pre ++ q ++ post /\ quad q /\ not_numeric (last pre) /\ not_numeric (head post).

(** ** The matcher finds exactly the addresses *)

Lemma digits_spec room s : (digits room s <= room)%nat /\ (digits room s <= length s)%nat /\ Forall (fun b => is_ascii_digit b = true) (take (digits room s) s).
Proof.
  revert s. induction room as [|room IH]; intros [|b s]; cbn; try (split_and!; [lia|lia|constructor]).
  destruct (is_ascii_digit b) eqn:E; cbn; [|split_and!; [lia|lia|constructor]].
  destruct (IH s) as (? & ? & ?). split_and!; [lia|lia|by constructor].
Qed.

Lemma digits_group room a r : (length a <= room)%nat -> Forall (fun b => is_ascii_digit b = true) a ->
  match head r with Some b => is_ascii_digit b = false | None => True end -> digits room (a ++ r) = length a.
Proof.
  intros Hl Ha Hr. revert room Hl. induction Ha as [|b a Hb Ha IH]; intros room Hl; cbn in *.
  - destruct room, r; cbn; try done. cbn in Hr. by rewrite Hr.
  - destruct room as [|room]; [lia|]. cbn. rewrite Hb, IH by lia. done.
Qed.

(** [n] groups, each led by a dot except perhaps the first. *)
Fixpoint groups_of (dot : bool) (n : nat) (q : bytes) : Prop :=
  match n with
  | O => q = []
  | S n' => exists a q', octet_text a /\ q = (if dot then [DOT] else []) ++ a ++ q' /\ groups_of true n' q'
  end.

Lemma quad_groups q : quad q <-> groups_of false 4 q.
Proof.
  split.
  - intros (a & b & c & d & Ha & Hb & Hc & Hd & ->). exists a, (DOT :: b ++ DOT :: c ++ DOT :: d). split_and!; [done|done|].
    exists b, (DOT :: c ++ DOT :: d). split_and!; [done|done|]. exists c, (DOT :: d). split_and!; [done|done|].
    exists d, []. split_and!; [done|by rewrite app_nil_r|done].
  - intros (a & ? & Ha & -> & b & ? & Hb & -> & c & ? & Hc & -> & d & ? & Hd & -> & ->). exists a, b, c, d. split_and!; try done.
    cbn. by rewrite !app_nil_r.
Qed.

Lemma match_octets_sound n octet pos s p : match_octets n octet pos s = Some p -> (pos <= length s)%nat ->
  exists q, drop pos s = q ++ drop p s /\ p = (pos + length q)%nat /\ groups_of (0 <? octet)%nat n q.
Proof.
  revert octet pos. induction n as [|n IH]; intros octet pos; cbn [match_octets groups_of].
  { intros [= ->] _. exists []. split_and!; [done|cbn; lia|done]. }
  assert (Hgo : forall pos, (if (digits 3 (drop pos s) =? 0)%nat then None else match_octets n (S octet) (pos + digits 3 (drop pos s)) s) = Some p ->
    (pos <= length s)%nat ->
    exists a q', octet_text a /\ drop pos s = (a ++ q') ++ drop p s /\ p = (pos + length (a ++ q'))%nat /\ groups_of true n q').
  { intros k H Hk. destruct (Nat.eqb_spec (digits 3 (drop k s)) 0) as [|Hd]; [done|].
    destruct (digits_spec 3 (drop k s)) as (H3 & Hlen & Hdig). set (d := digits 3 (drop k s)) in *. rewrite length_drop in Hlen.
    apply IH in H as (q' & Hq & -> & Hg); [|lia]. exists (take d (drop k s)), q'.
    assert (length (take d (drop k s)) = d) by (rewrite length_take, length_drop; lia).
    split_and!; [split; [lia|done]| |rewrite length_app; lia|done].
    rewrite <- app_assoc, <- Hq, <- drop_drop, take_drop. done. }
  destruct (0 <? octet)%nat; [|intros H Hp; apply Hgo in H as (a & q' & Ha & He & -> & Hg); [|done]; exists (a ++ q'); split_and!; [done|done|by exists a, q']].
  case_bool_decide as Hdot; [|done]. intros H Hp. pose proof (lookup_lt_Some _ _ _ Hdot) as Hlt.
  apply Hgo in H as (a & q' & Ha & He & -> & Hg); [|lia]. exists (DOT :: a ++ q'). split_and!; [|cbn; lia|exists a, q'; by split_and!].
  rewrite (drop_S _ _ _ Hdot). cbn [app]. by rewrite <- Nat.add_1_r, He.
Qed.

Lemma match_octets_complete n octet pre q post : groups_of (0 <? octet)%nat n q ->
  match head post with Some b => is_ascii_digit b = false | None => True end ->
  match_octets n octet (length pre) (pre ++ q ++ post) = Some (length pre + length q)%nat.
Proof.
  revert octet pre q. induction n as [|n IH]; intros octet pre q; cbn [match_octets groups_of].
  { intros -> _. cbn. by rewrite Nat.add_0_r. }
  intros (a & q' & [Hl Ha] & -> & Hg) Hpost.
  assert (Hgo : forall pre, (if (digits 3 (drop (length pre) (pre ++ a ++ q' ++ post)) =? 0)%nat then None
     else match_octets n (S octet) (length pre + digits 3 (drop (length pre) (pre ++ a ++ q' ++ post))) (pre ++ a ++ q' ++ post))
     = Some (length pre + length (a ++ q'))%nat).
  { intros pre0. rewrite drop_app_length. rewrite digits_group; [|lia|done|].
    - destruct (Nat.eqb_spec (length a) 0); [lia|]. rewrite <- length_app, app_assoc, IH by done. rewrite !length_app. f_equal. lia.
    - destruct n as [|n]; cbn in Hg; [subst; done|]. destruct Hg as (a' & q'' & _ & -> & _). done. }
  destruct (0 <? octet)%nat; cbn [app].
  - rewrite bool_decide_true by (rewrite lookup_app_r, Nat.sub_diag by lia; done).
    replace (pre ++ DOT :: (a ++ q') ++ post) with ((pre ++ [DOT]) ++ a ++ q' ++ post) by (by rewrite <- !app_assoc).
    replace (length pre + 1)%nat with (length (pre ++ [DOT])) by (rewrite length_app; done).
    rewrite Hgo. rewrite !length_app. cbn. rewrite length_app. f_equal. lia.
  - rewrite <- app_assoc. apply Hgo.
Qed.

Lemma match_ipv4_sound s n : match_ipv4 s = Some n ->
  exists q post, s = q ++ post /\ quad q /\ n = length q /\ not_numeric (head post).
Proof.
  unfold match_ipv4. destruct (match_octets 4 0 0 s) as [p|] eqn:E; [|done].
  apply match_octets_sound in E as (q & Hq & -> & Hg); [|lia]. rewrite drop_0 in Hq. cbn in Hq. intros H.
  assert (Hh : s !! length q = head (drop (length q) s)) by (rewrite Hq at 1; rewrite lookup_app_r, Nat.sub_diag by lia; by destruct (drop _ s)).
  exists q, (drop (length q) s). cbn in H. split_and!; [done|by apply quad_groups| |]; rewrite Hh in H; destruct (head _) as [b|]; cbn.
  - by destruct (digit_or_dot b); simplify_eq.
  - by simplify_eq.
  - by destruct (digit_or_dot b).
  - done.
Qed.

Lemma match_ipv4_complete q post : quad q -> not_numeric (head post) -> match_ipv4 (q ++ post) = Some (length q).
Proof.
  intros Hq Hp. unfold match_ipv4. pose proof (match_octets_complete 4 0 [] q post) as H. cbn [app length Nat.add] in H. rewrite H.
  - rewrite lookup_app_r, Nat.sub_diag by lia. destruct post as [|b post]; cbn; [done|]. cbn in Hp. by rewrite Hp.
  - by apply quad_groups.
  - destruct post as [|b post]; cbn in *; [done|]. unfold digit_or_dot in Hp. by apply orb_false_iff in Hp as [? _].
Qed.

Lemma quad_head q : quad q -> exists b q', q = b :: q' /\ is_ascii_digit b = true.
Proof.
  intros (a & b & c & d & [Hl Ha] & _ & _ & _ & ->). destruct a as [|x a]; [cbn in Hl; lia|]. inversion Ha; subst. by exists x, (a ++ DOT :: b ++ DOT :: c ++ DOT :: d).
Qed.

Lemma quad_numeric q : quad q -> Forall (fun b => digit_or_dot b = true) q.
Proof.
  assert (Hd : forall a, octet_text a -> Forall (fun b => digit_or_dot b = true) a).
  { intros a [_ H]. eapply Forall_impl; [exact H|]. intros b Hb. unfold digit_or_dot. by rewrite Hb. }
  intros (a & b & c & d & Ha & Hb & Hc & Hdd & ->). repeat (apply Forall_app; split; [by apply Hd|apply Forall_cons; split; [done|]]). by apply Hd.
Qed.

Lemma match_needs_digit s n : match_ipv4 s = Some n -> exists b s', s = b :: s' /\ is_ascii_digit b = true.
Proof. intros (q & post & -> & (b & q' & -> & Hb)%quad_head & _ & _)%match_ipv4_sound. by exists b, (q' ++ post). Qed.

(** The digits and dots a text begins with decide the match. *)
Fixpoint run_of (s : bytes) : bytes := match s with b :: s' => if digit_or_dot b then b :: run_of s' else [] | [] => [] end.

Lemma run_of_app q post : Forall (fun b => digit_or_dot b = true) q -> not_numeric (head post) -> run_of (q ++ post) = q.
Proof.
  intros Hq Hp. induction Hq as [|b q Hb Hq IH]; cbn; [|by rewrite Hb, IH]. destruct post as [|b post]; [done|]. cbn in *. by rewrite Hp.
Qed.

Lemma run_of_rest s : exists post, s = run_of s ++ post /\ not_numeric (head post).
Proof.
  induction s as [|b s (post & He & Hp)]; [by exists []|]. cbn. destruct (digit_or_dot b) eqn:E; [|by exists (b :: s)].
  exists post. cbn. by rewrite <- He.
Qed.

Lemma match_by_run s s' : run_of s = run_of s' -> match_ipv4 s = None -> match_ipv4 s' = None.
Proof.
  intros Hr Hn. destruct (match_ipv4 s') as [n|] eqn:E; [|done]. apply match_ipv4_sound in E as (q & post & -> & Hq & -> & Hp).
  rewrite run_of_app in Hr by (done || by apply quad_numeric). destruct (run_of_rest s) as (post' & He & Hp').
  rewrite Hr in He. rewrite He, match_ipv4_complete in Hn by done. done.
Qed.

(** ** Redacting a text *)

(** The text cut into pieces, of which the addresses are replaced. *)
Inductive Segment := Kept (s : bytes) | Address (q : bytes).
Definition original (g : Segment) : bytes := match g with Kept s => s | Address q => q end.
Definition printed (g : Segment) : bytes := match g with Kept s => s | Address _ => REDACTED end.
Definition segment_ok (g : Segment) : Prop := match g with Kept _ => True | Address q => quad q end.

Lemma valid_head b s : utf8_valid (b :: s) = true -> in_range 0x80 0xBF b = false.
Proof.
  intros H. destruct (in_range 0x80 0xBF b) eqn:E; [|done]. exfalso. unfold in_range in E. apply andb_true_iff in E as [H1 H2].
  apply Z.leb_le in H1, H2. cbn [utf8_valid] in H. unfold in_range in H.
  repeat match type of H with context [(?x <=? bz b) && (bz b <=? ?y)] =>
    let E := fresh in assert (E : (x <=? bz b) && (bz b <=? y) = false) by lia; rewrite E in H; clear E end.
  destruct s as [|? [|? [|? ?]]]; done.
Qed.

Lemma boundary_at pre rest : utf8_valid rest = true -> is_char_boundary (pre ++ rest) (length pre) = true.
Proof.
  intros Hv. unfold is_char_boundary. rewrite lookup_app_r, Nat.sub_diag by lia. destruct rest as [|b rest]; cbn.
  - apply Nat.eqb_eq. rewrite length_app. cbn. lia.
  - by rewrite (valid_head _ _ Hv).
Qed.

Lemma utf8_len_char c : char_ok c -> exists b t, utf8_char c = b :: t /\ utf8_len b = length (utf8_char c) /\
  (t = [] \/ Forall (fun x => digit_or_dot x = false) (b :: t)).
Proof.
  intros Hc. assert (0 <= c < 0x110000) by (unfold char_ok in Hc; lia). unfold utf8_char, utf8_len.
  assert (Hhi : forall z, 128 <= z < 256 -> digit_or_dot (zb z) = false).
  { intros z Hz. unfold digit_or_dot, is_ascii_digit, in_range. rewrite bz_small by lia. rewrite bool_decide_false; [lia|].
    intros He%(f_equal bz). rewrite bz_small in He by lia. change (bz DOT) with 46 in He. lia. }
  destruct (Z.ltb_spec c 0x80); [|destruct (Z.ltb_spec c 0x800); [|destruct (Z.ltb_spec c 0x10000)]]; eexists _, _;
    (split; [reflexivity|]); rewrite bz_small by (Z.div_mod_to_equations; lia).
  - rewrite (proj2 (Z.ltb_lt _ _)) by lia. split; [done|by left].
  - rewrite (proj2 (Z.ltb_ge _ _)), Z.shiftr_div_pow2 by (Z.div_mod_to_equations; lia).
    rewrite (proj2 (Z.eqb_eq _ 6)) by (change (2 ^ 5) with 32; Z.div_mod_to_equations; lia). split; [done|right].
    repeat constructor; apply Hhi; Z.div_mod_to_equations; lia.
  - rewrite (proj2 (Z.ltb_ge _ _)), !Z.shiftr_div_pow2 by (Z.div_mod_to_equations; lia).
    rewrite (proj2 (Z.eqb_neq _ 6)), (proj2 (Z.eqb_eq _ 14)) by (change (2 ^ 5) with 32; change (2 ^ 4) with 16; Z.div_mod_to_equations; lia).
    split; [done|right]. repeat constructor; apply Hhi; Z.div_mod_to_equations; lia.
  - rewrite (proj2 (Z.ltb_ge _ _)), !Z.shiftr_div_pow2 by (Z.div_mod_to_equations; lia).
    rewrite (proj2 (Z.eqb_neq _ 6)), (proj2 (Z.eqb_neq _ 14)) by (change (2 ^ 5) with 32; change (2 ^ 4) with 16; Z.div_mod_to_equations; lia).
    split; [done|right]. repeat constructor; apply Hhi; Z.div_mod_to_equations; lia.
Qed.

Lemma ascii_valid q s : Forall (fun b => digit_or_dot b = true) q -> utf8_valid (q ++ s) = utf8_valid s.
Proof.
  induction 1 as [|b q Hb Hq IH]; [done|]. cbn [app]. assert (Hr : 0 <= bz b <= 127).
  { unfold digit_or_dot, is_ascii_digit, in_range in Hb. apply orb_true_iff in Hb as [Hb|Hb%bool_decide_eq_true]; [lia|subst; vm_compute; split; discriminate]. }
  cbn [utf8_valid]. unfold in_range at 1. rewrite (proj2 (andb_true_iff _ _)) by lia. exact IH.
Qed.

Lemma left_boundary pre rest : left_boundary_ok (pre ++ rest) (length pre) = match last pre with Some b => negb (digit_or_dot b) | None => true end.
Proof.
  unfold left_boundary_ok. destruct pre as [|x pre] using rev_ind; [done|]. clear IHpre. rewrite last_snoc, length_app. cbn [length].
  destruct (Nat.eqb_spec (length pre + 1) 0); [lia|]. cbn [orb]. replace (length pre + 1 - 1)%nat with (length pre) by lia.
  rewrite <- app_assoc, lookup_app_r, Nat.sub_diag by lia. done.
Qed.

(** What the loop yields behind [pre]: it returns, a run of digits and dots that
    continues one is copied, and nowhere can an address be matched. *)
Definition redacted_after (pre rest out : bytes) : Prop :=
  utf8_valid out = true /\
  (exists gs, rest = concat (map original gs) /\ out = concat (map printed gs) /\ Forall segment_ok gs) /\
  (match last pre with Some b => digit_or_dot b = true | None => False end -> run_of out = run_of rest) /\
  (forall p s, out = p ++ s -> not_numeric (last (pre ++ p)) -> match_ipv4 s = None).

(** Keeping one character. *)
Lemma keep_char pre c rest out : char_ok c ->
  redacted_after (pre ++ utf8_char c) rest out ->
  (not_numeric (last pre) -> match_ipv4 (utf8_char c ++ rest) = None) ->
  redacted_after pre (utf8_char c ++ rest) (utf8_char c ++ out).
Proof.
  intros Hc (Hv & (gs & -> & -> & Hgs) & Hrun & Hno) Hm. set (o := concat (map printed gs)) in *. set (r := concat (map original gs)) in *.
  destruct (utf8_len_char c Hc) as (b & t & He & _ & Ht).
  assert (Hruns : run_of (utf8_char c ++ o) = run_of (utf8_char c ++ r)).
  { rewrite He. cbn. destruct (digit_or_dot b) eqn:Eb; [|done]. destruct Ht as [->|Hall]; [|inversion Hall; congruence]. cbn. f_equal.
    apply Hrun. by rewrite He, last_snoc. }
  split_and!; [by rewrite utf8_valid_char|exists (Kept (utf8_char c) :: gs); split_and!; [done|done|by constructor]|done|].
  intros p s Hs Hl. destruct p as [|x p].
  { cbn in Hs. subst s. rewrite app_nil_r in Hl. eapply match_by_run; [symmetry; exact Hruns|by apply Hm]. }
  apply app_eq_inv in Hs as [(k & Hk & ->)|(k & Hk & Ho)].
  - destruct k as [|y k].
    { cbn. rewrite app_nil_r in Hk. apply (Hno [] o); [done|]. by rewrite app_nil_r, Hk. }
    destruct (match_ipv4 ((y :: k) ++ o)) as [n|] eqn:E; [|done]. exfalso. apply match_needs_digit in E as (y' & s' & [= <- _] & Hy).
    rewrite He in Hk. destruct Ht as [->|Hall]; [by destruct p|].
    rewrite Hk in Hall. apply Forall_app in Hall as [_ Hall]. inversion Hall as [|? ? Hd]. unfold digit_or_dot in Hd. by rewrite Hy in Hd.
  - eapply Hno; [exact Ho|]. by rewrite <- app_assoc, <- Hk.
Qed.

(** Replacing an address. *)
Lemma replace_quad pre q rest out : quad q -> not_numeric (head rest) -> not_numeric (last pre) ->
  redacted_after (pre ++ q) rest out -> redacted_after pre (q ++ rest) (REDACTED ++ out).
Proof.
  intros Hq Hh Hl (Hv & (gs & -> & -> & Hgs) & Hrun & Hno). set (o := concat (map printed gs)) in *. set (r := concat (map original gs)) in *.
  split_and!; [exact Hv|exists (Address q :: gs); split_and!; [done|done|by constructor]| |].
  { intros Hd. by destruct (last pre) as [b|]; cbn in Hl; [rewrite Hl in Hd|]. }
  assert (Hlast : match last (pre ++ q) with Some b => digit_or_dot b = true | None => False end).
  { destruct q as [|x q] using rev_ind; [by apply quad_head in Hq as (? & ? & ? & _)|]. rewrite app_assoc, last_snoc.
    apply quad_numeric, Forall_app in Hq as [_ Hq]. by inversion Hq. }
  assert (Ho : match_ipv4 o = None).
  { destruct (match_ipv4 o) as [n|] eqn:E; [|done]. apply match_needs_digit in E as (b & s' & Ho & Hb).
    pose proof (Hrun Hlast) as Hr. rewrite Ho in Hr. cbn in Hr. unfold digit_or_dot in Hr at 1. rewrite Hb in Hr. cbn in Hr.
    destruct r as [|y r]; [done|]. cbn in Hr, Hh. by rewrite Hh in Hr. }
  intros p s Hs Hp. apply app_eq_inv in Hs as [(k & Hk & ->)|(k & Hk & Hs)].
  - destruct k as [|y k]; [exact Ho|]. destruct (match_ipv4 ((y :: k) ++ o)) as [n|] eqn:E; [|done]. exfalso.
    apply match_needs_digit in E as (y' & s' & [= <- _] & Hy).
    assert (Hall : Forall (fun x => is_ascii_digit x = false) REDACTED) by (by repeat constructor).
    rewrite Hk in Hall. apply Forall_app in Hall as [_ Hall]. inversion Hall as [|? ? Hd]. by rewrite Hy in Hd.
  - destruct k as [|y k]; [cbn in Hs; by subst s|]. eapply Hno; [exact Hs|]. rewrite Hk in Hp.
    rewrite !last_app in *. cbn [last] in *. destruct (last_is_Some (y :: k)) as [_ [z Hz]]; [done|]. by rewrite Hz in *.
Qed.

Lemma redact_loop_spec fuel pre rest : (length rest <= fuel)%nat -> utf8_valid rest = true ->
  exists out, redact_loop fuel (pre ++ rest) (length pre) = Ok out /\ redacted_after pre rest out.
Proof.
  revert pre rest. induction fuel as [|fuel IH]; intros pre rest Hlen Hv.
  all: destruct (utf8_valid_inv rest Hv) as [->|(c & rest' & Hc & -> & Hv')].
  1,3: exists []; cbn [redact_loop]; rewrite app_nil_r, (lookup_ge_None_2 pre) by lia; split; [done|];
    split_and!; [done|by exists []|done|intros [|? ?] [|? ?]; done].
  { pose proof (length_utf8_char c). rewrite length_app in Hlen. lia. }
  destruct (utf8_len_char c Hc) as (b & t & He & Hlenb & _). rewrite length_app in Hlen. pose proof (length_utf8_char c) as Hpos.
  assert (Hkeep : exists out, (match str_slice (pre ++ utf8_char c ++ rest') (length pre) (length pre + utf8_len b) with
      | Ok ch => match redact_loop fuel (pre ++ utf8_char c ++ rest') (length pre + utf8_len b) with Ok out => Ok (ch ++ out) | o => o end
      | o => o end) = Ok (utf8_char c ++ out) /\ redacted_after (pre ++ utf8_char c) rest' out).
  { destruct (IH (pre ++ utf8_char c) rest') as (out & Ho & Hr); [lia|done|]. exists out. split; [|done].
    rewrite <- app_assoc, length_app in Ho. rewrite Hlenb, Ho. unfold str_slice.
    rewrite boundary_at by done. rewrite (proj2 (Nat.leb_le _ _)) by lia. rewrite app_assoc, <- length_app, boundary_at by done.
    rewrite <- app_assoc, drop_app_length, length_app. replace (length pre + length (utf8_char c) - length pre)%nat with (length (utf8_char c)) by lia.
    by rewrite take_app_length. }
  destruct Hkeep as (out & Hk & Hr). cbn [redact_loop].
  assert (Hat : (pre ++ utf8_char c ++ rest') !! length pre = Some b) by (rewrite lookup_app_r, Nat.sub_diag by lia; by rewrite He).
  rewrite Hat. cbn iota.
  rewrite left_boundary, drop_app_length.
  destruct (last pre) as [l|] eqn:El; [destruct (digit_or_dot l) eqn:Edl|]; cbn [negb].
  1: exists (utf8_char c ++ out); split; [exact Hk|]; apply keep_char; [done..|]; rewrite El; cbn; congruence.
  all: destruct (match_ipv4 (utf8_char c ++ rest')) as [n|] eqn:Em;
    [|exists (utf8_char c ++ out); split; [exact Hk|by apply keep_char]].
  all: apply match_ipv4_sound in Em as (q & post & Hqp & Hq & -> & Hp).
  all: rewrite Hqp in Hv |- *; rewrite ascii_valid in Hv by (by apply quad_numeric).
  all: assert (Hl2 : (length q + length post = length (utf8_char c) + length rest')%nat) by (rewrite <- !length_app; by rewrite Hqp).
  all: destruct (quad_head q Hq) as (x & q' & Hqx & _); assert (length q = S (length q')) by (by rewrite Hqx).
  all: destruct (IH (pre ++ q) post) as (out' & Ho & Hr'); [lia|done|]; rewrite <- app_assoc, length_app in Ho; rewrite Ho;
    exists (REDACTED ++ out'); split; [done|]; apply replace_quad; [done|done| |done]; rewrite El; done.
Qed.

(** ** No report shows an address that stands on its own *)

Lemma redaction_spec text : utf8_valid text = true ->
  exists out, redact text = Ok out /\ utf8_valid out = true /\
    (exists gs, text = concat (map original gs) /\ out = concat (map printed gs) /\ Forall segment_ok gs) /\
    ~ exposes out.
Proof.
  intros Hv. destruct (redact_loop_spec (length text) [] text) as (out & Ho & Hvo & Hgs & _ & Hno); [lia|done|].
  exists out. split_and!; [done..|]. intros (pre & q & post & -> & Hq & Hl & Hh).
  pose proof (Hno pre (q ++ post) eq_refl Hl) as Hm. by rewrite match_ipv4_complete in Hm.
Qed.

(** C33: Whatever is logged, redaction returns (no slice falls inside a character) and
    yields valid text; it differs from the original only in that dotted quads are
    replaced, each by the marker; and no address that stands on its own is left in it,
    not even one that the replacement itself could have brought together. *)
Theorem redaction_complete (text : bytes) : utf8_valid text = true ->
  exists out, redact text = Ok out /\ utf8_valid out = true /\
    (exists gs, text = concat (map original gs) /\ out = concat (map printed gs) /\ Forall segment_ok gs) /\
    ~ exposes out.
Proof. apply redaction_spec. Qed.

Lemma redaction_complete_witness :
  utf8_valid (lit "héllo 8.8.8.8, 10.0.0.1:25565") = true /\ ~ exposes (lit "héllo [redacted-ip], [redacted-ip]:25565").
Proof.
  split; [reflexivity|]. destruct (redaction_complete (lit "héllo 8.8.8.8, 10.0.0.1:25565")) as (out & Ho & _ & _ & Hn); [reflexivity|].
  vm_compute in Ho. injection Ho as <-. exact Hn.
Defined.

(** An address at the end of a sentence is taken for a piece of a version number,
    and IPv6 addresses are not looked for. *)
Theorem sentence_end_leaks : redact (lit "kicked by 203.0.113.7.") = Ok (lit "kicked by 203.0.113.7.") /\
  redact (lit "peer 2001:db8::7") = Ok (lit "peer 2001:db8::7").
Proof. split; reflexivity. Qed.

(** ** The trail of recent actions *)

(** [now] is the time of day as text. *)
Definition record (now action : bytes) (ring : list bytes) : outcome unit (list bytes) :=
  match redact action with
  | Ok text =>
      let line := lit "[" ++ now ++ lit "] " ++ text in
      let ring := if (length ring =? MAX_BREADCRUMBS)%nat then tail ring else ring in
      Ok (ring ++ [line])
  | Err e => Err e | Panic => Panic | NoFuel => NoFuel
  end.

Fixpoint record_all (actions : list (bytes * bytes)) (ring : list bytes) : outcome unit (list bytes) :=
  match actions with
  | [] => Ok ring
  | (now, action) :: rest => match record now action ring with Ok ring' => record_all rest ring' | o => o end
  end.

(** A line of the trail: the time, then the action with its addresses replaced. *)
Definition trail_line (entry : bytes * bytes) (line : bytes) : Prop :=
  exists text, redact entry.2 = Ok text /\ ~ exposes text /\ line = lit "[" ++ entry.1 ++ lit "] " ++ text.

Lemma record_all_app a b ring : record_all (a ++ b) ring = match record_all a ring with Ok r => record_all b r | o => o end.
Proof. revert ring. induction a as [|[n x] a IH]; intros ring; [done|]. cbn. destruct (record n x ring); [apply IH|done..]. Qed.

(** Whatever happens before a crash, recording it neither fails nor panics, and
    the trail is exactly the last 150 actions in order, each under its time and with
    no address left in it. *)
Theorem trail_is_recent (actions : list (bytes * bytes)) : Forall (fun a => utf8_valid a.2 = true) actions ->
  exists lines, Forall2 trail_line actions lines /\ record_all actions [] = Ok (last_n MAX_BREADCRUMBS lines).
Proof.
  induction actions as [|[now action] actions IH] using rev_ind; intros Hv; [by exists []|].
  apply Forall_app in Hv as [Hv [Ha _]%Forall_cons]. destruct IH as (lines & Hl & Hr); [done|].
  destruct (redaction_spec action Ha) as (text & Ht & _ & _ & Hn).
  exists (lines ++ [lit "[" ++ now ++ lit "] " ++ text]). split; [apply Forall2_app; [done|repeat constructor; by exists text]|].
  rewrite record_all_app, Hr. cbn [record_all]. unfold record. rewrite Ht, last_n_snoc by (unfold MAX_BREADCRUMBS; lia).
  rewrite length_last_n. f_equal. f_equal. destruct (Nat.eqb_spec (Nat.min MAX_BREADCRUMBS (length lines)) MAX_BREADCRUMBS), (Nat.leb_spec MAX_BREADCRUMBS (Nat.min MAX_BREADCRUMBS (length lines))); try done; lia.
Qed.

Lemma trail_is_recent_witness :
  Forall (fun a => utf8_valid a.2 = true) [(lit "12:00:00.000", lit "New connection from 10.0.0.1:5")] /\
  exists lines, Forall2 trail_line [(lit "12:00:00.000", lit "New connection from 10.0.0.1:5")] lines /\
    record_all [(lit "12:00:00.000", lit "New connection from 10.0.0.1:5")] [] = Ok (last_n MAX_BREADCRUMBS lines).
Proof. split; [by repeat constructor|]. apply trail_is_recent. by repeat constructor. Defined.

(** ** The report *)

Record CrashMetadata := mkCrashMetadata {
  cm_version : bytes; cm_server_id : bytes; cm_bind : bytes; cm_online_mode : bool; cm_max_players : Z; cm_plugins_loaded : Z;
  (** whole seconds since [started_at] *)
  cm_uptime : Z }.

(** A [OnceLock]: only the first call has an effect. *)
Definition set_metadata (meta : CrashMetadata) (slot : option CrashMetadata) : option CrashMetadata :=
  match slot with Some m => Some m | None => Some meta end.

Definition NEWLINE : byte := zb 10.
Definition TAB : byte := zb 9.
Definition ellipsis : bytes := lit "…".

(** [str::lines]: a line ends at a line feed, which a carriage return may precede. *)
Definition chop (cur : bytes) : bytes := match reverse cur with b :: r => if bz b =? 13 then reverse r else cur | [] => cur end.
Fixpoint lines_from (cur s : bytes) : list bytes :=
  match s with
  | [] => match cur with [] => [] | _ => [cur] end
  | b :: s' => if bz b =? 10 then chop cur :: lines_from [] s' else lines_from (cur ++ [b]) s'
  end.
Definition text_lines (s : bytes) : list bytes := lines_from [] s.

Definition indent (text : bytes) : bytes := join_with [NEWLINE] (map (cons TAB) (text_lines text)).

Definition humanize_duration (secs : Z) : bytes :=
  let h := secs / 3600 in let m := secs mod 3600 / 60 in let s := secs mod 60 in
  if 0 <? h then number h ++ lit "h " ++ number m ++ lit "m " ++ number s ++ lit "s"
  else if 0 <? m then number m ++ lit "m " ++ number s ++ lit "s"
  else number s ++ lit "s".

Definition witty_line (seed : Z) : bytes :=
  let LINES := [lit "Don't worry, it's not your fault. Probably."; lit "This is a job for a crash report!"; lit "Oops. We tripped over a packet.";
                lit "Everything was fine until it wasn't."; lit "I bet this didn't happen in testing."; lit "Hold my keepalive."] in
  nth (Z.to_nat (seed mod 6)) LINES [].

(** A [u64] as [f64]: rounded to 53 significant bits, halves to even. *)
Definition half_even (num den : Z) : Z :=
  let q := num / den in let r := num mod den in
  if (2 * r <? den) || ((2 * r =? den) && Z.even q) then q else q + 1.
Definition as_f64 (n : Z) : Z :=
  let e := Z.log2 n - 52 in if e <=? 0 then n else half_even n (2 ^ e) * 2 ^ e.

(** Dividing by 1024 is exact, so the value is a fraction of [bytes as f64]; one digit
    behind the point, halves to even. *)
Definition human_bytes (n : Z) : bytes :=
  let UNITS := [lit "B"; lit "KiB"; lit "MiB"; lit "GiB"; lit "TiB"] in
  let v := as_f64 n in
  let unit := if v <? 1024 then 0%nat else if v <? 1024 ^ 2 then 1%nat else if v <? 1024 ^ 3 then 2%nat else if v <? 1024 ^ 4 then 3%nat else 4%nat in
  if (unit =? 0)%nat then number n ++ lit " B"
  else let tenths := half_even (v * 10) (1024 ^ Z.of_nat unit) in
       number (tenths / 10) ++ lit "." ++ number (tenths mod 10) ++ lit " " ++ nth unit UNITS [].

Example human_bytes_scales : human_bytes 512 = lit "512 B" /\ human_bytes 1024 = lit "1.0 KiB" /\ human_bytes (1024 * 1024 * 3) = lit "3.0 MiB" /\ human_bytes 1280 = lit "1.2 KiB".
Proof. split_and!; reflexivity. Qed.

(** The Linux readings: the contents of the files, [None] where reading failed. *)
Record OsFacts := mkOsFacts {
  os_release : option bytes; os_status : option bytes; os_meminfo : option bytes; os_maps : bytes + bytes;
  os_arch : bytes; os_cores : option Z; os_pid : Z }.

Fixpoint trim_matches (q : byte) (s : bytes) : bytes := match s with b :: s' => if bool_decide (b = q) then trim_matches q s' else s | [] => [] end.
Definition trim_quotes (s : bytes) : bytes := reverse (trim_matches x22 (reverse (trim_matches x22 s))).

Definition find_map {A B} (f : A -> option B) (l : list A) : option B := head (omap f l).

Definition os_description (f : OsFacts) : bytes :=
  let base := lit "linux (" ++ os_arch f ++ lit ")" in
  match os_release f with
  | None => base
  | Some content =>
      match find_map (strip_prefix (lit "PRETTY_NAME=")) (text_lines content) with
      | Some name => trim_quotes name ++ lit " — " ++ base
      | None => base
      end
  end.

Definition trim_text (s : bytes) : bytes := utf8 (trim (chars_of s)).
Definition trim_end_kb (s : bytes) : bytes :=
  let fix go (n : nat) (r : bytes) : bytes :=
    match n with O => r | S n' => match strip_prefix (reverse (lit " kB")) r with Some r' => go n' r' | None => r end end in
  reverse (go (length s) (reverse s)).
Definition mem_field (content key : bytes) : option Z :=
  find_map (fun l => rest ← strip_prefix key l; parse_uint (2 ^ 64 - 1) (trim_text (trim_end_kb (trim_text rest)))) (text_lines content).
Definition kib (n : Z) : bytes := human_bytes (wrapu 64 (n * 1024)).
Definition memory_usage (f : OsFacts) : bytes * bytes * bytes :=
  let status := default [] (os_status f) in let meminfo := default [] (os_meminfo f) in
  let shown content key := default (lit "?") (option_map kib (mem_field content key)) in
  (shown status (lit "VmRSS:"), shown meminfo (lit "MemTotal:"), shown status (lit "VmHWM:")).

Definition memory_map (f : OsFacts) : bytes :=
  match os_maps f with
  | inl maps =>
      let all := text_lines maps in
      concat (map (fun l => [TAB] ++ l ++ [NEWLINE]) (take MAX_MEMMAP_LINES all)) ++
      (if (MAX_MEMMAP_LINES <? length all)%nat
       then [TAB] ++ ellipsis ++ lit " (" ++ number (Z.of_nat (length all - MAX_MEMMAP_LINES)) ++ lit " more mappings omitted)" ++ [NEWLINE] else [])
  | inr e => [TAB] ++ lit "(unavailable: " ++ e ++ lit ")" ++ [NEWLINE]
  end.

Definition bool_text (b : bool) : bytes := if b then lit "true" else lit "false".

Definition system_details (meta : option CrashMetadata) (f : OsFacts) : list (bytes * bytes) :=
  let '(used, total, peak) := memory_usage f in
  (match meta with
   | Some m => [(lit "Kojacoord Version", cm_version m); (lit "Server ID", cm_server_id m); (lit "Bind Address", cm_bind m);
                (lit "Online Mode", bool_text (cm_online_mode m)); (lit "Max Players", number (cm_max_players m));
                (lit "Plugins Loaded", number (cm_plugins_loaded m)); (lit "Uptime", humanize_duration (cm_uptime m))]
   | None => [(lit "Kojacoord Version", lit "(metadata not yet initialised — crashed during startup)")]
   end) ++
  [(lit "Operating System", os_description f);
   (lit "CPU Cores", match os_cores f with Some n => number n | None => lit "unknown" end);
   (lit "Process ID", number (os_pid f));
   (lit "Memory", used ++ lit " in use / " ++ total ++ lit " total (peak " ++ peak ++ lit ")")].

(** [text.contains(needle)] *)
Fixpoint contains (needle text : bytes) : bool :=
  bool_decide (take (length needle) text = needle) || match text with [] => false | _ :: t => contains needle t end.

(** The clock: two renderings of the moment and its nanoseconds. *)
Record Moment := mkMoment { mo_full : bytes; mo_short : bytes; mo_file : bytes; mo_nanos : Z }.

Definition section_title (name : bytes) : bytes := [NEWLINE] ++ lit "-- " ++ name ++ lit " --" ++ [NEWLINE].

Definition build_report (trail : list bytes) (meta : option CrashMetadata) (f : OsFacts)
    (kind description cause : bytes) (backtrace : option bytes) (now : Moment) : bytes :=
  lit "---- Kojacoord Crash Report ----" ++ [NEWLINE; NEWLINE] ++
  lit "// " ++ witty_line (mo_nanos now) ++ [NEWLINE; NEWLINE] ++
  lit "Time: " ++ mo_full now ++ [NEWLINE] ++
  lit "Description: " ++ kind ++ lit " — " ++ description ++ [NEWLINE; NEWLINE] ++
  lit "Caused by:" ++ [NEWLINE] ++ indent cause ++ [NEWLINE; NEWLINE] ++
  lit "A detailed walkthrough of the error, its surrounding state, and all known" ++ [NEWLINE] ++ lit "details is as follows:" ++ [NEWLINE] ++
  replicate 78 (zb 0x2D) ++ [NEWLINE] ++
  section_title (lit "Last Actions (oldest first)") ++ lit "Details:" ++ [NEWLINE] ++
  (match trail with
   | [] => [TAB] ++ lit "(no actions recorded)" ++ [NEWLINE]
   | _ => concat (map (fun l => [TAB] ++ l ++ [NEWLINE]) trail)
   end) ++
  section_title (lit "Stacktrace") ++
  (match backtrace with
   | Some text =>
       if bool_decide (trim_text text = []) || contains (lit "disabled backtrace") text
       then [TAB] ++ lit "(backtrace unavailable — run with RUST_BACKTRACE=1 for symbol detail)" ++ [NEWLINE]
       else indent text ++ [NEWLINE]
   | None => [TAB] ++ lit "(not captured)" ++ [NEWLINE]
   end) ++
  section_title (lit "System Details") ++ lit "Details:" ++ [NEWLINE] ++
  concat (map (fun kv => [TAB] ++ kv.1 ++ lit ": " ++ kv.2 ++ [NEWLINE]) (system_details meta f)) ++
  section_title (lit "Memory Map / Loaded Modules") ++ lit "Details:" ++ [NEWLINE] ++ memory_map f ++ [NEWLINE] ++
  [NEWLINE] ++ lit "#@!@# Kojacoord crashed. Everything above is yours to share — secrets and" ++ [NEWLINE] ++
  lit "IP addresses have been stripped. (" ++ mo_short now ++ lit ")" ++ [NEWLINE].

(** The file a report is written to, and its contents; [written] says whether the
    directory and the file could be written. *)
Definition write_report (written : bool) (trail : list bytes) (meta : option CrashMetadata) (f : OsFacts)
    (kind description cause : bytes) (backtrace : option bytes) (now : Moment) : option (bytes * bytes) :=
  if written then Some (lit "logs/crash-report-" ++ mo_file now ++ lit ".txt", build_report trail meta f kind description cause backtrace now) else None.

(** The panic hook, up to the hook it replaced: a panic while the report is made is
    caught. *)
Definition panic_report (written : bool) (trail : list bytes) (meta : option CrashMetadata) (f : OsFacts)
    (message location thread : option bytes) (backtrace : bytes) (now : Moment) : option (bytes * bytes) :=
  let message := default (lit "<non-string panic payload>") message in
  let location := default (lit "<unknown location>") location in
  let thread := default (lit "<unnamed>") thread in
  match redact message with
  | Ok cause => write_report written trail meta f (lit "Unexpected panic") (lit "thread '" ++ thread ++ lit "' panicked at " ++ location) cause (Some backtrace) now
  | _ => None
  end.

Definition report_fatal_error (written : bool) (trail : list bytes) (meta : option CrashMetadata) (f : OsFacts)
    (context error backtrace : bytes) (now : Moment) : outcome unit (option (bytes * bytes)) :=
  match redact error with
  | Ok cause => Ok (write_report written trail meta f (lit "Fatal error") context cause (Some backtrace) now)
  | Err e => Err e | Panic => Panic | NoFuel => NoFuel
  end.

Lemma system_details_bind m f : exists before after,
  concat (map (fun kv => [TAB] ++ kv.1 ++ lit ": " ++ kv.2 ++ [NEWLINE]) (system_details (Some m) f)) =
  before ++ lit "Bind Address: " ++ cm_bind m ++ [NEWLINE] ++ after.
Proof.
  unfold system_details. destruct (memory_usage f) as [[used total] peak]. cbn [app map concat fst snd].
  rewrite <- !app_assoc. exists ([TAB] ++ lit "Kojacoord Version" ++ lit ": " ++ cm_version m ++ [NEWLINE; TAB] ++ lit "Server ID" ++ lit ": " ++ cm_server_id m ++ [NEWLINE; TAB]).
  eexists. rewrite <- !app_assoc. reflexivity.
Qed.

Definition has_part (t x : bytes) : Prop := exists pre post, t = pre ++ x ++ post.
Lemma has_part_l s t x : has_part t x -> has_part (s ++ t) x.
Proof. intros (pre & post & ->). exists (s ++ pre), post. by rewrite <- app_assoc. Qed.
Lemma has_part_r s t x : has_part s x -> has_part (s ++ t) x.
Proof. intros (pre & post & ->). exists pre, (post ++ t). by rewrite <- !app_assoc. Qed.

(** Whatever the proxy was bound to is printed as it is, in a report that ends by
    saying that addresses have been stripped. *)
Theorem report_names_bind_address trail m f kind description cause backtrace now : forall ip port,
  quad ip -> cm_bind m = ip ++ lit ":" ++ port ->
  exposes (build_report trail (Some m) f kind description cause backtrace now).
Proof.
  intros ip port Hip Hb. destruct (system_details_bind m f) as (before & after & He).
  assert (Hpart : has_part (build_report trail (Some m) f kind description cause backtrace now) (lit "Bind Address: " ++ ip ++ lit ":" ++ port)).
  { unfold build_report. rewrite He, Hb. do 35 (lazymatch goal with |- has_part ((before ++ _) ++ _) _ => apply has_part_r | |- has_part (before ++ _) _ => idtac | _ => apply has_part_l end).
    exists before, ([NEWLINE] ++ after). by rewrite <- !app_assoc. }
  destruct Hpart as (pre & post & ->). exists (pre ++ lit "Bind Address: "), ip, (lit ":" ++ port ++ post).
  split_and!; [by rewrite <- !app_assoc|done|by rewrite last_app|done].
Qed.
