(* ===== verification/Counters.v ===== *)
(** * Process-wide counters

    crates/proxy-core/src/metrics.rs.  The operations on an [AtomicU64] are relaxed,
    so a run is the sequence of them and a count wraps at 64 bits. *)
From Stdlib Require Import ZArith Lia Bool Strings.String Strings.Byte.
From stdpp Require Import base list gmap fin_maps numbers strings.
From S2P Require Import Prelude.
Local Open Scope Z_scope.
Local Open Scope koja_scope.

(** [AtomicU64::fetch_add] and [fetch_sub], relaxed: the count is all that is shared. *)
Definition atomic_add (x n : Z) : Z := wrapu 64 (x + n).
Definition atomic_sub (x n : Z) : Z := wrapu 64 (x - n).

Record ProxyMetrics := mkProxyMetrics {
  total_connections : Z; active_connections : Z; packets_relayed : Z; bytes_transferred : Z; failed_connections : Z }.

Definition new : ProxyMetrics := mkProxyMetrics 0 0 0 0 0.
Definition record_connection (m : ProxyMetrics) : ProxyMetrics :=
  mkProxyMetrics (atomic_add (total_connections m) 1) (atomic_add (active_connections m) 1) (packets_relayed m) (bytes_transferred m) (failed_connections m).
Definition record_disconnection (m : ProxyMetrics) : ProxyMetrics :=
  mkProxyMetrics (total_connections m) (atomic_sub (active_connections m) 1) (packets_relayed m) (bytes_transferred m) (failed_connections m).
Definition record_packet (size : Z) (m : ProxyMetrics) : ProxyMetrics :=
  mkProxyMetrics (total_connections m) (active_connections m) (atomic_add (packets_relayed m) 1) (atomic_add (bytes_transferred m) (wrapu 64 size)) (failed_connections m).
Definition record_failed_connection (m : ProxyMetrics) : ProxyMetrics :=
  mkProxyMetrics (total_connections m) (active_connections m) (packets_relayed m) (bytes_transferred m) (atomic_add (failed_connections m) 1).

Record MetricsSnapshot := mkSnapshot {
  sn_total_connections : Z; sn_active_connections : Z; sn_packets_relayed : Z; sn_bytes_transferred : Z; sn_failed_connections : Z }.
Definition snapshot (m : ProxyMetrics) : MetricsSnapshot :=
  mkSnapshot (total_connections m) (active_connections m) (packets_relayed m) (bytes_transferred m) (failed_connections m).
