(* ===== verification/Collector.v ===== *)
(** * Labels of the Prometheus series

    crates/metrics/src/collector.rs.  The Prometheus library is the list of calls made
    to it; the Unicode tables of the standard library are a parameter. *)
From Stdlib Require Import ZArith Lia Bool Strings.String Strings.Byte.
From stdpp Require Import base list gmap fin_maps numbers strings.
From S2P Require Import Prelude Buf Wire Codec Chars Utf8.
Local Open Scope Z_scope.
Local Open Scope koja_scope.

Definition LABEL_CARDINALITY_CAP : nat := Z.to_nat 1000.

(** A call to a metric, with its labels. *)
Inductive Call :=
  | Inc (metric : bytes) (labels : list bytes)
  | Dec (metric : bytes)
  | Observe (metric : bytes) (value : Z)
  | SetTo (metric : bytes) (labels : list bytes) (value : Z).

Record MetricsCollector := mkCollector { label_cardinality : gmap bytes (gset bytes); calls : list Call }.
Definition collector_new : MetricsCollector := mkCollector ∅ [].

(** [char::is_alphanumeric]: the Unicode tables of the standard library. *)
Section Labels.
Variable is_alphanumeric : Z -> bool.

Definition OTHER : bytes := lit "__other__".
Definition label_char (c : Z) : Z := if is_alphanumeric c || (c =? 95) || (c =? 46) then c else 95.
Definition sanitized (value : bytes) : bytes := utf8 (map label_char (take 64 (chars_of value))).

Definition sanitize_label (metric value : bytes) (m : gmap bytes (gset bytes)) : bytes * gmap bytes (gset bytes) :=
  let seen := default ∅ (m !! metric) in
  let m := <[metric := seen]> m in
  if bool_decide (value ∈ seen) then (value, m)
  else if (LABEL_CARDINALITY_CAP <=? size seen)%nat then (OTHER, m)
  else (sanitized value, <[metric := {[sanitized value]} ∪ seen]> m).

Definition call (c : Call) (s : MetricsCollector) : MetricsCollector := mkCollector (label_cardinality s) (calls s ++ [c]).
(** Sanitising, then a call with the label. *)
Definition labelled (metric value : bytes) (k : bytes -> Call) (s : MetricsCollector) : MetricsCollector :=
  let '(label, m) := sanitize_label metric value (label_cardinality s) in call (k label) (mkCollector m (calls s)).

Definition collector_record_connection (protocol_version : bytes) (s : MetricsCollector) : MetricsCollector :=
  call (Inc (lit "connections_active") [])
    (labelled (lit "protocol_version") protocol_version (fun l => Inc (lit "connections_by_protocol") [l]) (call (Inc (lit "connections_total") []) s)).
Definition record_disconnect : MetricsCollector -> MetricsCollector := call (Dec (lit "connections_active")).
Definition collector_record_packet (size : Z) (s : MetricsCollector) : MetricsCollector :=
  call (Observe (lit "packet_size_bytes") size) (call (Inc (lit "packets_relayed") []) s).
Definition record_packet_drop : MetricsCollector -> MetricsCollector := call (Inc (lit "packets_dropped") []).
(** Durations are the bits of an [f64]. *)
Definition record_request_duration (d : Z) : MetricsCollector -> MetricsCollector := call (Observe (lit "request_duration") d).
Definition record_relay_latency (d : Z) : MetricsCollector -> MetricsCollector := call (Observe (lit "relay_latency") d).
Definition record_violation (check_name severity : bytes) (s : MetricsCollector) : MetricsCollector :=
  labelled (lit "check_name") check_name (fun l => Inc (lit "violations_by_check") [l]) (call (Inc (lit "violations_total") [severity]) s).
Definition set_server_player_count (server_name : bytes) (count : Z) : MetricsCollector -> MetricsCollector :=
  labelled (lit "server_name") server_name (fun l => SetTo (lit "server_player_count") [l] count).
Definition set_server_status (server_name : bytes) (online : bool) : MetricsCollector -> MetricsCollector :=
  labelled (lit "server_name") server_name (fun l => SetTo (lit "server_status") [l] (if online then 1 else 0)).
Definition record_error (error_type : bytes) : MetricsCollector -> MetricsCollector :=
  labelled (lit "error_type") error_type (fun l => Inc (lit "errors_total") [l]).

Inductive CollectorOp :=
  | OpConnection (v : bytes) | OpDisconnect | OpPacket (n : Z) | OpDrop | OpDuration (d : Z) | OpLatency (d : Z)
  | OpViolation (check severity : bytes) | OpPlayers (server : bytes) (n : Z) | OpStatus (server : bytes) (online : bool) | OpError (e : bytes).
Definition collect (op : CollectorOp) : MetricsCollector -> MetricsCollector :=
  match op with
  | OpConnection v => collector_record_connection v | OpDisconnect => record_disconnect | OpPacket n => collector_record_packet n
  | OpDrop => record_packet_drop | OpDuration d => record_request_duration d | OpLatency d => record_relay_latency d
  | OpViolation c s => record_violation c s | OpPlayers n c => set_server_player_count n c | OpStatus n o => set_server_status n o
  | OpError e => record_error e
  end.
Definition collect_all (ops : list CollectorOp) : MetricsCollector := foldl (fun s op => collect op s) collector_new ops.

(** The key under which a metric's labels are counted; the severity of a violation
    is passed on as it is. *)
Definition label_key (metric : bytes) : option bytes :=
  if bool_decide (metric = lit "connections_by_protocol") then Some (lit "protocol_version")
  else if bool_decide (metric = lit "violations_by_check") then Some (lit "check_name")
  else if bool_decide (metric = lit "server_player_count" \/ metric = lit "server_status") then Some (lit "server_name")
  else if bool_decide (metric = lit "errors_total") then Some (lit "error_type")
  else None.

Definition call_series (c : Call) : option (bytes * bytes) :=
  match c with Inc m [l] | SetTo m [l] _ => Some (m, l) | _ => None end.

(** The labels a metric has been called with. *)
Definition series (metric : bytes) (s : MetricsCollector) : gset bytes :=
  list_to_set (omap (fun c => match call_series c with Some (m, l) => if bool_decide (m = metric) then Some l else None | None => None end) (calls s)).

(** ** The number of series is bounded *)

Definition collector_ok (s : MetricsCollector) : Prop :=
  (forall key seen, label_cardinality s !! key = Some seen -> (size seen <= LABEL_CARDINALITY_CAP)%nat) /\
  (forall metric key, label_key metric = Some key -> series metric s ⊆ {[OTHER]} ∪ default ∅ (label_cardinality s !! key)).

Lemma series_call metric c s : series metric (call c s) =
  series metric s ∪ match call_series c with Some (m, l) => if bool_decide (m = metric) then {[l]} else ∅ | None => ∅ end.
Proof.
  unfold series, call. cbn. rewrite omap_app, list_to_set_app_L. f_equal. cbn. destruct (call_series c) as [[m l]|]; [|done].
  case_bool_decide; cbn; set_solver.
Qed.

Lemma call_ok c s : (forall m l, call_series c = Some (m, l) -> label_key m = None) -> collector_ok s -> collector_ok (call c s).
Proof.
  intros Hc [H1 H2]. split; [exact H1|]. intros metric key Hk. rewrite series_call. destruct (call_series c) as [[m l]|] eqn:E; [|set_solver].
  case_bool_decide; [|set_solver]. subst m. rewrite (Hc _ _ eq_refl) in Hk. done.
Qed.

Lemma sanitize_label_spec metric value m l m' : sanitize_label metric value m = (l, m') ->
  (forall key seen, m !! key = Some seen -> (size seen <= LABEL_CARDINALITY_CAP)%nat) ->
  (forall key seen, m' !! key = Some seen -> (size seen <= LABEL_CARDINALITY_CAP)%nat) /\
  (forall key, default ∅ (m !! key) ⊆ default ∅ (m' !! key)) /\ l ∈ {[OTHER]} ∪ default ∅ (m' !! metric).
Proof.
  unfold sanitize_label. set (seen := default ∅ (m !! metric)). intros H Hm.
  assert (Hs : (size seen <= LABEL_CARDINALITY_CAP)%nat).
  { subst seen. destruct (m !! metric) eqn:E; cbn; [by eapply Hm|rewrite size_empty; lia]. }
  assert (Hsame : forall key, default ∅ (<[metric:=seen]> m !! key) = default ∅ (m !! key)).
  { intros key. destruct (decide (key = metric)) as [->|]; [by rewrite lookup_insert_eq|by rewrite lookup_insert_ne]. }
  destruct (bool_decide_reflect (value ∈ seen)); [|destruct (Nat.leb_spec LABEL_CARDINALITY_CAP (size seen))]; simplify_eq; split_and!.
  1,4: intros key sn Hk; destruct (decide (key = metric)) as [->|]; [rewrite lookup_insert_eq in Hk; by simplify_eq|rewrite lookup_insert_ne in Hk by done; by eapply Hm].
  1,3: intros key; by rewrite Hsame.
  1,2: rewrite Hsame; set_solver.
  - intros key sn Hk. destruct (decide (key = metric)) as [->|]; [|rewrite !lookup_insert_ne in Hk by done; by eapply Hm].
    rewrite lookup_insert_eq in Hk. simplify_eq. rewrite size_union_alt, size_singleton.
    pose proof (subseteq_size (seen ∖ {[sanitized value]}) seen ltac:(set_solver)). lia.
  - intros key. destruct (decide (key = metric)) as [->|]; [rewrite lookup_insert_eq; set_solver|by rewrite !lookup_insert_ne].
  - rewrite lookup_insert_eq. set_solver.
Qed.

Lemma labelled_ok metric value k s : (forall l, exists m, call_series (k l) = Some (m, l) /\ label_key m = Some metric) ->
  collector_ok s -> collector_ok (labelled metric value k s).
Proof.
  intros Hk [H1 H2]. unfold labelled. destruct (sanitize_label metric value (label_cardinality s)) as [l m] eqn:E.
  destruct (sanitize_label_spec _ _ _ _ _ E H1) as (H3 & H4 & Hl). split; [exact H3|].
  intros metric' key Hkey. rewrite series_call. cbn. destruct (Hk l) as (m0 & -> & Hm0).
  assert (Hold : series metric' s ⊆ {[OTHER]} ∪ default ∅ (m !! key)) by (pose proof (H2 _ _ Hkey); pose proof (H4 key); set_solver).
  change (series metric' (mkCollector m (calls s))) with (series metric' s).
  case_bool_decide; [|set_solver]. subst m0. rewrite Hkey in Hm0. injection Hm0 as ->. set_solver.
Qed.

Lemma collect_ok op s : collector_ok s -> collector_ok (collect op s).
Proof.
  intros H.
  assert (Hplain : forall c m l, call_series c = Some (m, l) -> label_key m = None -> forall m' l', call_series c = Some (m', l') -> label_key m' = None)
    by (intros c m l Hc Hn m' l' Hc'; rewrite Hc in Hc'; by injection Hc' as <- <-).
  destruct op; cbn [collect];
    unfold collector_record_connection, record_disconnect, collector_record_packet, record_packet_drop, record_request_duration, record_relay_latency,
      record_violation, set_server_player_count, set_server_status, record_error;
    repeat first [exact H | apply call_ok; [first [by intros ? ? [=] | eapply Hplain; reflexivity]|] | apply labelled_ok; [intros l; eexists; split; reflexivity|]].
Qed.

(** Whatever names clients, servers and checks give, no metric that carries one of
    them as its label has more than 1001 series; the severity of a violation is the one
    label that is not limited. *)
Theorem series_bounded (ops : list CollectorOp) (metric : bytes) : label_key metric <> None ->
  (size (series metric (collect_all ops)) <= 1001)%nat.
Proof.
  intros Hm. destruct (label_key metric) as [key|] eqn:E; [|done].
  assert (Hok : collector_ok (collect_all ops)).
  { unfold collect_all. assert (Hn : collector_ok collector_new) by (split; [intros ? ? H; cbn in H; by rewrite lookup_empty in H|intros; set_solver]).
    revert Hn. generalize collector_new. induction ops as [|op ops IH]; intros s Hs; [done|]. cbn. by apply IH, collect_ok. }
  destruct Hok as [H1 H2]. specialize (H2 _ _ E). apply subseteq_size in H2. rewrite size_union_alt, size_singleton in H2.
  pose proof (subseteq_size (default ∅ (label_cardinality (collect_all ops) !! key) ∖ {[OTHER]}) (default ∅ (label_cardinality (collect_all ops) !! key)) ltac:(set_solver)).
  destruct (label_cardinality (collect_all ops) !! key) as [seen|] eqn:Es; cbn in *.
  - specialize (H1 _ _ Es). unfold LABEL_CARDINALITY_CAP in H1. lia.
  - rewrite size_empty in *. lia.
Qed.

(** A name that sanitising changes is looked up as it came but remembered as it was
    changed: once the labels of the metric are used up it is counted under the common
    label, although its own label exists. *)
Theorem label_moves metric value seen m : m !! metric = Some seen -> value ∉ seen -> (LABEL_CARDINALITY_CAP <= size seen)%nat ->
  (sanitize_label metric value m).1 = OTHER.
Proof.
  intros Hm Hv Hs. unfold sanitize_label. rewrite Hm. cbn. rewrite bool_decide_false by done. by rewrite (proj2 (Nat.leb_le _ _)).
Qed.

(** Before that, it has its own. *)
Theorem label_first metric value seen m : m !! metric = Some seen -> value ∉ seen -> (size seen < LABEL_CARDINALITY_CAP)%nat ->
  (sanitize_label metric value m).1 = sanitized value.
Proof.
  intros Hm Hv Hs. unfold sanitize_label. rewrite Hm. cbn. rewrite bool_decide_false by done. by rewrite (proj2 (Nat.leb_gt _ _)).
Qed.
End Labels.

(** The standard library's tables on ASCII. *)
Definition ascii_alphanumeric (c : Z) : bool := ((48 <=? c) && (c <=? 57)) || ((65 <=? c) && (c <=? 90)) || ((97 <=? c) && (c <=? 122)).

Example label_sanitized : sanitized ascii_alphanumeric (lit "lobby-1") = lit "lobby_1".
Proof. reflexivity. Qed.

Lemma series_bounded_witness : label_key (lit "server_status") <> None /\
  (size (series (lit "server_status") (collect_all ascii_alphanumeric [OpStatus (lit "lobby-1") true; OpStatus (lit "lobby_1") true])) <= 1001)%nat.
Proof. split; [discriminate|]. apply series_bounded. discriminate. Defined.
