(* ===== verification/Analytics.v ===== *)
(** * Joins and leaves per hour

    crates/metrics/src/analytics.rs.  Times are in seconds; the rendering of an hour by
    chrono, and the least time chrono represents, are parameters.  Counts are taken to
    stay below 2^64. *)
From Stdlib Require Import ZArith Lia Bool Strings.String Strings.Byte.
From stdpp Require Import base list gmap fin_maps numbers strings.
From S2P Require Import Prelude Buf Wire Codec Chars Utf8.
Local Open Scope Z_scope.
Local Open Scope koja_scope.

Definition bytes_leb (a b : bytes) : bool :=
  (fix go (a b : bytes) : bool :=
     match a, b with
     | [], _ => true
     | _, [] => false
     | x :: a', y :: b' => if bz x <? bz y then true else if bz x =? bz y then go a' b' else false
     end) a b.

Inductive EventType := PlayerJoin | PlayerLeave | Violation | ServerStatusChange | ConnectionError | Custom (name : bytes).
(** Times are in seconds. *)
Record AnalyticsEvent := mkEvent { ev_timestamp : Z; ev_type : EventType; ev_data : Value }.

Record AnalyticsAggregates := mkAggregates {
  total_players : Z; peak_players : Z; total_violations : Z; violations_by_type : gmap bytes Z; uptime_seconds : Z; start_time : Z }.
Record AnalyticsEngine := mkEngine { hourly_buckets : gmap bytes (Z * Z); aggregates : AnalyticsAggregates; retention_hours : Z }.

Definition engine_new (retention now : Z) : AnalyticsEngine := mkEngine ∅ (mkAggregates 0 0 0 ∅ 0 now) retention.

Definition as_str (v : Value) : option bytes := match v with JString s => Some (utf8 s) | _ => None end.
Definition saturating_sub (a b : Z) : Z := Z.max 0 (a - b).

(** [Duration::hours]: a panic beyond the milliseconds of an [i64]. *)
Definition hours (n : Z) : outcome unit Z := if Z.abs (n * 3600) <=? (2 ^ 63 - 1) / 1000 then Ok (n * 3600) else Panic.

Section Engine.
(** [format("%Y-%m-%d-%H")]. *)
Variable hour_key : Z -> bytes.
(** The least time chrono represents: subtracting below it is a panic. *)
Variable MIN_UTC : Z.

Definition earlier (now d : Z) : outcome unit Z := if MIN_UTC <=? now - d then Ok (now - d) else Panic.

Definition count_event (e : AnalyticsEvent) (entry : Z * Z) (a : AnalyticsAggregates) : (Z * Z) * AnalyticsAggregates :=
  match ev_type e with
  | PlayerJoin =>
      let total := total_players a + 1 in
      ((entry.1 + 1, entry.2), mkAggregates total (if peak_players a <? total then total else peak_players a) (total_violations a) (violations_by_type a) (uptime_seconds a) (start_time a))
  | PlayerLeave =>
      ((entry.1, entry.2 + 1), mkAggregates (saturating_sub (total_players a) 1) (peak_players a) (total_violations a) (violations_by_type a) (uptime_seconds a) (start_time a))
  | Violation =>
      let by_type := match json_get (ev_data e) (chr "check_name") ≫= as_str with
                     | Some name => <[name := default 0 (violations_by_type a !! name) + 1]> (violations_by_type a)
                     | None => violations_by_type a
                     end in
      (entry, mkAggregates (total_players a) (peak_players a) (total_violations a + 1) by_type (uptime_seconds a) (start_time a))
  | _ => (entry, a)
  end.

Definition retain_from (cutoff : bytes) (m : gmap bytes (Z * Z)) : gmap bytes (Z * Z) := filter (fun p => bytes_leb cutoff p.1 = true) m.

Definition record_event (now : Z) (e : AnalyticsEvent) (g : AnalyticsEngine) : outcome unit AnalyticsEngine :=
  let key := hour_key (ev_timestamp e) in
  let '(entry, a) := count_event e (default (0, 0) (hourly_buckets g !! key)) (aggregates g) in
  let buckets := <[key := entry]> (hourly_buckets g) in
  match hours (wraps 64 (retention_hours g)) with
  | Ok d => match earlier now d with
            | Ok cutoff => Ok (mkEngine (retain_from (hour_key cutoff) buckets) a (retention_hours g))
            | _ => Panic
            end
  | _ => Panic
  end.

Definition get_aggregates (now : Z) (g : AnalyticsEngine) : AnalyticsAggregates * AnalyticsEngine :=
  let a := aggregates g in
  let a := mkAggregates (total_players a) (peak_players a) (total_violations a) (violations_by_type a) (wrapu 64 (now - start_time a)) (start_time a) in
  (a, mkEngine (hourly_buckets g) a (retention_hours g)).
Definition get_violation_stats (g : AnalyticsEngine) : gmap bytes Z := violations_by_type (aggregates g).

(** One entry per hour, the latest hour first until it is reversed. *)
Fixpoint history_from (g : AnalyticsEngine) (now : Z) (n : nat) (i : Z) : outcome unit (list (Z * Z)) :=
  match n with
  | O => Ok []
  | S n' =>
      match hours (wraps 64 i) with
      | Ok d =>
          match earlier now d with
          | Ok t =>
              let '(joins, leaves) := default (0, 0) (hourly_buckets g !! hour_key t) in
              match history_from g now n' (i + 1) with
              | Ok rest => Ok ((t - t mod 3600, saturating_sub joins leaves) :: rest)
              | o => o
              end
          | _ => Panic
          end
      | _ => Panic
      end
  end.
Definition get_player_history (n : Z) (now : Z) (g : AnalyticsEngine) : outcome unit (list (Z * Z)) :=
  match history_from g now (Z.to_nat n) 0 with Ok l => Ok (reverse l) | o => o end.

Fixpoint record_events (evs : list (Z * AnalyticsEvent)) (g : AnalyticsEngine) : outcome unit AnalyticsEngine :=
  match evs with
  | [] => Ok g
  | (now, e) :: rest => match record_event now e g with Ok g' => record_events rest g' | o => o end
  end.

(** ** What the numbers mean *)

Definition joined (e : AnalyticsEvent) : bool := match ev_type e with PlayerJoin => true | _ => false end.
Definition left (e : AnalyticsEvent) : bool := match ev_type e with PlayerLeave => true | _ => false end.

(** The population after a sequence of events, never below zero, and its greatest
    value on the way. *)
Definition population (evs : list AnalyticsEvent) : Z :=
  foldl (fun n e => if joined e then n + 1 else if left e then saturating_sub n 1 else n) 0 evs.
Fixpoint peak_of (evs : list AnalyticsEvent) (n peak : Z) : Z :=
  match evs with
  | [] => peak
  | e :: rest => let n := if joined e then n + 1 else if left e then saturating_sub n 1 else n in peak_of rest n (Z.max peak n)
  end.

Definition count (p : AnalyticsEvent -> bool) (key : bytes) (evs : list AnalyticsEvent) : Z :=
  Z.of_nat (length (List.filter (fun e => p e && bool_decide (hour_key (ev_timestamp e) = key)) evs)).

Lemma record_events_app a b g : record_events (a ++ b) g = match record_events a g with Ok g' => record_events b g' | o => o end.
Proof. revert g. induction a as [|[now e] a IH]; intros g; [done|]. cbn. destruct (record_event now e g); [apply IH|done..]. Qed.

Lemma population_snoc evs e : population (evs ++ [e]) = if joined e then population evs + 1 else if left e then saturating_sub (population evs) 1 else population evs.
Proof. unfold population. by rewrite foldl_app. Qed.

Lemma count_snoc p key evs e : count p key (evs ++ [e]) = count p key evs + (if p e && bool_decide (hour_key (ev_timestamp e) = key) then 1 else 0).
Proof. unfold count. rewrite List.filter_app, length_app. cbn. destruct (p e && _); cbn; lia. Qed.

Lemma peak_of_snoc evs e n peak : let pop := foldl (fun n e => if joined e then n + 1 else if left e then saturating_sub n 1 else n) n evs in
  peak_of (evs ++ [e]) n peak = Z.max (peak_of evs n peak) (if joined e then pop + 1 else if left e then saturating_sub pop 1 else pop).
Proof. revert n peak. induction evs as [|x evs IH]; intros n peak; cbn; [done|]. apply IH. Qed.

Lemma peak_of_ge evs n peak : peak <= peak_of evs n peak /\ foldl (fun n e => if joined e then n + 1 else if left e then saturating_sub n 1 else n) n evs <= Z.max n (peak_of evs n peak).
Proof. revert n peak. induction evs as [|x evs IH]; intros n peak; cbn; [lia|]. specialize (IH (if joined x then n + 1 else if left x then saturating_sub n 1 else n) (Z.max peak (if joined x then n + 1 else if left x then saturating_sub n 1 else n))). lia. Qed.

Lemma bytes_leb_refl a : bytes_leb a a = true.
Proof. unfold bytes_leb. induction a as [|x a IH]; [done|]. by rewrite Z.ltb_irrefl, Z.eqb_refl. Qed.

(** An hour no recording has pruned: its key is not before the cutoff of any. *)
Definition retained (retention : Z) (key : bytes) (evs : list (Z * AnalyticsEvent)) : Prop :=
  Forall (fun p => exists d c, hours (wraps 64 retention) = Ok d /\ earlier p.1 d = Ok c /\ bytes_leb (hour_key c) key = true) evs.

Lemma record_event_bucket now e g g' key : record_event now e g = Ok g' ->
  retained (retention_hours g) key [(now, e)] ->
  aggregates g' = (count_event e (default (0, 0) (hourly_buckets g !! hour_key (ev_timestamp e))) (aggregates g)).2 /\
  retention_hours g' = retention_hours g /\
  default (0, 0) (hourly_buckets g' !! key) =
    (let b := default (0, 0) (hourly_buckets g !! key) in
     if bool_decide (hour_key (ev_timestamp e) = key) then ((if joined e then b.1 + 1 else b.1), (if left e then b.2 + 1 else b.2)) else b).
Proof.
  intros H [(d & c & Hd & Hc & Hk) _]%Forall_cons. unfold record_event in H.
  destruct (count_event e _ _) as [entry a] eqn:E. rewrite Hd in H. cbn in Hc. rewrite Hc in H. simplify_eq. cbn. split_and!; [done|done|].
  unfold retain_from. rewrite map_lookup_filter. case_bool_decide as Hkey.
  - subst key. rewrite lookup_insert_eq. cbn. rewrite option_guard_True by done. cbn.
    unfold count_event in E. unfold joined, left. destruct (ev_type e); simplify_eq; cbn; try done; by destruct (default _ _).
  - rewrite lookup_insert_ne by done. destruct (hourly_buckets g !! key); cbn; [|done]. by rewrite option_guard_True.
Qed.

(** After any sequence of events the player total is the population they describe,
    the peak is the greatest it ever was, and for every hour that no recording has
    pruned the bucket holds exactly the joins and the leaves stamped with that hour. *)
Theorem analytics_exact (retention start : Z) (evs : list (Z * AnalyticsEvent)) (g : AnalyticsEngine) :
  record_events evs (engine_new retention start) = Ok g ->
  total_players (aggregates g) = population (map snd evs) /\
  peak_players (aggregates g) = peak_of (map snd evs) 0 0 /\
  forall key, retained retention key evs -> default (0, 0) (hourly_buckets g !! key) = (count joined key (map snd evs), count left key (map snd evs)).
Proof.
  revert g. enough (Hen : forall g, record_events evs (engine_new retention start) = Ok g ->
    retention_hours g = retention /\ total_players (aggregates g) = population (map snd evs) /\ peak_players (aggregates g) = peak_of (map snd evs) 0 0 /\
    forall key, retained retention key evs -> default (0, 0) (hourly_buckets g !! key) = (count joined key (map snd evs), count left key (map snd evs)))
    by (intros g Hg; by apply Hen in Hg as [_ Hg]).
  induction evs as [|[now e] evs IH] using rev_ind; intros g.
  { intros [= <-]. split_and!; done. }
  rewrite record_events_app. destruct (record_events evs _) as [g0| | |] eqn:E0; [|done..]. cbn [record_events].
  destruct (IH g0 eq_refl) as (Hr & Ht & Hp & Hb). destruct (record_event now e g0) as [g1| | |] eqn:E1; intros H; simplify_eq.
  rewrite map_app. cbn [map snd]. rewrite population_snoc, peak_of_snoc. fold (population (map snd evs)).
  pose proof (peak_of_ge (map snd evs) 0 0) as [Hp0 Hpk]. fold (population (map snd evs)) in Hpk.
  assert (Hag : retention_hours g = retention_hours g0 /\ aggregates g = (count_event e (default (0, 0) (hourly_buckets g0 !! hour_key (ev_timestamp e))) (aggregates g0)).2).
  { unfold record_event in E1. destruct (count_event e _ _). destruct (hours _); [|done..]. destruct (earlier _ _); [|done..]. by simplify_eq. }
  destruct Hag as [Hret Hag]. split_and!; [by rewrite Hret|..].
  - rewrite Hag. unfold count_event, joined, left. destruct (ev_type e); cbn; by rewrite ?Ht.
  - rewrite Hag. unfold count_event, joined, left. destruct (ev_type e); cbn; rewrite ?Ht, ?Hp; unfold saturating_sub;
      try (destruct (Z.ltb_spec (peak_of (map snd evs) 0 0) (population (map snd evs) + 1))); lia.
  - intros key [Hk1 Hk2]%Forall_app. apply (record_event_bucket _ _ _ _ key) in E1 as (_ & _ & ->); [|done].
    rewrite (Hb key Hk1), !count_snoc. cbn. case_bool_decide; rewrite ?andb_true_r, ?andb_false_r; [|f_equal; lia].
    f_equal; [destruct (joined e)|destruct (left e)]; lia.
Qed.

(** Nothing older than the retention stays behind a recording. *)
Theorem buckets_pruned now e g g' d c : record_event now e g = Ok g' -> hours (wraps 64 (retention_hours g)) = Ok d -> earlier now d = Ok c ->
  forall key entry, hourly_buckets g' !! key = Some entry -> bytes_leb (hour_key c) key = true.
Proof.
  intros H Hd Hc key entry Hk. unfold record_event in H. destruct (count_event e _ _). rewrite Hd, Hc in H. simplify_eq. cbn in Hk.
  unfold retain_from in Hk. apply map_lookup_filter_Some in Hk as [_ Hk]. exact Hk.
Qed.
End Engine.

(** Hours since the epoch as two bytes. *)
Definition demo_key (t : Z) : bytes := [zb (t / 3600 / 256); zb (t / 3600)].
Definition demo_event (t : Z) (ty : EventType) : Z * AnalyticsEvent := (t, mkEvent t ty JNull).

Lemma analytics_exact_witness : exists g,
  record_events demo_key 0 [demo_event 100000 PlayerJoin; demo_event 100100 PlayerJoin; demo_event 104000 PlayerLeave] (engine_new 24 100000) = Ok g /\
  total_players (aggregates g) = 1 /\ peak_players (aggregates g) = 2 /\ default (0, 0) (hourly_buckets g !! demo_key 100000) = (2, 0).
Proof.
  set (evs := [demo_event 100000 PlayerJoin; demo_event 100100 PlayerJoin; demo_event 104000 PlayerLeave]).
  assert (Hok : is_ok (record_events demo_key 0 evs (engine_new 24 100000)) = true) by (vm_compute; reflexivity).
  destruct (record_events demo_key 0 evs (engine_new 24 100000)) as [g| | |] eqn:E; [|discriminate Hok..]. exists g. split; [reflexivity|].
  destruct (analytics_exact demo_key 0 24 100000 evs g E) as (Ht & Hp & Hb). split_and!; [by rewrite Ht|by rewrite Hp|].
  rewrite Hb; [reflexivity|]. repeat constructor; eexists _, _; repeat split; reflexivity.
Defined.
