(* ===== verification/PlayerStats.v ===== *)
(** * What each player sent and received

    crates/proxy-core/src/metrics_player.rs: the counters the relay updates through a
    shared handle, packet traces, and the eviction of inactive players. *)
From Stdlib Require Import ZArith Lia Bool Strings.String Strings.Byte.
From stdpp Require Import base list gmap fin_maps numbers strings.
From S2P Require Import Prelude Counters.
Local Open Scope Z_scope.
Local Open Scope koja_scope.

(** Instants are in microseconds; [last_activity_micros] counts from
    [connected_at]. *)
Record PlayerMetrics := mkPlayer {
  packets_sent : Z; packets_received : Z; bytes_sent : Z; bytes_received : Z;
  connected_at : Z; last_activity_micros : Z; latency_ms : Z; latency_set : bool }.
Definition player_new (now : Z) : PlayerMetrics := mkPlayer 0 0 0 0 now 0 0 false.
Definition last_activity (m : PlayerMetrics) : Z := connected_at m + last_activity_micros m.

Record PlayerMetricsSnapshot := mkPlayerSnapshot {
  ps_packets_sent : Z; ps_packets_received : Z; ps_bytes_sent : Z; ps_bytes_received : Z; ps_connected_at : Z; ps_last_activity : Z; ps_latency : option Z }.
Definition player_snapshot (m : PlayerMetrics) : PlayerMetricsSnapshot :=
  mkPlayerSnapshot (packets_sent m) (packets_received m) (bytes_sent m) (bytes_received m) (connected_at m) (last_activity m)
    (if latency_set m then Some (latency_ms m) else None).

Record PacketTraceEntry := mkTraceEntry {
  te_timestamp : Z; te_direction : bytes; te_packet_id : Z; te_packet_name : bytes; te_size_bytes : Z; te_protocol_version : Z }.
Record PacketTrace := mkTrace { entries : list PacketTraceEntry; max_entries : nat }.
Definition trace_new (max : nat) : PacketTrace := mkTrace [] max.
(** [Vec::remove(0)] panics on an empty vector. *)
Definition trace_add (e : PacketTraceEntry) (t : PacketTrace) : outcome unit PacketTrace :=
  if (max_entries t <=? length (entries t))%nat
  then match entries t with [] => Panic | _ :: rest => Ok (mkTrace (rest ++ [e]) (max_entries t)) end
  else Ok (mkTrace (entries t ++ [e]) (max_entries t)).
Definition trace_clear (t : PacketTrace) : PacketTrace := mkTrace [] (max_entries t).

(** The map holds shared handles: a relay keeps the one it looked up, whatever
    happens to the map.  A handle is the number of the registration. *)
Record PlayerMetricsRegistry := mkRegistry {
  store : list PlayerMetrics; metrics : gmap bytes nat; traces : gmap bytes PacketTrace; trace_enabled : bool; max_trace_entries : nat }.
Definition registry_new (max_trace_entries : nat) : PlayerMetricsRegistry := mkRegistry [] ∅ ∅ false max_trace_entries.

Definition register_player (now : Z) (uuid : bytes) (r : PlayerMetricsRegistry) : nat * PlayerMetricsRegistry :=
  (length (store r), mkRegistry (store r ++ [player_new now]) (<[uuid := length (store r)]> (metrics r)) (traces r) (trace_enabled r) (max_trace_entries r)).
Definition unregister_player (uuid : bytes) (r : PlayerMetricsRegistry) : PlayerMetricsRegistry :=
  mkRegistry (store r) (delete uuid (metrics r)) (delete uuid (traces r)) (trace_enabled r) (max_trace_entries r).
Definition get (uuid : bytes) (r : PlayerMetricsRegistry) : option nat := metrics r !! uuid.

Definition with_handle (h : nat) (f : PlayerMetrics -> PlayerMetrics) (r : PlayerMetricsRegistry) : PlayerMetricsRegistry :=
  mkRegistry (alter f h (store r)) (metrics r) (traces r) (trace_enabled r) (max_trace_entries r).
Definition sent (size now_micros : Z) (m : PlayerMetrics) : PlayerMetrics :=
  mkPlayer (atomic_add (packets_sent m) 1) (packets_received m) (atomic_add (bytes_sent m) (wrapu 64 size)) (bytes_received m) (connected_at m) now_micros (latency_ms m) (latency_set m).
Definition received (size now_micros : Z) (m : PlayerMetrics) : PlayerMetrics :=
  mkPlayer (packets_sent m) (atomic_add (packets_received m) 1) (bytes_sent m) (atomic_add (bytes_received m) (wrapu 64 size)) (connected_at m) now_micros (latency_ms m) (latency_set m).
Definition record_sent (h : nat) (size now_micros : Z) : PlayerMetricsRegistry -> PlayerMetricsRegistry := with_handle h (sent size now_micros).
Definition record_received (h : nat) (size now_micros : Z) : PlayerMetricsRegistry -> PlayerMetricsRegistry := with_handle h (received size now_micros).
Definition set_latency (l : Z) (m : PlayerMetrics) : PlayerMetrics :=
  mkPlayer (packets_sent m) (packets_received m) (bytes_sent m) (bytes_received m) (connected_at m) (last_activity_micros m) l true.
Definition update_latency (uuid : bytes) (l : Z) (r : PlayerMetricsRegistry) : PlayerMetricsRegistry :=
  match metrics r !! uuid with Some h => with_handle h (set_latency l) r | None => r end.

Definition with_traces (t : gmap bytes PacketTrace) (r : PlayerMetricsRegistry) : PlayerMetricsRegistry :=
  mkRegistry (store r) (metrics r) t (trace_enabled r) (max_trace_entries r).
Definition add_trace_entry (uuid : bytes) (e : PacketTraceEntry) (r : PlayerMetricsRegistry) : outcome unit PlayerMetricsRegistry :=
  if negb (trace_enabled r) then Ok r
  else match trace_add e (default (trace_new (max_trace_entries r)) (traces r !! uuid)) with
       | Ok t => Ok (with_traces (<[uuid := t]> (traces r)) r)
       | Err x => Err x | Panic => Panic | NoFuel => NoFuel
       end.
Definition set_trace_enabled (enabled : bool) (r : PlayerMetricsRegistry) : PlayerMetricsRegistry :=
  mkRegistry (store r) (metrics r) (traces r) enabled (max_trace_entries r).
Definition get_metrics (uuid : bytes) (r : PlayerMetricsRegistry) : option PlayerMetricsSnapshot :=
  h ← metrics r !! uuid; player_snapshot <$> store r !! h.
Definition get_trace (uuid : bytes) (r : PlayerMetricsRegistry) : option (list PacketTraceEntry) := entries <$> traces r !! uuid.
Definition get_all_metrics (r : PlayerMetricsRegistry) : gmap bytes PlayerMetricsSnapshot :=
  omap (fun h => player_snapshot <$> store r !! h) (metrics r).
Definition clear_trace (uuid : bytes) (r : PlayerMetricsRegistry) : PlayerMetricsRegistry := with_traces (alter trace_clear uuid (traces r)) r.

(** [now.duration_since(last) >= timeout]; the difference is zero for a later
    instant. *)
Definition stale (now timeout : Z) (r : PlayerMetricsRegistry) (h : nat) : bool :=
  match store r !! h with Some m => timeout <=? Z.max 0 (now - last_activity m) | None => false end.
Definition evict_inactive (now timeout : Z) (r : PlayerMetricsRegistry) : PlayerMetricsRegistry :=
  let gone := dom (filter (fun p => stale now timeout r p.2 = true) (metrics r)) in
  mkRegistry (store r) (filter (fun p => p.1 ∉ gone) (metrics r)) (filter (fun p => p.1 ∉ gone) (traces r)) (trace_enabled r) (max_trace_entries r).

(** ** Traces *)

Fixpoint trace_all (es : list PacketTraceEntry) (t : PacketTrace) : outcome unit PacketTrace :=
  match es with [] => Ok t | e :: rest => match trace_add e t with Ok t' => trace_all rest t' | o => o end end.

Lemma trace_all_app a b t : trace_all (a ++ b) t = match trace_all a t with Ok t' => trace_all b t' | o => o end.
Proof. revert t. induction a as [|e a IH]; intros t; [done|]. cbn. destruct (trace_add e t); [apply IH|done..]. Qed.

(** A trace is the last packets, in order; one with no room panics on its first. *)
Theorem trace_is_recent (max : nat) (es : list PacketTraceEntry) : (0 < max)%nat ->
  trace_all es (trace_new max) = Ok (mkTrace (last_n max es) max).
Proof.
  intros Hm. induction es as [|e es IH] using rev_ind; [done|]. rewrite trace_all_app, IH. cbn [trace_all]. unfold trace_add. cbn [entries max_entries].
  rewrite last_n_snoc by done. destruct (Nat.leb_spec max (length (last_n max es))) as [Hl|]; [|done].
  destruct (last_n max es); [cbn in Hl; lia|done].
Qed.

Theorem empty_trace_panics e : trace_add e (trace_new 0) = Panic.
Proof. done. Qed.

(** ** Totals *)

Inductive Packet := Sent (size : Z) | Received (size : Z).
Definition count_packet (p : Packet) (now_micros : Z) : PlayerMetrics -> PlayerMetrics :=
  match p with Sent n => sent n now_micros | Received n => received n now_micros end.
Definition count_packets (ps : list (Packet * Z)) (m : PlayerMetrics) : PlayerMetrics := foldl (fun m p => count_packet p.1 p.2 m) m ps.
Definition sizes_sent (ps : list (Packet * Z)) : list Z := omap (fun p => match p.1 with Sent n => Some n | _ => None end) ps.
Definition sizes_received (ps : list (Packet * Z)) : list Z := omap (fun p => match p.1 with Received n => Some n | _ => None end) ps.
Definition sum (l : list Z) : Z := foldr Z.add 0 l.

Lemma counted x k : wrapu 64 (atomic_add x 1 + Z.of_nat k) = wrapu 64 (x + Z.of_nat (S k)).
Proof. unfold atomic_add, wrapu. rewrite Zplus_mod_idemp_l. f_equal. lia. Qed.
Lemma summed x n s : wrapu 64 (atomic_add x (wrapu 64 n) + s) = wrapu 64 (x + (n + s)).
Proof. unfold atomic_add, wrapu. rewrite Zplus_mod_idemp_l, <- Z.add_assoc, (Z.add_comm (n mod _)), Z.add_assoc, Zplus_mod_idemp_r. f_equal. lia. Qed.

Lemma count_packets_spec ps m :
  wrapu 64 (packets_sent (count_packets ps m)) = wrapu 64 (packets_sent m + Z.of_nat (length (sizes_sent ps))) /\
  wrapu 64 (packets_received (count_packets ps m)) = wrapu 64 (packets_received m + Z.of_nat (length (sizes_received ps))) /\
  wrapu 64 (bytes_sent (count_packets ps m)) = wrapu 64 (bytes_sent m + sum (sizes_sent ps)) /\
  wrapu 64 (bytes_received (count_packets ps m)) = wrapu 64 (bytes_received m + sum (sizes_received ps)).
Proof.
  revert m. induction ps as [|[[n|n] t] ps IH]; intros m.
  { unfold count_packets, sizes_sent, sizes_received, sum. cbn. by rewrite !Z.add_0_r. }
  all: unfold count_packets in *; cbn [foldl]; destruct (IH (count_packet (Sent n) t m)) as (H1 & H2 & H3 & H4); destruct (IH (count_packet (Received n) t m)) as (R1 & R2 & R3 & R4);
    unfold sizes_sent, sizes_received in *; cbn [omap list_omap fst length foldr] in *; unfold sum in *; cbn [foldr] in *; cbn [fst snd].
  - split_and!; [rewrite H1; apply counted|exact H2|rewrite H3; apply summed|exact H4].
  - split_and!; [exact R1|rewrite R2; apply counted|exact R3|rewrite R4; apply summed].
Qed.

(** ** Eviction *)

(** Eviction removes exactly the players whose last recorded activity is at least
    the time-out ago, with their traces, and changes nothing else. *)
Theorem eviction_exact (now timeout : Z) (r : PlayerMetricsRegistry) (uuid : bytes) :
  let gone := match metrics r !! uuid with Some h => stale now timeout r h | None => false end in
  let r' := evict_inactive now timeout r in
  metrics r' !! uuid = (if gone then None else metrics r !! uuid) /\
  traces r' !! uuid = (if gone then None else traces r !! uuid) /\ store r' = store r.
Proof.
  cbn zeta. set (gone := dom (filter (fun p => stale now timeout r p.2 = true) (metrics r))).
  assert (Hin : uuid ∈ gone <-> (match metrics r !! uuid with Some h => stale now timeout r h | None => false end) = true).
  { unfold gone. rewrite elem_of_dom. split.
    - intros [h [Hh Hs]%map_lookup_filter_Some]. by rewrite Hh.
    - destruct (metrics r !! uuid) as [h|] eqn:E; [|done]. intros Hs. exists h. by apply map_lookup_filter_Some. }
  unfold evict_inactive. cbn [metrics traces store]. fold gone. rewrite !map_lookup_filter. cbn.
  destruct (match metrics r !! uuid with Some h => stale now timeout r h | None => false end).
  - split_and!; [| |done]; [destruct (metrics r !! uuid)|destruct (traces r !! uuid)]; cbn; try done; rewrite option_guard_False; tauto.
  - assert (uuid ∉ gone) by (intros H; by apply Hin in H). split_and!; [| |done];
      [destruct (metrics r !! uuid)|destruct (traces r !! uuid)]; cbn; try done; by rewrite option_guard_True.
Qed.

(** The relay measures the time of a packet from the start of its leg, but
    [last_activity] adds it to the time the player connected: after an hour on the
    first server a player who has just moved to another counts as inactive for an
    hour, and eviction removes it. *)
Definition HOUR : Z := 3600 * 1000000.
Definition leg_packet (h : nat) (size epoch now : Z) : PlayerMetricsRegistry -> PlayerMetricsRegistry := record_sent h size (now - epoch).

Theorem active_player_evicted (uuid : bytes) (size : Z) :
  let '(h, r) := register_player 0 uuid (registry_new 1000) in
  let r := leg_packet h size 0 HOUR r in
  let r := leg_packet h size HOUR (HOUR + 1000) r in
  get uuid r = Some h /\ get uuid (evict_inactive (HOUR + 2000) HOUR r) = None.
Proof.
  cbn [register_player]. split; [apply lookup_insert_eq|]. unfold get.
  edestruct (eviction_exact (HOUR + 2000) HOUR) as (-> & _ & _). cbn [leg_packet record_sent with_handle metrics store registry_new]. rewrite lookup_insert_eq. done.
Qed.

(** A trace is made for any player while tracing is on, and only those with metrics
    are ever evicted. *)
Theorem orphan_trace_stays now timeout uuid e r r' : metrics r !! uuid = None -> add_trace_entry uuid e r = Ok r' ->
  traces (evict_inactive now timeout r') !! uuid = traces r' !! uuid.
Proof.
  intros Hm Ha. destruct (eviction_exact now timeout r' uuid) as (_ & -> & _).
  assert (metrics r' = metrics r) as ->; [|by rewrite Hm].
  unfold add_trace_entry in Ha. destruct (negb _); [by simplify_eq|]. destruct (trace_add _ _); by simplify_eq.
Qed.
