(* ===== verification/Accept.v ===== *)
(** * Accepting connections

    crates/proxy-core/src/proxy.rs, [accept_loop]: admission by the throttle and the
    reputation filter, the task of each connection, and the timers that prune the two
    filters. *)
From Stdlib Require Import ZArith Lia Bool Strings.String Strings.Byte.
From stdpp Require Import base list gmap fin_maps numbers strings.
From S2P Require Import Prelude Buf Wire Codec IpAddr Routing Throttle Reputation Counters.
Local Open Scope Z_scope.
Local Open Scope koja_scope.

(** How the task of a connection ended. *)
Inductive Ending := EndedOk | EndedErr | EndedPanic.
#[export] Instance ending_eq_dec : EqDecision Ending.
Proof. solve_decision. Defined.

Record State := mkState {
  st_throttle : ConnectionThrottle; st_reputation : IpReputationFilter; st_metrics : ProxyMetrics;
  (** the tasks that are running: the number of the connection and its address; the next number *)
  st_running : list (nat * IpAddr); st_next : nat;
  (** [accept_loop] has returned *)
  st_stopped : bool }.

Definition start (t : ConnectionThrottle) (r : IpReputationFilter) : State := mkState t r Counters.new [] 0 false.

(** One turn of the loop for a connection from [ip]; [answer] is what the reputation
    provider would say. *)
Definition accept_turn (now : Z) (answer : option bool) (ip : IpAddr) (s : State) : State :=
  let '(throttled, t) := throttle_check now ip (st_throttle s) in
  match throttled with
  | Ok _ =>
      let '(blocked, r) := reputation_check now answer ip (st_reputation s) in
      match blocked with
      | Ok _ => mkState t r (Counters.record_connection (st_metrics s)) (st_running s ++ [(st_next s, ip)]) (S (st_next s)) (st_stopped s)
      | _ => mkState t r (st_metrics s) (st_running s) (st_next s) (st_stopped s)
      end
  | _ => mkState t (st_reputation s) (st_metrics s) (st_running s) (st_next s) (st_stopped s)
  end.

(** What follows [conn.run()] in the task; a panic ends the task there. *)
Definition task_end (how : Ending) (m : ProxyMetrics) : ProxyMetrics :=
  match how with
  | EndedOk => Counters.record_disconnection m
  | EndedErr => Counters.record_disconnection (Counters.record_failed_connection m)
  | EndedPanic => m
  end.

Inductive Event :=
  | Incoming (now : Z) (answer : option bool) (ip : IpAddr)
  | AcceptFailed
  | TaskEnds (conn : nat) (how : Ending)
  | ThrottleTick (now : Z)
  | ReputationTick (now : Z).

Definition handle (e : Event) (s : State) : State :=
  match e with
  | Incoming now answer ip => if st_stopped s then s else accept_turn now answer ip s
  | AcceptFailed => mkState (st_throttle s) (st_reputation s) (st_metrics s) (st_running s) (st_next s) true
  | TaskEnds conn how =>
      if decide (conn ∈ (st_running s).*1)
      then mkState (st_throttle s) (st_reputation s) (task_end how (st_metrics s)) (List.filter (fun c => negb (c.1 =? conn)%nat) (st_running s)) (st_next s) (st_stopped s)
      else s
  | ThrottleTick now => mkState (throttle_evict_stale now (st_throttle s)) (st_reputation s) (st_metrics s) (st_running s) (st_next s) (st_stopped s)
  | ReputationTick now => mkState (st_throttle s) (reputation_evict_stale now (st_reputation s)) (st_metrics s) (st_running s) (st_next s) (st_stopped s)
  end.

(** The state with the number of tasks that ended in a panic and of those that failed. *)
Fixpoint run (es : list Event) (s : State) (panics failures : Z) : State * Z * Z :=
  match es with
  | [] => (s, panics, failures)
  | e :: rest =>
      let ends how := match e with TaskEnds conn h => bool_decide (conn ∈ (st_running s).*1) && bool_decide (h = how) | _ => false end in
      run rest (handle e s) (panics + if ends EndedPanic then 1 else 0) (failures + if ends EndedErr then 1 else 0)
  end.


(** ** The counters tell the truth *)

Definition sound (s : State) (panics failures : Z) : Prop :=
  Counters.total_connections (st_metrics s) = wrapu 64 (Z.of_nat (st_next s)) /\
  Counters.active_connections (st_metrics s) = wrapu 64 (Z.of_nat (length (st_running s)) + panics) /\
  Counters.failed_connections (st_metrics s) = wrapu 64 failures /\
  NoDup (st_running s).*1 /\ Forall (fun c => c < st_next s)%nat (st_running s).*1.

Lemma bump x k : x = wrapu 64 k -> atomic_add x 1 = wrapu 64 (k + 1).
Proof. intros ->. unfold atomic_add, wrapu. by rewrite Zplus_mod_idemp_l. Qed.
Lemma drop_one x k : x = wrapu 64 k -> atomic_sub x 1 = wrapu 64 (k - 1).
Proof. intros ->. unfold atomic_sub, wrapu. by rewrite Zminus_mod_idemp_l. Qed.

Lemma remove_conn (l : list (nat * IpAddr)) conn : NoDup l.*1 -> conn ∈ l.*1 ->
  let l' := List.filter (fun c => negb (c.1 =? conn)%nat) l in
  Z.of_nat (length l') = Z.of_nat (length l) - 1 /\ NoDup l'.*1 /\ (forall c, c ∈ l'.*1 -> c ∈ l.*1) /\ (forall c, c ∈ l' -> c ∈ l).
Proof.
  induction l as [|[n ip] l IH]; cbn; [by intros _ H%elem_of_nil|]. intros [Hn Hd]%NoDup_cons Hin.
  assert (Hkeep : forall k, k ∉ l.*1 -> List.filter (fun c => negb (c.1 =? k)%nat) l = l).
  { clear. intros k Hk. induction l as [|[m j] l IH]; [done|]. cbn in *. apply not_elem_of_cons in Hk as [H1 H2].
    destruct (Nat.eqb_spec m k); [congruence|]. cbn. by rewrite IH. }
  destruct (Nat.eqb_spec n conn) as [->|Hne]; cbn.
  - rewrite Hkeep by done. split_and!; [lia|done|set_solver|set_solver].
  - apply elem_of_cons in Hin as [->|Hin]; [done|]. destruct (IH Hd Hin) as (Hl & Hnd & Hs & Hs'). split_and!; [lia| |set_solver|set_solver].
    apply NoDup_cons. split; [|done]. intros Hc. by apply Hs in Hc.
Qed.

Lemma handle_sound e s p f : sound s p f ->
  let ends how := match e with TaskEnds conn h => bool_decide (conn ∈ (st_running s).*1) && bool_decide (h = how) | _ => false end in
  sound (handle e s) (p + if ends EndedPanic then 1 else 0) (f + if ends EndedErr then 1 else 0).
Proof.
  intros (Ht & Ha & Hf & Hd & Hlt). destruct e as [now answer ip| |conn how|now|now]; cbn [handle]; rewrite ?Z.add_0_r; try (by split_and!).
  - destruct (st_stopped s); [by split_and!|]. unfold accept_turn. destruct (throttle_check _ _ _) as [[] t]; try (by split_and!).
    destruct (reputation_check _ _ _ _) as [[] r]; try (by split_and!). unfold sound; cbn.
    rewrite (bump _ _ Ht), (bump _ _ Ha), fmap_app, length_app. cbn. split_and!; [f_equal; lia|f_equal; lia|done| |].
    + apply NoDup_app. split_and!; [done| |by apply NoDup_singleton]. intros c Hc ->%list_elem_of_singleton.
      rewrite Forall_forall in Hlt. specialize (Hlt _ Hc). cbn in Hlt. lia.
    + apply Forall_app. split; [eapply Forall_impl; [exact Hlt|]; cbn; lia|]. constructor; [lia|constructor].
  - destruct (decide _) as [Hin|Hin]; [|rewrite bool_decide_false by done; cbn; rewrite !Z.add_0_r; by split_and!].
    rewrite bool_decide_true by done. cbn [andb]. destruct (remove_conn _ _ Hd Hin) as (Hl & Hnd & Hs & _).
    unfold sound. cbn [st_metrics st_next st_running]. rewrite Hl.
    split_and!; [by destruct how| | |done|apply Forall_forall; intros c Hc%Hs; rewrite Forall_forall in Hlt; by apply Hlt].
    + destruct how; case_bool_decide; try done; cbn [task_end Counters.record_disconnection Counters.record_failed_connection Counters.active_connections];
        rewrite ?(drop_one _ _ Ha); [f_equal; lia..|rewrite Ha; f_equal; lia].
    + destruct how; case_bool_decide; try done; cbn [task_end Counters.record_disconnection Counters.record_failed_connection Counters.failed_connections];
        rewrite ?(bump _ _ Hf), ?Z.add_0_r; done.
Qed.

(** C32: Whatever connects, fails and ends, in any order: the total is the number of
    connections that passed both filters, the active count is the number of tasks that
    are running plus those that ended in a panic, and the failed count is the number of
    those that ended in an error. *)
Theorem connection_accounting (t : ConnectionThrottle) (r : IpReputationFilter) (es : list Event) :
  let '(s, panics, failures) := run es (start t r) 0 0 in sound s panics failures.
Proof.
  enough (H : forall s p f, sound s p f -> let '(s', p', f') := run es s p f in sound s' p' f')
    by (apply H; split_and!; [done..|constructor|constructor]).
  induction es as [|e es IH]; intros s p f Hs; [done|]. cbn [run]. apply IH. by apply handle_sound.
Qed.

(** A connection that is being served came from no address of the block list. *)
Definition unblocked (s : State) : Prop :=
  Forall (fun c => existsb (fun cidr => cidr_matches cidr c.2) (blocklist_cidrs (st_reputation s)) = false) (st_running s).

Lemma reputation_keeps_list now answer ip f : blocklist_cidrs (reputation_check now answer ip f).2 = blocklist_cidrs f.
Proof. unfold reputation_check. repeat case_match; done. Qed.

Lemma handle_unblocked e s : unblocked s -> unblocked (handle e s).
Proof.
  unfold unblocked. intros H. destruct e as [now answer ip| |conn how|now|now]; cbn [handle]; try exact H.
  - destruct (st_stopped s); [done|]. unfold accept_turn. destruct (throttle_check _ _ _) as [[] t]; try exact H.
    pose proof (reputation_keeps_list now answer ip (st_reputation s)) as Hk. destruct (reputation_check _ _ _ _) as [res f] eqn:E. cbn in Hk.
    destruct res; cbn; rewrite Hk; try exact H. apply Forall_app. split; [exact H|]. constructor; [|constructor]. cbn.
    unfold reputation_check in E. destruct (existsb _ _); [|done]. by simplify_eq.
  - destruct (decide _) as [Hin|]; [|exact H]. cbn. rewrite Forall_forall in H |- *. intros c Hc%list_elem_of_In.
    apply List.filter_In in Hc as [Hc _]. by apply H, list_elem_of_In.
Qed.

(** No connection from an address of the static block list is ever served,
    whatever the throttle, the provider and the other connections do. *)
Theorem blocked_never_served (t : ConnectionThrottle) (r : IpReputationFilter) (es : list Event) :
  unblocked (run es (start t r) 0 0).1.1.
Proof.
  enough (H : forall s p f, unblocked s -> unblocked (run es s p f).1.1) by (apply H; constructor).
  induction es as [|e es IH]; intros s p f Hs; [done|]. cbn [run]. by apply IH, handle_unblocked.
Qed.

(** A task that panics stays in the active count for ever, and one failing [accept]
    ends the loop: nobody is let in after it. *)
Theorem panic_stays_active : exists es s p f, run es (start throttle_new (reputation_new (mkReputationConfig [] None 60))) 0 0 = (s, p, f) /\
  st_running s = [] /\ Counters.active_connections (st_metrics s) = 1.
Proof. exists [Incoming 0 None (V4 [x7f; x00; x00; x01]); TaskEnds 0 EndedPanic]. eexists _, _, _. split; [vm_compute; reflexivity|]. done. Qed.

Theorem accept_error_is_final es s p f : st_stopped s = true -> st_next (run es s p f).1.1 = st_next s.
Proof.
  revert s p f. induction es as [|e es IH]; intros s p f Hs; [done|]. cbn [run]. rewrite IH.
  - destruct e; cbn; rewrite ?Hs; try done. by destruct (decide _).
  - destruct e; cbn; rewrite ?Hs; try done. by destruct (decide _).
Qed.
