(* ===== verification/Watcher.v ===== *)
(** * Reloading changed plugins

    crates/proxy-core/src/proxy.rs, [start_plugin_hot_reload_watcher]: the scans of the
    plugin directory and the reloads they queue.  A directory listing is the input of
    a scan. *)
From Stdlib Require Import ZArith Lia Bool Strings.String Strings.Byte.
From stdpp Require Import base list gmap fin_maps numbers strings.
From S2P Require Import Prelude Buf Wire Codec Routing Plugins.
Local Open Scope Z_scope.
Local Open Scope koja_scope.

(** A file of the plugin directory, with its time of modification where it could be
    read; [None] is an entry that could not be read, which ends the scan. *)
Definition Listing := list (option (Path * option Z)).

Definition is_plugin (p : Path) : bool :=
  match extension_of p with
  | Some ext => bool_decide (to_ascii_lowercase ext ∈ [lit "dll"; lit "so"; lit "dylib"; lit "kpl"; lit "wasm"])
  | None => false
  end.

Section Scan.
(** [config.plugins.configs] *)
Variable configs : gmap bytes (gmap bytes bytes).

Definition Request : Type := Path * gmap bytes bytes.

(** One file: its recorded time, and whether it has changed. *)
Definition look (p : Path) (mtime : Z) (mtimes : gmap bytes Z) : list Request * gmap bytes Z :=
  let prev := mtimes !! p_display p in
  let mtimes := <[p_display p := mtime]> mtimes in
  let changed := match prev with Some m => negb (m =? mtime) | None => false end in
  (if changed then [(p, default ∅ (configs !! plugin_name_of p))] else [], mtimes).

Fixpoint scan (l : Listing) (mtimes : gmap bytes Z) : list Request * gmap bytes Z :=
  match l with
  | [] | None :: _ => ([], mtimes)
  | Some (p, mtime) :: rest =>
      if is_plugin p then
        match mtime with
        | Some t => let '(r, mtimes) := look p t mtimes in let '(r', mtimes) := scan rest mtimes in (r ++ r', mtimes)
        | None => scan rest mtimes
        end
      else scan rest mtimes
  end.

(** The ticks after the first, which is skipped; [None] where the directory could not
    be read. *)
Fixpoint watch (ticks : list (option Listing)) (mtimes : gmap bytes Z) : list Request * gmap bytes Z :=
  match ticks with
  | [] => ([], mtimes)
  | None :: rest => watch rest mtimes
  | Some l :: rest => let '(r, mtimes) := scan l mtimes in let '(r', mtimes) := watch rest mtimes in (r ++ r', mtimes)
  end.

(** The processor: the requests in their order; a reload that panics is reported and
    the lock recovered. *)
Section Process.
Context {G L : Type}.
Variable T : PluginTrait G.
Variable load_wasm : bytes -> bytes -> bytes -> PluginContext -> M L bytes (G * PluginMetadata).
Variable read_file : Path -> Plugins.result bytes.
Variable to_lowercase : bytes -> bytes.

Fixpoint process_reloads (reqs : list Request) (m : PluginManager) : PluginManager :=
  match reqs with
  | [] => m
  | (path, cfg) :: rest => process_reloads rest (reload_plugin T load_wasm read_file to_lowercase path cfg m).2
  end.
End Process.

(** *** Which changes are noticed *)

(** What the scans saw, in order: every readable plugin file with its time. *)
Fixpoint seen_in (l : Listing) : list (Path * Z) :=
  match l with
  | [] | None :: _ => []
  | Some (p, Some t) :: rest => if is_plugin p then (p, t) :: seen_in rest else seen_in rest
  | Some (_, None) :: rest => seen_in rest
  end.
Definition seen (ticks : list (option Listing)) : list (Path * Z) := concat (map (fun o => match o with Some l => seen_in l | None => [] end) ticks).

Definition latest (p : Path) (before : list (Path * Z)) : option Z :=
  snd <$> List.find (fun o => bool_decide (p_display o.1 = p_display p)) (reverse before).

(** The sightings whose time differs from that of the last sighting of the same file. *)
Fixpoint changes (before after : list (Path * Z)) : list (Path * Z) :=
  match after with
  | [] => []
  | o :: rest => (match latest o.1 before with Some t => if t =? o.2 then [] else [o] | None => [] end) ++ changes (before ++ [o]) rest
  end.

Definition records (mtimes : gmap bytes Z) (before : list (Path * Z)) : Prop :=
  forall p, mtimes !! p_display p = latest p before.

Lemma records_snoc mtimes before p t : records mtimes before -> records (<[p_display p := t]> mtimes) (before ++ [(p, t)]).
Proof.
  intros H q. unfold latest. rewrite reverse_snoc. cbn. case_bool_decide as E.
  - cbn. rewrite E. apply lookup_insert_eq.
  - rewrite lookup_insert_ne by done. apply H.
Qed.

Definition request (o : Path * Z) : Request := (o.1, default ∅ (configs !! plugin_name_of o.1)).

Lemma changes_app before a b : changes before (a ++ b) = changes before a ++ changes (before ++ a) b.
Proof.
  revert before. induction a as [|o a IH]; intros before; cbn; [by rewrite app_nil_r|]. by rewrite IH, <- !app_assoc.
Qed.

Lemma scan_spec l mtimes before : records mtimes before ->
  (scan l mtimes).1 = map request (changes before (seen_in l)) /\ records (scan l mtimes).2 (before ++ seen_in l).
Proof.
  revert mtimes before. induction l as [|[[p [t|]]|] l IH]; intros mtimes before H; cbn [scan seen_in]; try (by rewrite app_nil_r).
  - destruct (is_plugin p); [|by apply IH]. unfold look. pose proof (records_snoc _ _ p t H) as H'.
    destruct (IH _ _ H') as [H1 H2]. destruct (scan l _) as [r m]. cbn in *. rewrite <- app_assoc in H2. split; [|exact H2].
    rewrite map_app, H1. f_equal. rewrite (H p). destruct (latest p before); [|done]. by destruct (_ =? t).
  - destruct (is_plugin p); by apply IH.
Qed.

Lemma watch_spec (ticks : list (option Listing)) : (watch ticks ∅).1 = map request (changes [] (seen ticks)).
Proof.
  enough (H : forall mtimes before, records mtimes before -> (watch ticks mtimes).1 = map request (changes before (seen ticks))) by (by apply H).
  unfold seen. induction ticks as [|[l|] ticks IH]; intros mtimes before H; cbn; [done| |by apply IH].
  destruct (scan_spec l mtimes before H) as [H1 H2]. destruct (scan l mtimes) as [r m]. cbn in *. specialize (IH _ _ H2).
  destruct (watch ticks m) as [r' m']. cbn in *. by rewrite H1, IH, changes_app, map_app.
Qed.

(** Over any sequence of scans, whatever appears, disappears or cannot be read, a
    reload is queued exactly for the sightings of a plugin file whose time differs
    from that of its last sighting, in order and with the configuration of that
    plugin; in particular nothing is queued when a file is first seen. *)
Theorem reloads_exact (ticks : list (option Listing)) : (watch ticks ∅).1 = map request (changes [] (seen ticks)).
Proof. apply watch_spec. Qed.

(** The baseline is the first scan, one interval after the start: a plugin that is
    replaced before it is not reloaded. *)
Theorem first_scan_is_baseline (l : Listing) : NoDup (map (fun o => p_display o.1) (seen_in l)) -> (watch [Some l] ∅).1 = [].
Proof.
  intros Hd. rewrite watch_spec. unfold seen. cbn. rewrite app_nil_r.
  assert (Hgen : forall before after, NoDup (map (fun o => p_display o.1) (before ++ after)) -> changes before after = []).
  { intros before after. revert before. induction after as [|o after IH]; intros before Hn; [done|]. cbn.
    rewrite IH by (by rewrite <- app_assoc). rewrite app_nil_r.
    destruct (latest o.1 before) as [t|] eqn:E; [|done]. exfalso. unfold latest in E.
    destruct (List.find _ _) as [[q s]|] eqn:F; [|done]. apply List.find_some in F as [Hin He%bool_decide_eq_true].
    rewrite map_app in Hn. apply NoDup_app in Hn as (_ & Hn & _). apply (Hn (p_display o.1)); [|cbn; by left].
    cbn in He. rewrite <- He. apply list_elem_of_In, (in_map (fun o => p_display o.1) before (q, s)).
    apply list_elem_of_In, elem_of_reverse, list_elem_of_In. exact Hin. }
  by rewrite Hgen.
Qed.
End Scan.
