(* ===== verification/VersionCheck.v ===== *)
(** * The notice of a newer release

    crates/proxy-core/src/version_check.rs.  The answer of the release API is the
    input. *)
From Stdlib Require Import ZArith Lia Bool Strings.String Strings.Byte.
From stdpp Require Import base list gmap fin_maps numbers strings.
From S2P Require Import Prelude Buf Wire Codec IpAddr Chars Utf8 Transfer.
Local Open Scope Z_scope.
Local Open Scope koja_scope.

Record SemVer := mkSemVer { major : Z; minor : Z; patch : Z }.
(** The derived order. *)
Definition ver_ltb (a b : SemVer) : bool :=
  (major a <? major b) || ((major a =? major b) && ((minor a <? minor b) || ((minor a =? minor b) && (patch a <? patch b)))).
Definition ver_leb (a b : SemVer) : bool := negb (ver_ltb b a).

(** [trim_start_matches(['v', 'V'])] and the first piece of [split(['-', '+'])]. *)
Fixpoint trim_v (s : chars) : chars := match s with c :: s' => if (c =? 118) || (c =? 86) then trim_v s' else s | [] => [] end.
Fixpoint before_suffix (s : chars) : chars := match s with c :: s' => if (c =? 45) || (c =? 43) then [] else c :: before_suffix s' | [] => [] end.
Definition parse_u64 (s : chars) : option Z := parse_uint (2 ^ 64 - 1) (utf8 s).

Definition SemVer_parse (s : chars) : option SemVer :=
  let core := before_suffix (trim_v (trim s)) in
  match Chars.split_at 46 core with
  | [] => None
  | m :: rest =>
      major ← parse_u64 m;
      minor ← parse_u64 (nth 0 rest (chr "0"));
      patch ← parse_u64 (nth 1 rest (chr "0"));
      Some (mkSemVer major minor patch)
  end.

Example parses_tags : SemVer_parse (chr "v0.1.5") = Some (mkSemVer 0 1 5) /\ SemVer_parse (chr "v1.2.3-rc1") = Some (mkSemVer 1 2 3) /\
  SemVer_parse (chr "v2") = Some (mkSemVer 2 0 0) /\ SemVer_parse (chr "garbage") = None.
Proof. repeat split; vm_compute; reflexivity. Qed.

Record Release := mkRelease { rl_tag : chars; rl_is_latest : bool; rl_prerelease : bool; rl_html_url : chars }.

Inductive Notice := Newer (v : SemVer) (url : chars) | UpToDate.

(** [max_by_key]: the last of the greatest. *)
Fixpoint max_by_version (l : list (SemVer * Release)) (best : option (SemVer * Release)) : option (SemVer * Release) :=
  match l with
  | [] => best
  | x :: rest => max_by_version rest (match best with Some b => if ver_ltb x.1 b.1 then Some b else Some x | None => Some x end)
  end.
Definition versioned (r : Release) : option (SemVer * Release) := v ← SemVer_parse (rl_tag r); Some (v, r).

(** [releases]: the answer of the API, unless the request or its decoding failed. *)
Definition check_for_updates (current_version : chars) (releases : option (list Release)) : option Notice :=
  current ← SemVer_parse current_version;
  releases ← releases;
  latest ← max_by_version (omap versioned (List.filter (fun r => negb (rl_prerelease r)) releases)) None;
  let flagged := List.find rl_is_latest releases ≫= versioned in
  let latest := match flagged with Some f => if ver_leb latest.1 f.1 then f else latest | None => latest end in
  Some (if ver_ltb current latest.1 then Newer latest.1 (rl_html_url latest.2) else UpToDate).

Lemma ver_ltb_spec a b : ver_ltb a b = true <-> major a < major b \/ (major a = major b /\ (minor a < minor b \/ (minor a = minor b /\ patch a < patch b))).
Proof. unfold ver_ltb. destruct (Z.ltb_spec (major a) (major b)), (Z.eqb_spec (major a) (major b)), (Z.ltb_spec (minor a) (minor b)), (Z.eqb_spec (minor a) (minor b)), (Z.ltb_spec (patch a) (patch b)); cbn; lia. Qed.

Lemma ver_trans a b c : ver_ltb a b = true -> ver_ltb c b = false -> ver_ltb a c = true.
Proof. intros H1%ver_ltb_spec H2. apply ver_ltb_spec. destruct (ver_ltb c b) eqn:E; [done|]. assert (~ ver_ltb c b = true) as H3 by congruence. rewrite ver_ltb_spec in H3. lia. Qed.
Lemma ver_leb_trans a b c : ver_ltb b a = false -> ver_ltb c b = false -> ver_ltb c a = false.
Proof.
  intros H1 H2. apply not_true_iff_false in H1, H2. apply not_true_iff_false. rewrite ver_ltb_spec in *. lia.
Qed.

Lemma max_by_version_spec l best m : max_by_version l best = Some m ->
  (m ∈ l \/ best = Some m) /\ (forall x, x ∈ l \/ best = Some x -> ver_ltb m.1 x.1 = false).
Proof.
  revert best. induction l as [|x l IH]; intros best; cbn.
  { intros ->. split; [by right|]. intros x [H%elem_of_nil|[= <-]]; [done|]. apply not_true_iff_false. rewrite ver_ltb_spec. lia. }
  intros H. apply IH in H as [Hin Hmax]. destruct best as [b|]; [destruct (ver_ltb x.1 b.1) eqn:E|].
  - split; [destruct Hin as [Hin|[= ->]]; [left; by right|by right]|]. intros y [[->|Hy]%elem_of_cons|[= <-]]; [|apply Hmax; by left|apply Hmax; by right].
    specialize (Hmax b (or_intror eq_refl)). eapply ver_leb_trans; [|exact Hmax]. apply not_true_iff_false. rewrite ver_ltb_spec in *. lia.
  - split; [destruct Hin as [Hin|[= ->]]; left; [by right|by left]|]. intros y [[->|Hy]%elem_of_cons|[= <-]]; [apply Hmax; by right|apply Hmax; by left|].
    eapply ver_leb_trans; [exact E|]. apply Hmax. by right.
  - split; [destruct Hin as [Hin|[= ->]]; left; [by right|by left]|]. intros y [[->|Hy]%elem_of_cons|?]; [apply Hmax; by right|apply Hmax; by left|done].
Qed.

(** An update is announced only for a version that some release carries, that is
    newer than the running one, and that is no prerelease unless the API flags it; and
    whenever a release that is no prerelease is newer, something at least as new is
    announced. *)
Theorem update_notice_exact (current : SemVer) (text : chars) (releases : list Release) : SemVer_parse text = Some current ->
  (forall v url, check_for_updates text (Some releases) = Some (Newer v url) ->
     ver_ltb current v = true /\ exists r, r ∈ releases /\ SemVer_parse (rl_tag r) = Some v /\ rl_html_url r = url /\ (rl_prerelease r = false \/ rl_is_latest r = true)) /\
  (forall r v, r ∈ releases -> rl_prerelease r = false -> SemVer_parse (rl_tag r) = Some v -> ver_ltb current v = true ->
     exists v' url, check_for_updates text (Some releases) = Some (Newer v' url) /\ ver_ltb v' v = false).
Proof.
  intros Hc. unfold check_for_updates. rewrite Hc. cbn [mbind option_bind].
  set (stable := omap versioned (List.filter (fun r => negb (rl_prerelease r)) releases)).
  assert (Hstable : forall v r, (v, r) ∈ stable <-> r ∈ releases /\ rl_prerelease r = false /\ SemVer_parse (rl_tag r) = Some v).
  { intros v r. unfold stable. rewrite list_elem_of_omap. unfold versioned. split.
    - intros (r' & Hr & Hv). destruct (SemVer_parse (rl_tag r')) as [v'|] eqn:E; [|done]. cbn in Hv. simplify_eq.
      apply list_elem_of_In, List.filter_In in Hr as [Hr Hp]. split_and!; [by apply list_elem_of_In|by destruct (rl_prerelease r)|done].
    - intros (Hr & Hp & Hv). exists r. rewrite Hv. split; [|done]. apply list_elem_of_In, List.filter_In. rewrite Hp. split; [by apply list_elem_of_In|done]. }
  set (flagged := List.find rl_is_latest releases ≫= versioned).
  assert (Hflag : forall v r, flagged = Some (v, r) -> r ∈ releases /\ rl_is_latest r = true /\ SemVer_parse (rl_tag r) = Some v).
  { intros v r. unfold flagged, versioned. destruct (List.find rl_is_latest releases) as [r'|] eqn:E; [|done]. cbn.
    apply List.find_some in E as [Hr Hl]. destruct (SemVer_parse (rl_tag r')) eqn:E'; [|done]. cbn. intros [= <- <-]. split_and!; [by apply list_elem_of_In|done|done]. }
  destruct (max_by_version stable None) as [[m mr]|] eqn:Em; cbn [mbind option_bind].
  - apply max_by_version_spec in Em as [[Hin|?] Hmax]; [|done]. cbn in Hmax.
    set (chosen := match flagged with Some f => if ver_leb m f.1 then f else (m, mr) | None => (m, mr) end).
    assert (Hch : ver_ltb chosen.1 m = false /\ exists r, chosen.2 = r /\ r ∈ releases /\ SemVer_parse (rl_tag r) = Some chosen.1 /\ (rl_prerelease r = false \/ rl_is_latest r = true)).
    { assert (Hself : ver_ltb m m = false) by (apply not_true_iff_false; rewrite ver_ltb_spec; lia).
      apply Hstable in Hin as (H1 & H2 & H3). unfold chosen. destruct flagged as [[fv fr]|]; cbn; [destruct (ver_leb m fv) eqn:E; cbn|]; try (split; [done|exists mr; by auto]).
      destruct (Hflag fv fr eq_refl) as (F1 & F2 & F3). split; [unfold ver_leb in E; by destruct (ver_ltb fv m)|]. exists fr. by auto. }
    destruct Hch as [Hge (r & Hr1 & Hr2 & Hr3 & Hr4)]. cbn [fst snd]. fold chosen. clearbody chosen. split.
    + intros v url H. destruct (ver_ltb current chosen.1) eqn:E; [|done]. injection H as <- <-. split; [done|]. exists chosen.2. rewrite Hr1. by auto.
    + intros r' v Hr' Hp Hv Hlt. specialize (Hmax (v, r') (or_introl (proj2 (Hstable v r') (conj Hr' (conj Hp Hv))))). cbn in Hmax.
      assert (Hcv : ver_ltb chosen.1 v = false) by (by eapply ver_leb_trans). rewrite (ver_trans _ _ _ Hlt Hcv). by eexists _, _.
  - split; [done|]. intros r v Hr Hp Hv _. exfalso. pose proof (proj2 (Hstable v r) (conj Hr (conj Hp Hv))) as Hin.
    assert (Hgen : forall l best, max_by_version l best = None -> l = [] /\ best = None).
    { clear. induction l as [|x l IH]; intros best H; [done|]. cbn in H. apply IH in H as [_ H]. by destruct best; [destruct (ver_ltb _ _)|]. }
    apply Hgen in Em as [Em _]. rewrite Em in Hin. by apply elem_of_nil in Hin.
Qed.

Definition demo_releases : list Release := [mkRelease (chr "v0.1.9") false false []; mkRelease (chr "v0.2.0-rc1") true true (chr "https://x")].

Lemma update_notice_exact_witness : SemVer_parse (chr "0.1.5") = Some (mkSemVer 0 1 5) /\
  exists v' url, check_for_updates (chr "0.1.5") (Some demo_releases) = Some (Newer v' url) /\ ver_ltb v' (mkSemVer 0 1 9) = false.
Proof.
  split; [reflexivity|]. apply (proj2 (update_notice_exact (mkSemVer 0 1 5) (chr "0.1.5") demo_releases eq_refl) (mkRelease (chr "v0.1.9") false false [])); try reflexivity.
  by left.
Defined.

(** A flagged prerelease is announced, and as the release it is a candidate for. *)
Theorem prerelease_announced : check_for_updates (chr "0.1.5") (Some demo_releases) = Some (Newer (mkSemVer 0 2 0) (chr "https://x")).
Proof. vm_compute. reflexivity. Qed.
