(* ===== verification/Telemetry.v ===== *)
(** * Telemetry

    crates/proxy-core/src/telemetry.rs: what is sent, from the numbers of sessions
    sampled in an interval. *)
From Stdlib Require Import ZArith Lia Bool Strings.String Strings.Byte.
From stdpp Require Import base list gmap fin_maps numbers strings.
From S2P Require Import Prelude Modloader.
Local Open Scope Z_scope.
Local Open Scope koja_scope.

Record TelemetryPayload := mkPayload { instance_id : bytes; version : bytes; player_peak : Z; backend_count : Z }.
Definition interval (interval_secs : Z) : Z := Z.max interval_secs 60.
Definition sample (interval_secs : Z) : Z := Z.min 60 (interval interval_secs).
Definition endpoint (url : bytes) : bytes := trim_end (zb 0x2F) url ++ lit "/v1/telemetry".
(** [online]: the number of sessions at the start of the interval and after each
    sample. *)
Definition payload (server_id proxy_version : bytes) (first : Z) (online : list Z) (servers : Z) : TelemetryPayload :=
  mkPayload server_id proxy_version (Z.min (foldl Z.max first online) (2 ^ 31 - 1)) (Z.min servers (2 ^ 31 - 1)).
