(* ===== verification/Realms.v ===== *)
(** * Realms

    crates/proxy-core/src/realms: the framing and the encrypted stream (wire.rs), the
    client side of an online-mode login (login.rs), the web API (api.rs), the service
    account (credentials.rs, config.rs) and the bridge over them (mod.rs); and
    [init_aes_cfb8] of crates/auth/src/encryption.rs.  zlib, AES, RSA, SHA-1, HTTP and
    UUID syntax are parameters. *)
From Stdlib Require Import ZArith Lia Bool Strings.String Strings.Byte.
From stdpp Require Import base list gmap numbers strings.
From S2P Require Import Prelude Buf Wire VarInt Codec Frame PacketIo Auth IpAddr Query Stream Commands Modloader.
Local Open Scope Z_scope.
Local Open Scope koja_scope.

(** ** Framing *)

Inductive WireError :=
  | WE_Io (kind : ErrorKind) | WE_Connection (e : ConnectionError) | WE_Protocol (e : ProtocolError)
  | WE_ZeroLength | WE_StringEof | WE_BytesEof | WE_Utf8 | WE_Zlib (kind : ErrorKind) | WE_Flush.

Abbreviation Rd A := (M bytes WireError A).

Definition put_varint (v : Z) : bytes := varint_bytes v.
Definition put_string (s : bytes) : bytes := put_varint (wraps 32 (Z.of_nat (length s))) ++ s.

Definition take_varint : Rd Z := fun s => let '(r, s') := VarInt_decode s in (map_err WE_Protocol r, s').
(** [split_to(len)] once [remaining() >= len]; a length is an [i32] cast to [usize]. *)
Definition take_len (e : WireError) : Rd bytes :=
  let! v := take_varint in
  let len := wrapu 64 v in
  fun s => if Z.of_nat (length s) <? len then (Err e, s) else (Ok (take (Z.to_nat len) s), drop (Z.to_nat len) s).
Definition take_string : Rd bytes :=
  let! bs := take_len WE_StringEof in if utf8_valid bs then ret bs else fail WE_Utf8.
Definition take_bytes : Rd bytes := take_len WE_BytesEof.

Record Packet := mkPacket { pk_id : Z; pk_body : bytes }.

(** [vec![0u8; n]] and [Vec::with_capacity(n)] panic beyond [isize::MAX]. *)
Definition capacity_ok (n : Z) : bool := n <=? 2 ^ 63 - 1.

Section Zlib.
Variable deflate : bytes -> bytes.
Variable inflate : bytes -> bytes * option ErrorKind.

Definition frame_packet (compression : option Z) (id : Z) (data : bytes) : bytes :=
  let payload := put_varint id ++ data in
  let len := wraps 32 (Z.of_nat (length payload)) in
  match compression with
  | None => put_varint len ++ payload
  | Some threshold =>
      let inner := if (Z.max threshold 0 <=? len) && (0 <=? threshold) then put_varint len ++ deflate payload else put_varint 0 ++ payload in
      put_varint (wraps 32 (Z.of_nat (length inner))) ++ inner
  end.

(** The whole stream is inflated, whatever length was announced. *)
Definition zlib_decompress (data : bytes) (expected : Z) : outcome WireError bytes :=
  if capacity_ok expected
  then match inflate data with (out, None) => Ok out | (_, Some k) => Err (WE_Zlib k) end
  else Panic.

Definition unpack (compression : option Z) (frame : bytes) : outcome WireError Packet :=
  let payload :=
    match compression with
    | None => Ok frame
    | Some _ =>
        match take_varint frame with
        | (Ok v, cur) => if wrapu 64 v =? 0 then Ok cur else zlib_decompress cur (wrapu 64 v)
        | (Err e, _) => Err e | (Panic, _) => Panic | (NoFuel, _) => NoFuel
        end
    end in
  match payload with
  | Ok p => match take_varint p with
            | (Ok id, body) => Ok (mkPacket id body)
            | (Err e, _) => Err e | (Panic, _) => Panic | (NoFuel, _) => NoFuel
            end
  | Err e => Err e | Panic => Panic | NoFuel => NoFuel
  end.

Definition from_conn {A} (m : Conn A) : Rd A := fun s => let '(r, s') := m s in (map_err WE_Connection r, s').
Definition read_exact_io (n : nat) : Rd bytes := fun s =>
  let '(r, s') := PacketIo.read_exact n s in (map_err (fun _ => WE_Io KUnexpectedEof) r, s').

Definition realm_read_packet (compression : option Z) : Rd Packet :=
  let! v := from_conn read_varint in
  let len := wrapu 64 v in
  if len =? 0 then fail WE_ZeroLength
  else if capacity_ok len then
    let! frame := read_exact_io (Z.to_nat len) in
    fun s => (unpack compression frame, s)
  else panic.

End Zlib.

(** *** What is written is read back *)

Definition payload_of (id : Z) (data : bytes) : bytes := put_varint id ++ data.
Definition small (bs : bytes) : Prop := Z.of_nat (length bs) < 2 ^ 31.

Lemma take_varint_put v rest : fits_s 32 v -> take_varint (put_varint v ++ rest) = (Ok v, rest).
Proof. intros Hv. unfold take_varint. by rewrite (lawful_reads (c := VarInt) v Hv rest : VarInt_decode (put_varint v ++ rest) = _). Qed.

Lemma small_len bs : small bs -> wraps 32 (Z.of_nat (length bs)) = Z.of_nat (length bs) /\ fits_s 32 (Z.of_nat (length bs)) /\
  wrapu 64 (Z.of_nat (length bs)) = Z.of_nat (length bs) /\ capacity_ok (Z.of_nat (length bs)) = true.
Proof.
  unfold small. intros H. assert (fits_s 32 (Z.of_nat (length bs))) by (unfold fits_s; change (2 ^ (32 - 1)) with (2 ^ 31); lia).
  split_and!; [by apply wraps_id|done| |].
  - apply wrapu_id. unfold fits_u. change (2 ^ 31) with 2147483648 in H. change (2 ^ 64) with 18446744073709551616. lia.
  - unfold capacity_ok. apply Z.leb_le. change (2 ^ 31) with 2147483648 in H. change (2 ^ 63 - 1) with 9223372036854775807. lia.
Qed.

Lemma put_varint_some v : (1 <= length (put_varint v))%nat.
Proof. apply (length_wire_VarInt v). Qed.

Lemma put_varint_nonempty v s : put_varint v ++ s <> [].
Proof. pose proof (put_varint_some v). destruct (put_varint v); [cbn in *; lia|done]. Qed.

Section ZlibLaws.
Variable deflate : bytes -> bytes.
Variable inflate : bytes -> bytes * option ErrorKind.

Lemma frame_body compression body rest : small body -> body <> [] ->
  realm_read_packet inflate compression (put_varint (wraps 32 (Z.of_nat (length body))) ++ body ++ rest) = (unpack inflate compression body, rest).
Proof.
  intros Hs Hne. destruct (small_len body Hs) as (Hw & Hf & Hu & Hc). rewrite Hw. unfold realm_read_packet.
  erewrite bind_ok; [|unfold from_conn, put_varint; rewrite varint_bytes_wire, (reads_read_varint _ Hf); reflexivity].
  cbv zeta. rewrite Hu. destruct (Z.eqb_spec (Z.of_nat (length body)) 0) as [E|_]; [destruct body; [done|cbn in E; lia]|]. rewrite Hc.
  erewrite bind_ok; [|unfold read_exact_io; rewrite (reads_exact body) by lia; reflexivity]. done.
Qed.

(** Whatever compression was negotiated, negative thresholds included, a packet
    written to a realm is read back with its id and data, and what follows it is left
    on the stream. *)
Theorem realm_packet_roundtrip (compression : option Z) (id : Z) (data rest : bytes) :
  (forall raw, inflate (deflate raw) = (raw, None)) -> fits_s 32 id ->
  small (payload_of id data) -> small (put_varint (Z.of_nat (length (payload_of id data))) ++ deflate (payload_of id data)) -> small (put_varint 0 ++ payload_of id data) ->
  realm_read_packet inflate compression (frame_packet deflate compression id data ++ rest) = (Ok (mkPacket id data), rest).
Proof.
  intros Hz Hid Hp Hd H0. unfold frame_packet. cbv zeta. change (put_varint id ++ data) with (payload_of id data).
  assert (Hne : payload_of id data <> []) by apply put_varint_nonempty.
  assert (Hid' : take_varint (payload_of id data) = (Ok id, data)) by (by apply take_varint_put).
  destruct (small_len _ Hp) as (Hw & Hf & Hu & Hcap). rewrite Hw.
  destruct compression as [t|].
  - destruct ((Z.max t 0 <=? Z.of_nat (length (payload_of id data))) && (0 <=? t)); rewrite <- app_assoc, frame_body by (done || apply put_varint_nonempty); f_equal.
    + unfold unpack. rewrite take_varint_put by done. rewrite Hu. destruct (Z.eqb_spec (Z.of_nat (length (payload_of id data))) 0) as [E|_]; [destruct (payload_of id data); [done|cbn in E; lia]|].
      unfold zlib_decompress. rewrite Hcap, Hz. cbv beta iota. by rewrite Hid'.
    + unfold unpack. rewrite take_varint_put by done. change (wrapu 64 0 =? 0) with true. cbv beta iota. by rewrite Hid'.
  - rewrite <- app_assoc. rewrite <- Hw at 1. rewrite frame_body by done. f_equal. unfold unpack. by rewrite Hid'.
Qed.

(** A negative length is taken for one near 2^64: allocating the frame panics. *)
Theorem negative_length_panics compression rest : (realm_read_packet inflate compression (put_varint (-1) ++ rest)).1 = Panic.
Proof.
  unfold realm_read_packet. erewrite bind_ok; [|unfold from_conn, put_varint; rewrite varint_bytes_wire, (reads_read_varint (-1)) by (by unfold fits_s); reflexivity]. done.
Qed.
End ZlibLaws.

Lemma realm_packet_roundtrip_witness :
  (forall raw, unstored (stored raw) = (raw, None)) /\ fits_s 32 2 /\
  realm_read_packet unstored (Some 4) (frame_packet stored (Some 4) 2 (lit "profile") ++ [x01]) = (Ok (mkPacket 2 (lit "profile")), [x01]).
Proof. split; [done|]. split; [by unfold fits_s|]. apply realm_packet_roundtrip; done. Defined.

(** ** The encrypted stream *)

Section Encrypted.
Context {CS : Type} (ops : CipherOps CS).

(** [st_taken] records what was handed to [poll_write] since encryption was switched
    on, [st_sent] what the socket has accepted. *)
Record RealmStream := mkRealmStream { rs_enc : option CS; rs_dec : option CS; rs_pending : bytes; rs_sent : bytes; rs_taken : bytes }.

Definition realm_stream_new : RealmStream := mkRealmStream None None [] [] [].
Definition realm_enable (enc dec : CS) (s : RealmStream) : RealmStream := mkRealmStream (Some enc) (Some dec) (rs_pending s) (rs_sent s) (rs_taken s).

Definition realm_drain (net : list WriteReply) (s : RealmStream) : Poll (option StreamError) * RealmStream * list WriteReply :=
  let '(r, pending, sent, net) := drain_loop net (rs_pending s) (rs_sent s) in
  (r, mkRealmStream (rs_enc s) (rs_dec s) pending sent (rs_taken s), net).

(** Always ready with the whole buffer; the result of draining is dropped. *)
Definition realm_poll_write (net : list WriteReply) (buf : bytes) (s : RealmStream) : nat * RealmStream * list WriteReply :=
  let '(chunk, enc) := match rs_enc s with Some e => let '(c, e') := encrypt ops e buf in (c, Some e') | None => (buf, None) end in
  let s := mkRealmStream enc (rs_dec s) (rs_pending s ++ chunk) (rs_sent s) (rs_taken s ++ buf) in
  let '(_, s, net) := realm_drain net s in (length buf, s, net).
Definition realm_poll_flush : list WriteReply -> RealmStream -> Poll (option StreamError) * RealmStream * list WriteReply := realm_drain.

(** What the socket put into the buffer is decrypted in place. *)
Definition realm_poll_read (delivered : bytes) (s : RealmStream) : bytes * RealmStream :=
  match rs_dec s with
  | Some d => let '(plain, d') := decrypt ops d delivered in (plain, mkRealmStream (rs_enc s) (Some d') (rs_pending s) (rs_sent s) (rs_taken s))
  | None => (delivered, s)
  end.

Inductive RealmCall := RealmWrite (buf : bytes) | RealmFlush.
Definition realm_call (c : RealmCall * list WriteReply) (s : RealmStream) : RealmStream :=
  match c with
  | (RealmWrite buf, net) => (realm_poll_write net buf s).1.2
  | (RealmFlush, net) => (realm_poll_flush net s).1.2
  end.
Definition realm_run (calls : list (RealmCall * list WriteReply)) (s : RealmStream) : RealmStream := foldl (fun s c => realm_call c s) s calls.
Definition written (calls : list (RealmCall * list WriteReply)) : bytes :=
  concat (map (fun c => match c.1 with RealmWrite buf => buf | RealmFlush => [] end) calls).

Context (in_sync : CS -> CS -> Prop) `{!StreamCipher ops in_sync}.

Definition peer_view (d : CS) (s : RealmStream) : Prop :=
  exists e d', rs_enc s = Some e /\ decrypt ops d (rs_sent s ++ rs_pending s) = (rs_taken s, d') /\ in_sync e d'.

Lemma drain_view d net s : peer_view d s -> peer_view d (realm_drain net s).1.2.
Proof using.
  clear StreamCipher0. unfold realm_drain, peer_view. intros (e & d' & He & Hd & Hs). destruct (drain_loop net (rs_pending s) (rs_sent s)) as [[[r pending] sent] net'] eqn:E.
  apply drain_loop_moves in E as [E _]. cbn. rewrite E. by exists e, d'.
Qed.

Lemma call_view d c s : peer_view d s -> peer_view d (realm_call c s) /\
  rs_taken (realm_call c s) = rs_taken s ++ match c.1 with RealmWrite buf => buf | RealmFlush => [] end.
Proof.
  intros H. destruct c as [[buf|] net]; cbn [realm_call fst].
  - destruct H as (e & d' & He & Hd & Hs). unfold realm_poll_write. rewrite He. destruct (encrypt ops e buf) as [c e'] eqn:E.
    destruct (sync_decrypt e d' buf Hs) as [Hp Hsync]. rewrite E in Hp, Hsync. cbn [fst snd] in Hp, Hsync.
    set (s1 := mkRealmStream _ _ _ _ _).
    assert (Hv : peer_view d s1).
    { exists e', (decrypt ops d' c).2. subst s1. cbn. split_and!; [done| |done]. rewrite app_assoc, decrypt_app, Hd. destruct (decrypt ops d' c). cbn in *. by rewrite Hp. }
    pose proof (drain_view d net s1 Hv) as Hv'. destruct (realm_drain net s1) as [[r s2] net'] eqn:Ed. cbn in *. split; [done|].
    unfold realm_drain in Ed. destruct (drain_loop _ _ _) as [[[? ?] ?] ?]. by simplify_eq.
  - split; [by apply drain_view|]. unfold realm_poll_flush, realm_drain. destruct (drain_loop _ _ _) as [[[? ?] ?] ?]. cbn. by rewrite app_nil_r.
Qed.

(** Once encryption is on, whatever the socket accepts, refuses or fails, the peer
    that decrypts what was sent and what is still pending gets exactly the bytes that
    were written, in order. *)
Theorem realm_stream_faithful (e d : CS) (calls : list (RealmCall * list WriteReply)) : in_sync e d ->
  let s := realm_run calls (realm_enable e d realm_stream_new) in
  (decrypt ops d (rs_sent s ++ rs_pending s)).1 = written calls.
Proof.
  intros Hs. cbn zeta.
  assert (Hinit : peer_view d (realm_enable e d realm_stream_new)) by (exists e, d; by rewrite decrypt_nil).
  assert (Hgen : forall s, peer_view d s -> (decrypt ops d (rs_sent (realm_run calls s) ++ rs_pending (realm_run calls s))).1 = rs_taken s ++ written calls).
  { unfold realm_run, written. induction calls as [|c calls IH]; intros s Hv; cbn.
    - destruct Hv as (? & ? & _ & -> & _). by rewrite app_nil_r.
    - destruct (call_view d c s Hv) as [Hv' Ht]. rewrite (IH _ Hv'), Ht. by rewrite <- app_assoc. }
  rewrite (Hgen _ Hinit). done.
Qed.

(** There is no back-pressure: a socket that takes nothing lets the buffer grow by
    whatever is written. *)
Theorem pending_unbounded (bufs : list bytes) : 
  length (rs_pending (realm_run (map (fun b => (RealmWrite b, [])) bufs) realm_stream_new)) = length (concat bufs).
Proof.
  assert (Hgen : forall s, rs_enc s = None -> length (rs_pending (realm_run (map (fun b => (RealmWrite b, [])) bufs) s)) = (length (rs_pending s) + length (concat bufs))%nat).
  { unfold realm_run. induction bufs as [|b bufs IH]; intros s Hs; [cbn; lia|]. cbn [map foldl concat realm_call].
    unfold realm_poll_write, realm_drain. rewrite Hs. cbn [rs_pending rs_sent rs_enc rs_dec rs_taken].
    assert (Hd : drain_loop [] (rs_pending s ++ b) (rs_sent s) = (if decide (rs_pending s ++ b = []) then Ready None else Pending, rs_pending s ++ b, rs_sent s, [])).
    { destruct (rs_pending s ++ b); [done|]. by rewrite decide_False. }
    rewrite Hd. cbn. rewrite IH by done. cbn. rewrite !length_app. lia. }
  by rewrite (Hgen realm_stream_new).
Qed.
End Encrypted.
Arguments RealmStream : clear implicits.

Definition realm_calls : list (RealmCall * list WriteReply) :=
  [(RealmWrite (lit "hi"), [Wrote 1; WriteNotReady]); (RealmWrite (lit "!"), [WriteFailed]); (RealmFlush, [Wrote 5])].
Lemma realm_stream_faithful_witness : 7 = 7 /\
  let s := realm_run feedback realm_calls (realm_enable 7 7 realm_stream_new) in (decrypt feedback 7 (rs_sent s ++ rs_pending s)).1 = lit "hi!".
Proof. split; [done|]. apply (realm_stream_faithful feedback eq 7 7 realm_calls). done. Defined.

(** ** Logging in to a realm *)

Record ServiceAccount := mkAccount { ac_access_token : bytes; ac_uuid : bytes; ac_username : bytes }.

Inductive RealmsError :=
  | RE_Config (msg : bytes) | RE_Http (msg : bytes) | RE_Api (msg : bytes)
  | RE_Login (what : bytes) (cause : option WireError) | RE_UnknownRealm (name : bytes).

Definition CB_DISCONNECT : Z := 0x00.
Definition CB_ENCRYPTION_REQUEST : Z := 0x01.
Definition CB_LOGIN_SUCCESS : Z := 0x02.
Definition CB_SET_COMPRESSION : Z := 0x03.
Definition CB_LOGIN_PLUGIN_REQUEST : Z := 0x04.
Definition SB_LOGIN_START : Z := 0x00.
Definition SB_ENCRYPTION_RESPONSE : Z := 0x01.
Definition SB_LOGIN_PLUGIN_RESPONSE : Z := 0x02.
Definition SB_LOGIN_ACKNOWLEDGED : Z := 0x03.

(** [Uuid::simple]. *)
Definition undashed (uuid : bytes) : bytes := hex_encode uuid.

Section LoginDialogue.
Context {CS Key : Type} (ops : CipherOps CS).
Variable deflate : bytes -> bytes.
Variable inflate : bytes -> bytes * option ErrorKind.
Variable sha1 : bytes -> bytes.
(** [Aes128CfbEnc::new] and [Aes128CfbDec::new], on key and IV *)
Variables (new_enc new_dec : bytes -> bytes -> CS).
Variable parse_key : bytes -> option Key.
(** encrypting with the [n]-th draw from the operating system's randomness *)
Variable rsa_encrypt : Key -> nat -> bytes -> option bytes.
Variable random16 : nat -> bytes.
(** the session server: the error, if it does not accept the join *)
Variable post_join : bytes -> bytes -> bytes -> option bytes.

(** [init_aes_cfb8]: the secret is key and IV. *)
Definition init_aes_cfb8 (shared_secret : bytes) : option (CS * CS) :=
  if (length shared_secret =? 16)%nat then Some (new_enc shared_secret shared_secret, new_dec shared_secret shared_secret) else None.

(** What the client does, in order: a join of the session server that was accepted, or
    a packet, encrypted or not. *)
Inductive Act := Joined (server_hash : bytes) | SentPacket (encrypted : bool) (id : Z) (data : bytes).

(** The connection: the bytes still to come from the realm as they are on the wire,
    the ciphers, what has been put on the wire, whether the coming flushes succeed,
    and the number of draws. *)
Record Link := mkLink {
  lk_in : bytes; lk_enc : option CS; lk_dec : option CS; lk_out : bytes; lk_flushes : list bool; lk_draws : nat; lk_acts : list Act }.
Abbreviation Login A := (M Link RealmsError A).

(** Reading [k] plaintext bytes takes [k] bytes off the wire and moves the cipher over
    just these. *)
Definition recv {A} (what : bytes) (m : Rd A) : Login A := fun s =>
  match lk_dec s with
  | None =>
      let '(r, rest) := m (lk_in s) in
      (map_err (fun e => RE_Login what (Some e)) r, mkLink rest (lk_enc s) None (lk_out s) (lk_flushes s) (lk_draws s) (lk_acts s))
  | Some d =>
      let '(r, rest) := m (decrypt ops d (lk_in s)).1 in
      let k := (length (lk_in s) - length rest)%nat in
      (map_err (fun e => RE_Login what (Some e)) r,
       mkLink (drop k (lk_in s)) (lk_enc s) (Some (decrypt ops d (take k (lk_in s))).2) (lk_out s) (lk_flushes s) (lk_draws s) (lk_acts s))
  end.

(** Parsing a field of a packet body. *)
Definition parse {A} (what : bytes) (m : Rd A) (cur : bytes) : Login (A * bytes) := fun s =>
  match m cur with
  | (Ok a, rest) => (Ok (a, rest), s)
  | (Err e, _) => (Err (RE_Login what (Some e)), s)
  | (Panic, _) => (Panic, s)
  | (NoFuel, _) => (NoFuel, s)
  end.

Definition send (what : bytes) (compression : option Z) (id : Z) (data : bytes) : Login unit := fun s =>
  let frame := frame_packet deflate compression id data in
  let '(bytes, enc, encrypted) := match lk_enc s with Some e => let '(c, e') := encrypt ops e frame in (c, Some e', true) | None => (frame, None, false) end in
  let s' := mkLink (lk_in s) enc (lk_dec s) (lk_out s ++ bytes) (tail (lk_flushes s)) (lk_draws s) (lk_acts s ++ [SentPacket encrypted id data]) in
  if default true (head (lk_flushes s)) then (Ok tt, s') else (Err (RE_Login what (Some WE_Flush)), s').

Definition draw : Login nat := fun s => (Ok (lk_draws s), mkLink (lk_in s) (lk_enc s) (lk_dec s) (lk_out s) (lk_flushes s) (S (lk_draws s)) (lk_acts s)).
Definition act (a : Act) : Login unit := fun s => (Ok tt, mkLink (lk_in s) (lk_enc s) (lk_dec s) (lk_out s) (lk_flushes s) (lk_draws s) (lk_acts s ++ [a])).
Definition enable (enc dec : CS) : Login unit := fun s => (Ok tt, mkLink (lk_in s) (Some enc) (Some dec) (lk_out s) (lk_flushes s) (lk_draws s) (lk_acts s)).

Definition send_handshake (protocol : Z) (host : bytes) (port : Z) : Login unit :=
  send (lit "handshake") None 0x00 (put_varint protocol ++ put_string host ++ be_bytes 2 port ++ put_varint 2).
Definition send_login_start (account : ServiceAccount) : Login unit :=
  send (lit "login start") None SB_LOGIN_START (put_string (ac_username account) ++ ac_uuid account).

Definition session_join (account : ServiceAccount) (server_hash : bytes) : Login unit :=
  match post_join (ac_access_token account) (undashed (ac_uuid account)) server_hash with
  | None => act (Joined server_hash)
  | Some e => fail (RE_Login (lit "session join: " ++ e) None)
  end.

Definition encrypted_with (what : bytes) (key : Key) (data : bytes) : Login bytes :=
  let! n := draw in
  match rsa_encrypt key n data with Some c => ret c | None => fail (RE_Login what None) end.
Definition prefixed (bs : bytes) : bytes := put_varint (wraps 32 (Z.of_nat (length bs))) ++ bs.

Definition handle_encryption_request (compression : option Z) (pkt : Packet) (account : ServiceAccount) : Login unit :=
  let! p := parse (lit "encryption server id") take_string (pk_body pkt) in
  let '(server_id, cur) := p in
  let! p := parse (lit "encryption public key") take_bytes cur in
  let '(public_key_der, cur) := p in
  let! p := parse (lit "encryption verify token") take_bytes cur in
  let '(verify_token, _) := p in
  let! n := draw in
  let shared_secret := random16 n in
  let server_hash := minecraft_hex_digest sha1 server_id shared_secret public_key_der in
  session_join account server_hash ;;
  match parse_key public_key_der with
  | None => fail (RE_Login (lit "parse realm public key") None)
  | Some key =>
      let! enc_secret := encrypted_with (lit "encrypt shared secret") key shared_secret in
      let! enc_token := encrypted_with (lit "encrypt verify token") key verify_token in
      send (lit "encryption response") compression SB_ENCRYPTION_RESPONSE (prefixed enc_secret ++ prefixed enc_token) ;;
      match init_aes_cfb8 shared_secret with
      | Some (enc, dec) => enable enc dec
      | None => fail (RE_Login (lit "init aes") None)
      end
  end.

Definition respond_plugin_request (compression : option Z) (pkt : Packet) : Login unit :=
  let! p := parse (lit "plugin request id") take_varint (pk_body pkt) in
  send (lit "plugin response") compression SB_LOGIN_PLUGIN_RESPONSE (put_varint p.1 ++ [x00]).

(** The loop of [connect]; its result is the compression the relay must use. *)
Fixpoint login_loop (fuel : nat) (account : ServiceAccount) (compression : option Z) : Login (option Z) :=
  match fuel with
  | O => nofuel
  | S fuel' =>
      let! pkt := recv (lit "read login packet") (realm_read_packet inflate compression) in
      if pk_id pkt =? CB_SET_COMPRESSION then
        let! p := parse (lit "set compression") take_varint (pk_body pkt) in
        login_loop fuel' account (if 0 <=? p.1 then Some p.1 else None)
      else if pk_id pkt =? CB_ENCRYPTION_REQUEST then
        handle_encryption_request compression pkt account ;; login_loop fuel' account compression
      else if pk_id pkt =? CB_LOGIN_SUCCESS then
        send (lit "login ack") compression SB_LOGIN_ACKNOWLEDGED [] ;; ret compression
      else if pk_id pkt =? CB_LOGIN_PLUGIN_REQUEST then
        respond_plugin_request compression pkt ;; login_loop fuel' account compression
      else if pk_id pkt =? CB_DISCONNECT then
        let reason := match take_string (pk_body pkt) with (Ok r, _) => r | _ => lit "<unknown>" end in
        fail (RE_Login (lit "realm disconnected: " ++ reason) None)
      else fail (RE_Login (lit "unexpected login packet id") None)
  end.

(** [tcp]: what the realm will send, if it can be reached. *)
Definition realm_connect (tcp : option bytes) (flushes : list bool) (host : bytes) (port protocol : Z) (account : ServiceAccount)
  : outcome RealmsError (option Z) * Link :=
  match tcp with
  | None => (Err (RE_Login (lit "connect") None), mkLink [] None None [] flushes 0 [])
  | Some inbound =>
      (send_handshake protocol host port ;;
       send_login_start account ;;
       login_loop (S (length inbound)) account None) (mkLink inbound None None [] flushes 0 [])
  end.

(** *** It ends *)

Definition shrinks {A} (m : Login A) : Prop := forall s, (m s).1 <> NoFuel /\ (length (lk_in (m s).2) <= length (lk_in s))%nat.

Lemma shrinks_bind {A B} (m : Login A) (k : A -> Login B) : shrinks m -> (forall a, shrinks (k a)) -> shrinks (bind m k).
Proof.
  intros Hm Hk s. unfold bind. destruct (Hm s) as [H1 H2]. destruct (m s) as [[a| | |] s1]; cbn in *; try done.
  destruct (Hk a s1) as [H3 H4]. split; [done|lia].
Qed.
Lemma shrinks_ret {A} (a : A) : shrinks (ret a). Proof. intros s. split; [done|cbn; lia]. Qed.
Lemma shrinks_fail {A} e : shrinks (fail (A := A) e). Proof. intros s. split; [done|cbn; lia]. Qed.
Lemma shrinks_parse {A} what (m : Rd A) cur : (m cur).1 <> NoFuel -> shrinks (parse what m cur).
Proof. intros H s. unfold parse. destruct (m cur) as [[] ?]; cbn in *; (split; [done|lia]). Qed.
Lemma shrinks_send what c id data : shrinks (send what c id data).
Proof. intros s. unfold send. destruct (lk_enc s); [destruct (encrypt ops _ _)|]; destruct (default true _); (split; [done|cbn; lia]). Qed.
Lemma shrinks_draw : shrinks draw. Proof. intros s. split; [done|cbn; lia]. Qed.
Lemma shrinks_act a : shrinks (act a). Proof. intros s. split; [done|cbn; lia]. Qed.
Lemma shrinks_enable e d : shrinks (enable e d). Proof. intros s. split; [done|cbn; lia]. Qed.

Lemma varint_returns s : returned (take_varint s).1.
Proof. unfold take_varint. pose proof (lawful_total (c := VarInt) s) as H. change (dec VarInt s) with (VarInt_decode s) in H. destruct (VarInt_decode s) as [[] ?]; done. Qed.

Lemma take_len_fuel e s : (take_len e s).1 <> NoFuel.
Proof. unfold take_len, bind. pose proof (varint_returns s). destruct (take_varint s) as [[v| | |] s1]; try done. cbv zeta. by destruct (_ <? _). Qed.
Lemma take_string_fuel s : (take_string s).1 <> NoFuel.
Proof. unfold take_string, bind. pose proof (take_len_fuel WE_StringEof s). destruct (take_len _ s) as [[v| | |] s1]; try done. by destruct (utf8_valid v). Qed.
Lemma take_varint_fuel s : (take_varint s).1 <> NoFuel.
Proof. pose proof (varint_returns s). by destruct (take_varint s) as [[] ?]. Qed.

Lemma shrinks_request c pkt account : shrinks (handle_encryption_request c pkt account).
Proof.
  unfold handle_encryption_request. apply shrinks_bind; [apply shrinks_parse, take_string_fuel|]. intros [server_id cur].
  apply shrinks_bind; [apply shrinks_parse, take_len_fuel|]. intros [der cur']. apply shrinks_bind; [apply shrinks_parse, take_len_fuel|]. intros [token ?].
  apply shrinks_bind; [apply shrinks_draw|]. intros n. cbv zeta. apply shrinks_bind; [unfold session_join; destruct (post_join _ _ _); [apply shrinks_fail|apply shrinks_act]|]. intros _.
  destruct (parse_key der) as [key|]; [|apply shrinks_fail].
  assert (He : forall what data, shrinks (encrypted_with what key data)).
  { intros. apply shrinks_bind; [apply shrinks_draw|]. intros m. destruct (rsa_encrypt _ _ _); [apply shrinks_ret|apply shrinks_fail]. }
  apply shrinks_bind; [apply He|]. intros es. apply shrinks_bind; [apply He|]. intros et. apply shrinks_bind; [apply shrinks_send|]. intros _.
  destruct (init_aes_cfb8 _) as [[]|]; [apply shrinks_enable|apply shrinks_fail].
Qed.

Lemma shrinks_plugin c pkt : shrinks (respond_plugin_request c pkt).
Proof. apply shrinks_bind; [apply shrinks_parse, take_varint_fuel|]. intros p. apply shrinks_send. Qed.

Lemma read_varint_loop_le n i r s : (length (read_varint_loop n i r s).2 <= length s)%nat.
Proof using.
  clear. revert i r s. induction n as [|n IH]; intros i r s; [done|]. cbn [read_varint_loop]. unfold bind at 1, read_u8, bind, PacketIo.read_exact.
  destruct s as [|b s]; [cbn; lia|]. cbn [length Nat.ltb Nat.leb take drop fst snd]. cbn [ret]. unfold ret at 1. cbn [fst snd].
  rewrite drop_0. destruct (Z.land _ _ =? 0); [cbn; lia|]. etrans; [apply IH|]. lia.
Qed.

Context (in_sync : CS -> CS -> Prop) `{!StreamCipher ops in_sync}.

Lemma read_shrinks compression s : (realm_read_packet inflate compression s).1 <> NoFuel /\
  (length (realm_read_packet inflate compression s).2 <= length s)%nat /\
  (is_ok (realm_read_packet inflate compression s).1 = true -> (length (realm_read_packet inflate compression s).2 < length s)%nat).
Proof using.
  clear. destruct (realm_read_packet inflate compression s) as [r out] eqn:Eq. cbn [fst snd].
  unfold realm_read_packet, bind at 1, from_conn in Eq. pose proof (total_read_varint_loop 5 0 0 s) as Ht.
  assert (Hs : forall v rest, read_varint s = (Ok v, rest) -> (length rest < length s)%nat) by (intros; by eapply read_varint_loop_shrinks).
  assert (Hle : (length (read_varint s).2 <= length s)%nat) by apply read_varint_loop_le.
  change (read_varint_loop 5 0 0 s) with (read_varint s) in Ht. destruct (read_varint s) as [[v|e| |] rest]; cbn [map_err fst snd] in *; try done;
    [|by simplify_eq].
  specialize (Hs v rest eq_refl). cbv zeta in Eq. destruct (wrapu 64 v =? 0); [injection Eq as <- <-; split_and!; [done|lia|done]|].
  destruct (capacity_ok _); [|injection Eq as <- <-; split_and!; [done|lia|done]]. unfold bind, read_exact_io, PacketIo.read_exact in Eq.
  destruct (Nat.ltb_spec (length rest) (Z.to_nat (wrapu 64 v))); cbn [map_err] in Eq; injection Eq as <- <-; [cbn; split_and!; [done|lia|done]|].
  rewrite length_drop. split_and!; [|lia|intros _; lia].
  unfold unpack. set (f := take _ rest). assert (Hv : forall x, (take_varint x).1 <> NoFuel) by apply take_varint_fuel.
  destruct compression as [t|].
  - specialize (Hv f) as Hf. destruct (take_varint f) as [[v'|e'| |] cur]; try done. destruct (wrapu 64 v' =? 0).
    + specialize (Hv cur). by destruct (take_varint cur) as [[] ?].
    + unfold zlib_decompress. destruct (capacity_ok _); [|done]. destruct (inflate cur) as [o [k|]]; [done|]. specialize (Hv o). by destruct (take_varint o) as [[] ?].
  - specialize (Hv f). by destruct (take_varint f) as [[] ?].
Qed.

Lemma recv_shrinks what compression s :
  (recv what (realm_read_packet inflate compression) s).1 <> NoFuel /\
  (length (lk_in (recv what (realm_read_packet inflate compression) s).2) <= length (lk_in s))%nat /\
  (is_ok (recv what (realm_read_packet inflate compression) s).1 = true -> (length (lk_in (recv what (realm_read_packet inflate compression) s).2) < length (lk_in s))%nat).
Proof.
  unfold recv. destruct (lk_dec s) as [d|].
  - destruct (read_shrinks compression (decrypt ops d (lk_in s)).1) as (H1 & H2 & H3). rewrite decrypt_length in H2, H3.
    destruct (realm_read_packet inflate compression (decrypt ops d (lk_in s)).1) as [[] rest]; cbn in *; rewrite length_drop; (split_and!; [done|lia|try done; intros _; specialize (H3 eq_refl); lia]).
  - destruct (read_shrinks compression (lk_in s)) as (H1 & H2 & H3).
    destruct (realm_read_packet inflate compression (lk_in s)) as [[] rest]; cbn in *; split_and!; done.
Qed.

Lemma login_loop_returns fuel account compression s : (length (lk_in s) < fuel)%nat -> (login_loop fuel account compression s).1 <> NoFuel.
Proof.
  revert compression s. induction fuel as [|fuel IH]; intros compression s Hl; [lia|]. cbn [login_loop]. unfold bind at 1.
  destruct (recv_shrinks (lit "read login packet") compression s) as (H1 & _ & H3).
  destruct (recv _ _ s) as [[pkt|e| |] s1]; cbn in *; try done. specialize (H3 eq_refl).
  assert (Hthen : forall {A} (m : M Link RealmsError A) (k : A -> M Link RealmsError (option Z)), shrinks m ->
    (forall a s2, (length (lk_in s2) <= length (lk_in s1))%nat -> (k a s2).1 <> NoFuel) -> (bind m k s1).1 <> NoFuel).
  { intros A m k Hm Hk. unfold bind. destruct (Hm s1) as [Hn Hle]. destruct (m s1) as [[] s2]; cbn in *; try done. by apply Hk. }
  destruct (_ =? CB_SET_COMPRESSION); [apply Hthen; [apply shrinks_parse, take_varint_fuel|intros; apply IH; lia]|].
  destruct (_ =? CB_ENCRYPTION_REQUEST); [apply Hthen; [apply shrinks_request|intros; apply IH; lia]|].
  destruct (_ =? CB_LOGIN_SUCCESS); [apply Hthen; [apply shrinks_send|done]|].
  destruct (_ =? CB_LOGIN_PLUGIN_REQUEST); [apply Hthen; [apply shrinks_plugin|intros; apply IH; lia]|].
  destruct (_ =? CB_DISCONNECT); [|done]. by destruct (take_string _) as [[] ?].
Qed.

(** Whatever a realm sends, logging in to it ends: each turn of the dialogue takes
    at least one byte off the wire, decrypted or not. *)
Theorem realm_login_returns (tcp : option bytes) (flushes : list bool) (host : bytes) (port protocol : Z) (account : ServiceAccount) :
  (realm_connect tcp flushes host port protocol account).1 <> NoFuel.
Proof.
  unfold realm_connect. destruct tcp as [inbound|]; [|done].
  unfold bind at 1. destruct (shrinks_send (lit "handshake") None 0x00 (put_varint protocol ++ put_string host ++ be_bytes 2 port ++ put_varint 2) (mkLink inbound None None [] flushes 0 [])) as [H1 H2].
  unfold send_handshake. destruct (send _ _ _ _ _) as [[] s1]; cbn [fst snd lk_in] in *; try done.
  unfold bind. destruct (shrinks_send (lit "login start") None SB_LOGIN_START (put_string (ac_username account) ++ ac_uuid account) s1) as [H3 H4].
  unfold send_login_start. destruct (send _ _ _ _ s1) as [[] s2]; cbn [fst snd lk_in] in *; try done. apply login_loop_returns. lia.
Qed.
(** *** What is said, and when *)

(** The answer to an encryption request: the server was joined under the digest of the
    secret and the key, and the packet carries that secret and the token, encrypted. *)
Definition answers (account : ServiceAccount) (hash data : bytes) : Prop := exists sid der token key n m k es et,
  hash = minecraft_hex_digest sha1 sid (random16 n) der /\ parse_key der = Some key /\
  post_join (ac_access_token account) (undashed (ac_uuid account)) hash = None /\
  rsa_encrypt key m (random16 n) = Some es /\ rsa_encrypt key k token = Some et /\ data = prefixed es ++ prefixed et.

(** [told account encrypting acts]: nothing is sent in the clear once an encryption
    request has been answered, and such an answer is given only right after a join of
    the session server for its secret was accepted. *)
Inductive told (account : ServiceAccount) : bool -> list Act -> Prop :=
  | told_nothing : told account false []
  | told_join r l h : told account r l -> told account r (l ++ [Joined h])
  | told_clear l id d : told account false l -> id <> SB_ENCRYPTION_RESPONSE -> told account false (l ++ [SentPacket false id d])
  | told_encrypted r l id d : told account r l -> id <> SB_ENCRYPTION_RESPONSE -> told account r (l ++ [SentPacket true id d])
  | told_answer r b l h d : told account r l -> (r = true -> b = true) -> answers account h d ->
      told account true (l ++ [Joined h] ++ [SentPacket b SB_ENCRYPTION_RESPONSE d]).

Definition in_step (account : ServiceAccount) (s : Link) : Prop := exists r, told account r (lk_acts s) /\ (r = true <-> lk_enc s <> None).
(** The link stays in step while the dialogue goes on, and what was said is right
    however it ends. *)
Definition proper (account : ServiceAccount) {A} (m : M Link RealmsError A) : Prop := forall s, in_step account s ->
  (exists r, told account r (lk_acts (m s).2)) /\ (is_ok (m s).1 = true -> in_step account (m s).2).

Lemma proper_bind account {A B} (m : M Link RealmsError A) (k : A -> M Link RealmsError B) :
  proper account m -> (forall a, proper account (k a)) -> proper account (bind m k).
Proof using.
  clear. intros Hm Hk s Hs. unfold bind. destruct (Hm s Hs) as [H1 H2]. destruct (m s) as [[a| | |] s1]; cbn in *; try (by split).
  by apply Hk, H2.
Qed.
Lemma proper_quiet account {A} (m : M Link RealmsError A) : (forall s, lk_acts (m s).2 = lk_acts s /\ lk_enc (m s).2 = lk_enc s) -> proper account m.
Proof using.
  clear. intros H s (r & Hr & He). destruct (H s) as [Ha Hn]. split; [exists r; by rewrite Ha|]. intros _. exists r. by rewrite Ha, Hn.
Qed.
Lemma proper_ret account {A} (a : A) : proper account (ret a). Proof using. by apply proper_quiet. Qed.
Lemma proper_fail account {A} e : proper account (fail (A := A) e). Proof using. by apply proper_quiet. Qed.
Lemma proper_parse account {A} what (m : Rd A) cur : proper account (parse what m cur).
Proof using. apply proper_quiet. intros s. unfold parse. by destruct (m cur) as [[] ?]. Qed.
Lemma proper_draw account : proper account draw. Proof using. by apply proper_quiet. Qed.
Lemma proper_recv account {A} what (m : Rd A) : proper account (recv what m).
Proof using. apply proper_quiet. intros s. unfold recv. destruct (lk_dec s); [destruct (m (decrypt ops c (lk_in s)).1)|destruct (m (lk_in s))]; done. Qed.

(** What [send] does to the record. *)
Lemma send_acts what c id d s :
  lk_acts (send what c id d s).2 = lk_acts s ++ [SentPacket (match lk_enc s with Some _ => true | None => false end) id d] /\
  (lk_enc (send what c id d s).2 = None <-> lk_enc s = None).
Proof using.
  unfold send. destruct (lk_enc s) as [e|]; [destruct (encrypt ops e _)|]; destruct (default true _); done.
Qed.

Lemma proper_send account what c id d : id <> SB_ENCRYPTION_RESPONSE -> proper account (send what c id d).
Proof using.
  intros Hid s (r & Hr & He). destruct (send_acts what c id d s) as [Ha Hn].
  assert (Ht : told account r (lk_acts (send what c id d s).2)).
  { rewrite Ha. destruct (lk_enc s) as [e|] eqn:Ee; [by apply told_encrypted|]. destruct r; [|by apply told_clear]. by destruct (proj1 He eq_refl). }
  split; [by exists r|]. intros _. exists r. split; [done|]. rewrite He. by split; intros H1 H2; apply H1, Hn.
Qed.

Lemma encrypted_with_cases what key data s : exists s', lk_acts s' = lk_acts s /\ lk_enc s' = lk_enc s /\
  ((exists e, encrypted_with what key data s = (Err e, s')) \/ exists x m, encrypted_with what key data s = (Ok x, s') /\ rsa_encrypt key m data = Some x).
Proof using.
  unfold encrypted_with, bind, draw. eexists (mkLink _ _ _ _ _ _ _). split_and!; [| |destruct (rsa_encrypt key (lk_draws s) data) as [x|] eqn:E;
    [right; exists x, (lk_draws s); split; [reflexivity|exact E]|left; eexists; reflexivity]]; reflexivity.
Qed.

Lemma proper_request account c pkt : proper account (handle_encryption_request c pkt account).
Proof using.
  unfold handle_encryption_request. apply proper_bind; [apply proper_parse|]. intros [sid cur]. apply proper_bind; [apply proper_parse|]. intros [der cur'].
  apply proper_bind; [apply proper_parse|]. intros [token ?]. apply proper_bind; [apply proper_draw|]. intros n. cbv zeta.
  intros s (r & Hr & He). set (h := minecraft_hex_digest sha1 sid (random16 n) der).
  destruct (post_join (ac_access_token account) (undashed (ac_uuid account)) h) as [e|] eqn:Ep.
  { erewrite bind_err by (unfold session_join; rewrite Ep; reflexivity). cbn. split; [by exists r|done]. }
  erewrite bind_ok by (unfold session_join; rewrite Ep; reflexivity). set (s0 := mkLink (lk_in s) _ _ _ _ _ _).
  assert (Hj : told account r (lk_acts s ++ [Joined h])) by (by apply told_join).
  destruct (parse_key der) as [key|] eqn:Ek; [|cbn; split; [by exists r|done]].
  destruct (encrypted_with_cases (lit "encrypt shared secret") key (random16 n) s0) as (s1 & A1 & N1 & [(e & E)|(es & m & E & E1)]);
    rewrite ?(bind_err _ _ _ _ _ E), ?(bind_ok _ _ _ _ _ E); [cbn; rewrite A1; split; [by exists r|done]|].
  destruct (encrypted_with_cases (lit "encrypt verify token") key token s1) as (s2 & A2 & N2 & [(e & E')|(et & k & E' & E2)]);
    rewrite ?(bind_err _ _ _ _ _ E'), ?(bind_ok _ _ _ _ _ E'); [cbn; rewrite A2, A1; split; [by exists r|done]|].
  unfold bind. match goal with |- context [send ?w ?c ?i ?d ?s2] => pose proof (send_acts w c i d s2) as [Ha Hn]; set (res := send w c i d s2) in * end.
  rewrite A2, A1, N2, N1 in Ha. subst s0. cbn [lk_acts lk_enc] in Ha.
  assert (Ht : told account true (lk_acts res.2)).
  { rewrite Ha, <- app_assoc. eapply told_answer; [exact Hr| |].
    - intros ->. destruct (lk_enc s) eqn:Ee; [done|]. by destruct (proj1 He eq_refl).
    - by exists sid, der, token, key, n, m, k, es, et. }
  destruct res as [[u|e| |] s3]; cbn [fst snd] in *; try (split; [by exists true|done]).
  destruct (init_aes_cfb8 _) as [[enc dec]|]; cbn; (split; [by exists true|]); [|done]. intros _. by exists true.
Qed.

Lemma proper_loop fuel account c : proper account (login_loop fuel account c).
Proof using.
  revert c. induction fuel as [|fuel IH]; intros c; cbn [login_loop]; [by apply proper_quiet|].
  apply proper_bind; [apply proper_recv|]. intros pkt.
  destruct (_ =? _); [apply proper_bind; [apply proper_parse|intros; apply IH]|].
  destruct (_ =? _); [apply proper_bind; [apply proper_request|intros; apply IH]|].
  destruct (_ =? _); [apply proper_bind; [by apply proper_send|intros; apply proper_ret]|].
  destruct (_ =? _); [apply proper_bind; [apply proper_bind; [apply proper_parse|intros; by apply proper_send]|intros; apply IH]|].
  destruct (_ =? _); apply proper_fail.
Qed.

(** However the login to a realm goes and ends, nothing is sent in the clear once
    an encryption request has been answered, no answer is given before the session
    server has accepted the join for its secret, and on success the connection is
    encrypted exactly if a request was answered. *)
Theorem realm_login_discreet (tcp : option bytes) (flushes : list bool) (host : bytes) (port protocol : Z) (account : ServiceAccount) :
  let '(res, link) := realm_connect tcp flushes host port protocol account in
  (exists r, told account r (lk_acts link)) /\
  (is_ok res = true -> exists r, told account r (lk_acts link) /\ (r = true <-> lk_enc link <> None)).
Proof using.
  unfold realm_connect. destruct tcp as [inbound|]; [|split; [exists false; constructor|done]].
  assert (H : proper account (send_handshake protocol host port ;; send_login_start account ;; login_loop (S (length inbound)) account None)).
  { apply proper_bind; [by apply proper_send|intros _]. apply proper_bind; [by apply proper_send|intros _]. apply proper_loop. }
  specialize (H (mkLink inbound None None [] flushes 0 [])).
  destruct ((send_handshake protocol host port ;; send_login_start account ;; login_loop (S (length inbound)) account None) (mkLink inbound None None [] flushes 0 [])) as [res link].
  apply H. exists false. split; [constructor|]. done.
Qed.
End LoginDialogue.

(** Concrete parties: keys of one letter, RSA that tags its input. *)
Definition demo_connect (inbound : bytes) := realm_connect feedback stored unstored (fun bs => replicate 20 x00) (fun k _ => be_val (take 1 k)) (fun k _ => be_val (take 1 k))
  (fun der => head der) (fun key n bs => Some (key :: bs)) (fun n => replicate 16 x07) (fun _ _ _ => None)
  (Some inbound) [] (lit "realm.example") 25565 774 (mkAccount (lit "TOKEN") (replicate 16 x11) (lit "Notch")).

Lemma realm_login_returns_witness : StreamCipher feedback eq /\ (demo_connect (lit "xyz")).1 <> NoFuel.
Proof. split; [exact feedback_stream|]. apply (realm_login_returns feedback) with (in_sync := eq). exact feedback_stream. Defined.

(** A realm that never asks for encryption is accepted: no session join, no cipher. *)
Theorem unencrypted_realm_accepted : exists link, demo_connect (frame_packet stored None CB_LOGIN_SUCCESS []) = (Ok None, link) /\
  lk_enc link = None /\ Forall (fun a => match a with Joined _ => False | SentPacket b _ _ => b = false end) (lk_acts link).
Proof. eexists. split; [vm_compute; reflexivity|]. split; [reflexivity|]. repeat constructor. Qed.

(** ** The web API *)

Definition JOIN_MAX_ATTEMPTS : nat := 20.

Record RealmWorld := mkWorld { rw_id : Z; rw_name : option bytes; rw_motd : option bytes; rw_state : option bytes; rw_owner : option bytes; rw_expired : bool }.
Definition is_open (w : RealmWorld) : bool := bool_decide (rw_state w = Some (lit "OPEN")).

Record JoinAddress := mkJoin { ja_address : bytes; ja_pending_update : bool }.
Definition host_port (j : JoinAddress) : bytes * Z + RealmsError :=
  match rsplit_once 0x3A (ja_address j) with
  | Some (h, p) => match parse_uint 65535 p with Some port => inl (h, port) | None => inr (RE_Api (lit "bad join port in " ++ ja_address j)) end
  | None => inl (ja_address j, 25565)
  end.

(** One answer of the API: none, or a status with the body if it decodes. *)
Inductive Reply (A : Type) := NoReply (why : bytes) | Answer (status : Z) (body : A + bytes).
Arguments NoReply {A}. Arguments Answer {A}.
Definition success (status : Z) : bool := (200 <=? status) && (status <=? 299).

Definition sid_cookie (a : ServiceAccount) : bytes := lit "token:" ++ ac_access_token a ++ lit ":" ++ undashed (ac_uuid a).
Definition cookie_header (client_version : bytes) (a : ServiceAccount) : bytes :=
  lit "sid=" ++ sid_cookie a ++ lit ";user=" ++ ac_username a ++ lit ";version=" ++ client_version.

Record RealmsApi := mkApi { api_base_url : bytes; api_client_version : bytes }.
Definition RealmsApi_new (base_url client_version : bytes) : RealmsApi := mkApi (trim_end (zb 0x2F) base_url) client_version.

(** A request: the URL and the cookie. *)
Definition api_request (api : RealmsApi) (account : ServiceAccount) (path : bytes) : bytes * bytes :=
  (api_base_url api ++ path, cookie_header (api_client_version api) account).

Definition list_worlds (api : RealmsApi) (account : ServiceAccount) (http : bytes * bytes -> Reply (list RealmWorld)) : list RealmWorld + RealmsError :=
  match http (api_request api account (lit "/worlds")) with
  | NoReply why => inr (RE_Http why)
  | Answer status body =>
      if negb (success status) then inr (RE_Api (lit "GET /worlds returned " ++ number status))
      else match body with inl servers => inl servers | inr why => inr (RE_Api (lit "decoding /worlds: " ++ why)) end
  end.

(** [http n request]: the answer to the request of attempt [n]; the account is read
    again for each.  The result comes with the requests made. *)
Fixpoint join_from (left attempt : nat) (api : RealmsApi) (account : nat -> ServiceAccount) (world_id : Z)
    (http : nat -> bytes * bytes -> Reply JoinAddress) : (JoinAddress + RealmsError) * list (bytes * bytes) :=
  match left with
  | O => (inr (RE_Api (lit "realm " ++ number world_id ++ lit " did not become ready after " ++ number (Z.of_nat JOIN_MAX_ATTEMPTS) ++ lit " attempts")), [])
  | S left' =>
      let req := api_request api (account attempt) (lit "/worlds/v1/" ++ number world_id ++ lit "/join/pc") in
      match http attempt req with
      | NoReply why => (inr (RE_Http why), [req])
      | Answer status body =>
          if success status then
            (match body with inl addr => inl addr | inr why => inr (RE_Api (lit "decoding join response: " ++ why)) end, [req])
          else if status =? 503 then
            let '(r, reqs) := join_from left' (S attempt) api account world_id http in (r, req :: reqs)
          else (inr (RE_Api (lit "join realm " ++ number world_id ++ lit " returned " ++ number status)), [req])
      end
  end.
Definition api_join (api : RealmsApi) (account : nat -> ServiceAccount) (world_id : Z) (http : nat -> bytes * bytes -> Reply JoinAddress) :=
  join_from JOIN_MAX_ATTEMPTS 1 api account world_id http.

Definition join_request (api : RealmsApi) (account : nat -> ServiceAccount) (world_id : Z) (n : nat) : bytes * bytes :=
  api_request api (account n) (lit "/worlds/v1/" ++ number world_id ++ lit "/join/pc").
Definition booting {A} (r : Reply A) : bool := match r with Answer status _ => negb (success status) && (status =? 503) | NoReply _ => false end.

Lemma join_from_spec left attempt api account world_id http :
  let res := join_from left attempt api account world_id http in
  res.2 = map (join_request api account world_id) (seq attempt (length res.2)) /\ (length res.2 <= left)%nat /\
  (forall a, res.1 = inl a -> exists k status, (k < left)%nat /\ http (attempt + k)%nat (join_request api account world_id (attempt + k)) = Answer status (inl a) /\
     success status = true /\ (forall j, (j < k)%nat -> booting (http (attempt + j)%nat (join_request api account world_id (attempt + j))) = true) /\ length res.2 = S k).
Proof.
  revert attempt. induction left as [|left IH]; intros attempt; cbn zeta; cbn [join_from]; [by split_and!|].
  change (api_request api (account attempt) _) with (join_request api account world_id attempt).
  destruct (http attempt (join_request api account world_id attempt)) as [why|status body] eqn:E; [split_and!; [done|cbn; lia|done]|].
  destruct (success status) eqn:Es.
  { split_and!; [done|cbn; lia|]. intros a Ha. cbn in Ha. destruct body as [addr|]; [|done]. injection Ha as ->. exists 0%nat, status. rewrite Nat.add_0_r.
    split_and!; [lia|exact E|done|lia|done]. }
  destruct (Z.eqb_spec status 503) as [->|]; [|split_and!; [done|cbn; lia|done]].
  specialize (IH (S attempt)). destruct (join_from left (S attempt) api account world_id http) as [r reqs]. cbn [fst snd length seq map] in *.
  destruct IH as (H1 & H2 & H3). split_and!; [by rewrite <- H1|lia|]. intros a Ha. destruct (H3 a Ha) as (k & st & Hk & He & Hs & Hb & Hl).
  exists (S k), st. rewrite <- Nat.add_succ_comm. split_and!; [lia|exact He|done| |lia].
  intros [|j] Hj; [by rewrite Nat.add_0_r, E|]. rewrite <- Nat.add_succ_comm. apply Hb. lia.
Qed.

(** Joining a realm makes at most twenty requests, each with the account as it is
    then; it answers with an address only if the last of them returned it and every one
    before it said that the realm was booting. *)
Theorem realm_join_polls (api : RealmsApi) (account : nat -> ServiceAccount) (world_id : Z) (http : nat -> bytes * bytes -> Reply JoinAddress) :
  let '(res, reqs) := api_join api account world_id http in
  reqs = map (join_request api account world_id) (seq 1 (length reqs)) /\ (length reqs <= 20)%nat /\
  forall a, res = inl a -> exists k status, length reqs = k /\ (1 <= k)%nat /\ http k (join_request api account world_id k) = Answer status (inl a) /\
    success status = true /\ forall j, (1 <= j < k)%nat -> booting (http j (join_request api account world_id j)) = true.
Proof.
  pose proof (join_from_spec JOIN_MAX_ATTEMPTS 1 api account world_id http) as H. unfold api_join. destruct (join_from _ _ _ _ _ _) as [res reqs].
  cbn [fst snd] in H. destruct H as (H1 & H2 & H3). split_and!; [done|exact H2|]. intros a Ha. destruct (H3 a Ha) as (k & st & Hk & He & Hs & Hb & Hl).
  exists (S k), st. split_and!; [done|lia|exact He|done|]. intros j Hj. replace j with (1 + (j - 1))%nat by lia. apply Hb. lia.
Qed.

Lemma split_once_at c a x b : Forall (fun y => bz y <> c) a -> bz x = c -> split_once c (a ++ x :: b) = Some (a, b).
Proof.
  intros Ha Hx. induction Ha as [|y a Hy Ha IH]; cbn [app split_once]; [by rewrite Hx, Z.eqb_refl|].
  rewrite (proj2 (Z.eqb_neq _ _)) by done. by rewrite IH.
Qed.

Lemma dec_digits_no_colon fuel z acc : Forall (fun y => bz y <> 0x3A) acc -> Forall (fun y => bz y <> 0x3A) (dec_digits fuel z acc).
Proof.
  revert z acc. induction fuel as [|fuel IH]; intros z acc H; cbn [dec_digits]; [done|].
  assert (H' : Forall (fun y => bz y <> 0x3A) (zb (0x30 + z mod 10) :: acc)).
  { constructor; [|done]. pose proof (Z.mod_pos_bound z 10 ltac:(lia)). rewrite bz_zb, Z.mod_small by lia. lia. }
  destruct (z <? 10); [done|]. by apply IH.
Qed.

(** The address of a realm, written as host and port, is split as it was. *)
Theorem host_port_roundtrip (host : bytes) (port : Z) (pending : bool) : 0 <= port <= 65535 ->
  host_port (mkJoin (host ++ lit ":" ++ to_string port) pending) = inl (host, port).
Proof.
  intros Hp. unfold host_port, rsplit_once. cbn [ja_address]. rewrite rev_app_distr. cbn [lit]. change (lit ":") with [zb 0x3A]. cbn [app rev]. rewrite <- app_assoc. cbn [app].
  rewrite split_once_at; [|apply Forall_rev, dec_digits_no_colon; constructor|done]. rewrite !rev_involutive. by rewrite parse_to_string by lia.
Qed.

(** ** The service account *)

Section Credentials.
Variable uuid_parse_str : bytes -> option bytes.

(** The slices fall on a character boundary or panic. *)
Definition insert_hyphens (s : bytes) : outcome unit bytes :=
  if negb (length s =? 32)%nat then Ok s
  else if forallb (is_char_boundary s) [8; 12; 16; 20]%nat
  then Ok (take 8 s ++ lit "-" ++ take 4 (drop 8 s) ++ lit "-" ++ take 4 (drop 12 s) ++ lit "-" ++ take 4 (drop 16 s) ++ lit "-" ++ take 12 (drop 20 s))
  else Panic.

Definition realm_parse_uuid (s : bytes) : outcome unit (option bytes) :=
  match uuid_parse_str s with
  | Some u => Ok (Some u)
  | None => match insert_hyphens s with Ok t => Ok (uuid_parse_str t) | Err e => Err e | Panic => Panic | NoFuel => NoFuel end
  end.

Record ServiceAccountConfig := mkAccountConfig { sa_username : bytes; sa_uuid : bytes; sa_access_token : option bytes; sa_msa_refresh_token : option bytes }.
Record RealmEntry := mkEntry { re_name : bytes; re_id : Z }.
Record RealmsConfig := mkRealmsConfig {
  rc_enabled : bool; rc_service_account : ServiceAccountConfig; rc_realms : list RealmEntry; rc_client_version : bytes; rc_api_base_url : bytes }.

Definition credentials_from_config (cfg : ServiceAccountConfig) : outcome RealmsError ServiceAccount :=
  match realm_parse_uuid (sa_uuid cfg) with
  | Ok None => Err (RE_Config (lit "invalid service account uuid: " ++ sa_uuid cfg))
  | Ok (Some uuid) =>
      match sa_access_token cfg with
      | None | Some [] => Err (RE_Config (lit "service account has no access_token (msa_refresh_token exchange not yet wired)"))
      | Some token =>
          match sa_username cfg with
          | [] => Err (RE_Config (lit "service account username is empty"))
          | _ => Ok (mkAccount token uuid (sa_username cfg))
          end
      end
  | Err _ => Panic | Panic => Panic | NoFuel => NoFuel
  end.
Definition set_access_token (token : bytes) (a : ServiceAccount) : ServiceAccount := mkAccount token (ac_uuid a) (ac_username a).

(** ** The bridge *)

Record RealmsBridge := mkBridge { br_api : RealmsApi; br_realms : gmap bytes Z; br_protocol : Z; br_account : ServiceAccount }.

(** Collecting into a [HashMap]: of two entries of one name the later stays. *)
Definition realm_map (l : list RealmEntry) : gmap bytes Z := foldl (fun m e => <[re_name e := re_id e]> m) ∅ l.

Definition bridge_from_config (cfg : RealmsConfig) (protocol : Z) : outcome RealmsError (option RealmsBridge) :=
  if negb (rc_enabled cfg) then Ok None
  else match credentials_from_config (rc_service_account cfg) with
       | Ok account => Ok (Some (mkBridge (RealmsApi_new (rc_api_base_url cfg) (rc_client_version cfg)) (realm_map (rc_realms cfg)) protocol account))
       | Err e => Err e | Panic => Panic | NoFuel => NoFuel
       end.

(** [connect]: resolving, then logging in; [login] is [realm_connect] at the address. *)
Definition bridge_connect {A} (b : RealmsBridge) (http : nat -> bytes * bytes -> Reply JoinAddress)
    (login : bytes -> Z -> Z -> ServiceAccount -> outcome RealmsError A) (name : bytes) : outcome RealmsError A :=
  match br_realms b !! name with
  | None => Err (RE_UnknownRealm name)
  | Some world_id =>
      match (api_join (br_api b) (fun _ => br_account b) world_id http).1 with
      | inr e => Err e
      | inl join =>
          match host_port join with
          | inr e => Err e
          | inl (host, port) => login host port (br_protocol b) (br_account b)
          end
      end
  end.

(** A client is only ever logged in to an address that the API has given for the realm
    of that name. *)
Lemma bridge_connect_resolved {A} b http login name (a : A) : bridge_connect b http login name = Ok a ->
  exists id join host port k status, br_realms b !! name = Some id /\ http k (join_request (br_api b) (fun _ => br_account b) id k) = Answer status (inl join) /\
    success status = true /\ host_port join = inl (host, port) /\ login host port (br_protocol b) (br_account b) = Ok a.
Proof.
  unfold bridge_connect. destruct (br_realms b !! name) as [id|]; [|done].
  pose proof (join_from_spec JOIN_MAX_ATTEMPTS 1 (br_api b) (fun _ => br_account b) id http) as H. unfold api_join.
  destruct (join_from _ _ _ _ _ _) as [[join|e] reqs]; cbn [fst snd] in *; [|done]. destruct H as (_ & _ & H).
  destruct (H join eq_refl) as (k & st & _ & He & Hs & _). destruct (host_port join) as [[host port]|] eqn:Eh; [|done]. intros Hl.
  by exists id, join, host, port, (1 + k)%nat, st.
Qed.

(** A malformed identifier of 32 bytes panics where a character straddles a cut. *)
Theorem malformed_uuid_panics : uuid_parse_str (lit "abcdefgé0123456789abcdef0123456") = None ->
  realm_parse_uuid (lit "abcdefgé0123456789abcdef0123456") = Panic.
Proof. intros H. unfold realm_parse_uuid. rewrite H. reflexivity. Qed.
End Credentials.
