(* ===== verification/Coverage.v ===== *)
(** * The converter coverage map

    crates/proxy-core/src/protocol/coverage.rs: which pairs of versions are said to be
    convertible, at three granularities, and the reports made of them. *)
From Stdlib Require Import ZArith Lia Bool Strings.String Strings.Byte.
From stdpp Require Import base list numbers strings.
From S2P Require Import Prelude Negotiation.
Local Open Scope Z_scope.

#[export] Instance CanonicalVersion_eq_dec : EqDecision CanonicalVersion.
Proof. solve_decision. Defined.

Inductive CoverageStatus := Complete | Partial | Missing | SameVersion.
#[export] Instance CoverageStatus_eq_dec : EqDecision CoverageStatus.
Proof. solve_decision. Defined.

Record VersionPair := mkPair { vp_from : ProtocolVersion; vp_to : ProtocolVersion }.
Definition epoch_pair (p : VersionPair) : Epoch * Epoch := (epoch (vp_from p), epoch (vp_to p)).
Definition canonical_pair (p : VersionPair) : CanonicalVersion * CanonicalVersion :=
  (canonical_typed_packet_version (vp_from p), canonical_typed_packet_version (vp_to p)).

Record ConverterInfo := mkConverter {
  ci_from : ProtocolVersion; ci_to : ProtocolVersion; ci_status : CoverageStatus; ci_module : bytes; ci_description : bytes; ci_packet_count : Z }.

(** A [HashMap] as the list of its entries; inserting replaces the entry of the key. *)
Section Table.
Context {K V : Type} `{!EqDecision K}.
Fixpoint table_get (k : K) (t : list (K * V)) : option V :=
  match t with [] => None | (k', v) :: rest => if decide (k' = k) then Some v else table_get k rest end.
Fixpoint table_insert (k : K) (v : V) (t : list (K * V)) : list (K * V) :=
  match t with [] => [(k, v)] | (k', v') :: rest => if decide (k' = k) then (k, v) :: rest else (k', v') :: table_insert k v rest end.

Lemma table_get_insert k k' v t : table_get k' (table_insert k v t) = if decide (k = k') then Some v else table_get k' t.
Proof.
  induction t as [|[j w] t IH]; cbn; [done|]. destruct (decide (j = k)) as [->|Hj]; cbn.
  - by destruct (decide (k = k')).
  - rewrite IH. destruct (decide (j = k')) as [->|]; [|done]. by rewrite decide_False by congruence.
Qed.
End Table.

Record ProtocolCoverage := mkCoverage {
  coverage : list (Epoch * Epoch * CoverageStatus);
  canonical_coverage : list (CanonicalVersion * CanonicalVersion * CoverageStatus);
  converters : list (ProtocolVersion * ProtocolVersion * ConverterInfo) }.

Definition ALL_EPOCHS : list Epoch :=
  [E_PreNetty; E_V1_7; E_V1_8; E_V1_9_To_1_12; E_V1_13_To_1_15; E_V1_16; E_V1_17_To_1_18; E_V1_19; E_V1_20; E_V1_21Plus].
Definition ALL_CANONICAL : list CanonicalVersion := [C_V1_6_4; C_V1_7_10; C_V1_8; C_V1_12_2; C_V1_15_2; C_V1_16_5; C_V1_18_2; C_V1_20_4].

Definition register_converter (from to : ProtocolVersion) (module description : bytes) (packet_count : Z) (c : ProtocolCoverage) : ProtocolCoverage :=
  let e1 := epoch from in let e2 := epoch to in
  let c1 := canonical_typed_packet_version from in let c2 := canonical_typed_packet_version to in
  mkCoverage
    (table_insert (e2, e1) Complete (table_insert (e1, e2) Complete (coverage c)))
    (table_insert (c2, c1) Complete (table_insert (c1, c2) Complete (canonical_coverage c)))
    (table_insert (to, from) (mkConverter to from Complete module (description ++ lit " (reverse)") packet_count)
       (table_insert (from, to) (mkConverter from to Complete module description packet_count) (converters c))).

Definition same_versions : ProtocolCoverage :=
  mkCoverage (foldl (fun t e => table_insert (e, e) Complete t) [] ALL_EPOCHS)
    (foldl (fun t c => table_insert (c, c) Complete t) [] ALL_CANONICAL) [].

Definition coverage_new : ProtocolCoverage :=
  register_converter V1_8 V1_16_5 (lit "v1_8_to_modern") (lit "1.8 → modern versions conversion") 70 (
  register_converter V1_16_5 V1_20_4 (lit "v1_16_5_to_v1_20_4") (lit "1.16.5 → 1.20.4 bidirectional conversion") 35 (
  register_converter V1_12_2 V1_16_5 (lit "v1_12_2_to_v1_16_5") (lit "1.12.2 → 1.16.5 bidirectional conversion") 55 (
  register_converter V1_6_4 V1_16_5 (lit "v1_6_4_to_v1_16_5") (lit "1.6.4 → 1.16.5 conversion") 40 (
  register_converter V1_6_4 V1_12_2 (lit "v1_6_4_to_v1_12_2") (lit "1.6.4 → 1.12.2 conversion") 45 (
  register_converter V1_7_10 V1_8 (lit "v1_7_to_v1_8") (lit "1.7 → 1.8 bidirectional conversion") 60 (
  register_converter V1_8 V1_7_10 (lit "v1_8_to_v1_7") (lit "1.8 → 1.7 server-to-client conversion") 50 same_versions)))))).

Definition get_status (c : ProtocolCoverage) (from to : ProtocolVersion) : CoverageStatus :=
  if decide (from = to) then SameVersion
  else match table_get (canonical_typed_packet_version from, canonical_typed_packet_version to) (canonical_coverage c) with
       | Some status => status
       | None => default Missing (table_get (epoch from, epoch to) (coverage c))
       end.
Definition get_converter_info (c : ProtocolCoverage) (from to : ProtocolVersion) : option ConverterInfo := table_get (from, to) (converters c).
Definition mark_complete (from to : Epoch) (c : ProtocolCoverage) : ProtocolCoverage :=
  mkCoverage (table_insert (from, to) Complete (coverage c)) (canonical_coverage c) (converters c).
Definition mark_canonical_complete (from to : CanonicalVersion) (c : ProtocolCoverage) : ProtocolCoverage :=
  mkCoverage (coverage c) (table_insert (from, to) Complete (canonical_coverage c)) (converters c).
Definition mark_partial (from to : Epoch) (c : ProtocolCoverage) : ProtocolCoverage :=
  mkCoverage (table_insert (from, to) Partial (coverage c)) (canonical_coverage c) (converters c).

(** The pairs of [all] that are not on the diagonal and not covered. *)
Definition missing_pairs {K} `{!EqDecision K} (all : list K) (t : list (K * K * CoverageStatus)) : list (K * K) :=
  List.filter (fun p => bool_decide (p.1 <> p.2) && bool_decide (default Missing (table_get p t) = Missing))
    (List.flat_map (fun a => map (pair a) all) all).
Definition get_missing (c : ProtocolCoverage) : list (Epoch * Epoch) := missing_pairs ALL_EPOCHS (coverage c).
Definition get_missing_canonical (c : ProtocolCoverage) : list (CanonicalVersion * CanonicalVersion) := missing_pairs ALL_CANONICAL (canonical_coverage c).
Definition get_all_converters (c : ProtocolCoverage) : list ConverterInfo := (converters c).*2.

(** A percentage as the two counts it is the quotient of. *)
Definition complete_count {K} (t : list (K * CoverageStatus)) : nat := length (List.filter (fun p => bool_decide (p.2 = Complete)) t).
Definition coverage_percentage (c : ProtocolCoverage) : nat * nat := (complete_count (coverage c), (length ALL_EPOCHS * (length ALL_EPOCHS - 1))%nat).
Definition canonical_coverage_percentage (c : ProtocolCoverage) : nat * nat :=
  (complete_count (canonical_coverage c), (length ALL_CANONICAL * (length ALL_CANONICAL - 1))%nat).

Definition epoch_to_version (e : Epoch) : ProtocolVersion :=
  match e with
  | E_PreNetty => V1_6_4 | E_V1_7 => V1_7_10 | E_V1_8 => V1_8 | E_V1_9_To_1_12 => V1_12_2 | E_V1_13_To_1_15 => V1_15_2
  | E_V1_16 => V1_16_5 | E_V1_17_To_1_18 => V1_18_2 | E_V1_19 => V1_19_4 | E_V1_20 => V1_20_4 | E_V1_21Plus => V1_21 | E_Unknown => V1_20_4
  end.

(** The tests of the source. *)
Example coverage_tracking : get_status coverage_new V1_12_2 V1_12_2 = SameVersion /\ get_status coverage_new V1_12_2 V1_16_5 = Complete /\
  get_status coverage_new V1_8 V1_21 = Missing.
Proof. repeat split; reflexivity. Qed.

(** ** What the map says *)

Definition symmetric (c : ProtocolCoverage) : Prop :=
  (forall a b, table_get (a, b) (coverage c) = table_get (b, a) (coverage c)) /\
  (forall a b, table_get (a, b) (canonical_coverage c) = table_get (b, a) (canonical_coverage c)).

Lemma insert_both {K V} `{!EqDecision K} (x y a b : K) (v : V) t : table_get (a, b) t = table_get (b, a) t ->
  table_get (a, b) (table_insert (y, x) v (table_insert (x, y) v t)) = table_get (b, a) (table_insert (y, x) v (table_insert (x, y) v t)).
Proof. intros H. rewrite !table_get_insert, H. repeat case_decide; simplify_eq; congruence. Qed.

Lemma register_symmetric from to m d n c : symmetric c -> symmetric (register_converter from to m d n c).
Proof. intros [H1 H2]. split; intros a b; apply insert_both; auto. Qed.

Lemma new_symmetric : symmetric coverage_new.
Proof. unfold coverage_new. repeat apply register_symmetric. split; intros [] []; reflexivity. Qed.

(** However converters are registered, a pair has the status of its reverse; [SameVersion]
    is the status of equal versions only; and a registered pair is complete with its
    description. *)
Theorem coverage_symmetric (regs : list (ProtocolVersion * ProtocolVersion * bytes * bytes * Z)) (a b : ProtocolVersion) :
  let c := foldl (fun c '(from, to, m, d, n) => register_converter from to m d n c) coverage_new regs in
  get_status c a b = get_status c b a /\ (a = b -> get_status c a b = SameVersion).
Proof.
  cbn zeta. assert (Hs : symmetric (foldl (fun c '(from, to, m, d, n) => register_converter from to m d n c) coverage_new regs)).
  { pose proof new_symmetric as H. revert H. generalize coverage_new. induction regs as [|[[[[f t] m] d] n] regs IH]; intros c H; [done|]. cbn. by apply IH, register_symmetric. }
  destruct Hs as [H1 H2]. unfold get_status. split; [|intros ->; by rewrite decide_True].
  destruct (decide (a = b)) as [->|Hab]; [by rewrite decide_True|]. rewrite decide_False by done. by rewrite H2, H1.
Qed.

Lemma registered_complete from to m d n c : from <> to ->
  get_status (register_converter from to m d n c) from to = Complete /\
  get_converter_info (register_converter from to m d n c) from to = Some (mkConverter from to Complete m d n).
Proof.
  intros Hne. unfold get_status, get_converter_info, register_converter. cbn [canonical_coverage coverage converters].
  rewrite decide_False by done. rewrite !table_get_insert. split.
  - case_decide; [done|]. by rewrite decide_True.
  - rewrite decide_False by congruence. by rewrite decide_True.
Qed.

(** The percentage counts the pairs of a version with itself among the covered ones but
    not among all: with everything covered it is more than a hundred. *)
Theorem percentage_overcounts :
  coverage_percentage (foldl (fun c p => mark_complete p.1 p.2 c) coverage_new (List.flat_map (fun a => map (pair a) ALL_EPOCHS) ALL_EPOCHS)) = (100, 90)%nat /\
  coverage_percentage same_versions = (10, 90)%nat.
Proof. split; vm_compute; reflexivity. Qed.

(** The list of missing pairs leaves out three of the eleven canonical versions. *)
Theorem newest_versions_unlisted c a x : x = C_V1_19_4 \/ x = C_V1_21 \/ x = C_V26 -> ~ List.In (x, a) (get_missing_canonical c).
Proof.
  intros Hx H. apply List.filter_In in H as [H _]. apply List.in_flat_map in H as (y & Hy & Hm).
  apply List.in_map_iff in Hm as (z & Hz & _). injection Hz as -> _. destruct Hx as [->|[->| ->]]; cbn in Hy; intuition discriminate.
Qed.
