(* ===== verification/Config.v ===== *)
(** * Configuration

    crates/config/src/lib.rs and the start-up of src/main.rs: the sections of
    config.toml with what a missing key stands for, how they are written back, the
    secrets that are checked before the proxy starts, the identity of the node and
    the acceptance of the licence.  Parsing and printing TOML, the merge with the
    environment and address ranges are the toml, figment and ipnet crates:
    arguments. *)
From Stdlib Require Import ZArith Lia Bool Strings.String Strings.Byte.
From stdpp Require Import base list gmap fin_maps numbers strings.
From S2P Require Import Prelude Routing Failover Chars Utf8 Transfer CrashReport Modloader.
Local Open Scope Z_scope.
Local Open Scope koja_scope.

(** ** Documents

    A TOML value.  A section is taken to be written as a table. *)
Inductive Toml :=
  | TStr (s : bytes) | TInt (n : Z) | TBool (b : bool) | TFloat (bits : Z) | TDatetime (text : bytes)
  | TArr (l : list Toml) | TTab (t : list (bytes * Toml)).

Fixpoint get {A} (k : bytes) (t : list (bytes * A)) : option A :=
  match t with [] => None | (k', v) :: t' => if bool_decide (k = k') then Some v else get k t' end.
Definition get_item (k : bytes) (v : Toml) : option Toml := match v with TTab t => get k t | _ => None end.
Fixpoint insert_item (k : bytes) (v : Toml) (t : list (bytes * Toml)) : list (bytes * Toml) :=
  match t with [] => [(k, v)] | (k', v') :: t' => if bool_decide (k = k') then (k, v) :: t' else (k', v') :: insert_item k v t' end.

(** Serialize and Deserialize of one type.  [ser] fails with [None]; [Some None] is a
    value that is left out of its table, the [None] of an [Option]. *)
Record serde (A : Type) := Serde { ser : A -> option (option Toml); de : Toml -> option A }.
Arguments Serde {A} _ _. Arguments ser {A} _ _. Arguments de {A} _ _.

Definition Str : serde bytes := Serde (fun s => Some (Some (TStr s))) (fun v => match v with TStr s => Some s | _ => None end).
Definition Bool : serde bool := Serde (fun b => Some (Some (TBool b))) (fun v => match v with TBool b => Some b | _ => None end).
(** An integer type with the values from [lo] to [hi]; TOML holds an i64. *)
Definition Int (lo hi : Z) : serde Z :=
  Serde (fun n => if n <=? 2 ^ 63 - 1 then Some (Some (TInt n)) else None)
    (fun v => match v with TInt n => if (lo <=? n) && (n <=? hi) then Some n else None | _ => None end).
Definition I32 : serde Z := Int (- 2 ^ 31) (2 ^ 31 - 1).
Definition U16 : serde Z := Int 0 (2 ^ 16 - 1).
Definition U32 : serde Z := Int 0 (2 ^ 32 - 1).
Definition U64 : serde Z := Int 0 (2 ^ 64 - 1).
Definition USize : serde Z := U64.
Definition Opt {A} (s : serde A) : serde (option A) :=
  Serde (fun o => match o with Some a => ser s a | None => Some None end) (fun v => Some <$> de s v).
Definition ser_elem {A} (s : serde A) (a : A) : option Toml := r ← ser s a; r.
Definition Vec {A} (s : serde A) : serde (list A) :=
  Serde (fun l => (fun l' => Some (TArr l')) <$> mapM (ser_elem s) l)
    (fun v => match v with TArr l => mapM (de s) l | _ => None end).
Definition HashMap {A} (s : serde A) : serde (gmap bytes A) :=
  Serde (fun m => (fun t => Some (TTab t)) <$> mapM (fun kv => pair kv.1 <$> ser_elem s kv.2) (map_to_list m))
    (fun v => match v with TTab t => list_to_map <$> mapM (fun kv => pair kv.1 <$> de s kv.2) t | _ => None end).
(** An enum of unit variants, by the names they are renamed to. *)
Definition Enum {A} (names : list (bytes * A)) (name : A -> bytes) : serde A :=
  Serde (fun a => Some (Some (TStr (name a)))) (fun v => match v with TStr s => get s names | _ => None end).

(** A field: without a default it has to be there. *)
Definition field {A} (s : serde A) (dflt : option A) (k : bytes) (t : list (bytes * Toml)) : option A :=
  match get k t with Some v => de s v | None => dflt end.
Definition struct {A} (f : list (bytes * Toml) -> option A) (v : Toml) : option A := match v with TTab t => f t | _ => None end.
Definition fld {A} (s : serde A) (k : bytes) (a : A) : bytes * option (option Toml) := (k, ser s a).
Fixpoint ser_fields (fs : list (bytes * option (option Toml))) : option (list (bytes * Toml)) :=
  match fs with
  | [] => Some []
  | (k, r) :: fs' => r ← r; t ← ser_fields fs'; Some (match r with Some v => (k, v) :: t | None => t end)
  end.
Definition ser_struct (fs : list (bytes * option (option Toml))) : option (option Toml) := (fun t => Some (TTab t)) <$> ser_fields fs.

(** ** Defaults *)

Definition default_failback : bool := true.
Definition default_resource_pack_required : bool := false.
Definition default_server_weight : Z := 1.
Definition default_ip_reputation_cache_ttl_secs : Z := 3600.
Definition default_ip_reputation_timeout_ms : Z := 300.
Definition default_maintenance_kick_message : bytes := lit "The network is currently down for maintenance. Please check back soon.".
Definition default_query_bind : bytes := lit "0.0.0.0:25565".
Definition default_hot_reload_interval : Z := 5.
Definition default_telemetry_endpoint : bytes := lit "https://metrics.kojacraft.net".
Definition default_telemetry_interval : Z := 1800.
Definition default_public_key : bytes :=
  lit "MIICIjANBgkqhkiG9w0BAQEFAAOCAg8AMIICCgKCAgEAylB4B6m5lz7jwrcFz6Fd/fnfUhcvlxsTSn5kIK/2aGG1C3kMy4VjhwlxF6BFUSnfxhNswPjh3ZitkBxEAFY25uzkJFRwHwVA9mdwjashXILtR6OqdLXXFVyUPIURLOSWqGNBtb08EN5fMnG8iFLgEJIBMxs9BvF3s3/FhuHyPKiVTZmXY0WY4ZyYqvoKR+XjaTRPPvBsDa4WI2u1zxXMeHlodT3lnCzVvyOYBLXL6CJgByuOxccJ8hnXfF9yY4F0aeL080Jz/3+EBNG8RO4ByhtBf4Ny8NQ6stWsjfeUIvH7bU/4zCYcYOq4WrInXHqS8qruDmIl7P5XXGcabuzQstPf/h2CRAUpP/PlHXcMlvewjmGU6MfDK+lifScNYwjPxRo4nKTGFZf/0aqHCh/EAsQyLKrOIYRE0lDG3bzBh8ogIMLAugsAfBb6M3mqCqKaTMAf/VAjh5FFJnjS+7bE+bZEV0qwax1CEoPPJL1fIQjOS8zj086gjpGRCtSy9+bTPTfTR/SJ+VUB5G2IeCItnkNHpJX2ygojFZ9n5Fnj7R9ZnOM+L8nyIjPu3aePvtcrXlyLhH/hvOfIOjPxOlqW+O5QwSFP4OEcyLAUgDdUgyW36Z5mB285uKW/ighzZsOTevVUG2QwDItObIV6i8RCxFbN2oDHyPaO5j1tTaBNyVt8CAwEAAQ==".
Definition default_grpc_enabled : bool := false.
Definition default_grpc_bind_address : bytes := lit "127.0.0.1".
Definition default_grpc_port : Z := 50051.
Definition default_bind : bytes := lit "0.0.0.0:25565".
Definition default_online_mode : bool := true.
Definition default_proxy_protocol : bool := false.
Definition default_ip_forward : bool := false.
Definition default_compression_threshold : Z := 256.
Definition default_max_players : Z := 1000.
Definition default_motd : bytes := lit "KojacoordNetwork".
Definition default_session_timeout : Z := 5.
Definition default_max_conns_per_ip : Z := 8.
Definition bool_true : bool := true.
Definition default_lobby_name : bytes := lit "lobby".
Definition default_management_enabled : bool := false.
Definition default_management_bind : bytes := lit "127.0.0.1:25566".
Definition default_management_auth_token : bytes := [].
Definition default_auth_url : bytes := lit "https://sessionserver.mojang.com/session/minecraft/hasJoined".
Definition default_metrics_bind : bytes := lit "127.0.0.1:9090".
Definition default_server_compression : Z := 0.
Definition default_health_probe_timeout : Z := 5.
Definition default_health_probe_threshold : Z := 3.

(** ** Sections *)

Section Sections.
Context {IpNet Json : Type}.
Variables (Net : serde IpNet) (JsonValue : serde Json).

Record ProxySection := mkProxySection {
  px_bind : bytes; px_online_mode : bool; px_ip_forward : bool; px_compression_threshold : Z; px_max_players : Z;
  px_prevent_proxy_connections : bool; px_proxy_protocol : bool; px_proxy_protocol_optional : bool;
  px_trusted_proxies : list IpNet; px_session_timeout_secs : Z; px_resource_pack_url : option bytes;
  px_resource_pack_hash : option bytes; px_resource_pack_required : bool; px_resource_pack_prompt : option bytes;
  px_cookies_transfers_passthrough : bool; px_chat_signing_translation : bool; px_max_connections_per_ip : Z;
  px_lobby_server_name : bytes; px_server_id : bytes; px_eula_accepted : bool; px_auth_url : bytes;
  px_mojang_public_key : bytes; px_batch_s2c_writes : bool }.

Definition ProxySection_de : Toml -> option ProxySection := struct (fun t =>
  bind ← field Str (Some default_bind) (lit "bind") t;
  online_mode ← field Bool (Some default_online_mode) (lit "online_mode") t;
  ip_forward ← field Bool (Some default_ip_forward) (lit "ip_forward") t;
  compression_threshold ← field I32 (Some default_compression_threshold) (lit "compression_threshold") t;
  max_players ← field USize (Some default_max_players) (lit "max_players") t;
  prevent_proxy_connections ← field Bool (Some false) (lit "prevent_proxy_connections") t;
  proxy_protocol ← field Bool (Some default_proxy_protocol) (lit "proxy_protocol") t;
  proxy_protocol_optional ← field Bool (Some false) (lit "proxy_protocol_optional") t;
  trusted_proxies ← field (Vec Net) (Some []) (lit "trusted_proxies") t;
  session_timeout_secs ← field U64 (Some default_session_timeout) (lit "session_timeout_secs") t;
  resource_pack_url ← field (Opt Str) (Some None) (lit "resource_pack_url") t;
  resource_pack_hash ← field (Opt Str) (Some None) (lit "resource_pack_hash") t;
  resource_pack_required ← field Bool (Some default_resource_pack_required) (lit "resource_pack_required") t;
  resource_pack_prompt ← field (Opt Str) (Some None) (lit "resource_pack_prompt") t;
  cookies_transfers_passthrough ← field Bool (Some false) (lit "cookies_transfers_passthrough") t;
  chat_signing_translation ← field Bool (Some false) (lit "chat_signing_translation") t;
  max_connections_per_ip ← field U32 (Some default_max_conns_per_ip) (lit "max_connections_per_ip") t;
  lobby_server_name ← field Str (Some default_lobby_name) (lit "lobby_server_name") t;
  server_id ← field Str (Some []) (lit "server_id") t;
  eula_accepted ← field Bool (Some false) (lit "eula_accepted") t;
  auth_url ← field Str (Some default_auth_url) (lit "auth_url") t;
  mojang_public_key ← field Str (Some default_public_key) (lit "mojang_public_key") t;
  batch_s2c_writes ← field Bool (Some bool_true) (lit "batch_s2c_writes") t;
  Some (mkProxySection bind online_mode ip_forward compression_threshold max_players prevent_proxy_connections
    proxy_protocol proxy_protocol_optional trusted_proxies session_timeout_secs resource_pack_url resource_pack_hash
    resource_pack_required resource_pack_prompt cookies_transfers_passthrough chat_signing_translation
    max_connections_per_ip lobby_server_name server_id eula_accepted auth_url mojang_public_key batch_s2c_writes)).
Definition ProxySection_ser (c : ProxySection) : option (option Toml) := ser_struct
  [fld Str (lit "bind") (px_bind c); fld Bool (lit "online_mode") (px_online_mode c); fld Bool (lit "ip_forward") (px_ip_forward c);
   fld I32 (lit "compression_threshold") (px_compression_threshold c); fld USize (lit "max_players") (px_max_players c);
   fld Bool (lit "prevent_proxy_connections") (px_prevent_proxy_connections c); fld Bool (lit "proxy_protocol") (px_proxy_protocol c);
   fld Bool (lit "proxy_protocol_optional") (px_proxy_protocol_optional c); fld (Vec Net) (lit "trusted_proxies") (px_trusted_proxies c);
   fld U64 (lit "session_timeout_secs") (px_session_timeout_secs c); fld (Opt Str) (lit "resource_pack_url") (px_resource_pack_url c);
   fld (Opt Str) (lit "resource_pack_hash") (px_resource_pack_hash c); fld Bool (lit "resource_pack_required") (px_resource_pack_required c);
   fld (Opt Str) (lit "resource_pack_prompt") (px_resource_pack_prompt c);
   fld Bool (lit "cookies_transfers_passthrough") (px_cookies_transfers_passthrough c);
   fld Bool (lit "chat_signing_translation") (px_chat_signing_translation c); fld U32 (lit "max_connections_per_ip") (px_max_connections_per_ip c);
   fld Str (lit "lobby_server_name") (px_lobby_server_name c); fld Str (lit "server_id") (px_server_id c);
   fld Bool (lit "eula_accepted") (px_eula_accepted c); fld Str (lit "auth_url") (px_auth_url c);
   fld Str (lit "mojang_public_key") (px_mojang_public_key c); fld Bool (lit "batch_s2c_writes") (px_batch_s2c_writes c)].
Definition ProxySection_default : ProxySection :=
  mkProxySection default_bind default_online_mode default_ip_forward default_compression_threshold default_max_players false
    default_proxy_protocol false [] default_session_timeout None None false None false false default_max_conns_per_ip
    default_lobby_name [] false default_auth_url default_public_key true.
Definition ProxyS : serde ProxySection := Serde ProxySection_ser ProxySection_de.

Inductive TabListMode := GlobalPing | ServerPing | TabHidden.
Definition TabListMode_name (m : TabListMode) : bytes :=
  match m with GlobalPing => lit "GLOBAL_PING" | ServerPing => lit "SERVER_PING" | TabHidden => lit "HIDDEN" end.
Definition TabListModeS : serde TabListMode :=
  Enum [(lit "GLOBAL_PING", GlobalPing); (lit "SERVER_PING", ServerPing); (lit "HIDDEN", TabHidden)] TabListMode_name.

Record ListenersSection := mkListeners { ls_motd : bytes; ls_motd_json : option Json; ls_server_lore : option bytes; ls_tab_list : TabListMode }.
Definition ListenersSection_de : Toml -> option ListenersSection := struct (fun t =>
  motd ← field Str (Some default_motd) (lit "motd") t;
  motd_json ← field (Opt JsonValue) (Some None) (lit "motd_json") t;
  server_lore ← field (Opt Str) (Some None) (lit "server_lore") t;
  tab_list ← field TabListModeS (Some GlobalPing) (lit "tab_list") t;
  Some (mkListeners motd motd_json server_lore tab_list)).
Definition ListenersSection_ser (c : ListenersSection) : option (option Toml) := ser_struct
  [fld Str (lit "motd") (ls_motd c); fld (Opt JsonValue) (lit "motd_json") (ls_motd_json c);
   fld (Opt Str) (lit "server_lore") (ls_server_lore c); fld TabListModeS (lit "tab_list") (ls_tab_list c)].
Definition ListenersSection_default : ListenersSection := mkListeners default_motd None None GlobalPing.
Definition ListenersS : serde ListenersSection := Serde ListenersSection_ser ListenersSection_de.

Definition ForwardingMode_name (m : ForwardingMode) : bytes :=
  match m with FM_None => lit "none" | FM_Bungeecord => lit "bungeecord" | FM_Velocity => lit "velocity" end.
Definition ForwardingModeS : serde ForwardingMode :=
  Enum [(lit "none", FM_None); (lit "bungeecord", FM_Bungeecord); (lit "velocity", FM_Velocity)] ForwardingMode_name.
Definition BackendType_name (m : BackendType) : bytes := match m with Spigot => lit "spigot" | Forge => lit "forge" | Hybrid => lit "hybrid" end.
Definition BackendTypeS : serde BackendType := Enum [(lit "spigot", Spigot); (lit "forge", Forge); (lit "hybrid", Hybrid)] BackendType_name.

Record ForwardingSection := mkForwarding { fw_mode : ForwardingMode; fw_velocity_secret : bytes }.
Definition ForwardingSection_de : Toml -> option ForwardingSection := struct (fun t =>
  mode ← field ForwardingModeS (Some FM_None) (lit "mode") t;
  velocity_secret ← field Str (Some []) (lit "velocity_secret") t;
  Some (mkForwarding mode velocity_secret)).
Definition ForwardingSection_ser (c : ForwardingSection) : option (option Toml) := ser_struct
  [fld ForwardingModeS (lit "mode") (fw_mode c); fld Str (lit "velocity_secret") (fw_velocity_secret c)].
Definition ForwardingSection_default : ForwardingSection := mkForwarding FM_None [].
Definition ForwardingS : serde ForwardingSection := Serde ForwardingSection_ser ForwardingSection_de.

Definition ServerEntry_de : Toml -> option ServerEntry := struct (fun t =>
  name ← field Str None (lit "name") t;
  address ← field Str None (lit "address") t;
  restricted ← field Bool (Some false) (lit "restricted") t;
  forwarding_override ← field (Opt ForwardingModeS) (Some None) (lit "forwarding_override") t;
  max_players ← field (Opt USize) (Some None) (lit "max_players") t;
  display_name ← field (Opt Str) (Some None) (lit "display_name") t;
  motd ← field (Opt Str) (Some None) (lit "motd") t;
  modpack ← field (Opt Str) (Some None) (lit "modpack") t;
  modpack_version ← field (Opt Str) (Some None) (lit "modpack_version") t;
  game_type ← field (Opt Str) (Some None) (lit "game_type") t;
  compression_threshold ← field I32 (Some default_server_compression) (lit "compression_threshold") t;
  cipher_suites ← field Str (Some []) (lit "cipher_suites") t;
  health_probe_interval_secs ← field U64 (Some 0) (lit "health_probe_interval_secs") t;
  health_probe_timeout_secs ← field U64 (Some default_health_probe_timeout) (lit "health_probe_timeout_secs") t;
  health_probe_fail_threshold ← field U32 (Some default_health_probe_threshold) (lit "health_probe_fail_threshold") t;
  region ← field Str (Some []) (lit "region") t;
  backend_type ← field BackendTypeS (Some Spigot) (lit "backend_type") t;
  weight ← field U32 (Some default_server_weight) (lit "weight") t;
  Some (mkServerEntry name max_players display_name motd modpack modpack_version game_type address restricted
    forwarding_override backend_type compression_threshold cipher_suites health_probe_interval_secs
    health_probe_timeout_secs health_probe_fail_threshold region weight)).
Definition ServerEntry_ser (c : ServerEntry) : option (option Toml) := ser_struct
  [fld Str (lit "name") (se_name c); fld Str (lit "address") (se_address c); fld Bool (lit "restricted") (se_restricted c);
   fld (Opt ForwardingModeS) (lit "forwarding_override") (se_forwarding_override c); fld (Opt USize) (lit "max_players") (se_max_players c);
   fld (Opt Str) (lit "display_name") (se_display_name c); fld (Opt Str) (lit "motd") (se_motd c); fld (Opt Str) (lit "modpack") (se_modpack c);
   fld (Opt Str) (lit "modpack_version") (se_modpack_version c); fld (Opt Str) (lit "game_type") (se_game_type c);
   fld I32 (lit "compression_threshold") (se_compression_threshold c); fld Str (lit "cipher_suites") (se_cipher_suites c);
   fld U64 (lit "health_probe_interval_secs") (se_health_probe_interval_secs c);
   fld U64 (lit "health_probe_timeout_secs") (se_health_probe_timeout_secs c);
   fld U32 (lit "health_probe_fail_threshold") (se_health_probe_fail_threshold c); fld Str (lit "region") (se_region c);
   fld BackendTypeS (lit "backend_type") (se_backend_type c); fld U32 (lit "weight") (se_weight c)].
Definition ServerS : serde ServerEntry := Serde ServerEntry_ser ServerEntry_de.

Definition FailoverGroup_de : Toml -> option FailoverGroup := struct (fun t =>
  name ← field Str None (lit "name") t;
  primary ← field Str None (lit "primary") t;
  standbys ← field (Vec Str) None (lit "standbys") t;
  auto_failback ← field Bool (Some default_failback) (lit "auto_failback") t;
  Some (mkFailoverGroup name primary standbys auto_failback)).
Definition FailoverGroup_ser (c : FailoverGroup) : option (option Toml) := ser_struct
  [fld Str (lit "name") (fg_name c); fld Str (lit "primary") (fg_primary c); fld (Vec Str) (lit "standbys") (fg_standbys c);
   fld Bool (lit "auto_failback") (fg_auto_failback c)].
Definition FailoverS : serde FailoverGroup := Serde FailoverGroup_ser FailoverGroup_de.

Definition GroupStrategy_name (m : GroupStrategy) : bytes :=
  match m with LeastConnections => lit "least_connections" | Weighted => lit "weighted" | Latency => lit "latency" end.
Definition GroupStrategyS : serde GroupStrategy :=
  Enum [(lit "least_connections", LeastConnections); (lit "weighted", Weighted); (lit "latency", Latency)] GroupStrategy_name.
Definition ServerGroupConfig_de : Toml -> option ServerGroupConfig := struct (fun t =>
  name ← field Str None (lit "name") t;
  members ← field (Vec Str) None (lit "members") t;
  strategy ← field GroupStrategyS (Some LeastConnections) (lit "strategy") t;
  Some (mkGroup name members strategy)).
Definition ServerGroupConfig_ser (c : ServerGroupConfig) : option (option Toml) := ser_struct
  [fld Str (lit "name") (g_name c); fld (Vec Str) (lit "members") (g_members c); fld GroupStrategyS (lit "strategy") (g_strategy c)].
Definition GroupS : serde ServerGroupConfig := Serde ServerGroupConfig_ser ServerGroupConfig_de.

Record RouteRuleConfig := mkRouteRuleConfig { rc_label : bytes; rc_name_glob : option bytes; rc_client_cidrs : list bytes; rc_target : bytes }.
Definition RouteRuleConfig_de : Toml -> option RouteRuleConfig := struct (fun t =>
  label ← field Str (Some []) (lit "label") t;
  name_glob ← field (Opt Str) (Some None) (lit "name_glob") t;
  client_cidrs ← field (Vec Str) (Some []) (lit "client_cidrs") t;
  target ← field Str None (lit "target") t;
  Some (mkRouteRuleConfig label name_glob client_cidrs target)).
Definition RouteRuleConfig_ser (c : RouteRuleConfig) : option (option Toml) := ser_struct
  [fld Str (lit "label") (rc_label c); fld (Opt Str) (lit "name_glob") (rc_name_glob c);
   fld (Vec Str) (lit "client_cidrs") (rc_client_cidrs c); fld Str (lit "target") (rc_target c)].
Definition RouteRuleS : serde RouteRuleConfig := Serde RouteRuleConfig_ser RouteRuleConfig_de.
Record RoutingConfig := mkRoutingConfig { rt_rules : list RouteRuleConfig }.
Definition RoutingConfig_de : Toml -> option RoutingConfig := struct (fun t =>
  rules ← field (Vec RouteRuleS) (Some []) (lit "rules") t; Some (mkRoutingConfig rules)).
Definition RoutingConfig_ser (c : RoutingConfig) : option (option Toml) := ser_struct [fld (Vec RouteRuleS) (lit "rules") (rt_rules c)].
Definition RoutingConfig_default : RoutingConfig := mkRoutingConfig [].
Definition RoutingS : serde RoutingConfig := Serde RoutingConfig_ser RoutingConfig_de.

Record GeoIpConfig := mkGeoIp { gi_database_path : option bytes }.
Definition GeoIpConfig_de : Toml -> option GeoIpConfig := struct (fun t =>
  database_path ← field (Opt Str) (Some None) (lit "database_path") t; Some (mkGeoIp database_path)).
Definition GeoIpConfig_ser (c : GeoIpConfig) : option (option Toml) := ser_struct [fld (Opt Str) (lit "database_path") (gi_database_path c)].
Definition GeoIpConfig_default : GeoIpConfig := mkGeoIp None.
Definition GeoIpS : serde GeoIpConfig := Serde GeoIpConfig_ser GeoIpConfig_de.

Record IpReputationSection := mkIpReputation {
  ir_blocklist_cidrs : list bytes; ir_provider_url : option bytes; ir_api_key : option bytes; ir_cache_ttl_secs : Z; ir_timeout_ms : Z }.
Definition IpReputationSection_de : Toml -> option IpReputationSection := struct (fun t =>
  blocklist_cidrs ← field (Vec Str) (Some []) (lit "blocklist_cidrs") t;
  provider_url ← field (Opt Str) (Some None) (lit "provider_url") t;
  api_key ← field (Opt Str) (Some None) (lit "api_key") t;
  cache_ttl_secs ← field U64 (Some default_ip_reputation_cache_ttl_secs) (lit "cache_ttl_secs") t;
  timeout_ms ← field U64 (Some default_ip_reputation_timeout_ms) (lit "timeout_ms") t;
  Some (mkIpReputation blocklist_cidrs provider_url api_key cache_ttl_secs timeout_ms)).
Definition IpReputationSection_ser (c : IpReputationSection) : option (option Toml) := ser_struct
  [fld (Vec Str) (lit "blocklist_cidrs") (ir_blocklist_cidrs c); fld (Opt Str) (lit "provider_url") (ir_provider_url c);
   fld (Opt Str) (lit "api_key") (ir_api_key c); fld U64 (lit "cache_ttl_secs") (ir_cache_ttl_secs c); fld U64 (lit "timeout_ms") (ir_timeout_ms c)].
(** Derived: the zero of each type, not the defaults of the fields. *)
Definition IpReputationSection_default : IpReputationSection := mkIpReputation [] None None 0 0.
Definition IpReputationS : serde IpReputationSection := Serde IpReputationSection_ser IpReputationSection_de.

Record MaintenanceConfig := mkMaintenance { mt_enabled : bool; mt_kick_message : bytes; mt_bypass_uuids : list bytes }.
Definition MaintenanceConfig_de : Toml -> option MaintenanceConfig := struct (fun t =>
  enabled ← field Bool (Some false) (lit "enabled") t;
  kick_message ← field Str (Some default_maintenance_kick_message) (lit "kick_message") t;
  bypass_uuids ← field (Vec Str) (Some []) (lit "bypass_uuids") t;
  Some (mkMaintenance enabled kick_message bypass_uuids)).
Definition MaintenanceConfig_ser (c : MaintenanceConfig) : option (option Toml) := ser_struct
  [fld Bool (lit "enabled") (mt_enabled c); fld Str (lit "kick_message") (mt_kick_message c); fld (Vec Str) (lit "bypass_uuids") (mt_bypass_uuids c)].
Definition MaintenanceConfig_default : MaintenanceConfig := mkMaintenance false default_maintenance_kick_message [].
Definition MaintenanceS : serde MaintenanceConfig := Serde MaintenanceConfig_ser MaintenanceConfig_de.

Record QueueConfig := mkQueueConfig { qc_enabled : bool; qc_max_queue_size : Z }.
Definition QueueConfig_de : Toml -> option QueueConfig := struct (fun t =>
  enabled ← field Bool (Some bool_true) (lit "enabled") t;
  max_queue_size ← field USize (Some 0) (lit "max_queue_size") t;
  Some (mkQueueConfig enabled max_queue_size)).
Definition QueueConfig_ser (c : QueueConfig) : option (option Toml) := ser_struct
  [fld Bool (lit "enabled") (qc_enabled c); fld USize (lit "max_queue_size") (qc_max_queue_size c)].
Definition QueueConfig_default : QueueConfig := mkQueueConfig true 0.
Definition QueueS : serde QueueConfig := Serde QueueConfig_ser QueueConfig_de.

Record QueryConfig := mkQueryConfig { qy_enabled : bool; qy_bind : bytes }.
Definition QueryConfig_de : Toml -> option QueryConfig := struct (fun t =>
  enabled ← field Bool (Some false) (lit "enabled") t;
  bind ← field Str (Some default_query_bind) (lit "bind") t;
  Some (mkQueryConfig enabled bind)).
Definition QueryConfig_ser (c : QueryConfig) : option (option Toml) := ser_struct
  [fld Bool (lit "enabled") (qy_enabled c); fld Str (lit "bind") (qy_bind c)].
Definition QueryConfig_default : QueryConfig := mkQueryConfig false default_query_bind.
Definition QueryS : serde QueryConfig := Serde QueryConfig_ser QueryConfig_de.

Record ClusterConfig := mkClusterConfig {
  cl_enabled : bool; cl_node_address : bytes; cl_seed_nodes : list bytes; cl_max_players : Z; cl_load_balancing_strategy : bytes }.
Definition ClusterConfig_de : Toml -> option ClusterConfig := struct (fun t =>
  enabled ← field Bool (Some false) (lit "enabled") t;
  node_address ← field Str (Some []) (lit "node_address") t;
  seed_nodes ← field (Vec Str) (Some []) (lit "seed_nodes") t;
  max_players ← field USize (Some default_max_players) (lit "max_players") t;
  load_balancing_strategy ← field Str (Some []) (lit "load_balancing_strategy") t;
  Some (mkClusterConfig enabled node_address seed_nodes max_players load_balancing_strategy)).
Definition ClusterConfig_ser (c : ClusterConfig) : option (option Toml) := ser_struct
  [fld Bool (lit "enabled") (cl_enabled c); fld Str (lit "node_address") (cl_node_address c); fld (Vec Str) (lit "seed_nodes") (cl_seed_nodes c);
   fld USize (lit "max_players") (cl_max_players c); fld Str (lit "load_balancing_strategy") (cl_load_balancing_strategy c)].
Definition ClusterConfig_default : ClusterConfig := mkClusterConfig false [] [] 0 [].
Definition ClusterS : serde ClusterConfig := Serde ClusterConfig_ser ClusterConfig_de.

Record PluginConfig := mkPluginConfig {
  pc_enabled : bool; pc_plugin_dir : bytes; pc_configs : gmap bytes (gmap bytes bytes); pc_hot_reload : bool; pc_hot_reload_interval_secs : Z }.
Definition PluginConfig_de : Toml -> option PluginConfig := struct (fun t =>
  enabled ← field Bool (Some false) (lit "enabled") t;
  plugin_dir ← field Str (Some []) (lit "plugin_dir") t;
  configs ← field (HashMap (HashMap Str)) (Some ∅) (lit "configs") t;
  hot_reload ← field Bool (Some false) (lit "hot_reload") t;
  hot_reload_interval_secs ← field U64 (Some default_hot_reload_interval) (lit "hot_reload_interval_secs") t;
  Some (mkPluginConfig enabled plugin_dir configs hot_reload hot_reload_interval_secs)).
Definition PluginConfig_ser (c : PluginConfig) : option (option Toml) := ser_struct
  [fld Bool (lit "enabled") (pc_enabled c); fld Str (lit "plugin_dir") (pc_plugin_dir c); fld (HashMap (HashMap Str)) (lit "configs") (pc_configs c);
   fld Bool (lit "hot_reload") (pc_hot_reload c); fld U64 (lit "hot_reload_interval_secs") (pc_hot_reload_interval_secs c)].
Definition PluginConfig_default : PluginConfig := mkPluginConfig false [] ∅ false 0.
Definition PluginS : serde PluginConfig := Serde PluginConfig_ser PluginConfig_de.

Record MetricsConfig := mkMetricsConfig { mc_enabled : bool; mc_bind : bytes; mc_retention_hours : Z }.
Definition MetricsConfig_de : Toml -> option MetricsConfig := struct (fun t =>
  enabled ← field Bool (Some false) (lit "enabled") t;
  bind ← field Str (Some default_metrics_bind) (lit "bind") t;
  retention_hours ← field U64 (Some 0) (lit "retention_hours") t;
  Some (mkMetricsConfig enabled bind retention_hours)).
Definition MetricsConfig_ser (c : MetricsConfig) : option (option Toml) := ser_struct
  [fld Bool (lit "enabled") (mc_enabled c); fld Str (lit "bind") (mc_bind c); fld U64 (lit "retention_hours") (mc_retention_hours c)].
Definition MetricsConfig_default : MetricsConfig := mkMetricsConfig false [] 0.
Definition MetricsS : serde MetricsConfig := Serde MetricsConfig_ser MetricsConfig_de.

Record TelemetryConfig := mkTelemetryConfig { tl_enabled : bool; tl_endpoint : bytes; tl_interval_secs : Z }.
Definition TelemetryConfig_de : Toml -> option TelemetryConfig := struct (fun t =>
  enabled ← field Bool (Some bool_true) (lit "enabled") t;
  endpoint ← field Str (Some default_telemetry_endpoint) (lit "endpoint") t;
  interval_secs ← field U64 (Some default_telemetry_interval) (lit "interval_secs") t;
  Some (mkTelemetryConfig enabled endpoint interval_secs)).
Definition TelemetryConfig_ser (c : TelemetryConfig) : option (option Toml) := ser_struct
  [fld Bool (lit "enabled") (tl_enabled c); fld Str (lit "endpoint") (tl_endpoint c); fld U64 (lit "interval_secs") (tl_interval_secs c)].
Definition TelemetryConfig_default : TelemetryConfig := mkTelemetryConfig true default_telemetry_endpoint default_telemetry_interval.
Definition TelemetryS : serde TelemetryConfig := Serde TelemetryConfig_ser TelemetryConfig_de.

Record ServerManagementConfig := mkManagement { sm_enabled : bool; sm_bind : bytes; sm_auth_token : bytes }.
Definition ServerManagementConfig_de : Toml -> option ServerManagementConfig := struct (fun t =>
  enabled ← field Bool (Some default_management_enabled) (lit "enabled") t;
  bind ← field Str (Some default_management_bind) (lit "bind") t;
  auth_token ← field Str (Some default_management_auth_token) (lit "auth_token") t;
  Some (mkManagement enabled bind auth_token)).
Definition ServerManagementConfig_ser (c : ServerManagementConfig) : option (option Toml) := ser_struct
  [fld Bool (lit "enabled") (sm_enabled c); fld Str (lit "bind") (sm_bind c); fld Str (lit "auth_token") (sm_auth_token c)].
Definition ServerManagementConfig_default : ServerManagementConfig := mkManagement false [] [].
Definition ManagementS : serde ServerManagementConfig := Serde ServerManagementConfig_ser ServerManagementConfig_de.

Record MetricsBackendConfig := mkMetricsBackend { mb_url : bytes; mb_token : bytes }.
Definition MetricsBackendConfig_de : Toml -> option MetricsBackendConfig := struct (fun t =>
  url ← field Str (Some []) (lit "url") t; token ← field Str (Some []) (lit "token") t; Some (mkMetricsBackend url token)).
Definition MetricsBackendConfig_ser (c : MetricsBackendConfig) : option (option Toml) := ser_struct
  [fld Str (lit "url") (mb_url c); fld Str (lit "token") (mb_token c)].
Definition MetricsBackendConfig_default : MetricsBackendConfig := mkMetricsBackend [] [].
Definition MetricsBackendS : serde MetricsBackendConfig := Serde MetricsBackendConfig_ser MetricsBackendConfig_de.

Record GrpcControlPlaneConfig := mkGrpc {
  gc_enabled : bool; gc_bind_address : bytes; gc_port : Z; gc_tls_enabled : bool; gc_tls_cert_path : option bytes;
  gc_tls_key_path : option bytes; gc_auth_enabled : bool; gc_auth_token : option bytes }.
Definition GrpcControlPlaneConfig_de : Toml -> option GrpcControlPlaneConfig := struct (fun t =>
  enabled ← field Bool (Some default_grpc_enabled) (lit "enabled") t;
  bind_address ← field Str (Some default_grpc_bind_address) (lit "bind_address") t;
  port ← field U16 (Some default_grpc_port) (lit "port") t;
  tls_enabled ← field Bool (Some false) (lit "tls_enabled") t;
  tls_cert_path ← field (Opt Str) (Some None) (lit "tls_cert_path") t;
  tls_key_path ← field (Opt Str) (Some None) (lit "tls_key_path") t;
  auth_enabled ← field Bool (Some false) (lit "auth_enabled") t;
  auth_token ← field (Opt Str) (Some None) (lit "auth_token") t;
  Some (mkGrpc enabled bind_address port tls_enabled tls_cert_path tls_key_path auth_enabled auth_token)).
Definition GrpcControlPlaneConfig_ser (c : GrpcControlPlaneConfig) : option (option Toml) := ser_struct
  [fld Bool (lit "enabled") (gc_enabled c); fld Str (lit "bind_address") (gc_bind_address c); fld U16 (lit "port") (gc_port c);
   fld Bool (lit "tls_enabled") (gc_tls_enabled c); fld (Opt Str) (lit "tls_cert_path") (gc_tls_cert_path c);
   fld (Opt Str) (lit "tls_key_path") (gc_tls_key_path c); fld Bool (lit "auth_enabled") (gc_auth_enabled c);
   fld (Opt Str) (lit "auth_token") (gc_auth_token c)].
Definition GrpcControlPlaneConfig_default : GrpcControlPlaneConfig := mkGrpc false default_grpc_bind_address default_grpc_port false None None false None.
Definition GrpcS : serde GrpcControlPlaneConfig := Serde GrpcControlPlaneConfig_ser GrpcControlPlaneConfig_de.

Record ProxyConfig := mkProxyConfig {
  c_proxy : ProxySection; c_listeners : ListenersSection; c_forwarding : ForwardingSection; c_servers : list ServerEntry;
  c_routing : RoutingConfig; c_server_groups : list ServerGroupConfig; c_geoip : GeoIpConfig; c_ip_reputation : IpReputationSection;
  c_maintenance : MaintenanceConfig; c_queue : QueueConfig; c_query : QueryConfig; c_server_management : ServerManagementConfig;
  c_cluster : ClusterConfig; c_plugins : PluginConfig; c_plugin_permissions : gmap bytes (list bytes);
  c_failover_groups : list FailoverGroup; c_metrics : MetricsConfig; c_telemetry : TelemetryConfig;
  c_metrics_backend : MetricsBackendConfig; c_grpc_control_plane : GrpcControlPlaneConfig }.

Definition ProxyConfig_de : Toml -> option ProxyConfig := struct (fun t =>
  proxy ← field ProxyS None (lit "proxy") t;
  listeners ← field ListenersS None (lit "listeners") t;
  forwarding ← field ForwardingS None (lit "forwarding") t;
  servers ← field (Vec ServerS) (Some []) (lit "servers") t;
  routing ← field RoutingS (Some RoutingConfig_default) (lit "routing") t;
  server_groups ← field (Vec GroupS) (Some []) (lit "server_groups") t;
  geoip ← field GeoIpS (Some GeoIpConfig_default) (lit "geoip") t;
  ip_reputation ← field IpReputationS (Some IpReputationSection_default) (lit "ip_reputation") t;
  maintenance ← field MaintenanceS (Some MaintenanceConfig_default) (lit "maintenance") t;
  queue ← field QueueS (Some QueueConfig_default) (lit "queue") t;
  query ← field QueryS (Some QueryConfig_default) (lit "query") t;
  server_management ← field ManagementS (Some ServerManagementConfig_default) (lit "server_management") t;
  cluster ← field ClusterS (Some ClusterConfig_default) (lit "cluster") t;
  plugins ← field PluginS (Some PluginConfig_default) (lit "plugins") t;
  plugin_permissions ← field (HashMap (Vec Str)) (Some ∅) (lit "plugin_permissions") t;
  failover_groups ← field (Vec FailoverS) (Some []) (lit "failover_groups") t;
  metrics ← field MetricsS (Some MetricsConfig_default) (lit "metrics") t;
  telemetry ← field TelemetryS (Some TelemetryConfig_default) (lit "telemetry") t;
  metrics_backend ← field MetricsBackendS (Some MetricsBackendConfig_default) (lit "metrics_backend") t;
  grpc_control_plane ← field GrpcS (Some GrpcControlPlaneConfig_default) (lit "grpc_control_plane") t;
  Some (mkProxyConfig proxy listeners forwarding servers routing server_groups geoip ip_reputation maintenance queue query
    server_management cluster plugins plugin_permissions failover_groups metrics telemetry metrics_backend grpc_control_plane)).
Definition ProxyConfig_ser (c : ProxyConfig) : option (option Toml) := ser_struct
  [fld ProxyS (lit "proxy") (c_proxy c); fld ListenersS (lit "listeners") (c_listeners c); fld ForwardingS (lit "forwarding") (c_forwarding c);
   fld (Vec ServerS) (lit "servers") (c_servers c); fld RoutingS (lit "routing") (c_routing c); fld (Vec GroupS) (lit "server_groups") (c_server_groups c);
   fld GeoIpS (lit "geoip") (c_geoip c); fld IpReputationS (lit "ip_reputation") (c_ip_reputation c);
   fld MaintenanceS (lit "maintenance") (c_maintenance c); fld QueueS (lit "queue") (c_queue c); fld QueryS (lit "query") (c_query c);
   fld ManagementS (lit "server_management") (c_server_management c); fld ClusterS (lit "cluster") (c_cluster c);
   fld PluginS (lit "plugins") (c_plugins c); fld (HashMap (Vec Str)) (lit "plugin_permissions") (c_plugin_permissions c);
   fld (Vec FailoverS) (lit "failover_groups") (c_failover_groups c); fld MetricsS (lit "metrics") (c_metrics c);
   fld TelemetryS (lit "telemetry") (c_telemetry c); fld MetricsBackendS (lit "metrics_backend") (c_metrics_backend c);
   fld GrpcS (lit "grpc_control_plane") (c_grpc_control_plane c)].
Definition ConfigS : serde ProxyConfig := Serde ProxyConfig_ser ProxyConfig_de.

End Sections.
(** ** Values of the types

    [ok] says which values the type has.  A type is lawful when everything read is
    such a value, when what is written for a value is read back as it, and when only
    an [Option] leaves anything out. *)
Class Lawful {A} (s : serde A) (ok : A -> Prop) := {
  de_ok v a : de s v = Some a -> ok a;
  ser_de a v : ok a -> ser s a = Some (Some v) -> de s v = Some a }.
Class Present {A} (s : serde A) := present a : ser s a <> Some None.

Definition any {A} (_ : A) : Prop := True.
Definition within (lo hi n : Z) : Prop := lo <= n <= hi.
Definition opt_ok {A} (ok : A -> Prop) (o : option A) : Prop := match o with Some a => ok a | None => True end.
Definition map_ok {A} (ok : A -> Prop) (m : gmap bytes A) : Prop := map_Forall (fun _ => ok) m.

#[export] Instance Str_lawful : Lawful Str any.
Proof. split; [done|]. cbn; intros a v _ [= <-]; done. Qed.
#[export] Instance Bool_lawful : Lawful Bool any.
Proof. split; [done|]. cbn; intros a v _ [= <-]; done. Qed.
#[export] Instance Int_lawful lo hi : Lawful (Int lo hi) (within lo hi).
Proof.
  split.
  - intros [| n | | | | |] a; cbn; try done. destruct ((lo <=? n) && (n <=? hi)) eqn:E; [|done].
    apply andb_true_iff in E as [E1%Z.leb_le E2%Z.leb_le]. intros [= <-]. by split.
  - unfold within; cbn. intros a v H. destruct (a <=? _); [|done]. intros [= <-]. cbn.
    by rewrite (proj2 (Z.leb_le lo a)), (proj2 (Z.leb_le a hi)) by lia.
Qed.
#[export] Instance I32_lawful : Lawful I32 (within (- 2 ^ 31) (2 ^ 31 - 1)) := Int_lawful _ _.
#[export] Instance U16_lawful : Lawful U16 (within 0 (2 ^ 16 - 1)) := Int_lawful _ _.
#[export] Instance U32_lawful : Lawful U32 (within 0 (2 ^ 32 - 1)) := Int_lawful _ _.
#[export] Instance U64_lawful : Lawful U64 (within 0 (2 ^ 64 - 1)) := Int_lawful _ _.
#[export] Instance USize_lawful : Lawful USize (within 0 (2 ^ 64 - 1)) := Int_lawful _ _.
Lemma Opt_lawful {A} (s : serde A) ok : Lawful s ok -> Lawful (Opt s) (opt_ok ok).
Proof.
  intros L; split.
  - intros v o; cbn. destruct (de s v) as [a|] eqn:E; [|done]. intros [= <-]. exact (de_ok v a E).
  - intros [a|] v; cbn; [|done]. intros H E. by rewrite (ser_de a v H E).
Qed.
#[export] Existing Instance Opt_lawful.

Lemma mapM_ok {A B} (f : A -> option B) (ok : B -> Prop) l l' :
  (forall a b, f a = Some b -> ok b) -> mapM f l = Some l' -> Forall ok l'.
Proof. intros H E. apply mapM_Some in E. induction E; constructor; eauto. Qed.
Lemma mapM_back {A B} (f : A -> option B) (g : B -> option A) (ok : A -> Prop) l l' :
  (forall a b, ok a -> f a = Some b -> g b = Some a) -> Forall ok l -> mapM f l = Some l' -> mapM g l' = Some l.
Proof.
  intros H F E. apply mapM_Some in E. apply mapM_Some.
  induction E; inversion F; subst; constructor; eauto.
Qed.
Lemma ser_elem_de {A} (s : serde A) ok a v : Lawful s ok -> ok a -> ser_elem s a = Some v -> de s v = Some a.
Proof.
  intros L H. unfold ser_elem. destruct (ser s a) as [[v'|]|] eqn:E; cbn; try done. intros [= <-]. by apply ser_de.
Qed.
Lemma Vec_lawful {A} (s : serde A) ok : Lawful s ok -> Lawful (Vec s) (Forall ok).
Proof.
  intros L; split.
  - intros [| | | | | l |] l'; cbn; try done. apply mapM_ok. intros a b. apply de_ok.
  - intros l v F; cbn. destruct (mapM (ser_elem s) l) as [l'|] eqn:E; [|done]. intros [= <-]. cbn.
    revert E. apply mapM_back with ok; [|done]. intros a b Ha Hs. exact (ser_elem_de s ok a b L Ha Hs).
Qed.
#[export] Existing Instance Vec_lawful.
Lemma HashMap_lawful {A} (s : serde A) ok : Lawful s ok -> Lawful (HashMap s) (map_ok ok).
Proof.
  intros L; split.
  - intros [| | | | | | t] m; cbn; try done.
    destruct (mapM _ t) as [l|] eqn:E; [|done]. intros [= <-]. intros k a Ha.
    apply elem_of_list_to_map_2 in Ha.
    assert (F : Forall (fun kv => ok kv.2) l).
    { revert E. apply mapM_ok. intros [k' v] [k2 b]; cbn. destruct (de s v) eqn:Ev; [|done]. intros [= <- <-]. exact (de_ok _ _ Ev). }
    rewrite Forall_forall in F. exact (F _ Ha).
  - intros m v H; cbn. destruct (mapM _ (map_to_list m)) as [t|] eqn:E; [|done]. intros [= <-]. cbn.
    assert (B : mapM (fun kv => pair kv.1 <$> de s kv.2) t = Some (map_to_list m)).
    { revert E. apply mapM_back with (fun kv => ok kv.2).
      - intros [k a] [k' b]; cbn; intros Ha. destruct (ser_elem s a) eqn:Es; [|done]. intros [= <- <-]; cbn.
        by rewrite (ser_elem_de s ok a _ L Ha Es).
      - apply Forall_forall; intros [k a] Ha; cbn. apply elem_of_map_to_list in Ha. exact (H _ _ Ha). }
    rewrite B. cbn. by rewrite list_to_map_to_list.
Qed.
#[export] Existing Instance HashMap_lawful.
Lemma Enum_lawful {A} (names : list (bytes * A)) name :
  (forall a, get (name a) names = Some a) -> Lawful (Enum names name) any.
Proof. intros H; split; [done|]. cbn. intros a v _ [= <-]. apply H. Qed.
#[export] Instance TabListMode_lawful : Lawful TabListModeS any.
Proof. apply Enum_lawful; intros []; by vm_compute. Qed.
#[export] Instance ForwardingMode_lawful : Lawful ForwardingModeS any.
Proof. apply Enum_lawful; intros []; by vm_compute. Qed.
#[export] Instance BackendType_lawful : Lawful BackendTypeS any.
Proof. apply Enum_lawful; intros []; by vm_compute. Qed.
#[export] Instance GroupStrategy_lawful : Lawful GroupStrategyS any.
Proof. apply Enum_lawful; intros []; by vm_compute. Qed.

#[export] Instance Str_present : Present Str. Proof. done. Qed.
#[export] Instance Bool_present : Present Bool. Proof. done. Qed.
#[export] Instance Int_present lo hi : Present (Int lo hi).
Proof. intros a; cbn. by destruct (a <=? _). Qed.
#[export] Instance I32_present : Present I32 := Int_present _ _.
#[export] Instance U16_present : Present U16 := Int_present _ _.
#[export] Instance U32_present : Present U32 := Int_present _ _.
#[export] Instance U64_present : Present U64 := Int_present _ _.
#[export] Instance USize_present : Present USize := Int_present _ _.
#[export] Instance Enum_present {A} (names : list (bytes * A)) name : Present (Enum names name). Proof. done. Qed.
#[export] Instance Vec_present {A} (s : serde A) : Present (Vec s).
Proof. intros a; cbn. by destruct (mapM _ a). Qed.
#[export] Instance HashMap_present {A} (s : serde A) : Present (HashMap s).
Proof. intros a; cbn. by destruct (mapM _ _). Qed.
Lemma ser_struct_present fs : ser_struct fs <> Some None.
Proof. unfold ser_struct. by destruct (ser_fields fs). Qed.

(** What stands in a table, and reading it field by field. *)
Lemma get_absent {A} k (t : list (bytes * A)) : k ∉ map fst t -> get k t = None.
Proof.
  induction t as [|[k' v] t IH]; [done|]. cbn. intros [H1 H2]%not_elem_of_cons. by rewrite bool_decide_eq_false_2, IH.
Qed.
Lemma ser_fields_keys fs t k : ser_fields fs = Some t -> k ∈ map fst t -> k ∈ map fst fs.
Proof.
  revert t. induction fs as [|[k' r] fs IH]; intros t; cbn; [intros [= <-]; done|].
  destruct r as [r|]; cbn; [|done]. destruct (ser_fields fs) as [t'|]; cbn; [|done].
  intros [= <-] H. destruct r as [v|]; cbn in H.
  - apply elem_of_cons in H as [->|H]; [left|right; eauto].
  - right; eauto.
Qed.
Lemma ser_fields_get fs t k r :
  ser_fields fs = Some t -> NoDup (map fst fs) -> (k, r) ∈ fs -> exists r', r = Some r' /\ get k t = r'.
Proof.
  revert t. induction fs as [|[k' r'] fs IH]; intros t E ND H; [by apply elem_of_nil in H|].
  cbn in E, ND. apply NoDup_cons in ND as [N ND].
  destruct r' as [r'|]; cbn in E; [|done]. destruct (ser_fields fs) as [t'|] eqn:E'; cbn in E; [|done].
  injection E as <-. apply elem_of_cons in H as [[= -> ->]|H].
  - exists r'. split; [done|]. destruct r' as [v|]; cbn; [by rewrite bool_decide_true|].
    apply get_absent. intros K. apply N. by eapply ser_fields_keys.
  - destruct (IH t' eq_refl ND H) as [r2 [-> <-]]. exists (get k t'). split; [done|].
    destruct r' as [v|]; [|done]. cbn. rewrite bool_decide_eq_false_2; [done|].
    intros ->. apply N. change k' with (k', Some (get k' t')).1. by apply (list_elem_of_fmap_2 fst).
Qed.

Lemma field_read {A} (s : serde A) ok dflt k a fs t :
  ser_fields fs = Some t -> NoDup (map fst fs) -> fld s k a ∈ fs -> Lawful s ok -> ok a ->
  (ser s a = Some None -> dflt = Some a) -> field s dflt k t = Some a.
Proof.
  intros E ND H L Ha Hd. destruct (ser_fields_get fs t k (ser s a) E ND H) as [r [Hr G]].
  unfold field. rewrite G. destruct r as [v|]; [by apply ser_de | by apply Hd].
Qed.
Lemma field_ok {A} (s : serde A) ok (L : Lawful s ok) dflt k t a :
  opt_ok ok dflt -> field s dflt k t = Some a -> ok a.
Proof. unfold field. intros H. destruct (get k t) as [v|]; [apply de_ok|]. intros ->. exact H. Qed.
Lemma opt_skipped {A} (s : serde A) (P : Present s) (o : option A) : ser (Opt s) o = Some None -> Some None = Some o.
Proof. destruct o as [a|]; cbn; [|done]. intros E. by destruct (P a). Qed.

Ltac in_list := repeat first [apply list_elem_of_here | apply list_elem_of_further].
Ltac skipped :=
  lazymatch goal with
  | |- ser (Opt _) _ = _ -> _ => simple refine (opt_skipped _ _ _)
  | |- _ => let S := fresh "S" in intros S; exfalso; revert S; simple refine (present _)
  end; [typeclasses eauto ..].

(** ** Each section is lawful *)

Lemma okay_opt {A} (ok : A -> Prop) o : (forall a, ok a) -> opt_ok ok o.
Proof. destruct o; cbn; auto. Qed.
Lemma okay_list {A} (ok : A -> Prop) l : (forall a, ok a) -> Forall ok l.
Proof. intros H. apply Forall_forall; auto. Qed.
Lemma okay_map {A} (ok : A -> Prop) (m : gmap bytes A) : (forall a, ok a) -> map_ok ok m.
Proof. intros H k a _. apply H. Qed.
Ltac okay := intros; first [assumption | exact I | apply okay_opt; okay | apply okay_list; okay | apply okay_map; okay].
Ltac read_fields :=
  repeat match goal with
  | |- context [mbind _ (field ?s ?d ?k ?t)] => let E := fresh "E" in destruct (field s d k t) eqn:E; cbn [mbind option_bind]; [|done]
  end.
Ltac default_ok := cbn [opt_ok]; first [done | unfold within; cbn; vm_compute; split; discriminate | constructor | apply map_Forall_empty].
Ltac conjuncts tac := repeat match goal with |- _ /\ _ => split end; tac.
Ltac field_fact :=
  match goal with E : field ?s ?d ?k ?t = Some ?a |- _ ?a => apply (field_ok s _ _ d k t a); [default_ok | exact E] end.
(** Nothing to show of the fields, or one fact for each field. *)
Ltac section_reads := intros [| | | | | | t] c; try done; cbn [struct]; read_fields; intros [= <-]; conjuncts ltac:(first [okay | field_fact]).
Lemma bind_read {A B} (m : option A) (f : A -> option B) a r : m = Some a -> f a = r -> m ≫= f = r.
Proof. by intros ->. Qed.
Ltac field_written :=
  eapply bind_read; [eapply field_read; [eassumption | eassumption | in_list | typeclasses eauto | okay | first [skipped | done]] | cbv beta].
Ltac section_written :=
  cbn [struct]; repeat field_written.

Tactic Notation "section_law" reference(sd) reference(d) reference(s) reference(ok) :=
  split;
  [ cbn [de sd]; unfold d, ok; section_reads
  | let c := fresh "c" in
    intros c v Hok; unfold ok in Hok; cbn [de ser sd]; unfold s, ser_struct, d;
    match goal with |- context [ser_fields ?fs] =>
      assert (ND : NoDup (map fst fs)) by (cbn [map fst fld]; apply (bool_decide_unpack _); vm_compute; exact I)
    end;
    destruct (ser_fields _) as [t|] eqn:Ht; [|done]; intros [= <-];
    repeat match goal with H : _ /\ _ |- _ => destruct H end; section_written; destruct c; reflexivity ].

(** The sections whose fields are not all of unlimited types. *)
Definition ProxySection_ok {IpNet} (net_ok : IpNet -> Prop) (c : @ProxySection IpNet) : Prop :=
  within (- 2 ^ 31) (2 ^ 31 - 1) (px_compression_threshold c) /\ within 0 (2 ^ 64 - 1) (px_max_players c) /\
  Forall net_ok (px_trusted_proxies c) /\ within 0 (2 ^ 64 - 1) (px_session_timeout_secs c) /\
  within 0 (2 ^ 32 - 1) (px_max_connections_per_ip c).
Definition ListenersSection_ok {Json} (json_ok : Json -> Prop) (c : @ListenersSection Json) : Prop :=
  opt_ok json_ok (ls_motd_json c).
Definition ServerEntry_ok (c : ServerEntry) : Prop :=
  opt_ok (within 0 (2 ^ 64 - 1)) (se_max_players c) /\ within (- 2 ^ 31) (2 ^ 31 - 1) (se_compression_threshold c) /\
  within 0 (2 ^ 64 - 1) (se_health_probe_interval_secs c) /\ within 0 (2 ^ 64 - 1) (se_health_probe_timeout_secs c) /\
  within 0 (2 ^ 32 - 1) (se_health_probe_fail_threshold c) /\ within 0 (2 ^ 32 - 1) (se_weight c).
Definition IpReputationSection_ok (c : IpReputationSection) : Prop :=
  within 0 (2 ^ 64 - 1) (ir_cache_ttl_secs c) /\ within 0 (2 ^ 64 - 1) (ir_timeout_ms c).
Definition QueueConfig_ok (c : QueueConfig) : Prop :=
  within 0 (2 ^ 64 - 1) (qc_max_queue_size c).
Definition ClusterConfig_ok (c : ClusterConfig) : Prop :=
  within 0 (2 ^ 64 - 1) (cl_max_players c).
Definition PluginConfig_ok (c : PluginConfig) : Prop :=
  within 0 (2 ^ 64 - 1) (pc_hot_reload_interval_secs c).
Definition MetricsConfig_ok (c : MetricsConfig) : Prop :=
  within 0 (2 ^ 64 - 1) (mc_retention_hours c).
Definition TelemetryConfig_ok (c : TelemetryConfig) : Prop :=
  within 0 (2 ^ 64 - 1) (tl_interval_secs c).
Definition GrpcControlPlaneConfig_ok (c : GrpcControlPlaneConfig) : Prop :=
  within 0 (2 ^ 16 - 1) (gc_port c).
Definition ProxyConfig_ok {IpNet Json} (net_ok : IpNet -> Prop) (json_ok : Json -> Prop) (c : @ProxyConfig IpNet Json) : Prop :=
  ProxySection_ok net_ok (c_proxy c) /\ ListenersSection_ok json_ok (c_listeners c) /\ Forall ServerEntry_ok (c_servers c) /\
  IpReputationSection_ok (c_ip_reputation c) /\ QueueConfig_ok (c_queue c) /\ ClusterConfig_ok (c_cluster c) /\
  PluginConfig_ok (c_plugins c) /\ MetricsConfig_ok (c_metrics c) /\ TelemetryConfig_ok (c_telemetry c) /\
  GrpcControlPlaneConfig_ok (c_grpc_control_plane c).

Section SectionLaws.
Context {IpNet Json : Type} (Net : serde IpNet) (JsonValue : serde Json) (net_ok : IpNet -> Prop) (json_ok : Json -> Prop).
Context `{!Lawful Net net_ok} `{!Lawful JsonValue json_ok} `{!Present JsonValue}.

#[export] Instance ProxySection_lawful : Lawful (ProxyS Net) (ProxySection_ok net_ok).
Proof. section_law ProxyS ProxySection_de ProxySection_ser ProxySection_ok. Qed.
#[export] Instance ProxySection_present : Present (ProxyS Net).
Proof. intros c. apply ser_struct_present. Qed.
#[export] Instance ListenersSection_lawful : Lawful (ListenersS JsonValue) (ListenersSection_ok json_ok).
Proof. section_law ListenersS ListenersSection_de ListenersSection_ser ListenersSection_ok. Qed.
#[export] Instance ListenersSection_present : Present (ListenersS JsonValue).
Proof. intros c. apply ser_struct_present. Qed.
#[export] Instance ForwardingSection_lawful : Lawful ForwardingS any.
Proof. section_law ForwardingS ForwardingSection_de ForwardingSection_ser any. Qed.
#[export] Instance ForwardingSection_present : Present ForwardingS.
Proof. intros c. apply ser_struct_present. Qed.
#[export] Instance ServerEntry_lawful : Lawful ServerS ServerEntry_ok.
Proof. section_law ServerS ServerEntry_de ServerEntry_ser ServerEntry_ok. Qed.
#[export] Instance ServerEntry_present : Present ServerS.
Proof. intros c. apply ser_struct_present. Qed.
#[export] Instance FailoverGroup_lawful : Lawful FailoverS any.
Proof. section_law FailoverS FailoverGroup_de FailoverGroup_ser any. Qed.
#[export] Instance FailoverGroup_present : Present FailoverS.
Proof. intros c. apply ser_struct_present. Qed.
#[export] Instance ServerGroupConfig_lawful : Lawful GroupS any.
Proof. section_law GroupS ServerGroupConfig_de ServerGroupConfig_ser any. Qed.
#[export] Instance ServerGroupConfig_present : Present GroupS.
Proof. intros c. apply ser_struct_present. Qed.
#[export] Instance RouteRuleConfig_lawful : Lawful RouteRuleS any.
Proof. section_law RouteRuleS RouteRuleConfig_de RouteRuleConfig_ser any. Qed.
#[export] Instance RouteRuleConfig_present : Present RouteRuleS.
Proof. intros c. apply ser_struct_present. Qed.
#[export] Instance RoutingConfig_lawful : Lawful RoutingS any.
Proof. section_law RoutingS RoutingConfig_de RoutingConfig_ser any. Qed.
#[export] Instance RoutingConfig_present : Present RoutingS.
Proof. intros c. apply ser_struct_present. Qed.
#[export] Instance GeoIpConfig_lawful : Lawful GeoIpS any.
Proof. section_law GeoIpS GeoIpConfig_de GeoIpConfig_ser any. Qed.
#[export] Instance GeoIpConfig_present : Present GeoIpS.
Proof. intros c. apply ser_struct_present. Qed.
#[export] Instance IpReputationSection_lawful : Lawful IpReputationS IpReputationSection_ok.
Proof. section_law IpReputationS IpReputationSection_de IpReputationSection_ser IpReputationSection_ok. Qed.
#[export] Instance IpReputationSection_present : Present IpReputationS.
Proof. intros c. apply ser_struct_present. Qed.
#[export] Instance MaintenanceConfig_lawful : Lawful MaintenanceS any.
Proof. section_law MaintenanceS MaintenanceConfig_de MaintenanceConfig_ser any. Qed.
#[export] Instance MaintenanceConfig_present : Present MaintenanceS.
Proof. intros c. apply ser_struct_present. Qed.
#[export] Instance QueueConfig_lawful : Lawful QueueS QueueConfig_ok.
Proof. section_law QueueS QueueConfig_de QueueConfig_ser QueueConfig_ok. Qed.
#[export] Instance QueueConfig_present : Present QueueS.
Proof. intros c. apply ser_struct_present. Qed.
#[export] Instance QueryConfig_lawful : Lawful QueryS any.
Proof. section_law QueryS QueryConfig_de QueryConfig_ser any. Qed.
#[export] Instance QueryConfig_present : Present QueryS.
Proof. intros c. apply ser_struct_present. Qed.
#[export] Instance ClusterConfig_lawful : Lawful ClusterS ClusterConfig_ok.
Proof. section_law ClusterS ClusterConfig_de ClusterConfig_ser ClusterConfig_ok. Qed.
#[export] Instance ClusterConfig_present : Present ClusterS.
Proof. intros c. apply ser_struct_present. Qed.
#[export] Instance PluginConfig_lawful : Lawful PluginS PluginConfig_ok.
Proof. section_law PluginS PluginConfig_de PluginConfig_ser PluginConfig_ok. Qed.
#[export] Instance PluginConfig_present : Present PluginS.
Proof. intros c. apply ser_struct_present. Qed.
#[export] Instance MetricsConfig_lawful : Lawful MetricsS MetricsConfig_ok.
Proof. section_law MetricsS MetricsConfig_de MetricsConfig_ser MetricsConfig_ok. Qed.
#[export] Instance MetricsConfig_present : Present MetricsS.
Proof. intros c. apply ser_struct_present. Qed.
#[export] Instance TelemetryConfig_lawful : Lawful TelemetryS TelemetryConfig_ok.
Proof. section_law TelemetryS TelemetryConfig_de TelemetryConfig_ser TelemetryConfig_ok. Qed.
#[export] Instance TelemetryConfig_present : Present TelemetryS.
Proof. intros c. apply ser_struct_present. Qed.
#[export] Instance ServerManagementConfig_lawful : Lawful ManagementS any.
Proof. section_law ManagementS ServerManagementConfig_de ServerManagementConfig_ser any. Qed.
#[export] Instance ServerManagementConfig_present : Present ManagementS.
Proof. intros c. apply ser_struct_present. Qed.
#[export] Instance MetricsBackendConfig_lawful : Lawful MetricsBackendS any.
Proof. section_law MetricsBackendS MetricsBackendConfig_de MetricsBackendConfig_ser any. Qed.
#[export] Instance MetricsBackendConfig_present : Present MetricsBackendS.
Proof. intros c. apply ser_struct_present. Qed.
#[export] Instance GrpcControlPlaneConfig_lawful : Lawful GrpcS GrpcControlPlaneConfig_ok.
Proof. section_law GrpcS GrpcControlPlaneConfig_de GrpcControlPlaneConfig_ser GrpcControlPlaneConfig_ok. Qed.
#[export] Instance GrpcControlPlaneConfig_present : Present GrpcS.
Proof. intros c. apply ser_struct_present. Qed.
#[export] Instance ProxyConfig_lawful : Lawful (ConfigS Net JsonValue) (ProxyConfig_ok net_ok json_ok).
Proof. section_law ConfigS ProxyConfig_de ProxyConfig_ser ProxyConfig_ok. Qed.
End SectionLaws.

(** ** Secrets *)

(** The operator [?]. *)
Definition question {E A B} (m : outcome E A) (k : A -> outcome E B) : outcome E B :=
  match m with Ok a => k a | Err e => Err e | Panic => Panic | NoFuel => NoFuel end.

Definition MIN_SECRET_LEN : nat := 16.
Definition FORBIDDEN_SECRETS : list bytes :=
  [lit "changeme"; lit "change-me"; lit "change_me"; lit "change_this_token_in_production"; lit "secret"; lit "default";
   lit "placeholder"; lit "password"; lit "token"; lit "your-secret-token"; lit "your-api-token"].
Definition is_forbidden_secret (value : bytes) : bool :=
  let lowered := to_ascii_lowercase (trim_text value) in
  existsb (fun bad => bool_decide (lowered = bad) || Modloader.contains lowered bad) FORBIDDEN_SECRETS.

Inductive SecretError := SecretEmpty | SecretTooShort | SecretPlaceholder.
Inductive ConfigError :=
  | Unparsable | Unwritable | MissingServerId | BadSecret (name : bytes) (e : SecretError) | GrpcTokenUnset.

Definition validate_secret (name value : bytes) : outcome ConfigError unit :=
  let v := trim_text value in
  if bool_decide (v = []) then Err (BadSecret name SecretEmpty)
  else if (length v <? MIN_SECRET_LEN)%nat then Err (BadSecret name SecretTooShort)
  else if is_forbidden_secret v then Err (BadSecret name SecretPlaceholder)
  else Ok tt.

Section Loading.
Context {IpNet Json : Type} (Net : serde IpNet) (JsonValue : serde Json).
Abbreviation Config := (@ProxyConfig IpNet Json).

(** The two version-4 UUIDs in hexadecimal. *)
Definition generate_secret (first second : bytes) : bytes := first ++ second.

Definition with_auth_token (token : bytes) (c : Config) : Config :=
  mkProxyConfig (c_proxy c) (c_listeners c) (c_forwarding c) (c_servers c) (c_routing c) (c_server_groups c) (c_geoip c)
    (c_ip_reputation c) (c_maintenance c) (c_queue c) (c_query c)
    (mkManagement (sm_enabled (c_server_management c)) (sm_bind (c_server_management c)) token)
    (c_cluster c) (c_plugins c) (c_plugin_permissions c) (c_failover_groups c) (c_metrics c) (c_telemetry c)
    (c_metrics_backend c) (c_grpc_control_plane c).

Definition ensure_secrets (generated : bytes) (c : Config) : Config * bool :=
  let sm := c_server_management c in
  if sm_enabled sm && (bool_decide (trim_text (sm_auth_token sm) = []) || is_forbidden_secret (sm_auth_token sm))
  then (with_auth_token generated c, true) else (c, false).

Definition validate (c : Config) : outcome ConfigError unit :=
  if bool_decide (trim_text (px_server_id (c_proxy c)) = []) then Err MissingServerId
  else
    question (if sm_enabled (c_server_management c)
              then validate_secret (lit "server_management.auth_token") (sm_auth_token (c_server_management c)) else Ok tt) (fun _ =>
    question (match fw_mode (c_forwarding c) with
              | FM_Velocity => validate_secret (lit "forwarding.velocity_secret") (fw_velocity_secret (c_forwarding c))
              | _ => Ok tt
              end) (fun _ =>
    if gc_enabled (c_grpc_control_plane c) && gc_auth_enabled (c_grpc_control_plane c) then
      match gc_auth_token (c_grpc_control_plane c) with
      | Some token => validate_secret (lit "grpc_control_plane.auth_token") token
      | None => Err GrpcTokenUnset
      end
    else Ok tt)).

(** ** The file

    [None] is a file that cannot be read.  [parse] and [print] are the TOML crates,
    [environment] the merge with the variables KOJA_*; [writable] says whether the
    file can be written. *)
Variables (parse : bytes -> option Toml) (print : Toml -> bytes) (environment : Toml -> Toml) (writable : bool).

Definition server_id_of (doc : Toml) : option bytes :=
  match get_item (lit "proxy") doc ≫= get_item (lit "server_id") with
  | Some (TStr s) => if bool_decide (trim_text s = []) then None else Some s
  | _ => None
  end.
(** Indexing an item that is not a table panics. *)
Definition set_server_id (id : bytes) (doc : Toml) : option Toml :=
  match doc with
  | TTab t =>
      match default (TTab []) (get (lit "proxy") t) with
      | TTab p => Some (TTab (insert_item (lit "proxy") (TTab (insert_item (lit "server_id") (TStr id) p)) t))
      | _ => None
      end
  | _ => None
  end.

(** The identity, and the file afterwards. *)
Definition ensure_server_id (new_id : bytes) (file : option bytes) : outcome ConfigError (bytes * option bytes) :=
  match parse (default [] file) with
  | None => Err Unparsable
  | Some doc =>
      match server_id_of doc with
      | Some s => Ok (s, file)
      | None =>
          match set_server_id new_id doc with
          | None => Panic
          | Some doc' => if writable then Ok (new_id, Some (print doc')) else Err Unwritable
          end
      end
  end.

Definition extract (file : option bytes) : option Config := doc ← parse (default [] file); de (ConfigS Net JsonValue) (environment doc).

Definition from_file (new_id : bytes) (file : option bytes) : outcome ConfigError (Config * option bytes) :=
  question (ensure_server_id new_id file) (fun r =>
  match extract r.2 with
  | None => Err Unparsable
  | Some c => question (validate c) (fun _ => Ok (c, r.2))
  end).

(** [save_config] of src/main.rs. *)
Definition save_config (c : Config) : option bytes :=
  match ser (ConfigS Net JsonValue) c with Some (Some v) => if writable then Some (print v) else None | _ => None end.

(** crates/config/default_config.toml *)
Definition DEFAULT_CONFIG : Toml := TTab
  [(lit "proxy", TTab
     [(lit "bind", TStr (lit "0.0.0.0:25565")); (lit "online_mode", TBool true); (lit "compression_threshold", TInt 256);
      (lit "max_players", TInt 1000); (lit "prevent_proxy_connections", TBool false); (lit "session_timeout_secs", TInt 5);
      (lit "batch_s2c_writes", TBool true); (lit "mojang_public_key", TStr default_public_key)]);
   (lit "listeners", TTab [(lit "motd", TStr (lit "KojacoordNetwork")); (lit "tab_list", TStr (lit "GLOBAL_PING"))]);
   (lit "forwarding", TTab [(lit "mode", TStr (lit "none")); (lit "velocity_secret", TStr [])]);
   (lit "geoip", TTab [(lit "database_path", TStr [])]);
   (lit "ip_reputation", TTab
     [(lit "blocklist_cidrs", TArr []); (lit "provider_url", TStr []); (lit "api_key", TStr []);
      (lit "cache_ttl_secs", TInt 3600); (lit "timeout_ms", TInt 300)]);
   (lit "maintenance", TTab
     [(lit "enabled", TBool false);
      (lit "kick_message", TStr (lit "The network is currently down for maintenance. Please check back soon.")); (lit "bypass_uuids", TArr [])]);
   (lit "queue", TTab [(lit "enabled", TBool true); (lit "max_queue_size", TInt 0)]);
   (lit "query", TTab [(lit "enabled", TBool false); (lit "bind", TStr (lit "0.0.0.0:25565"))]);
   (lit "telemetry", TTab [(lit "enabled", TBool true); (lit "endpoint", TStr (lit "https://metric.kojacoord.net")); (lit "interval_secs", TInt 1800)]);
   (lit "servers", TArr
     [TTab [(lit "name", TStr (lit "lobby")); (lit "address", TStr (lit "127.0.0.1:25566")); (lit "restricted", TBool false);
            (lit "display_name", TStr (lit "Lobby")); (lit "motd", TStr (lit "The KojaCraft hub — pick a game to play!"));
            (lit "game_type", TStr (lit "lobby"))];
      TTab [(lit "name", TStr (lit "survival")); (lit "address", TStr (lit "127.0.0.1:25567")); (lit "backend_type", TStr (lit "spigot"));
            (lit "display_name", TStr (lit "Survival")); (lit "motd", TStr (lit "Hardcore survival with custom mechanics"));
            (lit "game_type", TStr (lit "survival")); (lit "modpack", TStr (lit "kojacraft")); (lit "modpack_version", TStr (lit "1.0.0"));
            (lit "max_players", TInt 100)]])].

(** ** Start-up of src/main.rs *)

Inductive StartError := BadConfig (e : ConfigError) | BadDefaults | NotSaved | InputFailed | EulaRefused.

Definition load (new_id generated : bytes) (file : option bytes) : outcome StartError Config * option bytes :=
  match file with
  | Some _ =>
      match from_file new_id file with
      | Ok (c, file') => (Ok c, file')
      | Err e => (Err (BadConfig e), match ensure_server_id new_id file with Ok r => r.2 | _ => file end)
      | Panic => (Panic, file)
      | NoFuel => (NoFuel, file)
      end
  | None =>
      match de (ConfigS Net JsonValue) DEFAULT_CONFIG with
      | None => (Err BadDefaults, None)
      | Some c =>
          let cfg := (ensure_secrets generated c).1 in
          match save_config cfg with
          | None => (Err NotSaved, None)
          | Some text =>
              (match validate cfg with Ok _ => Ok cfg | Err e => Err (BadConfig e) | Panic => Panic | NoFuel => NoFuel end, Some text)
          end
      end
  end.

Definition accept_eula (c : Config) : Config :=
  let p := c_proxy c in
  mkProxyConfig (mkProxySection (px_bind p) (px_online_mode p) (px_ip_forward p) (px_compression_threshold p) (px_max_players p)
      (px_prevent_proxy_connections p) (px_proxy_protocol p) (px_proxy_protocol_optional p) (px_trusted_proxies p)
      (px_session_timeout_secs p) (px_resource_pack_url p) (px_resource_pack_hash p) (px_resource_pack_required p)
      (px_resource_pack_prompt p) (px_cookies_transfers_passthrough p) (px_chat_signing_translation p)
      (px_max_connections_per_ip p) (px_lobby_server_name p) (px_server_id p) true (px_auth_url p)
      (px_mojang_public_key p) (px_batch_s2c_writes p))
    (c_listeners c) (c_forwarding c) (c_servers c) (c_routing c) (c_server_groups c) (c_geoip c) (c_ip_reputation c)
    (c_maintenance c) (c_queue c) (c_query c) (c_server_management c) (c_cluster c) (c_plugins c) (c_plugin_permissions c)
    (c_failover_groups c) (c_metrics c) (c_telemetry c) (c_metrics_backend c) (c_grpc_control_plane c).

(** No letter outside ASCII is lowered to one of the two words. *)
Definition agrees (input : bytes) : bool :=
  let input := to_ascii_lowercase (trim_text input) in bool_decide (input = lit "yes") || bool_decide (input = lit "y").

(** The configuration the proxy runs with, and the file afterwards; [input] is the
    line typed, when one could be read. *)
Definition start (new_id generated : bytes) (input : option bytes) (file : option bytes) : outcome StartError Config * option bytes :=
  match load new_id generated file with
  | (Ok c, file') =>
      if px_eula_accepted (c_proxy c) then (Ok c, file')
      else match input with
           | None => (Err InputFailed, file')
           | Some line =>
               if agrees line then
                 match save_config (accept_eula c) with
                 | Some text => (Ok (accept_eula c), Some text)
                 | None => (Err NotSaved, file')
                 end
               else (Err EulaRefused, file')
           end
  | r => r
  end.
End Loading.

(** ** What is shown *)

(** A secret that is accepted: sixteen bytes or more between the spaces around it,
    and none of the placeholders anywhere in it, in any capitals. *)
Definition strong (value : bytes) : Prop :=
  (16 <= length (trim_text value))%nat /\
  forall bad, bad ∈ FORBIDDEN_SECRETS ->
    ~ exists before after, to_ascii_lowercase (trim_text (trim_text value)) = before ++ bad ++ after.

Lemma forbidden_spec value :
  is_forbidden_secret value = true <->
  exists bad before after, bad ∈ FORBIDDEN_SECRETS /\ to_ascii_lowercase (trim_text value) = before ++ bad ++ after.
Proof.
  unfold is_forbidden_secret. rewrite existsb_exists. split.
  - intros (bad & H & E). apply orb_true_iff in E as [E|E].
    + exists bad, [], []. split; [by apply list_elem_of_In|]. apply bool_decide_eq_true in E. by rewrite E, app_nil_r.
    + apply Modloader.contains_spec in E as (x & r & E). exists bad, x, r. by rewrite list_elem_of_In.
  - intros (bad & x & r & H & E). exists bad. split; [by apply list_elem_of_In|].
    apply orb_true_iff; right. apply Modloader.contains_spec. eauto.
Qed.

Lemma validate_secret_spec name value : validate_secret name value = Ok tt <-> strong value.
Proof.
  unfold validate_secret, strong, MIN_SECRET_LEN.
  destruct (bool_decide_reflect (trim_text value = [])) as [E|E].
  { rewrite E. split; [done|]. cbn. intros [H _]. lia. }
  destruct (length (trim_text value) <? 16)%nat eqn:L; [apply Nat.ltb_lt in L; split; [done|intros [H _]; lia]|].
  apply Nat.ltb_ge in L. destruct (is_forbidden_secret (trim_text value)) eqn:F.
  - apply forbidden_spec in F as (bad & x & r & H & F). split; [done|]. intros [_ N]. destruct (N bad H). eauto.
  - split; [|done]. intros _. split; [done|]. intros bad H (x & r & N).
    apply not_true_iff_false in F. apply F. apply forbidden_spec. eauto.
Qed.

Lemma question_ok {E A B} (m : outcome E A) (k : A -> outcome E B) b : question m k = Ok b <-> exists a, m = Ok a /\ k a = Ok b.
Proof. destruct m; cbn; split; try done; [eauto | by intros (? & [= ->] & ?) | intros (? & ? & ?); done ..]. Qed.

(** The proxy starts exactly on the configurations whose identity is set and whose
    secrets in use are strong: the token of the management server when it is enabled,
    the secret shared with the backends when the forwarding mode is velocity, and the
    token of the gRPC control plane when it is enabled and asks for one. *)
Theorem secrets_in_use_strong {IpNet Json} (c : @ProxyConfig IpNet Json) :
  validate c = Ok tt <->
  trim_text (px_server_id (c_proxy c)) <> [] /\
  (sm_enabled (c_server_management c) = true -> strong (sm_auth_token (c_server_management c))) /\
  (fw_mode (c_forwarding c) = FM_Velocity -> strong (fw_velocity_secret (c_forwarding c))) /\
  (gc_enabled (c_grpc_control_plane c) = true -> gc_auth_enabled (c_grpc_control_plane c) = true ->
   exists token, gc_auth_token (c_grpc_control_plane c) = Some token /\ strong token).
Proof.
  assert (If : forall b n s, (if b : bool then validate_secret n s else Ok tt) = Ok tt <-> (b = true -> strong s)).
  { intros [] n s; [rewrite validate_secret_spec|]; naive_solver. }
  unfold validate. case_bool_decide as B; [naive_solver|].
  rewrite question_ok. setoid_rewrite question_ok.
  assert (V : match fw_mode (c_forwarding c) with
              | FM_Velocity => validate_secret (lit "forwarding.velocity_secret") (fw_velocity_secret (c_forwarding c)) | _ => Ok tt end = Ok tt
              <-> (fw_mode (c_forwarding c) = FM_Velocity -> strong (fw_velocity_secret (c_forwarding c)))).
  { destruct (fw_mode _); [naive_solver..|]. rewrite validate_secret_spec. naive_solver. }
  assert (G : (if gc_enabled (c_grpc_control_plane c) && gc_auth_enabled (c_grpc_control_plane c) then
                 match gc_auth_token (c_grpc_control_plane c) with
                 | Some token => validate_secret (lit "grpc_control_plane.auth_token") token | None => Err GrpcTokenUnset end
               else Ok tt) = Ok tt <->
              (gc_enabled (c_grpc_control_plane c) = true -> gc_auth_enabled (c_grpc_control_plane c) = true ->
               exists token, gc_auth_token (c_grpc_control_plane c) = Some token /\ strong token)).
  { destruct (gc_enabled _), (gc_auth_enabled _); cbn [andb]; [|naive_solver..].
    destruct (gc_auth_token _) as [t|]; [rewrite validate_secret_spec|]; naive_solver. }
  rewrite <- If, <- V, <- G. split.
  - intros ([] & H1 & [] & H2 & H3). eauto.
  - intros (_ & H1 & H2 & H3). exists tt. split; [exact H1|]. exists tt. eauto.
Qed.

Section Files.
Context {IpNet Json : Type} (Net : serde IpNet) (JsonValue : serde Json) (net_ok : IpNet -> Prop) (json_ok : Json -> Prop).
Context `{!Lawful Net net_ok} `{!Lawful JsonValue json_ok} `{!Present JsonValue}.
Variables (parse : bytes -> option Toml) (print : Toml -> bytes).

Lemma extract_ok (environment : Toml -> Toml) file c :
  extract Net JsonValue parse environment file = Some c -> ProxyConfig_ok net_ok json_ok c.
Proof.
  unfold extract. destruct (parse _) as [doc|]; cbn [mbind option_bind]; [|done]. apply (de_ok (s := ConfigS Net JsonValue)).
Qed.
Lemma saved_reloads c writable text :
  (forall v, ser (ConfigS Net JsonValue) c = Some (Some v) -> parse (print v) = Some v) ->
  ProxyConfig_ok net_ok json_ok c -> save_config Net JsonValue print writable c = Some text ->
  extract Net JsonValue parse id (Some text) = Some c.
Proof.
  intros P H. unfold save_config, extract. destruct (ser (ConfigS Net JsonValue) c) as [[v|]|] eqn:S; try done.
  destruct writable; [|done]. intros [= <-]. cbn [from_option]. unfold id at 2. rewrite (P v eq_refl). exact (ser_de c v H S).
Qed.


(** A configuration that is saved is loaded again as it was, every section, map and
    optional key of it, when the document that is printed is parsed as itself and the
    environment adds nothing. *)
Theorem saved_config_reloads (c : @ProxyConfig IpNet Json) writable text :
  (forall v, ser (ConfigS Net JsonValue) c = Some (Some v) -> parse (print v) = Some v) ->
  ProxyConfig_ok net_ok json_ok c -> save_config Net JsonValue print writable c = Some text ->
  extract Net JsonValue parse id (Some text) = Some c.
Proof. apply saved_reloads. Qed.
End Files.

(** A file that names the node, one server and one grant. *)
Definition sample : Toml := TTab
  [(lit "proxy", TTab [(lit "server_id", TStr (lit "n1")); (lit "max_players", TInt 20)]); (lit "listeners", TTab []);
   (lit "forwarding", TTab [(lit "mode", TStr (lit "velocity")); (lit "velocity_secret", TStr (lit "0123456789abcdef"))]);
   (lit "servers", TArr [TTab [(lit "name", TStr (lit "lobby")); (lit "address", TStr (lit "127.0.0.1:1")); (lit "motd", TStr (lit "hi"))]]);
   (lit "plugin_permissions", TTab [(lit "p", TArr [TStr (lit "network")])])].
Definition loaded : option (@ProxyConfig bytes bytes) := extract Str Str (fun _ => Some sample) id None.

Definition saved : Toml := match loaded with Some c => match ser (ConfigS Str Str) c with Some (Some v) => v | _ => TStr [] end | None => TStr [] end.
Lemma saved_config_reloads_witness : exists c : @ProxyConfig bytes bytes,
  loaded = Some c /\ save_config Str Str (fun _ => lit "text") true c = Some (lit "text") /\
  extract Str Str (fun _ => Some saved) id (Some (lit "text")) = Some c.
Proof.
  destruct loaded as [c|] eqn:E; [|vm_compute in E; discriminate].
  exists c. split; [reflexivity|].
  assert (S : save_config Str Str (fun _ => lit "text") true c = Some (lit "text")).
  { assert (M : loaded ≫= save_config Str Str (fun _ => lit "text") true = Some (lit "text")) by (vm_compute; reflexivity).
    rewrite E in M. exact M. }
  split; [exact S|].
  apply (saved_config_reloads Str Str any any (fun _ => Some saved) (fun _ => lit "text") c true (lit "text")).
  - intros v V. unfold saved. rewrite E, V. reflexivity.
  - exact (extract_ok Str Str any any (fun _ => Some sample) id None c E).
  - exact S.
Defined.

Section Identity.
Variables (parse : bytes -> option Toml) (print : Toml -> bytes).

Lemma get_insert k v t : get k (insert_item k v t) = Some v.
Proof.
  induction t as [|[k' v'] t IH]; cbn; [by rewrite bool_decide_true|].
  destruct (bool_decide_reflect (k = k')); cbn; [by rewrite bool_decide_true | by rewrite bool_decide_false].
Qed.
Lemma get_insert_ne k k' v t : k <> k' -> get k (insert_item k' v t) = get k t.
Proof.
  intros N. induction t as [|[k2 v2] t IH]; cbn; [by rewrite bool_decide_false|].
  destruct (bool_decide_reflect (k' = k2)) as [->|]; cbn; [by rewrite bool_decide_false|].
  destruct (bool_decide (k = k2)); [done|exact IH].
Qed.
Lemma server_id_set id doc doc' : trim_text id <> [] -> set_server_id id doc = Some doc' -> server_id_of doc' = Some id.
Proof.
  intros Hid. unfold set_server_id, server_id_of. destruct doc as [| | | | | | t]; try done.
  destruct (default _ _) as [| | | | | | p]; try done. intros [= <-]. cbn [get_item].
  rewrite get_insert. cbn [mbind option_bind get_item]. rewrite get_insert. by rewrite bool_decide_false.
Qed.

(** The identity of the node is stable: once it has been ensured, ensuring it
    again, with whatever fresh identity and even where nothing can be written any
    more, answers the same one and leaves the file as it is. *)
Theorem server_id_stable new_id new_id' writable writable' file id file' :
  (forall doc doc', parse (default [] file) = Some doc -> set_server_id new_id doc = Some doc' -> parse (print doc') = Some doc') ->
  trim_text new_id <> [] ->
  ensure_server_id parse print writable new_id file = Ok (id, file') ->
  trim_text id <> [] /\ ensure_server_id parse print writable' new_id' file' = Ok (id, file').
Proof.
  intros P Hid. unfold ensure_server_id. destruct (parse (default [] file)) as [doc|] eqn:D; [|done]. specialize (fun doc' => P doc doc' eq_refl).
  destruct (server_id_of doc) as [s|] eqn:S.
  - intros [= <- <-]. rewrite D, S. split; [|done]. revert S. unfold server_id_of.
    destruct (_ ≫= _) as [[s'| | | | | |]|]; try done. case_bool_decide; [done|]. by intros [= <-].
  - destruct (set_server_id new_id doc) as [doc'|] eqn:S'; [|done]. destruct writable; [|done].
    intros [= <- <-]. cbn [from_option]. unfold id at 1. rewrite (P doc' eq_refl), (server_id_set _ _ _ Hid S'). done.
Qed.

Lemma set_server_id_frame id doc doc' k : set_server_id id doc = Some doc' -> k <> lit "proxy" -> get_item k doc' = get_item k doc.
Proof.
  unfold set_server_id. destruct doc as [| | | | | | t]; try done. destruct (default _ _); try done. intros [= <-] N. cbn. by apply get_insert_ne.
Qed.
End Identity.

(** ** Start-up *)

Section Startup.
Context {IpNet Json : Type} (Net : serde IpNet) (JsonValue : serde Json) (net_ok : IpNet -> Prop) (json_ok : Json -> Prop).
Context `{!Lawful Net net_ok} `{!Lawful JsonValue json_ok} `{!Present JsonValue}.
Variables (parse : bytes -> option Toml) (print : Toml -> bytes) (environment : Toml -> Toml).

(** The default document can be read and written, enables no management server and
    has no identity. *)
Lemma default_unnamed :
  match de (ConfigS Net JsonValue) DEFAULT_CONFIG with
  | Some c => (match ser (ConfigS Net JsonValue) c with Some (Some _) => true | _ => false end) &&
      negb (sm_enabled (c_server_management c)) && bool_decide (trim_text (px_server_id (c_proxy c)) = [])
  | None => false
  end = true.
Proof. by vm_compute. Qed.

(** Without a configuration file the proxy never comes up: the defaults that are
    written have no identity, which the check that follows refuses; the next start
    finds the file. *)
Lemma first_start_refused new_id generated input writable :
  exists file, start Net JsonValue parse print environment writable new_id generated input None
    = (if writable then Err (BadConfig MissingServerId) else Err NotSaved, file) /\ (writable = true -> file <> None).
Proof.
  pose proof default_unnamed as D. unfold start, load.
  destruct (de (ConfigS Net JsonValue) DEFAULT_CONFIG) as [c|]; [|done].
  apply andb_true_iff in D as [[D1 D2]%andb_true_iff D3]. apply negb_true_iff in D2.
  unfold ensure_secrets, save_config. rewrite D2. cbn [andb fst].
  destruct (ser (ConfigS Net JsonValue) c) as [[v|]|]; try done.
  unfold validate. rewrite D3.
  destruct writable; [|by exists None]. exists (Some (print v)). by split.
Qed.

(** Secrets given in the environment do not stay out of the file: when the
    licence is accepted at a start that loaded a file, the file afterwards, on its
    own, loads to the whole configuration the proxy runs with. *)
Lemma accepted_licence_saves_all new_id generated input file c file' writable :
  (forall v, ser (ConfigS Net JsonValue) c = Some (Some v) -> parse (print v) = Some v) ->
  start Net JsonValue parse print environment writable new_id generated input (Some file) = (Ok c, file') ->
  (exists doc, file' = Some doc /\ extract Net JsonValue parse id (Some doc) = Some c) \/
  (px_eula_accepted (c_proxy c) = true /\ extract Net JsonValue parse environment file' = Some c).
Proof.
  intros P. unfold start, load.
  destruct (from_file Net JsonValue parse print environment writable new_id (Some file)) as [[c0 f0]|e| |] eqn:F; try done.
  assert (E : extract Net JsonValue parse environment f0 = Some c0).
  { unfold from_file in F. apply question_ok in F as [[i f1] [_ F]]. cbn [snd] in F.
    destruct (extract _ _ _ _ f1) as [c1|] eqn:E; [|done]. apply question_ok in F as [u [_ [= <- <-]]]. exact E. }
  destruct (px_eula_accepted (c_proxy c0)) eqn:A; [intros [= <- <-]; right; by split|].
  destruct input as [line|]; [|done]. destruct (agrees line); [|done].
  destruct (save_config Net JsonValue print writable (accept_eula c0)) as [text|] eqn:S; [|done].
  intros [= <- <-]. left. exists text. split; [done|].
  apply (saved_reloads Net JsonValue net_ok json_ok parse print (accept_eula c0) writable text P); [|exact S].
  apply (extract_ok Net JsonValue net_ok json_ok) in E. exact E.
Qed.
End Startup.

(** The sections whose [Default] is derived: a configuration that leaves the whole
    section out differs from one that has the section and leaves its keys out. *)
Lemma absent_section_differs :
  field ClusterS (Some ClusterConfig_default) (lit "cluster") [] <> field ClusterS (Some ClusterConfig_default) (lit "cluster") [(lit "cluster", TTab [])] /\
  field PluginS (Some PluginConfig_default) (lit "plugins") [] <> field PluginS (Some PluginConfig_default) (lit "plugins") [(lit "plugins", TTab [])] /\
  field MetricsS (Some MetricsConfig_default) (lit "metrics") [] <> field MetricsS (Some MetricsConfig_default) (lit "metrics") [(lit "metrics", TTab [])] /\
  field ManagementS (Some ServerManagementConfig_default) (lit "server_management") [] <>
    field ManagementS (Some ServerManagementConfig_default) (lit "server_management") [(lit "server_management", TTab [])] /\
  field IpReputationS (Some IpReputationSection_default) (lit "ip_reputation") [] <>
    field IpReputationS (Some IpReputationSection_default) (lit "ip_reputation") [(lit "ip_reputation", TTab [])].
Proof. repeat apply conj; vm_compute; done. Qed.
Lemma absent_section_agrees {IpNet Json} (Net : serde IpNet) (JsonValue : serde Json) :
  field (ProxyS Net) (Some ProxySection_default) (lit "x") [] = field (ProxyS Net) (Some ProxySection_default) (lit "x") [(lit "x", TTab [])] /\
  field (ListenersS JsonValue) (Some ListenersSection_default) (lit "x") [] = field (ListenersS JsonValue) (Some ListenersSection_default) (lit "x") [(lit "x", TTab [])] /\
  field ForwardingS (Some ForwardingSection_default) (lit "x") [] = field ForwardingS (Some ForwardingSection_default) (lit "x") [(lit "x", TTab [])] /\
  field MaintenanceS (Some MaintenanceConfig_default) (lit "x") [] = field MaintenanceS (Some MaintenanceConfig_default) (lit "x") [(lit "x", TTab [])] /\
  field QueueS (Some QueueConfig_default) (lit "x") [] = field QueueS (Some QueueConfig_default) (lit "x") [(lit "x", TTab [])] /\
  field QueryS (Some QueryConfig_default) (lit "x") [] = field QueryS (Some QueryConfig_default) (lit "x") [(lit "x", TTab [])] /\
  field TelemetryS (Some TelemetryConfig_default) (lit "x") [] = field TelemetryS (Some TelemetryConfig_default) (lit "x") [(lit "x", TTab [])] /\
  field GrpcS (Some GrpcControlPlaneConfig_default) (lit "x") [] = field GrpcS (Some GrpcControlPlaneConfig_default) (lit "x") [(lit "x", TTab [])].
Proof. repeat apply conj; reflexivity. Qed.

(** A random secret is refused when one of the words happens to stand in it. *)
Lemma word_in_secret_refused :
  validate_secret (lit "server_management.auth_token") (lit "kT9x-Token-3fQ81z") = Err (BadSecret (lit "server_management.auth_token") SecretPlaceholder).
Proof. by vm_compute. Qed.
(** A token that is only too short is not replaced, so the check refuses it. *)
Lemma short_token_kept {IpNet Json} (c : @ProxyConfig IpNet Json) generated :
  sm_auth_token (c_server_management c) = lit "abc" -> ensure_secrets generated c = (c, false).
Proof. intros E. unfold ensure_secrets. rewrite E. destruct (sm_enabled _); [|done]. by vm_compute. Qed.
(** [proxy] written as something else than a table stops the start with a panic. *)
Lemma proxy_scalar_panics print writable id : ensure_server_id (fun _ => Some (TTab [(lit "proxy", TInt 1)])) print writable id None = Panic.
Proof. by vm_compute. Qed.
